(* ===== verification/_CoqProject ===== *)
-Q . S2P
Prelude.v
Refs.v
TcpAl.v
AvlTree.v
CkFifo.v
Object.v
Matrix2d.v
Ncb.v
TcpRx.v
Pipe.v
TxFifo.v
TxThreads.v
Udp.v
Links.v
TcpLink.v
TcpModes.v
TcpConn.v
Ifos.v
Cluster.v
Cache.v
CacheDisk.v
View.v
Entries.v
EntryFile.v
Evfs.v
EvfsCalls.v
EvfsLoad.v
EvfsStore.v
EvfsSession.v
EvfsReopen.v
Vfn.v
Base64.v
Md5.v
Naos.v
Sha256.v
SipHash.v
RtlStr.v
EtcReader.v
Des.v
