(* ===== verification/Prelude.v ===== *)
(** * libnax: a verification library for the C sources

    libnax is a C library for network programs: TCP, UDP and pipe links behind object
    handles, served by epoll threads and writer threads, with the containers, hashes,
    string and text routines they need, and add-ons beside it.  This library models
    the parts of it that carry logic of their own and proves what they do.

    ** How C is modelled

    An integer is a [Z] kept in its range; [u8], [u32], [s32], ... are the conversions
    to a width, written where the C code converts or wraps.  A block of memory is the
    list of its bytes; [memread] and [memcpy_at] (below) are [None] outside the block.
    An operation is a function on the state it reads and writes; the option monad
    stands for undefined behaviour (access outside a block, a NULL call, a freed
    block), so a theorem that an operation is [Some] says that it has none.  Errors
    are values: statuses are negative errno numbers as in the sources
    ([posix__makeerror], [NSP_SUCCESS] below, from include/compiler.h).  Code outside
    the sources (system calls, the allocator, user routines) is a parameter; what a
    theorem needs of it is a class ([File], [Fcntl], [Polling], [Network], ...) or a
    hypothesis, and a witness instantiates it.  Between the layers of evfs there are
    interfaces of the same form ([HardDisk], [StoreOk], [DirectHeads], [Reopens]), which
    the layer below implements.

    ** The files

    - this file: integers, memory, statuses, lemmas on lists and options, hints;
    - [Refs]: the shared reference counter with its close callback (src/refs.c);
    - [AvlTree]: the intrusive AVL tree (src/avltree.c);
    - [CkFifo]: the byte ring buffer with free-running counters (src/cfifo.c);
    - [Object]: the table of reference-counted objects behind handles
      (src/posix/wosi/object.c), over [AvlTree];
    - [Matrix2d]: matrices of longs (addons/matrix2d);
    - [TcpAl]: cutting the received stream into packets (src/posix/tcpal.c and the
      parsing loop of src/posix/tcpio.c);
    - [Ncb]: the network control block: guards, send and receive, notifications, the
      descriptor mode (src/posix/ncb.c, include/compiler.h, src/posix/io.c);
    - [TcpRx]: receiving on a TCP link (src/posix/tcpio.c, io.c), over [TcpAl] and [Ncb];
    - [TxFifo]: the sending side of a TCP link, one call after the other
      (src/posix/fifo.c, tcpio.c, tcp.c, wpool.c), over [Ncb];
    - [TxThreads]: the same operations run by interleaved threads: callers of
      [tcp_write], the writer thread, the epoll thread;
    - [Pipe]: messages to the epoll threads (src/posix/pipe.c), over [Ncb];
    - [Udp]: the UDP link: receiving, sending and the calls on it (src/posix/udpio.c, udp.c),
      over the queue and the writer thread of [TxFifo];
    - [Links]: the table of links and what they ask of the system, as state-passing programs
      over a record of system calls (src/posix/ncb.c, io.c), with the rules for invariants of
      the links; [TcpLink]: the life of a TCP link: creating, connecting, listening,
      accepting, closing (src/posix/tcp.c, tcpio.c); [TcpModes]: what a link is at all times;
      [TcpConn]: what the system and the callback see of connections;
    - [Ifos]: the file calls evfs uses (src/posix/wosi/ifos.c);
    - [Cluster]: the disk image of evfs, a file of clusters (addons/evfs/cluster.c), over
      [Ifos];
    - [Cache]: its block cache with the worker that serves requests
      (addons/evfs/cache.c), over [AvlTree] and the interface [HardDisk];
    - [CacheDisk]: [Cluster] as a [HardDisk], and an image from creation to reopening;
    - [View]: the clusters as views, idle or busy (addons/evfs/view.c), over [AvlTree] and
      an interface for the cache, the record [store] with the contract [StoreOk];
    - [Entries]: the entries, chains of clusters with a key and a size
      (addons/evfs/entries.c), written as a state monad with undefined behaviour over
      [View]; [EntryFile]: what an entry holds, and that reading, appending and deleting
      keep to it;
    - [Evfs]: the calls of evfs (addons/evfs/evfs.c): handles of descriptors with an offset,
      tasks for workers, iterators, over [Entries] and an interface to start and stop the
      cache, the record [image]; [EvfsCalls]: stopping, iterating, writing through handles;
    - [EvfsLoad]: what stopping the entries leaves behind and what loading them finds again,
      over an interface for the heads on the disk, [DirectHeads]; [EvfsSession]: sessions
      of calls, over [DirectHeads] and [Reopens]; [EvfsStore]: the real cache as [store] and
      [image]; [EvfsReopen]: the two interfaces for it, and all layers together;
    - [Vfn], [Base64], [Md5], [Des], [Sha256] (src/hash.c), [SipHash] (src/siphash.c);
    - [Naos]: addresses, byte order and hex dump as text (src/naos.c);
    - [RtlStr]: the string routines (src/rtlstr.c);
    - [EtcReader]: reading configuration texts (addons/etc_reader), over [AvlTree] and [Ifos].

    ** What the theorems show

    - Containers and objects: the AVL operations keep balance and order and are the
      operations of the sorted list; the ring buffer is a bounded queue although its
      counters wrap; the object table is a finite map of reference-counted objects,
      an object in use stays where it is, and nothing leaks.  Matrices are added, scaled,
      transposed and multiplied as they should, but a product keeps the columns of its
      left factor only.
    - Links: the parser cuts a stream into its packets however it is split, but for
      large packets whose head is split.  The transmit queue keeps its counter, its
      overflow flag and EPOLLOUT in step, and in every interleaving of callers, writer
      thread and epoll the queued packets are whole and come from calls that reported
      success.  A TCP link with a callback is always in one of five modes, with the handlers
      of that mode, and has its buffers when it is established; all waiting connections
      are accepted and watched, but the loop that accepts does not end when the socket
      no longer listens; connecting with the help of epoll ends in an established or a
      closed link.  No call of [tcp_listen] succeeds.  A message through a pipe is handed over
      once and in order.  What the guards make of sending and receiving is said below.
    - The evfs image: what [evfs_hard_create] makes opens again, growing keeps every
      cluster; through the cache a client sees a plain disk whatever is read, written,
      flushed and replaced, but for clusters whose write-back failed, and after a stop the
      file holds exactly that disk.  A cache that shrinks while it holds clusters is left
      with freed blocks in its index and its dirty list.
    - The evfs entries: the views keep the idle and the busy clusters apart; what is
      appended in chunks to a new entry is read back as their concatenation, up to the
      first chunk that finds the last cluster partly filled and is lost; deleting a closed
      entry frees all its clusters, deleting an open one changes nothing.
      The calls on handles are a finite map from handles to entries and offsets; walking the
      entries shows each once.  All layers together: files written through handles to
      a fresh image, behind a cache of any size, are read back in the same session and in the
      next one ([EvfsReopen.files_outlive_session]); the clusters have 128 to 4096 bytes,
      and the image is large enough, for a call that makes it grow reads freed memory
      ([EvfsStore.expand_reads_freed_task]).  A task without memory leaves a reference that
      evfs_close waits for for ever.
    - Hashes and ciphers: MD5, SHA-256, SipHash, CRC-32 and base64 are equal to
      definitions taken from their standards; DES is inverted by its decryption.
    - Texts and strings: the bounds of the buffers, round trips, the order the
      comparisons define.  A configuration text is read as a reference reader reads it,
      inside its block, unless its first line is blank or lacks a key.

    ** Guards at this commit

    ILLEGAL_PARAMETER_CHECK and ILLEGAL_PARAMETER_STOP (include/compiler.h) leave the
    function when their argument does not hold, while every caller passes the error
    condition.  [Ncb] models them as they are, so [ncb_senddata] and [ncb_recvdata]
    refuse all valid calls and no event is posted ([Ncb.ncb_guards_inverted]).  All that
    is built on them calls these routines as they are, and the theorems say what comes of
    it, whatever sendmsg and recvmsg would do: [tcp_write] never reaches the network
    ([TxFifo.tcp_write_never_sends]); the writer thread sends nothing, and drops, keeps or
    closes by what errno holds ([TxFifo.tcp_writer_outcome], [Udp.udp_writer_outcome]); links
    receive nothing and are closed by the first byte ([TcpRx.tcp_receives_nothing],
    [Udp.udp_receives_nothing]); the callback is not told of connections
    ([TcpConn.tcp_syn_accepts], [TcpConn.tcp_connect2_outcome]).  [TcpAl] is about the
    parser by itself, given bytes; [Pipe] hands messages over to any routine.

    ** Bounds and fuel

    Loops that are not structural take fuel, and the entry points start them with
    enough: [tcp_txn] with the bytes left plus one, since each turn sends at least one
    byte; the writer thread's loop with the queue length plus one, since each round
    that goes on takes a node off the queue; reading and writing files with the byte
    count plus one; reading and writing an entry with the bytes left and seeking in it
    with the offset, since each turn of those loops takes at least one byte off; collecting
    the clusters of an entry on loading with the clusters left over, since each turn takes
    one of them.  The theorems on these entry points say that a result is reached.
    The loops that read or accept until the kernel has no more ([tcp_rx], [udp_rx],
    [tcp_syn]) are given their turns as an argument: one is enough for the first two, that
    refuse at once, and [tcp_syn] says by [None] that it still goes on.

    ** Not modelled

    Creating UDP links and pipes, starting and stopping the epoll and writer threads, thread
    and file wrappers, the logger, the Windows port: sequences of system calls with little logic
    between them.  The calls of evfs run one after the other, without the interleaving of
    its threads; of the cache the hit rate, a float, is left out.  zmalloc.c and addons/redis
    are third-party code of the Redis project.  The C++ wrappers, demos and tests only call the library. *)
From stdpp Require Export base tactics option list numbers gmap sorting.
From Stdlib Require Export ZArith Lia.

#[global] Set Default Goal Selector "!".
#[global] Set Warnings "-clear-no-such-hyp".

Declare Scope c_scope.
Delimit Scope c_scope with C.
#[global] Open Scope Z_scope.

(** ** Machine integers

    C integers are [Z]; [wrap w] is the unsigned conversion to [w] bits and
    [swrap w] the two's-complement one. *)
Definition wrap (w x : Z) : Z := x mod 2 ^ w.
Definition swrap (w x : Z) : Z := (x + 2 ^ (w - 1)) mod 2 ^ w - 2 ^ (w - 1).

Abbreviation u8 := (wrap 8).
Abbreviation u16 := (wrap 16).
Abbreviation u32 := (wrap 32).
Abbreviation u64 := (wrap 64).
Abbreviation s8 := (swrap 8).
Abbreviation s32 := (swrap 32).
Abbreviation s64 := (swrap 64).

Notation "x +u32 y" := (u32 (x + y)) (at level 50, left associativity) : c_scope.
Notation "x -u32 y" := (u32 (x - y)) (at level 50, left associativity) : c_scope.

Lemma wrap_range w x : 0 <= w -> 0 <= wrap w x < 2 ^ w.
Proof. intros Hw. apply Z.mod_pos_bound. lia. Qed.

Lemma wrap_small w x : 0 <= x < 2 ^ w -> wrap w x = x.
Proof. apply Z.mod_small. Qed.

Lemma wrap_wrap w x : 0 <= w -> wrap w (wrap w x) = wrap w x.
Proof. intros Hw. apply Z.mod_mod. lia. Qed.

Lemma swrap_small w x : 0 < w -> - 2 ^ (w - 1) <= x < 2 ^ (w - 1) -> swrap w x = x.
Proof.
  intros Hw Hx. unfold swrap.
  assert (2 ^ w = 2 * 2 ^ (w - 1)) as E
    by (rewrite <- Z.pow_succ_r by lia; f_equal; lia).
  rewrite Z.mod_small; lia.
Qed.

Lemma swrap_range w x : 0 < w -> - 2 ^ (w - 1) <= swrap w x < 2 ^ (w - 1).
Proof.
  intros Hw. unfold swrap.
  assert (2 ^ w = 2 * 2 ^ (w - 1)) as E
    by (rewrite <- Z.pow_succ_r by lia; f_equal; lia).
  pose proof (Z.mod_pos_bound (x + 2 ^ (w - 1)) (2 ^ w)). lia.
Qed.

Lemma wrap_mod_pow2 w k x : 0 <= k <= w -> wrap w x mod 2 ^ k = x mod 2 ^ k.
Proof.
  intros Hk. unfold wrap. apply Z.mod_mod_divide.
  exists (2 ^ (w - k)). rewrite <- Z.pow_add_r by lia. f_equal. lia.
Qed.

Lemma land_mask x k : 0 <= k -> Z.land x (2 ^ k - 1) = x mod 2 ^ k.
Proof. intros Hk. rewrite <- Z.land_ones, Z.ones_equiv by done. f_equal. Qed.

(** A reduction modulo [m] of a number below [2 * m]. *)
Lemma mod_once m x : 0 <= x < 2 * m -> x mod m = if decide (x < m) then x else x - m.
Proof.
  intros Hx. case_decide; [apply Z.mod_small; lia |].
  replace x with (x - m + 1 * m) at 1 by lia. rewrite Z.mod_add by lia. apply Z.mod_small. lia.
Qed.

(** Bits of machine words *)
Lemma wrap_testbit w x i : 0 <= w -> 0 <= i -> Z.testbit (wrap w x) i = (i <? w) && Z.testbit x i.
Proof.
  intros Hw Hi. unfold wrap. destruct (Z.ltb_spec i w).
  - by rewrite Z.mod_pow2_bits_low.
  - by rewrite Z.mod_pow2_bits_high.
Qed.

Lemma wrap_lxor w x y : 0 <= w -> wrap w (Z.lxor x y) = Z.lxor (wrap w x) (wrap w y).
Proof.
  intros Hw. apply Z.bits_inj'. intros i Hi. rewrite Z.lxor_spec, !wrap_testbit by done.
  rewrite Z.lxor_spec. by destruct (i <? w).
Qed.

Lemma wrap_land w x y : 0 <= w -> wrap w (Z.land x y) = Z.land (wrap w x) (wrap w y).
Proof.
  intros Hw. apply Z.bits_inj'. intros i Hi. rewrite Z.land_spec, !wrap_testbit by done.
  rewrite Z.land_spec. by destruct (i <? w).
Qed.

Lemma wrap_lor w x y : 0 <= w -> wrap w (Z.lor x y) = Z.lor (wrap w x) (wrap w y).
Proof.
  intros Hw. apply Z.bits_inj'. intros i Hi. rewrite Z.lor_spec, !wrap_testbit by done.
  rewrite Z.lor_spec. by destruct (i <? w).
Qed.

(** Fields that do not overlap: disjunction is addition. *)
Lemma land_fields k x y : 0 <= k -> 0 <= y < 2 ^ k -> Z.land (x * 2 ^ k) y = 0.
Proof.
  intros Hk Hy. rewrite <- (wrap_small k y Hy), <- Z.shiftl_mul_pow2 by done.
  apply Z.bits_inj'. intros i Hi.
  rewrite Z.bits_0, Z.land_spec, Z.shiftl_spec, wrap_testbit by done.
  destruct (Z.ltb_spec i k); [|by rewrite andb_false_r].
  by rewrite Z.testbit_neg_r by lia.
Qed.

Lemma lor_fields k x y : 0 <= k -> 0 <= y < 2 ^ k -> Z.lor (x * 2 ^ k) y = x * 2 ^ k + y.
Proof.
  intros Hk Hy. pose proof (land_fields k x y Hk Hy) as Hl.
  by rewrite <- Z.lxor_lor, Z.add_nocarry_lxor.
Qed.

(** A single flag of a word. *)
Lemma flag_testbit a k : 0 <= k -> negb (Z.land a (2 ^ k) =? 0) = Z.testbit a k.
Proof.
  intros Hk. destruct (Z.testbit a k) eqn:E.
  - apply negb_true_iff, Z.eqb_neq. intros H.
    assert (Z.testbit (Z.land a (2 ^ k)) k = false) as Hf by (by rewrite H, Z.bits_0).
    by rewrite Z.land_spec, E, Z.pow2_bits_true in Hf by done.
  - apply negb_false_iff, Z.eqb_eq. apply Z.bits_inj'. intros i Hi.
    rewrite Z.land_spec, Z.bits_0, Z.pow2_bits_eqb by done.
    destruct (Z.eqb_spec k i) as [-> | ]; [by rewrite E | by rewrite andb_false_r].
Qed.

Lemma flag_set a k i : 0 <= k -> 0 <= i -> Z.testbit (Z.lor a (2 ^ k)) i = (k =? i) || Z.testbit a i.
Proof. intros Hk Hi. rewrite Z.lor_spec, Z.pow2_bits_eqb by done. apply orb_comm. Qed.

Lemma flag_clear a k i : 0 <= k -> 0 <= i ->
  Z.testbit (Z.land a (Z.lnot (2 ^ k))) i = negb (k =? i) && Z.testbit a i.
Proof. intros Hk Hi. rewrite Z.land_spec, Z.lnot_spec, Z.pow2_bits_eqb by done. apply andb_comm. Qed.

(** A rotation written with shifts. *)
Lemma lor_rotate w x n : 0 <= x < 2 ^ w -> 0 <= n <= w ->
  Z.lor (wrap w (Z.shiftl x n)) (Z.shiftr x (w - n)) = x * 2 ^ n mod 2 ^ w + x / 2 ^ (w - n).
Proof.
  intros Hx Hn. rewrite Z.shiftl_mul_pow2, Z.shiftr_div_pow2 by lia. unfold wrap.
  assert (2 ^ w = 2 ^ (w - n) * 2 ^ n) as E by (rewrite <- Z.pow_add_r by lia; f_equal; lia).
  rewrite E, Z.mul_mod_distr_r by (apply Z.pow_nonzero; lia).
  apply lor_fields; [lia |]. split; [apply Z.div_pos; [lia | apply Z.pow_pos_nonneg; lia] |].
  apply Z.div_lt_upper_bound; [apply Z.pow_pos_nonneg; lia |]. rewrite <- E. lia.
Qed.

Lemma lxor_fields k x y : 0 <= k -> 0 <= y < 2 ^ k -> Z.lxor (x * 2 ^ k) y = x * 2 ^ k + y.
Proof. intros Hk Hy. by rewrite <- Z.add_nocarry_lxor by (by apply land_fields). Qed.

Lemma lxor_range w x y : 0 <= w -> 0 <= x < 2 ^ w -> 0 <= y < 2 ^ w -> 0 <= Z.lxor x y < 2 ^ w.
Proof.
  intros Hw Hx Hy. rewrite <- (wrap_small w x), <- (wrap_small w y), <- wrap_lxor by done.
  by apply wrap_range.
Qed.

Lemma lor_range w x y : 0 <= w -> 0 <= x < 2 ^ w -> 0 <= y < 2 ^ w -> 0 <= Z.lor x y < 2 ^ w.
Proof.
  intros Hw Hx Hy. rewrite <- (wrap_small w x), <- (wrap_small w y), <- wrap_lor by done.
  by apply wrap_range.
Qed.

Lemma lxor_cancel a b : Z.lxor (Z.lxor a b) b = a.
Proof. by rewrite Z.lxor_assoc, Z.lxor_nilpotent, Z.lxor_0_r. Qed.

Lemma lxor_inj_l a b c : Z.lxor a c = Z.lxor b c -> a = b.
Proof. intros E. by rewrite <- (lxor_cancel a c), E, lxor_cancel. Qed.

Lemma lxor_inj_r a b c : Z.lxor c a = Z.lxor c b -> a = b.
Proof. rewrite !(Z.lxor_comm c). apply lxor_inj_l. Qed.

(** [pow2] normalises the closed powers of two that the widths introduce. *)
Ltac pow2 :=
  change (2 ^ (8 - 1)) with 128 in *; change (2 ^ (32 - 1)) with 2147483648 in *;
  change (2 ^ (64 - 1)) with 9223372036854775808 in *;
  change (2 ^ 29) with 536870912 in *;
  change (2 ^ 8) with 256 in *; change (2 ^ 7) with 128 in *;
  change (2 ^ 16) with 65536 in *;
  change (2 ^ 31) with 2147483648 in *; change (2 ^ 32) with 4294967296 in *;
  change (2 ^ 64) with 18446744073709551616 in *;
  change (2 ^ 63) with 9223372036854775808 in *.

(** A number of [n] bytes in memory, the lowest first. *)
Definition le_bytes (n : nat) (x : Z) : list Z := (fun k => x / 2 ^ (8 * Z.of_nat k) mod 256) <$> seq 0 n.
Definition le_value (l : list Z) : Z := foldr (fun b acc => b + 256 * acc) 0 l.

Lemma le_bytes_length n v : length (le_bytes n v) = n.
Proof. unfold le_bytes. by rewrite length_fmap, length_seq. Qed.

Lemma le_bytes_S n v : le_bytes (S n) v = v mod 256 :: le_bytes n (v / 256).
Proof.
  unfold le_bytes. cbn [seq fmap list_fmap]. f_equal; [by rewrite Z.div_1_r |]. rewrite <- fmap_S_seq, <- list_fmap_compose.
  apply list_fmap_ext. intros _ k _. cbn [compose]. rewrite Z.div_div by (try apply Z.pow_pos_nonneg; lia). do 2 f_equal.
  change 256 with (2 ^ 8). rewrite <- Z.pow_add_r by lia. f_equal. lia.
Qed.

Lemma le_value_bytes n : forall v, le_value (le_bytes n v) = v mod 2 ^ (8 * Z.of_nat n).
Proof.
  induction n as [|n IH]; intros v; [by rewrite Z.mod_1_r |]. rewrite le_bytes_S. cbn [le_value foldr]. fold (le_value (le_bytes n (v / 256))).
  rewrite IH. replace (2 ^ (8 * Z.of_nat (S n))) with (256 * 2 ^ (8 * Z.of_nat n)); [by rewrite Z.rem_mul_r by (try apply Z.pow_pos_nonneg; lia) |].
  change 256 with (2 ^ 8). rewrite <- Z.pow_add_r by lia. f_equal. lia.
Qed.

(** ** Status codes (include/compiler.h) *)
Definition NSP_STATUS_SUCCESSFUL : Z := 0.
Definition NSP_STATUS_FATAL : Z := -1.
Definition NSP_SUCCESS (status : Z) : bool := 0 <=? status.
Definition NSP_FAILED_AND_ERROR_EQUAL (status e : Z) : bool :=
  if 0 <=? status then false else s64 (Z.lnot status + 1) =? e.
Definition NSP_SUCCESS_OR_ERROR_EQUAL (status e : Z) : bool :=
  if 0 <=? status then true else s64 (Z.lnot status + 1) =? e.
Definition posix__makeerror (e : Z) : Z := if e <=? 0 then e else Z.lnot e + 1.

(** Error numbers of the target (asm-generic/errno.h). *)
Definition ENOENT : Z := 2.
Definition EAGAIN : Z := 11.
Definition ENOMEM : Z := 12.
Definition EBUSY : Z := 16.
Definition EEXIST : Z := 17.
Definition ENODEV : Z := 19.
Definition EINVAL : Z := 22.
Definition ECONNRESET : Z := 104.

Lemma makeerror_pos e : 0 < e -> posix__makeerror e = - e.
Proof. intros He. unfold posix__makeerror, Z.lnot. rewrite (proj2 (Z.leb_gt _ _)); lia. Qed.

Lemma makeerror_is e x : 0 < e < 4096 -> NSP_FAILED_AND_ERROR_EQUAL (posix__makeerror e) x = (e =? x).
Proof.
  intros He. rewrite makeerror_pos by lia. unfold NSP_FAILED_AND_ERROR_EQUAL. rewrite (proj2 (Z.leb_gt 0 _)) by lia.
  unfold Z.lnot. rewrite swrap_small by (pow2; lia). f_equal. lia.
Qed.

(** ** Memory blocks

    A block is the list of its cells.  Access outside of it is undefined
    behaviour, the [None] of the option monad: a definition that returns
    [Some] has stayed inside its blocks. *)
Section Blocks.
Context {A : Type}.
Implicit Types (buf src : list A) (off n : Z).

Definition zlen (l : list A) : Z := Z.of_nat (length l).

(** memcpy (buf + off, src, zlen src) *)
Definition memcpy_at buf off src : option (list A) :=
  if (0 <=? off) && (off + zlen src <=? zlen buf)
  then Some (take (Z.to_nat off) buf ++ src ++ drop (Z.to_nat off + length src) buf)
  else None.

(** the [n] cells from [buf + off] *)
Definition memread buf off n : option (list A) :=
  if (0 <=? off) && (0 <=? n) && (off + n <=? zlen buf)
  then Some (take (Z.to_nat n) (drop (Z.to_nat off) buf))
  else None.

Lemma zlen_app l1 l2 : zlen (l1 ++ l2) = zlen l1 + zlen l2.
Proof. unfold zlen. rewrite length_app. lia. Qed.
Lemma zlen_nil : zlen [] = 0.
Proof. reflexivity. Qed.
Lemma zlen_cons x l : zlen (x :: l) = 1 + zlen l.
Proof. unfold zlen. cbn [length]. lia. Qed.
Lemma zlen_nonneg l : 0 <= zlen l.
Proof. unfold zlen. lia. Qed.
Lemma zlen_0 l : zlen l = 0 -> l = [].
Proof. unfold zlen. intros H. apply nil_length_inv. lia. Qed.
Lemma zlen_pos l : l <> [] -> 0 < zlen l.
Proof. intros Hl. destruct l; [done | rewrite zlen_cons; pose proof (zlen_nonneg l); lia]. Qed.
Lemma take_zlen l1 l2 : take (Z.to_nat (zlen l1)) (l1 ++ l2) = l1.
Proof. unfold zlen. rewrite Nat2Z.id. apply take_app_length. Qed.
Lemma drop_zlen l1 l2 : drop (Z.to_nat (zlen l1)) (l1 ++ l2) = l2.
Proof. unfold zlen. rewrite Nat2Z.id. apply drop_app_length. Qed.

Lemma filter_none (P : A -> Prop) `{!forall x, Decision (P x)} (l : list A) :
  (forall x, x ∈ l -> ~ P x) -> filter P l = [].
Proof.
  intros Hno. destruct (filter P l) as [|x l'] eqn:E; [done |].
  assert (x ∈ filter P l) as [Hp Hl]%list_elem_of_filter by (rewrite E; constructor).
  by destruct (Hno x Hl).
Qed.

Lemma filter_all (P : A -> Prop) `{!forall x, Decision (P x)} (l : list A) :
  (forall x, x ∈ l -> P x) -> filter P l = l.
Proof.
  induction l as [|x l IH]; intros Hall; [done |].
  rewrite filter_cons_True by (apply Hall; constructor). f_equal. apply IH. intros.
  apply Hall. by constructor.
Qed.

Lemma head_filter_app (P : A -> Prop) `{!forall x, Decision (P x)} (l1 l2 : list A) :
  head (filter P (l1 ++ l2))
  = match head (filter P l1) with Some x => Some x | None => head (filter P l2) end.
Proof. rewrite filter_app. by destruct (filter P l1). Qed.

Lemma split_at_len (l : list A) (k : nat) :
  (k <= length l)%nat -> exists l1 l2, l = l1 ++ l2 /\ length l1 = k.
Proof.
  intros Hk. exists (take k l), (drop k l). rewrite take_drop, length_take. split; [done | lia].
Qed.

Lemma app_split (l1 l2 l3 l4 : list A) :
  l1 ++ l2 = l3 ++ l4 -> zlen l3 <= zlen l1 -> exists m, l1 = l3 ++ m /\ l4 = m ++ l2.
Proof.
  intros E Hl.
  destruct (split_at_len l1 (length l3)) as (l3' & m & -> & Hl3); [unfold zlen in *; lia |].
  rewrite <- app_assoc in E. apply app_inj_1 in E as [<- E]; eauto.
Qed.

(** Copying over the middle segment of a block. *)
Lemma memcpy_at_app pre mid post src :
  length mid = length src ->
  memcpy_at (pre ++ mid ++ post) (zlen pre) src = Some (pre ++ src ++ post).
Proof.
  intros Hl. unfold memcpy_at.
  rewrite (proj2 (Z.leb_le 0 _)) by apply zlen_nonneg.
  rewrite (proj2 (Z.leb_le _ _))
    by (rewrite !zlen_app; pose proof (zlen_nonneg post); unfold zlen in *; lia).
  simpl. rewrite take_zlen. do 3 f_equal.
  unfold zlen. rewrite Nat2Z.id, <- drop_drop, drop_app_length, <- Hl.
  apply drop_app_length.
Qed.

Lemma memcpy_at_len buf off src buf' :
  memcpy_at buf off src = Some buf' -> zlen buf' = zlen buf.
Proof.
  unfold memcpy_at. case_match eqn:E; [|done]. intros [= <-].
  apply andb_true_iff in E as [E1%Z.leb_le E2%Z.leb_le].
  unfold zlen in *. rewrite !length_app, length_take, length_drop. lia.
Qed.

(** Copying [src] right behind a prefix [pre] of the block. *)
Lemma memcpy_at_prefix buf pre src :
  take (length pre) buf = pre -> zlen pre + zlen src <= zlen buf ->
  exists buf', memcpy_at buf (zlen pre) src = Some buf' /\ zlen buf' = zlen buf /\
    take (length (pre ++ src)) buf' = pre ++ src.
Proof.
  intros Hp Hl.
  destruct (split_at_len buf (length pre)) as (pre' & suf & -> & Hpre); [unfold zlen in *; lia |].
  rewrite <- Hpre, take_app_length in Hp. subst pre'. rewrite zlen_app in Hl.
  destruct (split_at_len suf (length src)) as (mid & post & -> & Hmid); [unfold zlen in *; lia |].
  rewrite memcpy_at_app by done. eexists. split; [reflexivity |]. split.
  - rewrite !zlen_app. unfold zlen. lia.
  - rewrite app_assoc. apply take_app_length.
Qed.

Lemma memread_app pre mid post :
  memread (pre ++ mid ++ post) (zlen pre) (zlen mid) = Some mid.
Proof.
  unfold memread.
  rewrite !(proj2 (Z.leb_le 0 _)) by apply zlen_nonneg.
  rewrite (proj2 (Z.leb_le _ _))
    by (rewrite !zlen_app; pose proof (zlen_nonneg post); lia).
  simpl. by rewrite drop_zlen, take_zlen.
Qed.

Lemma memread_prefix buf pre : take (length pre) buf = pre -> memread buf 0 (zlen pre) = Some pre.
Proof.
  intros Hp. rewrite <- (take_drop (length pre) buf), Hp.
  exact (memread_app [] pre _).
Qed.
Lemma memcpy_at_lookup buf src buf' off i :
  memcpy_at buf off src = Some buf' -> 0 <= i ->
  buf' !! Z.to_nat i = if decide (off <= i < off + zlen src) then src !! Z.to_nat (i - off)
                       else buf !! Z.to_nat i.
Proof.
  unfold memcpy_at. case_match eqn:E; [|done]. intros [= <-] Hi.
  apply andb_true_iff in E as [E1%Z.leb_le E2%Z.leb_le]. unfold zlen in *.
  destruct (decide (i < off)).
  { rewrite decide_False by lia. rewrite lookup_app_l by (rewrite length_take; lia).
    by rewrite lookup_take_lt by lia. }
  rewrite lookup_app_r by (rewrite length_take; lia). rewrite length_take, min_l by lia.
  case_decide.
  - rewrite lookup_app_l by lia. f_equal. lia.
  - rewrite lookup_app_r, lookup_drop by lia. f_equal. lia.
Qed.

Lemma memcpy_at_some buf src off :
  0 <= off -> off + zlen src <= zlen buf -> exists buf', memcpy_at buf off src = Some buf'.
Proof.
  intros H1 H2. unfold memcpy_at.
  rewrite (proj2 (Z.leb_le 0 _)), (proj2 (Z.leb_le _ (zlen buf))) by lia. simpl. eauto.
Qed.

Lemma memread_some buf off n :
  0 <= off -> 0 <= n -> off + n <= zlen buf ->
  exists s, memread buf off n = Some s /\ zlen s = n /\
    forall i, 0 <= i < n -> s !! Z.to_nat i = buf !! Z.to_nat (off + i).
Proof.
  intros H1 H2 H3. unfold memread.
  rewrite !(proj2 (Z.leb_le _ _)) by lia. simpl. eexists. split; [done |].
  unfold zlen in *. rewrite length_take, length_drop. split; [lia |].
  intros i Hi. rewrite lookup_take_lt, lookup_drop by lia. f_equal. lia.
Qed.
End Blocks.

Lemma memread_all {A} (l : list A) : memread l 0 (zlen l) = Some l.
Proof. apply memread_prefix. by rewrite take_ge. Qed.

Lemma le_bytes_len n v : zlen (le_bytes n v) = Z.of_nat n.
Proof. unfold zlen. by rewrite le_bytes_length. Qed.
Lemma zlen_replicate {A} n (x : A) : 0 <= n -> zlen (replicate (Z.to_nat n) x) = n.
Proof. intros Hn. unfold zlen. rewrite length_replicate. lia. Qed.

Lemma mapM_fmap {A B} (f : A -> option B) (g : A -> B) l :
  (forall x, x ∈ l -> f x = Some (g x)) -> mapM f l = Some (g <$> l).
Proof.
  induction l as [|x l IH]; intros Hf; [done |]. cbn [mapM fmap list_fmap].
  rewrite (Hf x) by constructor. cbn [mbind option_bind].
  rewrite IH by (intros; apply Hf; by constructor). done.
Qed.

(** ** Finite checks

    A statement over all the values of a small range is a computation. *)
Definition below (n : nat) (P : Z -> bool) : bool := forallb (fun k => P (Z.of_nat k)) (seq 0 n).

Lemma below_spec n P : below n P = true -> forall x, 0 <= x < Z.of_nat n -> P x = true.
Proof.
  unfold below. rewrite forallb_forall. intros Hall x Hx.
  rewrite <- (Z2Nat.id x) by lia. apply Hall, in_seq. lia.
Qed.

Lemma below_spec2 n m P :
  below n (fun x => below m (P x)) = true ->
  forall x y, 0 <= x < Z.of_nat n -> 0 <= y < Z.of_nat m -> P x y = true.
Proof. intros Hall x y Hx Hy. by apply (below_spec _ _ (below_spec _ _ Hall x Hx)). Qed.

(** Bytes *)
Definition byte (x : Z) : Prop := 0 <= x < 256.
Definition bytes (l : list Z) : Prop := Forall byte l.

#[export] Instance byte_dec x : Decision (byte x).
Proof. unfold byte. apply _. Defined.
#[export] Instance bytes_dec l : Decision (bytes l).
Proof. unfold bytes. apply _. Defined.

(** Closed decidable goals. *)
Ltac decided := match goal with |- ?P => apply (bool_decide_unpack P); vm_compute; exact I end.

(** Linear arithmetic with division and remainder by constants. *)
Ltac zdiv := Z.to_euclidean_division_equations; lia.

(** ** C strings: the cells before the first NUL *)
Fixpoint cstring (l : list Z) : list Z :=
  match l with
  | [] => []
  | c :: l => if c =? 0 then [] else c :: cstring l
  end.

Lemma cstring_app l r : Forall (fun c => c <> 0) l -> cstring (l ++ 0 :: r) = l.
Proof.
  induction l as [|c l IH]; intros Hl; [done |]. apply Forall_cons in Hl as [Hc Hl].
  cbn [app cstring]. rewrite (proj2 (Z.eqb_neq _ _)) by done. by rewrite IH.
Qed.

(** ** Programs on a state

    Computations that read and change a state, and may be undefined. *)
Definition partial_state (W A : Type) : Type := W -> option (A * W).
Definition ret {W A} (x : A) : partial_state W A := fun w => Some (x, w).
Definition bind {W A B} (m : partial_state W A) (k : A -> partial_state W B) : partial_state W B :=
  fun w => match m w with Some (x, w) => k x w | None => None end.
Definition stuck {W A} : partial_state W A := fun _ => None.

Declare Scope monad_scope.
Delimit Scope monad_scope with monad.
Notation "x <- m ;; k" := (bind m (fun x => k)) (at level 100, m at next level, right associativity) : monad_scope.
Notation "'let*' p := m 'in' k" := (bind m (fun x => match x with p => k end))
  (at level 100, p pattern, m at level 100, k at level 200) : monad_scope.
Notation "m ;;; k" := (bind m (fun _ => k)) (at level 100, right associativity) : monad_scope.

Lemma bind_some {W A B} (m : partial_state W A) (k : A -> partial_state W B) w x w' : m w = Some (x, w') -> bind m k w = k x w'.
Proof. intros E. unfold bind. by rewrite E. Qed.

Lemma bind_ret {W A B} (x : A) (k : A -> partial_state W B) w : bind (ret x) k w = k x w.
Proof. done. Qed.

Lemma bind_bind {W A B C} (m : partial_state W A) (f : A -> partial_state W B) (g : B -> partial_state W C) w :
  bind (bind m f) g w = bind m (fun x => bind (f x) g) w.
Proof. unfold bind. by destruct (m w) as [[? ?]|]. Qed.

Lemma bind_eq {W A B} (m m' : partial_state W A) (k : A -> partial_state W B) w : m w = m' w -> bind m k w = bind m' k w.
Proof. intros E. unfold bind. by rewrite E. Qed.

(** One step of the program. *)
Ltac run H := rewrite (bind_some _ _ _ _ _ H); cbn beta iota.

(** ** Intrusive lists

    [list_del] of an element that is in the list; of one that is not, the code follows
    pointers into nothing. *)
Section Del.
Context {A : Type} `{EqDecision A}.
Implicit Types (l x : A) (q : list A).

Definition list_del (l : A) (q : list A) : option (list A) :=
  if bool_decide (l ∈ q) then Some (filter (.≠ l) q) else None.

Lemma list_del_elem l q : l ∈ q -> list_del l q = Some (filter (.≠ l) q).
Proof. intros H. unfold list_del. by rewrite bool_decide_true. Qed.

Lemma elem_of_del l x (q : list A) : (x ∈ filter (.≠ l) q) <-> x <> l /\ (x ∈ q).
Proof. by rewrite list_elem_of_filter. Qed.

Lemma NoDup_del l (q : list A) : NoDup q -> NoDup (filter (.≠ l) q).
Proof. apply NoDup_filter. Qed.

Lemma del_perm l (q : list A) : NoDup q -> l ∈ q -> q ≡ₚ filter (.≠ l) q ++ [l].
Proof.
  intros Hnd (q1 & q2 & ->)%list_elem_of_split. apply NoDup_app in Hnd as (H1 & H2 & H3).
  apply NoDup_cons in H3 as [H3 H4]. rewrite filter_app, filter_cons_False by (intros H; by apply H).
  rewrite !filter_all.
  - rewrite <- Permutation_middle. by rewrite <- Permutation_cons_append.
  - intros x Hx ->. done.
  - intros x Hx ->. apply (H2 l Hx). by constructor.
Qed.

Lemma zlen_del l (q : list A) : NoDup q -> l ∈ q -> zlen (filter (.≠ l) q) = zlen q - 1.
Proof.
  intros Hnd Hl. pose proof (Permutation_length (del_perm l q Hnd Hl)) as E. rewrite length_app in E.
  unfold zlen. cbn [length] in E. lia.
Qed.
End Del.
