(* ===== verification/Refs.v ===== *)
(** Reference counts with a close callback: src/refs.c and include/refs.h.

    A [refs] is the struct of include/refs.h; a pointer to one is an
    [option refs] whose [None] is NULL.  The callback is a function pointer of
    an abstract type [F]; what the code does with it is call it, so every
    operation returns the calls it makes, each with the state the callee
    sees. *)
From S2P Require Import Prelude.

(** The three REF_STATUS_* macros. *)
Inductive ref_status := REF_STATUS_NORMAL | REF_STATUS_CLOSEWAIT | REF_STATUS_CLOSED.

#[export] Instance ref_status_eq_dec : EqDecision ref_status.
Proof. solve_decision. Defined.

Section Refs.
Context {F : Type}.

Record refs := Refs { count : Z; status : ref_status; on_closed : option F }.

(** One call of the callback: the function and the struct it is handed. *)
Definition close_call : Type := F * refs.

Definition call_on_closed (r : refs) : list close_call :=
  match on_closed r with Some f => [(f, r)] | None => [] end.

Definition ref_init (ref : option refs) (fp : option F) : option refs :=
  match ref with
  | None => None
  | Some _ => Some (Refs 0 REF_STATUS_NORMAL fp)
  end.

Definition ref_retain (ref : option refs) : Z * option refs :=
  match ref with
  | None => (-1, None)
  | Some r =>
      if decide (status r = REF_STATUS_NORMAL) then
        let r' := Refs (s32 (count r + 1)) (status r) (on_closed r) in
        (count r', Some r')
      else (-1, Some r)
  end.

Definition ref_release (ref : option refs) : Z * option refs * list close_call :=
  match ref with
  | None => (-1, None, [])
  | Some r =>
      if decide (status r = REF_STATUS_CLOSED) then (-1, Some r, [])
      else if count r <=? 0 then (-1, Some r, [])
      else
        let r' := Refs (count r - 1) (status r) (on_closed r) in
        if (count r' =? 0) && bool_decide (status r' = REF_STATUS_CLOSEWAIT)
        then (count r', Some r', call_on_closed r')
        else (count r', Some r', [])
  end.

Definition ref_close (ref : option refs) : option refs * list close_call :=
  match ref with
  | None => (None, [])
  | Some r =>
      if decide (status r = REF_STATUS_NORMAL) then
        if count r =? 0
        then (Some (Refs (count r) REF_STATUS_CLOSED (on_closed r)), call_on_closed r)
        else (Some (Refs (count r) REF_STATUS_CLOSEWAIT (on_closed r)), [])
      else (Some r, [])
  end.

(** ** Runs: a client's sequence of calls on one object *)
Inductive refs_op := Retain | Release | Close.

Definition refs_step (op : refs_op) (ref : option refs) : option refs * list close_call :=
  match op with
  | Retain => ((ref_retain ref).2, [])
  | Release => let '(_, ref', ev) := ref_release ref in (ref', ev)
  | Close => ref_close ref
  end.

Fixpoint refs_run (ops : list refs_op) (ref : option refs) : option refs * list close_call :=
  match ops with
  | [] => (ref, [])
  | op :: ops' =>
      let '(ref1, ev1) := refs_step op ref in
      let '(ref2, ev2) := refs_run ops' ref1 in
      (ref2, ev1 ++ ev2)
  end.

(** The object is past its close: no reference is left and none can come. *)
Definition refs_dead (r : refs) : Prop := status r <> REF_STATUS_NORMAL /\ count r = 0.

#[export] Instance refs_dead_dec r : Decision (refs_dead r).
Proof. unfold refs_dead. apply _. Defined.

(** [n] bounds the references ever taken; a CLOSED object has none. *)
Definition refs_wf (n : Z) (r : refs) : Prop :=
  0 <= count r <= n /\ (status r = REF_STATUS_CLOSED -> count r = 0).

Definition callees (r : refs) : list F := option_list (on_closed r).

Lemma callees_call r : (call_on_closed r).*1 = callees r.
Proof. unfold call_on_closed, callees. by destruct (on_closed r). Qed.

Lemma refs_step_dead op r :
  refs_dead r -> refs_step op (Some r) = (Some r, []).
Proof.
  intros [Hs Hc]. destruct op, r as [c st f]; simpl in *; subst;
    unfold ref_release, ref_close; simpl; by repeat case_decide.
Qed.

(** Closes a branch of [refs_step_live] once the step has computed. *)
Local Ltac live_branch :=
  eexists _, _; split; [reflexivity |]; unfold refs_wf, refs_dead; simpl;
  split_and!; first [done | lia | idtac];
  first [ by rewrite callees_call
        | rewrite decide_False by (intros []; (lia || congruence)); done
        | rewrite decide_True by (split; (lia || congruence)); rewrite callees_call; done ].

Lemma refs_step_live n op r :
  refs_wf n r -> n + 1 < 2 ^ 31 -> ~ refs_dead r ->
  exists r' ev, refs_step op (Some r) = (Some r', ev) /\ refs_wf (n + 1) r' /\
    on_closed r' = on_closed r /\
    ev.*1 = if decide (refs_dead r') then callees r else [].
Proof.
  intros [Hc Hcl] Hn Hd. unfold refs_dead in Hd. destruct r as [c st f]; simpl in *.
  assert (st = REF_STATUS_NORMAL \/ st = REF_STATUS_CLOSEWAIT /\ 0 < c) as Hst.
  { destruct st; [by left | right; split; [done |] | destruct Hd; auto].
    destruct (decide (c = 0)); [destruct Hd; auto | lia]. }
  destruct op; simpl; unfold ref_retain, ref_release, ref_close; simpl.
  - destruct Hst as [-> | [-> Hpos]]; simpl; rewrite ?swrap_small by (pow2; lia);
      live_branch.
  - destruct (Z.leb_spec c 0), Hst as [-> | [-> Hpos]], (Z.eqb_spec (c - 1) 0);
      simpl; try lia; live_branch.
  - destruct Hst as [-> | [-> Hpos]], (Z.eqb_spec c 0);
      subst; simpl; try lia; live_branch.
Qed.

Lemma refs_run_callees ops : forall n r,
  refs_wf n r -> n + Z.of_nat (length ops) < 2 ^ 31 ->
  exists r' ev, refs_run ops (Some r) = (Some r', ev) /\
    on_closed r' = on_closed r /\ (refs_dead r -> r' = r) /\
    ev.*1 = if decide (refs_dead r) then []
            else if decide (refs_dead r') then callees r else [].
Proof.
  induction ops as [|op ops IH]; intros n r Hwf Hn.
  - exists r, []. split_and!; try done. by repeat case_decide.
  - cbn [length] in Hn. destruct (decide (refs_dead r)) as [Hd|Hd].
    + destruct (IH n r Hwf ltac:(lia)) as (r' & ev & Hr & Hf & He & Hev).
      exists r', ev. cbn [refs_run]. rewrite (refs_step_dead _ _ Hd), Hr.
      rewrite decide_True in Hev by done. by split_and!.
    + destruct (refs_step_live n op r Hwf ltac:(lia) Hd) as (r1 & ev1 & Hs & Hwf1 & Hf1 & Hev1).
      destruct (IH (n + 1) r1 Hwf1 ltac:(lia)) as (r' & ev & Hr & Hf & He & Hev).
      exists r', (ev1 ++ ev). cbn [refs_run]. rewrite Hs, Hr.
      split_and!; [done | congruence | done |].
      rewrite fmap_app, Hev1, Hev. unfold callees in *. rewrite Hf1.
      destruct (decide (refs_dead r1)) as [Hd1|Hd1]; [|done].
      rewrite (He Hd1), decide_True by done. apply app_nil_r.
Qed.

(** C30: from a fresh object, whatever the client calls (fewer than 2^31 times),
    the close callback is called at most once, and it has been called exactly
    when the object is closed and its last reference is gone. *)
Theorem ref_close_called_once (ops : list refs_op) (r0 : refs) (f : F) :
  Z.of_nat (length ops) < 2 ^ 31 ->
  exists r ev, refs_run ops (ref_init (Some r0) (Some f)) = (Some r, ev) /\
    ev.*1 = if decide (refs_dead r) then [f] else [].
Proof.
  intros Hn.
  destruct (refs_run_callees ops 0 (Refs 0 REF_STATUS_NORMAL (Some f))) as
    (r & ev & Hr & _ & _ & Hev); [done | lia |].
  exists r, ev. split; [exact Hr |].
  rewrite decide_False in Hev by (intros []; done). exact Hev.
Qed.
End Refs.

Arguments refs F : clear implicits.
Arguments close_call F : clear implicits.

(** Two references, a close in between, both released, then a stray release:
    one call, at the second release. *)
Lemma ref_close_called_once_witness :
  Z.of_nat (length [Retain; Retain; Close; Release; Release; Release]) < 2 ^ 31 /\
  exists r ev,
    refs_run [Retain; Retain; Close; Release; Release; Release]
      (ref_init (Some (Refs 7 REF_STATUS_CLOSED None)) (Some 5%nat)) = (Some r, ev) /\
    ev.*1 = if decide (refs_dead r) then [5%nat] else [].
Proof. split; [vm_compute; reflexivity | apply ref_close_called_once; vm_compute; reflexivity]. Defined.
