(* ===== verification/TcpAl.v ===== *)
(** Stream reassembly of the TCP application layer: src/posix/tcpal.c and the
    parsing loop in [_tcp_rx] of src/posix/tcpio.c.

    A [tcp] holds the fields of [ncb_t] (src/posix/ncb.h) these functions
    touch.  A byte is a [Z]; a pointer argument with its byte count is the list
    of those bytes.  The user's parser, and the allocator, are parameters.

    The theorems are about the bytes the parser is given and the buffers it hands to
    [ncb_post_recvdata]; what the calls on both sides of it do is in [TcpRx]. *)
From S2P Require Import Prelude.

Definition TCP_BUFFER_SIZE : Z := 69632.          (* 0x11000 *)
Definition TCP_MAXIMUM_PACKET_SIZE : Z := 52428800. (* 50 << 20 *)
Definition TCP_MAXIMUM_TEMPLATE_SIZE : Z := 32.
Definition LINKATTR_TCP_FULLY_RECEIVE : Z := 1.

(** [parser_] gets the bytes parsed so far; it returns its status and the user
    data size it stores through its out-parameter. *)
Record tst := Tst {
  parser_ : option (list Z -> Z * Z);
  cb_ : Z;
}.

Record tcp := Tcp {
  rx_parse_offset : Z;
  rx_parse_buffer : list Z;
  lbdata : option (list Z);
  lboffset : Z;
  lbsize : Z;
  template : tst;
  attr : Z;
}.

(** The outcome of a parse step: return value, state, and the buffers handed to
    [ncb_post_recvdata]; [None] is an access outside of a buffer. *)
Definition rx_result : Type := option (Z * tcp * list (list Z)).

Section TcpAl.
(** ztrymalloc: [None] is NULL, otherwise a block of unspecified content. *)
Context (ztrymalloc : Z -> option (list Z)).

Definition ncb_lb_marked (ncb : tcp) : bool :=
  match lbdata ncb with Some _ => 0 <? lbsize ncb | None => false end.

Definition fully_receive (ncb : tcp) : bool :=
  negb (Z.land (attr ncb) LINKATTR_TCP_FULLY_RECEIVE =? 0).

Definition _tcp_parse_marked_lb (ncb : tcp) (cpbuff : list Z) : rx_result :=
  let cpcb := zlen cpbuff in
  lb ← lbdata ncb;
  if cpcb + lboffset ncb <? lbsize ncb then
    lb' ← memcpy_at lb (lboffset ncb) cpbuff;
    Some (0, Tcp (rx_parse_offset ncb) (rx_parse_buffer ncb) (Some lb')
               (lboffset ncb + cpcb) (lbsize ncb) (template ncb) (attr ncb), [])
  else
    let overplus := lbsize ncb - lboffset ncb in
    src ← memread cpbuff 0 overplus;
    lb' ← memcpy_at lb (lboffset ncb) src;
    post ← (if fully_receive ncb then memread lb' 0 (lbsize ncb)
            else memread lb' (cb_ (template ncb)) (lbsize ncb - cb_ (template ncb)));
    Some (cpcb - overplus, Tcp (rx_parse_offset ncb) (rx_parse_buffer ncb) None
               0 0 (template ncb) (attr ncb), [post]).

(** The tail of [tcp_parse_pkt], from the call of the parser (line 84) on:
    [off] bytes of [buf] are parsed, [cpbuff] is what is left of [data]. *)
Definition tcp_parse_body (ncb : tcp) (off : Z) (buf data cpbuff : list Z) : rx_result :=
  let overplus := zlen cpbuff in
  let fail := Some (-1, Tcp off buf (lbdata ncb) (lboffset ncb) (lbsize ncb)
                          (template ncb) (attr ncb), []) in
  match parser_ (template ncb) with
  | None => fail
  | Some parser =>
      head ← memread buf 0 off;
      let '(status, user_data_size) := parser head in
      if negb (NSP_SUCCESS status) then fail
      else if (TCP_MAXIMUM_PACKET_SIZE <? user_data_size) || (user_data_size <=? 0) then fail
      else
        let total_packet_length := user_data_size + cb_ (template ncb) in
        if TCP_BUFFER_SIZE <? total_packet_length then
          match ztrymalloc total_packet_length with
          | None => Some (-1, Tcp off buf None (lboffset ncb) (lbsize ncb)
                                (template ncb) (attr ncb), [])
          | Some lb =>
              lb' ← memcpy_at lb 0 data;
              Some (0, Tcp 0 buf (Some lb') (zlen data) total_packet_length
                         (template ncb) (attr ncb), [])
          end
        else if total_packet_length <=? off + overplus then
          src ← memread cpbuff 0 (total_packet_length - off);
          buf' ← memcpy_at buf off src;
          post ← (if fully_receive ncb
                  then memread buf' 0 (user_data_size + cb_ (template ncb))
                  else memread buf' (cb_ (template ncb)) user_data_size);
          Some (overplus - (total_packet_length - off),
                Tcp 0 buf' (lbdata ncb) (lboffset ncb) (lbsize ncb)
                  (template ncb) (attr ncb), [post])
        else
          buf' ← memcpy_at buf off cpbuff;
          Some (0, Tcp (off + overplus) buf' (lbdata ncb) (lboffset ncb) (lbsize ncb)
                     (template ncb) (attr ncb), [])
  end.

Definition tcp_parse_pkt (ncb : tcp) (data : list Z) : rx_result :=
  let cpcb := zlen data in
  if cpcb =? 0 then Some (-1, ncb, [])
  else if (cb_ (template ncb) =? 0) && negb (bool_decide (is_Some (parser_ (template ncb)))) then
    Some (0, Tcp 0 (rx_parse_buffer ncb) (lbdata ncb) (lboffset ncb) (lbsize ncb)
               (template ncb) (attr ncb), [data])
  else if ncb_lb_marked ncb then _tcp_parse_marked_lb ncb data
  else if rx_parse_offset ncb + cpcb <? cb_ (template ncb) then
    buf' ← memcpy_at (rx_parse_buffer ncb) (rx_parse_offset ncb) data;
    Some (0, Tcp (rx_parse_offset ncb + cpcb) buf' (lbdata ncb) (lboffset ncb) (lbsize ncb)
               (template ncb) (attr ncb), [])
  else if rx_parse_offset ncb <? cb_ (template ncb) then
    let used := cb_ (template ncb) - rx_parse_offset ncb in
    src ← memread data 0 used;
    buf' ← memcpy_at (rx_parse_buffer ncb) (rx_parse_offset ncb) src;
    tcp_parse_body ncb (cb_ (template ncb)) buf' data (drop (Z.to_nat used) data)
  else tcp_parse_body ncb (rx_parse_offset ncb) (rx_parse_buffer ncb) data data.

(** The do-while of [_tcp_rx] over one received buffer.  The fuel bounds the
    rounds; each one consumes at least a byte, so [length data] is enough
    ([rx_loop_synced] below); [None] is out of fuel or out of bounds. *)
Fixpoint rx_loop (fuel : nat) (ncb : tcp) (data : list Z) : rx_result :=
  match fuel with
  | O => None
  | S fuel =>
      '(overplus, ncb', posts) ← tcp_parse_pkt ncb data;
      if overplus <? 0 then Some (NSP_STATUS_FATAL, ncb', posts)
      else if 0 <? overplus then
        '(status, ncb'', posts') ←
          rx_loop fuel ncb' (drop (Z.to_nat (zlen data - overplus)) data);
        Some (status, ncb'', posts ++ posts')
      else Some (NSP_STATUS_SUCCESSFUL, ncb', posts)
  end.

(** The pieces of a stream, each through the loop from where the one before left the link. *)
Fixpoint rx_pieces (ncb : tcp) (pieces : list (list Z)) : rx_result :=
  match pieces with
  | [] => Some (NSP_STATUS_SUCCESSFUL, ncb, [])
  | piece :: pieces =>
      '(status, ncb', posts) ← rx_loop (length piece) ncb piece;
      if NSP_SUCCESS status then
        '(status', ncb'', posts') ← rx_pieces ncb' pieces;
        Some (status', ncb'', posts ++ posts')
      else Some (status, ncb', posts)
  end.

(** ** Framing: a template with a [cb]-byte head that alone decides the size *)
Section Framing.
Context (parser : list Z -> Z * Z) (cb a : Z).
Context (cb_nonneg : 0 <= cb).
Context (parser_head : forall h r, zlen h = cb -> parser (h ++ r) = parser h).

(** A packet that fits the parse buffer: a head, then the body it announces. *)
Definition packet (p : list Z) : Prop :=
  exists h b, p = h ++ b /\ zlen h = cb /\ NSP_SUCCESS (parser h).1 = true /\
    (parser h).2 = zlen b /\ b <> [] /\ zlen p <= TCP_BUFFER_SIZE.

Definition delivered (p : list Z) : list Z :=
  if negb (Z.land a LINKATTR_TCP_FULLY_RECEIVE =? 0) then p else drop (Z.to_nat cb) p.

(** The link is not in a large block and has exactly [r] buffered. *)
Record holds (ncb : tcp) (r : list Z) : Prop := {
  holds_template : template ncb = Tst (Some parser) cb;
  holds_attr : attr ncb = a;
  holds_lb : lbdata ncb = None;
  holds_size : zlen (rx_parse_buffer ncb) = TCP_BUFFER_SIZE;
  holds_offset : rx_parse_offset ncb = zlen r;
  holds_bytes : take (length r) (rx_parse_buffer ncb) = r;
}.

Lemma packet_cb p : packet p -> cb < zlen p <= TCP_BUFFER_SIZE.
Proof.
  intros (h & b & -> & Hh & _ & _ & Hb & Hl). rewrite zlen_app in *.
  pose proof (zlen_pos b Hb). lia.
Qed.

(** Once a whole head is buffered, the parser announces the packet. *)
Lemma packet_parser s q :
  packet (s ++ q) -> cb <= zlen s ->
  NSP_SUCCESS (parser s).1 = true /\ (parser s).2 = zlen (s ++ q) - cb.
Proof.
  intros (h & b & E & Hh & Hst & Hsz & _ & _) Hs.
  destruct (split_at_len s (length h)) as (h' & r & -> & Hh'); [unfold zlen in *; lia |].
  rewrite <- app_assoc in E. apply app_inj_1 in E as [-> E]; [|done].
  rewrite parser_head by done. split; [done |].
  rewrite Hsz, <- E, !zlen_app. lia.
Qed.

(** What is posted from a buffer that starts with the packet. *)
Lemma delivered_read ncb buf p :
  attr ncb = a -> take (length p) buf = p -> cb <= zlen p ->
  (if fully_receive ncb then memread buf 0 (zlen p) else memread buf cb (zlen p - cb))
  = Some (delivered p).
Proof.
  intros Ha Htk Hcb. unfold fully_receive, delivered. rewrite Ha.
  case_match; [by apply memread_prefix |].
  rewrite <- (take_drop (length p) buf), Htk.
  destruct (split_at_len p (Z.to_nat cb)) as (h & b & -> & Hh); [unfold zlen in *; lia |].
  rewrite <- Hh, drop_app_length. replace cb with (zlen h) by (unfold zlen; lia).
  replace (zlen (h ++ b) - zlen h) with (zlen b) by (rewrite zlen_app; lia).
  rewrite <- app_assoc. apply memread_app.
Qed.

Lemma parse_body_spec ncb buf data cpbuff s q :
  template ncb = Tst (Some parser) cb -> attr ncb = a -> lbdata ncb = None ->
  zlen buf = TCP_BUFFER_SIZE -> take (length s) buf = s ->
  packet (s ++ q) -> cb <= zlen s ->
  (forall q2, q = cpbuff ++ q2 -> q2 <> [] ->
     exists ncb', tcp_parse_body ncb (zlen s) buf data cpbuff = Some (0, ncb', []) /\
       holds ncb' (s ++ cpbuff)) /\
  (forall d, cpbuff = q ++ d ->
     exists ncb', tcp_parse_body ncb (zlen s) buf data cpbuff
         = Some (zlen d, ncb', [delivered (s ++ q)]) /\ holds ncb' []).
Proof.
  intros Ht Ha Hlb Hbuf Hs Hp Hcb.
  destruct (packet_parser s q Hp Hcb) as [Hst Hsz].
  pose proof (packet_cb _ Hp) as Hl.
  unfold tcp_parse_body. rewrite Ht. simpl.
  rewrite memread_prefix by done. simpl.
  destruct (parser s) as [st sz] eqn:Eparser; simpl in *. rewrite Hst, Hsz. simpl.
  assert (TCP_BUFFER_SIZE < TCP_MAXIMUM_PACKET_SIZE) by reflexivity.
  rewrite (proj2 (Z.ltb_ge _ _)), (proj2 (Z.leb_gt _ _)) by lia. simpl.
  replace (zlen (s ++ q) - cb + cb) with (zlen (s ++ q)) by lia.
  rewrite (proj2 (Z.ltb_ge _ _)) by lia.
  split.
  - intros q2 -> Hq2. apply zlen_pos in Hq2. rewrite !zlen_app in *.
    rewrite (proj2 (Z.leb_gt _ _)) by lia.
    destruct (memcpy_at_prefix buf s cpbuff) as (buf' & -> & Hl' & Htk); [done | lia |].
    simpl. eexists. split; [reflexivity |]. split; simpl; try done; try congruence.
    by rewrite zlen_app.
  - intros d ->. rewrite (proj2 (Z.leb_le _ _)) by (rewrite !zlen_app; pose proof (zlen_nonneg d); lia).
    replace (zlen (s ++ q) - zlen s) with (zlen q) by (rewrite zlen_app; lia).
    rewrite (memread_app [] q d : memread (q ++ d) 0 (zlen q) = Some q). simpl.
    destruct (memcpy_at_prefix buf s q) as (buf' & -> & Hl' & Htk);
      [done | rewrite <- zlen_app; lia |].
    simpl.
    rewrite delivered_read by (done || lia).
    simpl. eexists. split; [rewrite zlen_app; do 3 f_equal; lia |].
    split; simpl; try done; congruence.
Qed.

(** Filling up the head leads to the parser with [s] buffered and [cpbuff] left. *)
Lemma parse_pkt_to_body ncb r data :
  holds ncb r -> data <> [] -> cb <= zlen r + zlen data -> cb <= TCP_BUFFER_SIZE ->
  exists s cpbuff buf, r ++ data = s ++ cpbuff /\ cb <= zlen s <= Z.max (zlen r) cb /\
    zlen buf = TCP_BUFFER_SIZE /\ take (length s) buf = s /\
    tcp_parse_pkt ncb data = tcp_parse_body ncb (zlen s) buf data cpbuff.
Proof.
  intros [Ht Ha Hlb Hsz Hoff Hb] Hd Hcb HB. apply zlen_pos in Hd.
  unfold tcp_parse_pkt, ncb_lb_marked. rewrite Ht, Hlb, Hoff. simpl.
  rewrite (proj2 (Z.eqb_neq _ _)) by lia.
  rewrite andb_false_r.
  rewrite (proj2 (Z.ltb_ge (zlen r + _) _)) by lia.
  destruct (Z.ltb_spec (zlen r) cb) as [Hr|Hr].
  - destruct (split_at_len data (Z.to_nat (cb - zlen r))) as (d1 & d2 & -> & Hd1);
      [unfold zlen in *; lia |].
    assert (zlen d1 = cb - zlen r) as Hz by (unfold zlen in *; lia).
    rewrite <- Hz, (memread_app [] d1 d2 : memread (d1 ++ d2) 0 (zlen d1) = Some d1). simpl.
    destruct (memcpy_at_prefix (rx_parse_buffer ncb) r d1) as (buf & -> & Hl & Htk); [done | lia |].
    simpl. rewrite drop_zlen. exists (r ++ d1), d2, buf.
    rewrite zlen_app, <- app_assoc. split_and!; try done; try lia.
    f_equal. lia.
  - exists r, data, (rx_parse_buffer ncb). split_and!; try done; lia.
Qed.

Lemma parse_pkt_more ncb r data q :
  holds ncb r -> packet (r ++ data ++ q) -> data <> [] -> q <> [] ->
  exists ncb', tcp_parse_pkt ncb data = Some (0, ncb', []) /\ holds ncb' (r ++ data).
Proof.
  intros Hh Hp Hd Hq. pose proof (packet_cb _ Hp) as Hl.
  destruct (Z.lt_ge_cases (zlen r + zlen data) cb) as [Hlt|Hge].
  - destruct Hh as [Ht Ha Hlb Hsz Hoff Hb].
    unfold tcp_parse_pkt, ncb_lb_marked. rewrite Ht, Hlb, Hoff. simpl.
    apply zlen_pos in Hd. rewrite (proj2 (Z.eqb_neq _ _)) by lia. rewrite andb_false_r.
    rewrite (proj2 (Z.ltb_lt _ _)) by lia.
    destruct (memcpy_at_prefix (rx_parse_buffer ncb) r data) as (buf & -> & Hl' & Htk);
      [done | lia |].
    simpl. eexists. split; [reflexivity |]. split; simpl; try done; try lia.
    by rewrite zlen_app.
  - destruct (parse_pkt_to_body ncb r data Hh Hd) as (s & cp & buf & E & Hs & Hbuf & Htk & ->);
      [lia | lia |].
    rewrite app_assoc, E, <- app_assoc in Hp.
    destruct (parse_body_spec ncb buf data cp s (cp ++ q)) as [Hmore _];
      try apply Hh; try done; try lia.
    rewrite E. by apply (Hmore q).
Qed.

Lemma parse_pkt_done ncb r q d :
  holds ncb r -> packet (r ++ q) -> q <> [] ->
  exists ncb', tcp_parse_pkt ncb (q ++ d) = Some (zlen d, ncb', [delivered (r ++ q)]) /\
    holds ncb' [].
Proof.
  intros Hh Hp Hq. pose proof (packet_cb _ Hp) as Hl. rewrite zlen_app in Hl.
  pose proof (zlen_nonneg d). pose proof (zlen_pos _ Hq).
  destruct (parse_pkt_to_body ncb r (q ++ d) Hh) as (s & cp & buf & E & Hs & Hbuf & Htk & ->);
    [by destruct q | rewrite zlen_app; lia | lia |].
  rewrite app_assoc in E. apply app_split in E as (q' & E & ->); [|rewrite zlen_app; lia].
  rewrite E in Hp |- *.
  destruct (parse_body_spec ncb buf (q ++ d) (q' ++ d) s q') as [_ Hdone];
    try apply Hh; try done; try lia.
  by apply Hdone.
Qed.

(** [rest] is still to come: with the bytes buffered it makes the packets [ps],
    of which the first is not complete yet. *)
Definition synced (ncb : tcp) (ps : list (list Z)) (rest : list Z) : Prop :=
  exists r, holds ncb r /\ mjoin ps = r ++ rest /\
    match ps with [] => r = [] | p :: _ => zlen r < zlen p end.

Lemma synced_start ncb ps : Forall packet ps -> holds ncb [] -> synced ncb ps (mjoin ps).
Proof.
  intros Hps Hh. exists []. split_and!; [done | done |].
  destruct Hps as [|p ps Hp _]; [done |]. apply packet_cb in Hp. rewrite zlen_nil. lia.
Qed.

Lemma rx_loop_synced fuel : forall ncb ps data rest,
  Forall packet ps -> synced ncb ps (data ++ rest) -> data <> [] ->
  (length data <= fuel)%nat ->
  exists ncb' ps1 ps2, rx_loop fuel ncb data = Some (0, ncb', delivered <$> ps1) /\
    ps = ps1 ++ ps2 /\ synced ncb' ps2 rest.
Proof.
  induction fuel as [|fuel IH]; intros ncb ps data rest Hps (r & Hh & E & Hr) Hd Hf.
  { destruct data; [done | simpl in Hf; lia]. }
  destruct ps as [|p ps]; [subst r; by destruct data |].
  apply Forall_cons in Hps as [Hp Hps]. change (mjoin (p :: ps)) with (p ++ mjoin ps) in E.
  apply app_split in E as (q & -> & E); [|lia]. rewrite zlen_app in Hr.
  assert (q <> []) as Hq by (intros ->; rewrite zlen_nil in Hr; lia).
  cbn [rx_loop]. destruct (Z.lt_ge_cases (zlen data) (zlen q)) as [Hlt|Hge].
  - symmetry in E. apply app_split in E as (q2 & -> & ->); [|lia].
    assert (q2 <> []) as Hq2 by (intros ->; rewrite app_nil_r in Hlt; lia).
    destruct (parse_pkt_more ncb r data q2 Hh Hp Hd Hq2) as (ncb' & -> & Hh').
    exists ncb', [], ((r ++ data ++ q2) :: ps). simpl. split_and!; [done | done |].
    exists (r ++ data). split_and!; [done | |].
    + change (mjoin ((r ++ data ++ q2) :: ps)) with ((r ++ data ++ q2) ++ mjoin ps).
      by rewrite <- !app_assoc.
    + apply zlen_pos in Hq2. rewrite !zlen_app. lia.
  - apply app_split in E as (d & -> & E); [|lia].
    destruct (parse_pkt_done ncb r q d Hh Hp Hq) as (ncb' & -> & Hh').
    assert (synced ncb' ps (d ++ rest)) as Hsy.
    { rewrite <- E. by apply synced_start. }
    simpl. rewrite (proj2 (Z.ltb_ge _ 0)) by apply zlen_nonneg.
    destruct (decide (d = [])) as [->|Hd'].
    + exists ncb', [r ++ q], ps. by split_and!.
    + rewrite (proj2 (Z.ltb_lt _ _)) by (by apply zlen_pos).
      replace (zlen (q ++ d) - zlen d) with (zlen q) by (rewrite zlen_app; lia).
      rewrite drop_zlen.
      destruct (IH ncb' ps d rest Hps Hsy Hd') as (ncb'' & ps1 & ps2 & -> & -> & Hsy').
      { rewrite length_app in Hf. destruct q; [done | simpl in Hf; lia]. }
      simpl. exists ncb'', ((r ++ q) :: ps1), ps2. by split_and!.
Qed.


(** ** Large blocks: packets over the parse buffer *)
Definition large_packet (p : list Z) : Prop :=
  exists h b, p = h ++ b /\ zlen h = cb /\ NSP_SUCCESS (parser h).1 = true /\
    (parser h).2 = zlen b /\ TCP_BUFFER_SIZE < zlen p /\ zlen b <= TCP_MAXIMUM_PACKET_SIZE.

(** A block of [n] bytes is being filled and starts with [r]. *)
Record in_block (ncb : tcp) (n : Z) (r : list Z) : Prop := {
  block_template : template ncb = Tst (Some parser) cb;
  block_attr : attr ncb = a;
  block_data : exists lb, lbdata ncb = Some lb /\ zlen lb = n /\ take (length r) lb = r;
  block_offset : lboffset ncb = zlen r;
  block_size : lbsize ncb = n;
  block_parse : rx_parse_offset ncb = 0 /\ zlen (rx_parse_buffer ncb) = TCP_BUFFER_SIZE;
}.

Context (cb_max : cb <= TCP_MAXIMUM_TEMPLATE_SIZE).
Context (ztrymalloc_size : forall n blk, ztrymalloc n = Some blk -> zlen blk = n).

(** The buffer that completes the head starts the block: only its own bytes
    [c] are copied, whatever part [r] of the head came before. *)
Lemma block_start ncb r c q :
  holds ncb r -> large_packet (r ++ c ++ q) -> c <> [] ->
  zlen r <= cb <= zlen r + zlen c ->
  is_Some (ztrymalloc (zlen (r ++ c ++ q))) ->
  exists ncb', tcp_parse_pkt ncb c = Some (0, ncb', []) /\
    in_block ncb' (zlen (r ++ c ++ q)) c.
Proof.
  intros Hh (h & b & E & Hcb & Hst & Hsz & Hlarge & Hmax) Hc Hr [blk Hblk].
  assert (TCP_MAXIMUM_TEMPLATE_SIZE < TCP_BUFFER_SIZE) by reflexivity.
  destruct (parse_pkt_to_body ncb r c Hh Hc) as (s & cp & buf & Es & Hs & Hbuf & Htk & ->);
    [lia | lia |].
  rewrite Z.max_r in Hs by lia.
  assert (s = h) as ->.
  { rewrite app_assoc, Es, <- app_assoc in E. apply app_inj_1 in E as [-> _]; [done |].
    unfold zlen in *. lia. }
  unfold tcp_parse_body. rewrite (holds_template _ _ Hh). simpl.
  rewrite memread_prefix by done. simpl.
  destruct (parser h) as [st sz] eqn:Ep; simpl in *. rewrite Hst, Hsz. simpl.
  assert (zlen (r ++ c ++ q) = zlen b + cb) as Hlen by (rewrite E, zlen_app; lia).
  rewrite (proj2 (Z.ltb_ge _ _)), (proj2 (Z.leb_gt _ _)) by lia. simpl.
  rewrite <- Hlen, (proj2 (Z.ltb_lt _ _)), Hblk by lia.
  apply ztrymalloc_size in Hblk.
  destruct (memcpy_at_prefix blk [] c) as (lb & Hcpy & Hl & Htk').
  { done. }
  { rewrite Hblk, !zlen_app, zlen_nil. pose proof (zlen_nonneg r). pose proof (zlen_nonneg q). lia. }
  change (zlen []) with 0 in Hcpy. rewrite Hcpy. simpl. eexists. split; [reflexivity |].
  split; simpl; try done; try apply Hh; try (by split; [done | apply Hbuf]).
  exists lb. split_and!; [done | congruence | done].
Qed.

Lemma block_more ncb n r d :
  in_block ncb n r -> d <> [] -> zlen r + zlen d < n ->
  exists ncb', tcp_parse_pkt ncb d = Some (0, ncb', []) /\ in_block ncb' n (r ++ d).
Proof.
  intros [Ht Ha (lb & Hlb & Hlbn & Htk) Hoff Hn Hp] Hd Hlt. apply zlen_pos in Hd.
  pose proof (zlen_nonneg r).
  unfold tcp_parse_pkt, ncb_lb_marked. rewrite Ht, Hlb, Hn. simpl.
  rewrite (proj2 (Z.eqb_neq _ _)), andb_false_r, (proj2 (Z.ltb_lt 0 _)) by lia.
  unfold _tcp_parse_marked_lb. rewrite Hlb, Hn, Hoff. simpl.
  rewrite (proj2 (Z.ltb_lt _ _)) by lia.
  destruct (memcpy_at_prefix lb r d) as (lb' & -> & Hl & Htk'); [done | lia |].
  simpl. eexists. split; [reflexivity |]. split; simpl; try done.
  - exists lb'. split_and!; [done | lia | done].
  - by rewrite zlen_app.
Qed.

Lemma block_done ncb r q d :
  in_block ncb (zlen (r ++ q)) r -> q <> [] -> cb <= zlen (r ++ q) ->
  exists ncb', tcp_parse_pkt ncb (q ++ d) = Some (zlen d, ncb', [delivered (r ++ q)]) /\
    holds ncb' [].
Proof.
  intros [Ht Ha (lb & Hlb & Hlbn & Htk) Hoff Hn [Hpo Hpb]] Hq Hcb. apply zlen_pos in Hq.
  pose proof (zlen_nonneg r). pose proof (zlen_nonneg d).
  unfold tcp_parse_pkt, ncb_lb_marked. rewrite Ht, Hlb, Hn, !zlen_app. simpl.
  rewrite (proj2 (Z.eqb_neq _ _)), andb_false_r, (proj2 (Z.ltb_lt 0 _)) by lia.
  unfold _tcp_parse_marked_lb. rewrite Hlb, Hn, Hoff, !zlen_app. simpl.
  rewrite (proj2 (Z.ltb_ge _ _)) by lia.
  replace (zlen r + zlen q - zlen r) with (zlen q) by lia.
  rewrite (memread_app [] q d : memread (q ++ d) 0 (zlen q) = Some q). simpl.
  destruct (memcpy_at_prefix lb r q) as (lb' & -> & Hl & Htk'); [done | rewrite zlen_app in *; lia |].
  simpl. assert (lb' = r ++ q) as ->.
  { rewrite <- (take_drop (length (r ++ q)) lb'), Htk', drop_ge, app_nil_r; [done |].
    unfold zlen in *. lia. }
  rewrite Ht, <- (zlen_app r q). simpl.
  rewrite delivered_read by (done || by rewrite take_ge). simpl.
  eexists. split; [do 3 f_equal; lia |]. split; simpl; done.
Qed.

Lemma rx_pieces_step ncb c ncb1 chunks :
  c <> [] -> tcp_parse_pkt ncb c = Some (0, ncb1, []) ->
  rx_pieces ncb (c :: chunks) = rx_pieces ncb1 chunks.
Proof.
  intros Hc Hstep. destruct c as [|x c]; [done |]. cbn [rx_pieces length rx_loop]. rewrite Hstep. simpl.
  by destruct (rx_pieces ncb1 chunks) as [[[??]?]|].
Qed.

Lemma rx_pieces_block chunks : forall ncb r q,
  in_block ncb (zlen (r ++ q)) r -> Forall (fun c => c <> []) chunks -> mjoin chunks = q ->
  q <> [] -> cb <= zlen (r ++ q) ->
  exists ncb', rx_pieces ncb chunks = Some (NSP_STATUS_SUCCESSFUL, ncb', [delivered (r ++ q)]) /\
    holds ncb' [].
Proof.
  induction chunks as [|c chunks IH]; intros ncb r q Hb Hcs Hq Hq' Hcb; [by subst q |].
  apply Forall_cons in Hcs as [Hc Hcs]. change (mjoin (c :: chunks)) with (c ++ mjoin chunks) in Hq.
  destruct (decide (chunks = [])) as [->|Hne].
  - simpl in Hq. rewrite app_nil_r in Hq. subst c.
    destruct (block_done ncb r q [] Hb Hq' Hcb) as (ncb' & Hstep & Hh). rewrite app_nil_r in Hstep.
    exists ncb'. split; [|done].
    destruct q as [|x q]; [done |]. cbn [rx_pieces length rx_loop]. rewrite Hstep. reflexivity.
  - assert (mjoin chunks <> []) as Hj.
    { destruct chunks as [|c' cs]; [done |]. apply Forall_cons in Hcs as [Hc' _].
      simpl. by destruct c'. }
    subst q. destruct (block_more ncb _ r c Hb Hc) as (ncb1 & Hstep & Hb1).
    { apply zlen_pos in Hj. rewrite !zlen_app. lia. }
    rewrite (rx_pieces_step _ _ _ _ Hc Hstep), app_assoc.
    apply (IH ncb1); try done; rewrite <- app_assoc; done.
Qed.

(** A packet over the parse buffer (up to 50 MB) is handed over whole, however
    it is cut, provided that its head comes in one piece. *)
Theorem tcp_parse_large_block c chunks ncb p :
  holds ncb [] -> large_packet p -> is_Some (ztrymalloc (zlen p)) ->
  Forall (fun c => c <> []) (c :: chunks) -> mjoin (c :: chunks) = p ->
  cb <= zlen c <= TCP_BUFFER_SIZE ->
  exists ncb', rx_pieces ncb (c :: chunks) = Some (NSP_STATUS_SUCCESSFUL, ncb', [delivered p]) /\
    holds ncb' [].
Proof.
  intros Hh Hp Hm [Hc Hcs]%Forall_cons E Hcl.
  change (mjoin (c :: chunks)) with (c ++ mjoin chunks) in E. subst p.
  destruct (block_start ncb [] c (mjoin chunks) Hh Hp Hc) as (ncb1 & Hstep & Hb);
    [rewrite zlen_nil; lia | done |].
  rewrite (rx_pieces_step _ _ _ _ Hc Hstep).
  destruct Hp as (h & b & E & Hcb & _ & _ & Hl & _).
  apply (rx_pieces_block chunks ncb1 c (mjoin chunks)); try done.
  - intros E'. rewrite E', app_nil_r in Hl. lia.
  - assert (TCP_MAXIMUM_TEMPLATE_SIZE < TCP_BUFFER_SIZE) by reflexivity. lia.
Qed.

(** C31: when the head of a large packet comes in two pieces, its first part [h1]
    never reaches the block: after all pieces of the packet have been through the
    loop of [_tcp_rx] nothing is handed over, and the block holds the packet
    without [h1]. *)
Theorem tcp_parse_large_block_split_head ncb h1 c b :
  holds ncb [] -> large_packet (h1 ++ c ++ b) -> is_Some (ztrymalloc (zlen (h1 ++ c ++ b))) ->
  h1 <> [] -> c <> [] -> b <> [] -> zlen h1 < cb <= zlen h1 + zlen c ->
  exists ncb', rx_pieces ncb [h1; c; b] = Some (NSP_STATUS_SUCCESSFUL, ncb', []) /\
    in_block ncb' (zlen (h1 ++ c ++ b)) (c ++ b).
Proof.
  intros Hh Hp Hm Hh1 Hc Hb Hcb.
  assert (exists ncb1, tcp_parse_pkt ncb h1 = Some (0, ncb1, []) /\ holds ncb1 h1)
    as (ncb1 & Hstep1 & Hh').
  { destruct Hh as [Ht Ha Hlb Hsz Hoff Hbs]. rewrite zlen_nil in Hoff.
    unfold tcp_parse_pkt, ncb_lb_marked. rewrite Ht, Hlb, Hoff. simpl. apply zlen_pos in Hh1.
    rewrite (proj2 (Z.eqb_neq _ _)), andb_false_r, (proj2 (Z.ltb_lt _ _)) by lia.
    assert (TCP_MAXIMUM_TEMPLATE_SIZE < TCP_BUFFER_SIZE) by reflexivity.
    destruct (memcpy_at_prefix (rx_parse_buffer ncb) [] h1) as (buf & Hcpy & Hl & Htk);
      [done | rewrite zlen_nil; lia |].
    change (zlen []) with 0 in Hcpy. rewrite Hcpy. simpl. eexists.
    split; [reflexivity |]. by split; simpl; try lia. }
  destruct (block_start ncb1 h1 c b Hh' Hp Hc) as (ncb2 & Hstep2 & Hb2); [lia | done |].
  destruct (block_more ncb2 _ c b Hb2 Hb) as (ncb3 & Hstep3 & Hb3).
  { apply zlen_pos in Hh1. rewrite !zlen_app. lia. }
  exists ncb3. split; [|done].
  rewrite (rx_pieces_step _ _ _ _ Hh1 Hstep1), (rx_pieces_step _ _ _ _ Hc Hstep2),
    (rx_pieces_step _ _ _ _ Hb Hstep3). reflexivity.
Qed.
End Framing.
End TcpAl.

(** ** A concrete link: a 4-byte little-endian size as the head *)
Definition head4_parser (l : list Z) : Z * Z :=
  match l with
  | b0 :: b1 :: b2 :: b3 :: _ => (0, b0 + 256 * b1 + 65536 * b2 + 16777216 * b3)
  | _ => (-1, 0)
  end.

Definition head4 : tst := Tst (Some head4_parser) 4.
Definition malloc0 (n : Z) : option (list Z) :=
  if 0 <=? n then Some (replicate (Z.to_nat n) 0) else None.

(** A link as [tcp_allocate_rx_buffer] leaves it. *)
Definition tcp_fresh (t : tst) (a : Z) : tcp :=
  Tcp 0 (replicate (Z.to_nat TCP_BUFFER_SIZE) 0) None 0 0 t a.

Lemma malloc0_size n blk : malloc0 n = Some blk -> zlen blk = n.
Proof.
  unfold malloc0. destruct (Z.leb_spec 0 n); [|done]. intros [= <-]. by apply zlen_replicate.
Qed.

Lemma malloc0_some n : 0 <= n -> is_Some (malloc0 n).
Proof. intros Hn. unfold malloc0. rewrite (proj2 (Z.leb_le _ _)) by done. eauto. Qed.

Lemma holds_fresh parser cb a : holds parser cb a (tcp_fresh (Tst (Some parser) cb) a) [].
Proof. split; [done | done | done | by apply zlen_replicate | done | done]. Qed.

Lemma head4_parser_head h r : zlen h = 4 -> head4_parser (h ++ r) = head4_parser h.
Proof. intros Hh. destruct h as [|? [|? [|? [|? h]]]]; done. Qed.

Lemma packet_head4 b0 b1 b2 b3 b :
  b0 + 256 * b1 + 65536 * b2 + 16777216 * b3 = zlen b -> 0 < zlen b <= 69628 ->
  packet head4_parser 4 ([b0; b1; b2; b3] ++ b).
Proof.
  intros Hsz Hb. exists [b0; b1; b2; b3], b. split_and!; try done.
  - intros E. rewrite E in Hb. change (0 < 0 <= 69628) in Hb. lia.
  - rewrite zlen_app. change (zlen [b0; b1; b2; b3]) with 4. unfold TCP_BUFFER_SIZE. lia.
Qed.

Definition demo_packets : list (list Z) :=
  [[3; 0; 0; 0; 10; 11; 12]; [1; 0; 0; 0; 42]; [2; 0; 0; 0; 5; 6]].

Lemma demo_packets_ok : Forall (packet head4_parser 4) demo_packets.
Proof.
  apply Forall_cons_2; [by apply (packet_head4 3 0 0 0 [10; 11; 12]) |].
  apply Forall_cons_2; [by apply (packet_head4 1 0 0 0 [42]) |].
  apply Forall_cons_2; [by apply (packet_head4 2 0 0 0 [5; 6]) | apply Forall_nil_2].
Qed.


(** A body of 70000 = 0x11170 bytes under a head of four. *)
Definition big_body : list Z := replicate (Z.to_nat 70000) 7.

Lemma zlen_big_body : zlen big_body = 70000.
Proof. by apply zlen_replicate. Qed.

Lemma big_body_ne : big_body <> [].
Proof. intros E. pose proof zlen_big_body as H. by rewrite E in H. Qed.

Lemma large_packet_big : large_packet head4_parser 4 ([112; 17; 1; 0] ++ big_body).
Proof.
  exists [112; 17; 1; 0], big_body. rewrite zlen_app, zlen_big_body. by split_and!.
Qed.

Lemma tcp_parse_large_block_witness :
  exists ncb',
    rx_pieces malloc0 (tcp_fresh head4 0) [[112; 17; 1; 0]; big_body]
      = Some (NSP_STATUS_SUCCESSFUL, ncb', [delivered 4 0 ([112; 17; 1; 0] ++ big_body)]) /\
    holds head4_parser 4 0 ncb' [].
Proof.
  apply (tcp_parse_large_block malloc0 head4_parser 4 0 ltac:(done) ltac:(done) malloc0_size [112; 17; 1; 0] [big_body]).
  - apply holds_fresh.
  - exact large_packet_big.
  - apply malloc0_some, zlen_nonneg.
  - apply Forall_cons_2; [done |]. apply Forall_cons_2; [exact big_body_ne | apply Forall_nil_2].
  - change (mjoin _) with ([112; 17; 1; 0] ++ (big_body ++ [])). by rewrite app_nil_r.
  - by split.
Defined.

(** The same packet with its head cut after two bytes. *)
Lemma tcp_parse_large_block_split_head_witness :
  exists ncb',
    rx_pieces malloc0 (tcp_fresh head4 0) [[112; 17]; [1; 0]; big_body]
      = Some (NSP_STATUS_SUCCESSFUL, ncb', []) /\
    in_block head4_parser 4 0 ncb' (zlen ([112; 17] ++ [1; 0] ++ big_body)) ([1; 0] ++ big_body).
Proof.
  apply (tcp_parse_large_block_split_head malloc0 head4_parser 4 0 ltac:(done) malloc0_size).
  - apply holds_fresh.
  - exact large_packet_big.
  - apply malloc0_some, zlen_nonneg.
  - done.
  - done.
  - exact big_body_ne.
  - by split.
Defined.
