(* ===== verification/AvlTree.v ===== *)
(** Height-balanced search trees: src/avltree.c and include/avltree.h.

    A [tree] is what hangs below a pointer to a [struct avltree_node_t]:
    [Null] is NULL, and [Node l x h r] a node with its fields [lchild],
    [height], [rchild]; the node is intrusive, and [x : A] is the identity of
    the structure it is embedded in.  A function that returns a pointer into
    the tree returns the subtree at it.  The operations are in the option
    monad: [None] is a dereference of NULL. *)
From S2P Require Import Prelude.

Inductive tree (A : Type) := Null | Node (lchild : tree A) (node : A) (height : Z) (rchild : tree A).
Arguments Null {A}.
Arguments Node {A} lchild node height rchild.

#[export] Instance Null_dec {A} (t : tree A) : Decision (t = Null).
Proof. destruct t; [by left | by right]. Defined.

(** What a compare routine promises (the comment above [avltree_compare_fp]):
    the sign of its result is a total preorder. *)
Class AvlCompare {A} (compare : A -> A -> Z) : Prop := {
  compare_antisym x y : compare x y < 0 <-> 0 < compare y x;
  compare_lt_trans x y z : compare x y < 0 -> compare y z < 0 -> compare x z < 0;
  compare_eq_lt x y z : compare x y = 0 -> compare y z < 0 -> compare x z < 0;
  compare_lt_eq x y z : compare x y < 0 -> compare y z = 0 -> compare x z < 0;
}.

Section Avl.
Context {A : Type}.
Implicit Types (t l r : tree A) (x y node : A).

Definition HEIGHT t : Z := match t with Null => -1 | Node _ _ h _ => h end.
Definition MAX (a b : Z) : Z := if b <? a then a else b.

(** Store the height computed from the children. *)
Definition node_fix l x r : tree A := Node l x (MAX (HEIGHT l) (HEIGHT r) + 1) r.

Definition _avlsinglerotateleft t : option (tree A) :=
  match t with
  | Node (Node ll x _ lr) y _ r => Some (node_fix ll x (node_fix lr y r))
  | _ => None
  end.

Definition _avlsinglerotateright t : option (tree A) :=
  match t with
  | Node l y _ (Node rl x _ rr) => Some (node_fix (node_fix l y rl) x rr)
  | _ => None
  end.

Definition _avldoublerotateleft t : option (tree A) :=
  match t with
  | Node (Node ll x _ (Node ml z _ mr)) y _ r =>
      Some (node_fix (node_fix ll x ml) z (node_fix mr y r))
  | _ => None
  end.

Definition _avldoublerotateright t : option (tree A) :=
  match t with
  | Node l y _ (Node (Node ml z _ mr) x _ rr) =>
      Some (node_fix (node_fix l y ml) z (node_fix mr x rr))
  | _ => None
  end.

(** The while loops of [avlgetmin] and [avlgetmax]. *)
Fixpoint avlgetmin t : tree A :=
  match t with
  | Null => Null
  | Node Null _ _ _ => t
  | Node l _ _ _ => avlgetmin l
  end.

Fixpoint avlgetmax t : tree A :=
  match t with
  | Null => Null
  | Node _ _ _ Null => t
  | Node _ _ _ r => avlgetmax r
  end.

(** The node a returned pointer points to. *)
Definition node_of t : option A := match t with Null => None | Node _ x _ _ => Some x end.

Section Compare.
Context (compare : A -> A -> Z).

(** [avlinsert] past its NULL guard (which the recursion never takes again). *)
Fixpoint avlinsert_rec t node : option (tree A) :=
  match t with
  | Null => Some (Node Null node 0 Null)
  | Node l x h r =>
      let ret := compare node x in
      if ret <? 0 then
        l' ← avlinsert_rec l node;
        let t' := Node l' x h r in
        if HEIGHT l' - HEIGHT r =? 2 then
          xl ← node_of l';
          let ret := compare node xl in
          if ret <? 0 then _avlsinglerotateleft t'
          else if 0 <? ret then _avldoublerotateleft t'
          else Some t'
        else Some (node_fix l' x r)
      else if 0 <? ret then
        r' ← avlinsert_rec r node;
        let t' := Node l x h r' in
        if HEIGHT r' - HEIGHT l =? 2 then
          xr ← node_of r';
          let ret := compare node xr in
          if ret <? 0 then _avldoublerotateright t'
          else if 0 <? ret then _avlsinglerotateright t'
          else Some t'
        else Some (node_fix l x r')
      else Some t
  end.

(** Lines 120 to 182 of [avlremove]: rotate if the heights differ by two, then
    store the height. *)
Definition avl_rebalance t : option (tree A) :=
  match t with
  | Null => None
  | Node l x h r =>
      t' ← (if HEIGHT l - HEIGHT r =? 2 then
              match l with
              | Null => None
              | Node ll _ _ lr =>
                  if (HEIGHT ll - HEIGHT r =? 1) && (HEIGHT lr - HEIGHT r =? 1)
                  then _avlsinglerotateleft t
                  else if HEIGHT ll - HEIGHT r =? 1 then _avlsinglerotateleft t
                  else if HEIGHT lr - HEIGHT r =? 1 then _avldoublerotateleft t
                  else Some t
              end
            else if HEIGHT r - HEIGHT l =? 2 then
              match r with
              | Null => None
              | Node rl _ _ rr =>
                  if (HEIGHT rr - HEIGHT l =? 1) && (HEIGHT rl - HEIGHT l =? 1)
                  then _avlsinglerotateright t
                  else if HEIGHT rr - HEIGHT l =? 1 then _avlsinglerotateright t
                  else if HEIGHT rl - HEIGHT l =? 1 then _avldoublerotateright t
                  else Some t
              end
            else Some t);
      match t' with Null => None | Node l' x' _ r' => Some (node_fix l' x' r') end
  end.

(** The out-parameter [rmnode]: [None] is a NULL pointer, [Some c] one to a
    cell with content [c]. *)
Definition store_rm (rmnode : option (option A)) (v : option A) : option (option A) :=
  match rmnode with None => None | Some _ => Some v end.

Fixpoint avlremove_rec t node (rmnode : option (option A))
  : option (tree A * option (option A)) :=
  match t with
  | Null => Some (Null, rmnode)
  | Node l x h r =>
      let rmnode := store_rm rmnode None in
      let ret := compare node x in
      if ret =? 0 then
        match l, r with
        | Node _ _ _ _, Node _ _ _ _ =>
            match avlgetmin r with
            | Null => None
            | Node _ tmpnode th _ =>
                '(r', rmnode') ← avlremove_rec r tmpnode rmnode;
                t' ← avl_rebalance (Node l tmpnode th r');
                Some (t', store_rm rmnode' (Some x))
            end
        | Node _ _ _ _, Null => Some (l, store_rm rmnode (Some x))
        | Null, _ => Some (r, store_rm rmnode (Some x))
        end
      else if ret <? 0 then
        '(l', rmnode') ←
          match l with Null => Some (Null, rmnode) | _ => avlremove_rec l node rmnode end;
        t' ← avl_rebalance (Node l' x h r);
        Some (t', rmnode')
      else
        '(r', rmnode') ←
          match r with Null => Some (Null, rmnode) | _ => avlremove_rec r node rmnode end;
        t' ← avl_rebalance (Node l x h r');
        Some (t', rmnode')
  end.

Fixpoint avlsearch_rec t node : tree A :=
  match t with
  | Null => Null
  | Node l x _ r =>
      let ret := compare node x in
      if ret <? 0 then avlsearch_rec l node
      else if 0 <? ret then avlsearch_rec r node
      else t
  end.

Fixpoint avllowerbound t node : tree A :=
  match t with
  | Null => Null
  | Node l x _ r =>
      let ret := compare node x in
      if ret <? 0 then
        match avllowerbound l node with Null => t | cursor => cursor end
      else if 0 <? ret then avllowerbound r node
      else t
  end.

Fixpoint avlupperbound t node : tree A :=
  match t with
  | Null => Null
  | Node l x _ r =>
      let ret := compare node x in
      if ret <? 0 then
        match avlupperbound l node with Null => t | cursor => cursor end
      else avlupperbound r node
  end.
End Compare.

(** The entry points with their NULL guards. *)
Definition avlinsert t (node : option A) (compare : option (A -> A -> Z)) : option (tree A) :=
  match node, compare with
  | Some node, Some compare => avlinsert_rec compare t node
  | _, _ => Some Null
  end.

Definition avlremove t (node : option A) (rmnode : option (option A))
    (compare : option (A -> A -> Z)) : option (tree A * option (option A)) :=
  match t, node, compare with
  | Node _ _ _ _, Some node, Some compare => avlremove_rec compare t node rmnode
  | _, _, _ => Some (Null, rmnode)
  end.

Definition avlsearch t (node : option A) (compare : option (A -> A -> Z)) : tree A :=
  match node, compare with
  | Some node, Some compare => avlsearch_rec compare t node
  | _, _ => Null
  end.
End Avl.

(** ** The balance invariant *)
Section Balance.
Context {A : Type}.
Implicit Types (t l r : tree A) (x y node : A).

Fixpoint elems t : list A :=
  match t with Null => [] | Node l x _ r => elems l ++ x :: elems r end.

(** Heights are those stored, and children differ by at most one. *)
Fixpoint avl t : Prop :=
  match t with
  | Null => True
  | Node l _ h r =>
      avl l /\ avl r /\ h = Z.max (HEIGHT l) (HEIGHT r) + 1 /\ -1 <= HEIGHT l - HEIGHT r <= 1
  end.

Lemma MAX_max a b : MAX a b = Z.max a b.
Proof. unfold MAX. destruct (Z.ltb_spec b a); lia. Qed.

Lemma avl_height t : avl t -> -1 <= HEIGHT t.
Proof. induction t as [|l IHl x h r IHr]; simpl; [lia | intros (?%IHl & ?%IHr & ?)]; lia. Qed.

Lemma avl_height_node l x h r : avl (Node l x h r) -> 0 <= h.
Proof. simpl. intros (?%avl_height & ?%avl_height & ?); lia. Qed.

Lemma elems_fix l x r : elems (node_fix l x r) = elems l ++ x :: elems r.
Proof. done. Qed.

(** Decides the goals of a rotation: unfold everything the trees hide. *)
Ltac avl_simpl :=
  unfold node_fix in *; simpl in *; rewrite ?MAX_max in *; simpl in *;
  rewrite ?MAX_max in *; repeat (rewrite <- app_assoc; simpl).

Ltac avl_heights :=
  repeat match goal with
  | H : avl ?t |- _ =>
      lazymatch goal with
      | _ : -1 <= HEIGHT t |- _ => fail
      | _ => pose proof (avl_height t H)
      end
  end.

Lemma node_fix_avl l x r :
  avl l -> avl r -> -1 <= HEIGHT l - HEIGHT r <= 1 -> avl (node_fix l x r).
Proof. intros. avl_simpl. split_and!; try done; lia. Qed.

(** A left child that is two higher: one rotation restores the invariant, a
    single one unless the inner grandchild is the higher one. *)
Lemma rotate_left_avl l x h r :
  avl l -> avl r -> HEIGHT l - HEIGHT r = 2 ->
  exists ll xl hl lr, l = Node ll xl hl lr /\
  (HEIGHT lr <= HEIGHT ll ->
     exists t', _avlsinglerotateleft (Node l x h r) = Some t' /\ avl t' /\
       elems t' = elems l ++ x :: elems r /\
       HEIGHT t' = if decide (HEIGHT lr < HEIGHT ll) then HEIGHT l else HEIGHT l + 1) /\
  (HEIGHT ll < HEIGHT lr ->
     exists t', _avldoublerotateleft (Node l x h r) = Some t' /\ avl t' /\
       elems t' = elems l ++ x :: elems r /\ HEIGHT t' = HEIGHT l).
Proof.
  intros Hl Hr Hd. avl_heights. destruct l as [|ll xl hl lr]; [simpl in *; lia |].
  exists ll, xl, hl, lr. split; [done |]. split.
  - intros Hh. eexists. split; [reflexivity |]. avl_simpl. destruct Hl as (? & ? & ? & ?).
    case_decide; split_and!; try done; lia.
  - intros Hh. destruct lr as [|ml z hz mr].
    { avl_simpl. destruct Hl as (?%avl_height & _). lia. }
    eexists. split; [reflexivity |]. avl_simpl. destruct_and!. avl_heights.
    split_and!; try done; lia.
Qed.

Lemma rotate_right_avl l x h r :
  avl l -> avl r -> HEIGHT r - HEIGHT l = 2 ->
  exists rl xr hr rr, r = Node rl xr hr rr /\
  (HEIGHT rl <= HEIGHT rr ->
     exists t', _avlsinglerotateright (Node l x h r) = Some t' /\ avl t' /\
       elems t' = elems l ++ x :: elems r /\
       HEIGHT t' = if decide (HEIGHT rl < HEIGHT rr) then HEIGHT r else HEIGHT r + 1) /\
  (HEIGHT rr < HEIGHT rl ->
     exists t', _avldoublerotateright (Node l x h r) = Some t' /\ avl t' /\
       elems t' = elems l ++ x :: elems r /\ HEIGHT t' = HEIGHT r).
Proof.
  intros Hl Hr Hd. avl_heights. destruct r as [|rl xr hr rr]; [simpl in *; lia |].
  exists rl, xr, hr, rr. split; [done |]. split.
  - intros Hh. eexists. split; [reflexivity |]. avl_simpl. destruct Hr as (? & ? & ? & ?).
    case_decide; split_and!; try done; lia.
  - intros Hh. destruct rl as [|ml z hz mr].
    { avl_simpl. destruct Hr as (_ & ?%avl_height & _). lia. }
    eexists. split; [reflexivity |]. avl_simpl. destruct_and!. avl_heights.
    split_and!; try done; lia.
Qed.

(** The height of the rebalanced tree, given the heights of its children. *)
Lemma avl_rebalance_spec l x h r :
  avl l -> avl r -> -2 <= HEIGHT l - HEIGHT r <= 2 ->
  exists t', avl_rebalance (Node l x h r) = Some t' /\ avl t' /\
    elems t' = elems l ++ x :: elems r /\
    Z.max (HEIGHT l) (HEIGHT r) <= HEIGHT t' <= Z.max (HEIGHT l) (HEIGHT r) + 1 /\
    (-1 <= HEIGHT l - HEIGHT r <= 1 -> HEIGHT t' = Z.max (HEIGHT l) (HEIGHT r) + 1).
Proof.
  intros Hl Hr Hd.
  assert (forall t' : tree A, avl t' -> 0 <= HEIGHT t' ->
    match t' with Null => None | Node l' x' _ r' => Some (node_fix l' x' r') end = Some t') as Hfix.
  { intros [|l' x' h' r']; [simpl; lia |]. intros (? & ? & -> & ?) _. unfold node_fix.
    by rewrite MAX_max. }
  unfold avl_rebalance.
  destruct (Z.eqb_spec (HEIGHT l - HEIGHT r) 2) as [E|E].
  - destruct (rotate_left_avl l x h r Hl Hr E) as (ll & xl & hl & lr & -> & Hs & Hdb).
    simpl in E. pose proof Hl as (Hll & Hlr & Hh & Hb). pose proof (avl_height _ Hr).
    destruct (Z.lt_ge_cases (HEIGHT ll) (HEIGHT lr)) as [Hlt|Hge].
    + destruct (Hdb Hlt) as (t' & Ht & Ha & He & HH). exists t'.
      rewrite !(proj2 (Z.eqb_neq (HEIGHT ll - _) _)), (proj2 (Z.eqb_eq (HEIGHT lr - _) _)) by lia.
      cbv beta iota. simpl andb. cbv beta iota. rewrite Ht. simpl in *.
      rewrite Hfix by (done || lia). split_and!; try done; lia.
    + destruct (Hs Hge) as (t' & Ht & Ha & He & HH). exists t'.
      rewrite !(proj2 (Z.eqb_eq (HEIGHT ll - _) _)) by lia.
      assert ((if true && (HEIGHT lr - HEIGHT r =? 1) then _avlsinglerotateleft (Node (Node ll xl hl lr) x h r)
        else _avlsinglerotateleft (Node (Node ll xl hl lr) x h r)) = Some t') as ->
        by (destruct (_ =? 1); exact Ht).
      simpl in *. case_decide; rewrite Hfix by (done || lia); split_and!; try done; lia.
  - destruct (Z.eqb_spec (HEIGHT r - HEIGHT l) 2) as [E'|E'].
    + destruct (rotate_right_avl l x h r Hl Hr E') as (rl & xr & hr & rr & -> & Hs & Hdb).
      simpl in E'. pose proof Hr as (Hrl & Hrr & Hh & Hb). pose proof (avl_height _ Hl).
      destruct (Z.lt_ge_cases (HEIGHT rr) (HEIGHT rl)) as [Hlt|Hge].
      * destruct (Hdb Hlt) as (t' & Ht & Ha & He & HH). exists t'.
        rewrite !(proj2 (Z.eqb_neq (HEIGHT rr - _) _)), (proj2 (Z.eqb_eq (HEIGHT rl - _) _)) by lia.
        cbv beta iota. simpl andb. cbv beta iota. rewrite Ht. simpl in *.
        rewrite Hfix by (done || lia). split_and!; try done; lia.
      * destruct (Hs Hge) as (t' & Ht & Ha & He & HH). exists t'.
        rewrite !(proj2 (Z.eqb_eq (HEIGHT rr - _) _)) by lia.
        assert ((if true && (HEIGHT rl - HEIGHT l =? 1) then _avlsinglerotateright (Node l x h (Node rl xr hr rr))
          else _avlsinglerotateright (Node l x h (Node rl xr hr rr))) = Some t') as ->
        by (destruct (_ =? 1); exact Ht).
        simpl in *. case_decide; rewrite Hfix by (done || lia); split_and!; try done; lia.
    + eexists. split; [reflexivity |]. split; [apply node_fix_avl; done || lia |].
      split; [done |]. avl_simpl. lia.
Qed.
End Balance.

(** ** The search-tree contract: the tree is the sorted list of its nodes *)
Section Order.
Context {A : Type} (compare : A -> A -> Z) `{!AvlCompare compare}.
Implicit Types (t l r : tree A) (x y node : A) (xs : list A).

Definition ordered xs : Prop := StronglySorted (fun x y => compare x y < 0) xs.

(** Sorted-list references of insertion and removal. *)
Fixpoint list_insert_sorted node xs : list A :=
  match xs with
  | [] => [node]
  | x :: xs' =>
      if compare node x <? 0 then node :: xs
      else if compare node x =? 0 then xs
      else x :: list_insert_sorted node xs'
  end.

Definition list_remove node xs : list A := filter (fun x => compare node x <> 0) xs.

Definition list_search node xs : option A := head (filter (fun x => compare node x = 0) xs).
Definition list_lower node xs : option A := head (filter (fun x => compare node x <= 0) xs).
Definition list_upper node xs : option A := head (filter (fun x => compare node x < 0) xs).

Lemma compare_refl x : compare x x = 0.
Proof. pose proof (compare_antisym x x). lia. Qed.

Lemma compare_eq_sym x y : compare x y = 0 <-> compare y x = 0.
Proof. pose proof (compare_antisym x y). pose proof (compare_antisym y x). lia. Qed.

Lemma compare_gt x y : 0 < compare x y <-> compare y x < 0.
Proof. by rewrite compare_antisym. Qed.

Lemma ordered_app xs1 x xs2 :
  ordered (xs1 ++ x :: xs2) <->
  ordered xs1 /\ ordered xs2 /\ (forall y, y ∈ xs1 -> compare y x < 0) /\
  (forall y, y ∈ xs2 -> compare x y < 0).
Proof.
  unfold ordered. rewrite StronglySorted_app. split.
  - intros (H1 & H2 & H3). apply StronglySorted_cons in H3 as [H3 H4].
    rewrite Forall_forall in H3. split_and!; try done.
    intros y Hy. apply H1; [done | constructor].
  - intros (H1 & H2 & H3 & H4). split_and!; try done.
    + intros y z Hy Hz. apply elem_of_cons in Hz as [->|Hz]; [auto |].
      by apply (compare_lt_trans y x z); auto.
    + apply StronglySorted_cons. split; [by apply Forall_forall | done].
Qed.

Lemma insert_sorted_lt node xs1 x xs2 :
  compare node x < 0 ->
  list_insert_sorted node (xs1 ++ x :: xs2) = list_insert_sorted node xs1 ++ x :: xs2.
Proof.
  intros Hx. induction xs1 as [|y xs1 IH]; simpl; [by rewrite (proj2 (Z.ltb_lt _ _)) |].
  rewrite IH. by repeat case_match.
Qed.

(** Everything to the left of [x] is below a node that is not. *)
Lemma ordered_left_gt node xs1 x xs2 :
  ordered (xs1 ++ x :: xs2) -> 0 <= compare node x ->
  forall y, y ∈ xs1 -> 0 < compare node y.
Proof.
  intros (_ & _ & Hlt & _)%ordered_app Hx y Hy. apply compare_gt.
  destruct (Z.eq_dec (compare node x) 0) as [E%compare_eq_sym|E].
  - by apply (compare_lt_eq y x node); auto.
  - apply (compare_lt_trans y x node); [auto |]. apply compare_gt. lia.
Qed.

Lemma insert_sorted_skip node xs1 xs2 :
  (forall y, y ∈ xs1 -> 0 < compare node y) ->
  list_insert_sorted node (xs1 ++ xs2) = xs1 ++ list_insert_sorted node xs2.
Proof.
  induction xs1 as [|y xs1 IH]; intros Hy; [done |]. simpl.
  assert (0 < compare node y) by (apply Hy; constructor).
  rewrite (proj2 (Z.ltb_ge _ _)), (proj2 (Z.eqb_neq _ _)), IH by (lia || (intros; apply Hy; by constructor)).
  done.
Qed.

Lemma elem_of_insert_sorted y node xs :
  y ∈ list_insert_sorted node xs -> y = node \/ y ∈ xs.
Proof.
  induction xs as [|x xs IH]; simpl; [by intros ?%list_elem_of_singleton; left |].
  repeat case_match; rewrite ?elem_of_cons; tauto.
Qed.

Lemma insert_sorted_ordered node xs : ordered xs -> ordered (list_insert_sorted node xs).
Proof.
  unfold ordered. induction xs as [|x xs IH]; simpl; [by repeat constructor |].
  intros [Hx Hxs]%StronglySorted_cons. destruct (Z.ltb_spec (compare node x) 0).
  - apply StronglySorted_cons. split; [|by apply StronglySorted_cons].
    apply Forall_cons. split; [done |]. eapply Forall_impl; [exact Hx |].
    intros y Hy. by apply (compare_lt_trans node x y).
  - destruct (Z.eqb_spec (compare node x) 0); apply StronglySorted_cons; [done |].
    split; [|auto]. apply Forall_forall. intros y [->|Hy]%elem_of_insert_sorted.
    + apply compare_gt. lia.
    + rewrite Forall_forall in Hx. auto.
Qed.

(** The side the new node went to, in a tree that got higher. *)
Definition grown node t : Prop :=
  match t with
  | Null => False
  | Node l x _ r =>
      (l = Null /\ r = Null) \/ (compare node x < 0 /\ HEIGHT l = HEIGHT r + 1) \/
      (0 < compare node x /\ HEIGHT r = HEIGHT l + 1)
  end.

Lemma insert_left_avl node l l' x h r :
  avl (Node l x h r) -> avl l' -> compare node x < 0 ->
  HEIGHT l' = HEIGHT l \/ HEIGHT l' = HEIGHT l + 1 /\ grown node l' ->
  exists t',
    (if HEIGHT l' - HEIGHT r =? 2 then
       xl ← node_of l';
       if compare node xl <? 0 then _avlsinglerotateleft (Node l' x h r)
       else if 0 <? compare node xl then _avldoublerotateleft (Node l' x h r)
       else Some (Node l' x h r)
     else Some (node_fix l' x r)) = Some t' /\
    avl t' /\ elems t' = elems l' ++ x :: elems r /\
    (HEIGHT t' = h \/ HEIGHT t' = h + 1 /\ grown node t').
Proof.
  intros (Hl & Hr & Hh & Hd) Hl' Hx Hg. pose proof (avl_height _ Hr).
  destruct (Z.eqb_spec (HEIGHT l' - HEIGHT r) 2) as [E|E].
  - destruct Hg as [Hg|[Hg Hside]]; [lia |].
    destruct (rotate_left_avl l' x h r Hl' Hr E) as (ll & xl & hl & lr & -> & Hs & Hdb).
    simpl in Hside, Hg, E. cbn [node_of mbind option_bind]. pose proof Hl' as (_ & _ & Hhl & _).
    destruct Hside as [[-> ->]|[[Hc Hhe]|[Hc Hhe]]]; [simpl in Hhl; lia | |].
    + rewrite (proj2 (Z.ltb_lt _ _)) by done. destruct Hs as (t' & -> & Ha & He & HH); [lia |].
      rewrite decide_True in HH by lia. exists t'. split_and!; try done. simpl in HH. left. lia.
    + rewrite (proj2 (Z.ltb_ge _ _)), (proj2 (Z.ltb_lt _ _)) by lia.
      destruct Hdb as (t' & -> & Ha & He & HH); [lia |].
      exists t'. split_and!; try done. simpl in HH. left. lia.
  - exists (node_fix l' x r). split; [done |]. split; [apply node_fix_avl; done || lia |].
    split; [done |]. unfold node_fix. simpl. rewrite MAX_max. destruct Hg as [Hg|[Hg _]].
    + left. lia.
    + destruct (Z.eq_dec (HEIGHT l') (HEIGHT r + 1)); [right | left; lia].
      split; [lia |]. right. by left.
Qed.

Lemma insert_right_avl node l x h r r' :
  avl (Node l x h r) -> avl r' -> 0 < compare node x ->
  HEIGHT r' = HEIGHT r \/ HEIGHT r' = HEIGHT r + 1 /\ grown node r' ->
  exists t',
    (if HEIGHT r' - HEIGHT l =? 2 then
       xr ← node_of r';
       if compare node xr <? 0 then _avldoublerotateright (Node l x h r')
       else if 0 <? compare node xr then _avlsinglerotateright (Node l x h r')
       else Some (Node l x h r')
     else Some (node_fix l x r')) = Some t' /\
    avl t' /\ elems t' = elems l ++ x :: elems r' /\
    (HEIGHT t' = h \/ HEIGHT t' = h + 1 /\ grown node t').
Proof.
  intros (Hl & Hr & Hh & Hd) Hr' Hx Hg. pose proof (avl_height _ Hl).
  destruct (Z.eqb_spec (HEIGHT r' - HEIGHT l) 2) as [E|E].
  - destruct Hg as [Hg|[Hg Hside]]; [lia |].
    destruct (rotate_right_avl l x h r' Hl Hr' E) as (rl & xr & hr & rr & -> & Hs & Hdb).
    simpl in Hside, Hg, E. cbn [node_of mbind option_bind]. pose proof Hr' as (_ & _ & Hhr & _).
    destruct Hside as [[-> ->]|[[Hc Hhe]|[Hc Hhe]]]; [simpl in Hhr; lia | |].
    + rewrite (proj2 (Z.ltb_lt _ _)) by done.
      destruct Hdb as (t' & -> & Ha & He & HH); [lia |].
      exists t'. split_and!; try done. simpl in HH. left. lia.
    + rewrite (proj2 (Z.ltb_ge _ _)), (proj2 (Z.ltb_lt _ _)) by lia.
      destruct Hs as (t' & -> & Ha & He & HH); [lia |].
      rewrite decide_True in HH by lia. exists t'. split_and!; try done. simpl in HH. left. lia.
  - exists (node_fix l x r'). split; [done |]. split; [apply node_fix_avl; done || lia |].
    split; [done |]. unfold node_fix. simpl. rewrite MAX_max. destruct Hg as [Hg|[Hg _]].
    + left. lia.
    + destruct (Z.eq_dec (HEIGHT r') (HEIGHT l + 1)); [right | left; lia].
      split; [lia |]. right. by right.
Qed.

Lemma avlinsert_rec_spec node t :
  avl t -> ordered (elems t) ->
  exists t', avlinsert_rec compare t node = Some t' /\ avl t' /\
    elems t' = list_insert_sorted node (elems t) /\
    (HEIGHT t' = HEIGHT t \/ HEIGHT t' = HEIGHT t + 1 /\ grown node t').
Proof.
  induction t as [|l IHl x h r IHr]; intros Ha Ho.
  - eexists. split; [reflexivity |]. simpl. split_and!; try done; try lia. right. auto.
  - pose proof Ha as (Hl & Hr & _). cbn [avlinsert_rec elems] in Ho |- *. cbv zeta.
    pose proof Ho as (Hol & Hor & _)%ordered_app.
    destruct (Z.ltb_spec (compare node x) 0) as [Hlt|Hge].
    + destruct (IHl Hl Hol) as (l' & -> & Hl' & El & Hg). cbn [mbind option_bind].
      destruct (insert_left_avl node l l' x h r Ha Hl' Hlt Hg) as (t' & -> & Ha' & E & Hh).
      exists t'. by rewrite insert_sorted_lt, <- El by done.
    + destruct (Z.ltb_spec 0 (compare node x)) as [Hgt|Hle].
      * destruct (IHr Hr Hor) as (r' & -> & Hr' & Er & Hg). cbn [mbind option_bind].
        destruct (insert_right_avl node l x h r r' Ha Hr' Hgt Hg) as (t' & -> & Ha' & E & Hh).
        exists t'. rewrite insert_sorted_skip by (eapply (ordered_left_gt node (elems l) x); [done | lia]). simpl.
        rewrite (proj2 (Z.ltb_ge _ _)), (proj2 (Z.eqb_neq _ _)), <- Er by lia. done.
      * eexists. split; [reflexivity |]. split_and!; try done; [|by left].
        rewrite insert_sorted_skip by (eapply (ordered_left_gt node (elems l) x); [done | lia]). simpl.
        by replace (compare node x) with 0 by lia.
Qed.

(** ** Search *)

(** Everything to the right of [x] is above a node that is not. *)
Lemma ordered_right_lt node xs1 x xs2 :
  ordered (xs1 ++ x :: xs2) -> compare node x <= 0 ->
  forall y, y ∈ xs2 -> compare node y < 0.
Proof.
  intros (_ & _ & _ & Hgt)%ordered_app Hx y Hy.
  destruct (Z.eq_dec (compare node x) 0) as [E|E].
  - by apply (compare_eq_lt node x y); auto.
  - apply (compare_lt_trans node x y); [lia | auto].
Qed.

Lemma avlsearch_rec_spec node t :
  ordered (elems t) -> node_of (avlsearch_rec compare t node) = list_search node (elems t).
Proof.
  induction t as [|l IHl x h r IHr]; [done |]. cbn [avlsearch_rec elems]. intros Ho.
  pose proof Ho as (Hol & Hor & _)%ordered_app. unfold list_search. cbv zeta.
  rewrite head_filter_app.
  destruct (Z.ltb_spec (compare node x) 0) as [Hlt|Hge].
  - rewrite (IHl Hol). unfold list_search. case_match; [done |].
    rewrite filter_none; [done |]. intros y [->|Hy]%elem_of_cons; [lia |].
    pose proof (ordered_right_lt node _ _ _ Ho ltac:(lia) y Hy). lia.
  - rewrite (filter_none _ (elems l)); simpl.
    2: { intros y Hy. pose proof (ordered_left_gt node _ _ _ Ho Hge y Hy). lia. }
    destruct (Z.ltb_spec 0 (compare node x)) as [Hgt|Hle].
    + rewrite (IHr Hor), filter_cons_False by lia. done.
    + by rewrite filter_cons_True by lia.
Qed.

Lemma avllowerbound_spec node t :
  ordered (elems t) -> node_of (avllowerbound compare t node) = list_lower node (elems t).
Proof.
  induction t as [|l IHl x h r IHr]; [done |]. cbn [avllowerbound elems]. intros Ho.
  pose proof Ho as (Hol & Hor & _)%ordered_app. unfold list_lower in *. cbv zeta.
  rewrite head_filter_app.
  destruct (Z.ltb_spec (compare node x) 0) as [Hlt|Hge].
  - rewrite <- (IHl Hol), filter_cons_True by lia.
    by destruct (avllowerbound compare l node).
  - rewrite (filter_none _ (elems l)); simpl.
    2: { intros y Hy. pose proof (ordered_left_gt node _ _ _ Ho Hge y Hy). lia. }
    destruct (Z.ltb_spec 0 (compare node x)) as [Hgt|Hle].
    + rewrite (IHr Hor), filter_cons_False by lia. done.
    + by rewrite filter_cons_True by lia.
Qed.

Lemma avlupperbound_spec node t :
  ordered (elems t) -> node_of (avlupperbound compare t node) = list_upper node (elems t).
Proof.
  induction t as [|l IHl x h r IHr]; [done |]. cbn [avlupperbound elems]. intros Ho.
  pose proof Ho as (Hol & Hor & _)%ordered_app. unfold list_upper in *. cbv zeta.
  rewrite head_filter_app.
  destruct (Z.ltb_spec (compare node x) 0) as [Hlt|Hge].
  - rewrite <- (IHl Hol), filter_cons_True by lia.
    by destruct (avlupperbound compare l node).
  - rewrite (filter_none _ (elems l)), filter_cons_False; simpl; [by apply IHr | lia |].
    intros y Hy. pose proof (ordered_left_gt node _ _ _ Ho Hge y Hy). lia.
Qed.

Lemma avlgetmin_spec t :
  t <> Null -> exists tmp th tr, avlgetmin t = Node Null tmp th tr /\ head (elems t) = Some tmp.
Proof.
  induction t as [|l IHl x h r _]; [done |]. intros _. destruct l as [|ll xl hl lr].
  - by exists x, h, r.
  - destruct IHl as (tmp & th & tr & E & Hh); [done |]. exists tmp, th, tr.
    split; [exact E |]. cbn [elems] in *. by destruct (elems ll).
Qed.

Lemma avlgetmax_spec t : node_of (avlgetmax t) = last (elems t).
Proof.
  induction t as [|l _ x h r IHr]; [done |]. destruct r as [|rl xr hr rr].
  - cbn [elems]. by rewrite last_snoc.
  - change (avlgetmax (Node l x h (Node rl xr hr rr))) with (avlgetmax (Node rl xr hr rr)).
    rewrite IHr. cbn [elems]. rewrite !last_app_cons, (last_cons x), last_app_cons, last_cons.
    by destruct (last (elems rr)).
Qed.

(** ** Removal *)
Lemma list_remove_mid node xs1 x xs2 :
  ordered (xs1 ++ x :: xs2) -> compare node x = 0 -> list_remove node (xs1 ++ x :: xs2) = xs1 ++ xs2.
Proof.
  intros Ho Hx. unfold list_remove. rewrite filter_app, filter_cons_False by lia. f_equal.
  - apply filter_all. intros y Hy.
    pose proof (ordered_left_gt node _ _ _ Ho ltac:(lia) y Hy). lia.
  - apply filter_all. intros y Hy.
    pose proof (ordered_right_lt node _ _ _ Ho ltac:(lia) y Hy). lia.
Qed.

Lemma list_remove_left node xs1 x xs2 :
  ordered (xs1 ++ x :: xs2) -> compare node x < 0 ->
  list_remove node (xs1 ++ x :: xs2) = list_remove node xs1 ++ x :: xs2 /\
  list_search node (xs1 ++ x :: xs2) = list_search node xs1.
Proof.
  intros Ho Hx. unfold list_remove, list_search.
  assert (forall y, y ∈ xs2 -> compare node y <> 0) as Hr.
  { intros y Hy. pose proof (ordered_right_lt node _ _ _ Ho ltac:(lia) y Hy). lia. }
  rewrite head_filter_app, filter_app, filter_cons_True, (filter_all _ xs2) by (done || lia).
  split; [done |]. rewrite filter_cons_False, (filter_none _ xs2) by (done || lia).
  by case_match.
Qed.

Lemma list_remove_right node xs1 x xs2 :
  ordered (xs1 ++ x :: xs2) -> 0 < compare node x ->
  list_remove node (xs1 ++ x :: xs2) = xs1 ++ x :: list_remove node xs2 /\
  list_search node (xs1 ++ x :: xs2) = list_search node xs2.
Proof.
  intros Ho Hx. unfold list_remove, list_search.
  assert (forall y, y ∈ xs1 -> compare node y <> 0) as Hr.
  { intros y Hy. pose proof (ordered_left_gt node _ _ _ Ho ltac:(lia) y Hy). lia. }
  rewrite head_filter_app, filter_app, filter_cons_True, (filter_all _ xs1) by (done || lia).
  split; [done |]. by rewrite filter_cons_False, (filter_none _ xs1) by (done || lia).
Qed.

Lemma list_search_mid node xs1 x xs2 :
  ordered (xs1 ++ x :: xs2) -> compare node x = 0 -> list_search node (xs1 ++ x :: xs2) = Some x.
Proof.
  intros Ho Hx. unfold list_search. rewrite head_filter_app, (filter_none _ xs1); simpl.
  - by rewrite filter_cons_True.
  - intros y Hy. pose proof (ordered_left_gt node _ _ _ Ho ltac:(lia) y Hy). lia.
Qed.

Lemma store_rm_store (rm : option (option A)) v w : store_rm (store_rm rm v) w = store_rm rm w.
Proof. by destruct rm. Qed.

Lemma list_remove_ordered node xs : ordered xs -> ordered (list_remove node xs).
Proof.
  unfold ordered, list_remove. induction xs as [|x xs IH]; [done |].
  intros [Hx Hxs]%StronglySorted_cons. rewrite filter_cons. case_decide; [|auto].
  apply StronglySorted_cons. split; [|auto]. rewrite Forall_forall in Hx |- *.
  intros y [_ Hy]%list_elem_of_filter. auto.
Qed.

(** What a search sees of insertions and removals: the finite-map laws that a
    client of the tree works with. *)
Lemma compare_eq_trans x y z : compare x y = 0 -> compare y z = 0 -> compare x z = 0.
Proof.
  intros Hxy Hyz. pose proof (proj1 (compare_eq_sym y z) Hyz) as Hzy.
  pose proof (proj1 (compare_eq_sym x y) Hxy) as Hyx.
  destruct (Z.lt_trichotomy (compare x z) 0) as [Hl|[|Hg]]; [|done|].
  - pose proof (compare_eq_lt y x z Hyx Hl). lia.
  - apply compare_gt in Hg. pose proof (compare_lt_eq z x y Hg Hxy). lia.
Qed.

Lemma elem_of_list_search k y xs : list_search k xs = Some y -> y ∈ xs /\ compare k y = 0.
Proof.
  unfold list_search. intros Hs. apply head_Some in Hs as [l' E].
  assert (y ∈ filter (fun x => compare k x = 0) xs) as [? ?]%list_elem_of_filter
    by (rewrite E; constructor). done.
Qed.

Lemma list_search_elem k y xs :
  ordered xs -> y ∈ xs -> compare k y = 0 -> list_search k xs = Some y.
Proof. intros Ho (l1 & l2 & ->)%list_elem_of_split Hk. by apply list_search_mid. Qed.

Lemma list_search_cons k x xs :
  list_search k (x :: xs) = if decide (compare k x = 0) then Some x else list_search k xs.
Proof. unfold list_search. rewrite filter_cons. by case_decide. Qed.

Lemma list_search_insert k node xs :
  ordered xs ->
  list_search k (list_insert_sorted node xs)
  = match list_search k xs with
    | Some y => Some y
    | None => if decide (compare k node = 0) then Some node else None
    end.
Proof.
  unfold ordered. induction xs as [|x xs IH]; intros Ho; cbn [list_insert_sorted].
  { rewrite list_search_cons. by case_decide. }
  apply StronglySorted_cons in Ho as [Hx Ho]. rewrite Forall_forall in Hx.
  destruct (Z.ltb_spec (compare node x) 0) as [Hl|Hl].
  - rewrite list_search_cons. case_decide as Hk; [|by destruct (list_search k (x :: xs))].
    replace (list_search k (x :: xs)) with (@None A); [done |]. symmetry.
    unfold list_search. rewrite filter_none; [done |].
    intros y Hy Hky. assert (compare node y < 0) as Hny.
    { apply elem_of_cons in Hy as [->|Hy]; [done |]. by apply (compare_lt_trans node x y); auto. }
    pose proof (compare_eq_lt k node y Hk Hny). lia.
  - destruct (Z.eqb_spec (compare node x) 0) as [Hnx|Hnx].
    + rewrite list_search_cons. destruct (decide (compare k x = 0)) as [Hkx|Hkx]; [done |].
      destruct (list_search k xs); [done |]. case_decide as Hk; [|done].
      destruct (Hkx (compare_eq_trans k node x Hk Hnx)).
    + rewrite !list_search_cons. destruct (decide (compare k x = 0)); [done |]. by apply IH.
Qed.

Lemma list_search_remove k node xs :
  list_search k (list_remove node xs)
  = if decide (compare k node = 0) then None else list_search k xs.
Proof.
  unfold list_remove. induction xs as [|x xs IH]; [by case_decide |].
  rewrite filter_cons, list_search_cons. destruct (decide (compare node x <> 0)) as [Hn|Hn].
  - rewrite list_search_cons, IH. destruct (decide (compare k x = 0)) as [Hkx|Hkx]; [|done].
    rewrite decide_False; [done |]. intros Hk%compare_eq_sym. destruct Hn.
    by apply (compare_eq_trans node k x).
  - rewrite IH. destruct (decide (compare k node = 0)) as [Hk|Hk]; [done |].
    rewrite decide_False; [done |]. intros Hkx. destruct Hk.
    apply (compare_eq_trans k x node); [done |]. apply compare_eq_sym. lia.
Qed.

Lemma avlremove_rec_spec t : forall node rm,
  avl t -> ordered (elems t) -> t <> Null ->
  exists t', avlremove_rec compare t node rm
      = Some (t', store_rm rm (list_search node (elems t))) /\
    avl t' /\ elems t' = list_remove node (elems t) /\ HEIGHT t - 1 <= HEIGHT t' <= HEIGHT t.
Proof.
  induction t as [|l IHl x h r IHr]; [done |]. intros node rm Ha Ho _.
  pose proof Ha as (Hl & Hr & Hh & Hd). pose proof (avl_height _ Hl). pose proof (avl_height _ Hr).
  cbn [avlremove_rec elems HEIGHT] in Ho |- *. cbv zeta.
  pose proof Ho as (Hol & Hor & _)%ordered_app.
  destruct (Z.eqb_spec (compare node x) 0) as [E|E].
  { rewrite list_remove_mid, list_search_mid by done.
    destruct (decide (l = Null)) as [->|Hln];
      [exists r; rewrite store_rm_store; split_and!; try done; simpl in *; lia |].
    destruct (decide (r = Null)) as [->|Hrn].
    { destruct l; [done |]. eexists. rewrite store_rm_store. split; [done |].
      rewrite app_nil_r. split_and!; try done; simpl in *; lia. }
    destruct (avlgetmin_spec r Hrn) as (tmp & th & tr & Emin & Ehd).
    destruct (IHr tmp (store_rm rm None) Hr Hor Hrn) as (r' & Er' & Har' & Eer' & Hhr').
    assert (elems r = tmp :: elems r') as Etmp.
    { rewrite Eer'. destruct (elems r) as [|y ys]; [done |]. injection Ehd as ->.
      f_equal. symmetry. apply (list_remove_mid tmp [] tmp ys); [done | apply compare_refl]. }
    destruct (avl_rebalance_spec l tmp th r' Hl Har' ltac:(lia)) as (t' & Et & Hat & Eel & Hht & Hht').
    exists t'. rewrite Emin, Er'. destruct l; [done |]. destruct r; [done |].
    cbn [mbind option_bind]. rewrite Et. cbn [mbind option_bind].
    rewrite !store_rm_store, Eel, Etmp. split_and!; try done; lia. }
  destruct (Z.ltb_spec (compare node x) 0) as [Hlt|Hge].
  - destruct (list_remove_left node _ _ _ Ho Hlt) as [-> ->].
    assert (exists l', match l with
        | Null => Some (Null, store_rm rm None)
        | _ => avlremove_rec compare l node (store_rm rm None)
        end = Some (l', store_rm rm (list_search node (elems l))) /\ avl l' /\
        elems l' = list_remove node (elems l) /\ HEIGHT l - 1 <= HEIGHT l' <= HEIGHT l)
      as (l' & -> & Hl' & El' & Hhl').
    { destruct (decide (l = Null)) as [->|Hln]; [exists Null; split_and!; done || simpl; lia |].
      destruct (IHl node (store_rm rm None) Hl Hol Hln) as (l' & El & ?).
      exists l'. rewrite store_rm_store in El. split; [by destruct l | done]. }
    destruct (avl_rebalance_spec l' x h r Hl' Hr ltac:(lia)) as (t' & Et & Hat & Eel & Hht & Hht').
    exists t'. cbn [mbind option_bind]. rewrite Et. cbn [mbind option_bind].
    rewrite Eel, El'. split_and!; try done; lia.
  - destruct (list_remove_right node _ _ _ Ho ltac:(lia)) as [-> ->].
    assert (exists r', match r with
        | Null => Some (Null, store_rm rm None)
        | _ => avlremove_rec compare r node (store_rm rm None)
        end = Some (r', store_rm rm (list_search node (elems r))) /\ avl r' /\
        elems r' = list_remove node (elems r) /\ HEIGHT r - 1 <= HEIGHT r' <= HEIGHT r)
      as (r' & -> & Hr' & Er' & Hhr').
    { destruct (decide (r = Null)) as [->|Hrn]; [exists Null; split_and!; done || simpl; lia |].
      destruct (IHr node (store_rm rm None) Hr Hor Hrn) as (r' & Er & ?).
      exists r'. rewrite store_rm_store in Er. split; [by destruct r | done]. }
    destruct (avl_rebalance_spec l x h r' Hl Hr' ltac:(lia)) as (t' & Et & Hat & Eel & Hht & Hht').
    exists t'. cbn [mbind option_bind]. rewrite Et. cbn [mbind option_bind].
    rewrite Eel, Er'. split_and!; try done; lia.
Qed.
End Order.

(** The comparison macro over a numeric field. *)
Definition avl_simple_compare {A} (field : A -> Z) (left right : A) : Z :=
  if field right <? field left then 1 else if field left <? field right then -1 else 0.

#[export] Instance avl_simple_compare_ok {A} (field : A -> Z) :
  AvlCompare (avl_simple_compare field).
Proof.
  unfold avl_simple_compare.
  split; intros; repeat case_match; lia.
Qed.

Create HintDb avl.

(** ** The contract of the tree, at its entry points *)
Section Contract.
Context {A : Type} (compare : A -> A -> Z) `{!AvlCompare compare}.
Implicit Types (t : tree A) (node : A).

(** A tree as its owner holds it. *)
Definition search_tree (t : tree A) : Prop := avl t /\ ordered compare (elems t).

Lemma search_tree_Null : search_tree Null.
Proof. split; [done | constructor]. Qed.

Lemma avlinsert_search_tree t node :
  search_tree t ->
  exists t', avlinsert t (Some node) (Some compare) = Some t' /\ search_tree t' /\
    elems t' = list_insert_sorted compare node (elems t).
Proof.
  intros [Ha Ho]. destruct (avlinsert_rec_spec compare node t Ha Ho) as (t' & E & Ha' & El & _).
  exists t'. split; [done |]. split; [split; [done |] | done].
  rewrite El. by apply insert_sorted_ordered.
Qed.

Lemma avlremove_search_tree t node rm :
  search_tree t ->
  exists t', avlremove t (Some node) (Some rm) (Some compare)
      = Some (t', Some (match t with Null => rm | _ => list_search compare node (elems t) end)) /\
    search_tree t' /\ elems t' = list_remove compare node (elems t).
Proof.
  intros [Ha Ho]. destruct (decide (t = Null)) as [->|Hn].
  - exists Null. split; [done |]. split; [apply search_tree_Null | done].
  - destruct (avlremove_rec_spec compare t node (Some rm) Ha Ho Hn) as (t' & E & Ha' & El & _).
    exists t'. split; [by destruct t |]. split; [split; [done |] | done].
    rewrite El. by apply list_remove_ordered.
Qed.

Lemma avlremove_none t node : search_tree t ->
  exists t' rm, avlremove t (Some node) None (Some compare) = Some (t', rm) /\ search_tree t' /\
    elems t' = list_remove compare node (elems t).
Proof.
  intros [Ha Ho]. destruct (decide (t = Null)) as [-> | Hn].
  - exists Null, None. split; [done |]. split; [apply search_tree_Null | done].
  - destruct (avlremove_rec_spec compare t node None Ha Ho Hn) as (t' & E & Ha' & El & _).
    exists t', None. split; [by destruct t |]. split; [split; [done |] | done]. rewrite El. by apply list_remove_ordered.
Qed.

Lemma insert_sorted_perm x (xs : list A) : (forall y, y ∈ xs -> compare x y <> 0) ->
  list_insert_sorted compare x xs ≡ₚ x :: xs.
Proof.
  induction xs as [|y xs IH]; intros Hne; [done |]. cbn [list_insert_sorted].
  destruct (compare x y <? 0) eqn:E1; [done |]. destruct (Z.eqb_spec (compare x y) 0) as [E2 | E2].
  - exfalso. apply (Hne y); [by constructor | done].
  - rewrite IH by (intros z Hz; apply Hne; by constructor). by apply perm_swap.
Qed.

Lemma avlsearch_search_tree t node :
  search_tree t ->
  node_of (avlsearch t (Some node) (Some compare)) = list_search compare node (elems t).
Proof. intros [_ Ho]. by apply avlsearch_rec_spec. Qed.

(** C11: insertion into a balanced search tree never dereferences NULL, keeps the
    tree balanced with its stored heights exact, gives the sorted list with the
    node inserted (nothing changes when an equal node is there), and grows the
    height by at most one. *)
Theorem avlinsert_correct t node :
  avl t -> ordered compare (elems t) ->
  exists t', avlinsert t (Some node) (Some compare) = Some t' /\ avl t' /\
    ordered compare (elems t') /\ elems t' = list_insert_sorted compare node (elems t) /\
    HEIGHT t <= HEIGHT t' <= HEIGHT t + 1.
Proof.
  intros Ha Ho. destruct (avlinsert_rec_spec compare node t Ha Ho) as (t' & E & Ha' & El & Hh).
  exists t'. split_and!; try done; [|destruct Hh as [|[]]; lia ..].
  rewrite El. by apply insert_sorted_ordered.
Qed.

(** C12: removal keeps the tree balanced and ordered, takes out exactly the node
    that compares equal, reports it through [rmnode] (NULL when there is none,
    and nothing is stored for a NULL pointer), and lowers the height by at most
    one. *)
Theorem avlremove_correct t node rmnode :
  avl t -> ordered compare (elems t) -> t <> Null ->
  exists t', avlremove t (Some node) rmnode (Some compare)
      = Some (t', store_rm rmnode (list_search compare node (elems t))) /\
    avl t' /\ ordered compare (elems t') /\ elems t' = list_remove compare node (elems t) /\
    HEIGHT t - 1 <= HEIGHT t' <= HEIGHT t.
Proof.
  intros Ha Ho Hn.
  destruct (avlremove_rec_spec compare t node rmnode Ha Ho Hn) as (t' & E & Ha' & El & Hh).
  exists t'. split_and!; try done; [by destruct t | | lia ..].
  rewrite El. by apply list_remove_ordered.
Qed.

(** The queries on a search tree: search finds the equal node, the bounds
    the first node that is not below, or is above, the given one, and the two
    ends are the first and the last node of the list. *)
Theorem avl_queries_correct t node :
  ordered compare (elems t) ->
  node_of (avlsearch t (Some node) (Some compare)) = list_search compare node (elems t) /\
  node_of (avllowerbound compare t node) = list_lower compare node (elems t) /\
  node_of (avlupperbound compare t node) = list_upper compare node (elems t) /\
  node_of (avlgetmin t) = head (elems t) /\
  node_of (avlgetmax t) = last (elems t).
Proof.
  intros Ho. split; [by apply avlsearch_rec_spec |].
  split; [by apply avllowerbound_spec |]. split; [by apply avlupperbound_spec |].
  split; [|apply avlgetmax_spec].
  destruct (decide (t = Null)) as [->|Hn]; [done |].
  by destruct (avlgetmin_spec t Hn) as (tmp & th & tr & -> & ->).
Qed.

Lemma avl_size t : avl t -> 2 ^ ((HEIGHT t + 1) / 2) <= zlen (elems t) + 1.
Proof.
  induction t as [|l IHl x h r IHr]; [done |]. intros (Hl & Hr & Hh & Hd).
  specialize (IHl Hl). specialize (IHr Hr). cbn [elems HEIGHT].
  rewrite zlen_app, zlen_cons.
  pose proof (avl_height _ Hl). pose proof (avl_height _ Hr).
  assert (2 ^ ((h - 1) / 2) <= 2 ^ ((HEIGHT l + 1) / 2)).
  { apply Z.pow_le_mono_r; [lia |]. apply Z.div_le_mono; lia. }
  assert (2 ^ ((h - 1) / 2) <= 2 ^ ((HEIGHT r + 1) / 2)).
  { apply Z.pow_le_mono_r; [lia |]. apply Z.div_le_mono; lia. }
  replace (h + 1) with (h - 1 + 1 * 2) by lia. rewrite Z.div_add by lia.
  assert (h = 0 \/ 0 <= (h - 1) / 2) as [-> | Hp].
  { destruct (Z.eq_dec h 0); [by left | right; apply Z.div_pos; lia]. }
  - change (2 ^ ((0 - 1) / 2 + 1)) with 1. pose proof (zlen_nonneg (elems l)).
    pose proof (zlen_nonneg (elems r)). lia.
  - rewrite Z.pow_add_r by lia. lia.
Qed.

(** the height of a balanced tree is logarithmic in the number of nodes, so
    the int that stores it cannot overflow. *)
Theorem avl_height_log t :
  avl t -> HEIGHT t <= 2 * Z.log2 (zlen (elems t) + 1).
Proof.
  intros Ha. pose proof (avl_size t Ha) as Hs. pose proof (avl_height t Ha).
  pose proof (zlen_nonneg (elems t)).
  apply Z.log2_le_mono in Hs. rewrite Z.log2_pow2 in Hs by (apply Z.div_pos; lia).
  pose proof (Z.div_mod (HEIGHT t + 1) 2). pose proof (Z.mod_pos_bound (HEIGHT t + 1) 2). lia.
Qed.
End Contract.

#[export] Hint Resolve search_tree_Null : avl.

(** The tree that inserting 1..7 in order builds, a duplicate and a removal. *)
Definition zcompare : Z -> Z -> Z := avl_simple_compare (fun x => x).

Definition insert_all (xs : list Z) : option (tree Z) :=
  foldl (fun t x => t ← t; avlinsert t (Some x) (Some zcompare)) (Some Null) xs.

Definition demo_tree : tree Z := default Null (insert_all [1; 2; 3; 4; 5; 6; 7]).

Lemma demo_tree_ok : avl demo_tree /\ ordered zcompare (elems demo_tree).
Proof.
  split; [vm_compute; intuition discriminate |].
  repeat (apply StronglySorted_cons; split; [repeat constructor |]). constructor.
Qed.

Lemma avlinsert_correct_witness :
  exists t', avlinsert demo_tree (Some 4) (Some zcompare) = Some t' /\ avl t' /\
    ordered zcompare (elems t') /\ elems t' = list_insert_sorted zcompare 4 (elems demo_tree) /\
    HEIGHT demo_tree <= HEIGHT t' <= HEIGHT demo_tree + 1.
Proof. exact (avlinsert_correct zcompare demo_tree 4 (proj1 demo_tree_ok) (proj2 demo_tree_ok)). Defined.

Lemma avlremove_correct_witness :
  exists t', avlremove demo_tree (Some 4) (Some (Some 9)) (Some zcompare)
      = Some (t', store_rm (Some (Some 9)) (list_search zcompare 4 (elems demo_tree))) /\
    avl t' /\ ordered zcompare (elems t') /\ elems t' = list_remove zcompare 4 (elems demo_tree) /\
    HEIGHT demo_tree - 1 <= HEIGHT t' <= HEIGHT demo_tree.
Proof.
  apply (avlremove_correct zcompare demo_tree 4 (Some (Some 9)) (proj1 demo_tree_ok) (proj2 demo_tree_ok)).
  vm_compute. discriminate.
Defined.

Lemma avl_queries_correct_witness :
  node_of (avlsearch demo_tree (Some 4) (Some zcompare)) = list_search zcompare 4 (elems demo_tree) /\
  node_of (avllowerbound zcompare demo_tree 4) = list_lower zcompare 4 (elems demo_tree) /\
  node_of (avlupperbound zcompare demo_tree 4) = list_upper zcompare 4 (elems demo_tree) /\
  node_of (avlgetmin demo_tree) = head (elems demo_tree) /\
  node_of (avlgetmax demo_tree) = last (elems demo_tree).
Proof. exact (avl_queries_correct zcompare demo_tree 4 (proj2 demo_tree_ok)). Defined.

Lemma avl_height_log_witness : HEIGHT demo_tree <= 2 * Z.log2 (zlen (elems demo_tree) + 1).
Proof. exact (avl_height_log demo_tree (proj1 demo_tree_ok)). Defined.
