(* ===== verification/CkFifo.v ===== *)
(** The byte ring buffer: src/cfifo.c and include/cfifo.h.

    A [ckfifo] is the struct of cfifo.c less its mutex: every entry point holds
    it from its first to its last access, so an entry point is one step.  The
    counters [in_] and [out] are 32-bit and wrap around. *)
From S2P Require Import Prelude.
Local Open Scope c_scope.

Record ckfifo := Ckfifo { buffer : list Z; size : Z; in_ : Z; out : Z }.

(** is_powerof_2 of include/compiler.h on a uint32_t *)
Definition is_powerof_2 (x : Z) : bool := negb (x =? 0) && (Z.land x (x -u32 1) =? 0).

Definition _ckfifo_len (ring : ckfifo) : Z := in_ ring -u32 out ring.

(** [dst] is the caller's block; the result is the count, the block and the
    ring. *)
Definition _ckfifo_get (ring : ckfifo) (dst : list Z) (sz : Z) : option (Z * list Z * ckfifo) :=
  let n := Z.min sz (in_ ring -u32 out ring) in
  let off := Z.land (out ring) (size ring -u32 1) in
  let len := Z.min n (size ring -u32 off) in
  s1 ← memread (buffer ring) off len;
  dst1 ← memcpy_at dst 0 s1;
  s2 ← memread (buffer ring) 0 (n -u32 len);
  dst2 ← memcpy_at dst1 len s2;
  Some (n, dst2, Ckfifo (buffer ring) (size ring) (in_ ring) (out ring +u32 n)).

Definition _ckfifo_put (ring : ckfifo) (src : list Z) (sz : Z) : option (Z * ckfifo) :=
  let n := Z.min sz (u32 (size ring - in_ ring + out ring)) in
  let off := Z.land (in_ ring) (size ring -u32 1) in
  let len := Z.min n (size ring -u32 off) in
  s1 ← memread src 0 len;
  b1 ← memcpy_at (buffer ring) off s1;
  s2 ← memread src len (n -u32 len);
  b2 ← memcpy_at b1 0 s2;
  Some (n, Ckfifo b2 (size ring) (in_ ring +u32 n) (out ring)).

(** [alloc]: whether ztrymalloc gives a struct; [buf = None]: a NULL buffer. *)
Definition ckfifo_init (alloc : bool) (buf : option (list Z)) (sz : Z) : option ckfifo :=
  match buf with
  | Some b => if is_powerof_2 sz && alloc then Some (Ckfifo b sz 0 0) else None
  | None => None
  end.

Definition ckfifo_len (ring : option ckfifo) : Z :=
  match ring with Some r => _ckfifo_len r | None => 0 end.

Definition ckfifo_get (ring : option ckfifo) (dst : option (list Z)) (sz : Z)
  : option (Z * option (list Z) * option ckfifo) :=
  match ring, dst with
  | Some r, Some d =>
      '(n, d', r') ← _ckfifo_get r d sz;
      let r'' := if in_ r' =? out r' then Ckfifo (buffer r') (size r') 0 0 else r' in
      Some (n, Some d', Some r'')
  | _, _ => Some (0, dst, ring)
  end.

Definition ckfifo_put (ring : option ckfifo) (src : option (list Z)) (sz : Z)
  : option (Z * option ckfifo) :=
  match ring, src with
  | Some r, Some s => '(n, r') ← _ckfifo_put r s sz; Some (n, Some r')
  | _, _ => Some (0, ring)
  end.

(** ** The ring holds a queue *)
Record ring_ok (ring : ckfifo) (q : list Z) : Prop := {
  ring_pow2 : exists k, 0 <= k <= 31 /\ size ring = 2 ^ k;
  ring_block : zlen (buffer ring) = size ring;
  ring_out : 0 <= out ring < 2 ^ 32;
  ring_in : in_ ring = u32 (out ring + zlen q);
  ring_fit : zlen q <= size ring;
  ring_cells i : 0 <= i < zlen q ->
    buffer ring !! Z.to_nat ((out ring + i) mod size ring) = q !! Z.to_nat i;
}.

(** The arithmetic of a well-formed ring: what the masks and the wrapped
    differences of the code come to. *)
Section Ring.
Context (ring : ckfifo) (q : list Z) (Hok : ring_ok ring q).

Lemma ring_size_range : 0 < size ring <= 2 ^ 31.
Proof.
  destruct (ring_pow2 _ _ Hok) as (k & Hk & ->). split; [lia |].
  apply Z.pow_le_mono_r; lia.
Qed.

Lemma ring_mask x : Z.land x (size ring -u32 1) = x mod size ring.
Proof.
  pose proof ring_size_range. pow2. destruct (ring_pow2 _ _ Hok) as (k & Hk & E).
  rewrite wrap_small by (pow2; lia). rewrite E. apply land_mask. lia.
Qed.

Lemma ring_len : in_ ring -u32 out ring = zlen q.
Proof.
  pose proof ring_size_range. pose proof (ring_fit _ _ Hok). pose proof (zlen_nonneg q).
  rewrite (ring_in _ _ Hok). unfold wrap. rewrite Zminus_mod_idemp_l.
  replace (out ring + zlen q - out ring) with (zlen q) by lia.
  apply Z.mod_small. pow2. lia.
Qed.

Lemma ring_free : u32 (size ring - in_ ring + out ring) = size ring - zlen q.
Proof.
  pose proof ring_size_range. pose proof (ring_fit _ _ Hok). pose proof (zlen_nonneg q).
  rewrite (ring_in _ _ Hok). unfold wrap.
  replace (size ring - (out ring + zlen q) mod 2 ^ 32 + out ring)
    with (size ring + out ring - (out ring + zlen q) mod 2 ^ 32) by lia.
  rewrite Zminus_mod_idemp_r.
  replace (size ring + out ring - (out ring + zlen q)) with (size ring - zlen q) by lia.
  apply Z.mod_small. pow2. lia.
Qed.

Lemma ring_in_mod : in_ ring mod size ring = (out ring mod size ring + zlen q) mod size ring.
Proof.
  destruct (ring_pow2 _ _ Hok) as (k & Hk & ->).
  rewrite (ring_in _ _ Hok), wrap_mod_pow2 by lia. by rewrite Zplus_mod_idemp_l.
Qed.

Lemma ring_rest off : 0 <= off < size ring -> size ring -u32 off = size ring - off.
Proof. intros Hoff. pose proof ring_size_range. apply wrap_small. pow2. lia. Qed.

(** Cell [i] of the queue, counted from the out offset. *)
Lemma ring_cell i :
  0 <= i < zlen q ->
  buffer ring !! Z.to_nat ((out ring mod size ring + i) mod size ring) = q !! Z.to_nat i.
Proof. intros Hi. rewrite Zplus_mod_idemp_l. by apply (ring_cells _ _ Hok). Qed.
End Ring.

Lemma _ckfifo_get_spec ring q dst sz :
  ring_ok ring q -> 0 <= sz <= zlen dst ->
  let n := Z.min sz (zlen q) in
  exists dst' ring', _ckfifo_get ring dst sz = Some (n, dst', ring') /\
    take (Z.to_nat n) dst' = take (Z.to_nat n) q /\
    drop (Z.to_nat n) dst' = drop (Z.to_nat n) dst /\
    ring_ok ring' (drop (Z.to_nat n) q) /\ size ring' = size ring.
Proof.
  intros Hok Hsz n. pose proof (ring_size_range _ _ Hok) as HS. pow2.
  pose proof (ring_fit _ _ Hok) as Hfit. pose proof (zlen_nonneg q) as Hq.
  unfold _ckfifo_get. rewrite (ring_len _ _ Hok), (ring_mask _ _ Hok). fold n.
  set (o := out ring mod size ring).
  assert (0 <= o < size ring) as Ho by (apply Z.mod_pos_bound; lia).
  rewrite (ring_rest _ _ Hok) by done. set (len := Z.min n (size ring - o)).
  rewrite (wrap_small 32 (n - len)) by (pow2; lia).
  pose proof (ring_block _ _ Hok) as Hblk.
  destruct (memread_some (buffer ring) o len) as (s1 & -> & Hs1 & L1); [lia .. |].
  simpl. destruct (memcpy_at_some dst s1 0) as [d1 Hd1]; [lia .. |]. rewrite Hd1. simpl.
  destruct (memread_some (buffer ring) 0 (n - len)) as (s2 & -> & Hs2 & L2); [lia .. |].
  simpl. pose proof (memcpy_at_len _ _ _ _ Hd1) as Hd1l.
  destruct (memcpy_at_some d1 s2 len) as [d2 Hd2]; [lia .. |]. rewrite Hd2. simpl.
  pose proof (memcpy_at_len _ _ _ _ Hd2) as Hd2l.
  assert (forall i, 0 <= i < n -> d2 !! Z.to_nat i = q !! Z.to_nat i) as Hcopy.
  { intros i Hi. rewrite (memcpy_at_lookup _ _ _ _ _ Hd2) by lia.
    rewrite <- (ring_cell _ _ Hok) by lia. fold o. rewrite mod_once by lia.
    case_decide.
    - rewrite L2, decide_False by lia. f_equal. lia.
    - rewrite (memcpy_at_lookup _ _ _ _ _ Hd1), decide_True, L1, decide_True by lia. f_equal. lia. }
  eexists _, _. split; [reflexivity |]. split_and!.
  - apply list_eq. intros i. destruct (decide (i < Z.to_nat n)%nat).
    + rewrite !lookup_take_lt by lia. rewrite <- (Nat2Z.id i). apply Hcopy. lia.
    + by rewrite !lookup_take_ge by lia.
  - apply list_eq. intros i. rewrite !lookup_drop.
    replace (Z.to_nat n + i)%nat with (Z.to_nat (n + Z.of_nat i)) by lia.
    rewrite (memcpy_at_lookup _ _ _ _ _ Hd2), decide_False by lia.
    by rewrite (memcpy_at_lookup _ _ _ _ _ Hd1), decide_False by lia.
  - assert (zlen (drop (Z.to_nat n) q) = zlen q - n) as Hql.
    { unfold zlen in *. rewrite length_drop. lia. }
    split; cbn [buffer size in_ out]; rewrite ?Hql.
    + apply Hok.
    + done.
    + apply wrap_range. lia.
    + rewrite (ring_in _ _ Hok). unfold wrap. rewrite Zplus_mod_idemp_l. f_equal. lia.
    + lia.
    + intros i Hi. rewrite lookup_drop.
      replace (Z.to_nat n + Z.to_nat i)%nat with (Z.to_nat (n + i)) by lia.
      rewrite <- (ring_cells _ _ Hok) by lia. do 2 f_equal.
      destruct (ring_pow2 _ _ Hok) as (k & Hk & ->).
      rewrite <- Zplus_mod_idemp_l, wrap_mod_pow2 by lia. rewrite Zplus_mod_idemp_l. f_equal. lia.
  - done.
Qed.

Lemma _ckfifo_put_spec ring q src sz :
  ring_ok ring q -> 0 <= sz <= zlen src ->
  let n := Z.min sz (size ring - zlen q) in
  exists ring', _ckfifo_put ring src sz = Some (n, ring') /\
    ring_ok ring' (q ++ take (Z.to_nat n) src) /\ size ring' = size ring.
Proof.
  intros Hok Hsz n. pose proof (ring_size_range _ _ Hok) as HS. pow2.
  pose proof (ring_fit _ _ Hok) as Hfit. pose proof (zlen_nonneg q) as Hq.
  unfold _ckfifo_put. rewrite (ring_free _ _ Hok), (ring_mask _ _ Hok), (ring_in_mod _ _ Hok). fold n.
  set (o := out ring mod size ring).
  assert (0 <= o < size ring) as Ho by (apply Z.mod_pos_bound; lia).
  set (w := (o + zlen q) mod size ring).
  assert (0 <= w < size ring) as Hw by (apply Z.mod_pos_bound; lia).
  assert (w = if decide (o + zlen q < size ring) then o + zlen q else o + zlen q - size ring) as Ew
    by (apply mod_once; lia).
  rewrite (ring_rest _ _ Hok) by done. set (len := Z.min n (size ring - w)).
  rewrite (wrap_small 32 (n - len)) by (pow2; lia).
  pose proof (ring_block _ _ Hok) as Hblk.
  destruct (memread_some src 0 len) as (s1 & -> & Hs1 & L1); [lia .. |]. simpl.
  destruct (memcpy_at_some (buffer ring) s1 w) as [b1 Hb1]; [lia .. |]. rewrite Hb1. simpl.
  destruct (memread_some src len (n - len)) as (s2 & -> & Hs2 & L2); [lia .. |]. simpl.
  pose proof (memcpy_at_len _ _ _ _ Hb1) as Hb1l.
  destruct (memcpy_at_some b1 s2 0) as [b2 Hb2]; [lia .. |]. rewrite Hb2. simpl.
  pose proof (memcpy_at_len _ _ _ _ Hb2) as Hb2l.
  eexists. split; [reflexivity |]. split; [|done].
  assert (zlen (q ++ take (Z.to_nat n) src) = zlen q + n) as Hql.
  { rewrite zlen_app. unfold zlen in *. rewrite length_take. lia. }
  split; cbn [buffer size in_ out]; rewrite ?Hql.
  - apply Hok.
  - lia.
  - apply Hok.
  - rewrite (ring_in _ _ Hok). unfold wrap. rewrite Zplus_mod_idemp_l. f_equal. lia.
  - lia.
  - intros i Hi. rewrite <- Zplus_mod_idemp_l. fold o.
    rewrite (memcpy_at_lookup _ _ _ _ _ Hb2) by (apply Z.mod_pos_bound; lia).
    rewrite (memcpy_at_lookup _ _ _ _ _ Hb1) by (apply Z.mod_pos_bound; lia).
    destruct (decide (i < zlen q)) as [Hin|Hnew].
    + rewrite lookup_app_l by (unfold zlen in *; lia).
      rewrite <- (ring_cell _ _ Hok) by lia. fold o.
      rewrite mod_once by lia. repeat case_decide; try lia; done.
    + rewrite lookup_app_r by (unfold zlen in *; lia). rewrite lookup_take_lt by (unfold zlen in *; lia).
      replace (Z.to_nat i - length q)%nat with (Z.to_nat (i - zlen q)) by (unfold zlen in *; lia).
      rewrite mod_once by lia.
      repeat case_decide; try lia; first [rewrite L1 by lia | rewrite L2 by lia]; f_equal; lia.
Qed.

(** ** Refinement: the ring is a bounded queue of bytes *)
Inductive fifo_op := Put (src : list Z) (sz : Z) | Get (dst : list Z) (sz : Z) | Len.

(** What a call returns, and for a get the bytes it wrote. *)
Definition fifo_step (ring : option ckfifo) (op : fifo_op)
  : option (Z * list Z * option ckfifo) :=
  match op with
  | Put src sz => '(n, ring') ← ckfifo_put ring (Some src) sz; Some (n, [], ring')
  | Get dst sz =>
      '(n, dst', ring') ← ckfifo_get ring (Some dst) sz;
      Some (n, take (Z.to_nat n) (default [] dst'), ring')
  | Len => Some (ckfifo_len ring, [], ring)
  end.

Fixpoint fifo_run (ring : option ckfifo) (ops : list fifo_op)
  : option (list (Z * list Z) * option ckfifo) :=
  match ops with
  | [] => Some ([], ring)
  | op :: ops' =>
      '(n, bs, ring') ← fifo_step ring op;
      '(outs, ring'') ← fifo_run ring' ops';
      Some ((n, bs) :: outs, ring'')
  end.

(** The specification: a queue of at most [cap] bytes. *)
Definition queue_step (cap : Z) (q : list Z) (op : fifo_op) : Z * list Z * list Z :=
  match op with
  | Put src sz =>
      let n := Z.min sz (cap - zlen q) in (n, [], q ++ take (Z.to_nat n) src)
  | Get _ sz =>
      let n := Z.min sz (zlen q) in (n, take (Z.to_nat n) q, drop (Z.to_nat n) q)
  | Len => (zlen q, [], q)
  end.

Fixpoint queue_run (cap : Z) (q : list Z) (ops : list fifo_op) : list (Z * list Z) :=
  match ops with
  | [] => []
  | op :: ops' =>
      let '(n, bs, q') := queue_step cap q op in (n, bs) :: queue_run cap q' ops'
  end.

(** The caller's block is as long as it says. *)
Definition fifo_op_ok (op : fifo_op) : Prop :=
  match op with Put b sz | Get b sz => 0 <= sz <= zlen b | Len => True end.

Lemma fifo_step_refines ring q op :
  ring_ok ring q -> fifo_op_ok op ->
  exists ring', fifo_step (Some ring) op
      = Some (queue_step (size ring) q op).1 ≫= (fun r => Some (r, Some ring')) /\
    ring_ok ring' (queue_step (size ring) q op).2 /\ size ring' = size ring.
Proof.
  intros Hok Hop. destruct op as [src sz|dst sz|]; cbn [fifo_step queue_step fst snd].
  - destruct (_ckfifo_put_spec ring q src sz Hok Hop) as (ring' & E & Hok' & Hsz).
    unfold ckfifo_put. rewrite E. by exists ring'.
  - destruct (_ckfifo_get_spec ring q dst sz Hok Hop) as (dst' & ring' & E & Htk & _ & Hok' & Hsz).
    unfold ckfifo_get. rewrite E. simpl. rewrite Htk. eexists. split; [reflexivity |].
    set (q' := drop _ q) in *. clearbody q'.
    destruct (Z.eqb_spec (in_ ring') (out ring')) as [Ee|Ee]; [|done]. split; [|done].
    assert (q' = []) as ->.
    { apply zlen_0. rewrite <- (ring_len _ _ Hok'), Ee, Z.sub_diag. done. }
    split; cbn [buffer size in_ out]; try done; try apply Hok'.
    intros i Hi. change (zlen []) with 0 in Hi. lia.
  - exists ring. unfold ckfifo_len, _ckfifo_len. by rewrite (ring_len _ _ Hok).
Qed.

Lemma fifo_run_refines ops : forall ring q,
  ring_ok ring q -> Forall fifo_op_ok ops ->
  exists ring', fifo_run (Some ring) ops = Some (queue_run (size ring) q ops, Some ring').
Proof.
  induction ops as [|op ops IH]; intros ring q Hok Hops; [by exists ring |].
  apply Forall_cons in Hops as [Hop Hops].
  destruct (fifo_step_refines ring q op Hok Hop) as (ring1 & E & Hok1 & Hsz).
  destruct (IH ring1 _ Hok1 Hops) as (ring2 & E2). exists ring2.
  cbn [fifo_run queue_run]. rewrite E. destruct (queue_step _ q op) as [[n bs] q'].
  simpl in *. rewrite E2. simpl. by rewrite Hsz.
Qed.

Lemma is_powerof_2_true x : 0 <= x < 2 ^ 32 -> is_powerof_2 x = true -> exists k, 0 <= k <= 31 /\ x = 2 ^ k.
Proof.
  unfold is_powerof_2. intros Hx [Hnz Hl]%andb_true_iff.
  apply negb_true_iff, Z.eqb_neq in Hnz. apply Z.eqb_eq in Hl.
  rewrite wrap_small in Hl by (pow2; lia).
  pose proof (Z.log2_spec x ltac:(lia)) as [Hlo Hhi]. pose proof (Z.log2_nonneg x).
  exists (Z.log2 x). split; [split; [done |] |].
  - pose proof (Z.log2_lt_pow2 x 32 ltac:(lia)). lia.
  - destruct (Z.eq_dec x (2 ^ Z.log2 x)) as [|Hne]; [done |]. exfalso.
    assert (Z.log2 (x - 1) = Z.log2 x) as E by (apply Z.log2_unique; lia).
    apply (f_equal (fun z => Z.testbit z (Z.log2 x))) in Hl.
    rewrite Z.land_spec, Z.bit_log2, Z.bits_0 in Hl by lia.
    assert (0 < x - 1) by (pose proof (Z.pow_pos_nonneg 2 (Z.log2 x)); lia).
    rewrite <- E, Z.bit_log2 in Hl by lia. done.
Qed.

Lemma ring_ok_empty buf k o :
  0 <= k <= 31 -> zlen buf = 2 ^ k -> 0 <= o < 2 ^ 32 -> ring_ok (Ckfifo buf (2 ^ k) o o) [].
Proof.
  intros Hk Hbuf Ho. split; cbn [buffer size in_ out]; try done; [eauto | | |].
  - change (zlen []) with 0. by rewrite Z.add_0_r, wrap_small.
  - change (zlen []) with 0. apply Z.pow_nonneg. lia.
  - intros i Hi. change (zlen []) with 0 in Hi. lia.
Qed.

(** C14: any sequence of puts, gets and length queries on a well-formed ring,
    whatever its counters (they may be about to wrap around at 2^32), returns
    the counts and hands out the bytes that a bounded queue with the same
    content does, and never accesses a cell outside of its buffer.  A put of more than
    there is room for, or a get of more than there is, is cut short and returns the
    smaller count, where the comments in cfifo.h promise the whole size or 0. *)
Theorem ckfifo_refines_queue ring q ops :
  ring_ok ring q -> Forall fifo_op_ok ops ->
  exists ring', fifo_run (Some ring) ops = Some (queue_run (size ring) q ops, Some ring').
Proof. apply fifo_run_refines. Qed.

(** [ckfifo_init] gives a ring exactly for a buffer and a size that is a
    power of two (and when the allocation succeeds), and that ring is
    well-formed and empty. *)
Theorem ckfifo_init_correct alloc buf sz :
  0 <= sz < 2 ^ 32 -> zlen buf = sz ->
  (is_Some (ckfifo_init alloc (Some buf) sz) <-> alloc = true /\ exists k, 0 <= k <= 31 /\ sz = 2 ^ k) /\
  (forall ring, ckfifo_init alloc (Some buf) sz = Some ring -> ring_ok ring [] /\ size ring = sz).
Proof.
  intros Hsz Hbuf. unfold ckfifo_init. split.
  - destruct (is_powerof_2 sz) eqn:Hp.
    + apply is_powerof_2_true in Hp; [|done]. destruct alloc; simpl; [naive_solver |].
      split; [intros [? [=]] | intros [[=] _]].
    + split; [intros [? [=]] |]. intros [_ (k & Hk & ->)]. exfalso.
      assert (0 < 2 ^ k) as Hpos by (apply Z.pow_pos_nonneg; lia).
      assert (u32 (2 ^ k - 1) = 2 ^ k - 1) as E by (apply wrap_small; lia).
      unfold is_powerof_2 in Hp. rewrite E, land_mask, Z.mod_same in Hp by lia.
      destruct (Z.eqb_spec (2 ^ k) 0); [lia | done].
  - intros ring. destruct (is_powerof_2 sz) eqn:Hp; [|done]. destruct alloc; [|done].
    simpl. intros [= <-]. split; [|done].
    apply is_powerof_2_true in Hp as (k & Hk & ->); [|done]. by apply ring_ok_empty.
Qed.

(** Counters three bytes before the wrap: two puts over it, then the gets. *)
Lemma ckfifo_refines_queue_witness :
  let ring := Ckfifo [0; 0; 0; 0; 0; 0; 0; 0] (2 ^ 3) 4294967293 4294967293 in
  exists ring',
    fifo_run (Some ring)
      [Put [1; 2; 3; 4; 5] 5; Put [6; 7; 8; 9] 4; Len; Get [0; 0; 0; 0; 0; 0] 6; Len; Get [0; 0; 0] 3]
    = Some (queue_run (2 ^ 3) []
        [Put [1; 2; 3; 4; 5] 5; Put [6; 7; 8; 9] 4; Len; Get [0; 0; 0; 0; 0; 0] 6; Len; Get [0; 0; 0] 3],
        Some ring').
Proof.
  intros ring. apply (ckfifo_refines_queue ring []).
  - by apply ring_ok_empty.
  - repeat constructor; done.
Defined.

Lemma ckfifo_init_correct_witness :
  (is_Some (ckfifo_init true (Some [0; 0; 0; 0]) 4) <->
     true = true /\ exists k, 0 <= k <= 31 /\ 4 = 2 ^ k) /\
  (forall ring, ckfifo_init true (Some [0; 0; 0; 0]) 4 = Some ring -> ring_ok ring [] /\ size ring = 4).
Proof. apply (ckfifo_init_correct true [0; 0; 0; 0] 4); [by split | done]. Defined.
