(* ===== verification/Object.v ===== *)
(** The object table: src/posix/wosi/object.c and include/object.h.

    A handle is a C long; handles hash into 256 AVL trees whose nodes are the
    [clash] members of the objects.  The model keeps the objects in a heap by
    address; a tree node is the pair of the object's handle (read by the compare
    routine; no operation changes it after the insertion) and its address
    ([containing_record]).  Every entry point takes the spin lock once around
    all of its accesses to the table, so an entry point is one step.

    [None] is undefined behaviour (a dangling or NULL pointer, signed overflow)
    or a failed assertion.  The calls of the [unloader] callbacks are kept in
    the order they happen, with their arguments. *)
From S2P Require Import Prelude AvlTree.

Definition OBJ_HASHTABLE_SIZE : Z := 256.
Definition OBJSTAT_NORMAL : Z := 0.
Definition OBJSTAT_CLOSEWAIT : Z := 1.
Definition INVALID_OBJHLD : Z := -1.
Definition LONG_MAX : Z := 2 ^ 63 - 1.
Definition INT_MAX : Z := 2 ^ 31 - 1.

(** [objinit_fp]: the body and the context to the result and the new body. *)
Definition objinit_fp : Type := list Z -> option (list Z) -> Z -> Z * list Z.
(** [objuninit_fp]: the address of the routine. *)
Definition objuninit_fp : Type := Z.

Record object_t := Object {
  hld : Z; status : Z; refcnt : Z; size : Z;
  initializer : option objinit_fp; unloader : option objuninit_fp; body : list Z;
}.

Record objcreator := Creator {
  known : Z; c_size : Z; c_initializer : option objinit_fp; c_unloader : option objuninit_fp;
  context : option (list Z); ctxsize : Z;
}.

Record clash_t := Clash { nd_hld : Z; nd_addr : Z }.

Record unload := Unload { u_fp : objuninit_fp; u_hld : Z; u_body : list Z }.

Record objmgr := Mgr {
  roottab : list (tree clash_t); atoid : Z;
  heap : gmap Z object_t; unloaded : list unload;
}.

Definition set_root (i : nat) (t : tree clash_t) (st : objmgr) : objmgr :=
  Mgr (<[i := t]> (roottab st)) (atoid st) (heap st) (unloaded st).
Definition set_atoid (n : Z) (st : objmgr) : objmgr :=
  Mgr (roottab st) n (heap st) (unloaded st).
Definition store (a : Z) (o : object_t) (st : objmgr) : objmgr :=
  Mgr (roottab st) (atoid st) (<[a := o]> (heap st)) (unloaded st).
Definition zfree (a : Z) (st : objmgr) : objmgr :=
  Mgr (roottab st) (atoid st) (delete a (heap st)) (unloaded st).

Definition set_hld (h : Z) (o : object_t) : object_t :=
  Object h (status o) (refcnt o) (size o) (initializer o) (unloader o) (body o).
Definition set_status (s : Z) (o : object_t) : object_t :=
  Object (hld o) s (refcnt o) (size o) (initializer o) (unloader o) (body o).
Definition set_refcnt (n : Z) (o : object_t) : object_t :=
  Object (hld o) (status o) n (size o) (initializer o) (unloader o) (body o).
Definition set_body (b : list Z) (o : object_t) : object_t :=
  Object (hld o) (status o) (refcnt o) (size o) (initializer o) (unloader o) b.

Definition _avl_compare_routine (left right : clash_t) : Z :=
  if nd_hld right <? nd_hld left then 1 else if nd_hld left <? nd_hld right then -1 else 0.

(** The stack object whose handle a search looks for. *)
Definition find (h : Z) : clash_t := Clash h 0.

Definition _hld2root (h : Z) : option nat :=
  if 0 <? h then Some (Z.to_nat (Z.land h (OBJ_HASHTABLE_SIZE - 1))) else None.

(** [++refcnt], an int *)
Definition increment (n : Z) : option Z := if n =? INT_MAX then None else Some (n + 1).

(** ** The table *)
Definition _objtabinst (a : Z) (st : objmgr) : option (Z * objmgr) :=
  obj ← heap st !! a;
  if negb (INVALID_OBJHLD =? hld obj) || (0 =? hld obj) then
    match _hld2root (hld obj) with
    | None => Some (posix__makeerror ENODEV, st)
    | Some i =>
        root ← roottab st !! i;
        match avlsearch root (Some (find (hld obj))) (Some _avl_compare_routine) with
        | Node _ _ _ _ => Some (posix__makeerror EEXIST, st)
        | Null =>
            root' ← avlinsert root (Some (Clash (hld obj) a)) (Some _avl_compare_routine);
            Some (posix__makeerror NSP_STATUS_SUCCESSFUL, set_root i root' st)
        end
    end
  else if atoid st =? LONG_MAX then None
  else
    let n := atoid st + 1 in
    let st := store a (set_hld n obj) (set_atoid n st) in
    match _hld2root n with
    | None => Some (posix__makeerror ENODEV, st)
    | Some i =>
        root ← roottab st !! i;
        root' ← avlinsert root (Some (Clash n a)) (Some _avl_compare_routine);
        Some (posix__makeerror NSP_STATUS_SUCCESSFUL, set_root i root' st)
    end.

(** The status and the address stored through [removed]. *)
Definition _objtabrmve (h : Z) (st : objmgr) : option (Z * option Z * objmgr) :=
  match _hld2root h with
  | None => Some (posix__makeerror ENODEV, None, st)
  | Some i =>
      root ← roottab st !! i;
      '(root', rm) ← avlremove root (Some (find h)) (Some None) (Some _avl_compare_routine);
      let rmnode := default None rm in
      Some (match rmnode with None => posix__makeerror ENODEV | Some _ => NSP_STATUS_SUCCESSFUL end,
            nd_addr <$> rmnode, set_root i root' st)
  end.

Definition _objtabsrch (h : Z) (st : objmgr) : option (option Z) :=
  match _hld2root h with
  | None => Some None
  | Some i =>
      root ← roottab st !! i;
      Some (nd_addr <$> node_of (avlsearch root (Some (find h)) (Some _avl_compare_routine)))
  end.

Definition call_unloader (fp : objuninit_fp) (h : Z) (b : list Z) (st : objmgr) : objmgr :=
  Mgr (roottab st) (atoid st) (heap st) (unloaded st ++ [Unload fp h b]).

Definition _objtagfree (target : Z) (st : objmgr) : option objmgr :=
  obj ← heap st !! target;
  let st := match unloader obj with
            | Some fp => call_unloader fp (hld obj) (body obj) st
            | None => st
            end in
  Some (zfree target st).

Definition _objinit : objmgr := Mgr (replicate (Z.to_nat OBJ_HASHTABLE_SIZE) Null) 0 ∅ [].

(** ** Allocation *)
Section Allocator.
(** zmalloc and ztrycalloc: an address outside of the live blocks. *)
Context (new_addr : gset Z -> Z).

Definition zmalloc (avail : bool) (st : objmgr) : option Z :=
  if avail then Some (new_addr (dom (heap st))) else None.

(** The guard both allocation routines start with. *)
Definition bad_creator (c : objcreator) : bool :=
  (c_size c =? 0) || (bool_decide (is_Some (context c)) && (ctxsize c =? 0))
  || (negb (bool_decide (is_Some (context c))) && negb (ctxsize c =? 0)).

(** The fields set before the initializer runs (the same in both). *)
Definition new_object (c : objcreator) : object_t :=
  Object (if known c =? 0 then INVALID_OBJHLD else known c) OBJSTAT_NORMAL 0 (c_size c)
    (c_initializer c) (c_unloader c) (replicate (Z.to_nat (c_size c)) 0).

(** The initializer's call: [Some (Some b)] goes on with the body [b],
    [Some None] is a failure, after which the unloader has been called
    without a check for NULL and the block freed. *)
Definition run_initializer (c : objcreator) (a : Z) (st : objmgr)
  : option (bool * objmgr) :=
  obj ← heap st !! a;
  match initializer obj with
  | None => Some (true, st)
  | Some init =>
      let '(r, b) := init (body obj) (context c) (s32 (ctxsize c)) in
      let st := store a (set_body b obj) st in
      if r <? 0 then
        fp ← unloader obj;
        Some (false, zfree a (call_unloader fp (-1) b st))
      else Some (true, st)
  end.

Definition objallo3 (creator : option objcreator) (avail : bool) (st : objmgr)
  : option (Z * objmgr) :=
  match creator with
  | None => Some (INVALID_OBJHLD, st)
  | Some c =>
      if bad_creator c then Some (INVALID_OBJHLD, st)
      else
        match zmalloc avail st with
        | None => Some (INVALID_OBJHLD, st)
        | Some a =>
            '(ok, st) ← run_initializer c a (store a (new_object c) st);
            if negb ok then Some (INVALID_OBJHLD, st)
            else
              '(s, st) ← _objtabinst a st;
              if negb (NSP_SUCCESS s) then Some (INVALID_OBJHLD, zfree a st)
              else obj ← heap st !! a; Some (hld obj, st)
        end
  end.

(** The status and what is stored through [out] (not NULL when [out] holds). *)
Definition objallo4 (creator : option objcreator) (out : bool) (avail : bool) (st : objmgr)
  : option (Z * option Z * objmgr) :=
  match creator with
  | Some c =>
      if negb out then Some (posix__makeerror EINVAL, None, st)
      else if bad_creator c then Some (posix__makeerror EINVAL, None, st)
      else
        match zmalloc avail st with
        | None => Some (posix__makeerror ENOMEM, None, st)
        | Some a =>
            '(ok, st) ← run_initializer c a (store a (new_object c) st);
            if negb ok then Some (NSP_STATUS_FATAL, None, st)
            else
              '(s, st) ← _objtabinst a st;
              if negb (NSP_SUCCESS s) then Some (s, None, zfree a st)
              else obj ← heap st !! a; Some (NSP_STATUS_SUCCESSFUL, Some (hld obj), st)
        end
  | None => Some (posix__makeerror EINVAL, None, st)
  end.

Definition objallo (sz : Z) (init : option objinit_fp) (unl : option objuninit_fp)
    (ctx : option (list Z)) (ctxsz : Z) (avail : bool) (st : objmgr) : option (Z * objmgr) :=
  objallo3 (Some (Creator INVALID_OBJHLD sz init unl ctx ctxsz)) avail st.

Definition objallo2 (sz : Z) (avail : bool) (st : objmgr) : option (Z * objmgr) :=
  objallo sz None None None 0 avail st.

(** ** References *)
(** [Some a]: a pointer to the body of the object at [a]. *)
Definition objrefr (h : Z) (st : objmgr) : option (option Z * objmgr) :=
  p ← _objtabsrch h st;
  match p with
  | None => Some (None, st)
  | Some a =>
      obj ← heap st !! a;
      if OBJSTAT_NORMAL =? status obj then
        n ← increment (refcnt obj); Some (Some a, store a (set_refcnt n obj) st)
      else Some (None, st)
  end.

Definition objrefr2 (h : Z) (out : bool) (st : objmgr) : option (Z * option Z * objmgr) :=
  if negb out then Some (u32 (-1), None, st)
  else
    p ← _objtabsrch h st;
    match p with
    | None => Some (u32 (-1), None, st)
    | Some a =>
        obj ← heap st !! a;
        if OBJSTAT_NORMAL =? status obj then
          n ← increment (refcnt obj); Some (size obj, Some a, store a (set_refcnt n obj) st)
        else Some (u32 (-1), None, st)
    end.

Definition objreff (h : Z) (st : objmgr) : option (option Z * objmgr) :=
  p ← _objtabsrch h st;
  match p with
  | None => Some (None, st)
  | Some a =>
      obj ← heap st !! a;
      if OBJSTAT_NORMAL =? status obj then
        n ← increment (refcnt obj);
        Some (Some a, store a (set_status OBJSTAT_CLOSEWAIT (set_refcnt n obj)) st)
      else Some (None, st)
  end.

(** The tail of [objdefr] and [objclos], after the lock is released. *)
Definition free_removed (removed : option Z) (st : objmgr) : option objmgr :=
  match removed with Some a => _objtagfree a st | None => Some st end.

Definition objdefr (h : Z) (st : objmgr) : option objmgr :=
  p ← _objtabsrch h st;
  match p with
  | None => Some st
  | Some a =>
      obj ← heap st !! a;
      if negb (0 <? refcnt obj) then None
      else
        let obj := set_refcnt (refcnt obj - 1) obj in
        let st := store a obj st in
        if (0 =? refcnt obj) && (OBJSTAT_CLOSEWAIT =? status obj)
        then '(_, removed, st) ← _objtabrmve (hld obj) st; free_removed removed st
        else Some st
  end.

Definition objclos (h : Z) (st : objmgr) : option objmgr :=
  p ← _objtabsrch h st;
  match p with
  | None => Some st
  | Some a =>
      obj ← heap st !! a;
      if (0 =? refcnt obj) && (OBJSTAT_NORMAL =? status obj)
      then '(_, removed, st) ← _objtabrmve (hld obj) st; free_removed removed st
      else Some (store a (set_status OBJSTAT_CLOSEWAIT obj) st)
  end.
End Allocator.

(** ** The abstract table

    A finite map from the live handles to their objects, the last automatic
    handle, and the unloader calls. *)
Record table := Table { live : gmap Z object_t; next : Z; trace : list unload }.

Definition spec_object (c : objcreator) (m : table) : option (option object_t * table) :=
  let o := new_object c in
  match c_initializer c with
  | None => Some (Some o, m)
  | Some init =>
      let '(r, b) := init (body o) (context c) (s32 (ctxsize c)) in
      if r <? 0 then
        fp ← c_unloader c; Some (None, Table (live m) (next m) (trace m ++ [Unload fp (-1) b]))
      else Some (Some (set_body b o), m)
  end.

(** An automatic handle that a known one has taken before is given out again,
    and the new object is not in the table. *)
Definition spec_insert (o : object_t) (m : table) : option (Z * option Z * table) :=
  if hld o =? -1 then
    if next m =? LONG_MAX then None
    else
      let h := next m + 1 in
      Some (0, Some h, Table (match live m !! h with
                              | Some _ => live m
                              | None => <[h := set_hld h o]> (live m)
                              end) h (trace m))
  else if hld o <=? 0 then Some (- ENODEV, None, m)
  else match live m !! hld o with
       | Some _ => Some (- EEXIST, None, m)
       | None => Some (0, Some (hld o), Table (<[hld o := o]> (live m)) (next m) (trace m))
       end.

(** The status and the handle. *)
Definition spec_alloc (creator : option objcreator) (avail : bool) (m : table)
  : option (Z * option Z * table) :=
  match creator with
  | None => Some (- EINVAL, None, m)
  | Some c =>
      if bad_creator c then Some (- EINVAL, None, m)
      else if negb avail then Some (- ENOMEM, None, m)
      else
        '(o, m) ← spec_object c m;
        match o with
        | None => Some (NSP_STATUS_FATAL, None, m)
        | Some o => spec_insert o m
        end
  end.

Definition spec_update (h : Z) (o : object_t) (m : table) : table :=
  Table (<[h := o]> (live m)) (next m) (trace m).

(** The reference is taken iff the handle is live and not closing. *)
Definition spec_ref (closing : bool) (h : Z) (m : table) : option (option object_t * table) :=
  match live m !! h with
  | Some o =>
      if status o =? OBJSTAT_NORMAL then
        n ← increment (refcnt o);
        let o := set_refcnt n o in
        let o := if closing then set_status OBJSTAT_CLOSEWAIT o else o in
        Some (Some o, spec_update h o m)
      else Some (None, m)
  | None => Some (None, m)
  end.

Definition spec_unload (h : Z) (o : object_t) (m : table) : table :=
  Table (delete h (live m)) (next m)
    (match unloader o with Some fp => trace m ++ [Unload fp h (body o)] | None => trace m end).

Definition spec_defr (h : Z) (m : table) : option table :=
  match live m !! h with
  | None => Some m
  | Some o =>
      if refcnt o <=? 0 then None
      else if (refcnt o =? 1) && (status o =? OBJSTAT_CLOSEWAIT)
      then Some (spec_unload h o m)
      else Some (spec_update h (set_refcnt (refcnt o - 1) o) m)
  end.

Definition spec_clos (h : Z) (m : table) : table :=
  match live m !! h with
  | None => m
  | Some o =>
      if (refcnt o =? 0) && (status o =? OBJSTAT_NORMAL) then spec_unload h o m
      else spec_update h (set_status OBJSTAT_CLOSEWAIT o) m
  end.

(** ** Client programs *)
Inductive objop :=
  | Allo3 (creator : option objcreator) (avail : bool)
  | Allo4 (creator : option objcreator) (out avail : bool)
  | Refr (h : Z) | Refr2 (h : Z) (out : bool) | Reff (h : Z) | Defr (h : Z) | Clos (h : Z).

(** What a call returns: a handle; a status with the handle stored; a size
    and a pointer; a pointer. *)
Inductive objres :=
  | RHld (h : Z) | RStatus (s : Z) (out : option Z)
  | RSize (n : Z) (p : option Z) | RPtr (p : option Z) | RVoid.

(** A result with its pointers replaced by whether they are NULL. *)
Definition null_check (r : objres) : objres :=
  match r with
  | RSize n p => RSize n ((fun _ => 0) <$> p)
  | RPtr p => RPtr ((fun _ => 0) <$> p)
  | r => r
  end.

Section Run.
Context (new_addr : gset Z -> Z).

Definition objstep (op : objop) (st : objmgr) : option (objres * objmgr) :=
  match op with
  | Allo3 c avail => '(h, st) ← objallo3 new_addr c avail st; Some (RHld h, st)
  | Allo4 c out avail => '(s, h, st) ← objallo4 new_addr c out avail st; Some (RStatus s h, st)
  | Refr h => '(p, st) ← objrefr h st; Some (RPtr p, st)
  | Refr2 h out => '(n, p, st) ← objrefr2 h out st; Some (RSize n p, st)
  | Reff h => '(p, st) ← objreff h st; Some (RPtr p, st)
  | Defr h => st ← objdefr h st; Some (RVoid, st)
  | Clos h => st ← objclos h st; Some (RVoid, st)
  end.

Fixpoint objrun (ops : list objop) (st : objmgr) : option (list objres * objmgr) :=
  match ops with
  | [] => Some ([], st)
  | op :: ops =>
      '(r, st) ← objstep op st; '(rs, st) ← objrun ops st; Some (r :: rs, st)
  end.
End Run.

Definition ptr_of (o : option object_t) : option Z := (fun _ => 0) <$> o.

Definition spec_step (op : objop) (m : table) : option (objres * table) :=
  match op with
  | Allo3 c avail =>
      '(_, h, m) ← spec_alloc c avail m; Some (RHld (default INVALID_OBJHLD h), m)
  | Allo4 c out avail =>
      if negb out then Some (RStatus (- EINVAL) None, m)
      else '(s, h, m) ← spec_alloc c avail m; Some (RStatus s h, m)
  | Refr h => '(o, m) ← spec_ref false h m; Some (RPtr (ptr_of o), m)
  | Refr2 h out =>
      if negb out then Some (RSize (2 ^ 32 - 1) None, m)
      else '(o, m) ← spec_ref false h m;
           Some (RSize (match o with Some o => size o | None => 2 ^ 32 - 1 end) (ptr_of o), m)
  | Reff h => '(o, m) ← spec_ref true h m; Some (RPtr (ptr_of o), m)
  | Defr h => m ← spec_defr h m; Some (RVoid, m)
  | Clos h => Some (RVoid, spec_clos h m)
  end.

Fixpoint spec_run (ops : list objop) (m : table) : option (list objres * table) :=
  match ops with
  | [] => Some ([], m)
  | op :: ops => '(r, m) ← spec_step op m; '(rs, m) ← spec_run ops m; Some (r :: rs, m)
  end.

(** ** The invariant of the manager *)
#[export] Instance _avl_compare_routine_ok : AvlCompare _avl_compare_routine.
Proof. exact (avl_simple_compare_ok nd_hld). Qed.

Lemma compare_eq k n : _avl_compare_routine k n = 0 <-> nd_hld k = nd_hld n.
Proof. unfold _avl_compare_routine. repeat case_match; lia. Qed.

Record obj_inv (st : objmgr) : Prop := {
  inv_len : length (roottab st) = 256%nat;
  inv_tree i t : roottab st !! i = Some t -> search_tree _avl_compare_routine t;
  inv_node i t n : roottab st !! i = Some t -> n ∈ elems t ->
    _hld2root (nd_hld n) = Some i /\
    exists o, heap st !! nd_addr n = Some o /\ hld o = nd_hld n;
  inv_atoid : 0 <= atoid st <= LONG_MAX;
}.

(** What [_objtabsrch] finds. *)
Definition bucket (st : objmgr) (h : Z) : list clash_t :=
  match _hld2root h with
  | Some i => match roottab st !! i with Some t => elems t | None => [] end
  | None => []
  end.

Definition search (st : objmgr) (h : Z) : option Z :=
  nd_addr <$> list_search _avl_compare_routine (find h) (bucket st h).

Lemma hld2root_Some h i : _hld2root h = Some i -> 0 < h /\ (i < 256)%nat.
Proof.
  unfold _hld2root. destruct (Z.ltb_spec 0 h); [|done]. intros [= <-]. split; [done |].
  change (OBJ_HASHTABLE_SIZE - 1) with (2 ^ 8 - 1). rewrite land_mask by lia.
  pose proof (Z.mod_pos_bound h (2 ^ 8)). lia.
Qed.

Lemma hld2root_pos h : 0 < h -> is_Some (_hld2root h).
Proof. unfold _hld2root. intros Hh. rewrite (proj2 (Z.ltb_lt _ _)); eauto. Qed.

Lemma hld2root_nonpos h : h <= 0 -> _hld2root h = None.
Proof. unfold _hld2root. intros Hh. by rewrite (proj2 (Z.ltb_ge _ _)). Qed.

Section Inv.
Context (st : objmgr) (Hinv : obj_inv st).

Lemma root_some h i : _hld2root h = Some i -> exists t, roottab st !! i = Some t.
Proof.
  intros [_ Hi]%hld2root_Some. apply lookup_lt_is_Some_2. by rewrite (inv_len _ Hinv).
Qed.

Lemma objtabsrch_spec h : _objtabsrch h st = Some (search st h).
Proof.
  unfold _objtabsrch, search, bucket. destruct (_hld2root h) as [i|] eqn:Hi; [|done].
  destruct (root_some h i Hi) as [t Ht]. rewrite Ht. cbn [mbind option_bind].
  rewrite (avlsearch_search_tree _ _ _ (inv_tree _ Hinv i t Ht)). done.
Qed.

Lemma search_Some h a :
  search st h = Some a ->
  exists i t, _hld2root h = Some i /\ roottab st !! i = Some t /\ Clash h a ∈ elems t /\
    exists o, heap st !! a = Some o /\ hld o = h.
Proof.
  unfold search. intros (n & Hn & ->)%fmap_Some.
  apply elem_of_list_search in Hn as [Hn Hh].
  apply compare_eq in Hh. cbn [find nd_hld] in Hh. unfold bucket in Hn.
  destruct (_hld2root h) as [i|] eqn:Hi; [|by apply not_elem_of_nil in Hn].
  destruct (roottab st !! i) as [t|] eqn:Ht; [|by apply not_elem_of_nil in Hn].
  destruct (inv_node _ Hinv i t n Ht Hn) as (_ & o & Ho & Eo).
  exists i, t. subst h. destruct n as [h a]. eauto 10.
Qed.

Lemma search_heap h a : search st h = Some a -> exists o, heap st !! a = Some o /\ hld o = h.
Proof. intros (i & t & _ & _ & _ & Ho)%search_Some. done. Qed.

Lemma search_inj h k a : search st h = Some a -> search st k = Some a -> h = k.
Proof.
  intros (o & Ho & <-)%search_heap (o' & Ho' & <-)%search_heap. congruence.
Qed.

Lemma fresh_not_found a : heap st !! a = None -> forall h, search st h <> Some a.
Proof. intros Ha h (o & Ho & _)%search_heap. congruence. Qed.

Lemma search_node i t n :
  roottab st !! i = Some t -> n ∈ elems t -> search st (nd_hld n) = Some (nd_addr n).
Proof.
  intros Ht Hn. destruct (inv_node _ Hinv i t n Ht Hn) as (Hi & _).
  unfold search, bucket. rewrite Hi, Ht.
  rewrite (list_search_elem _ _ n); [done | apply (inv_tree _ Hinv i t Ht) | done |].
  by apply compare_eq.
Qed.

(** The heap may change at will where no handle leads; an object of the table
    keeps its handle. *)
Lemma inv_heap hp tr :
  (forall h a o, search st h = Some a -> heap st !! a = Some o ->
     exists o', hp !! a = Some o' /\ hld o' = hld o) ->
  obj_inv (Mgr (roottab st) (atoid st) hp tr).
Proof.
  intros Hhp. split; cbn; [apply (inv_len _ Hinv) | apply (inv_tree _ Hinv) | | apply (inv_atoid _ Hinv)].
  intros i t n Ht Hn. destruct (inv_node _ Hinv i t n Ht Hn) as (Hi & o & Ho & Eo).
  split; [done |].
  destruct (Hhp _ _ o (search_node i t n Ht Hn) Ho) as (o' & Ho' & Eo').
  exists o'. by rewrite Eo'.
Qed.

Lemma inv_store h a o :
  search st h = Some a -> hld o = h -> obj_inv (store a o st).
Proof.
  intros Ha Ho. apply inv_heap. intros k b ob Hb Hob.
  destruct (decide (a = b)) as [->|Hn].
  - rewrite lookup_insert_eq. exists o. split; [done |].
    rewrite (search_inj k h b Hb Ha) in Hb. destruct (search_heap _ _ Hb) as (? & ? & ?). congruence.
  - rewrite lookup_insert_ne by done. eauto.
Qed.

Lemma inv_store_fresh a o : (forall h, search st h <> Some a) -> obj_inv (store a o st).
Proof.
  intros Ha. apply inv_heap. intros k b ob Hb Hob.
  rewrite lookup_insert_ne by (intros ->; by apply (Ha k)). eauto.
Qed.

Lemma inv_free_fresh a : (forall h, search st h <> Some a) -> obj_inv (zfree a st).
Proof.
  intros Ha. apply inv_heap. intros k b ob Hb Hob.
  rewrite lookup_delete_ne by (intros ->; by apply (Ha k)). eauto.
Qed.

Lemma inv_call fp h b : obj_inv (call_unloader fp h b st).
Proof. apply inv_heap. eauto. Qed.

Lemma inv_set_atoid n : 0 <= n <= LONG_MAX -> obj_inv (set_atoid n st).
Proof. intros Hn. split; try done; apply Hinv. Qed.

(** Replacing the tree of one bucket. *)
Lemma bucket_set_root i t' k :
  (i < 256)%nat -> bucket (set_root i t' st) k
  = if decide (_hld2root k = Some i) then elems t' else bucket st k.
Proof.
  intros Hi. unfold bucket. cbn [set_root roottab]. destruct (_hld2root k) as [j|]; [|by case_decide].
  case_decide as Hd.
  - injection Hd as ->. rewrite list_lookup_insert_eq by (by rewrite (inv_len _ Hinv)). done.
  - rewrite list_lookup_insert_ne by congruence. done.
Qed.

Lemma inv_set_root i t' :
  (i < 256)%nat -> search_tree _avl_compare_routine t' ->
  (forall n, n ∈ elems t' -> _hld2root (nd_hld n) = Some i /\
     exists o, heap st !! nd_addr n = Some o /\ hld o = nd_hld n) ->
  obj_inv (set_root i t' st).
Proof.
  intros Hi Ht' Hn. split; cbn [set_root roottab heap atoid]; [| | | apply (inv_atoid _ Hinv)].
  - rewrite length_insert. apply (inv_len _ Hinv).
  - intros j t [(-> & -> & _)|[_ Ht]]%list_lookup_insert_Some; [done |].
    by apply (inv_tree _ Hinv j t).
  - intros j t n [(-> & -> & _)|[_ Ht]]%list_lookup_insert_Some; [apply Hn |].
    by apply (inv_node _ Hinv j t n).
Qed.

Lemma search_set_root i t' k :
  (i < 256)%nat -> _hld2root k = Some i ->
  search (set_root i t' st) k = nd_addr <$> list_search _avl_compare_routine (find k) (elems t').
Proof. intros Hi Hk. unfold search. rewrite bucket_set_root by done. by rewrite decide_True. Qed.

Lemma search_set_root_ne i t' k :
  (i < 256)%nat -> _hld2root k <> Some i -> search (set_root i t' st) k = search st k.
Proof. intros Hi Hk. unfold search. rewrite bucket_set_root by done. by rewrite decide_False. Qed.

(** Insertion: the handle is found from now on if it was not before. *)
Lemma objinsert_spec h a o i :
  heap st !! a = Some o -> hld o = h -> _hld2root h = Some i ->
  exists t t', roottab st !! i = Some t /\
    avlinsert t (Some (Clash h a)) (Some _avl_compare_routine) = Some t' /\
    obj_inv (set_root i t' st) /\
    (forall k, search (set_root i t' st) k
       = match search st k with
         | Some b => Some b
         | None => if decide (k = h) then Some a else None
         end).
Proof.
  intros Ha Ho Hi. destruct (root_some h i Hi) as [t Ht].
  pose proof (inv_tree _ Hinv i t Ht) as Hst. pose proof (hld2root_Some h i Hi) as [_ Hlt].
  destruct (avlinsert_search_tree _avl_compare_routine t (Clash h a) Hst) as (t' & E & Hst' & El).
  exists t, t'. split_and!; try done.
  - apply inv_set_root; [done | done |]. intros n. rewrite El.
    intros [->|Hn]%elem_of_insert_sorted; [|by apply (inv_node _ Hinv i t n Ht)].
    split; [done |]. by exists o.
  - intros k. destruct (decide (_hld2root k = Some i)) as [Hk|Hk].
    + rewrite search_set_root by done. unfold search, bucket. rewrite Hk, Ht, El.
      rewrite (list_search_insert _avl_compare_routine _ _ _ (proj2 Hst)).
      destruct (list_search _ _ (elems t)); [done |]. simpl.
      destruct (decide (k = h)) as [->|Hkh].
      * by rewrite decide_True by (by apply compare_eq).
      * by rewrite decide_False by (by intros ?%compare_eq).
    + rewrite search_set_root_ne by done. destruct (search st k); [done |].
      rewrite decide_False; [done | congruence].
Qed.

(** Removal of a handle that is there. *)
Lemma objtabrmve_spec h a :
  search st h = Some a ->
  exists st', _objtabrmve h st = Some (NSP_STATUS_SUCCESSFUL, Some a, st') /\
    obj_inv st' /\ heap st' = heap st /\ atoid st' = atoid st /\ unloaded st' = unloaded st /\
    forall k, search st' k = if decide (k = h) then None else search st k.
Proof.
  intros Ha. destruct (search_Some h a Ha) as (i & t & Hi & Ht & Hn & Ho).
  pose proof (inv_tree _ Hinv i t Ht) as Hst. pose proof (hld2root_Some h i Hi) as [_ Hlt].
  destruct (avlremove_search_tree _avl_compare_routine t (find h) None Hst) as (t' & E & Hst' & El).
  exists (set_root i t' st). unfold _objtabrmve. rewrite Hi, Ht. cbn [mbind option_bind]. rewrite E.
  replace (match t with Null => None | _ => list_search _avl_compare_routine (find h) (elems t) end)
    with (Some (Clash h a)); [split_and!; try done|].
  - apply inv_set_root; [done | done |]. intros n. rewrite El.
    intros [_ Hm]%list_elem_of_filter. by apply (inv_node _ Hinv i t n Ht).
  - intros k. destruct (decide (_hld2root k = Some i)) as [Hk|Hk].
    + rewrite search_set_root by done. unfold search, bucket. rewrite Hk, Ht, El.
      rewrite (list_search_remove _avl_compare_routine). destruct (decide (k = h)) as [->|Hkh].
      * by rewrite decide_True by (by apply compare_eq).
      * by rewrite decide_False by (by intros ?%compare_eq).
    + rewrite search_set_root_ne by done. rewrite decide_False; [done | congruence].
  - symmetry. rewrite (list_search_elem _avl_compare_routine _ (Clash h a)); [by destruct t; [apply not_elem_of_nil in Hn |] | apply Hst | done |].
    by apply compare_eq.
Qed.
End Inv.

(** ** Refinement *)
Record rel (st : objmgr) (m : table) : Prop := {
  rel_inv : obj_inv st;
  rel_next : atoid st = next m;
  rel_trace : unloaded st = trace m;
  rel_live h : live m !! h = search st h ≫= (fun a => heap st !! a);
}.

Lemma rel_init : rel _objinit (Table ∅ 0 []).
Proof.
  assert (forall h, search _objinit h = None) as Hs.
  { intros h. unfold search, bucket, _objinit. cbn [roottab].
    destruct (_hld2root h); [|done]. by case_match eqn:E; [apply lookup_replicate in E as [-> _] |]. }
  split; [split| done | done |].
  - by vm_compute.
  - intros i t [-> _]%lookup_replicate. apply search_tree_Null.
  - intros i t n [-> _]%lookup_replicate Hn. by apply not_elem_of_nil in Hn.
  - by vm_compute.
  - intros h. by rewrite Hs.
Qed.

Section Rel.
Context (st : objmgr) (m : table) (Hr : rel st m).
Let Hinv : obj_inv st := rel_inv _ _ Hr.

Lemma rel_found h a :
  search st h = Some a -> exists o, heap st !! a = Some o /\ hld o = h /\ live m !! h = Some o.
Proof.
  intros Ha. destruct (search_heap st Hinv h a Ha) as (o & Ho & Eo). exists o.
  rewrite (rel_live _ _ Hr), Ha. done.
Qed.

Lemma rel_not_found h : search st h = None -> live m !! h = None.
Proof. intros Ha. by rewrite (rel_live _ _ Hr), Ha. Qed.

Lemma rel_store h a o : search st h = Some a -> hld o = h -> rel (store a o st) (spec_update h o m).
Proof.
  intros Ha Ho. split; [by apply (inv_store _ Hinv h) | apply Hr | apply Hr |].
  intros k. change (search (store a o st) k) with (search st k).
  cbn [spec_update live store heap]. destruct (decide (k = h)) as [->|Hk].
  - rewrite lookup_insert_eq, Ha. simpl. by rewrite lookup_insert_eq.
  - rewrite lookup_insert_ne, (rel_live _ _ Hr) by done.
    destruct (search st k) as [b|] eqn:Hb; [|done]. simpl.
    rewrite lookup_insert_ne; [done |]. intros ->. by apply Hk, (search_inj _ Hinv _ _ b).
Qed.

Lemma rel_store_fresh a o : (forall h, search st h <> Some a) -> rel (store a o st) m.
Proof.
  intros Ha. split; [by apply inv_store_fresh | apply Hr | apply Hr |].
  intros k. change (search (store a o st) k) with (search st k). rewrite (rel_live _ _ Hr).
  destruct (search st k) as [b|] eqn:Hb; [|done]. simpl.
  rewrite lookup_insert_ne; [done |]. intros ->. by apply (Ha k).
Qed.

Lemma rel_free_fresh a : (forall h, search st h <> Some a) -> rel (zfree a st) m.
Proof.
  intros Ha. split; [by apply inv_free_fresh | apply Hr | apply Hr |].
  intros k. change (search (zfree a st) k) with (search st k). rewrite (rel_live _ _ Hr).
  destruct (search st k) as [b|] eqn:Hb; [|done]. simpl.
  rewrite lookup_delete_ne; [done |]. intros ->. by apply (Ha k).
Qed.

Lemma rel_call fp h b :
  rel (call_unloader fp h b st) (Table (live m) (next m) (trace m ++ [Unload fp h b])).
Proof.
  split; [by apply inv_call | apply Hr | | apply Hr]. cbn. by rewrite (rel_trace _ _ Hr).
Qed.

Lemma rel_set_atoid n : 0 <= n <= LONG_MAX -> rel (set_atoid n st) (Table (live m) n (trace m)).
Proof. intros Hn. split; [by apply inv_set_atoid | done | apply Hr | apply Hr]. Qed.

(** The object at [a] enters the table under its handle. *)
Lemma rel_insert h a o i :
  heap st !! a = Some o -> hld o = h -> _hld2root h = Some i ->
  exists t t', roottab st !! i = Some t /\
    avlinsert t (Some (Clash h a)) (Some _avl_compare_routine) = Some t' /\
    rel (set_root i t' st)
      (Table (match live m !! h with Some _ => live m | None => <[h := o]> (live m) end)
         (next m) (trace m)) /\
    (forall k b, search st k = Some b -> search (set_root i t' st) k = Some b).
Proof.
  intros Ha Ho Hi. destruct (objinsert_spec st Hinv h a o i Ha Ho Hi) as (t & t' & Ht & E & Hinv' & Hs).
  exists t, t'. split_and!; try done; [|by intros k b Hb; rewrite Hs, Hb].
  split; [done | apply Hr | apply Hr |].
  intros k. cbn [live]. rewrite Hs. change (heap (set_root i t' st)) with (heap st).
  destruct (search st h) as [b|] eqn:Hb.
  - destruct (rel_found h b Hb) as (ob & _ & _ & ->). rewrite (rel_live _ _ Hr).
    destruct (search st k) eqn:Hk; [done |]. rewrite decide_False by congruence. done.
  - rewrite (rel_not_found h Hb). destruct (decide (k = h)) as [->|Hk].
    + by rewrite lookup_insert_eq, Hb.
    + rewrite lookup_insert_ne, (rel_live _ _ Hr) by done. by destruct (search st k).
Qed.

(** Removal, unloading and freeing of a handle's object. *)
Lemma rel_unload h a o :
  search st h = Some a -> heap st !! a = Some o ->
  exists st', ('(_, removed, st1) ← _objtabrmve h st; free_removed removed st1) = Some st' /\
    rel st' (spec_unload h o m) /\ heap st' = delete a (heap st) /\
    forall k, search st' k = if decide (k = h) then None else search st k.
Proof.
  intros Ha Ho. destruct (objtabrmve_spec st Hinv h a Ha) as (st1 & E & Hinv1 & Hh & Hat & Htr & Hs).
  assert (hld o = h) as Eh by (destruct (search_heap st Hinv h a Ha) as (? & ? & ?); congruence).
  rewrite E. cbn [mbind option_bind free_removed]. unfold _objtagfree. rewrite Hh, Ho.
  cbn [mbind option_bind]. eexists. split; [reflexivity |].
  set (st2 := match unloader o with Some fp => _ | None => st1 end).
  assert (heap st2 = heap st /\ roottab st2 = roottab st1 /\ atoid st2 = atoid st /\
    unloaded st2 = trace (spec_unload h o m)) as (Hh2 & Hrt & Hat2 & Htr2).
  { subst st2. rewrite <- (rel_trace _ _ Hr) || idtac. cbn [spec_unload trace].
    destruct (unloader o); cbn; rewrite <- (rel_trace _ _ Hr), Htr; rewrite ?Eh; done. }
  assert (forall k, search st2 k = search st1 k) as Hs2.
  { intros k. unfold search, bucket. by rewrite Hrt. }
  split_and!.
  - split.
    + assert (obj_inv st2) as Hinv2
        by (subst st2; destruct (unloader o); [by apply inv_call | done]).
      apply inv_free_fresh; [done |]. intros k. rewrite Hs2, Hs. case_decide as Hk; [done |].
      intros Hk'. by apply Hk, (search_inj _ Hinv _ _ a).
    + cbn. by rewrite Hat2, (rel_next _ _ Hr).
    + done.
    + intros k. change (search (zfree a st2) k) with (search st2 k). rewrite Hs2, Hs.
      cbn [zfree heap spec_unload live]. rewrite Hh2.
      destruct (decide (k = h)) as [->|Hk]; [by rewrite lookup_delete_eq |].
      rewrite lookup_delete_ne, (rel_live _ _ Hr) by done.
      destruct (search st k) as [b|] eqn:Hb; [|done]. simpl.
      rewrite lookup_delete_ne; [done |]. intros ->. by apply Hk, (search_inj _ Hinv _ _ b).
  - cbn. by rewrite Hh2.
  - intros k. change (search (zfree a st2) k) with (search st2 k). by rewrite Hs2.
Qed.
End Rel.

(** [_objtabinst] of an object the table does not lead to yet. *)
Lemma rel_inst st m a o :
  rel st m -> (forall h, search st h <> Some a) -> heap st !! a = Some o ->
  match spec_insert o m with
  | None => _objtabinst a st = None
  | Some (s, None, m') => m' = m /\ s < 0 /\ _objtabinst a st = Some (s, st)
  | Some (s, Some h, m') =>
      s = 0 /\ exists st' o', _objtabinst a st = Some (0, st') /\ rel st' m' /\
        heap st' !! a = Some o' /\ hld o' = h /\ dom (heap st') = dom (heap st) /\
        forall k b, search st k = Some b -> search st' k = Some b
  end.
Proof.
  intros Hr Ha Ho. unfold spec_insert, _objtabinst. rewrite Ho. cbn [mbind option_bind].
  pose proof (rel_inv _ _ Hr) as Hinv.
  destruct (Z.eqb_spec (hld o) (-1)) as [E|E].
  - rewrite E. cbn [negb orb Z.eqb]. rewrite (rel_next _ _ Hr).
    destruct (Z.eqb_spec (next m) LONG_MAX) as [|Hmax]; [done |].
    set (n := next m + 1). pose proof (inv_atoid _ Hinv) as Hat. rewrite (rel_next _ _ Hr) in Hat.
    assert (rel (store a (set_hld n o) (set_atoid n st)) (Table (live m) n (trace m))) as Hr'.
    { apply (rel_store_fresh (set_atoid n st)); [apply rel_set_atoid; [done | lia] | done]. }
    destruct (hld2root_pos n ltac:(lia)) as [i Hi]. unfold INVALID_OBJHLD. cbn [Z.eqb Pos.eqb negb orb].
    change (0 =? -1) with false. cbn match. rewrite Hi.
    destruct (rel_insert _ _ Hr' n a (set_hld n o) i) as (t & t' & -> & Et & Hr'' & Hk); [|done..|].
    { cbn. by rewrite lookup_insert_eq. }
    cbn [mbind option_bind]. rewrite Et. cbn [mbind option_bind]. split; [done |].
    eexists _, (set_hld n o). split_and!; [reflexivity | exact Hr'' | | done | |].
    + cbn. by rewrite lookup_insert_eq.
    + cbn. apply dom_insert_lookup_L. eauto.
    + exact Hk.
  - unfold INVALID_OBJHLD. rewrite (proj2 (Z.eqb_neq (-1) _)) by lia. cbn [negb orb].
    destruct (Z.leb_spec (hld o) 0) as [Hle|Hpos].
    { by rewrite (hld2root_nonpos _ Hle). }
    destruct (hld2root_pos _ Hpos) as [i Hi]. rewrite Hi.
    destruct (rel_insert _ _ Hr (hld o) a o i) as (t & t' & Ht & Et & Hr' & Hk); [done.. |].
    rewrite Ht. cbn [mbind option_bind].
    assert (nd_addr <$> node_of (avlsearch t (Some (find (hld o))) (Some _avl_compare_routine))
      = search st (hld o)) as Es.
    { pose proof (objtabsrch_spec st Hinv (hld o)) as Es. unfold _objtabsrch in Es.
      rewrite Hi, Ht in Es. by injection Es. }
    destruct (avlsearch t _ _) as [|l nd hh r].
    + rewrite (rel_not_found _ _ Hr (hld o)) in Hr' |- * by done.
      rewrite Et. cbn [mbind option_bind]. split; [done |]. eauto 10.
    + destruct (rel_found _ _ Hr (hld o) (nd_addr nd)) as (ob & _ & _ & ->); [done |].
      split_and!; done.
Qed.

Section Alloc.
Context (new_addr : gset Z -> Z) (new_addr_fresh : forall X, new_addr X ∉ X).

(** The number of blocks in use. *)
Definition blocks (st : objmgr) : Z := Z.of_nat (base.size (dom (heap st))).

Lemma objallo3_objallo4 c avail st :
  objallo3 new_addr c avail st
  = '(_, h, st) ← objallo4 new_addr c true avail st; Some (default INVALID_OBJHLD h, st).
Proof.
  unfold objallo3, objallo4. destruct c as [c|]; [|done]. destruct (bad_creator c); [done |].
  cbn [negb]. destruct (zmalloc _ _ _) as [a|]; [|done].
  destruct (run_initializer c a _) as [[ok st1]|]; [|done]. cbn [mbind option_bind].
  destruct ok; [|done]. cbn [negb]. destruct (_objtabinst a st1) as [[s st2]|]; [|done].
  cbn [mbind option_bind]. destruct (NSP_SUCCESS s); [|done]. cbn [negb].
  by destruct (heap st2 !! a).
Qed.

Lemma objallo4_spec st m c avail :
  rel st m ->
  match spec_alloc c avail m with
  | None => objallo4 new_addr c true avail st = None
  | Some (s, h, m') => exists st', objallo4 new_addr c true avail st = Some (s, h, st') /\
      rel st' m' /\ blocks st' = blocks st + match h with Some _ => 1 | None => 0 end /\
      forall k b, search st k = Some b -> search st' k = Some b
  end.
Proof.
  intros Hr. unfold spec_alloc, objallo4. destruct c as [c|]; [|exists st; split_and!; [done | done | lia | done]].
  destruct (bad_creator c); [exists st; split_and!; [done | done | lia | done] |]. cbn [negb].
  destruct avail; [|exists st; split_and!; [done | done | lia | done]]. cbn [negb zmalloc].
  pose proof (rel_inv _ _ Hr) as Hinv. set (a := new_addr (dom (heap st))).
  assert (heap st !! a = None) as Hna by (apply not_elem_of_dom, new_addr_fresh).
  pose proof (fresh_not_found st Hinv a Hna) as Hf.
  pose proof (rel_store_fresh st m Hr a (new_object c) Hf) as Hr1.
  set (st1 := store a (new_object c) st) in *.
  assert (heap st1 !! a = Some (new_object c)) as Ha1 by apply lookup_insert_eq.
  apply not_elem_of_dom in Hna.
  assert (base.size ({[a]} ∪ dom (heap st)) = S (base.size (dom (heap st)))) as Hsz
    by (rewrite size_union, size_singleton; [done | set_solver]).
  assert (({[a]} ∪ dom (heap st)) ∖ {[a]} = dom (heap st)) as Hdel by set_solver.
  (* from the initialised object on *)
  assert (forall st2 o, rel st2 m -> (forall h, search st2 h <> Some a) -> heap st2 !! a = Some o ->
    dom (heap st2) = {[a]} ∪ dom (heap st) ->
    (forall k, search st2 k = search st k) ->
    match spec_insert o m with
    | None => ('(s, st) ← _objtabinst a st2;
               if negb (NSP_SUCCESS s) then Some (s, None, zfree a st)
               else obj ← heap st !! a; Some (NSP_STATUS_SUCCESSFUL, Some (hld obj), st)) = None
    | Some (s, h, m') => exists st',
              ('(s, st) ← _objtabinst a st2;
               if negb (NSP_SUCCESS s) then Some (s, None, zfree a st)
               else obj ← heap st !! a; Some (NSP_STATUS_SUCCESSFUL, Some (hld obj), st))
              = Some (s, h, st') /\ rel st' m' /\
                 blocks st' = blocks st + match h with Some _ => 1 | None => 0 end /\
                 forall k b, search st k = Some b -> search st' k = Some b
    end) as Hinst.
  { intros st2 o Hr2 Hf2 Ho Hd Hs2. pose proof (rel_inst st2 m a o Hr2 Hf2 Ho) as Hi.
    destruct (spec_insert o m) as [[[s [h|]] m']|]; [| |by rewrite Hi].
    - destruct Hi as (-> & st' & o' & -> & Hr' & Ho' & <- & Hd' & Hk). exists st'.
      cbn [mbind option_bind]. change (NSP_SUCCESS 0) with true. cbn [negb]. rewrite Ho'.
      split_and!; [done | done | |].
      + unfold blocks. rewrite Hd', Hd, Hsz. lia.
      + intros k b. rewrite <- Hs2. apply Hk.
    - destruct Hi as (-> & Hs & ->). exists (zfree a st2). cbn [mbind option_bind].
      unfold NSP_SUCCESS. rewrite (proj2 (Z.leb_gt _ _)) by done. split_and!; [done | | |].
      + by apply rel_free_fresh.
      + unfold blocks. cbn [zfree heap]. rewrite dom_delete_L, Hd, Hdel. lia.
      + intros k b. by rewrite <- Hs2. }
  unfold run_initializer, spec_object. rewrite Ha1. cbn [mbind option_bind new_object initializer unloader].
  destruct (c_initializer c) as [init|]; cbn [mbind option_bind negb]; [|by apply Hinst; [done..|apply dom_insert_L|done]].
  destruct (init _ _ _) as [r b]. destruct (r <? 0); cbn [mbind option_bind negb].
  - destruct (c_unloader c) as [fp|]; [|done]. cbn [mbind option_bind negb].
    eexists. split_and!; [reflexivity | | | done].
    + apply (rel_free_fresh (call_unloader fp (-1) b (store a (set_body b (new_object c)) st1)));
        [by apply rel_call, rel_store_fresh | done].
    + unfold blocks. cbn. rewrite dom_delete_L, !dom_insert_L.
      replace (_ ∖ _) with (dom (heap st)); [lia | set_solver].
  - apply Hinst; [by apply rel_store_fresh | done | apply lookup_insert_eq | | done].
    cbn. rewrite !dom_insert_L. set_solver.
Qed.

(** The handles that are live, counted. *)
Definition live_count (m : table) : Z := Z.of_nat (base.size (live m)).

(** One call: the same result, related states, the blocks change as the live
    handles do unless an automatic handle was in use, and an object that stays
    in the table stays at its address. *)
Definition step_ok (st : objmgr) (m : table) (op : objop) (st' : objmgr) (m' : table) : Prop :=
  rel st' m' /\
  (live m !! (next m + 1) = None -> blocks st' - live_count m' = blocks st - live_count m) /\
  (forall h a, search st h = Some a -> is_Some (live m' !! h) -> search st' h = Some a).

Lemma step_ok_refl st m op : rel st m -> step_ok st m op st m.
Proof. intros Hr. split_and!; [done | lia | done]. Qed.

Lemma live_count_insert h o m n tr :
  live m !! h = None -> live_count (Table (<[h := o]> (live m)) n tr) = live_count m + 1.
Proof. intros Hh. unfold live_count. cbn [live]. rewrite map_size_insert_None by done. lia. Qed.

Lemma spec_alloc_count c avail m s h m' :
  spec_alloc c avail m = Some (s, h, m') -> live m !! (next m + 1) = None ->
  live_count m' = live_count m + match h with Some _ => 1 | None => 0 end.
Proof.
  unfold spec_alloc. intros E Hn. destruct c as [c|]; [|injection E as <- <- <-; lia].
  destruct (bad_creator c); [injection E as <- <- <-; lia |].
  destruct avail; [|injection E as <- <- <-; lia]. cbn [negb] in E.
  unfold spec_object in E.
  assert (forall o, spec_insert o m = Some (s, h, m') ->
    live_count m' = live_count m + match h with Some _ => 1 | None => 0 end) as Hins.
  { intros o. unfold spec_insert. repeat case_match; intros [=]; subst; try lia; try congruence;
      by apply live_count_insert. }
  destruct (c_initializer c) as [init|]; [|by apply (Hins (new_object c))].
  destruct (init _ _ _) as [r b]. destruct (r <? 0); [|by apply (Hins (set_body b (new_object c)))].
  destruct (c_unloader c); [|done]. injection E as <- <- <-. unfold live_count. cbn [live]. lia.
Qed.

Lemma step_ok_alloc st m c avail s h m' op :
  rel st m -> spec_alloc c avail m = Some (s, h, m') ->
  exists st', objallo4 new_addr c true avail st = Some (s, h, st') /\ step_ok st m op st' m'.
Proof.
  intros Hr E. pose proof (objallo4_spec st m c avail Hr) as Ha. rewrite E in Ha.
  destruct Ha as (st' & -> & Hr' & Hb & Hk). exists st'. split; [done |]. split_and!; [done | |].
  - intros Hn. rewrite (spec_alloc_count _ _ _ _ _ _ E Hn). lia.
  - intros k a Ha _. by apply Hk.
Qed.

(** Storing a new state of a live object. *)
Lemma step_ok_store st m op h a o o0 :
  rel st m -> search st h = Some a -> heap st !! a = Some o0 -> hld o = h ->
  step_ok st m op (store a o st) (spec_update h o m).
Proof.
  intros Hr Ha Ho0 Ho. split_and!; [by apply rel_store | |done].
  intros _. destruct (rel_found _ _ Hr h a Ha) as (o1 & _ & _ & Hl).
  unfold blocks, live_count. cbn. rewrite dom_insert_lookup_L by eauto.
  rewrite map_size_insert_Some by eauto. lia.
Qed.

Lemma step_ok_unload st m op h a o :
  rel st m -> search st h = Some a -> heap st !! a = Some o ->
  exists st', ('(_, removed, st1) ← _objtabrmve h st; free_removed removed st1) = Some st' /\
    step_ok st m op st' (spec_unload h o m).
Proof.
  intros Hr Ha Ho. destruct (rel_unload _ _ Hr h a o Ha Ho) as (st' & -> & Hr' & Hh & Hs).
  exists st'. split; [done |]. split_and!; [done | |].
  - intros _. destruct (rel_found _ _ Hr h a Ha) as (o1 & _ & _ & Hl).
    unfold blocks, live_count. cbn. rewrite Hh, !size_dom, !map_size_delete_Some by eauto.
    assert (base.size (heap st) <> 0%nat /\ base.size (live m) <> 0%nat) as [? ?].
    { split; intros Hz%map_size_empty_inv; [rewrite Hz in Ho | rewrite Hz in Hl];
        by rewrite lookup_empty in *. }
    lia.
  - intros k b Hb Hl. cbn [spec_unload live] in Hl. rewrite Hs.
    case_decide as Hk; [|done]. subst k. rewrite lookup_delete_eq in Hl. by destruct Hl.
Qed.

(** The last reference: the count is stored, then the object goes. *)
Lemma step_ok_last st m h a o st' :
  rel st m -> search st h = Some a -> heap st !! a = Some o -> hld o = h ->
  let o' := set_refcnt (refcnt o - 1) o in
  step_ok (store a o' st) (spec_update h o' m) (Defr h) st' (spec_unload h o' (spec_update h o' m)) ->
  step_ok st m (Defr h) st' (spec_unload h o m).
Proof.
  intros Hr Ha Ho Eo o' (Hr2 & Hb2 & Hk2).
  destruct (step_ok_store st m (Defr h) h a o' o Hr Ha Ho Eo) as (_ & Hb & _).
  assert (spec_unload h o' (spec_update h o' m) = spec_unload h o m) as E.
  { unfold spec_unload, spec_update. cbn [live]. by rewrite delete_insert_eq. }
  rewrite E in *. split_and!; [done | |done].
  intros Hn. rewrite <- Hb by done. apply Hb2. cbn [spec_update live next].
  rewrite lookup_insert_ne; [done |]. intros ->.
  destruct (rel_found _ _ Hr _ a Ha) as (? & _ & _ & Hl). congruence.
Qed.

(** The cases of a lookup of [h] in related states. *)
Lemma rel_lookup st m h :
  rel st m ->
  match search st h with
  | None => live m !! h = None
  | Some a => exists o, heap st !! a = Some o /\ hld o = h /\ live m !! h = Some o
  end.
Proof.
  intros Hr. destruct (search st h) as [a|] eqn:Ha; [by apply (rel_found _ _ Hr) |].
  by apply (rel_not_found _ _ Hr).
Qed.

Ltac unchanged := eexists _, _; split_and!; [reflexivity | done | by apply step_ok_refl].

(** Goes through the lookup of [h] on both sides. *)
Ltac lookup_step Hr h :=
  rewrite (objtabsrch_spec _ (rel_inv _ _ Hr));
  let Hs := fresh "Hs" in pose proof (rel_lookup _ _ h Hr) as Hs;
  destruct (search _ h) as [a|] eqn:Ha; cbn [mbind option_bind];
  [ destruct Hs as (o & Ho & Eo & ->); rewrite Ho; cbn [mbind option_bind]
  | rewrite Hs; cbn [mbind option_bind]; try unchanged ].

(** A reference: the status is checked, then the count incremented. *)
Ltac ref_step Hr h :=
  unfold spec_ref; lookup_step Hr h; rewrite Z.eqb_sym;
  match goal with |- context [_ =? status ?o] =>
    destruct (OBJSTAT_NORMAL =? status o); [|unchanged];
    destruct (increment (refcnt o)) as [n|]; [|done]; cbn [mbind option_bind]
  end;
  eexists _, _; split_and!; [done | done | by eapply step_ok_store].

Lemma objstep_refines st m op :
  rel st m ->
  match spec_step op m with
  | None => objstep new_addr op st = None
  | Some (r, m') => exists r' st', objstep new_addr op st = Some (r', st') /\
      null_check r' = r /\ step_ok st m op st' m'
  end.
Proof.
  intros Hr. destruct op as [c avail|c out avail|h|h out|h|h|h]; cbn [spec_step objstep].
  - rewrite objallo3_objallo4. pose proof (objallo4_spec st m c avail Hr) as Ha.
    destruct (spec_alloc c avail m) as [[[s h] m']|] eqn:E; cbn [mbind option_bind]; [|by rewrite Ha].
    destruct (step_ok_alloc st m c avail s h m' (Allo3 c avail) Hr E) as (st' & -> & Hs).
    by eexists _, st'.
  - destruct out; cbn [negb]; [|destruct c; unchanged].
    pose proof (objallo4_spec st m c avail Hr) as Ha.
    destruct (spec_alloc c avail m) as [[[s h] m']|] eqn:E; cbn [mbind option_bind]; [|by rewrite Ha].
    destruct (step_ok_alloc st m c avail s h m' (Allo4 c true avail) Hr E) as (st' & -> & Hs).
    by eexists _, st'.
  - unfold objrefr. ref_step Hr h.
  - unfold objrefr2. destruct out; cbn [negb]; [ref_step Hr h | unchanged].
  - unfold objreff. ref_step Hr h.
  - unfold objdefr, spec_defr. lookup_step Hr h. rewrite Z.leb_antisym.
    destruct (Z.ltb_spec 0 (refcnt o)) as [Hpos|]; cbn [negb]; [|done].
    cbn [set_refcnt refcnt status hld]. rewrite (Z.eqb_sym 0), (Z.eqb_sym OBJSTAT_CLOSEWAIT).
    replace (refcnt o - 1 =? 0) with (refcnt o =? 1)
      by (destruct (Z.eqb_spec (refcnt o) 1), (Z.eqb_spec (refcnt o - 1) 0); lia).
    set (o' := set_refcnt (refcnt o - 1) o).
    destruct (step_ok_store st m (Defr h) h a o' o Hr Ha Ho Eo) as (Hr' & Hb & Hk).
    destruct ((refcnt o =? 1) && _).
    + destruct (step_ok_unload (store a o' st) _ (Defr h) h a o' Hr') as (st' & E & Hs); [done | apply lookup_insert_eq |].
      rewrite Eo, E. eexists _, st'. split_and!; [done | done |].
      by apply (step_ok_last st m h a o).
    + by eexists _, _.
  - unfold objclos, spec_clos. lookup_step Hr h.
    rewrite (Z.eqb_sym 0), (Z.eqb_sym OBJSTAT_NORMAL). destruct (_ && _).
    + destruct (step_ok_unload st m (Clos h) h a o Hr Ha Ho) as (st' & E & Hs).
      rewrite Eo, E. by eexists _, st'.
    + eexists _, _. split_and!; [done | done |]. by eapply step_ok_store.
Qed.

Lemma objrun_refines ops : forall st m,
  rel st m ->
  match spec_run ops m with
  | None => objrun new_addr ops st = None
  | Some (rs, m') => exists rs' st', objrun new_addr ops st = Some (rs', st') /\
      null_check <$> rs' = rs /\ rel st' m'
  end.
Proof.
  induction ops as [|op ops IH]; intros st m Hr; cbn [spec_run objrun]; [by exists [], st |].
  pose proof (objstep_refines st m op Hr) as Hs.
  destruct (spec_step op m) as [[r m1]|]; cbn [mbind option_bind]; [|by rewrite Hs].
  destruct Hs as (r' & st1 & -> & <- & (Hr1 & _)). cbn [mbind option_bind].
  specialize (IH st1 m1 Hr1). destruct (spec_run ops m1) as [[rs m2]|]; cbn [mbind option_bind].
  - destruct IH as (rs' & st2 & -> & <- & Hr2). by exists (r' :: rs'), st2.
  - by rewrite IH.
Qed.

(** The references to [h] that a call with its result adds. *)
Definition delta (h : Z) (op : objop) (r : objres) : Z :=
  match op, r with
  | Refr k, RPtr (Some _) | Refr2 k _, RSize _ (Some _) | Reff k, RPtr (Some _) =>
      if decide (k = h) then 1 else 0
  | Defr k, _ => if decide (k = h) then -1 else 0
  | _, _ => 0
  end.

Fixpoint balance (h : Z) (ops : list objop) (rs : list objres) : Z :=
  match ops, rs with
  | op :: ops, r :: rs => delta h op r + balance h ops rs
  | _, _ => 0
  end.

Lemma delta_null_check h op r : delta h op (null_check r) = delta h op r.
Proof. by destruct op, r as [|? []|? []|[]|]. Qed.

(** What the table never changes of an object. *)
Definition kept (o o' : object_t) : Prop :=
  hld o' = hld o /\ size o' = size o /\ body o' = body o /\ unloader o' = unloader o /\
  (status o = OBJSTAT_CLOSEWAIT -> status o' = OBJSTAT_CLOSEWAIT).

Lemma spec_alloc_keeps c avail m s k m' h o :
  spec_alloc c avail m = Some (s, k, m') -> live m !! h = Some o -> live m' !! h = Some o.
Proof.
  unfold spec_alloc. intros E Hl. destruct c as [c|]; [|by injection E as <- <- <-].
  destruct (bad_creator c); [by injection E as <- <- <- |].
  destruct avail; [|by injection E as <- <- <-]. cbn [negb] in E. unfold spec_object in E.
  assert (forall o, spec_insert o m = Some (s, k, m') -> live m' !! h = live m !! h) as Hins.
  { intros ob. unfold spec_insert. repeat case_match; intros [=]; subst; try done;
      cbn [live]; rewrite lookup_insert_ne; congruence. }
  destruct (c_initializer c) as [init|]; [|by rewrite (Hins (new_object c))].
  destruct (init _ _ _) as [r b]. destruct (r <? 0); [|by rewrite (Hins (set_body b (new_object c)))].
  destruct (c_unloader c); [|done]. by injection E as <- <- <-.
Qed.

Lemma update_keeps k h o o1 (m : table) :
  live m !! h = Some o -> (k = h -> kept o o1) ->
  exists o', live (spec_update k o1 m) !! h = Some o' /\
    (if decide (k = h) then o' = o1 else o' = o).
Proof.
  intros Hl Hk. cbn [spec_update live]. destruct (decide (k = h)) as [->|Hn].
  - rewrite lookup_insert_eq. eauto.
  - rewrite lookup_insert_ne by done. eauto.
Qed.

Lemma kept_refl o : kept o o.
Proof. done. Qed.

Lemma spec_ref_keeps closing k m o1 m' h o :
  spec_ref closing k m = Some (o1, m') -> live m !! h = Some o ->
  exists o', live m' !! h = Some o' /\ kept o o' /\
    refcnt o' = refcnt o + match o1 with Some _ => if decide (k = h) then 1 else 0 | None => 0 end.
Proof.
  unfold spec_ref. intros E Hl.
  destruct (live m !! k) as [ok|] eqn:Hk; [|injection E as <- <-; exists o; split_and!; done || lia].
  destruct (Z.eqb_spec (status ok) OBJSTAT_NORMAL) as [Hn|]; [|injection E as <- <-; exists o; split_and!; done || lia].
  unfold increment in E. destruct (_ =? INT_MAX); [done |]. injection E as <- <-.
  cbn [spec_update live]. destruct (decide (k = h)) as [->|Hne].
  - rewrite lookup_insert_eq. eexists. split; [done |]. rewrite Hl in Hk. injection Hk as <-.
    unfold kept. rewrite Hn. destruct closing; cbn; split_and!; done || lia.
  - rewrite lookup_insert_ne by done. exists o. split_and!; done || lia.
Qed.

Lemma spec_step_keeps op m r m' h o :
  spec_step op m = Some (r, m') -> live m !! h = Some o -> 0 < refcnt o + delta h op r ->
  exists o', live m' !! h = Some o' /\ kept o o' /\ refcnt o' = refcnt o + delta h op r.
Proof.
  destruct op as [c avail|c out avail|k|k out|k|k|k]; cbn [spec_step]; intros E Hl Hpos.
  - destruct (spec_alloc c avail m) as [[[s h'] m1]|] eqn:Ea; [|done]. injection E as <- <-.
    exists o. split_and!; [by eapply spec_alloc_keeps | done | cbn; lia].
  - destruct out; cbn [negb] in E; [|injection E as <- <-; exists o; split_and!; [done | done | cbn; lia]].
    destruct (spec_alloc c avail m) as [[[s h'] m1]|] eqn:Ea; [|done]. injection E as <- <-.
    exists o. split_and!; [by eapply spec_alloc_keeps | done | cbn; lia].
  - destruct (spec_ref false k m) as [[o1 m1]|] eqn:Er; [|done]. injection E as <- <-.
    destruct (spec_ref_keeps _ _ _ _ _ h o Er Hl) as (o' & ? & ? & ?). exists o'. by destruct o1.
  - destruct out; cbn [negb] in E; [|injection E as <- <-; exists o; split_and!; [done | done | cbn; lia]].
    destruct (spec_ref false k m) as [[o1 m1]|] eqn:Er; [|done]. injection E as <- <-.
    destruct (spec_ref_keeps _ _ _ _ _ h o Er Hl) as (o' & ? & ? & ?). exists o'. by destruct o1.
  - destruct (spec_ref true k m) as [[o1 m1]|] eqn:Er; [|done]. injection E as <- <-.
    destruct (spec_ref_keeps _ _ _ _ _ h o Er Hl) as (o' & ? & ? & ?). exists o'. by destruct o1.
  - cbn [delta] in *. destruct (spec_defr k m) as [m1|] eqn:Ed; [|done]. injection E as <- <-.
    unfold spec_defr in Ed. destruct (live m !! k) as [ok|] eqn:Hk.
    + destruct (refcnt ok <=? 0); [done |]. destruct (decide (k = h)) as [->|Hn].
      * assert (ok = o) as -> by congruence. rewrite (proj2 (Z.eqb_neq _ _)) in Ed by lia.
        injection Ed as <-. cbn. rewrite lookup_insert_eq. by eexists.
      * exists o. split_and!; [|done | lia]. case_match; injection Ed as <-; cbn.
        -- by rewrite lookup_delete_ne.
        -- by rewrite lookup_insert_ne.
    + injection Ed as <-. exists o. rewrite decide_False by congruence. split_and!; done || lia.
  - injection E as <- <-. cbn [delta] in *. unfold spec_clos. destruct (live m !! k) as [ok|] eqn:Hk.
    + destruct (decide (k = h)) as [->|Hn].
      * assert (ok = o) as -> by congruence. rewrite (proj2 (Z.eqb_neq (refcnt o) 0)) by lia.
        cbn. rewrite lookup_insert_eq. eexists. split_and!; [done | done | cbn; lia].
      * exists o. split_and!; [|done | lia]. case_match; cbn.
        -- by rewrite lookup_delete_ne.
        -- by rewrite lookup_insert_ne.
    + exists o. split_and!; done || lia.
Qed.

(** ** Automatic handles only: nothing leaks *)
Definition auto_creator (c : option objcreator) : Prop :=
  match c with Some c => known c = 0 \/ known c = INVALID_OBJHLD | None => True end.
Definition with_unloader (c : option objcreator) : Prop :=
  match c with Some c => is_Some (c_unloader c) | None => True end.
Definition auto_op (op : objop) : Prop :=
  match op with
  | Allo3 c _ | Allo4 c _ _ => auto_creator c /\ with_unloader c
  | _ => True
  end.

(** Objects created, and unloader calls for objects that had a handle. *)
Definition made (r : objres) : Z :=
  match r with
  | RHld h => if decide (h = INVALID_OBJHLD) then 0 else 1
  | RStatus _ (Some _) => 1
  | _ => 0
  end.
Definition created (rs : list objres) : Z := foldr (fun r n => made r + n) 0 rs.
Definition unloads (us : list unload) : Z := zlen (filter (fun u => 0 < u_hld u) us).

Record auto_inv (m : table) : Prop := {
  auto_next : 0 <= next m;
  auto_live h o : live m !! h = Some o -> 0 < h <= next m /\ is_Some (unloader o);
}.

Lemma auto_no_clash m : auto_inv m -> live m !! (next m + 1) = None.
Proof.
  intros Ha. destruct (live m !! (next m + 1)) as [o|] eqn:E; [|done].
  apply (auto_live m Ha) in E as [? _]. lia.
Qed.

Lemma unloads_snoc us u : unloads (us ++ [u]) = unloads us + if decide (0 < u_hld u) then 1 else 0.
Proof.
  unfold unloads. rewrite filter_app, zlen_app, filter_cons. by case_decide.
Qed.

(** What a step does to the count of live objects plus unloads. *)
Definition census (m : table) : Z := live_count m + unloads (trace m).

Lemma auto_alloc c avail m s h m' :
  auto_creator c -> with_unloader c -> auto_inv m -> spec_alloc c avail m = Some (s, h, m') ->
  auto_inv m' /\ census m' = census m + (match h with Some _ => 1 | None => 0 end) /\
  h <> Some INVALID_OBJHLD.
Proof.
  intros Hc Hu Ha E. pose proof (spec_alloc_count _ _ _ _ _ _ E (auto_no_clash m Ha)) as Hn.
  unfold census. rewrite Hn. unfold spec_alloc in E.
  destruct c as [c|]; [|injection E as <- <- <-; split_and!; done || lia].
  destruct (bad_creator c); [injection E as <- <- <-; split_and!; done || lia |].
  destruct avail; [|injection E as <- <- <-; split_and!; done || lia]. cbn [negb] in E.
  unfold spec_object in E.
  assert (forall o, hld o = -1 -> is_Some (unloader o) -> spec_insert o m = Some (s, h, m') ->
    auto_inv m' /\ trace m' = trace m /\ h <> Some INVALID_OBJHLD) as Hins.
  { intros o Ho Huo. unfold spec_insert. rewrite Ho, (auto_no_clash m Ha). cbn [Z.eqb Pos.eqb].
    destruct (next m =? LONG_MAX); [done |]. intros [= <- <- <-]. split_and!; [|done|].
    - split; cbn [live next]; [pose proof (auto_next m Ha); lia |].
      intros k ok [[<- <-]|[_ Hk]]%lookup_insert_Some; [pose proof (auto_next m Ha); split; [lia | done] |].
      destruct (auto_live m Ha k ok Hk). split; [lia | done].
    - intros [= E']. pose proof (auto_next m Ha). unfold INVALID_OBJHLD in E'. lia. }
  assert (hld (new_object c) = -1) as Hh by (cbn; destruct Hc as [-> | ->]; done).
  assert (forall o, hld o = -1 -> is_Some (unloader o) -> spec_insert o m = Some (s, h, m') ->
    auto_inv m' /\ live_count m + match h with Some _ => 1 | None => 0 end + unloads (trace m')
    = live_count m + unloads (trace m) + match h with Some _ => 1 | None => 0 end /\
    h <> Some INVALID_OBJHLD) as Hdone.
  { intros o Ho Huo Eo. destruct (Hins o Ho Huo Eo) as (? & -> & ?). split_and!; [done | destruct h; lia | done]. }
  destruct (c_initializer c) as [init|]; [|by apply (Hdone (new_object c))].
  destruct (init _ _ _) as [r b]. destruct (r <? 0); [|by apply (Hdone (set_body b (new_object c)))].
  destruct (c_unloader c); [|done]. injection E as <- <- <-. split_and!; [| |done].
  - split; apply Ha.
  - cbn [trace]. rewrite unloads_snoc, decide_False by (cbn [u_hld]; lia). lia.
Qed.

Lemma auto_update h o o' m :
  auto_inv m -> live m !! h = Some o -> unloader o' = unloader o ->
  auto_inv (spec_update h o' m) /\ census (spec_update h o' m) = census m.
Proof.
  intros Ha Hl Hu. split.
  - split; cbn [spec_update live next]; [apply Ha |].
    intros k ok [[<- <-]|[_ Hk]]%lookup_insert_Some; [|by apply (auto_live m Ha)].
    rewrite Hu. by apply (auto_live m Ha).
  - unfold census, live_count. cbn. rewrite map_size_insert_Some by eauto. done.
Qed.

Lemma auto_unload h o m :
  auto_inv m -> live m !! h = Some o ->
  auto_inv (spec_unload h o m) /\ census (spec_unload h o m) = census m.
Proof.
  intros Ha Hl. destruct (auto_live m Ha h o Hl) as [Hh [fp Hfp]]. split.
  - split; cbn [spec_unload live next]; [apply Ha |].
    intros k ok [_ Hk]%lookup_delete_Some. by apply (auto_live m Ha).
  - unfold census, live_count. cbn. rewrite Hfp, unloads_snoc, decide_True, map_size_delete_Some by (eauto || (cbn; lia)).
    assert (base.size (live m) <> 0%nat).
    { intros Hz%map_size_empty_inv. rewrite Hz in Hl. by rewrite lookup_empty in Hl. }
    lia.
Qed.

Lemma auto_ref closing h m o m' :
  auto_inv m -> spec_ref closing h m = Some (o, m') -> auto_inv m' /\ census m' = census m.
Proof.
  unfold spec_ref. intros Ha E. destruct (live m !! h) as [o1|] eqn:Hl; [|by injection E as <- <-].
  destruct (_ =? OBJSTAT_NORMAL); [|by injection E as <- <-].
  destruct (increment _); [|done]. injection E as <- <-. apply (auto_update h o1); [done | done |].
  by destruct closing.
Qed.

Lemma auto_step op m r m' :
  auto_op op -> auto_inv m -> spec_step op m = Some (r, m') ->
  auto_inv m' /\ census m' = census m + made r.
Proof.
  intros Hop Ha E. destruct op as [c avail|c out avail|k|k out|k|k|k]; cbn [spec_step auto_op] in *.
  - destruct (spec_alloc c avail m) as [[[s h] m1]|] eqn:Ea; [|done]. injection E as <- <-.
    destruct (auto_alloc _ _ _ _ _ _ (proj1 Hop) (proj2 Hop) Ha Ea) as (? & -> & Hh).
    split; [done |]. f_equal. destruct h as [h|]; cbn [made default from_option id]; [|done].
    rewrite decide_False; [done |]. intros ->. by apply Hh.
  - destruct out; cbn [negb] in E; [|injection E as <- <-; split; [done | cbn; lia]].
    destruct (spec_alloc c avail m) as [[[s h] m1]|] eqn:Ea; [|done]. injection E as <- <-.
    destruct (auto_alloc _ _ _ _ _ _ (proj1 Hop) (proj2 Hop) Ha Ea) as (? & -> & _).
    split; [done |]. by destruct h.
  - destruct (spec_ref false k m) as [[o1 m1]|] eqn:Er; [|done]. injection E as <- <-.
    destruct (auto_ref _ _ _ _ _ Ha Er). split; [done | cbn; lia].
  - destruct out; cbn [negb] in E; [|injection E as <- <-; split; [done | cbn; lia]].
    destruct (spec_ref false k m) as [[o1 m1]|] eqn:Er; [|done]. injection E as <- <-.
    destruct (auto_ref _ _ _ _ _ Ha Er). split; [done | cbn; lia].
  - destruct (spec_ref true k m) as [[o1 m1]|] eqn:Er; [|done]. injection E as <- <-.
    destruct (auto_ref _ _ _ _ _ Ha Er). split; [done | cbn; lia].
  - destruct (spec_defr k m) as [m1|] eqn:Ed; [|done]. injection E as <- <-.
    replace (census m + made RVoid) with (census m) by (cbn; lia).
    unfold spec_defr in Ed. destruct (live m !! k) as [ok|] eqn:Hk; [|by injection Ed as <-].
    destruct (_ <=? 0); [done |]. destruct (_ && _); injection Ed as <-.
    + by apply auto_unload.
    + by apply (auto_update k ok).
  - injection E as <- <-. replace (census m + made RVoid) with (census m) by (cbn; lia).
    unfold spec_clos. destruct (live m !! k) as [ok|] eqn:Hk; [|done]. destruct (_ && _).
    + by apply auto_unload.
    + by apply (auto_update k ok).
Qed.

Lemma objrun_keeps ops : forall st m h a o rs st',
  rel st m -> search st h = Some a -> heap st !! a = Some o ->
  objrun new_addr ops st = Some (rs, st') ->
  (forall k, 0 < refcnt o + balance h (take k ops) (take k rs)) ->
  search st' h = Some a /\
  exists o', heap st' !! a = Some o' /\ kept o o' /\ refcnt o' = refcnt o + balance h ops rs.
Proof.
  induction ops as [|op ops IH]; intros st m h a o rs st' Hr Ha Ho E Hpos; cbn [objrun] in E.
  { injection E as <- <-. split; [done |]. exists o. split_and!; [done | done | cbn; lia]. }
  pose proof (objstep_refines st m op Hr) as Hs.
  destruct (spec_step op m) as [[r m1]|] eqn:Em; [|by rewrite Hs in E].
  destruct Hs as (r' & st1 & Est & Hrr & Hr1 & _ & Hk). rewrite Est in E. cbn [mbind option_bind] in E.
  destruct (objrun new_addr ops st1) as [[rs1 st2]|] eqn:E1; [|done]. injection E as <- <-.
  assert (live m !! h = Some o) as Hl by (rewrite (rel_live _ _ Hr), Ha; done).
  pose proof (Hpos 1%nat) as H1. cbn in H1. rewrite take_0, <- delta_null_check, Hrr in H1.
  destruct (spec_step_keeps op m r m1 h o Em Hl) as (o1 & Hl1 & Hk1 & Hc1); [cbn in H1; lia |].
  pose proof (Hk h a Ha ltac:(eauto)) as Ha1.
  rewrite (rel_live _ _ Hr1), Ha1 in Hl1. cbn [mbind option_bind] in Hl1.
  destruct (IH st1 m1 h a o1 rs1 st2 Hr1 Ha1 Hl1 E1) as (Ha2 & o2 & Ho2 & Hk2 & Hc2).
  { intros k. specialize (Hpos (S k)). cbn in Hpos. rewrite <- delta_null_check, Hrr in Hpos. lia. }
  split; [done |]. exists o2. split_and!; [done | |].
  - unfold kept in *. destruct_and!. split_and!; try congruence. auto.
  - cbn [balance]. rewrite <- (delta_null_check h op r'), Hrr. lia.
Qed.

Lemma objrun_census ops : forall st m rs st',
  rel st m -> auto_inv m -> Forall auto_op ops -> objrun new_addr ops st = Some (rs, st') ->
  exists m', rel st' m' /\ auto_inv m' /\ census m' = census m + created rs /\
    blocks st' - live_count m' = blocks st - live_count m.
Proof.
  induction ops as [|op ops IH]; intros st m rs st' Hr Ha Hops E; cbn [objrun] in E.
  { injection E as <- <-. exists m. split_and!; [done | done | cbn; lia | lia]. }
  apply Forall_cons in Hops as [Hop Hops]. pose proof (objstep_refines st m op Hr) as Hs.
  destruct (spec_step op m) as [[r m1]|] eqn:Em; [|by rewrite Hs in E].
  destruct Hs as (r' & st1 & Est & Hrr & Hr1 & Hb & _). rewrite Est in E. cbn [mbind option_bind] in E.
  destruct (objrun new_addr ops st1) as [[rs1 st2]|] eqn:E1; [|done]. injection E as <- <-.
  destruct (auto_step op m r m1 Hop Ha Em) as [Ha1 Hc1].
  destruct (IH st1 m1 rs1 st2 Hr1 Ha1 Hops E1) as (m2 & Hr2 & Ha2 & Hc2 & Hb2).
  specialize (Hb (auto_no_clash m Ha)). exists m2. split_and!; [done | done | | lia].
  cbn [created foldr]. fold (created rs1).
  assert (made r = made r') as <- by (rewrite <- Hrr; by destruct r'). lia.
Qed.

(** C2: every program over the object table behaves as over a finite map from
    handles to objects: from related states, the same calls give the same
    handles, statuses and sizes, pointers are NULL in the same cases, the same
    unloaders are called in the same order, and the detailed program runs into
    undefined behaviour or a failed assertion exactly when the abstract one is
    stuck (a dereference without a reference, a failing initializer without an
    unloader, counter overflow). *)
Theorem object_refines_table ops st m :
  rel st m ->
  match spec_run ops m with
  | None => objrun new_addr ops st = None
  | Some (rs, m') => exists rs' st', objrun new_addr ops st = Some (rs', st') /\
      null_check <$> rs' = rs /\ rel st' m'
  end.
Proof. apply objrun_refines. Qed.

(** C13: a referenced object stays: whatever program runs, as long as the
    references taken on a handle outnumber those given back, the handle leads to
    the same address, the block there is not freed, its body, size and unloader
    are unchanged, its count is the number of references, and an object that is
    closing stays so. *)
Theorem object_stays_while_referenced pre rs0 st h a o ops rs st' :
  objrun new_addr pre _objinit = Some (rs0, st) ->
  _objtabsrch h st = Some (Some a) -> heap st !! a = Some o ->
  objrun new_addr ops st = Some (rs, st') ->
  (forall k, 0 < refcnt o + balance h (take k ops) (take k rs)) ->
  _objtabsrch h st' = Some (Some a) /\
  exists o', heap st' !! a = Some o' /\ kept o o' /\ refcnt o' = refcnt o + balance h ops rs.
Proof.
  intros E0 Hs Ho E Hpos. pose proof (objrun_refines pre _ _ rel_init) as H0.
  destruct (spec_run pre _) as [[rs1 m]|]; [|congruence].
  destruct H0 as (rs2 & st2 & E2 & _ & Hr). rewrite E0 in E2. injection E2 as <- <-.
  rewrite (objtabsrch_spec _ (rel_inv _ _ Hr)) in Hs. injection Hs as Hs.
  destruct (objrun_keeps ops st m h a o rs st' Hr Hs Ho E Hpos) as [Ha' Ho'].
  pose proof (objrun_refines ops _ _ Hr) as H1.
  destruct (spec_run ops m) as [[rs3 m']|]; [|congruence].
  destruct H1 as (rs4 & st4 & E4 & _ & Hr'). rewrite E in E4. injection E4 as <- <-.
  by rewrite (objtabsrch_spec _ (rel_inv _ _ Hr')), Ha'.
Qed.

(** C19: with automatic handles nothing leaks and nothing is unloaded twice: after
    any program whose objects have unloaders, the blocks in use are those of the
    live handles, and every object ever created is either live or has had its
    unloader called exactly once. *)
Theorem object_no_leak ops rs st :
  Forall auto_op ops -> objrun new_addr ops _objinit = Some (rs, st) ->
  exists m, rel st m /\ blocks st = live_count m /\
    created rs = blocks st + unloads (unloaded st).
Proof.
  intros Hops E. destruct (objrun_census ops _ _ rs st rel_init) as (m & Hr & _ & Hc & Hb); [|done|done|].
  { split; [done |]. intros h o Hl. cbn [live] in Hl. by rewrite lookup_empty in Hl. }
  exists m. split; [done |]. unfold census in Hc. rewrite <- (rel_trace _ _ Hr) in Hc.
  change (live_count (Table ∅ 0 [])) with 0 in *. change (blocks _objinit) with 0 in Hb.
  change (unloads (trace (Table ∅ 0 []))) with 0 in Hc. lia.
Qed.

(** An automatic allocation does not check that its handle is free: when a
    known handle has taken the next number, the allocation reports that handle
    as its own while the table keeps leading it to the other object, and the new
    block is in no table. *)
Theorem object_auto_handle_taken st m c h a :
  rel st m -> bad_creator c = false -> known c = INVALID_OBJHLD -> c_initializer c = None ->
  h = next m + 1 -> next m < LONG_MAX -> _objtabsrch h st = Some (Some a) ->
  exists st', objallo3 new_addr (Some c) true st = Some (h, st') /\
    _objtabsrch h st' = Some (Some a) /\ blocks st' = blocks st + 1 /\
    exists m', rel st' m' /\ live m' = live m.
Proof.
  intros Hr Hc Hkn Hi -> Hmax Hs. rewrite (objtabsrch_spec _ (rel_inv _ _ Hr)) in Hs. injection Hs as Hs.
  destruct (rel_found _ _ Hr _ a Hs) as (o & Ho & _ & Hl).
  pose proof (objallo4_spec st m (Some c) true Hr) as Ha. rewrite objallo3_objallo4.
  unfold spec_alloc, spec_object in Ha. rewrite Hc, Hi in Ha. cbn [negb mbind option_bind] in Ha.
  unfold spec_insert in Ha. cbn [new_object hld] in Ha. rewrite Hkn in Ha.
  change (INVALID_OBJHLD =? 0) with false in Ha. cbn [Z.eqb Pos.eqb INVALID_OBJHLD] in Ha.
  change (INVALID_OBJHLD =? -1) with true in Ha. cbn match in Ha.
  rewrite (proj2 (Z.eqb_neq _ _)), Hl in Ha by lia.
  destruct Ha as (st' & -> & Hr' & Hb & Hk). exists st'. split_and!; [done | | done |].
  - rewrite (objtabsrch_spec _ (rel_inv _ _ Hr')). f_equal. by apply Hk.
  - eexists. split; [exact Hr' | done].
Qed.
End Alloc.

(** ** Witnesses *)
(** A program: two objects, the second referenced and closed, with a failing
    initializer in between. *)
Definition demo_addr (X : gset Z) : Z := fresh ({[0]} ∪ X).

Lemma demo_addr_fresh X : demo_addr X ∉ X.
Proof. unfold demo_addr. pose proof (is_fresh ({[0]} ∪ X)). set_solver. Qed.

Definition demo_fill : objinit_fp := fun b ctx n => (n - 1, replicate (length b) 7).
Definition demo_creator (n : Z) : option objcreator :=
  Some (Creator INVALID_OBJHLD 4 (Some demo_fill) (Some 100) (Some [n]) n).
Definition demo_plain (k : Z) : objcreator := Creator k 8 None (Some 200) None 0.

Definition demo_pre : list objop := [Allo3 (demo_creator 1) true; Allo4 (Some (demo_plain 0)) true true; Refr 1].
Definition demo_ops : list objop :=
  [Refr2 1 true; Clos 2; Reff 1; Refr 1; Defr 1; Allo3 (Some (demo_plain (-1))) true; Defr 1].
Definition demo_run (ops : list objop) (st : objmgr) : list objres * objmgr :=
  default ([], st) (objrun demo_addr ops st).
Definition demo_state : objmgr := (demo_run demo_pre _objinit).2.
Definition demo_object : object_t := Object 1 0 1 4 (Some demo_fill) (Some 100) [7; 7; 7; 7].

Lemma object_refines_table_witness :
  match spec_run (demo_pre ++ demo_ops) (Table ∅ 0 []) with
  | None => objrun demo_addr (demo_pre ++ demo_ops) _objinit = None
  | Some (rs, m') => exists rs' st', objrun demo_addr (demo_pre ++ demo_ops) _objinit = Some (rs', st') /\
      null_check <$> rs' = rs /\ rel st' m'
  end.
Proof. exact (object_refines_table demo_addr demo_addr_fresh (demo_pre ++ demo_ops) _ _ rel_init). Defined.

Lemma object_stays_while_referenced_witness :
  let st' := (demo_run (take 5 demo_ops) demo_state).2 in
  _objtabsrch 1 st' = Some (Some 1) /\
  exists o', heap st' !! 1 = Some o' /\ kept demo_object o' /\ refcnt o' = 1 + 1.
Proof.
  cbv zeta. apply (object_stays_while_referenced demo_addr demo_addr_fresh demo_pre
    (demo_run demo_pre _objinit).1 demo_state 1 1 demo_object (take 5 demo_ops)
    (demo_run (take 5 demo_ops) demo_state).1); [by vm_compute .. |].
  intros k. do 5 (destruct k as [|k]; [by vm_compute |]).
  cbn [demo_ops take]. rewrite take_nil. destruct k; by vm_compute.
Defined.

Lemma object_no_leak_witness :
  exists m, rel (demo_run (demo_pre ++ demo_ops) _objinit).2 m /\
    blocks (demo_run (demo_pre ++ demo_ops) _objinit).2 = live_count m /\
    created (demo_run (demo_pre ++ demo_ops) _objinit).1
    = blocks (demo_run (demo_pre ++ demo_ops) _objinit).2
      + unloads (unloaded (demo_run (demo_pre ++ demo_ops) _objinit).2).
Proof.
  apply (object_no_leak demo_addr demo_addr_fresh (demo_pre ++ demo_ops)); [|by vm_compute].
  repeat (apply Forall_cons; split; [cbn; eauto |]). constructor.
Defined.

(** Handle 1 taken by a known object before the first automatic one. *)
Definition demo_taken : objmgr := (demo_run [Allo3 (Some (demo_plain 1)) true] _objinit).2.

Definition demo_taken_table : table := Table {[ 1 := new_object (demo_plain 1) ]} 0 [].

Lemma demo_taken_rel : rel demo_taken demo_taken_table.
Proof.
  pose proof (objrun_refines demo_addr demo_addr_fresh [Allo3 (Some (demo_plain 1)) true] _ _ rel_init) as Hr.
  destruct Hr as (rs' & st' & E & _ & Hr).
  assert (objrun demo_addr [Allo3 (Some (demo_plain 1)) true] _objinit = Some ([RHld 1], demo_taken)) as E'
    by (by vm_compute).
  rewrite E' in E. by injection E as _ <-.
Qed.

Lemma object_auto_handle_taken_witness :
  exists st', objallo3 demo_addr (Some (demo_plain (-1))) true demo_taken = Some (1, st') /\
    _objtabsrch 1 st' = Some (Some 1) /\ blocks st' = blocks demo_taken + 1 /\
    exists m', rel st' m' /\ live m' = {[ 1 := new_object (demo_plain 1) ]}.
Proof.
  apply (object_auto_handle_taken demo_addr demo_addr_fresh demo_taken demo_taken_table
    (demo_plain (-1)) 1 1 demo_taken_rel); by vm_compute.
Defined.
