(* ===== verification/Matrix2d.v ===== *)
(** Matrices of longs: addons/matrix2d/matrix2d.c.

    A matrix is its numbers of columns and lines and the block of its elements, line by
    line.  [None] is undefined behaviour: an access outside the block, an element that is
    not initialised, or an overflow of [long]; a NULL result is [Some None].  [malloc]
    says which blocks can be allocated. *)
From S2P Require Import Prelude.

Record matrix2d := Matrix2d { column : Z; line : Z; field : list Z }.

Definition matrix2d_index2line (m : matrix2d) (i : Z) : Z := i / column m.
Definition matrix2d_index2column (m : matrix2d) (i : Z) : Z := i mod column m.

Definition long (x : Z) : option Z := if (- 2 ^ 63 <=? x) && (x <? 2 ^ 63) then Some x else None.
Definition matrix2d_calc_add (left right : Z) : option Z := long (left + right).
Definition matrix2d_calc_sub (left right : Z) : option Z := long (left - right).
Definition matrix2d_calc_mul (left right : Z) : option Z := long (left * right).
(** The routine of the caller, or the one of the library. *)
Definition calc (own : option (Z -> Z -> Z)) (other : Z -> Z -> option Z) (left right : Z) : option Z :=
  match own with Some fn => Some (fn left right) | None => other left right end.

Section Matrix.
Context (malloc : Z -> bool).
Implicit Types (m : matrix2d).

Definition load m (i : Z) : option Z := if (0 <=? i) && (i <? zlen (field m)) then field m !! Z.to_nat i else None.
Definition store m (i x : Z) : option matrix2d :=
  if (0 <=? i) && (i <? zlen (field m)) then Some (Matrix2d (column m) (line m) (<[Z.to_nat i := x]> (field m))) else None.

Definition matrix2d_alloc (line column : Z) : option matrix2d :=
  if (0 =? column) || (0 =? line) then None
  else
    let ele_count := u32 (line * column) in
    if malloc (8 + 8 * ele_count) then Some (Matrix2d column line (replicate (Z.to_nat ele_count) 0)) else None.

Definition matrix2d_raw (m : option matrix2d) : option (list Z) :=
  m ← m; if (column m =? 0) || (line m =? 0) then None else Some (field m).
Definition matrix2d_size (m : option matrix2d) : Z := match m with Some m => u32 (line m * column m * 8) | None => 0 end.

(** memcmp over the size in bytes. *)
Definition matrix2d_equal (left right : option matrix2d) : option bool :=
  match left, right with
  | Some l, Some r =>
      if negb (column l =? column r) || negb (line l =? line r) then Some false
      else
        let n := matrix2d_size left / 8 in
        x ← memread (field l) 0 n; y ← memread (field r) 0 n; Some (bool_decide (x = y))
  | _, _ => Some false
  end.

(** 0 and the element, or -1. *)
Definition matrix2d_query_element (m : option matrix2d) (line_ column_ : Z) : option (Z * option Z) :=
  match m with
  | None => Some (-1, None)
  | Some m =>
      if (column m <=? column_) || (line m <=? line_) then Some (-1, None)
      else x ← load m (u32 (u32 (line_ * column m) + column_)); Some (0, Some x)
  end.

(** A callback changes an element in place and its own state. *)
Section Iterate.
Context {A : Type} (iterator : Z -> Z -> A -> Z * A).
Fixpoint iterate (locs : list Z) m (args : A) : option (matrix2d * A) :=
  match locs with
  | [] => Some (m, args)
  | i :: locs => x ← load m i; let '(x, args) := iterator x i args in m ← store m i x; iterate locs m args
  end.
Definition upto (n : Z) : list Z := Z.of_nat <$> seq 0 (Z.to_nat n).
Definition matrix2d_iterate_element m (args : A) : option (matrix2d * A) := iterate (upto (u32 (column m * line m))) m args.
Definition matrix2d_iterate_line m (line_ : Z) (args : A) : option (matrix2d * A) :=
  if line_ <? line m then iterate ((fun i => u32 (u32 (column m * line_) + i)) <$> upto (column m)) m args else Some (m, args).
Definition matrix2d_iterate_column m (column_ : Z) (args : A) : option (matrix2d * A) :=
  if column_ <? column m then iterate ((fun i => u32 (u32 (i * column m) + column_)) <$> upto (line m)) m args else Some (m, args).
End Iterate.

(** A loop that stores an element for each index. *)
Fixpoint fill (value : matrix2d -> Z -> option Z) (locs : list Z) m : option matrix2d :=
  match locs with
  | [] => Some m
  | i :: locs => x ← value m i; m ← store m i x; fill value locs m
  end.
(** ... in the matrix that is allocated, when it is. *)
Definition filled (m : option matrix2d) (value : matrix2d -> Z -> option Z) : option (option matrix2d) :=
  match m with
  | None => Some None
  | Some m => m ← fill value (upto (u32 (line m * column m))) m; Some (Some m)
  end.

Definition matrix2d_add (left right : option matrix2d) (addfn : option (Z -> Z -> Z)) : option (option matrix2d) :=
  match left, right with
  | Some l, Some r =>
      if negb (column l =? column r) || negb (line l =? line r) then Some None
      else filled (matrix2d_alloc (line l) (column l)) (fun _ i =>
        x ← load l i; y ← load r i; calc addfn matrix2d_calc_add x y)
  | _, _ => Some None
  end.

Definition matrix2d_scalar_mul (left : option matrix2d) (scalar : Z) : option (option matrix2d) :=
  match left with
  | Some l =>
      if (0 =? line l) || (0 =? column l) then Some None
      else filled (matrix2d_alloc (line l) (column l)) (fun _ i => x ← load l i; matrix2d_calc_mul x scalar)
  | None => Some None
  end.

(** The inner loop of the product: [ele] is what the two queries left in the variables,
    which keep their values when a query fails. *)
Fixpoint mul_loop (l r : matrix2d) mulfn addfn (i : Z) (js : list Z) m (ele : option Z * option Z) : option (matrix2d * (option Z * option Z)) :=
  match js with
  | [] => Some (m, ele)
  | j :: js =>
      '(_, x) ← matrix2d_query_element (Some l) (matrix2d_index2line m i) j;
      '(_, y) ← matrix2d_query_element (Some r) j (matrix2d_index2column m i);
      let ele := (match x with Some _ => x | None => ele.1 end, match y with Some _ => y | None => ele.2 end) in
      x ← ele.1; y ← ele.2;
      middle ← calc mulfn matrix2d_calc_mul x y;
      old ← load m i;
      new ← calc addfn matrix2d_calc_add old middle;
      m ← store m i new;
      mul_loop l r mulfn addfn i js m ele
  end.
Fixpoint mul_all (l r : matrix2d) mulfn addfn (indices : list Z) m (ele : option Z * option Z) : option matrix2d :=
  match indices with
  | [] => Some m
  | i :: indices => '(m, ele) ← mul_loop l r mulfn addfn i (upto (column l)) m ele; mul_all l r mulfn addfn indices m ele
  end.
Definition matrix2d_mul (left right : option matrix2d) (mulfn addfn : option (Z -> Z -> Z)) : option (option matrix2d) :=
  match left, right with
  | Some l, Some r =>
      if negb (column l =? line r) then Some None
      else
        match matrix2d_alloc (line l) (column l) with
        | None => Some None
        | Some m => m ← mul_all l r mulfn addfn (upto (u32 (line m * column m))) m (None, None); Some (Some m)
        end
  | _, _ => Some None
  end.

(** The loops over columns and lines, with [off] running over the new matrix. *)
Fixpoint transport_loop (src : matrix2d) (ijs : list (Z * Z)) (off : Z) m : option matrix2d :=
  match ijs with
  | [] => Some m
  | (i, j) :: ijs => x ← load src (u32 (u32 (j * column src) + i)); m ← store m off x; transport_loop src ijs (off + 1) m
  end.
Definition matrix2d_transport (src : option matrix2d) : option (option matrix2d) :=
  match src with
  | None => Some None
  | Some s =>
      match matrix2d_alloc (column s) (line s) with
      | None => Some None
      | Some m => m ← transport_loop s (concat ((fun i => pair i <$> upto (line s)) <$> upto (column s))) 0 m; Some (Some m)
      end
  end.

Definition matrix2d_make_identity (scale : Z) : option (option matrix2d) :=
  if 0 =? scale then Some None
  else
    match matrix2d_alloc scale scale with
    | None => Some None
    | Some m => m ← fill (fun _ _ => Some 1) ((fun i => u32 (u32 (i * scale) + i)) <$> upto scale) m; Some (Some m)
    end.

Lemma long_ok x : - 2 ^ 63 <= x < 2 ^ 63 -> long x = Some x.
Proof. intros Hx. unfold long. by rewrite (proj2 (Z.leb_le _ x)), (proj2 (Z.ltb_lt x _)) by lia. Qed.

(** ** What a matrix is *)
Record matrix_ok m : Prop := {
  mo_column : 0 < column m;
  mo_line : 0 < line m;
  mo_field : zlen (field m) = line m * column m;
  mo_size : line m * column m < 2 ^ 32;
}.

(** The element in a line and a column. *)
Definition at_ m (i j : Z) : Z := field m !!! Z.to_nat (i * column m + j).

Lemma index_ok m i j : matrix_ok m -> 0 <= i < line m -> 0 <= j < column m -> 0 <= i * column m + j < line m * column m.
Proof. intros [] Hi Hj. nia. Qed.

Lemma load_ok m k : 0 <= k < zlen (field m) -> load m k = Some (field m !!! Z.to_nat k).
Proof.
  intros Hk. unfold load. rewrite (proj2 (Z.leb_le 0 k)), (proj2 (Z.ltb_lt k _)) by lia. cbn [andb].
  apply list_lookup_lookup_total_lt. unfold zlen in Hk. lia.
Qed.

Lemma query_ok m i j : matrix_ok m -> 0 <= i < line m -> 0 <= j < column m ->
  matrix2d_query_element (Some m) i j = Some (0, Some (at_ m i j)).
Proof.
  intros Hm Hi Hj. pose proof (index_ok m i j Hm Hi Hj). destruct Hm as [Hc Hl Hf Hs]. unfold matrix2d_query_element.
  rewrite (proj2 (Z.leb_gt (column m) j)), (proj2 (Z.leb_gt (line m) i)) by lia. cbn [orb].
  rewrite (wrap_small 32 (i * column m)), (wrap_small 32) by nia. by rewrite load_ok by lia.
Qed.

Lemma alloc_ok l c : 0 < l -> 0 < c -> l * c < 2 ^ 32 -> malloc (8 + 8 * (l * c)) = true ->
  matrix2d_alloc l c = Some (Matrix2d c l (replicate (Z.to_nat (l * c)) 0)).
Proof.
  intros Hl Hc Hs Hm. unfold matrix2d_alloc. rewrite !(proj2 (Z.eqb_neq 0 _)) by lia. cbn [orb].
  rewrite wrap_small by nia. by rewrite Hm.
Qed.

(** ** Filling a matrix *)
Lemma store_ok m i x : 0 <= i < zlen (field m) -> store m i x = Some (Matrix2d (column m) (line m) (<[Z.to_nat i := x]> (field m))).
Proof. intros Hi. unfold store. by rewrite (proj2 (Z.leb_le 0 i)), (proj2 (Z.ltb_lt i _)) by lia. Qed.

Lemma upto_seq n : upto (Z.of_nat n) = Z.of_nat <$> seq 0 n.
Proof. unfold upto. by rewrite Nat2Z.id. Qed.

(** One step for each index, on a matrix that is zero from there on: the elements are the
    values, as soon as all are defined. *)
Fixpoint walk (step : Z -> matrix2d -> option matrix2d) (indices : list Z) m : option matrix2d :=
  match indices with [] => Some m | i :: indices => m ← step i m; walk step indices m end.

Lemma walk_from step v c l :
  (forall pre post, step (zlen pre) (Matrix2d c l (pre ++ 0 :: post)) = (fun y => Matrix2d c l (pre ++ y :: post)) <$> v (zlen pre)) ->
  forall k pre, walk step (Z.of_nat <$> seq (length pre) k) (Matrix2d c l (pre ++ replicate k 0)) =
    (fun ys => Matrix2d c l (pre ++ ys)) <$> mapM v (Z.of_nat <$> seq (length pre) k).
Proof.
  intros Hstep. induction k as [|k IH]; intros pre; [done |]. cbn [seq fmap list_fmap walk replicate mapM].
  change (Z.of_nat (length pre)) with (zlen pre). rewrite Hstep. destruct (v (zlen pre)) as [y|]; [|done]. cbn [fmap option_fmap option_map mbind option_bind].
  specialize (IH (pre ++ [y])). rewrite length_app in IH. cbn [length] in IH. rewrite Nat.add_1_r in IH.
  rewrite <- !app_assoc in IH. cbn [app] in IH. rewrite IH. destruct (mapM v _) as [ys|]; [|done]. cbn. by rewrite <- app_assoc.
Qed.
Lemma walk_all step v c l n : 0 <= n ->
  (forall pre post, step (zlen pre) (Matrix2d c l (pre ++ 0 :: post)) = (fun y => Matrix2d c l (pre ++ y :: post)) <$> v (zlen pre)) ->
  walk step (upto n) (Matrix2d c l (replicate (Z.to_nat n) 0)) = Matrix2d c l <$> mapM v (upto n).
Proof. intros Hn Hstep. exact (walk_from step v c l Hstep (Z.to_nat n) []). Qed.

Lemma fill_walk value : forall indices m, fill value indices m = walk (fun i m => x ← value m i; store m i x) indices m.
Proof.
  induction indices as [|i indices IH]; intros m; [done |]. cbn [fill walk]. destruct (value m i) as [x|]; [|done].
  cbn [mbind option_bind]. destruct (store m i x); [apply IH | done].
Qed.

Lemma store_here c l pre x y post : store (Matrix2d c l (pre ++ x :: post)) (zlen pre) y = Some (Matrix2d c l (pre ++ y :: post)).
Proof.
  rewrite store_ok; cbn [field column line]; [|rewrite zlen_app, zlen_cons; pose proof (zlen_nonneg pre); pose proof (zlen_nonneg post); lia].
  unfold zlen. by rewrite Nat2Z.id, insert_app_r_alt, Nat.sub_diag by lia.
Qed.
Lemma load_here c l pre x post : load (Matrix2d c l (pre ++ x :: post)) (zlen pre) = Some x.
Proof.
  unfold load. cbn [field]. rewrite zlen_app, zlen_cons. pose proof (zlen_nonneg pre). pose proof (zlen_nonneg post).
  rewrite (proj2 (Z.leb_le 0 _)), (proj2 (Z.ltb_lt _ _)) by lia. cbn [andb]. unfold zlen. by rewrite Nat2Z.id, list_lookup_middle.
Qed.

Lemma filled_ok l c v : 0 < l -> 0 < c -> l * c < 2 ^ 32 -> malloc (8 + 8 * (l * c)) = true ->
  filled (matrix2d_alloc l c) (fun _ i => v i) = (fun xs => Some (Matrix2d c l xs)) <$> mapM v (upto (l * c)).
Proof.
  intros Hl Hc Hs Hm. rewrite alloc_ok by done. unfold filled. cbn [line column]. rewrite wrap_small by nia.
  rewrite fill_walk, (walk_all _ v c l (l * c)); [|nia|].
  - by destruct (mapM v _).
  - intros pre post. destruct (v (zlen pre)) as [y|]; [|done]. cbn. apply store_here.
Qed.

Lemma mapM_cong {A B} (g h : A -> option B) : forall xs, (forall x, x ∈ xs -> g x = h x) -> mapM g xs = mapM h xs.
Proof.
  induction xs as [|x xs IH]; intros Hx; [done |]. cbn [mapM]. rewrite Hx by constructor. rewrite IH; [done |].
  intros y Hy. apply Hx. by constructor.
Qed.
Lemma upto_range n i : i ∈ upto n -> 0 <= i < n.
Proof. unfold upto. intros (k & -> & Hk%elem_of_seq)%list_elem_of_fmap. lia. Qed.

(** Adding and scaling go element by element, and are undefined as soon as one element
    overflows. *)
Lemma matrix2d_add_ok l r addfn : matrix_ok l -> matrix_ok r -> column l = column r -> line l = line r ->
  malloc (8 + 8 * (line l * column l)) = true ->
  matrix2d_add (Some l) (Some r) addfn = (fun xs => Some (Matrix2d (column l) (line l) xs)) <$>
    mapM (fun i => calc addfn matrix2d_calc_add (field l !!! Z.to_nat i) (field r !!! Z.to_nat i)) (upto (line l * column l)).
Proof.
  intros [Hc Hl Hf Hs] [Hc' Hl' Hf' Hs'] Ec El Hm. unfold matrix2d_add. rewrite Ec, El, !Z.eqb_refl. cbn [negb orb]. rewrite <- Ec, <- El.
  rewrite filled_ok by done. f_equal. apply mapM_cong. intros i Hi%upto_range. by rewrite !load_ok by congruence || lia.
Qed.
Lemma matrix2d_scalar_mul_ok l scalar : matrix_ok l -> malloc (8 + 8 * (line l * column l)) = true ->
  matrix2d_scalar_mul (Some l) scalar = (fun xs => Some (Matrix2d (column l) (line l) xs)) <$>
    mapM (fun i => matrix2d_calc_mul (field l !!! Z.to_nat i) scalar) (upto (line l * column l)).
Proof.
  intros [Hc Hl Hf Hs] Hm. unfold matrix2d_scalar_mul. rewrite !(proj2 (Z.eqb_neq 0 _)) by lia. cbn [orb].
  rewrite filled_ok by done. f_equal. apply mapM_cong. intros i Hi%upto_range. by rewrite load_ok by lia.
Qed.

(** ** The product *)

(** A line of the left matrix times a column of the right one, from left to right. *)
Fixpoint dot_from mulfn addfn (l r : matrix2d) (i c : Z) (js : list Z) (acc : Z) : option Z :=
  match js with
  | [] => Some acc
  | j :: js => middle ← calc mulfn matrix2d_calc_mul (at_ l i j) (at_ r j c); new ← calc addfn matrix2d_calc_add acc middle;
               dot_from mulfn addfn l r i c js new
  end.
Definition dot mulfn addfn l r (i c : Z) : option Z := dot_from mulfn addfn l r i c (upto (column l)) 0.

Lemma mul_loop_ok l r mulfn addfn c ln pre post : matrix_ok l -> matrix_ok r -> column l = line r -> 0 < c ->
  0 <= zlen pre / c < line l -> zlen pre mod c < column r ->
  forall js acc ele, (forall j, j ∈ js -> 0 <= j < column l) ->
  fst <$> mul_loop l r mulfn addfn (zlen pre) js (Matrix2d c ln (pre ++ acc :: post)) ele =
    (fun y => Matrix2d c ln (pre ++ y :: post)) <$> dot_from mulfn addfn l r (zlen pre / c) (zlen pre mod c) js acc.
Proof.
  intros Hl Hr Elr Hc Hi Hj. induction js as [|j js IH]; intros acc ele Hjs; [done |]. cbn [mul_loop dot_from].
  pose proof (Hjs j ltac:(constructor)) as Hj'. unfold matrix2d_index2line, matrix2d_index2column. cbn [column].
  rewrite (query_ok l) by done. cbn [mbind option_bind]. pose proof (Z.mod_pos_bound (zlen pre) c Hc).
  rewrite (query_ok r) by (done || lia). cbn [mbind option_bind fst snd].
  destruct (calc mulfn _ _ _) as [middle|]; [|done]. cbn [mbind option_bind]. rewrite load_here. cbn [mbind option_bind].
  destruct (calc addfn _ _ _) as [new|]; [|done]. cbn [mbind option_bind]. rewrite store_here. cbn [mbind option_bind].
  apply IH. intros j' Hj2. apply Hjs. by constructor.
Qed.
Lemma mul_all_from l r mulfn addfn : matrix_ok l -> matrix_ok r -> column l = line r -> column l <= column r ->
  forall k pre ele, zlen pre + Z.of_nat k <= line l * column l ->
  mul_all l r mulfn addfn (Z.of_nat <$> seq (length pre) k) (Matrix2d (column l) (line l) (pre ++ replicate k 0)) ele =
    (fun ys => Matrix2d (column l) (line l) (pre ++ ys)) <$>
      mapM (fun i => dot mulfn addfn l r (i / column l) (i mod column l)) (Z.of_nat <$> seq (length pre) k).
Proof.
  intros Hl Hr Elr Hlr. pose proof Hl as [Hc Hln _ _]. induction k as [|k IH]; intros pre ele Hk; [done |].
  cbn [seq fmap list_fmap mul_all replicate mapM]. change (Z.of_nat (length pre)) with (zlen pre). pose proof (zlen_nonneg pre) as Hp.
  assert (0 <= zlen pre / column l < line l) as Hi by (split; [apply Z.div_pos | apply Z.div_lt_upper_bound]; lia).
  pose proof (Z.mod_pos_bound (zlen pre) (column l) Hc) as Hj.
  pose proof (mul_loop_ok l r mulfn addfn (column l) (line l) pre (replicate k 0) Hl Hr Elr Hc Hi ltac:(lia) (upto (column l)) 0 ele (upto_range _)) as E.
  fold (dot mulfn addfn l r (zlen pre / column l) (zlen pre mod column l)) in E. revert E.
  destruct (mul_loop _ _ _ _ _ _ _ _) as [[m' ele']|], (dot mulfn addfn l r (zlen pre / column l) (zlen pre mod column l)) as [y|]; try done.
  intros [= ->]. cbn [fmap option_fmap option_map mbind option_bind].
  specialize (IH (pre ++ [y]) ele'). rewrite length_app in IH. cbn [length] in IH. rewrite Nat.add_1_r in IH. rewrite <- !app_assoc in IH. cbn [app] in IH.
  rewrite IH by (rewrite zlen_app; change (zlen [y]) with 1; lia). destruct (mapM _ _) as [ys|]; [|done]. cbn. by rewrite <- app_assoc.
Qed.

(** The elements of a product that does not overflow. *)
Definition product (l r : matrix2d) (i c : Z) : Z := foldr (fun j s => at_ l i j * at_ r j c + s) 0 (upto (column l)).

Lemma dot_sum l r i c B : 0 <= B -> (forall j, 0 <= j < column l -> Z.abs (at_ l i j) <= B /\ Z.abs (at_ r j c) <= B) ->
  column l * (B * B) < 2 ^ 63 -> 0 <= column l -> dot None None l r i c = Some (product l r i c).
Proof.
  intros HB Hb Hlt Hc. unfold dot, product.
  assert (forall js acc, (forall j, j ∈ js -> 0 <= j < column l) -> Z.abs acc + zlen js * (B * B) < 2 ^ 63 ->
    dot_from None None l r i c js acc = Some (acc + foldr (fun j s => at_ l i j * at_ r j c + s) 0 js)) as Hgen.
  { induction js as [|j js IH]; intros acc Hjs Ha; cbn [dot_from foldr]; [by rewrite Z.add_0_r |].
    destruct (Hb j (Hjs j ltac:(constructor))) as [H1 H2]. rewrite zlen_cons in Ha. pose proof (zlen_nonneg js).
    assert (Z.abs (at_ l i j * at_ r j c) <= B * B) as Hp by (rewrite Z.abs_mul; nia).
    unfold calc, matrix2d_calc_mul, matrix2d_calc_add.
    rewrite long_ok by nia. cbn [mbind option_bind]. rewrite long_ok by nia. cbn [mbind option_bind].
    rewrite IH; [f_equal; lia | intros j' Hj'; apply Hjs; by constructor | nia]. }
  rewrite Hgen; [done | apply upto_range |]. unfold upto. unfold zlen. rewrite length_fmap, length_seq. lia.
Qed.

(** The product when the right matrix has at least as many columns as the left one: the
    result has the columns of the left matrix, whatever the right one has, and is undefined
    exactly when an element overflows. *)
Lemma matrix2d_mul_run l r mulfn addfn : matrix_ok l -> matrix_ok r -> column l = line r -> column l <= column r ->
  malloc (8 + 8 * (line l * column l)) = true ->
  matrix2d_mul (Some l) (Some r) mulfn addfn =
    (fun xs => Some (Matrix2d (column l) (line l) xs)) <$>
      mapM (fun i => dot mulfn addfn l r (i / column l) (i mod column l)) (upto (line l * column l)).
Proof.
  intros Hl Hr Elr Hlr Hm. pose proof Hl as [Hc Hln Hf Hs]. unfold matrix2d_mul. rewrite (proj2 (Z.eqb_eq _ _)) by done. cbn [negb].
  rewrite alloc_ok by done. cbn [line column]. rewrite wrap_small by nia.
  pose proof (mul_all_from l r mulfn addfn Hl Hr Elr Hlr (Z.to_nat (line l * column l)) [] (None, None) ltac:(change (zlen []) with 0; nia)) as E.
  cbn [length app] in E. unfold upto at 1. rewrite E. change (Z.of_nat <$> seq 0 (Z.to_nat (line l * column l))) with (upto (line l * column l)).
  by destruct (mapM _ _).
Qed.

Lemma upto_lookup n k : 0 <= k < n -> upto n !! Z.to_nat k = Some k.
Proof. intros Hk. unfold upto. rewrite list_lookup_fmap, lookup_seq_lt by lia. cbn. f_equal. lia. Qed.
Lemma zlen_upto n : 0 <= n -> zlen (upto n) = n.
Proof. intros Hn. unfold zlen, upto. rewrite length_fmap, length_seq. lia. Qed.

(** A matrix whose elements are given by line and column. *)
Definition of_elements (c l : Z) (g : Z -> Z -> Z) : matrix2d := Matrix2d c l ((fun i => g (i / c) (i mod c)) <$> upto (l * c)).

Lemma of_elements_ok c l g : 0 < c -> 0 < l -> l * c < 2 ^ 32 -> matrix_ok (of_elements c l g).
Proof. intros Hc Hl Hs. split; cbn [column line field of_elements]; try done. unfold zlen. rewrite length_fmap. apply zlen_upto. nia. Qed.
Lemma at_elements c l g i j : 0 <= i < l -> 0 <= j < c -> at_ (of_elements c l g) i j = g i j.
Proof.
  intros Hi Hj. unfold at_. cbn [column field of_elements]. apply list_lookup_total_correct.
  rewrite list_lookup_fmap, upto_lookup by nia. cbn. rewrite Z.div_add_l, Z.div_small, Z.add_0_r by lia.
  by rewrite Z.add_comm, Z.mod_add, Z.mod_small by lia.
Qed.
Lemma elements_eq m g : matrix_ok m -> (forall i j, 0 <= i < line m -> 0 <= j < column m -> at_ m i j = g i j) ->
  m = of_elements (column m) (line m) g.
Proof.
  intros Hm Hg. pose proof Hm as [Hc Hl Hf Hs]. destruct m as [c l f]. cbn [column line field] in *. unfold of_elements. f_equal.
  apply list_eq. intros k. rewrite list_lookup_fmap. destruct (decide (Z.of_nat k < l * c)) as [Hk | Hk].
  - rewrite <- (Nat2Z.id k), upto_lookup by lia. cbn.
    pose proof (Z.mod_pos_bound (Z.of_nat k) c Hc). assert (0 <= Z.of_nat k / c < l) by (split; [apply Z.div_pos | apply Z.div_lt_upper_bound]; lia).
    rewrite <- Hg by lia. unfold at_. cbn [column field]. rewrite (Z.mul_comm (_ / c)), <- Z.div_mod by lia.
    rewrite Nat2Z.id. apply list_lookup_lookup_total_lt. unfold zlen in Hf. lia.
  - rewrite !lookup_ge_None_2; [done | |].
    + pose proof (zlen_upto (l * c) ltac:(nia)) as E. unfold zlen in E. lia.
    + unfold zlen in Hf. lia.
Qed.

(** Matrix2d_mul with the operations of the library, on matrices whose elements are
    small enough that no sum overflows: when the right matrix has as many columns as the
    left one (or more) the result is defined, has the lines and columns of the left
    matrix, and each element is the product of its line and its column.  Further columns
    of the right matrix are lost. *)
Theorem matrix2d_mul_correct l r B : matrix_ok l -> matrix_ok r -> column l = line r -> column l <= column r ->
  malloc (8 + 8 * (line l * column l)) = true -> 0 <= B ->
  (forall i j, 0 <= i < line l -> 0 <= j < column l -> Z.abs (at_ l i j) <= B) ->
  (forall i j, 0 <= i < line r -> 0 <= j < column r -> Z.abs (at_ r i j) <= B) -> column l * (B * B) < 2 ^ 63 ->
  matrix2d_mul (Some l) (Some r) None None = Some (Some (of_elements (column l) (line l) (product l r))).
Proof.
  intros Hl Hr Elr Hlr Hm HB Hbl Hbr Hlt. rewrite matrix2d_mul_run by done. pose proof Hl as [Hc Hln Hf Hs].
  rewrite (mapM_fmap _ (fun i => product l r (i / column l) (i mod column l))); [done |].
  intros i Hi%upto_range. pose proof (Z.mod_pos_bound i (column l) Hc).
  assert (0 <= i / column l < line l) by (split; [apply Z.div_pos | apply Z.div_lt_upper_bound]; lia).
  apply (dot_sum l r _ _ B); [done | | done | lia]. intros j Hj. split; [apply Hbl | apply Hbr]; lia.
Qed.

(** ** Transposition *)
Lemma transport_from s (g : Z -> Z * Z) c ln : forall k pre,
  (forall off, zlen pre <= off < zlen pre + Z.of_nat k -> 0 <= (g off).1 /\ 0 <= (g off).2 /\ (g off).2 * column s + (g off).1 < zlen (field s) /\
    zlen (field s) < 2 ^ 32) -> 0 <= column s ->
  transport_loop s (g <$> (Z.of_nat <$> seq (length pre) k)) (zlen pre) (Matrix2d c ln (pre ++ replicate k 0)) =
    Some (Matrix2d c ln (pre ++ ((fun off => at_ s (g off).2 (g off).1) <$> (Z.of_nat <$> seq (length pre) k)))).
Proof.
  induction k as [|k IH]; intros pre Hg Hc; [done |]. cbn [seq fmap list_fmap transport_loop replicate].
  change (Z.of_nat (length pre)) with (zlen pre). destruct (Hg (zlen pre)) as (H1 & H2 & H3 & H4); [lia |].
  destruct (g (zlen pre)) as [i j] eqn:Eg. cbn [fst snd] in *.
  rewrite (wrap_small 32 (j * column s)), (wrap_small 32) by nia. rewrite load_ok by nia. cbn [mbind option_bind].
  rewrite store_here. cbn [mbind option_bind]. specialize (IH (pre ++ [field s !!! Z.to_nat (j * column s + i)])).
  rewrite length_app in IH. cbn [length] in IH. rewrite Nat.add_1_r in IH. rewrite <- !app_assoc in IH. cbn [app] in IH.
  rewrite zlen_app in IH. change (zlen [_]) with 1 in IH. rewrite IH; [|intros off Ho; apply Hg; lia | done]. done.
Qed.

Lemma positions c l : 0 < l -> 0 <= c -> concat ((fun i => pair i <$> upto l) <$> upto c) = (fun off => (off / l, off mod l)) <$> upto (l * c).
Proof.
  intros Hl Hc. unfold upto at 2 3. rewrite Z2Nat.inj_mul by lia.
  induction (Z.to_nat c) as [|k IH].
  - by rewrite Nat.mul_0_r.
  - rewrite seq_S, !fmap_app, concat_app, IH. rewrite Nat.mul_succ_r, seq_app, !fmap_app. f_equal. cbn [fmap list_fmap concat]. rewrite app_nil_r.
    unfold upto. rewrite <- !list_fmap_compose. apply list_eq. intros x. rewrite !list_lookup_fmap.
    destruct (decide (x < Z.to_nat l)%nat) as [Hx | Hx]; [|by rewrite !lookup_seq_ge by lia].
    rewrite !lookup_seq_lt by done. cbn. do 2 f_equal.
    + rewrite Nat2Z.inj_add, Nat2Z.inj_mul, Z2Nat.id, Z.mul_comm, Z.div_add_l, Z.div_small by lia. lia.
    + rewrite Nat2Z.inj_add, Nat2Z.inj_mul, Z2Nat.id, (Z.mul_comm l), Z.add_comm, Z.mod_add, Z.mod_small by lia. lia.
Qed.

Lemma matrix2d_transport_run s : matrix_ok s -> malloc (8 + 8 * (line s * column s)) = true ->
  matrix2d_transport (Some s) = Some (Some (of_elements (line s) (column s) (fun i j => at_ s j i))).
Proof.
  intros Hs Hm. pose proof Hs as [Hc Hl Hf Hsz]. unfold matrix2d_transport.
  rewrite (alloc_ok (column s) (line s)) by (done || by rewrite (Z.mul_comm (column s))). rewrite positions by lia. rewrite (Z.mul_comm (column s)).
  pose proof (transport_from s (fun off => (off / line s, off mod line s)) (line s) (column s) (Z.to_nat (line s * column s)) []) as E.
  cbn [length app fst snd] in E. change (zlen []) with 0 in E. unfold upto. rewrite E; [|..].
  - cbn. unfold of_elements, upto. by rewrite (Z.mul_comm (column s)).
  - intros off Ho. pose proof (Z.mod_pos_bound off (line s) Hl). assert (0 <= off / line s < column s) by (split; [apply Z.div_pos | apply Z.div_lt_upper_bound]; lia).
    split; [lia |]. split; [lia |]. split; [|lia]. rewrite Hf. nia.
  - lia.
Qed.

(** matrix2d_transport exchanges lines and columns, and doing it twice gives the same
    matrix. *)
Theorem matrix2d_transport_involutive s : matrix_ok s -> malloc (8 + 8 * (line s * column s)) = true ->
  exists t, matrix2d_transport (Some s) = Some (Some t) /\ line t = column s /\ column t = line s /\
    (forall i j, 0 <= i < column s -> 0 <= j < line s -> at_ t i j = at_ s j i) /\
    matrix2d_transport (Some t) = Some (Some s).
Proof.
  intros Hs Hm. pose proof Hs as [Hc Hl Hf Hsz]. rewrite matrix2d_transport_run by done. eexists. split; [done |].
  split; [done |]. split; [done |]. split; [intros i j Hi Hj; exact (at_elements (line s) (column s) (fun i j => at_ s j i) i j Hi Hj) |].
  rewrite matrix2d_transport_run; [|apply of_elements_ok; lia | cbn; by rewrite (Z.mul_comm (column s))]. cbn [line column of_elements]. do 2 f_equal.
  symmetry. apply elements_eq; [done |]. intros i j Hi Hj. symmetry. exact (at_elements (line s) (column s) (fun i j => at_ s j i) j i Hj Hi).
Qed.

(** ** The identity *)
Definition identity (n : Z) : matrix2d := of_elements n n (fun i j => if decide (i = j) then 1 else 0).

Lemma at_identity n i j : 0 <= i < n -> 0 <= j < n -> at_ (identity n) i j = if decide (i = j) then 1 else 0.
Proof. intros Hi Hj. exact (at_elements n n (fun i j => if decide (i = j) then 1 else 0) i j Hi Hj). Qed.

(** Storing a one at each place of the list. *)
Lemma fill_ones : forall locs m, (forall k, k ∈ locs -> 0 <= k < zlen (field m)) ->
  exists xs, fill (fun _ _ => Some 1) locs m = Some (Matrix2d (column m) (line m) xs) /\ zlen xs = zlen (field m) /\
    forall k, 0 <= k < zlen (field m) -> xs !!! Z.to_nat k = if decide (k ∈ locs) then 1 else field m !!! Z.to_nat k.
Proof.
  induction locs as [|k locs IH]; intros m Hk; cbn [fill].
  - exists (field m). split; [by destruct m |]. split; [done |]. intros k _. by rewrite decide_False by apply not_elem_of_nil.
  - cbn [mbind option_bind]. rewrite store_ok by (apply Hk; constructor). cbn [mbind option_bind].
    destruct (IH (Matrix2d (column m) (line m) (<[Z.to_nat k := 1]> (field m)))) as (xs & -> & Hl & Hx); cbn [column line field] in *.
    { intros k' Hk'. unfold zlen. rewrite length_insert. apply Hk. by constructor. }
    unfold zlen in Hl, Hx. rewrite length_insert in Hl, Hx. exists xs. split; [done |]. split; [done |]. intros k' Hk'. rewrite Hx by done.
    pose proof (Hk k ltac:(constructor)) as Hkr. unfold zlen in Hkr. case_decide as H1.
    + by rewrite decide_True by (by constructor).
    + destruct (decide (k' = k)) as [-> | Hne].
      * rewrite decide_True by constructor. rewrite list_lookup_total_insert_eq; [done | lia].
      * rewrite list_lookup_total_insert_ne by lia. rewrite decide_False; [done |]. intros [? | ?]%elem_of_cons; done.
Qed.

Lemma matrix2d_make_identity_ok n : 0 < n -> n * n < 2 ^ 32 -> malloc (8 + 8 * (n * n)) = true ->
  matrix2d_make_identity n = Some (Some (identity n)).
Proof.
  intros Hn Hs Hm. unfold matrix2d_make_identity. rewrite (proj2 (Z.eqb_neq 0 n)) by lia. rewrite alloc_ok by done.
  set (m0 := Matrix2d _ _ _). assert (zlen (field m0) = n * n) as Hz by (apply zlen_replicate; nia).
  assert (forall k, k ∈ ((fun i => u32 (u32 (i * n) + i)) <$> upto n) <-> exists i, 0 <= i < n /\ k = i * n + i) as Hloc.
  { intros k. rewrite list_elem_of_fmap. split.
    - intros (i & -> & Hi%upto_range). exists i. split; [done |]. by rewrite (wrap_small 32 (i * n)), (wrap_small 32) by nia.
    - intros (i & Hi & ->). exists i. split; [by rewrite (wrap_small 32 (i * n)), (wrap_small 32) by nia |].
      apply list_elem_of_lookup. exists (Z.to_nat i). by apply upto_lookup. }
  destruct (fill_ones ((fun i => u32 (u32 (i * n) + i)) <$> upto n) m0) as (xs & -> & Hl & Hx).
  { intros k (i & Hi & ->)%Hloc. rewrite Hz. nia. }
  cbn [mbind option_bind]. do 2 f_equal. apply (elements_eq (Matrix2d n n xs)); [split; cbn; lia || done |]. cbn [line column]. intros i j Hi Hj.
  unfold at_. cbn [field column]. rewrite Hx by (rewrite Hz; nia). destruct (decide (i = j)) as [-> | Hne].
  - rewrite decide_True; [done |]. apply Hloc. by exists j.
  - rewrite decide_False; [|intros (k & Hk & E)%Hloc; assert (i = k) by (destruct (Z.lt_trichotomy i k) as [? | [? | ?]]; nia); subst k; lia]. cbn [m0 field].
    apply list_lookup_total_correct. apply lookup_replicate_2. nia.
Qed.

Lemma dot_from_app mulfn addfn l r i c : forall xs ys acc,
  dot_from mulfn addfn l r i c (xs ++ ys) acc = acc ← dot_from mulfn addfn l r i c xs acc; dot_from mulfn addfn l r i c ys acc.
Proof.
  induction xs as [|x xs IH]; intros ys acc; [done |]. cbn [app dot_from].
  destruct (calc mulfn _ _ _); [|done]. cbn [mbind option_bind]. destruct (calc addfn _ _ _); [apply IH | done].
Qed.

(** Any matrix times the identity is itself, also with elements at the ends of the range
    of [long]. *)
Lemma dot_identity m i c : matrix_ok m -> 0 <= i < line m -> 0 <= c < column m ->
  (forall j, 0 <= j < column m -> - 2 ^ 63 <= at_ m i j < 2 ^ 63) -> dot None None m (identity (column m)) i c = Some (at_ m i c).
Proof.
  intros Hm Hi Hc Hb. pose proof Hm as [Hcm _ _ _].
  assert (forall js acc, (forall j, j ∈ js -> 0 <= j < column m /\ j <> c) -> - 2 ^ 63 <= acc < 2 ^ 63 ->
    dot_from None None m (identity (column m)) i c js acc = Some acc) as Hzero.
  { induction js as [|j js IH]; intros acc Hjs Ha; [done |]. destruct (Hjs j ltac:(constructor)) as [Hj Hne]. cbn [dot_from].
    rewrite at_identity, decide_False by done. unfold calc, matrix2d_calc_mul, matrix2d_calc_add.
    rewrite Z.mul_0_r, (long_ok 0) by lia. cbn [mbind option_bind]. rewrite Z.add_0_r, long_ok by done. cbn [mbind option_bind].
    apply IH; [|done]. intros j' Hj'. apply Hjs. by constructor. }
  unfold dot. pose proof (upto_lookup (column m) c Hc) as Hin. apply list_elem_of_lookup_2, list_elem_of_split in Hin as (pre & post & E).
  assert (NoDup (upto (column m))) as Hnd by (unfold upto; apply NoDup_fmap_2; [intros x y H; lia | apply NoDup_seq]).
  rewrite E in Hnd |- *. apply NoDup_app in Hnd as (Hn1 & Hn2 & Hn3). apply NoDup_cons in Hn3 as [Hn3 _].
  assert (forall j, j ∈ pre \/ j ∈ post -> 0 <= j < column m /\ j <> c) as Hjs.
  { intros j Hj. split.
    - apply upto_range. rewrite E, elem_of_app, elem_of_cons. tauto.
    - intros ->. destruct Hj as [Hj | Hj]; [apply (Hn2 c Hj); constructor | done]. }
  rewrite dot_from_app, Hzero by (lia || auto). cbn [mbind option_bind dot_from].
  rewrite at_identity, decide_True by done. unfold calc, matrix2d_calc_mul, matrix2d_calc_add.
  specialize (Hb c Hc). rewrite Z.mul_1_r, (long_ok (at_ m i c)) by done. cbn [mbind option_bind]. rewrite Z.add_0_l, long_ok by done.
  cbn [mbind option_bind].
  rewrite Hzero by (lia || auto). done.
Qed.

Lemma matrix2d_mul_identity m : matrix_ok m -> column m * column m < 2 ^ 32 -> malloc (8 + 8 * (line m * column m)) = true ->
  (forall i j, 0 <= i < line m -> 0 <= j < column m -> - 2 ^ 63 <= at_ m i j < 2 ^ 63) ->
  matrix2d_mul (Some m) (Some (identity (column m))) None None = Some (Some m).
Proof.
  intros Hm Hs Hmem Hb. pose proof Hm as [Hc Hl Hf Hsz].
  rewrite matrix2d_mul_run; [|done | by apply of_elements_ok; lia | done | done | done].
  rewrite (mapM_fmap _ (fun i => at_ m (i / column m) (i mod column m))).
  - cbn. do 2 f_equal. symmetry. by apply (elements_eq m (at_ m)).
  - intros i Hi%upto_range. pose proof (Z.mod_pos_bound i (column m) Hc).
    assert (0 <= i / column m < line m) by (split; [apply Z.div_pos | apply Z.div_lt_upper_bound]; lia).
    apply dot_identity; [done | lia | lia |]. intros j Hj. apply Hb; lia.
Qed.
End Matrix.

(** ** The example of matrix2d.h, and a product that loses a column *)
Lemma matrix2d_mul_correct_witness :
  matrix2d_mul (fun _ => true) (Some (Matrix2d 3 2 [1; 2; 3; 4; 5; 6])) (Some (Matrix2d 3 3 [7; 8; 9; 1; 2; 3; 4; 5; 6])) None None =
    Some (Some (Matrix2d 3 2 [21; 27; 33; 57; 72; 87])) /\
  matrix2d_mul (fun _ => true) (Some (Matrix2d 1 1 [2])) (Some (Matrix2d 2 1 [3; 4])) None None = Some (Some (Matrix2d 1 1 [6])).
Proof.
  assert (forall c l f, 0 < c -> 0 < l -> zlen f = l * c -> l * c < 2 ^ 32 -> matrix_ok (Matrix2d c l f)) as Hok by (intros; by split).
  assert (forall c l f B, 0 < c -> zlen f = l * c -> Forall (fun x => Z.abs x <= B) f ->
    forall i j, 0 <= i < l -> 0 <= j < c -> Z.abs (at_ (Matrix2d c l f) i j) <= B) as Hb.
  { intros c l f B Hc Hz Hf i j Hi Hj. unfold at_. cbn [field column]. rewrite Forall_lookup in Hf. apply (Hf (Z.to_nat (i * c + j))).
    apply list_lookup_lookup_total_lt. unfold zlen in Hz. nia. }
  split.
  - pose proof (matrix2d_mul_correct (fun _ => true) (Matrix2d 3 2 [1; 2; 3; 4; 5; 6]) (Matrix2d 3 3 [7; 8; 9; 1; 2; 3; 4; 5; 6]) 9) as H.
    rewrite H.
    { vm_compute. reflexivity. }
    { by apply Hok. }
    { by apply Hok. }
    { done. }
    { done. }
    { done. }
    { done. }
    { apply Hb; [done | done | decided]. }
    { apply Hb; [done | done | decided]. }
    { cbn. lia. }
  - pose proof (matrix2d_mul_correct (fun _ => true) (Matrix2d 1 1 [2]) (Matrix2d 2 1 [3; 4]) 9) as H.
    rewrite H.
    { vm_compute. reflexivity. }
    { by apply Hok. }
    { by apply Hok. }
    { done. }
    { done. }
    { done. }
    { done. }
    { apply Hb; [done | done | decided]. }
    { apply Hb; [done | done | decided]. }
    { cbn. lia. }
Defined.

Lemma matrix2d_transport_involutive_witness : exists t,
  matrix2d_transport (fun _ => true) (Some (Matrix2d 3 2 [1; 2; 3; 4; 5; 6])) = Some (Some t) /\
  matrix2d_transport (fun _ => true) (Some t) = Some (Some (Matrix2d 3 2 [1; 2; 3; 4; 5; 6])).
Proof.
  destruct (matrix2d_transport_involutive (fun _ => true) (Matrix2d 3 2 [1; 2; 3; 4; 5; 6])) as (t & E & _ & _ & _ & E'); [by split | done |].
  exists t. split; [exact E | exact E'].
Defined.
