(* ===== verification/Ncb.v ===== *)
(** The network control block: src/posix/ncb.c, with the descriptor flags of
    src/posix/io.c and the parameter guards of include/compiler.h.

    A system call takes the state [K] of the kernel to its answer and a new state;
    it is a parameter.  [os] adds the thread's errno, which only a failing call
    writes.  A call that SYSCALL_WHILE_EINTR restarts stands for its first answer
    other than EINTR. *)
From S2P Require Import Prelude.

Definition LINKATTR_NONBLOCK : Z := 8.
Definition O_NONBLOCK : Z := 2048.

Inductive answer := Ret (n : Z) | Err (e : Z).

Record os (K : Type) := Os { kern : K; errno : Z }.
Arguments Os {K}.
Arguments kern {K}.
Arguments errno {K}.

(** What the callback of the user can be told. *)
Inductive event :=
  | EVT_PRE_CLOSE (hld : Z) (context : option Z)
  | EVT_CLOSED (hld : Z)
  | EVT_RECEIVEDATA (hld cb : Z) (data : list Z)
  | EVT_PIPEDATA (hld cb : Z) (data : list Z)
  | EVT_TCP_ACCEPTED (hld link : Z)
  | EVT_TCP_CONNECTED (hld : Z).

(** The fields of [ncb_t] used here; [callback] is the address of the routine. *)
Record ncb_t := Ncb {
  hld : Z; sockfd : Z; attr : Z;
  callback : option Z; context : option Z;
  rx_buffer : option (list Z); rx_buffer_size : Z;
}.

Definition set_attr (a : Z) (ncb : ncb_t) : ncb_t :=
  Ncb (hld ncb) (sockfd ncb) a (callback ncb) (context ncb) (rx_buffer ncb) (rx_buffer_size ncb).

(** ILLEGAL_PARAMETER_CHECK and ILLEGAL_PARAMETER_STOP leave the function when
    their argument does not hold. *)
Definition ILLEGAL_PARAMETER (expr : bool) : bool := negb expr.

(** [nonblock attr] *)
Definition nonblock (a : Z) : bool := negb (Z.land a LINKATTR_NONBLOCK =? 0).

Section Calls.
Context {K : Type}.
Implicit Types (s : os K) (ncb : ncb_t).

Definition syscall (f : K -> answer * K) s : Z * os K :=
  match f (kern s) with
  | (Ret n, k) => (n, Os k (errno s))
  | (Err e, k) => (-1, Os k e)
  end.

Context (sendmsg : Z -> bool -> list Z -> K -> answer * K)
  (recvmsg : Z -> bool -> Z -> K -> answer * K)
  (set_tos : Z -> Z -> K -> answer * K)
  (getfl : Z -> K -> answer * K)
  (setfl : Z -> Z -> K -> answer * K).

(** [data = None] is NULL; [datalen] is the number of bytes. *)
Definition ncb_senddata ncb (data : option (list Z)) (datalen : Z) s : Z * os K :=
  if ILLEGAL_PARAMETER (bool_decide (data = None) || (datalen <=? 0)) then (- EINVAL, s)
  else
    let '(cb, s) := syscall (sendmsg (sockfd ncb) (nonblock (attr ncb)) (default [] data)) s in
    (if cb <? 0 then posix__makeerror (errno s) else cb, s).

(** [data]: whether the caller passes a buffer of its own. *)
Definition ncb_recvdata ncb (data : bool) (datalen : Z) s : Z * os K :=
  let iov_base := data || bool_decide (is_Some (rx_buffer ncb)) in
  let iov_len := if data && (0 <? datalen) then datalen else rx_buffer_size ncb in
  if ILLEGAL_PARAMETER (negb iov_base || (iov_len <=? 0)) then (- EINVAL, s)
  else
    let '(cb, s) := syscall (recvmsg (sockfd ncb) (nonblock (attr ncb)) iov_len) s in
    (if cb <? 0 then posix__makeerror (errno s) else cb, s).

Definition ncb_set_iptos ncb (tos : Z) s : Z * os K :=
  if ILLEGAL_PARAMETER (0 =? tos) then (- EINVAL, s)
  else
    let '(r, s) := syscall (set_tos (sockfd ncb) (u8 tos)) s in
    (if 0 =? r then NSP_STATUS_SUCCESSFUL else posix__makeerror (errno s), s).

(** ** Notifications

    The events handed to the callback; [None] is a call through NULL. *)
Definition post ncb (e : event) (posted : list event) : option (list event) :=
  if ILLEGAL_PARAMETER (bool_decide (callback ncb = None)) then Some posted
  else _ ← callback ncb; Some (posted ++ [e]).

Definition _ncb_post_preclose ncb := post ncb (EVT_PRE_CLOSE (hld ncb) (context ncb)).
Definition _ncb_post_closed ncb := post ncb (EVT_CLOSED (hld ncb)).
Definition ncb_post_recvdata ncb (cb : Z) (data : list Z) := post ncb (EVT_RECEIVEDATA (hld ncb) cb data).
Definition ncb_post_pipedata ncb (cb : Z) (data : list Z) := post ncb (EVT_PIPEDATA (hld ncb) cb data).
Definition ncb_post_accepted ncb (link : Z) := post ncb (EVT_TCP_ACCEPTED (hld ncb) link).
Definition ncb_post_connected ncb := post ncb (EVT_TCP_CONNECTED (hld ncb)).

(** ** The descriptor mode *)
Definition io_set_nonblock (fd : Z) (set : bool) s : Z * os K :=
  let '(opt, s) := syscall (getfl fd) s in
  if -1 =? opt then (posix__makeerror (errno s), s)
  else
    let '(fr, s) :=
      if set then
        if Z.land opt O_NONBLOCK =? 0 then syscall (setfl fd (Z.lor opt O_NONBLOCK)) s else (0, s)
      else
        if negb (Z.land opt O_NONBLOCK =? 0) then syscall (setfl fd (Z.land opt (Z.lnot O_NONBLOCK))) s
        else (0, s) in
    if -1 =? fr then (posix__makeerror (errno s), s) else (NSP_STATUS_SUCCESSFUL, s).

Definition ncb_set_nonblock ncb (set : bool) s : Z * os K :=
  if set then
    match callback ncb with
    | Some _ => io_set_nonblock (sockfd ncb) true s
    | None => (posix__makeerror EINVAL, s)
    end
  else io_set_nonblock (sockfd ncb) false s.

(** The result, the block and the state. *)
Definition ncb_setattr_r ncb (a : Z) s : Z * ncb_t * os K :=
  let oldattr := attr ncb in
  let ncb := set_attr a ncb in
  let '(failed, ncb, s) :=
    if nonblock a && negb (nonblock oldattr) then
      let '(status, s) := ncb_set_nonblock ncb true s in
      if NSP_SUCCESS status then (None, set_attr (Z.lor (attr ncb) LINKATTR_NONBLOCK) ncb, s)
      else (Some (posix__makeerror status), set_attr (Z.land (attr ncb) (Z.lnot LINKATTR_NONBLOCK)) ncb, s)
    else (None, ncb, s) in
  match failed with
  | Some r => (r, ncb, s)
  | None =>
      if negb (nonblock a) && nonblock oldattr then
        let '(status, s) := ncb_set_nonblock ncb false s in
        if NSP_SUCCESS status then (oldattr, set_attr (Z.land (attr ncb) (Z.lnot LINKATTR_NONBLOCK)) ncb, s)
        else (posix__makeerror status, set_attr (Z.lor (attr ncb) LINKATTR_NONBLOCK) ncb, s)
      else (oldattr, ncb, s)
  end.

Definition ncb_getattr_r ncb : Z := attr ncb.

(** ** What the guards let through *)
Definition valid_send (data : option (list Z)) (datalen : Z) : Prop :=
  exists bs, data = Some bs /\ datalen = zlen bs /\ bs <> [].

(** C40: the guards of the control block are the wrong way round: they turn away
    exactly the calls they are meant to let through.  Sending or receiving with a
    buffer gives -EINVAL before any system call, so no byte is ever transferred and
    errno is what it was; a type of service other than zero is refused; no event
    reaches a link with a callback, and a link without one is called through NULL. *)
Theorem ncb_guards_inverted ncb s data datalen own n tos e posted :
  valid_send data datalen -> 0 < n -> own = true \/ is_Some (rx_buffer ncb) /\ 0 < rx_buffer_size ncb ->
  tos <> 0 ->
  ncb_senddata ncb data datalen s = (- EINVAL, s) /\
  ncb_recvdata ncb own n s = (- EINVAL, s) /\
  ncb_set_iptos ncb tos s = (- EINVAL, s) /\
  post ncb e posted = (if callback ncb is Some _ then Some posted else None).
Proof.
  intros (bs & -> & -> & Hbs%zlen_pos) Hn Hown Htos. split; [|split; [|split]].
  - unfold ncb_senddata. by rewrite bool_decide_false, (proj2 (Z.leb_gt _ _)) by done.
  - unfold ncb_recvdata. destruct Hown as [-> | [Hb Hs]].
    + cbn [orb andb]. rewrite (proj2 (Z.ltb_lt 0 n)) by done. by rewrite (proj2 (Z.leb_gt n 0)) by done.
    + rewrite (bool_decide_true _ Hb), orb_true_r. cbn [negb orb].
      destruct (own && (0 <? n)); by rewrite (proj2 (Z.leb_gt _ _)) by done.
  - unfold ncb_set_iptos. by rewrite (proj2 (Z.eqb_neq 0 tos)) by done.
  - unfold post. by destruct (callback ncb).
Qed.

(** fcntl(2) on the file status flags, [fl fd k]: F_GETFL reads them, F_SETFL sets
    the mode (O_NONBLOCK is bit 11) to the one asked for; either may fail. *)
Class Fcntl (fl : Z -> K -> Z) : Prop := {
  getfl_fl fd k : getfl fd k = (Ret (fl fd k), k) \/ exists e, 0 < e /\ getfl fd k = (Err e, k);
  setfl_fl fd v k : (exists k', setfl fd v k = (Ret 0, k') /\ Z.testbit (fl fd k') 11 = Z.testbit v 11) \/
                    (exists e, 0 < e /\ setfl fd v k = (Err e, k));
  fl_nonneg fd k : 0 <= fl fd k;
}.

Section Mode.
Context (fl : Z -> K -> Z) `{!Fcntl fl}.

(** The descriptor does not block. *)
Definition mode (fd : Z) s : bool := Z.testbit (fl fd (kern s)) 11.

Lemma nonblock_testbit a : nonblock a = Z.testbit a 3.
Proof. exact (flag_testbit a 3 ltac:(lia)). Qed.

Lemma io_set_nonblock_spec fd set s : exists r s',
  io_set_nonblock fd set s = (r, s') /\
  (r = NSP_STATUS_SUCCESSFUL /\ mode fd s' = set \/ r < 0 /\ mode fd s' = mode fd s).
Proof.
  unfold io_set_nonblock, syscall, mode. pose proof (fl_nonneg fd (kern s)) as H0.
  destruct (getfl_fl fd (kern s)) as [-> | (e & He & ->)]; cbn [errno kern].
  2: { eexists _, _. split; [reflexivity |]. right. rewrite makeerror_pos by done. cbn [kern]. split; [lia | done]. }
  rewrite (proj2 (Z.eqb_neq (-1) (fl fd (kern s)))) by lia.
  pose proof (flag_testbit (fl fd (kern s)) 11 ltac:(lia)) as Hb. change (2 ^ 11) with O_NONBLOCK in Hb.
  destruct set.
  - destruct (Z.land (fl fd (kern s)) O_NONBLOCK =? 0) eqn:E; cbn [negb] in Hb.
    + destruct (setfl_fl fd (Z.lor (fl fd (kern s)) O_NONBLOCK) (kern s)) as [(k' & -> & Hk) | (e & He & ->)];
        eexists _, _; (split; [reflexivity |]); cbn [kern errno].
      * left. split; [done |]. rewrite Hk. apply (flag_set _ 11 11); lia.
      * right. rewrite makeerror_pos by done. split; [lia | done].
    + eexists _, _. split; [reflexivity |]. left. cbn [kern]. by rewrite <- Hb.
  - destruct (Z.land (fl fd (kern s)) O_NONBLOCK =? 0) eqn:E; cbn [negb] in *.
    + eexists _, _. split; [reflexivity |]. left. cbn [kern]. by rewrite <- Hb.
    + destruct (setfl_fl fd (Z.land (fl fd (kern s)) (Z.lnot O_NONBLOCK)) (kern s)) as [(k' & -> & Hk) | (e & He & ->)];
        eexists _, _; (split; [reflexivity |]); cbn [kern errno].
      * left. split; [done |]. rewrite Hk. apply (flag_clear _ 11 11); lia.
      * right. rewrite makeerror_pos by done. split; [lia | done].
Qed.

Lemma ncb_set_nonblock_spec ncb set s : exists r s',
  ncb_set_nonblock ncb set s = (r, s') /\
  (r = NSP_STATUS_SUCCESSFUL /\ mode (sockfd ncb) s' = set \/
   r < 0 /\ mode (sockfd ncb) s' = mode (sockfd ncb) s).
Proof.
  unfold ncb_set_nonblock. destruct set; [|apply io_set_nonblock_spec].
  destruct (callback ncb); [apply io_set_nonblock_spec |].
  eexists _, _. split; [reflexivity |]. right. split; [vm_compute; reflexivity | done].
Qed.

(** The NONBLOCK bit of a link's attributes is the mode of its descriptor:
    when the two agree, they agree after [ncb_setattr_r] whatever fails on the way.
    On success (a result that is not negative, for an old value that is not) the call
    returns the old attributes and the new ones are those asked for; on failure the
    mode stays as it was, and only that bit differs from what was asked for. *)
Theorem ncb_setattr_mode ncb a s :
  nonblock (attr ncb) = mode (sockfd ncb) s -> 0 <= attr ncb ->
  exists r ncb' s',
    ncb_setattr_r ncb a s = (r, ncb', s') /\
    nonblock (attr ncb') = mode (sockfd ncb) s' /\
    (0 <= r -> r = attr ncb /\ attr ncb' = a) /\
    (r < 0 -> mode (sockfd ncb) s' = mode (sockfd ncb) s) /\
    (forall i, 0 <= i -> i <> 3 -> Z.testbit (attr ncb') i = Z.testbit a i).
Proof.
  intros Hmode H0. unfold ncb_setattr_r.
  assert (forall x, Z.testbit x 3 = true -> Z.lor x LINKATTR_NONBLOCK = x) as Hset.
  { intros x Hx. apply Z.bits_inj'. intros i Hi. change LINKATTR_NONBLOCK with (2 ^ 3).
    rewrite flag_set by lia. by destruct (Z.eqb_spec 3 i) as [<- |]. }
  assert (forall x, Z.testbit x 3 = false -> Z.land x (Z.lnot LINKATTR_NONBLOCK) = x) as Hclear.
  { intros x Hx. apply Z.bits_inj'. intros i Hi. change LINKATTR_NONBLOCK with (2 ^ 3).
    rewrite flag_clear by lia. by destruct (Z.eqb_spec 3 i) as [<- |]. }
  rewrite !nonblock_testbit in *. cbn [attr set_attr sockfd].
  destruct (Z.testbit a 3) eqn:Ea, (Z.testbit (attr ncb) 3) eqn:Eo; cbn [negb andb].
  - eexists _, _, _. split; [reflexivity |]. cbn [attr set_attr]. rewrite nonblock_testbit, Ea. auto with lia.
  - destruct (ncb_set_nonblock_spec (set_attr a ncb) true s) as (r & s' & -> & [(-> & Hm) | (Hr & Hm)]); cbn [sockfd set_attr] in Hm.
    + change (NSP_SUCCESS NSP_STATUS_SUCCESSFUL) with true. cbn match.
      eexists _, _, _. split; [reflexivity |]. cbn [attr set_attr].
      rewrite nonblock_testbit, Hset, Ea, Hm by done. split_and!; (done || lia).
    + unfold NSP_SUCCESS. rewrite (proj2 (Z.leb_gt 0 r)) by done.
      eexists _, _, _. split; [reflexivity |]. cbn [attr set_attr].
      unfold posix__makeerror. rewrite (proj2 (Z.leb_le r 0)) by lia.
      change LINKATTR_NONBLOCK with (2 ^ 3). rewrite nonblock_testbit, flag_clear, Hm, <- Hmode by lia.
      split_and!; try lia; try done. intros i Hi Hi3. rewrite flag_clear by lia.
      by rewrite (proj2 (Z.eqb_neq 3 i)) by lia.
  - destruct (ncb_set_nonblock_spec (set_attr a ncb) false s) as (r & s' & -> & [(-> & Hm) | (Hr & Hm)]); cbn [sockfd set_attr] in Hm.
    + change (NSP_SUCCESS NSP_STATUS_SUCCESSFUL) with true. cbn match.
      eexists _, _, _. split; [reflexivity |]. cbn [attr set_attr].
      rewrite nonblock_testbit, Hclear, Ea, Hm by done. split_and!; (done || lia).
    + unfold NSP_SUCCESS. rewrite (proj2 (Z.leb_gt 0 r)) by done.
      eexists _, _, _. split; [reflexivity |]. cbn [attr set_attr].
      unfold posix__makeerror. rewrite (proj2 (Z.leb_le r 0)) by lia.
      change LINKATTR_NONBLOCK with (2 ^ 3). rewrite nonblock_testbit, flag_set, Hm, <- Hmode by lia.
      split_and!; try lia; try done. intros i Hi Hi3. rewrite flag_set by lia.
      by rewrite (proj2 (Z.eqb_neq 3 i)) by lia.
  - eexists _, _, _. split; [reflexivity |]. cbn [attr set_attr]. rewrite nonblock_testbit, Ea. auto with lia.
Qed.
End Mode.
End Calls.

(** ** A kernel to run the code on

    One descriptor whose flags are the first component; [budget] counts the calls
    that are still answered, then fcntl fails with EBADF. *)
Record demo_kernel := Kernel { flags : Z; budget : nat; sent : list Z }.
Definition EBADF : Z := 9.
Definition demo_fl (fd : Z) (k : demo_kernel) : Z := Z.max 0 (flags k).
Definition demo_getfl (fd : Z) (k : demo_kernel) : answer * demo_kernel :=
  match budget k with O => (Err EBADF, k) | S _ => (Ret (demo_fl fd k), k) end.
Definition demo_setfl (fd v : Z) (k : demo_kernel) : answer * demo_kernel :=
  match budget k with
  | S (S n) => if 0 <=? v then (Ret 0, Kernel v (S n) (sent k)) else (Err EBADF, k)
  | _ => (Err EBADF, k)
  end.
#[export] Instance demo_fcntl : Fcntl demo_getfl demo_setfl demo_fl.
Proof.
  split.
  - intros fd [f [|n] x]; [right; by exists EBADF | by left].
  - intros fd v [f [|[|n]] x]; [right; by exists EBADF | right; by exists EBADF |].
    unfold demo_setfl. cbn [budget]. destruct (Z.leb_spec 0 v); [|right; by exists EBADF].
    left. eexists. split; [reflexivity |]. unfold demo_fl. cbn [flags]. by rewrite Z.max_r by done.
  - intros fd k. unfold demo_fl. lia.
Qed.
Definition demo_send (fd : Z) (dontwait : bool) (data : list Z) (k : demo_kernel) : answer * demo_kernel :=
  (Ret (zlen data), Kernel (flags k) (budget k) (sent k ++ data)).
Definition demo_recv (fd : Z) (dontwait : bool) (n : Z) (k : demo_kernel) : answer * demo_kernel := (Ret n, k).
Definition demo_tos (fd tos : Z) (k : demo_kernel) : answer * demo_kernel := (Ret 0, k).

Definition demo_ncb : ncb_t := Ncb 7 5 0 (Some 1000) None (Some (replicate 16 0)) 16.
Definition demo_os : os demo_kernel := Os (Kernel 2 3 []) 0.

(** Three bytes to send, 16 to receive. *)
Lemma ncb_guards_inverted_witness :
  ncb_senddata demo_send demo_ncb (Some [1; 2; 3]) 3 demo_os = (- EINVAL, demo_os) /\
  ncb_recvdata demo_recv demo_ncb false 16 demo_os = (- EINVAL, demo_os) /\
  ncb_set_iptos demo_tos demo_ncb 4 demo_os = (- EINVAL, demo_os) /\
  post demo_ncb (EVT_CLOSED 7) [] = Some [].
Proof.
  apply (ncb_guards_inverted demo_send demo_recv demo_tos demo_ncb demo_os (Some [1; 2; 3]) 3 false 16 4 (EVT_CLOSED 7) []).
  - exists [1; 2; 3]. split; [reflexivity |]. split; [reflexivity | discriminate].
  - lia.
  - right. split; [eexists; reflexivity | cbn; lia].
  - discriminate.
Defined.

(** Non-blocking mode is turned on, and refused after the descriptor is gone. *)
Lemma ncb_setattr_mode_witness :
  exists r ncb' s', ncb_setattr_r demo_getfl demo_setfl demo_ncb 9 demo_os = (r, ncb', s') /\
    nonblock (attr ncb') = mode demo_fl (sockfd ncb') s' /\ r = 0 /\ attr ncb' = 9.
Proof.
  destruct (ncb_setattr_mode demo_getfl demo_setfl demo_fl demo_ncb 9 demo_os eq_refl ltac:(cbn; lia))
    as (r & ncb' & s' & E & Hm & Hok & _).
  pose proof E as E'. vm_compute in E'. injection E' as <- <- <-.
  exists 0, (Ncb 7 5 9 (Some 1000) None (Some (replicate 16 0)) 16), (Os (Kernel 2050 2 []) 0).
  split; [exact E |]. split; [exact Hm |]. split; [reflexivity | apply Hok; lia].
Defined.
