(* ===== verification/TcpRx.v ===== *)
(** Receiving on a TCP link: [_tcp_rx] and [tcp_rx] of src/posix/tcpio.c, and what
    [_iorun] of src/posix/io.c does with EPOLLIN.

    The link is the block of [Ncb] with the fields the parser of [TcpAl] works on.
    Bytes come from [ncb_recvdata] and packets go through [ncb_post_recvdata], guards
    included; recvmsg(2), FIONREAD and the allocator are parameters. *)
From S2P Require Import Prelude TcpAl Ncb.

Section TcpRx.
Context {K : Type}.
Implicit Types (c : ncb_t) (t : tcp) (s : os K).
(** [received] are the bytes that recvmsg(2) last stored. *)
Context (recvmsg : Z -> bool -> Z -> K -> answer * K) (received : K -> list Z)
  (fionread : Z -> K -> answer * K) (ztrymalloc : Z -> option (list Z)).

(** The packets the parser hands over, to the callback as far as the guard lets them. *)
Fixpoint post_all c (packets : list (list Z)) (posted : list event) : option (list event) :=
  match packets with
  | [] => Some posted
  | p :: packets => posted ← ncb_post_recvdata c (zlen p) p posted; post_all c packets posted
  end.

Definition _tcp_rx c t (posted : list event) s : option (Z * tcp * list event * os K) :=
  let '(recvcb, s) := ncb_recvdata recvmsg c false 0 s in
  if 0 <? recvcb then
    data ← memread (received (kern s)) 0 recvcb;
    '(status, t, packets) ← rx_loop ztrymalloc (length data) t data;
    posted ← post_all c packets posted;
    Some (status, t, posted, s)
  else Some (if 0 =? recvcb then posix__makeerror ECONNRESET else recvcb, t, posted, s).

(** Until the kernel has nothing more, in at most [fuel] turns. *)
Fixpoint tcp_rx (fuel : nat) c t (posted : list event) s : option (Z * tcp * list event * os K) :=
  match fuel with
  | O => None
  | S fuel =>
      let '(r, s) :=
        match fionread (sockfd c) (kern s) with
        | (Ret available, k) => (available =? 0, Os k (errno s))
        | (Err e, k) => (false, Os k e)
        end in
      if (r : bool) then Some (posix__makeerror EAGAIN, t, posted, s)
      else
        '(status, t, posted, s) ← _tcp_rx c t posted s;
        if NSP_SUCCESS status then tcp_rx fuel c t posted s else Some (status, t, posted, s)
  end.

(** What [_iorun] does on EPOLLIN; whether it closes the link. *)
Definition on_tcp_readable (fuel : nat) c t (posted : list event) s : option (bool * tcp * list event * os K) :=
  '(status, t, posted, s) ← tcp_rx fuel c t posted s;
  Some (negb (NSP_SUCCESS_OR_ERROR_EQUAL status EAGAIN), t, posted, s).

(** A link as [tcp_allocate_rx_buffer] leaves it. *)
Definition rx_ready c : Prop := is_Some (rx_buffer c) /\ 0 < rx_buffer_size c.

Lemma _tcp_rx_refused c t posted s : rx_ready c -> _tcp_rx c t posted s = Some (- EINVAL, t, posted, s).
Proof.
  intros [Hb Hs]. unfold _tcp_rx, ncb_recvdata. rewrite (bool_decide_true _ Hb). cbn [andb orb negb].
  by rewrite (proj2 (Z.leb_gt (rx_buffer_size c) 0)) by done.
Qed.

(** The stream the kernel holds for the link: FIONREAD gives its length (tcp(7)). *)
Class Stream (stream : K -> list Z) : Prop :=
  fionread_spec fd k : exists k', fionread fd k = (Ret (zlen (stream k)), k') /\ stream k' = stream k.

Section Receive.
Context (stream : K -> list Z) `{!Stream stream} (arrive : list Z -> K -> K)
  (Harrive : forall b k, stream (arrive b k) = stream k ++ b).

Lemma on_tcp_readable_spec fuel c t posted s : rx_ready c -> (0 < fuel)%nat ->
  exists s', on_tcp_readable fuel c t posted s = Some (bool_decide (stream (kern s) <> []), t, posted, s') /\ stream (kern s') = stream (kern s).
Proof.
  intros Hc Hf. destruct fuel as [|fuel]; [lia |]. unfold on_tcp_readable. cbn [tcp_rx].
  destruct (fionread_spec (sockfd c) (kern s)) as (k & -> & Hk). exists (Os k (errno s)). case_bool_decide as Hd.
  - apply zlen_pos in Hd. rewrite (proj2 (Z.eqb_neq (zlen _) 0)) by lia. by rewrite _tcp_rx_refused by done.
  - rewrite Hd in *. rewrite zlen_nil. by split.
Qed.

(** Pieces of the stream arrive, and the epoll thread is told, until it closes the link. *)
Fixpoint receive (fuel : nat) (pieces : list (list Z)) c t (posted : list event) s : option (bool * tcp * list event * os K) :=
  match pieces with
  | [] => Some (false, t, posted, s)
  | b :: pieces =>
      '(closed, t, posted, s) ← on_tcp_readable fuel c t posted (Os (arrive b (kern s)) (errno s));
      if closed : bool then Some (true, t, posted, s) else receive fuel pieces c t posted s
  end.

(** C37: an established link receives nothing.  Whatever arrives for it in whatever pieces, no
    byte is taken from the kernel, none reaches the parser, the callback is told of no
    packet, and the link is closed as soon as there is a byte. *)
Theorem tcp_receives_nothing fuel pieces c t posted s : rx_ready c -> stream (kern s) = [] -> (0 < fuel)%nat ->
  exists s', receive fuel pieces c t posted s = Some (bool_decide (concat pieces <> []), t, posted, s') /\
    stream (kern s') = default [] (list_find (fun b => b <> []) pieces ≫= fun x => Some x.2).
Proof.
  intros Hc. revert s. induction pieces as [|b pieces IH]; intros s Hs Hf; cbn [receive].
  { exists s. by rewrite bool_decide_false by auto. }
  destruct (on_tcp_readable_spec fuel c t posted (Os (arrive b (kern s)) (errno s)) Hc Hf) as (s1 & -> & H1).
  cbn [mbind option_bind kern] in *. rewrite Harrive, Hs in *. cbn [app] in *. cbn [list_find]. destruct (decide (b <> [])) as [Hb | Hb].
  - rewrite bool_decide_true by done. exists s1. split; [|done]. rewrite bool_decide_true; [done |]. cbn [concat]. by destruct b.
  - rewrite bool_decide_false by done. apply dec_stable in Hb. rewrite Hb in *. destruct (IH s1 H1 Hf) as (s2 & -> & H2).
    exists s2. split; [done |]. rewrite H2. by destruct (list_find (fun b => b <> []) pieces) as [[i x]|].
Qed.
End Receive.
End TcpRx.

(** ** A stream to run it on *)
Definition demo_avail (fd : Z) (k : list Z) : answer * list Z := (Ret (zlen k), k).
Definition demo_take (fd : Z) (dontwait : bool) (n : Z) (k : list Z) : answer * list Z :=
  (Ret (zlen (take (Z.to_nat n) k)), drop (Z.to_nat n) k).
#[local] Instance demo_stream : Stream demo_avail id.
Proof. intros fd k. by exists k. Qed.

(** A whole packet of three bytes arrives after an empty event. *)
Lemma tcp_receives_nothing_witness : exists s',
  receive demo_take id demo_avail malloc0 (fun b k => k ++ b) 1 [[]; [3; 0; 0; 0; 10; 11; 12]] demo_ncb (tcp_fresh head4 0) [] (Os [] 0)
    = Some (true, tcp_fresh head4 0, [], s') /\ kern s' = [3; 0; 0; 0; 10; 11; 12].
Proof.
  destruct (tcp_receives_nothing demo_take id demo_avail malloc0 id (fun b k => k ++ b) (fun b k => eq_refl) 1
    [[]; [3; 0; 0; 0; 10; 11; 12]] demo_ncb (tcp_fresh head4 0) [] (Os [] 0)) as (s' & E & Hk).
  - split; [by eexists | reflexivity].
  - reflexivity.
  - lia.
  - exists s'. split; [exact E | exact Hk].
Defined.
