(* ===== verification/Pipe.v ===== *)
(** Messages to the epoll threads through a pipe: src/posix/pipe.c, with [io_pipefd] of
    src/posix/io.c.

    [objrefr] is the object table, which nothing here changes; [post_pipedata] is
    [ncb_post_pipedata] on the events handed out so far ([Ncb.ncb_post_pipedata], or what it
    is meant to be, [meant_pipedata]). *)
From S2P Require Import Prelude Ncb.

Definition PIPE_BUF : Z := 4096.
Definition EBADFD : Z := 77.
Definition EPROTOTYPE : Z := 91.

(** struct pipe_package_head: the length, four bytes of padding, the link. *)
Definition sizeof_head : Z := 16.
Definition package (pad : list Z) (length link : Z) (pipedata : list Z) : list Z :=
  le_bytes 4 length ++ pad ++ le_bytes 8 link ++ pipedata.
Definition head_length (off : Z) (buf : list Z) : option Z := b ← memread buf off 4; Some (le_value b).
Definition head_link (off : Z) (buf : list Z) : option Z := b ← memread buf (off + 8) 8; Some (s64 (le_value b)).

(** [pool]: the write ends of the threads' pipes, if the protocol is initialised. *)
Definition io_pipefd (pool : option (list Z)) (ncb : ncb_t) : option (Z * Z) :=
  match pool with
  | None => Some (posix__makeerror EPROTOTYPE, 0)
  | Some pipefdw =>
      fd ← pipefdw !! Z.to_nat (Z.rem (hld ncb) (zlen pipefdw));
      Some (if 0 <? fd then NSP_STATUS_SUCCESSFUL else posix__makeerror EBADFD, fd)
  end.

Section Pipe.
Context {K : Type}.
Implicit Types (s : os K) (ncb : ncb_t) (posted : list event).
Context (sys_read : Z -> Z -> K -> (list Z + Z) * K)
  (sys_write : Z -> list Z -> K -> answer * K)
  (objrefr : Z -> option ncb_t)
  (post_pipedata : ncb_t -> Z -> list Z -> list event -> option (list event)).

(** [mem] is the block for the message; its padding stays as it is. *)
Definition pipe_write_message (pool : option (list Z)) ncb (data : option (list Z)) (cb : Z) (mem : option (list Z)) s : option (Z * os K) :=
  if (PIPE_BUF - sizeof_head <=? cb) || bool_decide (data = None) || (0 =? cb) then Some (posix__makeerror EINVAL, s)
  else
    '(status, pipefd) ← io_pipefd pool ncb;
    if negb (NSP_SUCCESS status) then Some (NSP_STATUS_FATAL, s)
    else
      match mem with
      | None => Some (posix__makeerror ENOMEM, s)
      | Some block =>
          body ← memread (default [] data) 0 cb;
          pad ← memread block 4 4;
          let '(n, s) := syscall (sys_write pipefd (package pad cb (hld ncb) body)) s in
          Some (if n =? -1 then posix__makeerror (errno s) else status, s)
      end.

(** The messages in what one read gave. *)
Fixpoint scan (fuel : nat) (pipebuf : list Z) (offset remain : Z) posted : option (list event) :=
  if sizeof_head <? u64 remain then
    match fuel with
    | O => None
    | S fuel =>
        length ← head_length offset pipebuf;
        let m := s32 (length + sizeof_head) in
        if remain <? m then Some posted
        else
          link ← head_link offset pipebuf;
          posted ← match objrefr link with
                   | Some ncb_link => data ← memread pipebuf (offset + sizeof_head) length; post_pipedata ncb_link (s32 length) data posted
                   | None => Some posted
                   end;
          scan fuel pipebuf (offset + m) (remain - m) posted
    end
  else Some posted.

(** What is left of an incomplete message at the end of a read is dropped.  [pipebuf] is
    the local array. *)
Fixpoint _pipe_rx (fuel : nat) ncb (pipebuf : list Z) posted s : option (Z * list event * os K) :=
  match fuel with
  | O => None
  | S fuel =>
      let stop s := Some (if (0 =? errno s) || (EAGAIN =? errno s) then 0 else NSP_STATUS_FATAL, posted, s) in
      match sys_read (sockfd ncb) PIPE_BUF (kern s) with
      | (inr e, k) => stop (Os k e)
      | (inl [], k) => stop (Os k (errno s))
      | (inl bytes, k) =>
          pipebuf ← memcpy_at pipebuf 0 bytes;
          posted ← scan (S (length bytes)) pipebuf 0 (zlen bytes) posted;
          _pipe_rx fuel ncb pipebuf posted (Os k (errno s))
      end
  end.

Definition _pipe_tx ncb : Z := NSP_STATUS_SUCCESSFUL.

(** ** The contract of a pipe in packet mode

    What one write(2) wrote is what one read(2) reads (O_DIRECT); a write is taken as a
    whole or fails, and an empty pipe gives EAGAIN. *)
Class PacketPipe (fdr fdw : Z) (packets : K -> list (list Z)) : Prop := {
  read_packet k p q : packets k = p :: q -> zlen p <= PIPE_BUF -> exists k', sys_read fdr PIPE_BUF k = (inl p, k') /\ packets k' = q;
  read_empty k : packets k = [] -> exists k', sys_read fdr PIPE_BUF k = (inr EAGAIN, k') /\ packets k' = [];
  write_packet b k : 0 < zlen b <= PIPE_BUF ->
    (exists k', sys_write fdw b k = (Ret (zlen b), k') /\ packets k' = packets k ++ [b]) \/
    exists e k', sys_write fdw b k = (Err e, k') /\ 0 < e /\ packets k' = packets k;
}.

(** What the messages, of a link and data each, hand out. *)
Fixpoint deliver (msgs : list (Z * list Z)) posted : option (list event) :=
  match msgs with
  | [] => Some posted
  | (link, data) :: msgs =>
      posted ← match objrefr link with Some l => post_pipedata l (zlen data) data posted | None => Some posted end;
      deliver msgs posted
  end.

(** A message as [pipe_write_message] takes it, and the package it makes of it. *)
Definition message_ok (m : Z * list Z) : Prop := - 2 ^ 63 <= m.1 < 2 ^ 63 /\ 0 < zlen m.2 < PIPE_BUF - sizeof_head.
Definition packed (m : Z * list Z) (p : list Z) : Prop := exists pad, zlen pad = 4 /\ p = package pad (zlen m.2) m.1 m.2.

Lemma package_len pad len link body : zlen pad = 4 -> zlen (package pad len link body) = 16 + zlen body.
Proof. intros Hp. unfold package. rewrite !zlen_app, !le_bytes_len, Hp. lia. Qed.

Lemma memread_mid {A} (pre mid post : list A) n : zlen mid = n -> memread (pre ++ mid ++ post) (zlen pre) n = Some mid.
Proof. intros <-. apply memread_app. Qed.

(** The head and the data of a package, wherever it is. *)
Lemma head_length_at pre pad len link body post : 0 <= len < 2 ^ 32 ->
  head_length (zlen pre) (pre ++ package pad len link body ++ post) = Some len.
Proof.
  intros Hl. unfold head_length, package. rewrite <- app_assoc.
  rewrite (memread_mid _ (le_bytes 4 len)) by apply le_bytes_len. cbn [mbind option_bind]. f_equal. rewrite le_value_bytes. change (2 ^ (8 * Z.of_nat 4)) with (2 ^ 32).
  by apply Z.mod_small.
Qed.

Lemma head_link_at pre pad len link body post : zlen pad = 4 -> - 2 ^ 63 <= link < 2 ^ 63 ->
  head_link (zlen pre) (pre ++ package pad len link body ++ post) = Some link.
Proof.
  intros Hp Hl. unfold head_link, package.
  replace (pre ++ (le_bytes 4 len ++ pad ++ le_bytes 8 link ++ body) ++ post)
    with ((pre ++ le_bytes 4 len ++ pad) ++ le_bytes 8 link ++ body ++ post) by (by rewrite <- !app_assoc).
  replace (zlen pre + 8) with (zlen (pre ++ le_bytes 4 len ++ pad)) by (rewrite !zlen_app, le_bytes_len, Hp; lia).
  rewrite (memread_mid _ (le_bytes 8 link)) by apply le_bytes_len. cbn [mbind option_bind]. f_equal. rewrite le_value_bytes.
  unfold swrap. change (2 ^ (8 * Z.of_nat 8)) with (2 ^ 64). rewrite Zplus_mod_idemp_l. fold (s64 link). apply swrap_small; pow2; lia.
Qed.

Lemma package_data_at pre pad len link body post : zlen pad = 4 -> 
  memread (pre ++ package pad len link body ++ post) (zlen pre + 16) (zlen body) = Some body.
Proof.
  intros Hp. unfold package.
  replace (pre ++ (le_bytes 4 len ++ pad ++ le_bytes 8 link ++ body) ++ post)
    with ((pre ++ le_bytes 4 len ++ pad ++ le_bytes 8 link) ++ body ++ post) by (by rewrite <- !app_assoc).
  replace (zlen pre + 16) with (zlen (pre ++ le_bytes 4 len ++ pad ++ le_bytes 8 link))
    by (rewrite !zlen_app, !le_bytes_len, Hp; lia).
  apply memread_app.
Qed.

(** One message of a read. *)
Lemma scan_package fuel pre pad m post remain posted : zlen pad = 4 -> message_ok m -> 16 + zlen m.2 <= remain < 2 ^ 31 ->
  scan (S fuel) (pre ++ package pad (zlen m.2) m.1 m.2 ++ post) (zlen pre) remain posted =
    posted' ← deliver [m] posted; scan fuel (pre ++ package pad (zlen m.2) m.1 m.2 ++ post) (zlen pre + (16 + zlen m.2)) (remain - (16 + zlen m.2)) posted'.
Proof.
  destruct m as [link data]. cbn [fst snd]. intros Hp [Hl Hd] Hr. cbn [fst snd] in *. unfold PIPE_BUF, sizeof_head in Hd.
  cbn [scan]. unfold sizeof_head. rewrite wrap_small by (pow2; lia). rewrite (proj2 (Z.ltb_lt 16 remain)) by lia.
  rewrite head_length_at by (pow2; lia). cbn [mbind option_bind].
  rewrite (swrap_small 32 (zlen data + 16)) by (pow2; lia). rewrite (proj2 (Z.ltb_ge remain _)) by lia.
  rewrite head_link_at by done. cbn [mbind option_bind deliver]. rewrite (swrap_small 32 (zlen data)) by (pow2; lia).
  rewrite package_data_at by done. rewrite (Z.add_comm (zlen data) 16).
  destruct (objrefr link) as [l|]; cbn [mbind option_bind]; [|done].
  destruct (post_pipedata l (zlen data) data posted); cbn [mbind option_bind]; done.
Qed.

Section Packets.
Context (fdr fdw : Z) (packets : K -> list (list Z)) `{!PacketPipe fdr fdw packets}.

(** Reading until the pipe is empty. *)
Lemma rx_packets ncb : sockfd ncb = fdr -> forall msgs ps fuel buf posted s, packets (kern s) = ps -> Forall2 packed msgs ps ->
  Forall message_ok msgs -> zlen buf = PIPE_BUF -> (length msgs < fuel)%nat ->
  match deliver msgs posted with
  | Some posted' => exists s', _pipe_rx fuel ncb buf posted s = Some (0, posted', s') /\ packets (kern s') = []
  | None => _pipe_rx fuel ncb buf posted s = None
  end.
Proof.
  intros Hfd. induction msgs as [|m msgs IH]; intros ps fuel buf posted s Hps Hpk Hok Hb Hf; (destruct fuel as [|fuel]; [cbn in Hf; lia |]).
  - apply Forall2_nil_inv_l in Hpk as ->. cbn [deliver _pipe_rx]. rewrite Hfd.
    destruct (read_empty (kern s) Hps) as (k' & -> & Hk). cbn match. change ((0 =? EAGAIN) || (EAGAIN =? EAGAIN)) with true. by eexists.
  - apply Forall2_cons_inv_l in Hpk as (p & q & (pad & Hp & ->) & Hq & ->). apply Forall_cons in Hok as [Hm Hok].
    pose proof Hm as [_ Hlen]. unfold PIPE_BUF, sizeof_head in Hlen, Hb.
    assert (zlen (package pad (zlen m.2) m.1 m.2) = 16 + zlen m.2) as Hpl by (by apply package_len).
    cbn [_pipe_rx]. rewrite Hfd. destruct (read_packet (kern s) _ _ Hps) as (k' & -> & Hk); [unfold PIPE_BUF; lia |].
    destruct (memcpy_at_some buf (package pad (zlen m.2) m.1 m.2) 0) as [buf' Eb]; [lia | lia |].
    assert (exists post, buf' = package pad (zlen m.2) m.1 m.2 ++ post) as [post Epost].
    { revert Eb. unfold memcpy_at. destruct (_ && _); [|done]. intros [= <-]. by eexists. }
    destruct (package pad (zlen m.2) m.1 m.2) as [|c body] eqn:Epk; [rewrite zlen_nil in Hpl; lia |]. rewrite <- Epk in *.
    rewrite Eb. cbn [mbind option_bind]. rewrite Hpl. pose proof (scan_package (length (package pad (zlen m.2) m.1 m.2)) [] pad m post (16 + zlen m.2) posted Hp Hm ltac:(lia)) as Es.
    rewrite app_nil_l, zlen_nil, <- Epost in Es. rewrite Es. cbn [deliver]. destruct m as [link data]. cbn [fst snd] in *.
    destruct (match objrefr link with Some l => post_pipedata l (zlen data) data posted | None => Some posted end) as [posted1|]; cbn [mbind option_bind]; [|done].
    rewrite Z.sub_diag. assert (forall f o, scan f buf' o 0 posted1 = Some posted1) as -> by (intros [|f] o; done). cbn [mbind option_bind].
    apply (IH q); [done | done | done | | cbn in Hf; lia]. apply memcpy_at_len in Eb. unfold PIPE_BUF. lia.
Qed.

(** Messages are written one after the other; each call has its block. *)
Fixpoint write_all (pool : option (list Z)) (ws : list (ncb_t * list Z * option (list Z))) s : option (list Z * os K) :=
  match ws with
  | [] => Some ([], s)
  | (ncb, data, mem) :: ws =>
      '(status, s) ← pipe_write_message pool ncb (Some data) (zlen data) mem s;
      '(statuses, s) ← write_all pool ws s;
      Some (status :: statuses, s)
  end.
(** Those whose call succeeded. *)
Fixpoint accepted (ws : list (ncb_t * list Z * option (list Z))) (statuses : list Z) : list (Z * list Z) :=
  match ws, statuses with
  | (ncb, data, _) :: ws, status :: statuses => if NSP_SUCCESS status then (hld ncb, data) :: accepted ws statuses else accepted ws statuses
  | _, _ => []
  end.
(** The link is served by this pipe, and the data fit. *)
Definition write_ok (pool : option (list Z)) (w : ncb_t * list Z * option (list Z)) : Prop :=
  let '(ncb, data, mem) := w in
  io_pipefd pool ncb = Some (NSP_STATUS_SUCCESSFUL, fdw) /\ message_ok (hld ncb, data) /\
  (forall block, mem = Some block -> zlen block = sizeof_head + zlen data).

Lemma write_all_packed pool : forall ws s, Forall (write_ok pool) ws ->
  exists statuses s' ps, write_all pool ws s = Some (statuses, s') /\ packets (kern s') = packets (kern s) ++ ps /\
    Forall2 packed (accepted ws statuses) ps /\ Forall message_ok (accepted ws statuses).
Proof.
  induction ws as [|[[ncb data] mem] ws IH]; intros s Hw; cbn [write_all].
  { exists [], s, []. rewrite app_nil_r. split; [done |]. split; [done |]. split; constructor. }
  apply Forall_cons in Hw as [(Hfd & Hm & Hmem) Hw]. pose proof Hm as [_ Hl]. cbn [fst snd] in Hl. unfold PIPE_BUF, sizeof_head in Hl.
  unfold pipe_write_message. unfold PIPE_BUF, sizeof_head in Hmem |- *.
  rewrite (proj2 (Z.leb_gt _ _)), (proj2 (Z.eqb_neq 0 _)) by lia. rewrite bool_decide_false by done. cbn [orb].
  rewrite Hfd. cbn [mbind option_bind]. change (NSP_SUCCESS NSP_STATUS_SUCCESSFUL) with true. cbn [negb].
  destruct mem as [block|].
  2: { cbn [mbind option_bind]. destruct (IH s Hw) as (sts & s' & ps & -> & Hps & Hpk & Hok). cbn [mbind option_bind].
       exists (posix__makeerror ENOMEM :: sts), s', ps. by split. }
  change (default [] (Some data)) with data. rewrite memread_all. cbn [mbind option_bind].
  destruct (memread_some block 4 4) as (pad & -> & Hpad & _); [lia | lia | rewrite (Hmem block eq_refl); lia |]. cbn [mbind option_bind].
  pose proof (package_len pad (zlen data) (hld ncb) data Hpad) as Hpl. unfold syscall.
  destruct (write_packet (package pad (zlen data) (hld ncb) data) (kern s)) as [(k' & -> & Hk) | (e & k' & -> & He & Hk)]; [unfold PIPE_BUF; lia | |].
  - rewrite (proj2 (Z.eqb_neq _ (-1))) by lia. cbn [mbind option_bind].
    destruct (IH (Os k' (errno s)) Hw) as (sts & s' & ps & -> & Hps & Hpk & Hok). cbn [mbind option_bind].
    exists (NSP_STATUS_SUCCESSFUL :: sts), s', (package pad (zlen data) (hld ncb) data :: ps). split; [done |].
    cbn [kern] in Hps. rewrite Hps, Hk, <- app_assoc. split; [done |]. cbn [accepted]. change (NSP_SUCCESS NSP_STATUS_SUCCESSFUL) with true. cbn match.
    split; constructor; try done. by exists pad.
  - change (-1 =? -1) with true. cbn [mbind option_bind errno].
    destruct (IH (Os k' e) Hw) as (sts & s' & ps & -> & Hps & Hpk & Hok). cbn [mbind option_bind].
    exists (posix__makeerror e :: sts), s', ps. split; [done |]. cbn [kern] in Hps. rewrite Hps, Hk. split; [done |].
    cbn [accepted]. rewrite makeerror_pos by done. unfold NSP_SUCCESS. by rewrite (proj2 (Z.leb_gt 0 (- e))) by lia.
Qed.

(** C16: messages to links of a thread, through its pipe in packet mode: whatever writes fail, each
    message whose [pipe_write_message] succeeded is handed to its link, if there still is one,
    once and in order, by the next [_pipe_rx], which empties the pipe and returns. *)
Theorem pipe_delivers pool ws ncb buf posted s fuel : sockfd ncb = fdr -> packets (kern s) = [] -> Forall (write_ok pool) ws ->
  zlen buf = PIPE_BUF -> (length ws < fuel)%nat ->
  exists statuses s', write_all pool ws s = Some (statuses, s') /\
    match deliver (accepted ws statuses) posted with
    | Some posted' => exists s'', _pipe_rx fuel ncb buf posted s' = Some (0, posted', s'') /\ packets (kern s'') = []
    | None => _pipe_rx fuel ncb buf posted s' = None
    end.
Proof.
  intros Hfd Hemp Hw Hb Hf. destruct (write_all_packed pool ws s Hw) as (sts & s1 & ps & E & Hps & Hpk & Hok).
  exists sts, s1. split; [done |]. rewrite Hemp in Hps.
  apply (rx_packets ncb Hfd _ ps); try done.
  assert (forall ws sts, length (accepted ws sts) <= length ws)%nat as Hacc.
  { clear. induction ws as [|[[n d] m] ws IH]; intros [|st sts]; cbn; try lia. specialize (IH sts). destruct (NSP_SUCCESS st); cbn; lia. }
  specialize (Hacc ws sts). lia.
Qed.
End Packets.
End Pipe.

(** [ncb_post_pipedata] with its guard the right way round. *)
Definition meant_pipedata (ncb : ncb_t) (cb : Z) (data : list Z) (posted : list event) : option (list event) :=
  Some (if callback ncb is Some _ then posted ++ [EVT_PIPEDATA (hld ncb) cb data] else posted).

(** ** A pipe that takes four messages *)
Definition queue_read (fd size : Z) (k : list (list Z)) : (list Z + Z) * list (list Z) :=
  match k with p :: q => (inl p, q) | [] => (inr EAGAIN, []) end.
Definition queue_write (fd : Z) (b : list Z) (k : list (list Z)) : answer * list (list Z) :=
  if (length k <? 4)%nat then (Ret (zlen b), k ++ [b]) else (Err EAGAIN, k).
#[local] Instance queue_pipe fdr fdw : PacketPipe queue_read queue_write fdr fdw (fun k => k).
Proof.
  split.
  - intros k p q -> _. by exists q.
  - intros k ->. by exists [].
  - intros b k Hb. unfold queue_write. destruct (length k <? 4)%nat; [left; by eexists | right; by exists EAGAIN, k].
Qed.

Definition demo_link (h : Z) : ncb_t := Ncb h 0 0 (Some 1) None None 0.
(** Link 9 is gone when its message is read. *)
Definition demo_table (h : Z) : option ncb_t := if h =? 9 then None else Some (demo_link h).

Lemma pipe_delivers_witness : exists statuses k k',
  write_all queue_write (Some [5]) [(demo_link 7, [1; 2], Some (replicate 18 170)); (demo_link 9, [3], Some (replicate 17 0)); (demo_link 8, [4], None);
    (demo_link 7, [6], Some (replicate 17 0))] (Os [] 0) = Some (statuses, k) /\
  statuses = [0; 0; -12; 0] /\
  _pipe_rx queue_read demo_table meant_pipedata 5 (Ncb 1 4 0 None None None 0) (replicate 4096 0) [] k =
    Some (0, [EVT_PIPEDATA 7 2 [1; 2]; EVT_PIPEDATA 7 1 [6]], k') /\ kern k' = [].
Proof.
  destruct (pipe_delivers queue_read queue_write demo_table meant_pipedata 4 5 (fun k => k) (Some [5])
    [(demo_link 7, [1; 2], Some (replicate 18 170)); (demo_link 9, [3], Some (replicate 17 0)); (demo_link 8, [4], None);
     (demo_link 7, [6], Some (replicate 17 0))] (Ncb 1 4 0 None None None 0) (replicate 4096 0) [] (Os [] 0) 5) as (sts & s1 & E & H);
    [done | done | | by vm_compute | cbn; lia |].
  - repeat (apply Forall_cons; split); try apply Forall_nil; try exact I;
      (split; [reflexivity |]; split; [split; [split; vm_compute; congruence | split; reflexivity] |]; intros block [= <-]; reflexivity).
  - assert (sts = [0; 0; -12; 0]) as ->.
    { vm_compute in E. by injection E as <- _. }
    match type of H with match ?d with _ => _ end => change d with (Some [EVT_PIPEDATA 7 2 [1; 2]; EVT_PIPEDATA 7 1 [6]]) in H end.
    destruct H as (s2 & E2 & Hk). exists [0; 0; -12; 0], s1, s2. by repeat (split; [assumption || reflexivity |]).
Defined.
