(* ===== verification/TxFifo.v ===== *)
(** The sending side of a TCP link: the queue of src/posix/fifo.c, [tcp_txn] and
    [tcp_tx] of src/posix/tcpio.c, [tcp_write] of src/posix/tcp.c and the writer
    tasks of src/posix/wpool.c.

    The world is one link: its queue is a list of nodes in the order of the C list
    (the queue owns its nodes), [closing] is set once [objclos] was called on it,
    and tasks of the pool that name another handle find no object.  A node is sent
    through [ncb_senddata] of [Ncb], whose guard turns every node with bytes left
    away: the theorems say what is left of the queue, the senders and the writer
    thread then.  What they rely on of epoll and TCP_INFO is the interface
    [Polling]; sendmsg(2) is any function at all. *)
From S2P Require Import Prelude TcpAl Ncb.

Definition EPOLLIN : Z := 0x001.
Definition EPOLLOUT : Z := 0x004.
Definition EPOLLERR : Z := 0x008.
Definition EPOLLHUP : Z := 0x010.
Definition EPOLLRDHUP : Z := 0x2000.
Definition EPOLLET : Z := 2 ^ 31.
Definition MAXIMUM_FIFO_SIZE : Z := 100.
Definition LINKATTR_TCP_NO_BUILD : Z := 2.
Definition TCP_ESTABLISHED : Z := 1.
Definition IPPROTO_TCP : Z := 6.
Definition EPROTOTYPE : Z := 91.

(** [udp_target]: the address and the port of a datagram, as the kernel reads them;
    [domain_target]: the path of a datagram of a domain socket. *)
Record tx_node := Node { data : list Z; wcb : Z; offset : Z; udp_target : Z * Z; domain_target : list Z }.
Record tx_fifo := Fifo { tx_overflow : bool; size : Z; head : list tx_node }.

(** [builder_] gets the buffer and the byte count, and gives its status and the
    buffer; a serializer its part of the packet, the origin and the byte count. *)
Definition builder_fp : Type := list Z -> Z -> Z * list Z.
Definition serializer_fp : Type := list Z -> list Z -> Z -> Z * list Z.

Record link_t := Link {
  cb : ncb_t; protocol : Z; fifo : tx_fifo;
  builder_ : option builder_fp; cb_ : Z; closing : bool;
}.

Definition set_fifo (f : tx_fifo) (l : link_t) : link_t :=
  Link (cb l) (protocol l) f (builder_ l) (cb_ l) (closing l).
Definition objclos (l : link_t) : link_t :=
  Link (cb l) (protocol l) (fifo l) (builder_ l) (cb_ l) true.

Record wptask := Task { t_hld : Z }.

Section Tx.
Context {K : Type}.
Implicit Types (s : os K) (l : link_t).
Context (sendmsg : Z -> bool -> list Z -> K -> answer * K)
  (epoll_mod : Z -> K -> answer * K)
  (tcp_info : K -> answer * K).

Definition tcp_save_info s : Z * Z * os K :=
  let '(r, s) := syscall tcp_info s in
  if r <? 0 then (posix__makeerror (errno s), 0, s) else (NSP_STATUS_SUCCESSFUL, r, s).

Definition io_modify (mask : Z) s : Z * os K :=
  let events := Z.lor (Z.lor (Z.lor (Z.lor EPOLLET EPOLLRDHUP) EPOLLHUP) EPOLLERR) mask in
  let '(r, s) := syscall (epoll_mod events) s in
  if r <? 0 then (posix__makeerror (errno s), s) else (NSP_STATUS_SUCCESSFUL, s).

(** ** The queue *)
Definition fifo_init l : link_t := set_fifo (Fifo false 0 []) l.

(** All nodes are freed; the counters keep their values. *)
Definition fifo_uninit l : link_t := set_fifo (Fifo (tx_overflow (fifo l)) (size (fifo l)) []) l.

Definition fifo_queue (node : tx_node) l s : Z * link_t * os K :=
  let f := fifo l in
  if MAXIMUM_FIFO_SIZE <=? size f then (posix__makeerror EBUSY, l, s)
  else
    let head' := head f ++ [node] in
    if tx_overflow f then (NSP_STATUS_SUCCESSFUL, set_fifo (Fifo true (size f + 1) head') l, s)
    else
      let '(status, s) := io_modify (Z.lor EPOLLIN EPOLLOUT) s in
      if NSP_SUCCESS status then (status, set_fifo (Fifo true (size f + 1) head') l, s)
      else (status, l, s).

Definition fifo_top l : Z * option tx_node :=
  match head (fifo l) with
  | [] => (posix__makeerror ENOENT, None)
  | front :: _ => (posix__makeerror NSP_STATUS_SUCCESSFUL, Some front)
  end.

(** [fifo_pop] up to the release of the lock: the node, and whether the overflow
    is cancelled. *)
Definition fifo_pop_locked l : option tx_node * bool * link_t :=
  let f := fifo l in
  match head f with
  | [] => (None, false, l)
  | front :: rest =>
      let n := size f - 1 in
      if (0 =? n) && tx_overflow f then (Some front, true, set_fifo (Fifo false n rest) l)
      else (Some front, false, set_fifo (Fifo (tx_overflow f) n rest) l)
  end.
Definition fifo_pop l s : Z * option tx_node * link_t * os K :=
  let '(front, tx_overflow_canceled, l) := fifo_pop_locked l in
  let s := if tx_overflow_canceled then (io_modify EPOLLIN s).2 else s in
  match front with
  | Some _ => (NSP_STATUS_SUCCESSFUL, front, l, s)
  | None => (posix__makeerror ENOENT, None, l, s)
  end.

Definition fifo_tx_overflow l : bool :=
  if negb (nonblock (attr (cb l))) then false else tx_overflow (fifo l).

(** ** Sending a node *)
Definition set_offset (o : Z) (node : tx_node) : tx_node := Node (data node) (wcb node) o (udp_target node) (domain_target node).

(** One turn of the loop of [tcp_txn]: a result, or the node to go on with. *)
Definition txn_step l (node : tx_node) s : option ((Z + tx_node) * os K) :=
  if offset node <? wcb node then
    bytes ← memread (data node) (offset node) (wcb node - offset node);
    let '(n, s) := ncb_senddata sendmsg (cb l) (Some bytes) (zlen bytes) s in
    Some (if n =? 0 then inl NSP_STATUS_FATAL
          else if n <? 0 then inl (posix__makeerror (errno s))
          else inr (set_offset (offset node + n) node), s)
  else Some (inl NSP_STATUS_SUCCESSFUL, s).

Fixpoint txn_loop (fuel : nat) l (node : tx_node) s : option (Z * tx_node * os K) :=
  match fuel with
  | O => None
  | S fuel =>
      '(r, s) ← txn_step l node s;
      match r with
      | inl status => Some (status, node, s)
      | inr node => txn_loop fuel l node s
      end
  end.
Definition tcp_txn l (node : tx_node) s : option (Z * tx_node * os K) :=
  txn_loop (S (Z.to_nat (wcb node - offset node))) l node s.

(** The node at the front of the queue is sent in place. *)
Definition set_front (node : tx_node) l : link_t :=
  set_fifo (Fifo (tx_overflow (fifo l)) (size (fifo l)) (node :: tail (head (fifo l)))) l.

(** The check both senders start with: whether the connection is known to be in
    another state than established. *)
Definition illegal_state s : bool * os K :=
  let '(status, state, s) := tcp_save_info s in
  (NSP_SUCCESS status && negb (state =? TCP_ESTABLISHED), s).

Definition tcp_tx l s : option (Z * link_t * os K) :=
  let '(illegal, s) := illegal_state s in
  if illegal then Some (posix__makeerror EINVAL, l, s)
  else
    match fifo_top l with
    | (_, Some node) => '(status, node, s) ← tcp_txn l node s; Some (status, set_front node l, s)
    | (status, None) => Some (status, l, s)
    end.

(** ** Writing *)
Definition _tcprefr (h : Z) l : Z :=
  if h <? 0 then - EINVAL
  else if negb (h =? hld (cb l)) || closing l then posix__makeerror ENOENT
  else if IPPROTO_TCP =? protocol l then NSP_STATUS_SUCCESSFUL
  else posix__makeerror EPROTOTYPE.

(** Serializing or copying [origin] behind the [off] bytes of the head. *)
Definition fill_body (buffer : list Z) (off : Z) (origin : list Z) (n : Z) (serializer : option serializer_fp)
  : option (Z * list Z) :=
  match serializer with
  | Some f =>
      area ← memread buffer off (zlen buffer - off);
      let '(status, area) := f area origin n in
      buffer ← memcpy_at buffer off area; Some (status, buffer)
  | None => body ← memread origin 0 n; buffer ← memcpy_at buffer off body; Some (NSP_STATUS_SUCCESSFUL, buffer)
  end.

(** The packet ([inr]), or the status the call fails with. *)
Definition tcp_build l (alloc : Z -> option (list Z)) (origin : list Z) (n : Z) (serializer : option serializer_fp)
  : option (Z + list Z) :=
  match builder_ l, negb (Z.land (attr (cb l)) LINKATTR_TCP_NO_BUILD =? 0) with
  | Some builder, false =>
      match alloc (n + cb_ l) with
      | None => Some (inl (posix__makeerror ENOMEM))
      | Some buffer =>
          let '(status, buffer) := builder buffer n in
          if negb (NSP_SUCCESS status) then Some (inl status)
          else
            '(status, buffer) ← fill_body buffer (cb_ l) origin n serializer;
            Some (if NSP_SUCCESS status then inr buffer else inl status)
      end
  | _, _ =>
      match alloc n with
      | None => Some (inl (posix__makeerror ENOMEM))
      | Some buffer =>
          '(status, buffer) ← fill_body buffer 0 origin n serializer;
          Some (if NSP_SUCCESS status then inr buffer else inl status)
      end
  end.

(** [tcp_write] up to the node: the parameter checks, the reference, the state of
    the connection and the packet; [nodemem]: whether the node can be allocated.
    When the connection is not established the status is still the one of
    [tcp_save_info]. *)
Definition write_node l (h : Z) (origin : option (list Z)) (n : Z) (serializer : option serializer_fp)
    (alloc : Z -> option (list Z)) (nodemem : bool) s : option ((Z + tx_node) * os K) :=
  match origin with
  | None => Some (inl (- EINVAL), s)
  | Some origin =>
      if (h <? 0) || (n <=? 0) || (TCP_MAXIMUM_PACKET_SIZE <? n) then Some (inl (- EINVAL), s)
      else if negb (NSP_SUCCESS (_tcprefr h l)) then Some (inl (_tcprefr h l), s)
      else
        let '(illegal, s) := illegal_state s in
        if illegal then Some (inl NSP_STATUS_SUCCESSFUL, s)
        else
          r ← tcp_build l alloc origin n serializer;
          Some (match r with
                | inl status => inl status
                | inr buffer => if nodemem then inr (Node buffer (zlen buffer) 0 (0, 0) []) else inl (posix__makeerror ENOMEM)
                end, s)
  end.

(** From the node on. *)
Definition write_send l (node : tx_node) s : option (Z * link_t * os K) :=
  if negb (fifo_tx_overflow l) then
    '(status, node, s) ← tcp_txn l node s;
    if negb (NSP_FAILED_AND_ERROR_EQUAL status EAGAIN) then Some (status, l, s)
    else Some (fifo_queue node l s)
  else Some (fifo_queue node l s).

Definition tcp_write l h origin n serializer alloc nodemem s : option (Z * link_t * os K) :=
  '(r, s) ← write_node l h origin n serializer alloc nodemem s;
  match r with
  | inl status => Some (status, l, s)
  | inr node => write_send l node s
  end.

(** ** Tasks *)
Definition _wp_add_task (task : wptask) (tasks : list wptask) : list wptask := tasks ++ [task].
Definition _wp_get_task (tasks : list wptask) : option wptask * list wptask :=
  match tasks with [] => (None, []) | task :: tasks => (Some task, tasks) end.

(** What EPOLLOUT does: a task for the link.  [pool]: whether [_wp_safe_retain] gives
    the pool of the link's protocol; [taskmem]: whether the task can be allocated. *)
Definition wp_queued l (pool taskmem : bool) (tasks : list wptask) : Z * list wptask :=
  if negb pool then (posix__makeerror EPROTOTYPE, tasks)
  else if negb taskmem then (posix__makeerror ENOMEM, tasks)
  else (NSP_STATUS_SUCCESSFUL, _wp_add_task (Task (hld (cb l))) tasks).

(** [ncb_write] is the routine of the link, [tcp_tx] for TCP. *)
Definition _wp_exec (ncb_write : link_t -> os K -> option (Z * link_t * os K)) (task : wptask) l (tasks : list wptask) s : option (Z * link_t * list wptask * os K) :=
  if negb (t_hld task =? hld (cb l)) || closing l then Some (posix__makeerror ENOENT, l, tasks, s)
  else
    '(status, l, s) ← ncb_write l s;
    if negb (NSP_SUCCESS status) then
      if NSP_FAILED_AND_ERROR_EQUAL status EAGAIN || NSP_FAILED_AND_ERROR_EQUAL status ENOENT
      then Some (status, l, tasks, s)
      else Some (status, objclos l, tasks, s)
    else
      let '(status, _, l, s) := fifo_pop l s in
      Some (status, l, if NSP_SUCCESS status then _wp_add_task task tasks else tasks, s).

(** The inner loop of [_wp_run]: tasks are executed until none is left. *)
Fixpoint _wp_run (ncb_write : link_t -> os K -> option (Z * link_t * os K)) (fuel : nat) l (tasks : list wptask) s : option (link_t * os K) :=
  match _wp_get_task tasks with
  | (None, _) => Some (l, s)
  | (Some task, tasks) =>
      match fuel with
      | O => None
      | S fuel => '(_, l, tasks, s) ← _wp_exec ncb_write task l tasks s; _wp_run ncb_write fuel l tasks s
      end
  end.

(** ** What the sender relies on

    [armed k] says whether epoll reports EPOLLOUT for the link, [wire k] is whatever
    the kernel keeps of what was sent to it: EPOLL_CTL_MOD registers the events
    asked for or fails, TCP_INFO changes nothing, and neither sends anything. *)
Class Polling {W} (wire : K -> W) (armed : K -> bool) : Prop := {
  epoll_mod_spec events k :
    (exists k', epoll_mod events k = (Ret 0, k') /\ armed k' = Z.testbit events 2 /\ wire k' = wire k) \/
    (exists e k', 0 < e /\ epoll_mod events k = (Err e, k') /\ armed k' = armed k /\ wire k' = wire k);
  tcp_info_spec k :
    (exists state, 0 <= state /\ tcp_info k = (Ret state, k)) \/ (exists e, 0 < e /\ tcp_info k = (Err e, k));
}.

Definition node_ok (node : tx_node) : Prop := wcb node = zlen (data node) /\ 0 <= offset node <= wcb node.

(** The status of [tcp_txn]: with bytes left, whatever errno is. *)
Definition txn_status (node : tx_node) s : Z :=
  if offset node <? wcb node then posix__makeerror (errno s) else NSP_STATUS_SUCCESSFUL.

Lemma senddata_refused l bytes s : 0 < zlen bytes -> ncb_senddata sendmsg (cb l) (Some bytes) (zlen bytes) s = (- EINVAL, s).
Proof. intros H. unfold ncb_senddata. by rewrite (proj2 (Z.leb_gt (zlen bytes) 0)) by done. Qed.

(** One turn, and so the whole loop: the guard of [ncb_senddata] ends it at once. *)
Lemma txn_step_spec l node s : node_ok node -> txn_step l node s = Some (inl (txn_status node s), s).
Proof.
  intros [Hw Ho]. unfold txn_step, txn_status. destruct (Z.ltb_spec (offset node) (wcb node)) as [Hlt | Hge]; [|done].
  destruct (memread_some (data node) (offset node) (wcb node - offset node)) as (bytes & -> & Hlen & _); [lia.. |].
  cbn [mbind option_bind]. by rewrite senddata_refused by lia.
Qed.

Lemma tcp_txn_spec l node s : node_ok node -> tcp_txn l node s = Some (txn_status node s, node, s).
Proof. intros Hn. unfold tcp_txn. cbn [txn_loop]. by rewrite txn_step_spec. Qed.

Section Sender.
Context {W : Type} (wire : K -> W) (armed : K -> bool) `{!Polling wire armed}.

Lemma io_modify_spec mask s : 0 <= mask -> exists r s', io_modify mask s = (r, s') /\ wire (kern s') = wire (kern s) /\
  (r = NSP_STATUS_SUCCESSFUL /\ armed (kern s') = Z.testbit mask 2 \/ r < 0 /\ armed (kern s') = armed (kern s)).
Proof.
  intros Hm. unfold io_modify, syscall. set (events := Z.lor _ mask).
  assert (Z.testbit events 2 = Z.testbit mask 2) as Hb by (unfold events; by rewrite Z.lor_spec).
  destruct (epoll_mod_spec events (kern s)) as [(k' & -> & Ha & Hw) | (e & k' & He & -> & Ha & Hw)]; cbn match.
  - eexists _, _. split; [reflexivity |]. cbn [kern]. split; [done |]. left. by rewrite Ha, Hb.
  - eexists _, _. split; [reflexivity |]. cbn [kern errno]. split; [done |]. right.
    rewrite makeerror_pos by done. split; [lia | done].
Qed.

Lemma illegal_state_spec s : exists b e, illegal_state s = (b, Os (kern s) e).
Proof.
  unfold illegal_state, tcp_save_info, syscall.
  destruct (tcp_info_spec (kern s)) as [(st & Hst & ->) | (e & He & ->)]; cbn match.
  - rewrite (proj2 (Z.ltb_ge st 0)) by done. eauto.
  - cbn. eauto.
Qed.

(** The parts of a link no call of the sender changes. *)
Definition same_link l l' : Prop := (cb l', protocol l', builder_ l', cb_ l') = (cb l, protocol l, builder_ l, cb_ l).

Lemma same_link_refl l : same_link l l.
Proof. done. Qed.
#[local] Hint Resolve same_link_refl : core.

Lemma same_link_trans l1 l2 l3 : same_link l1 l2 -> same_link l2 l3 -> same_link l1 l3.
Proof. unfold same_link. congruence. Qed.

(** ** The state of a link between two calls

    The counter is the length, the overflow flag says that something is queued, and
    then epoll is armed for EPOLLOUT. *)
Record link_ok l s : Prop := {
  ok_size : size (fifo l) = zlen (head (fifo l));
  ok_bound : size (fifo l) <= MAXIMUM_FIFO_SIZE;
  ok_overflow : tx_overflow (fifo l) = bool_decide (head (fifo l) <> []);
  ok_nodes : Forall node_ok (head (fifo l));
  ok_armed : head (fifo l) <> [] -> armed (kern s) = true;
}.

Lemma fifo_init_ok l s : link_ok (fifo_init l) s.
Proof. by split. Qed.

Lemma link_ok_kernel l s s' : armed (kern s') = armed (kern s) -> link_ok l s -> link_ok l s'.
Proof. intros Ha [H1 H2 H3 H4 H5]. split; [done.. |]. intros H. rewrite Ha. auto. Qed.

Lemma link_ok_objclos l s : link_ok l s -> link_ok (objclos l) s.
Proof. intros [H1 H2 H3 H4 H5]. by split. Qed.

(** A node that was not sent is put back as it was. *)
Lemma set_front_same l node q : head (fifo l) = node :: q -> set_front node l = l.
Proof. destruct l as [c p [o z h] b n cl]. cbn. by intros ->. Qed.

Lemma fifo_queue_ok l s node : link_ok l s -> node_ok node ->
  exists status l' s', fifo_queue node l s = (status, l', s') /\ link_ok l' s' /\ same_link l l' /\
    wire (kern s') = wire (kern s) /\
    (status = NSP_STATUS_SUCCESSFUL /\ head (fifo l') = head (fifo l) ++ [node] \/
     status < 0 /\ l' = l /\ (status = - EBUSY /\ size (fifo l) = MAXIMUM_FIFO_SIZE \/ head (fifo l) = [])).
Proof.
  intros Hl Hn. pose proof Hl as [H1 H2 H3 H4 H5]. unfold fifo_queue.
  destruct (Z.leb_spec MAXIMUM_FIFO_SIZE (size (fifo l))).
  { eexists _, _, _. split; [reflexivity |]. split; [done |]. split; [done |]. split; [done |]. right.
    split; [done |]. split; [done |]. left. split; [done | lia]. }
  assert (forall s', armed (kern s') = true -> link_ok (set_fifo (Fifo true (size (fifo l) + 1) (head (fifo l) ++ [node])) l) s') as Hok.
  { intros s' Ha. split; cbn [set_fifo fifo size head tx_overflow].
    - rewrite H1, zlen_app. done.
    - lia.
    - rewrite bool_decide_true; [done |]. by destruct (head (fifo l)).
    - apply Forall_app. split; [done | by constructor].
    - done. }
  destruct (tx_overflow (fifo l)) eqn:Eo.
  - eexists _, _, _. split; [reflexivity |]. split; [apply Hok, H5 |].
    { intros E. by rewrite E in H3. }
    split; [done |]. split; [done |]. by left.
  - destruct (io_modify_spec (Z.lor EPOLLIN EPOLLOUT) s ltac:(done)) as (r & s' & -> & Hw & [[-> Ha] | [Hr Ha]]).
    + eexists _, _, _. split; [reflexivity |]. split; [by apply Hok |]. split; [done |]. split; [done |]. by left.
    + unfold NSP_SUCCESS. rewrite (proj2 (Z.leb_gt 0 r)) by done.
      eexists _, _, _. split; [reflexivity |]. split; [by apply (link_ok_kernel l s) |]. split; [done |]. split; [done |].
      right. split; [done |]. split; [done |]. right.
      symmetry in H3. apply bool_decide_eq_false in H3. by destruct (head (fifo l)); [|destruct H3].
Qed.

Lemma fifo_pop_ok l s node q : link_ok l s -> head (fifo l) = node :: q ->
  exists l' s', fifo_pop l s = (NSP_STATUS_SUCCESSFUL, Some node, l', s') /\ link_ok l' s' /\ same_link l l' /\
    head (fifo l') = q /\ wire (kern s') = wire (kern s).
Proof.
  intros [H1 H2 H3 H4 H5] E. unfold fifo_pop, fifo_pop_locked. rewrite E in *.
  rewrite (bool_decide_true (node :: q <> [])) in H3 by done. rewrite H3. rewrite zlen_cons in H1.
  apply Forall_cons in H4 as [_ H4].
  destruct (Z.eqb_spec 0 (size (fifo l) - 1)) as [H0 | H0]; cbn [andb].
  - assert (q = []) as -> by (apply zlen_0; lia).
    destruct (io_modify_spec EPOLLIN s ltac:(done)) as (r & s' & -> & Hw & _). cbn [snd].
    eexists _, _. split; [reflexivity |]. split; [|done].
    split; cbn [set_fifo fifo size head tx_overflow]; try done; rewrite ?zlen_nil; lia.
  - eexists _, _. split; [reflexivity |]. split; [|done].
    assert (q <> []) as Hq by (intros ->; rewrite zlen_nil in H1; lia).
    split; cbn [set_fifo fifo size head tx_overflow]; try done; [lia | lia | by rewrite bool_decide_true |].
    intros _. by apply H5.
Qed.

Lemma write_send_ok l node s : link_ok l s -> node_ok node ->
  exists status l' s', write_send l node s = Some (status, l', s') /\ link_ok l' s' /\ same_link l l' /\
    wire (kern s') = wire (kern s).
Proof.
  intros Hl Hn. unfold write_send. destruct (fifo_queue_ok l s node Hl Hn) as (status & l' & s' & Eq & Hl' & Hs & Hw & _).
  destruct (negb (fifo_tx_overflow l)); [|rewrite Eq; by eauto 8].
  rewrite tcp_txn_spec by done. cbn [mbind option_bind]. destruct (negb _); [by eauto 8 |]. rewrite Eq. by eauto 8.
Qed.

Lemma tcp_tx_ok l s : link_ok l s ->
  exists status s', tcp_tx l s = Some (status, l, s') /\ kern s' = kern s /\
    (NSP_SUCCESS status = true -> head (fifo l) <> []).
Proof.
  intros Hl. unfold tcp_tx. destruct (illegal_state_spec s) as (b & e & ->). destruct b; [by eauto 6 |].
  unfold fifo_top. destruct (head (fifo l)) as [|node q] eqn:E; [by eauto 6 |].
  pose proof (ok_nodes _ _ Hl) as Hn. rewrite E in Hn. apply Forall_cons in Hn as [Hn _].
  rewrite tcp_txn_spec by done. cbn [mbind option_bind]. rewrite (set_front_same l node q E). by eauto 6.
Qed.

Lemma _wp_exec_ok task l tasks s : link_ok l s ->
  exists status l' tasks' s', _wp_exec tcp_tx task l tasks s = Some (status, l', tasks', s') /\ link_ok l' s' /\ same_link l l' /\
    wire (kern s') = wire (kern s) /\
    (length tasks' + length (head (fifo l')) <= length tasks + length (head (fifo l)))%nat.
Proof.
  intros Hl. unfold _wp_exec. destruct (negb _ || _); [by eauto 9 |].
  destruct (tcp_tx_ok l s Hl) as (status & s1 & -> & Hk & Hne). cbn [mbind option_bind].
  apply (link_ok_kernel l s s1) in Hl; [|by rewrite Hk]. rewrite <- Hk. destruct (NSP_SUCCESS status) eqn:Est; cbn [negb].
  - specialize (Hne eq_refl). destruct (head (fifo l)) as [|node q] eqn:E; [done |].
    destruct (fifo_pop_ok l s1 node q Hl E) as (l2 & s2 & -> & Hl2 & Hcb2 & Hq & Hw). cbn match.
    do 4 eexists. split; [reflexivity |]. do 3 (split; [done |]).
    change (NSP_SUCCESS NSP_STATUS_SUCCESSFUL) with true. cbn match.
    unfold _wp_add_task. rewrite length_app, Hq. cbn. lia.
  - destruct (_ || _); do 4 eexists; (split; [reflexivity |]).
    + do 3 (split; [done |]). lia.
    + split; [by apply link_ok_objclos |]. do 2 (split; [done |]). cbn [objclos fifo]. lia.
Qed.

Lemma _wp_run_ok fuel : forall l tasks s, link_ok l s -> (length tasks + length (head (fifo l)) <= fuel)%nat ->
  exists l' s', _wp_run tcp_tx fuel l tasks s = Some (l', s') /\ link_ok l' s' /\ same_link l l' /\ wire (kern s') = wire (kern s).
Proof.
  induction fuel as [|fuel IH]; intros l tasks s Hl Hf.
  - destruct tasks; [|cbn in Hf; lia]. cbn. eauto 6.
  - destruct tasks as [|task tasks]; [cbn; by eauto 6 |]. cbn [_wp_run _wp_get_task].
    destruct (_wp_exec_ok task l tasks s Hl) as (status & l1 & tasks1 & s1 & -> & Hl1 & Hcb & Hw & Hlen).
    cbn [mbind option_bind]. destruct (IH l1 tasks1 s1 Hl1) as (l2 & s2 & -> & Hl2 & Hcb2 & Hw2); [cbn in Hf; lia |].
    exists l2, s2. split; [done |]. split; [done |]. split; [by eapply same_link_trans | congruence].
Qed.

(** ** Calls *)
(** The user's routines stay inside the memory they are given. *)
Definition alloc_ok (alloc : Z -> option (list Z)) : Prop := forall n b, alloc n = Some b -> zlen b = n.
Definition builder_ok (builder : option builder_fp) : Prop :=
  forall f, builder = Some f -> forall b n, zlen (f b n).2 = zlen b.
Definition serializer_ok (serializer : option serializer_fp) : Prop :=
  forall f, serializer = Some f -> forall area origin n, zlen (f area origin n).2 = zlen area.

Lemma fill_body_ok buffer off origin n serializer :
  serializer_ok serializer -> 0 <= off -> 0 <= n <= zlen origin -> zlen buffer = off + n ->
  exists status buffer', fill_body buffer off origin n serializer = Some (status, buffer') /\
    zlen buffer' = zlen buffer.
Proof.
  intros Hser Hoff Hn Hb. unfold fill_body. destruct serializer as [f|].
  - destruct (memread_some buffer off (zlen buffer - off)) as (area & -> & Hlen & _); [lia.. |].
    cbn [mbind option_bind]. pose proof (Hser f eq_refl area origin n) as Hf. destruct (f area origin n) as [st area'].
    cbn [snd] in Hf. destruct (memcpy_at_some buffer area' off) as [b Eb]; [lia | lia |].
    rewrite Eb. cbn [mbind option_bind]. do 2 eexists. split; [reflexivity |]. by eapply memcpy_at_len.
  - destruct (memread_some origin 0 n) as (body & -> & Hlen & _); [lia.. |]. cbn [mbind option_bind].
    destruct (memcpy_at_some buffer body off) as [b Eb]; [lia | lia |].
    rewrite Eb. cbn [mbind option_bind]. do 2 eexists. split; [reflexivity |]. by eapply memcpy_at_len.
Qed.

Lemma tcp_build_ok l alloc origin n serializer :
  alloc_ok alloc -> builder_ok (builder_ l) -> serializer_ok serializer -> 0 <= cb_ l -> 0 <= n <= zlen origin ->
  exists r, tcp_build l alloc origin n serializer = Some r.
Proof.
  intros Ha Hbld Hser Hcb Hn. unfold tcp_build.
  assert (forall off b, 0 <= off -> alloc (off + n) = Some b -> exists r,
    ('(status, buffer) ← fill_body b off origin n serializer;
     Some (if NSP_SUCCESS status then inr buffer else inl status : Z + list Z)) = Some r) as Hfill.
  { intros off b Hoff Eb%Ha.
    destruct (fill_body_ok b off origin n serializer Hser Hoff Hn ltac:(lia)) as (st & b' & -> & _).
    cbn [mbind option_bind]. eauto. }
  destruct (builder_ l) as [f|] eqn:Ef; [destruct (negb _) |].
  - destruct (alloc n) as [b|] eqn:Eb; [|eauto]. by apply (Hfill 0).
  - destruct (alloc (n + cb_ l)) as [b|] eqn:Eb; [|eauto].
    pose proof (Hbld f eq_refl b n) as Hf. destruct (f b n) as [st b']. cbn [snd] in Hf.
    destruct (negb _); [eauto |]. apply Ha in Eb.
    destruct (fill_body_ok b' (cb_ l) origin n serializer Hser Hcb Hn ltac:(lia)) as (st' & b'' & -> & _).
    cbn [mbind option_bind]. eauto.
  - destruct (alloc n) as [b|] eqn:Eb; [|eauto]. by apply (Hfill 0).
Qed.

Inductive tx_op :=
  | Write (h : Z) (origin : option (list Z)) (n : Z) (serializer : option serializer_fp)
      (alloc : Z -> option (list Z)) (nodemem : bool)
  | Writable (pool taskmem : bool).

(** A call of [tcp_write], or EPOLLOUT and the work of the pool that follows; the
    queue can lose at most its nodes, which bounds the rounds. *)
Definition tx_step (op : tx_op) l s : option (Z * link_t * os K) :=
  match op with
  | Write h origin n serializer alloc nodemem => tcp_write l h origin n serializer alloc nodemem s
  | Writable pool taskmem =>
      let '(status, tasks) := wp_queued l pool taskmem [] in
      '(l, s) ← _wp_run tcp_tx (S (length (head (fifo l)))) l tasks s;
      Some (status, l, s)
  end.
Fixpoint tx_run (ops : list tx_op) l s : option (list Z * link_t * os K) :=
  match ops with
  | [] => Some ([], l, s)
  | op :: ops =>
      '(status, l, s) ← tx_step op l s;
      '(statuses, l, s) ← tx_run ops l s;
      Some (status :: statuses, l, s)
  end.

Definition op_ok (op : tx_op) : Prop :=
  match op with
  | Write h origin n serializer alloc nodemem =>
      alloc_ok alloc /\ serializer_ok serializer /\ (forall bs, origin = Some bs -> n <= zlen bs)
  | Writable _ _ => True
  end.

Lemma write_node_ok l h origin n serializer alloc nodemem s :
  op_ok (Write h origin n serializer alloc nodemem) -> builder_ok (builder_ l) -> 0 <= cb_ l ->
  exists r e, write_node l h origin n serializer alloc nodemem s = Some (r, Os (kern s) e) /\
    (forall node, r = inr node -> wcb node = zlen (data node) /\ offset node = 0).
Proof.
  intros (Ha & Hser & Horig) Hbld Hcb. unfold write_node. destruct s as [k e0].
  destruct origin as [bs|]; [|do 2 eexists; (split; [reflexivity | done])].
  specialize (Horig bs eq_refl). destruct (_ || _ || _) eqn:Eg; [do 2 eexists; (split; [reflexivity | done]) |].
  destruct (negb (NSP_SUCCESS _)); [do 2 eexists; (split; [reflexivity | done]) |].
  destruct (illegal_state_spec (Os k e0)) as (b & e & ->). destruct b; [do 2 eexists; (split; [reflexivity | done]) |].
  assert (0 <= n <= zlen bs) as Hn.
  { apply orb_false_iff in Eg as [Eg _]. apply orb_false_iff in Eg as [_ Eg]. apply Z.leb_gt in Eg. lia. }
  destruct (tcp_build_ok l alloc bs n serializer Ha Hbld Hser Hcb Hn) as (r & ->). cbn [mbind option_bind].
  do 2 eexists. split; [reflexivity |]. destruct r as [st|b]; [done |]. destruct nodemem; [|done].
  by intros node [= <-].
Qed.

Lemma tx_step_ok op l s : link_ok l s -> op_ok op -> builder_ok (builder_ l) -> 0 <= cb_ l ->
  exists status l' s', tx_step op l s = Some (status, l', s') /\ link_ok l' s' /\ same_link l l' /\ wire (kern s') = wire (kern s).
Proof.
  intros Hl Hop Hbld Hcb. destruct op as [h origin n serializer alloc nodemem | pool taskmem]; cbn [tx_step].
  - unfold tcp_write.
    destruct (write_node_ok l h origin n serializer alloc nodemem s Hop Hbld Hcb) as (r & e & -> & Hr).
    cbn [mbind option_bind]. apply (link_ok_kernel l s (Os (kern s) e) eq_refl) in Hl.
    destruct r as [st|node]; [by eauto 8 |]. destruct (Hr node eq_refl) as [Hw Ho].
    apply (write_send_ok l node (Os (kern s) e)); [done |]. split; [done |]. unfold zlen in Hw. lia.
  - destruct (wp_queued l pool taskmem []) as [st tasks] eqn:Eq.
    assert (length tasks <= 1)%nat as Hlen by (destruct pool, taskmem; injection Eq as <- <-; cbn; lia).
    destruct (_wp_run_ok (S (length (head (fifo l)))) l tasks s Hl) as (l' & s' & -> & Hl' & Hcb' & Hw); [lia |].
    cbn [mbind option_bind]. by eauto 8.
Qed.

(** C36: whatever the kernel answers and in whatever order calls of [tcp_write] and
    EPOLLOUT events come, one after the other: every call returns (no loop goes on
    forever, no access leaves a buffer), the counter is the length of the queue and at
    most 100, every queued node is whole, the overflow flag says whether something is
    queued, and as long as something is queued epoll is armed for EPOLLOUT.  None of
    the calls hands the kernel a byte, whatever sendmsg would do with it. *)
Theorem tx_queue_armed ops l s :
  link_ok l s -> builder_ok (builder_ l) -> 0 <= cb_ l -> Forall op_ok ops ->
  exists statuses l' s', tx_run ops l s = Some (statuses, l', s') /\
    length statuses = length ops /\ link_ok l' s' /\ wire (kern s') = wire (kern s).
Proof.
  intros Hl Hbld Hcb Hops. revert l s Hl Hbld Hcb. induction ops as [|op ops IH]; intros l s Hl Hbld Hcb.
  { cbn. eauto 7. }
  apply Forall_cons in Hops as [Hop Hops].
  destruct (tx_step_ok op l s Hl Hop Hbld Hcb) as (st & l1 & s1 & E1 & Hl1 & Hsame & Hw1).
  injection Hsame as _ _ Hb Hc. cbn [tx_run]. rewrite E1. cbn [mbind option_bind].
  destruct (IH Hops l1 s1) as (sts & l2 & s2 & E2 & Hlen & Hl2 & Hw2); [done | by rewrite Hb | by rewrite Hc |].
  rewrite E2. cbn [mbind option_bind]. do 3 eexists. split; [reflexivity |]. split; [cbn; lia |]. split; [done | congruence].
Qed.

(** ** The writer thread *)
Definition unsent (node : tx_node) : Prop := node_ok node /\ offset node < wcb node.

Lemma established k e : tcp_info k = (Ret TCP_ESTABLISHED, k) -> illegal_state (Os k e) = (false, Os k e).
Proof. intros Hinfo. unfold illegal_state, tcp_save_info, syscall. cbn [kern errno]. by rewrite Hinfo. Qed.

(** What [tcp_tx] gives for a queue with an unsent packet in front. *)
Lemma tcp_tx_unsent l node q k e : head (fifo l) = node :: q -> unsent node -> tcp_info k = (Ret TCP_ESTABLISHED, k) ->
  tcp_tx l (Os k e) = Some (posix__makeerror e, l, Os k e).
Proof.
  intros E [Hn Hlt] Hinfo. unfold tcp_tx. rewrite established by done. unfold fifo_top. rewrite E. cbn match. rewrite tcp_txn_spec by done. cbn [mbind option_bind].
  unfold txn_status. rewrite (proj2 (Z.ltb_lt _ _) Hlt), (set_front_same l node q E). done.
Qed.

(** With errno 0 the refused packet counts as sent: it is popped, and the next one is tried. *)
Lemma writer_drops fuel : (forall k, tcp_info k = (Ret TCP_ESTABLISHED, k)) ->
  forall l s, link_ok l s -> Forall unsent (head (fifo l)) -> closing l = false -> errno s = 0 ->
    (length (head (fifo l)) < fuel)%nat ->
  exists l' s', _wp_run tcp_tx fuel l [Task (hld (cb l))] s = Some (l', s') /\
    head (fifo l') = [] /\ closing l' = false /\ link_ok l' s' /\ wire (kern s') = wire (kern s).
Proof.
  intros Hinfo. induction fuel as [|fuel IH]; intros l [k e] Hl Hq Hc He Hf; [lia |]. cbn [errno] in He. subst e.
  cbn [_wp_run _wp_get_task]. unfold _wp_exec at 1. cbn [t_hld]. rewrite Z.eqb_refl, Hc. cbn [negb orb].
  assert (forall l s ts, head (fifo l) = [] -> _wp_exec tcp_tx (Task (hld (cb l))) l ts s =
    Some (posix__makeerror ENOENT, l, ts, s) \/ closing l = true) as Hempty.
  { intros l0 [k0 e0] ts E0. destruct (closing l0) eqn:Ec; [by right |]. left. unfold _wp_exec. cbn [t_hld]. rewrite Z.eqb_refl, Ec.
    unfold tcp_tx. rewrite established by done. unfold fifo_top. by rewrite E0. }
  destruct (head (fifo l)) as [|node q] eqn:E.
  - destruct (Hempty l (Os k 0) [] E) as [E1 | E1]; [|congruence]. unfold _wp_exec in E1. cbn [t_hld] in E1.
    rewrite Z.eqb_refl, Hc in E1. cbn [negb orb] in E1. rewrite E1. cbn [mbind option_bind]. destruct fuel; cbn; eauto 8.
  - apply Forall_cons in Hq as [Hn Hq]. rewrite (tcp_tx_unsent l node q k 0 E Hn (Hinfo k)). cbn [mbind option_bind].
    change (NSP_SUCCESS (posix__makeerror 0)) with true. cbn [negb].
    destruct (fifo_pop_ok l (Os k 0) node q Hl E) as (l2 & s2 & E2 & Hl2 & Hcb2 & Hq2 & Hw2). rewrite E2.
    change (NSP_SUCCESS NSP_STATUS_SUCCESSFUL) with true. cbn [mbind option_bind _wp_add_task app].
    assert (closing l2 = false) as Hc2.
    { revert E2. unfold fifo_pop, fifo_pop_locked. rewrite E. by destruct (_ && _); intros [= <- _]. }
    injection Hcb2 as Hcb2 _ _ _. rewrite <- Hcb2. destruct (decide (q = [])) as [-> | Hne].
    + destruct fuel as [|fuel]; [cbn in Hf; lia |]. cbn [_wp_run _wp_get_task].
      destruct (Hempty l2 s2 [] Hq2) as [-> | ?]; [|congruence]. cbn [mbind option_bind]. destruct fuel; cbn; eauto 8.
    + assert (errno s2 = 0) as He2.
      { revert E2. unfold fifo_pop, fifo_pop_locked. rewrite E.
        assert (0 <> size (fifo l) - 1) as Hs.
        { rewrite (ok_size _ _ Hl), E, zlen_cons. pose proof (zlen_pos q Hne). lia. }
        rewrite (proj2 (Z.eqb_neq _ _) Hs). by intros [= _ <-]. }
      destruct (IH l2 s2 Hl2) as (l' & s' & -> & H1 & H2 & H3 & H4); rewrite ?Hq2; [done.. | cbn in Hf; lia |].
      exists l', s'. repeat (split; [done |]). by rewrite H4.
Qed.

(** C34: what the writer thread does when EPOLLOUT is reported for an established link with
    packets in its queue.  Nothing is sent.  When the errno of the thread is 0, every
    packet is taken for sent and dropped; when it is EAGAIN, all stay queued; any other
    value but ENOENT closes the link. *)
Theorem tcp_writer_outcome l s :
  (forall k, tcp_info k = (Ret TCP_ESTABLISHED, k)) -> link_ok l s -> closing l = false ->
  head (fifo l) <> [] -> Forall unsent (head (fifo l)) -> 0 <= errno s < 4096 ->
  exists l' s', tx_step (Writable true true) l s = Some (NSP_STATUS_SUCCESSFUL, l', s') /\ wire (kern s') = wire (kern s) /\
    link_ok l' s' /\
    (errno s = 0 -> head (fifo l') = [] /\ closing l' = false) /\
    (errno s = EAGAIN -> l' = l) /\
    (errno s <> 0 -> errno s <> EAGAIN -> errno s <> ENOENT -> l' = objclos l).
Proof.
  intros Hinfo Hl Hc Hne Hq He. cbn [tx_step wp_queued negb _wp_add_task app].
  destruct (decide (errno s = 0)) as [E0 | E0].
  { destruct (writer_drops (S (length (head (fifo l)))) Hinfo l s Hl Hq Hc E0) as (l' & s' & -> & H1 & H2 & H3 & H4); [lia |].
    cbn [mbind option_bind]. exists l', s'. repeat (split; [done |]). rewrite E0. split; [discriminate | done]. }
  destruct s as [k e]. cbn [errno kern] in *. destruct (head (fifo l)) as [|node q] eqn:E; [done |].
  apply Forall_cons in Hq as [Hn _]. cbn [_wp_run _wp_get_task]. unfold _wp_exec. cbn [t_hld]. rewrite Z.eqb_refl, Hc. cbn [negb orb].
  rewrite (tcp_tx_unsent l node q k e E Hn (Hinfo k)). cbn [mbind option_bind].
  assert (NSP_SUCCESS (posix__makeerror e) = false) as ->.
  { rewrite makeerror_pos by lia. apply Z.leb_gt. lia. }
  cbn [negb]. rewrite !makeerror_is by lia. destruct (Z.eqb_spec e EAGAIN) as [-> | Ha]; [|destruct (Z.eqb_spec e ENOENT) as [-> | Hno]]; cbn [orb mbind option_bind].
  - exists l, (Os k EAGAIN). repeat (split; [done |]). done.
  - exists l, (Os k ENOENT). repeat (split; [done |]). done.
  - exists (objclos l), (Os k e). repeat (split; [done |]). split; [by apply link_ok_objclos |]. split; [done |]. split; [done |]. done.
Qed.
End Sender.

(** [tcp_write] on a link whose connection is not established drops the packet
    and reports success: the status of the TCP_INFO call is what it returns. *)
Theorem tcp_write_not_established l h origin n serializer alloc nodemem k e state :
  0 <= h -> 0 < n <= TCP_MAXIMUM_PACKET_SIZE -> NSP_SUCCESS (_tcprefr h l) = true ->
  tcp_info k = (Ret state, k) -> 0 <= state -> state <> TCP_ESTABLISHED ->
  tcp_write l h (Some origin) n serializer alloc nodemem (Os k e) = Some (NSP_STATUS_SUCCESSFUL, l, Os k e).
Proof.
  intros Hh [Hn Hmax] Href Hinfo Hs Hne. unfold tcp_write, write_node.
  rewrite (proj2 (Z.ltb_ge h 0)), (proj2 (Z.leb_gt n 0)), (proj2 (Z.ltb_ge TCP_MAXIMUM_PACKET_SIZE n)) by done.
  rewrite Href. unfold illegal_state, tcp_save_info, syscall. cbn [kern errno orb negb]. rewrite Hinfo. cbn match.
  rewrite (proj2 (Z.ltb_ge state 0)), (proj2 (Z.eqb_neq state TCP_ESTABLISHED)) by done. done.
Qed.
End Tx.

(** ** A network to run it on

    Each call of sendmsg is answered by the next number of the script: at most that
    many bytes, or EAGAIN when it is not positive or the script is over. *)
Record demo_net := Net { script : list Z; wired : list Z; out_armed : bool }.
Definition net_send (fd : Z) (dontwait : bool) (bytes : list Z) (k : demo_net) : answer * demo_net :=
  match script k with
  | [] => (Err EAGAIN, k)
  | n :: script =>
      if 0 <? n then
        let m := Z.min n (zlen bytes) in
        (Ret m, Net script (wired k ++ take (Z.to_nat m) bytes) (out_armed k))
      else (Err EAGAIN, Net script (wired k) (out_armed k))
  end.
Definition net_epoll (events : Z) (k : demo_net) : answer * demo_net :=
  (Ret 0, Net (script k) (wired k) (Z.testbit events 2)).
Definition net_info (k : demo_net) : answer * demo_net := (Ret TCP_ESTABLISHED, k).

#[export] Instance net_polling : Polling net_epoll net_info wired out_armed.
Proof.
  split.
  - intros events k. left. eexists. done.
  - intros k. left. exists TCP_ESTABLISHED. done.
Qed.

Definition demo_link : link_t := Link (Ncb 7 5 LINKATTR_NONBLOCK (Some 1000) None None 0) IPPROTO_TCP (Fifo false 0 []) None 0 false.
Definition demo_mem (n : Z) : option (list Z) := Some (replicate (Z.to_nat n) 0).
Definition demo_write (bytes : list Z) : tx_op := Write 7 (Some bytes) (zlen bytes) None (fun n => if n <? 0 then None else demo_mem n) true.

Lemma demo_write_ok bytes : op_ok (demo_write bytes).
Proof.
  split; [|split].
  - intros n b. destruct (Z.ltb_spec n 0); [done |]. intros [= <-]. by apply zlen_replicate.
  - intros f. discriminate.
  - intros bs [= <-]. lia.
Qed.

(** Two packets while the errno of the thread is EAGAIN, then EPOLLOUT: the network
    would take everything, both packets stay in the queue. *)
Lemma tx_queue_armed_witness :
  exists l' s', tx_run net_send net_epoll net_info [demo_write [1; 2; 3; 4]; demo_write [5; 6]; Writable true true]
      demo_link (Os (Net [9; 9; 9] [] false) EAGAIN) = Some ([0; 0; 0], l', s') /\
    link_ok out_armed l' s' /\ data <$> head (fifo l') = [[1; 2; 3; 4]; [5; 6]] /\
    out_armed (kern s') = true /\ wired (kern s') = [].
Proof.
  destruct (tx_queue_armed net_send net_epoll net_info wired out_armed
    [demo_write [1; 2; 3; 4]; demo_write [5; 6]; Writable true true] demo_link (Os (Net [9; 9; 9] [] false) EAGAIN))
    as (sts & l' & s' & E & _ & Hok & _).
  - split; [done.. | intros H; by destruct (H eq_refl)].
  - intros f. discriminate.
  - cbn. lia.
  - apply Forall_cons; split; [apply demo_write_ok |]. apply Forall_cons; split; [apply demo_write_ok |].
    by apply Forall_singleton.
  - pose proof E as E'. vm_compute in E'. injection E' as <- <- <-. do 2 eexists. split; [exact E |]. by split.
Defined.

(** Two packets in the queue and EPOLLOUT, the writer thread with errno 0. *)
Definition demo_queued : link_t :=
  set_fifo (Fifo true 2 [Node [1; 2] 2 0 (0, 0) []; Node [3] 1 0 (0, 0) []]) demo_link.
Lemma tcp_writer_outcome_witness :
  exists l' s', tx_step net_send net_epoll net_info (Writable true true) demo_queued (Os (Net [9; 9] [] true) 0) = Some (0, l', s') /\
    wired (kern s') = [] /\ head (fifo l') = [] /\ closing l' = false.
Proof.
  destruct (tcp_writer_outcome net_send net_epoll net_info wired out_armed demo_queued (Os (Net [9; 9] [] true) 0))
    as (l' & s' & E & Hw & _ & H0 & _).
  - reflexivity.
  - split; [reflexivity | by vm_compute | reflexivity | | done]. by repeat (constructor; [split; [reflexivity | cbn; lia] |]).
  - reflexivity.
  - discriminate.
  - by repeat (constructor; [split; [split; [reflexivity | cbn; lia] | reflexivity] |]).
  - cbn. lia.
  - exists l', s'. split; [exact E |]. split; [exact Hw |]. exact (H0 eq_refl).
Defined.

(** The peer has closed: state 8, TCP_CLOSE_WAIT. *)
Lemma tcp_write_not_established_witness :
  tcp_write net_send net_epoll (fun k => (Ret 8, k)) demo_link 7 (Some [1; 2; 3]) 3 None demo_mem true
    (Os (Net [3] [] false) 0)
  = Some (NSP_STATUS_SUCCESSFUL, demo_link, Os (Net [3] [] false) 0).
Proof.
  apply (tcp_write_not_established net_send net_epoll (fun k => (Ret 8, k)) demo_link 7 [1; 2; 3] 3
    None demo_mem true (Net [3] [] false) 0 8); [lia | by split | reflexivity | reflexivity | lia | discriminate].
Defined.

