(* ===== verification/TxThreads.v ===== *)
(** Threads on one TCP link: any number of callers of [tcp_write]
    (src/posix/tcp.c), the writer thread of the pool (src/posix/wpool.c) and the
    epoll thread, interleaved.

    A step of a thread is what no other thread can see the middle of: one system
    call, or one critical section of the fifo lock ([fifo_queue] calls epoll_ctl
    inside it, [fifo_pop] behind it).  The steps are the operations of [TxFifo], the
    guard of [ncb_senddata] included: the theorem says what the threads can and cannot
    do to the queue then. *)
From S2P Require Import Prelude TcpAl Ncb TxFifo.

(** Where a caller of [tcp_write] is: outside, before the check of the overflow flag,
    in the loop of [tcp_txn], before [fifo_queue]. *)
Inductive wpc := WIdle | WCheck (node : tx_node) | WSend (node : tx_node) | WQueue (node : tx_node).

(** [calls]: the status and the packet of every call that came as far as a node. *)
Record writer := Writer { w_pc : wpc; w_errno : Z; calls : list (Z * list Z) }.

(** Where the thread of [_wp_run] is: without a task, in [tcp_tx] (at the TCP_INFO
    call, at [fifo_top], in [tcp_txn]), in [fifo_pop] (before the lock, before
    epoll_ctl), before [_wp_add_task]. *)
Inductive kpc :=
  | KIdle | KInfo (task : wptask) | KTop (task : wptask) | KSend (task : wptask)
  | KPop (task : wptask) | KMod (task : wptask) | KAdd (task : wptask).

Section Threads.
Context {K : Type}.
Context (sendmsg : Z -> bool -> list Z -> K -> answer * K)
  (epoll_mod : Z -> K -> answer * K)
  (tcp_info : K -> answer * K)
  (armed : K -> bool).

Record conf := Conf {
  link : link_t; kernel : K;
  tasks : list wptask; k_pc : kpc; k_errno : Z;
  writers : list writer;
}.

(** A caller's step: its new state, the link and the kernel. *)
Definition finish (w : writer) (status : Z) (node : tx_node) (e : Z) : writer :=
  Writer WIdle e (calls w ++ [(status, data node)]).

Definition w_step (w : writer) (l : link_t) (k : K) : option (writer * link_t * K) :=
  let s := Os k (w_errno w) in
  match w_pc w with
  | WIdle => None
  | WCheck node =>
      Some (Writer (if negb (fifo_tx_overflow l) then WSend node else WQueue node) (w_errno w) (calls w), l, k)
  | WSend node =>
      '(r, s) ← txn_step sendmsg l node s;
      Some (match r with
            | inr node => Writer (WSend node) (errno s) (calls w)
            | inl status =>
                if negb (NSP_FAILED_AND_ERROR_EQUAL status EAGAIN) then finish w status node (errno s)
                else Writer (WQueue node) (errno s) (calls w)
            end, l, kern s)
  | WQueue node =>
      let '(status, l, s) := fifo_queue epoll_mod node l s in
      Some (finish w status node (errno s), l, kern s)
  end.

(** The first part of a call, up to the node. *)
Definition w_call (w : writer) (h : Z) (origin : option (list Z)) (n : Z) (serializer : option serializer_fp)
    (alloc : Z -> option (list Z)) (nodemem : bool) (l : link_t) (k : K) : option (writer * K) :=
  match w_pc w with
  | WIdle =>
      '(r, s) ← write_node tcp_info l h origin n serializer alloc nodemem (Os k (w_errno w));
      Some (match r with
            | inl status => Writer WIdle (errno s) (calls w)
            | inr node => Writer (WCheck node) (errno s) (calls w)
            end, kern s)
  | _ => None
  end.

Definition with_worker (c : conf) (l : link_t) (s : os K) (ts : list wptask) (pc : kpc) : conf :=
  Conf l (kern s) ts pc (errno s) (writers c).

(** The end of [_wp_exec] when [tcp_tx] fails: the task is freed. *)
Definition k_fail (c : conf) (status : Z) (l : link_t) (s : os K) : conf :=
  if NSP_FAILED_AND_ERROR_EQUAL status EAGAIN || NSP_FAILED_AND_ERROR_EQUAL status ENOENT
  then with_worker c l s (tasks c) KIdle
  else with_worker c (objclos l) s (tasks c) KIdle.

Definition k_step (c : conf) : option conf :=
  let l := link c in
  let s := Os (kernel c) (k_errno c) in
  match k_pc c with
  | KIdle =>
      match _wp_get_task (tasks c) with
      | (None, _) => None
      | (Some task, ts) =>
          Some (with_worker c l s ts
            (if negb (t_hld task =? hld (cb l)) || closing l then KIdle else KInfo task))
      end
  | KInfo task =>
      let '(illegal, s) := illegal_state tcp_info s in
      Some (if illegal then k_fail c (posix__makeerror EINVAL) l s else with_worker c l s (tasks c) (KTop task))
  | KTop task =>
      match fifo_top l with
      | (_, Some _) => Some (with_worker c l s (tasks c) (KSend task))
      | (status, None) => Some (k_fail c status l s)
      end
  | KSend task =>
      match (fifo_top l).2 with
      | None => None
      | Some node =>
          '(r, s) ← txn_step sendmsg l node s;
          Some (match r with
                | inr node => with_worker c (set_front node l) s (tasks c) (KSend task)
                | inl status =>
                    if negb (NSP_SUCCESS status) then k_fail c status l s
                    else with_worker c l s (tasks c) (KPop task)
                end)
      end
  | KPop task =>
      match fifo_pop_locked l with
      | (None, _, l) => Some (with_worker c l s (tasks c) KIdle)
      | (Some _, canceled, l) => Some (with_worker c l s (tasks c) (if canceled then KMod task else KAdd task))
      end
  | KMod task => Some (with_worker c l (io_modify epoll_mod EPOLLIN s).2 (tasks c) (KAdd task))
  | KAdd task => Some (with_worker c l s (_wp_add_task task (tasks c)) KIdle)
  end.

(** Who moves: caller [i] begins a call or goes on with it, the writer thread, or the
    epoll thread, which reports EPOLLOUT only while it is armed. *)
Inductive act :=
  | Call (i : nat) (h : Z) (origin : option (list Z)) (n : Z) (serializer : option serializer_fp)
      (alloc : Z -> option (list Z)) (nodemem : bool)
  | Caller (i : nat)
  | Worker
  | Event (pool taskmem : bool).

Definition with_writer (c : conf) (i : nat) (w : writer) (l : link_t) (k : K) : conf :=
  Conf l k (tasks c) (k_pc c) (k_errno c) (<[i := w]> (writers c)).

Definition exec (a : act) (c : conf) : option conf :=
  match a with
  | Call i h origin n serializer alloc nodemem =>
      w ← writers c !! i;
      '(w, k) ← w_call w h origin n serializer alloc nodemem (link c) (kernel c);
      Some (with_writer c i w (link c) k)
  | Caller i =>
      w ← writers c !! i;
      '(w, l, k) ← w_step w (link c) (kernel c);
      Some (with_writer c i w l k)
  | Worker => k_step c
  | Event pool taskmem =>
      if armed (kernel c) then
        Some (Conf (link c) (kernel c) (wp_queued (link c) pool taskmem (tasks c)).2 (k_pc c) (k_errno c) (writers c))
      else None
  end.

Fixpoint run (acts : list act) (c : conf) : option conf :=
  match acts with
  | [] => Some c
  | a :: acts => c ← exec a c; run acts c
  end.

(** The routines and the memory a call gets are those of [op_ok]. *)
Definition act_ok (a : act) : Prop :=
  match a with
  | Call _ h origin n serializer alloc nodemem => op_ok (Write h origin n serializer alloc nodemem)
  | _ => True
  end.

Definition step (c c' : conf) : Prop := exists a, act_ok a /\ exec a c = Some c'.

Lemma run_steps acts : forall c c', Forall act_ok acts -> run acts c = Some c' -> rtc step c c'.
Proof.
  induction acts as [|a acts IH]; intros c c' Hok; cbn [run].
  - intros [= <-]. done.
  - apply Forall_cons in Hok as [Ha Hok]. destruct (exec a c) as [c1|] eqn:E; [|done]. cbn [mbind option_bind].
    intros Hr. eapply rtc_l; [by exists a |]. by apply IH.
Qed.

(** ** What holds in every state *)
Context {W : Type} (wire : K -> W) `{!Polling epoll_mod tcp_info wire armed}.

(** The packets of the calls that reported success. *)
Definition accepted (w : writer) : list (list Z) := snd <$> filter (fun call => NSP_SUCCESS call.1 = true) (calls w).

(** A packet none of whose bytes has been passed on. *)
Definition whole (node : tx_node) : Prop := node_ok node /\ offset node = 0.

Definition w_inv (w : writer) : Prop :=
  match w_pc w with WIdle => True | WCheck n | WSend n | WQueue n => whole n end.
(** Only the writer thread takes nodes off: what it found at the front stays there. *)
Definition k_inv (pc : kpc) (q : list tx_node) : Prop :=
  match pc with KSend _ | KPop _ => q <> [] | _ => True end.
Record fifo_inv (l : link_t) : Prop := {
  fi_size : size (fifo l) = zlen (head (fifo l));
  fi_bound : size (fifo l) <= MAXIMUM_FIFO_SIZE;
  fi_overflow : tx_overflow (fifo l) = bool_decide (head (fifo l) <> []);
  fi_whole : Forall whole (head (fifo l));
}.

Record conf_inv (sent : W) (c : conf) : Prop := {
  ci_build : builder_ok (builder_ (link c)) /\ 0 <= cb_ (link c);
  ci_fifo : fifo_inv (link c);
  ci_callers : Forall w_inv (writers c);
  ci_worker : k_inv (k_pc c) (head (fifo (link c)));
  ci_wire : wire (kernel c) = sent;
  ci_accepted : data <$> head (fifo (link c)) ⊆+ concat (accepted <$> writers c);
}.

Lemma accepted_finish w status node e :
  accepted (finish w status node e) = accepted w ++ (if NSP_SUCCESS status then [data node] else []).
Proof.
  unfold accepted, finish. cbn [calls]. rewrite filter_app, fmap_app. f_equal. rewrite filter_cons. cbn [fst].
  destruct (NSP_SUCCESS status); [by rewrite decide_True by done | by rewrite decide_False by done].
Qed.

(** One caller's accepted packets grow. *)
Lemma accepted_insert ws i w w' x : ws !! i = Some w -> accepted w' = accepted w ++ x ->
  concat (accepted <$> <[i := w']> ws) ≡ₚ concat (accepted <$> ws) ++ x.
Proof.
  intros Hi Hx. rewrite <- (take_drop_middle ws i w Hi) at 2. rewrite insert_take_drop by by eapply lookup_lt_Some.
  rewrite !fmap_app, !fmap_cons, !concat_app. cbn [concat]. rewrite Hx. solve_Permutation.
Qed.

(** A step of caller [i]. *)
Lemma caller_inv sent c i w w' l k x : conf_inv sent c -> writers c !! i = Some w -> w_inv w' -> accepted w' = accepted w ++ x ->
  builder_ l = builder_ (link c) -> cb_ l = cb_ (link c) -> fifo_inv l -> k_inv (k_pc c) (head (fifo l)) -> wire k = sent ->
  data <$> head (fifo l) ⊆+ (data <$> head (fifo (link c))) ++ x -> conf_inv sent (with_writer c i w' l k).
Proof.
  intros [[Hb Hc] Hf Hws Hk Hw Ha] Hi Hw' Hx Eb Ec Hf' Hk' Hk2 Hq. split; cbn [with_writer link kernel k_pc writers]; try done.
  - by rewrite Eb, Ec.
  - by apply Forall_insert.
  - rewrite (accepted_insert _ _ _ _ _ Hi Hx), Hq. by apply submseteq_skips_r.
Qed.

(** A step of the writer thread. *)
Lemma worker_inv sent c l s ts pc : conf_inv sent c -> same_link (link c) l -> fifo_inv l -> k_inv pc (head (fifo l)) ->
  wire (kern s) = wire (kernel c) -> data <$> head (fifo l) ⊆+ data <$> head (fifo (link c)) ->
  conf_inv sent (with_worker c l s ts pc).
Proof.
  intros [[Hb Hc] Hf Hws Hk Hw Ha] E Hf' Hk' Hw' Hq. injection E as _ _ Eb Ec.
  split; cbn [with_worker link kernel k_pc writers]; try done; [by rewrite Eb, Ec | by rewrite Hw' | by rewrite Hq].
Qed.

Lemma fifo_inv_queue node l s : fifo_inv l -> whole node ->
  exists status l' s', fifo_queue epoll_mod node l s = (status, l', s') /\ wire (kern s') = wire (kern s) /\
    same_link l l' /\ fifo_inv l' /\
    (NSP_SUCCESS status = true /\ head (fifo l') = head (fifo l) ++ [node] \/ NSP_SUCCESS status = false /\ l' = l).
Proof.
  intros Hl Hn. pose proof Hl as [Hsize Hb Ho Hnodes]. unfold fifo_queue.
  destruct (Z.leb_spec MAXIMUM_FIFO_SIZE (size (fifo l))) as [Hfull | Hroom].
  { eexists _, _, _. split; [reflexivity |]. do 3 (split; [done |]). by right. }
  assert (fifo_inv (set_fifo (Fifo true (size (fifo l) + 1) (head (fifo l) ++ [node])) l)) as Hl'.
  { split; cbn [set_fifo fifo size head tx_overflow]; [rewrite Hsize, zlen_app; done | lia | | ].
    - rewrite bool_decide_true; [done |]. by destruct (head (fifo l)).
    - apply Forall_app. split; [done | by constructor]. }
  destruct (tx_overflow (fifo l)).
  { eexists _, _, _. split; [reflexivity |]. do 3 (split; [done |]). by left. }
  destruct (io_modify_spec epoll_mod tcp_info wire armed (Z.lor EPOLLIN EPOLLOUT) s ltac:(done)) as (r & s' & -> & Hw & _).
  destruct (NSP_SUCCESS r) eqn:Er; eexists _, _, _; (split; [reflexivity |]); do 3 (split; [done |]); auto.
Qed.

Lemma fifo_inv_pop l node q : fifo_inv l -> head (fifo l) = node :: q ->
  exists canceled l', fifo_pop_locked l = (Some node, canceled, l') /\ same_link l l' /\ fifo_inv l' /\ head (fifo l') = q.
Proof.
  intros [Hs Hb Ho Hnodes] E. unfold fifo_pop_locked. rewrite E in *.
  rewrite bool_decide_true in Ho by done. rewrite Ho. apply Forall_cons in Hnodes as [_ Hq]. rewrite zlen_cons in Hs.
  destruct (Z.eqb_spec 0 (size (fifo l) - 1)) as [H0 | H0]; cbn [andb]; do 2 eexists; (split; [reflexivity |]);
    (split; [reflexivity |]); (split; [|reflexivity]); split; cbn [set_fifo fifo size head tx_overflow]; try (done || lia).
  - rewrite bool_decide_false; [done |]. intros Hne. apply Hne, zlen_0. lia.
  - rewrite bool_decide_true; [done |]. intros ->. rewrite zlen_nil in Hs. lia.
Qed.

Lemma k_inv_app pc q extra : k_inv pc q -> k_inv pc (q ++ extra).
Proof. destruct pc; cbn; try done; intros H E; by apply app_eq_nil in E as [? _]. Qed.

Lemma w_call_inv w h origin n serializer alloc nodemem l k w' k' :
  op_ok (Write h origin n serializer alloc nodemem) -> builder_ok (builder_ l) -> 0 <= cb_ l ->
  w_call w h origin n serializer alloc nodemem l k = Some (w', k') -> w_inv w' /\ k' = k /\ accepted w' = accepted w ++ [].
Proof.
  intros Hop Hb Hc. unfold w_call. destruct w as [[|n'|n'|n'] e cs]; cbn [w_pc w_errno]; [|done..].
  destruct (write_node_ok epoll_mod tcp_info wire armed l h origin n serializer alloc nodemem (Os k e) Hop Hb Hc)
    as (r & e' & -> & Hr). cbn [mbind option_bind kern calls]. intros [= <- <-]. rewrite app_nil_r.
  split; [|by destruct r]. destruct r as [st | node]; [done |]. destruct (Hr node eq_refl) as [Hw Ho].
  split; [|done]. split; [done |]. unfold zlen in Hw. lia.
Qed.

Lemma caller_step_inv sent c i w w' l' k' : conf_inv sent c -> writers c !! i = Some w ->
  w_step w (link c) (kernel c) = Some (w', l', k') -> conf_inv sent (with_writer c i w' l' k').
Proof.
  intros Hc Hi. pose proof Hc as [[Hb Hcb] Hf Hws Hk Hw _]. pose proof (Forall_lookup_1 _ _ _ _ Hws Hi) as Hwi.
  destruct w as [[|n|n|n] e cs]; cbn [w_step w_pc w_errno]; [done |..]; cbn [w_inv w_pc] in Hwi.
  - intros [= <- <- <-]. eapply (caller_inv _ _ _ _ _ _ _ []); try done; rewrite ?app_nil_r; try done. by destruct (negb _).
  - destruct Hwi as [Hn Ho]. rewrite txn_step_spec by done. cbn [mbind option_bind]. intros [= <- <- <-]. destruct (negb _).
    + eapply caller_inv; [done | done | done | apply accepted_finish | done.. |]. by apply submseteq_inserts_r.
    + eapply (caller_inv _ _ _ _ _ _ _ []); try done; by rewrite ?app_nil_r.
  - destruct (fifo_inv_queue n (link c) (Os (kernel c) e) Hf Hwi) as (status & l1 & s1 & -> & Hwire & Hsame & Hl1 & Hq).
    injection Hsame as _ _ Eb Ec. intros [= <- <- <-].
    eapply caller_inv; [done | done | done | apply accepted_finish | done | done | done | | by rewrite Hwire |].
    + destruct Hq as [[_ ->] | [_ ->]]; [by apply k_inv_app | done].
    + destruct Hq as [[-> ->] | [-> ->]]; [by rewrite fmap_app | by rewrite app_nil_r].
Qed.

Lemma k_fail_inv sent c status s : conf_inv sent c -> wire (kern s) = wire (kernel c) ->
  conf_inv sent (k_fail c status (link c) s).
Proof.
  intros Hc Hw. pose proof Hc as [_ [] _ _ _ _]. unfold k_fail. destruct (_ || _); by apply worker_inv.
Qed.

Lemma worker_step_inv sent c c' : conf_inv sent c -> k_step c = Some c' -> conf_inv sent c'.
Proof.
  intros Hc. pose proof Hc as [_ Hf _ Hk _ _]. unfold k_step.
  destruct (k_pc c) as [|task|task|task|task|task|task] eqn:Epc.
  - destruct (_wp_get_task (tasks c)) as [[task|] ts]; [|done]. intros [= <-].
    apply worker_inv; try done. by destruct (_ || _).
  - destruct (illegal_state_spec epoll_mod tcp_info wire armed (Os (kernel c) (k_errno c))) as (b & e & ->).
    intros [= <-]. destruct b; [by apply k_fail_inv | by apply worker_inv].
  - unfold fifo_top. destruct (head (fifo (link c))) as [|node q] eqn:E; intros [= <-]; [by apply k_fail_inv |].
    apply worker_inv; try done. by rewrite E.
  - unfold fifo_top. destruct (head (fifo (link c))) as [|node q] eqn:E; cbn [snd]; [done |].
    pose proof (fi_whole _ Hf) as Hn. rewrite E in Hn. apply Forall_cons in Hn as [[Hn _] _].
    rewrite txn_step_spec by done. cbn [mbind option_bind]. intros [= <-].
    destruct (negb _); [by apply k_fail_inv |]. apply worker_inv; try done. by rewrite E.
  - destruct (head (fifo (link c))) as [|node q] eqn:E; [done |].
    destruct (fifo_inv_pop (link c) node q Hf E) as (b & l' & -> & Hsame & Hl' & E').
    intros [= <-]. apply worker_inv; try done; [by destruct b |]. rewrite E, E'. by apply submseteq_cons.
  - destruct (io_modify_spec epoll_mod tcp_info wire armed EPOLLIN (Os (kernel c) (k_errno c)) ltac:(done)) as (r & s' & -> & Hw & _).
    intros [= <-]. by apply worker_inv.
  - intros [= <-]. by apply worker_inv.
Qed.

Lemma step_inv sent c c' : conf_inv sent c -> step c c' -> conf_inv sent c'.
Proof.
  intros Hc (a & Ha & E). destruct a as [i h origin n serializer alloc nodemem | i | | pool taskmem]; cbn [exec] in E.
  - destruct (writers c !! i) as [w|] eqn:Ei; [|done]. cbn [mbind option_bind] in E.
    destruct (w_call w h origin n serializer alloc nodemem (link c) (kernel c)) as [[w' k']|] eqn:Ew; [|done].
    cbn [mbind option_bind] in E. injection E as <-. pose proof Hc as [[Hb Hcb] Hf _ Hk Hw _].
    destruct (w_call_inv w h origin n serializer alloc nodemem (link c) (kernel c) w' k' Ha Hb Hcb Ew) as (Hw' & -> & Hx).
    eapply caller_inv; try done. by rewrite app_nil_r.
  - destruct (writers c !! i) as [w|] eqn:Ei; [|done]. cbn [mbind option_bind] in E.
    destruct (w_step w (link c) (kernel c)) as [[[w' l'] k']|] eqn:Ew; [|done].
    cbn [mbind option_bind] in E. injection E as <-. by eapply caller_step_inv.
  - by eapply worker_step_inv.
  - destruct (armed (kernel c)); [|done]. injection E as <-. by destruct Hc.
Qed.

(** No thread is ever stuck: a call goes on until it has its status, and the writer
    thread until it has no task. *)
Lemma caller_goes_on sent c i w : conf_inv sent c -> writers c !! i = Some w -> w_pc w <> WIdle ->
  is_Some (w_step w (link c) (kernel c)).
Proof.
  intros [_ Hf Hws _ _ _] Hi Hne. pose proof (Forall_lookup_1 _ _ _ _ Hws Hi) as Hw.
  destruct w as [[|n|n|n] e cs]; cbn [w_step w_pc w_errno w_inv] in *; [done | by eexists | |].
  - destruct Hw as [Hn _]. rewrite txn_step_spec by done. by eexists.
  - destruct (fifo_queue epoll_mod n (link c) (Os (kernel c) e)) as [[status l] s]. by eexists.
Qed.

Lemma worker_goes_on sent c : conf_inv sent c -> k_step c = None -> k_pc c = KIdle /\ tasks c = [].
Proof.
  intros [_ Hf _ Hk _ _]. unfold k_step. destruct (k_pc c); cbn [k_inv] in Hk; try done.
  - unfold _wp_get_task. destruct (tasks c) as [|]; done.
  - by destruct (illegal_state tcp_info _) as [[|] s].
  - unfold fifo_top. by destruct (head (fifo (link c))).
  - unfold fifo_top. destruct (head (fifo (link c))) as [|node q] eqn:E; [done |]. cbn [snd].
    pose proof (fi_whole _ Hf) as Hn. rewrite E in Hn. apply Forall_cons in Hn as [[Hn _] _].
    by rewrite txn_step_spec by done.
  - by destruct (fifo_pop_locked (link c)) as [[[node|] b] l].
Qed.

(** A link nobody uses yet. *)
Definition idle (c : conf) : Prop :=
  builder_ok (builder_ (link c)) /\ 0 <= cb_ (link c) /\ fifo (link c) = Fifo false 0 [] /\ k_pc c = KIdle /\
  Forall (fun w => w_pc w = WIdle /\ calls w = []) (writers c).

Lemma idle_inv c : idle c -> conf_inv (wire (kernel c)) c.
Proof.
  intros (Hb & Hcb & Hq & Hk & Hws). split; rewrite ?Hq, ?Hk; try done.
  - split; rewrite Hq; done.
  - eapply Forall_impl; [exact Hws |]. intros w [Hpc _]. unfold w_inv. by rewrite Hpc.
  - apply submseteq_nil_l.
Qed.

(** C33: any number of callers, the writer thread and epoll, interleaved as they may be and
    whatever the kernel answers: in every state they can reach the counter is the length
    of the queue and at most 100, the overflow flag says whether something is queued, every
    queued packet is whole and is one that a call reported success for, and no thread is
    stuck inside a call or a task.  The kernel has been given no byte by any of them. *)
Theorem threads_keep_queue c c' : idle c -> rtc step c c' ->
  wire (kernel c') = wire (kernel c) /\ fifo_inv (link c') /\
  data <$> head (fifo (link c')) ⊆+ concat (accepted <$> writers c') /\
  (forall i w, writers c' !! i = Some w -> w_pc w <> WIdle -> is_Some (w_step w (link c') (kernel c'))) /\
  (k_step c' = None -> k_pc c' = KIdle /\ tasks c' = []).
Proof.
  intros Hi Hr. assert (conf_inv (wire (kernel c)) c') as Hc.
  { apply idle_inv in Hi. revert Hi. generalize (wire (kernel c)) as sent. intros sent.
    induction Hr as [|c c1 c2 Hs _ IH]; [done |]. intros Hc. apply IH. by eapply step_inv. }
  split; [apply Hc |]. split; [apply Hc |]. split; [apply Hc |].
  split; [intros i w; by eapply caller_goes_on | by eapply worker_goes_on].
Qed.
End Threads.

(** ** A run over the network of [TxFifo] *)
Definition start (es : list Z) : conf :=
  Conf demo_link (Net [9; 9; 9] [] false) [] KIdle 0 (map (fun e => Writer WIdle e []) es).
Definition call_of (i : nat) (bytes : list Z) : act :=
  Call i 7 (Some bytes) (zlen bytes) None (fun n => if n <? 0 then None else demo_mem n) true.
Abbreviation net_step := (step net_send net_epoll net_info out_armed).
Abbreviation net_run := (run net_send net_epoll net_info out_armed).

Lemma call_of_ok i bytes : act_ok (call_of i bytes).
Proof. apply (demo_write_ok bytes). Qed.

(** Two callers; the errno of the first is EAGAIN, that of the second is 0.  The packet
    of the first is queued, then the second caller finds the queue overflowing and queues
    its packet too; the writer thread, with errno 0, takes the first for sent. *)
Definition two_callers : list act :=
  [call_of 0 [1; 2]; Caller 0; Caller 0; Caller 0; call_of 1 [5; 6]; Caller 1; Caller 1]
  ++ Event true true :: replicate 5 Worker.

Lemma threads_keep_queue_witness :
  exists c', rtc net_step (start [EAGAIN; 0]) c' /\ fifo_inv (link c') /\ wired (kernel c') = [] /\
    data <$> head (fifo (link c')) = [[5; 6]] /\ accepted <$> writers c' = [[[1; 2]]; [[5; 6]]].
Proof.
  destruct (net_run two_callers (start [EAGAIN; 0])) as [c'|] eqn:E; [|by vm_compute in E].
  assert (rtc net_step (start [EAGAIN; 0]) c') as Hr.
  { refine (run_steps _ _ _ _ two_callers _ _ _ E). unfold two_callers. cbn [replicate app].
    repeat (apply Forall_cons; split; [by try apply call_of_ok |]). by apply Forall_nil. }
  exists c'. split; [exact Hr |].
  destruct (threads_keep_queue net_send net_epoll net_info out_armed wired (start [EAGAIN; 0]) c') as (Hw & Hf & _).
  - split; [intros f; discriminate |]. split; [cbn; lia |]. split; [reflexivity |]. split; [reflexivity |]. by repeat constructor.
  - exact Hr.
  - split; [exact Hf |]. split; [exact Hw |]. vm_compute in E. injection E as <-. by split.
Defined.
