(* ===== verification/Udp.v ===== *)
(** The UDP link: src/posix/udpio.c and the calls of src/posix/udp.c on a link, over the queue
    and the writer tasks of [TxFifo] and the control block of [Ncb].

    A link is the [link_t] of [TxFifo] with the addresses of its socket ([udp_t]).  The
    system calls, [inet_addr] and [inet_ntop] of the C library are parameters.  Datagrams
    go through [ncb_senddata] and [ncb_recvdata] of [Ncb]; the theorems say what a link
    does over their guards. *)
From S2P Require Import Prelude TcpAl Ncb TxFifo Pipe.

Definition AF_UNIX : Z := 1.
Definition AF_INET : Z := 2.
Definition IPPROTO_UDP : Z := 17.
Definition MAX_UDP_UNIT : Z := 1500 - 20 - 8.
Definition UDP_FLAG_BROADCAST : Z := 1.
Definition UDP_FLAG_MULTICAST : Z := 2.
Definition EPROTO : Z := 71.
Definition sizeof_sun_path : Z := 108.

(** Two bytes of a port in the other order. *)
Definition htons (x : Z) : Z := x mod 256 * 256 + x / 256 mod 256.

Definition htonl (x : Z) : Z := htons (x / 65536) + 65536 * htons (x mod 65536).

(** Where a datagram goes or comes from: address and port as the kernel reads them, or the
    path of a domain socket. *)
Inductive sockaddr := Inet (target : Z * Z) | Domain (path : list Z).

Record udp_t := Udp {
  link : link_t;
  sin_family : Z; sin_addr : Z; sin_port : Z;
  sun_path : list Z;
  mreq : option (Z * Z);
}.
Definition set_link (l : link_t) (u : udp_t) : udp_t := Udp l (sin_family u) (sin_addr u) (sin_port u) (sun_path u) (mreq u).
Definition set_mreq (m : option (Z * Z)) (u : udp_t) : udp_t := Udp (link u) (sin_family u) (sin_addr u) (sin_port u) (sun_path u) m.

(** What the callback of the user is told about a datagram. *)
Record packet := Packet {
  p_link : Z; p_data : list Z; p_size : Z;
  p_address : list Z; p_port : Z; p_domain : option (list Z);
}.

(** The comparison with "IPC:" of four characters, their case ignored. *)
Definition lower (c : Z) : Z := if (65 <=? c) && (c <=? 90) then c + 32 else c.
Definition is_ipc (ipstr : list Z) : bool := bool_decide (map lower (take 4 (cstring ipstr)) = [105; 112; 99; 58]).
(** strncpy(3) into a [sun_path] of zeroes. *)
Definition copy_path (s : list Z) : list Z := take (Z.to_nat (sizeof_sun_path - 1)) (cstring s).

Section Udp.
Context {K : Type}.
Implicit Types (s : os K) (l : link_t) (u : udp_t).
Context (sendmsg : sockaddr -> Z -> bool -> list Z -> K -> answer * K)
  (recvmsg : Z -> bool -> Z -> K -> answer * K)
  (received : K -> list Z * sockaddr)
  (fionread : Z -> K -> answer * K)
  (epoll_mod : Z -> K -> answer * K)
  (inet_addr : list Z -> Z) (inet_ntop : Z -> list Z).

Definition _udprefr (h : Z) l : Z :=
  if h <? 0 then posix__makeerror EINVAL
  else if negb (h =? hld (cb l)) || closing l then posix__makeerror ENOENT
  else if IPPROTO_UDP =? protocol l then NSP_STATUS_SUCCESSFUL
  else posix__makeerror EPROTOTYPE.

(** ** Receiving *)

(** [received] are the bytes and the sender that recvmsg(2) last stored. *)
Definition _udp_rx l (posted : list packet) s : option (Z * list packet * os K) :=
  let '(recvcb, s) := ncb_recvdata recvmsg (cb l) false 0 s in
  let '(rx_buffer, remote) := received (kern s) in
  if 0 <? recvcb then
    data ← memread rx_buffer 0 recvcb;
    let '(addr, port) := match remote with Inet x => x | Domain _ => (0, 0) end in
    let address := inet_ntop addr in
    Some (NSP_STATUS_SUCCESSFUL,
          match callback (cb l) with
          | Some _ => posted ++ [Packet (hld (cb l)) data recvcb address (htons port) (Some address)]
          | None => posted
          end, s)
  else Some (if 0 =? recvcb then NSP_STATUS_SUCCESSFUL else recvcb, posted, s).

Definition _udp_rx_domain l (posted : list packet) s : option (Z * list packet * os K) :=
  let '(recvcb, s) := ncb_recvdata recvmsg (cb l) false 0 s in
  let '(rx_buffer, remote) := received (kern s) in
  if 0 <? recvcb then
    data ← memread rx_buffer 0 recvcb;
    let path := match remote with Inet _ => [] | Domain path => path end in
    Some (NSP_STATUS_SUCCESSFUL,
          match callback (cb l) with
          | Some _ => posted ++ [Packet (hld (cb l)) data recvcb [] 0 (if bool_decide (path = []) then None else Some path)]
          | None => posted
          end, s)
  else Some (if 0 =? recvcb then NSP_STATUS_SUCCESSFUL else recvcb, posted, s).

Fixpoint udp_rx (fuel : nat) (family : Z) l (posted : list packet) s : option (Z * list packet * os K) :=
  match fuel with
  | O => None
  | S fuel =>
      let '(r, s) :=
        match fionread (sockfd (cb l)) (kern s) with
        | (Ret available, k) => (available =? 0, Os k (errno s))
        | (Err e, k) => (false, Os k e)
        end in
      if (r : bool) then Some (posix__makeerror EAGAIN, posted, s)
      else
        '(status, posted, s) ← (if AF_UNIX =? family then _udp_rx_domain l posted s else _udp_rx l posted s);
        if NSP_SUCCESS status then udp_rx fuel family l posted s else Some (status, posted, s)
  end.

(** What [_iorun] does on EPOLLIN. *)
Definition on_readable (fuel : nat) (family : Z) l (posted : list packet) s : option (link_t * list packet * os K) :=
  '(status, posted, s) ← udp_rx fuel family l posted s;
  Some (if NSP_SUCCESS_OR_ERROR_EQUAL status EAGAIN then l else objclos l, posted, s).

(** ** Sending *)
Definition node_target (family : Z) (node : tx_node) : option sockaddr :=
  if AF_INET =? family then Some (Inet (udp_target node))
  else if AF_UNIX =? family then Some (Domain (domain_target node))
  else None.

Definition udp_txn (family : Z) l (node : tx_node) s : option (Z * tx_node * os K) :=
  match node_target family node with
  | Some target => tcp_txn (sendmsg target) l node s
  | None => Some (if offset node <? wcb node then posix__makeerror EPROTO else NSP_STATUS_SUCCESSFUL, node, s)
  end.

(** The node is taken off the queue when it was sent. *)
Definition udp_tx (family : Z) l s : option (Z * link_t * os K) :=
  match fifo_top l with
  | (_, Some node) =>
      '(status, node, s) ← udp_txn family l node s;
      let l := set_front node l in
      if NSP_SUCCESS status then let '(status, _, l, s) := fifo_pop epoll_mod l s in Some (status, l, s)
      else Some (status, l, s)
  | (status, None) => Some (status, l, s)
  end.

(** The buffer ([inr]), or the status the call fails with. *)
Definition udp_build (alloc : Z -> option (list Z)) (origin : list Z) (n : Z) (serializer : option serializer_fp) : option (Z + list Z) :=
  match alloc n with
  | None => Some (inl (posix__makeerror ENOMEM))
  | Some buffer =>
      match serializer with
      | Some f => let '(r, buffer) := f buffer origin n in Some (if r <? 0 then inl NSP_STATUS_FATAL else inr buffer)
      | None => body ← memread origin 0 n; buffer ← memcpy_at buffer 0 body; Some (inr buffer)
      end
  end.

(** The node of a datagram for [ipstr] and [port]. *)
Definition udp_node (family : Z) (buffer : list Z) (n : Z) (ipstr : list Z) (port : Z) : tx_node :=
  if AF_UNIX =? family then Node buffer n 0 (0, 0) (copy_path (if is_ipc ipstr then drop 4 ipstr else ipstr))
  else Node buffer n 0 (inet_addr ipstr, htons port) [].

(** From the node on. *)
Definition udp_send (family : Z) l (node : tx_node) s : option (Z * link_t * os K) :=
  if negb (fifo_tx_overflow l) then
    '(status, node, s) ← udp_txn family l node s;
    if negb (NSP_FAILED_AND_ERROR_EQUAL status EAGAIN) then Some (status, l, s)
    else Some (fifo_queue epoll_mod node l s)
  else Some (fifo_queue epoll_mod node l s).

Definition udp_write (family : Z) l (h : Z) (origin : option (list Z)) (n : Z) (ipstr : option (list Z)) (port : Z)
    (serializer : option serializer_fp) (alloc : Z -> option (list Z)) (nodemem : bool) s : option (Z * link_t * os K) :=
  match ipstr, origin with
  | Some ipstr, Some origin =>
      if (n <=? 0) || (h <? 0) || (MAX_UDP_UNIT <? n) then Some (posix__makeerror EINVAL, l, s)
      else
        first ← ipstr !! 0%nat;
        if 0 =? first then Some (posix__makeerror EINVAL, l, s)
        else if negb (NSP_SUCCESS (_udprefr h l)) then Some (_udprefr h l, l, s)
        else if (0 =? port) && negb (family =? AF_UNIX) then Some (posix__makeerror EINVAL, l, s)
        else
          r ← udp_build alloc origin n serializer;
          match r with
          | inl status => Some (status, l, s)
          | inr buffer =>
              if nodemem then udp_send family l (udp_node family buffer n ipstr port) s
              else Some (posix__makeerror ENOMEM, l, s)
          end
  | _, _ => Some (posix__makeerror EINVAL, l, s)
  end.

(** ** The other calls *)
Context (setsockopt : Z -> Z -> Z -> list Z -> K -> answer * K)
  (sys_shutdown : Z -> Z -> K -> answer * K).

(** The data read, the address as text and the port. *)
Definition udp_read l (h : Z) (data : bool) (size : Z) s : Z * option (list Z * list Z * Z) * os K :=
  if (h <? 0) || negb data || (size <=? 0) then (posix__makeerror EINVAL, None, s)
  else if negb (NSP_SUCCESS (_udprefr h l)) then (_udprefr h l, None, s)
  else if nonblock (ncb_getattr_r (cb l)) then (posix__makeerror EINVAL, None, s)
  else
    let '(status, s) := ncb_recvdata recvmsg (cb l) data size s in
    let '(bytes, remote) := received (kern s) in
    if negb (NSP_SUCCESS status) then (status, None, s)
    else
      let '(addr, port) := match remote with Inet x => x | Domain _ => (0, 0) end in
      (status, Some (bytes, inet_ntop addr, htons port), s).

Definition udp_getaddr u (h : Z) : Z * option (Z * Z) :=
  if negb (NSP_SUCCESS (_udprefr h (link u))) then (_udprefr h (link u), None)
  else if AF_UNIX =? sin_family u then (posix__makeerror EPROTOTYPE, None)
  else (NSP_STATUS_SUCCESSFUL, Some (htonl (sin_addr u), htons (sin_port u))).

Definition udp_getipcpath u (h : Z) (path : bool) : Z * option (list Z) :=
  if negb (NSP_SUCCESS (_udprefr h (link u))) then (_udprefr h (link u), None)
  else if (AF_UNIX =? sin_family u) && path then (NSP_STATUS_SUCCESSFUL, Some (sun_path u))
  else (posix__makeerror EINVAL, None).

Definition udp_setopt l (h level opt : Z) (val : list Z) s : Z * os K :=
  if negb (NSP_SUCCESS (_udprefr h l)) then (_udprefr h l, s)
  else
    let '(r, s) := syscall (setsockopt (sockfd (cb l)) level opt val) s in
    (if r =? -1 then posix__makeerror (errno s) else NSP_STATUS_SUCCESSFUL, s).

Definition SOL_SOCKET : Z := 1.
Definition SO_BROADCAST : Z := 6.
Definition IPPROTO_IP : Z := 0.
Definition IP_MULTICAST_LOOP : Z := 34.
Definition IP_ADD_MEMBERSHIP : Z := 35.
Definition IP_DROP_MEMBERSHIP : Z := 36.
Definition udp_set_boardcast l (enable : Z) s : Z * os K :=
  let '(r, s) := syscall (setsockopt (sockfd (cb l)) SOL_SOCKET SO_BROADCAST (le_bytes 4 enable)) s in
  (if 0 =? r then NSP_STATUS_SUCCESSFUL else posix__makeerror (errno s), s).

Definition multicast l : bool := negb (Z.land (attr (cb l)) UDP_FLAG_MULTICAST =? 0).
Definition mreq_bytes (m : Z * Z) : list Z := le_bytes 4 m.1 ++ le_bytes 4 m.2.

(** [mem]: whether the request can be allocated. *)
Definition udp_joingrp u (h : Z) (ipstr : option (list Z)) (port : Z) (mem : bool) s : Z * udp_t * os K :=
  match ipstr with
  | None => (- EINVAL, u, s)
  | Some ipstr =>
      if (h <? 0) || (0 =? port) then (- EINVAL, u, s)
      else if negb (NSP_SUCCESS (_udprefr h (link u))) then (_udprefr h (link u), u, s)
      else if negb (multicast (link u)) then (NSP_STATUS_FATAL, u, s)
      else
        let fd := sockfd (cb (link u)) in
        let '(r, s) := syscall (setsockopt fd IPPROTO_IP IP_MULTICAST_LOOP (le_bytes 4 1)) s in
        if r =? -1 then (posix__makeerror (errno s), u, s)
        else if bool_decide (mreq u = None) && negb mem then (posix__makeerror ENOMEM, u, s)
        else
          let m := (inet_addr ipstr, sin_addr u) in
          let u := set_mreq (Some m) u in
          let '(r, s) := syscall (setsockopt fd IPPROTO_IP IP_ADD_MEMBERSHIP (mreq_bytes m)) s in
          (if r =? -1 then posix__makeerror (errno s) else NSP_STATUS_SUCCESSFUL, u, s)
  end.

Definition udp_dropgrp u (h : Z) s : Z * os K :=
  if negb (NSP_SUCCESS (_udprefr h (link u))) then (_udprefr h (link u), s)
  else
    match mreq u, multicast (link u) with
    | Some m, true =>
        let fd := sockfd (cb (link u)) in
        let '(r, s) := syscall (setsockopt fd IPPROTO_IP IP_MULTICAST_LOOP (le_bytes 4 0)) s in
        if r =? -1 then (posix__makeerror (errno s), s)
        else
          let '(r, s) := syscall (setsockopt fd IPPROTO_IP IP_DROP_MEMBERSHIP (mreq_bytes m)) s in
          (if r =? -1 then posix__makeerror (errno s) else NSP_STATUS_SUCCESSFUL, s)
    | _, _ => (NSP_STATUS_FATAL, s)
    end.

(** Shutting down both ways; the epoll thread closes the link then. *)
Definition udp_destroy l (h : Z) s : os K :=
  if NSP_SUCCESS (_udprefr h l) then (syscall (sys_shutdown (sockfd (cb l)) 2) s).2 else s.

(** The kernel gives the value of an option, of at most the length asked for. *)
Definition udp_getopt (getsockopt : Z -> Z -> Z -> Z -> K -> (list Z + Z) * K) l (h level opt len : Z) s : Z * option (list Z) * os K :=
  if negb (NSP_SUCCESS (_udprefr h l)) then (_udprefr h l, None, s)
  else
    match getsockopt (sockfd (cb l)) level opt len (kern s) with
    | (inl val, k) => (NSP_STATUS_SUCCESSFUL, Some val, Os k (errno s))
    | (inr e, k) => (posix__makeerror e, None, Os k e)
    end.

Definition udp_get_boardcast (getsockopt : Z -> Z -> Z -> Z -> K -> (list Z + Z) * K) l s : Z * option (list Z) * os K :=
  match getsockopt (sockfd (cb l)) SOL_SOCKET SO_BROADCAST 4 (kern s) with
  | (inl val, k) => (NSP_STATUS_SUCCESSFUL, Some val, Os k (errno s))
  | (inr e, k) => (posix__makeerror e, None, Os k e)
  end.

(** [sys_write], [pool] and [mem] as in [pipe_write_message]. *)
Definition udp_awaken (sys_write : Z -> list Z -> K -> answer * K) (pool : option (list Z)) l (h : Z) (pipedata : option (list Z)) (n : Z)
    (mem : option (list Z)) s : option (Z * os K) :=
  if (h <? 0) || bool_decide (pipedata = None) || (0 =? n) then Some (posix__makeerror EINVAL, s)
  else if negb (NSP_SUCCESS (_udprefr h l)) then Some (_udprefr h l, s)
  else pipe_write_message sys_write pool (cb l) pipedata n mem s.

(** The old attributes are what [ncb_setattr_r] gives, an error included. *)
Definition udp_setattr_r (getfl : Z -> K -> answer * K) (setfl : Z -> Z -> K -> answer * K) l (a : Z) s : link_t * os K :=
  let '(oldattr, c, s) := ncb_setattr_r getfl setfl (cb l) a s in
  let l := Link c (protocol l) (fifo l) (builder_ l) (cb_ l) (closing l) in
  let before := negb (Z.land oldattr UDP_FLAG_BROADCAST =? 0) in
  let now := negb (Z.land (attr c) UDP_FLAG_BROADCAST =? 0) in
  let s := if negb before && now then (udp_set_boardcast l 1 s).2 else s in
  (l, if before && negb now then (udp_set_boardcast l 0 s).2 else s).

(** [mem] is what zmalloc gives. *)
Definition udp_allocate_rx_buffer (mem : option (list Z)) (c : ncb_t) : Z * ncb_t :=
  match rx_buffer c, mem with
  | None, None => (posix__makeerror ENOMEM, c)
  | Some b, _ | None, Some b => (NSP_STATUS_SUCCESSFUL, Ncb (hld c) (sockfd c) (attr c) (callback c) (context c) (Some b) MAX_UDP_UNIT)
  end.

(** ** What the kernel does with datagrams

    [wire k] is whatever the kernel keeps of what was sent to it; epoll sends nothing.
    [inbox k] are the datagrams it has for the link: FIONREAD gives the size of the first
    of them, or 0 (udp(7)), and takes none off.  sendmsg(2) and recvmsg(2) are any
    functions at all. *)
Class Quiet {W} (wire : K -> W) : Prop := epoll_wire events k : wire (epoll_mod events k).2 = wire k.
Class Inbox (inbox : K -> list (sockaddr * list Z)) : Prop :=
  fionread_spec fd k : exists k', fionread fd k = (Ret (match inbox k with [] => 0 | d :: _ => zlen d.2 end), k') /\ inbox k' = inbox k.

(** ** Receiving *)

(** A link with its buffer. *)
Definition rx_ready l : Prop := is_Some (rx_buffer (cb l)) /\ 0 < rx_buffer_size (cb l).

Lemma recvdata_refused l s : rx_ready l -> ncb_recvdata recvmsg (cb l) false 0 s = (- EINVAL, s).
Proof.
  intros [Hb Hs]. unfold ncb_recvdata. rewrite (bool_decide_true _ Hb). cbn [andb orb negb].
  by rewrite (proj2 (Z.leb_gt (rx_buffer_size (cb l)) 0)) by done.
Qed.

Lemma udp_rx_refused family l posted s : rx_ready l ->
  (if AF_UNIX =? family then _udp_rx_domain l posted s else _udp_rx l posted s) = Some (- EINVAL, posted, s).
Proof.
  intros Hl. unfold _udp_rx_domain, _udp_rx. rewrite recvdata_refused by done.
  destruct (received (kern s)). by destruct (AF_UNIX =? family).
Qed.

Section Receive.
Context (inbox : K -> list (sockaddr * list Z)) `{!Inbox inbox} (arrive : list (sockaddr * list Z) -> K -> K)
  (Harrive : forall b k, inbox (arrive b k) = inbox k ++ b).

(** Whether the first datagram has bytes. *)
Definition first_filled (q : list (sockaddr * list Z)) : bool := match q with [] => false | d :: _ => bool_decide (d.2 <> []) end.

Lemma on_readable_spec fuel family l posted s : rx_ready l -> (0 < fuel)%nat ->
  exists s', on_readable fuel family l posted s = Some (if first_filled (inbox (kern s)) then objclos l else l, posted, s') /\
    inbox (kern s') = inbox (kern s).
Proof.
  intros Hl Hf. destruct fuel as [|fuel]; [lia |]. unfold on_readable. cbn [udp_rx].
  destruct (fionread_spec (sockfd (cb l)) (kern s)) as (k & -> & Hk). exists (Os k (errno s)).
  destruct (inbox (kern s)) as [|[from d] q]; cbn [first_filled snd]; [done |].
  case_bool_decide as Hd.
  - pose proof (zlen_pos d Hd). rewrite (proj2 (Z.eqb_neq (zlen d) 0)) by lia. by rewrite udp_rx_refused by done.
  - by subst d.
Qed.

(** Datagrams arrive, and the epoll thread is told, again and again; a closed link is not
    found any more. *)
Fixpoint receive (fuel : nat) (family : Z) (batches : list (list (sockaddr * list Z))) l (posted : list packet) s : option (link_t * list packet * os K) :=
  match batches with
  | [] => Some (l, posted, s)
  | b :: batches =>
      let s := Os (arrive b (kern s)) (errno s) in
      '(l, posted, s) ← (if closing l then Some (l, posted, s) else on_readable fuel family l posted s);
      receive fuel family batches l posted s
  end.

Lemma receive_spec fuel family batches : (0 < fuel)%nat -> forall l posted s, rx_ready l ->
  (closing l = false -> first_filled (inbox (kern s)) = false) ->
  exists l' s', receive fuel family batches l posted s = Some (l', posted, s') /\
    inbox (kern s') = inbox (kern s) ++ concat batches /\
    closing l' = closing l || first_filled (inbox (kern s) ++ concat batches).
Proof.
  intros Hf. induction batches as [|b batches IH]; intros l posted s Hl Hff; cbn [receive concat].
  { exists l, s. rewrite app_nil_r. split; [done |]. split; [done |]. destruct (closing l); [done |]. by rewrite Hff. }
  rewrite app_assoc, <- Harrive. destruct (closing l) eqn:Ec; cbn [orb].
  { cbn [mbind option_bind]. destruct (IH l posted (Os (arrive b (kern s)) (errno s)) Hl) as (l' & s' & E & H1 & H2); [by rewrite Ec |].
    exists l', s'. by rewrite Ec in H2. }
  destruct (on_readable_spec fuel family l posted (Os (arrive b (kern s)) (errno s)) Hl Hf) as (s1 & -> & H1). cbn [mbind option_bind kern] in *.
  rewrite <- H1. destruct (first_filled (inbox (kern s1))) eqn:Ef.
  - destruct (IH (objclos l) posted s1 Hl) as (l' & s' & E & H2 & H3); [done |]. exists l', s'. rewrite H3. split; [done |]. split; [done |].
    cbn. destruct (inbox (kern s1)); [discriminate | done].
  - destruct (IH l posted s1 Hl) as (l' & s' & E & H2 & H3); [done |]. exists l', s'. by rewrite Ec in H3.
Qed.

(** C17: an open link with its receive buffer is deaf.  Whatever datagrams arrive in whatever
    batches, the callback is told of none, and all of them stay with the kernel: the guard
    of [ncb_recvdata] refuses the call.  The link is closed as soon as the first datagram
    that ever arrives has bytes; when that one is empty it stays open forever. *)
Theorem udp_receives_nothing fuel family batches l posted s : rx_ready l -> closing l = false -> inbox (kern s) = [] -> (0 < fuel)%nat ->
  exists l' s', receive fuel family batches l posted s = Some (l', posted, s') /\
    inbox (kern s') = concat batches /\ closing l' = first_filled (concat batches).
Proof.
  intros Hl Hc Hi Hf. destruct (receive_spec fuel family batches Hf l posted s Hl) as (l' & s' & E & H1 & H2); [by rewrite Hi |].
  rewrite Hi, Hc in *. by exists l', s'.
Qed.
End Receive.

(** ** Sending *)
Section Send.
Context {W : Type} (wire : K -> W) `{!Quiet wire} (family : Z) (Hfam : family = AF_INET \/ family = AF_UNIX).

(** A node as [udp_write] makes it. *)
Definition fresh_node (node : tx_node) : Prop := offset node = 0 /\ wcb node = zlen (data node) /\ data node <> [].

(** A datagram is refused, and errno gives the status. *)
Lemma udp_txn_spec l node s : fresh_node node -> udp_txn family l node s = Some (posix__makeerror (errno s), node, s).
Proof.
  intros (Ho & Hw & Hd). pose proof (zlen_pos _ Hd) as Hl.
  assert (forall target, tcp_txn (sendmsg target) l node s = Some (posix__makeerror (errno s), node, s)) as E.
  { intros target. rewrite tcp_txn_spec by (split; [done | lia]). unfold txn_status. by rewrite (proj2 (Z.ltb_lt _ _)) by lia. }
  unfold udp_txn, node_target. destruct Hfam as [-> | ->]; apply E.
Qed.

Lemma io_modify_wire mask s : wire (kern (io_modify epoll_mod mask s).2) = wire (kern s).
Proof.
  unfold io_modify, syscall. pose proof (epoll_wire (Z.lor (Z.lor (Z.lor (Z.lor EPOLLET EPOLLRDHUP) EPOLLHUP) EPOLLERR) mask) (kern s)) as H.
  destruct (epoll_mod _ (kern s)) as [[n|e] k]; cbn [snd] in H; [destruct (n <? 0) | ]; done.
Qed.

(** The front is taken off; errno is kept while something is left. *)
Lemma pop_head l node q s : head (fifo l) = node :: q -> size (fifo l) = zlen (head (fifo l)) ->
  exists l' s', fifo_pop epoll_mod l s = (NSP_STATUS_SUCCESSFUL, Some node, l', s') /\ head (fifo l') = q /\
    size (fifo l') = zlen q /\ wire (kern s') = wire (kern s) /\ cb l' = cb l /\ closing l' = closing l /\
    (q <> [] -> s' = s).
Proof.
  intros E Hs. unfold fifo_pop, fifo_pop_locked. rewrite E in *. rewrite zlen_cons in Hs.
  destruct (Z.eqb_spec 0 (size (fifo l) - 1)) as [H0 | H0]; [destruct (tx_overflow (fifo l)) |]; cbn [andb];
    do 2 eexists; (split; [reflexivity |]); cbn [set_fifo fifo head size cb closing]; (split; [done |]); (split; [lia |]);
    (split; [by rewrite ?io_modify_wire |]); do 2 (split; [done |]); intros Hq%zlen_pos; (done || lia).
Qed.

Lemma pop_empty l s : head (fifo l) = [] -> fifo_pop epoll_mod l s = (posix__makeerror ENOENT, None, l, s).
Proof. intros E. unfold fifo_pop, fifo_pop_locked. by rewrite E. Qed.

Lemma udp_tx_head l s : udp_tx family l s =
  match head (fifo l) with
  | [] => Some (posix__makeerror ENOENT, l, s)
  | node :: _ =>
      '(status, node, s) ← udp_txn family l node s;
      let l := set_front node l in
      if NSP_SUCCESS status then let '(status, _, l, s) := fifo_pop epoll_mod l s in Some (status, l, s)
      else Some (status, l, s)
  end.
Proof. unfold udp_tx, fifo_top. by destruct (head (fifo l)). Qed.

Lemma queue_head node l s : exists st l' s', fifo_queue epoll_mod node l s = (st, l', s') /\ wire (kern s') = wire (kern s) /\
  (0 <= st /\ head (fifo l') = head (fifo l) ++ [node] /\ cb l' = cb l /\ closing l' = closing l \/ st < 0 /\ l' = l).
Proof.
  unfold fifo_queue. destruct (MAXIMUM_FIFO_SIZE <=? size (fifo l)).
  { do 3 eexists. split; [reflexivity |]. split; [done |]. by right. }
  destruct (tx_overflow (fifo l)).
  { do 3 eexists. split; [reflexivity |]. split; [done |]. by left. }
  pose proof (io_modify_wire (Z.lor EPOLLIN EPOLLOUT) s) as Hw.
  destruct (io_modify epoll_mod (Z.lor EPOLLIN EPOLLOUT) s) as [st s1]. cbn [snd] in Hw. destruct (NSP_SUCCESS st) eqn:Es.
  - do 3 eexists. split; [reflexivity |]. split; [done |]. left. split; [by apply Z.leb_le |]. done.
  - do 3 eexists. split; [reflexivity |]. split; [done |]. right. split; [by apply Z.leb_gt | done].
Qed.

(** Every call of [udp_write] on memory that is there returns, and sends nothing.  Either
    the link is as it was: the call fails, or the caller is told of success while errno
    was 0 and the datagram is gone; or the datagram of the buffer, with the target that
    the address text and the port give, is queued behind the others, which takes a queue
    that overflows already or an errno of EAGAIN left behind by an earlier call. *)
Theorem udp_write_outcome l h origin n ip port serializer alloc nodemem s : alloc_ok alloc -> serializer_ok serializer ->
  (forall bytes, origin = Some bytes -> n <= zlen bytes) -> ip <> Some [] -> 0 <= errno s < 4096 ->
  exists st l' s', udp_write family l h origin n ip port serializer alloc nodemem s = Some (st, l', s') /\ wire (kern s') = wire (kern s) /\
    (l' = l /\ (st < 0 \/ st = NSP_STATUS_SUCCESSFUL /\ errno s = 0 /\ fifo_tx_overflow l = false) \/
     exists bytes text buffer, origin = Some bytes /\ ip = Some text /\ udp_build alloc bytes n serializer = Some (inr buffer) /\
       0 <= st /\ head (fifo l') = head (fifo l) ++ [udp_node family buffer n text port] /\ cb l' = cb l /\ closing l' = closing l /\
       (fifo_tx_overflow l = true \/ errno s = EAGAIN)).
Proof.
  intros Ha Hser Hn Hip He. unfold udp_write.
  match goal with |- exists st l' s', _ /\ _ /\ (_ \/ @?P st l') => set (queued := P) end.
  assert (forall st, st < 0 -> exists st' l' s', Some (st, l, s) = Some (st', l', s') /\ wire (kern s') = wire (kern s) /\
    (l' = l /\ (st' < 0 \/ st' = NSP_STATUS_SUCCESSFUL /\ errno s = 0 /\ fifo_tx_overflow l = false) \/ queued st' l')) as Hfail.
  { intros st Hst. do 3 eexists. split; [reflexivity |]. split; [done |]. left. auto. }
  destruct ip as [text|]; [|by apply Hfail]. destruct origin as [bytes|]; [|by apply Hfail].
  destruct (Z.leb_spec n 0); [by apply Hfail |]. destruct (h <? 0); [by apply Hfail |]. destruct (MAX_UDP_UNIT <? n); [by apply Hfail |]. cbn [orb].
  destruct text as [|c text]; [done |]. cbn [lookup list_lookup mbind option_bind]. destruct (0 =? c); [by apply Hfail |].
  destruct (NSP_SUCCESS (_udprefr h l)) eqn:Er; cbn [negb]; [|apply Hfail; by apply Z.leb_gt]. destruct (_ && _); [by apply Hfail |].
  assert (exists r, udp_build alloc bytes n serializer = Some r /\ match r with inl st => st < 0 | inr buffer => zlen buffer = n end) as (r & Eb & Hr).
  { unfold udp_build. destruct (alloc n) as [b|] eqn:Eb; [|by eexists]. apply Ha in Eb. destruct serializer as [f|].
    - pose proof (Hser f eq_refl b bytes n) as Hf. destruct (f b bytes n) as [st b']. cbn [snd] in Hf. eexists. split; [reflexivity |].
      destruct (st <? 0); [done | congruence].
    - specialize (Hn bytes eq_refl). destruct (memread_some bytes 0 n) as (body & -> & Hl & _); [lia.. |]. cbn [mbind option_bind].
      destruct (memcpy_at_some b body 0) as [b' E]; [lia | lia |]. rewrite E. cbn [mbind option_bind]. eexists. split; [reflexivity |].
      apply memcpy_at_len in E. congruence. }
  rewrite Eb. cbn [mbind option_bind]. destruct r as [st|buffer]; [by apply Hfail |]. destruct nodemem; [|by apply Hfail].
  assert (fresh_node (udp_node family buffer n (c :: text) port)) as Hfresh.
  { unfold udp_node. assert (buffer <> []) by (intros ->; rewrite zlen_nil in Hr; lia). by destruct (AF_UNIX =? family). }
  assert (fifo_tx_overflow l = true \/ errno s = EAGAIN -> exists st l' s',
    Some (fifo_queue epoll_mod (udp_node family buffer n (c :: text) port) l s) = Some (st, l', s') /\ wire (kern s') = wire (kern s) /\
    (l' = l /\ (st < 0 \/ st = NSP_STATUS_SUCCESSFUL /\ errno s = 0 /\ fifo_tx_overflow l = false) \/ queued st l')) as Hqueue.
  { intros Hwhy. destruct (queue_head (udp_node family buffer n (c :: text) port) l s) as (st & l1 & s1 & -> & Hw & Hq).
    do 3 eexists. split; [reflexivity |]. split; [done |]. destruct Hq as [(H1 & H2 & H3 & H4) | [H1 ->]]; [right | left; auto].
    exists bytes, (c :: text), buffer. by repeat (split; [done |]). }
  unfold udp_send. destruct (fifo_tx_overflow l) eqn:Eo; cbn [negb]; [apply Hqueue; auto |].
  rewrite udp_txn_spec by done. cbn [mbind option_bind]. destruct (decide (errno s = 0)) as [E0 | E0].
  { rewrite E0. do 3 eexists. split; [reflexivity |]. split; [done |]. left. auto. }
  rewrite makeerror_is by lia. destruct (Z.eqb_spec (errno s) EAGAIN) as [Ea | Ea]; cbn [negb]; [apply Hqueue; auto |].
  apply Hfail. rewrite makeerror_pos by lia. lia.
Qed.

(** One task: with errno 0 the refused datagram counts as sent, [udp_tx] takes it off and
    [_wp_exec] takes off the next. *)
Lemma udp_exec_drops node q l ts s : head (fifo l) = node :: q -> size (fifo l) = zlen (head (fifo l)) -> fresh_node node ->
  closing l = false -> errno s = 0 ->
  exists st l' s', _wp_exec epoll_mod (udp_tx family) (Task (hld (cb l))) l ts s =
      Some (st, l', if bool_decide (q = []) then ts else ts ++ [Task (hld (cb l))], s') /\
    head (fifo l') = tail q /\ size (fifo l') = zlen (tail q) /\ closing l' = false /\ cb l' = cb l /\ wire (kern s') = wire (kern s) /\
    (tail q <> [] -> errno s' = 0).
Proof.
  intros Eq Hs Hn Hc He. unfold _wp_exec. cbn [t_hld]. rewrite Z.eqb_refl, Hc. cbn [negb orb].
  rewrite udp_tx_head, Eq, udp_txn_spec, He by done. cbn [mbind option_bind]. change (NSP_SUCCESS (posix__makeerror 0)) with true. cbv iota.
  rewrite (set_front_same l node q Eq).
  destruct (pop_head l node q s Eq Hs) as (l1 & s1 & -> & Hh1 & Hs1 & Hw1 & Hcb1 & Hc1 & Hsame1).
  change (NSP_SUCCESS NSP_STATUS_SUCCESSFUL) with true. cbn [mbind option_bind negb].
  change (NSP_SUCCESS NSP_STATUS_SUCCESSFUL) with true. cbn [negb]. destruct q as [|x q].
  - rewrite (pop_empty l1 s1 Hh1). do 3 eexists. split; [reflexivity |]. cbn [tail]. by rewrite Hc1.
  - destruct (pop_head l1 x q s1 Hh1) as (l2 & s2 & -> & Hh2 & Hs2 & Hw2 & Hcb2 & Hc2 & Hsame2); [by rewrite Hs1, Hh1 |].
    do 3 eexists. split; [reflexivity |]. cbn [tail]. rewrite Hc2, Hc1, Hcb2, Hcb1, Hw2, Hw1. repeat (split; [done |]).
    intros Hq. by rewrite (Hsame2 Hq), (Hsame1 ltac:(done)).
Qed.

Lemma udp_writer_drops fuel : forall l s, Forall fresh_node (head (fifo l)) -> size (fifo l) = zlen (head (fifo l)) ->
  closing l = false -> head (fifo l) <> [] -> errno s = 0 -> (length (head (fifo l)) < fuel)%nat ->
  exists l' s', _wp_run epoll_mod (udp_tx family) fuel l [Task (hld (cb l))] s = Some (l', s') /\
    head (fifo l') = [] /\ closing l' = false /\ wire (kern s') = wire (kern s).
Proof.
  induction fuel as [|fuel IH]; intros l s Hq Hs Hc Hne He Hf; [lia |].
  destruct (head (fifo l)) as [|node q] eqn:Eq; [done |]. apply Forall_cons in Hq as [Hn Hq]. cbn [_wp_run _wp_get_task].
  destruct (udp_exec_drops node q l [] s Eq ltac:(by rewrite Eq) Hn Hc He) as (st & l1 & s1 & -> & Hh & Hs1 & Hc1 & Hcb1 & Hw & He1).
  cbn [mbind option_bind]. destruct q as [|x q]; cbn [tail] in *.
  - rewrite bool_decide_true by done. destruct fuel; cbn; by eauto 6.
  - rewrite bool_decide_false by done. cbn [app]. apply Forall_cons in Hq as [_ Hq]. rewrite <- Hcb1.
    destruct (decide (q = [])) as [-> | Hq0].
    + destruct fuel as [|fuel]; [cbn in Hf; lia |]. cbn [_wp_run _wp_get_task]. unfold _wp_exec. cbn [t_hld]. rewrite Z.eqb_refl, Hc1. cbn [negb orb].
      rewrite udp_tx_head, Hh. cbn [mbind option_bind]. change (NSP_SUCCESS (posix__makeerror ENOENT)) with false. cbn [negb].
      change (NSP_FAILED_AND_ERROR_EQUAL (posix__makeerror ENOENT) ENOENT) with true. rewrite orb_true_r. cbn [mbind option_bind].
      destruct fuel; cbn; by eauto 6.
    + destruct (IH l1 s1) as (l' & s' & -> & H1 & H2 & H3); rewrite ?Hh; auto; [cbn in Hf; lia |].
      exists l', s'. by rewrite H3.
Qed.

(** C15: the work of the pool when EPOLLOUT is reported for a link with datagrams in its queue:
    none is ever sent.  When the errno of the writer thread is 0, every datagram is taken
    for sent and dropped, two for each task: [udp_tx] and then [_wp_exec] take one off.
    When it is EAGAIN all stay queued; any other value but ENOENT closes the link. *)
Theorem udp_writer_outcome l s fuel : Forall fresh_node (head (fifo l)) -> size (fifo l) = zlen (head (fifo l)) ->
  closing l = false -> head (fifo l) <> [] -> 0 <= errno s < 4096 -> (length (head (fifo l)) < fuel)%nat ->
  exists l' s', _wp_run epoll_mod (udp_tx family) fuel l [Task (hld (cb l))] s = Some (l', s') /\ wire (kern s') = wire (kern s) /\
    (errno s = 0 -> head (fifo l') = [] /\ closing l' = false /\
       exists st l1 ts s1, _wp_exec epoll_mod (udp_tx family) (Task (hld (cb l))) l [] s = Some (st, l1, ts, s1) /\
         head (fifo l1) = drop 2 (head (fifo l))) /\
    (errno s = EAGAIN -> l' = l) /\
    (errno s <> 0 -> errno s <> EAGAIN -> errno s <> ENOENT -> l' = objclos l).
Proof.
  intros Hq Hs Hc Hne He Hf. destruct (head (fifo l)) as [|node q] eqn:Eq; [done |]. pose proof Hq as Hq0. apply Forall_cons in Hq as [Hn _].
  destruct (decide (errno s = 0)) as [E0 | E0].
  { destruct (udp_writer_drops fuel l s) as (l' & s' & -> & H1 & H2 & H3); rewrite ?Eq; try done.
    destruct (udp_exec_drops node q l [] s Eq ltac:(by rewrite Eq) Hn Hc E0) as (st & l1 & s1 & E1 & Hh & _).
    exists l', s'. split; [done |]. split; [done |]. rewrite E0. split; [|split; [discriminate | done]].
    intros _. split; [done |]. split; [done |]. do 4 eexists. split; [exact E1 |]. rewrite Hh. by destruct q. }
  destruct fuel as [|fuel]; [lia |]. cbn [_wp_run _wp_get_task]. unfold _wp_exec. cbn [t_hld]. rewrite Z.eqb_refl, Hc. cbn [negb orb].
  rewrite udp_tx_head, Eq, udp_txn_spec by done. cbn [mbind option_bind]. rewrite (set_front_same l node q Eq).
  assert (NSP_SUCCESS (posix__makeerror (errno s)) = false) as ->.
  { rewrite makeerror_pos by lia. apply Z.leb_gt. lia. }
  cbn [mbind option_bind]. assert (NSP_SUCCESS (posix__makeerror (errno s)) = false) as ->.
  { rewrite makeerror_pos by lia. apply Z.leb_gt. lia. }
  cbn [negb]. rewrite !makeerror_is by lia.
  assert (forall l1, _wp_run epoll_mod (udp_tx family) fuel l1 [] s = Some (l1, s)) as Hend by (by destruct fuel).
  destruct (Z.eqb_spec (errno s) EAGAIN) as [-> | Ha]; [|destruct (Z.eqb_spec (errno s) ENOENT) as [-> | Hno]]; cbn [orb mbind option_bind];
    rewrite Hend; do 2 eexists; (split; [reflexivity |]); by repeat (split; [done |]).
Qed.
End Send.
End Udp.

(** ** A network to run it on

    [room] datagrams are taken before sendmsg would block. *)
Record demo_wire := Wire { wired : list (sockaddr * list Z); inbox : list (sockaddr * list Z); room : nat; last : list Z * sockaddr }.
Definition wire_send (target : sockaddr) (fd : Z) (dontwait : bool) (bytes : list Z) (k : demo_wire) : answer * demo_wire :=
  match room k with
  | O => (Err EAGAIN, k)
  | S n => (Ret (zlen bytes), Wire (wired k ++ [(target, bytes)]) (inbox k) n (last k))
  end.
Definition wire_recv (fd : Z) (dontwait : bool) (len : Z) (k : demo_wire) : answer * demo_wire :=
  match inbox k with
  | [] => (Err EAGAIN, k)
  | (from, d) :: q => let d' := take (Z.to_nat len) d in (Ret (zlen d'), Wire (wired k) q (room k) (d', from))
  end.
Definition wire_avail (fd : Z) (k : demo_wire) : answer * demo_wire := (Ret (match inbox k with [] => 0 | d :: _ => zlen d.2 end), k).
Definition wire_epoll (events : Z) (k : demo_wire) : answer * demo_wire := (Ret 0, k).
Definition wire_arrive (b : list (sockaddr * list Z)) (k : demo_wire) : demo_wire := Wire (wired k) (inbox k ++ b) (room k) (last k).
#[local] Instance wire_quiet : Quiet wire_epoll wired.
Proof. done. Qed.
#[local] Instance wire_inbox : Inbox wire_avail inbox.
Proof. intros fd k. by exists k. Qed.

Definition demo_link (q : list tx_node) : link_t :=
  Link (Ncb 7 5 LINKATTR_NONBLOCK (Some 1) None (Some (replicate 4 0)) 4) IPPROTO_UDP (Fifo (negb (bool_decide (q = []))) (zlen q) q) None 0 false.
Definition demo_node (x : Z) : tx_node := Node [x] 1 0 (1, 2) [].
Definition demo_ntop (x : Z) : list Z := [x].

(** Five datagrams are queued and there is room for all of them. *)
Lemma udp_writer_outcome_witness : exists l' s',
  _wp_run wire_epoll (udp_tx wire_send wire_epoll AF_INET) 6 (demo_link (map demo_node [1; 2; 3; 4; 5])) [Task 7]
    (Os (Wire [] [] 9 ([], Domain [])) 0) = Some (l', s') /\ wired (kern s') = [] /\ head (fifo l') = [] /\ closing l' = false.
Proof.
  destruct (udp_writer_outcome wire_send wire_epoll wired AF_INET (or_introl eq_refl)
    (demo_link (map demo_node [1; 2; 3; 4; 5])) (Os (Wire [] [] 9 ([], Domain [])) 0) 6) as (l' & s' & E & Hw & H0 & _).
  - by repeat (constructor; [by repeat (split; [reflexivity |]) |]).
  - reflexivity.
  - reflexivity.
  - discriminate.
  - cbn. lia.
  - cbn. lia.
  - exists l', s'. split; [exact E |]. split; [exact Hw |]. split; [exact (proj1 (H0 eq_refl)) | exact (proj1 (proj2 (H0 eq_refl)))].
Defined.

(** Six bytes arrive and an empty datagram, then one more byte: the link is closed. *)
Lemma udp_receives_nothing_witness : exists l' s',
  receive wire_recv last wire_avail demo_ntop wire_arrive 1 AF_INET
    [[(Inet (1, 2), [1; 2; 3; 4; 5; 6]); (Inet (3, 4), [])]; [(Inet (5, 6), [7])]] (demo_link []) [] (Os (Wire [] [] 9 ([], Domain [])) 0)
  = Some (l', [], s') /\ length (inbox (kern s')) = 3%nat /\ closing l' = true.
Proof.
  destruct (udp_receives_nothing wire_recv last wire_avail demo_ntop inbox wire_arrive (fun b k => eq_refl) 1 AF_INET
    [[(Inet (1, 2), [1; 2; 3; 4; 5; 6]); (Inet (3, 4), [])]; [(Inet (5, 6), [7])]] (demo_link []) [] (Os (Wire [] [] 9 ([], Domain [])) 0))
    as (l' & s' & E & Hi & Hc).
  - split; [by eexists | reflexivity].
  - reflexivity.
  - reflexivity.
  - lia.
  - exists l', s'. split; [exact E |]. rewrite Hi. by split.
Defined.

(** "h" for the address; errno is EAGAIN, so the datagram is queued. *)
Lemma udp_write_outcome_witness : exists st l' s',
  udp_write wire_send wire_epoll (fun _ => 3) AF_INET (demo_link []) 7 (Some [8; 9]) 2 (Some [104; 0]) 258 None demo_mem true
    (Os (Wire [] [] 5 ([], Domain [])) EAGAIN) = Some (st, l', s') /\
  st = 0 /\ head (fifo l') = [Node [8; 9] 2 0 (3, 513) []] /\ wired (kern s') = [].
Proof.
  destruct (udp_write_outcome wire_send wire_epoll (fun _ => 3) wired AF_INET (or_introl eq_refl) (demo_link []) 7
    (Some [8; 9]) 2 (Some [104; 0]) 258 None (fun n => if n <? 0 then None else demo_mem n) true (Os (Wire [] [] 5 ([], Domain [])) EAGAIN)) as (st & l' & s' & E & _).
  - intros n b. destruct (Z.ltb_spec n 0); [done |]. intros [= <-]. by apply zlen_replicate.
  - intros f. discriminate.
  - intros bytes [= <-]. by vm_compute.
  - discriminate.
  - by vm_compute.
  - vm_compute in E. injection E as <- <- <-. do 3 eexists. split; [vm_compute; reflexivity |]. by repeat (split; [reflexivity |]).
Defined.
