(* ===== verification/Links.v ===== *)
(** Links and what they ask of the system: the calls of src/posix/ncb.c and src/posix/io.c
    that set up, watch and close a link.

    A program runs on the table of links, errno and the system.  A link is named by its
    handle, where the sources have the pointer [objrefr] gave; [closing] is set by
    [objclos], and a closing link is not found any more.  What [Object] promises of handles
    is [objallo3] of the record [calls], the system calls and the allocator are its other
    fields.  A call that is repeated while a signal interrupts it is the repeated call. *)
From S2P Require Import Prelude TcpAl Ncb.
#[local] Open Scope monad_scope.

Definition AF_UNIX : Z := 1.
Definition AF_INET : Z := 2.
Definition SOCK_STREAM : Z := 1.
Definition SOCK_SEQPACKET : Z := 5.
Definition IPPROTO_TCP : Z := 6.
Definition SOL_SOCKET : Z := 1.
Definition SO_REUSEADDR : Z := 2.
Definition SO_ERROR : Z := 4.
Definition SO_SNDBUF : Z := 7.
Definition SO_RCVBUF : Z := 8.
Definition SO_LINGER : Z := 13.
Definition FD_CLOEXEC : Z := 1.
Definition SHUT_RDWR : Z := 2.
Definition EINTR : Z := 4.
Definition EBADF : Z := 9.
Definition EPROTOTYPE : Z := 91.
Definition EPOLLIN : Z := 0x001.
Definition EPOLLOUT : Z := 0x004.
Definition EPOLLERR : Z := 0x008.
Definition EPOLLHUP : Z := 0x010.
Definition EPOLLRDHUP : Z := 0x2000.
Definition EPOLLET : Z := 2 ^ 31.
Definition MINIMUM_RCVBUF : Z := 65535.
Definition MINIMUM_SNDBUF : Z := 8192.
Definition sizeof_sun_path : Z := 108.

Record sockaddr_in := In { sin_family : Z; sin_addr : Z; sin_port : Z }.
(** An address of the internet, or the path of a domain socket. *)
Inductive sockaddr := Inet (a : sockaddr_in) | Domain (path : list Z).
Inductive epoll_op := EPOLL_CTL_ADD | EPOLL_CTL_MOD | EPOLL_CTL_DEL.

(** The routines [ncb_read] and [ncb_write] point to. *)
Inductive ncb_rw := Tcp_syn | Tcp_rx | Tcp_tx | Tcp_tx_syn.
#[export] Instance ncb_rw_dec : EqDecision ncb_rw.
Proof. solve_decision. Defined.

(** [tst_t]; the routines by their addresses. *)
Record tst_t := Tst { parser_ : option Z; builder_ : option Z; cb_ : Z }.

(** [ncb] holds the fields of [Ncb]; [sun_path] is the text in [domain_addr]. *)
Record link_t := Link {
  ncb : ncb_t; protocol : Z; epfd : Z; rx_tid : Z;
  ncb_read : option ncb_rw; ncb_write : option ncb_rw;
  local_addr : sockaddr_in; remot_addr : sockaddr_in; sun_path : list Z;
  rx_parse_offset : Z; rx_parse_buffer : option (list Z);
  template : tst_t; prtemplate : tst_t; closing : bool;
}.

Definition set_ncb (x : ncb_t) (l : link_t) : link_t :=
  Link x (protocol l) (epfd l) (rx_tid l) (ncb_read l) (ncb_write l) (local_addr l) (remot_addr l) (sun_path l)
    (rx_parse_offset l) (rx_parse_buffer l) (template l) (prtemplate l) (closing l).
Definition set_epoll (fd tid : Z) (l : link_t) : link_t :=
  Link (ncb l) (protocol l) fd tid (ncb_read l) (ncb_write l) (local_addr l) (remot_addr l) (sun_path l)
    (rx_parse_offset l) (rx_parse_buffer l) (template l) (prtemplate l) (closing l).
Definition set_rw (r w : option ncb_rw) (l : link_t) : link_t :=
  Link (ncb l) (protocol l) (epfd l) (rx_tid l) r w (local_addr l) (remot_addr l) (sun_path l)
    (rx_parse_offset l) (rx_parse_buffer l) (template l) (prtemplate l) (closing l).
Definition set_addr (local remot : sockaddr_in) (path : list Z) (l : link_t) : link_t :=
  Link (ncb l) (protocol l) (epfd l) (rx_tid l) (ncb_read l) (ncb_write l) local remot path
    (rx_parse_offset l) (rx_parse_buffer l) (template l) (prtemplate l) (closing l).
Definition set_parse (o : Z) (b : option (list Z)) (l : link_t) : link_t :=
  Link (ncb l) (protocol l) (epfd l) (rx_tid l) (ncb_read l) (ncb_write l) (local_addr l) (remot_addr l) (sun_path l)
    o b (template l) (prtemplate l) (closing l).
Definition set_tst (t p : tst_t) (l : link_t) : link_t :=
  Link (ncb l) (protocol l) (epfd l) (rx_tid l) (ncb_read l) (ncb_write l) (local_addr l) (remot_addr l) (sun_path l)
    (rx_parse_offset l) (rx_parse_buffer l) t p (closing l).
Definition set_closing (l : link_t) : link_t :=
  Link (ncb l) (protocol l) (epfd l) (rx_tid l) (ncb_read l) (ncb_write l) (local_addr l) (remot_addr l) (sun_path l)
    (rx_parse_offset l) (rx_parse_buffer l) (template l) (prtemplate l) true.
Definition set_sockfd (fd : Z) (c : ncb_t) : ncb_t := Ncb (hld c) fd (attr c) (callback c) (context c) (rx_buffer c) (rx_buffer_size c).
Definition set_rx (b : option (list Z)) (n : Z) (c : ncb_t) : ncb_t := Ncb (hld c) (sockfd c) (attr c) (callback c) (context c) b n.

(** What [ncb_allocator] and the fields set behind it make of a new block. *)
Definition new_link (h proto fd : Z) (cb : option Z) : link_t :=
  Link (Ncb h fd 0 cb None None 0) proto 0 0 None None (In 0 0 0) (In 0 0 0) [] 0 None (Tst None None 0) (Tst None None 0) false.

(** ** The system

    A call with a result gives it or an errno number. *)
Record calls (K : Type) := Calls {
  sys_socket : Z -> Z -> Z -> K -> answer * K;
  sys_bind : Z -> sockaddr -> K -> answer * K;
  sys_connect : Z -> sockaddr -> K -> answer * K;
  sys_listen : Z -> Z -> K -> answer * K;
  sys_accept4 : Z -> K -> answer * K;
  getsockname : Z -> K -> (sockaddr_in + Z) * K;
  getpeername : Z -> K -> (sockaddr_in + Z) * K;
  setsockopt : Z -> Z -> Z -> list Z -> K -> answer * K;
  getsockopt : Z -> Z -> Z -> K -> (Z + Z) * K;
  getfl : Z -> K -> answer * K;
  setfl : Z -> Z -> K -> answer * K;
  getfd : Z -> K -> answer * K;
  setfd : Z -> Z -> K -> answer * K;
  epoll_ctl : Z -> epoll_op -> Z -> Z -> Z -> K -> answer * K;
  sys_shutdown : Z -> Z -> K -> answer * K;
  sys_close : Z -> K -> answer * K;
  sys_unlink : list Z -> K -> answer * K;
  ztrymalloc : Z -> K -> option (list Z) * K;
  objallo3 : gset Z -> K -> option Z * K;
  user : event -> K -> K;
}.
Arguments sys_socket {K}. Arguments sys_bind {K}. Arguments sys_connect {K}. Arguments sys_listen {K}.
Arguments sys_accept4 {K}. Arguments getsockname {K}. Arguments getpeername {K}. Arguments setsockopt {K}.
Arguments getsockopt {K}. Arguments getfl {K}. Arguments setfl {K}. Arguments getfd {K}. Arguments setfd {K}.
Arguments epoll_ctl {K}. Arguments sys_shutdown {K}. Arguments sys_close {K}. Arguments sys_unlink {K}.
Arguments ztrymalloc {K}. Arguments objallo3 {K}. Arguments user {K}.

Record world (K : Type) := World { links : gmap Z link_t; sys : os K }.
Arguments World {K}. Arguments links {K}. Arguments sys {K}.
Definition M (K A : Type) : Type := partial_state (world K) A.

Section Links.
Context {K : Type} (C : calls K).
(** The epoll threads of a protocol: their epoll descriptor and thread. *)
Context (pool : Z -> option (list (Z * Z))).

Definition the (h : Z) : M K link_t := fun w => l ← links w !! h; Some (l, w).
Definition upd (h : Z) (f : link_t -> link_t) : M K unit := fun w => l ← links w !! h; Some (tt, World (<[h := f l]> (links w)) (sys w)).
Definition call (f : K -> answer * K) : M K Z := fun w => let '(r, s) := syscall f (sys w) in Some (r, World (links w) s).
Definition get_errno : M K Z := fun w => Some (errno (sys w), w).
Definition query {A} (f : K -> (A + Z) * K) : M K (option A) := fun w =>
  match f (kern (sys w)) with
  | (inl x, k) => Some (Some x, World (links w) (Os k (errno (sys w))))
  | (inr e, k) => Some (None, World (links w) (Os k e))
  end.
Definition allocate (n : Z) : M K (option (list Z)) := fun w =>
  let '(b, k) := ztrymalloc C n (kern (sys w)) in Some (b, World (links w) (Os k (errno (sys w)))).
(** The status of a call that gives 0 on success. *)
Definition zero_success (r : Z) : M K Z := if 0 =? r then ret NSP_STATUS_SUCCESSFUL else e <- get_errno;; ret (posix__makeerror e).

(** A new link, as the caller fills it in. *)
Definition create_object (init : Z -> link_t) : M K (option Z) := fun w =>
  match objallo3 C (dom (links w)) (kern (sys w)) with
  | (Some h, k) => Some (Some h, World (<[h := init h]> (links w)) (Os k (errno (sys w))))
  | (None, k) => Some (None, World (links w) (Os k (errno (sys w))))
  end.
Definition objclos (h : Z) : M K unit := fun w =>
  Some (tt, World (match links w !! h with Some l => <[h := set_closing l]> (links w) | None => links w end) (sys w)).
(** The status of [_tcprefr] and its like. *)
Definition refr (bad proto h : Z) : M K Z := fun w =>
  Some (if h <? 0 then bad
        else match links w !! h with
             | Some l => if closing l then posix__makeerror ENOENT
                         else if proto =? protocol l then NSP_STATUS_SUCCESSFUL else posix__makeerror EPROTOTYPE
             | None => posix__makeerror ENOENT
             end, w).

(** Whether [objrefr] finds the link. *)
Definition found (h : Z) : M K bool := fun w =>
  Some (match links w !! h with Some l => negb (closing l) | None => false end, w).

(** The event goes to the callback as far as [Ncb.post] lets it. *)
Definition notify (h : Z) (e : event) : M K unit := fun w =>
  l ← links w !! h; es ← post (ncb l) e [];
  Some (tt, World (links w) (Os (foldl (fun k e => user C e k) (kern (sys w)) es) (errno (sys w)))).

(** ** src/posix/ncb.c *)
Definition setopt_int (h level opt v : Z) : M K Z := l <- the h;; call (setsockopt C (sockfd (ncb l)) level opt (le_bytes 4 v)).
Definition getopt_int (h level opt : Z) : M K (option Z) := l <- the h;; query (getsockopt C (sockfd (ncb l)) level opt).

Definition ncb_set_window_size (h dir size : Z) : M K Z := r <- setopt_int h SOL_SOCKET dir size;; zero_success r.
Definition ncb_get_window_size (h dir : Z) : M K (option Z) := getopt_int h SOL_SOCKET dir.
Definition ncb_set_linger (h : Z) : M K Z :=
  l <- the h;; r <- call (setsockopt C (sockfd (ncb l)) SOL_SOCKET SO_LINGER (le_bytes 4 1 ++ le_bytes 4 0));; zero_success r.
Definition ncb_set_buffsize (h : Z) : M K unit :=
  size <- ncb_get_window_size h SO_RCVBUF;;
  match size with Some n => if n <? MINIMUM_RCVBUF then ncb_set_window_size h SO_RCVBUF MINIMUM_RCVBUF;;; ret tt else ret tt | None => ret tt end;;;
  size <- ncb_get_window_size h SO_SNDBUF;;
  match size with Some n => if n <? MINIMUM_SNDBUF then ncb_set_window_size h SO_SNDBUF MINIMUM_SNDBUF;;; ret tt else ret tt | None => ret tt end.
Definition ncb_set_reuseaddr (h : Z) : M K Z := r <- setopt_int h SOL_SOCKET SO_REUSEADDR 1;; zero_success r.
(** The status and the error of the socket. *)
Definition ncb_query_link_error (h : Z) : M K (Z * Z) :=
  r <- getopt_int h SOL_SOCKET SO_ERROR;;
  error <- match r with Some e => ret e | None => get_errno end;;
  ret (posix__makeerror error, error).
(** [Ncb.ncb_setattr_r] and [Ncb.ncb_set_nonblock] on the link. *)
Definition setattr_r (h a : Z) : M K Z := fun w =>
  l ← links w !! h;
  let '(r, c, s) := ncb_setattr_r (getfl C) (setfl C) (ncb l) a (sys w) in
  Some (r, World (<[h := set_ncb c l]> (links w)) s).
Definition set_nonblock (h : Z) (set : bool) : M K Z := fun w =>
  l ← links w !! h; let '(r, s) := Ncb.ncb_set_nonblock (getfl C) (setfl C) (ncb l) set (sys w) in Some (r, World (links w) s).

(** ** src/posix/io.c *)
Definition set_nonblock_fd (fd : Z) (set : bool) : M K Z := fun w =>
  let '(r, s) := Ncb.io_set_nonblock (getfl C) (setfl C) fd set (sys w) in Some (r, World (links w) s).
Definition io_set_cloexec (fd : Z) : M K Z :=
  opt <- call (getfd C fd);;
  if opt <? 0 then e <- get_errno;; ret (posix__makeerror e)
  else if 0 =? Z.land opt FD_CLOEXEC then
    r <- call (setfd C fd (Z.lor opt FD_CLOEXEC));;
    if r <? 0 then e <- get_errno;; ret (posix__makeerror e) else ret NSP_STATUS_SUCCESSFUL
  else ret NSP_STATUS_SUCCESSFUL.

Definition events_of (mask : Z) : Z := Z.lor (Z.lor (Z.lor (Z.lor EPOLLET EPOLLRDHUP) EPOLLHUP) EPOLLERR) mask.
Definition io_attach (h mask : Z) : M K Z :=
  l <- the h;;
  match pool (protocol l) with
  | None => ret (posix__makeerror EPROTOTYPE)
  | Some epoptr =>
      io_set_cloexec (sockfd (ncb l));;;
      match epoptr !! Z.to_nat (Z.rem (hld (ncb l)) (zlen epoptr)) with
      | None => stuck
      | Some (fd, tid) =>
          upd h (set_epoll fd (rx_tid l));;;
          r <- call (epoll_ctl C fd EPOLL_CTL_ADD (sockfd (ncb l)) (hld (ncb l)) (events_of mask));;
          e <- get_errno;;
          (if (r <? 0) && negb (e =? EEXIST) then upd h (set_epoll (-1) (rx_tid l)) else upd h (set_epoll fd tid));;;
          l <- the h;;
          ret (if epfd l <? 0 then NSP_STATUS_FATAL else NSP_STATUS_SUCCESSFUL)
      end
  end.
Definition io_modify (h mask : Z) : M K Z :=
  l <- the h;;
  r <- call (epoll_ctl C (epfd l) EPOLL_CTL_MOD (sockfd (ncb l)) (hld (ncb l)) (events_of mask));;
  if r <? 0 then e <- get_errno;; ret (posix__makeerror e) else ret NSP_STATUS_SUCCESSFUL.
Definition io_detach (h : Z) : M K unit :=
  l <- the h;; call (epoll_ctl C (epfd l) EPOLL_CTL_DEL (sockfd (ncb l)) 0 0);;; upd h (set_epoll (-1) 0).
Definition io_close (h : Z) : M K unit :=
  l <- the h;;
  if 0 <? sockfd (ncb l) then
    (if 0 <? epfd l then io_detach h;;; upd h (fun l => set_epoll (-1) (rx_tid l) l) else ret tt);;;
    call (sys_shutdown C (sockfd (ncb l)) SHUT_RDWR);;;
    call (sys_close C (sockfd (ncb l)));;;
    upd h (fun l => set_ncb (set_sockfd (-1) (ncb l)) l)
  else ret tt.
Definition io_shutdown (h how : Z) : M K Z :=
  l <- the h;; r <- call (sys_shutdown C (sockfd (ncb l)) how);;
  if r =? -1 then e <- get_errno;; ret (posix__makeerror e) else ret NSP_STATUS_SUCCESSFUL.

(** ** What a program does to the links *)
(** A link with a callback: the guard of [Ncb.post] leaves it in peace. *)
Lemma notify_some h e w l : links w !! h = Some l -> is_Some (callback (ncb l)) -> notify h e w = Some (tt, w).
Proof.
  intros Hl [c Hc]. unfold notify, post. rewrite Hl. cbn [mbind option_bind]. rewrite Hc. cbn. by destruct w as [q [k n]].
Qed.
Lemma refr_some bad proto h w : bad < 0 ->
  exists st, refr bad proto h w = Some (st, w) /\ (NSP_SUCCESS st = true -> exists l, links w !! h = Some l /\ closing l = false /\ protocol l = proto).
Proof.
  intros Hb. eexists. split; [reflexivity |]. unfold NSP_SUCCESS.
  destruct (h <? 0); [rewrite (proj2 (Z.leb_gt 0 bad)) by done; discriminate |].
  destruct (links w !! h) as [l|]; [|discriminate]. destruct (closing l) eqn:E; [discriminate |].
  destruct (Z.eqb_spec proto (protocol l)); [|discriminate]. by exists l.
Qed.

Lemma found_some h w : exists b, found h w = Some (b, w) /\ (b = true -> exists l, links w !! h = Some l /\ closing l = false).
Proof.
  eexists. split; [reflexivity |]. destruct (links w !! h) as [l|]; [|done]. destruct (closing l) eqn:E; [done |]. by exists l.
Qed.
End Links.

(** [quiet V h m]: with [h] in the table, [m] returns, and leaves the table alone and of the
    system what [V] shows. *)
Section Quiet.
Context {K X : Type} (C : calls K) (V : K -> X).
Definition quiet {A} (h : Z) (m : M K A) : Prop := forall w, is_Some (links w !! h) ->
  exists a s, m w = Some (a, World (links w) s) /\ V (kern s) = V (kern (sys w)).
Definition unseen {A} (f : K -> A * K) : Prop := forall k, V (f k).2 = V k.

Lemma quiet_ret {A} h (a : A) : quiet h (ret a).
Proof. intros [q s] _. by exists a, s. Qed.
Lemma quiet_bind {A B} h (m : M K A) (k : A -> M K B) : quiet h m -> (forall a, quiet h (k a)) -> quiet h (bind m k).
Proof.
  intros Hm Hk w Hw. destruct (Hm w Hw) as (a & s & E & Hv). rewrite (bind_some _ _ _ _ _ E).
  destruct (Hk a (World (links w) s) Hw) as (b & s' & E' & Hv'). exists b, s'. split; [done |]. by rewrite Hv'.
Qed.
Lemma quiet_the h : quiet h (the h).
Proof. intros [q s] [l Hl]. cbn in Hl. exists l, s. unfold the. cbn. by rewrite Hl. Qed.
Lemma quiet_call h f : unseen f -> quiet h (call f).
Proof.
  intros Hf w _. unfold call, syscall. specialize (Hf (kern (sys w))). destruct (f (kern (sys w))) as [[n|e] k]; cbn [snd] in Hf;
    (eexists _, _; split; [reflexivity | done]).
Qed.
Lemma quiet_query {A} h (f : K -> (A + Z) * K) : unseen f -> quiet h (query f).
Proof.
  intros Hf w _. unfold query. specialize (Hf (kern (sys w))). destruct (f (kern (sys w))) as [[x|e] k]; cbn [snd] in Hf;
    (eexists _, _; split; [reflexivity | done]).
Qed.
Lemma quiet_errno h : quiet h get_errno.
Proof. intros [q s] _. by eexists _, _. Qed.
Lemma quiet_allocate h n : unseen (ztrymalloc C n) -> quiet h (allocate C n).
Proof.
  intros Hf w _. unfold allocate. specialize (Hf (kern (sys w))). destruct (ztrymalloc C n (kern (sys w))) as [b k].
  eexists _, _. split; [reflexivity | done].
Qed.
Lemma quiet_refr h bad proto h' : quiet h (refr bad proto h').
Proof. intros [q s] _. by eexists _, _. Qed.

(** The calls that set and read options, flags and addresses show nothing. *)
Class Unseen : Prop := {
  u_setsockopt fd level opt v : unseen (setsockopt C fd level opt v);
  u_getsockopt fd level opt : unseen (getsockopt C fd level opt);
  u_getsockname fd : unseen (getsockname C fd);
  u_getpeername fd : unseen (getpeername C fd);
  u_getfl fd : unseen (getfl C fd);
  u_setfl fd v : unseen (setfl C fd v);
  u_getfd fd : unseen (getfd C fd);
  u_setfd fd v : unseen (setfd C fd v);
  u_bind fd a : unseen (sys_bind C fd a);
  u_malloc n : unseen (ztrymalloc C n);
}.
End Quiet.

(** Nothing is seen by one who looks at nothing. *)
#[export] Instance unseen_unit {K} (C : calls K) : Unseen C (fun _ => tt).
Proof. by split. Qed.

Create HintDb quiet.
#[export] Hint Resolve quiet_ret quiet_the quiet_call quiet_query quiet_errno quiet_allocate quiet_refr
  u_setsockopt u_getsockopt u_getsockname u_getpeername u_getfl u_setfl u_getfd u_setfd u_bind u_malloc : quiet.
#[export] Hint Extern 1 (Unseen _ _) => (exact _) : quiet.
#[export] Hint Extern 4 (unseen (fun _ => tt) _) => (intros ?; reflexivity) : quiet.
#[export] Hint Extern 4 (unseen _ (epoll_ctl _ _ _ _ _ _)) => (intros ?; reflexivity) : quiet.

Ltac quiet := repeat first
  [ solve [eauto with quiet]
  | apply quiet_bind; [|intros ?]
  | match goal with |- quiet _ _ (match ?x with _ => _ end) => destruct x end
  | match goal with |- quiet _ _ (let '(_, _) := ?x in _) => destruct x end ].


(** ** An invariant of the links

    [wf h] is what holds of a link [h] at all times, and [D] are handles that stay.
    [spec h P m Q]: when it holds of all links and [P] of the link [h], [m] returns, it still
    holds of all links, and [Q] of [h] and the result. *)
Section Spec.
Context {K : Type} (wf : Z -> link_t -> Prop) (D : gset Z).
Record wf_links (w : world K) : Prop := { wf_all h l : links w !! h = Some l -> wf h l; wf_dom : D ⊆ dom (links w) }.

Lemma wf_insert h l w s : wf_links w -> wf h l -> wf_links (World (<[h := l]> (links w)) s).
Proof.
  intros [Hw Hd] Hl. split.
  - intros h' l'. cbn [links]. destruct (decide (h' = h)) as [-> | Hne]; [rewrite lookup_insert_eq; by intros [= <-] |].
    rewrite lookup_insert_ne by done. apply Hw.
  - cbn [links]. rewrite dom_insert_L. set_solver.
Qed.
Lemma wf_sys w s : wf_links w -> wf_links (World (links w) s).
Proof. by intros []. Qed.

Definition spec {A} (h : Z) (P : link_t -> Prop) (m : M K A) (Q : A -> link_t -> Prop) : Prop := forall w l,
  wf_links w -> links w !! h = Some l -> P l -> exists a w' l', m w = Some (a, w') /\ wf_links w' /\ links w' !! h = Some l' /\ Q a l'.

Lemma spec_ret {A} h (P : link_t -> Prop) (a : A) (Q : A -> link_t -> Prop) : (forall l, wf h l -> P l -> Q a l) -> spec h P (ret a) Q.
Proof. intros H w l Hw Hl Hp. exists a, w, l. split; [done |]. split; [done |]. split; [done |]. apply H; [by apply (wf_all w Hw) | done]. Qed.

Lemma spec_bind {A B} h P (m : M K A) (k : A -> M K B) R Q : spec h P m R -> (forall a, spec h (R a) (k a) Q) -> spec h P (bind m k) Q.
Proof.
  intros Hm Hk w l Hw Hl Hp. destruct (Hm w l Hw Hl Hp) as (a & w1 & l1 & E & Hw1 & Hl1 & Hr). rewrite (bind_some _ _ _ _ _ E).
  by apply (Hk a w1 l1).
Qed.

Lemma spec_quiet {A} h P (m : M K A) : quiet (fun _ => tt) h m -> spec h P m (fun _ => P).
Proof.
  intros H w l Hw Hl Hp. destruct (H w) as (a & s & E & _); [by eexists |]. exists a, (World (links w) s), l. split; [done |]. split; [by apply wf_sys | done].
Qed.

Lemma spec_the h P : spec h P (the h) (fun l0 l => l = l0 /\ P l /\ wf h l).
Proof. intros w l Hw Hl Hp. exists l, w, l. unfold the. rewrite Hl. cbn. split; [done |]. split; [done |]. split; [done |]. split; [done |]. split; [done |]. by apply (wf_all w Hw). Qed.

Lemma spec_upd h (P : link_t -> Prop) f (Q : unit -> link_t -> Prop) : (forall l, wf h l -> P l -> wf h (f l) /\ Q tt (f l)) -> spec h P (upd h f) Q.
Proof.
  intros H w l Hw Hl Hp. destruct (H l (wf_all w Hw h l Hl) Hp) as [Hwf Hq]. exists tt, (World (<[h := f l]> (links w)) (sys w)), (f l).
  unfold upd. rewrite Hl. split; [done |]. split; [by apply wf_insert | split; [apply lookup_insert_eq | done]].
Qed.

Lemma spec_conseq {A} h (P P' : link_t -> Prop) (m : M K A) (Q Q' : A -> link_t -> Prop) :
  (forall l, wf h l -> P l -> P' l) -> spec h P' m Q' -> (forall a l, wf h l -> Q' a l -> Q a l) -> spec h P m Q.
Proof.
  intros Hp Hm Hq w l Hw Hl H. destruct (Hm w l Hw Hl) as (a & w' & l' & E & Hw' & Hl' & H'); [by apply Hp; [apply (wf_all w Hw) |] |].
  exists a, w', l'. split; [done |]. split; [done |]. split; [done |]. apply Hq; [by apply (wf_all w' Hw') | done].
Qed.

(** A program that leaves the links alone, and then another. *)
Lemma spec_then {A B} h P (m : M K A) (k : A -> M K B) Q : quiet (fun _ => tt) h m -> (forall a, spec h P (k a) Q) -> spec h P (bind m k) Q.
Proof. intros Hm Hk. eapply spec_bind; [by apply spec_quiet |]. done. Qed.

(** Another link that stays is looked at, or told of something. *)
Lemma spec_other h h' P : h' ∈ D -> spec h P (the h') (fun l0 l => P l /\ wf h' l0).
Proof.
  intros Hd w l Hw Hl Hp. destruct (links w !! h') as [l0|] eqn:E.
  - exists l0, w, l. unfold the. rewrite E. cbn. repeat (split; [done |]). by apply (wf_all w Hw).
  - apply not_elem_of_dom in E. pose proof (wf_dom w Hw). set_solver.
Qed.
Lemma spec_told C h h' e P : (forall l, wf h' l -> is_Some (callback (ncb l))) -> h' ∈ D -> spec h P (notify C h' e) (fun _ => P).
Proof.
  intros Hcb Hd w l Hw Hl Hp. destruct (links w !! h') as [l'|] eqn:E.
  - rewrite (notify_some C h' e w l') by (done || by apply Hcb, (wf_all w Hw)). by exists tt, w, l.
  - apply not_elem_of_dom in E. pose proof (wf_dom w Hw). set_solver.
Qed.
Lemma spec_notify C h e P : (forall l, wf h l -> is_Some (callback (ncb l))) -> spec h P (notify C h e) (fun _ => P).
Proof.
  intros Hcb w l Hw Hl Hp. rewrite (notify_some C h e w l) by (done || by apply Hcb, (wf_all w Hw)). by exists tt, w, l.
Qed.

Lemma spec_objclos h P (Q : link_t -> Prop) : (forall l, wf h l -> P l -> wf h (set_closing l) /\ Q (set_closing l)) -> spec h P (objclos h) (fun _ => Q).
Proof.
  intros H w l Hw Hl Hp. destruct (H l (wf_all w Hw h l Hl) Hp) as [Hwf Hq].
  exists tt, (World (<[h := set_closing l]> (links w)) (sys w)), (set_closing l). unfold objclos. rewrite Hl.
  split; [done |]. split; [by apply wf_insert | split; [apply lookup_insert_eq | done]].
Qed.
End Spec.

