(* ===== verification/TcpLink.v ===== *)
(** The life of a TCP link: src/posix/tcp.c and the connecting and accepting half of
    src/posix/tcpio.c, over [Links].

    A link is created, connected (at once, or with the help of the epoll threads) or made to
    listen, and closed.  The handlers [ncb_read] and [ncb_write] say in which state it is.
    [inet_addr] is the C library's, [somaxconn] the constant of its headers, and
    [address h] the address of the block of the link [h]. *)
From S2P Require Import Prelude TcpAl Ncb Pipe Links.
#[local] Open Scope monad_scope.

Definition TCP_ESTABLISHED : Z := 1.
Definition TCP_CLOSE : Z := 7.
Definition TCP_LISTEN : Z := 10.
Definition TCP_NODELAY : Z := 1.
Definition TCP_MAXSEG : Z := 2.
Definition TCP_CORK : Z := 3.
Definition TCP_KEEPIDLE : Z := 4.
Definition TCP_KEEPINTVL : Z := 5.
Definition TCP_KEEPCNT : Z := 6.
Definition TCP_SYNCNT : Z := 7.
Definition TCP_INFO : Z := 11.
Definition TCP_QUICKACK : Z := 12.
Definition TCP_USER_TIMEOUT : Z := 18.
Definition SO_KEEPALIVE : Z := 9.
Definition INADDR_ANY : Z := 0.
Definition INVALID_HTCPLINK : Z := -1.
Definition EISCONN : Z := 106.
Definition EALREADY : Z := 114.
Definition EINPROGRESS : Z := 115.
Definition EBADFD : Z := 77.
Definition LINKATTR_TCP_UPDATE_ACCEPT_CONTEXT : Z := 4.
Definition LINK_ADDR_LOCAL : Z := 1.
Definition LINK_ADDR_REMOTE : Z := 2.
Definition TCP_MAXIMUM_TEMPLATE_SIZE : Z := 32.

(** Two and four bytes in the other order. *)
Definition htons (x : Z) : Z := x mod 256 * 256 + x / 256 mod 256.
Definition htonl (x : Z) : Z := htons (x / 65536) + 65536 * htons (x mod 65536).
(** strncasecmp with "IPC:", and strncpy into a [sun_path] of zeroes. *)
Definition lower (c : Z) : Z := if (65 <=? c) && (c <=? 90) then c + 32 else c.
Definition is_ipc (ipstr : list Z) : bool := bool_decide (map lower (take 4 (cstring ipstr)) = [105; 112; 99; 58]).
Definition copy_path (s : list Z) : list Z := take (Z.to_nat (sizeof_sun_path - 1)) (cstring s).
(** Whether the text is missing or empty. *)
Definition no_text (s : option (list Z)) : bool := match s with Some s => bool_decide (cstring s = []) | None => true end.

Section TcpLink.
Context {K : Type} (C : calls K) (pool : Z -> option (list (Z * Z)))
  (inet_addr : list Z -> Z) (somaxconn : Z) (address : Z -> Z).

Definition _tcprefr (h : Z) : M K Z := refr (- EINVAL) IPPROTO_TCP h.

(** ** Options *)
Definition set_option (h opt v : Z) : M K Z := r <- setopt_int C h IPPROTO_TCP opt v;; zero_success r.
Definition tcp_setmss (h mss : Z) : M K Z := set_option h TCP_MAXSEG mss.
Definition tcp_set_nodelay (h set : Z) : M K Z := set_option h TCP_NODELAY set.
Definition tcp_set_cork (h set : Z) : M K Z := set_option h TCP_CORK set.
(** An option whose setting fails with a negative result. *)
Definition set_or_fail (h level opt v : Z) : M K Z :=
  r <- setopt_int C h level opt v;; if r <? 0 then e <- get_errno;; ret (posix__makeerror e) else ret NSP_STATUS_SUCCESSFUL.
Definition tcp_set_syncnt (h cnt : Z) : M K Z := set_or_fail h IPPROTO_TCP TCP_SYNCNT cnt.
Definition tcp_set_user_timeout (h uto : Z) : M K Z := set_or_fail h IPPROTO_TCP TCP_USER_TIMEOUT uto.
Definition tcp_set_quickack (h set : Z) : M K Z := set_or_fail h IPPROTO_TCP TCP_QUICKACK set.

Fixpoint set_all (h : Z) (opts : list (Z * Z * Z)) : M K Z :=
  match opts with
  | [] => ret NSP_STATUS_SUCCESSFUL
  | (level, opt, v) :: opts => status <- set_or_fail h level opt v;; if NSP_SUCCESS status then set_all h opts else ret status
  end.
Definition tcp_set_keepalive (h interval : Z) : M K Z :=
  set_all h [(SOL_SOCKET, SO_KEEPALIVE, 1); (IPPROTO_TCP, TCP_KEEPIDLE, interval);
    (IPPROTO_TCP, TCP_KEEPINTVL, if Z.quot interval 3 =? 0 then 1 else Z.quot interval 3); (IPPROTO_TCP, TCP_KEEPCNT, 3)].

(** The status, and the state of the connection. *)
Definition tcp_save_info (h : Z) : M K (Z * Z) :=
  r <- getopt_int C h IPPROTO_TCP TCP_INFO;;
  match r with
  | Some state => ret (NSP_STATUS_SUCCESSFUL, state)
  | None => e <- get_errno;; ret (posix__makeerror e, 0)
  end.

Definition tcp_relate_address (h : Z) : M K unit :=
  l <- the h;;
  r <- query (getpeername C (sockfd (ncb l)));;
  match r with Some a => upd h (fun l => set_addr (local_addr l) a (sun_path l) l) | None => ret tt end;;;
  r <- query (getsockname C (sockfd (ncb l)));;
  match r with Some a => upd h (fun l => set_addr a (remot_addr l) (sun_path l) l) | None => ret tt end.

Definition tcp_allocate_rx_buffer (h : Z) : M K Z :=
  l <- the h;;
  b <- match rx_buffer (ncb l) with Some b => ret (Some b) | None => allocate C TCP_BUFFER_SIZE end;;
  match b with
  | None => ret (posix__makeerror ENOMEM)
  | Some b =>
      upd h (fun l => set_parse 0 (rx_parse_buffer l) (set_ncb (set_rx (Some b) TCP_BUFFER_SIZE (ncb l)) l));;;
      match rx_parse_buffer l with
      | Some _ => ret NSP_STATUS_SUCCESSFUL
      | None =>
          p <- allocate C TCP_BUFFER_SIZE;;
          match p with
          | Some p => upd h (set_parse 0 (Some p));;; ret NSP_STATUS_SUCCESSFUL
          | None => upd h (fun l => set_ncb (set_rx None (rx_buffer_size (ncb l)) (ncb l)) l);;; ret (posix__makeerror ENOMEM)
          end
      end
  end.

Definition _tcp_bind (h : Z) : M K Z :=
  l <- the h;;
  r <- call (sys_bind C (sockfd (ncb l)) (if AF_UNIX =? sin_family (local_addr l) then Domain (sun_path l) else Inet (local_addr l)));;
  zero_success r.

(** ** Creating and closing *)
Definition _tcp_create_domain (h : Z) (domain : list Z) : M K Z :=
  fd <- call (sys_socket C AF_UNIX SOCK_SEQPACKET 0);;
  if fd <? 0 then e <- get_errno;; ret (posix__makeerror e)
  else
    l <- the h;;
    if negb (sockfd (ncb l) =? 0) then call (sys_close C fd);;; ret (posix__makeerror EEXIST)
    else
      upd h (fun l => set_addr (In AF_UNIX 0 0) (remot_addr l) (copy_path domain) (set_ncb (set_sockfd fd (ncb l)) l));;;
      ret NSP_STATUS_SUCCESSFUL.

Definition _tcp_create (h : Z) (ipstr : option (list Z)) (port : Z) : M K Z :=
  fd <- call (sys_socket C AF_INET SOCK_STREAM IPPROTO_TCP);;
  if fd <? 0 then e <- get_errno;; ret (posix__makeerror e)
  else
    upd h (fun l => set_addr (In AF_INET match ipstr with Some s => inet_addr s | None => INADDR_ANY end (htons port)) (remot_addr l) (sun_path l)
      (set_ncb (set_sockfd fd (ncb l)) l));;;
    ncb_set_linger C h;;; ret NSP_STATUS_SUCCESSFUL.

(** [callback]: the address of the user's routine. *)
Definition tcp_create (cb : option Z) (ipstr : option (list Z)) (port : Z) : M K Z :=
  r <- create_object C (fun h => new_link h IPPROTO_TCP 0 cb);;
  match r with
  | None => ret INVALID_HTCPLINK
  | Some h =>
      status <- match ipstr with
                | Some s => if is_ipc s then _tcp_create_domain h (drop 4 s) else _tcp_create h ipstr port
                | None => _tcp_create h ipstr port
                end;;
      if NSP_SUCCESS status then ret h else objclos h;;; ret INVALID_HTCPLINK
  end.

Definition tcp_settst_r (h : Z) (tst : option tst_t) : M K Z :=
  match tst with
  | None => ret (posix__makeerror EINVAL)
  | Some t =>
      if TCP_MAXIMUM_TEMPLATE_SIZE <? cb_ t then ret (posix__makeerror EINVAL)
      else
        status <- _tcprefr h;;
        (if NSP_SUCCESS status then upd h (fun l => set_tst t (template l) l) else ret tt);;; ret status
  end.

(** [tst] is what the caller's block holds before; the status, what it holds behind and
    what is stored through [previous]. *)
Definition tcp_gettst_r (h : Z) (tst : option tst_t) (previous : bool) : M K (Z * option tst_t * option tst_t) :=
  match tst with
  | None => ret (posix__makeerror EINVAL, None, None)
  | Some old =>
      status <- _tcprefr h;;
      if NSP_SUCCESS status then l <- the h;; ret (status, Some (template l), if previous then Some old else None)
      else ret (status, tst, None)
  end.

(** Shutting down both ways; the epoll thread closes the link then. *)
Definition tcp_destroy (h : Z) : M K unit :=
  status <- _tcprefr h;; if NSP_SUCCESS status then io_shutdown C h SHUT_RDWR;;; ret tt else ret tt.

Definition tcp_create2 (cb : option Z) (ipstr : option (list Z)) (port : Z) (tst : option tst_t) : M K Z :=
  h <- tcp_create cb ipstr port;;
  if h =? INVALID_HTCPLINK then ret INVALID_HTCPLINK
  else match tst with
       | None => ret h
       | Some _ => status <- tcp_settst_r h tst;; if NSP_SUCCESS status then ret h else tcp_destroy h;;; ret INVALID_HTCPLINK
       end.

(** ** Connecting *)
Definition established (h : Z) : M K unit := upd h (set_rw (Some Tcp_rx) (Some Tcp_tx)).

(** The end all three ways of connecting at once share: watched if there is a callback. *)
Definition connected (h : Z) : M K Z :=
  l <- the h;;
  status <- match callback (ncb l) with Some _ => io_attach C pool h EPOLLIN | None => ret NSP_STATUS_SUCCESSFUL end;;
  if NSP_SUCCESS status then notify C h (EVT_TCP_CONNECTED h);;; ret status else ret status.

Definition _tcp_connect_domain (h : Z) (domain : option (list Z)) : M K Z :=
  l <- the h;;
  ok <- (if bool_decide (sun_path l = []) then
           if no_text domain then ret false
           else if is_ipc (default [] domain) then
             upd h (fun l => set_addr (local_addr l) (remot_addr l) (copy_path (drop 4 (default [] domain))) l);;; ret true
           else ret false
         else ret true);;
  if negb ok then ret (posix__makeerror EINVAL)
  else
    l <- the h;;
    r <- call (sys_connect C (sockfd (ncb l)) (Domain (sun_path l)));;
    if r <? 0 then e <- get_errno;; ret (posix__makeerror e)
    else
      status <- tcp_allocate_rx_buffer h;;
      if NSP_SUCCESS status then established h;;; connected h else ret status.

(** Whether the port can be connected to, and the text is there. *)
Definition bad_target (ipstr : option (list Z)) (port : Z) : bool := (port =? 0) || (port =? 0xFFFF) || no_text ipstr.

(** The kernel's state of a link that is to be connected: a status to stop with. *)
Definition not_closed (h : Z) : M K (option Z) :=
  let* (status, state) := tcp_save_info h in
  ret (if NSP_SUCCESS status && negb (state =? TCP_CLOSE) then
         Some (posix__makeerror (if TCP_ESTABLISHED =? state then EISCONN else EBADFD))
       else None).
Definition connect_options (h : Z) : M K unit :=
  tcp_set_user_timeout h 3000;;; tcp_set_syncnt h 3;;; ncb_set_buffsize C h;;; tcp_set_nodelay h 1;;; ret tt.

Definition _tcp_connect (h : Z) (ipstr : option (list Z)) (port : Z) : M K Z :=
  if bad_target ipstr port then ret (posix__makeerror EINVAL)
  else
    stop <- not_closed h;;
    match stop with
    | Some status => ret status
    | None =>
        connect_options h;;;
        status <- _tcp_bind h;;
        if negb (NSP_SUCCESS status) then ret status
        else
          l <- the h;;
          r <- call (sys_connect C (sockfd (ncb l)) (Inet (In AF_INET (inet_addr (default [] ipstr)) (htons port))));;
          if r <? 0 then e <- get_errno;; ret (posix__makeerror e)
          else
            status <- tcp_allocate_rx_buffer h;;
            if NSP_SUCCESS status then tcp_set_keepalive h 9;;; tcp_relate_address h;;; established h;;; connected h
            else ret status
    end.

Definition tcp_connect (h : Z) (ipstr : option (list Z)) (port : Z) : M K Z :=
  if h <? 0 then ret (posix__makeerror EINVAL)
  else
    status <- _tcprefr h;;
    if negb (NSP_SUCCESS status) then ret status
    else
      l <- the h;;
      if AF_UNIX =? sin_family (local_addr l) then _tcp_connect_domain h ipstr else _tcp_connect h ipstr port.

(** The writer of a link that is being connected. *)
Fixpoint tcp_tx_syn (fuel : nat) (h : Z) : M K Z :=
  match fuel with
  | O => stuck
  | S fuel =>
      let* (r, e) := ncb_query_link_error C h in
      if 0 =? r then
        status <- tcp_allocate_rx_buffer h;;
        if negb (NSP_SUCCESS status) then objclos h;;; ret status
        else
          l <- the h;;
          (if negb (sin_family (local_addr l) =? AF_UNIX) then tcp_set_keepalive h 9;;; tcp_relate_address h else ret tt);;;
          established h;;;
          status <- io_modify C h EPOLLIN;;
          if negb (NSP_SUCCESS status) then objclos h;;; ret status
          else notify C h (EVT_TCP_CONNECTED h);;; ret NSP_STATUS_SUCCESSFUL
      else if (e =? EISCONN) || (e =? EALREADY) then ret NSP_STATUS_SUCCESSFUL
      else if e =? EINTR then tcp_tx_syn fuel h
      else if e =? EAGAIN then ret (- EAGAIN)
      else ret (posix__makeerror e)
  end.

(** The reader in that state. *)
Definition tcp_rx_syn (h : Z) : M K Z :=
  let* (r, error) := ncb_query_link_error C h in
  ret (if (0 <=? r) && (0 =? error) then NSP_STATUS_SUCCESSFUL else posix__makeerror error).

(** The connect(2) of a link whose writer is [tcp_tx_syn]. *)
Definition connect2 (fuel : nat) (h : Z) (target : sockaddr) : M K Z :=
  l <- the h;;
  r <- call (sys_connect C (sockfd (ncb l)) target);;
  if 0 =? r then tcp_tx_syn fuel h;;; ret NSP_STATUS_SUCCESSFUL
  else
    e <- get_errno;;
    if EINPROGRESS =? e then io_attach C pool h EPOLLOUT else ret (posix__makeerror e).

(** The writer is exchanged if there is none yet. *)
Definition claim_write (h : Z) : M K bool :=
  l <- the h;;
  match ncb_write l with None => upd h (fun l => set_rw (ncb_read l) (Some Tcp_tx_syn) l);;; ret true | Some _ => ret false end.

Definition _tcp_connect2_domain (fuel : nat) (h : Z) (domain : option (list Z)) : M K Z :=
  l <- the h;;
  ok <- (if bool_decide (sun_path l = []) then
           if no_text domain then ret false
           else upd h (fun l => set_addr (local_addr l) (remot_addr l) (copy_path (default [] domain)) l);;; ret true
         else ret true);;
  if negb ok then ret (posix__makeerror EINVAL)
  else
    status <- set_nonblock C h true;;
    if negb (NSP_SUCCESS status) then ret status
    else
      claimed <- claim_write h;;
      if negb claimed then ret status else l <- the h;; connect2 fuel h (Domain (sun_path l)).

Definition _tcp_connect2 (fuel : nat) (h : Z) (ipstr : option (list Z)) (port : Z) : M K Z :=
  if bad_target ipstr port then ret (posix__makeerror EINVAL)
  else
    status <- set_nonblock C h true;;
    if negb (NSP_SUCCESS status) then ret status
    else
      upd h (fun l => set_ncb (set_attr (Z.lor (attr (ncb l)) LINKATTR_NONBLOCK) (ncb l)) l);;;
      stop <- not_closed h;;
      match stop with
      | Some status => ret status
      | None =>
          connect_options h;;;
          status <- _tcp_bind h;;
          if negb (NSP_SUCCESS status) then ret status
          else
            claimed <- claim_write h;;
            if negb claimed then ret status
            else
              let to := In AF_INET (inet_addr (default [] ipstr)) (htons port) in
              upd h (fun l => set_addr (local_addr l) to (sun_path l) l);;;
              connect2 fuel h (Inet to)
      end.

Definition tcp_connect2 (fuel : nat) (h : Z) (ipstr : option (list Z)) (port : Z) : M K Z :=
  if h <? 0 then ret (posix__makeerror EINVAL)
  else
    status <- _tcprefr h;;
    if negb (NSP_SUCCESS status) then ret status
    else
      l <- the h;;
      match callback (ncb l) with
      | None => ret (posix__makeerror EINVAL)
      | Some _ => if AF_UNIX =? sin_family (local_addr l) then _tcp_connect2_domain fuel h ipstr else _tcp_connect2 fuel h ipstr port
      end.

(** ** Listening

    [io_set_nonblock] takes a descriptor and gets the pointer to the link. *)
Definition listen_steps (h block : Z) : M K Z :=
  l <- the h;;
  match callback (ncb l) with
  | None => ret (posix__makeerror EINVAL)
  | Some _ =>
      (if AF_UNIX =? sin_family (local_addr l) then
         call (sys_unlink C (sun_path l));;;
         upd h (fun l => set_addr (In (sin_family (local_addr l)) (sin_addr (local_addr l)) 1) (remot_addr l) (sun_path l) l)
       else ret tt);;;
      let* (status, state) := tcp_save_info h in
      if NSP_SUCCESS status && negb (state =? TCP_CLOSE) then ret (posix__makeerror EBADFD)
      else
        ncb_set_reuseaddr C h;;;
        status <- _tcp_bind h;;
        if negb (NSP_SUCCESS status) then ret status
        else
          r <- call (sys_listen C (sockfd (ncb l)) (if (0 =? block) || (somaxconn <? block) then somaxconn else block));;
          if r =? -1 then e <- get_errno;; ret (posix__makeerror e)
          else
            l <- the h;;
            match ncb_read l with
            | Some _ => ret (posix__makeerror EEXIST)
            | None =>
                upd h (set_rw (Some Tcp_syn) None);;;
                status <- set_nonblock_fd C (s32 (address h)) true;;
                if negb (NSP_SUCCESS status) then ret status
                else
                  status <- io_attach C pool h EPOLLIN;;
                  if negb (NSP_SUCCESS status) then ret status
                  else
                    (if negb (sin_family (local_addr l) =? AF_UNIX) then
                       r <- query (getsockname C (sockfd (ncb l)));;
                       match r with Some a => upd h (fun l => set_addr a (remot_addr l) (sun_path l) l) | None => ret tt end
                     else ret tt);;;
                    ret status
            end
  end.

Definition tcp_listen (h block : Z) : M K Z :=
  if (h <? 0) || (block <? 0) || (0x7FFF <=? block) then ret (posix__makeerror EINVAL)
  else
    status <- _tcprefr h;;
    if NSP_SUCCESS status then listen_steps h block else ret status.

(** ** Accepting *)
Definition _tcp_syn_try (h : Z) : M K (Z * Z) :=
  l <- the h;;
  fd <- call (sys_accept4 C (sockfd (ncb l)));;
  if fd <? 0 then e <- get_errno;; ret (posix__makeerror e, -1) else ret (NSP_STATUS_SUCCESSFUL, fd).

(** [hs] is the listening link, [h] the accepted one. *)
Definition _tcp_syn_dpc (hs h : Z) : M K Z :=
  server <- the hs;;
  (if AF_UNIX =? sin_family (local_addr server) then
     upd h (fun l => set_addr (In AF_UNIX (sin_addr (local_addr l)) 0) (remot_addr l) (copy_path (sun_path server)) l)
   else tcp_relate_address h;;; tcp_set_keepalive h 9;;; ncb_set_linger C h;;; ret tt);;;
  tcp_set_nodelay h 1;;;
  ncb_set_buffsize C h;;;
  status <- tcp_allocate_rx_buffer h;;
  if negb (NSP_SUCCESS status) then ret status
  else
    established h;;;
    (let a := attr (ncb server) in
     if negb (Z.land a LINKATTR_TCP_UPDATE_ACCEPT_CONTEXT =? 0) then
       setattr_r C h a;;; server <- the hs;; upd h (fun l => set_tst (template server) (prtemplate l) l)
     else ret tt);;;
    status <- io_attach C pool h 0;;
    if negb (NSP_SUCCESS status) then ret status
    else notify C hs (EVT_TCP_ACCEPTED hs h);;; io_modify C h EPOLLIN;;; ret status.

Definition _tcp_syn (hs : Z) : M K Z :=
  let* (status, state) := tcp_save_info hs in
  if NSP_SUCCESS status && negb (state =? TCP_LISTEN) then ret NSP_STATUS_SUCCESSFUL
  else
    let* (status, clientfd) := _tcp_syn_try hs in
    if negb (NSP_SUCCESS status) then ret status
    else
      server <- the hs;;
      r <- create_object C (fun h => new_link h IPPROTO_TCP clientfd (callback (ncb server)));;
      match r with
      | None => call (sys_close C clientfd);;; ret NSP_STATUS_SUCCESSFUL
      | Some h =>
          status <- _tcp_syn_dpc hs h;;
          if negb (NSP_SUCCESS status) then objclos h;;; ret status else ret status
      end.

(** The status, or [None] when the loop still goes on after [fuel] turns: it has no other
    bound than the connections that wait, and may have none at all. *)
Fixpoint tcp_syn (fuel : nat) (hs : Z) : M K (option Z) :=
  match fuel with
  | O => ret None
  | S fuel => status <- _tcp_syn hs;; if NSP_SUCCESS status then tcp_syn fuel hs else ret (Some status)
  end.

(** What [_iorun] does with EPOLLIN on a listening link; whether it is done. *)
Definition on_acceptable (fuel : nat) (hs : Z) : M K bool :=
  there <- found hs;;
  if negb there then ret true else
  l <- the hs;;
  match ncb_read l with
  | Some Tcp_syn =>
      status <- tcp_syn fuel hs;;
      match status with
      | None => ret false
      | Some status => (if NSP_SUCCESS_OR_ERROR_EQUAL status EAGAIN then ret tt else objclos hs);;; ret true
      end
  | _ => ret true
  end.
(** What [_wp_exec] does with a link that is being connected; its queue is empty. *)
Definition on_connectable (fuel : nat) (h : Z) : M K unit :=
  there <- found h;;
  if negb there then ret tt else
  l <- the h;;
  match ncb_write l with
  | Some Tcp_tx_syn =>
      status <- tcp_tx_syn fuel h;;
      if NSP_SUCCESS status || NSP_FAILED_AND_ERROR_EQUAL status EAGAIN || NSP_FAILED_AND_ERROR_EQUAL status ENOENT then ret tt
      else objclos h
  | _ => ret tt
  end.

(** ** The other calls *)
Definition tcp_read (recvmsg : Z -> bool -> Z -> K -> answer * K) (h : Z) (data : bool) (size : Z) : M K Z :=
  if (h <? 0) || negb data || (size <=? 0) || (TCP_MAXIMUM_PACKET_SIZE <? size) then ret (posix__makeerror EINVAL)
  else
    status <- _tcprefr h;;
    if NSP_SUCCESS status then
      l <- the h;;
      if nonblock (attr (ncb l)) then ret (posix__makeerror EINVAL)
      else fun w => let '(r, s) := ncb_recvdata recvmsg (ncb l) true size (sys w) in Some (r, World (links w) s)
    else ret status.

Definition tcp_getaddr (h type : Z) : M K (Z * option (Z * Z)) :=
  status <- _tcprefr h;;
  if negb (NSP_SUCCESS status) then ret (status, None)
  else
    l <- the h;;
    if AF_UNIX =? sin_family (local_addr l) then ret (posix__makeerror EPROTOTYPE, None)
    else
      let out a := (NSP_STATUS_SUCCESSFUL, Some (htonl (sin_addr a), htons (sin_port a))) in
      ret (if LINK_ADDR_LOCAL =? type then out (local_addr l)
           else if LINK_ADDR_REMOTE =? type then out (remot_addr l)
           else (posix__makeerror EINVAL, None)).

Definition tcp_getipcpath (h : Z) (path : bool) : M K (Z * option (list Z)) :=
  status <- _tcprefr h;;
  if negb (NSP_SUCCESS status) then ret (status, None)
  else
    l <- the h;;
    ret (if (AF_UNIX =? sin_family (local_addr l)) && path then (NSP_STATUS_SUCCESSFUL, Some (sun_path l))
         else (posix__makeerror EINVAL, None)).

Definition tcp_setopt (h level opt : Z) (val : list Z) : M K Z :=
  status <- _tcprefr h;;
  if negb (NSP_SUCCESS status) then ret status
  else
    l <- the h;; r <- call (setsockopt C (sockfd (ncb l)) level opt val);;
    if r =? -1 then e <- get_errno;; ret (posix__makeerror e) else ret status.

Definition tcp_getopt (h level opt : Z) : M K (Z * option Z) :=
  status <- _tcprefr h;;
  if negb (NSP_SUCCESS status) then ret (status, None)
  else
    r <- getopt_int C h level opt;;
    match r with Some v => ret (status, Some v) | None => e <- get_errno;; ret (posix__makeerror e, None) end.

Definition tcp_awaken (sys_write : Z -> list Z -> K -> answer * K) (pipes : option (list Z)) (h : Z) (pipedata : option (list Z)) (n : Z)
    (mem : option (list Z)) : M K Z :=
  if (h <? 0) || bool_decide (pipedata = None) || (0 =? n) then ret (posix__makeerror EINVAL)
  else
    status <- _tcprefr h;;
    if negb (NSP_SUCCESS status) then ret status
    else
      l <- the h;;
      fun w => '(r, s) ← pipe_write_message sys_write pipes (ncb l) pipedata n mem (sys w); Some (r, World (links w) s).
End TcpLink.

(** ** Calls and events, one after the other *)
Inductive link_op :=
  | Create (cb : option Z) (ipstr : option (list Z)) (port : Z) (tst : option tst_t)
  | Settst (h : Z) (tst : option tst_t)
  | Connect (h : Z) (ipstr : option (list Z)) (port : Z)
  | Connect2 (h : Z) (ipstr : option (list Z)) (port : Z)
  | Listen (h block : Z)
  | Destroy (h : Z)
  | Connectable (h : Z)
  | Acceptable (h : Z).

Section Run.
Context {K : Type} (C : calls K) (pool : Z -> option (list (Z * Z)))
  (inet_addr : list Z -> Z) (somaxconn : Z) (address : Z -> Z).

(** The result; [None] when the thread is still in the loop of [tcp_syn] after [fuel] turns. *)
Definition link_step (fuel : nat) (op : link_op) : M K (option Z) :=
  match op with
  | Create cb ip port tst => r <- tcp_create2 C inet_addr cb ip port tst;; ret (Some r)
  | Settst h tst => r <- tcp_settst_r h tst;; ret (Some r)
  | Connect h ip port => r <- tcp_connect C pool inet_addr h ip port;; ret (Some r)
  | Connect2 h ip port => r <- tcp_connect2 C pool inet_addr fuel h ip port;; ret (Some r)
  | Listen h block => r <- tcp_listen C pool somaxconn address h block;; ret (Some r)
  | Destroy h => tcp_destroy C h;;; ret (Some NSP_STATUS_SUCCESSFUL)
  | Connectable h => on_connectable C fuel h;;; ret (Some NSP_STATUS_SUCCESSFUL)
  | Acceptable h => back <- on_acceptable C pool fuel h;; ret (if back : bool then Some NSP_STATUS_SUCCESSFUL else None)
  end.
(** The results of the calls that came back, up to the first that did not. *)
Fixpoint link_run (fuel : nat) (ops : list link_op) : M K (list Z) :=
  match ops with
  | [] => ret []
  | op :: ops =>
      r <- link_step fuel op;;
      match r with Some r => rs <- link_run fuel ops;; ret (r :: rs) | None => ret [] end
  end.
End Run.

(** ** The calls that only set options *)
Section Options.
Context {K X : Type} (C : calls K) (V : K -> X) `{!Unseen C V}.
#[local] Abbreviation quiet := (Links.quiet V).

Lemma quiet_zero h r : quiet h (zero_success r).
Proof. unfold zero_success. quiet. Qed.
Lemma quiet_setopt h level opt v : quiet h (setopt_int C h level opt v).
Proof. unfold setopt_int. quiet. Qed.
Lemma quiet_getopt h level opt : quiet h (getopt_int C h level opt).
Proof. unfold getopt_int. quiet. Qed.
#[local] Hint Resolve quiet_zero quiet_setopt quiet_getopt : quiet.
Lemma quiet_option h opt v : quiet h (set_option C h opt v).
Proof. unfold set_option. quiet. Qed.
Lemma quiet_or_fail h level opt v : quiet h (set_or_fail C h level opt v).
Proof. unfold set_or_fail. quiet. Qed.
#[local] Hint Resolve quiet_option quiet_or_fail : quiet.
Lemma quiet_keepalive h i : quiet h (tcp_set_keepalive C h i).
Proof. unfold tcp_set_keepalive. cbn [set_all]. quiet. Qed.
Lemma quiet_buffsize h : quiet h (ncb_set_buffsize C h).
Proof. unfold ncb_set_buffsize, ncb_get_window_size, ncb_set_window_size. quiet. Qed.
Lemma quiet_linger h : quiet h (ncb_set_linger C h).
Proof. unfold ncb_set_linger. quiet. Qed.
Lemma quiet_reuseaddr h : quiet h (ncb_set_reuseaddr C h).
Proof. unfold ncb_set_reuseaddr. quiet. Qed.
Lemma quiet_info h : quiet h (tcp_save_info C h).
Proof. unfold tcp_save_info. quiet. Qed.
Lemma quiet_error h : quiet h (ncb_query_link_error C h).
Proof. unfold ncb_query_link_error. quiet. Qed.
Lemma quiet_cloexec h fd : quiet h (io_set_cloexec C fd).
Proof. unfold io_set_cloexec. quiet. Qed.
Lemma quiet_bind_addr h : quiet h (_tcp_bind C h).
Proof. unfold _tcp_bind. quiet. Qed.
#[local] Hint Resolve quiet_info quiet_buffsize : quiet.
Lemma quiet_not_closed h : quiet h (not_closed C h).
Proof. unfold not_closed. quiet. Qed.
Lemma quiet_connect_options h : quiet h (connect_options C h).
Proof. unfold connect_options, tcp_set_user_timeout, tcp_set_syncnt, tcp_set_nodelay. quiet. Qed.
End Options.
#[export] Hint Resolve quiet_zero quiet_setopt quiet_getopt quiet_option quiet_or_fail quiet_keepalive quiet_buffsize quiet_linger quiet_reuseaddr
  quiet_info quiet_error quiet_cloexec quiet_bind_addr quiet_not_closed quiet_connect_options : quiet.

(** ** What the system and the user are told

    [Watch] and [Rewatch] are the two changes of epoll, [Told] a call of the callback. *)
Inductive act := Watch (fd h events : Z) | Rewatch (fd h events : Z) | Told (e : event).

(** ** A system to run it on

    Descriptor 3 is a listening socket; descriptors from 100 on are not open. *)
Record demo_sys := Demo { d_log : list act; d_pending : list positive; d_watched : gset Z }.
Definition demo_max (q : list Z) : Z := foldr Z.max 0 q.
Definition demo_accept (fd : Z) (k : demo_sys) : answer * demo_sys :=
  match d_pending k with [] => (Err EAGAIN, k) | p :: q => (Ret (Z.pos p), Demo (d_log k) q (d_watched k)) end.
Definition demo_epoll (epfd : Z) (op : epoll_op) (fd h events : Z) (k : demo_sys) : answer * demo_sys :=
  match op with
  | EPOLL_CTL_ADD => (Ret 0, Demo (d_log k ++ [Watch fd h events]) (d_pending k) ({[fd]} ∪ d_watched k))
  | EPOLL_CTL_MOD => if bool_decide (fd ∈ d_watched k) then (Ret 0, Demo (d_log k ++ [Rewatch fd h events]) (d_pending k) (d_watched k)) else (Err ENOENT, k)
  | EPOLL_CTL_DEL => (Ret 0, k)
  end.
Definition demo_calls : calls demo_sys := {|
  sys_socket _ _ _ k := (Ret 5, k);
  sys_bind _ _ k := (Ret 0, k);
  sys_connect _ _ k := (Err EINPROGRESS, k);
  sys_listen _ _ k := (Ret 0, k);
  sys_accept4 := demo_accept;
  getsockname _ k := (inl (In AF_INET 1 80), k);
  getpeername _ k := (inl (In AF_INET 2 81), k);
  setsockopt _ _ _ _ k := (Ret 0, k);
  getsockopt fd level opt k := (inl (if opt =? TCP_INFO then if fd =? 3 then TCP_LISTEN else TCP_CLOSE else if opt =? SO_ERROR then 0 else 100000), k);
  getfl fd k := (if fd <? 100 then Ret 2 else Err EBADF, k);
  setfl _ _ k := (Ret 0, k);
  getfd _ k := (Ret 0, k);
  setfd _ _ k := (Ret 0, k);
  epoll_ctl := demo_epoll;
  sys_shutdown _ _ k := (Ret 0, k);
  sys_close _ k := (Ret 0, k);
  sys_unlink _ k := (Ret 0, k);
  ztrymalloc n k := (Some (replicate (Z.to_nat n) 0), k);
  objallo3 q k := (Some (1 + demo_max (elements q)), k);
  user e k := Demo (d_log k ++ [Told e]) (d_pending k) (d_watched k);
|}.
Definition demo_pool (p : Z) : option (list (Z * Z)) := Some [(4, 1); (6, 2)].
Definition demo_waiting (k : demo_sys) : list Z := map Z.pos (d_pending k).

Lemma demo_max_le q x : x ∈ q -> x <= demo_max q.
Proof. unfold demo_max. induction q as [|y q IH]; cbn [foldr]; [by intros ?%not_elem_of_nil |]. intros [-> | Hx]%elem_of_cons; [lia | specialize (IH Hx); lia]. Qed.
Lemma demo_fresh (q : gset Z) : 0 <= 1 + demo_max (elements q) /\ (1 + demo_max (elements q) ∉ q).
Proof.
  split.
  - assert (forall q, 0 <= demo_max q) as H by (intros q0; unfold demo_max; induction q0 as [|x q0 IH]; cbn in *; lia). specialize (H (elements q)). lia.
  - intros H%elem_of_elements%demo_max_le. revert H. generalize (demo_max (elements q)). lia.
Qed.

Definition demo_addr (s : list Z) : Z := 16777343.
Definition demo_ip : option (list Z) := Some [49; 46; 49; 0].
Definition demo_created : link_t := set_addr (In AF_INET 0 0) (In 0 0 0) [] (new_link 1 IPPROTO_TCP 5 (Some 9)).
