(* ===== verification/TcpModes.v ===== *)
(** What a TCP link is at all times: the modes its handlers can be in, and that every call and
    event of [TcpLink] keeps to them; and why no call of [tcp_listen] succeeds. *)
From S2P Require Import Prelude TcpAl Ncb Links TcpLink.
#[local] Open Scope monad_scope.

(** ** What a link is at all times *)
Section Invariant.
Context {K : Type} (C : calls K) (pool : Z -> option (list (Z * Z)))
  (inet_addr : list Z -> Z) (somaxconn : Z) (address : Z -> Z).

(** Its buffers, as the receive loop of [TcpAl] needs them. *)
Definition buffered (l : link_t) : Prop :=
  (exists b, rx_buffer (ncb l) = Some b /\ zlen b = TCP_BUFFER_SIZE) /\ rx_buffer_size (ncb l) = TCP_BUFFER_SIZE /\
  (exists p, rx_parse_buffer l = Some p /\ zlen p = TCP_BUFFER_SIZE).

(** Fresh, being connected, listening (and perhaps being connected), or established. *)
Inductive mode := Fresh | Connecting | Listening | ListeningConnecting | Established.
Definition mode_of (r w : option ncb_rw) : option mode :=
  match r, w with
  | None, None => Some Fresh
  | None, Some Tcp_tx_syn => Some Connecting
  | Some Tcp_syn, None => Some Listening
  | Some Tcp_syn, Some Tcp_tx_syn => Some ListeningConnecting
  | Some Tcp_rx, Some Tcp_tx => Some Established
  | _, _ => None
  end.

(** [called] is what holds of the callback. *)
Record tcp_link_ok (called : option Z -> Prop) (h : Z) (l : link_t) : Prop := {
  ok_hld : hld (ncb l) = h /\ 0 <= h;
  ok_protocol : protocol l = IPPROTO_TCP;
  ok_mode : is_Some (mode_of (ncb_read l) (ncb_write l));
  ok_established : mode_of (ncb_read l) (ncb_write l) = Some Established -> buffered l;
  ok_rx : forall b, rx_buffer (ncb l) = Some b -> zlen b = TCP_BUFFER_SIZE;
  ok_parse : forall p, rx_parse_buffer l = Some p -> zlen p = TCP_BUFFER_SIZE;
  ok_watched : ncb_read l = Some Tcp_syn \/ ncb_write l = Some Tcp_tx_syn -> is_Some (callback (ncb l));
  ok_path : zlen (sun_path l) < sizeof_sun_path;
  ok_callback : called (callback (ncb l));
}.

(** What the theorem needs of the system: an errno number is positive, a call that gives 0
    on success gives nothing else, the error of a socket is never EINTR, a block has the
    size asked for, a new object a new handle; and a pool has a thread. *)
Definition honest (f : K -> answer * K) : Prop := forall k, match (f k).1 with Ret n => n = 0 | Err e => 0 < e end.
Class Honest : Prop := {
  honest_epoll fd op s h ev : honest (epoll_ctl C fd op s h ev);
  honest_error fd k : match (getsockopt C fd SOL_SOCKET SO_ERROR k).1 with inl e | inr e => e <> EINTR end;
  honest_malloc n k b : 0 <= n -> (ztrymalloc C n k).1 = Some b -> zlen b = n;
  honest_handle q k h : (objallo3 C q k).1 = Some h -> 0 <= h /\ h ∉ q;
  honest_pool p eps : pool p = Some eps -> eps <> [];
}.
Context `{Hsys : !Honest}.

#[local] Abbreviation quiet := (Links.quiet (fun _ : K => tt)).
Lemma quiet_modify h mask : quiet h (io_modify C h mask).
Proof. unfold io_modify. quiet. Qed.
Lemma quiet_shutdown h how : quiet h (io_shutdown C h how).
Proof. unfold io_shutdown. quiet. Qed.
Lemma quiet_nonblock_fd h fd b : quiet h (set_nonblock_fd C fd b).
Proof. intros w _. unfold set_nonblock_fd. destruct (Ncb.io_set_nonblock _ _ _ _ _) as [r s]. by eexists _, _. Qed.
Lemma quiet_nonblock h b : quiet h (set_nonblock C h b).
Proof.
  intros w [l Hl]. unfold set_nonblock. rewrite Hl. cbn [mbind option_bind]. destruct (Ncb.ncb_set_nonblock _ _ _ _ _) as [r s]. by eexists _, _.
Qed.
#[local] Hint Resolve quiet_modify quiet_shutdown quiet_nonblock_fd quiet_nonblock : quiet.

(** Changes that do not touch what the invariant speaks of. *)
Section Changes.
Context (needs : option Z -> Prop).
#[local] Abbreviation tcp_link_ok := (tcp_link_ok needs).
Lemma ok_closing h l : tcp_link_ok h l -> tcp_link_ok h (set_closing l).
Proof. by intros []. Qed.
Lemma ok_epoll h fd tid l : tcp_link_ok h l -> tcp_link_ok h (set_epoll fd tid l).
Proof. by intros []. Qed.
Lemma ok_addr h a b p l : zlen p < sizeof_sun_path -> tcp_link_ok h l -> tcp_link_ok h (set_addr a b p l).
Proof. by intros ? []. Qed.
Lemma ok_tst h t p l : tcp_link_ok h l -> tcp_link_ok h (set_tst t p l).
Proof. by intros []. Qed.
Lemma ok_sockfd h fd l : tcp_link_ok h l -> tcp_link_ok h (set_ncb (set_sockfd fd (ncb l)) l).
Proof. by intros []. Qed.
Lemma ok_attr h a l : tcp_link_ok h l -> tcp_link_ok h (set_ncb (set_attr a (ncb l)) l).
Proof. by intros []. Qed.
End Changes.
#[local] Hint Resolve ok_closing ok_epoll ok_addr ok_tst ok_sockfd ok_attr ok_path : quiet.

(** [D] are handles that are in use all the time; every link has a callback. *)
Section Steps.
Context (D : gset Z).
#[local] Abbreviation tcp_link_ok := (tcp_link_ok is_Some).
#[local] Abbreviation ok_links := (Links.wf_links (K := K) tcp_link_ok D).
#[local] Abbreviation spec := (Links.spec (K := K) tcp_link_ok D).

(** What is said of a link besides: its callback, and perhaps its buffers. *)
Definition called (q : option Z -> Prop) (buf : bool) (l : link_t) : Prop := q (callback (ncb l)) /\ (buf = true -> buffered l).

Ltac step := first [apply spec_then; [solve [quiet] | intros ?] | eapply spec_bind; [|intros ?]].

(** A change that keeps the callback and the buffers. *)
Lemma spec_set h q buf f : (forall l, tcp_link_ok h l -> tcp_link_ok h (f l)) ->
  (forall l, callback (ncb (f l)) = callback (ncb l) /\ (buffered l -> buffered (f l))) -> spec h (called q buf) (upd h f) (fun _ => called q buf).
Proof.
  intros Hok Hf. apply spec_upd. intros l Hl [Hq Hb]. split; [by apply Hok |]. destruct (Hf l) as [Hc Hb']. split; [by rewrite Hc | auto].
Qed.

Lemma spec_nothing {A} h q buf (a : A) : spec h (called q buf) (ret a) (fun _ => called q buf).
Proof. by apply spec_ret. Qed.

Lemma spec_seq {A B} h P (m : M K A) (k : A -> M K B) Q : spec h P m (fun _ => P) -> (forall a, spec h P (k a) Q) -> spec h P (bind m k) Q.
Proof. intros Hm Hk. eapply spec_bind; [exact Hm |]. done. Qed.

Lemma spec_weaken {A} h P (m : M K A) (Q Q' : A -> link_t -> Prop) : spec h P m Q' -> (forall a l, Q' a l -> Q a l) -> spec h P m Q.
Proof. intros Hm H. eapply spec_conseq; [| exact Hm |]; auto. Qed.

Lemma spec_relate h q buf : spec h (called q buf) (tcp_relate_address C h) (fun _ => called q buf).
Proof.
  unfold tcp_relate_address. step. step. apply spec_seq.
  { match goal with |- spec _ _ (match ?x with _ => _ end) _ => destruct x end; [|apply spec_nothing].
    apply spec_set; [|done]. intros l Hl. apply ok_addr; [by eapply ok_path | done]. }
  intros _. step. match goal with |- spec _ _ (match ?x with _ => _ end) _ => destruct x end; [|apply spec_nothing].
  apply spec_set; [|done]. intros l Hl. apply ok_addr; [by eapply ok_path | done].
Qed.

Lemma spec_allocate_buffer h P n : 0 <= n -> spec h P (allocate C n) (fun b l => P l /\ forall x, b = Some x -> zlen x = n).
Proof.
  intros Hn w l Hw Hl Hp. unfold allocate. destruct (ztrymalloc C n (kern (sys w))) as [b k] eqn:E. eexists _, _, l. split; [reflexivity |].
  split; [by apply wf_sys |]. split; [done |]. split; [done |]. intros x ->. apply (honest_malloc n (kern (sys w))); [done |]. by rewrite E.
Qed.

Lemma spec_allocate h q : spec h (called q false) (tcp_allocate_rx_buffer C h) (fun st l => called q (NSP_SUCCESS st) l).
Proof.
  unfold tcp_allocate_rx_buffer. eapply spec_bind; [apply spec_the |]. intros l0.
  eapply (spec_bind _ _ _ _ _ _ (fun b l => l = l0 /\ called q false l /\ forall x, b = Some x -> zlen x = TCP_BUFFER_SIZE)).
  { destruct (rx_buffer (ncb l0)) as [b|] eqn:E.
    - apply spec_ret. intros l _ (-> & Hp & Hl). split; [done |]. split; [done |]. intros x [= <-]. by apply (ok_rx _ _ _ Hl).
    - eapply spec_weaken; [by apply spec_allocate_buffer |]. cbn. intros a l ((-> & Hp & _) & H). done. }
  intros [b|]; [|apply spec_ret; by intros l _ (_ & [Hq _] & _)].
  eapply (spec_bind _ _ _ _ _ _ (fun _ l => rx_parse_buffer l = rx_parse_buffer l0 /\ called q false l /\ rx_buffer (ncb l) = Some b /\ zlen b = TCP_BUFFER_SIZE /\
    rx_buffer_size (ncb l) = TCP_BUFFER_SIZE)).
  { apply spec_upd. intros l Hl (-> & [Hq _] & Hb). specialize (Hb b eq_refl). split; [|done]. destruct Hl as [A1 A2 A3 A4 A5 A6 A7 A8 A9]. split; try done.
    - intros Hm. destruct (A4 Hm) as (_ & _ & Hpb). split; [by exists b | done].
    - intros x [= <-]. done. }
  intros _. destruct (rx_parse_buffer l0) as [p|] eqn:Ep.
  - apply spec_ret. intros l Hl (Hpb & [Hq _] & Hrx & Hlen & Hsz). split; [done |]. intros _. split; [by exists b |]. split; [done |].
    exists p. split; [done |]. by apply (ok_parse _ _ _ Hl).
  - eapply spec_bind; [by apply spec_allocate_buffer |]. intros [p|].
    + eapply (spec_bind _ _ _ _ _ _ (fun _ => called q true)).
      * apply spec_upd. cbn. intros l Hl ((Hpb & [Hq _] & Hrx & Hlen & Hsz) & Hp). specialize (Hp p eq_refl).
        assert (buffered (set_parse 0 (Some p) l)) as Hbuf by (split; [by exists b | split; [done | by exists p]]). split; [|done].
        destruct Hl as [A1 A2 A3 A4 A5 A6 A7 A8 A9]. split; try done. intros x [= <-]. done.
      * intros _. apply spec_ret. intros l _ [Hq Hb]. done.
    + eapply (spec_bind _ _ _ _ _ _ (fun _ => called q false)).
      * apply spec_upd. cbn. intros l Hl ((Hpb & [Hq _] & _) & _). split; [|done]. destruct Hl as [A1 A2 A3 A4 A5 A6 A7 A8 A9]. split; try done.
        intros Hm. destruct (A4 Hm) as (_ & _ & (p & Hpp & _)). congruence.
      * intros _. apply spec_ret. intros l _ [Hq _]. done.
Qed.

Lemma spec_established h q : spec h (called q true) (established h) (fun _ => called q true).
Proof.
  apply spec_upd. intros l Hl [Hq Hb]. split; [|done]. destruct Hl as [A1 A2 A3 A4 A5 A6 A7 A8 A9]. split; try done.
  intros _. by apply Hb.
Qed.

Lemma spec_attach h q buf mask : spec h (called q buf) (io_attach C pool h mask) (fun _ => called q buf).
Proof.
  unfold io_attach. eapply spec_bind; [apply spec_the |]. intros l0. destruct (pool (protocol l0)) as [eps|] eqn:Ep.
  2: { apply spec_ret. by intros l _ (_ & H & _). }
  step. apply honest_pool in Ep. assert (0 < zlen eps) by (by apply zlen_pos).
  destruct (eps !! Z.to_nat (Z.rem (hld (ncb l0)) (zlen eps))) as [[fd tid]|] eqn:E.
  - eapply (spec_bind _ _ _ _ _ _ (fun _ => called q buf)).
    { eapply spec_conseq; [| apply (spec_set h q buf) |]; [by intros l _ (_ & H' & _) | | done | done]. intros l. apply ok_epoll. }
    intros _. step. step. apply spec_seq.
    { match goal with |- spec _ _ (if ?x then _ else _) _ => destruct x end; (apply spec_set; [intros l; apply ok_epoll | done]). }
    intros _. step. apply spec_nothing.
  - intros w l Hw Hl (-> & _ & Hok). exfalso. apply lookup_ge_None in E. destruct (ok_hld _ _ _ Hok) as [Hh H0].
    rewrite Hh in E. pose proof (Z.rem_bound_pos h (zlen eps) H0 H). unfold zlen in *. lia.
Qed.

Lemma spec_news h h' q buf e : h' = h \/ h' ∈ D -> spec h (called q buf) (notify C h' e) (fun _ => called q buf).
Proof. intros [-> | Hd]; [apply spec_notify | apply spec_told; [|done]]; by intros l []. Qed.

Lemma spec_connected h q buf : spec h (called q buf) (connected C pool h) (fun _ => called q buf).
Proof.
  unfold connected. step. apply spec_seq.
  - match goal with |- spec _ _ (match ?x with _ => _ end) _ => destruct x end; [apply spec_attach | apply spec_nothing].
  - intros st. destruct (NSP_SUCCESS st); [apply spec_seq; [apply spec_news; auto | intros ?] |]; apply spec_nothing.
Qed.

Lemma copy_path_len s : zlen (copy_path s) < sizeof_sun_path.
Proof. unfold copy_path, zlen, sizeof_sun_path. rewrite length_take. lia. Qed.
Lemma ok_path_copied h a b s l : tcp_link_ok h l -> tcp_link_ok h (set_addr a b (copy_path s) l).
Proof. apply ok_addr, copy_path_len. Qed.
Lemma ok_path_kept h a b l : tcp_link_ok h l -> tcp_link_ok h (set_addr a b (sun_path l) l).
Proof. intros Hl. apply ok_addr; [by eapply ok_path | done]. Qed.
#[local] Hint Resolve ok_path_copied ok_path_kept : quiet.

(** [keep] goes over changes of fields the invariant does not speak of, and calls. *)
Ltac keep := first
  [ apply spec_nothing
  | apply spec_relate | apply spec_attach | apply spec_connected | apply spec_news; solve [auto]
  | apply spec_set; [solve [eauto with quiet] | done]
  | apply spec_quiet; solve [quiet] ].
Ltac next := first [apply spec_then; [solve [quiet] | intros ?] | apply spec_seq; [solve [keep] | intros ?]].

(** What is left of a call whose result nobody looks at. *)
Lemma spec_end {A} h q buf (m : M K A) : spec h (called q false) m (fun _ => called q false) -> spec h (called q buf) m (fun _ => called q false).
Proof. intros Hm. eapply spec_conseq; [| exact Hm | done]. by intros l _ [Hq _]. Qed.
Lemma spec_end' {A} h q buf (m : M K A) : spec h (called q buf) m (fun _ => called q buf) -> spec h (called q buf) m (fun _ => called q false).
Proof. intros Hm. eapply spec_weaken; [exact Hm |]. by intros a l [Hq _]. Qed.

(** The buffers, and what follows when they are there. *)
Lemma spec_allocated {A} h q (a : Z -> A) (k : M K A) : spec h (called q true) k (fun _ => called q false) ->
  spec h (called q false) (status <- tcp_allocate_rx_buffer C h;; if NSP_SUCCESS status then k else ret (a status)) (fun _ => called q false).
Proof.
  intros Hk. eapply spec_bind; [apply spec_allocate |]. intros st. cbn beta. destruct (NSP_SUCCESS st); [done |]. apply spec_end'. keep.
Qed.

Lemma spec_allocated_neg {A} h q (a : Z -> A) (k : M K A) : spec h (called q true) k (fun _ => called q false) ->
  spec h (called q false) (status <- tcp_allocate_rx_buffer C h;; if negb (NSP_SUCCESS status) then ret (a status) else k) (fun _ => called q false).
Proof.
  intros Hk. eapply spec_bind; [apply spec_allocate |]. intros st. cbn beta. destruct (NSP_SUCCESS st); cbn [negb]; [done |]. apply spec_end'. keep.
Qed.

Lemma spec_finish h q : spec h (called q true) (established h;;; connected C pool h) (fun _ => called q false).
Proof. eapply spec_bind; [apply spec_established |]. intros ?. cbn beta. apply spec_end'. keep. Qed.

Lemma spec_connect_domain h q domain : spec h (called q false) (_tcp_connect_domain C pool h domain) (fun _ => called q false).
Proof.
  unfold _tcp_connect_domain. next. apply spec_seq.
  { destruct (bool_decide _); [|keep]. destruct (no_text domain); [keep |]. destruct (is_ipc _); [|keep]. next. keep. }
  intros ok. destruct (negb ok); [keep |]. next. next. destruct (_ <? 0); [next; keep |].
  apply spec_allocated, spec_finish.
Qed.

Lemma spec_connect h q ip port : spec h (called q false) (_tcp_connect C pool inet_addr h ip port) (fun _ => called q false).
Proof.
  unfold _tcp_connect. destruct (bad_target ip port); [keep |]. next. destruct a as [st|]; [keep |]. next. next.
  destruct (negb _); [keep |]. next. next. destruct (_ <? 0); [next; keep |]. apply spec_allocated. next. next. apply spec_finish.
Qed.

Lemma spec_link_error h P : spec h P (ncb_query_link_error C h) (fun re l => P l /\ re.2 <> EINTR).
Proof.
  intros w l Hw Hl Hp. unfold ncb_query_link_error, getopt_int, the, query, get_errno, bind, ret. rewrite Hl. cbn [mbind option_bind].
  pose proof (honest_error (sockfd (ncb l)) (kern (sys w))) as He.
  destruct (getsockopt C (sockfd (ncb l)) SOL_SOCKET SO_ERROR (kern (sys w))) as [[e|e] k]; cbn [fst] in He;
    (eexists _, _, l; split; [reflexivity |]; split; [by apply wf_sys |]; by repeat (split; [done |])).
Qed.

Lemma spec_close h q buf : spec h (called q buf) (objclos h) (fun _ => called q false).
Proof. apply spec_objclos. intros l Hl [Hq _]. split; [by apply ok_closing | done]. Qed.

Lemma spec_tx_syn h q fuel : (0 < fuel)%nat -> spec h (called q false) (tcp_tx_syn C fuel h) (fun _ => called q false).
Proof.
  destruct fuel as [|fuel]; [lia |]. intros _. cbn [tcp_tx_syn]. eapply spec_bind; [apply spec_link_error |]. intros [r e].
  cbn [snd]. apply (spec_conseq _ _ _ _ (fun l => called q false l /\ e <> EINTR) _ _ (fun _ => called q false)); [done | | done].
  assert (forall A (m : M K A) (Q : A -> link_t -> Prop), (e <> EINTR -> spec h (called q false) m Q) -> spec h (fun l => called q false l /\ e <> EINTR) m Q) as Hpull.
  { intros A m Q H w l Hw Hl [Hq He]. exact (H He w l Hw Hl Hq). }
  apply Hpull. intros He. destruct (0 =? r).
  - eapply spec_bind; [apply spec_allocate |]. intros st. cbn beta. destruct (NSP_SUCCESS st); cbn [negb].
    + next. apply spec_seq; [destruct (negb _); [next; keep | keep] |]. intros _.
      eapply spec_bind; [apply spec_established |]. intros ?. cbn beta. next. destruct (negb _).
      * eapply spec_bind; [apply spec_close |]. intros ?. cbn beta. keep.
      * next. apply spec_end'. keep.
    + eapply spec_bind; [apply spec_close |]. intros ?. cbn beta. keep.
  - destruct (_ || _); [keep |]. rewrite (proj2 (Z.eqb_neq e EINTR)) by done. destruct (e =? EAGAIN); keep.
Qed.

Lemma spec_claim h : spec h (called is_Some false) (claim_write h) (fun _ => called is_Some false).
Proof.
  unfold claim_write. eapply spec_bind; [apply spec_the |]. intros l0. destruct (ncb_write l0) as [x|] eqn:Ew.
  { apply spec_ret. by intros l _ (_ & H & _). }
  eapply (spec_bind _ _ _ _ _ _ (fun _ => called is_Some false)); [|intros _; keep].
  apply spec_upd. intros l Hl (-> & [Hq _] & _). split; [|done]. destruct Hl as [A1 A2 A3 A4 A5 A6 A7 A8 A9].
  rewrite Ew in A3, A4. split; try done; cbn [ncb_read ncb_write set_rw].
  - destruct (ncb_read l0) as [[]|]; cbn in A3 |- *; try done; by destruct A3.
  - destruct (ncb_read l0) as [[]|]; done.
Qed.

Lemma spec_connect2_call h q fuel target : (0 < fuel)%nat -> spec h (called q false) (connect2 C pool fuel h target) (fun _ => called q false).
Proof.
  intros Hf. unfold connect2. next. next. destruct (0 =? _).
  - eapply spec_bind; [by apply spec_tx_syn |]. intros ?. cbn beta. keep.
  - next. destruct (_ =? _); keep.
Qed.

Lemma spec_connect2_domain h fuel domain : (0 < fuel)%nat -> spec h (called is_Some false) (_tcp_connect2_domain C pool fuel h domain) (fun _ => called is_Some false).
Proof.
  intros Hf. unfold _tcp_connect2_domain. next. apply spec_seq.
  { destruct (bool_decide _); [|keep]. destruct (no_text domain); [keep |]. next. keep. }
  intros ok. destruct (negb ok); [keep |]. next. destruct (negb _); [keep |]. eapply spec_bind; [apply spec_claim |]. intros cl.
  destruct (negb cl); [keep |]. next. by apply spec_connect2_call.
Qed.

Lemma spec_connect2 h fuel ip port : (0 < fuel)%nat -> spec h (called is_Some false) (_tcp_connect2 C pool inet_addr fuel h ip port) (fun _ => called is_Some false).
Proof.
  intros Hf. unfold _tcp_connect2. destruct (bad_target ip port); [keep |]. next. destruct (negb _); [keep |]. next. next.
  destruct a1 as [st|]; [keep |]. next. next. destruct (negb _); [keep |]. eapply spec_bind; [apply spec_claim |]. intros cl.
  destruct (negb cl); [keep |]. next. by apply spec_connect2_call.
Qed.

Lemma spec_listen h block : spec h (called (fun _ => True) false) (listen_steps C pool somaxconn address h block) (fun _ => called (fun _ => True) false).
Proof.
  unfold listen_steps. eapply spec_bind; [apply spec_the |]. intros l0. destruct (callback (ncb l0)) as [c|] eqn:Ec.
  2: { apply spec_ret. by intros l _ (_ & H & _). }
  apply (spec_conseq _ _ _ _ (called is_Some false) _ _ (fun _ => called is_Some false)); [| | by intros a l _ [_ _]].
  { intros l _ (-> & _). split; [by rewrite Ec | done]. }
  apply spec_seq; [destruct (_ =? _); [next; keep | keep] |]. intros _. next. destruct a as [st state]. destruct (_ && _); [keep |].
  next. next. destruct (negb _); [keep |]. next. destruct (_ =? -1); [next; keep |].
  eapply spec_bind; [apply spec_the |]. intros l1. destruct (ncb_read l1) as [x|] eqn:Er.
  { apply spec_ret. by intros l _ (_ & H & _). }
  eapply (spec_bind _ _ _ _ _ _ (fun _ => called is_Some false)).
  { apply spec_upd. intros l Hl (-> & [Hq _] & _). split; [|done]. by destruct Hl. }
  intros _. next. destruct (negb _); [keep |]. next. destruct (negb _); [keep |].
  apply spec_seq; [|intros _; keep]. destruct (negb _); [|keep]. next.
  match goal with |- spec _ _ (match ?x with _ => _ end) _ => destruct x end; keep.
Qed.

Lemma setattr_keeps a c s : exists r c' s', ncb_setattr_r (getfl C) (setfl C) c a s = (r, c', s') /\ exists x, c' = set_attr x c.
Proof.
  unfold ncb_setattr_r.
  assert (forall b s1 st, exists r c' s', (if b : bool then let '(status, s2) := ncb_set_nonblock (getfl C) (setfl C) (set_attr st c) false s1 in
      if NSP_SUCCESS status then (attr c, set_attr (Z.land (attr (set_attr st c)) (Z.lnot LINKATTR_NONBLOCK)) (set_attr st c), s2)
      else (posix__makeerror status, set_attr (Z.lor (attr (set_attr st c)) LINKATTR_NONBLOCK) (set_attr st c), s2)
    else (attr c, set_attr st c, s1)) = (r, c', s') /\ exists x, c' = set_attr x c) as Hoff.
  { intros b s1 st. destruct b; [|do 3 eexists; split; [reflexivity | by exists st]]. destruct (ncb_set_nonblock _ _ _ _ _) as [r s2].
    destruct (NSP_SUCCESS r); (do 3 eexists; split; [reflexivity | by eexists]). }
  destruct (_ && _).
  - destruct (ncb_set_nonblock _ _ _ true _) as [r s1]. destruct (NSP_SUCCESS r); [apply Hoff |]. do 3 eexists. split; [reflexivity | by eexists].
  - apply Hoff.
Qed.
Lemma spec_setattr h q buf a : spec h (called q buf) (setattr_r C h a) (fun _ => called q buf).
Proof.
  intros w l Hw Hl Hp. unfold setattr_r. rewrite Hl. cbn [mbind option_bind]. destruct (setattr_keeps a (ncb l) (sys w)) as (r & c & s & -> & x & ->).
  eexists _, _, _. split; [reflexivity |]. split; [apply wf_insert; [done | by apply ok_attr, (wf_all _ _ _ Hw)] |].
  split; [apply lookup_insert_eq | done].
Qed.

Lemma spec_at {A} h h' q buf (k : link_t -> M K A) Q : h' ∈ D -> (forall l0, spec h (called q buf) (k l0) Q) -> spec h (called q buf) (bind (the h') k) Q.
Proof.
  intros Hd Hk. eapply spec_bind; [by apply spec_other |]. intros l0. cbn beta. intros w l Hw Hl [Hp _]. by apply (Hk l0 w l).
Qed.

Lemma spec_syn_dpc hs h q : hs ∈ D -> spec h (called q false) (_tcp_syn_dpc C pool hs h) (fun _ => called q false).
Proof.
  intros Hd. unfold _tcp_syn_dpc. apply spec_at; [done |]. intros server. apply spec_seq.
  { destruct (_ =? _); [keep |]. next. next. next. keep. }
  intros _. next. next. apply spec_allocated_neg. eapply spec_bind; [apply spec_established |]. intros ?. cbn beta. apply spec_seq.
  { destruct (negb _); [|keep]. apply spec_seq; [apply spec_setattr |]. intros ?. apply spec_at; [done |]. intros server'. keep. }
  intros _. apply spec_end'. next. destruct (negb _); [keep |]. next. next. keep.
Qed.

Lemma spec_create_domain h q domain : spec h (called q false) (_tcp_create_domain C h domain) (fun _ => called q false).
Proof. unfold _tcp_create_domain. next. destruct (_ <? 0); [next; keep |]. next. destruct (negb _); next; keep. Qed.
Lemma spec_create h q ip port : spec h (called q false) (_tcp_create C inet_addr h ip port) (fun _ => called q false).
Proof. unfold _tcp_create. next. destruct (_ <? 0); [next; keep |]. next. next. keep. Qed.

(** A program that finds its link, or does nothing. *)
Lemma kept_refr {A} (w : world K) h (m : Z -> M K A) : ok_links w ->
  (forall st, NSP_SUCCESS st = false -> exists a, m st w = Some (a, w)) ->
  (forall st, spec h (called (fun _ => True) false) (m st) (fun _ => called (fun _ => True) false)) ->
  exists a w', (bind (_tcprefr h) m) w = Some (a, w') /\ ok_links w'.
Proof.
  intros Hw Hf Hs. destruct (refr_some (- EINVAL) IPPROTO_TCP h w) as (st & E & Hst); [done |]. unfold _tcprefr. rewrite (bind_some _ _ _ _ _ E).
  destruct (NSP_SUCCESS st) eqn:Es.
  - destruct (Hst eq_refl) as (l & Hl & _). destruct (Hs st w l Hw Hl) as (a & w' & l' & E' & Hw' & _); [done |]. by exists a, w'.
  - destruct (Hf st Es) as [a E']. by exists a, w.
Qed.

Lemma kept_create w cb ip port : is_Some cb -> ok_links w -> exists r w', tcp_create C inet_addr cb ip port w = Some (r, w') /\ ok_links w' /\
  (r = INVALID_HTCPLINK \/ is_Some (links w' !! r)).
Proof.
  intros Hcb Hw. unfold tcp_create, create_object, bind at 1. destruct (objallo3 C (dom (links w)) (kern (sys w))) as [[h|] k] eqn:E.
  2: { exists INVALID_HTCPLINK, (World (links w) (Os k (errno (sys w)))). split; [done |]. split; [by apply wf_sys | by left]. }
  destruct (honest_handle (dom (links w)) (kern (sys w)) h) as [H0 Hn]; [by rewrite E |].
  assert (tcp_link_ok h (new_link h IPPROTO_TCP 0 cb)) as Hok by (split; cbn; try done; by intros [?|?]).
  set (w1 := World (<[h := new_link h IPPROTO_TCP 0 cb]> (links w)) (Os k (errno (sys w)))).
  assert (ok_links w1) as Hw1 by (by apply wf_insert).
  assert (spec h (called (fun _ => True) false)
    (match ip with Some s => if is_ipc s then _tcp_create_domain C h (drop 4 s) else _tcp_create C inet_addr h ip port | None => _tcp_create C inet_addr h ip port end)
    (fun _ => called (fun _ => True) false)) as Hs.
  { destruct ip as [s|]; [destruct (is_ipc s); [apply spec_create_domain |] |]; apply spec_create. }
  destruct (Hs w1 _ Hw1 (lookup_insert_eq _ _ _)) as (st & w2 & l2 & E2 & Hw2 & Hl2 & _); [done |]. rewrite (bind_some _ _ _ _ _ E2).
  destruct (NSP_SUCCESS st).
  - exists h, w2. split; [done |]. split; [done | right; by eexists].
  - destruct (spec_close h (fun _ => True) false w2 l2 Hw2 Hl2) as (u & w3 & l3 & E3 & Hw3 & _); [done |]. rewrite (bind_some _ _ _ _ _ E3).
    exists INVALID_HTCPLINK, w3. split; [done |]. split; [done | by left].
Qed.

Lemma kept_settst w h tst : ok_links w -> exists r w', tcp_settst_r h tst w = Some (r, w') /\ ok_links w'.
Proof.
  intros Hw. unfold tcp_settst_r. destruct tst as [t|]; [|by eexists _, _]. destruct (_ <? _); [by eexists _, _ |]. apply (kept_refr w h); [done | |].
  - intros st ->. by eexists.
  - intros st. apply spec_seq; [destruct (NSP_SUCCESS st); keep | intros _; keep].
Qed.

Lemma kept_destroy w h : ok_links w -> exists u w', tcp_destroy C h w = Some (u, w') /\ ok_links w'.
Proof.
  intros Hw. apply (kept_refr w h); [done | |].
  - intros st ->. by eexists.
  - intros st. destruct (NSP_SUCCESS st); [next |]; keep.
Qed.

Lemma kept_create2 w cb ip port tst : is_Some cb -> ok_links w ->
  exists r w', tcp_create2 C inet_addr cb ip port tst w = Some (r, w') /\ ok_links w'.
Proof.
  intros Hcb Hw. unfold tcp_create2. destruct (kept_create w cb ip port Hcb Hw) as (r & w1 & E & Hw1 & _). rewrite (bind_some _ _ _ _ _ E).
  destruct (r =? INVALID_HTCPLINK); [by eexists _, _ |]. destruct tst as [t|]; [|by eexists _, _].
  destruct (kept_settst w1 r (Some t) Hw1) as (st & w2 & E2 & Hw2). rewrite (bind_some _ _ _ _ _ E2). destruct (NSP_SUCCESS st); [by eexists _, _ |].
  destruct (kept_destroy w2 r Hw2) as (u & w3 & E3 & Hw3). rewrite (bind_some _ _ _ _ _ E3). by eexists _, _.
Qed.

(** A turn of accepting. *)
Lemma kept_syn w hs l : hs ∈ D -> ok_links w -> links w !! hs = Some l ->
  exists r w' l', _tcp_syn C pool hs w = Some (r, w') /\ ok_links w' /\ links w' !! hs = Some l'.
Proof.
  intros Hd Hw Hl. assert (forall w' : world K, ok_links w' -> exists l', links w' !! hs = Some l') as Hin.
  { intros w' [_ Hdom]. apply elem_of_dom. by apply Hdom. }
  assert (exists r w', _tcp_syn C pool hs w = Some (r, w') /\ ok_links w') as (r & w' & E & Hw'); [|destruct (Hin w' Hw') as [l' Hl']; by eauto 6].
  clear Hin. unfold _tcp_syn.
  destruct (spec_quiet tcp_link_ok D hs (called (fun _ => True) false) _ (quiet_info C _ hs) w l Hw Hl) as ([st state] & w1 & l1 & E1 & Hw1 & Hl1 & _); [done |].
  rewrite (bind_some _ _ _ _ _ E1). destruct (_ && _); [by eexists _, _ |].
  assert (quiet hs (_tcp_syn_try C hs)) as Hq by (unfold _tcp_syn_try; quiet).
  destruct (spec_quiet tcp_link_ok D hs (called (fun _ => True) false) _ Hq w1 l1 Hw1 Hl1) as ([st2 fd] & w2 & l2 & E2 & Hw2 & Hl2 & _); [done |].
  rewrite (bind_some _ _ _ _ _ E2). destruct (negb _); [by eexists _, _ |].
  rewrite (bind_some (the hs) _ w2 l2 w2) by (unfold the; by rewrite Hl2).
  unfold create_object, bind at 1. destruct (objallo3 C (dom (links w2)) (kern (sys w2))) as [[h|] k] eqn:E.
  2: { unfold bind, call. cbn [sys links]. destruct (syscall _ _) as [r s]. eexists _, _. split; [reflexivity | by apply wf_sys]. }
  destruct (honest_handle (dom (links w2)) (kern (sys w2)) h) as [H0 Hn]; [by rewrite E |].
  pose proof (ok_callback _ _ _ (wf_all _ _ _ Hw2 hs l2 Hl2)) as Hcb.
  assert (tcp_link_ok h (new_link h IPPROTO_TCP fd (callback (ncb l2)))) as Hok by (split; cbn; try done; by intros [?|?]).
  set (w3 := World (<[h := new_link h IPPROTO_TCP fd (callback (ncb l2))]> (links w2)) (Os k (errno (sys w2)))).
  assert (ok_links w3) as Hw3 by (by apply wf_insert).
  destruct (spec_syn_dpc hs h (fun _ => True) Hd w3 _ Hw3 (lookup_insert_eq _ _ _)) as (st4 & w4 & l4 & E4 & Hw4 & Hl4 & _); [done |].
  rewrite (bind_some _ _ _ _ _ E4). destruct (negb _); [|by eexists _, _].
  destruct (spec_close h (fun _ => True) false w4 l4 Hw4 Hl4) as (u & w5 & l5 & E5 & Hw5 & _); [done |]. rewrite (bind_some _ _ _ _ _ E5). by eexists _, _.
Qed.

(** Its loop, as far as it goes in [fuel] turns. *)
Lemma kept_tcp_syn fuel hs : hs ∈ D -> forall w l, ok_links w -> links w !! hs = Some l ->
  exists st w', tcp_syn C pool fuel hs w = Some (st, w') /\ ok_links w'.
Proof.
  intros Hd. induction fuel as [|fuel IH]; intros w l Hw Hl; [by eexists _, _ |]. cbn [tcp_syn].
  destruct (kept_syn w hs l Hd Hw Hl) as (r & w1 & l1 & E & Hw1 & Hl1). rewrite (bind_some _ _ _ _ _ E).
  destruct (NSP_SUCCESS r); [by eapply IH | by eexists _, _].
Qed.
End Steps.

(** The calls the program makes create links with a callback. *)
Definition op_called (op : link_op) : Prop := match op with Create cb _ _ _ => is_Some cb | _ => True end.

(** Only accepting may not come back. *)
Definition comes_back (op : link_op) (r : option Z) : Prop := is_Some r \/ exists h, op = Acceptable h.

Lemma link_step_ok fuel op w : (0 < fuel)%nat -> op_called op -> (forall h l, links w !! h = Some l -> tcp_link_ok is_Some h l) ->
  exists r w', link_step C pool inet_addr somaxconn address fuel op w = Some (r, w') /\ comes_back op r /\
    wf_links (tcp_link_ok is_Some) (dom (links w)) w'.
Proof.
  intros Hf Hop Hall. assert (wf_links (tcp_link_ok is_Some) (dom (links w)) w) as Hw by done.
  assert (forall m, (exists r w', m w = Some (r, w') /\ wf_links (tcp_link_ok is_Some) (dom (links w)) w') ->
    exists r w', (r <- m;; ret (Some r)) w = Some (r, w') /\ comes_back op r /\ wf_links (tcp_link_ok is_Some) (dom (links w)) w') as Hback.
  { intros m (r & w' & E & Hw'). rewrite (bind_some _ _ _ _ _ E). exists (Some r), w'. split; [done |]. split; [left; by eexists | done]. }
  destruct op as [cb ip port tst | h tst | h ip port | h ip port | h block | h | h | h]; cbn [link_step]; try apply Hback.
  - by apply kept_create2.
  - by apply kept_settst.
  - unfold tcp_connect. destruct (h <? 0); [by eexists _, _ |]. apply (kept_refr _ w h); [done | |].
    + intros st ->. by eexists.
    + intros st. destruct (negb _); [apply spec_nothing |]. apply spec_then; [apply quiet_the |]. intros l.
      destruct (_ =? _); [apply spec_connect_domain | apply spec_connect].
  - unfold tcp_connect2. destruct (h <? 0); [by eexists _, _ |]. apply (kept_refr _ w h); [done | |].
    + intros st ->. by eexists.
    + intros st. destruct (negb _); [apply spec_nothing |]. eapply spec_bind; [apply spec_the |]. intros l0.
      destruct (callback (ncb l0)) as [c|] eqn:Ec; [|apply spec_ret; by intros l _ (_ & H & _)].
      apply (spec_conseq _ _ _ _ (called is_Some false) _ _ (fun _ => called is_Some false)); [| | by intros a l _ [_ _]].
      { intros l _ (-> & _). split; [by rewrite Ec | done]. }
      destruct (_ =? _); [by apply spec_connect2_domain | by apply spec_connect2].
  - unfold tcp_listen. destruct (_ || _); [by eexists _, _ |]. apply (kept_refr _ w h); [done | |].
    + intros st ->. by eexists.
    + intros st. destruct (NSP_SUCCESS st); [apply spec_listen | apply spec_nothing].
  - destruct (kept_destroy _ w h Hw) as (u & w1 & E & Hw1). rewrite (bind_some _ _ _ _ _ E). eexists _, _. split; [reflexivity |].
    split; [left; by eexists | done].
  - destruct (found_some h w) as (b & E & Hb).
    assert (exists u w', on_connectable C fuel h w = Some (u, w') /\ wf_links (tcp_link_ok is_Some) (dom (links w)) w') as (u & w1 & E1 & Hw1).
    2: { rewrite (bind_some _ _ _ _ _ E1). eexists _, _. split; [reflexivity |]. split; [left; by eexists | done]. }
    unfold on_connectable. rewrite (bind_some _ _ _ _ _ E). destruct b; [|by eexists _, _]. cbn [negb]. destruct (Hb eq_refl) as (l & Hl & _).
    rewrite (bind_some (the h) _ w l w) by (unfold the; by rewrite Hl). destruct (ncb_write l) as [[]|]; try by eexists _, _.
    destruct (spec_tx_syn (dom (links w)) h (fun _ => True) fuel Hf w l Hw Hl) as (st & w2 & l2 & E2 & Hw2 & Hl2 & _); [done |].
    rewrite (bind_some _ _ _ _ _ E2). destruct (_ || _); [by eexists _, _ |].
    destruct (spec_close (dom (links w)) h (fun _ => True) false w2 l2 Hw2 Hl2) as (u & w3 & l3 & E3 & Hw3 & _); [done |]. by exists u, w3.
  - assert (exists b w', on_acceptable C pool fuel h w = Some (b, w') /\ wf_links (tcp_link_ok is_Some) (dom (links w)) w') as (b & w1 & E1 & Hw1).
    2: { rewrite (bind_some _ _ _ _ _ E1). eexists _, _. split; [reflexivity |]. split; [right; by eexists | done]. }
    destruct (found_some h w) as (b & E & Hb). unfold on_acceptable. rewrite (bind_some _ _ _ _ _ E). destruct b; [|by eexists _, _].
    cbn [negb]. destruct (Hb eq_refl) as (l & Hl & _). rewrite (bind_some (the h) _ w l w) by (unfold the; by rewrite Hl).
    destruct (ncb_read l) as [[]|] eqn:Er; try by eexists _, _. assert (h ∈ dom (links w)) as Hd by (apply elem_of_dom; by eexists).
    destruct (kept_tcp_syn (dom (links w)) fuel h Hd w l Hw Hl) as (st & w2 & E2 & Hw2). rewrite (bind_some _ _ _ _ _ E2).
    destruct st as [st|]; [|by eexists _, _]. destruct (NSP_SUCCESS_OR_ERROR_EQUAL st EAGAIN); [by eexists _, _ |].
    assert (is_Some (links w2 !! h)) as [l2 Hl2] by (apply elem_of_dom; by apply (wf_dom _ _ _ Hw2)).
    destruct (spec_close (dom (links w)) h (fun _ => True) false w2 l2 Hw2 Hl2) as (u & w3 & l3 & E3 & Hw3 & _); [done |].
    rewrite (bind_some _ _ _ _ _ E3). by eexists _, _.
Qed.

(** C8: links with a callback.  Whatever calls and events come, one after the other, and
    whatever the system answers within its own rules ([Honest]: errno is positive, blocks
    have the size asked for, new handles are new, SO_ERROR is not EINTR): no access goes wrong, no link disappears from the table,
    and every link is fresh, being connected, listening or established, with the two
    handlers that belong to that state; an established one has both receive buffers, of the
    size the receive loop relies on.  Every call and event comes back, but for EPOLLIN on a
    listening link: the run ends where [tcp_syn] still loops after [fuel] turns, and the
    links are in order there too.  (A link without a callback crashes when it connects,
    [connected_without_callback].) *)
Theorem tcp_links_stay_ok fuel ops w : (0 < fuel)%nat -> Forall op_called ops ->
  (forall h l, links w !! h = Some l -> tcp_link_ok is_Some h l) ->
  exists rs w', link_run C pool inet_addr somaxconn address fuel ops w = Some (rs, w') /\
    (length rs = length ops \/ exists h, ops !! length rs = Some (Acceptable h)) /\
    (forall h l, links w' !! h = Some l -> tcp_link_ok is_Some h l) /\ dom (links w) ⊆ dom (links w').
Proof.
  intros Hf. revert w. induction ops as [|op ops IH]; intros w Hops Hw.
  { exists [], w. split; [done |]. split; [by left | done]. }
  apply Forall_cons in Hops as [Hop Hops].
  destruct (link_step_ok fuel op w Hf Hop Hw) as (r & w1 & E1 & Hb & [Hw1 Hd1]). cbn [link_run]. rewrite (bind_some _ _ _ _ _ E1).
  destruct r as [r|].
  - destruct (IH w1 Hops Hw1) as (rs & w2 & E2 & Hlen & Hw2 & Hd2). rewrite (bind_some _ _ _ _ _ E2). exists (r :: rs), w2. split; [done |].
    split; [destruct Hlen as [Hlen | Hlen]; [left; cbn; lia | by right] |]. split; [done |]. by etrans.
  - destruct Hb as [[x Hx] | [h ->]]; [done |]. exists [], w1. split; [done |]. split; [right; by exists h | done].
Qed.

(** C35: a listening link whose socket the kernel does not show as listening, as after a shutdown:
    [_tcp_syn] calls that a success, and the loop of [tcp_syn] never ends.  The epoll thread
    stays in it, whatever the number of turns. *)
Theorem tcp_syn_spins fuel hs w l : links w !! hs = Some l -> closing l = false -> ncb_read l = Some Tcp_syn ->
  (forall k, exists state k', getsockopt C (sockfd (ncb l)) IPPROTO_TCP TCP_INFO k = (inl state, k') /\ state <> TCP_LISTEN) ->
  exists w', on_acceptable C pool fuel hs w = Some (false, w') /\ links w' = links w.
Proof.
  intros Hl Hc Hr Hinfo. unfold on_acceptable. rewrite (bind_some (found hs) _ w true w) by (unfold found; by rewrite Hl, Hc). cbn [negb].
  rewrite (bind_some (the hs) _ w l w) by (unfold the; by rewrite Hl). rewrite Hr. cbn iota.
  assert (exists w', tcp_syn C pool fuel hs w = Some (None, w') /\ links w' = links w) as (w' & E & Hw').
  2: { rewrite (bind_some _ _ _ _ _ E). by exists w'. }
  revert w Hl. induction fuel as [|fuel IH]; intros w Hl; [by exists w |]. cbn [tcp_syn].
  destruct (Hinfo (kern (sys w))) as (state & k & Ek & Hne). set (w1 := World (links w) (Os k (errno (sys w)))).
  assert (_tcp_syn C pool hs w = Some (NSP_STATUS_SUCCESSFUL, w1)) as E.
  { unfold _tcp_syn, tcp_save_info, getopt_int, the, query, bind, ret. rewrite Hl. cbn [mbind option_bind]. rewrite Ek.
    by rewrite (proj2 (Z.eqb_neq state TCP_LISTEN)) by done. }
  rewrite (bind_some _ _ _ _ _ E). change (NSP_SUCCESS NSP_STATUS_SUCCESSFUL) with true. cbv iota.
  destruct (IH w1 Hl) as (w' & E' & Hw'). by exists w'.
Qed.

(** C39: [tcp_listen] hands [io_set_nonblock] the pointer to the link in place of its descriptor.
    As long as the low half of that address is no open descriptor, no call succeeds, whatever
    the kernel says to bind(2) and listen(2): it always returns, with an error, and the link is
    never given to epoll, so that no connection to it is ever accepted. *)
Theorem tcp_listen_never_succeeds h block w l : (forall h l, links w !! h = Some l -> tcp_link_ok (fun _ => True) h l) -> links w !! h = Some l ->
  (forall fd n, honest (sys_listen C fd n)) -> (forall k, exists e k', getfl C (s32 (address h)) k = (Err e, k') /\ 0 < e) ->
  exists st w' l', tcp_listen C pool somaxconn address h block w = Some (st, w') /\ st < 0 /\ links w' !! h = Some l' /\ epfd l' = epfd l.
Proof.
  intros Hall Hl Hlisten Hfcntl. assert (wf_links (tcp_link_ok (fun _ => True)) (dom (links w)) w) as Hw by done.
  set (P := fun l' : link_t => epfd l' = epfd l). set (Q := fun (st : Z) l' => st < 0 /\ P l').
  assert (Links.spec (K := K) (tcp_link_ok (fun _ => True)) (dom (links w)) h P (tcp_listen C pool somaxconn address h block) Q) as Hs.
  2: { destruct (Hs w l Hw Hl eq_refl) as (st & w' & l' & E & _ & Hl' & Hst & Hp). by exists st, w', l'. }
  assert (forall st, st < 0 -> Links.spec (K := K) (tcp_link_ok (fun _ => True)) (dom (links w)) h P (ret st) Q) as Hfail by (intros st Hst; by apply spec_ret).
  assert (forall st, NSP_SUCCESS st = false -> st < 0) as Hneg by (intros st; apply Z.leb_gt).
  unfold tcp_listen. destruct (_ || _); [by apply Hfail |].
  apply spec_then; [unfold _tcprefr; apply quiet_refr |]. intros st. destruct (NSP_SUCCESS st) eqn:Est; [|by apply Hfail, Hneg].
  unfold listen_steps. eapply spec_bind; [apply spec_the |]. intros l0. destruct (callback (ncb l0)) as [c|] eqn:Ec.
  2: { apply spec_ret. intros l' _ (_ & H & _). by split. }
  apply (spec_conseq _ _ _ _ (fun l' => P l' /\ is_Some (callback (ncb l'))) _ _ Q); [| | done].
  { intros l' _ (-> & H & _). split; [done | by rewrite Ec]. }
  assert (forall st, st < 0 -> Links.spec (K := K) (tcp_link_ok (fun _ => True)) (dom (links w)) h (fun l' => P l' /\ is_Some (callback (ncb l'))) (ret st) Q) as Hfail'
    by (intros st' Hst; apply spec_ret; intros l' _ [H _]; by split).
  eapply (spec_bind _ _ _ _ _ _ (fun _ l' => P l' /\ is_Some (callback (ncb l')))).
  { destruct (_ =? _); [|by apply spec_ret]. apply spec_then; [quiet |]. intros _. apply spec_upd. intros l' Hl' H.
    split; [|done]. apply ok_addr; [by eapply ok_path | done]. }
  intros _. apply spec_then; [quiet |]. intros [st1 state]. destruct (_ && _); [by apply Hfail' |].
  apply spec_then; [quiet |]. intros _. apply spec_then; [quiet |]. intros st2. destruct (NSP_SUCCESS st2) eqn:Est2; cbn [negb]; [|by apply Hfail', Hneg].
  assert (forall n (k : M K Z), Links.spec (K := K) (tcp_link_ok (fun _ => True)) (dom (links w)) h (fun l' => P l' /\ is_Some (callback (ncb l'))) k Q ->
    Links.spec (K := K) (tcp_link_ok (fun _ => True)) (dom (links w)) h (fun l' => P l' /\ is_Some (callback (ncb l')))
      (r <- call (sys_listen C (sockfd (ncb l0)) n);; if r =? -1 then e <- get_errno;; ret (posix__makeerror e) else k) Q) as Hcall.
  { intros n k Hk w1 l1 Hw1 Hl1 H1. unfold bind at 1, call, syscall. pose proof (Hlisten (sockfd (ncb l0)) n (kern (sys w1))) as Hh.
    destruct (sys_listen C (sockfd (ncb l0)) n (kern (sys w1))) as [[m|e] k1]; cbn [fst] in Hh.
    - subst m. change (0 =? -1) with false. cbn iota. apply (Hk _ l1); [by apply wf_sys | done | done].
    - change (-1 =? -1) with true. cbn iota. unfold bind, get_errno, ret. cbn [sys errno]. rewrite makeerror_pos by done. eexists _, _, l1.
      split; [reflexivity |]. split; [by apply wf_sys |]. split; [done |]. split; [lia | by destruct H1]. }
  apply Hcall. clear Hcall.
  eapply spec_bind; [apply spec_the |]. intros l1. destruct (ncb_read l1) as [x|] eqn:Er.
  { apply spec_ret. intros l' _ (_ & [H _] & _). by split. }
  eapply (spec_bind _ _ _ _ _ _ (fun _ => P)).
  { apply spec_upd. intros l' Hl' (-> & [H Hc] & _). split; [|done]. by destruct Hl'. }
  intros _. eapply (spec_bind _ _ _ _ _ _ (fun st' l' => st' < 0 /\ P l')).
  { intros w1 l1' Hw1 Hl1 H1. unfold set_nonblock_fd, Ncb.io_set_nonblock, syscall.
    destruct (Hfcntl (kern (sys w1))) as (e & k1 & -> & He). change (-1 =? -1) with true. cbn iota. eexists _, _, l1'. split; [reflexivity |].
    split; [by apply wf_sys |]. split; [done |]. cbn [errno]. rewrite makeerror_pos by done. split; [lia | done]. }
  intros st3 w1 l1' Hw1 Hl1 [Hst3 H1]. unfold NSP_SUCCESS. rewrite (proj2 (Z.leb_gt 0 st3)) by done. cbn [negb].
  exists st3, w1, l1'. by repeat (split; [done |]).
Qed.
End Invariant.

(** With [ncb_post_connected] as it is, a link without a callback that connects is called
    through NULL. *)
Theorem connected_without_callback {K} (C : calls K) pool h w l : links w !! h = Some l -> callback (ncb l) = None -> connected C pool h w = None.
Proof.
  intros Hl Hc. unfold connected, bind, the. rewrite Hl. cbn [mbind option_bind]. rewrite Hc. cbn beta iota. unfold ret at 1.
  change (NSP_SUCCESS NSP_STATUS_SUCCESSFUL) with true. cbn iota. unfold notify. rewrite Hl. cbn [mbind option_bind]. unfold post. by rewrite Hc.
Qed.

#[local] Instance demo_honest : Honest demo_calls demo_pool.
Proof.
  split.
  - intros fd op s h ev k. cbn. destruct op; cbn; [done | | done]. by destruct (bool_decide _).
  - intros fd k. done.
  - intros n k b Hn [= <-]. by apply zlen_replicate.
  - intros q k h [= <-]. apply demo_fresh.
  - by intros p eps [= <-].
Qed.

(** Three links: one fails to connect at once, one connects with the help of epoll, one fails
    to listen but is left with the handler of a listening link; its socket is closed, so
    that the epoll thread would never come back from accepting. *)
Definition demo_ops : list link_op :=
  [Create (Some 9) None 0 None; Create (Some 9) None 0 None; Create (Some 9) None 80 None; Connect 1 demo_ip 80; Connect2 2 demo_ip 80; Connectable 2;
   Listen 3 0; Destroy 1; Acceptable 3; Destroy 2].
Lemma tcp_links_stay_ok_witness : exists rs w',
  link_run demo_calls demo_pool demo_addr 128 (fun h => 4096 * h) 7 demo_ops (World ∅ (Os (Demo [] [] ∅) 0)) = Some (rs, w') /\
  rs = [1; 2; 3; - EINPROGRESS; 0; 0; - EBADF; 0] /\ (forall h l, links w' !! h = Some l -> tcp_link_ok is_Some h l).
Proof.
  destruct (tcp_links_stay_ok demo_calls demo_pool demo_addr 128 (fun h => 4096 * h) 7 demo_ops (World ∅ (Os (Demo [] [] ∅) 0)))
    as (rs & w' & E & _ & H & _); [lia | | intros h l Hl; cbn in Hl; by rewrite lookup_empty in Hl |].
  { repeat (apply Forall_cons_2; [first [exact I | by eexists] |]). apply Forall_nil_2. }
  exists rs, w'. split; [exact E |]. split; [|exact H].
  assert (fst <$> link_run demo_calls demo_pool demo_addr 128 (fun h => 4096 * h) 7 demo_ops (World ∅ (Os (Demo [] [] ∅) 0)) =
    Some [1; 2; 3; - EINPROGRESS; 0; 0; - EBADF; 0]) as Hrs by (vm_compute; reflexivity).
  rewrite E in Hrs. by injection Hrs.
Defined.

(** Descriptor 5 is a closed socket of the demonstration. *)
Lemma tcp_syn_spins_witness : exists w', on_acceptable demo_calls demo_pool 1000 1
    (World {[1 := set_rw (Some Tcp_syn) None demo_created]} (Os (Demo [] [] ∅) 0)) = Some (false, w').
Proof.
  destruct (tcp_syn_spins demo_calls demo_pool 1000 1 (World {[1 := set_rw (Some Tcp_syn) None demo_created]} (Os (Demo [] [] ∅) 0))
    (set_rw (Some Tcp_syn) None demo_created)) as (w' & E & _); [reflexivity | reflexivity | reflexivity | | by exists w'].
  intros k. exists TCP_CLOSE, k. split; [reflexivity | discriminate].
Defined.

Lemma tcp_listen_never_succeeds_witness : exists st w' l', tcp_listen demo_calls demo_pool 128 (fun _ => 94823040) 1 5 (World {[1 := demo_created]} (Os (Demo [] [] ∅) 0)) = Some (st, w') /\
  st = - EBADF /\ links w' !! 1 = Some l' /\ epfd l' = 0.
Proof.
  destruct (tcp_listen_never_succeeds demo_calls demo_pool 128 (fun _ => 94823040) 1 5 (World {[1 := demo_created]} (Os (Demo [] [] ∅) 0)) demo_created)
    as (st & w' & l' & E & _ & Hl & He).
  - intros h l Hl. cbn in Hl. apply lookup_singleton_Some in Hl as [<- <-]. split; cbn; try done; by intros [?|?].
  - reflexivity.
  - intros fd n k. done.
  - intros k. exists EBADF, k. done.
  - exists st, w', l'. split; [exact E |]. split; [|by split].
    assert (fst <$> tcp_listen demo_calls demo_pool 128 (fun _ => 94823040) 1 5 (World {[1 := demo_created]} (Os (Demo [] [] ∅) 0)) = Some (- EBADF)) as Hst
      by (vm_compute; reflexivity). rewrite E in Hst. by injection Hst.
Defined.
