(* ===== verification/TcpConn.v ===== *)
(** What the system and the callback see of TCP connections: how accepted ones are set up and
    watched, and how a connection made with the help of epoll ends.  The callback sees
    nothing at all: the guards of [Ncb.post] keep every event from it. *)
From S2P Require Import Prelude TcpAl Ncb Links TcpLink TcpModes.
#[local] Open Scope monad_scope.

(** ** What the system sees

    [log k]: what the epoll descriptors and the callbacks were told, in order; [pending k]:
    the connections to be accepted, [watched k]: the descriptors that epoll watches. *)
Section Observed.
Context {K : Type} (C : calls K) (pool : Z -> option (list (Z * Z))) (inet_addr : list Z -> Z).
Context (log : K -> list act) (pending : K -> list Z) (watched : K -> gset Z) (e_last : Z).
Definition seen (k : K) : list act * list Z * gset Z := (log k, pending k, watched k).

(** accept4(2) takes the connections in order, and fails with [e_last] when there are none;
    epoll_ctl(2) adds a descriptor, and changes one it watches; memory and handles are
    there. *)
Class Network : Prop := {
  net_unseen :: Unseen C seen;
  net_add fd s h ev k : exists k', epoll_ctl C fd EPOLL_CTL_ADD s h ev k = (Ret 0, k') /\ seen k' = (log k ++ [Watch s h ev], pending k, {[s]} ∪ watched k);
  net_mod fd s h ev k : s ∈ watched k -> exists k', epoll_ctl C fd EPOLL_CTL_MOD s h ev k = (Ret 0, k') /\ seen k' = (log k ++ [Rewatch s h ev], pending k, watched k);
  net_mod_not fd s h ev k : s ∉ watched k -> exists e k', epoll_ctl C fd EPOLL_CTL_MOD s h ev k = (Err e, k') /\ 0 < e /\ seen k' = seen k;
  net_user e k : seen (user C e k) = (log k ++ [Told e], pending k, watched k);
  net_accept s k fd q : pending k = fd :: q -> 0 < fd /\ exists k', sys_accept4 C s k = (Ret fd, k') /\ seen k' = (log k, q, watched k);
  net_accept_none s k : pending k = [] -> exists k', sys_accept4 C s k = (Err e_last, k') /\ seen k' = seen k;
  net_last : 0 < e_last < 4096;
  net_malloc n k : exists b, (ztrymalloc C n k).1 = Some b;
  net_object q k : exists h k', objallo3 C q k = (Some h, k') /\ 0 <= h /\ (h ∉ q) /\ seen k' = seen k;
  net_pool : exists eps, pool IPPROTO_TCP = Some eps /\ eps <> [] /\ Forall (fun x => 0 <= x.1) eps;
}.
Context `{Hnet : !Network}.

(** What stays of a link while its addresses, attributes and buffers are set. *)
Definition core (l : link_t) : Z * Z * option Z * Z * bool * option ncb_rw * option ncb_rw :=
  (hld (ncb l), sockfd (ncb l), callback (ncb l), protocol l, closing l, ncb_read l, ncb_write l).
Definition calm {A} (h : Z) (m : M K A) : Prop := forall w l, links w !! h = Some l -> exists a w' l',
  m w = Some (a, w') /\ links w' = <[h := l']> (links w) /\ core l' = core l /\ seen (kern (sys w')) = seen (kern (sys w)).

Lemma calm_quiet {A} h (m : M K A) : quiet seen h m -> calm h m.
Proof.
  intros Hm w l Hl. destruct (Hm w) as (a & s & E & Hv); [by eexists |]. exists a, (World (links w) s), l. split; [done |].
  split; [by rewrite insert_id | done].
Qed.
Lemma calm_bind {A B} h (m : M K A) (k : A -> M K B) : calm h m -> (forall a, calm h (k a)) -> calm h (bind m k).
Proof.
  intros Hm Hk w l Hl. destruct (Hm w l Hl) as (a & w1 & l1 & E & Hl1 & Hc & Hs). rewrite (bind_some _ _ _ _ _ E).
  destruct (Hk a w1 l1) as (b & w2 & l2 & E2 & Hl2 & Hc2 & Hs2); [by rewrite Hl1, lookup_insert_eq |].
  exists b, w2, l2. split; [done |]. rewrite Hl2, Hl1, insert_insert_eq, Hc2, Hs2. done.
Qed.
Lemma calm_upd h f : (forall l, core (f l) = core l) -> calm h (upd h f).
Proof.
  intros Hf w l Hl. exists tt, (World (<[h := f l]> (links w)) (sys w)), (f l). unfold upd. rewrite Hl. by repeat (split; [done |]).
Qed.
Ltac calm := repeat first
  [ apply calm_upd; intros ?; reflexivity
  | apply calm_quiet; solve [quiet]
  | apply calm_bind; [|intros ?]
  | match goal with |- calm _ (match ?x with _ => _ end) => destruct x end
  | match goal with |- calm _ (let '(_, _) := ?x in _) => destruct x end ].

Lemma calm_relate h : calm h (tcp_relate_address C h).
Proof. unfold tcp_relate_address. calm. Qed.
Lemma seen_call f s : unseen seen f -> seen (kern (syscall f s).2) = seen (kern s).
Proof. intros Hf. unfold syscall. specialize (Hf (kern s)). by destruct (f (kern s)) as [[n|e] k]. Qed.
Lemma seen_nonblock_fd fd b s : seen (kern (Ncb.io_set_nonblock (getfl C) (setfl C) fd b s).2) = seen (kern s).
Proof.
  unfold Ncb.io_set_nonblock. pose proof (seen_call (getfl C fd) s (u_getfl C seen fd)) as H. destruct (syscall (getfl C fd) s) as [opt s1]. cbn [snd] in H.
  destruct (-1 =? opt); [done |].
  destruct b; (destruct (_ =? 0); cbn [negb];
    [| try (pose proof (seen_call (setfl C fd (Z.land opt (Z.lnot O_NONBLOCK))) s1 (u_setfl C seen fd _)) as H2; destruct (syscall _ s1) as [fr s2]; cbn [snd] in H2; destruct (_ =? fr); cbn [snd]; congruence)]).
  all: try (destruct (-1 =? 0); done).
  pose proof (seen_call (setfl C fd (Z.lor opt O_NONBLOCK)) s1 (u_setfl C seen fd _)) as H2. destruct (syscall _ s1) as [fr s2]. cbn [snd] in H2. destruct (_ =? fr); cbn [snd]; congruence.
Qed.
Lemma seen_nonblock b c s : seen (kern (Ncb.ncb_set_nonblock (getfl C) (setfl C) c b s).2) = seen (kern s).
Proof. unfold Ncb.ncb_set_nonblock. destruct b; [destruct (callback c); [|done] |]; apply seen_nonblock_fd. Qed.

Lemma allocate_some n w : exists b s, allocate C n w = Some (Some b, World (links w) s) /\ seen (kern s) = seen (kern (sys w)).
Proof.
  unfold allocate. destruct (net_malloc n (kern (sys w))) as [b Hb]. pose proof (u_malloc C seen n (kern (sys w))) as Hv.
  destruct (ztrymalloc C n (kern (sys w))) as [x k]. cbn [fst snd] in *. subst x. by eexists _, _.
Qed.

(** The buffers are there, and nothing is seen of it. *)
Lemma calm_allocate h w l : links w !! h = Some l -> exists w' l', tcp_allocate_rx_buffer C h w = Some (NSP_STATUS_SUCCESSFUL, w') /\
  links w' = <[h := l']> (links w) /\ core l' = core l /\ seen (kern (sys w')) = seen (kern (sys w)).
Proof.
  intros Hl. unfold tcp_allocate_rx_buffer. rewrite (bind_some (the h) _ w l w) by (unfold the; by rewrite Hl).
  assert (exists b s, (match rx_buffer (ncb l) with Some b => ret (Some b) | None => allocate C TCP_BUFFER_SIZE end) w = Some (Some b, World (links w) s) /\
    seen (kern s) = seen (kern (sys w))) as (b & s & E & Hs).
  { destruct (rx_buffer (ncb l)) as [b|]; [|apply allocate_some]. exists b, (sys w). by destruct w. }
  rewrite (bind_some _ _ _ _ _ E). cbn iota beta.
  set (l1 := set_parse 0 (rx_parse_buffer l) (set_ncb (set_rx (Some b) TCP_BUFFER_SIZE (ncb l)) l)).
  rewrite (bind_some (upd h _) _ _ tt (World (<[h := l1]> (links w)) s)) by (unfold upd; cbn [links]; by rewrite Hl).
  destruct (rx_parse_buffer l) as [p|].
  - exists (World (<[h := l1]> (links w)) s), l1. by repeat (split; [done |]).
  - destruct (allocate_some TCP_BUFFER_SIZE (World (<[h := l1]> (links w)) s)) as (p & s2 & E2 & Hs2). rewrite (bind_some _ _ _ _ _ E2).
    cbn [links sys] in *. unfold bind, upd, ret. cbn [links]. rewrite lookup_insert_eq. cbn [mbind option_bind].
    eexists _, (set_parse 0 (Some p) l1). split; [reflexivity |]. cbn [links sys]. split; [by rewrite insert_insert_eq |]. split; [done |]. by rewrite Hs2.
Qed.

Lemma calm_setattr h a : calm h (setattr_r C h a).
Proof.
  intros w l Hl. unfold setattr_r. rewrite Hl. cbn [mbind option_bind].
  destruct (ncb_setattr_r (getfl C) (setfl C) (ncb l) a (sys w)) as [[r c] s] eqn:E.
  assert ((exists x, c = set_attr x (ncb l)) /\ seen (kern s) = seen (kern (sys w))) as [[x ->] Hs].
  2: { exists r, (World (<[h := set_ncb (set_attr x (ncb l)) l]> (links w)) s), (set_ncb (set_attr x (ncb l)) l). by repeat (split; [done |]). }
  destruct (setattr_keeps C a (ncb l) (sys w)) as (r' & c' & s' & E' & Hx). rewrite E in E'. injection E' as -> -> ->. split; [done |].
  clear Hx. revert E. unfold ncb_setattr_r. set (c0 := set_attr a (ncb l)).
  assert (forall b c s1, seen (kern (Ncb.ncb_set_nonblock (getfl C) (setfl C) c b s1).2) = seen (kern s1)) as Hnb by apply seen_nonblock.
  destruct (_ && _).
  - destruct (Ncb.ncb_set_nonblock (getfl C) (setfl C) c0 true (sys w)) as [st s1] eqn:E1. pose proof (Hnb true c0 (sys w)) as H1. rewrite E1 in H1. cbn [snd] in H1.
    destruct (NSP_SUCCESS st); [|by intros [= <- <- <-]]. destruct (_ && _); [|by intros [= <- <- <-]].
    match goal with |- context [Ncb.ncb_set_nonblock ?f ?g ?x ?b ?y] => destruct (Ncb.ncb_set_nonblock f g x b y) as [st2 s2] eqn:E2; pose proof (Hnb b x y) as H2 end.
    rewrite E2 in H2. cbn [snd] in H2. destruct (NSP_SUCCESS st2); intros [= <- <- <-]; by rewrite H2.
  - destruct (_ && _); [|by intros [= <- <- <-]].
    match goal with |- context [Ncb.ncb_set_nonblock ?f ?g ?x ?b ?y] => destruct (Ncb.ncb_set_nonblock f g x b y) as [st2 s2] eqn:E2; pose proof (Hnb b x y) as H2 end.
    rewrite E2 in H2. cbn [snd] in H2. destruct (NSP_SUCCESS st2); intros [= <- <- <-]; by rewrite H2.
Qed.

(** One calm step, or one the system sees, of a longer program. *)
Lemma run_calm {A B} h (m : M K A) (k : A -> M K B) w l : calm h m -> links w !! h = Some l -> exists a w' l',
  bind m k w = k a w' /\ links w' = <[h := l']> (links w) /\ links w' !! h = Some l' /\ core l' = core l /\ seen (kern (sys w')) = seen (kern (sys w)).
Proof.
  intros Hm Hl. destruct (Hm w l Hl) as (a & w' & l' & E & Hl' & Hc & Hs). exists a, w', l'. rewrite (bind_some _ _ _ _ _ E).
  split; [done |]. split; [done |]. split; [by rewrite Hl', lookup_insert_eq | done].
Qed.

Lemma attach_seen h mask w l : links w !! h = Some l -> hld (ncb l) = h -> 0 <= h -> protocol l = IPPROTO_TCP ->
  exists w' l', io_attach C pool h mask w = Some (NSP_STATUS_SUCCESSFUL, w') /\ links w' = <[h := l']> (links w) /\ core l' = core l /\
    seen (kern (sys w')) = (log (kern (sys w)) ++ [Watch (sockfd (ncb l)) h (events_of mask)], pending (kern (sys w)), {[sockfd (ncb l)]} ∪ watched (kern (sys w))).
Proof.
  intros Hl Hh H0 Hp. unfold io_attach. rewrite (bind_some (the h) _ w l w) by (unfold the; by rewrite Hl).
  rewrite Hp. destruct net_pool as (eps & -> & Hne & Hfds).
  destruct (quiet_cloexec C seen h (sockfd (ncb l)) w) as (a & s & E & Hs); [by eexists |]. rewrite (bind_some _ _ _ _ _ E).
  assert (0 < zlen eps) as Hpos by (by apply zlen_pos). pose proof (Z.rem_bound_pos h (zlen eps) H0 Hpos) as Hrem.
  destruct (lookup_lt_is_Some_2 eps (Z.to_nat (Z.rem h (zlen eps)))) as [[fd tid] Ep]; [unfold zlen in *; lia |]. rewrite Hh, Ep.
  rewrite Forall_lookup in Hfds. specialize (Hfds _ _ Ep). cbn [fst] in Hfds.
  rewrite (bind_some (upd h _) _ _ tt (World (<[h := set_epoll fd (rx_tid l) l]> (links w)) s)) by (unfold upd; cbn [links]; by rewrite Hl).
  destruct (net_add fd (sockfd (ncb l)) h (events_of mask) (kern s)) as (k' & Ek & Hk).
  rewrite (bind_some (call _) _ _ 0 (World (<[h := set_epoll fd (rx_tid l) l]> (links w)) (Os k' (errno s)))) by (unfold call, syscall; cbn [sys links]; by rewrite Ek).
  change (0 <? 0) with false. cbn [andb]. unfold bind at 1, get_errno. cbn [sys].
  set (l' := set_epoll fd tid (set_epoll fd (rx_tid l) l)).
  rewrite (bind_some (upd h _) _ _ tt (World (<[h := l']> (links w)) (Os k' (errno s)))) by (unfold upd; cbn [links sys]; rewrite lookup_insert_eq; cbn [mbind option_bind]; by rewrite insert_insert_eq).
  rewrite (bind_some (the h) _ _ l' (World (<[h := l']> (links w)) (Os k' (errno s)))) by (unfold the; cbn [links]; by rewrite lookup_insert_eq).
  cbn [epfd set_epoll l']. rewrite (proj2 (Z.ltb_ge fd 0)) by done. eexists _, l'. split; [reflexivity |]. split; [done |]. split; [done |].
  cbn [sys kern]. rewrite Hk. unfold seen in Hs. congruence.
Qed.

Lemma modify_seen h mask w l : links w !! h = Some l -> sockfd (ncb l) ∈ watched (kern (sys w)) -> exists s,
  io_modify C h mask w = Some (NSP_STATUS_SUCCESSFUL, World (links w) s) /\
  seen (kern s) = (log (kern (sys w)) ++ [Rewatch (sockfd (ncb l)) (hld (ncb l)) (events_of mask)], pending (kern (sys w)), watched (kern (sys w))).
Proof.
  intros Hl Hw. unfold io_modify. rewrite (bind_some (the h) _ w l w) by (unfold the; by rewrite Hl).
  destruct (net_mod (epfd l) (sockfd (ncb l)) (hld (ncb l)) (events_of mask) (kern (sys w)) Hw) as (k' & Ek & Hk).
  rewrite (bind_some (call _) _ _ 0 (World (links w) (Os k' (errno (sys w))))) by (unfold call, syscall; by rewrite Ek).
  eexists. split; [reflexivity | done].
Qed.

(** What is seen of an accepted connection. *)
Definition accepted (fd h : Z) : list act := [Watch fd h (events_of 0); Rewatch fd h (events_of EPOLLIN)].

Lemma syn_dpc_seen hs h w server l : links w !! hs = Some server -> is_Some (callback (ncb server)) -> h <> hs -> links w !! h = Some l ->
  hld (ncb l) = h -> 0 <= h -> protocol l = IPPROTO_TCP ->
  exists w' l', _tcp_syn_dpc C pool hs h w = Some (NSP_STATUS_SUCCESSFUL, w') /\ links w' = <[h := l']> (links w) /\
    core l' = core (set_rw (Some Tcp_rx) (Some Tcp_tx) l) /\
    seen (kern (sys w')) = (log (kern (sys w)) ++ accepted (sockfd (ncb l)) h, pending (kern (sys w)), {[sockfd (ncb l)]} ∪ watched (kern (sys w))).
Proof.
  intros Hs Hcb Hne Hl Hh H0 Hp. unfold _tcp_syn_dpc. rewrite (bind_some (the hs) _ w server w) by (unfold the; by rewrite Hs). cbn beta.
  match goal with |- context [bind ?m ?k w] => destruct (run_calm h m k w l) as (a1 & w1 & l1 & -> & E1 & Hl1 & Hc1 & Hs1);
    [destruct (_ =? _); calm; apply calm_relate | done |] end; cbn beta.
  match goal with |- context [bind ?m ?k w1] => destruct (run_calm h m k w1 l1) as (a2 & w2 & l2 & -> & E2 & Hl2 & Hc2 & Hs2); [calm | done |] end; cbn beta.
  match goal with |- context [bind ?m ?k w2] => destruct (run_calm h m k w2 l2) as (a3 & w3 & l3 & -> & E3 & Hl3 & Hc3 & Hs3); [calm | done |] end; cbn beta.
  destruct (calm_allocate h w3 l3 Hl3) as (w4 & l4 & Ea & E4 & Hc4 & Hs4). rewrite (bind_some _ _ _ _ _ Ea). cbn beta. change (negb (NSP_SUCCESS NSP_STATUS_SUCCESSFUL)) with false. cbn iota.
  assert (links w4 !! h = Some l4) as Hl4 by (by rewrite E4, lookup_insert_eq).
  set (l5 := set_rw (Some Tcp_rx) (Some Tcp_tx) l4). set (w5 := World (<[h := l5]> (links w4)) (sys w4)).
  rewrite (bind_some (established h) _ _ tt w5) by (unfold established, upd; by rewrite Hl4). cbn beta.
  assert (links w5 !! h = Some l5) as Hl5 by (cbn; by rewrite lookup_insert_eq).
  assert (links w5 = <[h := l5]> (links w)) as E5 by (cbn; rewrite E4, E3, E2, E1, !insert_insert_eq; done).
  assert (forall (w' : world K) l', links w' = <[h := l']> (links w) -> links w' !! hs = Some server) as Hserver by (intros w' l' ->; by rewrite lookup_insert_ne).
  assert (core l5 = core (set_rw (Some Tcp_rx) (Some Tcp_tx) l)) as Hc5.
  { assert (core l4 = core l) as Hc by congruence. revert Hc. unfold core, l5. cbn. congruence. }
  assert (exists a6 w6 l6, (if negb (Z.land (attr (ncb server)) LINKATTR_TCP_UPDATE_ACCEPT_CONTEXT =? 0)
      then setattr_r C h (attr (ncb server));;; server <- the hs;; upd h (fun l => set_tst (template server) (prtemplate l) l) else ret tt) w5 = Some (a6, w6) /\
      links w6 = <[h := l6]> (links w) /\ core l6 = core l5 /\ seen (kern (sys w6)) = seen (kern (sys w5))) as (a6 & w6 & l6 & E & E6 & Hc6 & Hs6).
  { destruct (negb _); [|by exists tt, w5, l5]. destruct (calm_setattr h (attr (ncb server)) w5 l5 Hl5) as (a & w' & l' & Ew & El & Hc & Hsn).
    rewrite (bind_some _ _ _ _ _ Ew). cbn beta. assert (links w' = <[h := l']> (links w)) as El' by (by rewrite El, E5, insert_insert_eq).
    rewrite (bind_some (the hs) _ w' server w') by (unfold the; by rewrite (Hserver w' l' El')). cbn beta.
    unfold upd. rewrite El', lookup_insert_eq. cbn [mbind option_bind]. eexists _, _, _. split; [reflexivity |]. cbn [links]. by rewrite insert_insert_eq. }
  rewrite (bind_some _ _ _ _ _ E). clear E. cbn beta.
  assert (links w6 !! h = Some l6) as Hl6 by (by rewrite E6, lookup_insert_eq).
  assert (core l6 = core (set_rw (Some Tcp_rx) (Some Tcp_tx) l)) as Hcl by congruence. pose proof Hcl as [= Hh6 Hf6 Hcb6 Hp6 Hx6 Hr6 Hw6].
  destruct (attach_seen h 0 w6 l6 Hl6) as (w7 & l7 & Ew7 & E7 & Hc7 & Hs7); [congruence | done | congruence |]. rewrite (bind_some _ _ _ _ _ Ew7). cbn beta. change (negb (NSP_SUCCESS NSP_STATUS_SUCCESSFUL)) with false. cbn iota.
  assert (links w7 = <[h := l7]> (links w)) as E7' by (by rewrite E7, E6, insert_insert_eq).
  rewrite (bind_some _ _ _ _ _ (notify_some C hs (EVT_TCP_ACCEPTED hs h) w7 server (Hserver w7 l7 E7') Hcb)). cbn beta.
  assert (links w7 !! h = Some l7) as Hl7 by (by rewrite E7', lookup_insert_eq). pose proof Hc7 as [= Hh7 Hf7 _ _ _ _ _].
  unfold seen in Hs7. injection Hs7 as HL7 HP7 HW7.
  destruct (modify_seen h EPOLLIN w7 l7 Hl7) as (s9 & Ew9 & Hs9); [rewrite HW7, Hf7; set_solver |].
  rewrite (bind_some _ _ _ _ _ Ew9). exists (World (links w7) s9), l7. split; [done |]. split; [done |]. split; [congruence |].
  cbn [sys] in Hs9 |- *. rewrite Hs9, HL7, HP7, HW7.
  assert (seen (kern (sys w6)) = seen (kern (sys w))) as Hall by (cbn [sys w5] in Hs6; congruence). unfold seen in Hall. injection Hall as -> -> ->.
  rewrite Hh7, Hf7, Hh6, Hf6. cbn [ncb set_rw]. rewrite Hh, <- !app_assoc. done.
Qed.

(** A listening link: TCP_INFO gives TCP_LISTEN, or fails as on a domain socket. *)
Definition listening (server : link_t) : Prop := is_Some (callback (ncb server)) /\
  forall k, match (getsockopt C (sockfd (ncb server)) IPPROTO_TCP TCP_INFO k).1 with inl state => state = TCP_LISTEN | inr e => 0 < e end.
(** The link of an accepted connection. *)
Definition accepted_link (server : link_t) (fd h : Z) (l : link_t) : Prop :=
  core l = (h, fd, callback (ncb server), IPPROTO_TCP, false, Some Tcp_rx, Some Tcp_tx).

Lemma info_seen hs server w : links w !! hs = Some server -> listening server -> exists st s, tcp_save_info C hs w = Some (st, World (links w) s) /\
  seen (kern s) = seen (kern (sys w)) /\ NSP_SUCCESS st.1 && negb (st.2 =? TCP_LISTEN) = false.
Proof.
  intros Hs [_ Hl]. unfold tcp_save_info, getopt_int, the, bind, query, get_errno, ret. rewrite Hs. cbn [mbind option_bind].
  specialize (Hl (kern (sys w))). pose proof (u_getsockopt C seen (sockfd (ncb server)) IPPROTO_TCP TCP_INFO (kern (sys w))) as Hv.
  destruct (getsockopt C (sockfd (ncb server)) IPPROTO_TCP TCP_INFO (kern (sys w))) as [[state|e] k]; cbn [fst snd] in *.
  - eexists _, _. split; [reflexivity |]. split; [done |]. cbn [fst snd]. subst state. done.
  - eexists _, _. split; [reflexivity |]. split; [done |]. cbn [fst snd sys errno]. rewrite makeerror_pos by done. unfold NSP_SUCCESS.
    by rewrite (proj2 (Z.leb_gt 0 (- e))) by lia.
Qed.

Lemma syn_turn_seen hs server w fd q : links w !! hs = Some server -> listening server -> pending (kern (sys w)) = fd :: q ->
  exists h l w', _tcp_syn C pool hs w = Some (NSP_STATUS_SUCCESSFUL, w') /\ links w !! h = None /\ links w' = <[h := l]> (links w) /\
    accepted_link server fd h l /\ seen (kern (sys w')) = (log (kern (sys w)) ++ accepted fd h, q, {[fd]} ∪ watched (kern (sys w))).
Proof.
  intros Hs Hlis Hq. unfold _tcp_syn. destruct (info_seen hs server w Hs Hlis) as ([st state] & s1 & E1 & Hs1 & Hst). rewrite (bind_some _ _ _ _ _ E1).
  cbn beta iota. cbn [fst snd] in Hst. rewrite Hst. unfold seen in Hs1. injection Hs1 as HL1 HP1 HW1.
  destruct (net_accept (sockfd (ncb server)) (kern s1) fd q) as (Hfd & k2 & Ek2 & Hk2); [congruence |].
  assert (_tcp_syn_try C hs (World (links w) s1) = Some ((NSP_STATUS_SUCCESSFUL, fd), World (links w) (Os k2 (errno s1)))) as E2.
  { unfold _tcp_syn_try, bind, the, call, syscall. cbn [links sys]. rewrite Hs. cbn [mbind option_bind links sys]. rewrite Ek2.
    by rewrite (proj2 (Z.ltb_ge fd 0)) by lia. }
  rewrite (bind_some _ _ _ _ _ E2). cbn beta iota. change (negb (NSP_SUCCESS NSP_STATUS_SUCCESSFUL)) with false. cbn iota.
  set (w2 := World (links w) (Os k2 (errno s1))). rewrite (bind_some (the hs) _ w2 server w2) by (unfold the; cbn; by rewrite Hs). cbn beta.
  destruct (net_object (dom (links w2)) (kern (sys w2))) as (h & k3 & Ek3 & H0 & Hn & Hk3).
  set (l0 := new_link h IPPROTO_TCP fd (callback (ncb server))). set (w3 := World (<[h := l0]> (links w)) (Os k3 (errno s1))).
  rewrite (bind_some (create_object C _) _ w2 (Some h) w3) by (unfold create_object; by rewrite Ek3). cbn beta iota.
  assert (links w !! h = None) as Hfresh by (by apply not_elem_of_dom). assert (h <> hs) as Hne by congruence.
  destruct (syn_dpc_seen hs h w3 server l0) as (w4 & l4 & E4 & EL4 & Hc4 & Hs4);
    [cbn; by rewrite lookup_insert_ne | apply Hlis | done | by cbn; rewrite lookup_insert_eq | done | done | done |].
  rewrite (bind_some _ _ _ _ _ E4). change (negb (NSP_SUCCESS NSP_STATUS_SUCCESSFUL)) with false. cbn iota.
  exists h, l4, w4. split; [done |]. split; [done |]. split; [by rewrite EL4; cbn [links w3]; rewrite insert_insert_eq |]. split; [done |].
  rewrite Hs4. cbn [w3 sys kern ncb sockfd l0 new_link]. cbn [w2 sys kern] in Hk3. unfold seen in Hk3, Hk2. injection Hk3 as -> -> ->. injection Hk2 as -> -> ->.
  by rewrite HL1, HW1.
Qed.

Lemma syn_turn_none hs server w : links w !! hs = Some server -> listening server -> pending (kern (sys w)) = [] ->
  exists s, _tcp_syn C pool hs w = Some (- e_last, World (links w) s) /\ seen (kern s) = seen (kern (sys w)).
Proof.
  intros Hs Hlis Hq. unfold _tcp_syn. destruct (info_seen hs server w Hs Hlis) as ([st state] & s1 & E1 & Hs1 & Hst). rewrite (bind_some _ _ _ _ _ E1).
  cbn beta iota. cbn [fst snd] in Hst. rewrite Hst.
  destruct (net_accept_none (sockfd (ncb server)) (kern s1)) as (k2 & Ek2 & Hk2); [unfold seen in Hs1; congruence |].
  pose proof net_last as Hpos.
  assert (_tcp_syn_try C hs (World (links w) s1) = Some ((- e_last, -1), World (links w) (Os k2 e_last))) as E2.
  { unfold _tcp_syn_try, bind, the, call, syscall. cbn [links sys]. rewrite Hs. cbn [mbind option_bind links sys]. rewrite Ek2.
    change (-1 <? 0) with true. cbn iota. unfold get_errno. cbn [sys errno]. by rewrite makeerror_pos by lia. }
  rewrite (bind_some _ _ _ _ _ E2). cbn beta iota. unfold NSP_SUCCESS. rewrite (proj2 (Z.leb_gt 0 (- e_last))) by lia. cbn [negb].
  eexists. split; [reflexivity |]. cbn [kern]. congruence.
Qed.

(** C9: EPOLLIN on a listening link.  All connections that wait are accepted, in order: each
    becomes a link of its own with the callback of the listening one and the handlers of an
    established link, which epoll watches for errors first and then for data.  The other
    links stay as they are, the loop ends, and the listening link is closed unless the
    accept(2) that finds nothing more fails with EAGAIN.  The callback is told of none of
    the connections: the log has no [Told], the guard of [ncb_post_accepted] stops each. *)
Theorem tcp_syn_accepts fuel hs server w fds : links w !! hs = Some server -> closing server = false -> ncb_read server = Some Tcp_syn ->
  listening server -> pending (kern (sys w)) = fds -> (length fds < fuel)%nat ->
  exists hnew w', on_acceptable C pool fuel hs w = Some (true, w') /\ length hnew = length fds /\ NoDup hnew /\
    links w' !! hs = Some (if e_last =? EAGAIN then server else set_closing server) /\
    (forall fd h, (fd, h) ∈ zip fds hnew -> links w !! h = None /\ exists l, links w' !! h = Some l /\ accepted_link server fd h l) /\
    (forall h, h <> hs -> h ∉ hnew -> links w' !! h = links w !! h) /\
    log (kern (sys w')) = log (kern (sys w)) ++ concat (zip_with accepted fds hnew) /\ pending (kern (sys w')) = [].
Proof.
  intros Hs Hcl Hrd Hlis Hq Hf. unfold on_acceptable.
  rewrite (bind_some (found hs) _ w true w) by (unfold found; by rewrite Hs, Hcl). cbn [negb].
  rewrite (bind_some (the hs) _ w server w) by (unfold the; by rewrite Hs). rewrite Hrd.
  assert (exists hnew w', tcp_syn C pool fuel hs w = Some (Some (- e_last), w') /\ length hnew = length fds /\ NoDup hnew /\ links w' !! hs = Some server /\
    (forall fd h, (fd, h) ∈ zip fds hnew -> links w !! h = None /\ exists l, links w' !! h = Some l /\ accepted_link server fd h l) /\
    (forall h, h ∉ hnew -> links w' !! h = links w !! h) /\
    log (kern (sys w')) = log (kern (sys w)) ++ concat (zip_with accepted fds hnew) /\ pending (kern (sys w')) = []) as
    (hnew & w' & E & Hlen & Hnd & Hs' & Hnew & Hold & Hlog & Hpend).
  { clear Hrd Hcl. revert fuel w Hs Hq Hf. induction fds as [|fd fds IH]; intros fuel w Hs Hq Hf; (destruct fuel as [|fuel]; [cbn in Hf; lia |]); cbn [tcp_syn].
    - destruct (syn_turn_none hs server w Hs Hlis Hq) as (s & E & Hsn). rewrite (bind_some _ _ _ _ _ E). pose proof net_last.
      unfold NSP_SUCCESS. rewrite (proj2 (Z.leb_gt 0 (- e_last))) by lia. exists [], (World (links w) s). split; [done |]. split; [done |].
      split; [constructor |]. split; [done |]. split; [intros fd h H'; by apply not_elem_of_nil in H' |]. split; [done |].
      cbn. unfold seen in Hsn. injection Hsn as -> -> _. by rewrite app_nil_r.
    - destruct (syn_turn_seen hs server w fd fds Hs Hlis Hq) as (h & l & w1 & E & Hfresh & El & Hl & Hsn). rewrite (bind_some _ _ _ _ _ E).
      change (NSP_SUCCESS NSP_STATUS_SUCCESSFUL) with true. cbn iota. unfold seen in Hsn. injection Hsn as Hlog1 Hp1 _.
      assert (hs <> h) as Hne by congruence.
      destruct (IH fuel w1) as (hnew & w' & E' & Hlen & Hnd & Hs' & Hnew & Hold & Hlog & Hpend); [by rewrite El, lookup_insert_ne | done | cbn in Hf; lia |].
      assert (h ∉ hnew) as Hnin.
      { intros Hin. destruct (list_elem_of_lookup_1 _ _ Hin) as [i Hi]. destruct (lookup_lt_is_Some_2 fds i) as [x Hx].
        { rewrite <- Hlen. by eapply lookup_lt_Some. }
        destruct (Hnew x h) as [Hn _]; [|by rewrite El, lookup_insert_eq in Hn]. apply list_elem_of_lookup. exists i. by rewrite lookup_zip_with, Hx, Hi. }
      exists (h :: hnew), w'. split; [done |]. split; [cbn; lia |]. split; [by constructor |]. split; [done |]. split; [|split; [|split; [|done]]].
      + intros x y. cbn [zip zip_with]. intros [[= -> ->] | Hin]%elem_of_cons.
        * split; [done |]. exists l. split; [|done]. rewrite Hold by done. by rewrite El, lookup_insert_eq.
        * destruct (Hnew x y Hin) as [Hn Hl']. split; [|done]. rewrite El in Hn. by destruct (decide (h = y)) as [-> | Hd];
            [rewrite lookup_insert_eq in Hn | rewrite lookup_insert_ne in Hn].
      + intros y [Hy Hy']%not_elem_of_cons. rewrite (Hold y Hy'), El. by apply lookup_insert_ne.
      + rewrite Hlog, Hlog1. cbn [zip_with concat]. by rewrite <- app_assoc. }
  rewrite (bind_some _ _ _ _ _ E). pose proof net_last as Hpos. exists hnew.
  assert (NSP_SUCCESS_OR_ERROR_EQUAL (- e_last) EAGAIN = (e_last =? EAGAIN)) as ->.
  { unfold NSP_SUCCESS_OR_ERROR_EQUAL, Z.lnot. rewrite (proj2 (Z.leb_gt 0 (- e_last))) by lia.
    replace (Z.pred (- - e_last) + 1) with e_last by lia. f_equal. apply swrap_small; pow2; lia. }
  destruct (e_last =? EAGAIN); cbn iota.
  - exists w'. split; [done |]. split; [done |]. split; [done |]. split; [done |]. split; [done |]. split; [by intros h _; apply Hold | done].
  - eexists. split; [reflexivity |]. rewrite Hs'. cbn [links sys]. split; [done |]. split; [done |]. split; [apply lookup_insert_eq |]. split; [|split; [|done]].
    + intros fd h Hin. destruct (Hnew fd h Hin) as [Hn Hl]. split; [done |]. by rewrite lookup_insert_ne by congruence.
    + intros h Hne Hh. rewrite lookup_insert_ne by done. by apply Hold.
Qed.

(** ** Connecting with the help of the epoll threads *)
Definition error_of (fd : Z) (k : K) : Z := match (getsockopt C fd SOL_SOCKET SO_ERROR k).1 with inl e | inr e => e end.
Context (Herror : forall fd k, 0 <= error_of fd k < 4096 /\ error_of fd k <> EINTR).

Lemma link_error_seen h w l : links w !! h = Some l -> exists s, ncb_query_link_error C h w =
  Some ((- error_of (sockfd (ncb l)) (kern (sys w)), error_of (sockfd (ncb l)) (kern (sys w))), World (links w) s) /\ seen (kern s) = seen (kern (sys w)).
Proof.
  intros Hl. pose proof (proj1 (Herror (sockfd (ncb l)) (kern (sys w)))) as He. unfold ncb_query_link_error, getopt_int, the, bind, query, get_errno, ret.
  rewrite Hl. cbn [mbind option_bind]. unfold error_of in *. pose proof (u_getsockopt C seen (sockfd (ncb l)) SOL_SOCKET SO_ERROR (kern (sys w))) as Hv.
  assert (forall e, 0 <= e -> posix__makeerror e = - e) as Hm.
  { intros e H0. unfold posix__makeerror, Z.lnot. destruct (Z.leb_spec e 0); lia. }
  destruct (getsockopt C (sockfd (ncb l)) SOL_SOCKET SO_ERROR (kern (sys w))) as [[e|e] k]; cbn [fst snd sys errno] in *;
    (rewrite Hm by lia; eexists; split; [reflexivity | done]).
Qed.

(** The writer [tcp_tx_syn] when the socket has no error. *)
Lemma tx_syn_done fuel h w l : (0 < fuel)%nat -> links w !! h = Some l -> is_Some (callback (ncb l)) -> error_of (sockfd (ncb l)) (kern (sys w)) = 0 ->
  exists st w' l', tcp_tx_syn C fuel h w = Some (st, w') /\ links w' = <[h := l']> (links w) /\
    if bool_decide (sockfd (ncb l) ∈ watched (kern (sys w)))
    then st = NSP_STATUS_SUCCESSFUL /\ core l' = core (set_rw (Some Tcp_rx) (Some Tcp_tx) l) /\
         seen (kern (sys w')) = (log (kern (sys w)) ++ [Rewatch (sockfd (ncb l)) (hld (ncb l)) (events_of EPOLLIN)],
                                 pending (kern (sys w)), watched (kern (sys w)))
    else st < 0 /\ core l' = core (set_closing (set_rw (Some Tcp_rx) (Some Tcp_tx) l)) /\ seen (kern (sys w')) = seen (kern (sys w)).
Proof.
  intros Hf Hl Hcb He. destruct fuel as [|fuel]; [lia |]. cbn [tcp_tx_syn].
  destruct (link_error_seen h w l Hl) as (s1 & E1 & Hs1). rewrite (bind_some _ _ _ _ _ E1), He. cbn beta iota. change (0 =? - 0) with true. cbn iota.
  destruct (calm_allocate h (World (links w) s1) l Hl) as (w2 & l2 & E2 & EL2 & Hc2 & Hs2). rewrite (bind_some _ _ _ _ _ E2). cbn beta.
  change (negb (NSP_SUCCESS NSP_STATUS_SUCCESSFUL)) with false. cbn iota. cbn [links sys] in EL2, Hs2.
  assert (links w2 !! h = Some l2) as Hl2 by (by rewrite EL2, lookup_insert_eq).
  rewrite (bind_some (the h) _ w2 l2 w2) by (unfold the; by rewrite Hl2). cbn beta.
  match goal with |- context [bind ?m ?k w2] => destruct (run_calm h m k w2 l2) as (a3 & w3 & l3 & -> & EL3 & Hl3 & Hc3 & Hs3);
    [destruct (negb _); [apply calm_bind; [calm | intros _; apply calm_relate] | calm] | done |] end; cbn beta.
  set (l4 := set_rw (Some Tcp_rx) (Some Tcp_tx) l3). set (w4 := World (<[h := l4]> (links w3)) (sys w3)).
  rewrite (bind_some (established h) _ _ tt w4) by (unfold established, upd; by rewrite Hl3). cbn beta.
  assert (links w4 !! h = Some l4) as Hl4 by (cbn; by rewrite lookup_insert_eq).
  assert (links w4 = <[h := l4]> (links w)) as EL4 by (cbn; by rewrite EL3, EL2, !insert_insert_eq).
  assert (core l3 = core l) as Hc by congruence. pose proof Hc as [= Hh Hfd Hcb3 Hpr Hcl Hr Hw].
  assert (core l4 = core (set_rw (Some Tcp_rx) (Some Tcp_tx) l)) as Hc4 by (unfold core, l4; cbn; congruence).
  assert (seen (kern (sys w4)) = seen (kern (sys w))) as Hs4 by (cbn [sys w4]; congruence). pose proof Hs4 as [= HL4 HP4 HW4].
  case_bool_decide as Hin.
  - destruct (modify_seen h EPOLLIN w4 l4 Hl4) as (s5 & E5 & Hs5); [change (sockfd (ncb l4)) with (sockfd (ncb l3)); change (sys w4) with (sys w3); by rewrite Hfd, HW4 |].
    rewrite (bind_some _ _ _ _ _ E5). change (negb (NSP_SUCCESS NSP_STATUS_SUCCESSFUL)) with false. cbn beta iota.
    rewrite (bind_some _ _ _ _ _ (notify_some C h (EVT_TCP_CONNECTED h) (World (links w4) s5) l4 Hl4 ltac:(cbn [ncb l4 set_rw]; by rewrite Hcb3))).
    exists NSP_STATUS_SUCCESSFUL, (World (links w4) s5), l4. split; [done |]. split; [done |]. split; [done |]. split; [done |].
    change (sys (World (links w4) s5)) with s5. rewrite Hs5. change (sys w4) with (sys w3) in *. rewrite HL4, HP4, HW4.
    cbn [ncb l4 set_rw]. by rewrite Hfd, Hh.
  - destruct (net_mod_not (epfd l4) (sockfd (ncb l4)) (hld (ncb l4)) (events_of EPOLLIN) (kern (sys w4))) as (e & k5 & Ek5 & He5 & Hk5);
      [change (sockfd (ncb l4)) with (sockfd (ncb l3)); change (sys w4) with (sys w3); by rewrite Hfd, HW4 |].
    assert (io_modify C h EPOLLIN w4 = Some (- e, World (links w4) (Os k5 e))) as E5.
    { unfold io_modify, bind, the, call, syscall. rewrite Hl4. cbn [mbind option_bind]. rewrite Ek5. change (-1 <? 0) with true. cbn iota.
      unfold get_errno, ret. cbn [sys errno]. by rewrite makeerror_pos. }
    rewrite (bind_some _ _ _ _ _ E5). cbn beta. unfold NSP_SUCCESS. rewrite (proj2 (Z.leb_gt 0 (- e))) by lia. cbn [negb].
    unfold bind at 1, objclos. cbn [links]. rewrite Hl4. exists (- e), (World (<[h := set_closing l4]> (links w4)) (Os k5 e)), (set_closing l4).
    split; [done |]. split; [cbn [links]; by rewrite EL4, insert_insert_eq |]. split; [lia |]. split; [unfold core in *; cbn in *; congruence |].
    cbn [sys kern]. congruence.
Qed.

Lemma quiet_nonblock_seen h b : quiet seen h (set_nonblock C h b).
Proof.
  intros w [l Hl]. unfold set_nonblock. rewrite Hl. cbn [mbind option_bind]. pose proof (seen_nonblock b (ncb l) (sys w)) as H.
  destruct (Ncb.ncb_set_nonblock _ _ _ _ _) as [r s]. by eexists _, _.
Qed.

Lemma run_refr h (w : world K) l : 0 <= h -> links w !! h = Some l -> closing l = false -> protocol l = IPPROTO_TCP -> _tcprefr h w = Some (NSP_STATUS_SUCCESSFUL, w).
Proof. intros H0 Hl Hc Hp. unfold _tcprefr, refr. rewrite (proj2 (Z.ltb_ge h 0)) by done. by rewrite Hl, Hc, Hp. Qed.

Lemma not_closed_negative h w l : links w !! h = Some l -> exists stop s, not_closed C h w = Some (stop, World (links w) s) /\
  seen (kern s) = seen (kern (sys w)) /\ forall st, stop = Some st -> st < 0.
Proof.
  intros Hl. destruct (quiet_not_closed C seen h w) as (stop & s & E & Hs); [by eexists |]. exists stop, s. split; [done |]. split; [done |].
  revert E. unfold not_closed, bind at 1. destruct (tcp_save_info C h w) as [[[st state] w1]|]; [|done]. intros [= <- _] x.
  destruct (_ && _); [|done]. intros [= <-]. match goal with |- context [if ?b then EISCONN else _] => destruct b end; reflexivity.
Qed.

(** The state of a link that was just created, with a callback. *)
Definition fresh_link (h fd : Z) (cb : Z) (l : link_t) : Prop := core l = (h, fd, Some cb, IPPROTO_TCP, false, None, None).
Definition connecting_link (h fd : Z) (cb : Z) (l : link_t) : Prop := core l = (h, fd, Some cb, IPPROTO_TCP, false, None, Some Tcp_tx_syn).
Definition connected_link (h fd : Z) (cb : Z) (l : link_t) : Prop := core l = (h, fd, Some cb, IPPROTO_TCP, false, Some Tcp_rx, Some Tcp_tx).

(** [tcp_connect2] up to connect(2): it fails, or calls it with the writer claimed. *)
Lemma connect2_prefix fuel h fd cb ip port w l : 0 <= h -> links w !! h = Some l -> fresh_link h fd cb l -> sin_family (local_addr l) <> AF_UNIX ->
  (exists st w' l', tcp_connect2 C pool inet_addr fuel h ip port w = Some (st, w') /\ st < 0 /\ links w' = <[h := l']> (links w) /\
     fresh_link h fd cb l' /\ seen (kern (sys w')) = seen (kern (sys w))) \/
  (exists target w' l', tcp_connect2 C pool inet_addr fuel h ip port w = connect2 C pool fuel h target w' /\
     links w' = <[h := l']> (links w) /\ connecting_link h fd cb l' /\ seen (kern (sys w')) = seen (kern (sys w))).
Proof.
  intros H0 Hl Hfr Hfam. pose proof Hfr as [= Hh Hfd Hcb Hp Hcl Hr Hw]. unfold tcp_connect2. rewrite (proj2 (Z.ltb_ge h 0)) by done.
  rewrite (bind_some _ _ _ _ _ (run_refr h w l H0 Hl Hcl Hp)). change (negb (NSP_SUCCESS NSP_STATUS_SUCCESSFUL)) with false. cbn beta iota.
  rewrite (bind_some (the h) _ w l w) by (unfold the; by rewrite Hl). cbn beta. rewrite Hcb. rewrite (proj2 (Z.eqb_neq AF_UNIX _)) by congruence.
  assert (forall (w0 : world K) l0 st, st < 0 -> links w0 = <[h := l0]> (links w) -> core l0 = core l -> seen (kern (sys w0)) = seen (kern (sys w)) ->
    (exists st' w' l', Some (st, w0) = Some (st', w') /\ st' < 0 /\ links w' = <[h := l']> (links w) /\ fresh_link h fd cb l' /\ seen (kern (sys w')) = seen (kern (sys w)))) as Hfail.
  { intros w0 l0 st Hst E0 Hc Hs. exists st, w0, l0. split; [done |]. split; [done |]. split; [done |]. split; [|done]. unfold fresh_link. by rewrite Hc. }
  unfold _tcp_connect2. destruct (bad_target ip port); [left; apply (Hfail w l); [done | by rewrite insert_id | done | done] |].
  destruct (quiet_nonblock_seen h true w) as (st1 & s1 & E1 & Hs1); [by eexists |]. rewrite (bind_some _ _ _ _ _ E1). cbn beta.
  destruct (NSP_SUCCESS st1) eqn:Est1; cbn [negb].
  2: { left. apply (Hfail (World (links w) s1) l); [by apply Z.leb_gt | by rewrite insert_id | done | done]. }
  set (f := fun l : link_t => set_ncb (set_attr (Z.lor (attr (ncb l)) LINKATTR_NONBLOCK) (ncb l)) l). set (w2 := World (<[h := f l]> (links w)) s1).
  rewrite (bind_some (upd h _) _ _ tt w2) by (unfold upd; cbn [links]; by rewrite Hl). cbn beta.
  assert (links w2 !! h = Some (f l)) as Hl2 by (cbn; by rewrite lookup_insert_eq).
  destruct (not_closed_negative h w2 (f l) Hl2) as (stop & s3 & E3 & Hs3 & Hstop). rewrite (bind_some _ _ _ _ _ E3). cbn beta.
  cbn [w2 sys] in Hs3. destruct stop as [st|]; [left; apply (Hfail (World (links w2) s3) (f l)); [by apply Hstop | done | done | cbn [sys]; congruence] |].
  set (w3 := World (links w2) s3).
  destruct (quiet_connect_options C seen h w3) as (u & s4 & E4 & Hs4); [by eexists |]. rewrite (bind_some _ _ _ _ _ E4). cbn beta. set (w4 := World (links w3) s4).
  destruct (quiet_bind_addr C seen h w4) as (st5 & s5 & E5 & Hs5); [by eexists |]. rewrite (bind_some _ _ _ _ _ E5). cbn beta. set (w5 := World (links w4) s5).
  assert (seen (kern s5) = seen (kern (sys w))) as Hs by (cbn [w4 w3 sys] in *; congruence).
  destruct (NSP_SUCCESS st5) eqn:Est5; cbn [negb]; [|left; apply (Hfail w5 (f l)); [by apply Z.leb_gt | done | done | done]].
  right. set (l6 := set_rw (ncb_read (f l)) (Some Tcp_tx_syn) (f l)). set (w6 := World (<[h := l6]> (links w)) s5).
  assert (claim_write h w5 = Some (true, w6)) as E6.
  { unfold claim_write, bind, the, upd, ret. cbn [w5 w4 w3 w2 links]. rewrite lookup_insert_eq. cbn [mbind option_bind].
    assert (ncb_write (f l) = None) as -> by done. cbn [w5 w4 w3 w2 links]. rewrite lookup_insert_eq. cbn [mbind option_bind]. by rewrite insert_insert_eq. }
  rewrite (bind_some _ _ _ _ _ E6). cbn beta. cbn [negb].
  set (to := In AF_INET (inet_addr (default [] ip)) (htons port)). set (l7 := set_addr (local_addr l6) to (sun_path l6) l6).
  exists (Inet to), (World (<[h := l7]> (links w)) s5), l7.
  split; [|split; [done |]; split; [unfold connecting_link, core in *; cbn; congruence | done]].
  rewrite (bind_some (upd h _) _ _ tt (World (<[h := l7]> (links w)) s5)); [done |].
  unfold upd. cbn [links w6]. rewrite lookup_insert_eq. cbn [mbind option_bind]. by rewrite insert_insert_eq.
Qed.

(** The writer [tcp_tx_syn] when the socket has an error. *)
Lemma tx_syn_error fuel h w l : (0 < fuel)%nat -> links w !! h = Some l -> error_of (sockfd (ncb l)) (kern (sys w)) <> 0 -> exists s,
  tcp_tx_syn C fuel h w = Some (if bool_decide (error_of (sockfd (ncb l)) (kern (sys w)) ∈ [EISCONN; EALREADY]) then NSP_STATUS_SUCCESSFUL
                                           else - error_of (sockfd (ncb l)) (kern (sys w)), World (links w) s) /\ seen (kern s) = seen (kern (sys w)).
Proof.
  intros Hf Hl Hne. destruct fuel as [|fuel]; [lia |]. cbn [tcp_tx_syn]. destruct (link_error_seen h w l Hl) as (s & E & Hs).
  destruct (Herror (sockfd (ncb l)) (kern (sys w))) as [He Hi]. exists s. split; [|done]. rewrite (bind_some _ _ _ _ _ E). cbn beta iota.
  set (e := error_of (sockfd (ncb l)) (kern (sys w))) in *. rewrite (proj2 (Z.eqb_neq 0 (- e))) by lia.
  destruct (Z.eqb_spec e EISCONN) as [-> |]; [done |]. destruct (Z.eqb_spec e EALREADY) as [-> |]; [done |]. cbn [orb].
  rewrite bool_decide_false by (rewrite !elem_of_cons, elem_of_nil; naive_solver). rewrite (proj2 (Z.eqb_neq e EINTR)) by done.
  destruct (Z.eqb_spec e EAGAIN) as [-> |]; [done |]. unfold ret. by rewrite makeerror_pos by lia.
Qed.

(** C10: [tcp_connect2] on a new TCP link with a callback, however connect(2) answers and whatever
    fails before.  It gives an error and epoll sees nothing; or the connection is under way:
    epoll watches the link for EPOLLOUT, and when that comes the link is established and
    watched for data if the socket has no error, and otherwise (but for a few errors) closed.
    If the kernel connects at once, the call succeeds too, but the link is closed or stays as
    it is: it was not given to epoll before it is changed there.  The callback is told in
    none of the cases: the guard of [ncb_post_connected] stops the event. *)
Theorem tcp_connect2_outcome fuel h fd cb ip port w l ans : (0 < fuel)%nat -> 0 <= h -> links w !! h = Some l -> fresh_link h fd cb l ->
  sin_family (local_addr l) <> AF_UNIX -> fd ∉ watched (kern (sys w)) ->
  (forall a k, exists k', sys_connect C fd a k = (ans, k') /\ seen k' = seen k) -> (ans = Ret 0 \/ exists e, ans = Err e /\ 0 < e) ->
  exists st w1 l1, tcp_connect2 C pool inet_addr fuel h ip port w = Some (st, w1) /\ links w1 = <[h := l1]> (links w) /\
    (st < 0 /\ seen (kern (sys w1)) = seen (kern (sys w)) \/
     st = NSP_STATUS_SUCCESSFUL /\ ans = Ret 0 /\ (closing l1 = true \/ connecting_link h fd cb l1) /\ seen (kern (sys w1)) = seen (kern (sys w)) \/
     st = NSP_STATUS_SUCCESSFUL /\ ans = Err EINPROGRESS /\ connecting_link h fd cb l1 /\
       log (kern (sys w1)) = log (kern (sys w)) ++ [Watch fd h (events_of EPOLLOUT)] /\
       exists w2 l2, on_connectable C fuel h w1 = Some (tt, w2) /\ links w2 = <[h := l2]> (links w) /\
         if error_of fd (kern (sys w1)) =? 0
         then connected_link h fd cb l2 /\ log (kern (sys w2)) = log (kern (sys w1)) ++ [Rewatch fd h (events_of EPOLLIN)]
         else closing l2 = negb (bool_decide (error_of fd (kern (sys w1)) ∈ [EISCONN; EALREADY; EAGAIN; ENOENT])) /\ log (kern (sys w2)) = log (kern (sys w1))).
Proof.
  intros Hf H0 Hl Hfr Hfam Hfd Hconn Hans.
  destruct (connect2_prefix fuel h fd cb ip port w l H0 Hl Hfr Hfam) as [(st & w1 & l1 & E & Hst & El & _ & Hs) | (to & w1 & l1 & E & El & Hc & Hs)].
  { exists st, w1, l1. split; [done |]. split; [done |]. by left. }
  rewrite E. clear E. pose proof Hc as [= Hh Hsock Hcb Hp Hcl Hr Hw].
  assert (links w1 !! h = Some l1) as Hl1 by (by rewrite El, lookup_insert_eq). pose proof Hs as [= HL1 HP1 HW1].
  unfold connect2. rewrite (bind_some (the h) _ w1 l1 w1) by (unfold the; by rewrite Hl1). cbn beta. rewrite Hsock.
  destruct (Hconn to (kern (sys w1))) as (k2 & Ek2 & Hk2).
  destruct Hans as [-> | (e & -> & He)].
  - set (w2 := World (links w1) (Os k2 (errno (sys w1)))).
    rewrite (bind_some (call _) _ _ 0 w2) by (unfold call, syscall; by rewrite Ek2). change (0 =? 0) with true. cbn beta iota.
    assert (seen (kern (sys w2)) = seen (kern (sys w))) as Hs2 by (cbn; congruence). pose proof Hs2 as [= _ _ HW2].
    destruct (Z.eq_dec (error_of (sockfd (ncb l1)) (kern (sys w2))) 0) as [He | He].
    + destruct (tx_syn_done fuel h w2 l1 Hf Hl1) as (st & w3 & l3 & E3 & El3 & Ho); [by rewrite Hcb | done |]. rewrite (bind_some _ _ _ _ _ E3).
      rewrite bool_decide_false in Ho by (rewrite Hsock; cbn [w2 sys kern]; by rewrite HW2). destruct Ho as (_ & Hc3 & Hs3).
      exists NSP_STATUS_SUCCESSFUL, w3, l3. split; [done |]. split; [by rewrite El3; cbn [w2 links]; rewrite El, insert_insert_eq |].
      right. left. split; [done |]. split; [done |]. split; [left; by injection Hc3 | congruence].
    + destruct (tx_syn_error fuel h w2 l1 Hf Hl1 He) as (s3 & E3 & Hs3). rewrite (bind_some _ _ _ _ _ E3).
      exists NSP_STATUS_SUCCESSFUL, (World (links w1) s3), l1. split; [done |]. split; [done |]. right. left. split; [done |]. split; [done |].
      split; [by right |]. cbn [sys]. congruence.
  - set (w2 := World (links w1) (Os k2 e)).
    rewrite (bind_some (call _) _ _ (-1) w2) by (unfold call, syscall; by rewrite Ek2). change (0 =? -1) with false. cbn beta iota.
    unfold bind at 1, get_errno. cbn [w2 sys errno]. destruct (Z.eqb_spec EINPROGRESS e) as [<- | Hne].
    2: { exists (- e), w2, l1. unfold ret. rewrite makeerror_pos by done. split; [done |]. split; [done |]. left. split; [lia |]. cbn [w2 sys kern]. congruence. }
    destruct (attach_seen h EPOLLOUT w2 l1 Hl1) as (w3 & l3 & E3 & El3 & Hc3 & Hs3); [congruence | done | congruence |]. rewrite E3.
    assert (links w3 = <[h := l3]> (links w)) as El3' by (by rewrite El3; cbn [w2 links]; rewrite El, insert_insert_eq).
    assert (links w3 !! h = Some l3) as Hl3 by (by rewrite El3', lookup_insert_eq).
    assert (connecting_link h fd cb l3) as Hconn3 by (unfold connecting_link; by rewrite Hc3). pose proof Hconn3 as [= Hh3 Hsock3 Hcb3 Hp3 Hcl3 Hr3 Hw3].
    unfold seen in Hs3. injection Hs3 as HL3 _ HW3. cbn [w2 sys kern] in HL3, HW3. unfold seen in Hk2. injection Hk2 as HL2 HP2 HW2. rewrite Hsock in HL3, HW3.
    exists NSP_STATUS_SUCCESSFUL, w3, l3. split; [done |]. split; [done |]. right. right. split; [done |]. split; [done |]. split; [done |].
    split; [by rewrite HL3, HL2, HL1 |].
    unfold on_connectable. rewrite (bind_some (found h) _ w3 true w3) by (unfold found; by rewrite Hl3, Hcl3). cbn [negb].
    rewrite (bind_some (the h) _ w3 l3 w3) by (unfold the; by rewrite Hl3). cbn beta. rewrite Hw3.
    destruct (Z.eqb_spec (error_of fd (kern (sys w3))) 0) as [He0 | He0].
    + destruct (tx_syn_done fuel h w3 l3 Hf Hl3) as (st & w4 & l4 & E4 & El4 & Ho); [by rewrite Hcb3 | by rewrite Hsock3 |].
      rewrite bool_decide_true in Ho by (rewrite Hsock3, HW3; set_solver). destruct Ho as (-> & Hc4 & Hs4). rewrite (bind_some _ _ _ _ _ E4).
      change (NSP_SUCCESS NSP_STATUS_SUCCESSFUL) with true. cbn [orb]. exists w4, l4. split; [done |]. split; [by rewrite El4, El3', insert_insert_eq |].
      split; [unfold connected_link; rewrite Hc4; unfold core in *; cbn; congruence |]. unfold seen in Hs4. injection Hs4 as HL4 _ _. by rewrite HL4, Hsock3, Hh3.
    + destruct (tx_syn_error fuel h w3 l3 Hf Hl3) as (s4 & E4 & Hs4); [by rewrite Hsock3 |]. rewrite (bind_some _ _ _ _ _ E4). rewrite Hsock3.
      pose proof (Herror fd (kern (sys w3))) as [Hb _]. set (x := error_of fd (kern (sys w3))) in *. unfold seen in Hs4. injection Hs4 as HL4 _ _.
      assert (NSP_SUCCESS (- x) || NSP_FAILED_AND_ERROR_EQUAL (- x) EAGAIN || NSP_FAILED_AND_ERROR_EQUAL (- x) ENOENT = (x =? EAGAIN) || (x =? ENOENT)) as Hst.
      { unfold NSP_SUCCESS, NSP_FAILED_AND_ERROR_EQUAL, Z.lnot. rewrite (proj2 (Z.leb_gt 0 (- x))) by lia.
        replace (Z.pred (- - x) + 1) with x by lia. assert (s64 x = x) as -> by (apply swrap_small; pow2; lia). done. }
      assert (bool_decide (x ∈ [EISCONN; EALREADY; EAGAIN; ENOENT]) = bool_decide (x ∈ [EISCONN; EALREADY]) || ((x =? EAGAIN) || (x =? ENOENT))) as ->.
      { destruct (Z.eqb_spec x EAGAIN) as [-> |]; [done |]. destruct (Z.eqb_spec x ENOENT) as [-> |]; [done |]. rewrite !orb_false_r.
        apply bool_decide_ext. rewrite !elem_of_cons, elem_of_nil. naive_solver. }
      destruct (bool_decide (x ∈ [EISCONN; EALREADY])); cbn beta iota.
      * change (NSP_SUCCESS NSP_STATUS_SUCCESSFUL) with true. cbn [orb]. exists (World (links w3) s4), l3. split; [done |]. split; [done |]. by split.
      * rewrite Hst. cbn [orb]. destruct ((x =? EAGAIN) || (x =? ENOENT)).
        -- exists (World (links w3) s4), l3. split; [done |]. split; [done |]. by split.
        -- unfold objclos. cbn [links]. rewrite Hl3. eexists _, (set_closing l3). split; [reflexivity |]. cbn [links]. split; [by rewrite El3', insert_insert_eq |]. by split.
Qed.
End Observed.

#[local] Instance demo_network : Network demo_calls demo_pool d_log demo_waiting d_watched EAGAIN.
Proof.
  split.
  - by split.
  - intros fd s h ev k. by eexists.
  - intros fd s h ev k Hs. cbn. rewrite bool_decide_true by done. by eexists.
  - intros fd s h ev k Hs. cbn. rewrite bool_decide_false by done. exists ENOENT, k. done.
  - done.
  - intros s [lg p wt] fd q H. destruct p as [|x p]; [done |]. injection H as <- <-. split; [done |]. by eexists.
  - intros s [lg p wt] H. destruct p as [|x p]; [|done]. by eexists.
  - done.
  - intros n k. by eexists.
  - intros q k. eexists _, k. split; [reflexivity |]. destruct (demo_fresh q) as [H1 H2]. done.
  - eexists. split; [reflexivity |]. split; [done |]. by repeat (constructor; [done |]).
Qed.

Definition demo_server : link_t := set_rw (Some Tcp_syn) None (new_link 1 IPPROTO_TCP 3 (Some 9)).
Definition demo_world : world demo_sys := World {[1 := demo_server]} (Os (Demo [] [7; 8]%positive ∅) 0).

(** Two connections wait; the callback hears of neither. *)
Lemma tcp_syn_accepts_witness : exists w', on_acceptable demo_calls demo_pool 3 1 demo_world = Some (true, w') /\ links w' !! 1 = Some demo_server /\
  d_log (kern (sys w')) = [Watch 7 2 (events_of 0); Rewatch 7 2 (events_of EPOLLIN);
                           Watch 8 3 (events_of 0); Rewatch 8 3 (events_of EPOLLIN)].
Proof.
  destruct (tcp_syn_accepts demo_calls demo_pool d_log demo_waiting d_watched EAGAIN 3 1 demo_server demo_world [7; 8]) as (hnew & w' & E & _ & _ & Hs & _ & _ & Hlog & _);
    [reflexivity | reflexivity | reflexivity | split; [by eexists | reflexivity] | reflexivity | cbn; lia |].
  exists w'. split; [exact E |]. split; [exact Hs |].
  assert ((fun r => d_log (kern (sys r.2))) <$> on_acceptable demo_calls demo_pool 3 1 demo_world =
    Some [Watch 7 2 (events_of 0); Rewatch 7 2 (events_of EPOLLIN);
          Watch 8 3 (events_of 0); Rewatch 8 3 (events_of EPOLLIN)]) as Hl by (vm_compute; reflexivity).
  rewrite E in Hl. by injection Hl.
Defined.

Lemma tcp_connect2_outcome_witness : exists w1,
  tcp_connect2 demo_calls demo_pool demo_addr 1 1 demo_ip 80 (World {[1 := demo_created]} (Os (Demo [] [] ∅) 0)) = Some (0, w1) /\
  d_log (kern (sys w1)) = [Watch 5 1 (events_of EPOLLOUT)] /\
  exists w2, on_connectable demo_calls 1 1 w1 = Some (tt, w2) /\
    d_log (kern (sys w2)) = [Watch 5 1 (events_of EPOLLOUT); Rewatch 5 1 (events_of EPOLLIN)].
Proof.
  destruct (tcp_connect2_outcome demo_calls demo_pool demo_addr d_log demo_waiting d_watched EAGAIN) with (fuel := 1%nat) (h := 1) (fd := 5) (cb := 9) (ip := demo_ip)
    (port := 80) (w := World {[1 := demo_created]} (Os (Demo [] [] ∅) 0)) (l := demo_created) (ans := Err EINPROGRESS)
    as (st & w1 & l1 & E & _ & Ho);
    [intros fd k; cbn; split; [lia | discriminate] | lia | lia | reflexivity | reflexivity | discriminate | set_solver | intros a k; by exists k | right; by exists EINPROGRESS |].
  assert (fst <$> tcp_connect2 demo_calls demo_pool demo_addr 1 1 demo_ip 80 (World {[1 := demo_created]} (Os (Demo [] [] ∅) 0)) = Some 0) as Hst
    by (vm_compute; reflexivity). rewrite E in Hst. injection Hst as ->.
  destruct Ho as [[Hst _] | [(_ & Hans & _) | (_ & _ & _ & Hlog & w2 & l2 & E2 & _ & Hset)]];
    [by destruct (Z.lt_irrefl 0) | discriminate Hans |].
  exists w1. split; [exact E |]. split; [exact Hlog |]. exists w2. split; [exact E2 |]. destruct Hset as [_ Hset]. by rewrite Hset, Hlog.
Defined.
