(* ===== verification/Ifos.v ===== *)
(** Reading and writing files: src/posix/wosi/ifos.c.

    The system calls are parameters on the state [K] of the kernel, as in [Ncb];
    a buffer that is not NULL is the list of its bytes.  [File] says what the calls
    do to the bytes of the file behind a descriptor and to its position. *)
From S2P Require Import Prelude Ncb.

Definition ENOSPC : Z := 28.
Definition O_RDONLY : Z := 0.
Definition O_RDWR : Z := 2.
Definition O_CREAT : Z := 64.
Definition O_EXCL : Z := 128.
Definition O_TRUNC : Z := 512.
Definition INVALID_FILE_DESCRIPTOR : Z := -1.

(** Flags of include/ifos.h. *)
Definition FF_WRACCESS : Z := 1.
Definition FF_OPEN_EXISTING : Z := 2.
Definition FF_OPEN_ALWAYS : Z := 4.
Definition FF_CREATE_NEWONE : Z := 6.
Definition FF_CREATE_ALWAYS : Z := 8.

Section Ifos.
Context {K : Type}.
Implicit Types (s : os K) (buf bytes : list Z).
Context (sys_read : Z -> Z -> K -> (list Z + Z) * K)
  (sys_write : Z -> list Z -> K -> answer * K)
  (sys_lseek : Z -> Z -> K -> answer * K)
  (sys_fsync : Z -> K -> answer * K)
  (sys_open : Z -> Z -> K -> answer * K)
  (sys_close : Z -> K -> K)
  (sys_fstat : Z -> K -> answer * K).

(** open(2) of the path with the flags and the mode: the status and the descriptor. *)
Definition ifos_file_open (flag mode : Z) s : Z * Z * os K :=
  let fflags := if negb (Z.land flag FF_WRACCESS =? 0) then O_RDWR else O_RDONLY in
  let how := Z.land flag (Z.lnot 1) in
  if (how =? FF_OPEN_EXISTING) || (how =? FF_OPEN_ALWAYS) || (how =? FF_CREATE_NEWONE) || (how =? FF_CREATE_ALWAYS) then
    let extra :=
      if how =? FF_OPEN_EXISTING then 0
      else if how =? FF_OPEN_ALWAYS then O_CREAT
      else if how =? FF_CREATE_NEWONE then Z.lor O_CREAT O_EXCL
      else Z.lor O_CREAT O_TRUNC in
    let '(fd, s) := syscall (sys_open (Z.lor fflags extra) mode) s in
    if fd <? 0 then (posix__makeerror (errno s), INVALID_FILE_DESCRIPTOR, s) else (NSP_STATUS_SUCCESSFUL, fd, s)
  else (posix__makeerror EINVAL, INVALID_FILE_DESCRIPTOR, s).

Definition ifos_file_close (fd : Z) s : os K :=
  if fd <? 0 then s else Os (sys_close fd (kern s)) (errno s).

(** fstat(2), of which the size is used. *)
Definition ifos_file_fgetsize (fd : Z) s : Z * os K :=
  let '(size, s) := syscall (sys_fstat fd) s in
  if size <? 0 then (posix__makeerror (errno s), s) else (size, s).

(** One read(2) of at most [size] bytes into [buf] at [offset]. *)
Fixpoint read_loop (fuel : nat) (fd : Z) buf (offset size : Z) s : option (Z * list Z * os K) :=
  match fuel with
  | O => None
  | S fuel =>
      if offset <? size then
        match sys_read fd (size - offset) (kern s) with
        | (inr e, k) => Some (posix__makeerror e, buf, Os k e)
        | (inl bytes, k) =>
            buf ← memcpy_at buf offset bytes;
            let s := Os k (errno s) in
            if 0 =? zlen bytes then Some (offset, buf, s)
            else read_loop fuel fd buf (offset + zlen bytes) size s
        end
      else Some (offset, buf, s)
  end.
Definition ifos_file_read (fd : Z) buf (size : Z) s : option (Z * list Z * os K) :=
  if size <=? 0 then Some (posix__makeerror EINVAL, buf, s)
  else read_loop (S (Z.to_nat size)) fd buf 0 size s.

(** One write(2) of what is left of the [size] bytes. *)
Fixpoint write_loop (fuel : nat) (fd : Z) buf (offset size : Z) s : option (Z * os K) :=
  match fuel with
  | O => None
  | S fuel =>
      if offset <? size then
        bytes ← memread buf offset (size - offset);
        let '(n, s) := syscall (sys_write fd bytes) s in
        if n <? 0 then
          if errno s =? ENOSPC then Some (offset, s) else Some (posix__makeerror (errno s), s)
        else if 0 =? n then Some (offset, s)
        else write_loop fuel fd buf (offset + n) size s
      else Some (offset, s)
  end.
Definition ifos_file_write (fd : Z) buf (size : Z) s : option (Z * os K) :=
  if size <=? 0 then Some (posix__makeerror EINVAL, s)
  else write_loop (S (Z.to_nat size)) fd buf 0 size s.

Definition ifos_file_seek (fd offset : Z) s : Z * os K :=
  let '(newoff, s) := syscall (sys_lseek fd offset) s in
  if newoff =? -1 then (posix__makeerror (errno s), s) else (NSP_STATUS_SUCCESSFUL, s).

Definition ifos_file_flush (fd : Z) s : Z * os K :=
  if fd <? 0 then (posix__makeerror EINVAL, s)
  else
    let '(r, s) := syscall (sys_fsync fd) s in
    if r <? 0 then (posix__makeerror (errno s), s) else (NSP_STATUS_SUCCESSFUL, s).

(** ** The file behind the calls *)

(** [bytes] over the content from [p] on; a gap in front of [p] reads as zero. *)
Definition write_at (p : Z) (bytes content : list Z) : list Z :=
  take (Z.to_nat p) (content ++ replicate (Z.to_nat p - length content) 0)
  ++ bytes ++ drop (Z.to_nat p + length bytes) content.
Definition read_at (p n : Z) (content : list Z) : list Z :=
  take (Z.to_nat n) (drop (Z.to_nat p) content).

(** POSIX: a call moves some of the bytes, at least one unless the end of the file is
    reached, from the position on, or fails and changes neither content nor position. *)
Class File (content : K -> list Z) (pos : K -> Z) : Prop := {
  pos_nonneg k : 0 <= pos k;
  read_spec fd size k : 0 < size ->
    (exists n k', sys_read fd size k = (inl (read_at (pos k) n (content k)), k') /\ 0 < n <= size /\
       content k' = content k /\ pos k' = pos k + zlen (read_at (pos k) n (content k))) \/
    (exists e k', sys_read fd size k = (inr e, k') /\ 0 < e /\ content k' = content k);
  write_spec fd bytes k : bytes <> [] ->
    (exists n k', sys_write fd bytes k = (Ret n, k') /\ 0 <= n <= zlen bytes /\
       content k' = write_at (pos k) (take (Z.to_nat n) bytes) (content k) /\ pos k' = pos k + n) \/
    (exists e k', sys_write fd bytes k = (Err e, k') /\ 0 < e /\ content k' = content k /\ pos k' = pos k);
  lseek_spec fd off k : 0 <= off ->
    (exists k', sys_lseek fd off k = (Ret off, k') /\ content k' = content k /\ pos k' = off) \/
    (exists e k', sys_lseek fd off k = (Err e, k') /\ 0 < e /\ content k' = content k);
  fsync_spec fd k :
    (exists k', sys_fsync fd k = (Ret 0, k') /\ content k' = content k) \/
    (exists e k', sys_fsync fd k = (Err e, k') /\ 0 < e /\ content k' = content k);
}.

(** A disk that has room and does not fail on writing. *)
Class Healthy : Prop := {
  write_healthy fd bytes k : bytes <> [] -> exists n k', sys_write fd bytes k = (Ret n, k') /\ 0 < n;
  lseek_healthy fd off k : 0 <= off -> exists k', sys_lseek fd off k = (Ret off, k');
}.
End Ifos.
Arguments pos_nonneg {K sys_read sys_write sys_lseek sys_fsync content pos File} k.
Arguments read_spec {K sys_read sys_write sys_lseek sys_fsync content pos File} fd size k _.
Arguments write_spec {K sys_read sys_write sys_lseek sys_fsync content pos File} fd bytes k _.
Arguments lseek_spec {K sys_read sys_write sys_lseek sys_fsync content pos File} fd off k _.
Arguments fsync_spec {K sys_read sys_write sys_lseek sys_fsync content pos File} fd k.
Arguments write_healthy {K sys_write sys_lseek Healthy} fd bytes k _.
Arguments lseek_healthy {K sys_write sys_lseek Healthy} fd off k _.

Lemma read_at_app pre mid post : read_at (zlen pre) (zlen mid) (pre ++ mid ++ post) = mid.
Proof. unfold read_at. by rewrite drop_zlen, take_zlen. Qed.

Lemma read_at_len p n c : 0 <= p -> 0 <= n -> p + n <= zlen c -> zlen (read_at p n c) = n.
Proof. intros Hp Hn Hl. unfold read_at, zlen in *. rewrite length_take, length_drop. lia. Qed.

Lemma read_at_len_le p n c : 0 <= n -> zlen (read_at p n c) <= n.
Proof. intros Hn. unfold read_at, zlen. rewrite length_take. lia. Qed.

Lemma read_at_split p n m c : 0 <= p -> 0 <= n -> 0 <= m ->
  read_at p (n + m) c = read_at p n c ++ read_at (p + n) m c.
Proof.
  intros Hp Hn Hm. unfold read_at. rewrite !Z2Nat.inj_add, <- drop_drop by lia.
  set (d := drop (Z.to_nat p) c). clearbody d.
  rewrite <- (take_drop (Z.to_nat n) d) at 1.
  destruct (decide (Z.to_nat n <= length d)%nat).
  - rewrite take_app. rewrite (take_ge (take _ _)) by (rewrite length_take; lia). f_equal. f_equal.
    rewrite length_take. lia.
  - rewrite (take_ge d) by lia. rewrite (drop_ge d) by lia. rewrite app_nil_r, take_nil, app_nil_r. by rewrite take_ge by lia.
Qed.

Lemma read_at_short p n c : 0 <= p -> zlen (read_at p n c) < n -> zlen c <= p + zlen (read_at p n c).
Proof. intros Hp. unfold read_at, zlen. rewrite length_take, length_drop. lia. Qed.

(** A write inside the content, or at its end. *)
Lemma write_at_in p bytes c : 0 <= p <= zlen c ->
  write_at p bytes c = take (Z.to_nat p) c ++ bytes ++ drop (Z.to_nat p + length bytes) c.
Proof.
  intros Hp. unfold write_at, zlen in *. replace (Z.to_nat p - length c)%nat with 0%nat by lia.
  cbn [replicate]. by rewrite app_nil_r.
Qed.

Lemma write_at_len p bytes c : 0 <= p <= zlen c -> zlen (write_at p bytes c) = Z.max (zlen c) (p + zlen bytes).
Proof.
  intros Hp. rewrite write_at_in by done. unfold zlen in *. rewrite !length_app, length_take, length_drop. lia.
Qed.

(** Writing two pieces one behind the other is writing them at once. *)
Lemma write_at_app p b1 b2 c : 0 <= p <= zlen c ->
  write_at (p + zlen b1) b2 (write_at p b1 c) = write_at p (b1 ++ b2) c.
Proof.
  intros Hp. pose proof (write_at_len p b1 c Hp) as Hl. pose proof (zlen_nonneg b1).
  rewrite (write_at_in (p + zlen b1)) by lia. rewrite !write_at_in by done. unfold zlen in *.
  rewrite Z2Nat.inj_add, Nat2Z.id by lia. rewrite <- !app_assoc.
  assert (length (take (Z.to_nat p) c) = Z.to_nat p) as Ht by (rewrite length_take; lia).
  assert (forall r : list Z, take (Z.to_nat p + length b1) (take (Z.to_nat p) c ++ b1 ++ r) = take (Z.to_nat p) c ++ b1) as ->.
  { intros r. rewrite app_assoc. apply take_app_length'. rewrite length_app. lia. }
  rewrite <- app_assoc. do 2 f_equal. f_equal.
  rewrite (app_assoc (take _ c)), drop_app_ge by (rewrite length_app; lia).
  rewrite drop_drop, !length_app. f_equal. lia.
Qed.

Lemma write_at_nil p c : 0 <= p <= zlen c -> write_at p [] c = c.
Proof. intros Hp. rewrite write_at_in by done. cbn [app length]. rewrite Nat.add_0_r. apply take_drop. Qed.

(** Reading back: inside what was written, and beside it. *)
Lemma read_write_same p bytes c : 0 <= p <= zlen c -> read_at p (zlen bytes) (write_at p bytes c) = bytes.
Proof.
  intros Hp. rewrite write_at_in by done. unfold read_at, zlen in *.
  rewrite drop_app_length' by (rewrite length_take; lia). rewrite Nat2Z.id. apply take_app_length.
Qed.

Lemma read_write_before p bytes c q n : 0 <= p <= zlen c -> 0 <= q -> 0 <= n -> q + n <= p ->
  read_at q n (write_at p bytes c) = read_at q n c.
Proof.
  intros Hp Hq Hn Hle. rewrite write_at_in by done. unfold read_at, zlen in *.
  rewrite drop_app_le by (rewrite length_take; lia).
  rewrite take_app_le by (rewrite length_drop, length_take; lia).
  rewrite <- (take_drop (Z.to_nat p) c) at 2.
  rewrite drop_app_le by (rewrite length_take; lia).
  by rewrite take_app_le by (rewrite length_drop, length_take; lia).
Qed.

Lemma read_write_behind p bytes c q n : 0 <= p <= zlen c -> p + zlen bytes <= q ->
  read_at q n (write_at p bytes c) = read_at q n c.
Proof.
  intros Hp Hle. rewrite write_at_in by done. unfold read_at, zlen in *. f_equal.
  rewrite drop_app_ge by (rewrite length_take; lia). rewrite length_take, min_l by lia.
  rewrite drop_app_ge by lia. rewrite drop_drop. f_equal. lia.
Qed.

Lemma read_at_resume p n m c : 0 <= p -> 0 <= n <= m ->
  read_at p m c = read_at p n c ++ read_at (p + zlen (read_at p n c)) (m - zlen (read_at p n c)) c.
Proof.
  intros Hp Hn. pose proof (read_at_len_le p n c ltac:(lia)) as Hle.
  destruct (decide (zlen (read_at p n c) = n)) as [-> | Hne].
  - replace m with (n + (m - n)) at 1 by lia. apply read_at_split; lia.
  - pose proof (read_at_short p n c Hp ltac:(lia)) as Hs. revert Hle Hne Hs. unfold read_at, zlen.
    rewrite !length_take, !length_drop. intros Hle Hne Hs.
    rewrite (drop_ge c (Z.to_nat (_ + _))) by lia. rewrite take_nil, app_nil_r.
    by rewrite !take_ge by (rewrite length_drop; lia).
Qed.

(** Copying into a block is writing inside it. *)
Lemma memcpy_write buf off src : 0 <= off -> off + zlen src <= zlen buf ->
  memcpy_at buf off src = Some (write_at off src buf).
Proof.
  intros H1 H2. pose proof (zlen_nonneg src). rewrite write_at_in by lia. unfold memcpy_at.
  by rewrite (proj2 (Z.leb_le 0 off)), (proj2 (Z.leb_le _ (zlen buf))) by lia.
Qed.

(** A disk of clusters [a] after a write into cluster [id]. *)
Definition written (id offset : Z) (input : list Z) (a : Z -> option (list Z)) : Z -> option (list Z) :=
  fun i => if decide (i = id) then write_at offset input <$> a i else a i.


Section Spec.
Context {K : Type}.
Implicit Types (s : os K) (buf bytes : list Z).
Context (sys_read : Z -> Z -> K -> (list Z + Z) * K)
  (sys_write : Z -> list Z -> K -> answer * K)
  (sys_lseek : Z -> Z -> K -> answer * K)
  (sys_fsync : Z -> K -> answer * K)
  (content : K -> list Z) (pos : K -> Z) `{!File sys_read sys_write sys_lseek sys_fsync content pos}.
#[local] Abbreviation kpos s := (pos (kern s)).
#[local] Abbreviation kcontent s := (content (kern s)).

Lemma read_loop_spec fuel fd : forall buf offset size s,
  0 <= offset <= size -> size <= zlen buf -> size - offset < Z.of_nat fuel ->
  exists r buf' s', read_loop sys_read fuel fd buf offset size s = Some (r, buf', s') /\
    kcontent s' = kcontent s /\ zlen buf' = zlen buf /\
    (r < 0 \/ r = offset + zlen (read_at (kpos s) (size - offset) (kcontent s)) /\
     buf' = write_at offset (read_at (kpos s) (size - offset) (kcontent s)) buf /\ kpos s' = kpos s + (r - offset)).
Proof.
  induction fuel as [|fuel IH]; intros buf offset size s Ho Hs Hf; [lia |]. cbn [read_loop].
  destruct (Z.ltb_spec offset size) as [Hlt | Hge].
  2: { do 3 eexists. split; [reflexivity |]. split; [done |]. split; [done |]. right.
    replace (size - offset) with 0 by lia. change (read_at _ 0 _) with (@nil Z).
    rewrite zlen_nil, write_at_nil by lia. split_and!; [lia | done | lia]. }
  destruct (read_spec (File:=File0) fd (size - offset) (kern s) ltac:(lia))
    as [(n & k' & -> & Hn & Hc & Hp) | (e & k' & -> & He & Hc)].
  2: { do 3 eexists. split; [reflexivity |]. split; [done |]. split; [done |]. left. rewrite makeerror_pos; lia. }
  pose proof (pos_nonneg (File:=File0) (kern s)) as Hp0.
  set (got := read_at (kpos s) n (kcontent s)) in *.
  assert (zlen got <= n) as Hgn by (apply read_at_len_le; lia). pose proof (zlen_nonneg got) as Hg0.
  pose proof (read_at_resume (kpos s) n (size - offset) (kcontent s) Hp0 ltac:(lia)) as Hsplit. fold got in Hsplit.
  rewrite memcpy_write by lia. cbn [mbind option_bind].
  assert (zlen (write_at offset got buf) = zlen buf) as Hwl by (rewrite write_at_len; lia).
  destruct (Z.eqb_spec 0 (zlen got)) as [H0 | H0].
  - assert (got = []) as Eg by (apply zlen_0; lia).
    assert (read_at (kpos s) (size - offset) (kcontent s) = []) as ->.
    { rewrite Hsplit, Eg. cbn [app]. rewrite zlen_nil. pose proof (read_at_short (kpos s) n (kcontent s) Hp0) as Hsh.
      fold got in Hsh. rewrite Eg, zlen_nil in Hsh. unfold read_at. rewrite drop_ge, take_nil; [done |].
      unfold zlen in Hsh. lia. }
    do 3 eexists. split; [reflexivity |]. split; [done |]. split; [done |]. right. rewrite Eg, zlen_nil in *.
    split_and!; [lia | done | cbn [kern]; lia].
  - destruct (IH (write_at offset got buf) (offset + zlen got) size (Os k' (errno s)))
      as (r & buf' & s' & -> & Hc' & Hl' & Hr); [lia.. |].
    do 3 eexists. split; [reflexivity |]. cbn [kern] in *. split; [congruence |]. split; [lia |].
    destruct Hr as [? | (-> & -> & Hp')]; [by left | right].
    rewrite Hc, Hp in *. replace (size - (offset + zlen got)) with (size - offset - zlen got) in * by lia.
    rewrite Hsplit, zlen_app, write_at_app by lia. split_and!; [lia | done | lia].
Qed.

(** [ifos_file_read] fails, or reads to the end of the buffer or of the file. *)
Lemma ifos_file_read_ok fd buf size s : 0 < size <= zlen buf ->
  exists r buf' s', ifos_file_read sys_read fd buf size s = Some (r, buf', s') /\
    kcontent s' = kcontent s /\ zlen buf' = zlen buf /\
    (r < 0 \/ r = zlen (read_at (kpos s) size (kcontent s)) /\
     buf' = write_at 0 (read_at (kpos s) size (kcontent s)) buf /\ kpos s' = kpos s + r).
Proof.
  intros Hs. unfold ifos_file_read. rewrite (proj2 (Z.leb_gt size 0)) by lia.
  destruct (read_loop_spec (S (Z.to_nat size)) fd buf 0 size s) as (r & b & s' & -> & H1 & H2 & H3); [lia.. |].
  exists r, b, s'. rewrite !Z.sub_0_r in H3. eauto 6.
Qed.

Lemma write_loop_spec fuel fd : forall buf offset size s,
  0 <= offset <= size -> size <= zlen buf -> size - offset < Z.of_nat fuel -> kpos s <= zlen (kcontent s) ->
  exists r s' m, write_loop sys_write fuel fd buf offset size s = Some (r, s') /\
    0 <= m <= size - offset /\
    kcontent s' = write_at (kpos s) (read_at offset m buf) (kcontent s) /\ kpos s' = kpos s + m /\
    (r < 0 \/ r = offset + m) /\ (Healthy sys_write sys_lseek -> r = size).
Proof.
  induction fuel as [|fuel IH]; intros buf offset size s Ho Hs Hf Hpos; [lia |]. cbn [write_loop].
  pose proof (pos_nonneg (File:=File0) (kern s)) as Hp0.
  assert (0 <= 0 <= size - offset /\
    kcontent s = write_at (kpos s) (read_at offset 0 buf) (kcontent s) /\ kpos s = kpos s + 0) as (H1 & H2 & H3).
  { split; [lia |]. split; [|lia].
    change (read_at offset 0 buf) with (@nil Z). by rewrite write_at_nil by lia. }
  destruct (Z.ltb_spec offset size) as [Hlt | Hge].
  2: { exists offset, s, 0. split_and!; try done; [lia | by right; lia | lia]. }
  assert (memread buf offset (size - offset) = Some (read_at offset (size - offset) buf)) as ->.
  { unfold memread, read_at. by rewrite !(proj2 (Z.leb_le _ _)) by lia. }
  cbn [mbind option_bind]. set (bytes := read_at offset (size - offset) buf).
  assert (zlen bytes = size - offset) as Hb by (apply read_at_len; lia).
  assert (bytes <> []) as Hne by (intros E; rewrite E, zlen_nil in Hb; lia).
  unfold syscall. destruct (write_spec (File:=File0) fd bytes (kern s) Hne)
    as [(n & k' & E & Hn & Hc & Hp) | (e & k' & E & He & Hc & Hp)]; rewrite E.
  2: { cbn match. cbn [errno]. change (-1 <? 0) with true. cbn match.
    destruct (e =? ENOSPC).
    - exists offset, (Os k' e), 0. cbn [kern]. rewrite Hc, Hp. split_and!; try done; [lia | by right; lia |].
      intros Hh. destruct (write_healthy (Healthy:=Hh) fd bytes (kern s) Hne) as (? & ? & E' & _). congruence.
    - exists (posix__makeerror e), (Os k' e), 0. cbn [kern]. rewrite Hc, Hp. split_and!; try done; [lia | |].
      + left. rewrite makeerror_pos; lia.
      + intros Hh. destruct (write_healthy (Healthy:=Hh) fd bytes (kern s) Hne) as (? & ? & E' & _). congruence. }
  cbn match. rewrite (proj2 (Z.ltb_ge n 0)) by lia.
  assert (take (Z.to_nat n) bytes = read_at offset n buf) as Et.
  { unfold bytes, read_at. rewrite take_take, min_l by lia. done. }
  destruct (Z.eqb_spec 0 n) as [<- | Hn0].
  - rewrite Et in Hc.
    exists offset, (Os k' (errno s)), 0. cbn [kern]. split_and!; try done; [lia | by right; lia |].
    intros Hh. destruct (write_healthy (Healthy:=Hh) fd bytes (kern s) Hne) as (n' & ? & E' & Hn').
    rewrite E in E'. injection E' as <- _. lia.
  - rewrite Et in Hc.
    assert (zlen (read_at offset n buf) = n) as Hrn by (apply read_at_len; lia).
    destruct (IH buf (offset + n) size (Os k' (errno s))) as (r & s' & m & -> & Hm & Hc' & Hp' & Hr & Hh); [lia.. | |].
    { cbn [kern]. rewrite Hc, Hp, write_at_len by lia. lia. }
    cbn [kern] in *. exists r, s', (n + m). split; [done |]. split; [lia |]. split; [|split; [lia |]].
    + rewrite Hc', Hp, Hc. rewrite <- Hrn at 1. rewrite write_at_app by lia. f_equal. by rewrite read_at_split by lia.
    + split; [destruct Hr as [? | ->]; [by left | right; lia] | done].
Qed.

(** [ifos_file_write] puts some of the bytes at the position; all of them if the disk
    has room. *)
Lemma ifos_file_write_ok fd buf size s : 0 < size <= zlen buf -> kpos s <= zlen (kcontent s) ->
  exists r s' m, ifos_file_write sys_write fd buf size s = Some (r, s') /\ 0 <= m <= size /\
    kcontent s' = write_at (kpos s) (take (Z.to_nat m) buf) (kcontent s) /\ kpos s' = kpos s + m /\
    (r < 0 \/ r = m) /\ (Healthy sys_write sys_lseek -> r = size).
Proof.
  intros Hb Hp. unfold ifos_file_write. rewrite (proj2 (Z.leb_gt size 0)) by lia.
  destruct (write_loop_spec (S (Z.to_nat size)) fd buf 0 size s)
    as (r & s' & m & -> & H1 & H2 & H3 & H4 & H5); [lia.. |]. rewrite Z.sub_0_r in H1.
  exists r, s', m. split_and!; try done; lia.
Qed.

Lemma ifos_file_seek_ok fd off s : 0 <= off ->
  exists r s', ifos_file_seek sys_lseek fd off s = (r, s') /\ kcontent s' = kcontent s /\
    (r < 0 \/ r = NSP_STATUS_SUCCESSFUL /\ kpos s' = off) /\ (Healthy sys_write sys_lseek -> r = NSP_STATUS_SUCCESSFUL).
Proof.
  intros Ho. unfold ifos_file_seek, syscall.
  destruct (lseek_spec (File:=File0) fd off (kern s) Ho) as [(k' & E & Hc & Hp) | (e & k' & E & He & Hc)]; rewrite E.
  - rewrite (proj2 (Z.eqb_neq off (-1))) by lia. do 2 eexists. split; [reflexivity |]. split; [done |]. split; [by right | done].
  - change (-1 =? -1) with true. cbn match. cbn [errno]. do 2 eexists. split; [reflexivity |]. split; [done |].
    split; [left; rewrite makeerror_pos; lia |].
    intros Hh. destruct (lseek_healthy (Healthy:=Hh) fd off (kern s) Ho) as (? & E'). congruence.
Qed.

Lemma ifos_file_flush_ok fd s : exists r s', ifos_file_flush sys_fsync fd s = (r, s') /\ kcontent s' = kcontent s.
Proof.
  unfold ifos_file_flush, syscall. destruct (fd <? 0); [by eauto |].
  destruct (fsync_spec (File:=File0) fd (kern s)) as [(k' & -> & Hc) | (e & k' & -> & He & Hc)].
  - change (0 <? 0) with false. by eauto.
  - change (-1 <? 0) with true. by eauto.
Qed.
End Spec.
