(* ===== verification/Cluster.v ===== *)
(** The disk of evfs: addons/evfs/cluster.c over [Ifos].

    The file is a row of clusters of equal size; the first one holds the header
    record ([evhrd], 12 bytes behind the head of the cluster).  [mgr] is the static
    [__evfs_cluster_mgr]; the pointer evhrd is set and cleared together with
    [the_first_cluster], whose bytes it points into.  [None] is undefined behaviour:
    access outside a block. *)
From S2P Require Import Prelude Ncb Ifos.

Definition EIO : Z := 5.
Definition EBFONT : Z := 59.
Definition EPROTOTYPE : Z := 91.
Definition MINIMUM_CLUSTER_SIZE : Z := 32.
Definition MAXIMUM_CLUSTER_SIZE : Z := 4096.
Definition MAXIMUM_FILE_SIZE : Z := Z.shiftl 1 30.

(** (int)'sfvE' *)
Definition EVFS_MAGIC : Z := 0x73667645.
Definition sizeof_cluster : Z := 12.
Definition sizeof_evhrd : Z := 80.

Definition kEvmgrNotReady : Z := 0.
Definition kEvmgrInitializing : Z := 1.
Definition kEvmgrUninitializing : Z := 2.
Definition kEvmgrReady : Z := 3.
Definition kEvmgrClosing : Z := 4.

Definition is_powerof_2 (x : Z) : bool := negb (x =? 0) && (Z.land x (x - 1) =? 0).

(** ** int fields of packed structs, little endian *)
Definition get_int (off : Z) (block : list Z) : option Z := b ← memread block off 4; Some (s32 (le_value b)).
Definition put_int (off v : Z) (block : list Z) : option (list Z) := memcpy_at block off (le_bytes 4 v).

(** struct evfs_cluster and, behind it, struct evfs_head_record_data *)
Definition data_seg_size : Z := 0.
Definition next_cluster_id : Z := 4.
Definition head_cluster_id : Z := 8.
Definition magic : Z := 12.
Definition cluster_size : Z := 16.
Definition cluster_count : Z := 20.
Definition expand_cluster_count : Z := 24.

Record mgr := Mgr {
  fd : Z; the_first_cluster : option (list Z); ready : Z; max_data_seg_size : Z; fsize : Z;
}.
Definition evfs_mgr0 : mgr := Mgr INVALID_FILE_DESCRIPTOR None kEvmgrNotReady 0 0.
Definition set_ready (r : Z) (m : mgr) : mgr := Mgr (fd m) (the_first_cluster m) r (max_data_seg_size m) (fsize m).

Definition __evfs_is_ready (m : mgr) : bool :=
  negb (negb (ready m =? kEvmgrReady) || bool_decide (the_first_cluster m = None) ||
    (fd m =? INVALID_FILE_DESCRIPTOR) || (fsize m =? 0) || (max_data_seg_size m =? 0)).

(** A field of [evhrd]. *)
Definition evhrd (field : Z) (m : mgr) : option Z := b ← the_first_cluster m; get_int field b.

(** int product *)
Definition __evfs_cluster_offset (cluster_id : Z) (m : mgr) : option Z :=
  cs ← evhrd cluster_size m; Some (s32 (cluster_id * cs)).

Section Cluster.
Context {K : Type}.
Implicit Types (s : os K) (m : mgr).
Context (sys_read : Z -> Z -> K -> (list Z + Z) * K)
  (sys_write : Z -> list Z -> K -> answer * K)
  (sys_lseek : Z -> Z -> K -> answer * K)
  (sys_fsync : Z -> K -> answer * K)
  (sys_open : Z -> Z -> K -> answer * K)
  (sys_close : Z -> K -> K)
  (sys_fstat : Z -> K -> answer * K)
  (alloc : Z -> option (list Z)).

(** The blocks of 65536 bytes, while the unsigned comparison holds: the status that
    ends the function, or the remaining bytes. *)
Fixpoint expand_blocks (fuel : nat) (fd remain_size : Z) s : option ((Z + Z) * os K) :=
  match fuel with
  | O => None
  | S fuel =>
      if 65536 <=? u64 remain_size then
        '(n, s) ← ifos_file_write sys_write fd (replicate (Z.to_nat 65536) 0) 65536 s;
        if 65536 =? n then expand_blocks fuel fd (s32 (remain_size - 65536)) s
        else Some (inl (posix__makeerror EIO), s)
      else Some (inr remain_size, s)
  end.

Definition __evfs_cluster_expand_file (fd offset size : Z) s : option (Z * os K) :=
  let remain_size := s32 (size - offset) in
  let '(status, s) := ifos_file_seek sys_lseek fd offset s in
  if negb (NSP_SUCCESS status) then Some (status, s)
  else
    '(r, s) ← expand_blocks (Z.to_nat 65537) fd remain_size s;
    match r with
    | inl status => Some (status, s)
    | inr remain_size =>
        '(status, s) ← (if 0 <? remain_size then
            match alloc remain_size with
            | None => Some (posix__makeerror ENOMEM, s)
            | Some _ =>
                '(n, s) ← ifos_file_write sys_write fd (replicate (Z.to_nat remain_size) 0) remain_size s;
                Some (if remain_size =? n then NSP_STATUS_SUCCESSFUL else posix__makeerror EIO, s)
            end
          else Some (status, s));
        Some (if NSP_SUCCESS status then ifos_file_flush sys_fsync fd s else (status, s))
    end.

(** The head of the first cluster and its record. *)
Definition format_first (cs count : Z) (block : list Z) : option (list Z) :=
  b ← put_int data_seg_size sizeof_evhrd block;
  b ← put_int next_cluster_id 0 b;
  b ← put_int head_cluster_id 0 b;
  b ← put_int cluster_count count b;
  b ← put_int cluster_size cs b;
  b ← put_int expand_cluster_count count b;
  put_int magic EVFS_MAGIC b.

(** The end of both constructors: a descriptor nobody keeps is closed, and a state
    that is still initializing goes back. *)
Definition hard_leave (status fd' : Z) m s : Z * mgr * os K :=
  let s := if (0 <? fd') && negb (fd' =? fd m) then ifos_file_close sys_close fd' s else s in
  (status, if ready m =? kEvmgrInitializing then set_ready kEvmgrNotReady m else m, s).

Definition evfs_hard_create (cluster_size_format cluster_count_format : Z) m s : option (Z * mgr * os K) :=
  if negb (ready m =? kEvmgrNotReady) then Some (posix__makeerror EEXIST, m, s)
  else
    let m := set_ready kEvmgrInitializing m in
    let leave status fd' m s := Some (hard_leave status fd' m s) in
    if (cluster_size_format <? MINIMUM_CLUSTER_SIZE) || (MAXIMUM_CLUSTER_SIZE <? cluster_size_format)
       || negb (is_powerof_2 cluster_size_format)
    then leave (posix__makeerror EINVAL) INVALID_FILE_DESCRIPTOR m s
    else if MAXIMUM_FILE_SIZE <=? s32 (cluster_size_format * cluster_count_format)
    then leave (posix__makeerror EINVAL) INVALID_FILE_DESCRIPTOR m s
    else
      match alloc cluster_size_format with
      | None => leave (posix__makeerror ENOMEM) INVALID_FILE_DESCRIPTOR m s
      | Some _ =>
          let '(status, fd', s) := ifos_file_open sys_open (Z.lor FF_WRACCESS FF_CREATE_ALWAYS) 420 s in
          if negb (NSP_SUCCESS status) then leave status fd' m s
          else
            clusterptr ← format_first cluster_size_format cluster_count_format
              (replicate (Z.to_nat cluster_size_format) 0);
            '(wrcb, s) ← ifos_file_write sys_write fd' clusterptr cluster_size_format s;
            if negb (wrcb =? cluster_size_format) then leave (posix__makeerror wrcb) fd' m s
            else
              '(status, s) ← __evfs_cluster_expand_file fd' cluster_size_format
                 (s32 (cluster_size_format * cluster_count_format)) s;
              if negb (NSP_SUCCESS status) then leave status fd' m s
              else leave NSP_STATUS_SUCCESSFUL fd'
                     (Mgr fd' (Some clusterptr) kEvmgrReady (cluster_size_format - sizeof_cluster)
                        (s32 (cluster_size_format * cluster_count_format))) s
      end.

(** On the record as it was read, and the file size as an int. *)
Definition __evfs_check_hard_legal (guide : list Z) (fsize' : Z) : option Z :=
  mg ← get_int magic guide; cs ← get_int cluster_size guide; n ← get_int cluster_count guide;
  Some (if negb (mg =? EVFS_MAGIC) then posix__makeerror EBFONT
        else if (cs <? MINIMUM_CLUSTER_SIZE) || (MAXIMUM_CLUSTER_SIZE <? cs) then posix__makeerror EBFONT
        else if negb (s32 (cs * n) =? fsize') then posix__makeerror EBFONT
        else NSP_STATUS_SUCCESSFUL).

Definition evfs_hard_open m s : option (Z * mgr * os K) :=
  if negb (ready m =? kEvmgrNotReady) then Some (posix__makeerror EEXIST, m, s)
  else
    let m := set_ready kEvmgrInitializing m in
    let leave status fd' m s := Some (hard_leave status fd' m s) in
    let guide_size := sizeof_cluster + sizeof_evhrd in
    let '(status, fd', s) := ifos_file_open sys_open (Z.lor FF_WRACCESS FF_OPEN_EXISTING) 420 s in
    if negb (NSP_SUCCESS status) then leave status fd' m s
    else
      let '(size, s) := ifos_file_fgetsize sys_fstat fd' s in
      if (size <? guide_size) || (MAXIMUM_FILE_SIZE <? size) then leave (posix__makeerror EBFONT) fd' m s
      else
        match alloc guide_size with
        | None => leave (posix__makeerror ENOMEM) fd' m s
        | Some guide =>
            '(rdcb, guide, s) ← ifos_file_read sys_read fd' guide guide_size s;
            if negb (rdcb =? guide_size) then leave (posix__makeerror rdcb) fd' m s
            else
              seg ← get_int data_seg_size guide; nxt ← get_int next_cluster_id guide;
              hd ← get_int head_cluster_id guide;
              if negb (seg =? sizeof_evhrd) || negb (nxt =? 0) || negb (hd =? 0)
              then leave (posix__makeerror EPROTOTYPE) fd' m s
              else
                status ← __evfs_check_hard_legal guide (s32 size);
                if negb (NSP_SUCCESS status) then leave status fd' m s
                else
                  cs ← get_int cluster_size guide;
                  match alloc cs with
                  | None => leave (posix__makeerror ENOMEM) fd' m s
                  | Some block =>
                      clusterptr ← memcpy_at block 0 guide;
                      leave NSP_STATUS_SUCCESSFUL fd'
                        (Mgr fd' (Some clusterptr) kEvmgrReady (cs - sizeof_cluster) size) s
                  end
        end.

Definition evfs_hard_close m s : mgr * os K :=
  let s := if 0 <? fd m then ifos_file_close sys_close (fd m) (ifos_file_flush sys_fsync (fd m) s).2 else s in
  (Mgr (if 0 <? fd m then INVALID_FILE_DESCRIPTOR else fd m) None kEvmgrNotReady (max_data_seg_size m) (fsize m), s).

(** ** Requests on a ready disk *)

(** [n] bytes at the cluster's offset; the count when it is not the one asked for. *)
Definition evfs_hard_write_cluster (cluster_id : Z) (buffer : list Z) m s : option (Z * os K) :=
  if negb (__evfs_is_ready m) then Some (posix__makeerror EBFONT, s)
  else
    off ← __evfs_cluster_offset cluster_id m;
    let '(status, s) := ifos_file_seek sys_lseek (fd m) off s in
    if negb (NSP_SUCCESS status) then Some (status, s)
    else
      cs ← evhrd cluster_size m;
      '(wrcb, s) ← ifos_file_write sys_write (fd m) buffer cs s;
      Some (if wrcb =? cs then NSP_STATUS_SUCCESSFUL else wrcb, s).

Definition hard_read (cluster_id n : Z) (buffer : list Z) m s : option (Z * list Z * os K) :=
  off ← __evfs_cluster_offset cluster_id m;
  let '(status, s) := ifos_file_seek sys_lseek (fd m) off s in
  if negb (NSP_SUCCESS status) then Some (status, buffer, s)
  else
    '(rdcb, buffer, s) ← ifos_file_read sys_read (fd m) buffer n s;
    Some (if rdcb =? n then NSP_STATUS_SUCCESSFUL else rdcb, buffer, s).
Definition evfs_hard_read_cluster (cluster_id : Z) (buffer : list Z) m s : option (Z * list Z * os K) :=
  if negb (__evfs_is_ready m) then Some (posix__makeerror EBFONT, buffer, s)
  else cs ← evhrd cluster_size m; hard_read cluster_id cs buffer m s.
Definition evfs_hard_read_cluster_head (cluster_id : Z) (buffer : list Z) m s : option (Z * list Z * os K) :=
  if negb (__evfs_is_ready m) then Some (posix__makeerror EBFONT, buffer, s)
  else hard_read cluster_id sizeof_cluster buffer m s.

(** The result and, on success, the first new cluster. *)
Definition evfs_hard_expand m s : option (Z * option Z * mgr * os K) :=
  if negb (__evfs_is_ready m) then Some (posix__makeerror EBFONT, None, m, s)
  else
    available_cluster_count ← evhrd cluster_count m;
    expand ← evhrd expand_cluster_count m; cs ← evhrd cluster_size m;
    let expand_size := s32 (expand * cs) in
    '(status, s) ← __evfs_cluster_expand_file (fd m) (s32 (fsize m)) (s32 (fsize m + expand_size)) s;
    if negb (NSP_SUCCESS status) then Some (status, None, m, s)
    else
      first ← the_first_cluster m;
      first ← put_int cluster_count (s32 (available_cluster_count + expand)) first;
      let m := Mgr (fd m) (Some first) (ready m) (max_data_seg_size m) (fsize m + expand_size) in
      '(status, s) ← evfs_hard_write_cluster 0 first m s;
      if negb (NSP_SUCCESS status) then Some (status, None, m, s)
      else Some (expand, Some available_cluster_count, m, s).

Definition evfs_hard_flush m s : Z * os K :=
  if negb (__evfs_is_ready m) then (posix__makeerror EBFONT, s) else ifos_file_flush sys_fsync (fd m) s.
Definition evfs_hard_get_filesize m : Z := if __evfs_is_ready m then s32 (fsize m) else 0.
Definition evfs_hard_get_cluster_size m : option Z := if __evfs_is_ready m then evhrd cluster_size m else Some 0.
Definition evfs_hard_get_usable_cluster_count m : option Z :=
  if __evfs_is_ready m then n ← evhrd cluster_count m; Some (n - 1) else Some 0.
Definition evfs_hard_get_max_data_seg_size m : Z := if __evfs_is_ready m then max_data_seg_size m else 0.

(** A zeroed block for a cluster, with the head of [source]; [Some None] is NULL. *)
Definition evfs_hard_allocate_cluster (source : option (list Z)) m : option (option (list Z)) :=
  if __evfs_is_ready m then
    cs ← evhrd cluster_size m;
    match alloc (sizeof_cluster + cs) with
    | None => Some None
    | Some _ =>
        let block := replicate (Z.to_nat (sizeof_cluster + cs)) 0 in
        match source with
        | None => Some (Some block)
        | Some src => head ← memread src 0 sizeof_cluster; b ← memcpy_at block 0 head; Some (Some b)
        end
    end
  else Some None.
End Cluster.

(** ** Fields *)
Lemma swrap_wrap v : s32 (wrap 32 v) = s32 v.
Proof. unfold swrap, wrap. pow2. by rewrite Zplus_mod_idemp_l. Qed.

Lemma memread_read b off n : 0 <= off -> 0 <= n -> off + n <= zlen b -> memread b off n = Some (read_at off n b).
Proof. intros H1 H2 H3. unfold memread, read_at. by rewrite !(proj2 (Z.leb_le _ _)) by lia. Qed.

Lemma get_int_read off b : 0 <= off -> off + 4 <= zlen b -> get_int off b = Some (s32 (le_value (read_at off 4 b))).
Proof. intros H1 H2. unfold get_int. by rewrite memread_read by lia. Qed.

Lemma put_int_ok off v b : 0 <= off -> off + 4 <= zlen b ->
  exists b', put_int off v b = Some b' /\ zlen b' = zlen b /\ get_int off b' = Some (s32 v) /\
    forall o, 0 <= o -> o + 4 <= zlen b -> o + 4 <= off \/ off + 4 <= o -> get_int o b' = get_int o b.
Proof.
  intros H1 H2. pose proof (le_bytes_len 4 v) as Hl. unfold put_int. rewrite memcpy_write by lia.
  set (b' := write_at off (le_bytes 4 v) b).
  assert (zlen b' = zlen b) as Hb by (unfold b'; rewrite write_at_len; lia).
  eexists. split; [reflexivity |]. split; [done |]. split.
  - rewrite get_int_read by lia. unfold b'. change 4 with (Z.of_nat 4) at 1. rewrite <- Hl, read_write_same by lia.
    rewrite le_value_bytes. f_equal. apply swrap_wrap.
  - intros o H3 H4 Ho. rewrite !get_int_read by lia. do 3 f_equal. destruct Ho as [Ho | Ho].
    + apply read_write_before; lia.
    + apply read_write_behind; lia.
Qed.

Lemma read_at_app_l p n a b : 0 <= p -> 0 <= n -> p + n <= zlen a -> read_at p n (a ++ b) = read_at p n a.
Proof.
  intros Hp Hn Hl. unfold read_at, zlen in *. rewrite drop_app_le by lia. by rewrite take_app_le by (rewrite length_drop; lia).
Qed.

Lemma get_int_app off a b : 0 <= off -> off + 4 <= zlen a -> get_int off (a ++ b) = get_int off a.
Proof.
  intros H1 H2. pose proof (zlen_nonneg b). rewrite !get_int_read by (rewrite ?zlen_app; lia). by rewrite read_at_app_l by lia.
Qed.

Lemma get_int_prefix off n c : 0 <= off -> off + 4 <= n -> n <= zlen c -> get_int off (read_at 0 n c) = get_int off c.
Proof.
  intros H1 H2 H3. rewrite <- (take_drop (Z.to_nat n) c) at 2. unfold read_at. change (Z.to_nat 0) with 0%nat. rewrite drop_0.
  symmetry. apply get_int_app; [done |]. unfold zlen in *. rewrite length_take. lia.
Qed.

(** The header of an image of [n] clusters of [cs] bytes that grows by [e]. *)
Record header (cs n e : Z) (b : list Z) : Prop := {
  hdr_seg : get_int data_seg_size b = Some sizeof_evhrd;
  hdr_next : get_int next_cluster_id b = Some 0;
  hdr_head : get_int head_cluster_id b = Some 0;
  hdr_magic : get_int magic b = Some EVFS_MAGIC;
  hdr_size : get_int cluster_size b = Some cs;
  hdr_count : get_int cluster_count b = Some n;
  hdr_expand : get_int expand_cluster_count b = Some e;
}.

(** It is in the first 32 bytes. *)
Lemma header_same cs n e b b' : (forall off, 0 <= off -> off + 4 <= 32 -> get_int off b' = get_int off b) -> header cs n e b -> header cs n e b'.
Proof.
  intros E [H1 H2 H3 H4 H5 H6 H7].
  split; rewrite E; try done;
    unfold data_seg_size, next_cluster_id, head_cluster_id, magic, cluster_size, cluster_count, expand_cluster_count; lia.
Qed.

Lemma put_count_header v b b' cs n e : 32 <= zlen b -> - 2 ^ 31 <= v < 2 ^ 31 -> put_int cluster_count v b = Some b' ->
  header cs n e b -> header cs v e b'.
Proof.
  intros Hl Hv. destruct (put_int_ok cluster_count v b) as (x & -> & L & G & O); [done | unfold cluster_count; lia |].
  intros [= <-] [H1 H2 H3 H4 H5 H6 H7]. rewrite swrap_small in G by (pow2; lia).
  split; try exact G; unfold data_seg_size, next_cluster_id, head_cluster_id, magic, cluster_size, cluster_count, expand_cluster_count in *;
    by rewrite O by lia.
Qed.

(** What [format_first] writes. *)
Lemma format_first_ok cs count : 32 <= cs ->
  exists b, format_first cs count (replicate (Z.to_nat cs) 0) = Some b /\ zlen b = cs /\
    header (s32 cs) (s32 count) (s32 count) b.
Proof.
  intros Hcs. unfold format_first.
  assert (zlen (replicate (Z.to_nat cs) 0) = cs) as H0 by (apply zlen_replicate; lia).
  destruct (put_int_ok data_seg_size sizeof_evhrd (replicate (Z.to_nat cs) 0)) as (b1 & -> & L1 & G1 & O1);
    [done | unfold data_seg_size; lia |]. cbn [mbind option_bind].
  destruct (put_int_ok next_cluster_id 0 b1) as (b2 & -> & L2 & G2 & O2); [done | unfold next_cluster_id; lia |].
  cbn [mbind option_bind].
  destruct (put_int_ok head_cluster_id 0 b2) as (b3 & -> & L3 & G3 & O3); [done | unfold head_cluster_id; lia |].
  cbn [mbind option_bind].
  destruct (put_int_ok cluster_count count b3) as (b4 & -> & L4 & G4 & O4); [done | unfold cluster_count; lia |].
  cbn [mbind option_bind].
  destruct (put_int_ok cluster_size cs b4) as (b5 & -> & L5 & G5 & O5); [done | unfold cluster_size; lia |].
  cbn [mbind option_bind].
  destruct (put_int_ok expand_cluster_count count b5) as (b6 & -> & L6 & G6 & O6);
    [done | unfold expand_cluster_count; lia |]. cbn [mbind option_bind].
  destruct (put_int_ok magic EVFS_MAGIC b6) as (b7 & -> & L7 & G7 & O7); [done | unfold magic; lia |].
  exists b7. unfold data_seg_size, next_cluster_id, head_cluster_id, cluster_count, cluster_size, expand_cluster_count, magic in *.
  split; [done |]. split; [lia |].
  split; unfold data_seg_size, next_cluster_id, head_cluster_id, cluster_count, cluster_size, expand_cluster_count, magic;
    [by rewrite O7, O6, O5, O4, O3, O2, G1 by lia | by rewrite O7, O6, O5, O4, O3, G2 by lia
    | by rewrite O7, O6, O5, O4, G3 by lia | exact G7 | by rewrite O7, O6, G5 by lia | by rewrite O7, O6, O5, G4 by lia
    | by rewrite O7, G6 by lia].
Qed.

(** ** The disk of a ready manager *)
Section Disk.
Context {K : Type}.
Implicit Types (s : os K) (m : mgr).
Context (sys_read : Z -> Z -> K -> (list Z + Z) * K)
  (sys_write : Z -> list Z -> K -> answer * K)
  (sys_lseek : Z -> Z -> K -> answer * K)
  (sys_fsync : Z -> K -> answer * K)
  (content : K -> list Z) (pos : K -> Z) `{!File sys_read sys_write sys_lseek sys_fsync content pos}.
#[local] Abbreviation kpos s := (pos (kern s)).
#[local] Abbreviation kcontent s := (content (kern s)).

(** A ready manager of [n] clusters of [cs] bytes, whose file they fill. *)
Record hard_ok (cs n e : Z) m s : Prop := {
  ok_ready : __evfs_is_ready m = true;
  ok_cs : evhrd cluster_size m = Some cs;
  ok_n : evhrd cluster_count m = Some n;
  ok_e : evhrd expand_cluster_count m = Some e;
  ok_first : exists b, the_first_cluster m = Some b /\ zlen b = cs;
  ok_bounds : 32 <= cs <= 4096 /\ 0 < n /\ cs * n <= MAXIMUM_FILE_SIZE;
  ok_fsize : fsize m = cs * n /\ zlen (kcontent s) = cs * n;
}.

(** The bytes of a cluster. *)
Definition cluster (cs id : Z) (c : list Z) : list Z := read_at (id * cs) cs c.

Lemma cluster_range cs n id : 32 <= cs <= 4096 -> 0 < n -> cs * n <= MAXIMUM_FILE_SIZE -> 0 <= id < n ->
  0 <= id * cs /\ id * cs + cs <= cs * n /\ s32 (id * cs) = id * cs.
Proof.
  intros Hcs Hn Hm Hid. split; [nia |]. split; [nia |]. change MAXIMUM_FILE_SIZE with 1073741824 in Hm.
  apply swrap_small; [lia |]. pow2. nia.
Qed.

Lemma hard_read_ok cs n e id size buf m s : hard_ok cs n e m s -> 0 <= id < n -> 0 < size <= cs -> size <= zlen buf ->
  exists r buf' s', hard_read sys_read sys_lseek id size buf m s = Some (r, buf', s') /\ kcontent s' = kcontent s /\
    zlen buf' = zlen buf /\
    (r < 0 \/ r = NSP_STATUS_SUCCESSFUL /\ buf' = write_at 0 (read_at (id * cs) size (kcontent s)) buf).
Proof.
  intros [_ Hcs _ _ _ (Hb & Hn & Hm) [_ Hlen]] Hid Hsize Hbuf.
  destruct (cluster_range cs n id Hb Hn Hm Hid) as (R1 & R2 & R3). unfold hard_read, __evfs_cluster_offset.
  rewrite Hcs. cbn [mbind option_bind]. rewrite R3.
  destruct (ifos_file_seek_ok _ _ _ _ content pos (fd m) (id * cs) s R1) as (r & s1 & -> & Hc & Hr & _).
  destruct (NSP_SUCCESS r) eqn:Er; cbn [negb].
  2: { do 3 eexists. split; [reflexivity |]. split; [done |]. split; [done |]. left. by apply Z.leb_gt in Er. }
  destruct Hr as [Hneg | [-> Hp]]; [apply Z.leb_le in Er; lia |].
  destruct (ifos_file_read_ok _ _ _ _ content pos (fd m) buf size s1 ltac:(lia)) as (r & b & s2 & -> & Hc2 & Hl & Hr).
  cbn [mbind option_bind]. rewrite Hc, Hp in *.
  destruct Hr as [Hneg | (-> & -> & _)].
  - rewrite (proj2 (Z.eqb_neq r size)) by lia. do 3 eexists. split; [reflexivity |]. split; [by rewrite Hc2 |].
    split; [done | by left].
  - rewrite read_at_len by lia. rewrite Z.eqb_refl. do 3 eexists. split; [reflexivity |]. split; [by rewrite Hc2 |].
    split; [done | by right].
Qed.

Lemma write_at_all (b buf : list Z) : zlen b = zlen buf -> write_at 0 b buf = b.
Proof.
  intros Hl. rewrite write_at_in by (pose proof (zlen_nonneg buf); lia). unfold zlen in *.
  change (Z.to_nat 0) with 0%nat. rewrite take_0, drop_ge by lia. cbn [app]. apply app_nil_r.
Qed.

(** Reading a cluster fails, or puts its bytes in front of the buffer. *)
Lemma evfs_hard_read_cluster_ok cs n e id buf m s : hard_ok cs n e m s -> 0 <= id < n -> cs <= zlen buf ->
  exists r buf' s', evfs_hard_read_cluster sys_read sys_lseek id buf m s = Some (r, buf', s') /\
    kcontent s' = kcontent s /\ zlen buf' = zlen buf /\
    (r < 0 \/ r = NSP_STATUS_SUCCESSFUL /\ buf' = write_at 0 (cluster cs id (kcontent s)) buf).
Proof.
  intros Hok Hid Hbuf. pose proof Hok as [Hr Hcs _ _ _ (Hb & Hn & Hm) [_ Hlen]]. unfold evfs_hard_read_cluster.
  rewrite Hr, Hcs. cbn [negb mbind option_bind]. by apply (hard_read_ok cs n e id cs); [| |lia |].
Qed.

(** Writing one changes that cluster. *)
Lemma evfs_hard_write_cluster_ok `{!Healthy sys_write sys_lseek} cs n e id buf m s :
  hard_ok cs n e m s -> 0 <= id < n -> cs <= zlen buf ->
  exists s', evfs_hard_write_cluster sys_write sys_lseek id buf m s = Some (NSP_STATUS_SUCCESSFUL, s') /\
    kcontent s' = write_at (id * cs) (take (Z.to_nat cs) buf) (kcontent s) /\ hard_ok cs n e m s'.
Proof.
  intros Hok Hid Hbuf. pose proof Hok as [Hr Hcs Hcn Hce Hf (Hb & Hn & Hm) [Hfs Hlen]].
  destruct (cluster_range cs n id Hb Hn Hm Hid) as (R1 & R2 & R3). unfold evfs_hard_write_cluster, __evfs_cluster_offset.
  rewrite Hr, Hcs. cbn [negb mbind option_bind]. rewrite R3.
  destruct (ifos_file_seek_ok _ _ _ _ content pos (fd m) (id * cs) s R1) as (r & s1 & -> & Hc & Hr1 & Hh).
  rewrite (Hh _) in *. change (NSP_SUCCESS NSP_STATUS_SUCCESSFUL) with true. cbn [negb].
  destruct Hr1 as [? | [_ Hp]]; [done |].
  destruct (ifos_file_write_ok _ _ _ _ content pos (fd m) buf cs s1) as (r1 & s2 & k & -> & Hk & Hc2 & _ & Hr2 & Hh2);
    [lia | rewrite Hp, Hc; lia |].
  specialize (Hh2 _). assert (k = cs) as -> by lia. cbn [mbind option_bind]. rewrite Hh2, Z.eqb_refl.
  rewrite Hp, Hc in Hc2. exists s2. split; [done |]. split; [done |]. split; try done. split; [done |].
  assert (zlen (take (Z.to_nat cs) buf) = cs) by (unfold zlen in *; rewrite length_take; lia).
  rewrite Hc2, write_at_len by lia. lia.
Qed.

(** Other clusters keep their bytes. *)
Lemma cluster_write cs n id id' buf c : 32 <= cs <= 4096 -> 0 < n -> cs * n <= MAXIMUM_FILE_SIZE -> zlen c = cs * n ->
  0 <= id < n -> 0 <= id' < n -> zlen buf = cs ->
  cluster cs id' (write_at (id * cs) buf c) = if decide (id' = id) then buf else cluster cs id' c.
Proof.
  intros Hb Hn Hm Hlen Hid Hid' Hbuf. destruct (cluster_range cs n id Hb Hn Hm Hid) as (R1 & R2 & _).
  destruct (cluster_range cs n id' Hb Hn Hm Hid') as (Q1 & Q2 & _). unfold cluster. case_decide.
  - subst id'. pose proof (read_write_same (id * cs) buf c ltac:(lia)) as E. by rewrite Hbuf in E.
  - destruct (decide (id' < id)).
    + apply read_write_before; nia.
    + apply read_write_behind; nia.
Qed.

(** ** Growing *)
Lemma write_at_end b c : write_at (zlen c) b c = c ++ b.
Proof.
  rewrite write_at_in by (pose proof (zlen_nonneg c); lia). unfold zlen. rewrite Nat2Z.id.
  rewrite take_ge, drop_ge by lia. by rewrite app_nil_r.
Qed.

Lemma write_zeros `{!Healthy sys_write sys_lseek} fd size s : 0 < size -> kpos s = zlen (kcontent s) ->
  exists s', ifos_file_write sys_write fd (replicate (Z.to_nat size) 0) size s = Some (size, s') /\
    kcontent s' = kcontent s ++ replicate (Z.to_nat size) 0 /\ kpos s' = zlen (kcontent s').
Proof.
  intros Hs Hp. assert (zlen (replicate (Z.to_nat size) 0) = size) as Hl by (apply zlen_replicate; lia).
  destruct (ifos_file_write_ok _ _ _ _ content pos fd (replicate (Z.to_nat size) 0) size s)
    as (r & s' & k & E & Hk & Hc & Hp' & Hr & Hh); [lia.. |].
  specialize (Hh _). assert (k = size) as -> by lia. subst r. exists s'. split; [done |].
  rewrite take_ge in Hc by (rewrite length_replicate; lia). rewrite Hp, write_at_end in Hc.
  split; [done |]. rewrite Hp', Hc, zlen_app, Hl. lia.
Qed.

Lemma expand_blocks_ok `{!Healthy sys_write sys_lseek} fuel fd : forall remain s,
  0 <= remain < 2 ^ 31 -> remain < 65536 * Z.of_nat fuel -> kpos s = zlen (kcontent s) ->
  exists rest k s', expand_blocks sys_write fuel fd remain s = Some (inr rest, s') /\
    0 <= rest /\ 0 <= k /\ rest + k = remain /\
    kcontent s' = kcontent s ++ replicate (Z.to_nat k) 0 /\ kpos s' = zlen (kcontent s').
Proof.
  induction fuel as [|fuel IH]; intros remain s Hr Hf Hp; [lia |]. cbn [expand_blocks].
  rewrite wrap_small by (pow2; lia). destruct (Z.leb_spec 65536 remain).
  - destruct (write_zeros fd 65536 s ltac:(lia) Hp) as (s1 & E1 & Hc1 & Hp1). rewrite E1. cbn [mbind option_bind].
    change (65536 =? 65536) with true. cbn match. rewrite swrap_small by (pow2; lia).
    destruct (IH (remain - 65536) s1) as (rest & k & s' & -> & H1 & H2 & H3 & Hc & Hp'); [lia.. | done |].
    exists rest, (65536 + k), s'. split; [done |]. split; [done |]. split; [lia |]. split; [lia |]. split; [|done].
    rewrite Hc, Hc1, <- app_assoc. f_equal. rewrite Z2Nat.inj_add, replicate_add by lia. done.
  - exists remain, 0, s. split; [done |]. split; [lia |]. split; [lia |]. split; [lia |].
    cbn [Z.to_nat replicate]. rewrite app_nil_r. done.
Qed.

(** Stretching the file from its end. *)
Lemma expand_file_ok `{!Healthy sys_write sys_lseek} alloc fd offset size s :
  (forall n, 0 < n -> is_Some (alloc n)) -> (forall s, (ifos_file_flush sys_fsync fd s).1 = NSP_STATUS_SUCCESSFUL) ->
  zlen (kcontent s) = offset -> offset <= size < 2 ^ 31 ->
  exists s', __evfs_cluster_expand_file sys_write sys_lseek sys_fsync alloc fd offset size s
      = Some (NSP_STATUS_SUCCESSFUL, s') /\
    kcontent s' = kcontent s ++ replicate (Z.to_nat (size - offset)) 0.
Proof.
  intros Ha Hfl Ho Hs. pose proof (zlen_nonneg (kcontent s)). unfold __evfs_cluster_expand_file.
  rewrite swrap_small by (pow2; lia).
  destruct (ifos_file_seek_ok _ _ _ _ content pos fd offset s ltac:(lia)) as (r & s1 & -> & Hc & Hr & Hh).
  rewrite (Hh _) in *. change (NSP_SUCCESS NSP_STATUS_SUCCESSFUL) with true. cbn [negb].
  destruct Hr as [? | [_ Hp]]; [done |].
  destruct (expand_blocks_ok (Z.to_nat 65537) fd (size - offset) s1) as (rest & k & s2 & -> & H1 & H2 & H3 & Hc2 & Hp2);
    [lia | pow2; lia | by rewrite Hp, Hc |].
  cbn [mbind option_bind].
  assert (exists s3, (if 0 <? rest then
      match alloc rest with
      | None => Some (posix__makeerror ENOMEM, s2)
      | Some _ =>
          '(n, s0) ← ifos_file_write sys_write fd (replicate (Z.to_nat rest) 0) rest s2;
          Some (if rest =? n then NSP_STATUS_SUCCESSFUL else posix__makeerror EIO, s0)
      end
    else Some (NSP_STATUS_SUCCESSFUL, s2)) = Some (NSP_STATUS_SUCCESSFUL, s3) /\
    kcontent s3 = kcontent s2 ++ replicate (Z.to_nat rest) 0) as (s3 & -> & Hc3).
  { destruct (Z.ltb_spec 0 rest).
    - destruct (Ha rest) as [? ->]; [done |]. destruct (write_zeros fd rest s2) as (s3 & -> & Hc3 & _); [done.. |].
      cbn [mbind option_bind]. rewrite Z.eqb_refl. by exists s3.
    - exists s2. assert (rest = 0) as -> by lia. split; [done |]. cbn [Z.to_nat replicate]. by rewrite app_nil_r. }
  cbn [mbind option_bind]. change (NSP_SUCCESS NSP_STATUS_SUCCESSFUL) with true. cbn match.
  destruct (ifos_file_flush_ok _ _ _ _ content pos fd s3) as (r4 & s4 & E & Hc4).
  pose proof (Hfl s3) as Hr4. rewrite E in Hr4. cbn [fst] in Hr4. subst r4. exists s4. rewrite E. split; [done |].
  rewrite Hc4, Hc3, Hc2, Hc, <- app_assoc. f_equal. rewrite <- replicate_add. f_equal. lia.
Qed.

Lemma put_count_ok v b cs e : get_int cluster_size b = Some cs -> get_int expand_cluster_count b = Some e -> 32 <= zlen b ->
  exists b', put_int cluster_count v b = Some b' /\ zlen b' = zlen b /\ get_int cluster_count b' = Some (s32 v) /\
    get_int cluster_size b' = Some cs /\ get_int expand_cluster_count b' = Some e.
Proof.
  intros H1 H2 Hl. destruct (put_int_ok cluster_count v b) as (b' & -> & L & G & O); [done | unfold cluster_count; lia |].
  exists b'. split; [done |]. split; [done |]. split; [done |].
  unfold cluster_size, cluster_count, expand_cluster_count in *. by rewrite !O by lia.
Qed.

(** Growing the disk of a ready manager by its step of [e] clusters, while it stays
    within the largest file: the file ends with [e] zero clusters, the header says so,
    the clusters behind the header keep their bytes, and the manager is ready for
    [n + e] clusters. *)
Theorem evfs_hard_expand_ok `{!Healthy sys_write sys_lseek} alloc cs n e m s :
  hard_ok cs n e m s -> 0 < e -> cs * (n + e) <= MAXIMUM_FILE_SIZE ->
  (forall k, 0 < k -> is_Some (alloc k)) -> (forall s, (ifos_file_flush sys_fsync (fd m) s).1 = NSP_STATUS_SUCCESSFUL) ->
  exists m' s', evfs_hard_expand sys_write sys_lseek sys_fsync alloc m s = Some (e, Some n, m', s') /\
    hard_ok cs (n + e) e m' s' /\
    (forall id, 0 < id < n -> cluster cs id (kcontent s') = cluster cs id (kcontent s)) /\
    (forall id, n <= id < n + e -> cluster cs id (kcontent s') = replicate (Z.to_nat cs) 0) /\
    exists b b', the_first_cluster m = Some b /\ put_int cluster_count (n + e) b = Some b' /\ the_first_cluster m' = Some b' /\
      cluster cs 0 (kcontent s') = b'.
Proof.
  intros Hok He Hmax Ha Hfl. pose proof Hok as [Hr Hcs Hn Hex [b [Hb Hlb]] (Hbd & Hn0 & Hm) [Hfs Hlen]].
  pose proof Hmax as Hmax'. change MAXIMUM_FILE_SIZE with 1073741824 in Hmax'.
  unfold evfs_hard_expand. rewrite Hr, Hn, Hex, Hcs. cbn [negb mbind option_bind].
  rewrite !(swrap_small 32) by (pow2; nia).
  destruct (expand_file_ok alloc (fd m) (fsize m) (fsize m + e * cs) s) as (s1 & -> & Hc1); [done | done | lia | pow2; nia |].
  cbn [mbind option_bind]. change (NSP_SUCCESS NSP_STATUS_SUCCESSFUL) with true. cbn [negb]. rewrite Hb. cbn [mbind option_bind].
  unfold evhrd in Hcs, Hex. rewrite Hb in Hcs, Hex.
  destruct (put_count_ok (n + e) b cs e Hcs Hex) as (b' & Eb & L & G1 & G2 & G3); [lia |]. rewrite Eb. cbn [mbind option_bind].
  rewrite swrap_small in G1 by (pow2; nia).
  set (m' := Mgr (fd m) (Some b') (ready m) (max_data_seg_size m) (fsize m + e * cs)).
  assert (zlen (kcontent s1) = cs * (n + e)) as Hl1.
  { rewrite Hc1, zlen_app, zlen_replicate by nia. nia. }
  assert (hard_ok cs (n + e) e m' s1) as Hok'.
  { split; unfold evhrd; cbn [m' the_first_cluster mbind option_bind]; try done.
    - revert Hr. unfold __evfs_is_ready. cbn [m' fd ready the_first_cluster max_data_seg_size fsize]. rewrite Hb.
      intros Hr. apply negb_true_iff in Hr. apply negb_true_iff. apply orb_false_iff in Hr as [Hr H5].
      apply orb_false_iff in Hr as [Hr _]. rewrite (bool_decide_false (Some b = None)) in Hr by done.
      rewrite bool_decide_false by done. rewrite H5, Hr, (proj2 (Z.eqb_neq _ 0)); [done | nia].
    - exists b'. split; [done | lia].
    - split; [done |]. split; [lia | done].
    - cbn [m' fsize]. split; [nia | done]. }
  destruct (evfs_hard_write_cluster_ok cs (n + e) e 0 b' m' s1 Hok') as (s2 & -> & Hc2 & Hok2); [lia | lia |].
  rewrite (take_ge b') in Hc2 by (unfold zlen in *; lia).
  cbn [mbind option_bind]. change (NSP_SUCCESS NSP_STATUS_SUCCESSFUL) with true. cbn [negb].
  exists m', s2. split; [done |]. split; [done |]. rewrite Hc2. split; [intros id Hid | split; [intros id Hid |]].
  - rewrite (cluster_write cs (n + e)) by (done || lia). rewrite decide_False by lia. rewrite Hc1.
    unfold cluster. apply read_at_app_l; nia.
  - rewrite (cluster_write cs (n + e)) by (done || lia). rewrite decide_False by lia. rewrite Hc1.
    unfold cluster, read_at. rewrite drop_app_ge by (unfold zlen in *; nia).
    rewrite drop_replicate, take_replicate. f_equal. unfold zlen in *. nia.
  - exists b, b'. do 3 (split; [done |]). by rewrite (cluster_write cs (n + e)) by (done || lia).
Qed.
End Disk.

(** ** Creating and opening *)
Section Image.
Context {K : Type}.
Implicit Types (s : os K) (m : mgr).
Context (sys_read : Z -> Z -> K -> (list Z + Z) * K)
  (sys_write : Z -> list Z -> K -> answer * K)
  (sys_lseek : Z -> Z -> K -> answer * K)
  (sys_fsync : Z -> K -> answer * K)
  (sys_open : Z -> Z -> K -> answer * K)
  (sys_close : Z -> K -> K)
  (sys_fstat : Z -> K -> answer * K)
  (alloc : Z -> option (list Z))
  (content : K -> list Z) (pos : K -> Z).

(** The calls on the path of the image when none of them fails. *)
Class Path : Prop := {
  path_file :: File sys_read sys_write sys_lseek sys_fsync content pos;
  path_healthy :: Healthy sys_write sys_lseek;
  open_trunc k : exists fd k', sys_open (Z.lor O_RDWR (Z.lor O_CREAT O_TRUNC)) 420 k = (Ret fd, k') /\ 0 < fd /\
    content k' = [] /\ pos k' = 0;
  open_existing k : exists fd k', sys_open O_RDWR 420 k = (Ret fd, k') /\ 0 < fd /\ content k' = content k /\ pos k' = 0;
  close_keeps fd k : content (sys_close fd k) = content k;
  fstat_works fd k : sys_fstat fd k = (Ret (zlen (content k)), k);
  read_works fd size k : 0 < size -> exists bs k', sys_read fd size k = (inl bs, k');
  fsync_works fd k : exists k', sys_fsync fd k = (Ret 0, k');
  alloc_works n : 0 < n -> exists b, alloc n = Some b /\ zlen b = n;
}.
Context `{!Path}.
#[local] Abbreviation kcontent s := (content (kern s)).

Lemma flush_works fd s : 0 < fd -> (ifos_file_flush sys_fsync fd s).1 = NSP_STATUS_SUCCESSFUL.
Proof.
  intros Hf. unfold ifos_file_flush, syscall. rewrite (proj2 (Z.ltb_ge fd 0)) by lia.
  destruct (fsync_works fd (kern s)) as [k' ->]. done.
Qed.

(** Reading does not fail, so it reads what is there. *)
Lemma read_loop_works fuel fd : forall buf offset size s r b s', 0 <= offset ->
  read_loop sys_read fuel fd buf offset size s = Some (r, b, s') -> 0 <= r.
Proof.
  induction fuel as [|fuel IH]; intros buf offset size s r b s' Ho; cbn [read_loop]; [done |].
  destruct (Z.ltb_spec offset size); [|intros [= <- _ _]; lia].
  destruct (read_works fd (size - offset) (kern s)) as (bs & k' & ->); [lia |].
  destruct (memcpy_at buf offset bs) as [buf'|]; [|done]. cbn [mbind option_bind].
  destruct (0 =? zlen bs); [intros [= <- _ _]; lia |]. apply IH. pose proof (zlen_nonneg bs). lia.
Qed.

Lemma read_works_ok fd buf size s : 0 < size <= zlen buf ->
  exists b s', ifos_file_read sys_read fd buf size s
      = Some (zlen (read_at (pos (kern s)) size (kcontent s)), b, s') /\
    kcontent s' = kcontent s /\ b = write_at 0 (read_at (pos (kern s)) size (kcontent s)) buf.
Proof.
  intros Hs. destruct (ifos_file_read_ok _ _ _ _ content pos fd buf size s Hs) as (r & b & s' & E & Hc & _ & Hr).
  exists b, s'. destruct Hr as [Hneg | (-> & -> & _)]; [|done]. exfalso. revert E. unfold ifos_file_read.
  rewrite (proj2 (Z.leb_gt size 0)) by lia. intros E%read_loop_works; lia.
Qed.

Lemma open_create s : exists fd k',
  ifos_file_open sys_open (Z.lor FF_WRACCESS FF_CREATE_ALWAYS) 420 s = (NSP_STATUS_SUCCESSFUL, fd, Os k' (errno s)) /\
  0 < fd /\ content k' = [] /\ pos k' = 0.
Proof.
  destruct (open_trunc (kern s)) as (fd & k' & E & Hf & Hk). exists fd, k'. split; [|done].
  transitivity (let '(fd, s) := syscall (sys_open (Z.lor O_RDWR (Z.lor O_CREAT O_TRUNC)) 420) s in
    if fd <? 0 then (posix__makeerror (errno s), INVALID_FILE_DESCRIPTOR, s) else (NSP_STATUS_SUCCESSFUL, fd, s)); [done |].
  unfold syscall. rewrite E. by rewrite (proj2 (Z.ltb_ge fd 0)) by lia.
Qed.

Lemma open_again s : exists fd k',
  ifos_file_open sys_open (Z.lor FF_WRACCESS FF_OPEN_EXISTING) 420 s = (NSP_STATUS_SUCCESSFUL, fd, Os k' (errno s)) /\
  0 < fd /\ content k' = kcontent s /\ pos k' = 0.
Proof.
  destruct (open_existing (kern s)) as (fd & k' & E & Hf & Hk). exists fd, k'. split; [|done].
  transitivity (let '(fd, s) := syscall (sys_open O_RDWR 420) s in
    if fd <? 0 then (posix__makeerror (errno s), INVALID_FILE_DESCRIPTOR, s) else (NSP_STATUS_SUCCESSFUL, fd, s)); [done |].
  unfold syscall. rewrite E. by rewrite (proj2 (Z.ltb_ge fd 0)) by lia.
Qed.

Lemma create_ok cs count m s :
  ready m = kEvmgrNotReady -> MINIMUM_CLUSTER_SIZE <= cs <= MAXIMUM_CLUSTER_SIZE -> is_powerof_2 cs = true ->
  0 < count -> cs * count < MAXIMUM_FILE_SIZE ->
  exists m' s' first, evfs_hard_create sys_write sys_lseek sys_fsync sys_open sys_close alloc cs count m s
      = Some (NSP_STATUS_SUCCESSFUL, m', s') /\
    hard_ok content cs count count m' s' /\ max_data_seg_size m' = cs - sizeof_cluster /\ 0 < fd m' /\
    kcontent s' = first ++ replicate (Z.to_nat (cs * count - cs)) 0 /\ zlen first = cs /\
    the_first_cluster m' = Some first /\ header cs count count first.
Proof.
  intros Hm [Hlo Hhi] Hpow Hn Hmax. pose proof Hmax as Hmax'. pose proof Hlo as Hlo'. pose proof Hhi as Hhi'.
  change MAXIMUM_FILE_SIZE with 1073741824 in Hmax'. change MINIMUM_CLUSTER_SIZE with 32 in Hlo'.
  change MAXIMUM_CLUSTER_SIZE with 4096 in Hhi'. assert (s32 (cs * count) = cs * count) as Es by (apply swrap_small; [lia | pow2; nia]).
  unfold evfs_hard_create. rewrite Hm, Hpow. change (kEvmgrNotReady =? kEvmgrNotReady) with true. cbn [negb].
  rewrite (proj2 (Z.ltb_ge cs MINIMUM_CLUSTER_SIZE)), (proj2 (Z.ltb_ge MAXIMUM_CLUSTER_SIZE cs)) by done. cbn [orb].
  rewrite Es, (proj2 (Z.leb_gt MAXIMUM_FILE_SIZE _)) by done.
  destruct (alloc_works cs) as (blk & -> & _); [lia |].
  destruct (open_create s) as (f & k1 & -> & Hf & Hc1 & Hp1). change (NSP_SUCCESS NSP_STATUS_SUCCESSFUL) with true. cbn [negb].
  destruct (format_first_ok cs count) as (first & -> & Hl & Hhdr); [lia |].
  rewrite !swrap_small in Hhdr by (pow2; nia). cbn [mbind option_bind].
  destruct (ifos_file_write_ok _ _ _ _ content pos f first cs (Os k1 (errno s))) as (r & s2 & k & E & Hk & Hc2 & _ & Hr & Hh).
  { lia. }
  { cbn [kern]. rewrite Hc1, Hp1. done. }
  specialize (Hh _). assert (k = cs) as -> by lia. rewrite E. cbn [mbind option_bind].
  rewrite Hh, Z.eqb_refl. cbn [negb kern] in *. rewrite Hp1, Hc1, take_ge in Hc2 by (unfold zlen in Hl; lia).
  change (write_at 0 first []) with (write_at (zlen (@nil Z)) first []) in Hc2. rewrite write_at_end in Hc2. cbn [app] in Hc2.
  destruct (expand_file_ok _ _ _ _ content pos alloc f cs (cs * count) s2) as (s3 & -> & Hc3).
  { intros n Hn'. destruct (alloc_works n Hn') as (b & -> & _). by eexists. }
  { intros s'. by apply flush_works. }
  { by rewrite Hc2. }
  { pow2. nia. }
  cbn [mbind option_bind]. change (NSP_SUCCESS NSP_STATUS_SUCCESSFUL) with true. cbn [negb].
  unfold hard_leave. cbn [fd]. rewrite Z.eqb_refl, andb_false_r. cbn [ready].
  change (kEvmgrReady =? kEvmgrInitializing) with false. cbn match.
  do 3 eexists. split; [reflexivity |]. rewrite Hc2 in Hc3.
  split; [|cbn [max_data_seg_size fd]; split_and!; done].
  split; unfold evhrd; cbn [the_first_cluster mbind option_bind]; try done.
  - unfold __evfs_is_ready. cbn [ready the_first_cluster fd fsize max_data_seg_size]. rewrite bool_decide_false by done.
    change INVALID_FILE_DESCRIPTOR with (-1). rewrite (proj2 (Z.eqb_neq f (-1))), !(proj2 (Z.eqb_neq _ 0)); [done | unfold sizeof_cluster; lia | nia | lia].
  - apply (hdr_size _ _ _ _ Hhdr).
  - apply (hdr_count _ _ _ _ Hhdr).
  - apply (hdr_expand _ _ _ _ Hhdr).
  - by exists first.
  - split; [lia |]. split; [lia |]. change MAXIMUM_FILE_SIZE with 1073741824. lia.
  - cbn [fsize]. split; [done |]. rewrite Hc3, zlen_app, zlen_replicate by nia. lia.
Qed.

(** Opening an image whose header fits its size: a block of one cluster receives the
    92 bytes of head and record, so smaller clusters are overrun. *)
Lemma open_ok cs n e m s :
  ready m = kEvmgrNotReady -> MINIMUM_CLUSTER_SIZE <= cs <= MAXIMUM_CLUSTER_SIZE -> 0 < n ->
  zlen (kcontent s) = cs * n -> 92 <= cs * n <= MAXIMUM_FILE_SIZE ->
  header cs n e (kcontent s) ->
  (92 <= cs -> exists m' s', evfs_hard_open sys_read sys_open sys_close sys_fstat alloc m s
      = Some (NSP_STATUS_SUCCESSFUL, m', s') /\ hard_ok content cs n e m' s' /\ kcontent s' = kcontent s /\
      0 < fd m' /\ max_data_seg_size m' = cs - sizeof_cluster /\ exists b, the_first_cluster m' = Some b /\ header cs n e b) /\
  (cs < 92 -> evfs_hard_open sys_read sys_open sys_close sys_fstat alloc m s = None).
Proof.
  intros Hm [Hlo Hhi] Hn Hlen [Hmin Hmax] Hhdr. pose proof Hhdr as [G1 G2 G3 G4 G5 G6 G7].
  pose proof Hlo as Hlo'. pose proof Hhi as Hhi'. pose proof Hmax as Hmax'.
  change MAXIMUM_FILE_SIZE with 1073741824 in Hmax'. change MINIMUM_CLUSTER_SIZE with 32 in Hlo'.
  change MAXIMUM_CLUSTER_SIZE with 4096 in Hhi'.
  unfold evfs_hard_open. rewrite Hm. change (kEvmgrNotReady =? kEvmgrNotReady) with true. cbn [negb].
  destruct (open_again s) as (f & k1 & -> & Hf & Hc1 & Hp1). change (NSP_SUCCESS NSP_STATUS_SUCCESSFUL) with true. cbn [negb].
  unfold ifos_file_fgetsize, syscall. cbn [kern errno]. rewrite fstat_works, Hc1, Hlen.
  rewrite (proj2 (Z.ltb_ge (cs * n) 0)) by lia. change (sizeof_cluster + sizeof_evhrd) with 92.
  rewrite (proj2 (Z.ltb_ge (cs * n) 92)), (proj2 (Z.ltb_ge MAXIMUM_FILE_SIZE (cs * n))) by lia. cbn [orb].
  destruct (alloc_works 92) as (guide & -> & Hg); [done |].
  destruct (read_works_ok f guide 92 (Os k1 (errno s))) as (b & s2 & -> & Hc2 & ->); [lia |]. cbn [kern] in *.
  rewrite Hc1, Hp1 in *. rewrite read_at_len by lia. cbn [mbind option_bind]. change (92 =? 92) with true. cbn [negb].
  assert (zlen (read_at 0 92 (kcontent s)) = 92) as Hgl by (apply read_at_len; lia).
  rewrite write_at_all by lia. set (g := read_at 0 92 (kcontent s)) in *.
  assert (forall off, 0 <= off -> off + 4 <= 92 -> get_int off g = get_int off (kcontent s)) as Hget
    by (intros off H1 H2; apply get_int_prefix; lia).
  unfold __evfs_check_hard_legal. unfold data_seg_size, next_cluster_id, head_cluster_id, magic, cluster_size, cluster_count, expand_cluster_count in *.
  rewrite !Hget, G1, G2, G3, G4, G5, G6 by lia. cbn [mbind option_bind].
  rewrite !Z.eqb_refl. cbn [negb orb]. rewrite (proj2 (Z.ltb_ge cs MINIMUM_CLUSTER_SIZE)), (proj2 (Z.ltb_ge MAXIMUM_CLUSTER_SIZE cs)) by done.
  cbn [orb].
  change (NSP_SUCCESS NSP_STATUS_SUCCESSFUL) with true. cbn [negb].
  destruct (alloc_works cs) as (blk & -> & Hblk); [lia |]. split.
  - intros Hbig. rewrite memcpy_write by lia. cbn [mbind option_bind].
    unfold hard_leave. cbn [fd]. rewrite Z.eqb_refl, andb_false_r. cbn [ready].
    change (kEvmgrReady =? kEvmgrInitializing) with false. cbn match. do 2 eexists. split; [reflexivity |].
    assert (forall off, 0 <= off -> off + 4 <= 92 -> get_int off (write_at 0 g blk) = get_int off (kcontent s)) as Hget2.
    { intros off H1 H2. rewrite <- Hget by done. rewrite write_at_in by (pose proof (zlen_nonneg blk); lia).
      change (Z.to_nat 0) with 0%nat. rewrite take_0. cbn [app]. apply get_int_app; lia. }
    split; [|split; [by rewrite Hc2 |]].
    2: { split; [done |]. split; [done |]. eexists. split; [reflexivity |]. apply (header_same _ _ _ _ _ ltac:(intros; apply Hget2; lia) Hhdr). }
    split; unfold evhrd, cluster_size, cluster_count, expand_cluster_count; cbn [the_first_cluster mbind option_bind];
      try (rewrite Hget2 by lia; done).
    + unfold __evfs_is_ready. cbn [ready the_first_cluster fd fsize max_data_seg_size]. rewrite bool_decide_false by done.
      change INVALID_FILE_DESCRIPTOR with (-1).
      rewrite (proj2 (Z.eqb_neq f (-1))), !(proj2 (Z.eqb_neq _ 0)); [done | unfold sizeof_cluster; lia | nia | lia].
    + eexists. split; [reflexivity |]. rewrite write_at_len by (pose proof (zlen_nonneg blk); lia). lia.
    + split; [lia |]. split; [lia | done].
    + cbn [fsize]. split; [done |]. by rewrite Hc2.
  - intros Hsmall. assert (memcpy_at blk 0 g = None) as ->; [|done].
    unfold memcpy_at. by rewrite (proj2 (Z.leb_gt (0 + zlen g) (zlen blk))), andb_false_r by lia.
Qed.

(** Closing keeps the file. *)
Lemma close_ok m s : kcontent (evfs_hard_close sys_fsync sys_close m s).2 = kcontent s /\
  ready (evfs_hard_close sys_fsync sys_close m s).1 = kEvmgrNotReady.
Proof.
  split; [|done]. unfold evfs_hard_close, ifos_file_close. cbn [snd].
  destruct (ifos_file_flush_ok _ _ _ _ content pos (fd m) s) as (r & s' & E1 & E2).
  repeat case_match; rewrite ?E1; try done. cbn [kern snd]. by rewrite close_keeps.
Qed.

(** An image that [evfs_hard_create] makes comes back when it is closed and opened
    again: the same clusters, the same bytes, a ready manager.  The creator takes
    clusters of 32 and 64 bytes, too, but opening such an image writes the 92 bytes of
    the header record over a block of one cluster. *)
Theorem evfs_hard_roundtrip cs count s :
  MINIMUM_CLUSTER_SIZE <= cs <= MAXIMUM_CLUSTER_SIZE -> is_powerof_2 cs = true -> 0 < count ->
  92 <= cs * count < MAXIMUM_FILE_SIZE ->
  exists m1 s1, evfs_hard_create sys_write sys_lseek sys_fsync sys_open sys_close alloc cs count evfs_mgr0 s
      = Some (NSP_STATUS_SUCCESSFUL, m1, s1) /\
    hard_ok content cs count count m1 s1 /\
    let '(m2, s2) := evfs_hard_close sys_fsync sys_close m1 s1 in
    (92 <= cs -> exists m3 s3, evfs_hard_open sys_read sys_open sys_close sys_fstat alloc m2 s2
        = Some (NSP_STATUS_SUCCESSFUL, m3, s3) /\ hard_ok content cs count count m3 s3 /\ kcontent s3 = kcontent s1) /\
    (cs < 92 -> evfs_hard_open sys_read sys_open sys_close sys_fstat alloc m2 s2 = None).
Proof.
  intros Hcs Hpow Hn [Hmin Hmax]. pose proof (proj1 Hcs) as Hlo. change MINIMUM_CLUSTER_SIZE with 32 in Hlo.
  destruct (create_ok cs count evfs_mgr0 s) as (m1 & s1 & first & E & Hok & _ & Hf & Hc & Hl & _ & Hhdr);
    [done.. |].
  exists m1, s1. split; [done |]. split; [done |].
  destruct (close_ok m1 s1) as [Hc2 Hm2]. destruct (evfs_hard_close _ _ m1 s1) as [m2 s2]. cbn [fst snd] in Hc2, Hm2.
  pose proof (ok_fsize _ _ _ _ _ _ Hok) as [_ Hlen].
  assert (forall off, 0 <= off -> off + 4 <= 32 -> get_int off (kcontent s2) = get_int off first) as Hget.
  { intros off H1 H2. rewrite Hc2, Hc. apply get_int_app; lia. }
  destruct (open_ok cs count count m2 s2) as [Hbig Hsmall]; try done.
  - by rewrite Hc2.
  - lia.
  - by apply (header_same _ _ _ first).
  - split; [|done]. intros H92. destruct (Hbig H92) as (m3 & s3 & -> & Hok3 & Hc3 & _). exists m3, s3. by rewrite Hc3.
Qed.
End Image.

(** ** A disk to run it on *)
Record demo_disk := Disk { stored : list Z; at_ : nat }.
Definition demo_pos (k : demo_disk) : Z := Z.of_nat (at_ k).
Definition demo_read (fd size : Z) (k : demo_disk) : (list Z + Z) * demo_disk :=
  let b := read_at (demo_pos k) size (stored k) in (inl b, Disk (stored k) (at_ k + length b)).
Definition demo_write (fd : Z) (b : list Z) (k : demo_disk) : answer * demo_disk :=
  (Ret (zlen b), Disk (write_at (demo_pos k) b (stored k)) (at_ k + length b)).
Definition demo_lseek (fd off : Z) (k : demo_disk) : answer * demo_disk :=
  if off <? 0 then (Err EINVAL, k) else (Ret off, Disk (stored k) (Z.to_nat off)).
Definition demo_fsync (fd : Z) (k : demo_disk) : answer * demo_disk := (Ret 0, k).
Definition demo_open (flags mode : Z) (k : demo_disk) : answer * demo_disk :=
  (Ret 3, Disk (if Z.testbit flags 9 then [] else stored k) 0).
Definition demo_close (fd : Z) (k : demo_disk) : demo_disk := k.
Definition demo_fstat (fd : Z) (k : demo_disk) : answer * demo_disk := (Ret (zlen (stored k)), k).
Definition demo_alloc (n : Z) : option (list Z) := if n <=? 0 then None else Some (replicate (Z.to_nat n) 170).

#[export] Instance demo_file : File demo_read demo_write demo_lseek demo_fsync stored demo_pos.
Proof.
  split.
  - intros k. unfold demo_pos. lia.
  - intros fd size k Hs. left. exists size. eexists. split; [reflexivity |]. split; [lia |]. split; [done |].
    unfold demo_pos, zlen. cbn [at_]. lia.
  - intros fd b k Hb. left. exists (zlen b). eexists. split; [reflexivity |].
    pose proof (zlen_nonneg b). split; [lia |]. cbn [stored]. rewrite take_ge by (unfold zlen; lia). split; [done |].
    unfold demo_pos, zlen. cbn [at_]. lia.
  - intros fd off k Ho. left. unfold demo_lseek. rewrite (proj2 (Z.ltb_ge off 0)) by done. eexists.
    split; [reflexivity |]. split; [done |]. unfold demo_pos. cbn [at_]. lia.
  - intros fd k. left. by eexists.
Qed.

#[export] Instance demo_healthy : Healthy demo_write demo_lseek.
Proof.
  split.
  - intros fd b k Hb%zlen_pos. by do 2 eexists.
  - intros fd off k Ho. unfold demo_lseek. rewrite (proj2 (Z.ltb_ge off 0)) by done. by eexists.
Qed.

#[export] Instance demo_path :
  Path demo_read demo_write demo_lseek demo_fsync demo_open demo_close demo_fstat demo_alloc stored demo_pos.
Proof.
  split; try done; try apply _.
  - intros k. by exists 3, (Disk [] 0).
  - intros k. by exists 3, (Disk (stored k) 0).
  - intros fd size k _. by do 2 eexists.
  - intros fd k. by eexists.
  - intros n Hn. unfold demo_alloc. rewrite (proj2 (Z.leb_gt n 0)) by done. eexists. split; [reflexivity |].
    apply zlen_replicate. lia.
Qed.

(** Two clusters of 128 bytes come back, four of 32 bytes overrun a block. *)
Lemma evfs_hard_roundtrip_witness :
  (exists m3 s3, stored (kern s3) <> [] /\ hard_ok stored 128 2 2 m3 s3) /\
  exists m2 s2, evfs_hard_open demo_read demo_open demo_close demo_fstat demo_alloc m2 s2 = None.
Proof.
  split.
  - destruct (evfs_hard_roundtrip demo_read demo_write demo_lseek demo_fsync demo_open demo_close demo_fstat demo_alloc
      stored demo_pos 128 2 (Os (Disk [] 0) 0)) as (m1 & s1 & _ & Hok & H); [by split | done | done | by split |].
    destruct (evfs_hard_close _ _ _ _) as [m2 s2]. destruct H as [H _].
    destruct (H ltac:(done)) as (m3 & s3 & _ & Hok3 & _). exists m3, s3. split; [|done].
    pose proof (ok_fsize _ _ _ _ _ _ Hok3) as [_ Hl]. intros E. by rewrite E in Hl.
  - destruct (evfs_hard_roundtrip demo_read demo_write demo_lseek demo_fsync demo_open demo_close demo_fstat demo_alloc
      stored demo_pos 32 4 (Os (Disk [] 0) 0)) as (m1 & s1 & _ & Hok & H); [by split | done | done | by split |].
    destruct (evfs_hard_close _ _ _ _) as [m2 s2]. destruct H as [_ H]. exists m2, s2. by apply H.
Defined.

(** Two clusters of 32 bytes become four. *)
Lemma evfs_hard_expand_ok_witness :
  exists m s m' s', evfs_hard_expand demo_write demo_lseek demo_fsync demo_alloc m s = Some (2, Some 2, m', s') /\
    zlen (stored (kern s)) = 64 /\ zlen (stored (kern s')) = 128 /\
    cluster 32 3 (stored (kern s')) = replicate 32 0.
Proof.
  destruct (create_ok demo_read demo_write demo_lseek demo_fsync demo_open demo_close demo_fstat demo_alloc
    stored demo_pos 32 2 evfs_mgr0 (Os (Disk [] 0) 0)) as (m & s & first & _ & Hok & _ & Hfd & _); [done | by split | done | done | done |].
  exists m, s.
  destruct (evfs_hard_expand_ok demo_read demo_write demo_lseek demo_fsync stored demo_pos demo_alloc 32 2 2 m s)
    as (m' & s' & E & Hok' & _ & Hz); [done | done | done | | |].
  - intros k Hk. unfold demo_alloc. rewrite (proj2 (Z.leb_gt k 0)) by done. by eexists.
  - intros s1. apply (flush_works demo_read demo_write demo_lseek demo_fsync demo_open demo_close demo_fstat demo_alloc stored demo_pos).
    exact Hfd.
  - exists m', s'. split; [exact E |]. split; [exact (proj2 (ok_fsize _ _ _ _ _ _ Hok)) |].
    split; [exact (proj2 (ok_fsize _ _ _ _ _ _ Hok')) |]. apply Hz. lia.
Defined.
