(* ===== verification/Cache.v ===== *)
(** The block cache of evfs: addons/evfs/cache.c over the tree of [AvlTree].

    Blocks live at addresses of a heap; the lru, dirty and idle lists and the index
    hold addresses.  The tree compares blocks by their cluster_id, read from the heap;
    a search passes a block of its own ([Key]).  The disk below is the interface
    [HardDisk], which [Cluster] implements.  [None] is undefined behaviour: a freed
    block, a list it is not in, bytes outside a block.  All of it runs on one thread,
    which takes the requests off a queue. *)
From S2P Require Import Prelude AvlTree Ifos Cluster.

Inductive block_state := kEvfsCacheBlockIdle | kEvfsCacheBlockClean | kEvfsCacheBlockDirty.
#[export] Instance block_state_dec : EqDecision block_state.
Proof. solve_decision. Defined.

Record evfs_cache_node := CacheNode { cluster_id : Z; state : block_state; data : list Z }.
Inductive leaf := Leaf (l : nat) | Key (id : Z).
#[export] Instance leaf_dec : EqDecision leaf.
Proof. solve_decision. Defined.

(** [__evfs_cache_mgr], and the heap its blocks are in. *)
Record cache := Cache {
  heap : gmap nat evfs_cache_node;
  root_of_lru_index : tree leaf;
  lru : list nat; lru_count : Z;
  dirty : list nat; dirty_count : Z;
  idle : list nat; idle_count : Z;
  block_size : Z; cache_block_num : Z;
  count_of_hit : Z; count_of_miss : Z;
}.

Definition set_heap (h : gmap nat evfs_cache_node) (c : cache) : cache :=
  Cache h (root_of_lru_index c) (lru c) (lru_count c) (dirty c) (dirty_count c) (idle c) (idle_count c)
    (block_size c) (cache_block_num c) (count_of_hit c) (count_of_miss c).
Definition set_lru (t : tree leaf) (q : list nat) (n : Z) (c : cache) : cache :=
  Cache (heap c) t q n (dirty c) (dirty_count c) (idle c) (idle_count c)
    (block_size c) (cache_block_num c) (count_of_hit c) (count_of_miss c).
Definition set_dirty (q : list nat) (n : Z) (c : cache) : cache :=
  Cache (heap c) (root_of_lru_index c) (lru c) (lru_count c) q n (idle c) (idle_count c)
    (block_size c) (cache_block_num c) (count_of_hit c) (count_of_miss c).
Definition set_idle (q : list nat) (n : Z) (c : cache) : cache :=
  Cache (heap c) (root_of_lru_index c) (lru c) (lru_count c) (dirty c) (dirty_count c) q n
    (block_size c) (cache_block_num c) (count_of_hit c) (count_of_miss c).
Definition set_block_num (n : Z) (c : cache) : cache :=
  Cache (heap c) (root_of_lru_index c) (lru c) (lru_count c) (dirty c) (dirty_count c) (idle c) (idle_count c)
    (block_size c) n (count_of_hit c) (count_of_miss c).
Definition set_block_size (n : Z) (c : cache) : cache :=
  Cache (heap c) (root_of_lru_index c) (lru c) (lru_count c) (dirty c) (dirty_count c) (idle c) (idle_count c)
    n (cache_block_num c) (count_of_hit c) (count_of_miss c).
Definition count (hit : bool) (c : cache) : cache :=
  Cache (heap c) (root_of_lru_index c) (lru c) (lru_count c) (dirty c) (dirty_count c) (idle c) (idle_count c)
    (block_size c) (cache_block_num c)
    (if hit then s32 (count_of_hit c + 1) else count_of_hit c)
    (if hit then count_of_miss c else s32 (count_of_miss c + 1)).

(** The static manager before anything is done. *)
Definition evfs_cache0 : cache := Cache ∅ Null [] 0 [] 0 [] 0 0 0 0 0.

Definition leaf_id (h : gmap nat evfs_cache_node) (x : leaf) : Z :=
  match x with Leaf l => default 0 (cluster_id <$> h !! l) | Key id => id end.
Definition __evfs_cache_compare_by_cluster_id (h : gmap nat evfs_cache_node) (left right : leaf) : Z :=
  if leaf_id h left <? leaf_id h right then -1 else if leaf_id h right <? leaf_id h left then 1 else 0.

(** The node of the tree is part of the block: a block that was freed must not be met.
    A search reads the blocks it compares with on its way down; a change of the index
    reads some of their neighbours too, and here it wants all of the index alive. *)
Definition leaf_alive (h : gmap nat evfs_cache_node) (x : leaf) : bool :=
  match x with Leaf l => bool_decide (is_Some (h !! l)) | Key _ => true end.
Fixpoint path_alive (h : gmap nat evfs_cache_node) (id : Z) (t : tree leaf) : bool :=
  match t with
  | Null => true
  | Node l x _ r =>
      leaf_alive h x &&
      (let ret := __evfs_cache_compare_by_cluster_id h (Key id) x in
       if ret <? 0 then path_alive h id l else if 0 <? ret then path_alive h id r else true)
  end.
Definition index_alive (c : cache) : bool := forallb (leaf_alive (heap c)) (elems (root_of_lru_index c)).

(** ** Moving blocks between the lists *)
Definition __evfs_cache_search_lru (id : Z) (c : cache) : option (option nat) :=
  if path_alive (heap c) id (root_of_lru_index c) then
    match node_of (avlsearch (root_of_lru_index c) (Some (Key id))
                     (Some (__evfs_cache_compare_by_cluster_id (heap c)))) with
    | None => Some None
    | Some (Leaf l) => Some (Some l)
    | Some (Key _) => None
    end
  else None.

Definition __evfs_cache_pop_idle (c : cache) : option nat * cache :=
  match idle c with
  | [] => (None, c)
  | l :: q => (Some l, set_idle q (idle_count c - 1) c)
  end.

Definition __evfs_cache_pop_lru (c : cache) : option (option nat * cache) :=
  match lru c with
  | [] => Some (None, c)
  | l :: q =>
      if index_alive c then
        '(t, _) ← avlremove (root_of_lru_index c) (Some (Leaf l)) None
                    (Some (__evfs_cache_compare_by_cluster_id (heap c)));
        Some (Some l, set_lru t q (lru_count c - 1) c)
      else None
  end.

Definition __evfs_cache_push_idle (l : nat) (c : cache) : option cache :=
  node ← heap c !! l;
  Some (set_idle (idle c ++ [l]) (idle_count c + 1)
          (set_heap (<[l := CacheNode 0 kEvfsCacheBlockIdle (data node)]> (heap c)) c)).

Definition __evfs_cache_push_dirty (l : nat) (c : cache) : option cache :=
  node ← heap c !! l;
  Some (if decide (state node = kEvfsCacheBlockDirty) then c
        else set_dirty (dirty c ++ [l]) (dirty_count c + 1)
               (set_heap (<[l := CacheNode (cluster_id node) kEvfsCacheBlockDirty (data node)]> (heap c)) c)).

Definition __evfs_cache_push_lru (l : nat) (c : cache) : option cache :=
  if index_alive c then
    t ← avlinsert (root_of_lru_index c) (Some (Leaf l)) (Some (__evfs_cache_compare_by_cluster_id (heap c)));
    Some (set_lru t (lru c ++ [l]) (lru_count c + 1) c)
  else None.

Definition __evfs_cache_move_lru_to_tail (l : nat) (c : cache) : option cache :=
  q ← list_del l (lru c);
  Some (set_lru (root_of_lru_index c) (q ++ [l]) (lru_count c) c).

(** Writing to a field of a block. *)
Definition set_node (l : nat) (f : evfs_cache_node -> evfs_cache_node) (c : cache) : option cache :=
  node ← heap c !! l; Some (set_heap (<[l := f node]> (heap c)) c).
Definition node_id (id : Z) (n : evfs_cache_node) := CacheNode id (state n) (data n).
Definition node_state (st : block_state) (n : evfs_cache_node) := CacheNode (cluster_id n) st (data n).
Definition node_data (d : list Z) (n : evfs_cache_node) := CacheNode (cluster_id n) (state n) d.

Section Cache.
Context {D : Type}.
Implicit Types (c : cache) (d : D).
Context (hard_read : Z -> list Z -> D -> option (Z * list Z * D))
  (hard_write : Z -> list Z -> D -> option (Z * D))
  (hard_flush : D -> Z * D).

(** The status of the write is not looked at. *)
Definition __evfs_cache_flush_block_if_dirty (l : nat) c d : option (cache * D) :=
  node ← heap c !! l;
  if decide (state node = kEvfsCacheBlockDirty) then
    '(_, d) ← hard_write (cluster_id node) (data node) d;
    c ← set_node l (node_state kEvfsCacheBlockClean) c;
    q ← list_del l (dirty c);
    Some (set_dirty q (dirty_count c - 1) c, d)
  else Some (c, d).

(** ** Reading and writing through the cache

    The result of a read is the status and, on success, the bytes for the caller. *)
Definition __evfs_cache_read_from_lru (id offset length : Z) c : option (Z * option (list Z) * cache) :=
  found ← __evfs_cache_search_lru id c;
  match found with
  | None => Some (posix__makeerror ENOENT, None, count false c)
  | Some l =>
      c ← __evfs_cache_move_lru_to_tail l c;
      node ← heap c !! l;
      out ← memread (data node) offset length;
      Some (NSP_STATUS_SUCCESSFUL, Some out, count true c)
  end.

Definition __evfs_cache_write_to_lru (id : Z) (input : list Z) (offset : Z) c : option (Z * cache) :=
  found ← __evfs_cache_search_lru id c;
  match found with
  | None => Some (posix__makeerror ENOENT, count false c)
  | Some l =>
      c ← __evfs_cache_move_lru_to_tail l c;
      node ← heap c !! l;
      b ← memcpy_at (data node) offset input;
      c ← set_node l (node_data b) c;
      c ← __evfs_cache_push_dirty l (count true c);
      Some (NSP_STATUS_SUCCESSFUL, c)
  end.

(** Reading the cluster into a block that is in no list; whatever the status, the
    buffer is the block's. *)
Definition load_block (id : Z) (l : nat) c d : option (Z * cache * D) :=
  node ← heap c !! l;
  '(status, b, d) ← hard_read id (data node) d;
  c ← set_node l (node_data b) c;
  Some (status, c, d).

(** The end of the two reads that load a block: it becomes the clean block of [id],
    last in the lru list. *)
Definition enter_read (id offset length : Z) (l : nat) c : option (Z * option (list Z) * cache) :=
  c ← set_node l (node_id id) c;
  c ← set_node l (node_state kEvfsCacheBlockClean) c;
  node ← heap c !! l;
  out ← memread (data node) offset length;
  c ← __evfs_cache_push_lru l c;
  Some (NSP_STATUS_SUCCESSFUL, Some out, c).

(** And of the two writes: its dirty block. *)
Definition enter_write (id : Z) (input : list Z) (offset : Z) (l : nat) c : option cache :=
  c ← set_node l (node_id id) c;
  node ← heap c !! l;
  b ← memcpy_at (data node) offset input;
  c ← set_node l (node_data b) c;
  c ← __evfs_cache_push_dirty l c;
  __evfs_cache_push_lru l c.

Definition __evfs_cache_read_from_idle (id offset length : Z) c d : option (Z * option (list Z) * cache * D) :=
  match __evfs_cache_pop_idle c with
  | (None, c) => Some (posix__makeerror ENOMEM, None, c, d)
  | (Some l, c) =>
      '(status, c, d) ← load_block id l c d;
      if NSP_SUCCESS status then '(st, out, c) ← enter_read id offset length l c; Some (st, out, c, d)
      else c ← __evfs_cache_push_idle l c; Some (status, None, c, d)
  end.

(** When the read fails the block is put into no list. *)
Definition __evfs_cache_write_to_idle (id : Z) (input : list Z) (offset : Z) c d : option (Z * cache * D) :=
  match __evfs_cache_pop_idle c with
  | (None, c) => Some (posix__makeerror ENOMEM, c, d)
  | (Some l, c) =>
      '(status, c, d) ← load_block id l c d;
      if NSP_SUCCESS status then c ← enter_write id input offset l c; Some (status, c, d)
      else Some (status, c, d)
  end.

Definition __evfs_cache_replace_read_from_lru (id offset length : Z) c d
  : option (Z * option (list Z) * cache * D) :=
  '(front, c) ← __evfs_cache_pop_lru c;
  match front with
  | None => Some (posix__makeerror ENOENT, None, c, d)
  | Some l =>
      '(c, d) ← __evfs_cache_flush_block_if_dirty l c d;
      '(status, c, d) ← load_block id l c d;
      if NSP_SUCCESS status then '(_, out, c) ← enter_read id offset length l c; Some (status, out, c, d)
      else c ← __evfs_cache_push_idle l c; Some (status, None, c, d)
  end.

Definition __evfs_cache_replace_write_to_lru (id : Z) (input : list Z) (offset : Z) c d : option (Z * cache * D) :=
  '(front, c) ← __evfs_cache_pop_lru c;
  match front with
  | None => Some (posix__makeerror ENOENT, c, d)
  | Some l =>
      '(c, d) ← __evfs_cache_flush_block_if_dirty l c d;
      '(status, c, d) ← load_block id l c d;
      if NSP_SUCCESS status then c ← enter_write id input offset l c; Some (status, c, d)
      else c ← __evfs_cache_push_idle l c; Some (status, c, d)
  end.

(** Without blocks: a buffer of [evfs_hard_allocate_cluster] ([None]: no memory). *)
Definition __evfs_cache_read_harddisk (block : option (list Z)) (id offset length : Z) d
  : option (Z * option (list Z) * D) :=
  match block with
  | None => Some (posix__makeerror ENOMEM, None, d)
  | Some buf =>
      '(status, buf, d) ← hard_read id buf d;
      if NSP_SUCCESS status then out ← memread buf offset length; Some (status, Some out, d)
      else Some (status, None, d)
  end.
Definition __evfs_cache_write_harddisk (block : option (list Z)) (id : Z) (input : list Z) (offset : Z) d
  : option (Z * D) :=
  match block with
  | None => Some (posix__makeerror ENOMEM, d)
  | Some buf =>
      '(status, buf, d) ← hard_read id buf d;
      if NSP_SUCCESS status then buf ← memcpy_at buf offset input; hard_write id buf d
      else Some (status, d)
  end.

Definition __evfs_cache_read (block : option (list Z)) (id offset length : Z) c d
  : option (Z * option (list Z) * cache * D) :=
  if 0 =? cache_block_num c then
    '(status, out, d) ← __evfs_cache_read_harddisk block id offset length d; Some (status, out, c, d)
  else
    '(status, out, c) ← __evfs_cache_read_from_lru id offset length c;
    if NSP_SUCCESS status then Some (status, out, c, d)
    else
      '(status, out, c, d) ← __evfs_cache_read_from_idle id offset length c d;
      if NSP_SUCCESS status then Some (status, out, c, d)
      else __evfs_cache_replace_read_from_lru id offset length c d.

Definition __evfs_cache_write (block : option (list Z)) (id : Z) (input : list Z) (offset : Z) c d
  : option (Z * cache * D) :=
  if 0 =? cache_block_num c then
    '(status, d) ← __evfs_cache_write_harddisk block id input offset d; Some (status, c, d)
  else
    '(status, c) ← __evfs_cache_write_to_lru id input offset c;
    if NSP_SUCCESS status then Some (status, c, d)
    else
      '(status, c, d) ← __evfs_cache_write_to_idle id input offset c d;
      if NSP_SUCCESS status then Some (status, c, d)
      else __evfs_cache_replace_write_to_lru id input offset c d.

(** ** Flushing *)
Fixpoint flush_blocks (ls : list nat) c d : option (cache * D) :=
  match ls with
  | [] => Some (c, d)
  | l :: ls => '(c, d) ← __evfs_cache_flush_block_if_dirty l c d; flush_blocks ls c d
  end.
Definition __evfs_cache_flush_buffer_all c d : option (cache * D) :=
  if 0 =? dirty_count c then Some (c, d)
  else '(c, d) ← flush_blocks (dirty c) c d; Some (c, (hard_flush d).2).

(** The timer that flushes by age; nothing calls it.  [now] is the clock in units of
    100 ns; the new time of the last flush is an argument by value and is lost. *)
Definition __evfs_cache_auto_flush (now previous writtens : Z) c d : option (Z * cache * D) :=
  let elapsed := u64 (now - previous) in
  if ((10000 <=? writtens) && (60 * 1000 * 1000 * 10 <=? elapsed))
     || ((10 <=? writtens) && (300 * 1000 * 1000 * 10 <=? elapsed))
     || ((1 <=? writtens) && (900 * 1000 * 1000 * 10 <=? elapsed))
  then '(c, d) ← __evfs_cache_flush_buffer_all c d; Some (0, c, d)
  else Some (writtens, c, d).

Definition __evfs_cache_flush_block (id : Z) c d : option (cache * D) :=
  found ← __evfs_cache_search_lru id c;
  match found with
  | Some l => __evfs_cache_flush_block_if_dirty l c d
  | None => Some (c, d)
  end.
End Cache.

(** ** The number of blocks

    [blocks] are the data blocks the allocator has left, with their content. *)
Definition new_idle (b : list Z) (c : cache) : cache :=
  let l := fresh (dom (heap c)) in
  set_idle (idle c ++ [l]) (idle_count c + 1)
    (set_heap (<[l := CacheNode 0 kEvfsCacheBlockIdle b]> (heap c)) c).

Fixpoint add_blocks (n : nat) (blocks : list (list Z)) (c : cache) : Z * cache :=
  match n, blocks with
  | S n, b :: blocks =>
      let '(i, c) := add_blocks n blocks (set_block_num (cache_block_num c + 1) (new_idle b c)) in (i + 1, c)
  | _, _ => (0, c)
  end.
Definition __evfs_cache_add_block_to_idle (n : Z) (blocks : list (list Z)) (c : cache) : Z * cache :=
  let '(i, c) := add_blocks (Z.to_nat n) blocks c in (i, set_block_num (cache_block_num c + i) c).

(** Freeing from the front of a list, until it is empty or the number is [n] right
    after a block was freed. *)
Fixpoint free_idle (q : list nat) (n : Z) (c : cache) : cache :=
  match q with
  | [] => c
  | l :: q =>
      let c := set_block_num (cache_block_num c - 1) (set_idle q (idle_count c - 1) (set_heap (delete l (heap c)) c)) in
      if n =? cache_block_num c then c else free_idle q n c
  end.
Fixpoint free_lru (q : list nat) (n : Z) (c : cache) : cache :=
  match q with
  | [] => c
  | l :: q =>
      let c := set_block_num (cache_block_num c - 1)
        (set_lru (root_of_lru_index c) q (lru_count c - 1) (set_heap (delete l (heap c)) c)) in
      if n =? cache_block_num c then c else free_lru q n c
  end.
Fixpoint grow (n : nat) (blocks : list (list Z)) (c : cache) : Z * cache :=
  match n with
  | O => (NSP_STATUS_SUCCESSFUL, c)
  | S n =>
      match blocks with
      | [] => (posix__makeerror ENOMEM, c)
      | b :: blocks => grow n blocks (set_block_num (cache_block_num c + 1) (new_idle b c))
      end
  end.
Definition __evfs_cache_set_block_num (ready : bool) (n : Z) (blocks : list (list Z)) (c : cache) : Z * cache :=
  if negb ready || (n <? 0) then (posix__makeerror EINVAL, c)
  else if cache_block_num c <? n then grow (Z.to_nat (n - cache_block_num c)) blocks c
  else if n <? cache_block_num c then
    let c := free_idle (idle c) n c in (NSP_STATUS_SUCCESSFUL, free_lru (lru c) n c)
  else (NSP_STATUS_SUCCESSFUL, c).

(** ** Requests

    A request with what it carries; [blocks] is what the allocator has for it. *)
Inductive io_task :=
  | IoRead (block : option (list Z)) (id offset length : Z)
  | IoReadDirectly (id : Z) (buffer : list Z)
  | IoReadHeadDirectly (id : Z) (buffer : list Z)
  | IoWrite (block : option (list Z)) (id : Z) (input : list Z) (offset : Z)
  | IoWriteDirectly (id : Z) (input : list Z)
  | IoFlushBufferAll
  | IoFlushBuffer (id : Z)
  | IoAddCacheBlock (n : Z) (blocks : list (list Z))
  | IoHardClose
  | IoHardState
  | IoHardExpand
  | IoChangeBlockCount (n : Z) (blocks : list (list Z)).

(** struct evfs_cache_stat *)
Record evfs_cache_stat := CacheStat {
  file_size : Z; hard_cluster_size : Z; hard_cluster_count : Z; hard_max_data_seg_size : Z; stat_cache_block_num : Z;
}.

(** The status ([None]: not written), the bytes for the caller, what
    [evfs_hard_expand] gives: the clusters and the first of them; and what is written
    to the struct of a state query. *)
Record reply := ReplyWith {
  r_status : option Z; r_out : option (list Z); r_expand : option (Z * option Z); r_stat : option evfs_cache_stat;
}.
Abbreviation Reply r out e := (ReplyWith r out e None).

(** What the disk says of itself: usable clusters, cluster size, bytes of user data in
    one, and size of the file. *)
Record hard_queries (D : Type) := HardQueries {
  hard_get_usable_cluster_count : D -> option Z;
  hard_get_cluster_size : D -> option Z;
  hard_get_max_data_seg_size : D -> Z;
  hard_get_filesize : D -> Z;
}.
Arguments hard_get_usable_cluster_count {D}. Arguments hard_get_cluster_size {D}.
Arguments hard_get_max_data_seg_size {D}. Arguments hard_get_filesize {D}.

Section Requests.
Context {D : Type}.
Implicit Types (c : cache) (d : D).
Context (hard_read : Z -> list Z -> D -> option (Z * list Z * D))
  (hard_write : Z -> list Z -> D -> option (Z * D))
  (hard_flush : D -> Z * D)
  (hard_read_head : Z -> list Z -> D -> option (Z * list Z * D))
  (hard_close : D -> D)
  (hard_expand : D -> option (Z * option Z * D))
  (hard : hard_queries D).

Definition __evfs_cache_uninit c d : option (cache * D) :=
  '(c, d) ← __evfs_cache_flush_buffer_all hard_write hard_flush c d; Some (c, hard_close d).

Definition __evfs_cache_expand d : option (reply * D) :=
  '(n, first, d) ← hard_expand d;
  Some (Reply (Some (if 0 <? n then NSP_STATUS_SUCCESSFUL else NSP_STATUS_FATAL)) None (Some (n, first)), d).

(** The number of blocks is changed without storing a status. *)
Definition __evfs_cache_exec_task (task : io_task) c d : option (reply * cache * D) :=
  let status r := Reply (Some r) None None in
  match task with
  | IoRead block id offset length =>
      '(r, out, c, d) ← __evfs_cache_read hard_read hard_write block id offset length c d;
      Some (Reply (Some r) out None, c, d)
  | IoReadDirectly id buffer => '(r, b, d) ← hard_read id buffer d; Some (Reply (Some r) (Some b) None, c, d)
  | IoReadHeadDirectly id buffer => '(r, b, d) ← hard_read_head id buffer d; Some (Reply (Some r) (Some b) None, c, d)
  | IoWrite block id input offset =>
      '(r, c, d) ← __evfs_cache_write hard_read hard_write block id input offset c d; Some (status r, c, d)
  | IoWriteDirectly id input => '(r, d) ← hard_write id input d; Some (status r, c, d)
  | IoFlushBufferAll =>
      '(c, d) ← __evfs_cache_flush_buffer_all hard_write hard_flush c d; Some (status NSP_STATUS_SUCCESSFUL, c, d)
  | IoFlushBuffer id =>
      '(c, d) ← __evfs_cache_flush_block hard_write id c d; Some (status NSP_STATUS_SUCCESSFUL, c, d)
  | IoAddCacheBlock n blocks =>
      let '(i, c) := __evfs_cache_add_block_to_idle n blocks c in
      Some (status (if 0 =? i then posix__makeerror ENOMEM else NSP_STATUS_SUCCESSFUL), c, d)
  | IoHardClose => '(c, d) ← __evfs_cache_uninit c d; Some (status NSP_STATUS_SUCCESSFUL, c, d)
  | IoHardState =>
      n ← hard_get_usable_cluster_count hard d; size ← hard_get_cluster_size hard d;
      Some (ReplyWith (Some NSP_STATUS_SUCCESSFUL) None None
              (Some (CacheStat (hard_get_filesize hard d) size n (hard_get_max_data_seg_size hard d) (cache_block_num c))), c, d)
  | IoHardExpand => '(rep, d) ← __evfs_cache_expand d; Some (rep, c, d)
  | IoChangeBlockCount n blocks =>
      let '(_, c) := __evfs_cache_set_block_num true n blocks c in Some (Reply None None None, c, d)
  end.

(** The worker takes the requests off the queue until none is left. *)
Fixpoint __evfs_cache_pop_task_until_empty (tasks : list io_task) c d : option (list reply * cache * D) :=
  match tasks with
  | [] => Some ([], c, d)
  | task :: tasks =>
      '(rep, c, d) ← __evfs_cache_exec_task task c d;
      '(reps, c, d) ← __evfs_cache_pop_task_until_empty tasks c d;
      Some (rep :: reps, c, d)
  end.

(** The worker: what each wait on its event gives, and the requests left in the queue
    when it ends.  Five seconds without a request, and the blocks are flushed. *)
Inductive wakeup := Awakened (tasks : list io_task) | Expired | Failed.
Fixpoint __evfs_cache_thread_merge_io (waits : list wakeup) (left : list io_task) c d
  : option (list reply * cache * D) :=
  match waits with
  | Awakened tasks :: waits =>
      '(reps, c, d) ← __evfs_cache_pop_task_until_empty tasks c d;
      '(reps', c, d) ← __evfs_cache_thread_merge_io waits left c d;
      Some (reps ++ reps', c, d)
  | Expired :: waits =>
      '(c, d) ← __evfs_cache_flush_buffer_all hard_write hard_flush c d;
      __evfs_cache_thread_merge_io waits left c d
  | Failed :: _ | [] => __evfs_cache_pop_task_until_empty left c d
  end.

(** ** The entry points

    [ready]: whether the manager is in the state kEvmgrReady; [mem]: whether a task can
    be allocated; [stop] and [pending] are those of the queue. *)
Record env := Env { e_ready : bool; e_mem : bool; e_stop : bool; e_pending : Z }.
Definition EVFS_MAX_IO_PENDING_COUNT : Z := 160.

Definition __evfs_cache_push_task (e : env) : Z :=
  if e_stop e then posix__makeerror ENODEV
  else if EVFS_MAX_IO_PENDING_COUNT <=? e_pending e then posix__makeerror ENOMEM
  else NSP_STATUS_SUCCESSFUL.

(** A request whose guard holds: it is queued, executed, and its reply is returned. *)
Definition submit (e : env) (guard : bool) (task : io_task) c d : option (reply * cache * D) :=
  if negb guard then Some (Reply (Some (posix__makeerror EINVAL)) None None, c, d)
  else if negb (e_mem e) then Some (Reply (Some (posix__makeerror ENOMEM)) None None, c, d)
  else if negb (NSP_SUCCESS (__evfs_cache_push_task e)) then Some (Reply (Some (__evfs_cache_push_task e)) None None, c, d)
  else __evfs_cache_exec_task task c d.

(** The sum is an int. *)
Definition range_guard (e : env) (id offset length : Z) c : bool :=
  negb ((id <=? 0) || (offset <? 0) || (length <? 0) || negb (e_ready e) || (block_size c <? s32 (offset + length))).

(** An output or input that is NULL is [false] or [None]. *)
Definition evfs_cache_read (e : env) (block : option (list Z)) (id : Z) (output : bool) (offset length : Z) c d :=
  submit e (output && range_guard e id offset length c) (IoRead block id offset length) c d.
Definition evfs_cache_write (e : env) (block : option (list Z)) (id : Z) (input : option (list Z)) (offset : Z) c d :=
  submit e (bool_decide (is_Some input) && range_guard e id offset (zlen (default [] input)) c)
    (IoWrite block id (default [] input) offset) c d.
Definition evfs_cache_read_head (e : env) (block : option (list Z)) (id : Z) (output : bool) c d :=
  evfs_cache_read e block id output 0 sizeof_cluster c d.
Definition evfs_cache_write_head (e : env) (block : option (list Z)) (id : Z) (head : option (list Z)) c d :=
  evfs_cache_write e block id head 0 c d.

(** The comparison with the size of the user data is one of size_t. *)
Definition userdata_guard (id offset length : Z) c : bool :=
  negb ((u64 (block_size c - sizeof_cluster) <? u64 (s32 (offset + length))) || (id <? 0)).
Definition evfs_cache_read_userdata (e : env) (block : option (list Z)) (id : Z) (output : bool) (offset length : Z) c d :=
  if negb (output && userdata_guard id offset length c) then Some (Reply (Some (posix__makeerror EINVAL)) None None, c, d)
  else evfs_cache_read e block id output (s32 (offset + sizeof_cluster)) length c d.
Definition evfs_cache_write_userdata (e : env) (block : option (list Z)) (id : Z) (input : option (list Z)) (offset : Z) c d :=
  if negb (bool_decide (is_Some input) && userdata_guard id offset (zlen (default [] input)) c)
  then Some (Reply (Some (posix__makeerror EINVAL)) None None, c, d)
  else evfs_cache_write e block id input (s32 (offset + sizeof_cluster)) c d.

Definition evfs_cache_read_directly (e : env) (id : Z) (output : option (list Z)) c d :=
  submit e (negb ((id <=? 0) || bool_decide (output = None) || negb (e_ready e))) (IoReadDirectly id (default [] output)) c d.
Definition evfs_cache_read_head_directly (e : env) (id : Z) (output : option (list Z)) c d :=
  submit e (negb ((id <=? 0) || bool_decide (output = None) || negb (e_ready e))) (IoReadHeadDirectly id (default [] output)) c d.
Definition evfs_cache_write_directly (e : env) (id : Z) (input : option (list Z)) c d :=
  submit e (negb ((id <=? 0) || bool_decide (input = None) || negb (e_ready e))) (IoWriteDirectly id (default [] input)) c d.
Definition evfs_cache_add_block (e : env) (n : Z) (blocks : list (list Z)) c d :=
  submit e (e_ready e) (IoAddCacheBlock n blocks) c d.
Definition evfs_cache_set_block_num (e : env) (n : Z) (blocks : list (list Z)) c d :=
  if negb (e_ready e) || (n <? 0) then Some (Reply (Some (posix__makeerror EINVAL)) None None, c, d)
  else if negb (e_mem e) || negb (NSP_SUCCESS (__evfs_cache_push_task e))
  then Some (Reply (Some (posix__makeerror ENOMEM)) None None, c, d)
  else __evfs_cache_exec_task (IoChangeBlockCount n blocks) c d.

(** The state query for a struct that is not NULL. *)
Definition evfs_cache_hard_state (e : env) c d : option (reply * cache * D) :=
  if negb (e_ready e) then Some (Reply (Some (posix__makeerror ENODEV)) None None, c, d)
  else submit e true IoHardState c d.

(** Starting: the disk is created or opened, the blocks are allocated, and [thread] is
    the status of the worker's creation, which replaces any other status.  The result
    has the new state of the manager. *)
Definition evfs_cache_init (hard_create : Z -> Z -> D -> option (Z * D)) (hard_open : D -> option (Z * D))
    (hard_cluster_size : D -> option Z) (thread : Z) (ready : Z) (n : Z) (creator : option (Z * Z))
    (blocks : list (list Z)) c d : option (Z * Z * cache * D) :=
  if n <? 0 then Some (posix__makeerror EINVAL, ready, c, d)
  else if negb (ready =? kEvmgrNotReady) then Some (posix__makeerror EEXIST, ready, c, d)
  else
    '(status, d) ← match creator with Some (size, k) => hard_create size k d | None => hard_open d end;
    if negb (NSP_SUCCESS status) then Some (status, kEvmgrNotReady, c, d)
    else
      size ← hard_cluster_size d;
      let '(i, c) := __evfs_cache_add_block_to_idle n blocks (set_block_size size c) in
      let c := set_block_num i c in
      Some (thread, if NSP_SUCCESS thread then kEvmgrReady else kEvmgrNotReady, c, d).

(** Freeing the blocks of the lru list and their index. *)
Fixpoint free_indexed (q : list nat) c : option cache :=
  match q with
  | [] => Some c
  | l :: q =>
      if index_alive c then
        '(t, _) ← avlremove (root_of_lru_index c) (Some (Leaf l)) None
                    (Some (__evfs_cache_compare_by_cluster_id (heap c)));
        free_indexed q (set_heap (delete l (heap c)) (set_lru t q (lru_count c - 1) c))
      else None
  end.
Fixpoint free_all_idle (q : list nat) c : cache :=
  match q with
  | [] => c
  | l :: q => free_all_idle q (set_idle q (idle_count c - 1) (set_heap (delete l (heap c)) c))
  end.
Definition evfs_cache_uninit (e : env) c d : option (cache * D) :=
  if e_ready e then
    '(c, d) ← (if e_mem e && NSP_SUCCESS (__evfs_cache_push_task e)
               then '(_, c, d) ← __evfs_cache_exec_task IoHardClose c d; Some (c, d)
               else Some (c, d));
    c ← free_indexed (lru c) c;
    let c := set_dirty [] (dirty_count c) (free_all_idle (idle c) c) in
    Some (set_block_size 0 (set_block_num 0 c), d)
  else Some (c, d).

(** These two give nothing back but the state. *)
Definition evfs_cache_flush (e : env) c d : option (cache * D) :=
  '(_, c, d) ← submit e (e_ready e) IoFlushBufferAll c d; Some (c, d).
Definition evfs_cache_flush_block (e : env) (id : Z) c d : option (cache * D) :=
  '(_, c, d) ← submit e (negb ((id <=? 0) || negb (e_ready e))) (IoFlushBuffer id) c d; Some (c, d).

(** -1 on any failure.  Waiting for the worker frees the task; when the disk has grown,
    the clusters added and the first of them are read from it after that. *)
Definition evfs_cache_expand (e : env) c d : option (Z * option Z * cache * D) :=
  if negb (e_ready e) then Some (-1, None, c, d)
  else
    '(rep, c, d) ← submit e true IoHardExpand c d;
    r ← r_status rep;
    if NSP_SUCCESS r then None else Some (-1, None, c, d).
End Requests.

(** ** The contract of the disk

    [valid] disks hold clusters of [cs] bytes.  A read fails or gives the bytes.  A write
    succeeds, or fails and leaves something in the cluster, which is [lost] from then on. *)
Class HardDisk {D : Type} (hard_read : Z -> list Z -> D -> option (Z * list Z * D))
    (hard_write : Z -> list Z -> D -> option (Z * D)) (hard_flush : D -> Z * D)
    (cs : Z) (valid : D -> Prop) (clusters : D -> Z -> option (list Z)) (lost : D -> Z -> bool) : Prop := {
  hd_pos : 0 < cs;
  hd_len d id b : valid d -> clusters d id = Some b -> zlen b = cs;
  hd_read id buf d b : valid d -> clusters d id = Some b -> cs <= zlen buf ->
    exists r buf' d', hard_read id buf d = Some (r, buf', d') /\ valid d' /\
      (forall i, clusters d' i = clusters d i /\ lost d' i = lost d i) /\ zlen buf' = zlen buf /\
      (r < 0 \/ r = NSP_STATUS_SUCCESSFUL /\ buf' = write_at 0 b buf);
  hd_write id buf d : valid d -> is_Some (clusters d id) -> cs <= zlen buf ->
    exists r d', hard_write id buf d = Some (r, d') /\ valid d' /\
      (forall i, i <> id -> clusters d' i = clusters d i /\ lost d' i = lost d i) /\ is_Some (clusters d' id) /\
      (r = NSP_STATUS_SUCCESSFUL /\ clusters d' id = Some (take (Z.to_nat cs) buf) /\ lost d' id = lost d id \/
       r < 0 /\ lost d' id = true);
  hd_flush d : valid d -> valid (hard_flush d).2 /\
    forall i, clusters (hard_flush d).2 i = clusters d i /\ lost (hard_flush d).2 i = lost d i;
}.

#[export] Instance compare_by_cluster_id_ok h : AvlCompare (__evfs_cache_compare_by_cluster_id h).
Proof. unfold __evfs_cache_compare_by_cluster_id. split; intros; repeat case_match; lia. Qed.

Lemma compare_ids h x y : __evfs_cache_compare_by_cluster_id h x y = 0 <-> leaf_id h x = leaf_id h y.
Proof. unfold __evfs_cache_compare_by_cluster_id. repeat case_match; split; intros; lia. Qed.

(** The order only depends on the ids of the blocks in the tree. *)
Lemma ordered_ids h h' xs : (forall x, x ∈ xs -> leaf_id h' x = leaf_id h x) ->
  ordered (__evfs_cache_compare_by_cluster_id h) xs -> ordered (__evfs_cache_compare_by_cluster_id h') xs.
Proof.
  unfold ordered. induction xs as [|x xs IH]; intros Hid; [constructor |].
  intros [Hx Hxs]%StronglySorted_cons. apply StronglySorted_cons. split.
  - apply Forall_forall. intros y Hy. pose proof (proj1 (Forall_forall _ _) Hx y Hy) as Hlt. revert Hlt. cbn beta.
    unfold __evfs_cache_compare_by_cluster_id. rewrite !(Hid x), !(Hid y); [done | by constructor.. | by constructor | by constructor].
  - apply IH; [|done]. intros y Hy. apply Hid. by constructor.
Qed.

Lemma search_tree_ids h h' t : (forall x, x ∈ elems t -> leaf_id h' x = leaf_id h x) ->
  search_tree (__evfs_cache_compare_by_cluster_id h) t -> search_tree (__evfs_cache_compare_by_cluster_id h') t.
Proof. intros Hid [Ha Ho]. split; [done |]. by eapply ordered_ids. Qed.

Lemma path_alive_all h id t : forallb (leaf_alive h) (elems t) = true -> path_alive h id t = true.
Proof.
  induction t as [|l IHl x k r IHr]; [done |]. cbn [elems path_alive]. rewrite forallb_app. cbn [forallb].
  intros [Hl [Hx Hr]%andb_true_iff]%andb_true_iff. rewrite Hx. cbn [andb]. repeat case_match; auto.
Qed.

(** When blocks of the index are freed, the search for the cluster of one of them meets
    a freed block. *)
Lemma path_to_freed h h' l n : (forall a m, h' !! a = Some m -> h !! a = Some m) -> h !! l = Some n -> h' !! l = None ->
  forall t, ordered (__evfs_cache_compare_by_cluster_id h) (elems t) -> Leaf l ∈ elems t ->
    path_alive h' (cluster_id n) t = false.
Proof.
  intros Hsub Hn Hfree. induction t as [|tl IHl x k tr IHr]; intros Ho Hin; [by apply not_elem_of_nil in Hin |].
  cbn [elems path_alive] in *. destruct (leaf_alive h' x) eqn:Hx; [|done]. cbn [andb].
  apply ordered_app in Ho as (Hol & Hor & Hlx & Hxr); [|apply _].
  assert (leaf_id h' x = leaf_id h x) as Eid.
  { destruct x as [a|]; [|done]. apply bool_decide_eq_true in Hx as [m Hm]. cbn. by rewrite Hm, (Hsub _ _ Hm). }
  assert (__evfs_cache_compare_by_cluster_id h' (Key (cluster_id n)) x
          = __evfs_cache_compare_by_cluster_id h (Leaf l) x) as ->.
  { unfold __evfs_cache_compare_by_cluster_id. rewrite Eid. cbn [leaf_id]. by rewrite Hn. }
  apply elem_of_app in Hin as [Hin | Hin]; [|apply elem_of_cons in Hin as [<- | Hin]].
  - pose proof (Hlx _ Hin). rewrite (proj2 (Z.ltb_lt _ 0)) by done. by apply IHl.
  - cbn in Hx. rewrite Hfree in Hx. by apply bool_decide_eq_true in Hx as [? ?].
  - pose proof (proj2 (compare_gt _ _ _) (Hxr _ Hin)). rewrite (proj2 (Z.ltb_ge _ 0)), (proj2 (Z.ltb_lt 0 _)) by lia. by apply IHr.
Qed.

(** Taking the block [l] out of the index. *)
Lemma index_remove h t l q : search_tree (__evfs_cache_compare_by_cluster_id h) t -> elems t ≡ₚ Leaf <$> l :: q ->
  NoDup (l :: q) -> (forall l', l' ∈ l :: q -> is_Some (h !! l')) ->
  (forall l1 l2 n1 n2, l1 ∈ l :: q -> l2 ∈ l :: q -> h !! l1 = Some n1 -> h !! l2 = Some n2 ->
     cluster_id n1 = cluster_id n2 -> l1 = l2) ->
  exists t' rm, avlremove t (Some (Leaf l)) None (Some (__evfs_cache_compare_by_cluster_id h)) = Some (t', rm) /\
    search_tree (__evfs_cache_compare_by_cluster_id h) t' /\ elems t' ≡ₚ Leaf <$> q.
Proof.
  intros Ht E [Hnd _]%NoDup_cons Hlive Hids.
  destruct (avlremove_none _ t (Leaf l) Ht) as (t' & rm & -> & Ht' & Hel). exists t', rm.
  split; [done |]. split; [done |]. rewrite Hel. unfold list_remove. rewrite E. cbn [fmap list_fmap].
  rewrite filter_cons_False by (intros H; by apply H, compare_ids).
  rewrite filter_all; [done |]. intros x (l2 & -> & Hin)%list_elem_of_fmap Heq%compare_ids. cbn in Heq.
  destruct (Hlive l) as [n Hn]; [constructor |]. destruct (Hlive l2) as [n2 Hn2]; [by constructor |].
  rewrite Hn, Hn2 in Heq. cbn in Heq. apply Hnd.
  by rewrite (Hids l l2 n n2); [| constructor | constructor | ..].
Qed.

(** ** The invariant *)
Section Invariant.
Context {D : Type} (clusters : D -> Z -> option (list Z)) (lost : D -> Z -> bool) (cs : Z).
Implicit Types (c : cache) (d : D) (l : nat) (n : evfs_cache_node).

(** The lists hold live blocks, each in one of them; the index is the lru list in
    order of the ids, which differ; the dirty list is that of the dirty blocks; the
    counters are the lengths. *)
Record cache_ok c : Prop := {
  co_nodup : NoDup (lru c ++ idle c);
  co_block l : l ∈ lru c ++ idle c -> exists n, heap c !! l = Some n /\ zlen (data n) = cs;
  co_tree : search_tree (__evfs_cache_compare_by_cluster_id (heap c)) (root_of_lru_index c);
  co_elems : elems (root_of_lru_index c) ≡ₚ Leaf <$> lru c;
  co_lru l n : l ∈ lru c -> heap c !! l = Some n -> state n <> kEvfsCacheBlockIdle;
  co_idle l n : l ∈ idle c -> heap c !! l = Some n -> state n = kEvfsCacheBlockIdle;
  co_ids l1 l2 n1 n2 : l1 ∈ lru c -> l2 ∈ lru c -> heap c !! l1 = Some n1 -> heap c !! l2 = Some n2 ->
    cluster_id n1 = cluster_id n2 -> l1 = l2;
  co_nodup_dirty : NoDup (dirty c);
  co_dirty l : (l ∈ dirty c) <-> (l ∈ lru c) /\ exists n, heap c !! l = Some n /\ state n = kEvfsCacheBlockDirty;
  co_counts : lru_count c = zlen (lru c) /\ dirty_count c = zlen (dirty c) /\ idle_count c = zlen (idle c);
  co_none : 0 <= cache_block_num c /\ (cache_block_num c = 0 -> lru c = []);
}.

(** [a] is what a client sees: the blocks over the disk.  A clean block is that of the
    disk, unless its cluster is lost. *)
Record refines (a : Z -> option (list Z)) c d : Prop := {
  rf_clean l n : l ∈ lru c -> heap c !! l = Some n ->
    is_Some (clusters d (cluster_id n)) /\
    (state n = kEvfsCacheBlockClean -> lost d (cluster_id n) = false -> clusters d (cluster_id n) = Some (data n));
  rf_cached l n : l ∈ lru c -> heap c !! l = Some n -> a (cluster_id n) = Some (data n);
  rf_rest id : (forall l n, l ∈ lru c -> heap c !! l = Some n -> cluster_id n <> id) -> a id = clusters d id;
}.

(** A block taken off the lists; its data need not be written back. *)
Definition detached l c : Prop :=
  (l ∉ lru c) /\ (l ∉ idle c) /\
  exists n, heap c !! l = Some n /\ zlen (data n) = cs /\ state n <> kEvfsCacheBlockDirty.

Lemma index_alive_ok c : cache_ok c -> index_alive c = true.
Proof.
  intros Hc. apply forallb_forall. intros x Hx. apply list_elem_of_In in Hx. rewrite (co_elems _ Hc) in Hx.
  apply list_elem_of_fmap in Hx as (l & -> & Hl). apply bool_decide_true.
  destruct (co_block _ Hc l) as (n & -> & _); [|by eexists]. apply elem_of_app. by left.
Qed.

Lemma elem_index c x : cache_ok c -> (x ∈ elems (root_of_lru_index c)) <-> exists l, x = Leaf l /\ l ∈ lru c.
Proof. intros Hc. by rewrite (co_elems _ Hc), list_elem_of_fmap. Qed.

Lemma lru_node c l : cache_ok c -> l ∈ lru c -> exists n, heap c !! l = Some n /\ zlen (data n) = cs.
Proof. intros Hc Hl. apply (co_block _ Hc). apply elem_of_app. by left. Qed.

(** The search finds the block of a cluster. *)
Lemma search_ok id c : cache_ok c ->
  exists r, __evfs_cache_search_lru id c = Some r /\
    match r with
    | Some l => l ∈ lru c /\ exists n, heap c !! l = Some n /\ cluster_id n = id
    | None => forall l n, l ∈ lru c -> heap c !! l = Some n -> cluster_id n <> id
    end.
Proof.
  intros Hc. unfold __evfs_cache_search_lru. rewrite (path_alive_all _ _ _ (index_alive_ok c Hc)).
  rewrite (avlsearch_search_tree _ _ _ (co_tree _ Hc)).
  destruct (list_search _ (Key id) _) as [x|] eqn:E.
  - apply elem_of_list_search in E as [Hx Heq%compare_ids]. apply (elem_index c x Hc) in Hx as (l & -> & Hl).
    eexists. split; [reflexivity |]. split; [done |]. destruct (lru_node c l Hc Hl) as (n & Hn & _).
    exists n. split; [done |]. cbn in Heq. by rewrite Hn in Heq.
  - eexists. split; [reflexivity |]. intros l n Hl Hn Hid.
    assert (Leaf l ∈ elems (root_of_lru_index c)) as Hx by (apply (elem_index c _ Hc); eauto).
    assert (list_search (__evfs_cache_compare_by_cluster_id (heap c)) (Key id) (elems (root_of_lru_index c)) = Some (Leaf l)) as E';
      [|by rewrite E in E'].
    apply list_search_elem; [apply _ | exact (proj2 (co_tree _ Hc)) | done |]. apply compare_ids. cbn. by rewrite Hn.
Qed.

(** Nothing but the order of the lru list, the counters of hits and the number of
    blocks changes. *)
Lemma cache_ok_perm c c' : cache_ok c ->
  lru c' ≡ₚ lru c -> heap c' = heap c -> root_of_lru_index c' = root_of_lru_index c -> dirty c' = dirty c ->
  idle c' = idle c -> lru_count c' = lru_count c -> dirty_count c' = dirty_count c -> idle_count c' = idle_count c ->
  (0 <= cache_block_num c' /\ (cache_block_num c' = 0 -> lru c' = [])) -> cache_ok c'.
Proof.
  intros [H1 H2 H3 H4 H5 H6 H7 H8 H9 (H10 & H11 & H12) H13] Hp E1 E2 E3 E4 E5 E6 E7 Hnone.
  assert (zlen (lru c') = zlen (lru c)) as Hz by (unfold zlen; by rewrite Hp).
  split; rewrite ?E1, ?E2, ?E3, ?E4; try done.
  - by rewrite Hp.
  - intros l. rewrite Hp. apply H2.
  - by rewrite Hp.
  - intros l n. rewrite Hp. apply H5.
  - intros l1 l2 n1 n2. rewrite !Hp. apply H7.
  - intros l. rewrite Hp. apply H9.
  - by rewrite E5, E6, E7, Hz.
Qed.

Lemma refines_same a c c' d : heap c' = heap c -> (forall l, l ∈ lru c' <-> l ∈ lru c) -> refines a c d -> refines a c' d.
Proof.
  intros E Hl [H1 H2 H3]. split; rewrite ?E.
  - intros l n Hin. apply H1. by apply Hl.
  - intros l n Hin. apply H2. by apply Hl.
  - intros id Hid. apply H3. intros l n Hin. apply Hid. by apply Hl.
Qed.

Lemma count_ok b c : cache_ok c -> cache_ok (count b c).
Proof. intros Hc. apply (cache_ok_perm c); try done. apply (co_none _ Hc). Qed.

Lemma move_to_tail_ok l c : cache_ok c -> l ∈ lru c ->
  exists c', __evfs_cache_move_lru_to_tail l c = Some c' /\ cache_ok c' /\ heap c' = heap c /\
    (forall l', l' ∈ lru c' <-> l' ∈ lru c) /\ cache_block_num c' = cache_block_num c.
Proof.
  intros Hc Hl. unfold __evfs_cache_move_lru_to_tail. rewrite list_del_elem by done. cbn [mbind option_bind].
  pose proof (co_nodup _ Hc) as Hnd. apply NoDup_app in Hnd as (Hnd & _ & _).
  pose proof (del_perm l (lru c) Hnd Hl) as Hp. eexists. split; [reflexivity |]. split.
  - apply (cache_ok_perm c); try done. cbn [set_lru cache_block_num lru].
    split; [apply (co_none _ Hc) |]. intros H. rewrite (proj2 (co_none _ Hc) H) in Hl.
    by apply not_elem_of_nil in Hl.
  - cbn [set_lru heap lru cache_block_num]. split; [done |]. split; [|done]. intros l'. by rewrite <- Hp.
Qed.

(** New data of the same size in a block. *)
Lemma leaf_id_insert h l n n' x : h !! l = Some n -> cluster_id n' = cluster_id n ->
  leaf_id (<[l := n']> h) x = leaf_id h x.
Proof.
  intros Hl E. destruct x as [l' | id]; [|done]. cbn. destruct (decide (l' = l)) as [-> | Hne].
  - rewrite lookup_insert_eq, Hl. exact E.
  - by rewrite lookup_insert_ne by done.
Qed.

Lemma set_data_ok l n b c : cache_ok c -> heap c !! l = Some n -> zlen b = cs ->
  cache_ok (set_heap (<[l := node_data b n]> (heap c)) c).
Proof.
  intros [H1 H2 H3 H4 H5 H6 H7 H8 H9 H10 H11] Hl Hb.
  assert (forall l' m, <[l := node_data b n]> (heap c) !! l' = Some m ->
    exists m', heap c !! l' = Some m' /\ cluster_id m = cluster_id m' /\ state m = state m') as Hlook.
  { intros l' m. destruct (decide (l' = l)) as [-> | Hne].
    - rewrite lookup_insert_eq. intros [= <-]. by exists n.
    - rewrite lookup_insert_ne by done. eauto. }
  split; cbn [set_heap heap lru idle root_of_lru_index dirty]; try done.
  - intros l' Hl'. destruct (H2 l' Hl') as (m & Hm & Hlen). destruct (decide (l' = l)) as [-> | Hne].
    + rewrite lookup_insert_eq. by eexists.
    + rewrite lookup_insert_ne by done. eauto.
  - eapply search_tree_ids; [|exact H3]. intros x _. by eapply leaf_id_insert.
  - intros l' m Hin (m' & Hm' & _ & ->)%Hlook. by eapply H5.
  - intros l' m Hin (m' & Hm' & _ & ->)%Hlook. by eapply H6.
  - intros l1 l2 n1 n2 Hi1 Hi2 (m1 & Hm1 & -> & _)%Hlook (m2 & Hm2 & -> & _)%Hlook. by apply H7.
  - intros l'. rewrite H9. split; intros (Hin & m & Hm & Hst); (split; [done |]).
    + destruct (decide (l' = l)) as [-> | Hne].
      * rewrite Hl in Hm. injection Hm as ->. rewrite lookup_insert_eq. by eexists.
      * rewrite lookup_insert_ne by done. eauto.
    + apply Hlook in Hm as (m' & Hm' & _ & E). exists m'. split; [done | congruence].
Qed.

(** A block of the lru list becomes dirty. *)
Lemma push_dirty_ok l n c : cache_ok c -> l ∈ lru c -> heap c !! l = Some n ->
  exists c', __evfs_cache_push_dirty l c = Some c' /\ cache_ok c' /\
    heap c' = <[l := node_state kEvfsCacheBlockDirty n]> (heap c) /\ lru c' = lru c /\
    cache_block_num c' = cache_block_num c.
Proof.
  intros Hc Hl Hn. unfold __evfs_cache_push_dirty. rewrite Hn. cbn [mbind option_bind].
  destruct (decide (state n = kEvfsCacheBlockDirty)) as [Hd | Hd].
  { exists c. split; [done |]. split; [done |]. split; [|done]. symmetry. apply insert_id.
    rewrite Hn. f_equal. destruct n. cbn in Hd. by subst. }
  eexists. split; [reflexivity |]. split; [|done]. change (CacheNode _ _ _) with (node_state kEvfsCacheBlockDirty n).
  pose proof (co_lru _ Hc l n Hl Hn) as Hi.
  assert (l ∉ dirty c) as Hld.
  { rewrite (co_dirty _ Hc). intros (_ & m & Hm & Hst). rewrite Hn in Hm. injection Hm as <-. done. }
  assert (l ∉ idle c) as Hli.
  { pose proof (co_nodup _ Hc) as Hnd. apply NoDup_app in Hnd as (_ & Hnd & _). by apply Hnd. }
  destruct Hc as [H1 H2 H3 H4 H5 H6 H7 H8 H9 (H10 & H11 & H12) H13].
  split; cbn [set_dirty set_heap heap lru idle root_of_lru_index dirty lru_count dirty_count idle_count cache_block_num]; try done.
  - intros l' Hl'. destruct (H2 l' Hl') as (m & Hm & Hlen). destruct (decide (l' = l)) as [-> | Hne].
    + rewrite lookup_insert_eq. rewrite Hn in Hm. injection Hm as ->. by eexists.
    + rewrite lookup_insert_ne by done. eauto.
  - eapply search_tree_ids; [|exact H3]. intros x _. by eapply leaf_id_insert.
  - intros l' m Hin. destruct (decide (l' = l)) as [-> | Hne].
    + rewrite lookup_insert_eq. by intros [= <-].
    + rewrite lookup_insert_ne by done. by apply H5.
  - intros l' m Hin. rewrite lookup_insert_ne by (intros ->; done). by apply H6.
  - intros l1 l2 n1 n2 Hi1 Hi2. rewrite !lookup_insert. repeat case_decide; subst; try done.
    + intros [= <-] Hm2. by apply (H7 l1 l2 n n2).
    + intros Hm1 [= <-]. by apply (H7 l1 l2 n1 n).
    + by apply H7.
  - apply NoDup_app. split; [done |]. split; [|apply NoDup_singleton]. intros l' Hin ->%list_elem_of_singleton. done.
  - intros l'. rewrite elem_of_app, H9, list_elem_of_singleton. destruct (decide (l' = l)) as [-> | Hne].
    + rewrite lookup_insert_eq. split; [|by right]. intros _. split; [done | by eexists].
    + rewrite lookup_insert_ne by done. naive_solver.
  - split; [done |]. split; [|done]. rewrite H11, zlen_app. done.
Qed.

(** What the client sees after a write to a block of the lru list. *)
Lemma refines_write a l n b c c' d : cache_ok c -> refines a c d -> l ∈ lru c -> heap c !! l = Some n ->
  heap c' = <[l := CacheNode (cluster_id n) kEvfsCacheBlockDirty b]> (heap c) -> (forall l', l' ∈ lru c' <-> l' ∈ lru c) ->
  refines (fun i => if decide (i = cluster_id n) then Some b else a i) c' d.
Proof.
  intros Hc [R1 R2 R3] Hl Hn E Hlru. split; rewrite ?E.
  - intros l' m Hin%Hlru. destruct (decide (l' = l)) as [-> | Hne].
    + rewrite lookup_insert_eq. intros [= <-]. cbn [cluster_id state]. split; [by apply (R1 l n) | done].
    + rewrite lookup_insert_ne by done. by apply R1.
  - intros l' m Hin%Hlru. destruct (decide (l' = l)) as [-> | Hne].
    + rewrite lookup_insert_eq. intros [= <-]. cbn [cluster_id data]. by rewrite decide_True.
    + rewrite lookup_insert_ne by done. intros Hm. rewrite decide_False; [by apply (R2 l') |].
      intros Hid. apply Hne. by apply (co_ids _ Hc l' l m n).
  - intros id Hid. rewrite decide_False.
    + apply R3. intros l' m Hin Hm. destruct (decide (l' = l)) as [-> | Hne].
      * rewrite Hn in Hm. injection Hm as <-. by apply (Hid l (CacheNode (cluster_id n) kEvfsCacheBlockDirty b));
          [apply Hlru | rewrite lookup_insert_eq].
      * apply (Hid l'); [by apply Hlru | by rewrite lookup_insert_ne].
    + intros ->. by apply (Hid l (CacheNode (cluster_id n) kEvfsCacheBlockDirty b));
        [apply Hlru | rewrite lookup_insert_eq |].
Qed.

(** Taking an idle block. *)
Lemma pop_idle_ok c : cache_ok c ->
  (exists l c', __evfs_cache_pop_idle c = (Some l, c') /\ cache_ok c' /\ detached l c' /\
     lru c' = lru c /\ heap c' = heap c /\ cache_block_num c' = cache_block_num c) \/
  (__evfs_cache_pop_idle c = (None, c) /\ idle c = []).
Proof.
  intros Hc. unfold __evfs_cache_pop_idle. destruct (idle c) as [|l q] eqn:E; [by right | left].
  do 2 eexists. split; [reflexivity |].
  pose proof Hc as [H1 H2 H3 H4 H5 H6 H7 H8 H9 (H10 & H11 & H12) H13]. rewrite E in *.
  apply NoDup_app in H1 as (N1 & N2 & N3). apply NoDup_cons in N3 as [N3 N4].
  split; [|split; [|done]].
  - split; cbn [set_idle heap lru idle root_of_lru_index dirty lru_count dirty_count idle_count cache_block_num]; try done.
    + apply NoDup_app. split; [done |]. split; [|done]. intros x Hx Hq. apply (N2 x Hx). by constructor.
    + intros l' Hl'. apply H2. apply elem_of_app. apply elem_of_app in Hl' as [? | ?]; [by left | right; by constructor].
    + intros l' m Hin. apply H6. by constructor.
    + split; [done |]. split; [done |]. rewrite H12, zlen_cons. lia.
  - split; [|split; [exact N3 |]].
    + intros Hin. apply (N2 l Hin). constructor.
    + destruct (H2 l) as (n & Hn & Hlen); [apply elem_of_app; right; constructor |]. exists n. split; [done |].
      split; [done |]. rewrite (H6 l n); [done | constructor | done].
Qed.

Lemma not_dirty_detached l c : cache_ok c -> detached l c -> l ∉ dirty c.
Proof. intros Hc (Hl & _) Hd. apply (co_dirty _ Hc) in Hd as [? _]. done. Qed.

(** A block outside the lists may change. *)
Lemma set_detached_ok l n c : cache_ok c -> detached l c -> zlen (data n) = cs ->
  cache_ok (set_heap (<[l := n]> (heap c)) c) /\
  (state n <> kEvfsCacheBlockDirty -> detached l (set_heap (<[l := n]> (heap c)) c)).
Proof.
  intros Hc Hd Hlen. pose proof Hd as (Hl & Hi & _).
  assert (forall l', l' ∈ lru c ++ idle c -> <[l := n]> (heap c) !! l' = heap c !! l') as Hlook.
  { intros l' Hin. apply lookup_insert_ne. intros ->. apply elem_of_app in Hin as [? | ?]; done. }
  assert (forall l', l' ∈ lru c -> <[l := n]> (heap c) !! l' = heap c !! l') as Hlook1.
  { intros l' Hin. apply Hlook, elem_of_app. by left. }
  split; [|intros Hst; split; [done | split; [done |]]].
  - destruct Hc as [H1 H2 H3 H4 H5 H6 H7 H8 H9 H10 H11].
    split; cbn [set_heap heap lru idle root_of_lru_index dirty]; try done.
    + intros l' Hin. rewrite Hlook by done. by apply H2.
    + eapply search_tree_ids; [|exact H3]. intros x Hx. rewrite H4 in Hx.
      apply list_elem_of_fmap in Hx as (l' & -> & Hin). cbn. by rewrite Hlook1.
    + intros l' m Hin. rewrite Hlook1 by done. by apply H5.
    + intros l' m Hin. rewrite Hlook by (apply elem_of_app; by right). by apply H6.
    + intros l1 l2 n1 n2 Hi1 Hi2. rewrite !Hlook1 by done. by apply H7.
    + intros l'. rewrite H9. split; intros [Hin Hm]; (split; [done |]); by rewrite Hlook1 in *.
  - exists n. cbn [set_heap heap]. by rewrite lookup_insert_eq.
Qed.

Lemma refines_detached a l n c d : detached l c -> refines a c d ->
  refines a (set_heap (<[l := n]> (heap c)) c) d.
Proof.
  intros (Hl & _) [R1 R2 R3].
  assert (forall l', l' ∈ lru c -> <[l := n]> (heap c) !! l' = heap c !! l') as Hlook
    by (intros l' Hin; apply lookup_insert_ne; by intros ->).
  split; cbn [set_heap heap lru].
  - intros l' m Hin. rewrite Hlook by done. by apply R1.
  - intros l' m Hin. rewrite Hlook by done. by apply R2.
  - intros id Hid. apply R3. intros l' m Hin Hm. apply (Hid l'); [done |]. by rewrite Hlook.
Qed.

Lemma refines_disk a c d d' : (forall i, clusters d' i = clusters d i /\ lost d' i = lost d i) ->
  refines a c d -> refines a c d'.
Proof.
  intros E [R1 R2 R3]. split.
  - intros l n Hin Hn. rewrite !(proj1 (E _)), (proj2 (E _)). by apply (R1 l).
  - done.
  - intros id Hid. rewrite (proj1 (E _)). by apply R3.
Qed.

(** A block goes back to the idle ones. *)
Lemma push_idle_ok a l c d : cache_ok c -> detached l c -> refines a c d ->
  exists c', __evfs_cache_push_idle l c = Some c' /\ cache_ok c' /\ refines a c' d /\
    lru c' = lru c /\ cache_block_num c' = cache_block_num c.
Proof.
  intros Hc Hd Hr. pose proof Hd as (Hl & Hi & n & Hn & Hlen & _). unfold __evfs_cache_push_idle. rewrite Hn.
  cbn [mbind option_bind]. eexists. split; [reflexivity |].
  set (n' := CacheNode 0 kEvfsCacheBlockIdle (data n)).
  destruct (set_detached_ok l n' c Hc Hd Hlen) as [Hc1 _].
  split; [|split; [|done]].
  - destruct Hc1 as [H1 H2 H3 H4 H5 H6 H7 H8 H9 (H10 & H11 & H12) H13]. cbn [set_heap heap lru idle dirty root_of_lru_index] in *.
    split; cbn [set_idle set_heap heap lru idle root_of_lru_index dirty lru_count dirty_count idle_count cache_block_num]; try done.
    + rewrite app_assoc. apply NoDup_app. split; [done |]. split; [|apply NoDup_singleton].
      intros x Hx ->%list_elem_of_singleton. apply elem_of_app in Hx as [? | ?]; done.
    + intros l'. rewrite app_assoc, elem_of_app. intros [Hin | ->%list_elem_of_singleton]; [by apply H2 |].
      exists n'. by rewrite lookup_insert_eq.
    + intros l' m. rewrite elem_of_app. intros [Hin | ->%list_elem_of_singleton]; [by apply H6 |].
      rewrite lookup_insert_eq. by intros [= <-].
    + split; [done |]. split; [done |]. cbn [set_heap idle_count] in H12. rewrite H12, zlen_app. done.
  - by apply (refines_same a (set_heap (<[l := n']> (heap c)) c)), refines_detached.
Qed.

(** A block enters the lru list for a cluster that is not there. *)
Lemma attach_ok l n c1 c : cache_ok c -> detached l c -> zlen (data n) = cs -> state n <> kEvfsCacheBlockIdle ->
  cache_block_num c <> 0 ->
  (forall l' m, l' ∈ lru c -> heap c !! l' = Some m -> cluster_id m <> cluster_id n) ->
  c1 = (if decide (state n = kEvfsCacheBlockDirty)
        then set_dirty (dirty c ++ [l]) (dirty_count c + 1) (set_heap (<[l := n]> (heap c)) c)
        else set_heap (<[l := n]> (heap c)) c) ->
  exists c', __evfs_cache_push_lru l c1 = Some c' /\ cache_ok c' /\ lru c' = lru c ++ [l] /\
    heap c' = <[l := n]> (heap c) /\ cache_block_num c' = cache_block_num c.
Proof.
  intros Hc Hd Hlen Hst Hnum Hid ->. pose proof (not_dirty_detached l c Hc Hd) as Hnd.
  destruct (set_detached_ok l n c Hc Hd Hlen) as [Hc0 _]. pose proof Hd as (Hl & Hi & _).
  set (c0 := set_heap (<[l := n]> (heap c)) c) in *.
  pose proof (co_tree _ Hc0) as Ht.
  destruct (avlinsert_search_tree _ _ (Leaf l) Ht) as (t & Et & Ht' & El).
  assert (elems t ≡ₚ Leaf <$> lru c ++ [l]) as Hperm.
  { rewrite El, insert_sorted_perm.
    - rewrite (co_elems _ Hc0), fmap_app. cbn [fmap list_fmap]. by rewrite <- Permutation_cons_append.
    - intros x Hx Heq%compare_ids. apply (elem_index c0 x Hc0) in Hx as (l' & -> & Hin).
      assert (l' <> l) as Hne by (intros ->; done). cbn [leaf_id c0 set_heap heap lru] in *.
      rewrite lookup_insert_eq, lookup_insert_ne in Heq by done.
      destruct (lru_node c l' Hc Hin) as (m & Hm & _). rewrite Hm in Heq. cbn in Heq. by apply (Hid l' m). }
  pose proof (index_alive_ok c0 Hc0) as Halive.
  assert (exists c', __evfs_cache_push_lru l (if decide (state n = kEvfsCacheBlockDirty)
      then set_dirty (dirty c ++ [l]) (dirty_count c + 1) c0 else c0) = Some c' /\
    c' = set_lru t (lru c ++ [l]) (lru_count c + 1) (if decide (state n = kEvfsCacheBlockDirty)
      then set_dirty (dirty c ++ [l]) (dirty_count c + 1) c0 else c0)) as (c' & E & Ec').
  { eexists. split; [|reflexivity]. unfold __evfs_cache_push_lru.
    destruct (decide (state n = kEvfsCacheBlockDirty)).
    - change (index_alive (set_dirty _ _ c0)) with (index_alive c0). rewrite Halive.
      cbn [set_dirty root_of_lru_index heap]. rewrite Et. done.
    - rewrite Halive, Et. done. }
  exists c'. split; [done |].
  assert (lru c' = lru c ++ [l] /\ heap c' = <[l := n]> (heap c) /\ cache_block_num c' = cache_block_num c /\
    idle c' = idle c /\ root_of_lru_index c' = t /\ lru_count c' = lru_count c + 1 /\ idle_count c' = idle_count c)
    as (E1 & E2 & E3 & E4 & E5 & E6 & E7) by (rewrite Ec'; by case_decide).
  split; [|done].
  destruct Hc0 as [H1 H2 H3 H4 H5 H6 H7 H8 H9 (H10 & H11 & H12) H13].
  cbn [c0 set_heap heap lru idle dirty lru_count dirty_count idle_count root_of_lru_index] in *.
  split; rewrite ?E1, ?E2, ?E3, ?E4, ?E5; try done.
  - apply NoDup_app in H1 as (N1 & N2 & N3). apply NoDup_app. split; [|split; [|done]].
    + apply NoDup_app. split; [done |]. split; [|apply NoDup_singleton]. intros x Hx ->%list_elem_of_singleton. done.
    + intros x. rewrite elem_of_app. intros [Hx | ->%list_elem_of_singleton]; [by apply N2 | done].
  - intros l'. rewrite !elem_of_app. intros [[Hin | ->%list_elem_of_singleton] | Hin].
    + apply H2, elem_of_app. by left.
    + exists n. by rewrite lookup_insert_eq.
    + apply H2, elem_of_app. by right.
  - intros l' m. rewrite elem_of_app. intros [Hin | ->%list_elem_of_singleton]; [by apply H5 |].
    rewrite lookup_insert_eq. by intros [= <-].
  - intros l1 l2 n1 n2. rewrite !elem_of_app, !list_elem_of_singleton.
    intros [Hi1 | ->] [Hi2 | ->]; [by apply H7 | | |done].
    + rewrite lookup_insert_ne, lookup_insert_eq by (intros ->; done). intros Hm1 [= <-] He. by destruct (Hid l1 n1).
    + rewrite lookup_insert_eq, lookup_insert_ne by (intros ->; done). intros [= <-] Hm2 He. by destruct (Hid l2 n2).
  - rewrite Ec'. case_decide; cbn [set_lru set_dirty dirty]; [|done].
    apply NoDup_app. split; [done |]. split; [|apply NoDup_singleton]. intros x Hx ->%list_elem_of_singleton. done.
  - intros l'. rewrite elem_of_app, list_elem_of_singleton. rewrite Ec'.
    case_decide as Hdec; cbn [set_lru set_dirty dirty c0 set_heap]; rewrite ?elem_of_app, ?list_elem_of_singleton, H9.
    + split.
      * intros [[Hin Hm] | ->]; [by split; [left |] |]. split; [by right |]. exists n. by rewrite lookup_insert_eq.
      * intros [[Hin | ->] Hm]; [by left | by right].
    + split; [intros [Hin Hm]; split; [by left | done] |]. intros [[Hin | ->] Hm]; [done |].
      destruct Hm as (m & Hm & Hs). rewrite lookup_insert_eq in Hm. injection Hm as <-. done.
  - rewrite E6, E7, zlen_app, H10. split; [done |]. split; [|done]. rewrite Ec'.
    case_decide; cbn [set_lru set_dirty dirty dirty_count c0 set_heap]; [rewrite zlen_app, H11; done | done].
  - split; [apply H13 | done].
Qed.
End Invariant.

(** ** The operations *)
Section Operations.
Context {D : Type} (hard_read : Z -> list Z -> D -> option (Z * list Z * D))
  (hard_write : Z -> list Z -> D -> option (Z * D)) (hard_flush : D -> Z * D)
  (cs : Z) (valid : D -> Prop) (clusters : D -> Z -> option (list Z)) (lost : D -> Z -> bool)
  `{!HardDisk hard_read hard_write hard_flush cs valid clusters lost}.
Implicit Types (c : cache) (d : D) (l : nat) (n : evfs_cache_node) (a : Z -> option (list Z)).
#[local] Abbreviation cache_ok := (cache_ok cs).
#[local] Abbreviation detached := (detached cs).
#[local] Abbreviation refines := (refines clusters lost).

(** The disks with the same clusters; what is lost stays lost. *)
Definition same_clusters d d' : Prop :=
  forall i, (is_Some (clusters d' i) <-> is_Some (clusters d i)) /\ (lost d i = true -> lost d' i = true).

Lemma same_clusters_eq d d' : (forall i, clusters d' i = clusters d i /\ lost d' i = lost d i) -> same_clusters d d'.
Proof. intros E i. destruct (E i) as [-> ->]. done. Qed.
Lemma same_clusters_trans d1 d2 d3 : same_clusters d1 d2 -> same_clusters d2 d3 -> same_clusters d1 d3.
Proof. intros H1 H2 i. destruct (H1 i), (H2 i). split; [by etransitivity | auto]. Qed.
Lemma same_clusters_some d d' i b : same_clusters d d' -> clusters d i = Some b -> exists b', clusters d' i = Some b'.
Proof. intros Hs Hb. by apply (Hs i); eexists. Qed.
Lemma write_same_clusters d d' id : is_Some (clusters d id) ->
  (forall i, i <> id -> clusters d' i = clusters d i /\ lost d' i = lost d i) -> is_Some (clusters d' id) ->
  (lost d id = true -> lost d' id = true) -> same_clusters d d'.
Proof. intros H1 H2 H3 H4 i. destruct (decide (i = id)) as [-> | Hne]; [done |]. by destruct (H2 i Hne) as [-> ->]. Qed.

(** Two views that differ at most in what is lost. *)
Definition agrees d a a' : Prop := forall i, lost d i = false -> a' i = a i.
Lemma agrees_refl d a : agrees d a a.
Proof. by intros i. Qed.
Lemma agrees_later d d' a a' : same_clusters d d' -> agrees d a a' -> agrees d' a a'.
Proof. intros Hs Ha i Hi. apply Ha, not_true_iff_false. intros Hl. by rewrite (proj2 (Hs i) Hl) in Hi. Qed.
Lemma agrees_trans d a1 a2 a3 : agrees d a1 a2 -> agrees d a2 a3 -> agrees d a1 a3.
Proof. intros H1 H2 i Hi. by rewrite H2, H1. Qed.

Lemma refines_ext a a' c d : (forall i, a' i = a i) -> refines a c d -> refines a' c d.
Proof. intros E [R1 R2 R3]. split; [done | |]; intros; rewrite E; eauto. Qed.

(** Writing back a block. *)
Lemma flush_if_dirty_ok a l c d : cache_ok c -> refines a c d -> valid d -> l ∈ lru c ->
  exists c' d', __evfs_cache_flush_block_if_dirty hard_write l c d = Some (c', d') /\ cache_ok c' /\ refines a c' d' /\
    valid d' /\ same_clusters d d' /\ lru c' = lru c /\ cache_block_num c' = cache_block_num c /\
    dirty c' = filter (.≠ l) (dirty c) /\
    (forall n, heap c !! l = Some n -> lost d' (cluster_id n) = false -> clusters d' (cluster_id n) = Some (data n)).
Proof.
  intros Hc Hr Hv Hl. destruct (lru_node cs c l Hc Hl) as (n & Hn & Hlen). unfold __evfs_cache_flush_block_if_dirty.
  rewrite Hn. cbn [mbind option_bind]. pose proof (co_lru _ _ Hc l n Hl Hn) as Hi.
  destruct (rf_clean _ _ _ _ _ Hr l n Hl Hn) as [Hsome Hclean].
  destruct (decide (state n = kEvfsCacheBlockDirty)) as [Hd | Hd].
  2: { exists c, d. assert (state n = kEvfsCacheBlockClean) as Hcl by (by destruct (state n)).
    split_and!; try done.
    - symmetry. apply filter_all. intros x Hx E. rewrite E in Hx. apply (co_dirty _ _ Hc) in Hx as (_ & m & Hm & Hst).
      rewrite Hn in Hm. injection Hm as <-. done.
    - intros m [= <-]. by apply Hclean. }
  destruct (hd_write (cluster_id n) (data n) d Hv Hsome) as (r & d' & -> & Hv' & Hcl & Hsome' & Hw); [lia |].
  rewrite take_ge in Hw by (unfold zlen in Hlen; lia).
  assert (lost d' (cluster_id n) = false -> clusters d' (cluster_id n) = Some (data n)) as Hback.
  { intros Hl0. destruct Hw as [(_ & Hw & _) | [_ Hw]]; [done | congruence]. }
  cbn [mbind option_bind]. unfold set_node. rewrite Hn.
  cbn [mbind option_bind]. assert (l ∈ dirty c) as Hld by (apply (co_dirty _ _ Hc); eauto).
  cbn [set_heap dirty]. rewrite list_del_elem by done. cbn [mbind option_bind].
  do 2 eexists. split; [reflexivity |]. set (n' := node_state kEvfsCacheBlockClean n).
  assert (forall l' m, <[l := n']> (heap c) !! l' = Some m -> exists m', heap c !! l' = Some m' /\
    cluster_id m = cluster_id m' /\ data m = data m' /\ (l' <> l -> m = m') /\ (l' = l -> m = n')) as Hlook.
  { intros l' m. destruct (decide (l' = l)) as [-> | Hne].
    - rewrite lookup_insert_eq. intros [= <-]. exists n. by split_and!.
    - rewrite lookup_insert_ne by done. intros Hm. exists m. by split_and!. }
  split; [|split; [|split; [done |]]].
  - pose proof Hc as [H1 H2 H3 H4 H5 H6 H7 H8 H9 (H10 & H11 & H12) H13].
    split; cbn [set_dirty set_heap heap lru idle root_of_lru_index dirty lru_count dirty_count idle_count cache_block_num]; try done.
    + intros l' Hin. destruct (H2 l' Hin) as (m & Hm & Hml). destruct (decide (l' = l)) as [-> | Hne].
      * rewrite lookup_insert_eq. by exists n'.
      * rewrite lookup_insert_ne by done. eauto.
    + eapply search_tree_ids; [|exact H3]. intros x _. by eapply leaf_id_insert.
    + intros l' m Hin Hm. destruct (Hlook l' m Hm) as (m' & Hm' & _ & _ & Hne & Heq).
      destruct (decide (l' = l)) as [-> | Hn']; [by rewrite (Heq eq_refl) | rewrite (Hne Hn'); by apply (H5 l')].
    + intros l' m Hin. rewrite lookup_insert_ne; [by apply H6 |]. intros ->.
      apply NoDup_app in H1 as (_ & Hnd & _). by apply (Hnd l').
    + intros l1 l2 n1 n2 Hi1 Hi2 (m1 & Hm1 & -> & _)%Hlook (m2 & Hm2 & -> & _)%Hlook. by apply H7.
    + by apply NoDup_filter.
    + intros l'. rewrite elem_of_del, H9. split.
      * intros (Hne & Hin & Hm). split; [done |]. by rewrite lookup_insert_ne.
      * intros (Hin & m & Hm & Hst). destruct (Hlook l' m Hm) as (m' & Hm' & _ & _ & Hne & Heq).
        destruct (decide (l' = l)) as [-> | Hn']; [by rewrite (Heq eq_refl) in Hst |].
        split; [done |]. split; [done |]. exists m'. split; [done |]. by rewrite <- (Hne Hn').
    + split; [done |]. split; [|done]. rewrite H11. symmetry. by apply zlen_del.
  - destruct Hr as [R1 R2 R3]. split; cbn [set_dirty set_heap heap lru].
    + intros l' m Hin Hm. destruct (Hlook l' m Hm) as (m' & Hm' & -> & -> & Hne & Heq).
      destruct (decide (l' = l)) as [-> | Hn'].
      * rewrite Hn in Hm'. injection Hm' as <-. by split.
      * destruct (Hcl (cluster_id m')) as [-> ->]; [intros E; apply Hn'; by apply (co_ids _ _ Hc l' l m' n) |].
        rewrite (Hne Hn') in *. by apply (R1 l').
    + intros l' m Hin (m' & Hm' & -> & -> & _)%Hlook. by apply (R2 l').
    + intros id Hid. destruct (Hcl id) as [-> _].
      * intros ->. apply (Hid l n'); [done | by rewrite lookup_insert_eq | done].
      * apply R3. intros l' m Hin Hm <-. destruct (decide (l' = l)) as [-> | Hn'].
        -- rewrite Hn in Hm. injection Hm as <-. apply (Hid l n'); [done | by rewrite lookup_insert_eq | done].
        -- apply (Hid l' m); [done | by rewrite lookup_insert_ne | done].
  - split.
    { apply (write_same_clusters d d' (cluster_id n)); try done. destruct Hw as [(_ & _ & ->) | [_ ->]]; done. }
    split; [done |]. split; [done |]. split; [done |]. by intros m [= <-].
Qed.

(** The front of the lru list leaves it: its block is not dirty any more.  What the
    client sees of its cluster is now the disk. *)
Lemma detach_ok a l n q t c d : cache_ok c -> refines a c d -> lru c = l :: q -> l ∉ dirty c ->
  heap c !! l = Some n -> (lost d (cluster_id n) = false -> clusters d (cluster_id n) = Some (data n)) ->
  search_tree (__evfs_cache_compare_by_cluster_id (heap c)) t -> elems t ≡ₚ Leaf <$> q ->
  let c' := set_lru t q (lru_count c - 1) c in cache_ok c' /\ detached l c' /\
    exists a', agrees d a a' /\ refines a' c' d.
Proof.
  intros Hc [R1 R2 R3] E Hld Hn Hdisk Ht Hel c'. pose proof Hc as [H1 H2 H3 H4 H5 H6 H7 H8 H9 (H10 & H11 & H12) H13].
  assert (forall l', l' ∈ q -> l' ∈ lru c) as Hsub by (intros l' Hin; rewrite E; by constructor).
  rewrite E in H1. cbn [app] in H1. apply NoDup_cons in H1 as [N1 N2].
  assert (l ∉ q) as Hlq by (intros Hin; apply N1, elem_of_app; by left).
  assert (forall l', l' ∈ lru c -> l' = l \/ l' ∈ q) as Hcase by (intros l'; rewrite E; by intros ?%elem_of_cons).
  split; [|split].
  - split; cbn [c' set_lru heap lru idle root_of_lru_index dirty lru_count dirty_count idle_count cache_block_num]; try done.
    + intros l' Hin. apply H2. apply elem_of_app. apply elem_of_app in Hin as [? | ?]; [left; by apply Hsub | by right].
    + intros l' m Hin. apply H5. by apply Hsub.
    + intros l1 l2 n1 n2 Hi1 Hi2. apply H7; by apply Hsub.
    + intros l'. rewrite H9. split; intros [Hin Hm]; (split; [|done]); [|by apply Hsub].
      destruct (Hcase l' Hin) as [-> | ?]; [|done]. exfalso. apply Hld. by apply H9.
    + rewrite H10, E, zlen_cons. split; [lia | done].
    + split; [apply H13 |]. intros Hz. apply H13 in Hz. by rewrite E in Hz.
  - split; [exact Hlq |]. split.
    + cbn. intros Hin. apply N1, elem_of_app. by right.
    + cbn. destruct (H2 l) as (m & Hm & Hlen); [rewrite E; constructor |]. exists m. split; [done |]. split; [done |].
      intros Hst. apply Hld, H9. split; [rewrite E; constructor | by exists m].
  - exists (fun i => if decide (i = cluster_id n) then clusters d i else a i). split.
    { intros i Hi. case_decide; [|done]. subst i. rewrite (Hdisk Hi). symmetry. apply (R2 l); [rewrite E; constructor | done]. }
    split; cbn [c' set_lru heap lru].
    + intros l' m Hin. apply R1. by apply Hsub.
    + intros l' m Hin Hm. rewrite decide_False; [apply (R2 l'); [by apply Hsub | done] |]. intros Eid.
      assert (l' = l) as ->; [|done]. apply (H7 l' l m n); [by apply Hsub | rewrite E; constructor | done..].
    + intros id Hid. case_decide as Hne; [done |].
      * apply R3. intros l' m Hin Hm. destruct (Hcase l' Hin) as [-> | ?]; [congruence | by apply (Hid l')].
Qed.

Lemma flush_set_lru t q k l c d :
  __evfs_cache_flush_block_if_dirty hard_write l (set_lru t q k c) d
  = ('(c', d') ← __evfs_cache_flush_block_if_dirty hard_write l c d; Some (set_lru t q k c', d')).
Proof.
  unfold __evfs_cache_flush_block_if_dirty, set_node. cbn [set_lru heap].
  destruct (heap c !! l) as [n|]; [|done]. cbn [mbind option_bind]. case_decide; [|done].
  destruct (hard_write _ _ _) as [[r d']|]; [|done]. cbn [mbind option_bind set_heap set_lru dirty].
  by destruct (list_del l (dirty c)).
Qed.

(** Taking the block that was used longest ago, and writing it back. *)
Lemma pop_flush_ok a c d : cache_ok c -> refines a c d -> valid d ->
  __evfs_cache_pop_lru c = Some (None, c) /\ lru c = [] \/
  exists l c1 c2 d2 a2, __evfs_cache_pop_lru c = Some (Some l, c1) /\
    __evfs_cache_flush_block_if_dirty hard_write l c1 d = Some (c2, d2) /\
    cache_ok c2 /\ detached l c2 /\ agrees d2 a a2 /\ refines a2 c2 d2 /\ valid d2 /\ same_clusters d d2 /\
    cache_block_num c2 = cache_block_num c /\ (forall l', l' ∈ lru c2 -> l' ∈ lru c) /\
    (forall l' m, l' ∈ lru c2 -> heap c2 !! l' = Some m ->
       exists m', heap c !! l' = Some m' /\ cluster_id m' = cluster_id m).
Proof.
  intros Hc Hr Hv. unfold __evfs_cache_pop_lru. destruct (lru c) as [|l q] eqn:E; [by left | right].
  rewrite (index_alive_ok cs c Hc).
  destruct (index_remove (heap c) (root_of_lru_index c) l q) as (t & rm & -> & Ht & Hel').
  { apply (co_tree _ _ Hc). }
  { rewrite <- E. apply (co_elems _ _ Hc). }
  { rewrite <- E. by destruct (proj1 (NoDup_app _ _) (co_nodup _ _ Hc)) as (? & _). }
  { rewrite <- E. intros l' Hin. destruct (lru_node cs c l' Hc Hin) as (n & -> & _). by eexists. }
  { rewrite <- E. apply (co_ids _ _ Hc). }
  cbn [mbind option_bind]. assert (l ∈ lru c) as Hl by (rewrite E; constructor).
  destruct (flush_if_dirty_ok a l c d Hc Hr Hv Hl) as (c' & d' & Ef & Hc' & Hr' & Hv' & Hsame & Hlru & Hnum & Hdirty & Hdisk).
  destruct (lru_node cs c l Hc Hl) as (n & Hn & Hlen). specialize (Hdisk n Hn).
  assert (forall l', leaf_id (heap c') (Leaf l') = leaf_id (heap c) (Leaf l') /\
    (forall m, heap c' !! l' = Some m -> exists m', heap c !! l' = Some m' /\ cluster_id m' = cluster_id m /\ data m' = data m)) as Hids.
  { intros l'. revert Ef. unfold __evfs_cache_flush_block_if_dirty. rewrite Hn. cbn [mbind option_bind].
    case_decide; [|intros [= <- _]; split; eauto].
    destruct (hard_write _ _ _) as [[r d0]|]; [|done]. cbn [mbind option_bind]. unfold set_node. rewrite Hn.
    cbn [mbind option_bind]. destruct (list_del _ _); [|done]. cbn [mbind option_bind]. intros [= <- _].
    cbn [set_dirty set_heap heap]. split; [by eapply leaf_id_insert |]. intros m.
    destruct (decide (l' = l)) as [-> | Hne].
    - rewrite lookup_insert_eq. intros [= <-]. by exists n.
    - rewrite lookup_insert_ne by done. eauto. }
  destruct (lru_node cs c' l Hc') as (n' & Hn' & _); [by rewrite Hlru |].
  destruct (proj2 (Hids l) n' Hn') as (m0 & Hm0 & Eid & Edata). rewrite Hn in Hm0. injection Hm0 as <-.
  destruct (detach_ok a l n' q t c' d' Hc' Hr') as (Hok & Hdet & a2 & Hag & Hre).
  { by rewrite Hlru. }
  { rewrite Hdirty. intros [? _]%elem_of_del. done. }
  { done. }
  { by rewrite <- Eid, <- Edata. }
  { eapply search_tree_ids; [|exact Ht]. intros x Hx. rewrite Hel' in Hx. apply list_elem_of_fmap in Hx as (l' & -> & _).
    apply Hids. }
  { done. }
  exists l. do 3 eexists. exists a2. split; [reflexivity |]. rewrite flush_set_lru, Ef. cbn [mbind option_bind].
  assert (lru_count c' = lru_count c) as Ecnt.
  { rewrite (proj1 (co_counts _ _ Hc')), (proj1 (co_counts _ _ Hc)). by rewrite Hlru. }
  rewrite Ecnt in *. split; [reflexivity |]. split; [done |]. split; [done |]. split; [done |]. split; [done |]. split; [done |]. split; [done |].
  split; [done |]. cbn [set_lru lru heap]. split.
  - intros l' Hin. by constructor.
  - intros l' m _ Hm. destruct (proj2 (Hids l') m Hm) as (m' & ? & ? & _). eauto.
Qed.

(** A disk whose reads do not fail. *)
Definition reads_work : Prop := forall id buf d b r buf' d', valid d -> clusters d id = Some b -> cs <= zlen buf ->
  hard_read id buf d = Some (r, buf', d') -> 0 <= r.

Lemma load_block_ok a id b l c d : cache_ok c -> detached l c -> refines a c d -> valid d -> clusters d id = Some b ->
  exists r c' d', load_block hard_read id l c d = Some (r, c', d') /\ cache_ok c' /\ detached l c' /\ refines a c' d' /\
    valid d' /\ (forall i, clusters d' i = clusters d i /\ lost d' i = lost d i) /\ lru c' = lru c /\
    (forall l', l' ∈ lru c -> heap c' !! l' = heap c !! l') /\ cache_block_num c' = cache_block_num c /\
    (r < 0 /\ ~ reads_work \/ r = NSP_STATUS_SUCCESSFUL /\ exists n, heap c' !! l = Some n /\ data n = b).
Proof.
  intros Hc Hd Hr Hv Hb. pose proof Hd as (Hl & Hi & n & Hn & Hlen & Hst). unfold load_block. rewrite Hn. cbn [mbind option_bind].
  destruct (hd_read id (data n) d b Hv Hb) as (r & buf & d' & E & Hv' & Hcl & Hbl & Hres); [lia |].
  assert (r < 0 -> ~ reads_work) as Hno by (intros Hneg Hrw; pose proof (Hrw id (data n) d b r buf d' Hv Hb ltac:(lia) E); lia).
  rewrite E. cbn [mbind option_bind]. unfold set_node. rewrite Hn. cbn [mbind option_bind].
  destruct (set_detached_ok cs l (node_data buf n) c Hc Hd) as [Hc' Hd']; [cbn; lia |].
  do 3 eexists. split; [reflexivity |]. split; [done |]. split; [by apply Hd' |].
  split; [apply (refines_disk _ _ a _ d); [done | by eapply refines_detached] |]. split; [done |]. split; [done |]. split; [done |].
  split; [|split; [done |]].
  - intros l' Hin. cbn [set_heap heap]. apply lookup_insert_ne. by intros <-.
  - destruct Hres as [? | [-> ->]]; [left; auto | right]. split; [done |]. eexists. cbn [set_heap heap].
    rewrite lookup_insert_eq. split; [reflexivity |]. cbn [node_data data]. apply write_at_all.
    rewrite (hd_len d id b Hv Hb). lia.
Qed.

Lemma set_node_twice l n f g c : heap c !! l = Some n ->
  (c ← set_node l f c; set_node l g c) = Some (set_heap (<[l := g (f n)]> (heap c)) c).
Proof.
  intros Hn. unfold set_node. rewrite Hn. cbn [mbind option_bind set_heap heap]. rewrite lookup_insert_eq.
  cbn [mbind option_bind]. unfold set_heap. cbn. by rewrite insert_insert_eq.
Qed.

(** The loaded block becomes the clean block of its cluster. *)
Lemma enter_read_ok a id b offset length l n c d : cache_ok c -> detached l c -> refines a c d -> valid d ->
  clusters d id = Some b -> heap c !! l = Some n -> data n = b -> cache_block_num c <> 0 ->
  (forall l' m, l' ∈ lru c -> heap c !! l' = Some m -> cluster_id m <> id) ->
  0 <= offset -> 0 <= length -> offset + length <= cs ->
  exists c', enter_read id offset length l c = Some (NSP_STATUS_SUCCESSFUL, Some (read_at offset length b), c') /\
    cache_ok c' /\ refines a c' d /\ cache_block_num c' = cache_block_num c.
Proof.
  intros Hc Hd Hr Hv Hb Hn Hdata Hnum Hid Ho Hlen Hle. unfold enter_read.
  set (n' := node_state kEvfsCacheBlockClean (node_id id n)).
  assert (zlen b = cs) as Hbl by (by eapply hd_len).
  destruct (attach_ok cs l n' (set_heap (<[l := n']> (heap c)) c) c Hc Hd) as (c' & E & Hc' & Hlru & Hheap & Hnum');
    [cbn; by rewrite Hdata | done | done | done | done |].
  assert (forall (k : cache -> option (Z * option (list Z) * cache)),
    (c ← set_node l (node_id id) c; c ← set_node l (node_state kEvfsCacheBlockClean) c; k c)
    = k (set_heap (<[l := n']> (heap c)) c)) as ->.
  { intros k. pose proof (set_node_twice l n (node_id id) (node_state kEvfsCacheBlockClean) c Hn) as E2. revert E2.
    destruct (set_node l (node_id id) c) as [c1|]; [|done]. cbn [mbind option_bind]. by intros ->. }
  cbn [set_heap heap]. rewrite lookup_insert_eq. cbn [mbind option_bind]. change (data n') with (data n).
  rewrite Hdata, memread_read by lia. cbn [mbind option_bind]. fold (set_heap (<[l := n']> (heap c)) c). rewrite E.
  cbn [mbind option_bind]. exists c'. split; [done |]. split; [done |]. split; [|done].
  pose proof Hd as (Hl & _). destruct Hr as [R1 R2 R3].
  assert (a id = Some b) as Ha by (rewrite <- Hb; by apply R3).
  split; rewrite ?Hlru, ?Hheap.
  - intros l' m. rewrite elem_of_app. intros [Hin | ->%list_elem_of_singleton].
    + rewrite lookup_insert_ne by (intros ->; done). by apply R1.
    + rewrite lookup_insert_eq. intros [= <-]. cbn. rewrite Hb, Hdata. split; [by eexists | done].
  - intros l' m. rewrite elem_of_app. intros [Hin | ->%list_elem_of_singleton].
    + rewrite lookup_insert_ne by (intros ->; done). by apply R2.
    + rewrite lookup_insert_eq. intros [= <-]. cbn. by rewrite Hdata.
  - intros i Hi. apply R3. intros l' m Hin Hm. apply (Hi l'); [apply elem_of_app; by left |].
    by rewrite lookup_insert_ne by (intros ->; done).
Qed.

(** Or the dirty block, after a write into it. *)
Lemma enter_write_ok a id b input offset l n c d : cache_ok c -> detached l c -> refines a c d -> valid d ->
  clusters d id = Some b -> heap c !! l = Some n -> data n = b -> state n <> kEvfsCacheBlockDirty -> cache_block_num c <> 0 ->
  (forall l' m, l' ∈ lru c -> heap c !! l' = Some m -> cluster_id m <> id) ->
  0 <= offset -> offset + zlen input <= cs ->
  exists c', enter_write id input offset l c = Some c' /\
    cache_ok c' /\ refines (fun i => if decide (i = id) then Some (write_at offset input b) else a i) c' d /\
    cache_block_num c' = cache_block_num c.
Proof.
  intros Hc Hd Hr Hv Hb Hn Hdata Hst Hnum Hid Ho Hle. pose proof (zlen_nonneg input) as Hi0.
  assert (zlen b = cs) as Hbl by (by eapply hd_len).
  set (b' := write_at offset input b). assert (zlen b' = cs) as Hb' by (unfold b'; rewrite write_at_len; lia).
  set (n' := CacheNode id kEvfsCacheBlockDirty b').
  destruct (attach_ok cs l n' (set_dirty (dirty c ++ [l]) (dirty_count c + 1) (set_heap (<[l := n']> (heap c)) c)) c Hc Hd)
    as (c' & E & Hc' & Hlru & Hheap & Hnum'); [done | done | done | done | done |].
  assert (enter_write id input offset l c = Some c') as ->.
  { unfold enter_write, set_node, __evfs_cache_push_dirty. rewrite Hn. cbn [mbind option_bind set_heap heap].
    rewrite lookup_insert_eq. cbn [mbind option_bind node_id data]. rewrite Hdata, memcpy_write by lia.
    cbn [mbind option_bind]. unfold set_heap. cbn. rewrite !insert_insert_eq, !lookup_insert_eq. cbn [mbind option_bind].
    cbn [node_data node_id state]. rewrite decide_False by done. cbn. rewrite insert_insert_eq. exact E. }
  exists c'. split; [done |]. split; [done |]. split; [|done].
  pose proof Hd as (Hl & _). destruct Hr as [R1 R2 R3]. split; rewrite ?Hlru, ?Hheap.
  - intros l' m. rewrite elem_of_app. intros [Hin | ->%list_elem_of_singleton].
    + rewrite lookup_insert_ne by (intros ->; done). by apply R1.
    + rewrite lookup_insert_eq. intros [= <-]. cbn. rewrite Hb. split; [by eexists | done].
  - intros l' m. rewrite elem_of_app. intros [Hin | ->%list_elem_of_singleton].
    + rewrite lookup_insert_ne by (intros ->; done). intros Hm.
      rewrite decide_False by (by apply (Hid l')). by apply (R2 l').
    + rewrite lookup_insert_eq. intros [= <-]. cbn. by rewrite decide_True.
  - intros i Hi. rewrite decide_False.
    + apply R3. intros l' m Hin Hm. apply (Hi l'); [apply elem_of_app; by left |].
      by rewrite lookup_insert_ne by (intros ->; done).
    + intros ->. apply (Hi l n'); [apply elem_of_app; right; by apply list_elem_of_singleton | by rewrite lookup_insert_eq | done].
Qed.

(** A buffer for the direct path holds at least a cluster. *)
Definition block_ok (block : option (list Z)) : Prop := forall buf, block = Some buf -> cs <= zlen buf.

Lemma refines_none a c d : refines a c d -> lru c = [] -> forall i, a i = clusters d i.
Proof. intros [_ _ R3] E i. apply R3. intros l n Hin. rewrite E in Hin. by apply not_elem_of_nil in Hin. Qed.

Lemma enter_id_ok id c c' : (forall l n, l ∈ lru c -> heap c !! l = Some n -> cluster_id n <> id) ->
  lru c' = lru c -> (forall l, l ∈ lru c -> heap c' !! l = heap c !! l) ->
  forall l n, l ∈ lru c' -> heap c' !! l = Some n -> cluster_id n <> id.
Proof. intros Hid E Hh l n Hin Hn. rewrite E in Hin. rewrite Hh in Hn by done. by apply (Hid l). Qed.

Lemma read_from_lru_ok a id offset length c d : cache_ok c -> refines a c d ->
  0 <= offset -> 0 <= length -> offset + length <= cs ->
  exists r out c', __evfs_cache_read_from_lru id offset length c = Some (r, out, c') /\ cache_ok c' /\ refines a c' d /\
    cache_block_num c' = cache_block_num c /\
    (r = NSP_STATUS_SUCCESSFUL /\ (exists b, a id = Some b /\ out = Some (read_at offset length b)) \/
     r < 0 /\ out = None /\ lru c' = lru c /\ heap c' = heap c /\ idle c' = idle c /\
       forall l n, l ∈ lru c -> heap c !! l = Some n -> cluster_id n <> id).
Proof.
  intros Hc Hr Ho Hlen Hle. unfold __evfs_cache_read_from_lru.
  destruct (search_ok cs id c Hc) as ([l|] & -> & Hs); cbn [mbind option_bind].
  - destruct Hs as [Hl (n & Hn & Hid)]. destruct (move_to_tail_ok cs l c Hc Hl) as (c1 & -> & Hc1 & Eh & El & En).
    cbn [mbind option_bind]. rewrite Eh, Hn. cbn [mbind option_bind].
    destruct (lru_node cs c l Hc Hl) as (m & Hm & Hml). rewrite Hn in Hm. injection Hm as <-.
    rewrite memread_read by lia. cbn [mbind option_bind]. do 3 eexists. split; [reflexivity |].
    split; [by apply count_ok |]. split; [by apply (refines_same _ _ a c) |]. split; [done |]. left. split; [done |].
    exists (data n). split; [|done]. rewrite <- Hid. by apply (rf_cached _ _ _ _ _ Hr l).
  - do 3 eexists. split; [reflexivity |]. split; [by apply count_ok |]. split; [by apply (refines_same _ _ a c) |].
    split; [done |]. by right.
Qed.

(** Loading into a detached block and entering it, or giving it back. *)
Lemma load_read_ok a id b offset length l c d : cache_ok c -> detached l c -> refines a c d -> valid d ->
  clusters d id = Some b -> cache_block_num c <> 0 ->
  (forall l' m, l' ∈ lru c -> heap c !! l' = Some m -> cluster_id m <> id) ->
  0 <= offset -> 0 <= length -> offset + length <= cs ->
  exists r c1 d1, load_block hard_read id l c d = Some (r, c1, d1) /\ valid d1 /\ same_clusters d d1 /\
    (r = NSP_STATUS_SUCCESSFUL /\ (exists c', enter_read id offset length l c1 = Some (NSP_STATUS_SUCCESSFUL, Some (read_at offset length b), c') /\
         cache_ok c' /\ refines a c' d1 /\ cache_block_num c' = cache_block_num c) \/
     (r < 0 /\ ~ reads_work) /\ exists c', __evfs_cache_push_idle l c1 = Some c' /\ cache_ok c' /\ refines a c' d1 /\
         cache_block_num c' = cache_block_num c /\ lru c' = lru c /\
         forall l', l' ∈ lru c -> heap c' !! l' = heap c !! l').
Proof.
  intros Hc Hd Hr Hv Hb Hnum Hid Ho Hlen Hle.
  destruct (load_block_ok a id b l c d Hc Hd Hr Hv Hb)
    as (r & c1 & d1 & -> & Hc1 & Hd1 & Hr1 & Hv1 & Hcl & Elru & Eheap & Enum & Hres).
  exists r, c1, d1. split; [done |]. split; [done |]. split; [by apply same_clusters_eq |].
  destruct Hres as [Hneg | (-> & n & Hn & Hdata)]; [right | left]; (split; [done |]).
  - destruct (push_idle_ok _ _ cs a l c1 d1 Hc1 Hd1 Hr1) as (c' & E & Hc' & Hr' & Elru' & Enum'). exists c'.
    split; [done |]. split; [done |]. split; [done |]. split; [congruence |]. split; [congruence |].
    intros l' Hin. rewrite <- Eheap by done. revert E. unfold __evfs_cache_push_idle.
    destruct (heap c1 !! l); [|done]. cbn [mbind option_bind]. intros [= <-]. cbn [set_idle set_heap heap].
    apply lookup_insert_ne. intros <-. by destruct Hd as (? & _).
  - destruct (enter_read_ok a id b offset length l n c1 d1 Hc1 Hd1 Hr1 Hv1) as (c' & E & Hc' & Hr' & En'); try done.
    + by rewrite (proj1 (Hcl id)).
    + by rewrite Enum.
    + by apply (enter_id_ok id c).
    + exists c'. split; [done |]. split; [done |]. split; [done | congruence].
Qed.

(** What the two reads behind a miss share. *)
Definition missing id c : Prop := forall l n, l ∈ lru c -> heap c !! l = Some n -> cluster_id n <> id.

Lemma success_neg r : r < 0 -> NSP_SUCCESS r = false.
Proof. apply Z.leb_gt. Qed.

Lemma read_from_idle_ok a id b offset length c d : cache_ok c -> refines a c d -> valid d ->
  clusters d id = Some b -> cache_block_num c <> 0 -> missing id c ->
  0 <= offset -> 0 <= length -> offset + length <= cs ->
  exists r out c' d', __evfs_cache_read_from_idle hard_read id offset length c d = Some (r, out, c', d') /\
    cache_ok c' /\ refines a c' d' /\ valid d' /\ same_clusters d d' /\ cache_block_num c' = cache_block_num c /\
    (r = NSP_STATUS_SUCCESSFUL /\ out = Some (read_at offset length b) \/
     r < 0 /\ missing id c' /\ (reads_work -> idle c = [] /\ lru c' = lru c)).
Proof.
  intros Hc Hr Hv Hb Hnum Hid Ho Hlen Hle. unfold __evfs_cache_read_from_idle.
  destruct (pop_idle_ok cs c Hc) as [(l & c1 & -> & Hc1 & Hd1 & El1 & Eh1 & En1) | [-> Ei]].
  2: { do 4 eexists. split; [reflexivity |]. split_and!; try done. by right. }
  destruct (load_read_ok a id b offset length l c1 d Hc1 Hd1) as (r & c2 & d2 & -> & Hv2 & Hs2 & Hres); try done.
  { apply (refines_same _ _ a c); [done | by rewrite El1 | done]. }
  { by rewrite En1. }
  { intros l' m. rewrite El1, Eh1. apply Hid. }
  cbn [mbind option_bind]. destruct Hres as [(-> & c' & E & Hc' & Hr' & En') | ([Hneg Hno] & c' & E & Hc' & Hr' & En' & El' & Eh')].
  - change (NSP_SUCCESS NSP_STATUS_SUCCESSFUL) with true. cbn match. rewrite E. cbn [mbind option_bind].
    do 4 eexists. split; [reflexivity |]. split_and!; try done; [congruence | by left].
  - rewrite success_neg, E by done. cbn [mbind option_bind]. do 4 eexists. split; [reflexivity |].
    split_and!; try done; [congruence |]. right. split; [done |]. split; [|done]. intros l' n Hin. rewrite El' in Hin.
    rewrite Eh', Eh1 by done. apply Hid. by rewrite <- El1.
Qed.

Lemma missing_pop id c c2 : missing id c ->
  (forall l' m, l' ∈ lru c2 -> heap c2 !! l' = Some m -> exists m', heap c !! l' = Some m' /\ cluster_id m' = cluster_id m) ->
  (forall l', l' ∈ lru c2 -> l' ∈ lru c) -> missing id c2.
Proof.
  intros Hid Hh Hl l n Hin Hn. destruct (Hh l n Hin Hn) as (m & Hm & <-). apply (Hid l m); [by apply Hl | done].
Qed.

Lemma replace_read_ok a id b offset length c d : cache_ok c -> refines a c d -> valid d ->
  clusters d id = Some b -> cache_block_num c <> 0 -> missing id c ->
  0 <= offset -> 0 <= length -> offset + length <= cs ->
  exists r out c' d' a', __evfs_cache_replace_read_from_lru hard_read hard_write id offset length c d = Some (r, out, c', d') /\
    cache_ok c' /\ agrees d' a a' /\ refines a' c' d' /\ valid d' /\ same_clusters d d' /\
    (r < 0 /\ out = None /\ (reads_work -> lru c = []) \/
     r = NSP_STATUS_SUCCESSFUL /\ exists b, a' id = Some b /\ out = Some (read_at offset length b)).
Proof.
  intros Hc Hr Hv Hb Hnum Hid Ho Hlen Hle. unfold __evfs_cache_replace_read_from_lru.
  destruct (pop_flush_ok a c d Hc Hr Hv)
    as [[-> El] | (l & c1 & c2 & d2 & a2 & -> & E & Hc2 & Hd2 & Hag & Hr2 & Hv2 & Hs2 & En2 & Hsub & Hids)]; cbn [mbind option_bind].
  { do 4 eexists. exists a. split; [reflexivity |]. split_and!; try done. by left. }
  rewrite E. cbn [mbind option_bind]. pose proof (missing_pop id c c2 Hid Hids Hsub) as Hid2.
  destruct (same_clusters_some _ _ _ _ Hs2 Hb) as [b2 Hb2].
  assert (a2 id = Some b2) as Ha2 by (rewrite <- Hb2; by apply (rf_rest _ _ _ _ _ Hr2)).
  destruct (load_read_ok a2 id b2 offset length l c2 d2 Hc2 Hd2) as (r & c3 & d3 & -> & Hv3 & Hs3 & Hres); try done.
  { by rewrite En2. }
  pose proof (agrees_later _ _ _ _ Hs3 Hag) as Hag3.
  pose proof (same_clusters_trans _ _ _ Hs2 Hs3) as Hs.
  cbn [mbind option_bind]. destruct Hres as [(-> & c' & E' & Hc' & Hr' & _) | ([Hneg Hno] & c' & E' & Hc' & Hr' & _)].
  - change (NSP_SUCCESS NSP_STATUS_SUCCESSFUL) with true. cbn match. rewrite E'. cbn [mbind option_bind].
    do 4 eexists. exists a2. split; [reflexivity |]. split_and!; try done. right. eauto.
  - rewrite success_neg, E' by done. cbn [mbind option_bind]. do 4 eexists. exists a2. split; [reflexivity |].
    split_and!; try done. by left.
Qed.

(** Requests can be served from the blocks there are, or from a buffer when the cache has
    none. *)
Definition stocked (block : option (list Z)) c : Prop :=
  (cache_block_num c = 0 /\ is_Some block) \/ (cache_block_num c <> 0 /\ lru c ++ idle c <> []).

(** Reading through the cache fails, or gives the bytes the client sees. *)
Lemma cache_read_ok a block id offset length c d : cache_ok c -> refines a c d -> valid d ->
  is_Some (clusters d id) -> block_ok block -> 0 <= offset -> 0 <= length -> offset + length <= cs ->
  exists r out c' d' a', __evfs_cache_read hard_read hard_write block id offset length c d = Some (r, out, c', d') /\
    cache_ok c' /\ agrees d' a a' /\ refines a' c' d' /\ valid d' /\ same_clusters d d' /\
    (r < 0 /\ out = None /\ ~ (reads_work /\ stocked block c) \/
     r = NSP_STATUS_SUCCESSFUL /\ exists b, a' id = Some b /\ out = Some (read_at offset length b)).
Proof.
  intros Hc Hr Hv [b Hb] Hblk Ho Hlen Hle. unfold __evfs_cache_read.
  destruct (Z.eqb_spec 0 (cache_block_num c)) as [H0 | H0].
  { pose proof (refines_none a c d Hr (proj2 (co_none _ _ Hc) (eq_sym H0))) as Ha. unfold __evfs_cache_read_harddisk.
    destruct block as [buf|].
    2: { cbn [mbind option_bind]. do 4 eexists. exists a. split; [reflexivity |]. split_and!; try done. left. split; [done |].
         split; [done |]. intros [_ [[_ [? ?]] | [? _]]]; [done | lia]. }
    pose proof (Hblk buf eq_refl) as Hbl. pose proof (hd_len d id b Hv Hb) as Hbb.
    destruct (hd_read id buf d b Hv Hb Hbl) as (r & buf' & d' & E & Hv' & Hcl & Hlb & Hres). rewrite E. cbn [mbind option_bind].
    destruct Hres as [Hneg | [-> ->]].
    - unfold NSP_SUCCESS. rewrite (proj2 (Z.leb_gt 0 r)) by done. do 4 eexists. exists a. split; [reflexivity |].
      split; [done |]. split; [done |]. split; [by apply (refines_disk _ _ a _ d) |]. split; [done |]. split; [by apply same_clusters_eq |].
      left. split; [done |]. split; [done |]. intros [Hrw _]. pose proof (Hrw id buf d b r buf' d' Hv Hb Hbl E). lia.
    - change (NSP_SUCCESS NSP_STATUS_SUCCESSFUL) with true. cbn match.
      rewrite memread_read by lia. cbn [mbind option_bind]. do 4 eexists. exists a. split; [reflexivity |].
      split; [done |]. split; [done |]. split; [by apply (refines_disk _ _ a _ d) |]. split; [done |]. split; [by apply same_clusters_eq |].
      right. split; [done |]. exists b. split; [by rewrite Ha |]. f_equal.
      rewrite write_at_in by (pose proof (zlen_nonneg buf); lia). change (Z.to_nat 0) with 0%nat. rewrite take_0. cbn [app].
      apply read_at_app_l; lia. }
  destruct (read_from_lru_ok a id offset length c d Hc Hr Ho Hlen Hle) as (r & out & c1 & -> & Hc1 & Hr1 & En1 & Hres).
  cbn [mbind option_bind]. destruct Hres as [(-> & b1 & Hb1 & ->) | (Hneg & -> & El1 & Eh1 & Ei1 & Hid)].
  { change (NSP_SUCCESS NSP_STATUS_SUCCESSFUL) with true. cbn match. do 4 eexists. exists a. split; [reflexivity |].
    split_and!; try done. right. eauto. }
  rewrite success_neg by done.
  assert (missing id c1) as Hid1 by (intros l n; rewrite El1, Eh1; apply Hid).
  destruct (read_from_idle_ok a id b offset length c1 d Hc1 Hr1 Hv Hb) as (r2 & out2 & c2 & d2 & -> & Hc2 & Hr2 & Hv2 & Hs2 & En2 & Hres2);
    [congruence | done.. |].
  cbn [mbind option_bind]. destruct Hres2 as [[-> ->] | (Hneg2 & Hid2 & Hidle)].
  { change (NSP_SUCCESS NSP_STATUS_SUCCESSFUL) with true. cbn match. do 4 eexists. exists a. split; [reflexivity |].
    split_and!; try done. right. split; [done |]. exists b. split; [|done]. rewrite <- Hb. by apply (rf_rest _ _ _ _ _ Hr). }
  rewrite success_neg by done. destruct (same_clusters_some _ _ _ _ Hs2 Hb) as [b2 Hb2].
  destruct (replace_read_ok a id b2 offset length c2 d2 Hc2 Hr2 Hv2) as (r3 & out3 & c3 & d3 & a3 & -> & Hc3 & Hag & Hr3 & Hv3 & Hs3 & Hres3); try done.
  { congruence. }
  do 4 eexists. exists a3. split; [reflexivity |]. split_and!; try done; [by eapply same_clusters_trans |].
  destruct Hres3 as [(? & ? & Hlru) | Hres3]; [left | by right]. split; [done |]. split; [done |].
  intros [Hrw [[? _] | [_ Hst]]]; [lia |]. destruct (Hidle Hrw) as [Ei El2]. rewrite <- El1, <- El2, (Hlru Hrw) in Hst.
  revert Hst. cbn [app]. by rewrite <- Ei1, Ei.
Qed.

(** ** Writing *)
(** A write succeeds and is seen, or fails and is not. *)
Definition write_result (r id offset : Z) (input : list Z) a c d : Prop :=
  r = NSP_STATUS_SUCCESSFUL /\ refines (written id offset input a) c d \/ r < 0 /\ refines a c d.

Lemma written_eq a id b offset input c d : a id = Some b ->
  refines (fun i => if decide (i = id) then Some (write_at offset input b) else a i) c d ->
  refines (written id offset input a) c d.
Proof. intros Ha. apply refines_ext. intros i. unfold written. case_decide; [|done]. subst. by rewrite Ha. Qed.

Lemma write_to_lru_ok a id input offset c d : cache_ok c -> refines a c d ->
  0 <= offset -> offset + zlen input <= cs ->
  exists r c', __evfs_cache_write_to_lru id input offset c = Some (r, c') /\ cache_ok c' /\
    cache_block_num c' = cache_block_num c /\
    (r = NSP_STATUS_SUCCESSFUL /\ refines (written id offset input a) c' d \/
     r < 0 /\ refines a c' d /\ missing id c' /\ lru c' = lru c /\ idle c' = idle c).
Proof.
  intros Hc Hr Ho Hle. pose proof (zlen_nonneg input) as Hi0. unfold __evfs_cache_write_to_lru.
  destruct (search_ok cs id c Hc) as ([l|] & -> & Hs); cbn [mbind option_bind].
  - destruct Hs as [Hl (n & Hn & Hid)]. destruct (move_to_tail_ok cs l c Hc Hl) as (c1 & -> & Hc1 & Eh & El & En).
    cbn [mbind option_bind]. rewrite Eh, Hn. cbn [mbind option_bind].
    destruct (lru_node cs c l Hc Hl) as (m & Hm & Hml). rewrite Hn in Hm. injection Hm as <-.
    rewrite memcpy_write by lia. cbn [mbind option_bind]. unfold set_node. rewrite Eh, Hn. cbn [mbind option_bind].
    set (b' := write_at offset input (data n)). assert (zlen b' = cs) as Hb' by (unfold b'; rewrite write_at_len; lia).
    rewrite <- Eh in Hn. pose proof (count_ok cs true _ (set_data_ok cs l n b' c1 Hc1 Hn Hb')) as Hc2. rewrite <- Eh.
    set (c2 := count true _) in *.
    destruct (push_dirty_ok cs l (node_data b' n) c2 Hc2) as (c3 & -> & Hc3 & Eh3 & El3 & En3).
    { cbn. by apply El. }
    { cbn. by rewrite lookup_insert_eq. }
    cbn [mbind option_bind]. do 2 eexists. split; [reflexivity |]. split; [done |]. split; [rewrite En3; exact En |].
    left. split; [done |]. apply (written_eq a id (data n)); [rewrite <- Hid; apply (rf_cached _ _ _ _ _ Hr l); [done | by rewrite <- Eh] |].
    subst id. apply (refines_write clusters lost cs a l n b' c c3 d Hc Hr Hl).
    + by rewrite <- Eh.
    + rewrite Eh3. cbn. by rewrite insert_insert_eq, Eh.
    + intros l'. rewrite El3. cbn. apply El.
  - do 2 eexists. split; [reflexivity |]. split; [by apply count_ok |]. split; [done |]. right.
    split; [done |]. split; [by apply (refines_same _ _ a c) | done].
Qed.

Lemma load_write_ok a id b input offset l c d : cache_ok c -> detached l c -> refines a c d -> valid d ->
  clusters d id = Some b -> cache_block_num c <> 0 -> missing id c -> a id = Some b ->
  0 <= offset -> offset + zlen input <= cs ->
  exists r c1 d1, load_block hard_read id l c d = Some (r, c1, d1) /\ valid d1 /\ same_clusters d d1 /\
    (r = NSP_STATUS_SUCCESSFUL /\ (exists c', enter_write id input offset l c1 = Some c' /\
         cache_ok c' /\ refines (written id offset input a) c' d1 /\ cache_block_num c' = cache_block_num c) \/
     (r < 0 /\ ~ reads_work) /\ cache_ok c1 /\ refines a c1 d1 /\ detached l c1 /\ cache_block_num c1 = cache_block_num c /\ missing id c1).
Proof.
  intros Hc Hd Hr Hv Hb Hnum Hid Ha Ho Hle.
  destruct (load_block_ok a id b l c d Hc Hd Hr Hv Hb)
    as (r & c1 & d1 & -> & Hc1 & Hd1 & Hr1 & Hv1 & Hcl & Elru & Eheap & Enum & Hres).
  assert (missing id c1) as Hid1 by exact (enter_id_ok id c c1 Hid Elru Eheap).
  exists r, c1, d1. split; [done |]. split; [done |]. split; [by apply same_clusters_eq |].
  destruct Hres as [Hneg | (-> & n & Hn & Hdata)]; [by right | left]. split; [done |].
  pose proof Hd1 as (_ & _ & n' & Hn' & _ & Hst). rewrite Hn in Hn'. injection Hn' as <-.
  destruct (enter_write_ok a id b input offset l n c1 d1 Hc1 Hd1 Hr1 Hv1) as (c' & E & Hc' & Hr' & En'); try done.
  - by rewrite (proj1 (Hcl id)).
  - by rewrite Enum.
  - exists c'. split; [done |]. split; [done |]. split; [by apply (written_eq a id b) | congruence].
Qed.

Lemma write_to_idle_ok a id b input offset c d : cache_ok c -> refines a c d -> valid d ->
  clusters d id = Some b -> cache_block_num c <> 0 -> missing id c -> a id = Some b ->
  0 <= offset -> offset + zlen input <= cs ->
  exists r c' d', __evfs_cache_write_to_idle hard_read id input offset c d = Some (r, c', d') /\
    cache_ok c' /\ valid d' /\ same_clusters d d' /\ cache_block_num c' = cache_block_num c /\
    (r = NSP_STATUS_SUCCESSFUL /\ refines (written id offset input a) c' d' \/
     r < 0 /\ refines a c' d' /\ missing id c' /\ (reads_work -> idle c = [] /\ lru c' = lru c)).
Proof.
  intros Hc Hr Hv Hb Hnum Hid Ha Ho Hle. unfold __evfs_cache_write_to_idle.
  destruct (pop_idle_ok cs c Hc) as [(l & c1 & -> & Hc1 & Hd1 & El1 & Eh1 & En1) | [-> Ei]].
  2: { do 3 eexists. split; [reflexivity |]. split_and!; try done. by right. }
  destruct (load_write_ok a id b input offset l c1 d Hc1 Hd1) as (r & c2 & d2 & -> & Hv2 & Hs2 & Hres); try done.
  { apply (refines_same _ _ a c); [done | by rewrite El1 | done]. }
  { by rewrite En1. }
  { intros l' m. rewrite El1, Eh1. apply Hid. }
  cbn [mbind option_bind]. destruct Hres as [(-> & c' & E & Hc' & Hr' & En') | ([Hneg Hno] & Hc' & Hr' & _ & En' & Hid')].
  - change (NSP_SUCCESS NSP_STATUS_SUCCESSFUL) with true. cbn match. rewrite E. cbn [mbind option_bind].
    do 3 eexists. split; [reflexivity |]. split_and!; try done; [congruence | by left].
  - rewrite success_neg by done. do 3 eexists. split; [reflexivity |]. split_and!; try done; [congruence | by right].
Qed.

Lemma replace_write_ok a id b input offset c d : cache_ok c -> refines a c d -> valid d ->
  clusters d id = Some b -> cache_block_num c <> 0 -> missing id c ->
  0 <= offset -> offset + zlen input <= cs ->
  exists r c' d' a', __evfs_cache_replace_write_to_lru hard_read hard_write id input offset c d = Some (r, c', d') /\
    cache_ok c' /\ valid d' /\ same_clusters d d' /\ agrees d' a a' /\ write_result r id offset input a' c' d' /\
    (r < 0 -> reads_work -> lru c = []).
Proof.
  intros Hc Hr Hv Hb Hnum Hid Ho Hle. unfold __evfs_cache_replace_write_to_lru.
  destruct (pop_flush_ok a c d Hc Hr Hv)
    as [[-> El] | (l & c1 & c2 & d2 & a2 & -> & E & Hc2 & Hd2 & Hag & Hr2 & Hv2 & Hs2 & En2 & Hsub & Hids)]; cbn [mbind option_bind].
  { do 3 eexists. exists a. split; [reflexivity |]. do 2 (split; [done |]). split; [by apply same_clusters_eq |].
    split; [done |]. split; [by right | done]. }
  rewrite E. cbn [mbind option_bind]. pose proof (missing_pop id c c2 Hid Hids Hsub) as Hid2.
  destruct (same_clusters_some _ _ _ _ Hs2 Hb) as [b2 Hb2].
  assert (a2 id = Some b2) as Ha2 by (rewrite <- Hb2; by apply (rf_rest _ _ _ _ _ Hr2)).
  destruct (load_write_ok a2 id b2 input offset l c2 d2 Hc2 Hd2) as (r & c3 & d3 & -> & Hv3 & Hs3 & Hres); try done.
  { by rewrite En2. }
  pose proof (same_clusters_trans _ _ _ Hs2 Hs3) as Hs. pose proof (agrees_later _ _ _ _ Hs3 Hag) as Hag3.
  cbn [mbind option_bind]. destruct Hres as [(-> & c' & E' & Hc' & Hr' & _) | ([Hneg Hno] & Hc3 & Hr3 & Hd3 & _)].
  - change (NSP_SUCCESS NSP_STATUS_SUCCESSFUL) with true. cbn match. rewrite E'. cbn [mbind option_bind].
    do 3 eexists. exists a2. split; [reflexivity |]. do 4 (split; [done |]). split; [by left | done].
  - destruct (push_idle_ok _ _ cs a2 l c3 d3 Hc3 Hd3 Hr3) as (c' & E' & Hc' & Hr' & _).
    rewrite success_neg, E' by done. cbn [mbind option_bind]. do 3 eexists. exists a2. split; [reflexivity |].
    do 4 (split; [done |]). split; [by right | done].
Qed.

(** A cache that holds nothing. *)
Lemma empty_view a c d : lru c = [] -> (forall i, a i = clusters d i) -> refines a c d.
Proof. intros E Ha. split; rewrite ?E; try (intros l n Hl; by apply not_elem_of_nil in Hl). by intros i _. Qed.

Lemma direct_write offset input (b buf : list Z) : zlen b = cs -> cs <= zlen buf -> 0 <= offset -> offset + zlen input <= cs ->
  take (Z.to_nat cs) (write_at offset input (write_at 0 b buf)) = write_at offset input b.
Proof.
  intros Hbb Hbl Ho Hle. pose proof (zlen_nonneg input).
  rewrite (write_at_in 0 b buf) by lia. change (Z.to_nat 0) with 0%nat. rewrite take_0. cbn [app].
  rewrite (write_at_in offset input (b ++ _)) by (rewrite zlen_app; pose proof (zlen_nonneg (drop (0 + length b) buf)); lia).
  rewrite (write_at_in offset input b) by lia. unfold zlen in *.
  rewrite (take_app_le b) by lia. rewrite (drop_app_le b) by lia.
  rewrite !app_assoc. apply take_app_length'. rewrite !length_app, length_take, length_drop. lia.
Qed.

Lemma write_harddisk_ok a block id b input offset c d : cache_ok c -> refines a c d -> valid d ->
  clusters d id = Some b -> cache_block_num c = 0 -> block_ok block -> 0 <= offset -> offset + zlen input <= cs ->
  exists r d' a', __evfs_cache_write_harddisk hard_read hard_write block id input offset d = Some (r, d') /\
    valid d' /\ same_clusters d d' /\ agrees d' a a' /\ write_result r id offset input a' c d' /\
    (r < 0 -> ~ (reads_work /\ is_Some block) \/ lost d' id = true).
Proof.
  intros Hc Hr Hv Hb H0 Hblk Ho Hle. pose proof (zlen_nonneg input) as Hi0. pose proof (proj2 (co_none _ _ Hc) H0) as El.
  pose proof (refines_none a c d Hr El) as Ha. unfold __evfs_cache_write_harddisk.
  destruct block as [buf|].
  2: { do 2 eexists. exists a. split; [reflexivity |]. split; [done |]. split; [by apply same_clusters_eq |]. split; [done |].
       split; [by right |]. intros _. left. by intros [_ [? ?]]. }
  pose proof (Hblk buf eq_refl) as Hbl. pose proof (hd_len d id b Hv Hb) as Hbb.
  destruct (hd_read id buf d b Hv Hb Hbl) as (r & buf' & d1 & E & Hv1 & Hcl & Hlb & Hres). rewrite E. cbn [mbind option_bind].
  destruct Hres as [Hneg | [-> ->]].
  { rewrite success_neg by done. do 2 eexists. exists a. split; [reflexivity |]. split; [done |]. split; [by apply same_clusters_eq |].
    split; [done |]. split; [right; split; [done | by apply (refines_disk _ _ a _ d)] |].
    intros _. left. intros [Hrw _]. pose proof (Hrw id buf d b r buf' d1 Hv Hb Hbl E). lia. }
  change (NSP_SUCCESS NSP_STATUS_SUCCESSFUL) with true. cbn match.
  assert (zlen (write_at 0 b buf) = zlen buf) as Hwl by (rewrite write_at_len; lia).
  rewrite memcpy_write by lia. cbn [mbind option_bind].
  destruct (hd_write id (write_at offset input (write_at 0 b buf)) d1 Hv1) as (r & d2 & -> & Hv2 & Hcl2 & [b2 Hb2] & Hw).
  { rewrite (proj1 (Hcl id)). by eexists. }
  { rewrite write_at_len by lia. lia. }
  assert (same_clusters d1 d2) as Hs2.
  { apply (write_same_clusters d1 d2 id); [rewrite (proj1 (Hcl id)); by eexists | done | by eexists |].
    by destruct Hw as [(_ & _ & ->) | [_ ->]]. }
  assert (same_clusters d d2) as Hs by (eapply same_clusters_trans; [by apply same_clusters_eq | done]).
  destruct Hw as [(-> & Hb2' & _) | [Hneg Hlost]].
  - do 2 eexists. exists a. do 4 (split; [done |]). split; [left; split; [done |] | done].
    apply (empty_view _ c d2 El). intros i. unfold written. case_decide as Hi.
    + subst i. rewrite Ha, Hb, Hb2'. cbn. f_equal. symmetry. apply direct_write; lia.
    + by rewrite (proj1 (Hcl2 i Hi)), (proj1 (Hcl i)), Ha.
  - do 2 eexists. exists (clusters d2). split; [done |]. split; [done |]. split; [done |]. split; [|split; [right; split; [done |] | by right]].
    + intros i Hi. assert (i <> id) as Hne by (intros ->; congruence). by rewrite (proj1 (Hcl2 i Hne)), (proj1 (Hcl i)), Ha.
    + by apply (empty_view _ c d2 El).
Qed.

(** Writing through the cache. *)
Lemma cache_write_ok a block id input offset c d : cache_ok c -> refines a c d -> valid d ->
  is_Some (clusters d id) -> block_ok block -> 0 <= offset -> offset + zlen input <= cs ->
  exists r c' d' a', __evfs_cache_write hard_read hard_write block id input offset c d = Some (r, c', d') /\
    cache_ok c' /\ valid d' /\ same_clusters d d' /\ agrees d' a a' /\ write_result r id offset input a' c' d' /\
    (r < 0 -> ~ (reads_work /\ stocked block c) \/ lost d' id = true).
Proof.
  intros Hc Hr Hv [b Hb] Hblk Ho Hle. unfold __evfs_cache_write.
  destruct (Z.eqb_spec 0 (cache_block_num c)) as [H0 | H0].
  { destruct (write_harddisk_ok a block id b input offset c d Hc Hr Hv Hb (eq_sym H0) Hblk Ho Hle) as (r & d' & a' & -> & Hv' & Hs' & Hag & Hw & Hno).
    cbn [mbind option_bind]. do 3 eexists. exists a'. do 6 (split; [done |]). intros Hneg.
    destruct (Hno Hneg) as [Hno' | ?]; [left | by right]. intros [Hrw [[_ Hb'] | [? _]]]; [by apply Hno' | lia]. }
  destruct (write_to_lru_ok a id input offset c d Hc Hr Ho Hle) as (r & c1 & -> & Hc1 & En1 & Hres).
  cbn [mbind option_bind]. destruct Hres as [[-> Hr1] | (Hneg & Hr1 & Hid1 & El1 & Ei1)].
  { change (NSP_SUCCESS NSP_STATUS_SUCCESSFUL) with true. cbn match. do 3 eexists. exists a. split; [reflexivity |].
    do 2 (split; [done |]). split; [by apply same_clusters_eq |]. split; [done |]. split; [by left | done]. }
  rewrite success_neg by done.
  assert (a id = Some b) as Ha by (rewrite <- Hb; by apply (rf_rest _ _ _ _ _ Hr1)).
  destruct (write_to_idle_ok a id b input offset c1 d Hc1 Hr1 Hv Hb) as (r2 & c2 & d2 & -> & Hc2 & Hv2 & Hs2 & En2 & Hres2);
    [congruence | done.. |].
  cbn [mbind option_bind]. destruct Hres2 as [[-> Hr2] | (Hneg2 & Hr2 & Hid2 & Hidle)].
  { change (NSP_SUCCESS NSP_STATUS_SUCCESSFUL) with true. cbn match. do 3 eexists. exists a. split; [reflexivity |].
    do 3 (split; [done |]). split; [done |]. split; [by left | done]. }
  rewrite success_neg by done. destruct (same_clusters_some _ _ _ _ Hs2 Hb) as [b2 Hb2].
  destruct (replace_write_ok a id b2 input offset c2 d2 Hc2 Hr2 Hv2) as (r3 & c3 & d3 & a3 & -> & Hc3 & Hv3 & Hs3 & Hag & Hres3 & Hlru); try done.
  { congruence. }
  do 3 eexists. exists a3. split; [reflexivity |]. split; [done |]. split; [done |].
  split; [by eapply same_clusters_trans |]. split; [done |]. split; [done |].
  intros Hneg3. left. intros [Hrw [[? _] | [_ Hst]]]; [lia |]. destruct (Hidle Hrw) as [Ei El2]. rewrite <- El1, <- El2, (Hlru Hneg3 Hrw) in Hst.
  revert Hst. cbn [app]. by rewrite <- Ei1, Ei.
Qed.

(** ** Flushing and growing *)
Lemma flush_blocks_ok a : forall ls c d, cache_ok c -> refines a c d -> valid d -> dirty c = ls ->
  exists c' d', flush_blocks hard_write ls c d = Some (c', d') /\ cache_ok c' /\ refines a c' d' /\ valid d' /\
    same_clusters d d' /\ dirty c' = [].
Proof.
  induction ls as [|l ls IH]; intros c d Hc Hr Hv E.
  { exists c, d. split_and!; try done. }
  cbn [flush_blocks]. assert (l ∈ lru c) as Hl by (apply (co_dirty _ _ Hc); rewrite E; constructor).
  destruct (flush_if_dirty_ok a l c d Hc Hr Hv Hl) as (c1 & d1 & -> & Hc1 & Hr1 & Hv1 & Hs1 & _ & _ & Ed & _).
  cbn [mbind option_bind]. destruct (IH c1 d1 Hc1 Hr1 Hv1) as (c2 & d2 & -> & Hc2 & Hr2 & Hv2 & Hs2 & E2).
  { rewrite Ed, E. pose proof (co_nodup_dirty _ _ Hc) as Hnd. rewrite E in Hnd. apply NoDup_cons in Hnd as [Hn _].
    rewrite filter_cons_False by (intros H; by apply H). apply filter_all. intros x Hx Hxl. by rewrite Hxl in Hx. }
  exists c2, d2. split_and!; try done. by eapply same_clusters_trans.
Qed.

(** After a flush of everything the disk is what the client sees. *)
Lemma refines_flushed a c d : cache_ok c -> refines a c d -> dirty c = [] -> forall i, lost d i = false -> clusters d i = a i.
Proof.
  intros Hc [R1 R2 R3] E i Hi. destruct (search_ok cs i c Hc) as ([l|] & _ & Hs).
  - destruct Hs as [Hl (n & Hn & <-)]. rewrite (R2 l n Hl Hn). apply (R1 l n Hl Hn); [|done].
    pose proof (co_lru _ _ Hc l n Hl Hn). destruct (state n) eqn:Est; [done | done |].
    assert (l ∈ dirty c) as Hd by (apply (co_dirty _ _ Hc); eauto). rewrite E in Hd. by apply not_elem_of_nil in Hd.
  - symmetry. by apply R3.
Qed.

Lemma flush_all_ok a c d : cache_ok c -> refines a c d -> valid d ->
  exists c' d', __evfs_cache_flush_buffer_all hard_write hard_flush c d = Some (c', d') /\ cache_ok c' /\
    refines a c' d' /\ valid d' /\ same_clusters d d' /\ forall i, lost d' i = false -> clusters d' i = a i.
Proof.
  intros Hc Hr Hv. unfold __evfs_cache_flush_buffer_all. destruct (Z.eqb_spec 0 (dirty_count c)) as [H0 | H0].
  - exists c, d. split_and!; try done. apply (refines_flushed a c d); try done.
    apply zlen_0. by rewrite <- (proj1 (proj2 (co_counts _ _ Hc))).
  - destruct (flush_blocks_ok a (dirty c) c d Hc Hr Hv eq_refl) as (c1 & d1 & -> & Hc1 & Hr1 & Hv1 & Hs1 & E1).
    cbn [mbind option_bind]. destruct (hd_flush d1 Hv1) as [Hv2 Hcl].
    assert (refines a c1 (hard_flush d1).2) as Hr2 by (by apply (refines_disk _ _ a _ d1)).
    do 2 eexists. split; [reflexivity |]. split_and!; try done.
    + eapply same_clusters_trans; [done | by apply same_clusters_eq].
    + by apply (refines_flushed a c1).
Qed.

Lemma flush_block_ok a id c d : cache_ok c -> refines a c d -> valid d ->
  exists c' d', __evfs_cache_flush_block hard_write id c d = Some (c', d') /\ cache_ok c' /\
    refines a c' d' /\ valid d' /\ same_clusters d d'.
Proof.
  intros Hc Hr Hv. unfold __evfs_cache_flush_block. destruct (search_ok cs id c Hc) as ([l|] & -> & Hs); cbn [mbind option_bind].
  - destruct (flush_if_dirty_ok a l c d Hc Hr Hv (proj1 Hs)) as (c1 & d1 & -> & Hc1 & Hr1 & Hv1 & Hs1 & _). eauto 8.
  - exists c, d. by split_and!.
Qed.

Lemma new_idle_ok a b c d : cache_ok c -> refines a c d -> zlen b = cs ->
  cache_ok (set_block_num (cache_block_num c + 1) (new_idle b c)) /\
  refines a (set_block_num (cache_block_num c + 1) (new_idle b c)) d.
Proof.
  intros Hc Hr Hb. unfold new_idle. set (l := fresh (dom (heap c))).
  assert (heap c !! l = None) as Hl by (apply not_elem_of_dom; apply is_fresh).
  assert (forall l', l' ∈ lru c ++ idle c -> l' <> l) as Hne.
  { intros l' Hin ->. destruct (co_block _ _ Hc l Hin) as (n & Hn & _). congruence. }
  assert (forall l', l' ∈ lru c -> l' <> l) as Hne1 by (intros l' Hin; apply Hne, elem_of_app; by left).
  set (n := CacheNode 0 kEvfsCacheBlockIdle b).
  assert (forall l', l' ∈ lru c -> <[l := n]> (heap c) !! l' = heap c !! l') as Hlook.
  { intros l' Hin. apply lookup_insert_ne. intros <-. by apply (Hne1 l). }
  split.
  - destruct Hc as [H1 H2 H3 H4 H5 H6 H7 H8 H9 (H10 & H11 & H12) [H13 H14]].
    split; cbn [set_block_num set_idle set_heap heap lru idle root_of_lru_index dirty lru_count dirty_count idle_count cache_block_num]; try done.
    + rewrite app_assoc. apply NoDup_app. split; [done |]. split; [|apply NoDup_singleton].
      intros x Hx ->%list_elem_of_singleton. by apply (Hne l).
    + intros l'. rewrite app_assoc, elem_of_app. intros [Hin | ->%list_elem_of_singleton].
      * rewrite lookup_insert_ne by (intros <-; by apply (Hne l)). by apply H2.
      * exists n. by rewrite lookup_insert_eq.
    + eapply search_tree_ids; [|exact H3]. intros x Hx. rewrite H4 in Hx.
      apply list_elem_of_fmap in Hx as (l' & -> & Hin). cbn. by rewrite Hlook.
    + intros l' m Hin. rewrite Hlook by done. by apply H5.
    + intros l' m. rewrite elem_of_app. intros [Hin | ->%list_elem_of_singleton].
      * rewrite lookup_insert_ne by (intros <-; apply (Hne l); [apply elem_of_app; by right | done]). by apply H6.
      * rewrite lookup_insert_eq. by intros [= <-].
    + intros l1 l2 n1 n2 Hi1 Hi2. rewrite !Hlook by done. by apply H7.
    + intros l'. rewrite H9. split; intros [Hin Hm]; (split; [done |]); by rewrite Hlook in *.
    + split; [done |]. split; [done |]. rewrite H12, zlen_app. done.
    + split; [lia |]. lia.
  - destruct Hr as [R1 R2 R3]. split; cbn [set_block_num set_idle set_heap heap lru].
    + intros l' m Hin. rewrite Hlook by done. by apply R1.
    + intros l' m Hin. rewrite Hlook by done. by apply R2.
    + intros i Hi. apply R3. intros l' m Hin Hm. apply (Hi l'); [done | by rewrite Hlook].
Qed.

Lemma add_blocks_ok a d : forall k (blocks : list (list Z)) c, cache_ok c -> refines a c d ->
  Forall (fun b => zlen b = cs) blocks ->
  let '(i, c') := add_blocks k blocks c in 0 <= i /\ cache_ok c' /\ refines a c' d.
Proof.
  induction k as [|k IH]; intros [|b blocks] c Hc Hr Hb; cbn [add_blocks]; try done.
  apply Forall_cons in Hb as [Hb Hbs]. destruct (new_idle_ok a b c d Hc Hr Hb) as [Hc1 Hr1].
  specialize (IH blocks _ Hc1 Hr1 Hbs). destruct (add_blocks k blocks _) as [i c']. destruct IH as (Hi & ? & ?).
  split; [lia | done].
Qed.

(** The number of blocks only decides whether the cache is used. *)
Lemma set_block_num_ok a k c d : cache_ok c -> refines a c d -> 0 <= k -> (k = 0 -> cache_block_num c = 0) ->
  cache_ok (set_block_num k c) /\ refines a (set_block_num k c) d.
Proof.
  intros Hc Hr Hk H0. split; [|by apply (refines_same _ _ a c)]. apply (cache_ok_perm cs c); try done.
  cbn. split; [done |]. intros E. apply (co_none _ _ Hc). by apply H0.
Qed.

(** ** Requests in sequence *)

(** Requests through the cache for clusters of the disk, within a cluster. *)
Definition task_ok d (task : io_task) : Prop :=
  match task with
  | IoRead block id offset length =>
      block_ok block /\ is_Some (clusters d id) /\ 0 <= offset /\ 0 <= length /\ offset + length <= cs
  | IoWrite block id input offset =>
      block_ok block /\ is_Some (clusters d id) /\ 0 <= offset /\ offset + zlen input <= cs
  | IoFlushBufferAll | IoFlushBuffer _ => True
  | IoAddCacheBlock _ blocks => Forall (fun b => zlen b = cs) blocks
  | _ => False
  end.

(** What a client of a plain disk [a] can see of a request. *)
Inductive seen : io_task -> reply -> (Z -> option (list Z)) -> (Z -> option (list Z)) -> Prop :=
  | seen_read block id offset length b a : a id = Some b ->
      seen (IoRead block id offset length) (Reply (Some NSP_STATUS_SUCCESSFUL) (Some (read_at offset length b)) None) a a
  | seen_write block id input offset a :
      seen (IoWrite block id input offset) (Reply (Some NSP_STATUS_SUCCESSFUL) None None) a (written id offset input a)
  | seen_fail task r a : r < 0 -> seen task (Reply (Some r) None None) a a
  | seen_flush_all a : seen IoFlushBufferAll (Reply (Some NSP_STATUS_SUCCESSFUL) None None) a a
  | seen_flush id a : seen (IoFlushBuffer id) (Reply (Some NSP_STATUS_SUCCESSFUL) None None) a a
  | seen_add k (blocks : list (list Z)) a : seen (IoAddCacheBlock k blocks) (Reply (Some NSP_STATUS_SUCCESSFUL) None None) a a.

(** A sequence of requests; before each, the content of a cluster that is [gone] may
    change. *)
Inductive seen_all (gone : Z -> bool) : list io_task -> list reply -> (Z -> option (list Z)) -> (Z -> option (list Z)) -> Prop :=
  | seen_nil a a' : (forall i, gone i = false -> a' i = a i) -> seen_all gone [] [] a a'
  | seen_cons task rep tasks reps a0 a1 a2 a3 : (forall i, gone i = false -> a1 i = a0 i) ->
      seen task rep a1 a2 -> seen_all gone tasks reps a2 a3 -> seen_all gone (task :: tasks) (rep :: reps) a0 a3.

Lemma seen_all_before gone tasks reps a a1 a2 : (forall i, gone i = false -> a1 i = a i) ->
  seen_all gone tasks reps a1 a2 -> seen_all gone tasks reps a a2.
Proof.
  intros H. destruct 1 as [a1 a2 H0 | task rep tasks reps a1 a2 a3 a4 H0 Hs Hss].
  - constructor. intros i Hi. by rewrite H0, H.
  - apply (seen_cons _ _ _ _ _ _ a2 a3); [|done | done]. intros i Hi. by rewrite H0, H.
Qed.

Lemma seen_all_app gone t1 r1 t2 r2 a1 a2 a3 : seen_all gone t1 r1 a1 a2 -> seen_all gone t2 r2 a2 a3 ->
  seen_all gone (t1 ++ t2) (r1 ++ r2) a1 a3.
Proof.
  induction 1 as [a a' Ha | task rep tasks reps a a' a'' a4 Ha Hs Hss IH]; intros H2; cbn [app]; [by eapply seen_all_before |].
  apply (seen_cons _ _ _ _ _ _ a' a''); auto.
Qed.

Lemma seen_all_more gone gone' tasks reps a a' : (forall i, gone i = true -> gone' i = true) ->
  seen_all gone tasks reps a a' -> seen_all gone' tasks reps a a'.
Proof.
  intros Hg. assert (forall i, gone' i = false -> gone i = false) as Hg'.
  { intros i Hi. apply not_true_iff_false. intros Hl. by rewrite (Hg i Hl) in Hi. }
  induction 1 as [a1 a2 Ha | task rep ts rs a1 a2 a3 a4 Ha Hs Hss IH]; [constructor; auto |].
  apply (seen_cons _ _ _ _ _ _ a2 a3); auto.
Qed.

Context (hard_read_head : Z -> list Z -> D -> option (Z * list Z * D)) (hard_close : D -> D)
  (hard_expand : D -> option (Z * option Z * D)) (hard : hard_queries D).
#[local] Abbreviation exec_task :=
  (__evfs_cache_exec_task hard_read hard_write hard_flush hard_read_head hard_close hard_expand hard).
#[local] Abbreviation run_tasks :=
  (__evfs_cache_pop_task_until_empty hard_read hard_write hard_flush hard_read_head hard_close hard_expand hard).

Lemma exec_task_ok a task c d : cache_ok c -> refines a c d -> valid d -> task_ok d task ->
  exists rep a1 a' c' d', exec_task task c d = Some (rep, c', d') /\ agrees d' a a1 /\ seen task rep a1 a' /\
    cache_ok c' /\ refines a' c' d' /\ valid d' /\ same_clusters d d'.
Proof.
  intros Hc Hr Hv Ht. destruct task as [block id offset length | | | block id input offset | | | id | k blocks | | | |];
    try done; cbn [task_ok __evfs_cache_exec_task] in *.
  - destruct Ht as (Hb & Hid & Ho & Hl & Hle).
    destruct (cache_read_ok a block id offset length c d) as (r & out & c' & d' & a' & -> & Hc' & Hag & Hr' & Hv' & Hs' & Hres); [done.. |].
    cbn [mbind option_bind]. exists (Reply (Some r) out None), a', a', c', d'. split; [done |]. split; [done |]. split; [|done].
    destruct Hres as [(Hneg & -> & _) | (-> & b & Hb' & ->)]; by constructor.
  - destruct Ht as (Hb & Hid & Ho & Hle).
    destruct (cache_write_ok a block id input offset c d) as (r & c' & d' & a' & -> & Hc' & Hv' & Hs' & Hag & Hres & _); [done.. |].
    cbn [mbind option_bind]. destruct Hres as [[-> Hr'] | [Hneg Hr']].
    + exists (Reply (Some NSP_STATUS_SUCCESSFUL) None None), a', (written id offset input a'), c', d'.
      split; [done |]. split; [done |]. split; [constructor | done].
    + exists (Reply (Some r) None None), a', a', c', d'. split; [done |]. split; [done |]. split; [by constructor | done].
  - destruct (flush_all_ok a c d Hc Hr Hv) as (c' & d' & -> & Hc' & Hr' & Hv' & Hs' & _). cbn [mbind option_bind].
    do 5 eexists. split; [reflexivity |]. split; [apply agrees_refl |]. split; [apply seen_flush_all | done].
  - destruct (flush_block_ok a id c d Hc Hr Hv) as (c' & d' & -> & Hc' & Hr' & Hv' & Hs'). cbn [mbind option_bind].
    do 5 eexists. split; [reflexivity |]. split; [apply agrees_refl |]. split; [apply seen_flush | done].
  - unfold __evfs_cache_add_block_to_idle. pose proof (add_blocks_ok a d (Z.to_nat k) blocks c Hc Hr Ht) as Hadd.
    destruct (add_blocks (Z.to_nat k) blocks c) as [i c1]. destruct Hadd as (Hi & Hc1 & Hr1).
    pose proof (proj1 (co_none _ _ Hc1)) as Hn1.
    destruct (set_block_num_ok a (cache_block_num c1 + i) c1 d Hc1 Hr1) as [Hc2 Hr2]; [lia | lia |].
    do 5 eexists. split; [reflexivity |]. split; [apply agrees_refl |]. split; [|done]. destruct (0 =? i); by constructor.
Qed.

Lemma task_ok_same d d' task : same_clusters d d' -> task_ok d task -> task_ok d' task.
Proof.
  intros Hs. destruct task; cbn; try done; intros (H1 & H2 & H3); (split; [done |]); (split; [by apply (proj1 (Hs _)) | done]).
Qed.

Lemma run_tasks_ok tasks : forall a c d, cache_ok c -> refines a c d -> valid d -> Forall (task_ok d) tasks ->
  exists reps a' c' d', run_tasks tasks c d = Some (reps, c', d') /\ seen_all (lost d') tasks reps a a' /\
    cache_ok c' /\ refines a' c' d' /\ valid d' /\ same_clusters d d'.
Proof.
  induction tasks as [|task tasks IH]; intros a c d Hc Hr Hv Ht.
  - exists [], a, c, d. split; [done |]. split; [by constructor |]. split_and!; try done.
  - apply Forall_cons in Ht as [Ht Hts]. cbn [__evfs_cache_pop_task_until_empty].
    destruct (exec_task_ok a task c d Hc Hr Hv Ht) as (rep & a0 & a1 & c1 & d1 & -> & Hag & Hseen & Hc1 & Hr1 & Hv1 & Hs1).
    cbn [mbind option_bind]. destruct (IH a1 c1 d1 Hc1 Hr1 Hv1) as (reps & a2 & c2 & d2 & -> & Hseen2 & Hc2 & Hr2 & Hv2 & Hs2).
    { apply (Forall_impl _ _ _ Hts). intros x. by apply task_ok_same. }
    cbn [mbind option_bind]. exists (rep :: reps), a2, c2, d2. split; [done |].
    split; [apply (seen_cons _ _ _ _ _ _ a0 a1); [by apply (agrees_later d1) | done..] |].
    split_and!; try done. by eapply same_clusters_trans.
Qed.

(** The requests the worker executes. *)
Fixpoint requests (waits : list wakeup) (left : list io_task) : list io_task :=
  match waits with
  | Awakened tasks :: waits => tasks ++ requests waits left
  | Expired :: waits => requests waits left
  | Failed :: _ | [] => left
  end.

Lemma thread_ok waits left : forall a c d,
  cache_ok c -> refines a c d -> valid d -> Forall (task_ok d) (requests waits left) ->
  exists reps a' c' d',
    __evfs_cache_thread_merge_io hard_read hard_write hard_flush hard_read_head hard_close hard_expand hard waits left c d
      = Some (reps, c', d') /\
    seen_all (lost d') (requests waits left) reps a a' /\ cache_ok c' /\ refines a' c' d' /\ valid d' /\ same_clusters d d'.
Proof.
  induction waits as [|w waits IH]; intros a c d Hc Hr Hv Ht; [|destruct w as [tasks | |]];
    cbn [requests __evfs_cache_thread_merge_io] in *.
  - by apply run_tasks_ok.
  - apply Forall_app in Ht as [Ht1 Ht2].
    destruct (run_tasks_ok tasks a c d Hc Hr Hv Ht1) as (reps & a1 & c1 & d1 & -> & Hseen & Hc1 & Hr1 & Hv1 & Hs1).
    cbn [mbind option_bind].
    destruct (IH a1 c1 d1 Hc1 Hr1 Hv1) as (reps2 & a2 & c2 & d2 & -> & Hseen2 & Hc2 & Hr2 & Hv2 & Hs2).
    { apply (Forall_impl _ _ _ Ht2). intros x. by apply task_ok_same. }
    cbn [mbind option_bind]. exists (reps ++ reps2), a2, c2, d2. split; [done |]. split; [eapply seen_all_app; [by eapply seen_all_more; [apply Hs2 |] | done] |].
    split_and!; try done. by eapply same_clusters_trans.
  - destruct (flush_all_ok a c d Hc Hr Hv) as (c1 & d1 & -> & Hc1 & Hr1 & Hv1 & Hs1 & _). cbn [mbind option_bind].
    destruct (IH a c1 d1 Hc1 Hr1 Hv1) as (reps & a2 & c2 & d2 & -> & Hseen & Hc2 & Hr2 & Hv2 & Hs2).
    { apply (Forall_impl _ _ _ Ht). intros x. by apply task_ok_same. }
    exists reps, a2, c2, d2. split_and!; try done. by eapply same_clusters_trans.
  - by apply run_tasks_ok.
Qed.

(** C3: through the cache a client sees a plain disk.  Requests to read and write within a
    cluster, to flush all or one of the blocks and to add blocks come in any order, the
    worker is woken up in between in any way, and any input or output of the disk may
    fail; one that succeeds is complete (evfs_hard_write lets a short one pass for a
    success, which this does not cover).  Every request returns (no block is used after it is freed, nothing is read or
    written outside a block), and every reply is the one of the plain disk [a] on which
    each successful write so far has been done, or a failure that changed nothing;
    blocks come and go unseen.  When everything is flushed, the disk below holds the
    clusters of [a].  The status of a write-back is ignored: when one failed, no reply
    says so, and the content of that one cluster, but of no other, may have changed. *)
Theorem cache_refines_disk waits left a c d :
  cache_ok c -> refines a c d -> valid d -> Forall (task_ok d) (requests waits left) ->
  exists reps a' c' d',
    __evfs_cache_thread_merge_io hard_read hard_write hard_flush hard_read_head hard_close hard_expand hard waits left c d
      = Some (reps, c', d') /\
    seen_all (lost d') (requests waits left) reps a a' /\ cache_ok c' /\ refines a' c' d' /\ valid d' /\
    exists c'' d'', __evfs_cache_flush_buffer_all hard_write hard_flush c' d' = Some (c'', d'') /\
      valid d'' /\ forall i, lost d'' i = false -> clusters d'' i = a' i.
Proof.
  intros Hc Hr Hv Ht. destruct (thread_ok waits left a c d Hc Hr Hv Ht) as (reps & a1 & c1 & d1 & E & Hseen & Hc1 & Hr1 & Hv1 & _).
  destruct (flush_all_ok a1 c1 d1 Hc1 Hr1 Hv1) as (c2 & d2 & E2 & _ & _ & Hv2 & _ & Hcl).
  exists reps, a1, c1, d1. split_and!; try done. by exists c2, d2.
Qed.

(** ** Starting and stopping *)
Lemma flush_all_clean a c d c' d' : cache_ok c -> refines a c d -> valid d ->
  __evfs_cache_flush_buffer_all hard_write hard_flush c d = Some (c', d') -> dirty c' = [].
Proof.
  intros Hc Hr Hv. unfold __evfs_cache_flush_buffer_all. destruct (Z.eqb_spec 0 (dirty_count c)) as [H0 | H0].
  - intros [= <- _]. apply zlen_0. by rewrite <- (proj1 (proj2 (co_counts _ _ Hc))).
  - destruct (flush_blocks_ok a (dirty c) c d Hc Hr Hv eq_refl) as (c1 & d1 & -> & _ & _ & _ & _ & E1).
    cbn [mbind option_bind]. by intros [= <- _].
Qed.

Lemma add_blocks_lru : forall k (blocks : list (list Z)) c, lru (add_blocks k blocks c).2 = lru c.
Proof.
  induction k as [|k IH]; intros [|b blocks] c; cbn [add_blocks]; try done.
  specialize (IH blocks (set_block_num (cache_block_num c + 1) (new_idle b c))).
  by destruct (add_blocks k blocks _) as [i c'].
Qed.

(** A cache that holds nothing, over any disk. *)
Lemma empty_refines c d : lru c = [] -> refines (clusters d) c d.
Proof. intros E. by apply empty_view. Qed.

Lemma set_num_empty_ok k c : cache_ok c -> lru c = [] -> 0 <= k -> cache_ok (set_block_num k c).
Proof. intros Hc E Hk. by apply (cache_ok_perm cs c). Qed.

Lemma init_ok hard_create hard_open hard_cluster_size num creator blocks r size c d d1 :
  cache_ok c -> lru c = [] -> 0 <= num -> Forall (fun b => zlen b = cs) blocks ->
  match creator with Some (k1, k2) => hard_create k1 k2 d | None => hard_open d end = Some (r, d1) ->
  NSP_SUCCESS r = true -> hard_cluster_size d1 = Some size ->
  exists c1, evfs_cache_init hard_create hard_open hard_cluster_size NSP_STATUS_SUCCESSFUL kEvmgrNotReady num creator blocks c d
      = Some (NSP_STATUS_SUCCESSFUL, kEvmgrReady, c1, d1) /\ cache_ok c1 /\ refines (clusters d1) c1 d1.
Proof.
  intros Hc El Hn Hb E Er Es. unfold evfs_cache_init. rewrite (proj2 (Z.ltb_ge num 0)) by done.
  change (kEvmgrNotReady =? kEvmgrNotReady) with true. cbn [negb]. rewrite E. cbn [mbind option_bind].
  rewrite Er, Es. cbn [negb mbind option_bind]. unfold __evfs_cache_add_block_to_idle.
  set (c0 := set_block_size size c). assert (cache_ok c0) as Hc0.
  { apply (cache_ok_perm cs c); try done. apply (co_none _ _ Hc). }
  pose proof (add_blocks_ok (clusters d1) d1 (Z.to_nat num) blocks c0 Hc0 (empty_refines c0 d1 El) Hb) as Hadd.
  pose proof (add_blocks_lru (Z.to_nat num) blocks c0) as Elru.
  destruct (add_blocks (Z.to_nat num) blocks c0) as [i c1]. destruct Hadd as (Hi & Hc1 & _). cbn [snd] in Elru.
  pose proof (co_none _ _ Hc1) as [? _]. eexists. split; [reflexivity |]. split.
  - apply set_num_empty_ok; [apply set_num_empty_ok | |]; try done; [by rewrite Elru | lia | cbn; by rewrite Elru].
  - apply empty_refines. cbn. by rewrite Elru.
Qed.

Lemma free_indexed_ok : forall q c,
  search_tree (__evfs_cache_compare_by_cluster_id (heap c)) (root_of_lru_index c) ->
  elems (root_of_lru_index c) ≡ₚ Leaf <$> q -> NoDup q -> (forall l, l ∈ q -> is_Some (heap c !! l)) ->
  (forall l1 l2 n1 n2, l1 ∈ q -> l2 ∈ q -> heap c !! l1 = Some n1 -> heap c !! l2 = Some n2 ->
     cluster_id n1 = cluster_id n2 -> l1 = l2) -> lru c = q ->
  exists c', free_indexed q c = Some c' /\ elems (root_of_lru_index c') = [] /\ lru c' = [] /\
    search_tree (__evfs_cache_compare_by_cluster_id (heap c')) (root_of_lru_index c') /\
    lru_count c' = lru_count c - zlen q /\ dirty_count c' = dirty_count c /\ idle c' = idle c /\ idle_count c' = idle_count c.
Proof.
  induction q as [|l q IH]; intros c Ht E Hnd Hlive Hids Elru; cbn [free_indexed].
  { exists c. apply Permutation_nil_r in E. unfold zlen. cbn [length]. split_and!; try done. lia. }
  assert (index_alive c = true) as ->.
  { apply forallb_forall. intros x Hx. apply list_elem_of_In in Hx. rewrite E in Hx.
    apply list_elem_of_fmap in Hx as (l' & -> & Hl'). apply bool_decide_true. by apply Hlive. }
  destruct (index_remove (heap c) _ l q Ht E Hnd Hlive Hids) as (t & rm & -> & Ht' & E'). cbn [mbind option_bind].
  apply NoDup_cons in Hnd as [Hl Hnd].
  assert (forall l', l' ∈ q -> delete l (heap c) !! l' = heap c !! l') as Hlook.
  { intros l' Hin. apply lookup_delete_ne. intros <-. done. }
  destruct (IH (set_heap (delete l (heap c)) (set_lru t q (lru_count c - 1) c))) as (c' & -> & H1 & H2 & H3 & H4 & H5 & H6 & H7);
    cbn [set_heap set_lru heap root_of_lru_index lru]; try done.
  - eapply search_tree_ids; [|exact Ht']. intros x Hx. rewrite E' in Hx. apply list_elem_of_fmap in Hx as (l' & -> & Hin).
    cbn. by rewrite Hlook.
  - intros l' Hin. rewrite Hlook by done. apply Hlive. by constructor.
  - intros l1 l2 n1 n2 Hi1 Hi2. rewrite !Hlook by done. apply Hids; by constructor.
  - exists c'. rewrite zlen_cons. cbn [set_heap set_lru lru_count] in H4. split_and!; try done. lia.
Qed.

Lemma free_all_idle_spec : forall q c, idle c = q ->
  idle (free_all_idle q c) = [] /\ idle_count (free_all_idle q c) = idle_count c - zlen q /\
  root_of_lru_index (free_all_idle q c) = root_of_lru_index c /\ lru (free_all_idle q c) = lru c /\
  lru_count (free_all_idle q c) = lru_count c /\ dirty_count (free_all_idle q c) = dirty_count c.
Proof.
  induction q as [|l q IH]; intros c E; cbn [free_all_idle].
  { unfold zlen. cbn [length]. split_and!; try done. lia. }
  destruct (IH (set_idle q (idle_count c - 1) (set_heap (delete l (heap c)) c)) eq_refl) as (H1 & H2 & H3 & H4 & H5 & H6).
  rewrite zlen_cons. split_and!; try done. rewrite H2. cbn. lia.
Qed.

(** Stopping writes back everything, closes the disk and leaves an empty cache. *)
Lemma uninit_ok a pending c d : pending < EVFS_MAX_IO_PENDING_COUNT -> cache_ok c -> refines a c d -> valid d ->
  exists c' d', evfs_cache_uninit hard_read hard_write hard_flush hard_read_head hard_close hard_expand hard
      (Env true true false pending) c d = Some (c', hard_close d') /\
    valid d' /\ (forall i, lost d' i = false -> clusters d' i = a i) /\ cache_ok c' /\ lru c' = [].
Proof.
  intros Hp Hc Hr Hv. unfold evfs_cache_uninit, __evfs_cache_push_task. cbn [e_ready e_mem e_stop e_pending].
  rewrite (proj2 (Z.leb_gt _ _)) by done. change (NSP_SUCCESS NSP_STATUS_SUCCESSFUL) with true. cbn [andb].
  cbn [__evfs_cache_exec_task]. unfold __evfs_cache_uninit.
  destruct (flush_all_ok a c d Hc Hr Hv) as (c1 & d1 & E & Hc1 & Hr1 & Hv1 & _ & Hcl).
  pose proof (flush_all_clean a c d c1 d1 Hc Hr Hv E) as Ed. rewrite E. cbn [mbind option_bind].
  destruct (free_indexed_ok (lru c1) c1) as (c2 & -> & H1 & H2 & H3 & H4 & H5 & H6 & H7); try done.
  { apply (co_tree _ _ Hc1). }
  { apply (co_elems _ _ Hc1). }
  { by destruct (proj1 (NoDup_app _ _) (co_nodup _ _ Hc1)) as (? & _). }
  { intros l Hl. destruct (lru_node cs c1 l Hc1 Hl) as (n & -> & _). by eexists. }
  { apply (co_ids _ _ Hc1). }
  cbn [mbind option_bind]. destruct (free_all_idle_spec (idle c2) c2 eq_refl) as (G1 & G2 & G3 & G4 & G5 & G6).
  set (c3 := free_all_idle (idle c2) c2) in *. do 2 eexists. split; [reflexivity |]. split; [done |]. split; [done |].
  pose proof (co_counts _ _ Hc1) as (N1 & N2 & N3). rewrite Ed in N2.
  split; [|cbn; by rewrite G4].
  split; cbn [set_block_size set_block_num set_dirty heap lru idle root_of_lru_index dirty lru_count dirty_count idle_count cache_block_num];
    rewrite ?G1, ?G3, ?G4, ?H1, ?H2; try done.
  - constructor.
  - intros l Hl. by apply not_elem_of_nil in Hl.
  - split; [apply (proj1 H3) |]. rewrite H1. constructor.
  - intros l m Hl. by apply not_elem_of_nil in Hl.
  - intros l m Hl. by apply not_elem_of_nil in Hl.
  - intros l1 l2 n1 n2 Hl. by apply not_elem_of_nil in Hl.
  - constructor.
  - intros l. split; [by intros ?%not_elem_of_nil | by intros [?%not_elem_of_nil _]].
  - rewrite G5, G2, H4, H5, N1, N2, H6, H7, N3. change (zlen (@nil nat)) with 0. lia.
Qed.

(** ** Hits *)
Lemma search_hit l n c : cache_ok c -> l ∈ lru c -> heap c !! l = Some n ->
  __evfs_cache_search_lru (cluster_id n) c = Some (Some l).
Proof.
  intros Hc Hl Hn. destruct (search_ok cs (cluster_id n) c Hc) as ([l'|] & -> & Hs).
  - destruct Hs as (Hl' & n' & Hn' & Hid). by rewrite (co_ids _ _ Hc l' l n' n).
  - exfalso. by apply (Hs l n).
Qed.

(** A cluster that is in the cache costs no input or output.  Reading it succeeds with
    the bytes of its block, writing it succeeds and leaves the block dirty, the disk is
    the one before, and the block is the last one that will be given up. *)
Theorem cache_hit a block c d l n : cache_ok c -> refines a c d -> cache_block_num c <> 0 ->
  l ∈ lru c -> heap c !! l = Some n ->
  (forall offset length, 0 <= offset -> 0 <= length -> offset + length <= cs ->
     exists c', __evfs_cache_read hard_read hard_write block (cluster_id n) offset length c d
         = Some (NSP_STATUS_SUCCESSFUL, Some (read_at offset length (data n)), c', d) /\
       cache_ok c' /\ refines a c' d /\ lru c' = filter (.≠ l) (lru c) ++ [l]) /\
  (forall input offset, 0 <= offset -> offset + zlen input <= cs ->
     exists c', __evfs_cache_write hard_read hard_write block (cluster_id n) input offset c d
         = Some (NSP_STATUS_SUCCESSFUL, c', d) /\
       cache_ok c' /\ refines (written (cluster_id n) offset input a) c' d /\
       lru c' = filter (.≠ l) (lru c) ++ [l] /\ l ∈ dirty c').
Proof.
  intros Hc Hr Hnum Hl Hn. pose proof (search_hit l n c Hc Hl Hn) as Hs.
  destruct (lru_node cs c l Hc Hl) as (m & Hm & Hlen). rewrite Hn in Hm. injection Hm as <-.
  unfold __evfs_cache_read, __evfs_cache_write. rewrite (proj2 (Z.eqb_neq 0 _)) by lia. split.
  - intros offset length Ho Hlo Hle.
    destruct (read_from_lru_ok a (cluster_id n) offset length c d Hc Hr Ho Hlo Hle) as (r & out & c' & E & Hc' & Hr' & _).
    revert E. unfold __evfs_cache_read_from_lru, __evfs_cache_move_lru_to_tail. rewrite Hs. cbn [mbind option_bind].
    rewrite list_del_elem by done. cbn [mbind option_bind set_lru heap]. rewrite Hn. cbn [mbind option_bind]. rewrite memread_read by lia.
    cbn [mbind option_bind]. intros [= <- <- <-]. eexists. split; [reflexivity |]. done.
  - intros input offset Ho Hle. pose proof (zlen_nonneg input).
    destruct (write_to_lru_ok a (cluster_id n) input offset c d Hc Hr Ho Hle) as (r & c' & E & Hc' & _ & Hres).
    rewrite E. cbn [mbind option_bind]. revert E.
    unfold __evfs_cache_write_to_lru, __evfs_cache_move_lru_to_tail, set_node, __evfs_cache_push_dirty.
    rewrite Hs. cbn [mbind option_bind]. rewrite list_del_elem by done. cbn [mbind option_bind set_lru heap]. rewrite Hn. cbn [mbind option_bind].
    rewrite memcpy_write by lia. cbn [mbind option_bind set_heap count set_lru heap]. rewrite ?Hn, ?lookup_insert_eq.
    cbn [mbind option_bind node_data state]. destruct (decide (state n = kEvfsCacheBlockDirty)) as [Hd | Hd];
      intros [= <- <-]; (destruct Hres as [[_ Hr'] | [? _]]; [|done]); eexists; (split; [reflexivity |]);
      (split; [done |]); (split; [done |]); (split; [done |]).
    + cbn [dirty]. apply (co_dirty _ _ Hc). eauto.
    + cbn [set_dirty dirty]. apply elem_of_app. right. by apply list_elem_of_singleton.
Qed.
End Operations.

(** ** Fewer blocks *)
Lemma free_idle_spec n : forall q c,
  (forall l, (l ∉ q) -> heap (free_idle q n c) !! l = heap c !! l) /\
  heap (free_idle q n c) ⊆ heap c /\
  root_of_lru_index (free_idle q n c) = root_of_lru_index c /\ lru (free_idle q n c) = lru c /\
  dirty (free_idle q n c) = dirty c /\ dirty_count (free_idle q n c) = dirty_count c /\
  (0 < cache_block_num c - n <= zlen q -> cache_block_num (free_idle q n c) = n).
Proof.
  induction q as [|l q IH]; intros c; cbn [free_idle].
  { unfold zlen. cbn [length]. split_and!; try done; lia. }
  set (c1 := set_block_num _ _). rewrite zlen_cons. pose proof (zlen_nonneg q).
  assert (cache_block_num c1 = cache_block_num c - 1) as E1 by done.
  assert (heap c1 ⊆ heap c) as Es by (cbn; apply delete_subseteq).
  assert (forall l', (l' ∉ l :: q) -> heap c1 !! l' = heap c !! l') as Eh.
  { intros l' [Hne _]%not_elem_of_cons. cbn [c1 set_block_num set_idle set_heap heap]. by apply lookup_delete_ne. }
  destruct (Z.eqb_spec n (cache_block_num c1)) as [E | E].
  - split_and!; try done; lia.
  - destruct (IH c1) as (H1 & H2 & H3 & H4 & H5 & H6 & H7). split_and!; try done.
    + intros l' Hl'. rewrite H1 by (by apply not_elem_of_cons in Hl' as [_ ?]). by apply Eh.
    + by etrans.
    + intros ?. apply H7. lia.
Qed.

Lemma free_lru_spec n : forall q c,
  heap (free_lru q n c) ⊆ heap c /\
  root_of_lru_index (free_lru q n c) = root_of_lru_index c /\ dirty (free_lru q n c) = dirty c /\
  dirty_count (free_lru q n c) = dirty_count c /\
  (forall l q', q = l :: q' -> heap (free_lru q n c) !! l = None) /\
  (cache_block_num c <= n -> (lru c = q -> lru (free_lru q n c) = []) /\ (forall l, l ∈ q -> heap (free_lru q n c) !! l = None)).
Proof.
  induction q as [|l q IH]; intros c; cbn [free_lru].
  { split_and!; try done. intros _. split; [done |]. intros l Hl. by apply not_elem_of_nil in Hl. }
  set (c1 := set_block_num _ _).
  assert (cache_block_num c1 = cache_block_num c - 1) as E1 by done.
  assert (heap c1 !! l = None) as Hl by (cbn; apply lookup_delete_eq).
  assert (heap c1 ⊆ heap c) as Es by (cbn; apply delete_subseteq).
  destruct (IH c1) as (H1 & H2 & H3 & H4 & H5 & H6).
  destruct (Z.eqb_spec n (cache_block_num c1)) as [E | E].
  - split_and!; try done; [by intros l' q' [= <- _] | lia].
  - assert (heap (free_lru q n c1) !! l = None) as Hl' by (by eapply lookup_weaken_None).
    split_and!; try done; [by etrans | by intros l' q' [= <- _] |].
    intros Hle. destruct H6 as [H6 H7]; [lia |]. split; [by intros _; apply H6 |].
    intros l' [-> | Hin]%elem_of_cons; eauto.
Qed.

(** Flushing a list with a freed block in it. *)
Lemma flush_freed {D} (hard_write : Z -> list Z -> D -> option (Z * D)) l : forall ls c d,
  l ∈ ls -> heap c !! l = None -> flush_blocks hard_write ls c d = None.
Proof.
  induction ls as [|l1 ls IH]; intros c d Hin Hl; [by apply not_elem_of_nil in Hin |]. cbn [flush_blocks].
  apply elem_of_cons in Hin as [<- | Hin].
  { unfold __evfs_cache_flush_block_if_dirty. by rewrite Hl. }
  destruct (__evfs_cache_flush_block_if_dirty hard_write l1 c d) as [[c1 d1]|] eqn:E; [|done]. cbn [mbind option_bind].
  apply IH; [done |]. revert E. unfold __evfs_cache_flush_block_if_dirty, set_node.
  destruct (heap c !! l1) as [n1|] eqn:E1; [|done]. cbn [mbind option_bind].
  case_decide; [|by intros [= <- _]]. destruct (hard_write _ _ d) as [[r d']|]; [|done]. cbn [mbind option_bind].
  destruct (list_del l1 _); [|done]. cbn [mbind option_bind]. intros [= <- _]. cbn [set_dirty set_heap heap].
  rewrite lookup_insert_ne; [done |]. intros ->. by rewrite E1 in Hl.
Qed.

(** C29: making the cache smaller while it holds clusters.  The request reports success,
    but the block used longest ago, which it frees, stays in the index and in the dirty
    list: the next search for its cluster reads the freed block, and so does the next
    flush if it was dirty.  And when the idle blocks alone would do, the blocks of all
    the clusters are freed, and every search reads a freed block. *)
Theorem set_block_num_dangling cs c n blocks l q : cache_ok cs c -> 0 <= n < cache_block_num c -> lru c = l :: q ->
  exists m c', heap c !! l = Some m /\
    __evfs_cache_set_block_num true n blocks c = (NSP_STATUS_SUCCESSFUL, c') /\
    heap c' !! l = None /\ __evfs_cache_search_lru (cluster_id m) c' = None /\
    (l ∈ dirty c -> forall D (hard_write : Z -> list Z -> D -> option (Z * D)) hard_flush d,
       __evfs_cache_flush_buffer_all hard_write hard_flush c' d = None) /\
    (cache_block_num c - n <= idle_count c ->
       lru c' = [] /\ (forall l', l' ∈ lru c -> heap c' !! l' = None) /\ forall id, __evfs_cache_search_lru id c' = None).
Proof.
  intros Hc Hn E. unfold __evfs_cache_set_block_num. cbn [negb orb].
  rewrite (proj2 (Z.ltb_ge n 0)), (proj2 (Z.ltb_ge (cache_block_num c) n)), (proj2 (Z.ltb_lt n (cache_block_num c))) by lia.
  destruct (free_idle_spec n (idle c) c) as (_ & H2 & H3 & H4 & H5 & H6 & H7). set (c1 := free_idle (idle c) n c) in *.
  destruct (free_lru_spec n (lru c1) c1) as (G1 & G2 & G3 & G4 & G5 & G6). set (c2 := free_lru (lru c1) n c1) in *.
  assert (heap c2 !! l = None) as Hl by (by apply (G5 l q); rewrite H4).
  assert (l ∈ lru c) as Hin by (rewrite E; constructor).
  destruct (lru_node cs c l Hc Hin) as (m & Hm & _). exists m, c2. split; [done |]. split; [done |]. split; [done |]. split; [|split].
  - unfold __evfs_cache_search_lru. rewrite G2, H3. destruct (co_tree _ _ Hc) as [_ Ho].
    rewrite (path_to_freed (heap c) (heap c2) l m); try done.
    + intros a k. intros Ha. eapply lookup_weaken; [exact Ha | by etrans].
    + apply (elem_index cs c _ Hc). eauto.
  - intros Hd D hard_write hard_flush d. unfold __evfs_cache_flush_buffer_all. rewrite G3, G4, H5, H6.
    destruct (co_counts _ _ Hc) as (_ & -> & _). rewrite (proj2 (Z.eqb_neq 0 _)).
    + by rewrite (flush_freed hard_write l).
    + destruct (dirty c); [by apply not_elem_of_nil in Hd |]. rewrite zlen_cons. pose proof (zlen_nonneg l0). lia.
  - rewrite (proj2 (proj2 (co_counts _ _ Hc))). intros Hi. rewrite H7 in G6 by lia. destruct G6 as [G6 G7]; [lia |].
    rewrite <- H4. split; [by apply G6 |]. split; [done |]. intros id. unfold __evfs_cache_search_lru. rewrite G2, H3.
    destruct (root_of_lru_index c) as [|tl x k tr] eqn:Et.
    { pose proof (co_elems _ _ Hc) as P. rewrite Et, E in P. by apply Permutation_nil_l in P. }
    assert (x ∈ elems (root_of_lru_index c)) as Hx by (rewrite Et; cbn; apply elem_of_app; right; constructor).
    apply (elem_index cs c x Hc) in Hx as (l' & -> & Hl'). cbn [path_alive leaf_alive].
    rewrite G7 by (by rewrite H4). done.
Qed.

Lemma cache0_ok cs : cache_ok cs evfs_cache0.
Proof.
  assert (forall l : nat, l ∉ []) as Hnil by (intros l; by apply not_elem_of_nil).
  split; cbn; try (intros l Hl; by destruct (Hnil l)); try (intros l n Hl; by destruct (Hnil l)); try done.
  - constructor.
  - apply search_tree_Null.
  - constructor.
  - intros l. split; [intros Hl | intros [Hl _]]; by destruct (Hnil l).
Qed.

(** ** A disk in memory to run it on: clusters of two bytes, that of 3 worn out *)
Definition plain_read (id : Z) (buf : list Z) (d : Z -> option (list Z)) : option (Z * list Z * (Z -> option (list Z))) :=
  b ← d id; Some (NSP_STATUS_SUCCESSFUL, write_at 0 b buf, d).
Definition plain_write (id : Z) (buf : list Z) (d : Z -> option (list Z)) : option (Z * (Z -> option (list Z))) :=
  if id =? 3 then Some (posix__makeerror EIO, d)
  else Some (NSP_STATUS_SUCCESSFUL, fun i => if decide (i = id) then Some (take 2 buf) else d i).
Definition plain_flush (d : Z -> option (list Z)) : Z * (Z -> option (list Z)) := (NSP_STATUS_SUCCESSFUL, d).
Definition plain_queries : hard_queries (Z -> option (list Z)) :=
  HardQueries _ (fun _ => Some 3) (fun _ => Some 2) (fun _ => -10) (fun _ => 8).
Definition plain_valid (d : Z -> option (list Z)) : Prop := forall id b, d id = Some b -> zlen b = 2.

Definition plain_lost (d : Z -> option (list Z)) (id : Z) : bool := id =? 3.

#[export] Instance plain_disk : HardDisk plain_read plain_write plain_flush 2 plain_valid (fun d => d) plain_lost.
Proof.
  split.
  - done.
  - intros d id b Hv. apply Hv.
  - intros id buf d b Hv Hb Hl. unfold plain_read. rewrite Hb. cbn [mbind option_bind]. do 3 eexists.
    split; [reflexivity |]. split; [done |]. split; [done |]. pose proof (zlen_nonneg buf).
    pose proof (Hv id b Hb). split; [rewrite write_at_len; lia | by right].
  - intros id buf d Hv Hd Hl. unfold plain_write. destruct (Z.eqb_spec id 3) as [-> | Hid].
    { do 2 eexists. split; [reflexivity |]. do 3 (split; [done |]). by right. }
    do 2 eexists. split; [reflexivity |]. split; [|split; [|split]].
    + intros i b. case_decide; [|apply Hv]. intros [= <-]. unfold zlen in *. rewrite length_take. lia.
    + intros i Hi. by rewrite decide_False.
    + rewrite decide_True by done. by eexists.
    + left. by rewrite decide_True.
  - done.
Qed.

Definition demo : Z -> option (list Z) := fun id => if (0 <? id) && (id <? 4) then Some [id; id] else None.
Definition demo_cache : cache :=
  match evfs_cache_init (fun _ _ d => Some (NSP_STATUS_SUCCESSFUL, d)) (fun d => Some (NSP_STATUS_SUCCESSFUL, d))
          (fun _ => Some 2) NSP_STATUS_SUCCESSFUL kEvmgrNotReady 1 None [[0; 0]] evfs_cache0 demo with
  | Some (_, _, c, _) => c
  | None => evfs_cache0
  end.
Lemma demo_valid : plain_valid demo.
Proof. intros id b. unfold demo. case_match; [|done]. by intros [= <-]. Qed.
Lemma demo_cache_ok : cache_ok 2 demo_cache /\ refines (fun d => d) plain_lost demo demo_cache demo.
Proof.
  destruct (init_ok 2 (fun d => d) plain_lost (fun _ _ d => Some (NSP_STATUS_SUCCESSFUL, d)) (fun d => Some (NSP_STATUS_SUCCESSFUL, d))
    (fun _ => Some 2) 1 None [[0; 0]] NSP_STATUS_SUCCESSFUL 2 evfs_cache0 demo demo) as (c1 & E & H); try done.
  { apply cache0_ok. }
  { by apply Forall_singleton. }
  unfold demo_cache. by rewrite E.
Qed.

(** One block for three clusters: the write to 3 is the one that does not arrive. *)
Definition demo_waits : list wakeup :=
  [Awakened [IoRead None 1 0 2; IoWrite None 2 [7] 1]; Expired; Awakened [IoWrite None 3 [9] 0; IoFlushBuffer 2]].
Definition demo_run : option (list reply * cache * (Z -> option (list Z))) :=
  __evfs_cache_thread_merge_io plain_read plain_write plain_flush (fun _ _ _ => None) (fun d => d) (fun _ => None) plain_queries
    demo_waits [IoRead None 2 0 2; IoWrite None 1 [5] 1] demo_cache demo.

Lemma cache_refines_disk_witness :
  (exists reps a' c' d', demo_run = Some (reps, c', d') /\
    seen_all (plain_lost d') (requests demo_waits [IoRead None 2 0 2; IoWrite None 1 [5] 1]) reps demo a') /\
  match demo_run with
  | Some (reps, c', d') =>
      match __evfs_cache_flush_buffer_all plain_write plain_flush c' d' with
      | Some (_, d'') => Some (map r_out reps, map d'' [1; 2; 3])
      | None => None
      end
  | None => None
  end = Some ([Some [1; 1]; None; None; None; Some [2; 7]; None], [Some [1; 5]; Some [2; 7]; Some [3; 3]]).
Proof.
  split; [|vm_compute; reflexivity]. destruct demo_cache_ok as [Hc Hr].
  destruct (cache_refines_disk plain_read plain_write plain_flush 2 plain_valid (fun d => d) plain_lost
    (fun _ _ _ => None) (fun d => d) (fun _ => None) plain_queries demo_waits [IoRead None 2 0 2; IoWrite None 1 [5] 1]
    demo demo_cache demo Hc Hr demo_valid) as (reps & a' & c' & d' & E & Hseen & _).
  { cbn [requests demo_waits app]. repeat (apply Forall_cons; split); try (apply Forall_nil; done); try done;
      (split; [done |]; split; [by eexists | done]). }
  exists reps, a', c', d'. unfold demo_run. split; [exact E | exact Hseen].
Defined.

(** The cache after cluster 1 was read is the one with its block in the lru list. *)
Definition warm_cache : cache :=
  match __evfs_cache_read plain_read plain_write None 1 0 2 demo_cache demo with
  | Some (_, _, c, _) => c
  | None => evfs_cache0
  end.
Lemma warm_cache_ok : cache_ok 2 warm_cache /\ exists a, refines (fun d => d) plain_lost a warm_cache demo.
Proof.
  destruct demo_cache_ok as [Hc Hr]. unfold warm_cache.
  destruct (cache_read_ok plain_read plain_write plain_flush 2 plain_valid (fun d => d) plain_lost demo None 1 0 2 demo_cache demo Hc Hr)
    as (r & out & c' & d' & a' & E & Hc' & _ & Hr' & _); [apply demo_valid | by eexists | by intros buf | done.. |].
  assert (match __evfs_cache_read plain_read plain_write None 1 0 2 demo_cache demo with
          | Some (_, _, _, d) => d | None => demo end = demo) as Ed by (vm_compute; reflexivity).
  rewrite E in *. subst d'. split; [done | by exists a'].
Qed.

Lemma cache_hit_witness : exists l n c', (l ∈ lru warm_cache) /\ heap warm_cache !! l = Some n /\
  __evfs_cache_write plain_read plain_write None (cluster_id n) [8] 1 warm_cache demo
    = Some (NSP_STATUS_SUCCESSFUL, c', demo) /\ l ∈ dirty c'.
Proof.
  destruct warm_cache_ok as [Hc [a Hr]]. set (l := 0%nat).
  assert (lru warm_cache = [l]) as Elru by (vm_compute; reflexivity).
  assert (l ∈ lru warm_cache) as Hl by (rewrite Elru; constructor).
  assert (heap warm_cache !! l = Some (CacheNode 1 kEvfsCacheBlockClean [1; 1])) as Hn by (vm_compute; reflexivity).
  destruct (cache_hit plain_read plain_write 2 (fun d => d) plain_lost a None warm_cache demo l (CacheNode 1 kEvfsCacheBlockClean [1; 1]) Hc Hr) as [_ Hw];
    [vm_compute; discriminate | exact Hl | exact Hn |].
  destruct (Hw [8] 1) as (c' & E & _ & _ & _ & Hd); [done | done |].
  exists l, (CacheNode 1 kEvfsCacheBlockClean [1; 1]), c'. split; [exact Hl |]. split; [exact Hn |]. split; [exact E | exact Hd].
Defined.

(** Three blocks, for the clusters 1, 2 and 3: when that of 1 is freed, a search for 3
    goes on as before, one for 1 does not. *)
Definition full_cache : cache :=
  match evfs_cache_init (fun _ _ d => Some (NSP_STATUS_SUCCESSFUL, d)) (fun d => Some (NSP_STATUS_SUCCESSFUL, d))
          (fun _ => Some 2) NSP_STATUS_SUCCESSFUL kEvmgrNotReady 3 None [[0; 0]; [0; 0]; [0; 0]] evfs_cache0 demo with
  | Some (_, _, c, d) =>
      match __evfs_cache_pop_task_until_empty plain_read plain_write plain_flush (fun _ _ _ => None) (fun d => d) (fun _ => None)
              plain_queries [IoRead None 1 0 2; IoRead None 2 0 2; IoRead None 3 0 2] c d with
      | Some (_, c, _) => c | None => evfs_cache0
      end
  | None => evfs_cache0
  end.
Lemma full_cache_ok : cache_ok 2 full_cache.
Proof.
  destruct (init_ok 2 (fun d => d) plain_lost (fun _ _ d => Some (NSP_STATUS_SUCCESSFUL, d)) (fun d => Some (NSP_STATUS_SUCCESSFUL, d))
    (fun _ => Some 2) 3 None [[0; 0]; [0; 0]; [0; 0]] NSP_STATUS_SUCCESSFUL 2 evfs_cache0 demo demo) as (c1 & E & Hc & Hr);
    [apply cache0_ok | reflexivity | lia | repeat constructor | reflexivity | reflexivity | reflexivity |].
  unfold full_cache. rewrite E.
  destruct (run_tasks_ok plain_read plain_write plain_flush 2 plain_valid (fun d => d) plain_lost (fun _ _ _ => None) (fun d => d)
    (fun _ => None) plain_queries [IoRead None 1 0 2; IoRead None 2 0 2; IoRead None 3 0 2] demo c1 demo Hc Hr demo_valid)
    as (reps & a' & c2 & d2 & -> & _ & Hc2 & _); [|done].
  repeat (apply Forall_cons; split); [.. | apply Forall_nil; done]; (split; [done |]; split; [by eexists | done]).
Qed.

Lemma set_block_num_dangling_witness : exists c', __evfs_cache_set_block_num true 2 [] full_cache = (NSP_STATUS_SUCCESSFUL, c') /\
  __evfs_cache_search_lru 1 c' = None /\ exists l, __evfs_cache_search_lru 3 c' = Some (Some l).
Proof.
  destruct (set_block_num_dangling 2 full_cache 2 [] 0%nat [1%nat; 2%nat] full_cache_ok) as (m & c' & Hm & E & _ & Hs & _).
  - split; [done |]. vm_compute. reflexivity.
  - vm_compute. reflexivity.
  - exists c'. split; [exact E |]. assert (cluster_id m = 1) as Em.
    { assert (cluster_id <$> heap full_cache !! 0%nat = Some 1) as H1 by (vm_compute; reflexivity).
      rewrite Hm in H1. injection H1 as H1. exact H1. }
    rewrite <- Em at 1. split; [exact Hs |].
    assert (c' = (__evfs_cache_set_block_num true 2 [] full_cache).2) as -> by (rewrite E; reflexivity).
    exists 2%nat. vm_compute. reflexivity.
Defined.
