(* ===== verification/CacheDisk.v ===== *)
(** The whole stack of evfs below its entries: [Cache] over [Cluster] over [Ifos].

    The disk under the cache is the manager of [Cluster] with the state of the
    operating system; it meets the contract [HardDisk] on every file whose clusters
    fill it.  The theorem follows an image through its life: created, worked on
    through the cache, closed, opened again. *)
From S2P Require Import Prelude AvlTree Ncb Ifos Cluster Cache.

Section CacheDisk.
Context {K : Type}.
Context (sys_read : Z -> Z -> K -> (list Z + Z) * K)
  (sys_write : Z -> list Z -> K -> answer * K)
  (sys_lseek : Z -> Z -> K -> answer * K)
  (sys_fsync : Z -> K -> answer * K)
  (sys_open : Z -> Z -> K -> answer * K)
  (sys_close : Z -> K -> K)
  (sys_fstat : Z -> K -> answer * K)
  (alloc : Z -> option (list Z))
  (content : K -> list Z) (pos : K -> Z).

Definition disk : Type := mgr * os K.
Implicit Types (d : disk).

Definition disk_read (id : Z) (buf : list Z) d : option (Z * list Z * disk) :=
  '(r, b, s) ← evfs_hard_read_cluster sys_read sys_lseek id buf d.1 d.2; Some (r, b, (d.1, s)).
Definition disk_read_head (id : Z) (buf : list Z) d : option (Z * list Z * disk) :=
  '(r, b, s) ← evfs_hard_read_cluster_head sys_read sys_lseek id buf d.1 d.2; Some (r, b, (d.1, s)).
Definition disk_write (id : Z) (buf : list Z) d : option (Z * disk) :=
  '(r, s) ← evfs_hard_write_cluster sys_write sys_lseek id buf d.1 d.2; Some (r, (d.1, s)).
Definition disk_flush d : Z * disk := let '(r, s) := evfs_hard_flush sys_fsync d.1 d.2 in (r, (d.1, s)).
Definition disk_close d : disk := evfs_hard_close sys_fsync sys_close d.1 d.2.
Definition disk_expand d : option (Z * option Z * disk) :=
  '(n, first, m, s) ← evfs_hard_expand sys_write sys_lseek sys_fsync alloc d.1 d.2; Some (n, first, (m, s)).
Definition disk_create (size count : Z) d : option (Z * disk) :=
  '(r, m, s) ← evfs_hard_create sys_write sys_lseek sys_fsync sys_open sys_close alloc size count d.1 d.2;
  Some (r, (m, s)).
Definition disk_open d : option (Z * disk) :=
  '(r, m, s) ← evfs_hard_open sys_read sys_open sys_close sys_fstat alloc d.1 d.2; Some (r, (m, s)).
Definition disk_cluster_size d : option Z := evfs_hard_get_cluster_size d.1.
Definition disk_queries : hard_queries disk := {|
  hard_get_usable_cluster_count d := evfs_hard_get_usable_cluster_count d.1;
  hard_get_cluster_size := disk_cluster_size;
  hard_get_max_data_seg_size d := evfs_hard_get_max_data_seg_size d.1;
  hard_get_filesize d := evfs_hard_get_filesize d.1;
|}.

(** A ready manager of [n] clusters of [cs] bytes, and the clusters. *)
Definition disk_ok (cs n e : Z) d : Prop := hard_ok content cs n e d.1 d.2.
Definition disk_clusters (cs n : Z) d (id : Z) : option (list Z) :=
  if decide (0 <= id < n) then Some (cluster cs id (content (kern d.2))) else None.

Lemma disk_clusters_same cs n d d' : content (kern d'.2) = content (kern d.2) ->
  forall i, disk_clusters cs n d' i = disk_clusters cs n d i.
Proof. intros E i. unfold disk_clusters. by rewrite E. Qed.

(** The header is in memory and in cluster 0. *)
Definition titled (cs n e : Z) d : Prop :=
  (exists b, the_first_cluster d.1 = Some b /\ header cs n e b) /\ header cs n e (cluster cs 0 (content (kern d.2))).

Lemma titled_same cs n e d d' : d'.1 = d.1 -> cluster cs 0 (content (kern d'.2)) = cluster cs 0 (content (kern d.2)) ->
  titled cs n e d -> titled cs n e d'.
Proof. unfold titled. by intros -> ->. Qed.

Lemma cluster0_int cs c off : 32 <= cs <= zlen c -> 0 <= off -> off + 4 <= 32 -> get_int off (cluster cs 0 c) = get_int off c.
Proof. intros H1 H2 H3. unfold cluster. rewrite Z.mul_0_l. apply get_int_prefix; lia. Qed.

Lemma hard_ok_same cs n e m s s' : content (kern s') = content (kern s) -> hard_ok content cs n e m s -> hard_ok content cs n e m s'.
Proof. intros E [H1 H2 H3 H4 H5 H6 H7]. split; try done. by rewrite E. Qed.

Context `{!File sys_read sys_write sys_lseek sys_fsync content pos} `{!Healthy sys_write sys_lseek}.

#[export] Instance disk_hard cs n e : 32 <= cs <= 4096 ->
  HardDisk disk_read disk_write disk_flush cs (disk_ok cs n e) (disk_clusters cs n) (fun _ _ => false).
Proof.
  intros Hcs. split.
  - lia.
  - intros d id b [_ _ _ _ _ (Hb & Hn & Hm) [_ Hlen]]. unfold disk_clusters. case_decide as Hid; [|done]. intros [= <-].
    destruct (cluster_range cs n id Hb Hn Hm Hid) as (R1 & R2 & _). apply read_at_len; lia.
  - intros id buf d b Hv. unfold disk_clusters at 1. case_decide as Hid; [|done]. intros [= <-] Hbuf.
    destruct (evfs_hard_read_cluster_ok _ _ _ _ content pos cs n e id buf d.1 d.2 Hv Hid Hbuf) as (r & b & s' & E & Hc & Hl & Hr).
    exists r, b, (d.1, s'). unfold disk_read. rewrite E. split; [done |]. split; [by apply (hard_ok_same _ _ _ _ d.2) |].
    split; [intros i; split; [by apply disk_clusters_same | done] |]. done.
  - intros id buf d Hv. unfold disk_clusters at 1. case_decide as Hid; [|by intros [? ?]]. intros _ Hbuf.
    pose proof Hv as [_ _ _ _ _ (Hb & Hn & Hm) [_ Hlen]].
    destruct (evfs_hard_write_cluster_ok _ _ _ _ content pos cs n e id buf d.1 d.2 Hv Hid Hbuf) as (s' & E & Hc & Hok).
    exists NSP_STATUS_SUCCESSFUL, (d.1, s'). unfold disk_write. rewrite E. split; [done |]. split; [done |]. unfold disk_clusters. cbn [snd].
    assert (zlen (take (Z.to_nat cs) buf) = cs) as Ht by (unfold zlen in *; rewrite length_take; lia).
    rewrite Hc. rewrite decide_True by done. split; [|split; [by eexists |]].
    + intros i Hi. split; [|done]. case_decide; [|done]. rewrite (cluster_write cs n) by done. by rewrite decide_False.
    + left. split; [done |]. split; [|done]. rewrite (cluster_write cs n) by done. by rewrite decide_True.
  - intros d Hv. pose proof (ok_ready _ _ _ _ _ _ Hv) as Hr. unfold disk_flush, evfs_hard_flush. rewrite Hr. cbn [negb].
    destruct (ifos_file_flush_ok _ _ _ _ content pos (fd d.1) d.2) as (r & s' & -> & Hc). cbn [snd]. split.
    + by apply (hard_ok_same _ _ _ _ d.2).
    + intros i. split; [by apply disk_clusters_same | done].
Qed.
End CacheDisk.

(** The entry points take no request for the header cluster. *)
Definition above_header (task : io_task) : Prop :=
  match task with IoRead _ id _ _ | IoWrite _ id _ _ => 0 < id | _ => True end.

Lemma seen_header task rep a a' : seen task rep a a' -> above_header task -> a' 0 = a 0.
Proof. intros H Ht. destruct H; try done. cbn in Ht. unfold written. by rewrite decide_False by lia. Qed.

Lemma seen_all_header gone tasks reps a a' : gone 0 = false -> seen_all gone tasks reps a a' ->
  Forall above_header tasks -> a' 0 = a 0.
Proof.
  intros Hg. induction 1 as [a a' H | task rep tasks reps a0 a1 a2 a3 H0 H _ IH]; [intros _; by apply H |].
  intros [Ht Hts]%Forall_cons. rewrite (IH Hts), <- (H0 0 Hg). by eapply seen_header.
Qed.

Section Session.
Context {K : Type}.
Context (sys_read : Z -> Z -> K -> (list Z + Z) * K)
  (sys_write : Z -> list Z -> K -> answer * K)
  (sys_lseek : Z -> Z -> K -> answer * K)
  (sys_fsync : Z -> K -> answer * K)
  (sys_open : Z -> Z -> K -> answer * K)
  (sys_close : Z -> K -> K)
  (sys_fstat : Z -> K -> answer * K)
  (alloc : Z -> option (list Z))
  (content : K -> list Z) (pos : K -> Z)
  `{!Path sys_read sys_write sys_lseek sys_fsync sys_open sys_close sys_fstat alloc content pos}.
#[local] Abbreviation start creator :=
  (fun num blocks => evfs_cache_init (disk_create sys_write sys_lseek sys_fsync sys_open sys_close alloc)
     (disk_open sys_read sys_open sys_close sys_fstat alloc) disk_cluster_size NSP_STATUS_SUCCESSFUL kEvmgrNotReady
     num creator blocks).
#[local] Abbreviation work := (__evfs_cache_thread_merge_io (disk_read sys_read sys_lseek) (disk_write sys_write sys_lseek)
  (disk_flush sys_fsync) (disk_read_head sys_read sys_lseek) (disk_close sys_fsync sys_close)
  (disk_expand sys_write sys_lseek sys_fsync alloc) disk_queries).
#[local] Abbreviation stop := (evfs_cache_uninit (disk_read sys_read sys_lseek) (disk_write sys_write sys_lseek)
  (disk_flush sys_fsync) (disk_read_head sys_read sys_lseek) (disk_close sys_fsync sys_close)
  (disk_expand sys_write sys_lseek sys_fsync alloc) disk_queries).

(** A closed image whose header is in place opens again. *)
Lemma reopen_ok cs n e d : 92 <= cs <= MAXIMUM_CLUSTER_SIZE ->
  disk_ok content cs n e d -> header cs n e (cluster cs 0 (content (kern d.2))) ->
  exists d', disk_open sys_read sys_open sys_close sys_fstat alloc (disk_close sys_fsync sys_close d)
      = Some (NSP_STATUS_SUCCESSFUL, d') /\ disk_ok content cs n e d' /\ content (kern d'.2) = content (kern d.2) /\
    0 < fd d'.1 /\ Cluster.max_data_seg_size d'.1 = cs - 12 /\ titled content cs n e d'.
Proof.
  intros Hcs Hok Hhdr. destruct d as [m s]. cbn [snd] in *. unfold disk_close. cbn [fst snd].
  destruct (close_ok sys_read sys_write sys_lseek sys_fsync sys_open sys_close sys_fstat alloc content pos m s) as [Hc2 Hm2].
  destruct (evfs_hard_close _ _ m s) as [m2 s2]. cbn [fst snd] in Hc2, Hm2.
  pose proof (ok_fsize _ _ _ _ _ _ Hok) as [_ Hlen]. pose proof (ok_bounds _ _ _ _ _ _ Hok) as (_ & Hn & Hmax). cbn [snd] in Hlen.
  change MAXIMUM_CLUSTER_SIZE with 4096 in *.
  destruct (open_ok sys_read sys_write sys_lseek sys_fsync sys_open sys_close sys_fstat alloc content pos cs n e m2 s2)
    as [Hopen _]; try done.
  - change MINIMUM_CLUSTER_SIZE with 32. change MAXIMUM_CLUSTER_SIZE with 4096. lia.
  - by rewrite Hc2.
  - nia.
  - apply (header_same _ _ _ (cluster cs 0 (content (kern s)))); [|done]. intros off H1 H2. rewrite Hc2. symmetry. apply cluster0_int; nia.
  - destruct (Hopen (proj1 Hcs)) as (m3 & s3 & E & Hok3 & Hc3 & Hf & Hx & Hb). exists (m3, s3). unfold disk_open. cbn [fst snd].
    rewrite E. split; [done |]. split; [exact Hok3 |]. cbn [snd]. split; [by rewrite Hc3 |]. split; [done |]. split; [done |].
    split; [exact Hb |]. cbn [snd]. by rewrite Hc3, Hc2.
Qed.

(** C6: the life of an image of clusters of 128 to 4096 bytes (evfs_hard_create makes some
    of 32 and 64 too, but opening those again overflows a buffer), on a kernel whose calls
    all work.  A fresh image of [count] clusters starts, its clusters zero.  Whatever
    requests to read and write within a cluster above the header, to flush and to add
    blocks come to the worker, each is answered as by a plain disk [a]; stopping writes
    back what is dirty and closes the file; and the image opens again, with exactly the
    clusters of [a] behind an empty cache.  Requests that pass the cache by, that make the
    disk grow or the cache shrink are not among them. *)
Theorem evfs_session cs count num blocks waits left pending s :
  92 <= cs <= MAXIMUM_CLUSTER_SIZE -> is_powerof_2 cs = true -> 0 < count -> cs * count < MAXIMUM_FILE_SIZE ->
  0 <= num -> Forall (fun b => zlen b = cs) blocks -> pending < EVFS_MAX_IO_PENDING_COUNT ->
  exists c1 d1, start (Some (cs, count)) num blocks evfs_cache0 (evfs_mgr0, s)
      = Some (NSP_STATUS_SUCCESSFUL, kEvmgrReady, c1, d1) /\
    (forall id, 0 < id < count -> disk_clusters content cs count d1 id = Some (replicate (Z.to_nat cs) 0)) /\
    (Forall (task_ok cs (disk_clusters content cs count) d1) (requests waits left) ->
     Forall above_header (requests waits left) ->
     exists reps a c2 d2 c3 d3 c4 d4, work waits left c1 d1 = Some (reps, c2, d2) /\
       seen_all (fun _ => false) (requests waits left) reps (disk_clusters content cs count d1) a /\
       stop (Env true true false pending) c2 d2 = Some (c3, d3) /\
       start None num blocks c3 d3 = Some (NSP_STATUS_SUCCESSFUL, kEvmgrReady, c4, d4) /\
       (forall id, disk_clusters content cs count d4 id = a id) /\
       cache_ok cs c4 /\ refines (disk_clusters content cs count) (fun _ _ => false) a c4 d4).
Proof.
  intros Hcs Hpow Hn Hmax Hnum Hbl Hp. change MAXIMUM_CLUSTER_SIZE with 4096 in *.
  assert (32 <= cs <= 4096) as Hb by lia.
  pose proof (disk_hard sys_read sys_write sys_lseek sys_fsync content pos cs count count Hb) as Hdisk.
  destruct (create_ok sys_read sys_write sys_lseek sys_fsync sys_open sys_close sys_fstat alloc content pos
    cs count evfs_mgr0 s) as (m1 & s1 & first & E & Hok & _ & _ & Hc & Hl & _ & Hhdr); try done.
  set (d1 := (m1, s1)). assert (disk_ok content cs count count d1) as Hv by exact Hok.
  assert (forall d, disk_ok content cs count count d -> disk_cluster_size d = Some cs) as Hsize.
  { intros d Hd. unfold disk_cluster_size, evfs_hard_get_cluster_size.
    by rewrite (ok_ready _ _ _ _ _ _ Hd), (ok_cs _ _ _ _ _ _ Hd). }
  destruct (init_ok cs (disk_clusters content cs count) (fun _ _ => false) (disk_create sys_write sys_lseek sys_fsync sys_open sys_close alloc)
    (disk_open sys_read sys_open sys_close sys_fstat alloc) disk_cluster_size num (Some (cs, count)) blocks
    NSP_STATUS_SUCCESSFUL cs evfs_cache0 (evfs_mgr0, s) d1) as (c1 & E1 & Hc1 & Hr1);
    [apply cache0_ok | done | done | done | unfold disk_create; cbn [fst snd]; by rewrite E | done | by apply Hsize |].
  exists c1, d1. split; [exact E1 |]. split.
  { intros id Hid. unfold disk_clusters. rewrite decide_True by lia. cbn [snd d1]. rewrite Hc. f_equal.
    unfold cluster, read_at. rewrite drop_app_ge by (unfold zlen in *; nia).
    rewrite drop_replicate, take_replicate. f_equal. unfold zlen in *. nia. }
  intros Ht Habove.
  destruct (thread_ok (disk_read sys_read sys_lseek) (disk_write sys_write sys_lseek) (disk_flush sys_fsync) cs
    (disk_ok content cs count count) (disk_clusters content cs count) (fun _ _ => false) (disk_read_head sys_read sys_lseek)
    (disk_close sys_fsync sys_close) (disk_expand sys_write sys_lseek sys_fsync alloc) disk_queries waits left
    _ c1 d1 Hc1 Hr1 Hv Ht) as (reps & a & c2 & d2 & E2 & Hseen & Hc2 & Hr2 & Hv2 & _).
  destruct (uninit_ok (disk_read sys_read sys_lseek) (disk_write sys_write sys_lseek) (disk_flush sys_fsync) cs
    (disk_ok content cs count count) (disk_clusters content cs count) (fun _ _ => false) (disk_read_head sys_read sys_lseek)
    (disk_close sys_fsync sys_close) (disk_expand sys_write sys_lseek sys_fsync alloc) disk_queries a pending c2 d2 Hp Hc2 Hr2 Hv2)
    as (c3 & d3 & E3 & Hv3 & Hcl3 & Hc3 & El3).
  pose proof (seen_all_header _ _ _ _ _ eq_refl Hseen Habove) as H0. pose proof (fun i => Hcl3 i eq_refl) as Hcl3'. clear Hcl3. rename Hcl3' into Hcl3.
  destruct (reopen_ok cs count count d3) as (d4 & E4 & Hv4 & Hc4 & _); try done.
  { specialize (Hcl3 0). rewrite H0 in Hcl3. unfold disk_clusters in Hcl3. rewrite !decide_True in Hcl3 by lia. injection Hcl3 as ->.
    cbn [snd d1]. rewrite Hc. unfold cluster, read_at. rewrite Z.mul_0_l. change (Z.to_nat 0) with 0%nat. rewrite drop_0.
    by rewrite take_app_length' by (unfold zlen in Hl; lia). }
  destruct (init_ok cs (disk_clusters content cs count) (fun _ _ => false) (disk_create sys_write sys_lseek sys_fsync sys_open sys_close alloc)
    (disk_open sys_read sys_open sys_close sys_fstat alloc) disk_cluster_size num None blocks
    NSP_STATUS_SUCCESSFUL cs c3 (disk_close sys_fsync sys_close d3) d4) as (c4 & E5 & Hc5 & Hr5);
    [done | done | done | done | exact E4 | done | by apply Hsize |].
  assert (forall id, disk_clusters content cs count d4 id = a id) as Hd4.
  { intros id. rewrite <- Hcl3. by apply disk_clusters_same. }
  exists reps, a, c2, d2, c3, (disk_close sys_fsync sys_close d3), c4, d4.
  split; [exact E2 |]. split; [done |]. split; [exact E3 |]. split; [exact E5 |]. split; [done |]. split; [done |].
  by apply (refines_ext (disk_clusters content cs count) (fun _ _ => false) (disk_clusters content cs count d4)).
Qed.
End Session.

(** ** An image of four clusters, a cache of one block *)
Definition image_start (creator : option (Z * Z)) (c : cache) (d : disk) : option (Z * Z * cache * disk) :=
  evfs_cache_init (disk_create demo_write demo_lseek demo_fsync demo_open demo_close demo_alloc)
    (disk_open demo_read demo_open demo_close demo_fstat demo_alloc) disk_cluster_size NSP_STATUS_SUCCESSFUL kEvmgrNotReady
    1 creator [replicate 128 170] c d.
Definition image_waits : list wakeup :=
  [Awakened [IoWrite None 1 [7; 8] 12; IoRead None 2 0 4]; Expired; Awakened [IoWrite None 3 [9] 127]].
Definition image_work (c : cache) (d : disk) : option (list reply * cache * disk) :=
  __evfs_cache_thread_merge_io (disk_read demo_read demo_lseek) (disk_write demo_write demo_lseek)
    (disk_flush demo_fsync) (disk_read_head demo_read demo_lseek) (disk_close demo_fsync demo_close)
    (disk_expand demo_write demo_lseek demo_fsync demo_alloc) disk_queries image_waits [IoRead None 1 12 2] c d.
Definition image_stop (c : cache) (d : disk) : option (cache * disk) :=
  evfs_cache_uninit (disk_read demo_read demo_lseek) (disk_write demo_write demo_lseek)
    (disk_flush demo_fsync) (disk_read_head demo_read demo_lseek) (disk_close demo_fsync demo_close)
    (disk_expand demo_write demo_lseek demo_fsync demo_alloc) disk_queries (Env true true false 0) c d.
Definition image_life : option (list (option (list Z)) * list Z * Z) :=
  '(_, _, c, d) ← image_start (Some (128, 4)) evfs_cache0 (evfs_mgr0, Os (Disk [] 0) 0);
  '(reps, c, d) ← image_work c d;
  '(c, d) ← image_stop c d;
  '(_, r, _, d) ← image_start None c d;
  Some (map r_out reps, read_at (128 + 12) 2 (stored (kern d.2)) ++ read_at (3 * 128 + 126) 2 (stored (kern d.2)), r).

Lemma evfs_session_witness :
  (exists c1 d1 reps c2 d2 c3 d3 c4 d4,
     image_start (Some (128, 4)) evfs_cache0 (evfs_mgr0, Os (Disk [] 0) 0) = Some (NSP_STATUS_SUCCESSFUL, kEvmgrReady, c1, d1) /\
     image_work c1 d1 = Some (reps, c2, d2) /\ image_stop c2 d2 = Some (c3, d3) /\
     image_start None c3 d3 = Some (NSP_STATUS_SUCCESSFUL, kEvmgrReady, c4, d4)) /\
  image_life = Some ([None; Some [0; 0; 0; 0]; None; Some [7; 8]], [7; 8; 0; 9], kEvmgrReady).
Proof.
  split; [|vm_compute; reflexivity].
  destruct (evfs_session demo_read demo_write demo_lseek demo_fsync demo_open demo_close demo_fstat demo_alloc stored demo_pos
    128 4 1 [replicate 128 170] image_waits [IoRead None 1 12 2] 0 (Os (Disk [] 0) 0)) as (c1 & d1 & E1 & Hz & H);
    [done | done | done | done | done | by apply Forall_singleton | done |].
  destruct H as (reps & a & c2 & d2 & c3 & d3 & c4 & d4 & E2 & _ & E3 & E4 & _).
  - cbn [requests image_waits app].
    repeat (apply Forall_cons; split); [.. | apply Forall_nil; exact I];
      (split; [intros buf; discriminate |]; split; [rewrite Hz by lia; by eexists |]); unfold zlen; cbn [length]; lia.
  - cbn [requests image_waits app]. repeat (apply Forall_cons; split); try apply Forall_nil; done.
  - exists c1, d1, reps, c2, d2, c3, d3, c4, d4.
    split; [exact E1 |]. split; [exact E2 |]. split; [exact E3 | exact E4].
Defined.
