(* ===== verification/View.v ===== *)
(** The clusters of evfs as views: addons/evfs/view.c.

    A view is the head of a cluster held in memory, on the list of the idle or of the
    busy ones, and in a tree.  Views are made with the ids of the clusters, each once,
    so a pointer to a view is its id here, and [None] stands for following a pointer to
    a view that is not there.  What view.c asks of the cache is the record [store],
    what it relies on the class [StoreOk]; [plain_store] below meets it, and so does the
    cache over its disk ([EvfsStore]). *)
From S2P Require Import Prelude AvlTree Ifos Cluster.

(** struct evfs_cluster in memory and on the disk. *)
Record evfs_cluster := EvfsCluster { seg : Z; next : Z; head_id : Z }.
Definition evfs_cluster0 : evfs_cluster := EvfsCluster 0 0 0.
Definition cluster_bytes (c : evfs_cluster) : list Z := le_bytes 4 (seg c) ++ le_bytes 4 (next c) ++ le_bytes 4 (head_id c).
Definition cluster_of (b : list Z) : option evfs_cluster :=
  d ← get_int data_seg_size b; n ← get_int next_cluster_id b; h ← get_int head_cluster_id b; Some (EvfsCluster d n h).

Definition set_seg (d : Z) (c : evfs_cluster) : evfs_cluster := EvfsCluster d (next c) (head_id c).
Definition set_next_id (n : Z) (c : evfs_cluster) : evfs_cluster := EvfsCluster (seg c) n (head_id c).
Definition set_head_id (h : Z) (c : evfs_cluster) : evfs_cluster := EvfsCluster (seg c) (next c) h.

Definition evfs_cluster_looks_like_busy (c : evfs_cluster) : bool := negb (0 =? seg c) || (0 <? head_id c).

(** What view.c calls: usable clusters, cluster size and bytes of user data in one; then
    the calls of the cache, each with the status first. *)
Record stat := Stat { hard_cluster_count : Z; hard_cluster_size : Z; hard_max_data_seg_size : Z }.
Record store (S : Type) := Store {
  cache_hard_state : S -> option (Z * stat);
  cache_read_head_directly : Z -> S -> option (Z * list Z * S);
  cache_expand : S -> option (Z * Z * S);
  cache_write_head : Z -> list Z -> S -> option (Z * S);
  cache_write : Z -> list Z -> Z -> S -> option (Z * S);
  cache_write_userdata : Z -> list Z -> Z -> S -> option (Z * S);
  cache_read_userdata : Z -> Z -> Z -> S -> option (Z * option (list Z) * S);
  cache_flush_block : Z -> S -> option S;
  hard_allocate_cluster : list Z -> S -> option (option (list Z));
}.
Arguments cache_hard_state {S}. Arguments cache_read_head_directly {S}. Arguments cache_expand {S}.
Arguments cache_write_head {S}. Arguments cache_write {S}. Arguments cache_write_userdata {S}.
Arguments cache_read_userdata {S}. Arguments cache_flush_block {S}. Arguments hard_allocate_cluster {S}.

(** [__evfs_view_mgr], and the views. *)
Record views := Views {
  nodes : gmap Z evfs_cluster;
  root_of_view_tree : tree Z;
  busylist : list Z; idlelist : list Z;
  count_of_busy_views : Z; count_of_idle_views : Z;
  total_cluster_count : Z; cluster_size : Z; max_data_seg_size : Z;
}.
Definition views0 : views := Views ∅ Null [] [] 0 0 0 0 0.

Definition set_nodes (h : gmap Z evfs_cluster) (v : views) : views :=
  Views h (root_of_view_tree v) (busylist v) (idlelist v) (count_of_busy_views v) (count_of_idle_views v)
    (total_cluster_count v) (cluster_size v) (max_data_seg_size v).
Definition set_tree (t : tree Z) (v : views) : views :=
  Views (nodes v) t (busylist v) (idlelist v) (count_of_busy_views v) (count_of_idle_views v)
    (total_cluster_count v) (cluster_size v) (max_data_seg_size v).
Definition set_busy (q : list Z) (n : Z) (v : views) : views :=
  Views (nodes v) (root_of_view_tree v) q (idlelist v) n (count_of_idle_views v)
    (total_cluster_count v) (cluster_size v) (max_data_seg_size v).
Definition set_idle (q : list Z) (n : Z) (v : views) : views :=
  Views (nodes v) (root_of_view_tree v) (busylist v) q (count_of_busy_views v) n
    (total_cluster_count v) (cluster_size v) (max_data_seg_size v).
Definition set_total (n : Z) (v : views) : views :=
  Views (nodes v) (root_of_view_tree v) (busylist v) (idlelist v) (count_of_busy_views v) (count_of_idle_views v)
    n (cluster_size v) (max_data_seg_size v).
Definition set_sizes (cs m : Z) (v : views) : views :=
  Views (nodes v) (root_of_view_tree v) (busylist v) (idlelist v) (count_of_busy_views v) (count_of_idle_views v)
    (total_cluster_count v) cs m.

Definition __evfs_view_compare (left right : Z) : Z :=
  if right <? left then 1 else if left <? right then -1 else 0.

Definition __evfs_view_insert_new_idle (id : Z) (c : evfs_cluster) (v : views) : option views :=
  t ← avlinsert (root_of_view_tree v) (Some id) (Some __evfs_view_compare);
  Some (set_idle (idlelist v ++ [id]) (count_of_idle_views v + 1) (set_tree t (set_nodes (<[id := c]> (nodes v)) v))).

(** Taking a view out of the tree and freeing it; the caller takes it off its list. *)
Definition free_view (id : Z) (v : views) : option views :=
  '(t, _) ← avlremove (root_of_view_tree v) (Some id) None (Some __evfs_view_compare);
  Some (set_nodes (delete id (nodes v)) (set_tree t v)).

(** Freeing the idle views; [counted] says whether the counter follows. *)
Fixpoint free_idle_views (counted : bool) (q : list Z) (v : views) : option views :=
  match q with
  | [] => Some v
  | id :: q =>
      v ← free_view id (set_idle q (if counted then count_of_idle_views v - 1 else count_of_idle_views v) v);
      free_idle_views counted q v
  end.
Fixpoint free_busy_views (q : list Z) (v : views) : option views :=
  match q with
  | [] => Some v
  | id :: q => v ← free_view id (set_busy q (count_of_busy_views v - 1) v); free_busy_views q v
  end.

(** A field of the head of a view. *)
Definition update (id : Z) (f : evfs_cluster -> evfs_cluster) (v : views) : option views :=
  c ← nodes v !! id; Some (set_nodes (<[id := f c]> (nodes v)) v).

Definition evfs_view_get_next_cluster_id (view : option Z) (v : views) : option Z :=
  match view with None => Some 0 | Some id => c ← nodes v !! id; Some (next c) end.
Definition evfs_view_get_data_seg_size (view : option Z) (v : views) : option Z :=
  match view with
  | None => Some 0
  | Some id => c ← nodes v !! id; Some (if seg c <? 0 then Z.land (u32 (seg c)) 0x7fffffff else seg c)
  end.
Definition evfs_view_get_head_cluster_id (view : option Z) (v : views) : option Z :=
  match view with None => Some (-1) | Some id => c ← nodes v !! id; Some (head_id c) end.
Definition evfs_view_get_viewid (view : option Z) : Z := match view with None => -1 | Some id => id end.
Definition evfs_view_get_max_data_seg_size (v : views) : Z := max_data_seg_size v.
Definition evfs_view_transfer_size_to_cluster_count (size : Z) (v : views) : Z :=
  if (size <=? 0) || (max_data_seg_size v <=? 0) then 0
  else Z.quot size (max_data_seg_size v) + (if 0 =? Z.rem size (max_data_seg_size v) then 0 else 1).
Definition evfs_view_looks_like_head (view : option Z) (v : views) : option bool :=
  match view with None => Some false | Some id => c ← nodes v !! id; Some (negb (Z.land (u32 (seg c)) 0x80000000 =? 0)) end.

Definition head_data_seg_size (size : Z) : Z := if size <=? 0 then size else s32 (Z.lor size 0x80000000).
Definition element_data_seg_size (size : Z) : Z := if 0 <=? size then size else Z.land (u32 size) 0x7fffffff.

Section View.
Context {S : Type} (st : store S).
Implicit Types (v : views) (s : S) (id : Z).

(** Heads are written whole. *)
Definition write_head (id : Z) v s : option (Z * S) :=
  c ← nodes v !! id; cache_write_head st id (cluster_bytes c) s.

(** [mem]: for which clusters a view can be allocated; [junk] is what it holds then. *)
Fixpoint create_views (mem : Z -> bool) (junk : Z -> evfs_cluster) (ids : list Z) v : option (bool * views) :=
  match ids with
  | [] => Some (true, v)
  | id :: ids =>
      if mem id then v ← __evfs_view_insert_new_idle id (junk id) v; create_views mem junk ids v else Some (false, v)
  end.

Definition cluster_ids (n : Z) : list Z := (fun k => Z.of_nat k) <$> seq 1 (Z.to_nat n).

(** EEXIST is positive here. *)
Definition evfs_view_create (mem : Z -> bool) (junk : Z -> evfs_cluster) v s : option (Z * views) :=
  if 0 <? total_cluster_count v then Some (EEXIST, v)
  else
    '(status, stat) ← cache_hard_state st s;
    if negb (NSP_SUCCESS status) then Some (status, v)
    else if negb (total_cluster_count v =? 0) then Some (EEXIST, v)
    else
      '(ok, v) ← create_views mem junk (cluster_ids (hard_cluster_count stat)) (set_total (hard_cluster_count stat) v);
      if (ok : bool) then Some (NSP_STATUS_SUCCESSFUL, set_sizes (hard_cluster_size stat) (hard_max_data_seg_size stat) v)
      else v ← free_idle_views true (idlelist v) v; Some (posix__makeerror ENOMEM, v).

(** Every head is read from the disk; the status of the first failure. *)
Fixpoint load_views (mem : Z -> bool) (ids : list Z) v s : option (Z * views * S) :=
  match ids with
  | [] => Some (NSP_STATUS_SUCCESSFUL, v, s)
  | id :: ids =>
      '(status, b, s) ← cache_read_head_directly st id s;
      if negb (NSP_SUCCESS status) then Some (status, v, s)
      else if negb (mem id) then Some (posix__makeerror ENOMEM, v, s)
      else c ← cluster_of b; v ← __evfs_view_insert_new_idle id c v; load_views mem ids v s
  end.

(** The callback works on the state [E] of its owner, on the views and the cache. *)
Section Load.
Context {E : Type} (on_loaded : option (Z -> views -> E -> S -> option (views * E * S))).
Fixpoint recognize (ids : list Z) v (e : E) s : option (views * E * S) :=
  match ids with
  | [] => Some (v, e, s)
  | id :: ids =>
      c ← nodes v !! id;
      if evfs_cluster_looks_like_busy c then
        q ← list_del id (idlelist v);
        let v := set_busy (busylist v ++ [id]) (count_of_busy_views v + 1) (set_idle q (count_of_idle_views v - 1) v) in
        '(v, e, s) ← match on_loaded with Some f => f id v e s | None => Some (v, e, s) end;
        recognize ids v e s
      else recognize ids v e s
  end.
Definition __evfs_view_recognize_and_move_to_busy v (e : E) s : option (views * E * S) := recognize (idlelist v) v e s.

(** When it fails the counter of idle views stays. *)
Definition evfs_view_load (mem : Z -> bool) v (e : E) s : option (Z * views * E * S) :=
  '(status, stat) ← cache_hard_state st s;
  if negb (NSP_SUCCESS status) then Some (status, v, e, s)
  else if negb (total_cluster_count v =? 0) then Some (EEXIST, v, e, s)
  else
    '(status, v, s) ← load_views mem (cluster_ids (hard_cluster_count stat)) (set_total (hard_cluster_count stat) v) s;
    if NSP_SUCCESS status then
      '(v, e, s) ← __evfs_view_recognize_and_move_to_busy v e s;
      Some (status, set_sizes (hard_cluster_size stat) (hard_max_data_seg_size stat) v, e, s)
    else v ← free_idle_views false (idlelist v) v; Some (status, v, e, s).
End Load.

(** The views of new clusters; one without memory is left out. *)
Fixpoint expand_views (mem : Z -> bool) (ids : list Z) v : option views :=
  match ids with
  | [] => Some v
  | id :: ids => v ← (if mem id then __evfs_view_insert_new_idle id evfs_cluster0 v else Some v); expand_views mem ids v
  end.
Definition evfs_view_expand (mem : Z -> bool) v s : option (Z * views * S) :=
  '(n, first, s) ← cache_expand st s;
  if n <=? 0 then Some (NSP_STATUS_FATAL, v, s)
  else v ← expand_views mem ((fun k => first + Z.of_nat k) <$> seq 0 (Z.to_nat n)) v; Some (NSP_STATUS_SUCCESSFUL, v, s).

Definition evfs_view_uninit v : option views :=
  if total_cluster_count v <=? 0 then Some (set_total 0 v)
  else v ← free_busy_views (busylist v) (set_total 0 v); free_idle_views true (idlelist v) v.

(** The counts for the pointers that are given. *)
Definition evfs_view_get_count v : option (Z * Z) :=
  if total_cluster_count v <=? 0 then None else Some (count_of_idle_views v, count_of_busy_views v).

(** The view comes off the list it is in, but the busy ones are counted down. *)
Definition evfs_view_move_to_idle (view : option Z) v s : option (Z * views * S) :=
  match view with
  | None => Some (posix__makeerror EINVAL, v, s)
  | Some id =>
      if total_cluster_count v <=? 0 then Some (posix__makeerror EINVAL, v, s)
      else
        v ← update id (fun _ => evfs_cluster0) v;
        v ← (if bool_decide (id ∈ busylist v) then q ← list_del id (busylist v); Some (set_busy q (count_of_busy_views v) v)
             else q ← list_del id (idlelist v); Some (set_idle q (count_of_idle_views v) v));
        let v := set_idle (idlelist v ++ [id]) (count_of_idle_views v + 1) (set_busy (busylist v) (count_of_busy_views v - 1) v) in
        '(status, s) ← write_head id v s; Some (status, v, s)
  end.

(** The loop until there is an idle view, [fuel] times at most ([None]: it goes on). *)
Fixpoint expand_until (mem : Z -> bool) (fuel : nat) v s : option (bool * views * S) :=
  if 0 <? count_of_idle_views v then Some (true, v, s)
  else
    match fuel with
    | O => None
    | Datatypes.S fuel =>
        '(status, v, s) ← evfs_view_expand mem v s;
        if NSP_SUCCESS status then expand_until mem fuel v s else Some (false, v, s)
    end.

(** The status of the write is not looked at.  Without memory for the zeroed cluster
    the view stays busy. *)
Definition evfs_view_acquire_idle (mem : Z -> bool) (fuel : nat) v s : option (option Z * views * S) :=
  if total_cluster_count v <=? 0 then Some (None, v, s)
  else
    '(ok, v, s) ← expand_until mem fuel v s;
    if negb ok then Some (None, v, s)
    else
      match idlelist v with
      | [] => None
      | id :: q =>
          v ← update id (fun _ => evfs_cluster0) v;
          let v := set_busy (busylist v ++ [id]) (count_of_busy_views v + 1) (set_idle q (count_of_idle_views v - 1) v) in
          zero ← hard_allocate_cluster st (cluster_bytes evfs_cluster0) s;
          match zero with
          | None => Some (None, v, s)
          | Some block =>
              data ← memread block 0 (cluster_size v);
              '(_, s) ← cache_write st id data 0 s;
              Some (Some id, v, s)
          end
      end.

(** The views acquired, and whether it were all of them. *)
Fixpoint acquire_views (mem : Z -> bool) (fuel amount : nat) v s : option (bool * list Z * views * S) :=
  match amount with
  | O => Some (true, [], v, s)
  | Datatypes.S amount =>
      '(view, v, s) ← evfs_view_acquire_idle mem fuel v s;
      match view with
      | None => Some (false, [], v, s)
      | Some id => '(ok, ids, v, s) ← acquire_views mem fuel amount v s; Some (ok, id :: ids, v, s)
      end
  end.
Fixpoint move_all_to_idle (ids : list Z) v s : option (views * S) :=
  match ids with
  | [] => Some (v, s)
  | id :: ids => '(_, v, s) ← evfs_view_move_to_idle (Some id) v s; move_all_to_idle ids v s
  end.
Definition evfs_view_acquire_idle_more (mem : Z -> bool) (fuel : nat) (amount : Z) v s : option (Z * list Z * views * S) :=
  if (amount <=? 0) || (total_cluster_count v <=? 0) then Some (posix__makeerror EINVAL, [], v, s)
  else
    '(ok, ids, v, s) ← acquire_views mem fuel (Z.to_nat amount) v s;
    if (ok : bool) then Some (NSP_STATUS_SUCCESSFUL, ids, v, s)
    else '(v, s) ← move_all_to_idle ids v s; Some (posix__makeerror ENOMEM, [], v, s).

Definition evfs_view_write_head (view : option Z) v s : option (Z * S) :=
  match view with
  | None => Some (0, s)
  | Some id =>
      if total_cluster_count v <=? 0 then Some (0, s)
      else '(status, s) ← write_head id v s; Some (if NSP_SUCCESS status then sizeof_cluster else 0, s)
  end.

(** Neither a head view nor an element view. *)
Definition unused (id : Z) v : option bool := c ← nodes v !! id; Some ((0 =? seg c) && (0 =? head_id c)).
Definition evfs_view_write_userdata (view : option Z) (buffer : list Z) (offset : Z) v s : option (Z * S) :=
  match view with
  | None => Some (0, s)
  | Some id =>
      if (offset <? 0) || (zlen buffer <=? 0) || (total_cluster_count v <=? 0) then Some (0, s)
      else
        no ← unused id v;
        if (no : bool) then Some (0, s)
        else '(status, s) ← cache_write_userdata st id buffer offset s; Some (if NSP_SUCCESS status then zlen buffer else 0, s)
  end.
Definition evfs_view_read_userdata (view : option Z) (offset length : Z) v s : option (Z * option (list Z) * S) :=
  match view with
  | None => Some (0, None, s)
  | Some id =>
      if (offset <? 0) || (length <=? 0) || (total_cluster_count v <=? 0) then Some (0, None, s)
      else
        no ← unused id v;
        if (no : bool) then Some (0, None, s)
        else '(status, out, s) ← cache_read_userdata st id offset length s;
             Some (if NSP_SUCCESS status then (length, out, s) else (0, None, s))
  end.

Definition evfs_view_flush (view : option Z) v s : option S :=
  match view with
  | None => Some s
  | Some id => if total_cluster_count v <=? 0 then Some s else cache_flush_block st id s
  end.

(** A change of the head, written at once. *)
Definition change (view : option Z) (f : evfs_cluster -> evfs_cluster) v s : option (Z * views * S) :=
  match view with
  | None => Some (posix__makeerror EINVAL, v, s)
  | Some id => v ← update id f v; '(status, s) ← write_head id v s; Some (status, v, s)
  end.
Definition evfs_view_set_next (view next_view : option Z) v s : option (Z * views * S) :=
  change view (set_next_id (default 0 next_view)) v s.
Definition evfs_view_set_head (view head_view : option Z) v s : option (Z * views * S) :=
  change view (set_head_id (default (default 0 view) head_view)) v s.

(** Only when the size changes. *)
Definition set_data_seg_size (view : option Z) (d : Z) v s : option (Z * views * S) :=
  match view with
  | None => Some (posix__makeerror EINVAL, v, s)
  | Some id => c ← nodes v !! id; if seg c =? d then Some (NSP_STATUS_SUCCESSFUL, v, s) else change view (set_seg d) v s
  end.
Definition evfs_view_set_head_data_seg_size (view : option Z) (size : Z) v s := set_data_seg_size view (head_data_seg_size size) v s.
Definition evfs_view_set_element_data_seg_size (view : option Z) (size : Z) v s :=
  set_data_seg_size view (element_data_seg_size size) v s.
End View.

(** ** What the views need of the cache

    [R s n a]: the cache in state [s] serves a disk of [n] clusters of [cs] bytes, those
    above the header holding [a].  Requests inside a cluster succeed, or fail and
    change nothing; the disk grows by at most [step] clusters at a time while that
    leaves it within [limit]. *)
Class StoreOk {S : Type} (st : store S) (cs step limit : Z) (R : S -> Z -> (Z -> option (list Z)) -> Prop) : Prop := {
  so_cs : 12 < cs;
  so_step : 0 < step;
  so_dom s n a id : R s n a -> is_Some (a id) <-> 0 < id < n;
  so_len s n a id b : R s n a -> a id = Some b -> zlen b = cs;
  so_state s n a : R s n a -> exists r x, cache_hard_state st s = Some (r, x) /\
    (NSP_SUCCESS r = true -> x = Stat (n - 1) cs (cs - 12));
  so_read_head id s n a : R s n a -> 0 < id < n -> exists r b s', cache_read_head_directly st id s = Some (r, b, s') /\
    R s' n a /\ zlen b = 12;
  so_expand s n a : R s n a -> n + step <= limit -> exists k first s', cache_expand st s = Some (k, first, s') /\
    (k <= 0 /\ R s' n a \/
     0 < k <= step /\ first = n /\ R s' (n + k) (fun i => if decide (n <= i < n + k) then Some (replicate (Z.to_nat cs) 0) else a i));
  so_write_head id b s n a : R s n a -> 0 < id < n -> zlen b = 12 ->
    exists r s', cache_write_head st id b s = Some (r, s') /\
      (r = NSP_STATUS_SUCCESSFUL /\ R s' n (written id 0 b a) \/ r < 0 /\ R s' n a);
  so_write id b s n a : R s n a -> 0 < id < n -> zlen b = cs ->
    exists r s', cache_write st id b 0 s = Some (r, s') /\
      (r = NSP_STATUS_SUCCESSFUL /\ R s' n (written id 0 b a) \/ r < 0 /\ R s' n a);
  so_write_userdata id b off s n a : R s n a -> 0 < id < n -> 0 <= off < 2 ^ 31 -> 0 < zlen b < 2 ^ 31 ->
    exists r s', cache_write_userdata st id b off s = Some (r, s') /\
      (r = NSP_STATUS_SUCCESSFUL /\ off + zlen b <= cs - 12 /\ R s' n (written id (12 + off) b a) \/ r < 0 /\ R s' n a);
  so_read_userdata id off len s n a : R s n a -> 0 < id < n -> 0 <= off < 2 ^ 31 -> 0 < len < 2 ^ 31 ->
    exists r out s', cache_read_userdata st id off len s = Some (r, out, s') /\ R s' n a /\
      (r = NSP_STATUS_SUCCESSFUL /\ off + len <= cs - 12 /\ (exists b, a id = Some b /\ out = Some (read_at (12 + off) len b)) \/
       r < 0);
  so_flush id s n a : R s n a -> exists s', cache_flush_block st id s = Some s' /\ R s' n a;
  so_alloc s n a b : R s n a -> zlen b = 12 -> exists o, hard_allocate_cluster st b s = Some o /\
    forall blk, o = Some blk -> blk = b ++ replicate (Z.to_nat cs) 0;
}.

Lemma cluster_bytes_len c : zlen (cluster_bytes c) = 12.
Proof. unfold cluster_bytes. rewrite !zlen_app, !le_bytes_len. done. Qed.

#[export] Instance view_compare_ok : AvlCompare __evfs_view_compare.
Proof. unfold __evfs_view_compare. split; intros; repeat case_match; lia. Qed.

Lemma view_compare_eq x y : __evfs_view_compare x y = 0 <-> x = y.
Proof. unfold __evfs_view_compare. repeat case_match; split; intros; lia. Qed.

(** ** The invariant: the views of the clusters [1 .. n - 1], each on one list. *)
Record views_ok (n : Z) (v : views) : Prop := {
  vo_nodup : NoDup (busylist v ++ idlelist v);
  vo_ids id : (id ∈ busylist v ++ idlelist v) <-> 0 < id < n;
  vo_nodes id : is_Some (nodes v !! id) <-> 0 < id < n;
  vo_tree : search_tree __evfs_view_compare (root_of_view_tree v);
  vo_elems : elems (root_of_view_tree v) ≡ₚ busylist v ++ idlelist v;
  vo_counts : count_of_busy_views v = zlen (busylist v) /\ count_of_idle_views v = zlen (idlelist v);
}.

Lemma views_ok_set n v v' : views_ok n v ->
  busylist v' = busylist v -> idlelist v' = idlelist v -> root_of_view_tree v' = root_of_view_tree v ->
  (forall id, is_Some (nodes v' !! id) <-> is_Some (nodes v !! id)) ->
  count_of_busy_views v' = count_of_busy_views v -> count_of_idle_views v' = count_of_idle_views v -> views_ok n v'.
Proof.
  intros [H1 H2 H3 H4 H5 H6] E1 E2 E3 E4 E5 E6. split; rewrite ?E1, ?E2, ?E3, ?E5, ?E6; try done.
  intros id. by rewrite E4.
Qed.

Lemma update_ok n id f v : views_ok n v -> 0 < id < n ->
  exists c, nodes v !! id = Some c /\ update id f v = Some (set_nodes (<[id := f c]> (nodes v)) v) /\
    views_ok n (set_nodes (<[id := f c]> (nodes v)) v).
Proof.
  intros Hv Hid. destruct (proj2 (vo_nodes _ _ Hv id) Hid) as [c Hc]. exists c. split; [done |].
  unfold update. rewrite Hc. split; [done |]. apply (views_ok_set n v); try done.
  intros i. cbn. rewrite lookup_insert_is_Some. destruct (decide (id = i)) as [<- |]; [|naive_solver].
  rewrite Hc. split; [done | by left].
Qed.

(** A new view at the end of the idle list. *)
Lemma insert_new_idle_ok n c v : views_ok n v -> 0 < n ->
  exists t, __evfs_view_insert_new_idle n c v
      = Some (set_idle (idlelist v ++ [n]) (count_of_idle_views v + 1) (set_tree t (set_nodes (<[n := c]> (nodes v)) v))) /\
    views_ok (n + 1) (set_idle (idlelist v ++ [n]) (count_of_idle_views v + 1) (set_tree t (set_nodes (<[n := c]> (nodes v)) v))).
Proof.
  intros [H1 H2 H3 H4 H5 [H6 H7]] Hn. unfold __evfs_view_insert_new_idle.
  destruct (avlinsert_search_tree _ _ n H4) as (t & -> & Ht & El). exists t. split; [done |].
  assert (n ∉ busylist v ++ idlelist v) as Hnew by (rewrite H2; lia).
  split; cbn [set_idle set_tree set_nodes busylist idlelist root_of_view_tree nodes count_of_busy_views count_of_idle_views]; try done.
  - rewrite app_assoc. apply NoDup_app. split; [done |]. split; [|apply NoDup_singleton].
    intros x Hx ->%list_elem_of_singleton. done.
  - intros id. rewrite app_assoc, elem_of_app, H2, list_elem_of_singleton. lia.
  - intros id. rewrite lookup_insert_is_Some, H3. lia.
  - rewrite El, insert_sorted_perm, app_assoc, H5; [by rewrite Permutation_cons_append |].
    intros y Hy Hc. apply (proj1 (view_compare_eq n y)) in Hc. apply Hnew. rewrite <- H5. by rewrite Hc.
  - split; [done |]. rewrite H7, zlen_app. done.
Qed.

(** Consecutive new views. *)
Definition ids_from (first k : Z) : list Z := (fun i => first + Z.of_nat i) <$> seq 0 (Z.to_nat k).

Lemma ids_from_S first k : 0 < k -> ids_from first k = first :: ids_from (first + 1) (k - 1).
Proof.
  intros Hk. unfold ids_from. replace (Z.to_nat k) with (Datatypes.S (Z.to_nat (k - 1))) by lia.
  cbn [seq fmap list_fmap]. rewrite Z.add_0_r. f_equal. rewrite <- fmap_S_seq, <- list_fmap_compose.
  apply list_fmap_ext. intros i x _. cbn. lia.
Qed.

Lemma ids_from_0 first k : k <= 0 -> ids_from first k = [].
Proof. intros Hk. unfold ids_from. by replace (Z.to_nat k) with 0%nat by lia. Qed.

Lemma ids_from_above first k : Forall (fun i => first <= i) (ids_from first k).
Proof. apply Forall_forall. intros x (i & -> & _)%list_elem_of_fmap. lia. Qed.

Lemma cluster_ids_from n : cluster_ids n = ids_from 1 n.
Proof.
  unfold cluster_ids, ids_from. rewrite <- fmap_S_seq, <- list_fmap_compose. apply list_fmap_ext. intros i x _. cbn. lia.
Qed.

(** What the making of views leaves alone. *)
Definition same_rest (v v' : views) : Prop :=
  busylist v' = busylist v /\ total_cluster_count v' = total_cluster_count v /\
  cluster_size v' = cluster_size v /\ max_data_seg_size v' = max_data_seg_size v.

Lemma create_views_ok junk k : forall n v, views_ok n v -> 0 < n ->
  exists v', create_views (fun _ => true) junk (ids_from n (Z.of_nat k)) v = Some (true, v') /\ views_ok (n + Z.of_nat k) v' /\
    same_rest v v' /\ idlelist v' = idlelist v ++ ids_from n (Z.of_nat k).
Proof.
  induction k as [|k IH]; intros n v Hv Hn.
  - rewrite ids_from_0 by lia. exists v. rewrite Z.add_0_r, app_nil_r. by split_and!.
  - rewrite ids_from_S by lia. replace (Z.of_nat (Datatypes.S k) - 1) with (Z.of_nat k) by lia. cbn [create_views].
    destruct (insert_new_idle_ok n (junk n) v Hv Hn) as (t & -> & Hv1). cbn [mbind option_bind].
    destruct (IH (n + 1) _ Hv1) as (v' & -> & Hv' & (E1 & E2 & E3 & E4) & E5); [lia |]. exists v'. split; [done |].
    split; [by replace (n + Z.of_nat (Datatypes.S k)) with (n + 1 + Z.of_nat k) by lia |]. split; [done |].
    rewrite E5. cbn [set_idle idlelist]. by rewrite <- app_assoc.
Qed.

Lemma expand_views_create k : forall ids v, create_views (fun _ => true) (fun _ => evfs_cluster0) ids v = Some (true, k) ->
  expand_views (fun _ => true) ids v = Some k.
Proof.
  induction ids as [|id ids IH]; intros v; cbn [create_views expand_views]; [by intros [= ->] |].
  destruct (__evfs_view_insert_new_idle id evfs_cluster0 v) as [v1|]; [|done]. cbn [mbind option_bind]. apply IH.
Qed.

Lemma views0_ok : views_ok 1 views0.
Proof.
  assert (forall l : Z, l ∉ []) as Hnil by (intros l; by apply not_elem_of_nil).
  split; cbn; try done.
  - constructor.
  - intros id. split; [by intros ?%Hnil | lia].
  - intros id. rewrite lookup_empty. split; [by intros [? ?] | lia].
  - apply search_tree_Null.
Qed.

(** A cache whose requests do not fail, on a disk that can grow. *)
Class Reliable {S : Type} (st : store S) (cs step limit : Z) (R : S -> Z -> (Z -> option (list Z)) -> Prop) : Prop := {
  rl_state s n a r x : R s n a -> cache_hard_state st s = Some (r, x) -> 0 <= r;
  rl_expand s n a k first s' : R s n a -> n + step <= limit -> cache_expand st s = Some (k, first, s') -> 0 < k;
  rl_write_head id b s n a r s' : R s n a -> 0 < id < n -> zlen b = 12 -> cache_write_head st id b s = Some (r, s') -> 0 <= r;
  rl_write id b s n a r s' : R s n a -> 0 < id < n -> zlen b = cs -> cache_write st id b 0 s = Some (r, s') -> 0 <= r;
  rl_write_userdata id b off s n a r s' : R s n a -> 0 < id < n -> 0 <= off -> off + zlen b <= cs - 12 ->
    cache_write_userdata st id b off s = Some (r, s') -> 0 <= r;
  rl_read_userdata id off len s n a r out s' : R s n a -> 0 < id < n -> 0 <= off -> 0 <= len -> off + len <= cs - 12 ->
    cache_read_userdata st id off len s = Some (r, out, s') -> 0 <= r;
  rl_alloc s n a b : R s n a -> zlen b = 12 -> hard_allocate_cluster st b s <> Some None;
}.

Section Operations.
Context {S : Type} (st : store S) (cs step limit : Z) (R : S -> Z -> (Z -> option (list Z)) -> Prop) `{!StoreOk st cs step limit R}.
Implicit Types (v : views) (s : S) (n : Z) (a : Z -> option (list Z)).
#[local] Abbreviation all := (fun _ : Z => true).

(** A ready manager over its cache. *)
Record ready n a v s : Prop := {
  rd_store : R s n a;
  rd_views : views_ok n v;
  rd_pos : 0 < n;
  rd_total : 0 < total_cluster_count v;
  rd_size : cluster_size v = cs;
  rd_max : max_data_seg_size v = cs - 12;
}.

(** [n - 1] clusters have views, and [busy] of them are in use: what is spent of the
    [limit], in clusters of the disk, when what it can still grow by is left to spend. *)
Definition capacity n : Z := n - 1 + Z.max 0 (limit - n) / step.
Definition cost n (busy : list Z) : Z := limit - step * (capacity n - zlen busy).

Lemma busy_idle_length n v : views_ok n v -> 0 < n -> zlen (busylist v) + zlen (idlelist v) = n - 1.
Proof.
  intros Hv Hn. rewrite <- zlen_app. assert (busylist v ++ idlelist v ≡ₚ ids_from 1 (n - 1)) as Hp.
  { apply NoDup_Permutation; [apply (vo_nodup _ _ Hv) | |].
    - unfold ids_from. apply NoDup_fmap_2; [intros x y; lia | apply NoDup_seq].
    - intros id. rewrite (vo_ids _ _ Hv). unfold ids_from. rewrite list_elem_of_fmap. split.
      + intros Hid. exists (Z.to_nat (id - 1)). rewrite elem_of_seq. lia.
      + intros (i & -> & Hi%elem_of_seq). lia. }
  unfold zlen. rewrite Hp. unfold ids_from. rewrite length_fmap, length_seq. lia.
Qed.

Lemma capacity_grow n n' : n + step <= limit -> n <= n' <= n + step -> capacity n <= capacity n'.
Proof.
  intros Hroom Hn. pose proof (so_step : 0 < step) as Hst. destruct (decide (n' = n)) as [-> | Hne]; [done |].
  unfold capacity. rewrite !Z.max_r by lia.
  assert ((limit - n) / step <= (limit - n') / step + 1); [|lia].
  replace ((limit - n') / step + 1) with ((limit - n' + 1 * step) / step) by (rewrite Z.div_add by lia; lia).
  apply Z.div_le_mono; lia.
Qed.

(** Room on the disk itself is enough. *)
Lemma cost_room n v k : views_ok n v -> 0 < n -> 0 <= k -> n + step * k <= limit -> cost n (busylist v) + step * k <= limit.
Proof.
  intros Hv Hn Hk Hroom. pose proof (so_step : 0 < step) as Hst. pose proof (busy_idle_length n v Hv Hn) as Hl.
  pose proof (zlen_nonneg (idlelist v)). unfold cost, capacity. rewrite Z.max_r by nia.
  assert (k <= (limit - n) / step) by (apply Z.div_le_lower_bound; lia). nia.
Qed.

(** An idle view, or room for more. *)
Lemma cost_idle n v : views_ok n v -> 0 < n -> cost n (busylist v) + step <= limit -> 0 < count_of_idle_views v \/ n + step <= limit.
Proof.
  intros Hv Hn. rewrite (proj2 (vo_counts _ _ Hv)). pose proof (so_step : 0 < step) as Hst.
  pose proof (busy_idle_length n v Hv Hn) as Hl. pose proof (zlen_nonneg (idlelist v)). unfold cost, capacity. intros Hroom.
  destruct (decide (0 < zlen (idlelist v))) as [? | Hz]; [by left | right].
  assert (1 <= Z.max 0 (limit - n) / step) as Hd by nia.
  pose proof (Z.mul_div_le (Z.max 0 (limit - n)) step Hst). nia.
Qed.

Lemma cost_take n n' busy busy' k : capacity n <= capacity n' -> zlen busy' <= zlen busy + k -> cost n' busy' <= cost n busy + step * k.
Proof. intros Hc Hl. pose proof (so_step : 0 < step) as Hst. unfold cost. nia. Qed.

(** Nothing changes for the busy views. *)
Definition frame a a' v v' : Prop := forall id, id ∈ busylist v -> nodes v' !! id = nodes v !! id /\ a' id = a id.

(** The heads on the disk: those of idle clusters are zero, those of busy ones are the views'. *)
Definition idle_zero a v : Prop := forall id, id ∈ idlelist v -> exists b, a id = Some b /\ take 12 b = cluster_bytes evfs_cluster0.
Definition busy_synced a v : Prop :=
  forall id, id ∈ busylist v -> exists c b, nodes v !! id = Some c /\ a id = Some b /\ take 12 b = cluster_bytes c.

Definition synced a v : Prop := busy_synced a v /\ idle_zero a v.

Lemma frame_refl a v : frame a a v v.
Proof. by intros id _. Qed.

Lemma busy_range n a v s id : ready n a v s -> id ∈ busylist v -> 0 < id < n.
Proof. intros Hr Hid. apply (vo_ids _ _ (rd_views _ _ _ _ Hr)). apply elem_of_app. by left. Qed.

Lemma evfs_view_expand_ok n a v s : ready n a v s -> n + step <= limit ->
  exists r v' s' n' a', evfs_view_expand st all v s = Some (r, v', s') /\ ready n' a' v' s' /\ n <= n' <= n + step /\ same_rest v v' /\
    frame a a' v v' /\ (idle_zero a v -> idle_zero a' v') /\
    (r = NSP_STATUS_SUCCESSFUL /\ 0 < count_of_idle_views v' \/ r = NSP_STATUS_FATAL /\ ~ Reliable st cs step limit R).
Proof.
  intros [HR Hv Hn Ht Hcs Hm] Hroom. unfold evfs_view_expand. pose proof (so_step : 0 < step) as Hst.
  destruct (so_expand s n a HR Hroom) as (k & first & s' & E & Hk). rewrite E. cbn [mbind option_bind].
  destruct Hk as [[Hk HR'] | (Hk & -> & HR')].
  - rewrite (proj2 (Z.leb_le k 0)) by done. exists NSP_STATUS_FATAL, v, s', n, a. split; [done |]. split; [by split |].
    split; [lia |]. split; [done |]. split; [apply frame_refl |]. split; [done |]. right. split; [done |].
    intros Hrel. pose proof (rl_expand _ _ _ _ _ _ HR Hroom E). lia.
  - rewrite (proj2 (Z.leb_gt k 0)) by lia.
    destruct (create_views_ok (fun _ => evfs_cluster0) (Z.to_nat k) n v Hv Hn) as (v' & Ec & Hv' & (E1 & E2 & E3 & E4) & E5).
    rewrite Z2Nat.id in Ec, Hv', E5 by lia. fold (ids_from n k). rewrite (expand_views_create _ _ _ Ec). cbn [mbind option_bind].
    do 5 eexists. split; [reflexivity |]. split; [split; [exact HR' | exact Hv' | lia | congruence..] |]. split; [lia |].
    split; [done |]. split; [|split].
    + intros id Hid. assert (0 < id < n) as Hr by (apply (vo_ids _ _ Hv), elem_of_app; by left). split.
      * clear -Ec Hr. revert Ec. generalize (ids_from_above n k). generalize (ids_from n k). intros ids. revert v.
        induction ids as [|i ids IH]; intros v Hi; cbn [create_views]; [by intros [= ->] |].
        unfold __evfs_view_insert_new_idle. destruct (avlinsert _ _ _); [|done]. cbn [mbind option_bind].
        apply Forall_cons in Hi as [Hi His]. intros Ec. rewrite (IH _ His Ec). cbn. apply lookup_insert_ne. lia.
      * by rewrite decide_False by lia.
    + intros Hz id Hid. rewrite E5 in Hid. apply elem_of_app in Hid as [Hid | Hid].
      * assert (0 < id < n) by (apply (vo_ids _ _ Hv), elem_of_app; by right). rewrite decide_False by lia. by apply Hz.
      * apply list_elem_of_fmap in Hid as (i & -> & Hi%elem_of_seq). rewrite decide_True by lia.
        eexists. split; [done |]. pose proof (so_cs : 12 < cs). rewrite take_replicate, Nat.min_l by lia. done.
    + left. split; [done |]. rewrite (proj2 (vo_counts _ _ Hv')), E5, zlen_app, (ids_from_S n k), zlen_cons by lia.
      pose proof (zlen_nonneg (idlelist v)). pose proof (zlen_nonneg (ids_from (n + 1) (k - 1))). lia.
Qed.

Lemma same_rest_trans v1 v2 v3 : same_rest v1 v2 -> same_rest v2 v3 -> same_rest v1 v3.
Proof. intros (H1 & H2 & H3 & H4) (G1 & G2 & G3 & G4). split_and!; congruence. Qed.

Lemma frame_trans a1 a2 a3 v1 v2 v3 : (forall id, id ∈ busylist v1 -> id ∈ busylist v2) ->
  frame a1 a2 v1 v2 -> frame a2 a3 v2 v3 -> frame a1 a3 v1 v3.
Proof.
  intros Hsub H1 H2 id Hid. destruct (H1 id Hid) as [<- <-]. apply H2. by apply Hsub.
Qed.

Lemma expand_until_ok n a v s fuel : ready n a v s -> (0 < fuel)%nat -> 0 < count_of_idle_views v \/ n + step <= limit ->
  exists ok v' s' n' a', expand_until st all fuel v s = Some (ok, v', s') /\ ready n' a' v' s' /\
    (n <= n' <= n + step /\ capacity n <= capacity n') /\ same_rest v v' /\
    frame a a' v v' /\ (idle_zero a v -> idle_zero a' v') /\
    (ok = true /\ 0 < count_of_idle_views v' \/ ok = false /\ ~ Reliable st cs step limit R).
Proof.
  intros Hr Hf Hroom. pose proof (so_step : 0 < step) as Hst. destruct fuel as [|fuel]; [lia |]. cbn [expand_until].
  destruct (Z.ltb_spec 0 (count_of_idle_views v)) as [H0 | H0].
  - exists true, v, s, n, a. split; [done |]. split; [done |]. split; [lia |]. split; [done |]. split; [apply frame_refl |]. split; [done | by left].
  - assert (n + step <= limit) as Hroom' by lia. pose proof (fun n' => capacity_grow n n' Hroom') as Hcap.
    destruct (evfs_view_expand_ok n a v s Hr Hroom') as (r & v' & s' & n' & a' & -> & Hr' & Hn & Hsame & Hfr & Hz & Hres).
    cbn [mbind option_bind]. destruct Hres as [[-> Hpos] | [-> Hno]].
    + change (NSP_SUCCESS NSP_STATUS_SUCCESSFUL) with true. cbn match. exists true, v', s', n', a'.
      split; [|split; [done |]; split; [auto |]; split; [done |]; split; [done |]; split; [done | by left]].
      destruct fuel; cbn [expand_until]; by rewrite (proj2 (Z.ltb_lt _ _) Hpos).
    + change (NSP_SUCCESS NSP_STATUS_FATAL) with false. cbn match. exists false, v', s', n', a'.
      split; [done |]. split; [done |]. split; [auto |]. split; [done |]. split; [done |]. split; [done | by right].
Qed.

(** The first idle view becomes the last busy one. *)
Lemma take_idle_ok n id q c v : views_ok n v -> idlelist v = id :: q -> nodes v !! id = Some c ->
  views_ok n (set_busy (busylist v ++ [id]) (count_of_busy_views v + 1) (set_idle q (count_of_idle_views v - 1) v)).
Proof.
  intros [H1 H2 H3 H4 H5 [H6 H7]] E Hc. rewrite E in *.
  split; cbn [set_busy set_idle busylist idlelist nodes root_of_view_tree count_of_busy_views count_of_idle_views]; try done.
  - by rewrite <- app_assoc.
  - intros i. by rewrite <- app_assoc.
  - by rewrite <- app_assoc.
  - rewrite H6, H7, zlen_app, !zlen_cons, zlen_nil. lia.
Qed.

Lemma evfs_view_acquire_idle_ok n a v s fuel : ready n a v s -> (0 < fuel)%nat -> cost n (busylist v) + step <= limit ->
  exists view v' s' n' a', evfs_view_acquire_idle st all fuel v s = Some (view, v', s') /\ ready n' a' v' s' /\
    (n <= n' <= n + step /\ capacity n <= capacity n') /\
    total_cluster_count v' = total_cluster_count v /\ frame a a' v v' /\ (idle_zero a v -> idle_zero a' v') /\
    (forall i, i ∈ busylist v -> i ∈ busylist v') /\
    match view with
    | None => ~ Reliable st cs step limit R
    | Some id => (id ∉ busylist v) /\ busylist v' = busylist v ++ [id] /\ nodes v' !! id = Some evfs_cluster0 /\
        (Reliable st cs step limit R -> a' id = Some (replicate (Z.to_nat cs) 0))
    end.
Proof.
  intros Hr Hf Hroom. unfold evfs_view_acquire_idle. rewrite (proj2 (Z.leb_gt _ _) (rd_total _ _ _ _ Hr)).
  destruct (expand_until_ok n a v s fuel Hr Hf (cost_idle n v (rd_views _ _ _ _ Hr) (rd_pos _ _ _ _ Hr) Hroom)) as (ok & v1 & s1 & n1 & a1 & -> & Hr1 & Hn1 & (E1 & E2 & E3 & E4) & Hfr1 & Hz1 & Hres).
  cbn [mbind option_bind]. destruct Hres as [[-> Hpos] | [-> Hno]]; cbn [negb].
  2: { exists None, v1, s1, n1, a1. split; [done |]. split; [done |]. split; [done |]. split; [done |]. split; [done |]. split; [done |]. split; [by rewrite E1 | done]. }
  pose proof (rd_views _ _ _ _ Hr1) as Hv1.
  destruct (idlelist v1) as [|id q] eqn:Ei.
  { rewrite (proj2 (vo_counts _ _ Hv1)), Ei in Hpos. done. }
  assert (0 < id < n1) as Hid.
  { apply (vo_ids _ _ Hv1). rewrite Ei. apply elem_of_app. right. constructor. }
  destruct (update_ok n1 id (fun _ => evfs_cluster0) v1 Hv1 Hid) as (c & Hc & -> & Hv2). cbn [mbind option_bind].
  set (v2 := set_nodes _ v1) in *.
  assert (nodes v2 !! id = Some evfs_cluster0) as Hc2 by (cbn; apply lookup_insert_eq).
  pose proof (take_idle_ok n1 id q _ v2 Hv2 Ei Hc2) as Hv3.
  set (v3 := set_busy _ _ _) in *.
  assert (id ∉ busylist v1) as Hnew.
  { pose proof (vo_nodup _ _ Hv1) as Hnd. rewrite Ei in Hnd. apply NoDup_app in Hnd as (_ & Hnd & _).
    intros Hin. apply (Hnd id Hin). constructor. }
  assert (forall i, i ∈ busylist v -> nodes v3 !! i = nodes v1 !! i) as Hkeep.
  { intros i Hi. cbn. apply lookup_insert_ne. intros ->. by rewrite E1 in Hnew. }
  pose proof (rd_store _ _ _ _ Hr1) as HR1.
  destruct (so_alloc s1 n1 a1 (cluster_bytes evfs_cluster0) HR1) as (o & Eo & Hblk); [apply cluster_bytes_len |].
  rewrite Eo. cbn [mbind option_bind]. destruct o as [blk|].
  2: { exists None, v3, s1, n1, a1. split; [done |].
    split; [split; try done; [apply (rd_pos _ _ _ _ Hr1) | apply (rd_total _ _ _ _ Hr1) | apply (rd_size _ _ _ _ Hr1) | apply (rd_max _ _ _ _ Hr1)] |].
    split; [done |]. split; [exact E2 |]. split.
    - intros i Hi. destruct (Hfr1 i Hi) as [<- ->]. split; [by apply Hkeep | done].
    - split; [intros Hz i Hi; apply Hz1; [done |]; rewrite Ei; by constructor |].
      split; [intros i Hi; cbn; rewrite E1; apply elem_of_app; by left |]. intros Hrel. by apply (rl_alloc s1 n1 a1 (cluster_bytes evfs_cluster0) HR1 (cluster_bytes_len _)). }
  pose proof (Hblk blk eq_refl) as ->. pose proof (so_cs : 12 < cs) as H12.
  assert (cluster_size v3 = cs) as Ecs by exact (rd_size _ _ _ _ Hr1).
  assert (cluster_bytes evfs_cluster0 = replicate 12 0) as Ez by reflexivity.
  rewrite Ecs, Ez. rewrite <- replicate_add. rewrite memread_read.
  2-4: rewrite ?zlen_replicate; unfold zlen; rewrite ?length_replicate; lia.
  cbn [mbind option_bind]. assert (read_at 0 cs (replicate (12 + Z.to_nat cs) 0) = replicate (Z.to_nat cs) 0) as ->.
  { unfold read_at. rewrite drop_0, take_replicate. f_equal. lia. }
  destruct (so_write id (replicate (Z.to_nat cs) 0) s1 n1 a1 HR1 Hid) as (r & s2 & Ew & Hw); [by rewrite zlen_replicate by lia |].
  rewrite Ew. cbn [mbind option_bind].
  assert (exists a2, R s2 n1 a2 /\ (forall i, i <> id -> a2 i = a1 i) /\ (Reliable st cs step limit R -> a2 id = Some (replicate (Z.to_nat cs) 0)))
    as (a2 & HR2 & Ha2 & Hz).
  { destruct Hw as [[-> Hw] | [Hneg Hw]].
    - eexists. split; [exact Hw |]. unfold written. split.
      + intros i Hi. by rewrite decide_False.
      + intros _. rewrite decide_True by done. destruct (proj2 (so_dom s1 n1 a1 id HR1) Hid) as [b Hb]. rewrite Hb. cbn. f_equal.
        apply write_at_all. rewrite zlen_replicate by lia. symmetry. exact (so_len s1 n1 a1 id b HR1 Hb).
    - exists a1. split; [done |]. split; [done |]. intros Hrel. pose proof (rl_write _ _ _ _ _ _ _ HR1 Hid (zlen_replicate cs 0 ltac:(lia)) Ew). lia. }
  exists (Some id), v3, s2, n1, a2. split; [done |].
  split; [split; try done; [apply (rd_pos _ _ _ _ Hr1) | apply (rd_total _ _ _ _ Hr1) | apply (rd_max _ _ _ _ Hr1)] |].
  split; [done |]. split; [exact E2 |]. split.
  - intros i Hi. destruct (Hfr1 i Hi) as [<- <-]. split; [by apply Hkeep |]. apply Ha2. intros ->. by rewrite E1 in Hnew.
  - split.
    { intros Hz' i Hi. rewrite Ha2; [apply Hz1; [done |]; rewrite Ei; by constructor |]. intros ->.
      pose proof (vo_nodup _ _ Hv1) as Hnd. rewrite Ei in Hnd. apply NoDup_app in Hnd as (_ & _ & [Hno _]%NoDup_cons). done. }
    split; [intros i Hi; cbn; rewrite E1; apply elem_of_app; by left |].
    split; [by rewrite <- E1 |]. split; [cbn; by rewrite E1 |]. split; [done | exact Hz].
Qed.

(** The write of a head changes its twelve bytes. *)
Lemma write_head_ok n a v s id c : ready n a v s -> nodes v !! id = Some c -> 0 < id < n ->
  exists r s' a', write_head st id v s = Some (r, s') /\ R s' n a' /\ (forall i, i <> id -> a' i = a i) /\
    (r = NSP_STATUS_SUCCESSFUL /\ a' id = write_at 0 (cluster_bytes c) <$> a id \/ r < 0 /\ a' = a /\ ~ Reliable st cs step limit R).
Proof.
  intros Hr Hc Hid. unfold write_head. rewrite Hc. cbn [mbind option_bind].
  pose proof (rd_store _ _ _ _ Hr) as HR.
  destruct (so_write_head id (cluster_bytes c) s n a HR Hid) as (r & s' & E & Hw); [apply cluster_bytes_len |].
  exists r, s'. rewrite E. destruct Hw as [[-> Hw] | [Hneg Hw]].
  - eexists. split; [done |]. split; [exact Hw |]. unfold written. split.
    + intros i Hi. by rewrite decide_False.
    + left. by rewrite decide_True.
  - exists a. split; [done |]. split; [done |]. split; [done |]. right. split; [done |]. split; [done |].
    intros Hrel. pose proof (rl_write_head _ _ _ _ _ _ _ HR Hid (cluster_bytes_len _) E). lia.
Qed.

Lemma ready_update n a a' v s s' id f c : ready n a v s -> R s' n a' -> nodes v !! id = Some c -> 0 < id < n ->
  ready n a' (set_nodes (<[id := f c]> (nodes v)) v) s'.
Proof.
  intros [HR Hv Hn Ht Hcs Hm] HR' Hc Hid. destruct (update_ok n id f v Hv Hid) as (c' & Hc' & _ & Hv').
  rewrite Hc in Hc'. injection Hc' as <-. by split.
Qed.

(** A change of the head of a view. *)
Lemma change_ok n a v s id f : ready n a v s -> 0 < id < n ->
  exists r s' a' c, nodes v !! id = Some c /\
    change st (Some id) f v s = Some (r, set_nodes (<[id := f c]> (nodes v)) v, s') /\
    ready n a' (set_nodes (<[id := f c]> (nodes v)) v) s' /\ (forall i, i <> id -> a' i = a i) /\
    (r = NSP_STATUS_SUCCESSFUL /\ a' id = write_at 0 (cluster_bytes (f c)) <$> a id \/ r < 0 /\ a' = a /\ ~ Reliable st cs step limit R).
Proof.
  intros Hr Hid. destruct (update_ok n id f v (rd_views _ _ _ _ Hr) Hid) as (c & Hc & E & Hv').
  unfold change. rewrite E. cbn [mbind option_bind]. set (v' := set_nodes _ v) in *.
  assert (ready n a v' s) as Hr' by (exact (ready_update n a a v s s id f c Hr (rd_store _ _ _ _ Hr) Hc Hid)).
  destruct (write_head_ok n a v' s id (f c) Hr') as (r & s' & a' & -> & HR' & Hoth & Hres); [cbn; apply lookup_insert_eq | done |].
  exists r, s', a', c. split; [done |]. split; [done |]. split; [|done].
  exact (ready_update n a a' v s s' id f c Hr HR' Hc Hid).
Qed.

Lemma set_data_seg_size_ok n a v s id d : ready n a v s -> 0 < id < n ->
  exists r v' s' a' c, nodes v !! id = Some c /\ set_data_seg_size st (Some id) d v s = Some (r, v', s') /\
    ready n a' v' s' /\ nodes v' = <[id := set_seg d c]> (nodes v) /\ busylist v' = busylist v /\ idlelist v' = idlelist v /\
    total_cluster_count v' = total_cluster_count v /\ (forall i, i <> id -> a' i = a i) /\
    (r = NSP_STATUS_SUCCESSFUL /\ (a' id = a id /\ seg c = d \/ a' id = write_at 0 (cluster_bytes (set_seg d c)) <$> a id) \/
     r < 0 /\ ~ Reliable st cs step limit R).
Proof.
  intros Hr Hid. destruct (change_ok n a v s id (set_seg d) Hr Hid) as (r & s' & a' & c & Hc & E & Hr' & Hoth & Hres).
  unfold set_data_seg_size. rewrite Hc. cbn [mbind option_bind]. destruct (Z.eqb_spec (seg c) d) as [Hd | Hd].
  - exists NSP_STATUS_SUCCESSFUL, v, s, a, c. split; [done |]. split; [done |]. split; [done |].
    split; [|split_and!; try done; by left; split; [|left]].
    symmetry. apply insert_id. rewrite Hc. f_equal. destruct c. cbn in Hd. by subst.
  - rewrite E. exists r. do 4 eexists. split; [reflexivity |]. split; [reflexivity |]. split; [exact Hr' |].
    split; [done |]. split; [done |]. split; [done |]. split; [done |]. split; [exact Hoth |].
    destruct Hres as [[-> ?] | (? & _ & ?)]; [left | right]; auto.
Qed.

Lemma evfs_view_write_userdata_ok n a v s id buffer offset c : ready n a v s -> 0 < id < n ->
  nodes v !! id = Some c -> seg c <> 0 \/ head_id c <> 0 -> 0 <= offset < 2 ^ 31 -> 0 < zlen buffer < 2 ^ 31 ->
  exists k s' a', evfs_view_write_userdata st (Some id) buffer offset v s = Some (k, s') /\ ready n a' v s' /\
    (forall i, i <> id -> a' i = a i) /\
    (k = zlen buffer /\ offset + zlen buffer <= cs - 12 /\ a' id = write_at (12 + offset) buffer <$> a id \/
     k = 0 /\ a' = a /\ ~ (Reliable st cs step limit R /\ offset + zlen buffer <= cs - 12)).
Proof.
  intros Hr Hid Hc Hused Ho Hb. pose proof (rd_store _ _ _ _ Hr) as HR. unfold evfs_view_write_userdata.
  rewrite (proj2 (Z.ltb_ge offset 0)), (proj2 (Z.leb_gt (zlen buffer) 0)), (proj2 (Z.leb_gt _ _) (rd_total _ _ _ _ Hr)) by lia.
  cbn [orb]. unfold unused. rewrite Hc. cbn [mbind option_bind].
  assert ((0 =? seg c) && (0 =? head_id c) = false) as ->.
  { apply andb_false_iff. destruct Hused; [left | right]; apply Z.eqb_neq; lia. }
  destruct (so_write_userdata id buffer offset s n a HR Hid Ho Hb) as (r & s' & E & Hw). rewrite E. cbn [mbind option_bind].
  destruct Hw as [(-> & Hfit & HR') | [Hneg HR']].
  - change (NSP_SUCCESS NSP_STATUS_SUCCESSFUL) with true. cbn match. do 3 eexists. split; [reflexivity |].
    split; [destruct Hr as [? ? ? ? ? ?]; split; [exact HR' | done..] |]. unfold written. split.
    + intros i Hi. by rewrite decide_False.
    + left. rewrite decide_True by done. done.
  - assert (NSP_SUCCESS r = false) as -> by (by apply Z.leb_gt). exists 0, s', a. split; [done |].
    split; [destruct Hr as [? ? ? ? ? ?]; by split |]. split; [done |]. right. split; [done |]. split; [done |].
    intros [Hrel Hfit]. pose proof (rl_write_userdata _ _ _ _ _ _ _ _ HR Hid (proj1 Ho) Hfit E). lia.
Qed.

Lemma evfs_view_read_userdata_ok n a v s id offset length c : ready n a v s -> 0 < id < n ->
  nodes v !! id = Some c -> seg c <> 0 \/ head_id c <> 0 -> 0 <= offset < 2 ^ 31 -> 0 < length < 2 ^ 31 ->
  exists k out s', evfs_view_read_userdata st (Some id) offset length v s = Some (k, out, s') /\ ready n a v s' /\
    (k = length /\ offset + length <= cs - 12 /\ (exists b, a id = Some b /\ out = Some (read_at (12 + offset) length b)) \/
     k = 0 /\ out = None /\ ~ (Reliable st cs step limit R /\ offset + length <= cs - 12)).
Proof.
  intros Hr Hid Hc Hused Ho Hb. pose proof (rd_store _ _ _ _ Hr) as HR. unfold evfs_view_read_userdata.
  rewrite (proj2 (Z.ltb_ge offset 0)), (proj2 (Z.leb_gt length 0)), (proj2 (Z.leb_gt _ _) (rd_total _ _ _ _ Hr)) by lia.
  cbn [orb]. unfold unused. rewrite Hc. cbn [mbind option_bind].
  assert ((0 =? seg c) && (0 =? head_id c) = false) as ->.
  { apply andb_false_iff. destruct Hused; [left | right]; apply Z.eqb_neq; lia. }
  destruct (so_read_userdata id offset length s n a HR Hid Ho Hb) as (r & out & s' & E & HR' & Hw). rewrite E. cbn [mbind option_bind].
  assert (ready n a v s') as Hr' by (destruct Hr as [? ? ? ? ? ?]; by split).
  destruct Hw as [(-> & Hfit & b & Hab & ->) | Hneg].
  - change (NSP_SUCCESS NSP_STATUS_SUCCESSFUL) with true. cbn match. do 3 eexists. split; [reflexivity |]. split; [done |].
    left. eauto.
  - assert (NSP_SUCCESS r = false) as -> by (by apply Z.leb_gt). do 3 eexists. split; [reflexivity |]. split; [done |].
    right. split; [done |]. split; [done |]. intros [Hrel Hfit].
    pose proof (rl_read_userdata _ _ _ _ _ _ _ _ _ HR Hid (proj1 Ho) (Z.lt_le_incl _ _ (proj1 Hb)) Hfit E). lia.
Qed.

(** A busy view becomes the last idle one. *)
Lemma give_idle_ok n id v : views_ok n v -> id ∈ busylist v ->
  views_ok n (set_idle (idlelist v ++ [id]) (count_of_idle_views v + 1)
    (set_busy (filter (.≠ id) (busylist v)) (count_of_busy_views v - 1) v)).
Proof.
  intros [H1 H2 H3 H4 H5 [H6 H7]] Hid. pose proof (proj1 (NoDup_app _ _) H1) as (Hnd & Hdis & Hnd2).
  assert (busylist v ++ idlelist v ≡ₚ filter (.≠ id) (busylist v) ++ idlelist v ++ [id]) as Hp.
  { rewrite (del_perm id (busylist v) Hnd Hid) at 1. rewrite <- app_assoc. apply Permutation_app; [done |].
    by rewrite Permutation_app_comm. }
  split; cbn [set_busy set_idle busylist idlelist nodes root_of_view_tree count_of_busy_views count_of_idle_views]; try done.
  - by rewrite <- Hp.
  - intros i. by rewrite <- Hp.
  - by rewrite <- Hp.
  - rewrite zlen_del by done. rewrite H6, H7, zlen_app, zlen_cons, zlen_nil. lia.
Qed.

Lemma evfs_view_move_to_idle_ok n a v s id : ready n a v s -> id ∈ busylist v ->
  exists r v' s' a', evfs_view_move_to_idle st (Some id) v s = Some (r, v', s') /\ ready n a' v' s' /\
    busylist v' = filter (.≠ id) (busylist v) /\ idlelist v' = idlelist v ++ [id] /\
    nodes v' = <[id := evfs_cluster0]> (nodes v) /\ (forall i, i <> id -> a' i = a i) /\
    (r = NSP_STATUS_SUCCESSFUL /\ a' id = write_at 0 (cluster_bytes evfs_cluster0) <$> a id \/ r < 0 /\ ~ Reliable st cs step limit R).
Proof.
  intros Hr Hin. pose proof (busy_range n a v s id Hr Hin) as Hid. unfold evfs_view_move_to_idle.
  rewrite (proj2 (Z.leb_gt _ _) (rd_total _ _ _ _ Hr)).
  destruct (update_ok n id (fun _ => evfs_cluster0) v (rd_views _ _ _ _ Hr) Hid) as (c & Hc & -> & Hv1).
  cbn [mbind option_bind set_nodes busylist]. rewrite bool_decide_true, list_del_elem by done. cbn [mbind option_bind].
  pose proof (give_idle_ok n id _ Hv1 Hin) as Hv2.
  change (set_idle _ _ _) with (set_idle (idlelist v ++ [id]) (count_of_idle_views v + 1)
    (set_busy (filter (.≠ id) (busylist v)) (count_of_busy_views v - 1) (set_nodes (<[id := evfs_cluster0]> (nodes v)) v))).
  set (v2 := set_idle _ _ _) in *.
  assert (ready n a v2 s) as Hr2 by (destruct Hr as [? ? ? ? ? ?]; by split).
  destruct (write_head_ok n a v2 s id evfs_cluster0 Hr2) as (r & s' & a' & -> & HR' & Hoth & Hres);
    [cbn; apply lookup_insert_eq | done |].
  cbn [mbind option_bind]. exists r, v2, s', a'. split; [done |]. split; [destruct Hr2 as [? ? ? ? ? ?]; by split |].
  split; [done |]. split; [done |]. split; [done |]. split; [done |].
  destruct Hres as [? | (? & _ & ?)]; [by left | by right].
Qed.

Lemma acquire_views_ok fuel amount : (0 < fuel)%nat -> forall n a v s, ready n a v s -> cost n (busylist v) + step * Z.of_nat amount <= limit ->
  exists ok ids v' s' n' a', acquire_views st all fuel amount v s = Some (ok, ids, v', s') /\ ready n' a' v' s' /\
    (n <= n' <= n + step * Z.of_nat amount /\ capacity n <= capacity n') /\
    total_cluster_count v' = total_cluster_count v /\ frame a a' v v' /\ (idle_zero a v -> idle_zero a' v') /\
    (forall id, id ∈ busylist v -> id ∈ busylist v') /\ NoDup ids /\
    (forall id, id ∈ ids -> (id ∉ busylist v) /\ id ∈ busylist v' /\ nodes v' !! id = Some evfs_cluster0 /\
       (Reliable st cs step limit R -> a' id = Some (replicate (Z.to_nat cs) 0))) /\
    (ok = true /\ length ids = amount /\ busylist v' = busylist v ++ ids \/ ok = false /\ ~ Reliable st cs step limit R).
Proof.
  intros Hf. pose proof (so_step : 0 < step) as Hst. induction amount as [|amount IH]; intros n a v s Hr Hroom; cbn [acquire_views].
  { exists true, [], v, s, n, a. split; [done |]. split; [done |]. split; [lia |]. split; [done |]. split; [apply frame_refl |]. split; [done |].
    split; [done |]. split; [constructor |]. split; [by intros id ?%not_elem_of_nil |]. left. by rewrite app_nil_r. }
  destruct (evfs_view_acquire_idle_ok n a v s fuel Hr Hf ltac:(nia)) as (view & v1 & s1 & n1 & a1 & -> & Hr1 & [Hn1 Hk1] & Ht1 & Hfr1 & Hz1 & Hsub1 & Hres).
  cbn [mbind option_bind]. destruct view as [id|].
  2: { exists false, [], v1, s1, n1, a1. split; [done |]. split; [done |]. split; [split; [nia | done] |]. split; [done |]. split; [done |]. split; [done |].
       split; [done |]. split; [constructor |]. split; [by intros id ?%not_elem_of_nil | by right]. }
  destruct Hres as (Hnew & Ebusy & Hnode & Hzero).
  assert (cost n1 (busylist v1) <= cost n (busylist v) + step * 1) as Hc1.
  { apply cost_take; [done |]. rewrite Ebusy, zlen_app, zlen_cons, zlen_nil. lia. }
  destruct (IH n1 a1 v1 s1 Hr1 ltac:(nia)) as (ok & ids & v2 & s2 & n2 & a2 & -> & Hr2 & [Hn2 Hk2] & Ht2 & Hfr2 & Hz2 & Hsub & Hnd & Hids & Hok).
  cbn [mbind option_bind]. exists ok, (id :: ids), v2, s2, n2, a2. split; [done |]. split; [done |]. split; [lia |].
  split; [congruence |].
  assert (id ∈ busylist v1) as Hid1 by (rewrite Ebusy; apply elem_of_app; right; by apply list_elem_of_singleton).
  split; [by eapply frame_trans |]. split; [auto |]. split; [auto |]. split.
  { apply NoDup_cons. split; [|done]. intros Hin. by destruct (Hids id Hin) as (? & _). }
  split.
  { intros i [-> | Hin]%elem_of_cons.
    - destruct (Hfr2 id Hid1) as [-> ->]. split_and!; try done. by apply Hsub.
    - destruct (Hids i Hin) as (H1 & H2 & H3 & H4). split_and!; try done. intros H. by apply H1, Hsub1. }
  destruct Hok as [(-> & Hlen & Eb) | (-> & Hno)]; [left | by right]. split; [done |]. split; [cbn; by rewrite Hlen |].
  by rewrite Eb, Ebusy, <- app_assoc.
Qed.

Lemma ready_store n a a' v s s' : ready n a v s -> R s' n a' -> ready n a' v s'.
Proof. intros [? ? ? ? ? ?] ?. by split. Qed.

Lemma move_all_to_idle_ok : forall ids n a v s, ready n a v s -> NoDup ids -> (forall id, id ∈ ids -> id ∈ busylist v) ->
  exists v' s' a', move_all_to_idle st ids v s = Some (v', s') /\ ready n a' v' s' /\
    (forall id, (id ∉ ids) -> (id ∈ busylist v' <-> id ∈ busylist v) /\ nodes v' !! id = nodes v !! id /\ a' id = a id).
Proof.
  induction ids as [|id ids IH]; intros n a v s Hr Hnd Hin; cbn [move_all_to_idle].
  { exists v, s, a. split; [done |]. by split. }
  apply NoDup_cons in Hnd as [Hid Hnd].
  destruct (evfs_view_move_to_idle_ok n a v s id Hr) as (r & v1 & s1 & a1 & -> & Hr1 & Eb & _ & En & Ha1 & _).
  { apply Hin. constructor. }
  cbn [mbind option_bind]. destruct (IH n a1 v1 s1 Hr1 Hnd) as (v2 & s2 & a2 & -> & Hr2 & Hrest).
  { intros i Hi. rewrite Eb. apply elem_of_del. split; [by intros -> | apply Hin; by constructor]. }
  exists v2, s2, a2. split; [done |]. split; [done |]. intros i [Hne Hni]%not_elem_of_cons.
  destruct (Hrest i Hni) as (H1 & H2 & H3). rewrite H1, H2, H3, Eb, En, Ha1 by done. rewrite elem_of_del.
  split; [naive_solver |]. split; [by apply lookup_insert_ne | done].
Qed.

Lemma evfs_view_acquire_idle_more_ok n a v s fuel amount : ready n a v s -> (0 < fuel)%nat -> 0 < amount ->
  cost n (busylist v) + step * amount <= limit ->
  exists r ids v' s' n' a', evfs_view_acquire_idle_more st all fuel amount v s = Some (r, ids, v', s') /\ ready n' a' v' s' /\
    (n <= n' <= n + step * amount /\ capacity n <= capacity n') /\ frame a a' v v' /\ (Reliable st cs step limit R -> idle_zero a v -> idle_zero a' v') /\
    (forall i, i ∈ busylist v -> i ∈ busylist v') /\ NoDup ids /\
    (forall id, id ∈ ids -> (id ∉ busylist v) /\ id ∈ busylist v' /\ nodes v' !! id = Some evfs_cluster0 /\
       (Reliable st cs step limit R -> a' id = Some (replicate (Z.to_nat cs) 0))) /\
    (r = NSP_STATUS_SUCCESSFUL /\ zlen ids = amount /\ busylist v' = busylist v ++ ids \/ r < 0 /\ ~ Reliable st cs step limit R).
Proof.
  intros Hr Hf Ham Hroom. unfold evfs_view_acquire_idle_more.
  rewrite (proj2 (Z.leb_gt amount 0)), (proj2 (Z.leb_gt _ _) (rd_total _ _ _ _ Hr)) by done. cbn [orb].
  destruct (acquire_views_ok fuel (Z.to_nat amount) Hf n a v s Hr ltac:(rewrite Z2Nat.id; lia))
    as (ok & ids & v1 & s1 & n1 & a1 & -> & Hr1 & Hn1 & Ht1 & Hfr1 & Hz1 & Hsub & Hnd & Hids & Hok).
  rewrite Z2Nat.id in Hn1 by lia. cbn [mbind option_bind]. destruct Hok as [(-> & Hlen & Eb) | (-> & Hno)].
  - exists NSP_STATUS_SUCCESSFUL, ids, v1, s1, n1, a1. do 4 (split; [done |]). split; [by intros _ |]. do 3 (split; [done |]). left.
    split; [done |]. split; [unfold zlen; lia | done].
  - destruct (move_all_to_idle_ok ids n1 a1 v1 s1 Hr1 Hnd) as (v2 & s2 & a2 & -> & Hr2 & Hrest).
    { intros id Hid. by apply Hids. }
    cbn [mbind option_bind].
    assert (forall i, i ∈ busylist v -> (i ∉ ids)) as Hdis by (intros i Hi Hin; by destruct (Hids i Hin) as (? & _)).
    exists (posix__makeerror ENOMEM), [], v2, s2, n1, a2. split; [done |]. split; [done |]. split; [done |]. split.
    + intros i Hi. destruct (Hrest i (Hdis i Hi)) as (_ & -> & ->). by apply Hfr1.
    + split; [by intros Hrel |]. split; [intros i Hi; by apply (Hrest i (Hdis i Hi)), Hsub |]. split; [constructor |].
      split; [by intros i ?%not_elem_of_nil |]. by right.
Qed.

(** ** Keeping the heads on the disk *)
Lemma head_written n a s id c b : R s n a -> a id = Some b -> take 12 (write_at 0 (cluster_bytes c) b) = cluster_bytes c.
Proof.
  intros HR Hb. pose proof (so_len s n a id b HR Hb) as Hl. pose proof (so_cs : 12 < cs). pose proof (cluster_bytes_len c) as Hc.
  rewrite write_at_in by lia. change (Z.to_nat 0) with 0%nat. rewrite take_0. cbn [app]. rewrite take_app_le by (unfold zlen in Hc; lia).
  apply take_ge. unfold zlen in Hc. lia.
Qed.

Lemma head_kept n a s id off x b : R s n a -> a id = Some b -> 0 <= off -> take 12 (write_at (12 + off) x b) = take 12 b.
Proof.
  intros HR Hb Ho. pose proof (so_len s n a id b HR Hb) as Hl. pose proof (so_cs : 12 < cs).
  unfold write_at. unfold zlen in Hl. rewrite take_app_le by (rewrite length_take, length_app, length_replicate; lia).
  rewrite take_take, Nat.min_l by lia. rewrite take_app_le by lia. done.
Qed.

Lemma busy_not_idle n v id : views_ok n v -> id ∈ busylist v -> id ∉ idlelist v.
Proof. intros Hv Hb Hi. pose proof (vo_nodup _ _ Hv) as Hnd. apply NoDup_app in Hnd as (_ & Hnd & _). by apply (Hnd id Hb). Qed.

(** A busy view and its head on the disk change together. *)
Lemma synced_change n a a' v v' id c' : views_ok n v -> synced a v -> id ∈ busylist v -> busylist v' = busylist v -> idlelist v' = idlelist v ->
  nodes v' = <[id := c']> (nodes v) -> (forall i, i <> id -> a' i = a i) -> (exists b, a' id = Some b /\ take 12 b = cluster_bytes c') ->
  synced a' v'.
Proof.
  intros Hv [Hb Hz] Hid Eb Ei En Ha (b & Hb' & Ht). split.
  - intros i Hi. rewrite Eb in Hi. rewrite En. destruct (decide (i = id)) as [-> | Hne].
    + exists c', b. by rewrite lookup_insert_eq.
    + rewrite lookup_insert_ne, Ha by done. by apply Hb.
  - intros i Hi. rewrite Ei in Hi. rewrite Ha; [by apply Hz |]. intros ->. by apply (busy_not_idle n v id).
Qed.

(** User data do not touch the heads. *)
Lemma synced_userdata n a a' v s id off x : R s n a -> synced a v -> 0 <= off -> (forall i, i <> id -> a' i = a i) ->
  a' id = write_at (12 + off) x <$> a id -> synced a' v.
Proof.
  intros HR [Hb Hz] Ho Ha E. assert (forall i b, a i = Some b -> exists b', a' i = Some b' /\ take 12 b' = take 12 b) as Hall.
  { intros i b Hi. destruct (decide (i = id)) as [-> | Hne]; [|exists b; by rewrite Ha]. rewrite E, Hi.
    eexists. split; [done |]. by eapply head_kept. }
  split.
  - intros i Hi. destruct (Hb i Hi) as (c & b & Hc & Hab & Ht). destruct (Hall i b Hab) as (b' & Hab' & Ht'). exists c, b'.
    split; [done |]. split; [done | by rewrite Ht'].
  - intros i Hi. destruct (Hz i Hi) as (b & Hab & Ht). destruct (Hall i b Hab) as (b' & Hab' & Ht'). exists b'. split; [done | by rewrite Ht'].
Qed.

(** New busy views with zero heads. *)
Lemma synced_acquired a a' v v' ids : synced a v -> frame a a' v v' -> busylist v' = busylist v ++ ids -> idle_zero a' v' ->
  (forall id, id ∈ ids -> nodes v' !! id = Some evfs_cluster0 /\ a' id = Some (replicate (Z.to_nat cs) 0)) -> synced a' v'.
Proof.
  intros [Hb _] Hfr Eb Hz Hids. split; [|done]. intros i Hi. rewrite Eb in Hi. apply elem_of_app in Hi as [Hi | Hi].
  - destruct (Hfr i Hi) as [-> ->]. by apply Hb.
  - destruct (Hids i Hi) as [Hn Ha]. exists evfs_cluster0. eexists. split; [done |]. split; [done |].
    pose proof (so_cs : 12 < cs). rewrite take_replicate, Nat.min_l by lia. done.
Qed.

(** A view that goes back to the idle list gets a zero head. *)
Lemma synced_released n a a' v v' id : synced a v -> id ∈ busylist v -> busylist v' = filter (.≠ id) (busylist v) ->
  idlelist v' = idlelist v ++ [id] -> nodes v' = <[id := evfs_cluster0]> (nodes v) -> (forall i, i <> id -> a' i = a i) ->
  (exists b, a' id = Some b /\ take 12 b = cluster_bytes evfs_cluster0) -> views_ok n v -> synced a' v'.
Proof.
  intros [Hb Hz] Hid Eb Ei En Ha Hx Hv. split.
  - intros i Hi. rewrite Eb in Hi. apply elem_of_del in Hi as [Hne Hi]. rewrite En, lookup_insert_ne, Ha by done. by apply Hb.
  - intros i Hi. rewrite Ei in Hi. apply elem_of_app in Hi as [Hi | ->%list_elem_of_singleton]; [|done].
    destruct (decide (i = id)) as [-> | Hne]; [done |]. rewrite Ha by done. by apply Hz.
Qed.

(** ** Programs of view operations *)
Inductive view_op :=
  | Acquire | AcquireMore (amount : Z) | Release (id : Z) | Expand
  | SetNext (id : Z) (next : option Z) | SetHead (id : Z) (head : option Z)
  | SetHeadSize (id size : Z) | SetElementSize (id size : Z)
  | WriteUserdata (id : Z) (buffer : list Z) (offset : Z) | ReadUserdata (id offset length : Z) | Flush (id : Z).

(** The callers hold busy views, and pass ints. *)
Definition op_guard (op : view_op) v : bool :=
  match op with
  | Acquire | Expand => true
  | AcquireMore amount => 0 <? amount
  | Release id | SetNext id _ | SetHead id _ | SetHeadSize id _ | SetElementSize id _ => bool_decide (id ∈ busylist v)
  | Flush id => bool_decide (id ∈ busylist v)
  | WriteUserdata id buffer offset => bool_decide (id ∈ busylist v) && (offset <? 2 ^ 31) && (zlen buffer <? 2 ^ 31)
  | ReadUserdata id offset length => bool_decide (id ∈ busylist v) && (offset <? 2 ^ 31) && (length <? 2 ^ 31)
  end.
(** How often the disk can grow for an operation. *)
Definition growths (op : view_op) : Z := match op with Acquire | Expand => 1 | AcquireMore amount => Z.max 0 amount | _ => 0 end.
Definition total_growths (ops : list view_op) : Z := foldr (fun op k => growths op + k) 0 ops.
Lemma growths_pos op : 0 <= growths op.
Proof. destruct op; cbn; lia. Qed.
Lemma total_growths_pos ops : 0 <= total_growths ops.
Proof. induction ops as [|op ops IH]; cbn; [lia |]. pose proof (growths_pos op). unfold total_growths in IH. lia. Qed.

Definition view_exec (fuel : nat) (op : view_op) v s : option (views * S) :=
  match op with
  | Acquire => '(_, v, s) ← evfs_view_acquire_idle st all fuel v s; Some (v, s)
  | AcquireMore amount => '(_, _, v, s) ← evfs_view_acquire_idle_more st all fuel amount v s; Some (v, s)
  | Release id => '(_, v, s) ← evfs_view_move_to_idle st (Some id) v s; Some (v, s)
  | Expand => '(_, v, s) ← evfs_view_expand st all v s; Some (v, s)
  | SetNext id next => '(_, v, s) ← evfs_view_set_next st (Some id) next v s; Some (v, s)
  | SetHead id head => '(_, v, s) ← evfs_view_set_head st (Some id) head v s; Some (v, s)
  | SetHeadSize id size => '(_, v, s) ← evfs_view_set_head_data_seg_size st (Some id) size v s; Some (v, s)
  | SetElementSize id size => '(_, v, s) ← evfs_view_set_element_data_seg_size st (Some id) size v s; Some (v, s)
  | WriteUserdata id buffer offset => '(_, s) ← evfs_view_write_userdata st (Some id) buffer offset v s; Some (v, s)
  | ReadUserdata id offset length => '(_, _, s) ← evfs_view_read_userdata st (Some id) offset length v s; Some (v, s)
  | Flush id => s ← evfs_view_flush st (Some id) v s; Some (v, s)
  end.
Fixpoint view_run (fuel : nat) (ops : list view_op) v s : option (views * S) :=
  match ops with
  | [] => Some (v, s)
  | op :: ops =>
      '(v, s) ← (if op_guard op v then view_exec fuel op v s else Some (v, s));
      view_run fuel ops v s
  end.

Lemma userdata_write_total n a v s id buffer offset : ready n a v s -> 0 < id < n -> offset < 2 ^ 31 -> zlen buffer < 2 ^ 31 ->
  exists k s' a', evfs_view_write_userdata st (Some id) buffer offset v s = Some (k, s') /\ ready n a' v s'.
Proof.
  intros Hr Hid Ho Hb. destruct (proj2 (vo_nodes _ _ (rd_views _ _ _ _ Hr) id) Hid) as [c Hc].
  destruct (decide (0 <= offset /\ 0 < zlen buffer)) as [[H1 H2] | H].
  - destruct (decide (seg c <> 0 \/ head_id c <> 0)) as [Hu | Hu].
    + destruct (evfs_view_write_userdata_ok n a v s id buffer offset c Hr Hid Hc Hu ltac:(lia) ltac:(lia))
        as (k & s' & a' & -> & Hr' & _). by exists k, s', a'.
    + exists 0, s, a. split; [|done]. unfold evfs_view_write_userdata, unused. rewrite Hc. cbn [mbind option_bind].
      assert ((0 =? seg c) && (0 =? head_id c) = true) as -> by (apply andb_true_iff; rewrite !Z.eqb_eq; lia).
      by case_match.
  - exists 0, s, a. split; [|done]. unfold evfs_view_write_userdata.
    assert ((offset <? 0) || (zlen buffer <=? 0) = true) as -> by (apply orb_true_iff; rewrite Z.ltb_lt, Z.leb_le; lia). done.
Qed.

Lemma userdata_read_total n a v s id offset length : ready n a v s -> 0 < id < n -> offset < 2 ^ 31 -> length < 2 ^ 31 ->
  exists k out s', evfs_view_read_userdata st (Some id) offset length v s = Some (k, out, s') /\ ready n a v s'.
Proof.
  intros Hr Hid Ho Hb. destruct (proj2 (vo_nodes _ _ (rd_views _ _ _ _ Hr) id) Hid) as [c Hc].
  destruct (decide (0 <= offset /\ 0 < length)) as [[H1 H2] | H].
  - destruct (decide (seg c <> 0 \/ head_id c <> 0)) as [Hu | Hu].
    + destruct (evfs_view_read_userdata_ok n a v s id offset length c Hr Hid Hc Hu ltac:(lia) ltac:(lia))
        as (k & out & s' & -> & Hr' & _). by exists k, out, s'.
    + exists 0, None, s. split; [|done]. unfold evfs_view_read_userdata, unused. rewrite Hc. cbn [mbind option_bind].
      assert ((0 =? seg c) && (0 =? head_id c) = true) as -> by (apply andb_true_iff; rewrite !Z.eqb_eq; lia).
      by case_match.
  - exists 0, None, s. split; [|done]. unfold evfs_view_read_userdata.
    assert ((offset <? 0) || (length <=? 0) = true) as -> by (apply orb_true_iff; rewrite Z.ltb_lt, Z.leb_le; lia). done.
Qed.

Lemma view_exec_ok fuel op n a v s : (0 < fuel)%nat -> ready n a v s -> op_guard op v = true ->
  n + step * growths op <= limit ->
  exists v' s' n' a', view_exec fuel op v s = Some (v', s') /\ ready n' a' v' s' /\ n <= n' <= n + step * growths op.
Proof.
  intros Hf Hr Hg Hroom. destruct op; cbn [view_exec op_guard growths] in *;
    repeat match goal with H : _ && _ = true |- _ => apply andb_prop in H as [? ?] end;
    repeat match goal with H : bool_decide _ = true |- _ => apply bool_decide_eq_true in H end;
    try match goal with H : ?i ∈ busylist v |- _ => pose proof (busy_range n a v s i Hr H) as Hid end.
  - destruct (evfs_view_acquire_idle_ok n a v s fuel Hr Hf) as (? & v' & s' & n' & a' & -> & Hr' & [Hn _] & _).
    { pose proof (cost_room n v 1 (rd_views _ _ _ _ Hr) (rd_pos _ _ _ _ Hr) ltac:(lia) ltac:(lia)). lia. }
    exists v', s', n', a'. split_and!; lia || done.
  - destruct (evfs_view_acquire_idle_more_ok n a v s fuel amount Hr Hf) as (? & ? & v' & s' & n' & a' & -> & Hr' & [Hn _] & _); [lia | |].
    { apply cost_room; [apply (rd_views _ _ _ _ Hr) | apply (rd_pos _ _ _ _ Hr) | lia | lia]. }
    exists v', s', n', a'. split_and!; nia || done.
  - destruct (evfs_view_move_to_idle_ok n a v s id Hr Hg) as (? & v' & s' & a' & -> & Hr' & _). exists v', s', n, a'. split; [done |]. split; [done | lia].
  - destruct (evfs_view_expand_ok n a v s Hr ltac:(lia)) as (? & v' & s' & n' & a' & -> & Hr' & Hn & _).
    exists v', s', n', a'. split_and!; lia || done.
  - destruct (change_ok n a v s id (set_next_id (default 0 next0)) Hr Hid) as (? & s' & a' & c & _ & E & Hr' & _).
    unfold evfs_view_set_next. rewrite E. do 4 eexists. split; [reflexivity |]. split; [exact Hr' | lia].
  - destruct (change_ok n a v s id (set_head_id (default (default 0 (Some id)) head)) Hr Hid) as (? & s' & a' & c & _ & E & Hr' & _).
    unfold evfs_view_set_head. rewrite E. do 4 eexists. split; [reflexivity |]. split; [exact Hr' | lia].
  - destruct (set_data_seg_size_ok n a v s id (head_data_seg_size size) Hr Hid) as (? & v' & s' & a' & c & _ & E & Hr' & _).
    unfold evfs_view_set_head_data_seg_size. rewrite E. do 4 eexists. split; [reflexivity |]. split; [exact Hr' | lia].
  - destruct (set_data_seg_size_ok n a v s id (element_data_seg_size size) Hr Hid) as (? & v' & s' & a' & c & _ & E & Hr' & _).
    unfold evfs_view_set_element_data_seg_size. rewrite E. do 4 eexists. split; [reflexivity |]. split; [exact Hr' | lia].
  - destruct (userdata_write_total n a v s id buffer offset Hr Hid) as (k & s' & a' & -> & Hr'); [lia | lia |]. exists v, s', n, a'. split; [done |]. split; [done | lia].
  - destruct (userdata_read_total n a v s id offset length Hr Hid) as (k & out & s' & -> & Hr'); [lia | lia |]. exists v, s', n, a. split; [done |]. split; [done | lia].
  - unfold evfs_view_flush. rewrite (proj2 (Z.leb_gt _ _) (rd_total _ _ _ _ Hr)).
    destruct (so_flush id s n a (rd_store _ _ _ _ Hr)) as (s' & -> & HR'). exists v, s', n, a. split; [done |].
    split; [by apply (ready_store n a a v s) | lia].
Qed.

(** Making the views of a disk. *)
Lemma create_ready junk n a s r x : 1 < n -> R s n a -> cache_hard_state st s = Some (r, x) -> NSP_SUCCESS r = true ->
  exists v, evfs_view_create st all junk views0 s = Some (NSP_STATUS_SUCCESSFUL, v) /\ ready n a v s /\ busylist v = [].
Proof.
  intros Hn HR E Hs. unfold evfs_view_create. rewrite E. cbn [mbind option_bind]. cbn [views0 total_cluster_count].
  change (0 <? 0) with false. change (0 =? 0) with true. cbn [negb].
  destruct (so_state s n a HR) as (r' & x' & E' & Hx). rewrite E in E'. injection E' as <- <-. rewrite Hs, (Hx Hs). cbn [negb hard_cluster_count].
  rewrite cluster_ids_from.
  destruct (create_views_ok junk (Z.to_nat (n - 1)) 1 (set_total (n - 1) views0)) as (v1 & Ec & Hv1 & (E1 & E2 & E3) & _); [|done |].
  { apply (views_ok_set 1 views0); try done. apply views0_ok. }
  rewrite Z2Nat.id in Ec, Hv1 by lia. rewrite Ec. cbn [mbind option_bind]. eexists. split; [reflexivity |].
  replace (1 + (n - 1)) with n in Hv1 by lia.
  split; [|cbn; by rewrite E1]. split; try done; [by apply (views_ok_set n v1) | lia | cbn; rewrite E2; cbn; lia].
Qed.

End Operations.

(** ** A store in memory: clusters of 64 bytes, growing by two *)
Definition plain_guard (off len : Z) : bool := (0 <=? off) && (0 <=? len) && (off + len <=? 52).
Definition plain_store : store (Z * (Z -> option (list Z))) := {|
  cache_hard_state s := Some (NSP_STATUS_SUCCESSFUL, Stat (s.1 - 1) 64 52);
  cache_read_head_directly id s := b ← s.2 id; Some (NSP_STATUS_SUCCESSFUL, take 12 b, s);
  cache_expand s :=
    Some (2, s.1, (s.1 + 2, fun i => if decide (s.1 <= i < s.1 + 2) then Some (replicate (Z.to_nat 64) 0) else s.2 i));
  cache_write_head id b s := Some (NSP_STATUS_SUCCESSFUL, (s.1, written id 0 b s.2));
  cache_write id b off s := Some (NSP_STATUS_SUCCESSFUL, (s.1, written id off b s.2));
  cache_write_userdata id b off s :=
    if plain_guard off (zlen b) then Some (NSP_STATUS_SUCCESSFUL, (s.1, written id (12 + off) b s.2))
    else Some (posix__makeerror EINVAL, s);
  cache_read_userdata id off len s :=
    if plain_guard off len then b ← s.2 id; Some (NSP_STATUS_SUCCESSFUL, Some (read_at (12 + off) len b), s)
    else Some (posix__makeerror EINVAL, None, s);
  cache_flush_block _ s := Some s;
  hard_allocate_cluster b _ := Some (Some (b ++ replicate (Z.to_nat 64) 0));
|}.

Definition plain_rel (s : Z * (Z -> option (list Z))) (n : Z) (a : Z -> option (list Z)) : Prop :=
  s = (n, a) /\ 0 < n /\ forall id, match a id with Some b => 0 < id < n /\ zlen b = 64 | None => ~ 0 < id < n end.

Lemma plain_written n a id off b : plain_rel (n, a) n a -> 0 <= off -> off + zlen b <= 64 ->
  plain_rel (n, written id off b a) n (written id off b a).
Proof.
  intros (_ & Hn & H) Ho Hb. split; [done |]. split; [done |]. intros i. unfold written. specialize (H i). case_decide; [|done].
  destruct (a i) as [c|]; cbn; [|done]. destruct H as [? Hc]. split; [done |]. pose proof (zlen_nonneg b).
  rewrite write_at_len; lia.
Qed.

#[export] Instance plain_ok limit : StoreOk plain_store 64 2 limit plain_rel.
Proof.
  split; try done.
  - intros s n a id (-> & Hn & H). specialize (H id). destruct (a id); split; naive_solver.
  - intros s n a id b (-> & Hn & H) Hb. specialize (H id). rewrite Hb in H. by destruct H.
  - intros s n a (-> & _). by do 2 eexists.
  - intros id s n a (-> & Hn & H) Hid. pose proof (H id) as Hi. cbn. destruct (a id) as [b|]; [|lia]. cbn. do 3 eexists.
    split; [reflexivity |]. split; [done |]. unfold zlen in *. rewrite length_take. lia.
  - intros s n a (-> & Hn & H) _. cbn. do 3 eexists. split; [reflexivity |]. right. split; [done |]. split; [done |].
    split; [done |]. split; [lia |]. intros id. specialize (H id). case_decide as Hd.
    + split; [lia | done].
    + destruct (a id); [|lia]. destruct H. split; [lia | done].
  - intros id b s n a (-> & Hn & H) Hid Hb. do 2 eexists. split; [reflexivity |]. left. split; [done |].
    apply plain_written; [done | done | lia].
  - intros id b s n a (-> & Hn & H) Hid Hb. do 2 eexists. split; [reflexivity |]. left. split; [done |].
    apply plain_written; [done | done | lia].
  - intros id b off s n a (-> & Hn & H) Hid Ho Hb. cbn. unfold plain_guard.
    destruct ((0 <=? off) && (0 <=? zlen b) && (off + zlen b <=? 52)) eqn:E; do 2 eexists; (split; [reflexivity |]).
    + apply andb_prop in E as [_ E%Z.leb_le]. left. split; [done |]. split; [lia |]. apply plain_written; [done | lia | lia].
    + right. done.
  - intros id off len s n a (-> & Hn & H) Hid Ho Hl. cbn. unfold plain_guard. pose proof (H id) as Hi.
    destruct ((0 <=? off) && (0 <=? len) && (off + len <=? 52)) eqn:E.
    + apply andb_prop in E as [_ E%Z.leb_le]. destruct (a id) as [b|] eqn:Ea; [|lia]. cbn. do 3 eexists.
      split; [reflexivity |]. split; [done |]. left. split; [done |]. split; [lia |]. by exists b.
    + do 3 eexists. split; [reflexivity |]. split; [done |]. by right.
  - intros id s n a H. by exists s.
  - intros s n a b (-> & _) _. eexists. split; [reflexivity |]. by intros blk [= <-].
Qed.

#[export] Instance plain_reliable limit : Reliable plain_store 64 2 limit plain_rel.
Proof.
  split; cbn; try done.
  - by intros s n a r x _ [= <- _].
  - by intros s n a k first s' _ _ [= <- _ _].
  - by intros id b s n a r s' _ _ _ [= <- _].
  - by intros id b s n a r s' _ _ _ [= <- _].
  - intros id b off s n a r s' _ _ Ho Hb. unfold plain_guard. pose proof (zlen_nonneg b).
    rewrite !(proj2 (Z.leb_le _ _)) by lia. by intros [= <- _].
  - intros id off len s n a r out s' (-> & Hn & H) _ Ho Hl Hle. unfold plain_guard. cbn [snd].
    rewrite !(proj2 (Z.leb_le _ _)) by lia. cbn [andb]. destruct (a id); [|done]. cbn. by intros [= <- _ _].
Qed.

(** A disk of [n] clusters of zeros. *)
Definition plain_zero (n : Z) : Z * (Z -> option (list Z)) :=
  (n, fun id => if decide (0 < id < n) then Some (replicate (Z.to_nat 64) 0) else None).
Lemma plain_zero_ok n : 0 < n -> plain_rel (plain_zero n) n (plain_zero n).2.
Proof. intros Hn. split; [done |]. split; [done |]. intros id. cbn. by case_decide. Qed.

