(* ===== verification/Entries.v ===== *)
(** The entries of evfs: addons/evfs/entries.c over [View].

    An entry is a chain of views: the head, whose user data begin with the 32 bytes of
    the name, and the elements behind it.  A pointer to an entry or an element is the
    id of its view.  The operations run one after the other on a world of entries,
    views and cache ([partial_state]); [None] is undefined behaviour, a failed assert, or
    a loop without end. *)
From S2P Require Import Prelude AvlTree Ifos Cluster View.

Definition EACCES : Z := 13.
Definition ENOSPC : Z := 28.
Definition MAX_ENTRY_NAME_LENGTH : Z := 32.

Inductive evfs_entry_state := kEvfsEntryNormal | kEvfsEntryCloseWait | kEvfsEntryBusy | kEvfsEntryOpen | kEvfsEntryMandatory.
#[export] Instance entry_state_dec : EqDecision evfs_entry_state.
Proof. solve_decision. Defined.

Record evfs_entry_head := EntryHead {
  elements : list Z; count_of_elements : Z; refcnt : Z; io_refcnt : Z;
  state : evfs_entry_state; hard_remove_on_detach : bool; key : list Z;
}.
Definition set_elements (q : list Z) (n : Z) (h : evfs_entry_head) :=
  EntryHead q n (refcnt h) (io_refcnt h) (state h) (hard_remove_on_detach h) (key h).
Definition set_refs (r io : Z) (h : evfs_entry_head) :=
  EntryHead (elements h) (count_of_elements h) r io (state h) (hard_remove_on_detach h) (key h).
Definition set_state (x : evfs_entry_state) (h : evfs_entry_head) :=
  EntryHead (elements h) (count_of_elements h) (refcnt h) (io_refcnt h) x (hard_remove_on_detach h) (key h).
Definition set_hard_remove (b : bool) (h : evfs_entry_head) :=
  EntryHead (elements h) (count_of_elements h) (refcnt h) (io_refcnt h) (state h) b (key h).

(** [__evfs_entries_mgr] and the heads.  The named tree holds heads with their keys,
    which never change; a key that is searched comes with no head. *)
Record entries := Entries {
  heads : gmap Z evfs_entry_head;
  root_of_entries_tree : tree Z;
  root_of_named_entries_tree : tree (list Z * Z);
  entries_list : list Z; count_of_entries : Z;
  wild : list Z; count_of_wild_entries_element : Z;
  entry_seg_size : Z;
}.
Definition entries0 : entries := Entries ∅ Null Null [] 0 [] 0 0.
Definition set_heads (x : gmap Z evfs_entry_head) (e : entries) : entries :=
  Entries x (root_of_entries_tree e) (root_of_named_entries_tree e) (entries_list e) (count_of_entries e)
    (wild e) (count_of_wild_entries_element e) (entry_seg_size e).
Definition set_index (t : tree Z) (tn : tree (list Z * Z)) (q : list Z) (n : Z) (e : entries) : entries :=
  Entries (heads e) t tn q n (wild e) (count_of_wild_entries_element e) (entry_seg_size e).
Definition set_wild (q : list Z) (n : Z) (e : entries) : entries :=
  Entries (heads e) (root_of_entries_tree e) (root_of_named_entries_tree e) (entries_list e) (count_of_entries e)
    q n (entry_seg_size e).
Definition set_seg_size (m : Z) (e : entries) : entries :=
  Entries (heads e) (root_of_entries_tree e) (root_of_named_entries_tree e) (entries_list e) (count_of_entries e)
    (wild e) (count_of_wild_entries_element e) m.

Definition __evfs_entries_compare_entry_head (left right : Z) : Z :=
  if right <? left then 1 else if left <? right then -1 else 0.
(** strcmp of the two keys *)
Fixpoint strcmp (l r : list Z) : Z :=
  match l, r with
  | [], [] => 0
  | [], _ :: _ => -1
  | _ :: _, [] => 1
  | a :: l, b :: r => if a <? b then -1 else if b <? a then 1 else strcmp l r
  end.
Definition __evfs_entries_compare_named_entry_head (left right : list Z * Z) : Z :=
  strcmp (cstring left.1) (cstring right.1).

(** ** The monad *)
Record world (S : Type) := World { w_entries : entries; w_views : views; w_store : S }.
Arguments World {S}. Arguments w_entries {S}. Arguments w_views {S}. Arguments w_store {S}.
Definition M (S A : Type) : Type := partial_state (world S) A.
#[local] Open Scope monad_scope.

Section Entries.
Context {S : Type} (st : store S).

(** What can be allocated: the heads and elements of views, an array of pointers; and
    how many times the disk is grown before the search for an idle view is given up. *)
Record memory := Memory { mem_view : Z -> bool; mem_head : Z -> bool; mem_element : Z -> bool; mem_array : Z -> bool; loops : nat }.
Context (mem : memory).

Definition gets {A} (f : entries -> A) : M S A := fun w => Some (f (w_entries w), w).
Definition modify (f : entries -> entries) : M S unit := fun w => Some (tt, World (f (w_entries w)) (w_views w) (w_store w)).
Definition gets_option {A} (f : entries -> option A) : M S A := fun w => x ← f (w_entries w); Some (x, w).
Definition modify_option (f : entries -> option entries) : M S unit :=
  fun w => e ← f (w_entries w); Some (tt, World e (w_views w) (w_store w)).

(** Calls into view.c. *)
Definition ask {A} (f : views -> option A) : M S A := fun w => x ← f (w_views w); Some (x, w).
Definition call {A} (f : views -> S -> option (A * views * S)) : M S A :=
  fun w => '(x, v, s) ← f (w_views w) (w_store w); Some (x, World (w_entries w) v s).
Definition access {A} (f : views -> S -> option (A * S)) : M S A :=
  fun w => '(x, s) ← f (w_views w) (w_store w); Some (x, World (w_entries w) (w_views w) s).

(** The head behind a pointer, and a change of it. *)
Definition head (id : Z) : M S evfs_entry_head := gets_option (fun e => heads e !! id).
Definition on_head (id : Z) (f : evfs_entry_head -> evfs_entry_head) : M S unit :=
  modify_option (fun e => h ← heads e !! id; Some (set_heads (<[id := f h]> (heads e)) e)).

(** ** References *)
Definition __evfs_entries_search_head (id : Z) : M S (option Z) :=
  gets (fun e => node_of (avlsearch (root_of_entries_tree e) (Some id) (Some __evfs_entries_compare_entry_head))).

(** The key is copied into 32 bytes. *)
Definition __evfs_entries_search_named_head (name : list Z) : M S (option Z) :=
  if zlen (cstring name) <? MAX_ENTRY_NAME_LENGTH then
    gets (fun e => snd <$> node_of (avlsearch (root_of_named_entries_tree e) (Some (name, 0))
                                     (Some __evfs_entries_compare_named_entry_head)))
  else stuck.

Definition __evfs_entries_check_reference_condition (id : Z) (permission : evfs_entry_state) : M S Z :=
  h <- head id ;;
  match permission with
  | kEvfsEntryNormal =>
      if decide (state h = kEvfsEntryNormal)
      then on_head id (set_refs (refcnt h + 1) (io_refcnt h + 1)) ;;; ret NSP_STATUS_SUCCESSFUL
      else ret (posix__makeerror EACCES)
  | kEvfsEntryOpen =>
      if decide (state h = kEvfsEntryNormal)
      then on_head id (set_refs (refcnt h + 1) (io_refcnt h)) ;;; ret NSP_STATUS_SUCCESSFUL
      else ret (posix__makeerror EACCES)
  | kEvfsEntryBusy =>
      if decide (state h = kEvfsEntryNormal) then
        if 0 =? io_refcnt h
        then on_head id (fun h => set_state kEvfsEntryBusy (set_refs (refcnt h + 1) (io_refcnt h) h)) ;;;
             ret NSP_STATUS_SUCCESSFUL
        else ret (posix__makeerror EBUSY)
      else ret (posix__makeerror EACCES)
  | _ => ret NSP_STATUS_SUCCESSFUL
  end.

(** The status, and the head when it is a success. *)
Definition reference_found (found : option Z) (permission : evfs_entry_state) : M S (Z * option Z) :=
  match found with
  | None => ret (posix__makeerror ENOENT, None)
  | Some id =>
      status <- __evfs_entries_check_reference_condition id permission ;;
      ret (status, if NSP_SUCCESS status then Some id else None)
  end.
Definition __evfs_entries_reference_head (id : Z) (permission : evfs_entry_state) : M S (Z * option Z) :=
  found <- __evfs_entries_search_head id ;; reference_found found permission.
Definition __evfs_entries_reference_head_by_name (name : list Z) (permission : evfs_entry_state) : M S (Z * option Z) :=
  found <- __evfs_entries_search_named_head name ;; reference_found found permission.

(** ** Freeing *)

(** An element of a head, or one that belongs to none. *)
Definition __evfs_entries_free_element (owner : option Z) (elem : Z) : M S unit :=
  match owner with
  | None => ret tt
  | Some id =>
      h <- head id ;;
      match list_del elem (elements h) with
      | None => stuck
      | Some q =>
          on_head id (set_elements q (count_of_elements h - 1)) ;;;
          if hard_remove_on_detach h
          then call (evfs_view_move_to_idle st (Some elem)) ;;; ret tt
          else ret tt
      end
  end.

Fixpoint free_elements (id : Z) (q : list Z) : M S unit :=
  match q with
  | [] => ret tt
  | elem :: q => __evfs_entries_free_element (Some id) elem ;;; free_elements id q
  end.

(** Out of the list and of the trees. *)
Definition detach (id : Z) (h : evfs_entry_head) (e : entries) : option entries :=
  q ← list_del id (entries_list e);
  '(t, _) ← avlremove (root_of_entries_tree e) (Some id) None (Some __evfs_entries_compare_entry_head);
  tn ← (if default 0 (key h !! 0%nat) =? 0 then Some (root_of_named_entries_tree e)
        else fst <$> avlremove (root_of_named_entries_tree e) (Some (key h, id)) None
                       (Some __evfs_entries_compare_named_entry_head));
  Some (set_index t tn q (count_of_entries e - 1) e).

Definition __evfs_entries_free_head (id : Z) : M S unit :=
  h <- head id ;;
  modify_option (detach id h) ;;;
  free_elements id (elements h) ;;;
  (if hard_remove_on_detach h then call (evfs_view_move_to_idle st (Some id)) ;;; ret tt else ret tt) ;;;
  modify (fun e => set_heads (delete id (heads e)) e).

Definition __evfs_entries_dereference_head (id : Z) (permission : evfs_entry_state) : M S unit :=
  h <- head id ;;
  if 0 <? refcnt h then
    on_head id (set_refs (refcnt h - 1) (io_refcnt h)) ;;;
    (if decide (permission = kEvfsEntryNormal) then
       if 0 <? io_refcnt h then on_head id (set_refs (refcnt h - 1) (io_refcnt h - 1)) else stuck
     else ret tt) ;;;
    (if decide (permission = kEvfsEntryBusy /\ state h = kEvfsEntryBusy) then on_head id (set_state kEvfsEntryNormal) else ret tt) ;;;
    h <- head id ;;
    if (0 =? refcnt h) && bool_decide (state h = kEvfsEntryCloseWait) then __evfs_entries_free_head id else ret tt
  else stuck.

Definition __evfs_entries_try_delete_head (id : Z) (permission : evfs_entry_state) : M S unit :=
  on_head id (set_state kEvfsEntryCloseWait) ;;;
  h <- head id ;;
  let r := if bool_decide (permission = kEvfsEntryMandatory) && (0 =? io_refcnt h) then 0 else refcnt h in
  on_head id (set_refs r (io_refcnt h)) ;;;
  if 0 =? r then __evfs_entries_free_head id else ret tt.

(** ** Allocation *)
Definition insert_head (id : Z) (h : evfs_entry_head) (e : entries) : option entries :=
  t ← avlinsert (root_of_entries_tree e) (Some id) (Some __evfs_entries_compare_entry_head);
  tn ← (if default 0 (key h !! 0%nat) =? 0 then Some (root_of_named_entries_tree e)
        else avlinsert (root_of_named_entries_tree e) (Some (key h, id)) (Some __evfs_entries_compare_named_entry_head));
  Some (set_index t tn (entries_list e ++ [id]) (count_of_entries e + 1) e).
Definition __evfs_entries_insert_head (id : Z) : M S unit := h <- head id ;; modify_option (insert_head id h).
Definition __evfs_entries_insert_wild (elem : Z) : M S unit :=
  modify (fun e => set_wild (wild e ++ [elem]) (count_of_wild_entries_element e + 1) e).

(** strncpy (key, name, 31) into zeros *)
Definition key_of (name : list Z) : list Z :=
  let c := take 31 (cstring name) in c ++ replicate (32 - length c) 0.

(** The head of a view: its name is the one given, or the one on the disk. *)
Definition __evfs_entries_alloc_head (id : Z) (name : option (list Z)) : M S (option Z) :=
  if mem_head mem id then
    disk <- match name with
            | Some _ => ret None
            | None => let* (_, out) := access (fun v s => '(k, out, s) ← evfs_view_read_userdata st (Some id) 0 32 v s; Some ((k, out), s)) in ret out
            end ;;
    call (evfs_view_set_head st (Some id) None) ;;;
    let k := match name with Some n => key_of n | None => default (replicate 32 0) disk end in
    modify (fun e => set_heads (<[id := EntryHead [] 0 0 0 kEvfsEntryNormal false k]> (heads e)) e) ;;;
    ret (Some id)
  else ret None.

(** An element behind the others of its head. *)
Definition __evfs_entries_alloc_element (elem id : Z) : M S (option Z) :=
  if mem_element mem elem then
    call (evfs_view_set_head st (Some elem) (Some id)) ;;;
    on_head id (fun h => set_elements (elements h ++ [elem]) (count_of_elements h + 1) h) ;;;
    ret (Some elem)
  else ret None.

(** The elements of the views [ids], linked one behind the other; false when one could
    not be allocated. *)
Fixpoint link_elements (id : Z) (last : Z) (ids : list Z) : M S bool :=
  match ids with
  | [] => ret true
  | elem :: ids =>
      new <- __evfs_entries_alloc_element elem id ;;
      match new with
      | None => ret false
      | Some elem => call (evfs_view_set_next st (Some last) (Some elem)) ;;; link_elements id elem ids
      end
  end.
(** Writing the heads of the elements, until one fails; NSP_SUCCESS of a byte count. *)
Fixpoint write_heads (q : list Z) : M S Z :=
  match q with
  | [] => ret NSP_STATUS_SUCCESSFUL
  | elem :: q =>
      status <- access (evfs_view_write_head st (Some elem)) ;;
      if NSP_SUCCESS status then match q with [] => ret status | _ => write_heads q end else ret status
  end.

Definition __evfs_entries_alloc_idle_elements_for_head (id quota : Z) : M S Z :=
  if 0 =? quota then ret NSP_STATUS_SUCCESSFUL
  else if negb (mem_array mem quota) then ret (posix__makeerror ENOMEM)
  else
    let* (status, ids) := call (fun v s => '(r, ids, v, s) ← evfs_view_acquire_idle_more st (mem_view mem) (loops mem) quota v s;
                                         Some ((r, ids), v, s)) in
    if negb (NSP_SUCCESS status) then ret status
    else
      h <- head id ;;
      ok <- link_elements id (default id (last (elements h))) ids ;;
      if (ok : bool) then
        h' <- head id ;;
        status <- write_heads (elements h') ;;
        if bool_decide (elements h = []) && NSP_SUCCESS status then access (evfs_view_write_head st (Some id)) else ret status
      else
        h' <- head id ;;
        free_elements id (elements h') ;;;
        ret (posix__makeerror ENOMEM).

(** ** Making and finding the entries of a disk *)

(** A busy view: a head, or an element whose head is not known yet (and whose pointer
    to it is not initialised). *)
Definition __evfs_entries_raw_recognize (id : Z) : M S unit :=
  is_head <- ask (evfs_view_looks_like_head (Some id)) ;;
  if (is_head : bool) then
    new <- __evfs_entries_alloc_head id None ;;
    match new with Some id => __evfs_entries_insert_head id | None => ret tt end
  else if mem_element mem id then __evfs_entries_insert_wild id else ret tt.

(** Following the chain of a head through the wild elements: until it ends, or breaks and
    the head is deleted. *)
Fixpoint collect (fuel : nat) (id next_view_id : Z) : M S unit :=
  if 0 <? next_view_id then
    match fuel with
    | O => stuck
    | Datatypes.S fuel =>
        q <- gets wild ;;
        if bool_decide (next_view_id ∈ q) then
          modify (fun e => set_wild (filter (.≠ next_view_id) (wild e)) (count_of_wild_entries_element e - 1) e) ;;;
          on_head id (fun h => set_elements (elements h ++ [next_view_id]) (count_of_elements h + 1) h) ;;;
          n <- ask (evfs_view_get_next_cluster_id (Some next_view_id)) ;;
          collect fuel id n
        else
          on_head id (set_hard_remove true) ;;;
          __evfs_entries_try_delete_head id kEvfsEntryMandatory
    end
  else ret tt.

Fixpoint collect_all (ids : list Z) : M S unit :=
  match ids with
  | [] => ret tt
  | id :: ids =>
      n <- ask (evfs_view_get_next_cluster_id (Some id)) ;;
      q <- gets wild ;;
      collect (Datatypes.S (length q)) id n ;;;
      collect_all ids
  end.

(** Freeing an element that is left over follows its uninitialised pointer. *)
Definition __evfs_entries_init : M S unit :=
  ids <- gets entries_list ;;
  collect_all ids ;;;
  left <- gets wild ;;
  (if bool_decide (left = []) then ret tt else stuck) ;;;
  m <- ask (fun v => Some (evfs_view_get_max_data_seg_size v)) ;;
  modify (set_seg_size m).

Definition evfs_entries_create (junk : Z -> evfs_cluster) : M S Z :=
  status <- call (fun v s => '(r, v) ← evfs_view_create st (mem_view mem) junk v s; Some (r, v, s)) ;;
  if negb (NSP_SUCCESS status) then ret status
  else __evfs_entries_init ;;; ret status.

(** The callback of the load runs in the same world. *)
Definition on_loaded (id : Z) (v : views) (e : entries) (s : S) : option (views * entries * S) :=
  '(_, w) ← __evfs_entries_raw_recognize id (World e v s); Some (w_views w, w_entries w, w_store w).
Definition evfs_entries_load : M S Z :=
  status <- (fun w => '(r, v, e, s) ← evfs_view_load st (Some on_loaded) (mem_view mem) (w_views w) (w_entries w) (w_store w);
                       Some (r, World e v s)) ;;
  if negb (NSP_SUCCESS status) then ret status
  else __evfs_entries_init ;;; ret status.

(** An entry whose references do not let it go stays in the list, and the loop goes on
    forever. *)
Fixpoint delete_all (fuel : nat) : M S unit :=
  q <- gets entries_list ;;
  match q with
  | [] => ret tt
  | id :: _ =>
      match fuel with
      | O => stuck
      | Datatypes.S fuel => __evfs_entries_try_delete_head id kEvfsEntryMandatory ;;; delete_all fuel
      end
  end.
Definition evfs_entries_uninit : M S unit :=
  q <- gets entries_list ;;
  delete_all (length q) ;;;
  fun w => v ← evfs_view_uninit (w_views w); Some (tt, World (w_entries w) v (w_store w)).

(** ** Opening, closing, deleting *)

(** The status and, on success, the id.  The write of the name gives a byte count, which
    is never a failure. *)
Definition evfs_entries_create_one (name : option (list Z)) : M S (Z * option Z) :=
  found <- match name with Some k => __evfs_entries_search_named_head k | None => ret None end ;;
  match found with
  | Some _ => ret (posix__makeerror EEXIST, None)
  | None =>
      view <- call (evfs_view_acquire_idle st (mem_view mem) (loops mem)) ;;
      match view with
      | None => ret (posix__makeerror ENOSPC, None)
      | Some id =>
          new <- __evfs_entries_alloc_head id name ;;
          match new with
          | None => call (evfs_view_move_to_idle st (Some id)) ;;; ret (posix__makeerror ENOMEM, None)
          | Some _ =>
              status <- call (evfs_view_set_head_data_seg_size st (Some id) MAX_ENTRY_NAME_LENGTH) ;;
              if negb (NSP_SUCCESS status) then
                modify (fun e => set_heads (delete id (heads e)) e) ;;;
                call (evfs_view_move_to_idle st (Some id)) ;;; ret (status, None)
              else
                h <- head id ;;
                access (evfs_view_write_userdata st (Some id) (key h) 0) ;;;
                __evfs_entries_insert_head id ;;;
                let* (status, _) := __evfs_entries_reference_head id kEvfsEntryOpen in
                ret (status, Some id)
          end
      end
  end.

Definition evfs_entries_open_one (id : Z) : M S Z :=
  let* (status, _) := __evfs_entries_reference_head id kEvfsEntryOpen in ret status.
Definition evfs_entries_open_one_by_name (name : option (list Z)) : M S (Z * option Z) :=
  match name with
  | None => ret (posix__makeerror EINVAL, None)
  | Some name =>
      let* (status, id) := __evfs_entries_reference_head_by_name name kEvfsEntryOpen in
      ret (if NSP_SUCCESS status then (NSP_STATUS_SUCCESSFUL, id) else (posix__makeerror ENOENT, None))
  end.

(** A reference more, to give back two. *)
Definition evfs_entries_close_one (id : Z) : M S unit :=
  let* (_, found) := __evfs_entries_reference_head id kEvfsEntryOpen in
  match found with
  | Some id => __evfs_entries_dereference_head id kEvfsEntryOpen ;;; __evfs_entries_dereference_head id kEvfsEntryOpen
  | None => ret tt
  end.

(** What the three ways to delete an entry do once it is referenced. *)
Definition delete_referenced (hard : bool) (found : Z * option Z) : M S Z :=
  match found with
  | (status, Some id) =>
      (if hard then on_head id (set_hard_remove true) else ret tt) ;;;
      __evfs_entries_try_delete_head id kEvfsEntryNormal ;;;
      __evfs_entries_dereference_head id kEvfsEntryNormal ;;;
      ret status
  | (status, None) => ret status
  end.
Definition evfs_entries_soft_delete (id : Z) : M S Z :=
  found <- __evfs_entries_reference_head id kEvfsEntryNormal ;; delete_referenced false found.
Definition evfs_entries_hard_delete (id : Z) : M S Z :=
  found <- __evfs_entries_reference_head id kEvfsEntryNormal ;; delete_referenced true found.
Definition evfs_entries_hard_delete_by_name (name : list Z) : M S Z :=
  found <- __evfs_entries_reference_head_by_name name kEvfsEntryNormal ;; delete_referenced true found.

(** A result between a reference and its release, or the status. *)
Definition with_reference {A} (found : Z * option Z) (permission : evfs_entry_state) (fail : Z -> A) (f : Z -> M S A) : M S A :=
  match found with
  | (_, Some id) => x <- f id ;; __evfs_entries_dereference_head id permission ;;; ret x
  | (status, None) => ret (fail status)
  end.

Definition evfs_entries_get_entry_id_by_name (name : list Z) : M S Z :=
  found <- __evfs_entries_reference_head_by_name name kEvfsEntryNormal ;;
  with_reference found kEvfsEntryNormal (fun status => status) (fun id => ret id).

(** strlen of the name, and the name. *)
Definition evfs_entries_query_key (id : Z) : M S (Z * option (list Z)) :=
  found <- __evfs_entries_reference_head id kEvfsEntryNormal ;;
  with_reference found kEvfsEntryNormal (fun status => (status, None)) (fun id =>
    h <- head id ;;
    ret (zlen (cstring (key h)), if 0 <? zlen (cstring (key h)) then Some (cstring (key h)) else None)).

Definition evfs_entries_query_user_seg_size (id : Z) : M S Z :=
  found <- __evfs_entries_reference_head id kEvfsEntryNormal ;;
  with_reference found kEvfsEntryNormal (fun status => status) (fun id =>
    n <- ask (evfs_view_get_data_seg_size (Some id)) ;;
    ret (if 0 <? n then n - MAX_ENTRY_NAME_LENGTH else n)).

Fixpoint flush_elements (q : list Z) : M S unit :=
  match q with
  | [] => ret tt
  | id :: q => access (fun v s => s ← evfs_view_flush st (Some id) v s; Some (tt, s)) ;;; flush_elements q
  end.
Definition evfs_entries_flush (id : Z) : M S unit :=
  found <- __evfs_entries_reference_head id kEvfsEntryNormal ;;
  with_reference found kEvfsEntryNormal (fun _ => tt) (fun id =>
    h <- head id ;; flush_elements (elements h ++ [id])).

(** The iterator is what is left of the list; -1 at its end. *)
Fixpoint iterate_from (q : list Z) (e : entries) : option (Z * list Z) :=
  match q with
  | [] => Some (-1, [])
  | id :: q => h ← heads e !! id; if decide (state h = kEvfsEntryNormal) then Some (id, q) else iterate_from q e
  end.
Definition evfs_entries_iterate (pos : option (list Z)) (e : entries) : option (Z * list Z) :=
  iterate_from (default (entries_list e) pos) e.

(** Idle views, busy views and entries; the first two are not stored when there is no
    disk. *)
Definition evfs_entries_soft_stat : M S (option (Z * Z) * Z) :=
  c <- ask (fun v => Some (evfs_view_get_count v)) ;; n <- gets count_of_entries ;; ret (c, n).

(** ** Size *)
Fixpoint drop_tail (k : nat) (id : Z) : M S unit :=
  match k with
  | O => ret tt
  | Datatypes.S k =>
      h <- head id ;;
      match last (elements h) with
      | Some elem => __evfs_entries_free_element (Some id) elem ;;; drop_tail k id
      | None => stuck
      end
  end.
(** The size of the last element, once for each of the clusters. *)
Fixpoint fill_last (k : nat) (id : Z) : M S unit :=
  match k with
  | O => ret tt
  | Datatypes.S k =>
      h <- head id ;; m <- gets entry_seg_size ;;
      match last (elements h) with
      | Some elem => call (evfs_view_set_element_data_seg_size st (Some elem) m) ;;; fill_last k id
      | None => stuck
      end
  end.

Definition evfs_entries_truncate (id size : Z) : M S Z :=
  let* (status, found) := __evfs_entries_reference_head id kEvfsEntryBusy in
  match found with
  | None => ret status
  | Some id =>
      current <- ask (evfs_view_get_data_seg_size (Some id)) ;;
      clusters <- ask (fun v => Some (evfs_view_transfer_size_to_cluster_count size v)) ;;
      h <- head id ;;
      let quota := clusters - 1 in
      let set_size := call (evfs_view_set_head_data_seg_size st (Some id) size) in
      status <- (if size =? current then ret status
                 else if clusters <=? 0 then ret (posix__makeerror EINVAL)
                 else if quota =? count_of_elements h then set_size
                 else if quota <? count_of_elements h then
                   drop_tail (Z.to_nat (count_of_elements h - quota)) id ;;;
                   h <- head id ;;
                   (if 0 <? count_of_elements h
                    then match last (elements h) with
                         | Some elem => call (evfs_view_set_next st (Some elem) None) ;;; ret tt
                         | None => stuck
                         end
                    else call (evfs_view_set_next st (Some id) None) ;;; ret tt) ;;;
                   set_size
                 else
                   status <- set_size ;;
                   if negb (NSP_SUCCESS status) then ret status
                   else
                     status <- __evfs_entries_alloc_idle_elements_for_head id quota ;;
                     if negb (NSP_SUCCESS status) then ret status
                     else fill_last (Z.to_nat quota) id ;;; ret status) ;;
      __evfs_entries_dereference_head id kEvfsEntryBusy ;;;
      ret status
  end.

(** ** Writing and reading *)
Definition first_element (id : Z) : M S (option Z) := h <- head id ;; ret (elements h !! 0%nat).
Fixpoint after (elem : Z) (q : list Z) : option Z :=
  match q with [] => None | x :: q => if x =? elem then q !! 0%nat else after elem q end.
Definition next_element (elem id : Z) : M S (option Z) := h <- head id ;; ret (after elem (elements h)).
Definition last_element (id : Z) : M S Z := h <- head id ;; match last (elements h) with Some x => ret x | None => stuck end.

(** [n] bytes of the caller's buffer. *)
Definition bytes_of (data : list Z) (off n : Z) : M S (list Z) := fun w => b ← memread data off n; Some (b, w).

(** Each call copies at least one byte or is the last. *)
Fixpoint write_element (fuel : nat) (elem : option Z) (id : Z) (data : list Z) (elem_offset remain_size : Z) : M S Z :=
  m <- gets entry_seg_size ;;
  if (remain_size <=? 0) || (elem_offset <? 0) || (m <=? elem_offset) then ret 0
  else
    status <- match elem with None => __evfs_entries_alloc_idle_elements_for_head id 1 | Some _ => ret NSP_STATUS_SUCCESSFUL end ;;
    if negb (NSP_SUCCESS status) then ret 0
    else
      elem <- match elem with Some x => ret x | None => last_element id end ;;
      size <- ask (evfs_view_get_data_seg_size (Some elem)) ;;
      cpsize <- (if 0 <? size then ret (Z.min remain_size size)
                 else
                   let n := Z.min remain_size (m - elem_offset) in
                   call (evfs_view_set_element_data_seg_size st (Some elem) (elem_offset + n)) ;;; ret n) ;;
      b <- bytes_of data 0 cpsize ;;
      k <- access (evfs_view_write_userdata st (Some elem) b elem_offset) ;;
      if negb (k =? cpsize) || (remain_size =? k) then ret k
      else
        next <- next_element elem id ;;
        match fuel with
        | O => stuck
        | Datatypes.S fuel => r <- write_element fuel next id (drop (Z.to_nat k) data) 0 (remain_size - k) ;; ret (k + r)
        end.
Definition __evfs_entries_write_element (elem : option Z) (id : Z) (data : list Z) (elem_offset remain_size : Z) : M S Z :=
  write_element (Z.to_nat remain_size) elem id data elem_offset remain_size.

(** Going to the element of an offset, growing the chain: the status, the element behind
    and the offset in it. *)
Fixpoint seek_element (fuel : nat) (id : Z) (elem : option Z) (inner : Z) : M S (Z * option Z * Z) :=
  m <- gets entry_seg_size ;;
  if inner <? m then ret (NSP_STATUS_SUCCESSFUL, elem, inner)
  else
    match fuel with
    | O => stuck
    | Datatypes.S fuel =>
        match elem with
        | None =>
            status <- __evfs_entries_alloc_idle_elements_for_head id 1 ;;
            if negb (NSP_SUCCESS status) then ret (status, None, inner)
            else
              elem <- last_element id ;;
              call (evfs_view_set_element_data_seg_size st (Some elem) m) ;;;
              next <- next_element elem id ;;
              seek_element fuel id next (inner - m)
        | Some elem =>
            size <- ask (evfs_view_get_data_seg_size (Some elem)) ;;
            next <- next_element elem id ;;
            seek_element fuel id next (inner - (if 0 <? size then size else m))
        end
    end.

(** What is written of [data] once the entry is referenced. *)
Definition write_referenced (data : list Z) (offset id : Z) : M S Z :=
  let size := zlen data in
  let cpoff := s32 (offset + MAX_ENTRY_NAME_LENGTH) in
  m <- gets entry_seg_size ;;
  current <- ask (evfs_view_get_data_seg_size (Some id)) ;;
  (if current <? s32 (cpoff + size)
   then call (evfs_view_set_head_data_seg_size st (Some id) (s32 (cpoff + size))) ;;; ret tt else ret tt) ;;;
  if cpoff <? m then
    let cpsize := Z.min (m - cpoff) size in
    b <- bytes_of data 0 cpsize ;;
    k <- access (evfs_view_write_userdata st (Some id) b cpoff) ;;
    elem <- first_element id ;;
    if 0 =? size - k then ret cpsize
    else r <- __evfs_entries_write_element elem id (drop (Z.to_nat cpsize) data) 0 (size - k) ;; ret (cpsize + r)
  else
    elem <- first_element id ;;
    let* (status, elem, inner) := seek_element (Z.to_nat (cpoff - m)) id elem (cpoff - m) in
    if negb (NSP_SUCCESS status) then ret status
    else __evfs_entries_write_element elem id data inner size.
Definition evfs_entries_write_data (id : Z) (data : list Z) (offset : Z) : M S Z :=
  if (id <=? 0) || (zlen data <=? 0) then ret (posix__makeerror EINVAL)
  else
    found <- __evfs_entries_reference_head id kEvfsEntryNormal ;;
    with_reference found kEvfsEntryNormal (fun status => status) (write_referenced data offset).

(** The bytes copied and their number. *)
Fixpoint read_element (fuel : nat) (elem : option Z) (id : Z) (elem_offset remain_size : Z) : M S (Z * list Z) :=
  m <- gets entry_seg_size ;;
  match elem with
  | None => ret (0, [])
  | Some elem =>
      if (remain_size <=? 0) || (elem_offset <? 0) || (m <=? elem_offset) then ret (0, [])
      else
        size <- ask (evfs_view_get_data_seg_size (Some elem)) ;;
        if size <=? 0 then ret (0, [])
        else
          let cpsize := Z.min remain_size (size - elem_offset) in
          let* (k, out) := access (fun v s => '(k, out, s) ← evfs_view_read_userdata st (Some elem) elem_offset cpsize v s;
                                              Some ((k, default [] out), s)) in
          if negb (k =? cpsize) || (remain_size =? k) then ret (k, out)
          else
            next <- next_element elem id ;;
            match fuel with
            | O => stuck
            | Datatypes.S fuel =>
                let* (r, rest) := read_element fuel next id 0 (remain_size - k) in ret (k + r, out ++ rest)
            end
  end.

Fixpoint seek_existing (fuel : nat) (id : Z) (elem : option Z) (inner : Z) : M S (option Z * Z) :=
  m <- gets entry_seg_size ;;
  match elem with
  | None => ret (None, inner)
  | Some x =>
      if inner <? m then ret (elem, inner)
      else
        match fuel with
        | O => stuck
        | Datatypes.S fuel =>
            size <- ask (evfs_view_get_data_seg_size (Some x)) ;;
            next <- next_element x id ;;
            seek_existing fuel id next (if 0 <? size then inner - size else inner)
        end
  end.

(** The result and the bytes that were copied to the buffer one after the other.  A
    failed read of the head still counts its bytes. *)
Definition read_referenced (offset size id : Z) : M S (Z * list Z) :=
  let cpoff := s32 (MAX_ENTRY_NAME_LENGTH + offset) in
  m <- gets entry_seg_size ;;
  h <- head id ;;
  total <- ask (evfs_view_get_data_seg_size (Some id)) ;;
  let remain := Z.min (total - cpoff) size in
  if (total <=? 0) || (remain <=? 0) then ret (0, [])
  else if cpoff <? m then
    let cpsize := Z.min (m - cpoff) remain in
    let* (k, out) := access (fun v s => '(k, out, s) ← evfs_view_read_userdata st (Some id) cpoff cpsize v s;
                                        Some ((k, default [] out), s)) in
    let elem := if k =? cpsize then elements h !! 0%nat else None in
    if 0 =? remain - k then ret (cpsize, out)
    else let* (r, rest) := read_element (Z.to_nat (remain - k)) elem id 0 (remain - k) in ret (cpsize + r, out ++ rest)
  else
    let* (elem, inner) := seek_existing (length (elements h)) id (elements h !! 0%nat) (cpoff - m) in
    read_element (Z.to_nat remain) elem id inner remain.
Definition evfs_entries_read_data (id offset size : Z) : M S (Z * list Z) :=
  if (id <? 0) || (offset <? 0) || (size <=? 0) then ret (posix__makeerror EINVAL, [])
  else
    found <- __evfs_entries_reference_head id kEvfsEntryNormal ;;
    with_reference found kEvfsEntryNormal (fun status => (status, [])) (read_referenced offset size).
End Entries.

Lemma strcmp_antisym : forall l r, strcmp l r < 0 <-> 0 < strcmp r l.
Proof. induction l as [|a l IH]; intros [|b r]; cbn [strcmp]; try lia. specialize (IH r). repeat case_match; lia. Qed.

Lemma strcmp_eq : forall l r, strcmp l r = 0 <-> l = r.
Proof.
  induction l as [|a l IH]; intros [|b r]; cbn [strcmp]; try (split; [lia | done]); [done |].
  destruct (Z.ltb_spec a b); [split; [lia | intros [= ? _]; lia] |].
  destruct (Z.ltb_spec b a); [split; [lia | intros [= ? _]; lia] |].
  rewrite IH. split; [intros ->; f_equal; lia | by intros [= _ ->]].
Qed.

Lemma strcmp_trans : forall x y z, strcmp x y < 0 -> strcmp y z < 0 -> strcmp x z < 0.
Proof.
  induction x as [|a x IH]; intros [|b y] [|c z]; cbn [strcmp]; try lia.
  destruct (Z.ltb_spec a b), (Z.ltb_spec b a), (Z.ltb_spec b c), (Z.ltb_spec c b), (Z.ltb_spec a c), (Z.ltb_spec c a);
    try lia. apply IH.
Qed.

#[export] Instance named_compare_ok : AvlCompare __evfs_entries_compare_named_entry_head.
Proof.
  unfold __evfs_entries_compare_named_entry_head. split; intros x y.
  - apply strcmp_antisym.
  - intros z. apply strcmp_trans.
  - intros z ->%strcmp_eq. done.
  - intros z H E%strcmp_eq. by rewrite <- E.
Qed.

#[export] Instance entry_compare_ok : AvlCompare __evfs_entries_compare_entry_head.
Proof. apply view_compare_ok. Qed.

Lemma entry_compare_eq x y : __evfs_entries_compare_entry_head x y = 0 <-> x = y.
Proof. apply view_compare_eq. Qed.

Lemma named_compare_eq x y : __evfs_entries_compare_named_entry_head x y = 0 <-> cstring x.1 = cstring y.1.
Proof. apply strcmp_eq. Qed.
