(* ===== verification/EntryFile.v ===== *)
(** What is written to the entries of evfs, and what is read back.

    Over a cache that keeps its promises ([StoreOk], [Reliable]) and with memory for
    everything: [good] is the state of the file system, [keeps] what a run leaves alone,
    [content] the bytes of one entry in the cluster of its head and in its elements. *)
From S2P Require Import Prelude AvlTree Ifos Cluster View Entries.
#[local] Open Scope monad_scope.

(** ** The heads *)
Section Heads.
Context {S : Type}.
Implicit Types (w : world S) (h : evfs_entry_head).

(** The manager with the head [h] for [id]. *)
Definition put (id : Z) h (e : entries) : entries := set_heads (<[id := h]> (heads e)) e.

Lemma put_put id h h' e : put id h' (put id h e) = put id h' e.
Proof. unfold put, set_heads. cbn. by rewrite insert_insert_eq. Qed.

Lemma put_get id h e : heads (put id h e) !! id = Some h.
Proof. apply lookup_insert_eq. Qed.

Lemma put_id id h e : heads e !! id = Some h -> put id h e = e.
Proof. intros E. unfold put, set_heads. rewrite insert_id by done. by destruct e. Qed.

Lemma head_run id h w : heads (w_entries w) !! id = Some h -> head (S := S) id w = Some (h, w).
Proof. intros E. unfold head, gets_option. by rewrite E. Qed.

Lemma on_head_run id f h w : heads (w_entries w) !! id = Some h ->
  on_head id f w = Some (tt, World (put id (f h) (w_entries w)) (w_views w) (w_store w)).
Proof. intros E. unfold on_head, modify_option. by rewrite E. Qed.
End Heads.

(** A look at the head that was put last, and a change of it. *)
Ltac head_step :=
  match goal with
  | |- bind (head ?id) _ (World (put ?id ?h ?e) ?v ?s) = _ => rewrite (bind_some _ _ _ _ _ (head_run id h (World (put id h e) v s) (put_get id h e)))
  | |- bind (on_head ?id ?f) _ (World (put ?id ?h ?e) ?v ?s) = _ =>
      rewrite (bind_some _ _ _ _ _ (on_head_run id f h (World (put id h e) v s) (put_get id h e))); cbn [w_entries w_views w_store];
      rewrite put_put
  end; cbn beta iota.

(** The size of an entry in the head of its first view. *)
Lemma head_size size : 0 < size < 2 ^ 31 -> head_data_seg_size size < 0 /\ Z.land (u32 (head_data_seg_size size)) 0x7fffffff = size.
Proof.
  intros Hs. unfold head_data_seg_size. rewrite (proj2 (Z.leb_gt _ _)) by lia.
  assert (Z.lor size 0x80000000 = size + 2 ^ 31) as ->.
  { rewrite Z.lor_comm. change 0x80000000 with (1 * 2 ^ 31). rewrite lor_fields by lia. lia. }
  change 0x7fffffff with (Z.ones 31). rewrite Z.land_ones by lia.
  unfold swrap, wrap. change (32 - 1) with 31.
  assert ((size + 2 ^ 31 + 2 ^ 31) mod 2 ^ 32 = size) as -> by (replace (size + 2 ^ 31 + 2 ^ 31) with (size + 1 * 2 ^ 32) by lia;
    rewrite Z.mod_add by lia; apply Z.mod_small; lia).
  split; [lia |]. rewrite Z.mod_mod_divide by (exists 2; lia). replace (size - 2 ^ 31) with (size + (-1) * 2 ^ 31) by lia.
  rewrite Z.mod_add by lia. apply Z.mod_small. lia.
Qed.

(** ** The chains on the disk *)
Section Chains.
Implicit Types (h : evfs_entry_head) (e : entries) (v : views).

(** A longer chain. *)
Definition grown h (ids : list Z) : evfs_entry_head := set_elements (elements h ++ ids) (count_of_elements h + zlen ids) h.

Lemma grown_nil h : grown h [] = h.
Proof. destruct h. unfold grown, set_elements. cbn. by rewrite app_nil_r, Z.add_0_r. Qed.

Lemma grown_app h x y : grown (grown h x) y = grown h (x ++ y).
Proof. unfold grown, set_elements. cbn. rewrite zlen_app. f_equal; [by rewrite app_assoc | lia]. Qed.

(** The elements [q] behind the view [id], as the heads on the disk link them. *)
Fixpoint chain (v : views) (id : Z) (q : list Z) : Prop :=
  match q with
  | [] => exists c, nodes v !! id = Some c /\ next c = 0
  | x :: q => (exists c, nodes v !! id = Some c /\ next c = x) /\ chain v x q
  end.

(** Every busy view belongs to one entry, whose chain is linked. *)
Record owned e v : Prop := {
  ow_chain id h : heads e !! id = Some h -> chain v id (elements h);
  ow_nodup id h : heads e !! id = Some h -> NoDup (id :: elements h);
  ow_busy id h i : heads e !! id = Some h -> i ∈ id :: elements h -> i ∈ busylist v;
  ow_all i : i ∈ busylist v -> exists id h, heads e !! id = Some h /\ i ∈ id :: elements h;
  ow_one id h id' h' i : heads e !! id = Some h -> heads e !! id' = Some h' -> i ∈ id :: elements h -> i ∈ id' :: elements h' -> id = id';
}.
(** The links of the views in [q] are those before. *)
Definition same_links (q : list Z) v v' : Prop :=
  forall i, i ∈ q -> exists c c', nodes v !! i = Some c /\ nodes v' !! i = Some c' /\ next c' = next c.

Lemma chain_same v v' : forall q id, same_links (id :: q) v v' -> chain v id q -> chain v' id q.
Proof.
  induction q as [|x q IH]; intros id Hs; cbn [chain].
  - intros (c & Hc & E). destruct (Hs id) as (c0 & c' & Hc0 & Hc' & E'); [constructor |]. rewrite Hc in Hc0. injection Hc0 as <-. exists c'. split; [done | congruence].
  - intros [(c & Hc & E) Hq]. split.
    + destruct (Hs id) as (c0 & c' & Hc0 & Hc' & E'); [constructor |]. rewrite Hc in Hc0. injection Hc0 as <-. exists c'. split; [done | congruence].
    + apply IH; [|done]. intros i Hi. apply Hs. by constructor.
Qed.

Lemma chain_node v i : forall q id, chain v id q -> i ∈ id :: q -> exists c, nodes v !! i = Some c.
Proof.
  induction q as [|y q IH]; intros id Hch Hi.
  - apply list_elem_of_singleton in Hi as ->. destruct Hch as (c & Hc & _). by exists c.
  - destruct Hch as [(c & Hc & _) Hch]. apply elem_of_cons in Hi as [-> | Hi]; [by exists c | by eapply IH].
Qed.

(** The last view of a chain. *)
Definition last_view (id : Z) (q : list Z) : Z := default id (last q).

Lemma last_view_in id q : last_view id q ∈ id :: q.
Proof. unfold last_view. destruct (last q) eqn:E; [right; by apply last_Some_elem_of | by left]. Qed.

Lemma chain_snoc v v' x : forall q id, NoDup (id :: q) -> chain v id q ->
  (forall i, i ∈ id :: q -> i <> last_view id q -> nodes v' !! i = nodes v !! i) ->
  (exists c, nodes v' !! last_view id q = Some c /\ next c = x) -> (exists c, nodes v' !! x = Some c /\ next c = 0) -> chain v' id (q ++ [x]).
Proof.
  induction q as [|y q IH]; intros id Hnd Hch Hoth Hl Hx; [by split |].
  assert (last_view id (y :: q) = last_view y q) as El by (unfold last_view; destruct q as [|z q]; [done |]; cbn [last]; by destruct (last (z :: q)) eqn:E; [| apply last_None in E]).
  rewrite El in *. apply NoDup_cons in Hnd as [Hid Hnd]. destruct Hch as [(c & Hc & E) Hch]. split.
  - exists c. rewrite Hoth; [done | constructor |]. intros ->. apply Hid, last_view_in.
  - apply IH; try done. intros i Hi. apply Hoth. by constructor.
Qed.

(** Nothing but sizes and user data changed. *)
Lemma owned_same e e' v v' : heads e' = heads e -> busylist v' = busylist v -> same_links (busylist v) v v' -> owned e v -> owned e' v'.
Proof.
  intros Eh Eb Hs [H1 H2 H3 H4 H5]. split; rewrite ?Eh, ?Eb; try done. intros id h Hh. apply (chain_same v); [|by apply H1].
  intros i Hi. apply Hs. by eapply H3.
Qed.

Lemma owned_put e v id h h' : heads e !! id = Some h -> elements h' = elements h -> owned e v -> owned (put id h' e) v.
Proof.
  intros Hh Ee [H1 H2 H3 H4 H5].
  assert (forall i x, heads (put id h' e) !! i = Some x -> exists x0, heads e !! i = Some x0 /\ elements x = elements x0) as Hput.
  { intros i x Hx. unfold put in Hx. cbn in Hx. destruct (decide (i = id)) as [-> | Hne].
    - rewrite lookup_insert_eq in Hx. injection Hx as <-. by exists h.
    - rewrite lookup_insert_ne in Hx by done. by exists x. }
  split.
  - intros i x (x0 & Hx & ->)%Hput. by apply H1.
  - intros i x (x0 & Hx & ->)%Hput. by apply H2.
  - intros i x j (x0 & Hx & ->)%Hput. by eapply H3.
  - intros i (k & x & Hx & Hi)%H4. destruct (decide (k = id)) as [-> | Hne].
    + rewrite Hh in Hx. injection Hx as <-. exists id, h'. by rewrite put_get, Ee.
    + exists k, x. unfold put. cbn. by rewrite lookup_insert_ne.
  - intros i x i' x' j (x0 & Hx & ->)%Hput (x0' & Hx' & ->)%Hput. by eapply H5.
Qed.

(** A new element behind the last one. *)
Lemma owned_grow e v v' id h new : owned e v -> heads e !! id = Some h -> (new ∉ busylist v) -> busylist v' = busylist v ++ [new] ->
  (forall i, i ∈ busylist v -> i <> last_view id (elements h) -> nodes v' !! i = nodes v !! i) ->
  (exists c, nodes v' !! last_view id (elements h) = Some c /\ next c = new) -> (exists c, nodes v' !! new = Some c /\ next c = 0) ->
  owned (put id (grown h [new]) e) v'.
Proof.
  intros [H1 H2 H3 H4 H5] Hh Hnew Eb Hoth Hl Hx.
  assert (forall i x, heads (put id (grown h [new]) e) !! i = Some x -> i = id /\ x = grown h [new] \/ i <> id /\ heads e !! i = Some x) as Hput.
  { intros i x Hi. unfold put in Hi. cbn in Hi. destruct (decide (i = id)) as [-> | Hne]; [left | right].
    - rewrite lookup_insert_eq in Hi. by injection Hi as <-.
    - by rewrite lookup_insert_ne in Hi. }
  assert (forall i, i ∈ id :: elements (grown h [new]) -> i ∈ id :: elements h \/ i = new) as Hmem.
  { intros i. cbn. rewrite !elem_of_cons, elem_of_app, elem_of_cons, elem_of_nil. tauto. }
  assert (forall k x, heads e !! k = Some x -> new ∉ k :: elements x) as Hno by (intros k x Hk Hi; by apply Hnew; eapply H3).
  split.
  - intros i x [[-> ->] | [Hne Hi]]%Hput.
    + apply (chain_snoc v); auto. intros j Hj. apply Hoth. by eapply H3.
    + apply (chain_same v); [|by apply H1]. intros j Hj.
      assert (j <> last_view id (elements h)) as Hjl by (intros ->; apply Hne; by apply (H5 i x id h (last_view id (elements h))); [| | | apply last_view_in]).
      destruct (chain_node v j _ _ (H1 i x Hi) Hj) as [c Hc].
      exists c, c. rewrite (Hoth j) by (done || by eapply H3). done.
  - intros i x [[-> ->] | [Hne Hi]]%Hput; [|by apply H2]. cbn. change (id :: elements h ++ [new]) with ((id :: elements h) ++ [new]).
    apply NoDup_app. split; [by apply H2 |]. split; [|apply NoDup_singleton]. intros j Hj ->%list_elem_of_singleton. by apply (Hno id h).
  - intros i x j [[-> ->] | [Hne Hi]]%Hput Hj; rewrite Eb, elem_of_app.
    + apply Hmem in Hj as [Hj | ->]; [left; by eapply H3 | right; by apply list_elem_of_singleton].
    + left. by eapply H3.
  - intros i. rewrite Eb, elem_of_app. intros [(k & x & Hk & Hi)%H4 | ->%list_elem_of_singleton].
    + destruct (decide (k = id)) as [-> | Hne].
      * rewrite Hh in Hk. injection Hk as <-. exists id, (grown h [new]). split; [apply put_get |].
        apply elem_of_cons in Hi as [-> | Hi]; [constructor | right; apply elem_of_app; by left].
      * exists k, x. unfold put. cbn. by rewrite lookup_insert_ne.
    + exists id, (grown h [new]). split; [apply put_get |]. cbn. right. apply elem_of_app. right. by apply list_elem_of_singleton.
  - intros i x i' x' j [[-> ->] | [Hne Hi]]%Hput [[-> ->] | [Hne' Hi']]%Hput Hj Hj'; try done.
    + apply Hmem in Hj as [Hj | ->]; [by eapply H5 | by destruct (Hno i' x')].
    + apply Hmem in Hj' as [Hj' | ->]; [by eapply H5 | by destruct (Hno i x)].
    + by eapply H5.
Qed.

(** A new entry of one view. *)
Lemma owned_new e e' v v' id h : owned e v -> (id ∉ busylist v) -> busylist v' = busylist v ++ [id] ->
  (forall i, i ∈ busylist v -> nodes v' !! i = nodes v !! i) -> (exists c, nodes v' !! id = Some c /\ next c = 0) ->
  heads e' = <[id := h]> (heads e) -> elements h = [] -> owned e' v'.
Proof.
  intros [H1 H2 H3 H4 H5] Hnew Eb Hoth Hx Eh Eq.
  assert (forall i x, heads e' !! i = Some x -> i = id /\ x = h \/ i <> id /\ heads e !! i = Some x) as Hput.
  { intros i x Hi. rewrite Eh in Hi. destruct (decide (i = id)) as [-> | Hne]; [left | right].
    - rewrite lookup_insert_eq in Hi. by injection Hi as <-.
    - by rewrite lookup_insert_ne in Hi. }
  assert (forall k x, heads e !! k = Some x -> id ∉ k :: elements x) as Hno by (intros k x Hk Hi; by apply Hnew; eapply H3).
  split.
  - intros i x [[-> ->] | [Hne Hi]]%Hput; [by rewrite Eq |]. apply (chain_same v); [|by apply H1]. intros j Hj.
    destruct (chain_node v j _ _ (H1 i x Hi) Hj) as [c Hc]. exists c, c. rewrite Hoth by (by eapply H3). done.
  - intros i x [[-> ->] | [Hne Hi]]%Hput; [rewrite Eq; apply NoDup_singleton | by apply H2].
  - intros i x j [[-> ->] | [Hne Hi]]%Hput Hj; rewrite Eb, elem_of_app; [right; by rewrite Eq in Hj | left; by eapply H3].
  - intros i. rewrite Eb, elem_of_app. intros [(k & x & Hk & Hi)%H4 | ->%list_elem_of_singleton].
    + exists k, x. split; [|done]. rewrite Eh, lookup_insert_ne; [done |]. intros <-. apply (Hno _ _ Hk). constructor.
    + exists id, h. rewrite Eh, lookup_insert_eq. split; [done | constructor].
  - intros i x i' x' j [[-> ->] | [Hne Hi]]%Hput [[-> ->] | [Hne' Hi']]%Hput Hj Hj'; try done.
    + rewrite Eq in Hj. apply list_elem_of_singleton in Hj as ->. by destruct (Hno i' x').
    + rewrite Eq in Hj'. apply list_elem_of_singleton in Hj' as ->. by destruct (Hno i x).
    + by eapply H5.
Qed.
End Chains.

(** ** The world of a ready disk *)
Section Proofs.
Context {S : Type} (st : store S) (cs step limit : Z) (R : S -> Z -> (Z -> option (list Z)) -> Prop)
  `{!StoreOk st cs step limit R} `{!Reliable st cs step limit R} (fuel : nat) (Hfuel : (0 < fuel)%nat).
Implicit Types (w : world S) (n : Z) (a : Z -> option (list Z)) (h : evfs_entry_head).

(** Everything can be allocated. *)
Definition plenty : memory := Memory (fun _ => true) (fun _ => true) (fun _ => true) (fun _ => true) fuel.

(** What is spent of the room for clusters ([cost]). *)
Definition spent n w : Z := cost step limit n (busylist (w_views w)).
Lemma spent_same n w w' : busylist (w_views w') = busylist (w_views w) -> spent n w' = spent n w.
Proof. unfold spent. by intros ->. Qed.

Record good n a w : Prop := {
  gd_ready : ready cs R n a (w_views w) (w_store w);
  gd_tree : search_tree __evfs_entries_compare_entry_head (root_of_entries_tree (w_entries w));
  gd_named : search_tree __evfs_entries_compare_named_entry_head (root_of_named_entries_tree (w_entries w));
  gd_elems id : id ∈ elems (root_of_entries_tree (w_entries w)) -> id ∈ busylist (w_views w);
  gd_seg : entry_seg_size (w_entries w) = cs - 12;
  gd_sync : synced a (w_views w);
}.

(** Room on the disk itself is enough. *)
Lemma spent_room n a w k : good n a w -> 0 <= k -> n + step * k <= limit -> spent n w + step * k <= limit.
Proof.
  intros Hg. pose proof (gd_ready _ _ _ Hg) as Hr. apply (cost_room st cs step limit R n (w_views w) k); [apply (rd_views _ _ _ _ _ _ Hr) | apply (rd_pos _ _ _ _ _ _ Hr)].
Qed.

(** The user data of a cluster. *)
Definition user (a : Z -> option (list Z)) (id : Z) : option (list Z) := drop 12 <$> a id.

(** What a run leaves alone: of the busy views but those in [X] the kind, the size and
    the user data. *)
Record keeps (X : Z -> Prop) n a w n' a' w' : Prop := {
  kp_le : n <= n';
  kp_busy id : id ∈ busylist (w_views w) -> id ∈ busylist (w_views w');
  kp_node id : id ∈ busylist (w_views w) -> ~ X id ->
    exists c c', nodes (w_views w) !! id = Some c /\ nodes (w_views w') !! id = Some c' /\ seg c' = seg c /\ head_id c' = head_id c;
  kp_user id : id ∈ busylist (w_views w) -> ~ X id -> user a' id = user a id;
}.

Lemma busy_node n a w id : good n a w -> id ∈ busylist (w_views w) -> exists c, nodes (w_views w) !! id = Some c.
Proof.
  intros Hg Hid. apply (proj2 (vo_nodes _ _ (rd_views _ _ _ _ _ _ (gd_ready _ _ _ Hg)) id)).
  by eapply busy_range; [apply (gd_ready _ _ _ Hg) |].
Qed.

Lemma keeps_trans X Y n1 a1 w1 n2 a2 w2 n3 a3 w3 : keeps X n1 a1 w1 n2 a2 w2 -> keeps Y n2 a2 w2 n3 a3 w3 ->
  (forall i, i ∈ busylist (w_views w1) -> Y i -> X i) -> keeps X n1 a1 w1 n3 a3 w3.
Proof.
  intros [L1 B1 N1 U1] [L2 B2 N2 U2] HXY. split.
  - lia.
  - auto.
  - intros id Hid HX. destruct (N1 id Hid HX) as (c & c' & E1 & E2 & E3 & E4).
    destruct (N2 id (B1 id Hid)) as (d & d' & F1 & F2 & F3 & F4); [auto |]. rewrite E2 in F1. injection F1 as <-.
    exists c, d'. split_and!; try done; congruence.
  - intros id Hid HX. rewrite U2 by auto. auto.
Qed.

Lemma keeps_then X n1 a1 w1 n2 a2 w2 n3 a3 w3 : keeps X n1 a1 w1 n2 a2 w2 -> keeps (fun _ => False) n2 a2 w2 n3 a3 w3 ->
  keeps X n1 a1 w1 n3 a3 w3.
Proof. intros K1 K2. eapply keeps_trans; [exact K1 | exact K2 |]. by intros i _ H. Qed.

(** What happens to new views does not matter. *)
Lemma keeps_fresh X Y n1 a1 w1 n2 a2 w2 n3 a3 w3 : keeps X n1 a1 w1 n2 a2 w2 -> keeps Y n2 a2 w2 n3 a3 w3 ->
  (forall i, Y i -> i ∉ busylist (w_views w1)) -> keeps X n1 a1 w1 n3 a3 w3.
Proof. intros K1 K2 HY. eapply keeps_trans; [exact K1 | exact K2 |]. intros i Hi Hy. by destruct (HY i Hy). Qed.

(** A write into the head of a cluster. *)
Lemma user_head (a a' : Z -> option (list Z)) id c : a' id = write_at 0 (cluster_bytes c) <$> a id -> user a' id = user a id.
Proof. intros E. unfold user. rewrite E. destruct (a id) as [b|]; [|done]. cbn. f_equal. Qed.

(** A view got the head [c'], and nothing else that a user sees changed. *)
Record touched (id : Z) (c' : evfs_cluster) n a w a' w' : Prop := {
  tc_good : good n a' w';
  tc_entries : w_entries w' = w_entries w;
  tc_busy : busylist (w_views w') = busylist (w_views w);
  tc_nodes : nodes (w_views w') = <[id := c']> (nodes (w_views w));
  tc_user i : user a' i = user a i;
}.

Lemma good_views n a a' w v s : good n a w -> ready cs R n a' v s -> busylist v = busylist (w_views w) ->
  synced a' v -> good n a' (World (w_entries w) v s).
Proof. intros [Hr Ht Hn He Hs Hd] Hr' Eb Hd'. split; try done. intros id Hid. cbn. rewrite Eb. by apply He. Qed.

Lemma touched_keeps id c' n a w a' w' : good n a w -> touched id c' n a w a' w' -> keeps (eq id) n a w n a' w'.
Proof.
  intros Hg [Hg' Ee Eb En Hu]. split.
  - lia.
  - intros i. by rewrite Eb.
  - intros i Hi Hne. destruct (busy_node n a w i Hg Hi) as [c Hc]. exists c, c. split; [done |].
    split; [|done]. rewrite En, lookup_insert_ne by done. done.
  - intros i _ _. apply Hu.
Qed.

(** Only the link to the next view changes. *)
Lemma touched_next id c c' n a w a' w' : good n a w -> touched id c' n a w a' w' -> nodes (w_views w) !! id = Some c ->
  seg c' = seg c -> head_id c' = head_id c -> keeps (fun _ => False) n a w n a' w'.
Proof.
  intros Hg [Hg' Ee Eb En Hu] Hc E1 E2. split.
  - lia.
  - intros i. by rewrite Eb.
  - intros i Hi _. rewrite En. destruct (decide (i = id)) as [-> | Hne].
    + exists c, c'. rewrite lookup_insert_eq. done.
    + destruct (busy_node n a w i Hg Hi) as [d Hd]. exists d, d. by rewrite lookup_insert_ne.
  - intros i _ _. apply Hu.
Qed.

Lemma call_change n a w id f : good n a w -> id ∈ busylist (w_views w) ->
  exists r c a' w', call (fun v s => change st (Some id) f v s) w = Some (r, w') /\ nodes (w_views w) !! id = Some c /\
    touched id (f c) n a w a' w'.
Proof.
  intros Hg Hid. pose proof (gd_ready _ _ _ Hg) as Hr0. pose proof (busy_range cs R n a _ _ id Hr0 Hid) as Hrange.
  destruct (change_ok st cs step limit R n a (w_views w) (w_store w) id f Hr0 Hrange) as (r & s' & a' & c & Hc & E & Hr & Hoth & Hres).
  exists r, c, a'. eexists. split; [unfold call; rewrite E; reflexivity |]. split; [done |].
  split; try done.
  - apply (good_views n a); [done | done | done |].
    apply (synced_change n a a' (w_views w) (set_nodes (<[id := f c]> (nodes (w_views w))) (w_views w)) id (f c) (rd_views _ _ _ _ _ _ Hr0) (gd_sync _ _ _ Hg) Hid eq_refl eq_refl eq_refl Hoth).
    destruct Hres as [[_ E'] | (_ & _ & Hno)]; [|done]. destruct (proj2 (so_dom _ _ _ id (rd_store _ _ _ _ _ _ Hr0)) Hrange) as [b Hb].
    rewrite E', Hb. eexists. split; [done |]. by eapply (head_written st cs step limit R n a); [exact (rd_store _ _ _ _ _ _ Hr0) |].
  - intros i. destruct (decide (i = id)) as [-> | Hi]; [|unfold user; by rewrite Hoth].
    destruct Hres as [[_ E'] | (_ & -> & _)]; [by eapply user_head | done].
Qed.

Lemma call_set_size n a w id d : good n a w -> id ∈ busylist (w_views w) ->
  exists c a' w', call (fun v s => set_data_seg_size st (Some id) d v s) w = Some (NSP_STATUS_SUCCESSFUL, w') /\
    nodes (w_views w) !! id = Some c /\ touched id (set_seg d c) n a w a' w'.
Proof.
  intros Hg Hid. pose proof (gd_ready _ _ _ Hg) as Hr0. pose proof (busy_range cs R n a _ _ id Hr0 Hid) as Hrange.
  destruct (set_data_seg_size_ok st cs step limit R n a (w_views w) (w_store w) id d Hr0 Hrange)
    as (r & v' & s' & a' & c & Hc & E & Hr & En & Eb & Ei & Et & Hoth & Hres).
  destruct Hres as [[-> Hres] | [_ Hno]]; [|done].
  exists c, a'. eexists. split; [unfold call; rewrite E; reflexivity |]. split; [done |]. split; try done.
  - apply (good_views n a); [done | done | done |].
    apply (synced_change n a a' (w_views w) _ id (set_seg d c) (rd_views _ _ _ _ _ _ Hr0) (gd_sync _ _ _ Hg) Hid Eb Ei En Hoth).
    destruct Hres as [[-> Hd] | E'].
    + destruct (proj1 (gd_sync _ _ _ Hg) id Hid) as (c0 & b & Hc0 & Hb & Ht). rewrite Hc in Hc0. injection Hc0 as <-. exists b. split; [done |].
      rewrite Ht. f_equal. destruct c. cbn in *. by subst.
    + destruct (proj2 (so_dom _ _ _ id (rd_store _ _ _ _ _ _ Hr0)) Hrange) as [b Hb].
      rewrite E', Hb. eexists. split; [done |]. by eapply (head_written st cs step limit R n a); [exact (rd_store _ _ _ _ _ _ Hr0) |].
  - intros i. destruct (decide (i = id)) as [-> | Hi]; [|unfold user; by rewrite Hoth].
    destruct Hres as [[E' _] | E']; [unfold user; by rewrite E' | by eapply user_head].
Qed.

Lemma write_head_run n a w id : good n a w -> id ∈ busylist (w_views w) ->
  exists c a' w', access (evfs_view_write_head st (Some id)) w = Some (sizeof_cluster, w') /\ nodes (w_views w) !! id = Some c /\
    touched id c n a w a' w'.
Proof.
  intros Hg Hid. pose proof (gd_ready _ _ _ Hg) as Hr. pose proof (busy_range cs R n a _ _ id Hr Hid) as Hrange.
  destruct (proj2 (vo_nodes _ _ (rd_views _ _ _ _ _ _ Hr) id) Hrange) as [c Hc].
  destruct (write_head_ok st cs step limit R n a (w_views w) (w_store w) id c Hr Hc Hrange) as (r & s' & a' & E & HR & Hoth & Hres).
  destruct Hres as [[-> E'] | (_ & _ & Hno)]; [|done].
  exists c, a'. eexists. split.
  { unfold access, evfs_view_write_head. rewrite (proj2 (Z.leb_gt _ _) (rd_total _ _ _ _ _ _ Hr)), E. reflexivity. }
  split; [done |]. split; cbn; try done.
  - apply (good_views n a); [done | by eapply ready_store | done |].
    apply (synced_change n a a' (w_views w) _ id c (rd_views _ _ _ _ _ _ Hr) (gd_sync _ _ _ Hg) Hid eq_refl eq_refl); [by rewrite insert_id | done |].
    destruct (proj2 (so_dom _ _ _ id (rd_store _ _ _ _ _ _ Hr)) Hrange) as [b Hb].
    rewrite E', Hb. eexists. split; [done |]. by eapply (head_written st cs step limit R n a); [exact (rd_store _ _ _ _ _ _ Hr) |].
  - by rewrite insert_id.
  - intros i. destruct (decide (i = id)) as [-> | Hi]; [by eapply user_head | unfold user; by rewrite Hoth].
Qed.

Lemma user_write (a a' : Z -> option (list Z)) id off b : (forall c, a id = Some c -> zlen c = cs) -> 0 <= off -> off <= cs - 12 ->
  a' id = write_at (12 + off) b <$> a id -> user a' id = write_at off b <$> user a id.
Proof.
  intros Hl Ho Hle E. unfold user. rewrite E. destruct (a id) as [c|]; [|done]. specialize (Hl c eq_refl).
  cbn [fmap option_fmap option_map]. f_equal. unfold zlen in *. rewrite !write_at_in by (unfold zlen; rewrite ?length_drop; lia).
  rewrite drop_app_le by (rewrite length_take; lia). rewrite skipn_firstn_comm, drop_drop.
  f_equal; [f_equal; lia |]. f_equal. f_equal. lia.
Qed.

Lemma user_len n a w id b : good n a w -> user a id = Some b -> zlen b = cs - 12.
Proof.
  intros Hg. unfold user. destruct (a id) as [c|] eqn:E; [|done]. intros [= <-].
  pose proof (so_len _ _ _ _ _ (rd_store _ _ _ _ _ _ (gd_ready _ _ _ Hg)) E) as Hl. pose proof (so_cs : 12 < cs).
  unfold zlen in *. rewrite length_drop. lia.
Qed.

Lemma user_some n a w id : good n a w -> 0 < id < n -> exists b, user a id = Some b /\ zlen b = cs - 12.
Proof.
  intros Hg Hid. destruct (proj2 (so_dom _ _ _ id (rd_store _ _ _ _ _ _ (gd_ready _ _ _ Hg))) Hid) as [c Hc].
  exists (drop 12 c). assert (user a id = Some (drop 12 c)) as E by (unfold user; by rewrite Hc).
  split; [done | by eapply user_len].
Qed.

Lemma write_run n a w id b off c : good n a w -> 0 < id < n -> nodes (w_views w) !! id = Some c -> seg c <> 0 \/ head_id c <> 0 ->
  0 <= off -> 0 < zlen b < 2 ^ 31 -> off + zlen b <= cs - 12 -> off < 2 ^ 31 ->
  exists a' w', access (evfs_view_write_userdata st (Some id) b off) w = Some (zlen b, w') /\ good n a' w' /\
    w_entries w' = w_entries w /\ w_views w' = w_views w /\ user a' id = write_at off b <$> user a id /\
    (forall i, i <> id -> user a' i = user a i).
Proof.
  intros Hg Hid Hc Hu Ho Hb Hle Ho'.
  destruct (evfs_view_write_userdata_ok st cs step limit R n a (w_views w) (w_store w) id b off c (gd_ready _ _ _ Hg) Hid Hc Hu
    ltac:(lia) Hb) as (k & s' & a' & E & Hr & Hoth & Hres).
  destruct Hres as [(-> & _ & E') | (_ & _ & Hno)]; [|by destruct Hno].
  exists a'. eexists. split; [unfold access; rewrite E; reflexivity |].
  split; [apply (good_views n a); [done | done | done |]; by eapply (synced_userdata st cs step limit R n a); [exact (rd_store _ _ _ _ _ _ (gd_ready _ _ _ Hg)) | apply (gd_sync _ _ _ Hg) | | |] |].
  split; [done |]. split; [done |]. split.
  - apply user_write; [|lia | lia | done]. intros x Hx.
    exact (so_len _ _ _ _ _ (rd_store _ _ _ _ _ _ (gd_ready _ _ _ Hg)) Hx).
  - intros i Hi. unfold user. by rewrite Hoth.
Qed.

(** Reading as the callers do it. *)
Definition read_view (id off len : Z) : M S (Z * list Z) :=
  access (fun v s => '(k, out, s) ← evfs_view_read_userdata st (Some id) off len v s; Some ((k, default [] out), s)).

Lemma read_run n a w id off len c b : good n a w -> 0 < id < n -> nodes (w_views w) !! id = Some c -> seg c <> 0 \/ head_id c <> 0 ->
  0 <= off -> 0 < len < 2 ^ 31 -> off + len <= cs - 12 -> off < 2 ^ 31 -> user a id = Some b ->
  exists w', read_view id off len w = Some ((len, read_at off len b), w') /\ good n a w' /\
    w_entries w' = w_entries w /\ w_views w' = w_views w.
Proof.
  intros Hg Hid Hc Hu Ho Hb Hle Ho' Hub.
  destruct (evfs_view_read_userdata_ok st cs step limit R n a (w_views w) (w_store w) id off len c (gd_ready _ _ _ Hg) Hid Hc Hu
    ltac:(lia) Hb) as (k & out & s' & E & Hr & Hres).
  destruct Hres as [(-> & _ & x & Hx & ->) | (_ & _ & Hno)]; [|by destruct Hno].
  unfold user in Hub. rewrite Hx in Hub. injection Hub as <-.
  eexists. split; [unfold read_view, access; rewrite E; cbn; unfold read_at; rewrite drop_drop;
    replace (12 + Z.to_nat off)%nat with (Z.to_nat (12 + off)) by lia; reflexivity |].
  split; [apply (good_views n a); [done | done | done | apply (gd_sync _ _ _ Hg)] | done].
Qed.

Lemma good_put n a w id h : good n a w -> good n a (World (put id h (w_entries w)) (w_views w) (w_store w)).
Proof. by intros [? ? ? ? ? ?]. Qed.

Lemma keeps_views X n a w n' a' w' : busylist (w_views w') = busylist (w_views w) -> nodes (w_views w') = nodes (w_views w) ->
  good n a w -> n <= n' -> (forall i, i ∈ busylist (w_views w) -> ~ X i -> user a' i = user a i) -> keeps X n a w n' a' w'.
Proof.
  intros Eb En Hg Hn Hu. split; [done | by rewrite Eb | | done].
  intros i Hi _. destruct (busy_node n a w i Hg Hi) as [c Hc]. exists c, c. by rewrite En.
Qed.

Lemma keeps_refl X n a w : good n a w -> keeps X n a w n a w.
Proof. intros Hg. by apply keeps_views. Qed.


(** Nothing a user sees changes. *)
Definition silent n a w a' w' : Prop := good n a' w' /\ w_entries w' = w_entries w /\
  busylist (w_views w') = busylist (w_views w) /\ nodes (w_views w') = nodes (w_views w) /\ (forall i, user a' i = user a i).

Lemma silent_keeps n a w a' w' : good n a w -> silent n a w a' w' -> keeps (fun _ => False) n a w n a' w'.
Proof. intros Hg (Hg' & _ & Eb & En & Hu). by apply keeps_views. Qed.

Lemma write_head_silent n a w id : good n a w -> id ∈ busylist (w_views w) ->
  exists a' w', access (evfs_view_write_head st (Some id)) w = Some (sizeof_cluster, w') /\ silent n a w a' w'.
Proof.
  intros Hg Hid. destruct (write_head_run n a w id Hg Hid) as (c & a' & w' & E & Hc & [Hg' Ee Eb En Hu]).
  exists a', w'. split; [done |]. split; [done |]. split; [done |]. split; [done |]. split; [|done]. by rewrite En, insert_id.
Qed.

Lemma write_heads_run : forall q n a w, good n a w -> (forall i, i ∈ q -> i ∈ busylist (w_views w)) ->
  exists r a' w', write_heads st q w = Some (r, w') /\ NSP_SUCCESS r = true /\ silent n a w a' w'.
Proof.
  induction q as [|x q IH]; intros n a w Hg Hq; cbn [write_heads].
  { exists NSP_STATUS_SUCCESSFUL, a, w. done. }
  destruct (write_head_silent n a w x Hg) as (a1 & w1 & E & Hs1); [apply Hq; constructor |].
  run E. change (NSP_SUCCESS sizeof_cluster) with true. cbn match. destruct q as [|y q].
  - exists sizeof_cluster, a1, w1. done.
  - destruct Hs1 as (Hg1 & Ee1 & Eb1 & En1 & Hu1).
    destruct (IH n a1 w1 Hg1) as (r & a2 & w2 & E2 & Hr & (Hg2 & Ee2 & Eb2 & En2 & Hu2)); [intros i Hi; rewrite Eb1; apply Hq; by constructor |].
    exists r, a2, w2. split; [done |]. split; [done |]. split; [done |]. split; [congruence |]. split; [congruence |].
    split; [congruence |]. intros i. by rewrite Hu2.
Qed.

Lemma good_range n a w id : good n a w -> id ∈ busylist (w_views w) -> 0 < id < n.
Proof. intros Hg. eapply busy_range. apply (gd_ready _ _ _ Hg). Qed.

(** Every busy view of the world belongs to one entry. *)
Definition own w : Prop := owned (w_entries w) (w_views w).

Lemma own_touched n a w id c c' a' w' : good n a w -> touched id c' n a w a' w' -> nodes (w_views w) !! id = Some c -> next c' = next c ->
  own w -> own w'.
Proof.
  intros Hg [_ Ee Eb En _] Hc Ex. apply owned_same; [by rewrite Ee | done |]. intros i Hi. rewrite En.
  destruct (decide (i = id)) as [-> | Hne]; [exists c, c'; by rewrite lookup_insert_eq |].
  destruct (busy_node n a w i Hg Hi) as [d Hd]. exists d, d. by rewrite lookup_insert_ne.
Qed.

Lemma own_same w w' : w_entries w' = w_entries w -> w_views w' = w_views w -> own w -> own w'.
Proof. unfold own. by intros -> ->. Qed.

Lemma spent_one n n' w w' new : capacity step limit n <= capacity step limit n' ->
  busylist (w_views w') = busylist (w_views w) ++ [new] -> spent n' w' <= spent n w + step.
Proof.
  intros Hc Eb. unfold spent. pose proof (cost_take st cs step limit R n n' (busylist (w_views w)) (busylist (w_views w')) 1 Hc) as H.
  rewrite Eb, zlen_app, zlen_cons, zlen_nil in *. lia.
Qed.

(** One fresh view, as [evfs_view_acquire_idle_more] gives it. *)
Lemma acquire_run n a w : good n a w -> spent n w + step <= limit ->
  exists new n' a' w', call (fun v s => '(r, ids, v, s) ← evfs_view_acquire_idle_more st (fun _ => true) fuel 1 v s; Some ((r, ids), v, s)) w
      = Some ((NSP_STATUS_SUCCESSFUL, [new]), w') /\
    good n' a' w' /\ spent n' w' <= spent n w + step /\ keeps (fun _ => False) n a w n' a' w' /\ w_entries w' = w_entries w /\
    (new ∉ busylist (w_views w)) /\ new ∈ busylist (w_views w') /\ nodes (w_views w') !! new = Some evfs_cluster0 /\
    user a' new = Some (replicate (Z.to_nat (cs - 12)) 0) /\ busylist (w_views w') = busylist (w_views w) ++ [new] /\
    (forall i, i ∈ busylist (w_views w) -> nodes (w_views w') !! i = nodes (w_views w) !! i).
Proof.
  intros Hg Hroom. destruct (evfs_view_acquire_idle_more_ok st cs step limit R n a (w_views w) (w_store w) fuel 1 (gd_ready _ _ _ Hg) Hfuel)
    as (r & ids & v' & s' & n' & a' & E & Hr & [Hn Hcap] & Hfr & Hz & Hsub & Hnd & Hids & Hres); [lia | unfold spent in Hroom; lia |].
  destruct Hres as [(-> & Hlen & Eb) | [_ Hno]]; [|done].
  destruct ids as [|new [|? ?]]; [done | | unfold zlen in Hlen; cbn in Hlen; lia].
  destruct (Hids new) as (H1 & H2 & H3 & H4); [constructor |].
  exists new, n', a'. eexists. split; [unfold call; rewrite E; reflexivity |]. split.
  { destruct Hg as [? ? ? He ? Hd]. split; try done; [intros i Hi; by apply Hsub, He |].
    apply (synced_acquired st cs step limit R a a' (w_views w) v' [new] Hd Hfr Eb); [by apply Hz; [|apply Hd] |].
    intros i ->%list_elem_of_singleton. by split; [|apply H4]. }
  split; [by apply (spent_one n n' w _ new) |]. split.
  { split; cbn; [lia | done | |].
    - intros i Hi _. destruct (busy_node n a w i Hg Hi) as [c Hc]. exists c, c. destruct (Hfr i Hi) as [-> _]. done.
    - intros i Hi _. unfold user. by destruct (Hfr i Hi) as [_ ->]. }
  split; [done |]. split; [done |]. split; [done |]. split; [done |]. split; [|split; [done | intros i Hi; destruct (Hfr i Hi) as [E1 _]; exact E1]].
  unfold user. rewrite H4 by done. cbn. f_equal. rewrite drop_replicate. f_equal. pose proof (so_cs : 12 < cs). lia.
Qed.

Lemma alloc_one n a w id h : good n a w -> heads (w_entries w) !! id = Some h -> id ∈ busylist (w_views w) ->
  (forall i, i ∈ elements h -> i ∈ busylist (w_views w)) -> spent n w + step <= limit ->
  exists new r n' a' w', __evfs_entries_alloc_idle_elements_for_head st plenty id 1 w = Some (r, w') /\ NSP_SUCCESS r = true /\
    good n' a' w' /\ spent n' w' <= spent n w + step /\ keeps (fun _ => False) n a w n' a' w' /\
    w_entries w' = put id (grown h [new]) (w_entries w) /\
    (new ∉ busylist (w_views w)) /\ new ∈ busylist (w_views w') /\
    (exists c, nodes (w_views w') !! new = Some c /\ seg c = 0 /\ head_id c = id) /\
    user a' new = Some (replicate (Z.to_nat (cs - 12)) 0) /\ (own w -> own w').
Proof.
  intros Hg Hh Hid Hels Hroom. unfold __evfs_entries_alloc_idle_elements_for_head. change (0 =? 1) with false. cbn match.
  cbn [negb plenty mem_array mem_view loops].
  destruct (acquire_run n a w Hg Hroom) as (new & n1 & a1 & w1 & E1 & Hg1 & Hn1 & K1 & Ee1 & Hnew & Hin1 & Hc1 & Hu1 & Eb1 & En1).
  run E1. change (NSP_SUCCESS NSP_STATUS_SUCCESSFUL) with true. cbn [negb].
  run (head_run id h w1 ltac:(by rewrite Ee1)).
  pose proof (good_range _ _ _ _ Hg1 Hin1) as Hrange.
  destruct (call_change n1 a1 w1 new (set_head_id id) Hg1 Hin1) as (r2 & c & a2 & w2 & E2 & Hc & T2).
  rewrite Hc1 in Hc. injection Hc as <-. change (default id (last (elements h))) with (last_view id (elements h)). set (last_id := last_view id (elements h)).
  assert (last_id ∈ busylist (w_views w)) as Hlast.
  { destruct (proj1 (elem_of_cons _ _ _) (last_view_in id (elements h))) as [E | Hl]; [unfold last_id; by rewrite E | by apply Hels]. }
  pose proof T2 as T2'. destruct T2 as [Hg2 Ee2 Eb2 En2 Hu2].
  pose proof (on_head_run id (fun h => set_elements (elements h ++ [new]) (count_of_elements h + 1) h) h w2
    ltac:(by rewrite Ee2, Ee1)) as E3. rewrite Ee2, Ee1 in E3. set (h' := set_elements (elements h ++ [new]) _ h) in *.
  set (w3 := World (put id h' (w_entries w)) (w_views w2) (w_store w2)) in *.
  assert (good n1 a2 w3) as Hg3 by (pose proof (good_put n1 a2 w2 id h' Hg2) as Hp; by rewrite Ee2, Ee1 in Hp).
  assert (new <> last_id) as Hne by (intros ->; done).
  destruct (call_change n1 a2 w3 last_id (set_next_id new) Hg3) as (r4 & c4 & a4 & w4 & E4 & Hc4 & T4).
  { cbn. rewrite Eb2. by apply (kp_busy _ _ _ _ _ _ _ K1). }
  assert (link_elements st plenty id last_id [new] w1 = Some (true, w4)) as El.
  { cbn [link_elements]. unfold __evfs_entries_alloc_element. cbn [plenty mem_element].
    rewrite (bind_some (bind _ _) _ w1 (Some new) w3); [|].
    - cbn beta iota. run E4. done.
    - assert (call (evfs_view_set_head st (Some new) (Some id)) w1 = Some (r2, w2)) as E2' by exact E2. run E2'. run E3. done. }
  run El. pose proof (touched_next _ _ _ _ _ _ _ _ Hg3 T4 Hc4 eq_refl eq_refl) as K4. destruct T4 as [Hg4 Ee4 Eb4 En4 Hu4].
  assert (w_entries w4 = put id h' (w_entries w)) as Ee4' by (by rewrite Ee4).
  run (head_run id h' w4 ltac:(by rewrite Ee4', put_get)).
  assert (forall i, i ∈ busylist (w_views w) -> i ∈ busylist (w_views w4)) as Hb4.
  { intros i Hi. rewrite Eb4. cbn. rewrite Eb2. by apply (kp_busy _ _ _ _ _ _ _ K1). }
  assert (new ∈ busylist (w_views w4)) as Hnew4 by (rewrite Eb4; cbn; by rewrite Eb2).
  destruct (write_heads_run (elements h') n1 a4 w4 Hg4) as (r5 & a5 & w5 & E5 & Hr5 & S5).
  { intros i Hi. cbn in Hi. apply elem_of_app in Hi as [Hi | ->%list_elem_of_singleton]; auto. }
  run E5. rewrite Hr5, andb_true_r.
  assert (exists r6 a6 w6, (if bool_decide (elements h = []) then access (evfs_view_write_head st (Some id)) else ret r5) w5 = Some (r6, w6) /\
    NSP_SUCCESS r6 = true /\ silent n1 a4 w4 a6 w6) as (r6 & a6 & w6 & E6 & Hr6 & S6).
  { case_bool_decide.
    - destruct S5 as (Hg5 & Ee5 & Eb5 & En5 & Hu5).
      destruct (write_head_silent n1 a5 w5 id Hg5) as (a6 & w6 & E6 & (Hg6 & Ee6 & Eb6 & En6 & Hu6)).
      { rewrite Eb5. by apply Hb4. }
      exists sizeof_cluster, a6, w6. split; [done |]. split; [done |]. split; [done |]. split; [congruence |].
      split; [congruence |]. split; [congruence |]. intros i. by rewrite Hu6.
    - by exists r5, a5, w5. }
  assert (keeps (fun _ => False) n a w n1 a6 w6) as K.
  { eapply keeps_then; [| exact (silent_keeps _ _ _ _ _ Hg4 S6)]. eapply keeps_then; [| exact K4].
    apply (keeps_fresh _ (eq new) _ _ _ n1 a1 w1); [exact K1 | | by intros i <-].
    pose proof (touched_keeps new _ _ _ _ _ _ Hg1 T2') as [L B N U]. by split. }
  destruct S6 as (Hg6 & Ee6 & Eb6 & En6 & Hu6).
  exists new, r6, n1, a6, w6. split; [done |]. split; [done |]. split; [done |].
  split; [rewrite (spent_same n1 w1); [done | rewrite Eb6, Eb4; exact Eb2] |]. split; [done |]. split; [by rewrite Ee6, Ee4' |].
  split; [done |]. split; [by rewrite Eb6 |].
  assert (nodes (w_views w6) !! new = Some (set_head_id id evfs_cluster0)) as Hcn.
  { rewrite En6, En4, lookup_insert_ne by done. cbn. by rewrite En2, lookup_insert_eq. }
  split; [by exists (set_head_id id evfs_cluster0) |]. split; [by rewrite Hu6, Hu4, Hu2 |].
  intros Hown. unfold own. rewrite Ee6, Ee4'. apply (owned_grow _ (w_views w) _ id h new); try done.
  - rewrite Eb6, Eb4. cbn. by rewrite Eb2.
  - intros i Hi Hl. rewrite En6, En4, lookup_insert_ne by done. cbn. rewrite En2, lookup_insert_ne by (intros ->; done). by apply En1.
  - exists (set_next_id new c4). by rewrite En6, En4, lookup_insert_eq.
  - by exists (set_head_id id evfs_cluster0).
Qed.

(** The elements [ids] of the head [id] hold [data]: all but the last one are full. *)
Fixpoint stored (id : Z) (ids data : list Z) (v : views) a : Prop :=
  match ids with
  | [] => data = []
  | i :: ids =>
      0 < zlen data /\
      (exists c, nodes v !! i = Some c /\ seg c = Z.min (cs - 12) (zlen data) /\ head_id c = id) /\
      (exists b, user a i = Some b /\ take (Z.to_nat (cs - 12)) data `prefix_of` b) /\
      stored id ids (drop (Z.to_nat (cs - 12)) data) v a
  end.

Lemma stored_keeps X n a w n' a' w' id : keeps X n a w n' a' w' -> forall ids data,
  (forall i, i ∈ ids -> i ∈ busylist (w_views w) /\ ~ X i) -> stored id ids data (w_views w) a -> stored id ids data (w_views w') a'.
Proof.
  intros K. induction ids as [|i ids IH]; intros data Hids; cbn [stored]; [done |].
  intros (Hd & (c & Hc & Hs & Hh) & (b & Hb & Hp) & Hst). destruct (Hids i) as [Hi HX]; [constructor |]. split; [done |].
  destruct (kp_node _ _ _ _ _ _ _ K i Hi HX) as (c1 & c' & E1 & E2 & E3 & E4). rewrite Hc in E1. injection E1 as <-.
  split; [exists c'; split_and!; congruence |]. split.
  - exists b. by rewrite (kp_user _ _ _ _ _ _ _ K i Hi HX).
  - apply IH; [|done]. intros j Hj. apply Hids. by constructor.
Qed.

Lemma ask_run {A} (f : views -> option A) (x : A) w : f (w_views w) = Some x -> ask f w = Some (x, w).
Proof. intros E. unfold ask. by rewrite E. Qed.

Lemma size_run w id c : nodes (w_views w) !! id = Some c -> 0 <= seg c -> ask (evfs_view_get_data_seg_size (Some id)) w = Some (seg c, w).
Proof. intros Hc Hs. apply ask_run. unfold evfs_view_get_data_seg_size. rewrite Hc. cbn. by rewrite (proj2 (Z.ltb_ge _ _)). Qed.

Lemma after_last : forall q x, (x ∉ q) -> after x (q ++ [x]) = None.
Proof.
  induction q as [|y q IH]; intros x Hx; cbn [app after]; [by rewrite Z.eqb_refl |].
  apply not_elem_of_cons in Hx as [H1 H2]. rewrite (proj2 (Z.eqb_neq y x)) by done. by apply IH.
Qed.

Lemma last_run id h w q x : heads (w_entries w) !! id = Some h -> elements h = q ++ [x] -> last_element id w = Some (x, w).
Proof. intros Hh E. unfold last_element. run (head_run id h w Hh). rewrite E, last_snoc. done. Qed.

Lemma next_run id h w x y : heads (w_entries w) !! id = Some h -> after x (elements h) = y -> next_element x id w = Some (y, w).
Proof. intros Hh E. unfold next_element. run (head_run id h w Hh). by rewrite E. Qed.

Lemma seg_size_run n a w : good n a w -> gets entry_seg_size w = Some (cs - 12, w).
Proof. intros Hg. unfold gets. by rewrite (gd_seg _ _ _ Hg). Qed.

Lemma bytes_run data off k w : 0 <= off -> 0 <= k -> off + k <= zlen data ->
  bytes_of data off k w = Some (read_at off k data, w).
Proof. intros Ho Hk Hle. unfold bytes_of. by rewrite memread_read by lia. Qed.

Lemma read_at_0 k (d : list Z) : read_at 0 k d = take (Z.to_nat k) d.
Proof. unfold read_at. by rewrite drop_0. Qed.

Lemma write_at_prefix (b z : list Z) : b `prefix_of` write_at 0 b z.
Proof. rewrite write_at_in by (pose proof (zlen_nonneg z); lia). by eexists. Qed.


(** The first element that is written behind the end of a chain. *)
Lemma write_first k n a w id h data (cp := Z.min (zlen data) (cs - 12)) (b := take (Z.to_nat (cs - 12)) data) :
  good n a w -> heads (w_entries w) !! id = Some h -> id ∈ busylist (w_views w) ->
  (forall i, i ∈ elements h -> i ∈ busylist (w_views w)) -> 0 < zlen data < 2 ^ 31 -> spent n w + step <= limit ->
  exists new n' a' w', write_element st plenty (Datatypes.S k) None id data 0 (zlen data) w =
      (if zlen data =? cp then Some (cp, w')
       else bind (write_element st plenty k None id (drop (Z.to_nat cp) data) 0 (zlen data - cp)) (fun r => ret (cp + r)) w') /\
    good n' a' w' /\ spent n' w' <= spent n w + step /\ keeps (fun _ => False) n a w n' a' w' /\ w_entries w' = put id (grown h [new]) (w_entries w) /\
    (new ∉ busylist (w_views w)) /\ new ∈ busylist (w_views w') /\
    (exists c, nodes (w_views w') !! new = Some c /\ seg c = cp /\ head_id c = id) /\
    (exists z, user a' new = Some z /\ b `prefix_of` z) /\ (own w -> own w').
Proof.
  intros Hg Hh Hid Hels Hd Hroom. pose proof (so_cs : 12 < cs) as H12.
  cbn [write_element]. run (seg_size_run n a w Hg).
  assert ((zlen data <=? 0) || (0 <? 0) || (cs - 12 <=? 0) = false) as -> by (rewrite !orb_false_iff, !Z.leb_gt; lia).
  destruct (alloc_one n a w id h Hg Hh Hid Hels Hroom) as (new & r & n1 & a1 & w1 & E1 & Hr & Hg1 & Hn1 & K1 & Ee1 & Hnew & Hin1 & (c & Hc & Hs & Hhd) & Hu1 & Hown1).
  run E1. rewrite Hr. cbn [negb].
  run (last_run id (grown h [new]) w1 (elements h) new ltac:(by rewrite Ee1, put_get) eq_refl).
  run (size_run w1 new c Hc ltac:(lia)). rewrite Hs. change (0 <? 0) with false. cbn match. rewrite Z.sub_0_r, Z.add_0_l.
  fold cp. assert (0 < cp < 2 ^ 31) as Hcp by lia.
  pose proof (good_range _ _ _ _ Hg1 Hin1) as Hrange.
  destruct (call_set_size n1 a1 w1 new cp Hg1 Hin1) as (c' & a2 & w2 & E2 & Hc' & T2). rewrite Hc in Hc'. injection Hc' as <-.
  assert (call (evfs_view_set_element_data_seg_size st (Some new) cp) w1 = Some (NSP_STATUS_SUCCESSFUL, w2)) as E2'.
  { unfold call, evfs_view_set_element_data_seg_size, element_data_seg_size. rewrite (proj2 (Z.leb_le 0 cp)) by lia. exact E2. }
  rewrite (bind_some (bind _ _) _ w1 cp w2) by (run E2'; done). cbn beta iota.
  pose proof (touched_keeps _ _ _ _ _ _ _ Hg1 T2) as K2. pose proof (own_touched _ _ _ _ _ _ _ _ Hg1 T2 Hc eq_refl) as Hown2.
  destruct T2 as [Hg2 Ee2 Eb2 En2 Hu2].
  run (bytes_run data 0 cp w2 ltac:(lia) ltac:(lia) ltac:(lia)). rewrite read_at_0.
  assert (take (Z.to_nat cp) data = b) as ->.
  { unfold b, cp, zlen in *. destruct (Z.min_spec (Z.of_nat (length data)) (cs - 12)) as [[? ->] | [? ->]]; [|done].
    rewrite !take_ge; [done | lia | lia]. }
  assert (zlen b = cp) as Hb by (unfold b, cp, zlen in *; rewrite length_take; lia).
  destruct (write_run n1 a2 w2 new b 0 (set_seg cp c) Hg2 Hrange) as (a3 & w3 & E3 & Hg3 & Ee3 & Ev3 & Hu3 & Ho3);
    [by rewrite En2, lookup_insert_eq | left; cbn; lia | lia | lia | lia | lia |].
  run E3. rewrite Hb, Z.eqb_refl. cbn [negb orb].
  assert (spent n1 w3 = spent n1 w1) as Hsp by (apply spent_same; by rewrite Ev3, Eb2).
  exists new, n1, a3, w3. split.
  { destruct (zlen data =? cp); [done |].
    assert (after new (elements (grown h [new])) = None) as Haf by (apply after_last; intros Hin; by apply Hnew, Hels).
    by run (next_run id (grown h [new]) w3 new None ltac:(by rewrite Ee3, Ee2, Ee1, put_get) Haf). }
  split; [done |]. split; [by rewrite Hsp |]. split.
  { apply (keeps_fresh _ (eq new) _ _ _ n1 a1 w1); [exact K1 | | by intros i <-].
    apply (keeps_trans _ (eq new) _ _ _ n1 a2 w2); [exact K2 | | done].
    apply keeps_views; [by rewrite Ev3 | by rewrite Ev3 | done | lia |]. intros i _ Hi. by apply Ho3. }
  split; [congruence |]. split; [done |]. split; [by rewrite Ev3, Eb2 |].
  split; [exists (set_seg cp c); by rewrite Ev3, En2, lookup_insert_eq |].
  split; [exists (write_at 0 b (replicate (Z.to_nat (cs - 12)) 0)); rewrite Hu3, Hu2, Hu1; split; [done | apply write_at_prefix] |].
  intros Hown. apply (own_same w2); auto.
Qed.

(** How many clusters [len] bytes need at most. *)
Definition blocks (len : Z) : Z := len / (cs - 12) + 1.

Lemma blocks_pos len : 0 <= len -> 1 <= blocks len.
Proof. intros Hl. pose proof (so_cs : 12 < cs). unfold blocks. pose proof (Z.div_pos len (cs - 12)). lia. Qed.

Lemma blocks_le x y : x <= y -> blocks x <= blocks y.
Proof. intros Hl. pose proof (so_cs : 12 < cs). unfold blocks. pose proof (Z.div_le_mono x y (cs - 12)). lia. Qed.

Lemma blocks_less len : blocks (len - (cs - 12)) = blocks len - 1.
Proof.
  pose proof (so_cs : 12 < cs). unfold blocks. replace (len - (cs - 12)) with (len + (-1) * (cs - 12)) by lia.
  rewrite Z.div_add by lia. lia.
Qed.

(** Writing behind the end of a chain makes as many elements as the data need. *)
Lemma write_new : forall k n a w id h data, good n a w -> heads (w_entries w) !! id = Some h -> id ∈ busylist (w_views w) ->
  (forall i, i ∈ elements h -> i ∈ busylist (w_views w)) -> 0 < zlen data < 2 ^ 31 -> (Z.to_nat (zlen data) <= k)%nat ->
  spent n w + step * blocks (zlen data) <= limit ->
  exists ids n' a' w', write_element st plenty k None id data 0 (zlen data) w = Some (zlen data, w') /\
    good n' a' w' /\ spent n' w' <= spent n w + step * blocks (zlen data) /\ keeps (fun _ => False) n a w n' a' w' /\ w_entries w' = put id (grown h ids) (w_entries w) /\
    NoDup ids /\ (forall i, i ∈ ids -> (i ∉ busylist (w_views w)) /\ i ∈ busylist (w_views w')) /\
    stored id ids data (w_views w') a' /\ (own w -> own w').
Proof.
  induction k as [|k IH]; intros n a w id h data Hg Hh Hid Hels Hd Hk Hroom; [lia |]. pose proof (so_cs : 12 < cs) as H12.
  pose proof (blocks_pos (zlen data)) as Hb1. pose proof (so_step : 0 < step) as Hst1.
  destruct (write_first k n a w id h data Hg Hh Hid Hels Hd ltac:(nia)) as (new & n3 & a3 & w3 & -> & Hg3 & Hn3 & K3 & Ee3 & Hnew & Hin3 & (c & Hc3 & Hs & Hhd) & Hz & Hown3).
  set (cp := Z.min (zlen data) (cs - 12)) in *. destruct (Z.eqb_spec (zlen data) cp) as [Hall | Hmore].
  - exists [new], n3, a3, w3. rewrite Hall. split; [done |]. split; [done |]. rewrite <- Hall. split; [nia |]. split; [done |]. split; [done |].
    split; [apply NoDup_singleton |]. split; [by intros i ->%list_elem_of_singleton |]. split; [|done]. cbn [stored].
    split; [lia |]. split; [exists c; split; [done |]; split; [lia | done] |]. split; [done |].
    apply nil_length_inv. rewrite length_drop. unfold zlen in *. lia.
  - set (rest := drop (Z.to_nat cp) data). assert (zlen rest = zlen data - cp) as Hrest by (unfold rest, zlen in *; rewrite length_drop; lia).
    destruct (IH n3 a3 w3 id (grown h [new]) rest Hg3) as (ids & n4 & a4 & w4 & E4 & Hg4 & Hn4 & K4 & Ee4 & Hnd & Hids & Hst & Hown4).
    { by rewrite Ee3, put_get. } { by apply (kp_busy _ _ _ _ _ _ _ K3). }
    { cbn. intros i [Hi | ->%list_elem_of_singleton]%elem_of_app; [by apply (kp_busy _ _ _ _ _ _ _ K3), Hels | done]. }
    { lia. } { lia. } { rewrite Hrest. unfold cp. rewrite Z.min_r by lia. rewrite blocks_less. nia. }
    assert (blocks (zlen rest) = blocks (zlen data) - 1) as Hbl by (rewrite Hrest; unfold cp; rewrite Z.min_r by lia; apply blocks_less).
    rewrite Hbl in Hn4. rewrite Hrest in E4. run E4. exists (new :: ids), n4, a4, w4. split; [unfold ret; f_equal; f_equal; lia |]. split; [done |]. split; [nia |].
    split; [by apply (keeps_then _ _ _ _ n3 a3 w3) |]. split; [by rewrite Ee4, Ee3, put_put, grown_app |]. split.
    { apply NoDup_cons. split; [|done]. intros Hin. by destruct (Hids new Hin). }
    split.
    { intros i [-> | Hin]%elem_of_cons; [split; [done | by apply (kp_busy _ _ _ _ _ _ _ K4)] |]. destruct (Hids i Hin) as [H1 H2].
      split; [|done]. intros Hi. by apply H1, (kp_busy _ _ _ _ _ _ _ K3). }
    split; [|auto]. unfold rest, cp in *. replace (Z.to_nat (Z.min (zlen data) (cs - 12))) with (Z.to_nat (cs - 12)) in Hst by lia.
    assert (stored id [new] (take (Z.to_nat (cs - 12)) data) (w_views w3) a3) as H1.
    { assert (zlen (take (Z.to_nat (cs - 12)) data) = cs - 12) as Hl by (unfold zlen in *; rewrite length_take; lia).
      cbn [stored]. rewrite Hl. split; [lia |]. split; [exists c; split; [done |]; split; [lia | done] |].
      rewrite take_take, Nat.min_id. split; [done |]. apply nil_length_inv. rewrite length_drop. unfold zlen in *. lia. }
    apply (stored_keeps _ _ _ _ _ _ _ id K4) in H1; [|intros i ->%list_elem_of_singleton; tauto].
    destruct H1 as (_ & (c' & ? & Hs' & ?) & (z & ? & ?) & _). cbn [stored]. split; [lia |].
    split; [exists c'; split; [done |]; split; [|done] |].
    + rewrite Hs'. unfold zlen in *. rewrite length_take. lia.
    + split; [|done]. exists z. split; [done |]. by rewrite take_take, Nat.min_id in *.
Qed.

(** ** Sizes *)

Lemma head_size_run w id c size : nodes (w_views w) !! id = Some c -> seg c = head_data_seg_size size -> 0 < size < 2 ^ 31 ->
  ask (evfs_view_get_data_seg_size (Some id)) w = Some (size, w).
Proof.
  intros Hc Hs Hsz. destruct (head_size size Hsz) as [H1 H2]. apply ask_run. unfold evfs_view_get_data_seg_size. rewrite Hc. cbn.
  rewrite Hs, (proj2 (Z.ltb_lt _ _)) by done. by rewrite H2.
Qed.

(** ** References *)

Lemma search_run n a w id : good n a w -> id ∈ elems (root_of_entries_tree (w_entries w)) ->
  __evfs_entries_search_head id w = Some (Some id, w).
Proof.
  intros Hg Hid. unfold __evfs_entries_search_head, gets.
  pose proof (gd_tree _ _ _ Hg) as Hs. rewrite (avlsearch_search_tree __evfs_entries_compare_entry_head) by apply Hs.
  rewrite (list_search_elem _ id id); [done | apply Hs | done | by apply entry_compare_eq].
Qed.

(** An entry in use: its head is known, and it can be referenced. *)
Record usable id h w : Prop := {
  us_head : heads (w_entries w) !! id = Some h;
  us_state : state h = kEvfsEntryNormal;
  us_refs : 0 <= refcnt h /\ 0 <= io_refcnt h;
  us_tree : id ∈ elems (root_of_entries_tree (w_entries w));
}.

(** A reference around a run that leaves the references alone. *)
Definition more_refs h : evfs_entry_head := set_refs (refcnt h + 1) (io_refcnt h + 1) h.

(** The world with the entry referenced. *)
Definition referenced id h w : world S := World (put id (more_refs h) (w_entries w)) (w_views w) (w_store w).

Lemma reference_found_run id h w : usable id h w ->
  reference_found (Some id) kEvfsEntryNormal w = Some ((NSP_STATUS_SUCCESSFUL, Some id), referenced id h w).
Proof.
  intros [Hh Hs _ _]. unfold reference_found, __evfs_entries_check_reference_condition.
  unfold bind at 1. unfold bind at 1. rewrite (head_run id h w Hh).
  rewrite decide_True by done. unfold bind at 1. by rewrite (on_head_run id _ h w Hh).
Qed.

Lemma with_reference_run {A} id h w fail (f : Z -> M S A) x w1 ids : usable id h w -> f id (referenced id h w) = Some (x, w1) ->
  w_entries w1 = put id (grown (more_refs h) ids) (w_entries w) ->
  with_reference st (NSP_STATUS_SUCCESSFUL, Some id) kEvfsEntryNormal fail f (referenced id h w)
    = Some (x, World (put id (grown h ids) (w_entries w)) (w_views w1) (w_store w1)).
Proof.
  intros [Hh Hs [Hr Hio] Ht] Hf Ee. unfold with_reference. run Hf.
  assert (__evfs_entries_dereference_head st id kEvfsEntryNormal w1
    = Some (tt, World (put id (grown h ids) (w_entries w)) (w_views w1) (w_store w1))) as E2; [|by run E2].
  unfold __evfs_entries_dereference_head. set (h1 := grown (more_refs h) ids) in *.
  assert (heads (w_entries w1) !! id = Some h1) as Hh1 by (by rewrite Ee, put_get).
  run (head_run id h1 w1 Hh1). cbn [h1 grown set_elements more_refs set_refs refcnt io_refcnt].
  rewrite !(proj2 (Z.ltb_lt _ _)) by lia. run (on_head_run id (set_refs (refcnt h + 1 - 1) (io_refcnt h + 1)) h1 w1 Hh1).
  rewrite decide_True by done. rewrite Ee, put_put. set (h2 := set_refs _ _ h1).
  match goal with |- context [bind (on_head id ?g) _ ?w2] => run (on_head_run id g h2 w2 (put_get _ _ _)) end.
  rewrite decide_False by (by intros [? _]). rewrite bind_ret. cbn [w_entries w_views w_store]. rewrite put_put.
  match goal with |- context [put id ?h3 _] => run (head_run id h3 (World (put id h3 (w_entries w)) (w_views w1) (w_store w1)) (put_get _ _ _)) end.
  cbn [h2 h1 set_refs grown more_refs set_elements state]. rewrite Hs, andb_false_r. unfold ret. do 4 f_equal.
  unfold set_refs, grown, set_elements, more_refs. cbn. f_equal; lia.
Qed.

Lemma reference_run {A} n a w id h fail (f : Z -> M S A) x w1 ids : good n a w -> usable id h w ->
  f id (referenced id h w) = Some (x, w1) -> w_entries w1 = put id (grown (more_refs h) ids) (w_entries w) ->
  bind (__evfs_entries_reference_head id kEvfsEntryNormal) (fun found => with_reference st found kEvfsEntryNormal fail f) w
    = Some (x, World (put id (grown h ids) (w_entries w)) (w_views w1) (w_store w1)).
Proof.
  intros Hg Hus Hf Ee. unfold __evfs_entries_reference_head, bind at 1. unfold bind at 1.
  rewrite (search_run n a w id Hg (us_tree _ _ _ Hus)), (reference_found_run id h w Hus). by apply with_reference_run.
Qed.

(** A run that only looks. *)
Lemma reference_look {A} n a w id h fail (f : Z -> M S A) x : good n a w -> usable id h w ->
  f id (referenced id h w) = Some (x, referenced id h w) ->
  bind (__evfs_entries_reference_head id kEvfsEntryNormal) (fun found => with_reference st found kEvfsEntryNormal fail f) w = Some (x, w).
Proof.
  intros Hg Hus Hf. rewrite (reference_run n a w id h fail f x _ [] Hg Hus Hf) by (by rewrite grown_nil).
  cbn. rewrite grown_nil, (put_id id h) by apply (us_head _ _ _ Hus). by destruct w.
Qed.

(** ** The content of an entry *)
Context (Hcs : 44 <= cs).

(** The entry [id] holds [data]: behind the name in the cluster of the head, then in the
    elements; its head announces [size] bytes with the name. *)
Record content id h (data : list Z) (size : Z) n a w : Prop := {
  ct_good : good n a w;
  ct_entry : heads (w_entries w) !! id = Some h;
  ct_key : zlen (key h) = 32;
  ct_size : 32 + zlen data <= size < 2 ^ 31;
  ct_busy i : i ∈ id :: elements h -> i ∈ busylist (w_views w);
  ct_nodup : NoDup (id :: elements h);
  ct_count : count_of_elements h = zlen (elements h);
  ct_node : exists c, nodes (w_views w) !! id = Some c /\ seg c = head_data_seg_size size /\ head_id c = id;
  ct_head : exists b, user a id = Some b /\ take (Z.to_nat (cs - 12)) (key h ++ data) `prefix_of` b;
  ct_alone i : i ∈ elements h -> i ∉ elems (root_of_entries_tree (w_entries w));
  ct_rest : stored id (elements h) (drop (Z.to_nat (cs - 44)) data) (w_views w) a;
}.

(** Where the next byte goes into a new cluster, or into the head. *)
Definition appendable (len : Z) : bool := (32 + len <=? cs - 12) || ((32 + len) mod (cs - 12) =? 0).

Lemma stored_length id v a : forall ids data, stored id ids data v a ->
  zlen data <= (cs - 12) * zlen ids /\ (ids <> [] -> (cs - 12) * (zlen ids - 1) < zlen data).
Proof.
  induction ids as [|i ids IH]; intros data; cbn [stored]; [intros ->; rewrite !zlen_nil; lia |].
  intros (Hd & _ & _ & Hst). destruct (IH _ Hst) as [H1 H2]. rewrite zlen_cons.
  assert (zlen (drop (Z.to_nat (cs - 12)) data) = Z.max 0 (zlen data - (cs - 12))) as Hl by (unfold zlen; rewrite length_drop; lia).
  rewrite Hl in H1, H2. split; [lia |]. intros _. destruct (decide (ids = [])) as [-> | Hne]; [change (zlen (@nil Z)) with 0; lia |].
  specialize (H2 Hne). assert (0 < zlen ids) by (unfold zlen; destruct ids; [done | cbn; lia]). nia.
Qed.

Lemma stored_full id v a ids data : stored id ids data v a -> zlen data mod (cs - 12) = 0 -> zlen data = (cs - 12) * zlen ids.
Proof.
  intros Hst Hm. destruct (stored_length _ _ _ _ _ Hst) as [H1 H2]. apply Z.mod_divide in Hm as [q Hq]; [|lia].
  destruct (decide (ids = [])) as [-> | Hne]; [cbn in Hst; subst; rewrite !zlen_nil; lia |]. specialize (H2 Hne). rewrite Hq in *. assert (zlen ids - 1 < q) by nia. assert (q <= zlen ids) by nia. nia.
Qed.

Lemma stored_app id v a ids2 data2 : forall ids data, stored id ids data v a -> zlen data = (cs - 12) * zlen ids ->
  stored id ids2 data2 v a -> stored id (ids ++ ids2) (data ++ data2) v a.
Proof.
  induction ids as [|i ids IH]; intros data; cbn [stored app]; [by intros -> |].
  rewrite zlen_cons. intros (Hd & (c & Hc & Hs & Hh) & (b & Hb & Hp) & Hst) Hl H2.
  pose proof (zlen_nonneg ids). assert (cs - 12 <= zlen data) as Hge by nia. pose proof (zlen_nonneg data2).
  rewrite zlen_app. split; [lia |]. split; [exists c; split; [done |]; split; [lia | done] |].
  rewrite take_app_le, drop_app_le by (unfold zlen in *; lia). split; [eauto |].
  apply IH; [done | | done]. unfold zlen in *. rewrite length_drop. lia.
Qed.

Lemma after_mid x ys : forall xs, (x ∉ xs) -> after x (xs ++ x :: ys) = ys !! 0%nat.
Proof.
  induction xs as [|y xs IH]; intros Hx; cbn [app after]; [by rewrite Z.eqb_refl |].
  apply not_elem_of_cons in Hx as [H1 H2]. rewrite (proj2 (Z.eqb_neq y x)) by done. by apply IH.
Qed.

Lemma seek_end n a w id h : good n a w -> heads (w_entries w) !! id = Some h -> forall ids k pre data, elements h = pre ++ ids ->
  NoDup (elements h) -> stored id ids data (w_views w) a -> zlen data = (cs - 12) * zlen ids -> (length ids <= k)%nat ->
  seek_element st plenty k id (ids !! 0%nat) (zlen data) w = Some ((NSP_STATUS_SUCCESSFUL, None, 0), w).
Proof.
  intros Hg Hh. induction ids as [|i ids IH]; intros k pre data Eh Hnd Hst Hl Hk.
  { cbn in Hst. subst data. destruct k; cbn [seek_element]; run (seg_size_run n a w Hg); rewrite zlen_nil;
      by rewrite (proj2 (Z.ltb_lt _ _)) by lia. }
  destruct k as [|k]; [cbn in Hk; lia |]. cbn [seek_element lookup list_lookup]. run (seg_size_run n a w Hg).
  rewrite zlen_cons in Hl. pose proof (zlen_nonneg ids). assert (cs - 12 <= zlen data) as Hge by nia.
  rewrite (proj2 (Z.ltb_ge _ _)) by lia. destruct Hst as (Hd & (c & Hc & Hs & Hhd) & _ & Hst).
  run (size_run w i c Hc ltac:(lia)). rewrite Hs, Z.min_l by lia. rewrite (proj2 (Z.ltb_lt 0 (cs - 12))) by lia.
  assert (after i (elements h) = ids !! 0%nat) as Haf.
  { rewrite Eh in *. apply after_mid. apply NoDup_app in Hnd as (_ & Hdis & _). intros Hi. apply (Hdis i Hi). constructor. }
  run (next_run id h w i _ Hh Haf).
  assert (zlen data - (cs - 12) = zlen (drop (Z.to_nat (cs - 12)) data)) as -> by (unfold zlen in *; rewrite length_drop; lia).
  apply (IH k (pre ++ [i])); [by rewrite <- app_assoc | done | done | unfold zlen in *; rewrite length_drop; lia | cbn in Hk; lia].
Qed.

Lemma write_tail n a w id h old data : good n a w -> heads (w_entries w) !! id = Some h -> id ∈ busylist (w_views w) ->
  (forall i, i ∈ elements h -> i ∈ busylist (w_views w)) -> NoDup (elements h) ->
  stored id (elements h) old (w_views w) a -> zlen old = (cs - 12) * zlen (elements h) -> 0 < zlen data < 2 ^ 31 ->
  spent n w + step * blocks (zlen data) <= limit ->
  exists ids n' a' w', __evfs_entries_write_element st plenty None id data 0 (zlen data) w = Some (zlen data, w') /\
    good n' a' w' /\ spent n' w' <= spent n w + step * blocks (zlen data) /\ keeps (fun _ => False) n a w n' a' w' /\ w_entries w' = put id (grown h ids) (w_entries w) /\
    NoDup (elements h ++ ids) /\ (forall i, i ∈ ids -> (i ∉ busylist (w_views w)) /\ i ∈ busylist (w_views w')) /\
    stored id (elements h ++ ids) (old ++ data) (w_views w') a' /\ (own w -> own w').
Proof.
  intros Hg Hh Hid Hels Hnd Hst Hl Hd Hroom.
  destruct (write_new (Z.to_nat (zlen data)) n a w id h data Hg Hh Hid Hels Hd)
    as (ids & n' & a' & w' & E & Hg' & Hn' & K & Ee & Hnd' & Hids & Hst' & Hown); [lia | done |].
  exists ids, n', a', w'. split; [done |]. split; [done |]. split; [done |]. split; [done |]. split; [done |]. split.
  - apply NoDup_app. split; [done |]. split; [|done]. intros i Hi Hin. by destruct (Hids i Hin) as [Hno _]; apply Hno, Hels.
  - split; [done |]. split; [|done]. apply stored_app; [|done | done]. apply (stored_keeps _ _ _ _ _ _ _ id K); [|done].
    intros i Hi. split; [by apply Hels | tauto].
Qed.

Lemma write_at_behind (p b z : list Z) : p `prefix_of` z -> zlen p + zlen b <= zlen z -> (p ++ b) `prefix_of` write_at (zlen p) b z.
Proof.
  intros [q ->] Hl. pose proof (zlen_nonneg p). rewrite zlen_app in Hl. pose proof (zlen_nonneg b).
  rewrite write_at_in by (rewrite zlen_app; lia).
  unfold zlen. rewrite Nat2Z.id, take_app_length. exists (drop (length p + length b) (p ++ q)). by rewrite app_assoc.
Qed.


Lemma append_prefix z (key old data : list Z) k : take k (key ++ old) `prefix_of` z -> (k <= length (key ++ old))%nat ->
  take k (key ++ old ++ data) `prefix_of` z.
Proof. intros Hp Hk. by rewrite app_assoc, take_app_le. Qed.

(** Appending in the cluster of the head, then in new elements. *)
Lemma append_head n a w id h old data c : good n a w -> heads (w_entries w) !! id = Some h -> elements h = [] ->
  id ∈ busylist (w_views w) -> nodes (w_views w) !! id = Some c -> head_id c = id ->
  zlen (key h) = 32 -> 32 + zlen old < cs - 12 -> 0 < zlen data < 2 ^ 31 -> 32 + zlen old < 2 ^ 31 ->
  (exists b, user a id = Some b /\ (key h ++ old) `prefix_of` b) -> spent n w + step * blocks (zlen data) <= limit ->
  let cp := Z.min (cs - 12 - (32 + zlen old)) (zlen data) in
  exists a1 w1 ids n' a' w', access (evfs_view_write_userdata st (Some id) (take (Z.to_nat cp) data) (32 + zlen old)) w = Some (cp, w1) /\
    heads (w_entries w1) !! id = Some h /\ good n a1 w1 /\
    (if 0 =? zlen data - cp then ret cp
     else bind (__evfs_entries_write_element st plenty None id (drop (Z.to_nat cp) data) 0 (zlen data - cp)) (fun r => ret (cp + r))) w1
      = Some (zlen data, w') /\
    good n' a' w' /\ spent n' w' <= spent n w + step * blocks (zlen data) /\ keeps (eq id) n a w n' a' w' /\
    (exists d, nodes (w_views w') !! id = Some d /\ seg d = seg c /\ head_id d = head_id c) /\
    w_entries w' = put id (grown h ids) (w_entries w) /\
    NoDup ids /\ (forall i, i ∈ ids -> (i ∉ busylist (w_views w)) /\ i ∈ busylist (w_views w')) /\
    (exists b, user a' id = Some b /\ take (Z.to_nat (cs - 12)) (key h ++ old ++ data) `prefix_of` b) /\
    stored id ids (drop (Z.to_nat (cs - 44)) (old ++ data)) (w_views w') a' /\ (own w -> own w').
Proof.
  intros Hg Hh Hels Hid Hc Hhd Hkey Hold Hd Hlen (b & Hb & Hpre) Hroom cp.
  pose proof (blocks_pos (zlen data)) as Hb1. pose proof (so_step : 0 < step) as Hst1. pose proof (good_range _ _ _ _ Hg Hid) as Hr.
  pose proof (zlen_nonneg old). set (p := take (Z.to_nat cp) data).
  assert (zlen p = cp) as Hp by (unfold p, cp, zlen in *; rewrite length_take; lia).
  destruct (write_run n a w id p (32 + zlen old) c Hg Hr Hc) as (a1 & w1 & E1 & Hg1 & Ee1 & Ev1 & Hu1 & Ho1);
    [right; lia | lia | lia | lia | lia |].
  rewrite Hp in E1.
  assert (keeps (eq id) n a w n a1 w1) as K1.
  { apply keeps_views; [by rewrite Ev1 | by rewrite Ev1 | done | lia |]. intros i _ Hi. by apply Ho1. }
  assert (exists b', user a1 id = Some b' /\ take (Z.to_nat (cs - 12)) (key h ++ old ++ data) `prefix_of` b') as Hu.
  { exists (write_at (32 + zlen old) p b). rewrite Hu1, Hb. split; [done |].
    assert (take (Z.to_nat (cs - 12)) (key h ++ old ++ data) = (key h ++ old) ++ p) as ->.
    { rewrite app_assoc, take_app_ge by (unfold zlen in *; rewrite length_app; lia). f_equal. rewrite length_app.
      replace (Z.to_nat (cs - 12) - (length (key h) + length old))%nat with (Z.to_nat (cs - 12 - (32 + zlen old))) by (unfold zlen in *; lia).
      unfold p, cp. destruct (Z.min_spec (cs - 12 - (32 + zlen old)) (zlen data)) as [[? ->] | [? ->]]; [done |].
      rewrite !take_ge; unfold zlen in *; [done | lia | lia]. }
    replace (32 + zlen old) with (zlen (key h ++ old)) by (rewrite zlen_app; lia).
    apply write_at_behind; [done |]. rewrite (user_len n a w id b Hg Hb), Hp, zlen_app. lia. }
  assert (drop (Z.to_nat (cs - 44)) (old ++ data) = drop (Z.to_nat cp) data) as Hrest.
  { rewrite drop_app_ge by (unfold zlen in *; lia). unfold cp.
    destruct (Z.min_spec (cs - 12 - (32 + zlen old)) (zlen data)) as [[? ->] | [? ->]]; [f_equal; unfold zlen in *; lia |].
    rewrite !drop_ge; unfold zlen in *; [done | lia | lia]. }
  assert (spent n w1 = spent n w) as Hsp by (apply spent_same; by rewrite Ev1).
  rewrite Hrest. exists a1, w1. destruct (Z.eqb_spec 0 (zlen data - cp)) as [Hall | Hmore].
  - exists [], n, a1, w1. split; [exact E1 |]. split; [by rewrite Ee1 |]. split; [done |].
    split; [unfold ret; f_equal; f_equal; lia |]. split; [done |]. split; [nia |]. split; [done |]. split; [exists c; by rewrite Ev1 |].
    split; [by rewrite grown_nil, put_id by done |]. split; [constructor |].
    split; [by intros i ?%not_elem_of_nil |]. split; [done |]. split; [|by apply own_same].
    cbn [stored]. apply nil_length_inv. rewrite length_drop. unfold zlen in *. lia.
  - set (rest := drop (Z.to_nat cp) data). assert (zlen rest = zlen data - cp) as Hl by (unfold rest, zlen in *; rewrite length_drop; lia).
    assert (blocks (zlen rest) <= blocks (zlen data)) as Hbl by (apply blocks_le; lia).
    destruct (write_tail n a1 w1 id h [] rest) as (ids & n2 & a2 & w2 & E2 & Hg2 & Hn2 & K2 & Ee2 & Hnd & Hids & Hst & Hown2);
      [done | by rewrite Ee1 | by rewrite Ev1 | by rewrite Hels; intros i ?%not_elem_of_nil | rewrite Hels; apply NoDup_nil_2 |
       by rewrite Hels | rewrite Hels; change (zlen (@nil Z)) with 0; lia | lia | nia |].
    rewrite Hels in Hnd, Hst. rewrite Hl in E2. exists ids, n2, a2, w2. split; [exact E1 |]. split; [by rewrite Ee1 |]. split; [done |].
    split; [run E2; unfold ret; f_equal; f_equal; lia |]. split; [done |]. split; [nia |]. split; [by apply (keeps_then _ _ _ _ n a1 w1) |].
    split.
    { destruct (kp_node _ _ _ _ _ _ _ K2 id) as (d & d' & D1 & D2 & D3 & D4); [by rewrite Ev1 | tauto |].
      rewrite Ev1, Hc in D1. injection D1 as <-. by exists d'. }
    split; [by rewrite Ee2, Ee1 |]. split; [done |].
    split; [intros i Hi; rewrite <- Ev1; by apply Hids |]. split; [|split; [done |]].
    2: { intros Hown. apply Hown2. by apply (own_same w). }
    destruct Hu as (b' & Hb' & Hp'). exists b'. split; [|done]. rewrite (kp_user _ _ _ _ _ _ _ K2); [done | by rewrite Ev1 | tauto].
Qed.


Lemma content_put id h h' data size n a w : content id h data size n a w -> elements h' = elements h -> key h' = key h ->
  count_of_elements h' = count_of_elements h -> content id h' data size n a (World (put id h' (w_entries w)) (w_views w) (w_store w)).
Proof.
  intros [C1 C2 C3 C4 C5 C6 C7 C8 C9 C10 C11] E1 E2 E3. split; rewrite ?E1, ?E2, ?E3; try done.
  - by apply good_put.
  - apply put_get.
Qed.

Lemma zlen_drop k (l : list Z) : 0 <= k -> zlen (drop (Z.to_nat k) l) = Z.max 0 (zlen l - k).
Proof. intros Hk. unfold zlen. rewrite length_drop. lia. Qed.

(** Behind an appendable length the chain of elements is full. *)
Lemma appendable_full id h old size n a w : content id h old size n a w -> appendable (zlen old) = true ->
  let d := drop (Z.to_nat (cs - 44)) old in
  zlen d = (cs - 12) * zlen (elements h) /\ (32 + zlen old < cs - 12 -> elements h = []) /\
  (cs - 12 <= 32 + zlen old -> zlen d = 32 + zlen old - (cs - 12)).
Proof.
  intros Hct Ha d. pose proof (ct_rest _ _ _ _ _ _ _ Hct) as Hst. fold d in Hst. pose proof (zlen_nonneg old).
  assert (zlen d = Z.max 0 (zlen old - (cs - 44))) as Hd by (unfold d; rewrite zlen_drop; lia).
  assert (zlen d mod (cs - 12) = 0) as Hm.
  { unfold appendable in Ha. apply orb_prop in Ha as [Ha%Z.leb_le | Ha%Z.eqb_eq].
    - rewrite Hd, Z.max_l by lia. by rewrite Z.mod_0_l by lia.
    - destruct (decide (32 + zlen old < cs - 12)); [rewrite Hd, Z.max_l by lia; by rewrite Z.mod_0_l by lia |].
      rewrite Hd, Z.max_r by lia. replace (zlen old - (cs - 44)) with (32 + zlen old + (-1) * (cs - 12)) by lia.
      by rewrite Z.mod_add by lia. }
  split; [by eapply stored_full |]. split; [|lia]. intros Hlt.
  destruct (stored_length _ _ _ _ _ Hst) as [_ H2]. destruct (decide (elements h = [])) as [| Hne]; [done |].
  specialize (H2 Hne). assert (0 < zlen (elements h)) by (unfold zlen; destruct (elements h); [done | cbn; lia]). nia.
Qed.

Lemma set_head_run n a w id h data size size' : content id h data size n a w -> 32 + zlen data <= size' < 2 ^ 31 ->
  exists a' w', call (evfs_view_set_head_data_seg_size st (Some id) size') w = Some (NSP_STATUS_SUCCESSFUL, w') /\
    content id h data size' n a' w' /\ keeps (eq id) n a w n a' w' /\ w_entries w' = w_entries w /\
    busylist (w_views w') = busylist (w_views w) /\ (own w -> own w').
Proof.
  intros [Hg Hh Hkey Hlen Hbusy Hnd Hcnt (c & Hc & Hs & Hhd) (b & Hb & Hpre) Hal Hst] Hsz.
  assert (id ∈ busylist (w_views w)) as Hid by (apply Hbusy; constructor).
  destruct (call_set_size n a w id (head_data_seg_size size') Hg Hid) as (c' & a' & w' & E & Hc' & T).
  rewrite Hc in Hc'. injection Hc' as <-. pose proof (touched_keeps _ _ _ _ _ _ _ Hg T) as K.
  pose proof (own_touched _ _ _ _ _ _ _ _ Hg T Hc eq_refl) as Hown. destruct T as [Hg' Ee Eb En Hu].
  exists a', w'. split; [done |]. split; [|done]. split; try done.
  - by rewrite Ee.
  - by rewrite Eb.
  - eexists. rewrite En, lookup_insert_eq. done.
  - exists b. by rewrite Hu.
  - by rewrite Ee.
  - apply (stored_keeps _ _ _ _ _ _ _ id K); [|done]. intros i Hi. split; [apply Hbusy; by constructor |].
    intros <-. by apply NoDup_cons in Hnd as [? _].
Qed.

(** A content after a run that added the elements [ids]. *)
Lemma content_after id h old new size ids n a w n' a' w' : content id h old size n a w -> keeps (eq id) n a w n' a' w' -> good n' a' w' ->
  w_entries w' = put id (grown h ids) (w_entries w) -> NoDup (elements h ++ ids) ->
  (forall i, i ∈ ids -> (i ∉ busylist (w_views w)) /\ i ∈ busylist (w_views w')) ->
  (exists c, nodes (w_views w') !! id = Some c /\ seg c = head_data_seg_size size /\ head_id c = id) ->
  (exists b, user a' id = Some b /\ take (Z.to_nat (cs - 12)) (key h ++ new) `prefix_of` b) ->
  stored id (elements h ++ ids) (drop (Z.to_nat (cs - 44)) new) (w_views w') a' -> 32 + zlen new <= size ->
  content id (grown h ids) new size n' a' w'.
Proof.
  intros [Hg Hh Hkey Hlen Hbusy Hnd Hcnt _ _ Hal _] K Hg' Ee Hnd' Hids Hnode Huser Hst Hsz.
  split; cbn [grown set_elements elements count_of_elements key]; try done.
  - by rewrite Ee, put_get.
  - lia.
  - intros i [-> | [Hi | Hi]%elem_of_app]%elem_of_cons; [apply (kp_busy _ _ _ _ _ _ _ K), Hbusy; constructor | | by apply Hids].
    apply (kp_busy _ _ _ _ _ _ _ K), Hbusy. by constructor.
  - apply NoDup_cons. split; [|done]. intros [Hi | Hi]%elem_of_app; [by apply NoDup_cons in Hnd as [Hn _] |].
    destruct (Hids id Hi) as [Hn _]. apply Hn, Hbusy. constructor.
  - rewrite zlen_app. lia.
  - rewrite Ee. intros i [Hi | Hi]%elem_of_app; [by apply Hal |]. intros Hin. destruct (Hids i Hi) as [Hn _].
    by apply Hn, (gd_elems _ _ _ Hg).
Qed.

(** The end of a run that appends. *)
Definition appended id h old data size n a w n' a' w' : Prop :=
  spent n' w' <= spent n w + step * blocks (zlen data) /\
  exists ids, content id (grown h ids) (old ++ data) size n' a' w' /\ keeps (eq id) n a w n' a' w' /\
    w_entries w' = put id (grown h ids) (w_entries w) /\ (forall i, i ∈ ids -> (i ∉ busylist (w_views w))) /\ (own w -> own w').

(** Appending behind a full chain. *)
Lemma append_behind n a w id h old data size : content id h old size n a w -> appendable (zlen old) = true ->
  cs - 12 <= 32 + zlen old -> 0 < zlen data -> 32 + zlen old + zlen data <= size -> spent n w + step * blocks (zlen data) <= limit ->
  exists n' a' w', bind (seek_element st plenty (Z.to_nat (32 + zlen old - (cs - 12))) id (elements h !! 0%nat) (32 + zlen old - (cs - 12)))
      (fun x => match x with (status, elem, inner) => if negb (NSP_SUCCESS status) then ret status
         else __evfs_entries_write_element st plenty elem id data inner (zlen data) end) w = Some (zlen data, w') /\
    appended id h old data size n a w n' a' w'.
Proof.
  intros Hct Ha Hout Hd Hle Hroom. pose proof Hct as [Hg Hh Hkey Hlen Hbusy Hnd Hcnt (c & Hc & Hs & Hhd) (b & Hb & Hpre) Hal Hst].
  destruct (appendable_full _ _ _ _ _ _ _ Hct Ha) as (Hfull & _ & Hdl). specialize (Hdl Hout).
  assert (id ∈ busylist (w_views w)) as Hid by (apply Hbusy; constructor). apply NoDup_cons in Hnd as [_ Hnd].
  pose proof (seek_end n a w id h Hg Hh (elements h) (Z.to_nat (32 + zlen old - (cs - 12))) [] _ eq_refl Hnd Hst Hfull) as E1.
  rewrite Hdl in E1. run (E1 ltac:(unfold zlen in *; nia)). change (NSP_SUCCESS NSP_STATUS_SUCCESSFUL) with true. cbn [negb].
  destruct (write_tail n a w id h _ data Hg Hh Hid ltac:(intros i Hi; apply Hbusy; by constructor) Hnd Hst Hfull ltac:(lia) Hroom)
    as (ids & n' & a' & w' & E2 & Hg' & Hn' & K & Ee & Hnd' & Hids & Hst' & Hown).
  exists n', a', w'. split; [done |]. split; [done |]. exists ids.
  assert (keeps (eq id) n a w n' a' w') as K' by (destruct K as [? ? HN HU]; split; try done; intros i Hi _; [apply HN | apply HU]; tauto).
  split; [|split; [done |]; split; [done | split; [intros i Hi; by apply Hids | done]]].
  apply (content_after id h old (old ++ data) size ids n a w n' a' w' Hct K' Hg' Ee Hnd' Hids).
  - destruct (kp_node _ _ _ _ _ _ _ K id Hid) as (d & d' & D1 & D2 & D3 & D4); [tauto |]. rewrite Hc in D1. injection D1 as <-.
    exists d'. split; [done |]. by rewrite D3, D4.
  - exists b. rewrite (kp_user _ _ _ _ _ _ _ K id Hid) by tauto. split; [done |]. apply append_prefix; [done |].
    unfold zlen in *. rewrite length_app. lia.
  - rewrite drop_app_le; [done |]. unfold zlen in *. lia.
  - rewrite zlen_app. lia.
Qed.

Lemma keeps_weaken (X : Z -> Prop) n a w n' a' w' : keeps (fun _ => False) n a w n' a' w' -> keeps X n a w n' a' w'.
Proof. intros [? ? HN HU]. split; try done; intros i Hi _; [apply HN | apply HU]; tauto. Qed.

(** Appending in the cluster of the head, and behind it. *)
Lemma append_inside n a w id h old data size : content id h old size n a w -> appendable (zlen old) = true ->
  32 + zlen old < cs - 12 -> 0 < zlen data -> 32 + zlen old + zlen data <= size -> spent n w + step * blocks (zlen data) <= limit ->
  let cp := Z.min (cs - 12 - (32 + zlen old)) (zlen data) in
  exists n' a' w',
    (b <- bytes_of data 0 cp ;; k <- access (evfs_view_write_userdata st (Some id) b (32 + zlen old)) ;; elem <- first_element id ;;
     if 0 =? zlen data - k then ret cp
     else r <- __evfs_entries_write_element st plenty elem id (drop (Z.to_nat cp) data) 0 (zlen data - k) ;; ret (cp + r)) w
      = Some (zlen data, w') /\
    appended id h old data size n a w n' a' w'.
Proof.
  intros Hct Ha Hin Hd Hle Hroom cp. pose proof Hct as [Hg Hh Hkey Hlen Hbusy Hnd Hcnt (c & Hc & Hs & Hhd) (b & Hb & Hpre) Hal Hst].
  destruct (appendable_full _ _ _ _ _ _ _ Hct Ha) as (_ & Hhead & _). specialize (Hhead Hin). pose proof (zlen_nonneg old).
  assert (id ∈ busylist (w_views w)) as Hid by (apply Hbusy; constructor).
  run (bytes_run data 0 cp w ltac:(lia) ltac:(lia) ltac:(lia)). rewrite read_at_0.
  destruct (append_head n a w id h old data c Hg Hh Hhead Hid Hc Hhd Hkey Hin ltac:(lia) ltac:(lia))
    as (a2 & w2 & ids & n3 & a3 & w3 & E2 & Hh2 & Hg2 & E3 & Hg3 & Hn3 & K3 & (d & D1 & D2 & D3) & Ee3 & Hnd3 & Hids & Hpre3 & Hst3 & Hown3).
  { exists b. split; [done |]. rewrite take_ge in Hpre; [done |]. unfold zlen in *. rewrite length_app. lia. }
  { done. }
  fold cp in E2, E3. run E2.
  assert (first_element id w2 = Some (None, w2)) as Ef by (unfold first_element; run (head_run id h w2 Hh2); by rewrite Hhead).
  run Ef. rewrite E3. exists n3, a3, w3. split; [done |]. split; [done |]. exists ids.
  split; [|split; [done |]; split; [done | split; [intros i Hi; by apply Hids | done]]].
  apply (content_after id h old (old ++ data) size ids n a w n3 a3 w3 Hct K3 Hg3 Ee3).
  - by rewrite Hhead.
  - done.
  - exists d. split; [done |]. by rewrite D2, D3.
  - done.
  - by rewrite Hhead.
  - rewrite zlen_app. lia.
Qed.

Lemma appended_after id h old data size n a w a1 w1 n' a' w' : keeps (eq id) n a w n a1 w1 -> w_entries w1 = w_entries w ->
  busylist (w_views w1) = busylist (w_views w) -> (own w -> own w1) -> appended id h old data size n a1 w1 n' a' w' ->
  appended id h old data size n a w n' a' w'.
Proof.
  intros K Ee Eb Hown (Hn & ids & Hct & K' & Ee' & Hids & Hown'). split; [by rewrite <- (spent_same n w w1) |]. exists ids. split; [done |].
  split; [by eapply keeps_trans; [exact K | exact K' |] |]. split; [by rewrite Ee', Ee |].
  split; [intros i Hi; rewrite <- Eb; by apply Hids | auto].
Qed.

Lemma write_referenced_ok n a w id h old data : content id h old (32 + zlen old) n a w -> appendable (zlen old) = true ->
  0 < zlen data -> 32 + zlen old + zlen data < 2 ^ 31 -> spent n w + step * blocks (zlen data) <= limit ->
  exists n' a' w', write_referenced st plenty data (zlen old) id w = Some (zlen data, w') /\
    appended id h old data (32 + zlen (old ++ data)) n a w n' a' w'.
Proof.
  intros Hct Ha Hd Hsz Hroom. pose proof (zlen_nonneg old). rewrite zlen_app, Z.add_assoc.
  destruct (set_head_run n a w id h old _ (32 + zlen old + zlen data) Hct ltac:(lia)) as (a1 & w1 & E1 & Hct1 & K1 & Ee1 & Eb1 & Hown1).
  destruct Hct as [Hg Hh _ _ _ _ _ (c & Hc & Hs & _) _ _ _]. unfold write_referenced.
  rewrite (swrap_small 32 (zlen old + MAX_ENTRY_NAME_LENGTH)) by (unfold MAX_ENTRY_NAME_LENGTH; lia).
  replace (zlen old + MAX_ENTRY_NAME_LENGTH) with (32 + zlen old) by (unfold MAX_ENTRY_NAME_LENGTH; lia).
  rewrite (swrap_small 32 (32 + zlen old + zlen data)) by lia.
  run (seg_size_run n a w Hg). run (head_size_run w id c (32 + zlen old) Hc Hs ltac:(lia)).
  rewrite (proj2 (Z.ltb_lt _ _)) by lia. rewrite (bind_some (bind _ _) _ w tt w1) by (run E1; done). cbn beta iota.
  assert (first_element id w1 = Some (elements h !! 0%nat, w1)) as Ef.
  { unfold first_element. by run (head_run id h w1 (ct_entry _ _ _ _ _ _ _ Hct1)). }
  destruct (Z.ltb_spec (32 + zlen old) (cs - 12)) as [Hin | Hout].
  - destruct (append_inside n a1 w1 id h old data _ Hct1 Ha Hin Hd ltac:(lia) ltac:(by rewrite (spent_same n w w1))) as (n' & a' & w' & E & Happ).
    exists n', a', w'. split; [exact E | by eapply appended_after].
  - destruct (append_behind n a1 w1 id h old data _ Hct1 Ha Hout Hd ltac:(lia) ltac:(by rewrite (spent_same n w w1))) as (n' & a' & w' & E & Happ).
    exists n', a', w'. split; [run Ef; exact E | by eapply appended_after].
Qed.

(** Appending to an entry. *)
Lemma append_run n a w id h old data : content id h old (32 + zlen old) n a w -> usable id h w -> appendable (zlen old) = true ->
  0 < zlen data -> 32 + zlen old + zlen data < 2 ^ 31 -> spent n w + step * blocks (zlen data) <= limit ->
  exists n' a' w', evfs_entries_write_data st plenty id data (zlen old) w = Some (zlen data, w') /\
    appended id h old data (32 + zlen (old ++ data)) n a w n' a' w'.
Proof.
  intros Hct Hus Ha Hd Hsz Hroom. pose proof (ct_good _ _ _ _ _ _ _ Hct) as Hg.
  assert (id ∈ busylist (w_views w)) as Hid by (apply (ct_busy _ _ _ _ _ _ _ Hct); constructor).
  pose proof (good_range _ _ _ _ Hg Hid) as Hr. unfold evfs_entries_write_data.
  rewrite (proj2 (Z.leb_gt id 0)), (proj2 (Z.leb_gt (zlen data) 0)) by lia. cbn [orb].
  pose proof (content_put id h (more_refs h) old _ n a w Hct eq_refl eq_refl eq_refl) as Hct0.
  destruct (write_referenced_ok n a _ id (more_refs h) old data Hct0 Ha Hd Hsz Hroom) as (n1 & a1 & w1 & E1 & Hn1 & ids & Hct1 & K1 & Ee1 & Hids & Hown1).
  cbn [w_entries w_views] in *. rewrite put_put in Ee1.
  rewrite (reference_run n a w id h _ _ _ w1 ids Hg Hus E1 Ee1). do 3 eexists. split; [reflexivity |]. split; [exact Hn1 |]. exists ids.
  assert (World (put id (grown h ids) (w_entries w)) (w_views w1) (w_store w1)
    = World (put id (grown h ids) (w_entries w1)) (w_views w1) (w_store w1)) as Ew by (by rewrite Ee1, put_put).
  split; [rewrite Ew; by apply (content_put id (grown (more_refs h) ids)) |].
  split; [destruct K1 as [? ? ? ?]; by split |]. split; [done |]. split; [exact Hids |]. intros Hown. rewrite Ew. unfold own. cbn.
  apply (owned_put _ _ id (grown (more_refs h) ids)); [by rewrite Ee1, put_get | done |]. apply Hown1.
  by apply (owned_put _ _ id h); [apply (us_head _ _ _ Hus) | |].
Qed.

(** ** Reading *)
Lemma read_at_drop k p r (d : list Z) : 0 <= k -> 0 <= p -> read_at p r (drop (Z.to_nat k) d) = read_at (k + p) r d.
Proof. intros Hk Hp. unfold read_at. rewrite drop_drop. do 2 f_equal. lia. Qed.

Lemma read_at_prefix p r (x z : list Z) : x `prefix_of` z -> 0 <= p -> 0 <= r -> p + r <= zlen x -> read_at p r z = read_at p r x.
Proof.
  intros [y ->] Hp Hr Hl. unfold read_at, zlen in *. rewrite drop_app_le by lia. rewrite take_app_le by (rewrite length_drop; lia). done.
Qed.

Lemma read_at_clip p r (d : list Z) : 0 <= p -> read_at p (Z.min (zlen d - p) r) d = read_at p r d.
Proof.
  intros Hp. destruct (Z.min_spec (zlen d - p) r) as [[? ->] | [? ->]]; [|done]. unfold read_at, zlen in *.
  rewrite !take_ge; [done | rewrite length_drop; lia | rewrite length_drop; lia].
Qed.

Lemma after_here h pre i ids : elements h = pre ++ i :: ids -> NoDup (elements h) -> after i (elements h) = ids !! 0%nat.
Proof. intros -> Hnd. apply after_mid. apply NoDup_app in Hnd as (_ & Hdis & _). intros Hi. apply (Hdis i Hi). constructor. Qed.

Lemma read_stored n a id h : forall ids k pre data e r w, good n a w -> heads (w_entries w) !! id = Some h -> elements h = pre ++ ids ->
  NoDup (elements h) -> stored id ids data (w_views w) a -> (forall i, i ∈ ids -> i ∈ busylist (w_views w)) ->
  0 <= e < cs - 12 -> 0 < r < 2 ^ 31 -> e + r <= zlen data -> zlen data < 2 ^ 31 -> (Z.to_nat r <= k)%nat ->
  exists w', read_element st k (ids !! 0%nat) id e r w = Some ((r, read_at e r data), w') /\ good n a w' /\
    w_entries w' = w_entries w /\ w_views w' = w_views w.
Proof.
  induction ids as [|i ids IH]; intros k pre data e r w Hg Hh Eh Hnd Hst Hb He Hr Hle Hlt Hk.
  { cbn in Hst. subst data. rewrite zlen_nil in Hle. lia. }
  destruct Hst as (Hd & (c & Hc & Hs & Hhd) & (b & Hub & Hp) & Hst). destruct k as [|k]; [lia |].
  cbn [read_element lookup list_lookup]. run (seg_size_run n a w Hg).
  assert ((r <=? 0) || (e <? 0) || (cs - 12 <=? e) = false) as -> by (rewrite !orb_false_iff, !Z.leb_gt, Z.ltb_ge; lia).
  run (size_run w i c Hc ltac:(lia)). rewrite Hs. rewrite (proj2 (Z.leb_gt _ _)) by lia.
  set (cp := Z.min r (Z.min (cs - 12) (zlen data) - e)). assert (0 < cp <= r) as Hcp by lia.
  pose proof (good_range n a w i Hg (Hb i (list_elem_of_here _ _))) as Hi.
  destruct (read_run n a w i e cp c b Hg Hi Hc) as (w1 & E1 & Hg1 & Ee1 & Ev1); [left; lia | lia | lia | lia | lia | done |].
  assert (read_at e cp b = read_at e cp data) as Hrd.
  { rewrite (read_at_prefix e cp _ _ Hp) by (unfold zlen in *; rewrite ?length_take; lia).
    symmetry. apply read_at_prefix; [|lia | lia |]; [|unfold zlen in *; rewrite length_take; lia].
    exists (drop (Z.to_nat (cs - 12)) data). by rewrite take_drop. }
  rewrite Hrd in E1. unfold read_view in E1. run E1. rewrite Z.eqb_refl. cbn [negb orb].
  destruct (Z.eqb_spec r cp) as [Hall | Hmore].
  - exists w1. rewrite Hall. done.
  - assert (heads (w_entries w1) !! id = Some h) as Hh1 by (by rewrite Ee1).
    run (next_run id h w1 i _ Hh1 (after_here h pre i ids Eh Hnd)).
    assert (cp = cs - 12 - e) as Ecp by lia. assert (zlen (drop (Z.to_nat (cs - 12)) data) = zlen data - (cs - 12)) as Hl by (rewrite zlen_drop; lia).
    destruct (IH k (pre ++ [i]) (drop (Z.to_nat (cs - 12)) data) 0 (r - cp) w1) as (w2 & E2 & Hg2 & Ee2 & Ev2);
      [done | done | by rewrite <- app_assoc | done | by rewrite Ev1 | intros j Hj; rewrite Ev1; apply Hb; by constructor | lia | lia | lia | lia | lia |].
    run E2. exists w2. split; [|split; [done |]; split; congruence]. rewrite read_at_drop, Z.add_0_r by lia. unfold ret. do 3 f_equal; [lia |].
    replace (read_at e r data) with (read_at e (cp + (r - cp)) data) by (f_equal; lia). rewrite read_at_split by lia. do 2 f_equal. lia.
Qed.

Lemma seek_read n a w id h r k' : good n a w -> heads (w_entries w) !! id = Some h -> NoDup (elements h) -> 0 < r < 2 ^ 31 -> (Z.to_nat r <= k')%nat ->
  forall ids k pre data inner, elements h = pre ++ ids -> stored id ids data (w_views w) a -> (forall i, i ∈ ids -> i ∈ busylist (w_views w)) ->
  0 <= inner -> inner + r <= zlen data -> zlen data < 2 ^ 31 -> (length ids <= k)%nat ->
  exists w', bind (seek_existing k id (ids !! 0%nat) inner) (fun x => match x with (elem, inner) => read_element st k' elem id inner r end) w
      = Some ((r, read_at inner r data), w') /\ good n a w' /\ w_entries w' = w_entries w /\ w_views w' = w_views w.
Proof.
  intros Hg Hh Hnd Hr Hk'. induction ids as [|i ids IH]; intros k pre data inner Eh Hst Hb Hi Hle Hlt Hk.
  { cbn in Hst. subst data. rewrite zlen_nil in Hle. lia. }
  destruct (Z.ltb_spec inner (cs - 12)) as [Hin | Hout].
  - assert (seek_existing k id ((i :: ids) !! 0%nat) inner w = Some ((Some i, inner), w)) as E1.
    { destruct k; cbn [seek_existing lookup list_lookup]; run (seg_size_run n a w Hg); by rewrite (proj2 (Z.ltb_lt _ _) Hin). }
    run E1. exact (read_stored n a id h (i :: ids) k' pre data inner r w Hg Hh Eh Hnd Hst Hb ltac:(lia) Hr Hle Hlt Hk').
  - destruct k as [|k]; [cbn in Hk; lia |]. destruct Hst as (Hd & (c & Hc & Hs & Hhd) & _ & Hst).
    assert (seek_existing (Datatypes.S k) id ((i :: ids) !! 0%nat) inner w = seek_existing k id (ids !! 0%nat) (inner - (cs - 12)) w) as E1.
    { cbn [seek_existing lookup list_lookup]. run (seg_size_run n a w Hg). rewrite (proj2 (Z.ltb_ge _ _) Hout).
      run (size_run w i c Hc ltac:(lia)). run (next_run id h w i _ Hh (after_here h pre i ids Eh Hnd)).
      rewrite (proj2 (Z.ltb_lt 0 (seg c))) by lia. by rewrite Hs, Z.min_l by lia. }
    unfold bind. rewrite E1. assert (zlen (drop (Z.to_nat (cs - 12)) data) = zlen data - (cs - 12)) as Hl by (rewrite zlen_drop; lia).
    replace (read_at inner r data) with (read_at (inner - (cs - 12)) r (drop (Z.to_nat (cs - 12)) data)).
    2: { rewrite read_at_drop by lia. f_equal. lia. }
    apply (IH k (pre ++ [i])); [by rewrite <- app_assoc | done | intros j Hj; apply Hb; by constructor | lia | lia | lia | cbn in Hk; lia].
Qed.


(** The bytes of a range, or what there is of it. *)
Lemma read_referenced_ok n a w id h data off size : content id h data (32 + zlen data) n a w -> 0 <= off -> 32 + off < 2 ^ 31 ->
  0 < size < 2 ^ 31 ->
  exists w', read_referenced st off size id w = Some ((zlen (read_at off size data), read_at off size data), w') /\
    good n a w' /\ w_entries w' = w_entries w /\ w_views w' = w_views w.
Proof.
  intros [Hg Hh Hkey Hlen Hbusy Hnd Hcnt (c & Hc & Hs & Hhd) (b & Hb & Hpre) Hal Hst] Ho Ho' Hsz. pose proof (zlen_nonneg data).
  assert (id ∈ busylist (w_views w)) as Hid by (apply Hbusy; constructor). pose proof (good_range _ _ _ _ Hg Hid) as Hr.
  apply NoDup_cons in Hnd as [_ Hnd]. unfold read_referenced.
  rewrite (swrap_small 32 (MAX_ENTRY_NAME_LENGTH + off)) by (unfold MAX_ENTRY_NAME_LENGTH; lia). unfold MAX_ENTRY_NAME_LENGTH.
  run (seg_size_run n a w Hg). run (head_run id h w Hh). run (head_size_run w id c _ Hc Hs ltac:(lia)).
  replace (32 + zlen data - (32 + off)) with (zlen data - off) by lia. rewrite <- (read_at_clip off size) by done.
  set (rem := Z.min (zlen data - off) size). destruct (Z.leb_spec rem 0) as [Hnone | Hsome].
  { rewrite orb_true_r. exists w. assert (read_at off rem data = []) as ->; [|done].
    unfold read_at. by replace (Z.to_nat rem) with 0%nat by lia. }
  rewrite (proj2 (Z.leb_gt _ _)) by lia. cbn [orb]. rewrite (read_at_len off rem data) by lia.
  assert (forall i, i ∈ elements h -> i ∈ busylist (w_views w)) as Hels by (intros i Hi; apply Hbusy; by constructor).
  assert (zlen (drop (Z.to_nat (cs - 44)) data) = Z.max 0 (zlen data - (cs - 44))) as Hdl by (rewrite zlen_drop; lia).
  destruct (Z.ltb_spec (32 + off) (cs - 12)) as [Hin | Hout].
  - set (cp := Z.min (cs - 12 - (32 + off)) rem).
    destruct (read_run n a w id (32 + off) cp c b Hg Hr Hc) as (w1 & E1 & Hg1 & Ee1 & Ev1); [right; lia | lia | lia | lia | lia | done |].
    assert (read_at (32 + off) cp b = read_at off cp data) as Hrd.
    { rewrite (read_at_prefix _ cp _ _ Hpre) by (unfold zlen in *; rewrite ?length_take, ?length_app; lia).
      unfold read_at, zlen in *. rewrite skipn_firstn_comm, take_take, drop_app_ge by lia. f_equal; [lia |]. f_equal. lia. }
    rewrite Hrd in E1. unfold read_view in E1. run E1. rewrite Z.eqb_refl.
    destruct (Z.eqb_spec 0 (rem - cp)) as [Hall | Hmore].
    + exists w1. replace rem with cp by lia. done.
    + destruct (read_stored n a id h (elements h) (Z.to_nat (rem - cp)) [] (drop (Z.to_nat (cs - 44)) data) 0 (rem - cp) w1)
        as (w2 & E2 & Hg2 & Ee2 & Ev2); [done | by rewrite Ee1 | done | done | by rewrite Ev1 | by rewrite Ev1 | lia | lia | lia | lia | lia |].
      run E2. exists w2. split; [|split; [done |]; split; congruence]. unfold ret. rewrite read_at_drop, Z.add_0_r by lia.
      do 3 f_equal; [lia |]. replace rem with (cp + (rem - cp)) at 2 by lia. rewrite read_at_split by lia. do 2 f_equal. lia.
  - destruct (seek_read n a w id h rem (Z.to_nat rem) Hg Hh Hnd ltac:(lia) ltac:(lia) (elements h) (length (elements h)) []
      (drop (Z.to_nat (cs - 44)) data) (32 + off - (cs - 12)) eq_refl Hst Hels ltac:(lia) ltac:(lia) ltac:(lia) ltac:(lia))
      as (w2 & E2 & Hg2 & Ee2 & Ev2).
    exists w2. split; [|done]. rewrite E2, read_at_drop by lia. do 4 f_equal. lia.
Qed.

(** Reading does not change the world above the cache. *)
Lemma read_data_run n a w id h data off size : content id h data (32 + zlen data) n a w -> usable id h w -> 0 <= off -> 32 + off < 2 ^ 31 ->
  0 < size < 2 ^ 31 ->
  exists w', evfs_entries_read_data st id off size w = Some ((zlen (read_at off size data), read_at off size data), w') /\
    good n a w' /\ w_entries w' = w_entries w /\ w_views w' = w_views w.
Proof.
  intros Hct Hus Ho Ho' Hsz. pose proof (ct_good _ _ _ _ _ _ _ Hct) as Hg.
  assert (id ∈ busylist (w_views w)) as Hid by (apply (ct_busy _ _ _ _ _ _ _ Hct); constructor).
  pose proof (good_range _ _ _ _ Hg Hid) as Hr. unfold evfs_entries_read_data.
  rewrite (proj2 (Z.ltb_ge id 0)), (proj2 (Z.ltb_ge off 0)), (proj2 (Z.leb_gt size 0)) by lia. cbn [orb].
  pose proof (content_put id h (more_refs h) data _ n a w Hct eq_refl eq_refl eq_refl) as Hct0.
  destruct (read_referenced_ok n a _ id (more_refs h) data off size Hct0 Ho Ho' Hsz) as (w1 & E1 & Hg1 & Ee1 & Ev1).
  cbn [w_entries w_views] in *. rewrite <- (grown_nil (more_refs h)) in Ee1.
  rewrite (reference_run n a w id h _ _ _ w1 [] Hg Hus E1 Ee1). eexists. split; [reflexivity |]. rewrite grown_nil.
  rewrite (put_id id h) by apply (us_head _ _ _ Hus). split; [|done].
  destruct Hg1 as [? ? ? He ?]. destruct Hg as [? ? ? He0 ?]. split; try done. intros i Hi. cbn in *. rewrite Ev1. by apply He0.
Qed.


(** ** Making an entry *)
Definition named h : Prop := default 0 (key h !! 0%nat) <> 0.

(** What an entry adds to the index. *)
Record entered id h e e' : Prop := {
  en_tree i : i ∈ elems (root_of_entries_tree e') <-> i ∈ elems (root_of_entries_tree e) \/ i = id;
  en_named x : x ∈ elems (root_of_named_entries_tree e') <-> x ∈ elems (root_of_named_entries_tree e) \/ named h /\ x = (key h, id);
  en_list : entries_list e' = entries_list e ++ [id];
  en_count : count_of_entries e' = count_of_entries e + 1;
  en_wild : wild e' = wild e;
  en_wcount : count_of_wild_entries_element e' = count_of_wild_entries_element e;
}.

Lemma insert_head_index e id h : search_tree __evfs_entries_compare_entry_head (root_of_entries_tree e) ->
  search_tree __evfs_entries_compare_named_entry_head (root_of_named_entries_tree e) -> (id ∉ elems (root_of_entries_tree e)) ->
  (named h -> forall x, x ∈ elems (root_of_named_entries_tree e) -> cstring (key h) <> cstring x.1) ->
  exists t tn, let e' := set_index t tn (entries_list e ++ [id]) (count_of_entries e + 1) e in
    insert_head id h e = Some e' /\ search_tree __evfs_entries_compare_entry_head t /\
    search_tree __evfs_entries_compare_named_entry_head tn /\ entered id h e e'.
Proof.
  intros Ht Hn Hnew Hfree. destruct (avlinsert_search_tree _ _ id Ht) as (t & E1 & Ht' & El).
  assert (exists tn, (if default 0 (key h !! 0%nat) =? 0 then Some (root_of_named_entries_tree e)
    else avlinsert (root_of_named_entries_tree e) (Some (key h, id)) (Some __evfs_entries_compare_named_entry_head)) = Some tn /\
    search_tree __evfs_entries_compare_named_entry_head tn /\
    forall x, x ∈ elems tn <-> x ∈ elems (root_of_named_entries_tree e) \/ named h /\ x = (key h, id)) as (tn & E2 & Hn' & Hin).
  { destruct (Z.eqb_spec (default 0 (key h !! 0%nat)) 0) as [E0 | E0].
    - exists (root_of_named_entries_tree e). split; [done |]. split; [done |]. unfold named. naive_solver.
    - destruct (avlinsert_search_tree _ _ (key h, id) Hn) as (tn & E2 & Hn' & En). exists tn. split; [done |]. split; [done |].
      intros x. rewrite En, insert_sorted_perm; [rewrite elem_of_cons; unfold named; tauto |].
      intros y Hy Hc. apply (proj1 (named_compare_eq _ _)) in Hc. by apply (Hfree E0 y Hy). }
  exists t, tn. cbn zeta. split; [unfold insert_head; rewrite E1; cbn [mbind option_bind]; by rewrite E2 |]. split; [done |]. split; [done |].
  split; cbn; try done. intros i. rewrite El, insert_sorted_perm; [rewrite elem_of_cons; tauto |].
  intros y Hy Hc. apply (proj1 (entry_compare_eq _ _)) in Hc. by subst y.
Qed.

Lemma insert_head_run n a w id h : good n a w -> heads (w_entries w) !! id = Some h -> id ∈ busylist (w_views w) ->
  (id ∉ elems (root_of_entries_tree (w_entries w))) ->
  (named h -> forall x, x ∈ elems (root_of_named_entries_tree (w_entries w)) -> cstring (key h) <> cstring x.1) ->
  exists t tn, let e' := set_index t tn (entries_list (w_entries w) ++ [id]) (count_of_entries (w_entries w) + 1) (w_entries w) in
    __evfs_entries_insert_head id w = Some (tt, World e' (w_views w) (w_store w)) /\
    good n a (World e' (w_views w) (w_store w)) /\ entered id h (w_entries w) e'.
Proof.
  intros [Hr Ht Hn He Hs Hd] Hh Hid Hnew Hfree. set (e := w_entries w) in *.
  destruct (insert_head_index e id h Ht Hn Hnew Hfree) as (t & tn & E & Ht' & Hn' & Hent). exists t, tn. cbn zeta. split; [|split; [|done]].
  - unfold __evfs_entries_insert_head. run (head_run id h w Hh). unfold modify_option. fold e. by rewrite E.
  - split; cbn; try done. intros i Hi. apply (en_tree _ _ _ _ Hent) in Hi as [Hi | ->]; [by apply He | done].
Qed.

(** A fresh view, as [evfs_view_acquire_idle] gives it. *)
Lemma acquire_one_run n a w : good n a w -> spent n w + step <= limit ->
  exists id n' a' w', call (evfs_view_acquire_idle st (fun _ => true) fuel) w = Some (Some id, w') /\
    good n' a' w' /\ spent n' w' <= spent n w + step /\ keeps (fun _ => False) n a w n' a' w' /\ w_entries w' = w_entries w /\
    (id ∉ busylist (w_views w)) /\ id ∈ busylist (w_views w') /\ nodes (w_views w') !! id = Some evfs_cluster0 /\
    user a' id = Some (replicate (Z.to_nat (cs - 12)) 0) /\ busylist (w_views w') = busylist (w_views w) ++ [id] /\
    (forall i, i ∈ busylist (w_views w) -> nodes (w_views w') !! i = nodes (w_views w) !! i).
Proof.
  intros Hg Hroom. destruct (evfs_view_acquire_idle_ok st cs step limit R n a (w_views w) (w_store w) fuel (gd_ready _ _ _ Hg) Hfuel Hroom)
    as (view & v' & s' & n' & a' & E & Hr & [Hn Hcap] & Ht & Hfr & Hz & Hsub & Hres).
  destruct view as [id|]; [|done]. destruct Hres as (H1 & H2 & H3 & H4).
  exists id, n', a'. eexists. split; [unfold call; rewrite E; reflexivity |]. split.
  { destruct Hg as [? ? ? He ? Hd]. split; try done; [intros i Hi; by apply Hsub, He |].
    apply (synced_acquired st cs step limit R a a' (w_views w) v' [id] Hd Hfr H2); [apply Hz, Hd |].
    intros i ->%list_elem_of_singleton. by split; [|apply H4]. }
  split; [by apply (spent_one n n' w _ id) |]. split.
  { split; cbn; [lia | done | |].
    - intros i Hi _. destruct (busy_node n a w i Hg Hi) as [c Hc]. exists c, c. destruct (Hfr i Hi) as [-> _]. done.
    - intros i Hi _. unfold user. by destruct (Hfr i Hi) as [_ ->]. }
  split; [done |]. split; [done |]. split; [cbn; rewrite H2; apply elem_of_app; right; by apply list_elem_of_singleton |].
  split; [done |]. split; [|split; [done | intros i Hi; destruct (Hfr i Hi) as [Ei _]; exact Ei]].
  unfold user. rewrite H4 by done. cbn. f_equal. rewrite drop_replicate. f_equal. lia.
Qed.

(** The name of an entry: short enough, and not in use. *)
Definition free_name (name : option (list Z)) w : Prop :=
  match name with
  | None => True
  | Some k => zlen (cstring k) < 32 /\ forall x, x ∈ elems (root_of_named_entries_tree (w_entries w)) -> cstring k <> cstring x.1
  end.
Definition key_for (name : option (list Z)) : list Z := match name with Some k => key_of k | None => replicate 32 0 end.

Lemma cstring_nonzero k : Forall (fun c => c <> 0) (cstring k).
Proof. induction k as [|c k IH]; cbn [cstring]; [constructor |]. destruct (Z.eqb_spec c 0); [constructor | by constructor]. Qed.

Lemma key_of_string k : zlen (cstring k) < 32 -> cstring (key_of k) = cstring k.
Proof.
  intros Hl. unfold key_of. unfold zlen in Hl. rewrite take_ge by lia.
  replace (32 - length (cstring k))%nat with (Datatypes.S (31 - length (cstring k))) by lia. cbn [replicate].
  apply cstring_app. apply cstring_nonzero.
Qed.

Lemma key_for_len name : zlen (key_for name) = 32.
Proof.
  destruct name as [k|]; cbn [key_for]; [|done]. unfold key_of, zlen. rewrite length_app, length_replicate, length_take. lia.
Qed.

Lemma search_name_run n a w k : good n a w -> zlen (cstring k) < 32 ->
  (forall x, x ∈ elems (root_of_named_entries_tree (w_entries w)) -> cstring k <> cstring x.1) ->
  __evfs_entries_search_named_head k w = Some (None, w).
Proof.
  intros Hg Hl Hfree. unfold __evfs_entries_search_named_head, gets. rewrite (proj2 (Z.ltb_lt _ _)) by done.
  pose proof (gd_named _ _ _ Hg) as Hn. rewrite (avlsearch_search_tree __evfs_entries_compare_named_entry_head) by apply Hn.
  unfold list_search. rewrite filter_none; [done |]. intros x Hx Hc. apply (proj1 (named_compare_eq _ _)) in Hc. by apply (Hfree x Hx).
Qed.


Definition new_head (name : option (list Z)) : evfs_entry_head := EntryHead [] 0 0 0 kEvfsEntryNormal false (key_for name).

Lemma alloc_head_run n a w id name : good n a w -> id ∈ busylist (w_views w) -> nodes (w_views w) !! id = Some evfs_cluster0 ->
  exists a' w', __evfs_entries_alloc_head st plenty id name w
      = Some (Some id, World (put id (new_head name) (w_entries w)) (w_views w') (w_store w')) /\
    touched id (set_head_id id evfs_cluster0) n a w a' w'.
Proof.
  intros Hg Hid Hc. unfold __evfs_entries_alloc_head. cbn [plenty mem_head].
  set (disk := match name with Some _ => _ | None => _ end).
  assert (disk w = Some (None, w)) as Ed.
  { unfold disk. destruct name; [done |]. unfold bind, access, evfs_view_read_userdata, unused.
    rewrite (proj2 (Z.leb_gt _ _) (rd_total _ _ _ _ _ _ (gd_ready _ _ _ Hg))), Hc. cbn. by destruct w. }
  run Ed. destruct (call_change n a w id (set_head_id id) Hg Hid) as (r & c & a' & w' & E & Hc' & T).
  rewrite Hc in Hc'. injection Hc' as <-.
  assert (call (evfs_view_set_head st (Some id) None) w = Some (r, w')) as E' by exact E. run E'.
  exists a', w'. split; [|done]. pose proof (tc_entries _ _ _ _ _ _ _ T) as Ee.
  unfold modify, bind, ret. rewrite Ee. unfold put, new_head. by destruct name.
Qed.

Lemma create_run n a w name : good n a w -> free_name name w -> spent n w + step <= limit ->
  exists id n' a' w', evfs_entries_create_one st plenty name w = Some ((NSP_STATUS_SUCCESSFUL, Some id), w') /\
    let h := set_refs 1 0 (new_head name) in
    content id h [] 32 n' a' w' /\ usable id h w' /\ spent n' w' <= spent n w + step /\ keeps (fun _ => False) n a w n' a' w' /\ (id ∉ busylist (w_views w)) /\
    entered id h (w_entries w) (w_entries w') /\ heads (w_entries w') = <[id := h]> (heads (w_entries w)) /\ (own w -> own w').
Proof.
  intros Hg Hfree Hroom. unfold evfs_entries_create_one. set (find := match name with Some _ => _ | None => _ end).
  assert (find w = Some (None, w)) as Ef.
  { unfold find. destruct name as [k|]; [|done]. destruct Hfree as [Hl Hf]. by apply (search_name_run n a). }
  run Ef. cbn [plenty mem_view loops].
  destruct (acquire_one_run n a w Hg Hroom) as (id & n1 & a1 & w1 & E1 & Hg1 & Hn1 & K1 & Ee1 & Hnew & Hin1 & Hc1 & Hu1 & Eb1 & En1). run E1.
  destruct (alloc_head_run n1 a1 w1 id name Hg1 Hin1 Hc1) as (a2 & w2 & E2 & T2). run E2.
  set (h := new_head name). pose proof (touched_keeps _ _ _ _ _ _ _ Hg1 T2) as K2. destruct T2 as [Hg2 Ee2 Eb2 En2 Hu2].
  set (w3 := World (put id h (w_entries w1)) (w_views w2) (w_store w2)).
  assert (good n1 a2 w3) as Hg3 by (unfold w3; rewrite <- Ee2; by apply good_put).
  assert (id ∈ busylist (w_views w3)) as Hin3 by (cbn; by rewrite Eb2).
  assert (0 < id < n1) as Hr by (by eapply good_range).
  destruct (call_set_size n1 a2 w3 id (head_data_seg_size 32) Hg3 Hin3) as (c & a4 & w4 & E4 & Hc4 & T4).
  assert (call (evfs_view_set_head_data_seg_size st (Some id) MAX_ENTRY_NAME_LENGTH) w3 = Some (NSP_STATUS_SUCCESSFUL, w4)) as E4' by exact E4.
  run E4'. change (NSP_SUCCESS NSP_STATUS_SUCCESSFUL) with true. cbn [negb].
  pose proof (touched_keeps _ _ _ _ _ _ _ Hg3 T4) as K4. destruct T4 as [Hg4 Ee4 Eb4 En4 Hu4].
  cbn [w3 w_views] in Hc4. rewrite En2, lookup_insert_eq in Hc4. injection Hc4 as <-. set (c4 := set_seg _ _) in *.
  assert (heads (w_entries w4) !! id = Some h) as Hh4 by (rewrite Ee4; apply put_get).
  assert (nodes (w_views w4) !! id = Some c4) as Hc4 by (by rewrite En4, lookup_insert_eq).
  run (head_run id h w4 Hh4).
  assert (zlen (key h) = 32) as Hk by apply key_for_len.
  destruct (write_run n1 a4 w4 id (key h) 0 c4 Hg4 Hr Hc4) as (a5 & w5 & E5 & Hg5 & Ee5 & Ev5 & Hu5 & Ho5);
    [right; cbn; lia | lia | lia | lia | lia |]. run E5.
  assert (w_entries w5 = put id h (w_entries w)) as Ee5' by (rewrite Ee5, Ee4; cbn; by rewrite Ee1).
  destruct (insert_head_run n1 a5 w5 id h Hg5) as (t & tn & E6 & Hg6 & Hent).
  { by rewrite Ee5', put_get. } { by rewrite Ev5, Eb4. }
  { rewrite Ee5'. intros Hi. by apply Hnew, (gd_elems _ _ _ Hg). }
  { rewrite Ee5'. intros Hnm x Hx. destruct name as [k|]; [|by destruct Hnm]. cbn [h new_head key key_for] in *.
    destruct Hfree as [Hl Hf]. rewrite key_of_string by done. by apply Hf. }
  set (e6 := set_index t tn _ _ _) in *. set (w6 := World e6 (w_views w5) (w_store w5)) in *. run E6.
  assert (heads (w_entries w6) !! id = Some h) as Hh6 by (cbn; by rewrite Ee5', put_get).
  set (h1 := set_refs 1 0 h).
  assert (__evfs_entries_reference_head id kEvfsEntryOpen w6 = Some ((NSP_STATUS_SUCCESSFUL, Some id), World (put id h1 e6) (w_views w5) (w_store w5))) as E7.
  { unfold __evfs_entries_reference_head. run (search_run n1 a5 w6 id Hg6 ltac:(apply (en_tree _ _ _ _ Hent); by right)). unfold reference_found, __evfs_entries_check_reference_condition.
    unfold bind at 1. unfold bind at 1. rewrite (head_run id h w6 Hh6). rewrite decide_True by done. unfold bind at 1.
    by rewrite (on_head_run id _ h w6 Hh6). }
  run E7. exists id, n1, a5. eexists. split; [reflexivity |]. cbn zeta. fold h h1.
  assert (heads (put id h1 e6) = <[id := h1]> (heads (w_entries w))) as Eh7 by (cbn; rewrite Ee5'; cbn; by rewrite insert_insert_eq).
  assert (good n1 a5 (World (put id h1 e6) (w_views w5) (w_store w5))) as Hg7 by (by apply (good_put n1 a5 w6)).
  assert (keeps (eq id) n1 a1 w1 n1 a5 w5) as K5.
  { eapply keeps_trans; [exact K2 | | done]. eapply keeps_trans; [exact (keeps_views (eq id) n1 a2 w2 n1 a2 w3 eq_refl eq_refl Hg2 ltac:(lia) ltac:(done)) | | done].
    eapply keeps_trans; [exact K4 | | done]. apply keeps_views; [by rewrite Ev5 | by rewrite Ev5 | done | lia |]. intros i _ Hi. by apply Ho5. }
  split.
  { split; cbn [h1 h set_refs new_head elements count_of_elements]; try done.
    - apply put_get.
    - intros i ->%list_elem_of_singleton. cbn. by rewrite Ev5, Eb4.
    - apply NoDup_singleton.
    - exists c4. cbn. rewrite Ev5. done.
    - exists (write_at 0 (key h) (replicate (Z.to_nat (cs - 12)) 0)). rewrite Hu5, Hu4, Hu2, Hu1. split; [done |].
      change (key h1) with (key_for name). pose proof (key_for_len name) as Hkl. unfold zlen in Hkl.
      rewrite app_nil_r, take_ge by lia. apply write_at_prefix.
    - intros i Hi. by apply not_elem_of_nil in Hi.
    - apply drop_nil. }
  split; [split; cbn; [apply put_get | done | lia | apply (en_tree _ _ _ _ Hent); by right] |].
  split; [rewrite (spent_same n1 w1); [done | cbn; rewrite Ev5, Eb4; exact Eb2] |].
  split; [|split; [done |]; split; [destruct Hent as [? ? ? ? ? ?]; rewrite Ee5' in *; by split |]; split; [exact Eh7 |]].
  2: { intros Hown. apply (owned_new (w_entries w) _ (w_views w) _ id h1); try done; cbn.
       - rewrite Ev5, Eb4. cbn. by rewrite Eb2.
       - intros i Hi. rewrite Ev5, En4, lookup_insert_ne by (intros ->; done). cbn. rewrite En2, lookup_insert_ne by (intros ->; done). by apply En1.
       - exists c4. by rewrite Ev5. }
  apply (keeps_fresh _ (eq id) _ _ _ n1 a1 w1); [exact K1 | | by intros i <-]. destruct K5 as [? ? ? ?]. by split.
Qed.

(** ** Many appends *)
Fixpoint append_all (id off : Z) (chunks : list (list Z)) : M S (list Z) :=
  match chunks with
  | [] => ret []
  | d :: ds => k <- evfs_entries_write_data st plenty id d off ;; ks <- append_all id (off + zlen d) ds ;; ret (k :: ks)
  end.
Fixpoint all_appendable (off : Z) (chunks : list (list Z)) : bool :=
  match chunks with [] => true | d :: ds => appendable off && (0 <? zlen d) && all_appendable (off + zlen d) ds end.

(** How often the disk can grow for the chunks. *)
Definition demand (chunks : list (list Z)) : Z := foldr (fun d k => blocks (zlen d) + k) 0 chunks.

Lemma demand_pos chunks : 0 <= demand chunks.
Proof. induction chunks as [|d ds IH]; cbn; [lia |]. pose proof (blocks_pos (zlen d) (zlen_nonneg d)). unfold demand in IH. lia. Qed.

Lemma append_all_run id : forall chunks h old n a w, content id h old (32 + zlen old) n a w -> usable id h w ->
  all_appendable (zlen old) chunks = true -> 32 + zlen (old ++ concat chunks) < 2 ^ 31 -> spent n w + step * demand chunks <= limit ->
  exists h' n' a' w', append_all id (zlen old) chunks w = Some (map zlen chunks, w') /\
    content id h' (old ++ concat chunks) (32 + zlen (old ++ concat chunks)) n' a' w' /\ usable id h' w' /\ key h' = key h /\
    keeps (eq id) n a w n' a' w' /\ root_of_named_entries_tree (w_entries w') = root_of_named_entries_tree (w_entries w) /\
    refcnt h' = refcnt h /\ entries_list (w_entries w') = entries_list (w_entries w) /\ spent n' w' <= spent n w + step * demand chunks.
Proof.
  induction chunks as [|d ds IH]; intros h old n a w Hct Hus Hall Hsz Hroom; cbn [append_all concat map] in *.
  { exists h, n, a, w. rewrite app_nil_r. do 4 (split; [done |]). split; [by apply keeps_refl, (ct_good _ _ _ _ _ _ _ Hct) |].
    do 3 (split; [done |]). cbn. lia. }
  cbn [demand foldr] in Hroom |- *. fold (demand ds) in Hroom |- *. pose proof (demand_pos ds) as Hdp. pose proof (so_step : 0 < step) as Hst1.
  pose proof (blocks_pos (zlen d) (zlen_nonneg d)) as Hb1.
  apply andb_prop in Hall as [[Ha Hd%Z.ltb_lt]%andb_prop Hall]. pose proof (zlen_nonneg (concat ds)). rewrite !zlen_app in Hsz.
  destruct (append_run n a w id h old d Hct Hus Ha Hd ltac:(lia) ltac:(nia)) as (n1 & a1 & w1 & E1 & Hn1 & ids & Hct1 & K1 & Ee1 & _ & _).
  assert (usable id (grown h ids) w1) as Hus1.
  { destruct Hus as [? ? ? ?]. split; try done; [by rewrite Ee1, put_get | by rewrite Ee1]. }
  run E1. rewrite app_assoc. destruct (IH (grown h ids) (old ++ d) n1 a1 w1 Hct1 Hus1) as (h2 & n2 & a2 & w2 & E2 & Hct2 & Hus2 & Hk2 & K2 & En2 & Er2 & El2 & Hn2).
  { by rewrite zlen_app. } { rewrite !zlen_app. lia. } { nia. }
  rewrite zlen_app in E2. run E2. exists h2, n2, a2, w2. split; [done |]. split; [done |]. split; [done |]. split; [done |].
  split; [by eapply keeps_trans; [exact K1 | exact K2 |] |]. rewrite En2, Er2, El2, Ee1. do 3 (split; [done |]). nia.
Qed.

Lemma query_size_run n a w id h data size : content id h data size n a w -> usable id h w ->
  evfs_entries_query_user_seg_size st id w = Some (size - 32, w).
Proof.
  intros Hct Hus. destruct Hct as [Hg Hh _ Hsz _ _ _ (c & Hc & Hs & _) _ _ _]. pose proof (zlen_nonneg data).
  apply (reference_look n a w id h); [done | done |]. run (head_size_run (referenced id h w) id c size Hc Hs ltac:(lia)).
  by rewrite (proj2 (Z.ltb_lt 0 size)) by lia.
Qed.

Lemma search_name_found n a w id key k : good n a w -> zlen (cstring k) < 32 -> cstring key = cstring k ->
  (key, id) ∈ elems (root_of_named_entries_tree (w_entries w)) -> __evfs_entries_search_named_head k w = Some (Some id, w).
Proof.
  intros Hg Hl Hk Hin. unfold __evfs_entries_search_named_head, gets. rewrite (proj2 (Z.ltb_lt _ _)) by done. pose proof (gd_named _ _ _ Hg) as Hn.
  rewrite (avlsearch_search_tree __evfs_entries_compare_named_entry_head) by apply Hn.
  rewrite (list_search_elem _ (k, 0) (key, id)); [done | apply Hn | done | by apply named_compare_eq].
Qed.

Lemma find_run n a w id h k : good n a w -> usable id h w -> zlen (cstring k) < 32 -> cstring (key h) = cstring k ->
  (key h, id) ∈ elems (root_of_named_entries_tree (w_entries w)) ->
  evfs_entries_get_entry_id_by_name st k w = Some (id, w).
Proof.
  intros Hg Hus Hl Hk Hin. unfold evfs_entries_get_entry_id_by_name, __evfs_entries_reference_head_by_name.
  pose proof (search_name_found n a w id (key h) k Hg Hl Hk Hin) as E1.
  unfold bind at 1. unfold bind at 1. rewrite E1, (reference_found_run id h w Hus).
  rewrite (with_reference_run id h w _ _ id (referenced id h w) [] Hus) by (rewrite ?grown_nil; done). cbn.
  rewrite grown_nil, (put_id id h) by apply (us_head _ _ _ Hus). by destruct w.
Qed.

(** What is written to an entry is read back.  In any state of the file system with
    room for one cluster and those the chunks need, [evfs_entries_create_one] with an unused name of less than 32
    characters (or without one) makes an empty entry.  Writing to it one chunk behind
    the other, each beginning in the cluster of the head or at the beginning of a
    cluster, returns the size of every chunk; afterwards the entry has the size of all
    chunks together, every read returns exactly the bytes of the range (as many as there
    are), the name leads to the entry, and no other view changed in kind, size or
    content. *)
Theorem entry_roundtrip n a w name chunks : good n a w -> free_name name w -> all_appendable 0 chunks = true ->
  32 + zlen (concat chunks) < 2 ^ 31 -> spent n w + step * (1 + demand chunks) <= limit ->
  exists id w1 n2 a2 w2, evfs_entries_create_one st plenty name w = Some ((NSP_STATUS_SUCCESSFUL, Some id), w1) /\
    append_all id 0 chunks w1 = Some (map zlen chunks, w2) /\
    evfs_entries_query_user_seg_size st id w2 = Some (zlen (concat chunks), w2) /\
    (forall off size, 0 <= off -> 32 + off < 2 ^ 31 -> 0 < size < 2 ^ 31 ->
      let bytes := read_at off size (concat chunks) in
      exists w3, evfs_entries_read_data st id off size w2 = Some ((zlen bytes, bytes), w3)) /\
    (forall k, name = Some k -> cstring k <> [] -> evfs_entries_get_entry_id_by_name st k w2 = Some (id, w2)) /\
    good n2 a2 w2 /\ spent n2 w2 <= spent n w + step * (1 + demand chunks) /\ keeps (fun _ => False) n a w n2 a2 w2.
Proof.
  intros Hg Hfree Hall Hsz Hroom. pose proof (demand_pos chunks) as Hdp. pose proof (so_step : 0 < step) as Hst1.
  destruct (create_run n a w name Hg Hfree ltac:(nia)) as (id & n1 & a1 & w1 & E1 & Hct1 & Hus1 & Hn1 & K1 & Hnew & Hent & _).
  destruct (append_all_run id chunks _ [] n1 a1 w1 Hct1 Hus1 Hall Hsz ltac:(nia)) as (h & n2 & a2 & w2 & E2 & Hct2 & Hus2 & Hk & K2 & En2 & _ & _ & Hn2).
  cbn [app] in *. exists id, w1, n2, a2, w2. split; [done |]. split; [done |]. split.
  { rewrite (query_size_run n2 a2 w2 id h (concat chunks) _ Hct2 Hus2). do 2 f_equal. lia. }
  split.
  { intros off size Ho Ho' Hs. destruct (read_data_run n2 a2 w2 id h (concat chunks) off size Hct2 Hus2 Ho Ho' Hs) as (w3 & E3 & _). eauto. }
  split.
  { intros k -> Hne. destruct Hfree as [Hl _]. pose proof (key_of_string k Hl) as Eks. cbn in Hk.
    apply (find_run n2 a2 w2 id h k); [apply (ct_good _ _ _ _ _ _ _ Hct2) | done | done | by rewrite Hk |].
    rewrite En2, Hk. apply (en_named _ _ _ _ Hent). right. split; [|done]. unfold named. cbn. unfold key_of. destruct (cstring k) as [|c s] eqn:Ec; [done |]. cbn.
    pose proof (cstring_nonzero k) as Hnz. rewrite Ec in Hnz. by apply Forall_cons in Hnz as [? _]. }
  split; [apply (ct_good _ _ _ _ _ _ _ Hct2) |]. split; [nia |].
  apply (keeps_fresh _ (eq id) _ _ _ n1 a1 w1); [done | done | by intros i <-].
Qed.


(** ** A new file system *)
Lemma make_run junk n a s : 1 < n -> R s n a -> (forall id b, a id = Some b -> take 12 b = cluster_bytes evfs_cluster0) ->
  exists w, evfs_entries_create st plenty junk (World entries0 views0 s) = Some (NSP_STATUS_SUCCESSFUL, w) /\ good n a w /\
    busylist (w_views w) = [] /\ w_entries w = set_seg_size (cs - 12) entries0.
Proof.
  intros Hn HR Hblank. destruct (so_state s n a HR) as (r0 & x0 & Ex & _).
  destruct (create_ready st cs step limit R junk n a s r0 x0 Hn HR Ex) as (v & E & Hr & Hb).
  { apply Z.leb_le. by apply (rl_state s n a r0 x0). }
  unfold evfs_entries_create.
  assert (call (fun v s => '(r, v) ← evfs_view_create st (mem_view plenty) junk v s; Some (r, v, s)) (World entries0 views0 s)
    = Some (NSP_STATUS_SUCCESSFUL, World entries0 v s)) as E1 by (unfold call; cbn [w_views w_store w_entries plenty mem_view]; by rewrite E).
  run E1. change (NSP_SUCCESS NSP_STATUS_SUCCESSFUL) with true. cbn [negb].
  eexists. split; [unfold bind, __evfs_entries_init, ask, gets, evfs_view_get_max_data_seg_size; cbn; by rewrite (rd_max _ _ _ _ _ _ Hr) |].
  split; [|done]. split; cbn; try done; [apply search_tree_Null | apply search_tree_Null | intros id Hid; by apply not_elem_of_nil in Hid |]. split.
  - intros id Hid. rewrite Hb in Hid. by apply not_elem_of_nil in Hid.
  - intros id Hid. assert (0 < id < n) as Hrange by (apply (vo_ids _ _ (rd_views _ _ _ _ _ _ Hr)), elem_of_app; by right).
    destruct (proj2 (so_dom s n a id HR) Hrange) as [b Hab]. exists b. split; [done | by eapply Hblank].
Qed.

(** ** Appends that are lost *)

(** Both ways to the last element, when it is partly filled. *)
Lemma seek_last n a w id h : good n a w -> heads (w_entries w) !! id = Some h -> NoDup (elements h) -> forall ids x k pre data,
  elements h = pre ++ ids ++ [x] -> stored id (ids ++ [x]) data (w_views w) a -> zlen data < 2 ^ 31 ->
  let p := zlen data - (cs - 12) * zlen ids in 0 < p < cs - 12 -> (length ids <= k)%nat ->
  seek_element st plenty k id ((ids ++ [x]) !! 0%nat) (zlen data) w = Some ((NSP_STATUS_SUCCESSFUL, Some x, p), w) /\
  seek_existing k id ((ids ++ [x]) !! 0%nat) (zlen data) w = Some ((Some x, p), w) /\
  exists c b, nodes (w_views w) !! x = Some c /\ seg c = p /\ user a x = Some b /\ take (Z.to_nat (cs - 12)) (drop (Z.to_nat ((cs - 12) * zlen ids)) data) `prefix_of` b.
Proof.
  intros Hg Hh Hnd. induction ids as [|i ids IH]; intros x k pre data Eh Hst Hlt p Hp Hk.
  - assert (p = zlen data) as Ep by (unfold p; change (zlen (@nil Z)) with 0; lia). clearbody p. subst p. cbn [app] in *.
    destruct Hst as (_ & (c & Hc & Hs & _) & (b & Hb & Hpre) & _).
    split; [|split]; [destruct k; cbn [seek_element lookup list_lookup]; run (seg_size_run n a w Hg); by rewrite (proj2 (Z.ltb_lt _ _)) by lia
      | destruct k; cbn [seek_existing lookup list_lookup]; run (seg_size_run n a w Hg); by rewrite (proj2 (Z.ltb_lt _ _)) by lia |].
    exists c, b. change (zlen (@nil Z)) with 0. rewrite Z.mul_0_r, drop_0. split; [done |]. split; [lia | done].
  - destruct k as [|k]; [cbn in Hk; lia |]. cbn [app] in *. destruct Hst as (Hd & (c & Hc & Hs & _) & _ & Hst).
    assert (p = zlen data - (cs - 12) - (cs - 12) * zlen ids) as Ep by (unfold p; rewrite zlen_cons; lia). clearbody p.
    rewrite zlen_cons. pose proof (zlen_nonneg ids). assert (0 <= (cs - 12) * zlen ids) by nia.
    assert (cs - 12 < zlen data) as Hge by lia.
    assert (zlen (drop (Z.to_nat (cs - 12)) data) = zlen data - (cs - 12)) as Hl by (rewrite zlen_drop; lia).
    destruct (IH x k (pre ++ [i]) (drop (Z.to_nat (cs - 12)) data)) as (E1 & E2 & c' & b' & H1 & H2 & H3 & H4);
      [by rewrite <- app_assoc | done | lia | rewrite Hl; lia | cbn in Hk; lia |].
    rewrite Hl in E1, E2, H2. rewrite <- Ep in E1, E2, H2.
    split; [|split].
    + cbn [seek_element lookup list_lookup]. run (seg_size_run n a w Hg). rewrite (proj2 (Z.ltb_ge _ _)) by lia.
      run (size_run w i c Hc ltac:(lia)). rewrite (proj2 (Z.ltb_lt 0 (seg c))) by lia.
      run (next_run id h w i _ Hh (after_here h pre i (ids ++ [x]) Eh Hnd)). by rewrite Hs, Z.min_l by lia.
    + cbn [seek_existing lookup list_lookup]. run (seg_size_run n a w Hg). rewrite (proj2 (Z.ltb_ge _ _)) by lia.
      run (size_run w i c Hc ltac:(lia)). rewrite (proj2 (Z.ltb_lt 0 (seg c))) by lia.
      run (next_run id h w i _ Hh (after_here h pre i (ids ++ [x]) Eh Hnd)). by rewrite Hs, Z.min_l by lia.
    + exists c', b'. split_and!; try done. rewrite drop_drop in H4.
      replace (Z.to_nat ((cs - 12) * (1 + zlen ids))) with (Z.to_nat (cs - 12) + Z.to_nat ((cs - 12) * zlen ids))%nat by lia. done.
Qed.


(** A write into the last element, behind what it announces. *)
Lemma stored_write id v a a' x more b : forall ids data, stored id (ids ++ [x]) data v a -> (forall i, i ∈ ids -> user a' i = user a i) ->
  let p := zlen data - (cs - 12) * zlen ids in 0 < p -> p + zlen more <= zlen b -> user a x = Some b -> user a' x = Some (write_at p more b) ->
  p < cs - 12 -> stored id (ids ++ [x]) data v a'.
Proof.
  induction ids as [|i ids IH]; intros data; cbn [stored app].
  - intros (Hd & Hc & (b' & Hb' & Hpre) & Hn) _. change (zlen (@nil Z)) with 0. rewrite Z.mul_0_r, Z.sub_0_r.
    intros _ Hle Hb Hb1 Hlt. rewrite Hb in Hb'. injection Hb' as <-. split; [done |]. split; [done |]. split; [|done].
    exists (write_at (zlen data) more b). split; [done |]. rewrite take_ge in * by (unfold zlen in *; lia).
    destruct (write_at_behind data more b Hpre Hle) as [q Hq]. exists (more ++ q). by rewrite Hq, app_assoc.
  - intros (Hd & Hc & (b' & Hb' & Hpre) & Hst) Hu. rewrite zlen_cons. set (p := zlen data - _). intros Hp Hle Hb Hb1 Hlt.
    assert (p = zlen data - (cs - 12) - (cs - 12) * zlen ids) as Ep by (unfold p; lia). clearbody p.
    assert (0 <= (cs - 12) * zlen ids) by (pose proof (zlen_nonneg ids); nia).
    assert (zlen (drop (Z.to_nat (cs - 12)) data) = zlen data - (cs - 12)) as Hl by (rewrite zlen_drop; lia).
    split; [done |]. split; [done |]. split; [exists b'; rewrite Hu; [done | constructor] |].
    apply IH; [done | intros j Hj; apply Hu; by constructor | ..]; rewrite ?Hl, <- ?Ep; done.
Qed.

(** Where the last element of a content ends. *)
Lemma not_appendable id h old size n a w : content id h old size n a w -> appendable (zlen old) = false ->
  let d := drop (Z.to_nat (cs - 44)) old in let p := (32 + zlen old) mod (cs - 12) in
  exists ids x, elements h = ids ++ [x] /\ zlen d = 32 + zlen old - (cs - 12) /\ 0 < zlen d /\
    zlen d - (cs - 12) * zlen ids = p /\ 0 < p < cs - 12.
Proof.
  intros Hct Ha d p. pose proof (ct_rest _ _ _ _ _ _ _ Hct) as Hst. fold d in Hst. apply orb_false_iff in Ha as [H1%Z.leb_gt H2%Z.eqb_neq].
  assert (zlen d = 32 + zlen old - (cs - 12)) as Hd by (unfold d; rewrite zlen_drop; lia).
  assert (elements h <> []) as Hne.
  { intros E. rewrite E in Hst. cbn in Hst. rewrite Hst in Hd. change (zlen (@nil Z)) with 0 in Hd. lia. }
  destruct (exists_last Hne) as (ids & x & Ee). exists ids, x. split; [done |]. split; [done |]. split; [lia |].
  destruct (stored_length _ _ _ _ _ Hst) as [L1 L2]. specialize (L2 Hne). rewrite Ee, zlen_app in L1, L2. change (zlen [x]) with 1 in *.
  assert (0 < p < cs - 12) as Hp by (pose proof (Z.mod_pos_bound (32 + zlen old) (cs - 12)); unfold p in *; lia).
  split; [|done]. assert (p = zlen d mod (cs - 12)) as Hpd.
  { unfold p. rewrite Hd. replace (32 + zlen old - (cs - 12)) with (32 + zlen old + (-1) * (cs - 12)) by lia. by rewrite Z.mod_add by lia. }
  destruct (decide (zlen d = (cs - 12) * (zlen ids + 1))) as [E | E].
  - exfalso. unfold p in Hp. replace (32 + zlen old) with ((zlen ids + 2) * (cs - 12)) in Hp by lia. rewrite Z.mod_mul in Hp by lia. lia.
  - rewrite Hpd. symmetry. rewrite (Z.mod_unique (zlen d) (cs - 12) (zlen ids) (zlen d - (cs - 12) * zlen ids)); [done | lia | lia].
Qed.

(** The write as it happens. *)
Lemma write_lost n a w id h old more : content id h old (32 + zlen old) n a w -> appendable (zlen old) = false ->
  0 < zlen more -> let p := (32 + zlen old) mod (cs - 12) in zlen more <= p -> p + zlen more <= cs - 12 ->
  32 + zlen old + zlen more < 2 ^ 31 ->
  exists a' w', write_referenced st plenty more (zlen old) id w = Some (zlen more, w') /\
    content id h old (32 + zlen old + zlen more) n a' w' /\ w_entries w' = w_entries w.
Proof.
  intros Hct Ha Hd p Hp1 Hp2 Hsz. destruct (not_appendable _ _ _ _ _ _ _ Hct Ha) as (ids & x & Eh & Hl & Hl0 & Ep & Hp). fold p in Ep, Hp.
  destruct (set_head_run n a w id h old _ (32 + zlen old + zlen more) Hct ltac:(lia)) as (a1 & w1 & E1 & Hct1 & K1 & Ee1 & Eb1).
  destruct Hct as [Hg Hh0 _ Hsz0 _ _ _ (c & Hc & Hs & _) _ _ _]. pose proof (zlen_nonneg old). unfold write_referenced.
  rewrite (swrap_small 32 (zlen old + MAX_ENTRY_NAME_LENGTH)) by (unfold MAX_ENTRY_NAME_LENGTH; lia).
  replace (zlen old + MAX_ENTRY_NAME_LENGTH) with (32 + zlen old) by (unfold MAX_ENTRY_NAME_LENGTH; lia).
  rewrite (swrap_small 32 (32 + zlen old + zlen more)) by lia.
  run (seg_size_run n a w Hg). run (head_size_run w id c (32 + zlen old) Hc Hs ltac:(lia)).
  rewrite (proj2 (Z.ltb_lt _ _)) by lia. rewrite (bind_some (bind _ _) _ w tt w1) by (run E1; done). cbn beta iota.
  rewrite (proj2 (Z.ltb_ge (32 + zlen old) (cs - 12))) by lia. pose proof Hct1 as [Hg1 Hh Hkey Hlen Hbusy Hnd Hcnt Hnode Hu Hal Hst].
  assert (first_element id w1 = Some ((ids ++ [x]) !! 0%nat, w1)) as Ef.
  { unfold first_element. run (head_run id h w1 Hh). by rewrite Eh. }
  run Ef. apply NoDup_cons in Hnd as [Hni Hnd]. rewrite Eh in Hst. rewrite <- Hl in *.
  assert (length ids <= Z.to_nat (zlen (drop (Z.to_nat (cs - 44)) old)))%nat as Hfu by (unfold zlen at 1; unfold zlen in Ep; nia).
  destruct (seek_last n a1 w1 id h Hg1 Hh Hnd ids x _ [] _ Eh Hst ltac:(lia) ltac:(lia) Hfu) as (E2 & _ & cx & b & Hcx & Hsx & Hbx & _).
  rewrite Ep in *. run E2. change (NSP_SUCCESS NSP_STATUS_SUCCESSFUL) with true. cbn [negb].
  unfold __evfs_entries_write_element. destruct (Z.to_nat (zlen more)) as [|k] eqn:Ek; [lia |]. cbn [write_element].
  run (seg_size_run n a1 w1 Hg1).
  assert ((zlen more <=? 0) || (p <? 0) || (cs - 12 <=? p) = false) as -> by (rewrite !orb_false_iff, !Z.leb_gt, Z.ltb_ge; lia).
  rewrite bind_ret. change (NSP_SUCCESS NSP_STATUS_SUCCESSFUL) with true. cbn [negb]. rewrite bind_ret.
  run (size_run w1 x cx Hcx ltac:(lia)). rewrite Hsx, (proj2 (Z.ltb_lt 0 p)) by lia. rewrite bind_ret, Z.min_l by lia.
  run (bytes_run more 0 (zlen more) w1 ltac:(lia) ltac:(lia) ltac:(lia)). rewrite read_at_0, take_ge by (unfold zlen; lia).
  assert (x ∈ elements h) as Hinx by (rewrite Eh; apply elem_of_app; right; by apply list_elem_of_singleton).
  pose proof (good_range n a1 w1 x Hg1 (Hbusy x (list_elem_of_further _ _ _ Hinx))) as Hrx.
  destruct (write_run n a1 w1 x more p cx Hg1 Hrx Hcx) as (a2 & w2 & E3 & Hg2 & Ee2 & Ev2 & Hu2 & Ho2); [left; lia | lia | lia | lia | lia |].
  run E3. rewrite !Z.eqb_refl. cbn [negb orb]. exists a2, w2. split; [done |]. split; [|by rewrite Ee2].
  split; rewrite ?Ev2; try done; [by rewrite Ee2 | by rewrite Eh, <- Eh; apply NoDup_cons | | by rewrite Ee2 |].
  - destruct Hu as (z & ? & ?). exists z. by rewrite Ho2 by (intros ->; done).
  - rewrite Eh. apply (stored_write id _ a1 a2 x more b); [done | | lia | | done | by rewrite Ep, Hu2, Hbx | lia].
    + intros i Hi. apply Ho2. intros ->. rewrite Eh in Hnd. apply NoDup_app in Hnd as (_ & Hdis & _). apply (Hdis x Hi). constructor.
    + rewrite (user_len n a1 w1 x b Hg1 Hbx). lia.
Qed.

(** Reading behind what the last element announces. *)
Lemma read_lost n a w id h old extra size : content id h old (32 + zlen old + extra) n a w -> appendable (zlen old) = false ->
  0 < extra -> 32 + zlen old + extra < 2 ^ 31 -> 0 < size < 2 ^ 31 ->
  read_referenced st (zlen old) size id w = Some ((0, []), w).
Proof.
  intros Hct Ha Hd Hsz Hs. destruct (not_appendable _ _ _ _ _ _ _ Hct Ha) as (ids & x & Eh & Hl & Hl0 & Ep & Hp).
  destruct Hct as [Hg Hh Hkey Hlen Hbusy Hnd Hcnt (c & Hc & Hsc & _) _ _ Hst]. pose proof (zlen_nonneg old).
  apply NoDup_cons in Hnd as [_ Hnd]. rewrite Eh in Hst. unfold read_referenced.
  rewrite (swrap_small 32 (MAX_ENTRY_NAME_LENGTH + zlen old)) by (unfold MAX_ENTRY_NAME_LENGTH; lia). unfold MAX_ENTRY_NAME_LENGTH.
  run (seg_size_run n a w Hg). run (head_run id h w Hh). run (head_size_run w id c _ Hc Hsc ltac:(lia)).
  set (rem := Z.min _ size). assert (0 < rem) as Hrem by lia.
  rewrite !(proj2 (Z.leb_gt _ _)) by lia. cbn [orb]. rewrite (proj2 (Z.ltb_ge _ _)) by lia. rewrite <- Hl.
  assert (length ids <= length (elements h))%nat as Hfu by (rewrite Eh, length_app; lia).
  destruct (seek_last n a w id h Hg Hh Hnd ids x _ [] _ Eh Hst ltac:(lia) ltac:(lia) Hfu) as (_ & E2 & cx & b & Hcx & Hsx & _).
  rewrite <- Eh in E2. run E2. destruct (Z.to_nat rem) as [|k] eqn:Ek; [lia |]. cbn [read_element].
  run (seg_size_run n a w Hg). rewrite Ep in *. set (p := (32 + zlen old) mod (cs - 12)) in *.
  assert ((rem <=? 0) || (p <? 0) || (cs - 12 <=? p) = false) as -> by (rewrite !orb_false_iff, !Z.leb_gt, Z.ltb_ge; lia).
  run (size_run w x cx Hcx ltac:(lia)). rewrite Hsx, (proj2 (Z.leb_gt p 0)) by lia. rewrite Z.sub_diag, Z.min_r by lia.
  assert (read_view x p 0 w = Some ((0, []), w)) as E3.
  { unfold read_view, access, evfs_view_read_userdata. rewrite orb_true_r. cbn. by destruct w. }
  unfold read_view in E3. run E3. rewrite (proj2 (Z.eqb_neq rem 0)) by lia. cbn [Z.eqb negb orb].
  assert (after x (elements h) = None) as Haf.
  { rewrite Eh in *. apply after_last. apply NoDup_app in Hnd as (_ & Hdis & _). intros Hi. apply (Hdis x Hi). constructor. }
  run (next_run id h w x None Hh Haf). rewrite Z.sub_0_r.
  assert (read_element st k None id 0 rem w = Some ((0, []), w)) as E4 by (destruct k; cbn [read_element]; by run (seg_size_run n a w Hg)).
  by run E4.
Qed.


(** ** Deleting *)

(** The views in [X] are idle again, the others untouched. *)
Definition released (X : Z -> Prop) a w a' w' : Prop :=
  (forall i, i ∈ busylist (w_views w') <-> (i ∈ busylist (w_views w)) /\ ~ X i) /\
  (forall i, ~ X i -> nodes (w_views w') !! i = nodes (w_views w) !! i /\ user a' i = user a i).

Lemma release_run n a w id : good n a w -> id ∈ busylist (w_views w) -> (id ∉ elems (root_of_entries_tree (w_entries w))) ->
  exists r a' w', call (evfs_view_move_to_idle st (Some id)) w = Some (r, w') /\ good n a' w' /\ w_entries w' = w_entries w /\
    released (eq id) a w a' w'.
Proof.
  intros Hg Hid Hni. destruct (evfs_view_move_to_idle_ok st cs step limit R n a (w_views w) (w_store w) id (gd_ready _ _ _ Hg) Hid)
    as (r & v' & s' & a' & E & Hr & Eb & Ei & En & Ha & Hres).
  destruct Hres as [[_ E'] | [_ Hno]]; [|done].
  exists r, a'. eexists. split; [unfold call; rewrite E; reflexivity |]. split.
  { destruct Hg as [Hr0 ? ? He ? Hd]. split; try done; cbn.
    - intros i Hi. rewrite Eb. apply elem_of_del. split; [by intros -> | by apply He].
    - apply (synced_released n a a' (w_views w) v' id Hd Hid Eb Ei En Ha); [|by apply (rd_views _ _ _ _ _ _ Hr0)].
      destruct (proj2 (so_dom _ _ _ id (rd_store _ _ _ _ _ _ Hr0)) (busy_range cs R n a _ _ id Hr0 Hid)) as [b Hb].
      rewrite E', Hb. eexists. split; [done |]. by eapply (head_written st cs step limit R n a); [exact (rd_store _ _ _ _ _ _ Hr0) |]. }
  split; [done |]. split; cbn.
  - intros i. rewrite Eb, elem_of_del. split; intros [? ?]; split; congruence.
  - intros i Hi. rewrite En, lookup_insert_ne by done. split; [done |]. unfold user. by rewrite Ha by congruence.
Qed.

Lemma released_trans X Y a1 w1 a2 w2 a3 w3 : released X a1 w1 a2 w2 -> released Y a2 w2 a3 w3 ->
  released (fun i => X i \/ Y i) a1 w1 a3 w3.
Proof.
  intros [B1 N1] [B2 N2]. split.
  - intros i. rewrite B2, B1. tauto.
  - intros i Hi. destruct (N1 i) as [E1 E2], (N2 i) as [E3 E4]; [tauto | tauto | tauto |]. split; congruence.
Qed.

Lemma released_iff X Y a w a' w' : (forall i, X i <-> Y i) -> released X a w a' w' -> released Y a w a' w'.
Proof.
  intros HXY [B N]. split; [intros i; rewrite B, HXY; done | intros i Hi; apply N; by rewrite HXY].
Qed.

Lemma free_elements_run id : forall q h n a w, good n a w -> heads (w_entries w) !! id = Some h -> elements h = q ->
  hard_remove_on_detach h = true -> NoDup q ->
  (forall i, i ∈ q -> i ∈ busylist (w_views w) /\ (i ∉ elems (root_of_entries_tree (w_entries w)))) ->
  exists h' a' w', free_elements st id q w = Some (tt, w') /\ good n a' w' /\ w_entries w' = put id h' (w_entries w) /\
    released (.∈ q) a w a' w'.
Proof.
  induction q as [|x q IH]; intros h n a w Hg Hh Eq Hrm Hnd Hq; cbn [free_elements].
  { exists h, a, w. split; [done |]. split; [done |]. split; [by rewrite put_id |].
    split; [intros i; rewrite elem_of_nil; tauto | done]. }
  apply NoDup_cons in Hnd as [Hx Hnd]. destruct (Hq x) as [Hbx Htx]; [constructor |].
  set (h1 := set_elements q (count_of_elements h - 1) h).
  assert (list_del x (elements h) = Some q) as El.
  { rewrite Eq, list_del_elem by constructor. rewrite filter_cons_False by (by intros H). rewrite filter_all; [done |]. by intros y Hy ->. }
  set (w1 := World (put id h1 (w_entries w)) (w_views w) (w_store w)).
  assert (good n a w1) as Hg1 by (by apply good_put).
  destruct (release_run n a w1 x Hg1 Hbx Htx) as (r & a2 & w2 & E2 & Hg2 & Ee2 & R2).
  assert (__evfs_entries_free_element st (Some id) x w = Some (tt, w2)) as E3.
  { unfold __evfs_entries_free_element. run (head_run id h w Hh). rewrite El.
    run (on_head_run id (set_elements q (count_of_elements h - 1)) h w Hh). rewrite Hrm. by run E2. }
  run E3. destruct (IH h1 n a2 w2 Hg2) as (h' & a4 & w4 & E4 & Hg4 & Ee4 & R4); [by rewrite Ee2; apply put_get | done | done | done | |].
  { intros i Hi. rewrite Ee2. destruct (Hq i) as [Hbi Hti]; [by constructor |]. split; [|done]. apply R2. split; [done |]. by intros ->. }
  exists h', a4, w4. split; [done |]. split; [done |]. split; [rewrite Ee4, Ee2; apply put_put |].
  eapply released_iff; [|eapply released_trans; [exact R2 | exact R4]]. intros i. cbn. rewrite elem_of_cons. naive_solver.
Qed.

(** The head of an entry that is to be deleted. *)
Definition dying (hard : bool) h : evfs_entry_head :=
  EntryHead (elements h) (count_of_elements h) (refcnt h) (io_refcnt h) kEvfsEntryCloseWait (hard || hard_remove_on_detach h) (key h).

Lemma delete_run n a w id h hard : good n a w -> usable id h w ->
  let w' := World (put id (dying hard h) (w_entries w)) (w_views w) (w_store w) in
  (found <- __evfs_entries_reference_head id kEvfsEntryNormal ;; delete_referenced st hard found) w =
    (if 0 =? refcnt h then __evfs_entries_free_head st id ;;; ret NSP_STATUS_SUCCESSFUL else ret NSP_STATUS_SUCCESSFUL) w'.
Proof.
  intros Hg Hus. pose proof Hus as [Hh Hs [Hr Hio] Ht]. unfold __evfs_entries_reference_head, bind at 1. unfold bind at 1.
  rewrite (search_run n a w id Hg Ht), (reference_found_run id h w Hus). unfold delete_referenced, referenced.
  unfold __evfs_entries_try_delete_head, __evfs_entries_dereference_head.
  assert (exists h1, (if hard then on_head id (set_hard_remove true) else ret tt) (World (put id (more_refs h) (w_entries w)) (w_views w) (w_store w))
      = Some (tt, World (put id h1 (w_entries w)) (w_views w) (w_store w)) /\
    h1 = EntryHead (elements h) (count_of_elements h) (refcnt h + 1) (io_refcnt h + 1) (state h) (hard || hard_remove_on_detach h) (key h))
    as (h1 & E1 & Eh1).
  { destruct hard; eexists; (split; [|reflexivity]); [|done].
    rewrite (on_head_run id _ (more_refs h) (World (put id (more_refs h) (w_entries w)) (w_views w) (w_store w)) (put_get id _ _)). cbn [w_entries w_views w_store]. by rewrite put_put. }
  run E1. repeat (head_step || rewrite bind_bind). subst h1. cbn [set_refs set_state refcnt io_refcnt state].
  rewrite bool_decide_false by done. cbn [andb]. rewrite (proj2 (Z.eqb_neq 0 (refcnt h + 1))) by lia. rewrite bind_ret.
  repeat (head_step || rewrite bind_bind). cbn [set_refs set_state refcnt io_refcnt state]. rewrite (proj2 (Z.ltb_lt 0 (refcnt h + 1))) by lia.
  rewrite (decide_True (P := kEvfsEntryNormal = kEvfsEntryNormal)) by done.
  rewrite (proj2 (Z.ltb_lt 0 (io_refcnt h + 1))) by lia. repeat (head_step || rewrite bind_bind).
  rewrite (decide_False (P := kEvfsEntryNormal = kEvfsEntryBusy /\ _)) by (by intros [? _]). rewrite bind_ret.
  repeat (head_step || rewrite bind_bind). cbn [set_refs set_state refcnt io_refcnt state].
  rewrite bool_decide_true, andb_true_r by done. replace (refcnt h + 1 - 1) with (refcnt h) by lia. replace (io_refcnt h + 1 - 1) with (io_refcnt h) by lia.
  by destruct (0 =? refcnt h).
Qed.

(** An entry that waits for its last reference gives no other. *)
Lemma reference_dying n a w id h permission : good n a w -> heads (w_entries w) !! id = Some h -> state h = kEvfsEntryCloseWait ->
  id ∈ elems (root_of_entries_tree (w_entries w)) -> (permission = kEvfsEntryNormal \/ permission = kEvfsEntryOpen \/ permission = kEvfsEntryBusy) ->
  __evfs_entries_reference_head id permission w = Some ((posix__makeerror EACCES, None), w).
Proof.
  intros Hg Hh Hs Ht Hp. unfold __evfs_entries_reference_head. run (search_run n a w id Hg Ht).
  unfold reference_found, __evfs_entries_check_reference_condition. rewrite bind_bind. run (head_run id h w Hh). rewrite Hs.
  destruct Hp as [-> | [-> | ->]]; rewrite (decide_False (P := kEvfsEntryCloseWait = kEvfsEntryNormal)) by done; done.
Qed.

(** Deleting an entry that is open never frees it.  The call reports success, but the
    entry stays in the index with all its views; every later attempt to open, delete,
    read or write it is refused, closing it does nothing, so its references never go
    down, and its name cannot be used again. *)
Theorem delete_open n a w id h (hard : bool) : good n a w -> usable id h w -> 0 < refcnt h ->
  let delete := if hard then evfs_entries_hard_delete st id else evfs_entries_soft_delete st id in
  exists w', delete w = Some (NSP_STATUS_SUCCESSFUL, w') /\ w_views w' = w_views w /\ w_store w' = w_store w /\
    heads (w_entries w') !! id = Some (dying hard h) /\
    evfs_entries_open_one id w' = Some (posix__makeerror EACCES, w') /\
    evfs_entries_close_one st id w' = Some (tt, w') /\
    delete w' = Some (posix__makeerror EACCES, w') /\
    (forall off size, 0 <= id -> 0 <= off -> 0 < size -> evfs_entries_read_data st id off size w' = Some ((posix__makeerror EACCES, []), w')) /\
    (forall k, zlen (cstring k) < 32 -> cstring (key h) = cstring k -> (key h, id) ∈ elems (root_of_named_entries_tree (w_entries w)) ->
       evfs_entries_create_one st plenty (Some k) w' = Some ((posix__makeerror EEXIST, None), w')).
Proof.
  intros Hg Hus Hr delete. pose proof (delete_run n a w id h hard Hg Hus) as E. cbn zeta in E. rewrite (proj2 (Z.eqb_neq 0 (refcnt h))) in E by lia.
  set (w' := World _ _ _) in E. exists w'. assert (good n a w') as Hg' by (by apply good_put).
  assert (heads (w_entries w') !! id = Some (dying hard h)) as Hh' by apply put_get. pose proof (us_tree _ _ _ Hus) as Ht.
  pose proof (fun permission => reference_dying n a w' id _ permission Hg' Hh' eq_refl Ht) as Hdy.
  split; [unfold delete, evfs_entries_hard_delete, evfs_entries_soft_delete; by destruct hard |].
  split; [done |]. split; [done |]. split; [done |].
  split; [unfold evfs_entries_open_one; by run (Hdy kEvfsEntryOpen ltac:(tauto)) |].
  split; [unfold evfs_entries_close_one; by run (Hdy kEvfsEntryOpen ltac:(tauto)) |].
  split; [unfold delete, evfs_entries_hard_delete, evfs_entries_soft_delete; destruct hard; by run (Hdy kEvfsEntryNormal ltac:(tauto)) |].
  split.
  - intros off size Hi Ho Hs. unfold evfs_entries_read_data.
    rewrite (proj2 (Z.ltb_ge id 0)), (proj2 (Z.ltb_ge off 0)), (proj2 (Z.leb_gt size 0)) by lia. cbn [orb].
    by run (Hdy kEvfsEntryNormal ltac:(tauto)).
  - intros k Hl Hk Hin. unfold evfs_entries_create_one. by run (search_name_found n a w' id (key h) k Hg' Hl Hk Hin).
Qed.

(** Out of the trees and the list. *)
Lemma detach_run n a w id h : good n a w -> heads (w_entries w) !! id = Some h -> id ∈ entries_list (w_entries w) ->
  exists t tn, let e := set_index t tn (filter (.≠ id) (entries_list (w_entries w))) (count_of_entries (w_entries w) - 1) (w_entries w) in
    modify_option (detach id h) w = Some (tt, World e (w_views w) (w_store w)) /\ good n a (World e (w_views w) (w_store w)) /\
    (forall i, i ∈ elems t <-> (i ∈ elems (root_of_entries_tree (w_entries w))) /\ i <> id) /\
    (forall x, x ∈ elems tn <-> (x ∈ elems (root_of_named_entries_tree (w_entries w))) /\ ~ (named h /\ cstring (key h) = cstring x.1)).
Proof.
  intros [Hr Ht Hn He Hs Hd] Hh Hl. set (e := w_entries w) in *.
  destruct (avlremove_none _ (root_of_entries_tree e) id Ht) as (t & rm & E1 & Ht' & El).
  assert (forall i, i ∈ elems t <-> (i ∈ elems (root_of_entries_tree e)) /\ i <> id) as Hel.
  { intros i. rewrite El. unfold list_remove. rewrite list_elem_of_filter, entry_compare_eq. naive_solver. }
  assert (exists tn, (if default 0 (key h !! 0%nat) =? 0 then Some (root_of_named_entries_tree e)
    else fst <$> avlremove (root_of_named_entries_tree e) (Some (key h, id)) None (Some __evfs_entries_compare_named_entry_head)) = Some tn /\
    search_tree __evfs_entries_compare_named_entry_head tn /\
    forall x, x ∈ elems tn <-> (x ∈ elems (root_of_named_entries_tree e)) /\ ~ (named h /\ cstring (key h) = cstring x.1))
    as (tn & E2 & Hn' & Hfree).
  { destruct (Z.eqb_spec (default 0 (key h !! 0%nat)) 0) as [E0 | E0].
    - exists (root_of_named_entries_tree e). split; [done |]. split; [done |]. unfold named. naive_solver.
    - destruct (avlremove_none _ (root_of_named_entries_tree e) (key h, id) Hn) as (tn & rm' & E2 & Hn' & En).
      exists tn. rewrite E2. split; [done |]. split; [done |]. intros x. rewrite En. unfold list_remove.
      rewrite list_elem_of_filter, named_compare_eq. cbn [fst]. unfold named. naive_solver. }
  exists t, tn. cbn zeta. split; [|split; [|done]].
  - unfold modify_option, detach. fold e. rewrite list_del_elem by done. cbn [mbind option_bind]. rewrite E1. cbn [mbind option_bind].
    by rewrite E2.
  - split; cbn; try done. intros i Hi. apply He. by apply Hel.
Qed.

(** C27: deleting a closed entry gives all its clusters back.  The call reports success;
    the head and the elements are idle again and nothing else changes: not the kind,
    size or content of another view.  The entry is in no index any more, and its name
    is free. *)
Theorem delete_closed n a w id h data size : content id h data size n a w -> usable id h w -> refcnt h = 0 ->
  id ∈ entries_list (w_entries w) ->
  exists a' w', evfs_entries_hard_delete st id w = Some (NSP_STATUS_SUCCESSFUL, w') /\ good n a' w' /\
    released (.∈ id :: elements h) a w a' w' /\
    heads (w_entries w') !! id = None /\ (forall i, i ∈ elems (root_of_entries_tree (w_entries w')) <->
      (i ∈ elems (root_of_entries_tree (w_entries w))) /\ i <> id) /\
    entries_list (w_entries w') = filter (.≠ id) (entries_list (w_entries w)) /\
    count_of_entries (w_entries w') = count_of_entries (w_entries w) - 1 /\
    (named h -> forall x, x ∈ elems (root_of_named_entries_tree (w_entries w')) -> cstring (key h) <> cstring x.1).
Proof.
  intros Hct Hus Hr Hl. pose proof Hct as [Hg Hh _ _ Hbusy Hnd _ _ _ Hal _]. unfold evfs_entries_hard_delete.
  rewrite (delete_run n a w id h true Hg Hus). rewrite (proj2 (Z.eqb_eq 0 (refcnt h))) by lia.
  set (h1 := dying true h). set (w1 := World (put id h1 (w_entries w)) (w_views w) (w_store w)).
  assert (good n a w1) as Hg1 by (by apply good_put). assert (heads (w_entries w1) !! id = Some h1) as Hh1 by apply put_get.
  unfold __evfs_entries_free_head. rewrite bind_bind. run (head_run id h1 w1 Hh1).
  destruct (detach_run n a w1 id h1 Hg1 Hh1 Hl) as (t & tn & E2 & Hg2 & Ht & Hn). rewrite bind_bind. run E2.
  set (w2 := World (set_index _ _ _ _ _) _ _) in *. apply NoDup_cons in Hnd as [Hni Hnd].
  destruct (free_elements_run id (elements h1) h1 n a w2 Hg2) as (h3 & a3 & w3 & E3 & Hg3 & Ee3 & R3);
    [exact Hh1 | done | done | done | |].
  { intros i Hi. split; [apply Hbusy; by constructor |]. intros Hin%Ht. by apply (Hal i Hi), Hin. }
  rewrite bind_bind. run E3. change (hard_remove_on_detach h1) with true. cbn match.
  destruct (release_run n a3 w3 id Hg3) as (r & a4 & w4 & E4 & Hg4 & Ee4 & R4).
  { apply R3. split; [apply Hbusy; constructor | exact Hni]. } { rewrite Ee3. cbn. rewrite Ht. tauto. }
  rewrite !bind_bind. run E4. rewrite bind_ret. exists a4. eexists. split; [reflexivity |]. cbn [w_entries w_views].
  rewrite Ee4, Ee3. split; [destruct Hg4 as [? Hx ? ? ? ?]; rewrite Ee4, Ee3 in *; by split |]. split.
  { pose proof (released_trans _ _ _ _ _ _ _ _ R3 R4) as R5.
    apply (released_iff _ (.∈ id :: elements h)) in R5; [destruct R5 as [B N]; by split |].
    intros i. cbn. rewrite elem_of_cons. naive_solver. }
  split; [apply lookup_delete_eq |]. split; [exact Ht |]. do 2 (split; [done |]). intros Hnm x Hx Hc. by apply Hn in Hx as [_ []].
Qed.

(** Closing gives one reference back. *)
Lemma dereference_open_run e v s id h : state h = kEvfsEntryNormal -> 0 < refcnt h ->
  __evfs_entries_dereference_head st id kEvfsEntryOpen (World (put id h e) v s)
    = Some (tt, World (put id (set_refs (refcnt h - 1) (io_refcnt h) h) e) v s).
Proof.
  intros Hs Hr. unfold __evfs_entries_dereference_head. head_step. rewrite (proj2 (Z.ltb_lt 0 (refcnt h))) by lia. head_step.
  rewrite decide_False by done. rewrite bind_ret. rewrite decide_False by (by intros [? _]). rewrite bind_ret. head_step.
  cbn [set_refs state]. rewrite Hs, andb_false_r. done.
Qed.

Lemma close_run n a w id h : good n a w -> usable id h w -> 0 < refcnt h ->
  evfs_entries_close_one st id w = Some (tt, World (put id (set_refs (refcnt h - 1) (io_refcnt h) h) (w_entries w)) (w_views w) (w_store w)).
Proof.
  intros Hg [Hh Hs [_ Hio] Ht] Hr. unfold evfs_entries_close_one, __evfs_entries_reference_head. rewrite bind_bind. run (search_run n a w id Hg Ht).
  unfold reference_found, __evfs_entries_check_reference_condition. rewrite !bind_bind. run (head_run id h w Hh).
  rewrite decide_True by done. rewrite bind_bind. run (on_head_run id (set_refs (refcnt h + 1) (io_refcnt h)) h w Hh).
  rewrite !bind_ret. change (NSP_SUCCESS NSP_STATUS_SUCCESSFUL) with true. cbn match.
  rewrite (bind_some _ _ _ _ _ (dereference_open_run (w_entries w) (w_views w) (w_store w) id (set_refs (refcnt h + 1) (io_refcnt h) h) Hs
    ltac:(cbn; lia))). cbn beta iota.
  rewrite dereference_open_run by (cbn; lia || exact Hs). cbn. do 4 f_equal. unfold set_refs. cbn. f_equal. lia.
Qed.
End Proofs.

(** ** On the store in memory: clusters of 64 bytes, 52 of them for the user *)
Definition plain_disk : option (world (Z * (Z -> option (list Z)))) :=
  snd <$> evfs_entries_create plain_store (plenty 1) (fun _ => evfs_cluster0) (World entries0 views0 (plain_zero 3)).

Lemma plain_make : exists w, plain_disk = Some w /\ good 64 plain_rel 3 (plain_zero 3).2 w /\ w_entries w = set_seg_size 52 entries0.
Proof.
  destruct (make_run plain_store 64 2 100 plain_rel 1 (fun _ => evfs_cluster0) 3 (plain_zero 3).2 (plain_zero 3)) as (w & E & Hg & _ & Ee);
    [lia | by apply plain_zero_ok | intros id b; unfold plain_zero; cbn [snd]; case_decide; [by intros [= <-] | done] |].
  exists w. split; [unfold plain_disk; by rewrite E | done].
Qed.

(** Twenty bytes fill the cluster of the head, sixty more need two elements and the disk
    has to grow. *)
Lemma entry_roundtrip_witness : exists w id w1 w2 w3, plain_disk = Some w /\
  evfs_entries_create_one plain_store (plenty 1) (Some [97; 98]) w = Some ((NSP_STATUS_SUCCESSFUL, Some id), w1) /\
  append_all plain_store 1 id 0 [replicate 20 1; replicate 60 2] w1 = Some ([20; 60], w2) /\
  evfs_entries_get_entry_id_by_name plain_store [97; 98] w2 = Some (id, w2) /\
  evfs_entries_read_data plain_store id 18 64 w2 = Some ((62, [1; 1] ++ replicate 60 2), w3).
Proof.
  destruct plain_make as (w & E & Hg & Ee). pose proof (spent_room plain_store 64 2 100 plain_rel 3 _ w 10 Hg ltac:(lia) ltac:(lia)) as Hroom.
  destruct (entry_roundtrip plain_store 64 2 100 plain_rel 1 ltac:(lia) ltac:(lia) 3 (plain_zero 3).2 w (Some [97; 98])
    [replicate 20 1; replicate 60 2] Hg) as (id & w1 & n2 & a2 & w2 & E1 & E2 & _ & Hread & Hfind & _).
  - split; [done |]. rewrite Ee. cbn. intros x Hx. by apply not_elem_of_nil in Hx.
  - done.
  - done.
  - apply (spent_room plain_store 64 2 100 plain_rel 3 _ w _ Hg); done.
  - destruct (Hread 18 64) as (w3 & E3); [lia | lia | lia |]. exists w, id, w1, w2, w3. split; [exact E |].
    split; [exact E1 |]. split; [exact E2 |]. split; [by apply (Hfind [97; 98]) | exact E3].
Defined.


Lemma delete_open_witness : exists w id w1 w2, plain_disk = Some w /\
  evfs_entries_create_one plain_store (plenty 1) (Some [97]) w = Some ((NSP_STATUS_SUCCESSFUL, Some id), w1) /\
  evfs_entries_hard_delete plain_store id w1 = Some (NSP_STATUS_SUCCESSFUL, w2) /\
  evfs_entries_close_one plain_store id w2 = Some (tt, w2) /\
  evfs_entries_create_one plain_store (plenty 1) (Some [97]) w2 = Some ((posix__makeerror EEXIST, None), w2).
Proof.
  destruct plain_make as (w & E & Hg & Ee). pose proof (spent_room plain_store 64 2 100 plain_rel 3 _ w 10 Hg ltac:(lia) ltac:(lia)) as Hroom.
  destruct (create_run plain_store 64 2 100 plain_rel 1 ltac:(lia) ltac:(lia) 3 (plain_zero 3).2 w (Some [97]) Hg)
    as (id & n1 & a1 & w1 & E1 & Hct1 & Hus1 & _ & _ & _ & Hent & _);
    [split; [done |]; rewrite Ee; intros x Hx; by apply not_elem_of_nil in Hx | lia |].
  destruct (delete_open plain_store 64 plain_rel 1 ltac:(lia) n1 a1 w1 id _ true (ct_good _ _ _ _ _ _ _ _ _ Hct1) Hus1)
    as (w2 & E2 & _ & _ & _ & _ & E3 & _ & _ & E4); [done |].
  exists w, id, w1, w2. split; [exact E |]. split; [exact E1 |]. split; [exact E2 |]. split; [exact E3 |].
  apply (E4 [97]); [done | done |]. apply (en_named _ _ _ _ Hent). by right.
Defined.

Lemma delete_closed_witness : exists w id w1 w2 w3 w4, plain_disk = Some w /\
  evfs_entries_create_one plain_store (plenty 1) (Some [97]) w = Some ((NSP_STATUS_SUCCESSFUL, Some id), w1) /\
  append_all plain_store 1 id 0 [replicate 80 1] w1 = Some ([80], w2) /\
  evfs_entries_close_one plain_store id w2 = Some (tt, w3) /\
  evfs_entries_hard_delete plain_store id w3 = Some (NSP_STATUS_SUCCESSFUL, w4) /\ (id ∉ entries_list (w_entries w4)) /\
  (id ∉ busylist (w_views w4)).
Proof.
  destruct plain_make as (w & E & Hg & Ee). pose proof (spent_room plain_store 64 2 100 plain_rel 3 _ w 10 Hg ltac:(lia) ltac:(lia)) as Hroom.
  destruct (create_run plain_store 64 2 100 plain_rel 1 ltac:(lia) ltac:(lia) 3 (plain_zero 3).2 w (Some [97]) Hg)
    as (id & n1 & a1 & w1 & E1 & Hct1 & Hus1 & Hn1 & _ & _ & Hent & _);
    [split; [done |]; rewrite Ee; intros x Hx; by apply not_elem_of_nil in Hx | lia |].
  destruct (append_all_run plain_store 64 2 100 plain_rel 1 ltac:(lia) ltac:(lia) id [replicate 80 1] _ [] n1 a1 w1 Hct1 Hus1)
    as (h & n2 & a2 & w2 & E2 & Hct2 & Hus2 & _ & _ & _ & Er & El & _); [done | done | change (demand 64 _) with 2; lia |]. cbn in Er.
  pose proof (close_run plain_store 64 plain_rel 1 ltac:(lia) n2 a2 w2 id h (ct_good _ _ _ _ _ _ _ _ _ Hct2) Hus2 ltac:(lia)) as E3.
  set (h3 := set_refs _ _ h) in E3. set (w3 := World _ _ _) in E3.
  destruct (delete_closed plain_store 64 2 100 plain_rel 1 ltac:(lia) n2 a2 w3 id h3 _ _ (content_put 64 plain_rel id h h3 _ _ n2 a2 w2 Hct2 eq_refl eq_refl eq_refl))
    as (a4 & w4 & E4 & _ & [R4 _] & _ & _ & El4 & _); [destruct Hus2 as [? ? ? ?]; split; [apply put_get | done | cbn; lia | done] | cbn; lia | cbn; rewrite El, (en_list _ _ _ _ Hent); apply elem_of_app; right; by apply list_elem_of_singleton |].
  exists w, id, w1, w2, w3, w4. split; [exact E |]. split; [exact E1 |]. split; [exact E2 |]. split; [exact E3 |]. split; [exact E4 |].
  split.
  - rewrite El4. intros Hin. by apply elem_of_del in Hin as [Hin _].
  - intros Hin. apply R4 in Hin as [_ Hin]. apply Hin. constructor.
Defined.
