(* ===== verification/Evfs.v ===== *)
(** The calls of evfs: addons/evfs/evfs.c over [Entries].

    A user holds handles of descriptors; a descriptor has an entry and an offset.  Most
    calls queue a task for one of four workers and wait for it.  The calls run one after
    the other: a worker that is woken empties its queue before the next call begins. *)
From S2P Require Import Prelude AvlTree Ifos Cluster View Entries.
#[local] Open Scope monad_scope.

Inductive evfs_entry_descriptor_state := kEvfsDescriptorClosed | kEvfsDescriptorCloseWait | kEvfsDescriptorActived.
#[export] Instance descriptor_state_dec : EqDecision evfs_entry_descriptor_state.
Proof. solve_decision. Defined.

Record evfs_entry_descriptor := Descriptor {
  handle : Z; entry_id : Z; offset : Z; d_refcnt : Z; d_stat : evfs_entry_descriptor_state;
}.
Definition set_refcnt (n : Z) (d : evfs_entry_descriptor) := Descriptor (handle d) (entry_id d) (offset d) n (d_stat d).
Definition set_stat (x : evfs_entry_descriptor_state) (d : evfs_entry_descriptor) :=
  Descriptor (handle d) (entry_id d) (offset d) (d_refcnt d) x.
Definition set_offset (n : Z) (d : evfs_entry_descriptor) := Descriptor (handle d) (entry_id d) n (d_refcnt d) (d_stat d).
Definition set_entry (id : Z) (d : evfs_entry_descriptor) := Descriptor (handle d) id (offset d) (d_refcnt d) (d_stat d).

Inductive evfs_io_task_type :=
  | kEvfsIoTaskRead | kEvfsIoTaskWrite | kEvfsIoTaskTruncate | kEvfsIoTaskFlush | kEvfsIoTaskFlushAll
  | kEvfsIoTaskErase | kEvfsIoTaskEraseByKey | kEvfsIoTaskCreate | kEvfsIoTaskSetCache.

(** [data]: the bytes to write, the bytes that were read, or a key; [None] is NULL. *)
Record evfs_io_task := Task {
  t_status : Z; t_entry_id : Z; t_offset : Z; t_length : Z; t_data : option (list Z);
  t_type : evfs_io_task_type; t_retval : Z; t_no_wait : bool; t_descriptor : option Z;
}.
Definition set_result (status retval : Z) (data : option (list Z)) (t : evfs_io_task) :=
  Task status (t_entry_id t) (t_offset t) (t_length t) data (t_type t) retval (t_no_wait t) (t_descriptor t).

Record evfs_io_background_worker := Worker { w_stop : bool; tasks : list evfs_io_task; count_of_tasks : Z }.
Definition EVFS_MAX_WORKER : Z := 4.
Definition EVFS_MAX_IO_PENDING_COUNT : Z := 200.
Definition EINPROGRESS : Z := 115.

(** [__evfs_descriptor_mgr], the descriptors by address, and the layers below.  The tree
    holds descriptors with their handles, which do not change once they are queued. *)
Record evfs (S : Type) := Evfs {
  mgr_ready : Z; next_handle : Z;
  root_of_descriptors : tree (Z * Z); head_of_descriptors : list Z; count_of_descriptors : Z;
  worker : list evfs_io_background_worker;
  descriptors : gmap Z evfs_entry_descriptor;
  below : world S;
}.
Arguments Evfs {S}. Arguments mgr_ready {S}. Arguments next_handle {S}. Arguments root_of_descriptors {S}.
Arguments head_of_descriptors {S}. Arguments count_of_descriptors {S}. Arguments worker {S}.
Arguments descriptors {S}. Arguments below {S}.

Definition idle_workers : list evfs_io_background_worker := replicate 4 (Worker false [] 0).
Definition evfs0 {S} (w : world S) : evfs S := Evfs kEvmgrNotReady 0 Null [] 0 [] ∅ w.

Definition set_ready {S} (x : Z) (f : evfs S) : evfs S :=
  Evfs x (next_handle f) (root_of_descriptors f) (head_of_descriptors f) (count_of_descriptors f) (worker f) (descriptors f) (below f).
Definition set_next_handle {S} (x : Z) (f : evfs S) : evfs S :=
  Evfs (mgr_ready f) x (root_of_descriptors f) (head_of_descriptors f) (count_of_descriptors f) (worker f) (descriptors f) (below f).
Definition set_table {S} (t : tree (Z * Z)) (q : list Z) (n : Z) (f : evfs S) : evfs S :=
  Evfs (mgr_ready f) (next_handle f) t q n (worker f) (descriptors f) (below f).
Definition set_workers {S} (x : list evfs_io_background_worker) (f : evfs S) : evfs S :=
  Evfs (mgr_ready f) (next_handle f) (root_of_descriptors f) (head_of_descriptors f) (count_of_descriptors f) x (descriptors f) (below f).
Definition set_descriptors {S} (x : gmap Z evfs_entry_descriptor) (f : evfs S) : evfs S :=
  Evfs (mgr_ready f) (next_handle f) (root_of_descriptors f) (head_of_descriptors f) (count_of_descriptors f) (worker f) x (below f).
Definition set_below {S} (w : world S) (f : evfs S) : evfs S :=
  Evfs (mgr_ready f) (next_handle f) (root_of_descriptors f) (head_of_descriptors f) (count_of_descriptors f) (worker f) (descriptors f) w.

Definition __evfs_descriptor_compare (left right : Z * Z) : Z :=
  if right.1 <? left.1 then 1 else if left.1 <? right.1 then -1 else 0.

(** The cursor stays on the first character, and the third condition never holds. *)
Fixpoint legal_key_loop (k : nat) (cursor : Z) (i : Z) : option Z :=
  match k with
  | O => Some i
  | Datatypes.S k =>
      if 0 =? cursor then Some i
      else if ((cursor <? 0x30) || (0x39 <? cursor)) && ((cursor <? 97) || (122 <? cursor))
              && ((cursor <? 65) && (90 <? cursor)) && negb (cursor =? 95) && negb (cursor =? 46)
           then None
           else legal_key_loop k cursor (i + 1)
  end.
Definition __evfs_is_legal_key (key : option (list Z)) : bool :=
  match key with
  | None => false
  | Some key =>
      match legal_key_loop (Z.to_nat MAX_ENTRY_NAME_LENGTH) (s8 (default 0 (key !! 0%nat))) 0 with
      | None => false
      | Some i => negb (i =? MAX_ENTRY_NAME_LENGTH - 1)
      end
  end.

(** What evfs.c calls of cache.c beside the [store]: start, stop, flush, number of blocks
    (a status that may not be written), and file size and number of blocks. *)
Record image (S : Type) := Image {
  cache_init : Z -> option (Z * Z) -> S -> option (Z * S);
  cache_uninit : S -> option S;
  cache_flush : S -> option S;
  cache_set_block_num : Z -> S -> option (option Z * S);
  cache_file_stat : S -> option (Z * Z);
}.
Arguments Image {S}. Arguments cache_init {S}. Arguments cache_uninit {S}. Arguments cache_flush {S}. Arguments cache_set_block_num {S}.
Arguments cache_file_stat {S}.

(** An iterator: what is left of the list of entries, and the last entry. *)
Record evfs_iterator := Iterator { pos : option (list Z); i_entry_id : Z; i_length : Z; i_key : list Z }.

Section Evfs.
Context {S : Type} (st : store S) (img : image S) (mem : memory).
#[local] Abbreviation E := (partial_state (evfs S)).

(** The block for a new descriptor, and whether a task can be allocated. *)
Context (new_descriptor : gmap Z evfs_entry_descriptor -> option Z) (mem_task : bool).

Definition get {A} (x : evfs S -> A) : E A := fun f => Some (x f, f).
Definition alter (g : evfs S -> evfs S) : E unit := fun f => Some (tt, g f).
Definition entry {A} (m : M S A) : E A := fun f => '(x, w) ← m (below f); Some (x, set_below w f).
Definition cache_call {A} (g : S -> option (A * S)) : E A :=
  fun f => '(x, s) ← g (w_store (below f)); Some (x, set_below (World (w_entries (below f)) (w_views (below f)) s) f).

(** A descriptor behind a pointer, and a change of it. *)
Definition descriptor (l : Z) : E evfs_entry_descriptor := fun f => d ← descriptors f !! l; Some (d, f).
Definition on_descriptor (l : Z) (g : evfs_entry_descriptor -> evfs_entry_descriptor) : E unit :=
  d <- descriptor l ;; alter (fun f => set_descriptors (<[l := g d]> (descriptors f)) f).
Definition zfree (l : Z) : E unit := descriptor l ;;; alter (fun f => set_descriptors (delete l (descriptors f)) f).

(** ** Descriptors *)

(** Linking a descriptor that is linked already breaks the list. *)
Definition __evfs_queue_descriptor (l : Z) : E unit :=
  d <- descriptor l ;;
  fun f =>
    if bool_decide (l ∈ head_of_descriptors f) then None
    else
      t ← avlinsert (root_of_descriptors f) (Some (handle d, l)) (Some __evfs_descriptor_compare);
      Some (tt, set_table t (head_of_descriptors f ++ [l]) (count_of_descriptors f + 1) f).
Definition __evfs_dequeue_descriptor (l : Z) : E unit :=
  d <- descriptor l ;;
  fun f =>
    q ← list_del l (head_of_descriptors f);
    '(t, _) ← avlremove (root_of_descriptors f) (Some (handle d, l)) None (Some __evfs_descriptor_compare);
    Some (tt, set_table t q (count_of_descriptors f - 1) f).
Definition __evfs_search_descriptor (h : Z) : E (option Z) :=
  get (fun f => snd <$> node_of (avlsearch (root_of_descriptors f) (Some (h, 0)) (Some __evfs_descriptor_compare))).

Definition __evfs_reference_descriptor (h : Z) : E (option Z) :=
  found <- __evfs_search_descriptor h ;;
  match found with
  | None => ret None
  | Some l =>
      d <- descriptor l ;;
      if decide (d_stat d = kEvfsDescriptorActived)
      then on_descriptor l (set_refcnt (d_refcnt d + 1)) ;;; ret (Some l)
      else ret None
  end.

Definition __evfs_dereference_descriptor (l : option Z) : E unit :=
  match l with
  | None => stuck
  | Some l =>
      d <- descriptor l ;;
      let n := if 0 <? d_refcnt d then d_refcnt d - 1 else d_refcnt d in
      on_descriptor l (set_refcnt n) ;;;
      if (0 =? n) && bool_decide (d_stat d = kEvfsDescriptorCloseWait)
      then __evfs_queue_descriptor l ;;; zfree l
      else ret tt
  end.

Definition __evfs_close_descriptor (l : Z) : E unit :=
  d <- descriptor l ;;
  (if decide (d_stat d = kEvfsDescriptorActived) then on_descriptor l (set_stat kEvfsDescriptorCloseWait) else ret tt) ;;;
  if 0 =? d_refcnt d then __evfs_dequeue_descriptor l ;;; zfree l else ret tt.

(** A zeroed descriptor, when there is memory for it. *)
Definition ztrycalloc : E (option Z) :=
  fun f => Some match new_descriptor (descriptors f) with
                | None => (None, f)
                | Some l => (Some l, set_descriptors (<[l := Descriptor 0 0 0 0 kEvfsDescriptorClosed]> (descriptors f)) f)
                end.

(** ** Tasks: what a worker does with each type *)
Definition task_entry (t : evfs_io_task) : E Z :=
  match t_descriptor t with Some l => d <- descriptor l ;; ret (entry_id d) | None => ret (t_entry_id t) end.

Definition __evfs_create_entry (t : evfs_io_task) : E evfs_io_task :=
  let* (status, id) := entry (evfs_entries_create_one st mem (t_data t)) in
  match id, t_descriptor t with
  | Some id, Some l => on_descriptor l (set_entry id) ;;; ret (set_result status (t_retval t) (t_data t) t)
  | _, _ => ret (set_result status (t_retval t) (t_data t) t)
  end.

(** The offset moves on by what was written. *)
Definition advance (l : Z) (cpsize : Z) : E unit :=
  if 0 <? cpsize then on_descriptor l (fun d => set_offset (s32 (offset d + cpsize)) d) else ret tt.
Definition __evfs_write_entry (t : evfs_io_task) : E evfs_io_task :=
  match t_data t with
  | None => ret (set_result NSP_STATUS_SUCCESSFUL (posix__makeerror EINVAL) None t)
  | Some data =>
      cpsize <- match t_descriptor t with
                | Some l =>
                    d <- descriptor l ;;
                    n <- entry (evfs_entries_write_data st mem (entry_id d) data (offset d)) ;;
                    advance l n ;;; ret n
                | None => entry (evfs_entries_write_data st mem (t_entry_id t) data 0)
                end ;;
      ret (set_result NSP_STATUS_SUCCESSFUL cpsize (t_data t) t)
  end.

(** A NULL buffer is refused below. *)
Definition __evfs_read_entry (t : evfs_io_task) : E evfs_io_task :=
  match t_data t with
  | None => ret (set_result NSP_STATUS_SUCCESSFUL (posix__makeerror EINVAL) None t)
  | Some _ =>
      let* (cpsize, out) := match t_descriptor t with
                            | Some l =>
                                d <- descriptor l ;;
                                let* (n, out) := entry (evfs_entries_read_data st (entry_id d) (offset d) (t_length t)) in
                                advance l n ;;; ret (n, out)
                            | None => entry (evfs_entries_read_data st (t_entry_id t) (t_offset t) (t_length t))
                            end in
      ret (set_result NSP_STATUS_SUCCESSFUL cpsize (Some out) t)
  end.

Definition __evfs_truncate_entry (t : evfs_io_task) : E evfs_io_task :=
  id <- task_entry t ;;
  status <- entry (evfs_entries_truncate st mem id (s32 (t_length t + MAX_ENTRY_NAME_LENGTH))) ;;
  ret (set_result status (t_retval t) (t_data t) t).
Definition __evfs_flush_entry_buffer (t : evfs_io_task) : E evfs_io_task :=
  id <- task_entry t ;; entry (evfs_entries_flush st id) ;;;
  ret (set_result NSP_STATUS_SUCCESSFUL (t_retval t) (t_data t) t).
(** Written for kEvfsIoTaskFlushAll, and not in the table of the handlers. *)
Definition __evfs_flush_all : E unit := cache_call (fun s => s ← cache_flush img s; Some (tt, s)).
Definition __evfs_earse_entry (t : evfs_io_task) : E evfs_io_task :=
  id <- task_entry t ;;
  status <- (if bool_decide (t_descriptor t = None) && (id <=? 0) then ret (posix__makeerror ENOENT)
             else entry (evfs_entries_hard_delete st id)) ;;
  ret (set_result status (t_retval t) (t_data t) t).
Definition __evfs_earse_entry_by_key (t : evfs_io_task) : E evfs_io_task :=
  match t_data t with
  | None => stuck
  | Some name => status <- entry (evfs_entries_hard_delete_by_name st name) ;; ret (set_result status (t_retval t) (t_data t) t)
  end.

Definition __evfs_io_task_exec (x : evfs_io_task_type) : evfs_io_task -> E evfs_io_task :=
  match x with
  | kEvfsIoTaskRead => __evfs_read_entry
  | kEvfsIoTaskWrite => __evfs_write_entry
  | kEvfsIoTaskTruncate => __evfs_truncate_entry
  | kEvfsIoTaskFlush => __evfs_flush_entry_buffer
  | kEvfsIoTaskFlushAll => __evfs_read_entry
  | kEvfsIoTaskErase => __evfs_earse_entry
  | kEvfsIoTaskEraseByKey => __evfs_earse_entry_by_key
  | kEvfsIoTaskCreate => __evfs_create_entry
  | kEvfsIoTaskSetCache => __evfs_read_entry
  end.

(** ** Workers *)
Definition get_worker (i : Z) : E evfs_io_background_worker :=
  fun f => if i <? 0 then None else k ← worker f !! Z.to_nat i; Some (k, f).
Definition set_worker (i : Z) (k : evfs_io_background_worker) : E unit :=
  alter (fun f => set_workers (<[Z.to_nat i := k]> (worker f)) f).

(** The finished tasks whose callers wait. *)
Fixpoint pop_tasks (i : Z) (q : list evfs_io_task) : E (list evfs_io_task) :=
  match q with
  | [] => ret []
  | t :: q =>
      k <- get_worker i ;;
      set_worker i (Worker (w_stop k) q (count_of_tasks k - 1)) ;;;
      finished <- __evfs_io_task_exec (t_type t) t ;;
      done <- pop_tasks i q ;;
      ret (if t_no_wait t then done else finished :: done)
  end.
Definition __evfs_pop_task_until_empty (i : Z) : E (list evfs_io_task) := k <- get_worker i ;; pop_tasks i (tasks k).

Definition __evfs_io_push_task (i : Z) (t : evfs_io_task) : E Z :=
  k <- get_worker i ;;
  if w_stop k then ret (posix__makeerror ENODEV)
  else if EVFS_MAX_IO_PENDING_COUNT <=? count_of_tasks k then ret (posix__makeerror ENOMEM)
  else set_worker i (Worker (w_stop k) (tasks k ++ [t]) (count_of_tasks k + 1)) ;;; ret NSP_STATUS_SUCCESSFUL.

(** Queue the task and wake the worker, which runs: the status of the queueing, and the
    task once it is finished. *)
Definition __evfs_io_push_task_and_notify_run (i : Z) (t : evfs_io_task) : E (Z * option evfs_io_task) :=
  status <- __evfs_io_push_task i t ;;
  if NSP_SUCCESS status then done <- __evfs_pop_task_until_empty i ;; ret (status, last done) else ret (status, None).

(** ** Starting and stopping *)

(** What evfs_create and evfs_open share once the cache is started: [make] makes or loads
    the entries. *)
Definition start_entries (make : M S Z) : E Z :=
  status <- entry make ;;
  if negb (NSP_SUCCESS status) then
    cache_call (fun s => s ← cache_uninit img s; Some (tt, s)) ;;; alter (set_ready kEvmgrNotReady) ;;; ret status
  else
    alter (set_next_handle 0) ;;; alter (set_workers idle_workers) ;;; alter (set_ready kEvmgrReady) ;;; ret status.

Definition evfs_create (path : bool) (junk : Z -> evfs_cluster) (cluster_size_format cluster_count_format cache_block_num : Z) : E Z :=
  if negb path || (cluster_size_format <=? 0) || (cluster_count_format <=? 0) then ret (posix__makeerror EINVAL)
  else
    x <- get mgr_ready ;;
    if negb (x =? kEvmgrNotReady) then ret (posix__makeerror EEXIST)
    else
      alter (set_ready kEvmgrInitializing) ;;;
      status <- cache_call (cache_init img cache_block_num (Some (cluster_size_format, cluster_count_format))) ;;
      if negb (NSP_SUCCESS status) then alter (set_ready kEvmgrNotReady) ;;; ret status
      else start_entries (evfs_entries_create st mem junk).

Definition evfs_open (path : bool) (cache_block_num : Z) : E Z :=
  if negb path then ret (posix__makeerror EINVAL)
  else
    x <- get mgr_ready ;;
    if negb (x =? kEvmgrNotReady) then ret (posix__makeerror EEXIST)
    else
      alter (set_ready kEvmgrInitializing) ;;;
      status <- cache_call (cache_init img cache_block_num None) ;;
      if negb (NSP_SUCCESS status) then alter (set_ready kEvmgrNotReady) ;;; ret status
      else start_entries (evfs_entries_load st mem).

(** A worker that is told to stop runs what is queued. *)
Fixpoint stop_workers (i : Z) (k : nat) : E unit :=
  match k with
  | O => ret tt
  | Datatypes.S k =>
      x <- get_worker i ;;
      set_worker i (Worker true (tasks x) (count_of_tasks x)) ;;;
      __evfs_pop_task_until_empty i ;;;
      stop_workers (i + 1) k
  end.

(** A descriptor that does not go keeps the loop running. *)
Fixpoint close_descriptors (fuel : nat) : E unit :=
  q <- get head_of_descriptors ;;
  match q with
  | [] => ret tt
  | l :: _ =>
      match fuel with
      | O => stuck
      | Datatypes.S fuel => __evfs_close_descriptor l ;;; close_descriptors fuel
      end
  end.

Definition evfs_close : E unit :=
  x <- get mgr_ready ;;
  if negb (x =? kEvmgrReady) then ret tt
  else
    alter (set_ready kEvmgrUninitializing) ;;;
    stop_workers 0 (Z.to_nat EVFS_MAX_WORKER) ;;;
    q <- get head_of_descriptors ;;
    close_descriptors (length q) ;;;
    entry (evfs_entries_uninit st) ;;;
    cache_call (fun s => s ← cache_uninit img s; Some (tt, s)) ;;;
    alter (set_next_handle (-1)) ;;; alter (set_ready kEvmgrNotReady).

(** ** The calls *)
Definition when_ready {A} (guard : bool) (fail : A) (m : E A) : E A :=
  x <- get mgr_ready ;; if guard || negb (x =? kEvmgrReady) then ret fail else m.

Definition new_task (x : evfs_io_task_type) (status id offset length : Z) (data : option (list Z)) (l : option Z) : evfs_io_task :=
  Task status id offset length data x 0 false l.

(** The task is queued and not waited for. *)
Definition evfs_flush : E unit :=
  when_ready false tt
    (if negb mem_task then ret tt
     else __evfs_io_push_task_and_notify_run 0 (new_task kEvfsIoTaskFlushAll 0 0 0 0 None None) ;;; ret tt).

(** What is stored in the struct, but for the hit rate: file size, cluster count, cluster
    size, blocks, entries, and busy and idle clusters. *)
Record evfs_stat := EvfsStat {
  st_file_size : Z; st_cluster_count : Z; st_cluster_size : Z; st_cache_block_num : Z; st_entry_count : Z; st_clusters : option (Z * Z);
}.
Definition evfs_query_stat : E (Z * option evfs_stat) :=
  when_ready false (posix__makeerror EINVAL, None)
    (let* (status, x) := cache_call (fun s => '(r, x) ← cache_hard_state st s; Some ((r, x), s)) in
     if negb (NSP_SUCCESS status) then ret (status, None)
     else
       let* (size, blocks) := cache_call (fun s => x ← cache_file_stat img s; Some (x, s)) in
       let* (views, n) := entry evfs_entries_soft_stat in
       ret (NSP_STATUS_SUCCESSFUL, Some (EvfsStat size (hard_cluster_count x) (hard_cluster_size x) blocks n views))).

Definition evfs_set_cache_block_num (n : Z) : E (option Z) :=
  when_ready false (Some (posix__makeerror EINVAL)) (cache_call (cache_set_block_num img n)).

(** The next handle, for a descriptor that goes into the table. *)
Definition publish (l : Z) : E Z :=
  n <- get next_handle ;;
  let h := s32 (n + 1) in
  alter (set_next_handle h) ;;;
  on_descriptor l (fun d => Descriptor h (entry_id d) (offset d) (d_refcnt d) kEvfsDescriptorActived) ;;;
  __evfs_queue_descriptor l ;;;
  ret h.

Definition evfs_create_entry (key : option (list Z)) : E Z :=
  when_ready (negb (__evfs_is_legal_key key)) (posix__makeerror EINVAL)
    (found <- ztrycalloc ;;
     match found with
     | None => ret (-1)
     | Some l =>
         if negb mem_task then zfree l ;;; ret (-1)
         else
           let* (_, done) := __evfs_io_push_task_and_notify_run 0 (new_task kEvfsIoTaskCreate 0 0 0 0 key (Some l)) in
           match done with
           | Some t => if NSP_SUCCESS (t_status t) then publish l else zfree l ;;; ret (-1)
           | None => zfree l ;;; ret (-1)
           end
     end).

Definition evfs_open_entry (id : Z) : E Z :=
  when_ready (id <? 0) (posix__makeerror EINVAL)
    (found <- ztrycalloc ;;
     match found with
     | None => ret (posix__makeerror ENOMEM)
     | Some l =>
         status <- entry (evfs_entries_open_one id) ;;
         if negb (NSP_SUCCESS status) then zfree l ;;; ret status
         else on_descriptor l (set_entry id) ;;; publish l
     end).

Definition evfs_open_entry_by_key (key : option (list Z)) : E Z :=
  x <- get mgr_ready ;;
  if bool_decide (key = None) || negb (x =? kEvmgrReady) then ret (-1)
  else if negb (__evfs_is_legal_key key) then ret (posix__makeerror EINVAL)
  else
    found <- ztrycalloc ;;
    match found with
    | None => ret (-1)
    | Some l =>
        let* (status, id) := entry (evfs_entries_open_one_by_name key) in
        if negb (NSP_SUCCESS status) then zfree l ;;; ret (-1)
        else on_descriptor l (set_entry (default 0 id)) ;;; publish l
    end.

Definition evfs_get_entry_size (h : Z) : E Z :=
  when_ready (h <? 0) (-1)
    (found <- __evfs_reference_descriptor h ;;
     match found with
     | None => ret (-1)
     | Some l =>
         d <- descriptor l ;;
         n <- entry (evfs_entries_query_user_seg_size st (entry_id d)) ;;
         __evfs_dereference_descriptor (Some l) ;;; ret n
     end).

Definition evfs_close_entry (h : Z) : E unit :=
  when_ready (h <? 0) tt
    (found <- __evfs_reference_descriptor h ;;
     match found with
     | None => ret tt
     | Some l =>
         d <- descriptor l ;;
         (if 0 <? entry_id d then entry (evfs_entries_close_one st (entry_id d)) else ret tt) ;;;
         __evfs_dereference_descriptor (Some l) ;;;
         __evfs_close_descriptor l
     end).

(** The worker of an entry. *)
Definition worker_of (id : Z) : Z := Z.rem id EVFS_MAX_WORKER.

(** Writing and reading: an unknown handle leaves the loop with no descriptor, which is
    given back all the same; without memory for the task the reference is kept. *)
Definition transfer (x : evfs_io_task_type) (h size : Z) (data : option (list Z)) : E (Z * option (list Z)) :=
  found <- __evfs_reference_descriptor h ;;
  match found with
  | None => __evfs_dereference_descriptor None ;;; ret (0, None)
  | Some l =>
      if negb mem_task then ret (posix__makeerror ENOMEM, None)
      else
        d <- descriptor l ;;
        let* (_, done) := __evfs_io_push_task_and_notify_run (worker_of (entry_id d))
                            (new_task x EINPROGRESS (entry_id d) (offset d) size data (Some l)) in
        __evfs_dereference_descriptor (Some l) ;;;
        ret match done with Some t => (t_retval t, t_data t) | None => (0, None) end
  end.
Definition evfs_write_entry (h : Z) (data : list Z) : E Z :=
  when_ready ((h <=? 0) || (zlen data <=? 0)) (posix__makeerror EINVAL)
    (let* (n, _) := transfer kEvfsIoTaskWrite h (zlen data) (Some data) in ret n).
Definition evfs_read_entry (h size : Z) : E (Z * list Z) :=
  when_ready ((h <=? 0) || (size <=? 0)) (posix__makeerror EINVAL, [])
    (let* (n, out) := transfer kEvfsIoTaskRead h size (Some []) in ret (n, default [] out)).

Definition evfs_query_entry_length (h : Z) : E Z :=
  when_ready (h <=? 0) (posix__makeerror EINVAL)
    (found <- __evfs_reference_descriptor h ;;
     match found with
     | None => ret (posix__makeerror ENOENT)
     | Some l =>
         d <- descriptor l ;;
         n <- entry (evfs_entries_query_user_seg_size st (entry_id d)) ;;
         __evfs_dereference_descriptor (Some l) ;;; ret n
     end).

Definition evfs_seek_entry_offset (h seek : Z) : E Z :=
  when_ready ((h <=? 0) || (seek <? 0)) (posix__makeerror EINVAL)
    (found <- __evfs_reference_descriptor h ;;
     match found with
     | None => ret (posix__makeerror ENOENT)
     | Some l =>
         on_descriptor l (set_offset seek) ;;; __evfs_dereference_descriptor (Some l) ;;; ret NSP_STATUS_SUCCESSFUL
     end).

(** Truncating, flushing and erasing: a task on the worker of the entry, waited for; the
    status of the queueing when that fails. *)
Definition descriptor_task (x : evfs_io_task_type) (h length : Z) : E Z :=
  found <- __evfs_reference_descriptor h ;;
  match found with
  | None => ret (posix__makeerror ENOENT)
  | Some l =>
      status <- (if negb mem_task then ret (posix__makeerror ENOMEM)
                 else
                   d <- descriptor l ;;
                   let* (status, done) := __evfs_io_push_task_and_notify_run (worker_of (entry_id d))
                                            (new_task x EINPROGRESS (entry_id d) 0 length None (Some l)) in
                   ret match done with Some t => t_status t | None => status end) ;;
      __evfs_dereference_descriptor (Some l) ;;;
      ret status
  end.
Definition evfs_truncate_entry (h size : Z) : E Z :=
  when_ready ((h <=? 0) || (size <? 0)) (posix__makeerror EINVAL) (descriptor_task kEvfsIoTaskTruncate h size).
Definition evfs_flush_entry_buffer (h : Z) : E unit :=
  when_ready (h <=? 0) tt (descriptor_task kEvfsIoTaskFlush h 0 ;;; ret tt).
Definition evfs_earse_entry (h : Z) : E Z :=
  when_ready (h <=? 0) (posix__makeerror EINVAL) (descriptor_task kEvfsIoTaskErase h 0).

Definition evfs_earse_entry_by_key (name : option (list Z)) : E Z :=
  match name with
  | None => ret (posix__makeerror EINVAL)
  | Some name =>
      when_ready false (posix__makeerror EINVAL)
        (if negb mem_task then ret (posix__makeerror ENOMEM)
         else
           id <- entry (evfs_entries_get_entry_id_by_name st name) ;;
           if id <=? 0 then ret (posix__makeerror ENOENT)
           else
             let* (status, done) := __evfs_io_push_task_and_notify_run (worker_of id)
                                      (new_task kEvfsIoTaskEraseByKey EINPROGRESS id 0 0 (Some name) None) in
             ret match done with Some t => t_status t | None => status end)
  end.

(** ** Iterators

    [mem_iterator]: whether one can be allocated.  The iterator that is given is changed
    in place; at the end it is freed. *)
Definition evfs_iterate_entries (mem_iterator : bool) (iterator : option evfs_iterator) : E (option evfs_iterator) :=
  when_ready false None
    (match (match iterator with
             | None => if mem_iterator then Some (Iterator None (-1) 0 []) else None
             | Some _ => iterator
             end) with
     | None => ret None
     | Some iter =>
         let* (id, rest) := entry (gets_option (evfs_entries_iterate (pos iter))) in
         if id <=? 0 then ret None
         else
           let* (_, k) := entry (evfs_entries_query_key st id) in
           n <- entry (evfs_entries_query_user_seg_size st id) ;;
           ret (Some (Iterator (Some rest) id n (default (i_key iter) k)))
     end).

Definition evfs_read_iterator_entry (iterator : option evfs_iterator) (size : Z) : E (Z * option (list Z)) :=
  match iterator with
  | None => ret (0, None)
  | Some iter =>
      when_ready (size <=? 0) (0, None)
        (if negb mem_task then ret (posix__makeerror ENOMEM, None)
         else
           let* (_, done) := __evfs_io_push_task_and_notify_run (worker_of (i_entry_id iter))
                               (new_task kEvfsIoTaskRead EINPROGRESS (i_entry_id iter) 0 size (Some []) None) in
           ret match done with Some t => (t_retval t, t_data t) | None => (0, None) end)
  end.
Definition evfs_get_iterator_entry_id (iterator : option evfs_iterator) : Z := default (-1) (i_entry_id <$> iterator).
Definition evfs_get_iterator_entry_key (iterator : option evfs_iterator) : option (list Z) := i_key <$> iterator.
Definition evfs_get_iterator_entry_size (iterator : option evfs_iterator) : Z := default (-1) (i_length <$> iterator).
End Evfs.

#[export] Instance descriptor_compare_ok : AvlCompare __evfs_descriptor_compare.
Proof. exact (avl_simple_compare_ok (fun x : Z * Z => x.1)). Qed.

Lemma descriptor_compare_eq x y : __evfs_descriptor_compare x y = 0 <-> x.1 = y.1.
Proof. unfold __evfs_descriptor_compare. destruct (Z.ltb_spec y.1 x.1), (Z.ltb_spec x.1 y.1); lia. Qed.

(** Every key is legal, also one that overflows the 32 bytes of a name. *)
Lemma legal_key_total : forall k c i, exists j, legal_key_loop k c i = Some j /\ (c <> 0 -> j = i + Z.of_nat k) /\ (c = 0 -> j = i).
Proof.
  induction k as [|k IH]; intros c i; cbn [legal_key_loop]; [exists i; split; [done | lia] |].
  destruct (Z.eqb_spec 0 c) as [<- | Hc]; [by exists i |].
  assert ((c <? 65) && (90 <? c) = false) as -> by (destruct (Z.ltb_spec c 65), (Z.ltb_spec 90 c); try done; lia).
  rewrite andb_false_r. cbn [andb]. destruct (IH c (i + 1)) as (j & -> & H1 & H2). exists j. split; [done |]. lia.
Qed.
Lemma every_key_legal key : __evfs_is_legal_key key = bool_decide (key <> None).
Proof.
  destruct key as [key|]; [|done]. cbn [__evfs_is_legal_key].
  destruct (legal_key_total (Z.to_nat MAX_ENTRY_NAME_LENGTH) (s8 (default 0 (key !! 0%nat))) 0) as (j & -> & H1 & H2).
  rewrite bool_decide_true by done. apply negb_true_iff, Z.eqb_neq. change MAX_ENTRY_NAME_LENGTH with 32 in *.
  destruct (decide (s8 (default 0 (key !! 0%nat)) = 0)); lia.
Qed.

(** ** What the calls promise: a finite map from handles to entries and offsets *)
Record handles (S : Type) := Handles { table : gmap Z (Z * Z); given : Z; files : world S }.
Arguments Handles {S}. Arguments table {S}. Arguments given {S}. Arguments files {S}.

Inductive evfs_op :=
  | OpCreate (key : list Z) | OpOpen (id : Z) | OpOpenByKey (key : list Z) | OpSize (h : Z) | OpClose (h : Z)
  | OpWrite (h : Z) (data : list Z) | OpRead (h size : Z) | OpLength (h : Z) | OpSeek (h seek : Z) | OpTruncate (h size : Z)
  | OpFlushEntry (h : Z) | OpErase (h : Z) | OpEraseByKey (key : list Z) | OpFlush.

(** The number a call returns (0 for a procedure) and the bytes it reads. *)
Definition result : Type := Z * list Z.

Section Spec.
Context {S : Type} (st : store S) (mem : memory).
#[local] Abbreviation H := (partial_state (handles S)).

Definition on_files {A} (m : M S A) : H A := fun a => '(x, w) ← m (files a); Some (x, Handles (table a) (given a) w).
Definition find (h : Z) : H (option (Z * Z)) := fun a => Some (table a !! h, a).
Definition give (id : Z) : H Z := fun a => Some (given a + 1, Handles (<[given a + 1 := (id, 0)]> (table a)) (given a + 1) (files a)).
Definition store_offset (h id off : Z) : H unit := fun a => Some (tt, Handles (<[h := (id, off)]> (table a)) (given a) (files a)).
Definition forget (h : Z) : H unit := fun a => Some (tt, Handles (delete h (table a)) (given a) (files a)).
Definition number (m : H Z) : H result := n <- m ;; ret (n, []).
Definition nothing (m : H unit) : H result := m ;;; ret (0, []).

(** A call with a handle: refused by its guard, or for an unknown handle, else run on
    the entry and the offset. *)
Definition with_handle {A} (guard : bool) (invalid : A) (h : Z) (unknown : H A) (m : Z -> Z -> H A) : H A :=
  if guard then ret invalid
  else found <- find h ;; match found with None => unknown | Some (id, off) => m id off end.

(** The task of an entry whose number has no worker is put behind the array. *)
Definition by_worker {A} (id : Z) (m : H A) : H A := if worker_of id <? 0 then stuck else m.

Definition moved (off n : Z) : Z := if 0 <? n then s32 (off + n) else off.

Definition evfs_spec (op : evfs_op) : H result :=
  match op with
  | OpCreate key => number
      (let* (status, id) := on_files (evfs_entries_create_one st mem (Some key)) in
       if NSP_SUCCESS status then give (default 0 id) else ret (-1))
  | OpOpen id => number
      (if id <? 0 then ret (posix__makeerror EINVAL)
       else status <- on_files (evfs_entries_open_one id) ;; if NSP_SUCCESS status then give id else ret status)
  | OpOpenByKey key => number
      (let* (status, id) := on_files (evfs_entries_open_one_by_name (Some key)) in
       if NSP_SUCCESS status then give (default 0 id) else ret (-1))
  | OpSize h => number (with_handle (h <? 0) (-1) h (ret (-1)) (fun id _ => on_files (evfs_entries_query_user_seg_size st id)))
  | OpClose h => nothing (with_handle (h <? 0) tt h (ret tt) (fun id _ =>
      (if 0 <? id then on_files (evfs_entries_close_one st id) else ret tt) ;;; forget h))
  | OpWrite h data => number (with_handle ((h <=? 0) || (zlen data <=? 0)) (posix__makeerror EINVAL) h stuck (fun id off =>
      by_worker id (n <- on_files (evfs_entries_write_data st mem id data off) ;; store_offset h id (moved off n) ;;; ret n)))
  | OpRead h size => with_handle ((h <=? 0) || (size <=? 0)) (posix__makeerror EINVAL, []) h stuck (fun id off =>
      by_worker id (let* (n, out) := on_files (evfs_entries_read_data st id off size) in
                    store_offset h id (moved off n) ;;; ret (n, out)))
  | OpLength h => number (with_handle (h <=? 0) (posix__makeerror EINVAL) h (ret (posix__makeerror ENOENT)) (fun id _ =>
      on_files (evfs_entries_query_user_seg_size st id)))
  | OpSeek h seek => number (with_handle ((h <=? 0) || (seek <? 0)) (posix__makeerror EINVAL) h (ret (posix__makeerror ENOENT))
      (fun id _ => store_offset h id seek ;;; ret NSP_STATUS_SUCCESSFUL))
  | OpTruncate h size => number (with_handle ((h <=? 0) || (size <? 0)) (posix__makeerror EINVAL) h (ret (posix__makeerror ENOENT))
      (fun id _ => by_worker id (on_files (evfs_entries_truncate st mem id (s32 (size + MAX_ENTRY_NAME_LENGTH))))))
  | OpFlushEntry h => nothing (with_handle (h <=? 0) tt h (ret tt) (fun id _ => by_worker id (on_files (evfs_entries_flush st id))))
  | OpErase h => number (with_handle (h <=? 0) (posix__makeerror EINVAL) h (ret (posix__makeerror ENOENT)) (fun id _ =>
      by_worker id (on_files (evfs_entries_hard_delete st id))))
  | OpEraseByKey key => number
      (id <- on_files (evfs_entries_get_entry_id_by_name st key) ;;
       if id <=? 0 then ret (posix__makeerror ENOENT) else on_files (evfs_entries_hard_delete_by_name st key))
  | OpFlush => nothing (ret tt)
  end.
End Spec.

(** ** The refinement *)
Section Refines.
Context {S : Type} (st : store S) (mem : memory)
  (new_descriptor : gmap Z evfs_entry_descriptor -> option Z) (mem_task : bool).
Implicit Types (f : evfs S) (a : handles S) (d : evfs_entry_descriptor).

Definition evfs_call (op : evfs_op) : partial_state (evfs S) result :=
  let number (m : partial_state (evfs S) Z) := n <- m ;; ret (n, []) in
  let nothing (m : partial_state (evfs S) unit) := m ;;; ret (0, []) in
  match op with
  | OpCreate key => number (evfs_create_entry st mem new_descriptor mem_task (Some key))
  | OpOpen id => number (evfs_open_entry new_descriptor id)
  | OpOpenByKey key => number (evfs_open_entry_by_key new_descriptor (Some key))
  | OpSize h => number (evfs_get_entry_size st h)
  | OpClose h => nothing (evfs_close_entry st h)
  | OpWrite h data => number (evfs_write_entry st mem mem_task h data)
  | OpRead h size => evfs_read_entry st mem mem_task h size
  | OpLength h => number (evfs_query_entry_length st h)
  | OpSeek h seek => number (evfs_seek_entry_offset h seek)
  | OpTruncate h size => number (evfs_truncate_entry st mem mem_task h size)
  | OpFlushEntry h => nothing (evfs_flush_entry_buffer st mem mem_task h)
  | OpErase h => number (evfs_earse_entry st mem mem_task h)
  | OpEraseByKey key => number (evfs_earse_entry_by_key st mem mem_task (Some key))
  | OpFlush => nothing (evfs_flush st mem mem_task)
  end.

(** Each descriptor is on the list and in the tree once. *)
Record indexed f : Prop := {
  ix_tree : search_tree __evfs_descriptor_compare (root_of_descriptors f);
  ix_nodup : NoDup (head_of_descriptors f);
  ix_count : count_of_descriptors f = zlen (head_of_descriptors f);
  ix_list l : l ∈ head_of_descriptors f <-> is_Some (descriptors f !! l);
  ix_elems h l : (h, l) ∈ elems (root_of_descriptors f) <-> exists d, descriptors f !! l = Some d /\ handle d = h;
}.

(** A ready manager between two calls: no descriptor is referenced, and the map has
    exactly their entries and offsets. *)
Record holds f a : Prop := {
  ho_ready : mgr_ready f = kEvmgrReady;
  ho_next : next_handle f = given a;
  ho_below : below f = files a;
  ho_workers : worker f = idle_workers;
  ho_index : indexed f;
  ho_desc l d : descriptors f !! l = Some d ->
    0 < handle d <= given a /\ d_refcnt d = 0 /\ d_stat d = kEvfsDescriptorActived /\
    table a !! handle d = Some (entry_id d, offset d);
  ho_table h : is_Some (table a !! h) -> exists l d, descriptors f !! l = Some d /\ handle d = h;
  ho_given : 0 <= given a;
}.

Lemma get_run {A B} (x : evfs S -> A) (k : A -> partial_state (evfs S) B) f : bind (get x) k f = k (x f) f.
Proof. done. Qed.
Lemma alter_run {B} g (k : unit -> partial_state (evfs S) B) f : bind (alter g) k f = k tt (g f).
Proof. done. Qed.

(** Searching a handle finds its descriptor. *)
Lemma search_found f l d : indexed f -> descriptors f !! l = Some d -> __evfs_search_descriptor (handle d) f = Some (Some l, f).
Proof.
  intros Hf Hd. unfold __evfs_search_descriptor, get.
  rewrite (avlsearch_search_tree __evfs_descriptor_compare) by apply (ix_tree _ Hf).
  rewrite (list_search_elem _ (handle d, 0) (handle d, l)); [done | apply (ix_tree _ Hf) | | by apply descriptor_compare_eq].
  apply (ix_elems _ Hf). by exists d.
Qed.

Lemma search_unknown f a h : holds f a -> table a !! h = None -> __evfs_search_descriptor h f = Some (None, f).
Proof.
  intros Hf Hh. unfold __evfs_search_descriptor, get.
  rewrite (avlsearch_search_tree __evfs_descriptor_compare) by apply (ho_index _ _ Hf).
  unfold list_search. rewrite filter_none; [done |]. intros [h' l] Hx Hc%descriptor_compare_eq. cbn [fst] in Hc. subst h'.
  apply (ix_elems _ (ho_index _ _ Hf)) in Hx as (d & Hd & E). destruct (ho_desc _ _ Hf l d Hd) as (_ & _ & _ & Ht). rewrite E, Hh in Ht. done.
Qed.

(** The state while a call holds the descriptor behind [l]. *)
Definition at_descriptor (l : Z) d f : evfs S := set_descriptors (<[l := d]> (descriptors f)) f.

Lemma at_twice l d d' f : at_descriptor l d' (at_descriptor l d f) = at_descriptor l d' f.
Proof. unfold at_descriptor, set_descriptors. cbn. f_equal. apply insert_insert_eq. Qed.
Lemma at_same l d f : descriptors f !! l = Some d -> at_descriptor l d f = f.
Proof. intros E. unfold at_descriptor, set_descriptors. rewrite insert_id by done. by destruct f. Qed.
Lemma descriptor_at l d f : descriptor l (at_descriptor l d f) = Some (d, at_descriptor l d f).
Proof. unfold descriptor. cbn. by rewrite lookup_insert_eq. Qed.
Lemma on_at l d g f : on_descriptor l g (at_descriptor l d f) = Some (tt, at_descriptor l (g d) f).
Proof. unfold on_descriptor. rewrite (bind_some _ _ _ _ _ (descriptor_at l d f)). cbv beta. unfold alter. f_equal. f_equal. apply at_twice. Qed.
Lemma entry_at {A} (m : M S A) l d f :
  entry m (at_descriptor l d f) = '(x, w) ← m (below f); Some (x, at_descriptor l d (set_below w f)).
Proof. unfold entry. cbn. by destruct (m (below f)) as [[? ?]|]. Qed.

(** The descriptor of a handle of the map. *)
Lemma known f a h id off : holds f a -> table a !! h = Some (id, off) ->
  exists l, descriptors f !! l = Some (Descriptor h id off 0 kEvfsDescriptorActived).
Proof.
  intros Hf Hh. destruct (ho_table _ _ Hf h) as (l & d & Hd & E); [by eexists |]. exists l.
  destruct (ho_desc _ _ Hf l d Hd) as (_ & Hr & Hs & Ht). destruct d as [dh de df dr ds]. cbn in *. subst. by rewrite Ht in Hh; injection Hh as -> ->.
Qed.

Lemma reference_known f a h id off : holds f a -> table a !! h = Some (id, off) -> exists l,
  descriptors f !! l = Some (Descriptor h id off 0 kEvfsDescriptorActived) /\
  __evfs_reference_descriptor h f = Some (Some l, at_descriptor l (Descriptor h id off 1 kEvfsDescriptorActived) f).
Proof.
  intros Hf Hh. destruct (known f a h id off Hf Hh) as [l Hd]. exists l. split; [done |].
  unfold __evfs_reference_descriptor. rewrite (bind_some _ _ _ _ _ (search_found f l _ (ho_index _ _ Hf) Hd)).
  rewrite <- (at_same l _ f Hd) at 1. rewrite (bind_some _ _ _ _ _ (descriptor_at l _ f)). cbn [d_stat d_refcnt].
  rewrite decide_True by done. rewrite (bind_some _ _ _ _ _ (on_at l _ _ f)). done.
Qed.
Lemma reference_unknown f a h : holds f a -> table a !! h = None -> __evfs_reference_descriptor h f = Some (None, f).
Proof. intros Hf Hh. unfold __evfs_reference_descriptor. by rewrite (bind_some _ _ _ _ _ (search_unknown f a h Hf Hh)). Qed.

Lemma dereference_at l h id off f : __evfs_dereference_descriptor (Some l) (at_descriptor l (Descriptor h id off 1 kEvfsDescriptorActived) f)
  = Some (tt, at_descriptor l (Descriptor h id off 0 kEvfsDescriptorActived) f).
Proof.
  unfold __evfs_dereference_descriptor. rewrite (bind_some _ _ _ _ _ (descriptor_at l _ f)). cbn -[bind].
  rewrite (bind_some _ _ _ _ _ (on_at l _ _ f)). done.
Qed.

(** A handle has one descriptor. *)
Lemma same_handle f l l' d d' : indexed f -> descriptors f !! l = Some d -> descriptors f !! l' = Some d' -> handle d = handle d' -> l = l'.
Proof.
  intros Hf Hd Hd' E. pose proof (search_found f l d Hf Hd) as Q. rewrite E, (search_found f l' d' Hf Hd') in Q. by injection Q.
Qed.

(** A world or an offset that changes. *)
Lemma holds_below f a w : holds f a -> holds (set_below w f) (Handles (table a) (given a) w).
Proof. intros [? ? ? ? [] ? ? ?]. by constructor; cbn; try done; constructor. Qed.
Lemma holds_offset f a l h id off off' : holds f a -> descriptors f !! l = Some (Descriptor h id off 0 kEvfsDescriptorActived) ->
  holds (at_descriptor l (Descriptor h id off' 0 kEvfsDescriptorActived) f) (Handles (<[h := (id, off')]> (table a)) (given a) (files a)).
Proof.
  intros Hf Hd. pose proof Hf as [H1 H2 H3 H4 [H5 H6 H7 H8 H9] H10 H11 H12]. split; cbn; try done; [split; cbn; try done |..].
  - intros l'. rewrite H8. destruct (decide (l' = l)) as [-> | Hne]; [|by rewrite lookup_insert_ne].
    rewrite lookup_insert_eq, Hd. split; by eexists.
  - intros h' l'. rewrite H9. destruct (decide (l' = l)) as [-> | Hne]; [|by rewrite lookup_insert_ne].
    rewrite lookup_insert_eq, Hd. split; intros (d & [= <-] & E); by eexists.
  - intros l' d. destruct (decide (l' = l)) as [-> | Hne].
    + rewrite lookup_insert_eq. intros [= <-]. cbn. rewrite lookup_insert_eq. destruct (H10 _ _ Hd) as (? & _). done.
    + rewrite lookup_insert_ne by done. intros Hd'. destruct (H10 _ _ Hd') as (? & ? & ? & Ht). split; [done |]. split; [done |]. split; [done |].
      rewrite lookup_insert_ne; [done |]. intros E. apply Hne. by apply (same_handle f l' l d _ (ho_index _ _ Hf) Hd' Hd).
  - intros h' Hh'. destruct (decide (h' = h)) as [-> | Hne].
    + exists l, (Descriptor h id off' 0 kEvfsDescriptorActived). by rewrite lookup_insert_eq.
    + rewrite lookup_insert_ne in Hh' by done. destruct (H11 h' Hh') as (l' & d & Hd' & E). exists l', d. split; [|done].
      rewrite lookup_insert_ne; [done |]. intros <-. rewrite Hd in Hd'. injection Hd' as <-. done.
Qed.

(** A new descriptor: freed again, or given a handle. *)
Lemma free_new f l d : descriptors f !! l = None -> zfree l (at_descriptor l d f) = Some (tt, f).
Proof.
  intros Hl. unfold zfree. rewrite (bind_some _ _ _ _ _ (descriptor_at l d f)). unfold alter, at_descriptor, set_descriptors. cbn.
  rewrite delete_insert_id by done. by destruct f.
Qed.

Lemma publish_run f a l id : holds f a -> descriptors f !! l = None -> given a + 1 < 2 ^ 31 ->
  exists f', publish l (at_descriptor l (Descriptor 0 id 0 0 kEvfsDescriptorClosed) f) = Some (given a + 1, f') /\
    holds f' (Handles (<[given a + 1 := (id, 0)]> (table a)) (given a + 1) (files a)).
Proof.
  intros Hf Hl Hlt. pose proof Hf as [H1 H2 H3 H4 [H5 H6 H7 H8 H9] H10 H11 H12].
  assert (l ∉ head_of_descriptors f) as Hq by (rewrite H8, Hl; by intros [? ?]).
  set (d := Descriptor (given a + 1) id 0 0 kEvfsDescriptorActived).
  destruct (avlinsert_search_tree __evfs_descriptor_compare (root_of_descriptors f) (handle d, l) H5) as (t & Et & Ht & El).
  assert (forall y, y ∈ elems (root_of_descriptors f) -> __evfs_descriptor_compare (handle d, l) y <> 0) as Hfresh.
  { intros [h l'] (d' & Hd' & <-)%H9 E%descriptor_compare_eq. destruct (H10 _ _ Hd') as (Hr & _). unfold d in E. cbn in E. lia. }
  assert (publish l (at_descriptor l (Descriptor 0 id 0 0 kEvfsDescriptorClosed) f) =
    Some (given a + 1, set_table t (head_of_descriptors f ++ [l]) (count_of_descriptors f + 1) (set_next_handle (given a + 1) (at_descriptor l d f)))) as ->.
  { unfold publish. rewrite get_run. cbv beta zeta. change (next_handle (at_descriptor _ _ f)) with (next_handle f).
    rewrite H2, (swrap_small 32) by lia. rewrite alter_run.
    change (set_next_handle ?x (at_descriptor ?l ?d f)) with (at_descriptor l d (set_next_handle x f)).
    rewrite (bind_some _ _ _ _ _ (on_at l _ _ _)). cbn [entry_id offset d_refcnt]. fold d. unfold __evfs_queue_descriptor.
    unfold bind at 1 2. rewrite descriptor_at. cbn [head_of_descriptors at_descriptor set_descriptors set_next_handle root_of_descriptors].
    rewrite bool_decide_false by done. rewrite Et. done. }
  eexists. split; [done |]. split; cbn; try done; [split; cbn; try done |..].
  - apply NoDup_app. split; [done |]. split; [|apply NoDup_singleton]. by intros x Hx ->%list_elem_of_singleton.
  - rewrite H7, zlen_app. done.
  - intros l'. rewrite elem_of_app, list_elem_of_singleton, H8. destruct (decide (l' = l)) as [-> | Hne].
    + rewrite lookup_insert_eq. split; [by eexists | by right].
    + rewrite lookup_insert_ne by done. split; [by intros [? | ?] | by left].
  - intros h l'. rewrite El, (insert_sorted_perm _ _ _ Hfresh), elem_of_cons, H9. destruct (decide (l' = l)) as [-> | Hne].
    + rewrite lookup_insert_eq, Hl. split.
      * intros [[= ->] | (? & ? & _)]; [by exists d | done].
      * intros (? & [= <-] & <-). by left.
    + rewrite lookup_insert_ne by done. split; [intros [[= _ E] | ?]; done | by right].
  - intros l' d'. destruct (decide (l' = l)) as [-> | Hne].
    + rewrite lookup_insert_eq. intros [= <-]. unfold d. cbn. rewrite lookup_insert_eq. split_and!; try done; lia.
    + rewrite lookup_insert_ne by done. intros Hd'. destruct (H10 _ _ Hd') as (? & ? & ? & ?).
      split; [lia |]. split; [done |]. split; [done |]. rewrite lookup_insert_ne by lia. done.
  - intros h. destruct (decide (h = given a + 1)) as [-> | Hne].
    + intros _. exists l, d. by rewrite lookup_insert_eq.
    + rewrite lookup_insert_ne by done. intros Hh. destruct (H11 h Hh) as (l' & d' & Hd' & E). exists l', d'. split; [|done].
      rewrite lookup_insert_ne; [done |]. intros <-. by rewrite Hl in Hd'.
  - lia.
Qed.

(** A descriptor that nobody holds goes. *)
Lemma close_free f l d : indexed f -> descriptors f !! l = Some d -> d_refcnt d = 0 ->
  exists t, let f' := set_descriptors (delete l (descriptors f)) (set_table t (filter (.≠ l) (head_of_descriptors f)) (count_of_descriptors f - 1) f) in
    __evfs_close_descriptor l f = Some (tt, f') /\ indexed f'.
Proof.
  intros Hf Hd Hr. pose proof Hf as [H5 H6 H7 H8 H9]. assert (l ∈ head_of_descriptors f) as Hq by (rewrite H8; by eexists).
  destruct (avlremove_none __evfs_descriptor_compare (root_of_descriptors f) (handle d, l) H5) as (t & rm & Et & Ht & El).
  exists t. cbv zeta. split.
  - unfold __evfs_close_descriptor. rewrite <- (at_same l _ f Hd) at 1. rewrite (bind_some _ _ _ _ _ (descriptor_at l _ f)). rewrite Hr.
    assert (exists d', handle d' = handle d /\ (if decide (d_stat d = kEvfsDescriptorActived) then on_descriptor l (set_stat kEvfsDescriptorCloseWait) else ret tt)
      (at_descriptor l d f) = Some (tt, at_descriptor l d' f)) as (d' & Eh & E1).
    { destruct (decide _); [|by exists d]. eexists. split; [|apply on_at]. done. }
    rewrite (bind_some _ _ _ _ _ E1). cbn [Z.eqb].
    unfold __evfs_dequeue_descriptor. unfold bind at 1 2. rewrite descriptor_at.
    cbn [head_of_descriptors at_descriptor set_descriptors root_of_descriptors]. rewrite list_del_elem by done. cbn [mbind option_bind].
    rewrite Eh, Et. cbn. unfold zfree, descriptor, bind. cbn. rewrite lookup_insert_eq. cbn. unfold alter, set_descriptors. cbn.
    by rewrite delete_insert_eq.
  - split; cbn; try done.
    + by apply NoDup_filter.
    + rewrite H7, zlen_del by done. done.
    + intros l'. rewrite elem_of_del, H8. destruct (decide (l' = l)) as [-> | Hne].
      * rewrite lookup_delete_eq. split; [by intros [? _] | by intros [? ?]].
      * rewrite lookup_delete_ne by done. split; [by intros [_ ?] | done].
    + intros h' l'. rewrite El. unfold list_remove. rewrite list_elem_of_filter, descriptor_compare_eq, H9. cbn [fst].
      destruct (decide (l' = l)) as [-> | Hne].
      * rewrite lookup_delete_eq, Hd. split; [|by intros (? & ? & _)]. intros [Hne (d' & [= <-] & E)]. done.
      * rewrite lookup_delete_ne by done. split; [by intros [_ ?] |]. intros (d' & Hd' & E). split; [|by exists d'].
        intros Eh. apply Hne. symmetry. apply (same_handle f l l' _ d' Hf Hd Hd'). congruence.
Qed.

(** The descriptor of a handle goes. *)
Lemma forget_run f a l h id off : holds f a -> descriptors f !! l = Some (Descriptor h id off 0 kEvfsDescriptorActived) ->
  exists f', __evfs_close_descriptor l f = Some (tt, f') /\ holds f' (Handles (delete h (table a)) (given a) (files a)).
Proof.
  intros Hf Hd. pose proof Hf as [H1 H2 H3 H4 H5 H10 H11 H12].
  destruct (close_free f l _ H5 Hd eq_refl) as (t & E & Hi). eexists. split; [exact E |]. split; cbn; try done.
  - intros l' d. destruct (decide (l' = l)) as [-> | Hne]; [by rewrite lookup_delete_eq |].
    rewrite lookup_delete_ne by done. intros Hd'. destruct (H10 _ _ Hd') as (? & ? & ? & Htb). split; [done |]. split; [done |]. split; [done |].
    rewrite lookup_delete_ne; [done |]. intros Eh. apply Hne. symmetry. by apply (same_handle f l l' _ d H5 Hd Hd').
  - intros h' [x Hx]. apply lookup_delete_Some in Hx as [Hne Hx]. destruct (H11 h') as (l' & d & Hd' & Eh); [by eexists |]. exists l', d.
    split; [|done]. rewrite lookup_delete_ne; [done |]. intros <-. rewrite Hd in Hd'. injection Hd' as <-. done.
Qed.

(** ** Tasks of idle workers *)
Lemma worker_run i f : worker f = idle_workers -> 0 <= i < 4 -> get_worker i f = Some (Worker false [] 0, f).
Proof.
  intros Hw Hi. unfold get_worker. rewrite (proj2 (Z.ltb_ge i 0)) by lia. rewrite Hw. unfold idle_workers.
  by rewrite lookup_replicate_2 by lia.
Qed.

(** A task that is queued for an idle worker is run, and its result is the caller's. *)
Lemma task_run i t f : worker f = idle_workers -> 0 <= i < 4 -> t_no_wait t = false ->
  (forall t' f', __evfs_io_task_exec st mem (t_type t) t f = Some (t', f') -> worker f' = worker f) ->
  __evfs_io_push_task_and_notify_run st mem i t f =
    '(t', f') ← __evfs_io_task_exec st mem (t_type t) t f; Some ((NSP_STATUS_SUCCESSFUL, Some t'), f').
Proof.
  intros Hw Hi Hn Hk. unfold __evfs_io_push_task_and_notify_run, __evfs_io_push_task.
  rewrite bind_bind, (bind_some _ _ _ _ _ (worker_run i f Hw Hi)). cbn [w_stop count_of_tasks tasks].
  change (EVFS_MAX_IO_PENDING_COUNT <=? 0) with false. cbv iota.
  rewrite bind_bind. unfold set_worker at 1. rewrite alter_run, bind_ret.
  change (NSP_SUCCESS NSP_STATUS_SUCCESSFUL) with true. cbv iota.
  set (f1 := set_workers _ f). unfold __evfs_pop_task_until_empty.
  assert (get_worker i f1 = Some (Worker false [t] 1, f1)) as E1.
  { unfold get_worker, f1. rewrite (proj2 (Z.ltb_ge i 0)) by lia. cbn [worker set_workers]. rewrite list_lookup_insert_eq; [done |].
    rewrite Hw. unfold idle_workers. rewrite length_replicate. lia. }
  rewrite bind_bind, (bind_some _ _ _ _ _ E1). cbn [tasks pop_tasks].
  rewrite bind_bind, (bind_some _ _ _ _ _ E1). cbn [w_stop count_of_tasks].
  rewrite bind_bind. unfold set_worker. rewrite alter_run.
  assert (set_workers (<[Z.to_nat i := Worker false [] (1 - 1)]> (worker f1)) f1 = f) as ->.
  { unfold f1, set_workers. cbn. rewrite list_insert_insert_eq. rewrite list_insert_id; [by destruct f |].
    rewrite Hw. unfold idle_workers. rewrite lookup_replicate_2 by lia. done. }
  unfold bind. destruct (__evfs_io_task_exec st mem (t_type t) t f) as [[t' f']|]; [|done]. cbn. by rewrite Hn.
Qed.

(** ** Calls and the map *)
Definition sim {A} (m : option (A * evfs S)) (s : option (A * handles S)) : Prop :=
  match s with Some (x, a') => exists f', m = Some (x, f') /\ holds f' a' | None => m = None end.

Lemma sim_bind {A B} (m : partial_state (evfs S) A) (s : partial_state (handles S) A) (k : A -> partial_state (evfs S) B) k' f a :
  sim (m f) (s a) -> (forall x f' a', holds f' a' -> sim (k x f') (k' x a')) -> sim (bind m k f) (bind s k' a).
Proof.
  unfold sim at 1, bind. destruct (s a) as [[x a']|]; [|by intros ->]. intros (f' & -> & Hf') Hk. by apply Hk.
Qed.
Lemma sim_ret {A} (x : A) f a : holds f a -> sim (ret x f) (ret x a).
Proof. intros Hf. by exists f. Qed.

Lemma sim_entry {A B} (m : M S A) (k : A -> partial_state (evfs S) B) k' f a : holds f a ->
  (forall x w, holds (set_below w f) (Handles (table a) (given a) w) -> sim (k x (set_below w f)) (k' x (Handles (table a) (given a) w))) ->
  sim (bind (entry m) k f) (bind (on_files m) k' a).
Proof.
  intros Hf Hk. unfold bind, entry, on_files. rewrite (ho_below _ _ Hf). destruct (m (files a)) as [[x w]|]; [|done].
  cbn. apply Hk. by apply holds_below.
Qed.

#[local] Abbreviation held h id off := (Descriptor h id off 1 kEvfsDescriptorActived).
#[local] Abbreviation free h id off := (Descriptor h id off 0 kEvfsDescriptorActived).

(** The same with a descriptor held. *)
Lemma sim_entry_at {A B} (m : M S A) (k : A -> partial_state (evfs S) B) k' l d f a : holds f a ->
  (forall x w, holds (set_below w f) (Handles (table a) (given a) w) ->
    sim (k x (at_descriptor l d (set_below w f))) (k' x (Handles (table a) (given a) w))) ->
  sim (bind (entry m) k (at_descriptor l d f)) (bind (on_files m) k' a).
Proof.
  intros Hf Hk. unfold bind at 1. rewrite entry_at. unfold bind, on_files. rewrite (ho_below _ _ Hf).
  destruct (m (files a)) as [[x w]|]; [|done]. cbn. apply Hk. by apply holds_below.
Qed.

Lemma release_same {A} (x : A) l h id off f a : holds f a -> descriptors f !! l = Some (free h id off) ->
  sim (bind (__evfs_dereference_descriptor (Some l)) (fun _ => ret x) (at_descriptor l (held h id off) f)) (ret x a).
Proof.
  intros Hf Hd. rewrite (bind_some _ _ _ _ _ (dereference_at l h id off f)). rewrite at_same by done. by apply sim_ret.
Qed.
Lemma release_moved {A} (x : A) l h id off off' f a : holds f a -> descriptors f !! l = Some (free h id off) ->
  sim (bind (__evfs_dereference_descriptor (Some l)) (fun _ => ret x) (at_descriptor l (held h id off') f))
      (bind (store_offset h id off') (fun _ => ret x) a).
Proof.
  intros Hf Hd. rewrite (bind_some _ _ _ _ _ (dereference_at l h id off' f)). eexists. split; [reflexivity |].
  by apply (holds_offset f a l h id off).
Qed.

(** The guard, and the handle that is known or not. *)
Lemma sim_ready {A} (guard : bool) (invalid : A) m s f a : holds f a -> sim (m f) (s a) ->
  sim (when_ready guard invalid m f) ((if guard then ret invalid else s) a).
Proof.
  intros Hf Hs. unfold when_ready. rewrite get_run, (ho_ready _ _ Hf). change (kEvmgrReady =? kEvmgrReady) with true.
  rewrite orb_false_r. destruct guard; [by apply sim_ret | exact Hs].
Qed.
Lemma sim_reference {A} h (k : option Z -> partial_state (evfs S) A) unknown m f a : holds f a ->
  (table a !! h = None -> sim (k None f) (unknown a)) ->
  (forall id off l, table a !! h = Some (id, off) -> descriptors f !! l = Some (free h id off) ->
    sim (k (Some l) (at_descriptor l (held h id off) f)) (m id off a)) ->
  sim (bind (__evfs_reference_descriptor h) k f)
      (bind (find h) (fun found => match found with None => unknown | Some (id, off) => m id off end) a).
Proof.
  intros Hf Hn Hs. unfold find. unfold bind at 2. destruct (table a !! h) as [[id off]|] eqn:Eh.
  - destruct (reference_known f a h id off Hf Eh) as (l & Hd & E). rewrite (bind_some _ _ _ _ _ E). by apply Hs.
  - rewrite (bind_some _ _ _ _ _ (reference_unknown f a h Hf Eh)). by apply Hn.
Qed.

(** Tasks leave the workers alone. *)
Definition keeps_workers {A} (m : partial_state (evfs S) A) : Prop := forall f x f', m f = Some (x, f') -> worker f' = worker f.
Lemma kw_ret {A} (x : A) : keeps_workers (ret x).
Proof. by intros f y f' [= _ <-]. Qed.
Lemma kw_stuck {A} : keeps_workers (@stuck _ A).
Proof. done. Qed.
Lemma kw_bind {A B} (m : partial_state (evfs S) A) (k : A -> partial_state (evfs S) B) : keeps_workers m -> (forall x, keeps_workers (k x)) -> keeps_workers (bind m k).
Proof.
  intros Hm Hk f y f'. unfold bind. destruct (m f) as [[x f1]|] eqn:E; [|done]. intros E'. rewrite (Hk x _ _ _ E'). by apply (Hm _ _ _ E).
Qed.
Lemma kw_entry {A} (m : M S A) : keeps_workers (entry m).
Proof. intros f x f'. unfold entry. destruct (m (below f)) as [[? ?]|]; [|done]. by intros [= _ <-]. Qed.
Lemma kw_descriptor l : keeps_workers (descriptor l).
Proof. intros f x f'. unfold descriptor. destruct (descriptors f !! l); [|done]. by intros [= _ <-]. Qed.
Lemma kw_on_descriptor l g : keeps_workers (on_descriptor l g).
Proof. apply kw_bind; [apply kw_descriptor |]. intros d f x f' [= _ <-]. done. Qed.
#[local] Hint Resolve kw_ret kw_stuck kw_bind kw_entry kw_descriptor kw_on_descriptor : core.

Lemma kw_exec x t : keeps_workers (__evfs_io_task_exec st mem x t).
Proof.
  destruct x; cbn [__evfs_io_task_exec];
    unfold __evfs_read_entry, __evfs_write_entry, __evfs_truncate_entry, __evfs_flush_entry_buffer, __evfs_earse_entry,
      __evfs_earse_entry_by_key, __evfs_create_entry, task_entry, advance; repeat case_match; auto;
    repeat (apply kw_bind; [|intros ?]); repeat case_match; auto; repeat (apply kw_bind; [|intros ?]); repeat case_match; auto.
Qed.

(** The worker of an entry runs the task, when there is one. *)
Lemma by_worker_run {A} id t (k : Z * option evfs_io_task -> partial_state (evfs S) A) s f0 f a :
  holds f a -> worker f0 = idle_workers -> t_no_wait t = false ->
  (0 <= worker_of id -> sim (bind (__evfs_io_task_exec st mem (t_type t) t) (fun t' => k (NSP_STATUS_SUCCESSFUL, Some t')) f0) (s a)) ->
  sim (bind (__evfs_io_push_task_and_notify_run st mem (worker_of id) t) k f0) (by_worker id s a).
Proof.
  intros Hf Hw Hn Hs. unfold by_worker. destruct (Z.ltb_spec (worker_of id) 0) as [Hneg | Hpos].
  - unfold __evfs_io_push_task_and_notify_run, __evfs_io_push_task. rewrite !bind_bind. unfold bind at 1, get_worker.
    by rewrite (proj2 (Z.ltb_lt _ _)) by done.
  - specialize (Hs Hpos). assert (worker_of id < 4) as Hlt by (unfold worker_of, EVFS_MAX_WORKER; pose proof (Z.rem_bound_abs id 4); lia).
    unfold bind at 1. rewrite task_run; [|done | done | done | intros t' f'; apply kw_exec].
    revert Hs. unfold bind at 1. by destruct (__evfs_io_task_exec st mem (t_type t) t f0) as [[t' f']|].
Qed.

(** ** Each call *)
Context (Hnew : forall m, exists l, new_descriptor m = Some l /\ m !! l = None) (Htask : mem_task = true).

Lemma new_run {A} (k : option Z -> partial_state (evfs S) A) f : exists l, descriptors f !! l = None /\
  bind (ztrycalloc new_descriptor) k f = k (Some l) (at_descriptor l (Descriptor 0 0 0 0 kEvfsDescriptorClosed) f).
Proof. destruct (Hnew (descriptors f)) as (l & E & Hl). exists l. split; [done |]. unfold bind, ztrycalloc. by rewrite E. Qed.

(** The end of a call that opens: a handle, or nothing. *)
Lemma sim_publish f a l id : holds f a -> descriptors f !! l = None -> given a + 1 < 2 ^ 31 ->
  sim (publish l (at_descriptor l (Descriptor 0 id 0 0 kEvfsDescriptorClosed) f)) (give id a).
Proof. intros Hf Hl Hlt. destruct (publish_run f a l id Hf Hl Hlt) as (f' & -> & Hf'). by exists f'. Qed.
Lemma sim_free_new {A} (x : A) f a l d : holds f a -> descriptors f !! l = None ->
  sim (bind (zfree l) (fun _ => ret x) (at_descriptor l d f)) (ret x a).
Proof. intros Hf Hl. rewrite (bind_some _ _ _ _ _ (free_new f l d Hl)). by apply sim_ret. Qed.

Lemma sim_create key f a : holds f a -> given a + 1 < 2 ^ 31 ->
  sim (evfs_call (OpCreate key) f) (evfs_spec st mem (OpCreate key) a).
Proof.
  intros Hf Hlt. apply sim_bind; [|intros; by apply sim_ret]. unfold evfs_create_entry.
  rewrite every_key_legal, bool_decide_true by done. apply (sim_ready false); [done |].
  match goal with |- sim (bind _ ?k _) _ => destruct (new_run k f) as (l & Hl & ->) end. rewrite Htask. cbn [negb].
  set (t := new_task _ _ _ _ _ _ _). unfold bind at 1.
  rewrite (task_run 0 t); [|exact (ho_workers _ _ Hf) | lia | done | intros t' f'; apply kw_exec].
  subst t. cbn [t_type new_task __evfs_io_task_exec]. unfold __evfs_create_entry at 1. cbn [t_data t_descriptor new_task].
  unfold bind at 1. rewrite entry_at. unfold bind, on_files. rewrite (ho_below _ _ Hf).
  destruct (evfs_entries_create_one st mem (Some key) (files a)) as [[[status id] w]|]; [|done]. cbn [mbind option_bind].
  pose proof (holds_below f a w Hf) as Hf'. destruct id as [id|]; cbn [default].
  - rewrite on_at. cbn -[publish].
    destruct (NSP_SUCCESS status); [by apply (sim_publish _ _ l id Hf') | by apply (sim_free_new (-1) _ _ l _ Hf')].
  - cbn -[publish]. destruct (NSP_SUCCESS status); [by apply (sim_publish _ _ l 0 Hf') | by apply (sim_free_new (-1) _ _ l _ Hf')].
Qed.

Lemma sim_open id f a : holds f a -> given a + 1 < 2 ^ 31 -> sim (evfs_call (OpOpen id) f) (evfs_spec st mem (OpOpen id) a).
Proof.
  intros Hf Hlt. apply sim_bind; [|intros; by apply sim_ret]. apply (sim_ready (id <? 0)); [done |].
  match goal with |- sim (bind _ ?k _) _ => destruct (new_run k f) as (l & Hl & ->) end.
  apply sim_entry_at; [done |]. intros status w Hf'. destruct (NSP_SUCCESS status); cbn [negb].
  - rewrite (bind_some _ _ _ _ _ (on_at l _ _ _)). by apply (sim_publish _ _ l id Hf').
  - by apply (sim_free_new status _ _ l _ Hf').
Qed.

Lemma sim_open_by_key key f a : holds f a -> given a + 1 < 2 ^ 31 ->
  sim (evfs_call (OpOpenByKey key) f) (evfs_spec st mem (OpOpenByKey key) a).
Proof.
  intros Hf Hlt. apply sim_bind; [|intros; by apply sim_ret]. unfold evfs_open_entry_by_key. rewrite get_run, (ho_ready _ _ Hf).
  rewrite bool_decide_false by done. change (kEvmgrReady =? kEvmgrReady) with true. rewrite every_key_legal, bool_decide_true by done. cbn [orb negb].
  match goal with |- sim (bind _ ?k _) _ => destruct (new_run k f) as (l & Hl & ->) end.
  apply sim_entry_at; [done |]. intros [status id] w Hf'. destruct (NSP_SUCCESS status); cbn [negb].
  - rewrite (bind_some _ _ _ _ _ (on_at l _ _ _)). by apply (sim_publish _ _ l _ Hf').
  - by apply (sim_free_new (-1) _ _ l _ Hf').
Qed.

(** The size of an entry, by both names of the call. *)
Lemma sim_query guard (invalid unknown : Z) h f a : holds f a ->
  sim (when_ready guard invalid
         (found <- __evfs_reference_descriptor h ;;
          match found with
          | None => ret unknown
          | Some l =>
              d <- descriptor l ;;
              n <- entry (evfs_entries_query_user_seg_size st (entry_id d)) ;;
              __evfs_dereference_descriptor (Some l) ;;; ret n
          end) f)
      (with_handle guard invalid h (ret unknown) (fun id _ => on_files (evfs_entries_query_user_seg_size st id)) a).
Proof.
  intros Hf. apply sim_ready; [done |]. apply sim_reference; [done | by intros _; apply sim_ret |].
  intros id off l Hh Hd. rewrite (bind_some _ _ _ _ _ (descriptor_at l _ f)). cbn [entry_id].
  assert (forall b, on_files (evfs_entries_query_user_seg_size st id) b = bind (on_files (evfs_entries_query_user_seg_size st id)) ret b) as ->.
  { intros b. unfold bind. by destruct (on_files _ b) as [[? ?]|]. }
  apply sim_entry_at; [done |]. intros n w Hf'. by apply release_same.
Qed.

Lemma sim_close h f a : holds f a -> sim (evfs_call (OpClose h) f) (evfs_spec st mem (OpClose h) a).
Proof.
  intros Hf. apply sim_bind; [|intros; by apply sim_ret]. apply sim_ready; [done |]. apply sim_reference; [done | by intros _; apply sim_ret |].
  intros id off l Hh Hd. rewrite (bind_some _ _ _ _ _ (descriptor_at l _ f)). cbn [entry_id].
  assert (forall f a, holds f a -> descriptors f !! l = Some (free h id off) ->
    sim (bind (__evfs_dereference_descriptor (Some l)) (fun _ => __evfs_close_descriptor l) (at_descriptor l (held h id off) f)) (forget h a)) as Hend.
  { clear. intros f a Hf Hd. rewrite (bind_some _ _ _ _ _ (dereference_at l h id off f)), at_same by done.
    destruct (forget_run f a l h id off Hf Hd) as (f' & -> & Hf'). by exists f'. }
  destruct (0 <? id); [|by apply Hend]. apply sim_entry_at; [done |]. intros _ w Hf'. by apply Hend.
Qed.

Lemma sim_seek h seek f a : holds f a -> sim (evfs_call (OpSeek h seek) f) (evfs_spec st mem (OpSeek h seek) a).
Proof.
  intros Hf. apply sim_bind; [|intros; by apply sim_ret]. apply sim_ready; [done |]. apply sim_reference; [done | by intros _; apply sim_ret |].
  intros id off l Hh Hd. rewrite (bind_some _ _ _ _ _ (on_at l _ _ f)). by apply (release_moved _ l h id off).
Qed.

Lemma advance_at l h id off n f :
  advance l n (at_descriptor l (held h id off) f) = Some (tt, at_descriptor l (held h id (moved off n)) f).
Proof. unfold advance, moved. destruct (0 <? n); [apply on_at | done]. Qed.

Lemma sim_write h data f a : holds f a -> sim (evfs_call (OpWrite h data) f) (evfs_spec st mem (OpWrite h data) a).
Proof.
  intros Hf. apply sim_bind; [|intros; by apply sim_ret]. apply sim_ready; [done |]. unfold transfer. rewrite bind_bind.
  apply sim_reference; [done | done |]. intros id off l Hh Hd. rewrite Htask. cbn [negb].
  rewrite bind_bind, (bind_some _ _ _ _ _ (descriptor_at l _ f)). cbn [entry_id offset]. rewrite bind_bind.
  apply (by_worker_run _ _ _ _ _ f); [done | apply Hf | done |]. intros _.
  cbn [t_type new_task __evfs_io_task_exec]. unfold __evfs_write_entry. cbn [t_data t_descriptor new_task].
  rewrite !bind_bind, (bind_some _ _ _ _ _ (descriptor_at l _ f)). cbn [entry_id offset]. rewrite bind_bind.
  apply sim_entry_at; [done |]. intros n w Hf'. rewrite bind_bind, (bind_some _ _ _ _ _ (advance_at l h id off n _)).
  rewrite !bind_ret, bind_bind. by apply (release_moved n l h id off).
Qed.

Lemma sim_read h size f a : holds f a -> sim (evfs_call (OpRead h size) f) (evfs_spec st mem (OpRead h size) a).
Proof.
  intros Hf. apply sim_ready; [done |]. unfold transfer. rewrite bind_bind.
  apply sim_reference; [done | done |]. intros id off l Hh Hd. rewrite Htask. cbn [negb].
  rewrite bind_bind, (bind_some _ _ _ _ _ (descriptor_at l _ f)). cbn [entry_id offset]. rewrite bind_bind.
  apply (by_worker_run _ _ _ _ _ f); [done | apply Hf | done |]. intros _.
  cbn [t_type new_task __evfs_io_task_exec]. unfold __evfs_read_entry. cbn [t_data t_descriptor new_task].
  rewrite !bind_bind, (bind_some _ _ _ _ _ (descriptor_at l _ f)). cbn [entry_id offset t_length new_task]. rewrite bind_bind.
  apply sim_entry_at; [done |]. intros [n out] w Hf'. rewrite bind_bind, (bind_some _ _ _ _ _ (advance_at l h id off n _)).
  rewrite !bind_ret, bind_bind. by apply (release_moved (n, out) l h id off).
Qed.

(** Truncating, flushing, erasing: [m] is what the task does with the entry, [k] what the
    call makes of the status. *)
Lemma sim_task {B C} x (m : Z -> M S B) (status : B -> Z) (k : Z -> C) h length f a m' : holds f a ->
  (forall l d f, __evfs_io_task_exec st mem x (new_task x EINPROGRESS (entry_id d) 0 length None (Some l)) (at_descriptor l d f) =
    bind (entry (m (entry_id d))) (fun r => ret (set_result (status r) 0 None (new_task x EINPROGRESS (entry_id d) 0 length None (Some l))))
      (at_descriptor l d f)) ->
  (forall id b, m' id b = bind (on_files (m id)) (fun r => ret (k (status r))) b) ->
  sim (bind (descriptor_task st mem mem_task x h length) (fun r => ret (k r)) f)
      (bind (find h) (fun found => match found with
         None => ret (k (posix__makeerror ENOENT)) | Some (id, _) => by_worker id (m' id) end) a).
Proof.
  intros Hf Hx Hm. unfold descriptor_task. rewrite bind_bind.
  apply (sim_reference h _ (ret (k (posix__makeerror ENOENT))) (fun id _ => by_worker id (m' id))); [done | by intros _; apply sim_ret |].
  intros id off l Hh Hd. rewrite Htask. cbn [negb].
  rewrite !bind_bind, (bind_some _ _ _ _ _ (descriptor_at l _ f)). cbn [entry_id]. rewrite bind_bind.
  apply (by_worker_run _ _ _ _ _ f); [done | apply Hf | done |]. intros _. cbn [t_type new_task].
  rewrite (bind_eq _ _ _ _ (Hx l (held h id off) f)), bind_bind. cbn [entry_id]. rewrite Hm. apply sim_entry_at; [done |].
  intros r w Hf'. rewrite !bind_ret, bind_bind. by apply (release_same _ l h id off).
Qed.
Lemma bind_ret_r {W A} (m : partial_state W A) w : bind m ret w = m w.
Proof. unfold bind. by destruct (m w) as [[? ?]|]. Qed.

Lemma sim_truncate h size f a : holds f a -> sim (evfs_call (OpTruncate h size) f) (evfs_spec st mem (OpTruncate h size) a).
Proof.
  intros Hf. apply sim_bind; [|intros; by apply sim_ret]. apply sim_ready; [done |]. rewrite <- bind_ret_r.
  apply (sim_task kEvfsIoTaskTruncate (fun id => evfs_entries_truncate st mem id (s32 (size + MAX_ENTRY_NAME_LENGTH))) (fun r => r) (fun r => r));
    [done | | intros; symmetry; apply bind_ret_r].
  intros l d f'. cbn [__evfs_io_task_exec]. unfold __evfs_truncate_entry, task_entry. cbn [t_descriptor new_task].
  rewrite bind_bind, (bind_some _ _ _ _ _ (descriptor_at l d f')). by rewrite bind_ret.
Qed.

Lemma sim_erase h f a : holds f a -> sim (evfs_call (OpErase h) f) (evfs_spec st mem (OpErase h) a).
Proof.
  intros Hf. apply sim_bind; [|intros; by apply sim_ret]. apply sim_ready; [done |]. rewrite <- bind_ret_r.
  apply (sim_task kEvfsIoTaskErase (fun id => evfs_entries_hard_delete st id) (fun r => r) (fun r => r));
    [done | | intros; symmetry; apply bind_ret_r].
  intros l d f'. cbn [__evfs_io_task_exec]. unfold __evfs_earse_entry, task_entry. cbn [t_descriptor new_task].
  rewrite bind_bind, (bind_some _ _ _ _ _ (descriptor_at l d f')). by rewrite bind_ret.
Qed.

Lemma sim_flush_entry h f a : holds f a -> sim (evfs_call (OpFlushEntry h) f) (evfs_spec st mem (OpFlushEntry h) a).
Proof.
  intros Hf. apply sim_bind; [|intros; by apply sim_ret]. apply sim_ready; [done |].
  apply (sim_task kEvfsIoTaskFlush (fun id => evfs_entries_flush st id) (fun _ => NSP_STATUS_SUCCESSFUL) (fun _ => tt)); [done | |].
  - intros l d f'. cbn [__evfs_io_task_exec]. unfold __evfs_flush_entry_buffer, task_entry. cbn [t_descriptor new_task].
    rewrite bind_bind, (bind_some _ _ _ _ _ (descriptor_at l d f')). by rewrite bind_ret.
  - intros id b. unfold bind. by destruct (on_files _ b) as [[[] ?]|].
Qed.

Lemma sim_erase_by_key key f a : holds f a -> sim (evfs_call (OpEraseByKey key) f) (evfs_spec st mem (OpEraseByKey key) a).
Proof.
  intros Hf. apply sim_bind; [|intros; by apply sim_ret]. apply (sim_ready false); [done |]. rewrite Htask. cbn [negb].
  apply sim_entry; [done |]. intros id w Hf'. destruct (Z.leb_spec id 0) as [Hle | Hgt]; [by apply sim_ret |].
  assert (0 <= worker_of id < 4) as Hw by (unfold worker_of, EVFS_MAX_WORKER; apply Z.rem_bound_pos; lia).
  unfold bind at 1. rewrite task_run; [|apply Hf | done | done | intros t' f'; apply kw_exec].
  cbn [t_type new_task __evfs_io_task_exec]. unfold __evfs_earse_entry_by_key. cbn [t_data new_task].
  unfold bind, entry, on_files. cbn [below set_below files]. destruct (evfs_entries_hard_delete_by_name st key w) as [[r w']|]; [|done].
  eexists. split; [reflexivity |]. exact (holds_below _ _ w' Hf').
Qed.

(** The task of a flush reads entry 0, and the cache is not asked. *)
Lemma sim_flush f a : holds f a -> sim (evfs_call OpFlush f) (evfs_spec st mem OpFlush a).
Proof.
  intros Hf. apply sim_bind; [|intros; by apply sim_ret]. apply (sim_ready false); [done |]. rewrite Htask. cbn [negb].
  unfold bind at 1. rewrite task_run; [|apply Hf | lia | done | intros t' f'; apply kw_exec]. by apply (sim_ret tt).
Qed.

Lemma call_refines op f a : holds f a -> given a + 1 < 2 ^ 31 -> sim (evfs_call op f) (evfs_spec st mem op a).
Proof.
  intros Hf Hlt. destruct op.
  - by apply sim_create.
  - by apply sim_open.
  - by apply sim_open_by_key.
  - apply sim_bind; [by apply sim_query | intros; by apply sim_ret].
  - by apply sim_close.
  - by apply sim_write.
  - by apply sim_read.
  - apply sim_bind; [by apply sim_query | intros; by apply sim_ret].
  - by apply sim_seek.
  - by apply sim_truncate.
  - by apply sim_flush_entry.
  - by apply sim_erase.
  - by apply sim_erase_by_key.
  - by apply sim_flush.
Qed.

(** A call gives at most one handle. *)
Definition gives {A} (k : Z) (s : partial_state (handles S) A) : Prop := forall a x a', s a = Some (x, a') -> given a' <= given a + k.
Lemma gives_bind {A B} i j (m : partial_state (handles S) A) (k : A -> partial_state (handles S) B) :
  gives i m -> (forall x, gives j (k x)) -> gives (i + j) (bind m k).
Proof.
  intros Hm Hk a x a'. unfold bind. destruct (m a) as [[y a1]|] eqn:E; [|done]. intros E'.
  specialize (Hm _ _ _ E). specialize (Hk y _ _ _ E'). lia.
Qed.
Lemma gives_keep {A B} k (m : partial_state (handles S) A) (g : A -> partial_state (handles S) B) :
  gives 0 m -> (forall x, gives k (g x)) -> gives k (bind m g).
Proof. intros Hm Hg a x a' E. pose proof (gives_bind 0 k m g Hm Hg a x a' E). lia. Qed.
Lemma gives_ret {A} k (x : A) : 0 <= k -> gives k (ret x).
Proof. intros Hk a y a' [= _ <-]. lia. Qed.
Lemma gives_files {A} (m : M S A) k : 0 <= k -> gives k (on_files m).
Proof. intros Hk a x a'. unfold on_files. destruct (m (files a)) as [[? ?]|]; [|done]. intros [= _ <-]. cbn. lia. Qed.
Lemma gives_spec op : gives 1 (evfs_spec st mem op).
Proof.
  assert (forall A B (s : partial_state (handles S) A) (r : A -> B), gives 1 s -> gives 1 (bind s (fun x => ret (r x)))) as Hend.
  { intros A B s r Hs a x a' E. pose proof (gives_bind 1 0 s _ Hs (fun x => gives_ret 0 (r x) ltac:(lia)) a x a' E). lia. }
  assert (forall A h (unknown : partial_state (handles S) A) m, gives 1 unknown -> (forall id off, gives 1 (m id off)) ->
    gives 1 (bind (find h) (fun found => match found with None => unknown | Some (id, off) => m id off end))) as Hfind.
  { intros A h u m Hu Hm. apply gives_keep; [by intros a x a' [= _ <-]; lia |]. intros [[id off]|]; auto. }
  assert (forall A id (s : partial_state (handles S) A), gives 1 s -> gives 1 (by_worker id s)) as Hworker.
  { intros A id s Hs. unfold by_worker. by destruct (worker_of id <? 0). }
  assert (forall id, gives 1 (@give S id)) as Hgive by (intros id a x a' [= _ <-]; cbn; lia).
  assert (forall h id off, gives 0 (@store_offset S h id off)) as Hstore by (intros h id off a x a' [= _ <-]; cbn; lia).
  assert (forall h, gives 1 (@forget S h)) as Hforget by (intros h a x a' [= _ <-]; cbn; lia).
  assert (forall A, gives 1 (@stuck (handles S) A)) as Hstuck by done.
  destruct op; cbn [evfs_spec]; unfold number, nothing; try apply Hend; unfold with_handle; repeat case_match;
    try (apply Hfind; [|intros id off]; try apply Hworker);
    repeat first [apply gives_ret; lia | apply gives_files; lia | apply Hgive | apply Hstuck | apply Hforget
      | apply gives_keep; [first [apply gives_files; lia | apply Hstore | case_match; [apply gives_files | apply gives_ret]; lia] |
          intros ?; repeat case_match]].
Qed.

Fixpoint run_ops {W} (step : evfs_op -> partial_state W result) (ops : list evfs_op) : partial_state W (list result) :=
  match ops with [] => ret [] | op :: ops => r <- step op ;; rs <- run_ops step ops ;; ret (r :: rs) end.

Lemma ops_refine : forall ops f a, holds f a -> given a + zlen ops < 2 ^ 31 ->
  sim (run_ops evfs_call ops f) (run_ops (evfs_spec st mem) ops a).
Proof.
  induction ops as [|op ops IH]; intros f a Hf Hlt; [by apply sim_ret |]. cbn [run_ops].
  rewrite zlen_cons in Hlt. pose proof (zlen_nonneg ops). pose proof (call_refines op f a Hf ltac:(lia)) as Hs.
  revert Hs. unfold sim at 1. unfold bind at 1 3. destruct (evfs_spec st mem op a) as [[r a1]|] eqn:E; [|by intros ->].
  intros (f1 & -> & Hf1). pose proof (gives_spec op a r a1 E).
  apply sim_bind; [apply IH; [done | lia] |]. intros rs f' a' Hf'. by apply sim_ret.
Qed.

(** C4: whatever calls are made on the handles of a ready file system, they give what a
    finite map from handles to entries and offsets gives, and are stuck exactly when it
    is: the queues, the workers, the reference counts, the list and the tree of the
    descriptors do not show.  The map tells what the calls do: a new handle is the next
    number, all handles have an offset of their own, writing to or reading from an unknown
    handle is undefined, any key is legal, and evfs_flush does nothing. *)
Theorem evfs_refines_handles ops f a : holds f a -> given a + zlen ops < 2 ^ 31 ->
  match run_ops (evfs_spec st mem) ops a with
  | Some (rs, a') => exists f', run_ops evfs_call ops f = Some (rs, f') /\ holds f' a'
  | None => run_ops evfs_call ops f = None
  end.
Proof. apply ops_refine. Qed.
End Refines.

(** ** A file system in memory *)
Definition started {S} (w : world S) : evfs S := Evfs kEvmgrReady 0 Null [] 0 idle_workers ∅ w.
Definition next_block (m : gmap Z evfs_entry_descriptor) : option Z := Some (fresh (dom m)).

Lemma next_block_fresh m : exists l, next_block m = Some l /\ m !! l = None.
Proof. eexists. split; [done |]. apply not_elem_of_dom, is_fresh. Qed.

Lemma holds_start {S} (w : world S) : holds (started w) (Handles ∅ 0 w).
Proof.
  split; cbn; try done; [|by intros h [? ?]]. split; cbn; try done.
  - apply search_tree_Null.
  - constructor.
  - intros l. rewrite lookup_empty. split; [by intros ?%not_elem_of_nil | by intros [? ?]].
  - intros h l. split; [by intros ?%not_elem_of_nil | by intros (? & ? & _)].
Qed.

Definition demo_memory : memory := Memory (fun _ => true) (fun _ => true) (fun _ => true) (fun _ => true) 1.
Definition demo_world : world (Z * (Z -> option (list Z))) :=
  default (World entries0 views0 (plain_zero 3))
    (snd <$> evfs_entries_create plain_store demo_memory (fun _ => evfs_cluster0) (World entries0 views0 (plain_zero 3))).
Definition demo_ops : list evfs_op :=
  [OpCreate [97]; OpWrite 1 [7; 8; 9]; OpOpenByKey [97]; OpRead 2 2; OpRead 2 5; OpLength 2; OpFlush; OpClose 1; OpLength 1; OpSeek 2 1; OpRead 2 1].

(** Two handles of one entry, each with its offset; a closed one is unknown. *)
Lemma evfs_refines_handles_witness : exists f',
  run_ops (evfs_call plain_store demo_memory next_block true) demo_ops (started demo_world) =
    Some ([(1, []); (3, []); (2, []); (2, [7; 8]); (1, [9]); (3, []); (0, []); (0, []); (posix__makeerror ENOENT, []); (0, []); (1, [8])], f').
Proof.
  pose proof (evfs_refines_handles plain_store demo_memory next_block true next_block_fresh eq_refl demo_ops (started demo_world)
    (Handles ∅ 0 demo_world) (holds_start demo_world) ltac:(done)) as H.
  assert (fst <$> run_ops (evfs_spec plain_store demo_memory) demo_ops (Handles ∅ 0 demo_world) =
    Some [(1, []); (3, []); (2, []); (2, [7; 8]); (1, [9]); (3, []); (0, []); (0, []); (posix__makeerror ENOENT, []); (0, []); (1, [8])]) as E
    by (vm_compute; reflexivity).
  destruct (run_ops (evfs_spec plain_store demo_memory) demo_ops (Handles ∅ 0 demo_world)) as [[rs a']|]; [|discriminate E].
  injection E as ->. destruct H as (f' & E' & _). exists f'. exact E'.
Defined.
