(* ===== verification/EvfsCalls.v ===== *)
(** Stopping evfs, its iterators, and writing through handles:
    theorems on the calls of [Evfs], over [EntryFile]. *)
From S2P Require Import Prelude AvlTree Ifos Cluster View Entries EntryFile Evfs.
#[local] Open Scope monad_scope.

(** ** Stopping *)
Section Close.
Context {S : Type} (st : store S) (img : image S) (mem : memory).
Implicit Types (f : evfs S) (a : handles S) (d : evfs_entry_descriptor).

(** The manager without descriptors. *)
Definition emptied f : evfs S := Evfs (mgr_ready f) (next_handle f) Null [] 0 (worker f) ∅ (below f).

Lemma no_descriptors f : indexed f -> head_of_descriptors f = [] -> f = emptied f.
Proof.
  intros [H1 H2 H3 H4 H5] Hq. assert (descriptors f = ∅) as Hd.
  { apply map_eq. intros l. rewrite lookup_empty. destruct (descriptors f !! l) eqn:E; [|done].
    assert (l ∈ head_of_descriptors f) as Hl by (apply H4; by eexists). rewrite Hq in Hl. by apply not_elem_of_nil in Hl. }
  assert (root_of_descriptors f = Null) as Ht.
  { destruct (root_of_descriptors f) as [|tl [h l] ? tr] eqn:E; [done |].
    assert ((h, l) ∈ elems (root_of_descriptors f)) as Hin by (rewrite E; cbn [elems]; set_solver).
    rewrite E in Hin. apply H5 in Hin as (d & Hd' & _). by rewrite Hd in Hd'. }
  destruct f. unfold emptied. cbn in *. by subst.
Qed.

(** When nobody holds a descriptor all of them go. *)
Lemma close_all : forall fuel f, indexed f -> (forall l d, descriptors f !! l = Some d -> d_refcnt d = 0) ->
  length (head_of_descriptors f) = fuel -> close_descriptors fuel f = Some (tt, emptied f).
Proof.
  induction fuel as [|fuel IH]; intros f Hf Hr Hn; cbn [close_descriptors]; rewrite get_run.
  - apply length_zero_iff_nil in Hn. rewrite Hn. by rewrite <- (no_descriptors f Hf Hn).
  - destruct (head_of_descriptors f) as [|l q] eqn:Hq; [done |].
    assert (l ∈ head_of_descriptors f) as Hl by (rewrite Hq; constructor). apply (ix_list _ Hf) in Hl as [d Hd].
    destruct (close_free f l d Hf Hd (Hr l d Hd)) as (t & E & Hf'). rewrite (bind_some _ _ _ _ _ E). rewrite IH.
    + done.
    + exact Hf'.
    + intros l' d' Hd'. cbn in Hd'. apply lookup_delete_Some in Hd' as [_ Hd']. by apply (Hr l' d').
    + pose proof (ix_nodup _ Hf) as Hnd. rewrite Hq in Hnd. apply NoDup_cons in Hnd as [Hnd _].
      change (length (filter (.≠ l) (head_of_descriptors f)) = fuel). rewrite Hq, filter_cons_False by (intros Hx; by apply Hx).
      rewrite filter_all; [by injection Hn |]. intros x Hx ->. done.
Qed.

(** A descriptor that is held stays at the head of the list in the end, however long the
    loop runs. *)
Lemma close_never : forall fuel f l d, indexed f -> descriptors f !! l = Some d -> d_refcnt d <> 0 ->
  close_descriptors fuel f = None.
Proof.
  induction fuel as [|fuel IH]; intros f l d Hf Hd Hr; cbn [close_descriptors]; rewrite get_run;
    (destruct (head_of_descriptors f) as [|l0 q] eqn:Hq; [assert (l ∈ head_of_descriptors f) as Hl by (apply (ix_list _ Hf); by eexists);
      rewrite Hq in Hl; by apply not_elem_of_nil in Hl |]); [done |].
  assert (l0 ∈ head_of_descriptors f) as Hl by (rewrite Hq; constructor). apply (ix_list _ Hf) in Hl as [d0 Hd0].
  destruct (decide (d_refcnt d0 = 0)) as [H0 | H0].
  - destruct (close_free f l0 d0 Hf Hd0 H0) as (t & E & Hf'). rewrite (bind_some _ _ _ _ _ E). apply (IH _ l d Hf'); [|done].
    cbn. rewrite lookup_delete_ne; [done |]. intros <-. rewrite Hd in Hd0. by injection Hd0 as <-.
  - assert (exists d', d_refcnt d' = d_refcnt d0 /\ handle d' = handle d0 /\ __evfs_close_descriptor l0 f = Some (tt, at_descriptor l0 d' f)) as (d' & E1 & E2 & E).
    { unfold __evfs_close_descriptor. rewrite <- (at_same l0 _ f Hd0). rewrite (bind_some _ _ _ _ _ (descriptor_at l0 _ f)).
      rewrite (proj2 (Z.eqb_neq 0 _)) by done. case_decide.
      - rewrite (bind_some _ _ _ _ _ (on_at l0 _ _ f)). eexists. rewrite at_twice. split; [|split; [|reflexivity]]; done.
      - exists d0. rewrite at_twice. done. }
    rewrite (bind_some _ _ _ _ _ E).
    assert (exists d1, <[l0 := d']> (descriptors f) !! l = Some d1 /\ d_refcnt d1 <> 0) as (d1 & Ed & Hd1).
    { destruct (decide (l = l0)) as [-> | Hne]; [exists d'; rewrite lookup_insert_eq; split; [done | congruence] |].
      exists d. by rewrite lookup_insert_ne. }
    apply (IH _ l d1); [|done..]. destruct Hf as [H1 H2 H3 H4 H5]. split; cbn; try done.
    + intros x. rewrite H4. destruct (decide (x = l0)) as [-> | Hne]; [|by rewrite lookup_insert_ne].
      rewrite lookup_insert_eq, Hd0. split; by eexists.
    + intros h x. rewrite H5. destruct (decide (x = l0)) as [-> | Hne]; [|by rewrite lookup_insert_ne].
      rewrite lookup_insert_eq, Hd0. split; intros (? & [= <-] & <-); by eexists.
Qed.

Lemma stop_run f : worker f = idle_workers ->
  stop_workers st mem 0 (Z.to_nat EVFS_MAX_WORKER) f = Some (tt, set_workers (replicate 4 (Worker true [] 0)) f).
Proof. intros Hw. destruct f as [r n t q c ws ds w]. cbn in Hw. subst ws. reflexivity. Qed.

(** evfs_close on a ready manager whose calls have all returned: when the entries and
    the cache stop, it returns; every descriptor is freed, the workers have stopped with
    empty queues, and evfs_create or evfs_open may be called again. *)
Theorem evfs_close_ok f a w s : holds f a -> evfs_entries_uninit st (files a) = Some (tt, w) -> cache_uninit img (w_store w) = Some s ->
  evfs_close st img mem f =
    Some (tt, Evfs kEvmgrNotReady (-1) Null [] 0 (replicate 4 (Worker true [] 0)) ∅ (World (w_entries w) (w_views w) s)).
Proof.
  intros Hf Hw Hs. unfold evfs_close. rewrite get_run, (ho_ready _ _ Hf). change (negb (kEvmgrReady =? kEvmgrReady)) with false.
  cbv iota. rewrite alter_run. rewrite (bind_some _ _ _ _ _ (stop_run (set_ready _ f) (ho_workers _ _ Hf))). rewrite get_run.
  set (f1 := set_workers _ _). assert (indexed f1) as Hi by (destruct (ho_index _ _ Hf); by split).
  rewrite (bind_some _ _ _ _ _ (close_all _ f1 Hi (fun l d Hd => proj1 (proj2 (ho_desc _ _ Hf l d Hd))) eq_refl)).
  assert (entry (evfs_entries_uninit st) (emptied f1) = Some (tt, set_below w (emptied f1))) as E1.
  { unfold entry. cbn [emptied below]. unfold f1. cbn [below set_workers set_ready]. by rewrite (ho_below _ _ Hf), Hw. }
  rewrite (bind_some _ _ _ _ _ E1).
  assert (cache_call (fun s => s ← cache_uninit img s; Some (tt, s)) (set_below w (emptied f1)) =
    Some (tt, set_below (World (w_entries w) (w_views w) s) (emptied f1))) as E2 by (unfold cache_call; cbn; by rewrite Hs).
  by rewrite (bind_some _ _ _ _ _ E2).
Qed.

(** C26: when there is no memory for the task of a write, evfs_write_entry returns with
    its reference on the descriptor kept; from then on evfs_close runs for ever. *)
Theorem leaked_reference_never_closes f a h id off data : holds f a -> 0 < h -> 0 < zlen data -> table a !! h = Some (id, off) ->
  exists f', evfs_write_entry st mem false h data f = Some (posix__makeerror ENOMEM, f') /\
    (forall fuel, close_descriptors fuel f' = None) /\ evfs_close st img mem f' = None.
Proof.
  intros Hf Hh Hz Ht. unfold evfs_write_entry, when_ready. rewrite get_run, (ho_ready _ _ Hf).
  rewrite (proj2 (Z.leb_gt h 0)), (proj2 (Z.leb_gt (zlen data) 0)) by done. change (kEvmgrReady =? kEvmgrReady) with true. cbn [orb negb].
  destruct (reference_known f a h id off Hf Ht) as (l & Hd & E). unfold transfer. rewrite bind_bind, (bind_some _ _ _ _ _ E). cbn [negb].
  eexists. split; [reflexivity |].
  assert (forall g : evfs S, indexed g -> descriptors g = descriptors f -> indexed (at_descriptor l (Descriptor h id off 1 kEvfsDescriptorActived) g)) as Hi.
  { intros g [H1 H2 H3 H4 H5] Eg. split; cbn; try done.
    - intros x. rewrite H4, Eg. destruct (decide (x = l)) as [-> | Hne]; [|by rewrite lookup_insert_ne].
      rewrite lookup_insert_eq, Hd. split; by eexists.
    - intros k x. rewrite H5, Eg. destruct (decide (x = l)) as [-> | Hne]; [|by rewrite lookup_insert_ne].
      rewrite lookup_insert_eq, Hd. split; intros (? & [= <-] & <-); by eexists. }
  split.
  - intros fuel. apply (close_never _ _ l (Descriptor h id off 1 kEvfsDescriptorActived)).
    + apply Hi; [apply Hf | done].
    + cbn. by rewrite lookup_insert_eq.
    + done.
  - unfold evfs_close. rewrite get_run. cbn [mgr_ready at_descriptor set_descriptors]. rewrite (ho_ready _ _ Hf).
    change (negb (kEvmgrReady =? kEvmgrReady)) with false. cbv iota. rewrite alter_run.
    rewrite (bind_some _ _ _ _ _ (stop_run (set_ready _ (at_descriptor _ _ f)) (ho_workers _ _ Hf))). rewrite get_run.
    unfold bind at 1. rewrite (close_never _ _ l (Descriptor h id off 1 kEvfsDescriptorActived)); [done | | cbn; by rewrite lookup_insert_eq | done].
    pose proof (Hi f (ho_index _ _ Hf) eq_refl) as [H1 H2 H3 H4 H5]. by split.
Qed.
End Close.

(** ** Writing through handles *)
Section Writes.
Context {S : Type} (st : store S) (cs step limit : Z) (R : S -> Z -> (Z -> option (list Z)) -> Prop)
  `{!StoreOk st cs step limit R} `{!Reliable st cs step limit R} (fuel : nat) (Hfuel : (0 < fuel)%nat) (Hcs : 44 <= cs)
  (new_descriptor : gmap Z evfs_entry_descriptor -> option Z)
  (Hnew : forall m, exists l, new_descriptor m = Some l /\ m !! l = None).
Implicit Types (f : evfs S) (a : handles S).
#[local] Abbreviation spec := (evfs_spec st (plenty fuel)).

Lemma run_step {W} (s : evfs_op -> partial_state W result) op ops w r w1 rs w2 :
  s op w = Some (r, w1) -> run_ops s ops w1 = Some (rs, w2) -> run_ops s (op :: ops) w = Some (r :: rs, w2).
Proof. intros E1 E2. cbn [run_ops]. run E1. by run E2. Qed.
Lemma run_app {W} (s : evfs_op -> partial_state W result) : forall xs ys w rs w1 rs' w2,
  run_ops s xs w = Some (rs, w1) -> run_ops s ys w1 = Some (rs', w2) -> run_ops s (xs ++ ys) w = Some (rs ++ rs', w2).
Proof.
  induction xs as [|x xs IH]; intros ys w rs w1 rs' w2 E1 E2; [by injection E1 as <- <- |]. cbn [run_ops] in E1. unfold bind in E1.
  destruct (s x w) as [[r w']|] eqn:E; [|done]. destruct (run_ops s xs w') as [[q w'']|] eqn:E'; [|done]. injection E1 as <- <-.
  cbn [app]. eapply run_step; [exact E |]. by eapply IH.
Qed.

(** One call with a handle of the map. *)
Lemma known_handle {A} (guard : bool) (invalid : A) h id off unknown m t g w : guard = false -> t !! h = Some (id, off) ->
  with_handle guard invalid h unknown m (Handles t g w) = m id off (Handles (S := S) t g w).
Proof. intros -> Ht. unfold with_handle, bind, find. cbn. by rewrite Ht. Qed.

(** The guards of a call that is in order, and the entry of its handle. *)
Ltac handle_ok :=
  first [apply lookup_insert_eq | assumption
    | rewrite ?orb_false_iff; repeat split; first [apply Z.leb_gt | apply Z.ltb_ge]; lia].

Lemma on_files_run {A} (m : M S A) x w w' t g : m w = Some (x, w') -> on_files m (Handles t g w) = Some (x, Handles t g w').
Proof. intros E. unfold on_files. cbn. by rewrite E. Qed.

Lemma by_worker_pos {A} id (m : partial_state (handles S) A) : 0 < id -> by_worker id m = m.
Proof.
  intros Hid. unfold by_worker. rewrite (proj2 (Z.ltb_ge _ _)); [done |]. apply Z.rem_nonneg; [done | lia].
Qed.

(** Appending through a handle moves its offset to the end of what is written. *)
Lemma writes_run id h g : 0 < id -> 0 < h -> forall chunks off t w ks w', all_appendable cs off chunks = true ->
  0 <= off -> off + zlen (concat chunks) < 2 ^ 31 -> t !! h = Some (id, off) ->
  append_all st fuel id off chunks w = Some (ks, w') -> ks = map zlen chunks ->
  run_ops spec (map (OpWrite h) chunks) (Handles t g w) =
    Some (map (fun c => (zlen c, [])) chunks, Handles (<[h := (id, off + zlen (concat chunks))]> t) g w').
Proof.
  intros Hid Hh. induction chunks as [|c chunks IH]; intros off t w ks w' Hall Ho Hsz Ht E Ek; cbn [append_all map run_ops concat] in *.
  - injection E as <- <-. unfold ret. cbn. by rewrite Z.add_0_r, insert_id.
  - apply andb_prop in Hall as [[_ Hc%Z.ltb_lt]%andb_prop Hall]. rewrite zlen_app in *. pose proof (zlen_nonneg (concat chunks)).
    unfold bind at 1 in E. destruct (evfs_entries_write_data st (plenty fuel) id c off w) as [[k w1]|] eqn:E1; [|done].
    unfold bind at 1 in E. destruct (append_all st fuel id (off + zlen c) chunks w1) as [[ks' w2]|] eqn:E2; [|done].
    injection E as <- <-. injection Ek as -> Ek.
    assert (spec (OpWrite h c) (Handles t g w) = Some ((zlen c, []), Handles (<[h := (id, off + zlen c)]> t) g w1)) as Ew.
    { cbn [evfs_spec]. unfold number. unfold bind at 1. rewrite (known_handle _ _ h id off) by handle_ok.
      rewrite by_worker_pos by done. rewrite (bind_some _ _ _ _ _ (on_files_run _ _ _ _ t g E1)). unfold bind, store_offset, moved, ret. cbn.
      rewrite (proj2 (Z.ltb_lt 0 (zlen c))) by done. by rewrite (swrap_small 32) by lia. }
    eapply run_step; [exact Ew |].
    rewrite (IH (off + zlen c) _ w1 ks' w2 Hall) by (first [lia | done | by rewrite lookup_insert_eq]).
    rewrite insert_insert_eq. by rewrite Z.add_assoc.
Qed.
End Writes.

(** ** Iterating *)
Section Iterate.
Context {S : Type} (st : store S) (cs : Z) (R : S -> Z -> (Z -> option (list Z)) -> Prop) (fuel : nat) (Hfuel : (0 < fuel)%nat).
Implicit Types (f : evfs S) (a : handles S).

(** The loop of a user: entry, size and key, until there is no entry. *)
Fixpoint iterate (k : nat) (it : option evfs_iterator) : partial_state (evfs S) (list (Z * Z * list Z)) :=
  found <- evfs_iterate_entries st true it ;;
  match found, k with
  | None, _ => ret []
  | Some _, O => stuck
  | Some i, Datatypes.S k =>
      rest <- iterate k found ;;
      ret ((evfs_get_iterator_entry_id found, evfs_get_iterator_entry_size found, default [] (evfs_get_iterator_entry_key found)) :: rest)
  end.

(** What it shows of entries with these names and contents. *)
Fixpoint listing (name_of data_of : Z -> list Z) (before : list Z) (q : list Z) : list (Z * Z * list Z) :=
  match q with
  | [] => []
  | id :: q =>
      let shown := if decide (name_of id = []) then before else name_of id in
      (id, zlen (data_of id), shown) :: listing name_of data_of shown q
  end.

Lemma query_key_run n c w id h : good cs R n c w -> usable id h w ->
  evfs_entries_query_key st id w = Some ((zlen (cstring (key h)), if 0 <? zlen (cstring (key h)) then Some (cstring (key h)) else None), w).
Proof.
  intros Hg Hus. apply (reference_look st cs R fuel Hfuel n c w id h); [done | done |].
  unfold bind. by rewrite (head_run id (more_refs h) (referenced id h w)) by (cbn; apply lookup_insert_eq).
Qed.

Lemma entry_look {A} (m : M S A) x f : m (below f) = Some (x, below f) -> entry m f = Some (x, f).
Proof. intros E. unfold entry. rewrite E. by destruct f. Qed.

(** One call, on an iterator that has [q] before it. *)
Lemma iterate_end it f : mgr_ready f = kEvmgrReady -> default (entries_list (w_entries (below f))) (it ≫= pos) = [] ->
  evfs_iterate_entries st true it f = Some (None, f).
Proof.
  intros Hr Hq. unfold evfs_iterate_entries, when_ready. rewrite get_run, Hr. change (kEvmgrReady =? kEvmgrReady) with true. cbn [orb negb].
  assert (forall i, pos i = it ≫= pos -> entry (gets_option (evfs_entries_iterate (pos i))) f = Some ((-1, []), f)) as Hi.
  { intros i Ei. apply entry_look. unfold gets_option, evfs_entries_iterate. by rewrite Ei, Hq. }
  destruct it as [i|]; [rewrite (bind_some _ _ _ _ _ (Hi i eq_refl)) | rewrite (bind_some _ _ _ _ _ (Hi (Iterator None (-1) 0 []) eq_refl))]; reflexivity.
Qed.

Lemma iterate_step name data n c it id q h f : mgr_ready f = kEvmgrReady -> good cs R n c (below f) ->
  default (entries_list (w_entries (below f))) (it ≫= pos) = id :: q -> 0 < id ->
  content cs R id h data (32 + zlen data) n c (below f) -> usable id h (below f) -> cstring (key h) = name ->
  evfs_iterate_entries st true it f =
    Some (Some (Iterator (Some q) id (zlen data) (if decide (name = []) then default [] (i_key <$> it) else name)), f).
Proof.
  intros Hr Hg Hq Hid Hct Hus Hn. unfold evfs_iterate_entries, when_ready. rewrite get_run, Hr. change (kEvmgrReady =? kEvmgrReady) with true. cbn [orb negb].
  assert (forall i, pos i = it ≫= pos -> entry (gets_option (evfs_entries_iterate (pos i))) f = Some ((id, q), f)) as Hi.
  { intros i Ei. apply entry_look. unfold gets_option, evfs_entries_iterate. rewrite Ei, Hq. cbn [iterate_from].
    rewrite (us_head _ _ _ Hus). cbn. by rewrite decide_True by apply (us_state _ _ _ Hus). }
  assert (forall i, pos i = it ≫= pos -> i_key i = default [] (i_key <$> it) ->
    (let* (id, rest) := entry (gets_option (evfs_entries_iterate (pos i))) in
     if id <=? 0 then ret None
     else
       let* (_, k) := entry (evfs_entries_query_key st id) in
       n <- entry (evfs_entries_query_user_seg_size st id) ;;
       ret (Some (Iterator (Some rest) id n (default (i_key i) k)))) f =
    Some (Some (Iterator (Some q) id (zlen data) (if decide (name = []) then default [] (i_key <$> it) else name)), f)) as Hrun.
  { intros i Ei Ek. rewrite (bind_some _ _ _ _ _ (Hi i Ei)). rewrite (proj2 (Z.leb_gt id 0)) by done.
    rewrite (bind_some _ _ _ _ _ (entry_look _ _ f (query_key_run n c (below f) id h Hg Hus))).
    rewrite (bind_some _ _ _ _ _ (entry_look _ _ f (query_size_run st cs R fuel Hfuel n c (below f) id h data _ Hct Hus))).
    unfold ret. rewrite Hn, Ek. replace (32 + zlen data - 32) with (zlen data) by lia. destruct name as [|x s]; [done |].
    rewrite zlen_cons. pose proof (zlen_nonneg s). rewrite (proj2 (Z.ltb_lt _ _)) by lia. by rewrite decide_False by done. }
  destruct it as [i|]; [by apply (Hrun i) | by apply (Hrun (Iterator None (-1) 0 []))].
Qed.

(** C25: walking the entries with evfs_iterate_entries from NULL until it returns NULL
    shows every entry once, in the order of the list, with the number of its bytes and its
    name; an entry without a name shows the name of the one before it. *)
Theorem iterate_lists_entries name_of data_of n c f : mgr_ready f = kEvmgrReady -> good cs R n c (below f) ->
  let q := entries_list (w_entries (below f)) in
  (forall id, id ∈ q -> 0 < id /\ exists h, content cs R id h (data_of id) (32 + zlen (data_of id)) n c (below f) /\ usable id h (below f) /\
    cstring (key h) = name_of id) ->
  iterate (length q) None f = Some (listing name_of data_of [] q, f).
Proof.
  intros Hr Hg q Hall.
  assert (forall q it, default (entries_list (w_entries (below f))) (it ≫= pos) = q ->
    (forall id, id ∈ q -> 0 < id /\ exists h, content cs R id h (data_of id) (32 + zlen (data_of id)) n c (below f) /\ usable id h (below f) /\
      cstring (key h) = name_of id) ->
    iterate (length q) it f = Some (listing name_of data_of (default [] (i_key <$> it)) q, f)) as Hgen.
  { clear q Hall. induction q as [|id q IH]; intros it Hq Hall; cbn [length iterate].
    - by rewrite (bind_some _ _ _ _ _ (iterate_end it f Hr Hq)).
    - destruct (Hall id) as (Hid & h & Hct & Hus & Hn); [constructor |].
      rewrite (bind_some _ _ _ _ _ (iterate_step (name_of id) (data_of id) n c it id q h f Hr Hg Hq Hid Hct Hus Hn)).
      set (i := Iterator (Some q) id _ _). cbn match.
      rewrite (bind_some _ _ _ _ _ (IH (Some i) eq_refl (fun x Hx => Hall x ltac:(by constructor)))). reflexivity. }
  by apply (Hgen q None).
Qed.
End Iterate.

(** ** Witnesses, in memory *)
Definition plain_image : image (Z * (Z -> option (list Z))) :=
  Image (fun _ _ s => Some (NSP_STATUS_SUCCESSFUL, s)) (fun s => Some s) (fun s => Some s)
    (fun _ s => Some (Some NSP_STATUS_SUCCESSFUL, s)) (fun _ => Some (0, 0)).

(** One open entry with a byte. *)
Definition demo_run : option (list result * handles (Z * (Z -> option (list Z)))) := run_ops (evfs_spec plain_store demo_memory) [OpCreate [97]; OpWrite 1 [7]] (Handles ∅ 0 demo_world).
Lemma demo_state : exists f a rs, demo_run = Some (rs, a) /\
  run_ops (evfs_call plain_store demo_memory next_block true) [OpCreate [97]; OpWrite 1 [7]] (started demo_world) = Some (rs, f) /\ holds f a.
Proof.
  pose proof (ops_refine plain_store demo_memory next_block true next_block_fresh eq_refl [OpCreate [97]; OpWrite 1 [7]] (started demo_world)
    (Handles ∅ 0 demo_world) (holds_start demo_world) ltac:(done)) as H.
  assert (fst <$> demo_run = Some [(1, []); (1, [])]) as E by (vm_compute; reflexivity).
  unfold demo_run in E |- *. destruct (run_ops (evfs_spec plain_store demo_memory) _ _) as [[rs a]|]; [|discriminate E].
  destruct H as (f & Ef & Hf). exists f, a, rs. split; [reflexivity |]. split; [exact Ef | exact Hf].
Qed.

Lemma evfs_close_ok_witness : exists f f' rs,
  run_ops (evfs_call plain_store demo_memory next_block true) [OpCreate [97]; OpWrite 1 [7]] (started demo_world) = Some (rs, f) /\
  evfs_close plain_store plain_image demo_memory f = Some (tt, f') /\ mgr_ready f' = kEvmgrNotReady /\ descriptors f' = ∅.
Proof.
  destruct demo_state as (f & a & rs & Ea & Ef & Hf).
  assert (match demo_run with Some (_, a) => match evfs_entries_uninit plain_store (files a) with Some _ => true | None => false end | None => false end = true) as E
    by (vm_compute; reflexivity).
  rewrite Ea in E. destruct (evfs_entries_uninit plain_store (files a)) as [[[] w]|] eqn:Eu; [|discriminate E].
  exists f. eexists. exists rs. split; [exact Ef |].
  split; [exact (evfs_close_ok plain_store plain_image demo_memory f a w (w_store w) Hf Eu eq_refl) |]. split; reflexivity.
Defined.

Lemma leaked_reference_never_closes_witness : exists f f' rs,
  run_ops (evfs_call plain_store demo_memory next_block true) [OpCreate [97]; OpWrite 1 [7]] (started demo_world) = Some (rs, f) /\
  evfs_write_entry plain_store demo_memory false 1 [8] f = Some (posix__makeerror ENOMEM, f') /\
  evfs_close plain_store plain_image demo_memory f' = None.
Proof.
  destruct demo_state as (f & a & rs & Ea & Ef & Hf).
  assert ((fun x => table x.2 !! 1) <$> demo_run = Some (Some (1, 1))) as E by (vm_compute; reflexivity).
  rewrite Ea in E. injection E as E.
  destruct (leaked_reference_never_closes plain_store plain_image demo_memory f a 1 1 1 [8] Hf) as (f' & E1 & _ & E2); [done | done | exact E |].
  exists f, f', rs. split; [exact Ef |]. split; [exact E1 | exact E2].
Defined.

Lemma iterate_lists_entries_witness : exists w id w1,
  plain_disk = Some w /\ evfs_entries_create_one plain_store (plenty 1) (Some [97; 98]) w = Some ((NSP_STATUS_SUCCESSFUL, Some id), w1) /\
  iterate plain_store 1 None (started w1) = Some ([(id, 0, [97; 98])], started w1).
Proof.
  destruct plain_make as (w & E & Hg & Ee).
  destruct (create_run plain_store 64 2 100 plain_rel 1 ltac:(lia) ltac:(lia) 3 (plain_zero 3).2 w (Some [97; 98]) Hg)
    as (id & n1 & a1 & w1 & E1 & Hct1 & Hus1 & Hn1 & _);
    [split; [done |]; rewrite Ee; intros x Hx; by apply not_elem_of_nil in Hx |
     pose proof (spent_room plain_store 64 2 100 plain_rel 3 _ w 1 Hg ltac:(lia) ltac:(lia)); lia |].
  assert ((fun x => (x.1.2, entries_list (w_entries x.2))) <$> (w ← plain_disk; evfs_entries_create_one plain_store (plenty 1) (Some [97; 98]) w)
    = Some (Some 1, [1])) as El by (vm_compute; reflexivity).
  rewrite E in El. cbn [mbind option_bind] in El. rewrite E1 in El. injection El as -> El.
  exists w, 1, w1. split; [exact E |]. split; [exact E1 |].
  pose proof (iterate_lists_entries plain_store 64 plain_rel 1 ltac:(lia) (fun _ => [97; 98]) (fun _ => []) n1 a1 (started w1) eq_refl
    (ct_good _ _ _ _ _ _ _ _ _ Hct1)) as H. cbn [below started] in H. rewrite El in H. apply H. intros id Hid. apply list_elem_of_singleton in Hid as ->.
  split; [done |]. eexists. split; [exact Hct1 |]. split; [exact Hus1 | reflexivity].
Defined.
