(* ===== verification/EvfsLoad.v ===== *)
(** Closing and loading the entries of evfs: what [evfs_entries_uninit] leaves behind, and
    what [evfs_entries_load] finds on the disk again. *)
From S2P Require Import Prelude AvlTree Ifos Cluster View Entries EntryFile.
#[local] Open Scope monad_scope.

(** ** Freeing all views *)

(** The views on the two lists, whatever their ids. *)
Record tracked (v : views) : Prop := {
  tk_nodup : NoDup (busylist v ++ idlelist v);
  tk_nodes id : is_Some (nodes v !! id) <-> id ∈ busylist v ++ idlelist v;
  tk_tree : search_tree __evfs_view_compare (root_of_view_tree v);
  tk_elems id : id ∈ elems (root_of_view_tree v) <-> id ∈ busylist v ++ idlelist v;
  tk_counts : count_of_busy_views v = zlen (busylist v) /\ count_of_idle_views v = zlen (idlelist v);
}.

Lemma views_tracked n v : views_ok n v -> tracked v.
Proof.
  intros [H1 H2 H3 H4 H5 H6]. split; try done; [by intros id; rewrite H3, H2 | by intros id; rewrite H5].
Qed.

Lemma elems_empty (l : list Z) : (forall x, x ∈ l <-> x ∈ (@nil Z)) -> l = [].
Proof. intros H. destruct l as [|x l]; [done |]. destruct (not_elem_of_nil x). apply H. constructor. Qed.

Lemma tracked_none v : tracked v -> busylist v = [] -> idlelist v = [] -> views_ok 1 v.
Proof.
  intros [H1 H2 H3 H4 H5] Eb Ei. rewrite Eb, Ei in *. split; rewrite ?Eb, ?Ei; try done.
  - intros id. split; [by intros ?%not_elem_of_nil | lia].
  - intros id. rewrite H2. split; [by intros ?%not_elem_of_nil | lia].
  - by rewrite (elems_empty _ H4).
Qed.

(** One view, taken off its list by the caller. *)
Lemma free_view_ok id v b i : tracked v -> NoDup (id :: b ++ i) -> (forall x, x ∈ busylist v ++ idlelist v <-> x ∈ id :: b ++ i) ->
  forall w, w = Views (nodes v) (root_of_view_tree v) b i (zlen b) (zlen i) (total_cluster_count v) (cluster_size v) (max_data_seg_size v) ->
  exists v', free_view id w = Some v' /\ tracked v' /\ busylist v' = b /\ idlelist v' = i /\ total_cluster_count v' = total_cluster_count v.
Proof.
  intros [_ H2 H3 H4 _] Hnd Hbi w ->. unfold free_view. cbn [root_of_view_tree].
  destruct (avlremove_none _ (root_of_view_tree v) id H3) as (t & rm & -> & Ht & El). cbn [mbind option_bind].
  apply NoDup_cons in Hnd as [Hid Hnd]. eexists. split; [reflexivity |]. split; [|done]. split; cbn.
  - done.
  - intros x. rewrite lookup_delete_is_Some, H2, Hbi, elem_of_cons. naive_solver.
  - done.
  - intros x. rewrite El. unfold list_remove. rewrite list_elem_of_filter, H4, Hbi, elem_of_cons, view_compare_eq. naive_solver.
  - done.
Qed.

Lemma free_busy_views_ok : forall q v, tracked v -> busylist v = q ->
  exists v', free_busy_views q v = Some v' /\ tracked v' /\ busylist v' = [] /\ idlelist v' = idlelist v /\
    total_cluster_count v' = total_cluster_count v.
Proof.
  induction q as [|id q IH]; intros v Hv Eb; cbn [free_busy_views]; [by exists v |].
  pose proof (tk_nodup _ Hv) as Hnd. pose proof (tk_counts _ Hv) as [Hb Hi]. rewrite Eb in *.
  destruct (free_view_ok id v q (idlelist v) Hv Hnd ltac:(by rewrite Eb) (set_busy q (count_of_busy_views v - 1) v)) as (v1 & -> & Hv1 & E1 & E2 & E3).
  { unfold set_busy. rewrite Hb, Hi, zlen_cons. f_equal. lia. }
  cbn [mbind option_bind]. destruct (IH v1 Hv1 E1) as (v2 & -> & Hv2 & E4 & E5 & E6). exists v2. split; [done |]. split; [done |].
  split; [done |]. split; congruence.
Qed.

Lemma free_idle_views_ok : forall q v, tracked v -> busylist v = [] -> idlelist v = q ->
  exists v', free_idle_views true q v = Some v' /\ tracked v' /\ busylist v' = [] /\ idlelist v' = [] /\
    total_cluster_count v' = total_cluster_count v.
Proof.
  induction q as [|id q IH]; intros v Hv Eb Ei; cbn [free_idle_views]; [by exists v |].
  pose proof (tk_nodup _ Hv) as Hnd. pose proof (tk_counts _ Hv) as [Hb Hi]. rewrite Eb, Ei in *. cbn [app] in Hnd.
  destruct (free_view_ok id v [] q Hv Hnd ltac:(by rewrite Eb, Ei) (set_idle q (count_of_idle_views v - 1) v)) as (v1 & -> & Hv1 & E1 & E2 & E3).
  { unfold set_idle. rewrite Hb, Hi, zlen_cons, Eb. f_equal. lia. }
  cbn [mbind option_bind]. destruct (IH v1 Hv1 E1 E2) as (v2 & -> & Hv2 & E4 & E5 & E6). exists v2. split; [done |]. split; [done |].
  split; [done |]. split; congruence.
Qed.

(** Stopping the views leaves none. *)
Lemma evfs_view_uninit_ok n v : views_ok n v -> 0 < total_cluster_count v ->
  exists v', evfs_view_uninit v = Some v' /\ views_ok 1 v' /\ total_cluster_count v' = 0.
Proof.
  intros Hv Ht. unfold evfs_view_uninit. rewrite (proj2 (Z.leb_gt _ _) Ht).
  assert (tracked (set_total 0 v)) as Hv0 by (destruct (views_tracked n v Hv) as [? ? ? ? ?]; by split).
  destruct (free_busy_views_ok (busylist v) _ Hv0 eq_refl) as (v1 & -> & Hv1 & Eb1 & Ei1 & Et1). cbn [mbind option_bind].
  destruct (free_idle_views_ok (idlelist v1) v1 Hv1 Eb1 eq_refl) as (v2 & -> & Hv2 & Eb2 & Ei2 & Et2).
  exists v2. split; [done |]. split; [by apply tracked_none | by rewrite Et2, Et1].
Qed.

(** ** A volume: the files of an image, by the clusters of their heads *)

Lemma named_unique t (x y : list Z * Z) : search_tree __evfs_entries_compare_named_entry_head t -> x ∈ elems t -> y ∈ elems t ->
  cstring x.1 = cstring y.1 -> x = y.
Proof.
  intros [_ Ho] Hx Hy E.
  pose proof (list_search_elem __evfs_entries_compare_named_entry_head x y _ Ho Hy (proj2 (named_compare_eq _ _) E)) as H1.
  rewrite (list_search_elem __evfs_entries_compare_named_entry_head x x _ Ho Hx (proj2 (named_compare_eq _ _) eq_refl)) in H1. by injection H1.
Qed.

Lemma named_cstring h : named h <-> cstring (key h) <> [].
Proof.
  unfold named. destruct (key h) as [|x k]; cbn; [done |]. destruct (Z.eqb_spec x 0) as [-> | Hx]; done.
Qed.

(** The index knows exactly the heads, and no element is without a head. *)
Record catalogued (e : entries) : Prop := {
  cg_list id : id ∈ entries_list e <-> is_Some (heads e !! id);
  cg_nodup : NoDup (entries_list e);
  cg_count : count_of_entries e = zlen (entries_list e);
  cg_tree id : id ∈ elems (root_of_entries_tree e) <-> is_Some (heads e !! id);
  cg_named k id : (k, id) ∈ elems (root_of_named_entries_tree e) <-> exists h, heads e !! id = Some h /\ key h = k /\ named h;
  cg_wild : wild e = [];
  cg_wcount : count_of_wild_entries_element e = 0;
}.

(** Nothing reads or writes the entry, and it is not to be deleted. *)
Record at_rest (h : evfs_entry_head) : Prop := {
  ar_state : state h = kEvfsEntryNormal;
  ar_hard : hard_remove_on_detach h = false;
  ar_io : io_refcnt h = 0;
  ar_refs : 0 <= refcnt h;
}.

(** The manager of the entries when there are none. *)
Record no_entries (e : entries) : Prop := {
  ne_heads : heads e = ∅;
  ne_tree : search_tree __evfs_entries_compare_entry_head (root_of_entries_tree e);
  ne_elems id : id ∉ elems (root_of_entries_tree e);
  ne_named : search_tree __evfs_entries_compare_named_entry_head (root_of_named_entries_tree e);
  ne_names x : x ∉ elems (root_of_named_entries_tree e);
  ne_list : entries_list e = [];
  ne_count : count_of_entries e = 0;
  ne_wild : wild e = [];
  ne_wcount : count_of_wild_entries_element e = 0;
}.

Section Volume.
Context {S : Type} (st : store S) (cs step limit : Z) (R : S -> Z -> (Z -> option (list Z)) -> Prop)
  `{!StoreOk st cs step limit R} `{!Reliable st cs step limit R} (fuel : nat) (Hfuel : (0 < fuel)%nat) (Hcs : 44 <= cs).
Implicit Types (w : world S) (n : Z) (a : Z -> option (list Z)) (h : evfs_entry_head) (fs : gmap Z (list Z * list Z)).
#[local] Abbreviation good := (good cs R).
#[local] Abbreviation content := (content cs R).
#[local] Abbreviation spent := (spent step limit).

(** ** Letting the entries go *)
Lemma free_soft id : forall q h w, heads (w_entries w) !! id = Some h -> elements h = q -> NoDup q -> hard_remove_on_detach h = false ->
  exists h', free_elements st id q w = Some (tt, World (put id h' (w_entries w)) (w_views w) (w_store w)) /\ hard_remove_on_detach h' = false.
Proof.
  induction q as [|x q IH]; intros h w Hh Eq Hnd Hrm; cbn [free_elements].
  { exists h. rewrite put_id by done. by destruct w. }
  apply NoDup_cons in Hnd as [Hx Hnd]. set (h1 := set_elements q (count_of_elements h - 1) h).
  assert (list_del x (elements h) = Some q) as El.
  { rewrite Eq, list_del_elem by constructor. rewrite filter_cons_False by (by intros H). rewrite filter_all; [done |]. by intros y Hy ->. }
  set (w1 := World (put id h1 (w_entries w)) (w_views w) (w_store w)).
  assert (__evfs_entries_free_element st (Some id) x w = Some (tt, w1)) as E1.
  { unfold __evfs_entries_free_element. run (head_run id h w Hh). rewrite El.
    run (on_head_run id (set_elements q (count_of_elements h - 1)) h w Hh). by rewrite Hrm. }
  run E1. destruct (IH h1 w1 (put_get id h1 _) eq_refl Hnd Hrm) as (h' & E2 & Hrm'). exists h'. rewrite E2. cbn. by rewrite put_put.
Qed.

Lemma mandatory_run w id h : heads (w_entries w) !! id = Some h -> io_refcnt h = 0 ->
  __evfs_entries_try_delete_head st id kEvfsEntryMandatory w =
    __evfs_entries_free_head st id (World (put id (set_refs 0 0 (set_state kEvfsEntryCloseWait h)) (w_entries w)) (w_views w) (w_store w)).
Proof.
  intros Hh Hio. unfold __evfs_entries_try_delete_head. run (on_head_run id (set_state kEvfsEntryCloseWait) h w Hh).
  repeat (head_step || rewrite bind_bind). cbn [set_state refcnt io_refcnt]. rewrite Hio.
  change (bool_decide (kEvfsEntryMandatory = kEvfsEntryMandatory) && (0 =? 0)) with true. cbv iota.
  repeat (head_step || rewrite bind_bind). done.
Qed.

Lemma let_go n a w id h : good n a w -> heads (w_entries w) !! id = Some h -> at_rest h -> NoDup (elements h) ->
  catalogued (w_entries w) ->
  exists e', __evfs_entries_try_delete_head st id kEvfsEntryMandatory w = Some (tt, World e' (w_views w) (w_store w)) /\
    good n a (World e' (w_views w) (w_store w)) /\ catalogued e' /\ heads e' = delete id (heads (w_entries w)) /\
    entries_list e' = filter (.≠ id) (entries_list (w_entries w)).
Proof.
  intros Hg Hh [Hs Hrm Hio Hr] Hnd Hix. pose proof Hix as [I1 I2 I3 I4 I5 I6 I7]. rewrite (mandatory_run w id h Hh Hio).
  assert (id ∈ entries_list (w_entries w)) as Hl by (apply I1; by eexists).
  set (h1 := set_refs _ _ _).
  set (w1 := World (put id h1 (w_entries w)) (w_views w) (w_store w)).
  assert (good n a w1) as Hg1 by (by apply good_put). assert (heads (w_entries w1) !! id = Some h1) as Hh1 by apply put_get.
  unfold __evfs_entries_free_head. run (head_run id h1 w1 Hh1).
  destruct (detach_run cs R n a w1 id h1 Hg1 Hh1 Hl) as (t & tn & E2 & Hg2 & Ht & Hn). run E2.
  set (w2 := World (set_index _ _ _ _ _) _ _) in *.
  destruct (free_soft id (elements h1) h1 w2 Hh1 eq_refl Hnd Hrm) as (h3 & E3 & _). run E3.
  change (hard_remove_on_detach h1) with (hard_remove_on_detach h). rewrite Hrm, bind_ret. unfold modify.
  eexists. split; [reflexivity |]. cbn [w2 w_entries w_views w_store w1].
  set (e' := set_heads _ _). assert (heads e' = delete id (heads (w_entries w))) as Eh.
  { cbn. by rewrite !delete_insert_eq. }
  split; [by destruct Hg2 as [? ? ? ? ? ?]; split |]. split; [|split; [exact Eh | done]].
  split; rewrite ?Eh; cbn.
  - intros i. rewrite lookup_delete_is_Some, list_elem_of_filter, I1. naive_solver.
  - by apply NoDup_filter.
  - rewrite I3. by rewrite zlen_del.
  - intros i. rewrite Ht, lookup_delete_is_Some. cbn. rewrite I4. naive_solver.
  - intros k i. rewrite Hn. cbn [w1 w_entries put set_heads root_of_named_entries_tree fst]. split.
    + intros [Hin Hno]. apply I5 in Hin as (h' & Hh' & Hk & Hnm). exists h'. split; [|done]. rewrite lookup_delete_ne; [done |].
      intros <-. rewrite Hh in Hh'. injection Hh' as <-. apply Hno. by rewrite <- Hk.
    + intros (h' & Hh' & Hk & Hnm). apply lookup_delete_Some in Hh' as [Hne Hh']. split; [apply I5; eauto |].
      intros [Hnm1 Hc]. apply Hne. assert ((key h, id) = (k, i)) as [= _ E]; [|done].
      apply (named_unique _ _ _ (gd_named _ _ _ _ _ Hg)); [apply I5; eauto | apply I5; eauto | exact Hc].
  - done.
  - done.
Qed.

(** Every entry can be let go. *)
Definition all_at_rest (e : entries) : Prop := forall id h, heads e !! id = Some h -> at_rest h /\ NoDup (elements h).

Lemma delete_all_run : forall k n a w, length (entries_list (w_entries w)) = k -> good n a w -> catalogued (w_entries w) ->
  all_at_rest (w_entries w) ->
  exists e', delete_all st k w = Some (tt, World e' (w_views w) (w_store w)) /\ good n a (World e' (w_views w) (w_store w)) /\
    catalogued e' /\ entries_list e' = [].
Proof.
  induction k as [|k IH]; intros n a w Hl Hg Hix Hall; cbn [delete_all]; unfold bind at 1, gets at 1.
  - apply nil_length_inv in Hl. rewrite Hl. exists (w_entries w). by destruct w.
  - destruct (entries_list (w_entries w)) as [|id q] eqn:Eq; [done |].
    destruct (proj1 (cg_list _ Hix id)) as [h Hh]; [rewrite Eq; constructor |]. destruct (Hall id h Hh) as [Hr Hnd].
    destruct (let_go n a w id h Hg Hh Hr Hnd Hix) as (e1 & E1 & Hg1 & Hix1 & Eh1 & El1). rewrite (bind_some _ _ _ _ _ E1).
    pose proof (cg_nodup _ Hix) as Hq. rewrite Eq in Hq, El1. apply NoDup_cons in Hq as [Hid Hq].
    rewrite filter_cons_False in El1 by (by intros H). rewrite filter_all in El1 by (by intros y Hy ->).
    destruct (IH n a (World e1 (w_views w) (w_store w))) as (e2 & E2 & Hg2 & Hix2 & El2); [by cbn; rewrite El1; injection Hl | done | done | |].
    { intros i x. cbn. rewrite Eh1. intros Hx. apply lookup_delete_Some in Hx as [_ Hx]. by apply (Hall i). }
    by exists e2.
Qed.

(** Stopping the entries: all are let go, no cluster is touched. *)
Lemma uninit_run n a w : good n a w -> catalogued (w_entries w) -> all_at_rest (w_entries w) ->
  exists e v, evfs_entries_uninit st w = Some (tt, World e v (w_store w)) /\ no_entries e /\ views_ok 1 v /\ total_cluster_count v = 0.
Proof.
  intros Hg Hix Hall. unfold evfs_entries_uninit. unfold bind at 1, gets at 1.
  destruct (delete_all_run _ n a w eq_refl Hg Hix Hall) as (e & E & Hg' & [I1 I2 I3 I4 I5 I6 I7] & El). run E. cbn [w_entries w_views w_store].
  destruct (evfs_view_uninit_ok n (w_views w) (rd_views _ _ _ _ _ _ (gd_ready _ _ _ _ _ Hg)) (rd_total _ _ _ _ _ _ (gd_ready _ _ _ _ _ Hg)))
    as (v & -> & Hv & Ht). exists e, v. split; [done |]. split; [|done].
  assert (forall id, heads e !! id = None) as Hno.
  { intros id. apply eq_None_not_Some. rewrite <- I1, El. by apply not_elem_of_nil. }
  split; try done.
  - by apply map_empty.
  - apply (gd_tree _ _ _ _ _ Hg').
  - intros id. rewrite I4, Hno. by intros [? ?].
  - apply (gd_named _ _ _ _ _ Hg').
  - intros [k id]. rewrite I5, Hno. by intros (h & ? & _).
  - rewrite I3, El. done.
Qed.

(** ** The files of a volume: key and data by the id of the head *)
Record volume fs n a w : Prop := {
  vl_good : good n a w;
  vl_own : own w;
  vl_index : catalogued (w_entries w);
  vl_dom id : is_Some (heads (w_entries w) !! id) -> is_Some (fs !! id);
  vl_file id k data : fs !! id = Some (k, data) -> exists h, content id h data (32 + zlen data) n a w /\ key h = k /\ at_rest h;
}.

Lemma volume_head fs n a w id h : volume fs n a w -> heads (w_entries w) !! id = Some h -> exists data,
  fs !! id = Some (key h, data) /\ content id h data (32 + zlen data) n a w /\ at_rest h.
Proof.
  intros Hv Hh. destruct (vl_dom _ _ _ _ Hv id) as [[k data] Hf]; [by eexists |].
  destruct (vl_file _ _ _ _ Hv id k data Hf) as (h' & Hct & Hk & Hr). pose proof (ct_entry _ _ _ _ _ _ _ _ _ Hct) as Hh'.
  rewrite Hh in Hh'. injection Hh' as <-. exists data. by rewrite Hk.
Qed.

Lemma volume_rest fs n a w : volume fs n a w -> all_at_rest (w_entries w).
Proof.
  intros Hv id h Hh. destruct (volume_head fs n a w id h Hv Hh) as (data & _ & Hct & Hr). split; [done |].
  by pose proof (ct_nodup _ _ _ _ _ _ _ _ _ Hct) as [_ ?]%NoDup_cons.
Qed.

Lemma volume_usable fs n a w id h : volume fs n a w -> heads (w_entries w) !! id = Some h -> usable id h w.
Proof.
  intros Hv Hh. destruct (volume_head fs n a w id h Hv Hh) as (data & _ & _ & [H1 H2 H3 H4]). split; try done; [lia |].
  apply (cg_tree _ (vl_index _ _ _ _ Hv)). by eexists.
Qed.

(** A file that a run does not touch. *)
Lemma content_keeps X id h data size n a w n' a' w' : content id h data size n a w -> keeps X n a w n' a' w' -> good n' a' w' ->
  (forall i, i ∈ id :: elements h -> ~ X i) -> heads (w_entries w') !! id = Some h ->
  (forall i, i ∈ elements h -> i ∉ elems (root_of_entries_tree (w_entries w'))) -> content id h data size n' a' w'.
Proof.
  intros [C1 C2 C3 C4 C5 C6 C7 (c & Hc & Hs & Hd) (b & Hb & Hp) C10 C11] K Hg HX Hh Hal.
  assert (id ∈ busylist (w_views w)) as Hid by (apply C5; constructor). assert (~ X id) as HXid by (apply HX; constructor).
  split; try done.
  - intros i Hi. by apply (kp_busy _ _ _ _ _ _ _ K), C5.
  - destruct (kp_node _ _ _ _ _ _ _ K id Hid HXid) as (c0 & c' & E0 & E1 & E2 & E3). rewrite Hc in E0. injection E0 as <-.
    exists c'. split; [done |]. by rewrite E2, E3.
  - exists b. by rewrite (kp_user _ _ _ _ _ _ _ K id Hid HXid).
  - apply (stored_keeps cs X n a w n' a' w' id K); [|done]. intros i Hi. split; [apply C5; by constructor | apply HX; by constructor].
Qed.

(** The state after a run on one entry. *)
Lemma volume_update fs n a w id h data n' a' w' (X : Z -> Prop) : volume fs n a w -> keeps X n a w n' a' w' ->
  (forall i, X i -> i = id) -> good n' a' w' -> own w' -> catalogued (w_entries w') ->
  heads (w_entries w') = <[id := h]> (heads (w_entries w)) -> content id h data (32 + zlen data) n' a' w' -> at_rest h ->
  volume (<[id := (key h, data)]> fs) n' a' w'.
Proof.
  intros Hv K HX Hg Ho Hix Eh Hct Hr. split; try done.
  - intros i. rewrite Eh, !lookup_insert_is_Some. intros [? | [? Hi]]; [by left | right]. split; [done |]. by apply (vl_dom _ _ _ _ Hv).
  - intros i k d Hi. destruct (decide (i = id)) as [-> | Hne].
    { rewrite lookup_insert_eq in Hi. injection Hi as <- <-. by exists h. }
    rewrite lookup_insert_ne in Hi by done. destruct (vl_file _ _ _ _ Hv i k d Hi) as (h' & Hct' & Hk & Hr'). exists h'.
    split; [|done]. pose proof (ct_entry _ _ _ _ _ _ _ _ _ Hct') as Hh'.
    assert (heads (w_entries w') !! i = Some h') as Hh2 by (by rewrite Eh, lookup_insert_ne).
    assert (heads (w_entries w') !! id = Some h) as Hh3 by (by rewrite Eh, lookup_insert_eq).
    apply (content_keeps X i h' d _ n a w n' a' w' Hct' K Hg); [| done |].
    + intros j Hj Hx. apply HX in Hx as ->. apply Hne. apply (ow_one _ _ Ho i h' id h id Hh2 Hh3 Hj). constructor.
    + intros j Hj Hin. apply (cg_tree _ Hix) in Hin as [hj Hhj].
      assert (j = i) as -> by (apply (ow_one _ _ Ho j hj i h' j Hhj Hh2); [constructor | by constructor]).
      by destruct (proj1 (NoDup_cons _ _) (ct_nodup _ _ _ _ _ _ _ _ _ Hct')) as [Hn _].
Qed.

Lemma catalogued_entered id h e e' : catalogued e -> entered id h e e' -> heads e' = <[id := h]> (heads e) -> heads e !! id = None -> catalogued e'.
Proof.
  intros [I1 I2 I3 I4 I5 I6 I7] [N1 N2 N3 N4 N5 N6] Eh Hno. split; rewrite ?Eh, ?N3, ?N5, ?N6; try done.
  - intros i. rewrite elem_of_app, list_elem_of_singleton, I1, lookup_insert_is_Some. destruct (decide (id = i)); naive_solver.
  - apply NoDup_app. split; [done |]. split; [|apply NoDup_singleton]. intros x Hx ->%list_elem_of_singleton.
    apply I1 in Hx. rewrite Hno in Hx. by destruct Hx.
  - rewrite N4, I3, zlen_app. done.
  - intros i. rewrite N1, I4, lookup_insert_is_Some. destruct (decide (id = i)); naive_solver.
  - intros k i. rewrite N2, I5. split.
    + intros [(h' & Hh' & Hk & Hnm) | [Hnm [= -> ->]]].
      * exists h'. rewrite lookup_insert_ne by (intros <-; congruence). done.
      * exists h. by rewrite lookup_insert_eq.
    + intros (h' & Hh' & Hk & Hnm). apply lookup_insert_Some in Hh' as [[-> ->] | [Hne Hh']]; [right; by subst | left; eauto].
Qed.

Lemma catalogued_put id h h' e : catalogued e -> heads e !! id = Some h -> key h' = key h -> catalogued (put id h' e).
Proof.
  intros [I1 I2 I3 I4 I5 I6 I7] Hh Hk. assert (forall i, is_Some (heads (put id h' e) !! i) <-> is_Some (heads e !! i)) as Hd.
  { intros i. unfold put. cbn. rewrite lookup_insert_is_Some. destruct (decide (id = i)) as [<- |]; [rewrite Hh |]; naive_solver. }
  split; try done; [by intros i; rewrite Hd, <- I1 | by intros i; rewrite Hd, <- I4 |].
  intros k i. change (root_of_named_entries_tree (put id h' e)) with (root_of_named_entries_tree e). rewrite I5. unfold put. cbn. unfold named.
  split; intros (x & Hx & <- & Hn).
  - destruct (decide (id = i)) as [<- | Hne]; [|exists x; by rewrite lookup_insert_ne].
    rewrite Hh in Hx. injection Hx as <-. exists h'. rewrite lookup_insert_eq, Hk. done.
  - destruct (decide (id = i)) as [<- | Hne]; [|exists x; by rewrite lookup_insert_ne in Hx].
    rewrite lookup_insert_eq in Hx. injection Hx as <-. exists h. by rewrite <- Hk.
Qed.

(** The entry is open. *)
Definition opened id w : Prop := exists h, heads (w_entries w) !! id = Some h /\ 0 < refcnt h.

(** ** Making and filling files *)
Lemma volume_create fs n a w name : volume fs n a w -> free_name name w -> spent n w + step <= limit ->
  exists id n' a' w', evfs_entries_create_one st (plenty fuel) name w = Some ((NSP_STATUS_SUCCESSFUL, Some id), w') /\ fs !! id = None /\
    volume (<[id := (key_for name, [])]> fs) n' a' w' /\ spent n' w' <= spent n w + step /\ opened id w'.
Proof.
  intros Hv Hf Hroom. pose proof (vl_good _ _ _ _ Hv) as Hg. pose proof (vl_own _ _ _ _ Hv) as Ho.
  destruct (create_run st cs step limit R fuel Hfuel Hcs n a w name Hg Hf Hroom)
    as (id & n1 & a1 & w1 & E & Hct & Hus & Hn1 & K & Hnew & Hent & Eh & Hown).
  assert (heads (w_entries w) !! id = None) as Hno.
  { apply eq_None_not_Some. intros [h Hh]. apply Hnew. apply (ow_busy _ _ Ho id h id Hh). constructor. }
  exists id, n1, a1, w1. split; [done |]. split.
  { apply eq_None_not_Some. intros [[k d] Hk]. destruct (vl_file _ _ _ _ Hv id k d Hk) as (h & Hc & _).
    pose proof (ct_entry _ _ _ _ _ _ _ _ _ Hc) as Hh. by rewrite Hno in Hh. }
  split; [|split; [done | exists (set_refs 1 0 (new_head name)); split; [apply (us_head _ _ _ Hus) | done]]].
  apply (volume_update fs n a w id (set_refs 1 0 (new_head name)) [] n1 a1 w1 (fun _ => False)); try done.
  - apply (ct_good _ _ _ _ _ _ _ _ _ Hct).
  - by apply Hown.
  - by apply (catalogued_entered id (set_refs 1 0 (new_head name)) (w_entries w)); [apply (vl_index _ _ _ _ Hv) | | |].
Qed.

Lemma volume_append fs n a w id k old more : volume fs n a w -> fs !! id = Some (k, old) -> appendable cs (zlen old) = true ->
  0 < zlen more -> 32 + zlen old + zlen more < 2 ^ 31 -> spent n w + step * blocks cs (zlen more) <= limit ->
  exists n' a' w', evfs_entries_write_data st (plenty fuel) id more (zlen old) w = Some (zlen more, w') /\
    volume (<[id := (k, old ++ more)]> fs) n' a' w' /\ spent n' w' <= spent n w + step * blocks cs (zlen more) /\
    (opened id w -> opened id w').
Proof.
  intros Hv Hf Ha Hm Hsz Hroom. destruct (vl_file _ _ _ _ Hv id k old Hf) as (h & Hct & <- & Hr).
  pose proof (ct_entry _ _ _ _ _ _ _ _ _ Hct) as Hh.
  destruct (append_run st cs step limit R fuel Hfuel Hcs n a w id h old more Hct (volume_usable _ _ _ _ _ _ Hv Hh) Ha Hm Hsz Hroom)
    as (n1 & a1 & w1 & E & Hn1 & ids & Hct1 & K & Ee & _ & Hown).
  exists n1, a1, w1. split; [done |]. split; [|split; [done |]].
  2: { intros (h0 & Hh0 & Hr0). rewrite Hh in Hh0. injection Hh0 as <-. exists (grown h ids). by rewrite Ee, put_get. }
  apply (volume_update fs n a w id (grown h ids) (old ++ more) n1 a1 w1 (eq id)); try done.
  - apply (ct_good _ _ _ _ _ _ _ _ _ Hct1).
  - by apply Hown, (vl_own _ _ _ _ Hv).
  - rewrite Ee. by apply (catalogued_put id h); [apply (vl_index _ _ _ _ Hv) | |].
  - by rewrite Ee.
  - by destruct Hr; split.
Qed.

Lemma volume_fill id k : forall chunks old fs n a w, volume fs n a w -> fs !! id = Some (k, old) -> opened id w ->
  all_appendable cs (zlen old) chunks = true -> 32 + zlen (old ++ concat chunks) < 2 ^ 31 -> spent n w + step * demand cs chunks <= limit ->
  exists n' a' w', append_all st fuel id (zlen old) chunks w = Some (map zlen chunks, w') /\
    volume (<[id := (k, old ++ concat chunks)]> fs) n' a' w' /\ spent n' w' <= spent n w + step * demand cs chunks /\ opened id w'.
Proof.
  induction chunks as [|d ds IH]; intros old fs n a w Hv Hf Ho Hall Hsz Hroom; cbn [append_all concat map] in *.
  { exists n, a, w. rewrite app_nil_r, insert_id by done. split; [done |]. split; [done |]. split; [cbn; lia | done]. }
  cbn [demand foldr] in Hroom |- *. fold (demand cs ds) in Hroom |- *. pose proof (demand_pos st cs step limit R fuel Hfuel ds) as Hdp.
  pose proof (so_step : 0 < step) as Hst1. pose proof (blocks_pos st cs step limit R fuel Hfuel (zlen d) (zlen_nonneg d)) as Hb1.
  apply andb_prop in Hall as [[Ha Hd%Z.ltb_lt]%andb_prop Hall]. pose proof (zlen_nonneg (concat ds)). rewrite !zlen_app in Hsz.
  destruct (volume_append fs n a w id k old d Hv Hf Ha Hd ltac:(lia) ltac:(nia)) as (n1 & a1 & w1 & E1 & Hv1 & Hn1 & Ho1).
  run E1. rewrite app_assoc. destruct (IH (old ++ d) _ n1 a1 w1 Hv1 (lookup_insert_eq _ _ _) (Ho1 Ho)) as (n2 & a2 & w2 & E2 & Hv2 & Hn2 & Ho2).
  { by rewrite zlen_app. } { rewrite !zlen_app. lia. } { nia. }
  rewrite zlen_app in E2. run E2. exists n2, a2, w2. rewrite insert_insert_eq in Hv2. split; [done |]. split; [done |]. split; [nia | done].
Qed.

(** A name no file has. *)
Lemma volume_free fs n a w name : volume fs n a w -> zlen (cstring name) < 32 ->
  (forall id k d, fs !! id = Some (k, d) -> cstring name <> cstring k) -> free_name (Some name) w.
Proof.
  intros Hv Hl Hfree. split; [done |]. intros [k id] (h & Hh & <- & _)%(cg_named _ (vl_index _ _ _ _ Hv)).
  destruct (volume_head fs n a w id h Hv Hh) as (data & Hf & _). by apply (Hfree id (key h) data).
Qed.

(** Counting references. *)
Lemma volume_put fs n a w id h h' : volume fs n a w -> heads (w_entries w) !! id = Some h -> elements h' = elements h ->
  key h' = key h -> count_of_elements h' = count_of_elements h -> at_rest h' ->
  volume fs n a (World (put id h' (w_entries w)) (w_views w) (w_store w)).
Proof.
  intros Hv Hh E1 E2 E3 Hr. destruct (volume_head fs n a w id h Hv Hh) as (data & Hf & Hct & _). pose proof (vl_good _ _ _ _ Hv) as Hg.
  assert (<[id := (key h', data)]> fs = fs) as <- by (by rewrite E2, insert_id).
  assert (good n a (World (put id h' (w_entries w)) (w_views w) (w_store w))) as Hg' by (by apply good_put).
  apply (volume_update fs n a w id h' data n a _ (fun _ => False)); try done.
  - by apply (keeps_views cs R).
  - by apply (owned_put _ _ id h); [| | apply (vl_own _ _ _ _ Hv)].
  - by apply (catalogued_put id h); [apply (vl_index _ _ _ _ Hv) | |].
  - by apply (content_put cs R id h).
Qed.

Lemma volume_close fs n a w id : volume fs n a w -> opened id w ->
  exists w', evfs_entries_close_one st id w = Some (tt, w') /\ volume fs n a w' /\ w_store w' = w_store w /\ w_views w' = w_views w.
Proof.
  intros Hv (h & Hh & Hr). destruct (volume_head fs n a w id h Hv Hh) as (data & _ & _ & [A1 A2 A3 A4]).
  rewrite (close_run st cs R fuel Hfuel n a w id h (vl_good _ _ _ _ Hv) (volume_usable _ _ _ _ _ _ Hv Hh) Hr).
  eexists. split; [reflexivity |]. split; [|done]. apply (volume_put fs n a w id h); try done. split; cbn; try done. lia.
Qed.

(** A name leads to its file. *)
Lemma volume_find fs n a w id k data name : volume fs n a w -> fs !! id = Some (k, data) -> cstring k = cstring name -> cstring name <> [] ->
  zlen (cstring name) < 32 ->
  exists w', evfs_entries_open_one_by_name (Some name) w = Some ((NSP_STATUS_SUCCESSFUL, Some id), w') /\ volume fs n a w' /\ opened id w' /\
    w_store w' = w_store w.
Proof.
  intros Hv Hf Hk Hne Hl. destruct (vl_file _ _ _ _ Hv id k data Hf) as (h & Hct & <- & Hr).
  pose proof (ct_entry _ _ _ _ _ _ _ _ _ Hct) as Hh. pose proof Hr as [A1 A2 A3 A4].
  set (h' := set_refs (refcnt h + 1) (io_refcnt h) h). exists (World (put id h' (w_entries w)) (w_views w) (w_store w)). split; [|split; [|split; [|done]]].
  - unfold evfs_entries_open_one_by_name, __evfs_entries_reference_head_by_name. rewrite bind_bind.
    run (search_name_found cs R n a w id (key h) name (vl_good _ _ _ _ Hv) Hl Hk ltac:(apply (cg_named _ (vl_index _ _ _ _ Hv));
      exists h; split; [done |]; split; [done |]; by apply named_cstring; rewrite Hk)).
    unfold reference_found, __evfs_entries_check_reference_condition. rewrite !bind_bind. run (head_run id h w Hh). rewrite decide_True by done.
    rewrite bind_bind. by run (on_head_run id (set_refs (refcnt h + 1) (io_refcnt h)) h w Hh).
  - apply (volume_put fs n a w id h); try done. split; cbn; try done. lia.
  - exists h'. split; [apply put_get | cbn; lia].
Qed.
End Volume.

(** ** Reading the heads *)

(** The fields of a head are ints. *)
Definition ints (c : evfs_cluster) : Prop := - 2 ^ 31 <= seg c < 2 ^ 31 /\ - 2 ^ 31 <= next c < 2 ^ 31 /\ - 2 ^ 31 <= head_id c < 2 ^ 31.

Lemma get_int_bytes (p q : list Z) x off : zlen p = off -> - 2 ^ 31 <= x < 2 ^ 31 -> get_int off (p ++ le_bytes 4 x ++ q) = Some x.
Proof.
  intros <- Hx. pose proof (le_bytes_len 4 x) as Hl. pose proof (zlen_nonneg p). pose proof (zlen_nonneg q).
  rewrite get_int_read by (rewrite ?zlen_app; lia). unfold read_at. rewrite drop_app_length' by (unfold zlen; lia).
  rewrite take_app_length' by (unfold zlen in Hl; lia). rewrite le_value_bytes. f_equal.
  transitivity (s32 x); [apply swrap_wrap | apply swrap_small; pow2; lia].
Qed.

Lemma cluster_roundtrip c : ints c -> cluster_of (cluster_bytes c) = Some c.
Proof.
  intros (H1 & H2 & H3). unfold cluster_of, cluster_bytes.
  assert (get_int data_seg_size (le_bytes 4 (seg c) ++ le_bytes 4 (next c) ++ le_bytes 4 (head_id c)) = Some (seg c)) as ->
    by (by apply (get_int_bytes [])).
  assert (get_int next_cluster_id (le_bytes 4 (seg c) ++ le_bytes 4 (next c) ++ le_bytes 4 (head_id c)) = Some (next c)) as ->
    by (by apply (get_int_bytes (le_bytes 4 (seg c)))).
  assert (get_int head_cluster_id (le_bytes 4 (seg c) ++ le_bytes 4 (next c) ++ le_bytes 4 (head_id c)) = Some (head_id c)) as ->.
  { rewrite app_assoc, <- (app_nil_r (le_bytes 4 (head_id c))). by apply get_int_bytes. }
  by destruct c.
Qed.

(** A store whose heads can be read directly as long as it is [fresh]: nothing was
    requested through the cache. *)
Class DirectHeads {S : Type} (st : store S) (R : S -> Z -> (Z -> option (list Z)) -> Prop) (fresh : S -> Prop) : Prop :=
  direct_head id s n a b : fresh s -> R s n a -> a id = Some b ->
    exists s', cache_read_head_directly st id s = Some (NSP_STATUS_SUCCESSFUL, take 12 b, s') /\ R s' n a /\ fresh s'.

Section Load.
Context {S : Type} (st : store S) (cs step limit : Z) (R : S -> Z -> (Z -> option (list Z)) -> Prop)
  `{!StoreOk st cs step limit R} `{!Reliable st cs step limit R} (fresh : S -> Prop) `{!DirectHeads st R fresh}
  (fuel : nat) (Hfuel : (0 < fuel)%nat) (Hcs : 44 <= cs).
Implicit Types (w : world S) (n : Z) (a : Z -> option (list Z)) (h : evfs_entry_head) (fs : gmap Z (list Z * list Z)).
#[local] Abbreviation good := (good cs R).
#[local] Abbreviation content := (content cs R).
#[local] Abbreviation volume := (volume cs R).

(** The heads on the disk are [T]. *)
Definition on_disk (T : Z -> evfs_cluster) n a : Prop :=
  forall i, 0 < i < n -> ints (T i) /\ exists b, a i = Some b /\ take 12 b = cluster_bytes (T i).

Lemma load_views_ok T n a : on_disk T n a -> forall k m v s, fresh s -> R s n a -> views_ok m v -> 0 < m -> m + Z.of_nat k = n ->
  exists v' s', load_views st (fun _ => true) (ids_from m (Z.of_nat k)) v s = Some (NSP_STATUS_SUCCESSFUL, v', s') /\
    R s' n a /\ views_ok n v' /\ same_rest v v' /\ idlelist v' = idlelist v ++ ids_from m (Z.of_nat k) /\
    forall i, nodes v' !! i = if decide (m <= i < n) then Some (T i) else nodes v !! i.
Proof.
  intros HT. induction k as [|k IH]; intros m v s Hf HR Hv Hm Hk.
  - rewrite ids_from_0 by lia. exists v, s. rewrite app_nil_r. split; [done |]. split; [done |]. split; [by replace n with m by lia |].
    split; [done |]. split; [done |]. intros i. by rewrite decide_False by lia.
  - rewrite ids_from_S by lia. replace (Z.of_nat (Datatypes.S k) - 1) with (Z.of_nat k) by lia. cbn [load_views].
    destruct (HT m) as (Hi & b & Hb & Ht); [lia |]. destruct (direct_head m s n a b Hf HR Hb) as (s1 & -> & HR1 & Hf1).
    cbn [mbind option_bind]. change (NSP_SUCCESS NSP_STATUS_SUCCESSFUL) with true. cbn [negb]. rewrite Ht, cluster_roundtrip by done.
    cbn [mbind option_bind]. destruct (insert_new_idle_ok m (T m) v Hv Hm) as (t & -> & Hv1). cbn [mbind option_bind].
    destruct (IH (m + 1) _ s1 Hf1 HR1 Hv1) as (v' & s' & -> & HR' & Hv' & Hsame & Hidle & Hn); [lia | lia |].
    exists v', s'. split; [done |]. split; [done |]. split; [done |]. split; [exact Hsame |].
    split; [rewrite Hidle; cbn [set_idle idlelist]; by rewrite <- app_assoc |].
    intros i. rewrite Hn. cbn [set_idle set_tree set_nodes nodes]. destruct (decide (i = m)) as [-> | Hne].
    + rewrite decide_False, decide_True, lookup_insert_eq by lia. done.
    + rewrite lookup_insert_ne by done. repeat case_decide; lia || done.
Qed.

(** ** Recognising one view *)
Lemma move_busy_ok n v id : views_ok n v -> id ∈ idlelist v ->
  views_ok n (set_busy (busylist v ++ [id]) (count_of_busy_views v + 1) (set_idle (filter (.≠ id) (idlelist v)) (count_of_idle_views v - 1) v)).
Proof.
  intros [H1 H2 H3 H4 H5 [H6 H7]] Hid. pose proof (proj1 (NoDup_app _ _) H1) as (_ & _ & Hnd).
  assert (busylist v ++ idlelist v ≡ₚ (busylist v ++ [id]) ++ filter (.≠ id) (idlelist v)) as Hp.
  { rewrite (del_perm id (idlelist v) Hnd Hid) at 1. rewrite <- app_assoc. apply Permutation_app; [done |]. by rewrite Permutation_app_comm. }
  split; cbn [set_busy set_idle busylist idlelist nodes root_of_view_tree count_of_busy_views count_of_idle_views]; try done.
  - by rewrite <- Hp.
  - intros i. by rewrite <- Hp.
  - by rewrite <- Hp.
  - rewrite zlen_del by done. rewrite H6, H7, zlen_app, zlen_cons, zlen_nil. lia.
Qed.

(** The sign bit tells a head from an element. *)
Lemma head_bit x : - 2 ^ 31 <= x < 2 ^ 31 -> negb (Z.land (u32 x) 0x80000000 =? 0) = (x <? 0).
Proof.
  intros Hx. assert (Z.land (u32 x) 0x80000000 = if Z.testbit (u32 x) 31 then 2 ^ 31 else 0) as ->.
  { apply Z.bits_inj'. intros i Hi. change 0x80000000 with (2 ^ 31). rewrite Z.land_spec, Z.pow2_bits_eqb by lia.
    destruct (Z.eqb_spec 31 i) as [<- | Hne]; [|rewrite andb_false_r; destruct (Z.testbit _ 31); [|by rewrite Z.bits_0]; rewrite Z.pow2_bits_eqb by lia; symmetry; by apply Z.eqb_neq].
    rewrite andb_true_r. destruct (Z.testbit _ 31); [|by rewrite Z.bits_0]. by rewrite Z.pow2_bits_eqb. }
  assert (Z.testbit (u32 x) 31 = (x <? 0)) as ->.
  { apply Z.b2z_inj. rewrite Z.testbit_spec' by lia. unfold wrap. destruct (Z.ltb_spec x 0); cbn [Z.b2z].
    - replace (x mod 2 ^ 32) with (x + 2 ^ 32) by (rewrite (Z.mod_unique x (2 ^ 32) (-1) (x + 2 ^ 32)); lia).
      replace (x + 2 ^ 32) with (x + 2 ^ 31 + 1 * 2 ^ 31) by lia. rewrite Z.div_add, Z.div_small by lia. done.
    - rewrite (Z.mod_small x) by lia. by rewrite Z.div_small by lia. }
  by destruct (x <? 0).
Qed.

(** The head of an entry whose elements are not found yet. *)
Definition loaded (k : list Z) : evfs_entry_head := EntryHead [] 0 0 0 kEvfsEntryNormal false k.

Lemma alloc_loaded n a e v s id c b : R s n a -> 0 < id < n -> nodes v !! id = Some c -> head_id c = id -> 0 < total_cluster_count v ->
  a id = Some b ->
  exists s', __evfs_entries_alloc_head st (plenty fuel) id None (World e v s) = Some (Some id, World (put id (loaded (read_at 12 32 b)) e) v s') /\
    R s' n (written id 0 (cluster_bytes c) a).
Proof.
  intros HR Hid Hc Hh Ht Hb. unfold __evfs_entries_alloc_head. cbn [plenty mem_head].
  destruct (so_read_userdata id 0 32 s n a HR Hid ltac:(lia) ltac:(lia)) as (r & out & s1 & E1 & HR1 & Hres).
  destruct Hres as [(-> & _ & b' & Hb' & ->) | Hneg]; [|assert (0 <= r) by (eapply rl_read_userdata; [exact HR | exact Hid | | | | exact E1]; lia); lia].
  rewrite Hb in Hb'. injection Hb' as <-.
  set (disk := bind (access _) _). assert (disk (World e v s) = Some (Some (read_at 12 32 b), World e v s1)) as Ed.
  { unfold disk, bind, access, evfs_view_read_userdata, unused. cbn [w_views w_store w_entries]. rewrite (proj2 (Z.leb_gt _ _) Ht), Hc. cbn [mbind option_bind].
    assert ((0 =? seg c) && (0 =? head_id c) = false) as -> by (apply andb_false_iff; right; apply Z.eqb_neq; lia).
    change ((0 <? 0) || (32 <=? 0) || false) with false. cbv iota. rewrite E1. reflexivity. }
  run Ed. destruct (so_write_head id (cluster_bytes c) s1 n a HR1 Hid (cluster_bytes_len c)) as (r & s2 & E2 & Hres).
  destruct Hres as [[-> HR2] | [Hneg _]]; [|assert (0 <= r) by (eapply rl_write_head; [exact HR1 | exact Hid | apply cluster_bytes_len | exact E2]); lia].
  assert (call (evfs_view_set_head st (Some id) None) (World e v s1) = Some (NSP_STATUS_SUCCESSFUL, World e v s2)) as E3.
  { unfold call, evfs_view_set_head, change, update, write_head. cbn [w_views w_store w_entries].
    change (default (default 0 (Some id)) None) with id. rewrite Hc. cbn [mbind option_bind].
    assert (set_head_id id c = c) as Ec by (destruct c; cbn in *; by subst).
    rewrite Ec, (insert_id _ _ _ Hc).
    replace (set_nodes (nodes v) v) with v by (by destruct v). rewrite Hc. cbn [mbind option_bind]. rewrite E2. reflexivity. }
  run E3. exists s2. split; [reflexivity | exact HR2].
Qed.

Lemma recognize_head n a e v s id c b : R s n a -> 0 < id < n -> nodes v !! id = Some c -> seg c < 0 -> head_id c = id -> ints c ->
  0 < total_cluster_count v -> a id = Some b -> let h := loaded (read_at 12 32 b) in
  search_tree __evfs_entries_compare_entry_head (root_of_entries_tree e) ->
  search_tree __evfs_entries_compare_named_entry_head (root_of_named_entries_tree e) -> (id ∉ elems (root_of_entries_tree e)) ->
  (named h -> forall x, x ∈ elems (root_of_named_entries_tree e) -> cstring (key h) <> cstring x.1) ->
  exists s' t tn, let e' := set_index t tn (entries_list e ++ [id]) (count_of_entries e + 1) (put id h e) in
    __evfs_entries_raw_recognize st (plenty fuel) id (World e v s) = Some (tt, World e' v s') /\
    R s' n (written id 0 (cluster_bytes c) a) /\ search_tree __evfs_entries_compare_entry_head t /\
    search_tree __evfs_entries_compare_named_entry_head tn /\ entered id h e e'.
Proof.
  intros HR Hid Hc Hs Hh Hint Ht Hb h Hst Hsn Hnew Hfree. unfold __evfs_entries_raw_recognize.
  assert (ask (evfs_view_looks_like_head (Some id)) (World e v s) = Some (true, World e v s)) as E1.
  { apply ask_run. unfold evfs_view_looks_like_head. cbn [w_views]. rewrite Hc. cbn [mbind option_bind].
    rewrite head_bit by apply Hint. by rewrite (proj2 (Z.ltb_lt _ _)). }
  run E1. destruct (alloc_loaded n a e v s id c b HR Hid Hc Hh Ht Hb) as (s' & E2 & HR'). fold h in E2. run E2.
  destruct (insert_head_index (put id h e) id h Hst Hsn Hnew Hfree) as (t & tn & E3 & Ht' & Hn' & Hent).
  exists s', t, tn. cbn zeta. split; [|split; [done |]; split; [done |]; split; [done |]; by destruct Hent].
  unfold __evfs_entries_insert_head. rewrite (bind_some _ _ _ _ _ (head_run id h (World (put id h e) v s') (put_get id h e))).
  unfold modify_option. cbn [w_entries w_views w_store]. by rewrite E3.
Qed.

Lemma recognize_element n e v s id c : nodes v !! id = Some c -> 0 <= seg c -> ints c ->
  __evfs_entries_raw_recognize st (plenty fuel) id (World e v s)
    = Some (tt, World (set_wild (wild e ++ [id]) (count_of_wild_entries_element e + 1) e) v s).
Proof.
  intros Hc Hs Hint. unfold __evfs_entries_raw_recognize.
  assert (ask (evfs_view_looks_like_head (Some id)) (World e v s) = Some (false, World e v s)) as E1.
  { apply ask_run. unfold evfs_view_looks_like_head. cbn [w_views]. rewrite Hc. cbn [mbind option_bind].
    rewrite head_bit by apply Hint. by rewrite (proj2 (Z.ltb_ge _ _)). }
  by run E1.
Qed.

(** ** Recognising all views *)
Definition head_at (T : Z -> evfs_cluster) (i : Z) : Prop := seg (T i) < 0.
Definition busy_at (T : Z -> evfs_cluster) (i : Z) : Prop := evfs_cluster_looks_like_busy (T i) = true.
Definition elem_at (T : Z -> evfs_cluster) (i : Z) : Prop := busy_at T i /\ ~ head_at T i.
#[local] Instance head_at_dec T i : Decision (head_at T i) := decide (seg (T i) < 0).
#[local] Instance busy_at_dec T i : Decision (busy_at T i) := decide (evfs_cluster_looks_like_busy (T i) = true).
#[local] Instance elem_at_dec T i : Decision (elem_at T i) := decide (busy_at T i /\ ~ head_at T i).

Lemma head_busy T i : head_at T i -> busy_at T i.
Proof. unfold head_at, busy_at, evfs_cluster_looks_like_busy. intros H. rewrite (proj2 (Z.eqb_neq 0 (seg (T i)))) by lia. done. Qed.

(** The heads of a disk make sense: those of entries point at themselves and have the
    keys [K], each its own. *)
Record readable (T : Z -> evfs_cluster) (K : Z -> list Z) n a : Prop := {
  re_disk : on_disk T n a;
  re_self i : 0 < i < n -> head_at T i -> head_id (T i) = i;
  re_idle i : 0 < i < n -> ~ busy_at T i -> T i = evfs_cluster0;
  re_key i : 0 < i < n -> head_at T i -> exists b, a i = Some b /\ read_at 12 32 b = K i;
  re_unique i j : 0 < i < n -> 0 < j < n -> head_at T i -> head_at T j -> named (loaded (K i)) -> cstring (K i) = cstring (K j) -> i = j;
}.

(** The views [done] are looked at, the others still idle. *)
Record recognized T K n (done rest : list Z) a e v s : Prop := {
  rc_store : R s n a;
  rc_views : views_ok n v;
  rc_total : 0 < total_cluster_count v;
  rc_nodes i : 0 < i < n -> nodes v !! i = Some (T i);
  rc_busy : busylist v = filter (busy_at T) done;
  rc_idle : idlelist v = filter (fun i => ~ busy_at T i) done ++ rest;
  rc_heads i : heads e !! i = if decide (i ∈ filter (head_at T) done) then Some (loaded (K i)) else None;
  rc_list : entries_list e = filter (head_at T) done;
  rc_count : count_of_entries e = zlen (entries_list e);
  rc_wild : wild e = filter (elem_at T) done;
  rc_wcount : count_of_wild_entries_element e = zlen (wild e);
  rc_tree : search_tree __evfs_entries_compare_entry_head (root_of_entries_tree e);
  rc_elems i : i ∈ elems (root_of_entries_tree e) <-> i ∈ entries_list e;
  rc_named : search_tree __evfs_entries_compare_named_entry_head (root_of_named_entries_tree e);
  rc_names k i : (k, i) ∈ elems (root_of_named_entries_tree e) <-> i ∈ entries_list e /\ K i = k /\ named (loaded (K i));
  rc_read : readable T K n a;
}.

(** Writing a head again changes nothing. *)
Lemma written_again T n a s id : R s n a -> 0 < id < n -> on_disk T n a -> forall i, written id 0 (cluster_bytes (T id)) a i = a i.
Proof.
  intros HR Hid H1 i. unfold written. case_decide as Hi; [|done]. subst i. destruct (H1 id Hid) as (_ & b & Hb & Ht).
  rewrite Hb. cbn [fmap option_fmap option_map]. f_equal.
  pose proof (so_len s n a id b HR Hb) as Hl. pose proof (cluster_bytes_len (T id)) as Hc. pose proof (so_cs : 12 < cs).
  rewrite write_at_in by lia. change (Z.to_nat 0) with 0%nat. rewrite take_0, app_nil_l.
  replace (0 + length (cluster_bytes (T id)))%nat with 12%nat by (unfold zlen in Hc; lia). rewrite <- Ht. apply take_drop.
Qed.

Lemma readable_ext T K n a a' : (forall i, a' i = a i) -> readable T K n a -> readable T K n a'.
Proof.
  intros E [H1 H2 H3 H4 H5]. split; try done; [intros i Hi; rewrite E; by apply H1 | intros i Hi; rewrite E; by apply H4].
Qed.

Lemma filter_snoc_in {A} (P : A -> Prop) `{!forall x, Decision (P x)} l x : P x -> filter P (l ++ [x]) = filter P l ++ [x].
Proof. intros Hp. by rewrite filter_app, filter_cons_True. Qed.
Lemma filter_snoc_out {A} (P : A -> Prop) `{!forall x, Decision (P x)} l x : ~ P x -> filter P (l ++ [x]) = filter P l.
Proof. intros Hp. by rewrite filter_app, filter_cons_False, app_nil_r. Qed.

(** An idle view stays where it is. *)
Lemma recognized_idle T K n done id rest a e v s : recognized T K n done (id :: rest) a e v s -> ~ busy_at T id ->
  recognized T K n (done ++ [id]) rest a e v s.
Proof.
  intros [] Hb. assert (~ head_at T id) by (intros H; by apply Hb, head_busy). assert (~ elem_at T id) by (by intros [? _]).
  split; try done; rewrite ?(filter_snoc_out (busy_at T)), ?(filter_snoc_out (head_at T)), ?(filter_snoc_out (elem_at T)) by done; try done.
  rewrite filter_snoc_in by done. by rewrite <- app_assoc.
Qed.

Lemma recognized_fresh T K n done id rest a e v s : recognized T K n done (id :: rest) a e v s ->
  0 < id < n /\ (id ∉ done) /\ (id ∉ rest) /\ (forall i, i ∈ done -> 0 < i < n) /\ NoDup rest.
Proof.
  intros []. pose proof (vo_nodup _ _ rc_views0) as Hnd. rewrite rc_busy0, rc_idle0 in Hnd.
  assert (forall i, i ∈ done -> i ∈ filter (busy_at T) done \/ i ∈ filter (fun i => ~ busy_at T i) done) as Hsplit.
  { intros i Hi. rewrite !list_elem_of_filter. destruct (decide (busy_at T i)); naive_solver. }
  apply NoDup_app in Hnd as (_ & Hdis & Hnd). apply NoDup_app in Hnd as (_ & Hdis2 & Hnd).
  pose proof Hnd as [Hir Hrest]%NoDup_cons. split; [|split; [|split; [done | split; [|done]]]].
  - apply (vo_ids _ _ rc_views0). rewrite rc_idle0, !elem_of_app, elem_of_cons. tauto.
  - intros [Hi | Hi]%Hsplit; [apply (Hdis id Hi) | apply (Hdis2 id Hi)]; rewrite ?elem_of_app, elem_of_cons; tauto.
  - intros i [Hi | Hi]%Hsplit; apply (vo_ids _ _ rc_views0); rewrite rc_busy0, rc_idle0, !elem_of_app; tauto.
Qed.

(** The view that is looked at, on the list of the busy ones. *)
Definition taken (id : Z) (rest : list Z) v : views :=
  set_busy (busylist v ++ [id]) (count_of_busy_views v + 1) (set_idle rest (count_of_idle_views v - 1) v).

Lemma recognized_taken T K n done id rest a e v s : recognized T K n done (id :: rest) a e v s -> busy_at T id ->
  let idle := filter (fun i => ~ busy_at T i) done ++ rest in
  list_del id (idlelist v) = Some idle /\ views_ok n (taken id idle v) /\ busylist v ++ [id] = filter (busy_at T) (done ++ [id]) /\
  idle = filter (fun i => ~ busy_at T i) (done ++ [id]) ++ rest.
Proof.
  intros Hrc Hb idle. destruct (recognized_fresh _ _ _ _ _ _ _ _ _ _ Hrc) as (Hid & Hdone & Hrest & _ & _). destruct Hrc.
  assert (id ∈ idlelist v) as Hin by (rewrite rc_idle0; apply elem_of_app; right; constructor).
  assert (filter (.≠ id) (idlelist v) = idle) as Eq.
  { rewrite rc_idle0, filter_app, filter_cons_False by (by intros H). unfold idle. f_equal; apply filter_all.
    - intros x [_ Hx]%list_elem_of_filter ->. done.
    - by intros x Hx ->. }
  split; [by rewrite list_del_elem, Eq |]. split; [rewrite <- Eq; by apply move_busy_ok |].
  split; [by rewrite rc_busy0, filter_snoc_in |]. unfold idle. rewrite (filter_snoc_out (fun i => ~ busy_at T i)); [done | tauto].
Qed.

(** A head gets its entry. *)
Lemma recognized_head T K n done id rest a e v s : recognized T K n done (id :: rest) a e v s -> head_at T id ->
  let v1 := taken id (filter (fun i => ~ busy_at T i) done ++ rest) v in
  exists a' e' s', __evfs_entries_raw_recognize st (plenty fuel) id (World e v1 s) = Some (tt, World e' v1 s') /\
    recognized T K n (done ++ [id]) rest a' e' v1 s' /\ forall i, a' i = a i.
Proof.
  intros Hrc Hh v1. pose proof (head_busy T id Hh) as Hb.
  destruct (recognized_fresh _ _ _ _ _ _ _ _ _ _ Hrc) as (Hid & Hdone & Hrest & Hrange & _).
  destruct (recognized_taken _ _ _ _ _ _ _ _ _ _ Hrc Hb) as (_ & Hv1 & Eb & Ei). fold v1 in Hv1. destruct Hrc.
  destruct (re_key _ _ _ _ rc_read0 id Hid Hh) as (b & Hab & Hk). destruct (re_disk _ _ _ _ rc_read0 id Hid) as [Hint _].
  assert (id ∉ filter (head_at T) done) as Hnl by (by intros [_ Hi]%list_elem_of_filter).
  destruct (recognize_head n a e v1 s id (T id) b rc_store0 Hid (rc_nodes0 id Hid) Hh (re_self _ _ _ _ rc_read0 id Hid Hh) Hint rc_total0 Hab
    rc_tree0 rc_named0) as (s' & t & tn & E & HR' & Ht & Htn & [N1 N2 N3 N4 N5 N6]).
  { rewrite rc_elems0, rc_list0. done. }
  { rewrite Hk. intros Hnm [k i] Hx. apply rc_names0 in Hx as (Hi & <- & Hni). rewrite rc_list0 in Hi. cbn.
    apply list_elem_of_filter in Hi as [Hhi Hi]. intros Hc. apply Hdone.
    by rewrite (re_unique _ _ _ _ rc_read0 id i Hid (Hrange i Hi) Hh Hhi Hnm Hc). }
  rewrite Hk in *. set (e' := set_index _ _ _ _ _) in *.
  exists (written id 0 (cluster_bytes (T id)) a), e', s'. split; [exact E |].
  pose proof (written_again T n a s id rc_store0 Hid (re_disk _ _ _ _ rc_read0)) as Ha. split; [|exact Ha].
  assert (~ elem_at T id) by (intros [_ H]; by apply H). split; try done.
  - intros i. unfold e'. cbn. destruct (decide (i = id)) as [-> | Hne].
    + rewrite lookup_insert_eq, decide_True; [done |]. rewrite filter_snoc_in by done. apply elem_of_app. right. by apply list_elem_of_singleton.
    + rewrite lookup_insert_ne, rc_heads0 by done. rewrite filter_snoc_in by done.
      destruct (decide (i ∈ filter (head_at T) done)) as [Hi | Hi]; [rewrite decide_True; [done |] | rewrite decide_False; [done |]].
      * apply elem_of_app. by left.
      * intros [? | ->%list_elem_of_singleton]%elem_of_app; done.
  - rewrite filter_snoc_in by done. by rewrite N3, rc_list0.
  - rewrite N4, N3, rc_count0, zlen_app. done.
  - rewrite (filter_snoc_out (elem_at T)) by done. by rewrite N5.
  - intros i. rewrite N1, N3, elem_of_app, list_elem_of_singleton, <- rc_elems0. done.
  - intros k i. rewrite N2, N3, rc_names0, elem_of_app, list_elem_of_singleton. cbn. split; [|naive_solver].
    intros [? | [? [= -> ->]]]; [naive_solver |]. split; [by right | done].
  - by apply (readable_ext T K n a).
Qed.

(** An element waits for its head. *)
Lemma recognized_elem T K n done id rest a e v s : recognized T K n done (id :: rest) a e v s -> elem_at T id ->
  let v1 := taken id (filter (fun i => ~ busy_at T i) done ++ rest) v in
  exists e', __evfs_entries_raw_recognize st (plenty fuel) id (World e v1 s) = Some (tt, World e' v1 s) /\
    recognized T K n (done ++ [id]) rest a e' v1 s.
Proof.
  intros Hrc [Hb Hh] v1. destruct (recognized_fresh _ _ _ _ _ _ _ _ _ _ Hrc) as (Hid & _ & _ & _ & _).
  destruct (recognized_taken _ _ _ _ _ _ _ _ _ _ Hrc Hb) as (_ & Hv1 & Eb & Ei). fold v1 in Hv1. destruct Hrc.
  destruct (re_disk _ _ _ _ rc_read0 id Hid) as [Hint _]. unfold head_at in Hh.
  eexists. split; [apply (recognize_element n e v1 s id (T id) (rc_nodes0 id Hid)); [lia | done] |]. split; try done; cbn.
  - intros i. by rewrite (filter_snoc_out (head_at T)).
  - by rewrite (filter_snoc_out (head_at T)).
  - by rewrite rc_wild0, filter_snoc_in.
  - rewrite rc_wcount0, zlen_app. done.
Qed.

Lemma loaded_run id e v s x e' v' s' : __evfs_entries_raw_recognize st (plenty fuel) id (World e v s) = Some (x, World e' v' s') ->
  on_loaded st (plenty fuel) id v e s = Some (v', e', s').
Proof. unfold on_loaded. by intros ->. Qed.

Lemma recognize_run T K n : forall rest done a e v s, recognized T K n done rest a e v s ->
  exists a' e' v' s', recognize (Some (on_loaded st (plenty fuel))) rest v e s = Some (v', e', s') /\
    recognized T K n (done ++ rest) [] a' e' v' s' /\ forall i, a' i = a i.
Proof.
  induction rest as [|id rest IH]; intros done a e v s Hrc; cbn [recognize].
  { exists a, e, v, s. by rewrite app_nil_r. }
  destruct (recognized_fresh _ _ _ _ _ _ _ _ _ _ Hrc) as (Hid & _). rewrite (rc_nodes _ _ _ _ _ _ _ _ _ Hrc id Hid). cbn [mbind option_bind].
  assert (done ++ id :: rest = (done ++ [id]) ++ rest) as -> by (by rewrite <- app_assoc).
  destruct (evfs_cluster_looks_like_busy (T id)) eqn:Eb.
  2: { apply IH, recognized_idle; [done |]. unfold busy_at. by rewrite Eb. }
  destruct (recognized_taken _ _ _ _ _ _ _ _ _ _ Hrc Eb) as (-> & _). cbn [mbind option_bind]. change (set_busy _ _ _) with (taken id (filter (fun i => ~ busy_at T i) done ++ rest) v).
  destruct (decide (head_at T id)) as [Hh | Hh].
  - destruct (recognized_head _ _ _ _ _ _ _ _ _ _ Hrc Hh) as (a1 & e1 & s1 & E1 & Hrc1 & Ha1). apply loaded_run in E1. rewrite E1. cbn [mbind option_bind].
    destruct (IH _ _ _ _ _ Hrc1) as (a2 & e2 & v2 & s2 & E2 & Hrc2 & Ha2). exists a2, e2, v2, s2. split; [done |]. split; [done |].
    intros i. by rewrite Ha2.
  - destruct (recognized_elem _ _ _ _ _ _ _ _ _ _ Hrc (conj Eb Hh)) as (e1 & E1 & Hrc1). apply loaded_run in E1. rewrite E1. cbn [mbind option_bind].
    by apply IH.
Qed.

(** All views of the disk, each on its list, and the entries without their elements. *)
Lemma view_load_run T K n a e v s : fresh s -> R s n a -> 1 < n -> readable T K n a -> no_entries e -> views_ok 1 v -> total_cluster_count v = 0 ->
  exists a' e' v' s', evfs_view_load st (Some (on_loaded st (plenty fuel))) (fun _ => true) v e s = Some (NSP_STATUS_SUCCESSFUL, v', e', s') /\
    recognized T K n (ids_from 1 (n - 1)) [] a' e' v' s' /\ cluster_size v' = cs /\ max_data_seg_size v' = cs - 12 /\ forall i, a' i = a i.
Proof.
  intros Hf HR Hn Hre [] Hv Ht. unfold evfs_view_load. destruct (so_state s n a HR) as (r & x & E & Hx). rewrite E. cbn [mbind option_bind].
  assert (NSP_SUCCESS r = true) as Hr by (apply Z.leb_le; by eapply rl_state). rewrite Hr, (Hx Hr). cbn [negb hard_cluster_count].
  rewrite Ht. change (0 =? 0) with true. cbn [negb].
  assert (busylist v = [] /\ idlelist v = []) as [Ebv Eiv].
  { pose proof (vo_ids _ _ Hv) as Hids. split; apply elems_empty; intros i; (split; [|by intros ?%not_elem_of_nil]); intros Hi; exfalso;
      assert (0 < i < 1) by (apply Hids, elem_of_app; tauto); lia. }
  rewrite cluster_ids_from. assert (n - 1 = Z.of_nat (Z.to_nat (n - 1))) as Ek by lia.
  destruct (load_views_ok T n a (re_disk _ _ _ _ Hre) (Z.to_nat (n - 1)) 1 (set_total (n - 1) v) s Hf HR) as (v1 & s1 & E1 & HR1 & Hv1 & (B1 & T1 & C1 & M1) & I1 & N1);
    [by apply (views_ok_set 1 v) | lia | lia |].
  rewrite <- Ek in E1, I1. rewrite E1. cbn [mbind option_bind]. change (NSP_SUCCESS NSP_STATUS_SUCCESSFUL) with true. cbv iota.
  unfold __evfs_view_recognize_and_move_to_busy. cbn [set_total busylist idlelist] in B1, I1. rewrite Eiv in I1. cbn [app] in I1. rewrite I1.
  destruct (recognize_run T K n (ids_from 1 (n - 1)) [] a e v1 s1) as (a2 & e2 & v2 & s2 & E2 & Hrc & Ha).
  { split; try done.
    - rewrite T1. cbn. lia.
    - intros i Hi. by rewrite N1, decide_True by lia.
    - by rewrite B1, Ebv.
    - intros i. by rewrite ne_heads0, decide_False by (by intros ?%not_elem_of_nil).
    - by rewrite ne_count0, ne_list0.
    - by rewrite ne_wcount0, ne_wild0.
    - intros i. rewrite ne_list0. split; [by intros ?%ne_elems0 | by intros ?%not_elem_of_nil].
    - intros k i. rewrite ne_list0. split; [by intros ?%ne_names0 | by intros [?%not_elem_of_nil _]]. }
  rewrite E2. cbn [mbind option_bind]. exists a2, e2. do 2 eexists. split; [reflexivity |]. split; [|done].
  destruct Hrc. split; try done. by apply (views_ok_set n v2).
Qed.

(** ** Collecting the elements *)
Definition same_index e e' : Prop :=
  root_of_entries_tree e' = root_of_entries_tree e /\ root_of_named_entries_tree e' = root_of_named_entries_tree e /\
  entries_list e' = entries_list e /\ count_of_entries e' = count_of_entries e /\ entry_seg_size e' = entry_seg_size e.

(** The wild elements without [q]. *)
Definition tamed (P : Z -> Prop) e e' : Prop :=
  NoDup (wild e') /\ count_of_wild_entries_element e' = zlen (wild e') /\ forall i, i ∈ wild e' <-> i ∈ wild e /\ ~ P i.

Lemma collect_run id : forall q x h e v s k c, chain v x q -> nodes v !! x = Some c -> heads e !! id = Some h -> NoDup q ->
  (forall i, i ∈ q -> 0 < i /\ i ∈ wild e) -> NoDup (wild e) -> count_of_wild_entries_element e = zlen (wild e) -> (length q <= k)%nat ->
  exists e', collect st k id (next c) (World e v s) = Some (tt, World e' v s) /\ heads e' = <[id := grown h q]> (heads e) /\
    same_index e e' /\ tamed (.∈ q) e e'.
Proof.
  induction q as [|y q IH]; intros x h e v s k c Hch Hc Hh Hnd Hq Hw Hcnt Hk.
  { destruct Hch as (c' & Hc' & E). rewrite Hc in Hc'. injection Hc' as <-. rewrite E.
    exists e. split; [by destruct k |]. rewrite grown_nil, insert_id by done. split; [done |]. split; [done |].
    split; [done |]. split; [done |]. intros i. rewrite elem_of_nil. tauto. }
  destruct Hch as [(c' & Hc' & E) Hch]. rewrite Hc in Hc'. injection Hc' as <-. rewrite E.
  destruct (Hq y) as [Hy Hyw]; [constructor |]. apply NoDup_cons in Hnd as [Hyq Hnd]. destruct k as [|k]; [cbn in Hk; lia |].
  cbn [collect]. rewrite (proj2 (Z.ltb_lt 0 y)) by done. unfold gets, bind at 1. cbn [w_entries]. rewrite bool_decide_true by done.
  unfold modify. unfold bind at 1. cbn [w_entries w_views w_store].
  set (e1 := set_wild (filter (.≠ y) (wild e)) (count_of_wild_entries_element e - 1) e).
  rewrite (bind_some _ _ _ _ _ (on_head_run id (fun h => set_elements (elements h ++ [y]) (count_of_elements h + 1) h) h (World e1 v s) Hh)).
  change (set_elements (elements h ++ [y]) (count_of_elements h + 1) h) with (grown h [y]). cbn [w_entries w_views w_store].
  destruct (chain_node v y q y Hch) as [d Hd]; [constructor |].
  rewrite (bind_some _ _ _ _ _ (ask_run (evfs_view_get_next_cluster_id (Some y)) (next d) (World (put id (grown h [y]) e1) v s)
    ltac:(cbn; by rewrite Hd))).
  destruct (IH y (grown h [y]) (put id (grown h [y]) e1) v s k d Hch Hd (put_get _ _ _) Hnd) as (e2 & E2 & Eh2 & Ei2 & (W1 & W2 & W3)); cbn.
  { intros i Hi. destruct (Hq i) as [Hi0 Hiw]; [by constructor |]. split; [done |]. apply elem_of_del. split; [by intros -> | done]. }
  { by apply NoDup_del. } { rewrite zlen_del by done. lia. } { cbn in Hk. lia. }
  exists e2. split; [exact E2 |]. split.
  { rewrite Eh2. cbn. rewrite insert_insert_eq, grown_app. done. }
  split; [exact Ei2 |]. split; [done |]. split; [done |]. intros i. rewrite W3. cbn. rewrite elem_of_del, elem_of_cons. tauto.
Qed.

Lemma collect_all_run (Q : Z -> list Z) (K : Z -> list Z) v s : forall ids e, NoDup ids ->
  (forall id, id ∈ ids -> heads e !! id = Some (loaded (K id)) /\ chain v id (Q id) /\ NoDup (Q id) /\ forall i, i ∈ Q id -> 0 < i /\ i ∈ wild e) ->
  (forall id id' i, id ∈ ids -> id' ∈ ids -> i ∈ Q id -> i ∈ Q id' -> id = id') ->
  NoDup (wild e) -> count_of_wild_entries_element e = zlen (wild e) ->
  exists e', collect_all st ids (World e v s) = Some (tt, World e' v s) /\ same_index e e' /\ tamed (fun i => exists id, id ∈ ids /\ i ∈ Q id) e e' /\
    forall i, heads e' !! i = if decide (i ∈ ids) then Some (grown (loaded (K i)) (Q i)) else heads e !! i.
Proof.
  induction ids as [|id ids IH]; intros e Hnd Hids Hone Hw Hcnt; cbn [collect_all].
  { exists e. split; [done |]. split; [done |]. split; [|intros i; by rewrite decide_False by (by intros ?%not_elem_of_nil)].
    split; [done |]. split; [done |]. intros i. split; [|tauto]. intros Hi. split; [done |]. by intros (id & ?%not_elem_of_nil & _). }
  apply NoDup_cons in Hnd as [Hid Hnd]. destruct (Hids id) as (Hh & Hch & Hq & Hqw); [constructor |].
  destruct (chain_node v id _ _ Hch) as [c Hc]; [constructor |].
  rewrite (bind_some _ _ _ _ _ (ask_run (evfs_view_get_next_cluster_id (Some id)) (next c) (World e v s) ltac:(cbn; by rewrite Hc))).
  unfold gets, bind at 1. cbn [w_entries].
  destruct (collect_run id (Q id) id (loaded (K id)) e v s (Datatypes.S (length (wild e))) c Hch Hc Hh Hq Hqw Hw Hcnt)
    as (e1 & E1 & Eh1 & Ei1 & (W1 & W2 & W3)).
  { apply Nat.le_le_succ_r, submseteq_length, NoDup_submseteq; [done |]. intros i Hi. by apply Hqw. }
  rewrite (bind_some _ _ _ _ _ E1).
  destruct (IH e1 Hnd) as (e2 & E2 & Ei2 & (V1 & V2 & V3) & Eh2).
  - intros i Hi. destruct (Hids i) as (Hhi & Hchi & Hqi & Hqwi); [by constructor |]. rewrite Eh1, lookup_insert_ne by (by intros ->).
    split; [done |]. split; [done |]. split; [done |]. intros j Hj. destruct (Hqwi j Hj) as [Hj0 Hjw]. split; [done |]. apply W3.
    split; [done |]. intros Hjq. assert (id = i) as -> by (apply (Hone id i j); [constructor | by constructor | done | done]). done.
  - intros i i' j Hi Hi'. apply Hone; by constructor.
  - done.
  - done.
  - exists e2. split; [exact E2 |]. split; [by destruct Ei1 as (? & ? & ? & ? & ?), Ei2 as (? & ? & ? & ? & ?); split_and!; congruence |]. split.
    + split; [done |]. split; [done |]. intros i. rewrite V3, W3. setoid_rewrite elem_of_cons. naive_solver.
    + intros i. rewrite Eh2, Eh1. destruct (decide (i ∈ ids)) as [Hi | Hi]; [by rewrite decide_True by (by constructor) |].
      destruct (decide (i = id)) as [-> | Hne]; [by rewrite lookup_insert_eq, decide_True by constructor |].
      rewrite lookup_insert_ne by done. rewrite decide_False; [done |]. by intros [-> | ?]%elem_of_cons.
Qed.

(** ** A volume on its disk *)
Lemma stored_node id v a i : forall ids data, stored cs id ids data v a -> i ∈ ids ->
  exists c, nodes v !! i = Some c /\ 0 < seg c <= zlen data /\ head_id c = id.
Proof.
  induction ids as [|j ids IH]; intros data Hst Hi; [by apply not_elem_of_nil in Hi |].
  destruct Hst as (Hd & (c & Hc & Hs & Hh) & _ & Hst). apply elem_of_cons in Hi as [-> | Hi].
  - exists c. split; [done |]. split; [lia | done].
  - destruct (IH _ Hst Hi) as (c' & Hc' & Hs' & Hh'). exists c'. split; [done |]. split; [|done].
    unfold zlen in *. rewrite length_drop in Hs'. lia.
Qed.

Lemma chain_next v i c : forall q id, chain v id q -> i ∈ id :: q -> nodes v !! i = Some c -> next c = 0 \/ next c ∈ q.
Proof.
  induction q as [|x q IH]; intros id Hch Hi Hc.
  - apply list_elem_of_singleton in Hi as ->. destruct Hch as (c' & Hc' & E). rewrite Hc in Hc'. injection Hc' as <-. by left.
  - destruct Hch as [(c' & Hc' & E) Hch]. apply elem_of_cons in Hi as [-> | Hi].
    + rewrite Hc in Hc'. injection Hc' as <-. right. rewrite E. constructor.
    + destruct (IH x Hch Hi Hc) as [? | ?]; [by left | right; by constructor].
Qed.

(** The head of a busy view tells what it is. *)
Lemma volume_node fs n a w i : volume fs n a w -> n <= 2 ^ 31 -> i ∈ busylist (w_views w) ->
  exists c, nodes (w_views w) !! i = Some c /\ ints c /\ evfs_cluster_looks_like_busy c = true /\ (seg c < 0 -> head_id c = i) /\
    (seg c < 0 <-> is_Some (heads (w_entries w) !! i)).
Proof.
  intros Hv Hn Hi. pose proof (vl_own _ _ _ _ _ _ Hv) as Ho. pose proof (vl_good _ _ _ _ _ _ Hv) as Hg.
  destruct (ow_all _ _ Ho i Hi) as (id & h & Hh & Hin). destruct (volume_head cs R fs n a w id h Hv Hh) as (data & _ & Hct & _).
  destruct (busy_node cs R n a w i Hg Hi) as [c Hc]. exists c. split; [done |].
  assert (forall j, j ∈ id :: elements h -> 0 < j < n) as Hrange by (intros j Hj; apply (good_range cs R n a w j Hg), (ow_busy _ _ Ho id h j Hh Hj)).
  assert (- 2 ^ 31 <= next c < 2 ^ 31) as Hnext.
  { destruct (chain_next _ i c _ _ (ow_chain _ _ Ho id h Hh) Hin Hc) as [-> | Hx]; [lia |]. specialize (Hrange (next c) ltac:(by constructor)). lia. }
  pose proof (Hrange id ltac:(constructor)) as Hid. pose proof (ct_size _ _ _ _ _ _ _ _ _ Hct) as Hsz. pose proof (zlen_nonneg data).
  apply elem_of_cons in Hin as [-> | Hin].
  - destruct (ct_node _ _ _ _ _ _ _ _ _ Hct) as (c' & Hc' & Hs & Hd). rewrite Hc in Hc'. injection Hc' as <-.
    destruct (head_size (32 + zlen data) ltac:(lia)) as [Hneg _]. rewrite <- Hs in Hneg.
    assert (- 2 ^ 31 <= seg c) as Hlow by (rewrite Hs; unfold head_data_seg_size; rewrite (proj2 (Z.leb_gt _ _)) by lia; apply (swrap_range 32); lia).
    split; [split; [lia | split; lia] |]. split; [|split; [done | split; [by eexists | done]]].
    unfold evfs_cluster_looks_like_busy. by rewrite (proj2 (Z.eqb_neq 0 (seg c))) by lia.
  - destruct (stored_node id _ _ i _ _ (ct_rest _ _ _ _ _ _ _ _ _ Hct) Hin) as (c' & Hc' & Hs & Hd). rewrite Hc in Hc'. injection Hc' as <-.
    assert (zlen (drop (Z.to_nat (cs - 44)) data) <= zlen data) as Hle by (unfold zlen; rewrite length_drop; lia).
    split; [split; [lia | split; lia] |]. split.
    + unfold evfs_cluster_looks_like_busy. rewrite (proj2 (Z.eqb_neq 0 (seg c))) by lia. done.
    + split; [lia |]. split; [lia |]. intros [h' Hh']. exfalso.
      assert (i = id) as -> by (apply (ow_one _ _ Ho i h' id h i Hh' Hh); [constructor | by constructor]).
      by destruct (proj1 (NoDup_cons _ _) (ct_nodup _ _ _ _ _ _ _ _ _ Hct)) as [Hni _].
Qed.

(** What the heads on the disk are, and the keys behind them. *)
Definition heads_of w (i : Z) : evfs_cluster :=
  if decide (i ∈ busylist (w_views w)) then default evfs_cluster0 (nodes (w_views w) !! i) else evfs_cluster0.
Definition key_at w (i : Z) : list Z := default [] (key <$> heads (w_entries w) !! i).
Definition elements_at w (i : Z) : list Z := default [] (elements <$> heads (w_entries w) !! i).
Lemma key_at_some w i h : heads (w_entries w) !! i = Some h -> key_at w i = key h.
Proof. unfold key_at. by intros ->. Qed.
Lemma elements_at_some w i h : heads (w_entries w) !! i = Some h -> elements_at w i = elements h.
Proof. unfold elements_at. by intros ->. Qed.

Lemma heads_of_busy w i c : i ∈ busylist (w_views w) -> nodes (w_views w) !! i = Some c -> heads_of w i = c.
Proof. intros Hi Hc. unfold heads_of. by rewrite decide_True, Hc by done. Qed.
Lemma heads_of_idle w i : (i ∉ busylist (w_views w)) -> heads_of w i = evfs_cluster0.
Proof. intros Hi. unfold heads_of. by rewrite decide_False by done. Qed.

Lemma busy_at_iff fs n a w i : volume fs n a w -> n <= 2 ^ 31 -> busy_at (heads_of w) i <-> i ∈ busylist (w_views w).
Proof.
  intros Hv Hn. unfold busy_at. destruct (decide (i ∈ busylist (w_views w))) as [Hi | Hi].
  - destruct (volume_node fs n a w i Hv Hn Hi) as (c & Hc & _ & Hb & _). by rewrite (heads_of_busy w i c).
  - by rewrite heads_of_idle.
Qed.

Lemma head_at_iff fs n a w i : volume fs n a w -> n <= 2 ^ 31 -> head_at (heads_of w) i <-> is_Some (heads (w_entries w) !! i).
Proof.
  intros Hv Hn. unfold head_at. destruct (decide (i ∈ busylist (w_views w))) as [Hi | Hi].
  - destruct (volume_node fs n a w i Hv Hn Hi) as (c & Hc & _ & _ & _ & Hh). by rewrite (heads_of_busy w i c).
  - rewrite heads_of_idle by done. split; [cbn; lia |]. intros [h Hh]. destruct Hi.
    apply (ow_busy _ _ (vl_own _ _ _ _ _ _ Hv) i h i Hh). constructor.
Qed.

Lemma volume_on_disk fs n a w : volume fs n a w -> n <= 2 ^ 31 -> on_disk (heads_of w) n a.
Proof.
  intros Hv Hn i Hi. pose proof (vl_good _ _ _ _ _ _ Hv) as Hg. destruct (gd_sync _ _ _ _ _ Hg) as [Hb Hz].
  destruct (decide (i ∈ busylist (w_views w))) as [Hin | Hin].
  - destruct (volume_node fs n a w i Hv Hn Hin) as (c & Hc & Hint & _). destruct (Hb i Hin) as (c' & b & Hc' & Hab & Ht).
    rewrite Hc in Hc'. injection Hc' as <-. rewrite (heads_of_busy w i c) by done. split; [done | by exists b].
  - rewrite heads_of_idle by done. split; [split; [cbn; lia | split; cbn; lia] |]. apply Hz.
    assert (i ∈ busylist (w_views w) ++ idlelist (w_views w)) as [? | ?]%elem_of_app; [|done | done].
    by apply (vo_ids _ _ (rd_views _ _ _ _ _ _ (gd_ready _ _ _ _ _ Hg))).
Qed.

Lemma key_prefix (k d b z : list Z) m : zlen k = 32 -> (32 <= m)%nat -> take m (k ++ d) `prefix_of` drop 12 b -> read_at 12 32 b = k.
Proof.
  intros Hk Hm [y E]. unfold read_at. change (Z.to_nat 12) with 12%nat. rewrite E. unfold zlen in Hk. change (Z.to_nat 32) with 32%nat.
  rewrite take_app_le by (rewrite length_take, length_app; lia). rewrite take_take, Nat.min_l by lia. apply take_app_length'. lia.
Qed.

Lemma volume_readable fs n a w : volume fs n a w -> n <= 2 ^ 31 -> readable (heads_of w) (key_at w) n a.
Proof.
  intros Hv Hn. pose proof (vl_good _ _ _ _ _ _ Hv) as Hg. pose proof (vl_index _ _ _ _ _ _ Hv) as Hix. split.
  - by apply (volume_on_disk fs).
  - intros i Hi Hh. assert (i ∈ busylist (w_views w)) as Hb by (apply (busy_at_iff fs n a w i Hv Hn); by apply head_busy).
    destruct (volume_node fs n a w i Hv Hn Hb) as (c & Hc & _ & _ & Hs & _). rewrite (heads_of_busy w i c) by done. apply Hs.
    unfold head_at in Hh. by rewrite (heads_of_busy w i c) in Hh.
  - intros i _ Hb. apply heads_of_idle. by rewrite <- (busy_at_iff fs n a w i).
  - intros i Hi Hh. apply (head_at_iff fs n a w i Hv Hn) in Hh as [h Hh]. destruct (volume_head cs R fs n a w i h Hv Hh) as (data & _ & Hct & _).
    destruct (ct_head _ _ _ _ _ _ _ _ _ Hct) as (b & Hb & Hp). unfold user in Hb. destruct (a i) as [b0|] eqn:Ea; [|done]. injection Hb as <-.
    exists b0. split; [done |]. rewrite (key_at_some w i h Hh).
    apply (key_prefix (key h) data b0 [] (Z.to_nat (cs - 12))); [apply (ct_key _ _ _ _ _ _ _ _ _ Hct) | lia | done].
  - intros i j _ _ Hi Hj Hnm Hc. apply (head_at_iff fs n a w i Hv Hn) in Hi as [h Hh]. apply (head_at_iff fs n a w j Hv Hn) in Hj as [h' Hh'].
    rewrite (key_at_some w i h Hh) in Hnm, Hc. rewrite (key_at_some w j h' Hh') in Hc.
    assert (named h') as Hnm'.
    { apply named_cstring in Hnm. apply named_cstring. by rewrite <- Hc. }
    assert ((key h, i) = (key h', j)) as [= _ E]; [|done].
    apply (named_unique _ _ _ (gd_named _ _ _ _ _ Hg)); [apply (cg_named _ Hix) | apply (cg_named _ Hix) | exact Hc]; eauto.
Qed.

(** An entry nobody has opened. *)
Definition settled h : evfs_entry_head := EntryHead (elements h) (count_of_elements h) 0 0 kEvfsEntryNormal false (key h).

(** The same disk under other managers. *)
Lemma volume_transfer fs n a w a' w' : volume fs n a w -> good n a' w' -> (forall i, a' i = a i) ->
  (forall i, i ∈ busylist (w_views w') <-> i ∈ busylist (w_views w)) ->
  (forall i, i ∈ busylist (w_views w) -> nodes (w_views w') !! i = nodes (w_views w) !! i) ->
  (forall id, heads (w_entries w') !! id = settled <$> heads (w_entries w) !! id) -> catalogued (w_entries w') -> volume fs n a' w'.
Proof.
  intros Hv Hg Ha Hb Hn Hh Hix. pose proof (vl_own _ _ _ _ _ _ Hv) as Ho.
  assert (forall id x, heads (w_entries w') !! id = Some x -> exists h, heads (w_entries w) !! id = Some h /\ x = settled h) as Hback.
  { intros id x Hx. rewrite Hh in Hx. destruct (heads (w_entries w) !! id) as [h|]; [|done]. injection Hx as <-. by exists h. }
  assert (forall id h i, heads (w_entries w) !! id = Some h -> i ∈ id :: elements h -> i ∈ busylist (w_views w)) as Hbusy by apply Ho.
  split; try done.
  - split.
    + intros id x (h & Hx & ->)%Hback. apply (chain_same (w_views w)); [|exact (ow_chain _ _ Ho id h Hx)]. intros i Hi.
      destruct (chain_node _ i _ _ (ow_chain _ _ Ho id h Hx) Hi) as [c Hc]. exists c, c. split; [done |]. rewrite Hn by eauto. done.
    + intros id x (h & Hx & ->)%Hback. apply (ow_nodup _ _ Ho id h Hx).
    + intros id x i (h & Hx & ->)%Hback Hi. apply Hb. by apply (Hbusy id h).
    + intros i Hi%Hb. destruct (ow_all _ _ Ho i Hi) as (id & h & Hx & Hin). exists id, (settled h). split; [by rewrite Hh, Hx | done].
    + intros id x id' x' i (h & Hx & ->)%Hback (h' & Hx' & ->)%Hback. apply (ow_one _ _ Ho id h id' h' i Hx Hx').
  - intros id [x (h & Hx & ->)%Hback]. apply (vl_dom _ _ _ _ _ _ Hv). by eexists.
  - intros id k data Hf. destruct (vl_file _ _ _ _ _ _ Hv id k data Hf) as (h & Hct & Hk & Hr). exists (settled h). split; [|split; [done | by split]].
    pose proof Hct as [C1 C2 C3 C4 C5 C6 C7 (c & Hc & Hs & Hd) (b & Hub & Hp) C10 C11].
    assert (forall i, user a' i = user a i) as Hu by (intros i; unfold user; by rewrite Ha).
    assert (forall i, i ∈ id :: elements h -> nodes (w_views w') !! i = nodes (w_views w) !! i) as Hni by (intros i Hi; apply Hn; by apply C5).
    split; cbn [settled key elements count_of_elements]; try done.
    + by rewrite Hh, C2.
    + intros i Hi. apply Hb. by apply C5.
    + exists c. rewrite Hni by constructor. done.
    + exists b. by rewrite Hu.
    + intros i Hi Hin. apply (cg_tree _ Hix) in Hin as [x (hx & Hx & _)%Hback]. apply (C10 i Hi).
      apply (cg_tree _ (vl_index _ _ _ _ _ _ Hv)). by eexists.
    + apply (stored_keeps cs (fun _ => False) n a w n a' w' id); [|intros i Hi; split; [apply C5; by constructor | tauto] | done].
      split; [lia | by intros i Hi; apply Hb | | by intros i _ _].
      intros i Hi _. destruct (busy_node cs R n a w i C1 Hi) as [d Hdn]. exists d, d. by rewrite Hn.
Qed.

(** ** Loading a volume *)

Lemma in_ids n i : i ∈ ids_from 1 (n - 1) <-> 0 < i < n.
Proof.
  rewrite <- cluster_ids_from. unfold cluster_ids. rewrite list_elem_of_fmap. setoid_rewrite elem_of_seq. split; [intros (k & -> & ?); lia |].
  intros Hi. exists (Z.to_nat i). lia.
Qed.
Lemma ids_nodup n : NoDup (ids_from 1 (n - 1)).
Proof. rewrite <- cluster_ids_from. unfold cluster_ids. apply NoDup_fmap_2; [intros x y Exy; lia | apply NoDup_seq]. Qed.

(** The entries of a recognised disk with their elements. *)
Lemma collect_volume fs n a w a1 e1 v1 s1 : volume fs n a w -> n <= 2 ^ 31 ->
  recognized (heads_of w) (key_at w) n (ids_from 1 (n - 1)) [] a1 e1 v1 s1 ->
  exists e2, collect_all st (entries_list e1) (World e1 v1 s1) = Some (tt, World e2 v1 s1) /\ same_index e1 e2 /\ wild e2 = [] /\
    count_of_wild_entries_element e2 = 0 /\ forall i, heads e2 !! i = settled <$> heads (w_entries w) !! i.
Proof.
  intros Hv Hn Hrc. pose proof (vl_own _ _ _ _ _ _ Hv) as Ho. pose proof (vl_good _ _ _ _ _ _ Hv) as Hg.
  pose proof (in_ids n) as Hids.
  assert (forall i, i ∈ entries_list e1 <-> is_Some (heads (w_entries w) !! i)) as Hlist.
  { intros i. rewrite (rc_list _ _ _ _ _ _ _ _ _ Hrc), list_elem_of_filter, Hids, (head_at_iff fs n a w i Hv Hn). split; [tauto |].
    intros [h Hh]. split; [by eexists |]. apply (good_range cs R n a w i Hg), (ow_busy _ _ Ho i h i Hh). constructor. }
  assert (forall i, i ∈ wild e1 <-> (i ∈ busylist (w_views w)) /\ heads (w_entries w) !! i = None) as Hwild.
  { intros i. rewrite (rc_wild _ _ _ _ _ _ _ _ _ Hrc), list_elem_of_filter, Hids. unfold elem_at.
    rewrite (busy_at_iff fs n a w i Hv Hn), (head_at_iff fs n a w i Hv Hn), <- eq_None_not_Some. split; [tauto |].
    intros [Hb Hh]. split; [done | by apply (good_range cs R n a w i Hg)]. }
  assert (forall id i, i ∈ entries_list e1 -> id ∈ elements_at w i -> exists h, heads (w_entries w) !! i = Some h /\ id ∈ elements h) as Hel.
  { intros id i [h Hh]%Hlist Hi. exists h. split; [done |]. by rewrite (elements_at_some w i h) in Hi. }
  destruct (collect_all_run (elements_at w) (key_at w) v1 s1 (entries_list e1) e1) as (e2 & E2 & Hsame & (W1 & W2 & W3) & Hh2).
  - rewrite (rc_list _ _ _ _ _ _ _ _ _ Hrc). apply NoDup_filter, ids_nodup.
  - intros id Hid. pose proof Hid as [h Hh]%Hlist. rewrite (elements_at_some w id h Hh).
    destruct (volume_head cs R fs n a w id h Hv Hh) as (data & _ & Hct & _). split; [|split; [|split]].
    + rewrite (rc_heads _ _ _ _ _ _ _ _ _ Hrc), decide_True; [done |]. by rewrite <- (rc_list _ _ _ _ _ _ _ _ _ Hrc).
    + apply (chain_same (w_views w)); [|exact (ow_chain _ _ Ho id h Hh)]. intros i Hi.
      destruct (chain_node _ i _ _ (ow_chain _ _ Ho id h Hh) Hi) as [c Hc]. exists c, c. split; [done |]. split; [|done].
      pose proof (ow_busy _ _ Ho id h i Hh Hi) as Hb. rewrite (rc_nodes _ _ _ _ _ _ _ _ _ Hrc) by (by apply (good_range cs R n a w i Hg)).
      by rewrite (heads_of_busy w i c).
    + by destruct (proj1 (NoDup_cons _ _) (ct_nodup _ _ _ _ _ _ _ _ _ Hct)) as [_ ?].
    + intros i Hi. pose proof (ow_busy _ _ Ho id h i Hh ltac:(by constructor)) as Hb. split; [by apply (good_range cs R n a w i Hg) |].
      apply Hwild. split; [done |]. apply eq_None_not_Some. intros [h' Hh'].
      assert (i = id) as -> by (apply (ow_one _ _ Ho i h' id h i Hh' Hh); [constructor | by constructor]).
      by destruct (proj1 (NoDup_cons _ _) (ct_nodup _ _ _ _ _ _ _ _ _ Hct)) as [? _].
  - intros id id' i Hid Hid' Hi Hi'. destruct (Hel i id Hid Hi) as (h & Hh & Hin), (Hel i id' Hid' Hi') as (h' & Hh' & Hin').
    apply (ow_one _ _ Ho id h id' h' i Hh Hh'); by constructor.
  - rewrite (rc_wild _ _ _ _ _ _ _ _ _ Hrc). apply NoDup_filter, ids_nodup.
  - apply (rc_wcount _ _ _ _ _ _ _ _ _ Hrc).
  - assert (wild e2 = []) as Ew.
    { apply elems_empty. intros i. split; [|by intros ?%not_elem_of_nil]. intros [[Hb Hno]%Hwild Hout]%W3. exfalso. apply Hout.
      destruct (ow_all _ _ Ho i Hb) as (id & h & Hh & Hin). exists id. split; [apply Hlist; by eexists |].
      rewrite (elements_at_some w id h Hh). apply elem_of_cons in Hin as [-> | Hin]; [by rewrite Hno in Hh | done]. }
    exists e2. split; [exact E2 |]. split; [done |]. split; [done |]. split; [by rewrite W2, Ew |].
    intros i. rewrite Hh2. destruct (decide (i ∈ entries_list e1)) as [Hi | Hi].
    + apply Hlist in Hi as [h Hh]. rewrite Hh, (key_at_some w i h Hh), (elements_at_some w i h Hh). cbn. f_equal.
      destruct (volume_head cs R fs n a w i h Hv Hh) as (data & _ & Hct & _). unfold grown, settled, loaded, set_elements. cbn.
      by rewrite (ct_count _ _ _ _ _ _ _ _ _ Hct).
    + rewrite (rc_heads _ _ _ _ _ _ _ _ _ Hrc), decide_False by (by rewrite <- (rc_list _ _ _ _ _ _ _ _ _ Hrc)).
      destruct (heads (w_entries w) !! i) eqn:Eh; [|done]. destruct Hi. apply Hlist. by rewrite Eh.
Qed.

(** The managers of a loaded disk are good. *)
Lemma loaded_good fs n a w a1 e1 v1 s1 e2 : volume fs n a w -> n <= 2 ^ 31 ->
  recognized (heads_of w) (key_at w) n (ids_from 1 (n - 1)) [] a1 e1 v1 s1 -> cluster_size v1 = cs -> max_data_seg_size v1 = cs - 12 ->
  same_index e1 e2 -> good n a1 (World (set_seg_size (cs - 12) e2) v1 s1).
Proof.
  intros Hv Hn Hrc Es Em (E1 & E2 & E3 & _ & _). pose proof (vl_good _ _ _ _ _ _ Hv) as Hg.
  pose proof (re_disk _ _ _ _ (rc_read _ _ _ _ _ _ _ _ _ Hrc)) as Hd.
  split; cbn [w_entries w_views w_store set_seg_size root_of_entries_tree root_of_named_entries_tree entry_seg_size]; rewrite ?E1, ?E2.
  - split; [apply (rc_store _ _ _ _ _ _ _ _ _ Hrc) | apply (rc_views _ _ _ _ _ _ _ _ _ Hrc) | apply (rd_pos _ _ _ _ _ _ (gd_ready _ _ _ _ _ Hg)) |
      apply (rc_total _ _ _ _ _ _ _ _ _ Hrc) | done | done].
  - apply (rc_tree _ _ _ _ _ _ _ _ _ Hrc).
  - apply (rc_named _ _ _ _ _ _ _ _ _ Hrc).
  - intros i. rewrite (rc_elems _ _ _ _ _ _ _ _ _ Hrc), (rc_list _ _ _ _ _ _ _ _ _ Hrc), (rc_busy _ _ _ _ _ _ _ _ _ Hrc).
    rewrite !list_elem_of_filter. intros [Hh Hi]. split; [by apply head_busy | done].
  - done.
  - split.
    + intros i. rewrite (rc_busy _ _ _ _ _ _ _ _ _ Hrc), list_elem_of_filter, in_ids. intros [_ Hi].
      destruct (Hd i Hi) as (_ & b & Hb & Ht). exists (heads_of w i), b. split; [by apply (rc_nodes _ _ _ _ _ _ _ _ _ Hrc) | done].
    + intros i. rewrite (rc_idle _ _ _ _ _ _ _ _ _ Hrc), app_nil_r, list_elem_of_filter, in_ids. intros [Hb Hi].
      destruct (Hd i Hi) as (_ & b & Hab & Ht). exists b. split; [done |]. by rewrite Ht, (re_idle _ _ _ _ (rc_read _ _ _ _ _ _ _ _ _ Hrc) i Hi Hb).
Qed.

Lemma loaded_catalogue fs n a w a1 e1 v1 s1 e2 : volume fs n a w -> n <= 2 ^ 31 ->
  recognized (heads_of w) (key_at w) n (ids_from 1 (n - 1)) [] a1 e1 v1 s1 -> same_index e1 e2 -> wild e2 = [] ->
  count_of_wild_entries_element e2 = 0 -> (forall i, heads e2 !! i = settled <$> heads (w_entries w) !! i) ->
  catalogued (set_seg_size (cs - 12) e2).
Proof.
  intros Hv Hn Hrc (S1 & S2 & S3 & S4 & _) Ew Ewc Hh.
  assert (forall i, i ∈ entries_list e1 <-> is_Some (heads e2 !! i)) as Hl.
  { intros i. rewrite Hh, fmap_is_Some, <- (head_at_iff fs n a w i Hv Hn), (rc_list _ _ _ _ _ _ _ _ _ Hrc), list_elem_of_filter, in_ids.
    split; [tauto |]. intros Hi. split; [done |]. apply (good_range cs R n a w i (vl_good _ _ _ _ _ _ Hv)), (busy_at_iff fs n a w i Hv Hn).
    by apply head_busy. }
  split; cbn [set_seg_size entries_list heads count_of_entries root_of_entries_tree root_of_named_entries_tree wild count_of_wild_entries_element];
    rewrite ?S1, ?S2, ?S3, ?S4; try done.
  - rewrite (rc_list _ _ _ _ _ _ _ _ _ Hrc). apply NoDup_filter, ids_nodup.
  - apply (rc_count _ _ _ _ _ _ _ _ _ Hrc).
  - intros i. rewrite (rc_elems _ _ _ _ _ _ _ _ _ Hrc). apply Hl.
  - intros k i. rewrite (rc_names _ _ _ _ _ _ _ _ _ Hrc), Hl, Hh, fmap_is_Some. split.
    + intros ([h Eh] & <- & Hnm). rewrite (key_at_some w i h Eh) in *. exists (settled h). by rewrite Eh.
    + intros (x & Hx & <- & Hnm). destruct (heads (w_entries w) !! i) as [h|] eqn:Eh; [|done]. injection Hx as <-.
      rewrite (key_at_some w i h Eh). split; [by eexists | done].
Qed.

Lemma load_run fs n a w e v s : volume fs n a w -> 1 < n <= 2 ^ 31 -> fresh s -> R s n a -> no_entries e -> views_ok 1 v -> total_cluster_count v = 0 ->
  exists a' w', evfs_entries_load st (plenty fuel) (World e v s) = Some (NSP_STATUS_SUCCESSFUL, w') /\ volume fs n a' w' /\
    (forall i, a' i = a i) /\ forall i, heads (w_entries w') !! i = settled <$> heads (w_entries w) !! i.
Proof.
  intros Hv [Hn1 Hn] Hf HR He Hvo Ht.
  destruct (view_load_run (heads_of w) (key_at w) n a e v s Hf HR Hn1 (volume_readable fs n a w Hv Hn) He Hvo Ht)
    as (a1 & e1 & v1 & s1 & E1 & Hrc & Es & Em & Ha).
  destruct (collect_volume fs n a w a1 e1 v1 s1 Hv Hn Hrc) as (e2 & E2 & Hsame & Ew & Ewc & Hh).
  exists a1, (World (set_seg_size (cs - 12) e2) v1 s1). split; [|split; [|done]].
  - unfold evfs_entries_load. unfold bind at 1. cbn [w_views w_entries w_store plenty mem_view]. rewrite E1. cbn [mbind option_bind].
    change (negb (NSP_SUCCESS NSP_STATUS_SUCCESSFUL)) with false. cbv iota. unfold __evfs_entries_init, gets, ask, modify.
    unfold bind at 1. unfold bind at 1. cbn [w_entries]. rewrite (bind_some _ _ _ _ _ E2). unfold bind at 1. cbn [w_entries]. rewrite Ew, bool_decide_true by done.
    rewrite bind_ret. unfold bind at 1. cbn [w_views mbind option_bind]. unfold evfs_view_get_max_data_seg_size. by rewrite Em.
  - apply (volume_transfer fs n a w); try done; cbn [w_entries w_views].
    + by apply (loaded_good fs n a w a1 e1).
    + intros i. rewrite (rc_busy _ _ _ _ _ _ _ _ _ Hrc), list_elem_of_filter, in_ids, (busy_at_iff fs n a w i Hv Hn). split; [tauto |].
      intros Hi. split; [done |]. by apply (good_range cs R n a w i (vl_good _ _ _ _ _ _ Hv)).
    + intros i Hi. pose proof (good_range cs R n a w i (vl_good _ _ _ _ _ _ Hv) Hi) as Hr.
      destruct (busy_node cs R n a w i (vl_good _ _ _ _ _ _ Hv) Hi) as [c Hc].
      by rewrite (rc_nodes _ _ _ _ _ _ _ _ _ Hrc i Hr), (heads_of_busy w i c), Hc.
    + by apply (loaded_catalogue fs n a w a1 e1 v1 s1 e2).
Qed.
End Load.
