(* ===== verification/EvfsStore.v ===== *)
(** evfs as a whole: [Cache] over [CacheDisk] is a [store] of [View] and an [image] of
    [Evfs], so what [Evfs] and [EntryFile] prove holds of the calls of evfs.c on the file
    below them. *)
From S2P Require Import Prelude AvlTree Ncb Ifos Cluster Cache CacheDisk View Entries EntryFile Evfs EvfsCalls.

(** ** What requests leave alone

    The size and the number of the blocks do not change, and after a request that was
    served from a block there is a block. *)
Definition same_conf (c c' : cache) : Prop := block_size c' = block_size c /\ cache_block_num c' = cache_block_num c.

Lemma same_conf_trans c1 c2 c3 : same_conf c1 c2 -> same_conf c2 c3 -> same_conf c1 c3.
Proof. intros [? ?] [? ?]. split; congruence. Qed.

(** Taking a run of the option monad apart. *)
Ltac run_inv :=
  repeat match goal with
  | H : mbind _ ?o = Some _ |- _ => destruct o eqn:?; [cbn [mbind option_bind] in H | discriminate H]
  | H : match ?p with pair _ _ => _ end = Some _ |- _ => destruct p eqn:?
  | H : (if ?b then _ else _) = Some _ |- _ => destruct b eqn:?
  | H : match ?o with Some _ => _ | None => _ end = Some _ |- _ => destruct o eqn:?
  | H : None = Some _ |- _ => discriminate H
  | H : Some _ = Some _ |- _ => injection H as; subst
  | H : (_, _) = (_, _) |- _ => injection H as; subst
  end.

Section Conf.
Context {D : Type}.
#[local] Abbreviation reader := (Z -> list Z -> D -> option (Z * list Z * D)).
#[local] Abbreviation writer := (Z -> list Z -> D -> option (Z * D)).
Implicit Types (c : cache) (d : D).

Lemma set_node_conf l f c c' : set_node l f c = Some c' -> same_conf c c' /\ lru c' = lru c.
Proof. unfold set_node. intros H. by run_inv. Qed.
Lemma push_idle_conf l c c' : __evfs_cache_push_idle l c = Some c' -> same_conf c c'.
Proof. unfold __evfs_cache_push_idle. intros H. by run_inv. Qed.
Lemma push_dirty_conf l c c' : __evfs_cache_push_dirty l c = Some c' -> same_conf c c' /\ lru c' = lru c.
Proof. unfold __evfs_cache_push_dirty. intros H. run_inv; by repeat case_decide. Qed.
Lemma push_lru_conf l c c' : __evfs_cache_push_lru l c = Some c' -> same_conf c c' /\ lru c' = lru c ++ [l].
Proof. unfold __evfs_cache_push_lru. intros H. by run_inv. Qed.
Lemma move_conf l c c' : __evfs_cache_move_lru_to_tail l c = Some c' -> same_conf c c' /\ exists q, lru c' = q ++ [l].
Proof. unfold __evfs_cache_move_lru_to_tail. intros H. run_inv. split; [done | by eexists]. Qed.
Lemma pop_idle_conf c o c' : __evfs_cache_pop_idle c = (o, c') -> same_conf c c'.
Proof. unfold __evfs_cache_pop_idle. destruct (idle c); by intros [= <- <-]. Qed.
Lemma pop_lru_conf c o c' : __evfs_cache_pop_lru c = Some (o, c') -> same_conf c c'.
Proof. unfold __evfs_cache_pop_lru. intros H. destruct (lru c); by run_inv. Qed.

Ltac conf_facts :=
  repeat match goal with
  | H : set_node _ _ _ = Some _ |- _ => apply set_node_conf in H as [? ?]
  | H : __evfs_cache_push_idle _ _ = Some _ |- _ => apply push_idle_conf in H
  | H : __evfs_cache_push_dirty _ _ = Some _ |- _ => apply push_dirty_conf in H as [? ?]
  | H : __evfs_cache_push_lru _ _ = Some _ |- _ => apply push_lru_conf in H as [? ?]
  | H : __evfs_cache_move_lru_to_tail _ _ = Some _ |- _ => apply move_conf in H as [? [? ?]]
  | H : __evfs_cache_pop_idle _ = (_, _) |- _ => apply pop_idle_conf in H
  | H : __evfs_cache_pop_lru _ = Some (_, _) |- _ => apply pop_lru_conf in H
  end.
Ltac conf := unfold same_conf in *; cbn in *; intuition congruence.

(** There is a block in use, or nothing happened. *)
Definition in_use c c' : Prop := c' = c \/ lru c' <> [].

Lemma snoc_ne {A} (q : list A) x l : l = q ++ [x] -> l <> [].
Proof. intros -> H. by destruct q. Qed.

Lemma flush_block_conf (hard_write : writer) l c d c' d' : __evfs_cache_flush_block_if_dirty hard_write l c d = Some (c', d') -> same_conf c c' /\ lru c' = lru c.
Proof. unfold __evfs_cache_flush_block_if_dirty. intros H. run_inv; repeat case_decide; run_inv; conf_facts; conf. Qed.
Lemma load_conf (hard_read : reader) id l c d r c' d' : load_block hard_read id l c d = Some (r, c', d') -> same_conf c c'.
Proof. unfold load_block. intros H. run_inv. conf_facts. conf. Qed.
Lemma enter_read_conf id offset length l c r out c' : enter_read id offset length l c = Some (r, out, c') ->
  same_conf c c' /\ lru c' <> [].
Proof.
  unfold enter_read. intros H. run_inv. conf_facts. split; [conf |]. by eapply snoc_ne.
Qed.
Lemma enter_write_conf id input offset l c c' : enter_write id input offset l c = Some c' -> same_conf c c' /\ lru c' <> [].
Proof.
  unfold enter_write. intros H. run_inv. conf_facts. split; [conf |]. by eapply snoc_ne.
Qed.

Ltac conf_facts' :=
  conf_facts; repeat match goal with
  | H : __evfs_cache_flush_block_if_dirty _ _ _ _ = Some _ |- _ => apply flush_block_conf in H as [? ?]
  | H : load_block _ _ _ _ _ = Some _ |- _ => apply load_conf in H
  | H : enter_read _ _ _ _ _ = Some _ |- _ => apply enter_read_conf in H as [? ?]
  | H : enter_write _ _ _ _ _ = Some _ |- _ => apply enter_write_conf in H as [? ?]
  end.

Lemma makeerror_fails n : 0 < n -> NSP_SUCCESS (posix__makeerror n) = false.
Proof. intros Hn. apply success_neg. rewrite makeerror_pos; lia. Qed.

Lemma read_from_lru_conf id offset length c r out c' : __evfs_cache_read_from_lru id offset length c = Some (r, out, c') ->
  same_conf c c' /\ (NSP_SUCCESS r = true -> lru c' <> []).
Proof.
  unfold __evfs_cache_read_from_lru. intros H. run_inv; conf_facts; split; try conf; try by rewrite makeerror_fails.
  intros _. cbn. by eapply snoc_ne.
Qed.
Lemma write_to_lru_conf id input offset c r c' : __evfs_cache_write_to_lru id input offset c = Some (r, c') ->
  same_conf c c' /\ (NSP_SUCCESS r = true -> lru c' <> []).
Proof.
  unfold __evfs_cache_write_to_lru. intros H. run_inv; conf_facts; split; try conf; try by rewrite makeerror_fails.
  intros _ E. match goal with H : lru _ = _ ++ [_] |- _ => apply (snoc_ne _ _ _ H) end. cbn in *. congruence.
Qed.

Lemma cache_read_conf (hard_read : reader) (hard_write : writer) block id offset length c d r out c' d' :
  __evfs_cache_read hard_read hard_write block id offset length c d = Some (r, out, c', d') ->
  same_conf c c' /\ (NSP_SUCCESS r = true -> in_use c c').
Proof.
  unfold __evfs_cache_read, __evfs_cache_read_from_idle, __evfs_cache_replace_read_from_lru, in_use. intros H.
  run_inv; repeat match goal with H : __evfs_cache_read_from_lru _ _ _ _ = Some _ |- _ => apply read_from_lru_conf in H as [? ?] end;
    conf_facts'; split; try conf; intros Hs; first [by left | right; by auto | exfalso; conf].
Qed.
Lemma cache_write_conf (hard_read : reader) (hard_write : writer) block id input offset c d r c' d' :
  __evfs_cache_write hard_read hard_write block id input offset c d = Some (r, c', d') ->
  same_conf c c' /\ (NSP_SUCCESS r = true -> in_use c c').
Proof.
  unfold __evfs_cache_write, __evfs_cache_write_to_idle, __evfs_cache_replace_write_to_lru, in_use. intros H.
  run_inv; repeat match goal with H : __evfs_cache_write_to_lru _ _ _ _ = Some _ |- _ => apply write_to_lru_conf in H as [? ?] end;
    conf_facts'; split; try conf; intros Hs; first [by left | right; by auto | exfalso; conf].
Qed.
Lemma flush_one_conf (hard_write : writer) id c d c' d' : __evfs_cache_flush_block hard_write id c d = Some (c', d') -> same_conf c c' /\ lru c' = lru c.
Proof. unfold __evfs_cache_flush_block. intros H. run_inv; conf_facts'; by split. Qed.

Lemma flush_stock (hard_write : writer) id c d c' d' : __evfs_cache_flush_block hard_write id c d = Some (c', d') ->
  cache_block_num c = 0 \/ lru c ++ idle c <> [] -> cache_block_num c' = 0 \/ lru c' ++ idle c' <> [].
Proof.
  intros H. assert (cache_block_num c' = cache_block_num c /\ lru c' = lru c /\ idle c' = idle c) as (-> & -> & ->); [|done].
  unfold __evfs_cache_flush_block, __evfs_cache_flush_block_if_dirty, set_node in H.
  run_inv; repeat case_decide; run_inv; done.
Qed.
End Conf.

(** ** The disk under the cache, its header left out *)
Section Store.
Context {K : Type}.
Context (sys_read : Z -> Z -> K -> (list Z + Z) * K)
  (sys_write : Z -> list Z -> K -> answer * K)
  (sys_lseek : Z -> Z -> K -> answer * K)
  (sys_fsync : Z -> K -> answer * K)
  (sys_open : Z -> Z -> K -> answer * K)
  (sys_close : Z -> K -> K)
  (sys_fstat : Z -> K -> answer * K)
  (alloc : Z -> option (list Z))
  (content : K -> list Z) (pos : K -> Z).
Implicit Types (d : disk (K := K)) (c : cache).

Definition user_clusters (cs n : Z) d (id : Z) : option (list Z) :=
  if decide (0 < id < n) then Some (cluster cs id (content (kern d.2))) else None.

Lemma user_is_disk cs n d id b : user_clusters cs n d id = Some b -> 0 < id < n /\ disk_clusters content cs n d id = Some b.
Proof. unfold user_clusters, disk_clusters. case_decide; [|done]. intros E. split; [done |]. by rewrite decide_True by lia. Qed.

Lemma user_same cs n d d' : (forall i, disk_clusters content cs n d' i = disk_clusters content cs n d i) ->
  forall i, user_clusters cs n d' i = user_clusters cs n d i.
Proof.
  intros E i. specialize (E i). revert E. unfold user_clusters, disk_clusters.
  destruct (decide (0 < i < n)); [|done]. by rewrite !decide_True by lia.
Qed.

#[local] Abbreviation d_read := (disk_read sys_read sys_lseek).
#[local] Abbreviation d_write := (disk_write sys_write sys_lseek).
#[local] Abbreviation d_flush := (disk_flush sys_fsync).

(** ** The calls of view.c

    [que] is what the calls find when they queue a task, [buffer] what the struct holds
    that a head is read into. *)
Context (que : env) (buffer : list Z).
#[local] Abbreviation served f := (f d_read d_write d_flush (disk_read_head sys_read sys_lseek) (disk_close sys_fsync sys_close)
  (disk_expand sys_write sys_lseek sys_fsync alloc) (disk_queries (K := K))).

(** The buffer for a request when the cache has no blocks. *)
Definition request_block d : option (option (list Z)) := evfs_hard_allocate_cluster alloc None d.1.

Definition evfs_store : store (cache * disk (K := K)) := {|
  cache_hard_state s :=
    '(rep, _, _) ← served (@evfs_cache_hard_state _) que s.1 s.2;
    r ← r_status rep;
    Some (r, match r_stat rep with
             | Some x => Stat (Cache.hard_cluster_count x) (Cache.hard_cluster_size x) (Cache.hard_max_data_seg_size x)
             | None => Stat 0 0 0
             end);
  cache_read_head_directly id s :=
    '(rep, c, d) ← served (@evfs_cache_read_head_directly _) que id (Some buffer) s.1 s.2;
    r ← r_status rep; Some (r, default buffer (r_out rep), (c, d));
  cache_expand s :=
    '(n, first, c, d) ← served (@evfs_cache_expand _) que s.1 s.2; Some (n, default 0 first, (c, d));
  cache_write_head id b s :=
    block ← request_block s.2;
    '(rep, c, d) ← served (@evfs_cache_write_head _) que block id (Some b) s.1 s.2; r ← r_status rep; Some (r, (c, d));
  cache_write id b off s :=
    block ← request_block s.2;
    '(rep, c, d) ← served (@evfs_cache_write _) que block id (Some b) off s.1 s.2; r ← r_status rep; Some (r, (c, d));
  cache_write_userdata id b off s :=
    block ← request_block s.2;
    '(rep, c, d) ← served (@evfs_cache_write_userdata _) que block id (Some b) off s.1 s.2; r ← r_status rep; Some (r, (c, d));
  cache_read_userdata id off len s :=
    block ← request_block s.2;
    '(rep, c, d) ← served (@evfs_cache_read_userdata _) que block id true off len s.1 s.2;
    r ← r_status rep; Some (r, r_out rep, (c, d));
  cache_flush_block id s := served (@evfs_cache_flush_block _) que id s.1 s.2;
  hard_allocate_cluster b s := evfs_hard_allocate_cluster alloc (Some b) s.2.1;
|}.

(** The cache as evfs.c starts and stops it: the manager of the cache is ready exactly
    while evfs is. *)
Definition evfs_image (blocks : list (list Z)) : image (cache * disk (K := K)) := {|
  cache_init n creator s :=
    '(r, _, c, d) ← evfs_cache_init (disk_create sys_write sys_lseek sys_fsync sys_open sys_close alloc)
      (disk_open sys_read sys_open sys_close sys_fstat alloc) disk_cluster_size NSP_STATUS_SUCCESSFUL kEvmgrNotReady
      n creator blocks s.1 s.2;
    Some (r, (c, d));
  cache_uninit s := served (@evfs_cache_uninit _) que s.1 s.2;
  cache_flush s := served (@evfs_cache_flush _) que s.1 s.2;
  cache_set_block_num n s := '(rep, c, d) ← served (@evfs_cache_set_block_num _) que n blocks s.1 s.2; Some (r_status rep, (c, d));
  cache_file_stat s :=
    '(rep, _, _) ← served (@evfs_cache_hard_state _) que s.1 s.2;
    x ← r_stat rep; Some (Cache.file_size x, stat_cache_block_num x);
|}.

Section Disk.
Context `{!Path sys_read sys_write sys_lseek sys_fsync sys_open sys_close sys_fstat alloc content pos}.

Definition user_ok (cs n e : Z) d : Prop :=
  disk_ok content cs n e d /\ 0 < fd d.1 /\ Cluster.max_data_seg_size d.1 = cs - 12 /\ titled content cs n e d.

Lemma user_ok_mgr cs n e d d' : user_ok cs n e d -> disk_ok content cs n e d' -> d'.1 = d.1 ->
  disk_clusters content cs n d' 0 = disk_clusters content cs n d 0 -> user_ok cs n e d'.
Proof.
  intros (_ & Hf & Hm & Ht) Hv E E0. split; [done |]. rewrite E. do 2 (split; [done |]). apply (titled_same _ _ _ _ d); [done | | done].
  pose proof (ok_bounds _ _ _ _ _ _ Hv) as (_ & Hn & _). unfold disk_clusters in E0. rewrite !decide_True in E0 by lia. by injection E0.
Qed.

#[export] Instance user_hard cs n e : 32 <= cs <= 4096 ->
  HardDisk d_read d_write d_flush cs (user_ok cs n e) (user_clusters cs n) (fun _ _ => false).
Proof.
  intros Hcs. destruct (disk_hard sys_read sys_write sys_lseek sys_fsync content pos cs n e Hcs) as [H1 H2 H3 H4 H5]. split.
  - done.
  - intros d id b [Hv _] Hb. apply user_is_disk in Hb as [_ Hb]. by eapply H2.
  - intros id buf d b Hv Hb Hl. apply user_is_disk in Hb as [_ Hb].
    destruct (H3 id buf d b (proj1 Hv) Hb Hl) as (r & buf' & d' & E & Hv' & Hcl & Hres). exists r, buf', d'.
    split; [done |]. split; [|split; [intros i; split; [apply user_same; by intros j; apply Hcl | done] | exact Hres]].
    apply (user_ok_mgr cs n e d d' Hv Hv'); [|by apply Hcl].
    revert E. unfold disk_read. destruct (evfs_hard_read_cluster _ _ _ _ _ _) as [[[? ?] ?]|]; [|done]. by intros [= _ _ <-].
  - intros id buf d Hv [b Hb] Hl. apply user_is_disk in Hb as [Hid Hb].
    destruct (H4 id buf d (proj1 Hv)) as (r & d' & E & Hv' & Hcl & Hsome & Hw); [by eexists | done |].
    assert (forall i, i <> id -> user_clusters cs n d' i = user_clusters cs n d i) as Hoth.
    { intros i Hi. specialize (Hcl i Hi) as [Hcl _]. revert Hcl. unfold user_clusters, disk_clusters.
      destruct (decide (0 < i < n)); [by rewrite !(decide_True (P := 0 <= i < n)) by lia | done]. }
    assert (user_clusters cs n d' id = disk_clusters content cs n d' id) as Hsame.
    { unfold user_clusters, disk_clusters. by rewrite !decide_True by lia. }
    exists r, d'. split; [done |]. rewrite Hsame. split; [|split; [by intros i Hi; split; [apply Hoth |] | by split]].
    apply (user_ok_mgr cs n e d d' Hv Hv'); [|apply Hcl; lia]. revert E. unfold disk_write.
    destruct (evfs_hard_write_cluster _ _ _ _ _ _) as [[? ?]|]; [|done]. by intros [= _ <-].
  - intros d Hv. destruct (H5 d (proj1 Hv)) as [Hv' Hcl].
    split; [|intros i; split; [apply user_same; by intros j; apply Hcl | done]].
    apply (user_ok_mgr cs n e d _ Hv Hv'); [|by apply Hcl]. unfold disk_flush. by destruct (evfs_hard_flush _ _ _).
Qed.

(** Reads do not fail. *)
Lemma hard_read_works cs n e id size buf m s r buf' s' : hard_ok content cs n e m s -> 0 <= id < n -> 0 < size <= cs -> size <= zlen buf ->
  hard_read sys_read sys_lseek id size buf m s = Some (r, buf', s') -> 0 <= r.
Proof.
  intros [_ Hcs _ _ _ (Hb & Hn & Hm) [_ Hlen]] Hid Hsize Hbuf.
  destruct (cluster_range cs n id Hb Hn Hm Hid) as (R1 & R2 & R3). unfold hard_read, __evfs_cluster_offset.
  rewrite Hcs. cbn [mbind option_bind]. rewrite R3.
  destruct (ifos_file_seek_ok _ _ _ _ content pos (fd m) (id * cs) s R1) as (r1 & s1 & -> & Hc & _ & Hh).
  rewrite (Hh _). change (NSP_SUCCESS NSP_STATUS_SUCCESSFUL) with true. cbn [negb].
  destruct (read_works_ok sys_read sys_write sys_lseek sys_fsync sys_open sys_close sys_fstat alloc content pos (fd m) buf size s1)
    as (b & s2 & -> & _); [lia |].
  cbn [mbind option_bind]. intros [= <- _ _]. case_match; [done | apply zlen_nonneg].
Qed.

Lemma user_reads_work cs n e : 32 <= cs <= 4096 -> reads_work d_read cs (user_ok cs n e) (user_clusters cs n).
Proof.
  intros Hcs id buf d b r buf' d' [Hv _] Hb Hl E. apply user_is_disk in Hb as [Hid _].
  revert E. unfold disk_read, evfs_hard_read_cluster. rewrite (ok_ready _ _ _ _ _ _ Hv), (ok_cs _ _ _ _ _ _ Hv). cbn [negb mbind option_bind].
  destruct (hard_read sys_read sys_lseek id cs buf d.1 d.2) as [[[r0 b0] s0]|] eqn:E; [|done]. cbn [mbind option_bind].
  intros [= <- _ _]. eapply (hard_read_works cs n e id cs buf); [exact Hv | lia.. | exact E].
Qed.

(** [s] serves a disk of [n] clusters that grows by [e]: the cache over it shows [a], and
    has blocks, or none at all by choice. *)
Record serves (cs e : Z) (s : cache * disk (K := K)) (n : Z) (a : Z -> option (list Z)) : Prop := {
  sv_cache : cache_ok cs s.1;
  sv_disk : user_ok cs n e s.2;
  sv_refines : refines (user_clusters cs n) (fun _ _ => false) a s.1 s.2;
  sv_block : block_size s.1 = cs;
  sv_stock : cache_block_num s.1 = 0 \/ lru s.1 ++ idle s.1 <> [];
}.

Section Requests.
Context (cs e : Z) (Hcs : 32 <= cs <= 4096).

Lemma serves_dom s n a id : serves cs e s n a -> is_Some (a id) <-> 0 < id < n.
Proof.
  intros [Hc _ Hr _ _]. destruct (search_ok cs id s.1 Hc) as ([l|] & _ & Hs).
  - destruct Hs as (Hl & m & Hm & <-). destruct (rf_clean _ _ _ _ _ Hr l m Hl Hm) as [[b Hb] _].
    rewrite (rf_cached _ _ _ _ _ Hr l m Hl Hm). apply user_is_disk in Hb as [? _]. split; [done | by eexists].
  - rewrite (rf_rest _ _ _ _ _ Hr id) by done. unfold user_clusters. case_decide; [split; [done | by eexists] |].
    split; [by intros [? ?] | done].
Qed.

Lemma serves_cluster s n a id : serves cs e s n a -> 0 < id < n -> is_Some (user_clusters cs n s.2 id).
Proof. intros _ Hid. unfold user_clusters. rewrite decide_True by done. by eexists. Qed.

Lemma serves_len s n a id b : serves cs e s n a -> a id = Some b -> zlen b = cs.
Proof.
  intros [Hc Hd Hr _ _] Hb. destruct (search_ok cs id s.1 Hc) as ([l|] & _ & Hs).
  - destruct Hs as (Hl & m & Hm & <-). rewrite (rf_cached _ _ _ _ _ Hr l m Hl Hm) in Hb. injection Hb as <-.
    destruct (lru_node cs s.1 l Hc Hl) as (m' & Hm' & Hlen). by simplify_eq.
  - rewrite (rf_rest _ _ _ _ _ Hr id) in Hb by done.
    pose proof (user_hard cs n e Hcs). by apply (hd_len s.2 id b).
Qed.

(** The buffer can be allocated. *)
Lemma request_block_ok s n a : serves cs e s n a -> exists block, request_block s.2 = Some (Some block) /\ zlen block = 12 + cs.
Proof.
  intros [_ [Hv _] _ _ _]. unfold request_block, evfs_hard_allocate_cluster. rewrite (ok_ready _ _ _ _ _ _ Hv).
  pose proof (ok_cs _ _ _ _ _ _ Hv) as E. rewrite E. cbn [mbind option_bind]. unfold sizeof_cluster.
  destruct (alloc_works sys_read sys_write sys_lseek sys_fsync sys_open sys_close sys_fstat alloc content pos (12 + cs)) as (b & -> & _); [lia |].
  eexists. split; [reflexivity |]. rewrite zlen_replicate; lia.
Qed.

Lemma read_request s n a block id off len : serves cs e s n a -> zlen block = 12 + cs -> 0 < id < n ->
  0 <= off -> 0 <= len -> off + len <= cs ->
  exists b c d, __evfs_cache_read d_read d_write (Some block) id off len s.1 s.2
      = Some (NSP_STATUS_SUCCESSFUL, Some (read_at off len b), c, d) /\ a id = Some b /\ serves cs e (c, d) n a.
Proof.
  intros Hs Hb Hid Ho Hl Hle. pose proof Hs as [Hc Hd Hr Hbs Hst]. pose proof (user_hard cs n e Hcs) as Hh.
  destruct (cache_read_ok d_read d_write d_flush cs (user_ok cs n e) (user_clusters cs n) (fun _ _ => false) a (Some block) id off len s.1 s.2 Hc Hr Hd)
    as (r & out & c & d & a' & E & Hc' & Hag & Hr' & Hd' & Hsame & Hres);
    [by eapply serves_cluster | intros buf [= <-]; lia | done.. |].
  assert (forall i, a i = a' i) as Ha by (intros i; symmetry; by apply Hag).
  pose proof E as Ec. apply cache_read_conf in Ec as [[E1 E2] Hin]. destruct Hres as [(_ & _ & Hno) | (-> & b & Hab & ->)].
  - destruct Hno. split; [apply user_reads_work, Hcs |]. unfold stocked.
    destruct (decide (cache_block_num s.1 = 0)); [left; split; [done | by eexists] | right; naive_solver].
  - exists b, c, d. split; [done |]. split; [by rewrite Ha |]. split; cbn [fst snd]; try done; [by apply (refines_ext _ _ a') | congruence |].
    destruct (Hin eq_refl) as [-> | Hne]; [done |]. right. by destruct (lru c).
Qed.

Lemma write_request s n a block id b off : serves cs e s n a -> zlen block = 12 + cs -> 0 < id < n ->
  0 <= off -> off + zlen b <= cs ->
  exists c d, __evfs_cache_write d_read d_write (Some block) id b off s.1 s.2 = Some (NSP_STATUS_SUCCESSFUL, c, d) /\
    serves cs e (c, d) n (written id off b a).
Proof.
  intros Hs Hb Hid Ho Hle. pose proof Hs as [Hc Hd Hr Hbs Hst]. pose proof (user_hard cs n e Hcs) as Hh.
  destruct (cache_write_ok d_read d_write d_flush cs (user_ok cs n e) (user_clusters cs n) (fun _ _ => false) a (Some block) id b off s.1 s.2 Hc Hr Hd)
    as (r & c & d & a' & E & Hc' & Hd' & Hsame & Hag & Hres & Hno);
    [by eapply serves_cluster | intros buf [= <-]; lia | done.. |].
  assert (forall i, written id off b a i = written id off b a' i) as Ha.
  { intros i. unfold written. by rewrite !(Hag _ eq_refl). }
  pose proof E as Ec. apply cache_write_conf in Ec as [[E1 E2] Hin]. destruct Hres as [[-> Hr'] | [Hneg _]].
  - exists c, d. split; [done |]. split; cbn [fst snd]; try done; [by apply (refines_ext _ _ (written id off b a')) | congruence |].
    destruct (Hin eq_refl) as [-> | Hne]; [done |]. right. by destruct (lru c).
  - destruct (Hno Hneg) as [[] | ?]; [|done]. split; [apply user_reads_work, Hcs |]. unfold stocked.
    destruct (decide (cache_block_num s.1 = 0)); [left; split; [done | by eexists] | right; naive_solver].
Qed.

(** Queueing a task: it is executed, or refused without a change. *)
Definition accepts : Prop := e_ready que = true /\ e_mem que = true /\ NSP_SUCCESS (__evfs_cache_push_task que) = true.

Lemma push_task_fails : NSP_SUCCESS (__evfs_cache_push_task que) = false -> __evfs_cache_push_task que < 0.
Proof. unfold NSP_SUCCESS. intros H%Z.leb_gt. done. Qed.

Lemma submit_cases guard task c d :
  (exists r, served (@submit _) que guard task c d = Some (Reply (Some r) None None, c, d) /\ r < 0 /\ ~ (guard = true /\ accepts)) \/
  guard = true /\ served (@submit _) que guard task c d = served (@__evfs_cache_exec_task _) task c d.
Proof.
  unfold submit, accepts. destruct guard; cbn [negb].
  2: { left. eexists. split; [reflexivity |]. rewrite makeerror_pos by done. split; [done | by intros [? _]]. }
  destruct (e_mem que) eqn:Em; cbn [negb].
  2: { left. eexists. split; [reflexivity |]. rewrite makeerror_pos by done. split; [done |]. by intros [_ (_ & ? & _)]. }
  destruct (NSP_SUCCESS (__evfs_cache_push_task que)) eqn:Ep; cbn [negb]; [by right |].
  left. eexists. split; [reflexivity |]. split; [by apply push_task_fails |]. by intros [_ (_ & _ & ?)].
Qed.

Lemma range_guard_ok id off len c : 0 < id -> 0 <= off -> 0 <= len -> off + len <= cs -> block_size c = cs ->
  range_guard que id off len c = e_ready que.
Proof.
  intros H1 H2 H3 H4 Hb. unfold range_guard. rewrite Hb, swrap_small by (pow2; lia).
  rewrite (proj2 (Z.leb_gt id 0)), (proj2 (Z.ltb_ge off 0)), (proj2 (Z.ltb_ge len 0)), (proj2 (Z.ltb_ge cs (off + len))) by lia.
  by destruct (e_ready que).
Qed.

(** The int sum of two ints, compared as size_t. *)
Lemma userdata_guard_ok id off len c : 0 < id -> 0 <= off < 2 ^ 31 -> 0 < len < 2 ^ 31 -> block_size c = cs ->
  userdata_guard id off len c = (off + len <=? cs - 12).
Proof.
  intros H1 H2 H3 Hb. unfold userdata_guard. rewrite Hb, (proj2 (Z.ltb_ge id 0)), orb_false_r by lia. unfold sizeof_cluster.
  rewrite (wrap_small 64 (cs - 12)) by (pow2; lia). destruct (Z.ltb_spec (off + len) (2 ^ 31)) as [Hs | Hs].
  - rewrite swrap_small, wrap_small by (pow2; lia). destruct (Z.ltb_spec (cs - 12) (off + len)), (Z.leb_spec (off + len) (cs - 12)); lia || done.
  - assert (s32 (off + len) = off + len - 2 ^ 32) as ->.
    { unfold swrap. replace (off + len + 2 ^ (32 - 1)) with (off + len - 2 ^ 31 + 1 * 2 ^ 32) by (pow2; lia).
      rewrite Z.mod_add by (pow2; lia). rewrite Z.mod_small by (pow2; lia). pow2. lia. }
    assert (u64 (off + len - 2 ^ 32) = off + len - 2 ^ 32 + 2 ^ 64) as ->.
    { unfold wrap. replace (off + len - 2 ^ 32) with (off + len - 2 ^ 32 + 2 ^ 64 + (-1) * 2 ^ 64) at 1 by lia.
      rewrite Z.mod_add by (pow2; lia). apply Z.mod_small. pow2. lia. }
    rewrite (proj2 (Z.ltb_lt _ _)), (proj2 (Z.leb_gt _ _)) by (pow2; lia). done.
Qed.

Lemma userdata_guard_fits id off len c : 0 < id -> 0 <= off -> 0 <= len -> off + len <= cs - 12 -> block_size c = cs ->
  userdata_guard id off len c = true.
Proof.
  intros H1 H2 H3 H4 Hb. unfold userdata_guard. rewrite Hb, (proj2 (Z.ltb_ge id 0)), orb_false_r by lia. unfold sizeof_cluster.
  rewrite (wrap_small 64 (cs - 12)), swrap_small, wrap_small by (pow2; lia). by rewrite (proj2 (Z.ltb_ge _ _)).
Qed.

(** The two requests as the entry points make them. *)
Lemma write_call s n a block id b off : serves cs e s n a -> zlen block = 12 + cs -> 0 < id < n -> 0 <= off -> off + zlen b <= cs ->
  exists r c d, served (@evfs_cache_write _) que (Some block) id (Some b) off s.1 s.2 = Some (Reply (Some r) None None, c, d) /\
    (r = NSP_STATUS_SUCCESSFUL /\ serves cs e (c, d) n (written id off b a) \/ r < 0 /\ ~ accepts /\ (c, d) = s).
Proof.
  intros Hs Hb Hid Ho Hl. pose proof (zlen_nonneg b). unfold evfs_cache_write. change (default [] (Some b)) with b.
  rewrite bool_decide_true by (by eexists). cbn [andb].
  rewrite range_guard_ok by (done || lia || apply (sv_block _ _ _ _ _ Hs)).
  destruct (submit_cases (e_ready que) (IoWrite (Some block) id b off) s.1 s.2) as [(r & -> & Hneg & Hno) | [_ ->]].
  - exists r, s.1, s.2. split; [done |]. right. split; [done |]. split; [|by destruct s]. intros Ha. apply Hno. split; [apply Ha | done].
  - cbn [__evfs_cache_exec_task]. destruct (write_request s n a block id b off Hs Hb Hid Ho Hl) as (c & d & -> & Hs').
    cbn [mbind option_bind]. do 3 eexists. split; [reflexivity |]. by left.
Qed.

Lemma read_call s n a block id off len : serves cs e s n a -> zlen block = 12 + cs -> 0 < id < n -> 0 <= off -> 0 <= len -> off + len <= cs ->
  exists r out c d, served (@evfs_cache_read _) que (Some block) id true off len s.1 s.2 = Some (Reply (Some r) out None, c, d) /\
    serves cs e (c, d) n a /\
    (r = NSP_STATUS_SUCCESSFUL /\ (exists b, a id = Some b /\ out = Some (read_at off len b)) \/ r < 0 /\ ~ accepts).
Proof.
  intros Hs Hb Hid Ho Hl Hle. unfold evfs_cache_read. cbn [andb].
  rewrite range_guard_ok by (done || lia || apply (sv_block _ _ _ _ _ Hs)).
  destruct (submit_cases (e_ready que) (IoRead (Some block) id off len) s.1 s.2) as [(r & -> & Hneg & Hno) | [_ ->]].
  - exists r, None, s.1, s.2. split; [done |]. split; [by destruct s |]. right. split; [done |]. intros Ha. apply Hno. split; [apply Ha | done].
  - cbn [__evfs_cache_exec_task]. destruct (read_request s n a block id off len Hs Hb Hid Ho Hl Hle) as (b & c & d & -> & Hab & Hs').
    cbn [mbind option_bind]. do 4 eexists. split; [reflexivity |]. split; [done |]. left. split; [done |]. by exists b.
Qed.

(** Growing the disk under the cache. *)
Lemma expand_request s n a : serves cs e s n a -> 0 < e -> n + e <= MAXIMUM_FILE_SIZE / cs ->
  exists d, disk_expand sys_write sys_lseek sys_fsync alloc s.2 = Some (e, Some n, d) /\
    serves cs e (s.1, d) (n + e) (fun i => if decide (n <= i < n + e) then Some (replicate (Z.to_nat cs) 0) else a i).
Proof.
  intros Hs He Hroom. pose proof Hs as [Hc (Hd & Hf & Hm & Ht) Hr Hbs Hst].
  assert (cs * (n + e) <= MAXIMUM_FILE_SIZE) as Hmax.
  { pose proof (Z.mul_div_le MAXIMUM_FILE_SIZE cs). nia. }
  destruct (evfs_hard_expand_ok sys_read sys_write sys_lseek sys_fsync content pos alloc cs n e s.2.1 s.2.2 Hd He Hmax)
    as (m' & s' & E & Hd' & Hold & Hnew & hb & hb' & Eb & Ep & Eb' & E0).
  { intros k Hk. destruct (alloc_works sys_read sys_write sys_lseek sys_fsync sys_open sys_close sys_fstat alloc content pos k Hk) as (b & -> & _).
    by eexists. }
  { intros s0. by apply (flush_works sys_read sys_write sys_lseek sys_fsync sys_open sys_close sys_fstat alloc content pos). }
  exists (m', s'). unfold disk_expand. rewrite E. split; [done |].
  assert (fd m' = fd s.2.1 /\ Cluster.max_data_seg_size m' = Cluster.max_data_seg_size s.2.1) as [Ef Em].
  { unfold evfs_hard_expand in E. by run_inv. }
  assert (forall i, user_clusters cs (n + e) (m', s') i =
    if decide (n <= i < n + e) then Some (replicate (Z.to_nat cs) 0) else user_clusters cs n s.2 i) as Hcl.
  { pose proof (ok_bounds _ _ _ _ _ _ Hd) as (_ & Hn & _). intros i. unfold user_clusters. cbn [snd].
    destruct (decide (n <= i < n + e)).
    - rewrite decide_True by lia. by rewrite Hnew.
    - destruct (decide (0 < i < n)); [|by rewrite decide_False by lia]. rewrite decide_True by lia. by rewrite Hold. }
  assert (forall l m, l ∈ lru s.1 -> heap s.1 !! l = Some m -> ~ n <= cluster_id m < n + e) as Hids.
  { intros l m Hl Hn. destruct (rf_clean _ _ _ _ _ Hr l m Hl Hn) as [[b Hb] _]. apply user_is_disk in Hb as [? _]. lia. }
  split; cbn [fst snd]; try done.
  - split; [exact Hd' |]. cbn [fst]. rewrite Ef, Em. do 2 (split; [done |]). destruct Ht as [(x & Ex & Hx) _]. rewrite Eb in Ex. injection Ex as <-.
    assert (header cs (n + e) e hb') as Hb'.
    { destruct (ok_first _ _ _ _ _ _ Hd) as (y & Ey & Hly). rewrite Eb in Ey. injection Ey as <-. change MAXIMUM_FILE_SIZE with 1073741824 in Hmax.
      pose proof (ok_bounds _ _ _ _ _ _ Hd) as (_ & Hn & _). apply (put_count_header (n + e) hb hb' cs n e); [lia | pow2; nia | done..]. }
    split; [by exists hb' |]. cbn [snd]. by rewrite E0.
  - split.
    + intros l m Hl Hn. rewrite Hcl, decide_False by (by eapply Hids). by apply (rf_clean _ _ _ _ _ Hr l).
    + intros l m Hl Hn. rewrite decide_False by (by eapply Hids). by apply (rf_cached _ _ _ _ _ Hr l).
    + intros i Hi. rewrite Hcl. case_decide; [done | by apply (rf_rest _ _ _ _ _ Hr)].
Qed.

(** A call that makes the disk grow reads the task of its request after it was freed. *)
Theorem expand_reads_freed_task s n a : serves cs e s n a -> accepts -> 0 < e -> n + e <= MAXIMUM_FILE_SIZE / cs ->
  served (@evfs_cache_expand _) que s.1 s.2 = None.
Proof.
  intros Hs Hacc He Hroom. unfold evfs_cache_expand. rewrite (proj1 Hacc). cbn [negb].
  destruct (submit_cases true IoHardExpand s.1 s.2) as [(r & _ & _ & []) | [_ ->]]; [done |].
  cbn [__evfs_cache_exec_task]. unfold Cache.__evfs_cache_expand.
  destruct (expand_request s n a Hs He Hroom) as (d & -> & _). cbn [mbind option_bind]. by rewrite (proj2 (Z.ltb_lt 0 e)).
Qed.

(** Reading a head from the disk, past the cache. *)
Lemma head_request s n a id buf : serves cs e s n a -> 0 < id < n -> zlen buf = 12 ->
  exists b d, disk_read_head sys_read sys_lseek id buf s.2 = Some (NSP_STATUS_SUCCESSFUL, b, d) /\ zlen b = 12 /\
    b = read_at (id * cs) 12 (content (kern s.2.2)) /\ serves cs e (s.1, d) n a.
Proof.
  intros [Hc (Hd & Hf & Hm & Ht) Hr Hbs Hst] Hid Hb. unfold disk_read_head, evfs_hard_read_cluster_head.
  rewrite (ok_ready _ _ _ _ _ _ Hd). cbn [negb]. unfold sizeof_cluster.
  destruct (hard_read_ok sys_read sys_write sys_lseek sys_fsync content pos cs n e id 12 buf s.2.1 s.2.2 Hd) as (r & b & s' & E & Hk & Hl & Hres); [lia.. |].
  rewrite E. cbn [mbind option_bind]. exists b, (s.2.1, s').
  assert (0 <= r) as Hr0 by (apply (hard_read_works cs n e) in E; [lia | done | lia..]).
  destruct Hres as [Hneg | [-> Eb]]; [lia |]. split; [done |]. split; [congruence |]. split.
  - rewrite Eb. apply write_at_all. rewrite Hb. pose proof (ok_bounds _ _ _ _ _ _ Hd) as (_ & Hn & _). pose proof (ok_fsize _ _ _ _ _ _ Hd) as [_ Hlen].
    apply read_at_len; nia.
  - split; cbn [fst snd]; try done.
    + split; [by apply (hard_ok_same content cs n e s.2.1 s.2.2) |]. do 2 (split; [done |]).
      apply (titled_same _ _ _ _ s.2); [done | | done]. cbn [snd]. by rewrite Hk.
    + apply (refines_disk _ _ a s.1 s.2); [|done]. intros i. split; [|done]. unfold user_clusters. cbn [snd]. by rewrite Hk.
Qed.

Lemma flush_request s n a id : serves cs e s n a ->
  exists c d, __evfs_cache_flush_block d_write id s.1 s.2 = Some (c, d) /\ serves cs e (c, d) n a.
Proof.
  intros [Hc Hd Hr Hbs Hst]. pose proof (user_hard cs n e Hcs) as Hh.
  destruct (flush_block_ok d_read d_write d_flush cs (user_ok cs n e) (user_clusters cs n) (fun _ _ => false) a id s.1 s.2 Hc Hr Hd)
    as (c & d & E & Hc' & Hr' & Hd' & _). pose proof (flush_stock _ _ _ _ _ _ E Hst) as Hst'.
  exists c, d. split; [done |]. destruct (flush_one_conf _ _ _ _ _ _ E) as [[E1 E2] _]. split; cbn [fst snd]; try done. congruence.
Qed.

(** The state of the disk as the worker writes it. *)
Lemma state_request s n a : serves cs e s n a ->
  served (@__evfs_cache_exec_task _) IoHardState s.1 s.2
    = Some (ReplyWith (Some NSP_STATUS_SUCCESSFUL) None None
              (Some (CacheStat (evfs_hard_get_filesize s.2.1) cs (n - 1) (cs - 12) (cache_block_num s.1))), s.1, s.2).
Proof.
  intros [_ (Hd & _ & Hm & _) _ _ _]. cbn [__evfs_cache_exec_task disk_queries hard_get_usable_cluster_count Cache.hard_get_cluster_size
    hard_get_max_data_seg_size hard_get_filesize].
  unfold evfs_hard_get_usable_cluster_count, disk_cluster_size, evfs_hard_get_cluster_size, evfs_hard_get_max_data_seg_size.
  by rewrite (ok_ready _ _ _ _ _ _ Hd), (ok_n _ _ _ _ _ _ Hd), (ok_cs _ _ _ _ _ _ Hd), Hm.
Qed.

(** ** The cache keeps what the views rely on

    As long as the disk need not grow: see [expand_reads_freed_task]. *)
Context (Hbuffer : zlen buffer = 12) (He : 0 < e).

Lemma serves_pos s n a : serves cs e s n a -> 0 < n.
Proof. intros [_ (Hd & _) _ _ _]. by pose proof (ok_bounds _ _ _ _ _ _ Hd) as (_ & ? & _). Qed.

#[export] Instance evfs_store_ok : StoreOk evfs_store cs e 0 (serves cs e).
Proof.
  split.
  - lia.
  - done.
  - intros s n a id. apply serves_dom.
  - intros s n a id b. apply serves_len.
  - intros s n a Hs. cbn [evfs_store cache_hard_state]. unfold evfs_cache_hard_state.
    destruct (e_ready que); cbn [negb].
    2: { do 2 eexists. split; [reflexivity |]. by rewrite makeerror_fails. }
    destruct (submit_cases true IoHardState s.1 s.2) as [(r & -> & Hneg & _) | [_ ->]].
    + do 2 eexists. split; [reflexivity |]. by rewrite success_neg.
    + rewrite (state_request s n a Hs). do 2 eexists. split; [reflexivity | done].
  - intros id s n a Hs Hid. cbn [evfs_store cache_read_head_directly]. unfold evfs_cache_read_head_directly.
    destruct (submit_cases (negb ((id <=? 0) || bool_decide (Some buffer = None) || negb (e_ready que)))
      (IoReadHeadDirectly id (default [] (Some buffer))) s.1 s.2) as [(r & -> & Hneg & _) | [_ ->]].
    + do 3 eexists. split; [reflexivity |]. by destruct s.
    + change (default [] (Some buffer)) with buffer. cbn [__evfs_cache_exec_task].
      destruct (head_request s n a id buffer Hs Hid Hbuffer) as (b & d & -> & Hb & _ & Hs'). do 3 eexists. split; [reflexivity |]. by split.
  - intros s n a Hs Hroom. pose proof (serves_pos s n a Hs). lia.
  - intros id b s n a Hs Hid Hb. cbn [evfs_store cache_write_head].
    destruct (request_block_ok s n a Hs) as (blk & -> & Hblk). cbn [mbind option_bind]. unfold evfs_cache_write_head.
    destruct (write_call s n a blk id b 0 Hs Hblk Hid) as (r & c & d & -> & Hres); [lia | lia |]. cbn [mbind option_bind r_status].
    do 2 eexists. split; [reflexivity |]. destruct Hres as [? | (? & _ & ->)]; [by left | by right].
  - intros id b s n a Hs Hid Hb. cbn [evfs_store cache_write].
    destruct (request_block_ok s n a Hs) as (blk & -> & Hblk). cbn [mbind option_bind].
    destruct (write_call s n a blk id b 0 Hs Hblk Hid) as (r & c & d & -> & Hres); [lia | lia |]. cbn [mbind option_bind r_status].
    do 2 eexists. split; [reflexivity |]. destruct Hres as [? | (? & _ & ->)]; [by left | by right].
  - intros id b off s n a Hs Hid Ho Hb. cbn [evfs_store cache_write_userdata].
    destruct (request_block_ok s n a Hs) as (blk & -> & Hblk). cbn [mbind option_bind]. unfold evfs_cache_write_userdata.
    rewrite bool_decide_true by (by eexists). change (default [] (Some b)) with b. cbn [andb].
    rewrite userdata_guard_ok by (lia || apply (sv_block _ _ _ _ _ Hs)). unfold sizeof_cluster.
    destruct (Z.leb_spec (off + zlen b) (cs - 12)) as [Hle | Hgt]; cbn [negb].
    + rewrite swrap_small by (pow2; lia). rewrite (Z.add_comm off 12).
      destruct (write_call s n a blk id b (12 + off) Hs Hblk Hid) as (r & c & d & -> & Hres); [lia | lia |].
      cbn [mbind option_bind r_status]. do 2 eexists. split; [reflexivity |].
      destruct Hres as [[-> ?] | (? & _ & ->)]; [by left | by right].
    + do 2 eexists. split; [reflexivity |]. right. rewrite makeerror_pos by done. split; [done | by destruct s].
  - intros id off len s n a Hs Hid Ho Hl. cbn [evfs_store cache_read_userdata].
    destruct (request_block_ok s n a Hs) as (blk & -> & Hblk). cbn [mbind option_bind]. unfold evfs_cache_read_userdata. cbn [andb].
    rewrite userdata_guard_ok by (lia || apply (sv_block _ _ _ _ _ Hs)). unfold sizeof_cluster.
    destruct (Z.leb_spec (off + len) (cs - 12)) as [Hle | Hgt]; cbn [negb].
    + rewrite swrap_small by (pow2; lia). rewrite (Z.add_comm off 12).
      destruct (read_call s n a blk id (12 + off) len Hs Hblk Hid) as (r & out & c & d & -> & Hs' & Hres); [lia.. |].
      cbn [mbind option_bind r_status r_out]. do 3 eexists. split; [reflexivity |]. split; [done |].
      destruct Hres as [[-> ?] | [? _]]; [by left | by right].
    + do 3 eexists. split; [reflexivity |]. split; [by destruct s | right]. by rewrite makeerror_pos.
  - intros id s n a Hs. cbn [evfs_store cache_flush_block]. unfold evfs_cache_flush_block.
    destruct (submit_cases (negb ((id <=? 0) || negb (e_ready que))) (IoFlushBuffer id) s.1 s.2) as [(r & -> & Hneg & _) | [_ ->]].
    + eexists. split; [reflexivity |]. by destruct s.
    + cbn [__evfs_cache_exec_task]. destruct (flush_request s n a id Hs) as (c & d & -> & Hs'). eexists. by split.
  - intros s n a b [_ (Hd & _) _ _ _] Hb. cbn [evfs_store hard_allocate_cluster]. unfold evfs_hard_allocate_cluster.
    rewrite (ok_ready _ _ _ _ _ _ Hd), (ok_cs _ _ _ _ _ _ Hd). cbn [mbind option_bind]. unfold sizeof_cluster.
    destruct (alloc_works sys_read sys_write sys_lseek sys_fsync sys_open sys_close sys_fstat alloc content pos (12 + cs)) as (blk & -> & _); [lia |].
    rewrite memread_read by lia. cbn [mbind option_bind].
    assert (read_at 0 12 b = b) as -> by (unfold read_at; rewrite drop_0; apply take_ge; unfold zlen in Hb; lia).
    assert (zlen (replicate (Z.to_nat (12 + cs)) 0) = 12 + cs) as Hz by (rewrite zlen_replicate; lia).
    rewrite memcpy_write by lia. cbn [mbind option_bind]. eexists. split; [reflexivity |]. intros x [= <-].
    rewrite write_at_in by lia. change (Z.to_nat 0) with 0%nat. rewrite take_0, drop_replicate. cbn [app]. do 2 f_equal.
    unfold zlen in Hb. lia.
Qed.

#[export] Instance evfs_store_reliable : accepts -> Reliable evfs_store cs e 0 (serves cs e).
Proof.
  intros Hacc. pose proof Hacc as (Hready & Hmem & Hpush). split.
  - intros s n a r x Hs. cbn [evfs_store cache_hard_state]. unfold evfs_cache_hard_state. rewrite Hready. cbn [negb].
    destruct (submit_cases true IoHardState s.1 s.2) as [(r' & _ & _ & []) | [_ ->]]; [done |].
    rewrite (state_request s n a Hs). by intros [= <- _].
  - intros s n a k first s' Hs Hroom. pose proof (serves_pos s n a Hs). lia.
  - intros id b s n a r s' Hs Hid Hb. cbn [evfs_store cache_write_head].
    destruct (request_block_ok s n a Hs) as (blk & -> & Hblk). cbn [mbind option_bind]. unfold evfs_cache_write_head.
    destruct (write_call s n a blk id b 0 Hs Hblk Hid) as (r' & c & d & -> & Hres); [lia | lia |]. cbn [mbind option_bind r_status].
    intros [= <- _]. by destruct Hres as [[-> _] | (_ & ? & _)].
  - intros id b s n a r s' Hs Hid Hb. cbn [evfs_store cache_write].
    destruct (request_block_ok s n a Hs) as (blk & -> & Hblk). cbn [mbind option_bind].
    destruct (write_call s n a blk id b 0 Hs Hblk Hid) as (r' & c & d & -> & Hres); [lia | lia |]. cbn [mbind option_bind r_status].
    intros [= <- _]. by destruct Hres as [[-> _] | (_ & ? & _)].
  - intros id b off s n a r s' Hs Hid Ho Hle. cbn [evfs_store cache_write_userdata]. pose proof (zlen_nonneg b).
    destruct (request_block_ok s n a Hs) as (blk & -> & Hblk). cbn [mbind option_bind]. unfold evfs_cache_write_userdata.
    rewrite bool_decide_true by (by eexists). change (default [] (Some b)) with b. cbn [andb].
    rewrite userdata_guard_fits by (lia || apply (sv_block _ _ _ _ _ Hs)). unfold sizeof_cluster. cbn [negb].
    rewrite swrap_small by (pow2; lia). rewrite (Z.add_comm off 12).
    destruct (write_call s n a blk id b (12 + off) Hs Hblk Hid) as (r' & c & d & -> & Hres); [lia | lia |].
    cbn [mbind option_bind r_status]. intros [= <- _]. by destruct Hres as [[-> _] | (_ & ? & _)].
  - intros id off len s n a r out s' Hs Hid Ho Hl Hle. cbn [evfs_store cache_read_userdata].
    destruct (request_block_ok s n a Hs) as (blk & -> & Hblk). cbn [mbind option_bind]. unfold evfs_cache_read_userdata. cbn [andb].
    rewrite userdata_guard_fits by (lia || apply (sv_block _ _ _ _ _ Hs)). unfold sizeof_cluster. cbn [negb].
    rewrite swrap_small by (pow2; lia). rewrite (Z.add_comm off 12).
    destruct (read_call s n a blk id (12 + off) len Hs Hblk Hid) as (r' & out' & c & d & -> & Hs' & Hres); [lia.. |].
    cbn [mbind option_bind r_status r_out]. intros [= <- _ _]. by destruct Hres as [[-> _] | [_ ?]].
  - intros s n a b Hs Hb Hno. destruct (so_alloc s n a b Hs Hb) as (o & E & _). rewrite E in Hno. injection Hno as ->.
    revert E. destruct Hs as [_ (Hd & _) _ _ _]. cbn [evfs_store hard_allocate_cluster]. unfold evfs_hard_allocate_cluster.
    rewrite (ok_ready _ _ _ _ _ _ Hd), (ok_cs _ _ _ _ _ _ Hd). cbn [mbind option_bind]. unfold sizeof_cluster.
    destruct (alloc_works sys_read sys_write sys_lseek sys_fsync sys_open sys_close sys_fstat alloc content pos (12 + cs)) as (blk & -> & _); [lia |].
    destruct (memread b 0 12); [|done]. cbn [mbind option_bind]. by destruct (memcpy_at _ _ _).
Qed.
End Requests.

(** ** A fresh image *)
Lemma add_blocks_idle : forall k (blocks : list (list Z)) c,
  let '(i, c') := add_blocks k blocks c in
  block_size c' = block_size c /\ lru c' = lru c /\ exists q, idle c' = idle c ++ q /\ zlen q = i.
Proof.
  induction k as [|k IH]; intros [|b blocks] c; cbn [add_blocks];
    try (split; [done |]; split; [done |]; exists []; by rewrite app_nil_r).
  specialize (IH blocks (set_block_num (cache_block_num c + 1) (new_idle b c))).
  destruct (add_blocks k blocks _) as [i c']. destruct IH as (H1 & H2 & q & H3 & H4).
  split; [exact H1 |]. split; [exact H2 |]. exists (fresh (dom (heap c)) :: q). split; [|rewrite zlen_cons; lia].
  rewrite H3. cbn. by rewrite <- app_assoc.
Qed.

#[local] Abbreviation starts := (evfs_cache_init (disk_create sys_write sys_lseek sys_fsync sys_open sys_close alloc)
  (disk_open sys_read sys_open sys_close sys_fstat alloc) disk_cluster_size NSP_STATUS_SUCCESSFUL kEvmgrNotReady).

(** An empty cache that is started on a disk serves what the disk holds; nothing is cached. *)
Lemma start_serves cs n e num creator blocks c d d1 : user_ok cs n e d1 -> cache_ok cs c -> lru c = [] ->
  0 <= num -> Forall (fun b => zlen b = cs) blocks ->
  match creator with
  | Some (k1, k2) => disk_create sys_write sys_lseek sys_fsync sys_open sys_close alloc k1 k2 d
  | None => disk_open sys_read sys_open sys_close sys_fstat alloc d
  end = Some (NSP_STATUS_SUCCESSFUL, d1) ->
  exists c1, starts num creator blocks c d = Some (NSP_STATUS_SUCCESSFUL, kEvmgrReady, c1, d1) /\
    serves cs e (c1, d1) n (user_clusters cs n d1) /\ lru c1 = [].
Proof.
  intros Hv Hc Hl Hnum Hbl Ec. pose proof (proj1 Hv) as Hok. assert (disk_cluster_size d1 = Some cs) as Hsize.
  { unfold disk_cluster_size, evfs_hard_get_cluster_size. by rewrite (ok_ready _ _ _ _ _ _ Hok), (ok_cs _ _ _ _ _ _ Hok). }
  destruct (init_ok cs (user_clusters cs n) (fun _ _ => false) (disk_create sys_write sys_lseek sys_fsync sys_open sys_close alloc)
    (disk_open sys_read sys_open sys_close sys_fstat alloc) disk_cluster_size num creator blocks
    NSP_STATUS_SUCCESSFUL cs c d d1) as (c1 & E1 & Hc1 & Hr1); [done | done | done | done | exact Ec | done | exact Hsize |].
  assert (block_size c1 = cs /\ (cache_block_num c1 = 0 \/ lru c1 ++ idle c1 <> []) /\ lru c1 = []) as (Hb & Hst & El).
  { revert E1. unfold evfs_cache_init. rewrite (proj2 (Z.ltb_ge num 0)) by done.
    change (kEvmgrNotReady =? kEvmgrNotReady) with true. cbn [negb]. rewrite Ec. cbn [mbind option_bind].
    change (NSP_SUCCESS NSP_STATUS_SUCCESSFUL) with true. cbn [negb]. rewrite Hsize. cbn [mbind option_bind].
    unfold __evfs_cache_add_block_to_idle. pose proof (add_blocks_idle (Z.to_nat num) blocks (set_block_size cs c)) as Hadd.
    destruct (add_blocks _ _ _) as [i c2]. destruct Hadd as (H1 & H2 & q & H3 & H4). intros [= <-].
    cbn [set_block_num block_size cache_block_num lru idle]. cbn [set_block_size lru] in H2. rewrite H2, H3, Hl. split; [done |]. split; [|done].
    destruct q; [by left | right]. by destruct (idle (set_block_size cs c)). }
  exists c1. split; [exact E1 |]. by split.
Qed.

(** [evfs_cache_init] that makes an image leaves a cache that serves it. *)
Lemma init_serves cs count num blocks s : 32 <= cs <= 4096 -> is_powerof_2 cs = true -> 0 < count -> cs * count < MAXIMUM_FILE_SIZE ->
  0 <= num -> Forall (fun b => zlen b = cs) blocks ->
  exists c d, starts num (Some (cs, count)) blocks evfs_cache0 (evfs_mgr0, s) = Some (NSP_STATUS_SUCCESSFUL, kEvmgrReady, c, d) /\
    serves cs count (c, d) count (fun id => if decide (0 < id < count) then Some (replicate (Z.to_nat cs) 0) else None).
Proof.
  intros Hcs Hpow Hn Hmax Hnum Hbl.
  destruct (create_ok sys_read sys_write sys_lseek sys_fsync sys_open sys_close sys_fstat alloc content pos
    cs count evfs_mgr0 s) as (m1 & s1 & first & E & Hok & Hms & Hfd & Hc & Hl & Hfst & Hhdr); try done.
  set (d1 := (m1, s1)). assert (user_ok cs count count d1) as Hv.
  { do 3 (split; [done |]). split; [by exists first |]. cbn [snd d1]. apply (header_same _ _ _ first); [|done].
    intros off H1 H2. pose proof (ok_fsize _ _ _ _ _ _ Hok) as [_ Hlen]. rewrite cluster0_int by nia. rewrite Hc. apply get_int_app; lia. }
  destruct (start_serves cs count count num (Some (cs, count)) blocks evfs_cache0 (evfs_mgr0, s) d1 Hv) as (c1 & E1 & [H1 H2 H3 H4 H5] & _);
    [apply cache0_ok | done | done | done | unfold disk_create; cbn [fst snd]; by rewrite E |].
  exists c1, d1. split; [exact E1 |]. split; try done.
  apply (refines_ext (user_clusters cs count) (fun _ _ => false) (user_clusters cs count d1)); [|done]. intros id. unfold user_clusters.
  case_decide; [|done]. cbn [snd d1]. rewrite Hc. f_equal. unfold cluster, read_at.
  rewrite drop_app_ge by (unfold zlen in *; nia). rewrite drop_replicate, take_replicate. f_equal. unfold zlen in *. nia.
Qed.

(** evfs_create: a manager that is ready, over an image of free clusters. *)
Lemma create_serves fuel cs count num blocks s : 44 <= cs <= 4096 -> is_powerof_2 cs = true -> 1 < count -> cs * count < MAXIMUM_FILE_SIZE ->
  0 <= num -> Forall (fun b => zlen b = cs) blocks -> zlen buffer = 12 -> accepts ->
  exists w a, evfs_create evfs_store (evfs_image blocks) (plenty fuel) true (fun _ => evfs_cluster0) cs count num
      (evfs0 (World entries0 views0 (evfs_cache0, (evfs_mgr0, s)))) = Some (NSP_STATUS_SUCCESSFUL, started w) /\
    good cs (serves cs count) count a w /\ busylist (w_views w) = [] /\ w_entries w = set_seg_size (cs - 12) entries0.
Proof.
  intros Hcs Hpow Hn Hmax Hnum Hbl Hbuf Hacc.
  destruct (init_serves cs count num blocks s) as (c & d & E & Hs); [lia | done | lia | done.. |].
  pose proof (evfs_store_ok cs count ltac:(lia) Hbuf ltac:(lia)) as Hok.
  pose proof (evfs_store_reliable cs count ltac:(lia) Hbuf ltac:(lia) Hacc) as Hrel.
  destruct (make_run evfs_store cs count 0 (serves cs count) fuel (fun _ => evfs_cluster0)
    count _ (c, d) Hn Hs) as (w & Ew & Hg & Hb & Ee).
  { intros id b. cbv beta. case_decide; [|done]. intros [= <-]. by rewrite take_replicate, Nat.min_l by lia. }
  exists w. eexists. split; [|done].
  unfold evfs_create. rewrite (proj2 (Z.leb_gt cs 0)), (proj2 (Z.leb_gt count 0)) by lia. cbn [orb negb].
  rewrite get_run. change (mgr_ready (evfs0 _)) with kEvmgrNotReady. change (negb (kEvmgrNotReady =? kEvmgrNotReady)) with false. cbv iota.
  rewrite alter_run. set (f0 := set_ready _ _).
  assert (cache_call (cache_init (evfs_image blocks) num (Some (cs, count))) f0 =
    Some (NSP_STATUS_SUCCESSFUL, set_below (World entries0 views0 (c, d)) f0)) as Ei.
  { unfold cache_call. cbn [cache_init evfs_image f0 below set_ready evfs0 w_store fst snd]. by rewrite E. }
  rewrite (bind_some _ _ _ _ _ Ei). change (NSP_SUCCESS NSP_STATUS_SUCCESSFUL) with true. cbn [negb].
  unfold start_entries, bind, entry, f0. cbn [below set_below]. rewrite Ew. reflexivity.
Qed.
End Disk.
End Store.
