(* ===== verification/EvfsSession.v ===== *)
(** A session with evfs: files are written through handles, the image is closed and
    opened, and every file is found and read.  The theorem is proved against what it
    needs of the cache and the disk ([StoreOk], [Reliable], [DirectHeads], [Reopens]); the
    layers below meet it in [EvfsReopen]. *)
From S2P Require Import Prelude AvlTree Ifos Cluster View Entries EntryFile Evfs EvfsCalls EvfsLoad.
#[local] Open Scope monad_scope.

(** A stopped image starts again with the same clusters, and nothing of it is cached. *)
Class Reopens {S : Type} (img : image S) (R : S -> Z -> (Z -> option (list Z)) -> Prop) (fresh : S -> Prop) : Prop :=
  reopens s n a num : R s n a -> 0 <= num -> exists s1 s2, cache_uninit img s = Some s1 /\
    cache_init img num None s1 = Some (NSP_STATUS_SUCCESSFUL, s2) /\ R s2 n a /\ fresh s2.

Section Session.
Context {S : Type} (st : store S) (img : image S) (cs step limit : Z) (R : S -> Z -> (Z -> option (list Z)) -> Prop)
  `{!StoreOk st cs step limit R} `{!Reliable st cs step limit R} (fresh : S -> Prop) `{!DirectHeads st R fresh} `{!Reopens img R fresh}
  (fuel : nat) (Hfuel : (0 < fuel)%nat) (Hcs : 44 <= cs) (Hbound : forall s n a, R s n a -> n <= 2 ^ 31)
  (new_descriptor : gmap Z evfs_entry_descriptor -> option Z)
  (Hnew : forall m, exists l, new_descriptor m = Some l /\ m !! l = None).
Implicit Types (f : evfs S) (w : world S) (n : Z) (fs : gmap Z (list Z * list Z)).
#[local] Abbreviation spec := (evfs_spec st (plenty fuel)).
#[local] Abbreviation volume := (volume cs R).
#[local] Abbreviation spent := (spent step limit).

(** Entries that were just made. *)
Lemma volume_new n a w : good cs R n a w -> busylist (w_views w) = [] -> w_entries w = set_seg_size (cs - 12) entries0 -> volume ∅ n a w.
Proof.
  intros Hg Hb Ee. split; rewrite ?Ee; try done.
  - unfold own. rewrite Ee. split; cbn; try (intros id h H; by rewrite lookup_empty in H).
    + intros id h i H. by rewrite lookup_empty in H.
    + intros i Hi. rewrite Hb in Hi. by apply not_elem_of_nil in Hi.
    + intros id h id' h' i H. by rewrite lookup_empty in H.
  - split; cbn; try done.
    + intros id. rewrite lookup_empty. split; [by intros ?%not_elem_of_nil | by intros [? ?]].
    + constructor.
    + intros id. rewrite lookup_empty. split; [by intros ?%not_elem_of_nil | by intros [? ?]].
    + intros k id. rewrite lookup_empty. split; [by intros ?%not_elem_of_nil | by intros (? & ? & _)].
  - intros id. cbn. rewrite lookup_empty. by intros [? ?].
Qed.

(** ** Writing files *)

(** The calls that make the file [file.1] of the chunks [file.2] with handle [h]. *)
Definition save (h : Z) (file : list Z * list (list Z)) : list evfs_op :=
  OpCreate file.1 :: map (OpWrite h) file.2 ++ [OpClose h].
Definition saved (h : Z) (file : list Z * list (list Z)) : list result :=
  (h, []) :: map (fun c => (zlen c, [])) file.2 ++ [(0, [])].
Fixpoint save_all (h : Z) (l : list (list Z * list (list Z))) : list evfs_op :=
  match l with [] => [] | x :: l => save h x ++ save_all (h + 1) l end.
Fixpoint saved_all (h : Z) (l : list (list Z * list (list Z))) : list result :=
  match l with [] => [] | x :: l => saved h x ++ saved_all (h + 1) l end.

(** A file that can be written: a name of less than 32 characters, chunks that begin in the
    cluster of the head or at the beginning of a cluster. *)
Definition writable (file : list Z * list (list Z)) : Prop :=
  zlen (cstring file.1) < 32 /\ cstring file.1 <> [] /\ all_appendable cs 0 file.2 = true /\ 32 + zlen (concat file.2) < 2 ^ 31.
Definition need (l : list (list Z * list (list Z))) : Z := foldr (fun x k => 1 + demand cs x.2 + k) 0 l.

Lemma need_pos l : 0 <= need l.
Proof.
  induction l as [|x l IH]; cbn; [lia |]. pose proof (demand_pos st cs step limit R fuel Hfuel x.2). unfold need in IH. lia.
Qed.

Lemma save_run fs n a w g file : volume fs n a w -> 0 <= g -> writable file -> (forall id k d, fs !! id = Some (k, d) -> cstring file.1 <> cstring k) ->
  spent n w + step * (1 + demand cs file.2) <= limit ->
  exists id n' a' w', run_ops spec (save (g + 1) file) (Handles ∅ g w) = Some (saved (g + 1) file, Handles ∅ (g + 1) w') /\
    fs !! id = None /\ volume (<[id := (key_of file.1, concat file.2)]> fs) n' a' w' /\ spent n' w' <= spent n w + step * (1 + demand cs file.2).
Proof.
  destruct file as [key chunks]. cbn [fst snd]. intros Hv Hg (Hl & _ & Hall & Hsz) Hfree Hroom. cbn [fst snd] in *.
  pose proof (demand_pos st cs step limit R fuel Hfuel chunks) as Hdp. pose proof (so_step : 0 < step) as Hst1.
  destruct (volume_create st cs step limit R fuel Hfuel Hcs fs n a w (Some key) Hv (volume_free cs R fs n a w key Hv Hl Hfree) ltac:(nia))
    as (id & n1 & a1 & w1 & E1 & Hno & Hv1 & Hn1 & Ho1).
  destruct (volume_fill st cs step limit R fuel Hfuel Hcs id (key_of key) chunks [] _ n1 a1 w1 Hv1 (lookup_insert_eq _ _ _) Ho1 Hall Hsz ltac:(nia))
    as (n2 & a2 & w2 & E2 & Hv2 & Hn2 & Ho2). cbn [app] in E2, Hv2. rewrite insert_insert_eq in Hv2.
  destruct (volume_close st cs R fuel Hfuel _ n2 a2 w2 id Hv2 Ho2) as (w3 & E3 & Hv3 & _ & Ev3).
  assert (spent n2 w3 = spent n2 w2) as Hsp by (apply spent_same; by rewrite Ev3).
  assert (0 < id) as Hid.
  { destruct Ho2 as (h & Hh & _). pose proof (good_range cs R n2 a2 w2 id (vl_good _ _ _ _ _ _ Hv2)
      (ow_busy _ _ (vl_own _ _ _ _ _ _ Hv2) id h id Hh ltac:(constructor))). lia. }
  exists id, n2, a2, w3. split; [|split; [done |]; split; [done | nia]]. unfold save, saved. cbn [fst snd]. set (h := g + 1).
  assert (spec (OpCreate key) (Handles ∅ g w) = Some ((h, []), Handles (<[h := (id, 0)]> ∅) h w1)) as S1.
  { cbn [evfs_spec]. unfold number. rewrite bind_bind, (bind_some _ _ _ _ _ (on_files_run _ _ _ _ ∅ g E1)). reflexivity. }
  pose proof (writes_run st cs fuel Hfuel id h h Hid ltac:(lia) chunks 0 _ w1 _ w2 Hall ltac:(lia) ltac:(lia) (lookup_insert_eq ∅ h (id, 0)) E2 eq_refl) as S2.
  rewrite insert_insert_eq in S2. eapply run_step; [exact S1 |]. eapply run_app; [exact S2 |]. eapply run_step; [|reflexivity].
  cbn [evfs_spec]. unfold nothing. unfold bind at 1. rewrite (known_handle _ _ h id (0 + zlen (concat chunks)));
    [|apply Z.ltb_ge; lia | apply lookup_insert_eq].
  rewrite (proj2 (Z.ltb_lt 0 id)) by done. rewrite (bind_some _ _ _ _ _ (on_files_run _ _ _ _ _ h E3)). unfold forget. cbn.
  by rewrite delete_insert_eq.
Qed.

Lemma key_of_name file : writable file -> cstring (key_of file.1) = cstring file.1.
Proof. intros [Hl _]. by apply (key_of_string fuel Hfuel). Qed.

Lemma volume_range fs n a w id x : volume fs n a w -> fs !! id = Some x -> 0 < id < n.
Proof.
  intros Hv Hf. destruct x as [k data]. destruct (vl_file _ _ _ _ _ _ Hv id k data Hf) as (h & Hct & _ & _).
  apply (good_range cs R n a w id (vl_good _ _ _ _ _ _ Hv) (ct_busy _ _ _ _ _ _ _ _ _ Hct id ltac:(constructor))).
Qed.

(** All files are there in the end. *)
Lemma save_all_run : forall l fs n a w g, volume fs n a w -> 0 <= g -> Forall writable l -> NoDup (map (fun x => cstring x.1) l) ->
  (forall x id k d, x ∈ l -> fs !! id = Some (k, d) -> cstring x.1 <> cstring k) -> spent n w + step * need l <= limit ->
  exists fs' n' a' w', run_ops spec (save_all (g + 1) l) (Handles ∅ g w) = Some (saved_all (g + 1) l, Handles ∅ (g + zlen l) w') /\
    volume fs' n' a' w' /\ (1 < n -> 1 < n') /\ spent n' w' <= spent n w + step * need l /\ (forall id x, fs !! id = Some x -> fs' !! id = Some x) /\
    forall x, x ∈ l -> exists id, fs' !! id = Some (key_of x.1, concat x.2).
Proof.
  pose proof (so_step : 0 < step) as Hst1.
  induction l as [|x l IH]; intros fs n a w g Hv Hg Hw Hnd Hfree Hroom; cbn [save_all saved_all need foldr map] in *.
  { exists fs, n, a, w. rewrite zlen_nil, Z.add_0_r. split; [done |]. split; [done |]. split; [done |]. split; [lia |]. split; [done |]. by intros x ?%not_elem_of_nil. }
  apply Forall_cons in Hw as [Hx Hw]. apply NoDup_cons in Hnd as [Hxl Hnd]. fold (need l) in *. pose proof (need_pos l) as Hnp.
  pose proof (demand_pos st cs step limit R fuel Hfuel x.2) as Hdp.
  destruct (save_run fs n a w g x Hv Hg Hx ltac:(intros id k d; apply Hfree; constructor) ltac:(nia))
    as (id & n1 & a1 & w1 & E1 & Hno & Hv1 & Hn1).
  destruct (IH (<[id := (key_of x.1, concat x.2)]> fs) n1 a1 w1 (g + 1) Hv1 ltac:(lia) Hw Hnd) as (fs2 & n2 & a2 & w2 & E2 & Hv2 & _ & Hn2 & Hold & Hall).
  { intros y i k d Hy Hi. apply lookup_insert_Some in Hi as [[<- [= <- <-]] | [_ Hi]].
    - rewrite (key_of_name x Hx). intros E. apply Hxl. rewrite <- E. by apply (list_elem_of_fmap_2 (fun x => cstring x.1)).
    - apply (Hfree y i k d); [by constructor | done]. }
  { nia. }
  exists fs2, n2, a2, w2. rewrite zlen_cons. replace (g + (1 + zlen l)) with (g + 1 + zlen l) by lia.
  split; [by eapply run_app |]. split; [done |].
  split; [pose proof (volume_range _ n2 a2 w2 id _ Hv2 (Hold _ _ (lookup_insert_eq _ _ _))); lia |]. split; [nia |]. split.
  - intros i y Hy. apply Hold. rewrite lookup_insert_ne; [done |]. intros ->. congruence.
  - intros y [-> | Hy]%elem_of_cons; [exists id; apply Hold, lookup_insert_eq | by apply Hall].
Qed.

(** ** Reading a file *)

(** The calls that look at [size] bytes of the file [name] from [off] on, with handle [h]. *)
Definition look (h : Z) (name : list Z) (off size : Z) : list evfs_op :=
  [OpOpenByKey name; OpLength h; OpSeek h off; OpRead h size; OpClose h].
Definition looked (h : Z) (data : list Z) (off size : Z) : list result :=
  let bytes := read_at off size data in [(h, []); (zlen data, []); (NSP_STATUS_SUCCESSFUL, []); (zlen bytes, bytes); (0, [])].

Lemma volume_store fs n a w s : volume fs n a w -> good cs R n a (World (w_entries w) (w_views w) s) ->
  volume fs n a (World (w_entries w) (w_views w) s).
Proof.
  intros [H1 H2 H3 H4 H5] Hg. split; try done. intros id k data Hf. destruct (H5 id k data Hf) as (h & [] & Hk & Hr).
  exists h. by split; [split |].
Qed.

Lemma look_run fs n a w g id name data off size : volume fs n a w -> 0 <= g -> fs !! id = Some (key_of name, data) ->
  zlen (cstring name) < 32 -> cstring name <> [] -> 0 <= off -> 32 + off < 2 ^ 31 -> 0 < size < 2 ^ 31 ->
  exists w', run_ops spec (look (g + 1) name off size) (Handles ∅ g w) = Some (looked (g + 1) data off size, Handles ∅ (g + 1) w') /\
    volume fs n a w'.
Proof.
  intros Hv Hg Hf Hl Hne Ho Ho' Hs.
  destruct (volume_find cs R fuel Hfuel fs n a w id (key_of name) data name Hv Hf (key_of_string fuel Hfuel name Hl) Hne Hl) as (w1 & E1 & Hv1 & Hop & _).
  destruct (vl_file _ _ _ _ _ _ Hv1 id _ _ Hf) as (h1 & Hct & _ & _). pose proof (ct_entry _ _ _ _ _ _ _ _ _ Hct) as Hh1.
  pose proof (volume_usable cs R fuel Hfuel fs n a w1 id h1 Hv1 Hh1) as Hus.
  pose proof (query_size_run st cs R fuel Hfuel n a w1 id h1 data _ Hct Hus) as E2. replace (32 + zlen data - 32) with (zlen data) in E2 by lia.
  destruct (read_data_run st cs step limit R fuel Hfuel Hcs n a w1 id h1 data off size Hct Hus Ho Ho' Hs) as (w3 & E3 & Hg3 & Ee3 & Ev3).
  assert (volume fs n a w3) as Hv3.
  { destruct w3 as [e3 v3 s3]. cbn in Ee3, Ev3. subst e3 v3. by apply volume_store. }
  assert (opened id w3) as Hop3 by (destruct Hop as (x & Hx & Hr); exists x; by rewrite Ee3).
  destruct (volume_close st cs R fuel Hfuel fs n a w3 id Hv3 Hop3) as (w4 & E4 & Hv4 & _).
  assert (0 < id) as Hid.
  { pose proof (good_range cs R n a w1 id (vl_good _ _ _ _ _ _ Hv1) (ct_busy _ _ _ _ _ _ _ _ _ Hct id ltac:(constructor))). lia. }
  exists w4. split; [|done]. unfold look, looked. set (h := g + 1). set (bytes := read_at off size data) in *.
  assert (spec (OpOpenByKey name) (Handles ∅ g w) = Some ((h, []), Handles (<[h := (id, 0)]> ∅) h w1)) as S1.
  { cbn [evfs_spec]. unfold number. rewrite bind_bind, (bind_some _ _ _ _ _ (on_files_run _ _ _ _ ∅ g E1)). reflexivity. }
  eapply run_step; [exact S1 |]. eapply run_step.
  { cbn [evfs_spec]. unfold number. unfold bind at 1. rewrite (known_handle _ _ h id 0); [|apply Z.leb_gt; lia | apply lookup_insert_eq].
    by rewrite (on_files_run _ _ _ _ _ h E2). }
  eapply run_step.
  { cbn [evfs_spec]. unfold number. unfold bind at 1. rewrite (known_handle _ _ h id 0);
      [reflexivity | apply orb_false_iff; split; [apply Z.leb_gt; lia | apply Z.ltb_ge; lia] | apply lookup_insert_eq]. }
  eapply run_step.
  { cbn [evfs_spec]. rewrite (known_handle _ _ h id off);
      [|apply orb_false_iff; split; apply Z.leb_gt; lia | apply lookup_insert_eq].
    rewrite (by_worker_pos fuel Hfuel) by done. by rewrite (bind_some _ _ _ _ _ (on_files_run _ _ _ _ _ h E3)). }
  eapply run_step; [|reflexivity]. cbn [evfs_spec]. unfold nothing. unfold bind at 1.
  rewrite (known_handle _ _ h id (moved off (zlen bytes))); [|apply Z.ltb_ge; lia | apply lookup_insert_eq].
  rewrite (proj2 (Z.ltb_lt 0 id)) by done. rewrite (bind_some _ _ _ _ _ (on_files_run _ _ _ _ _ h E4)). unfold forget. cbn.
  by rewrite !insert_insert_eq, delete_insert_eq.
Qed.

(** ** A session *)

(** Stopping what serves a volume and starting it again gives the volume back. *)
Lemma close_open_run f fs n a w g num : holds f (Handles ∅ g w) -> volume fs n a w -> 1 < n -> 0 <= num ->
  exists f2 a3 w3, evfs_close st img (plenty fuel) f = Some (tt, f2) /\
    evfs_open st img (plenty fuel) true num f2 = Some (NSP_STATUS_SUCCESSFUL, started w3) /\ volume fs n a3 w3.
Proof.
  intros Hf Hv Hn Hnum. pose proof (Hbound _ _ _ (rd_store _ _ _ _ _ _ (gd_ready _ _ _ _ _ (vl_good _ _ _ _ _ _ Hv)))) as Hmax.
  destruct (uninit_run st cs R n a w (vl_good _ _ _ _ _ _ Hv) (vl_index _ _ _ _ _ _ Hv) (volume_rest cs R fs n a w Hv))
    as (e & v & E1 & He & Hvo & Hto).
  destruct (reopens (w_store w) n a num (rd_store _ _ _ _ _ _ (gd_ready _ _ _ _ _ (vl_good _ _ _ _ _ _ Hv))) Hnum) as (s1 & s2 & E2 & E3 & HR & Hfr).
  destruct (load_run st cs step limit R fresh fuel Hfuel Hcs fs n a w e v s2 Hv ltac:(lia) Hfr HR He Hvo Hto) as (a3 & w3 & E4 & Hv3 & _ & _).
  pose proof (evfs_close_ok st img (plenty fuel) f (Handles ∅ g w) _ s1 Hf E1 E2) as E5. cbn [w_entries w_views] in E5.
  eexists. exists a3, w3. split; [exact E5 |]. split; [|done]. unfold evfs_open. cbn [negb]. rewrite get_run. cbn [mgr_ready].
  change (negb (kEvmgrNotReady =? kEvmgrNotReady)) with false. cbv iota. rewrite alter_run. unfold bind at 1, cache_call at 1.
  cbn [below set_ready w_entries w_views w_store]. rewrite E3. cbn [mbind option_bind].
  change (NSP_SUCCESS NSP_STATUS_SUCCESSFUL) with true. cbn [negb]. unfold start_entries, bind, entry.
  cbn [below set_below set_ready w_entries w_views]. rewrite E4. reflexivity.
Qed.

Lemma run_sim ops f w rs g0 g w' : holds f (Handles ∅ g0 w) -> run_ops spec ops (Handles ∅ g0 w) = Some (rs, Handles ∅ g w') ->
  g0 + zlen ops < 2 ^ 31 -> exists f', run_ops (evfs_call st (plenty fuel) new_descriptor true) ops f = Some (rs, f') /\ holds f' (Handles ∅ g w').
Proof.
  intros Hf E Hn. pose proof (ops_refine st (plenty fuel) new_descriptor true Hnew eq_refl ops f _ Hf ltac:(cbn; lia)) as H.
  by rewrite E in H.
Qed.

(** A file of the volume is found, measured and read. *)
Definition readable f (h : Z) (x : list Z * list (list Z)) : Prop := forall off size, 0 <= off -> 32 + off < 2 ^ 31 -> 0 < size < 2 ^ 31 ->
  exists f', run_ops (evfs_call st (plenty fuel) new_descriptor true) (look h x.1 off size) f = Some (looked h (concat x.2) off size, f').

Lemma file_readable f fs n a w g id x : holds f (Handles ∅ g w) -> volume fs n a w -> 0 <= g -> g + 5 < 2 ^ 31 -> writable x ->
  fs !! id = Some (key_of x.1, concat x.2) -> readable f (g + 1) x.
Proof.
  intros Hf Hv Hg Hg' (Hl & Hne & _) Hid off size Ho Ho' Hs.
  destruct (look_run fs n a w g id x.1 (concat x.2) off size Hv Hg Hid Hl Hne Ho Ho' Hs) as (w1 & E & _).
  destruct (run_sim _ f w _ g _ w1 Hf E ltac:(done)) as (f1 & E1 & _). by exists f1.
Qed.

(** Every file takes two calls at least. *)
Lemma save_all_len : forall l h, 2 * zlen l <= zlen (save_all h l).
Proof.
  induction l as [|x l IH]; intros h; cbn [save_all]; [done |]. specialize (IH (h + 1)). unfold save.
  cbn [app]. rewrite !zlen_cons, !zlen_app, zlen_cons, zlen_nil. pose proof (zlen_nonneg (map (OpWrite h) x.2)). lia.
Qed.

(** Files are written through handles; the manager closes and opens; there they are. *)
Lemma session_run f fs n a w l num : holds f (Handles ∅ 0 w) -> volume fs n a w -> 1 < n -> 0 <= num ->
  Forall writable l -> NoDup (map (fun x => cstring x.1) l) ->
  (forall x id k d, x ∈ l -> fs !! id = Some (k, d) -> cstring x.1 <> cstring k) -> spent n w + step * need l <= limit -> zlen (save_all 1 l) < 2 ^ 31 ->
  exists f1 f2 fs' n' a' w',
    run_ops (evfs_call st (plenty fuel) new_descriptor true) (save_all 1 l) f = Some (saved_all 1 l, f1) /\
    evfs_close st img (plenty fuel) f1 = Some (tt, f2) /\
    evfs_open st img (plenty fuel) true num f2 = Some (NSP_STATUS_SUCCESSFUL, started w') /\
    volume fs' n' a' w' /\ (forall id x, fs !! id = Some x -> fs' !! id = Some x) /\
    forall x, x ∈ l -> readable f1 (zlen l + 1) x /\ readable (started w') 1 x.
Proof.
  intros Hf Hv Hn Hnum Hw Hnd Hfree Hroom Hops. pose proof (save_all_len l 1) as Hlen. pose proof (zlen_nonneg l).
  destruct (save_all_run l fs n a w 0 Hv ltac:(lia) Hw Hnd Hfree Hroom) as (fs1 & n1 & a1 & w1 & E1 & Hv1 & Hn1 & Hl1 & Hold & Hall).
  destruct (run_sim _ f w _ 0 _ w1 Hf E1 Hops) as (f1 & E2 & Hf1).
  destruct (close_open_run f1 fs1 n1 a1 w1 _ num Hf1 Hv1 ltac:(auto with lia) Hnum) as (f2 & a2 & w2 & E3 & E4 & Hv2).
  exists f1, f2, fs1, n1, a2, w2. do 5 (split; [done |]). intros x Hx. destruct (Hall x Hx) as [id Hid].
  pose proof (proj1 (Forall_forall _ _) Hw x Hx) as Hwx.
  split; [apply (file_readable f1 fs1 n1 a1 w1 (0 + zlen l) id); (done || lia) |].
  apply (file_readable _ fs1 n1 a2 w2 0 id); [apply holds_start | done | lia..| done | done].
Qed.
End Session.
