(* ===== verification/EvfsReopen.v ===== *)
(** The session of [EvfsSession] on the real layers: the cache of [Cache] over the file of
    [Cluster] can be stopped and started again, so what is written to evfs outlives it. *)
From S2P Require Import Prelude AvlTree Ncb Ifos Cluster Cache CacheDisk View Entries EntryFile Evfs EvfsCalls EvfsLoad EvfsStore EvfsSession.

Section Reopen.
Context {K : Type}.
Context (sys_read : Z -> Z -> K -> (list Z + Z) * K)
  (sys_write : Z -> list Z -> K -> answer * K)
  (sys_lseek : Z -> Z -> K -> answer * K)
  (sys_fsync : Z -> K -> answer * K)
  (sys_open : Z -> Z -> K -> answer * K)
  (sys_close : Z -> K -> K)
  (sys_fstat : Z -> K -> answer * K)
  (alloc : Z -> option (list Z))
  (content : K -> list Z) (pos : K -> Z)
  `{!Path sys_read sys_write sys_lseek sys_fsync sys_open sys_close sys_fstat alloc content pos}
  (que : env) (buffer : list Z) (Hacc : accepts que) (Hbuffer : zlen buffer = 12).
#[local] Abbreviation st := (evfs_store sys_read sys_write sys_lseek sys_fsync sys_close alloc que buffer).
#[local] Abbreviation img := (evfs_image sys_read sys_write sys_lseek sys_fsync sys_open sys_close sys_fstat alloc que).
#[local] Abbreviation serves := (serves content).

(** Nothing is cached. *)
Definition cold (s : cache * disk (K := K)) : Prop := lru s.1 = [].

#[export] Instance heads_from_disk cs e : 32 <= cs <= 4096 -> DirectHeads st (serves cs e) cold.
Proof.
  intros Hcs id s n a b Hcold Hs Hb.
  assert (0 < id < n) as Hid by (apply (serves_dom content cs e s n a id Hs); by eexists).
  destruct (head_request sys_read sys_write sys_lseek sys_fsync sys_open sys_close sys_fstat alloc content pos cs e Hcs s n a id buffer Hs Hid Hbuffer)
    as (h & d & E & _ & -> & Hs').
  exists (s.1, d). split; [|done]. cbn [evfs_store cache_read_head_directly]. unfold evfs_cache_read_head_directly.
  change (default [] (Some buffer)) with buffer.
  rewrite (proj2 (Z.leb_gt id 0)) by lia. pose proof Hacc as (Hr & _). rewrite Hr. rewrite bool_decide_false by done. cbn [orb negb].
  destruct (submit_cases sys_read sys_write sys_lseek sys_fsync sys_close alloc que true (IoReadHeadDirectly id buffer) s.1 s.2) as [(r & _ & _ & Hno) | [_ ->]]; [by destruct Hno |].
  cbn [__evfs_cache_exec_task]. rewrite E. cbn [mbind option_bind r_status r_out default].
  rewrite (refines_none _ _ _ _ _ (sv_refines _ _ _ _ _ _ Hs) Hcold id) in Hb.
  unfold user_clusters in Hb. rewrite decide_True in Hb by done. injection Hb as <-. do 3 f_equal. 
  unfold cluster, read_at. rewrite take_take. rewrite Nat.min_l by lia. reflexivity.
Qed.
#[export] Instance image_reopens cs e blocks : 92 <= cs <= 4096 -> Forall (fun b => zlen b = cs) blocks ->
  Reopens (img blocks) (serves cs e) cold.
Proof.
  intros Hcs Hbl s n a num [Hc Hd Hr Hb Hst] Hnum. pose proof (user_hard sys_read sys_write sys_lseek sys_fsync sys_open sys_close sys_fstat alloc content pos cs n e ltac:(lia)) as Hh.
  assert (exists pending, que = Env true true false pending /\ pending < Cache.EVFS_MAX_IO_PENDING_COUNT) as (pending & -> & Hp).
  { destruct Hacc as (H1 & H2 & H3). destruct que as [r m q p]. cbn in H1, H2. subst. unfold __evfs_cache_push_task in H3. cbn [e_stop e_pending] in H3.
    destruct q; cbv iota in H3; [by rewrite makeerror_fails in H3 |]. destruct (Z.leb_spec Cache.EVFS_MAX_IO_PENDING_COUNT p); [by rewrite makeerror_fails in H3 |]. by exists p. }
  destruct (uninit_ok (disk_read sys_read sys_lseek) (disk_write sys_write sys_lseek) (disk_flush sys_fsync) cs
    (user_ok content cs n e) (user_clusters content cs n) (fun _ _ => false) (disk_read_head sys_read sys_lseek)
    (disk_close sys_fsync sys_close) (disk_expand sys_write sys_lseek sys_fsync alloc) disk_queries a pending s.1 s.2 Hp Hc Hr Hd)
    as (c1 & d1 & E1 & (Hd1 & _ & _ & _ & Hh1) & Hcl & Hc1 & El).
  destruct (reopen_ok sys_read sys_write sys_lseek sys_fsync sys_open sys_close sys_fstat alloc content pos cs n e d1) as (d2 & E2 & Hd2 & Hk & Hf & Hx & Ht);
    [change MAXIMUM_CLUSTER_SIZE with 4096; lia | done | done |].
  destruct (start_serves sys_read sys_write sys_lseek sys_fsync sys_open sys_close sys_fstat alloc content cs n e num None blocks c1
    (disk_close sys_fsync sys_close d1) d2) as (c2 & E3 & Hs2 & Hl2); [by split | done..|].
  exists (c1, disk_close sys_fsync sys_close d1), (c2, d2). split; [exact E1 |]. split; [cbn [cache_init evfs_image fst snd]; by rewrite E3 |].
  split; [|done]. destruct Hs2 as [H1 H2 H3 H4 H5]. split; try done. apply (refines_ext (user_clusters content cs n) (fun _ _ => false) (user_clusters content cs n d2)); [|done].
  intros i. rewrite <- (Hcl i eq_refl). unfold user_clusters. by rewrite Hk.
Qed.

(** C1: what is written through evfs is read back, and outlives its session.  On a kernel
    whose calls work, with memory for everything and clusters of 128 to 4096 bytes (an image
    of 32 or 64 cannot be opened again, and one of 32 has no room for a name), evfs_create
    makes an image of [count] clusters behind a cache of any size.  Files of different names
    are written one after the other: evfs_create_entry, evfs_write_entry for every chunk and
    evfs_close_entry.  They are [writable]: a name has 1 to 31 characters, and each chunk
    begins in the cluster of the head or at the beginning of a cluster (others are lost, see
    [append_lost]); and the clusters of the image are enough for them without growing
    (growing reads freed memory, see [expand_reads_freed_task]).  Every one of them is then
    [readable]: evfs_open_entry_by_key finds it by its name, evfs_query_entry_length gives
    the length of all its chunks, and after evfs_seek_entry_offset evfs_read_entry gives
    exactly the bytes at that offset.  When evfs_close has ended the session and evfs_open
    begun another one, with a cache of any size, every one of them still is. *)
Theorem files_outlive_session fuel cs count num num' blocks files new_descriptor s : (0 < fuel)%nat ->
  92 <= cs <= 4096 -> is_powerof_2 cs = true -> 1 < count -> cs * count < MAXIMUM_FILE_SIZE ->
  0 <= num -> 0 <= num' -> Forall (fun b => zlen b = cs) blocks ->
  (forall m, exists l, new_descriptor m = Some l /\ m !! l = None) ->
  Forall (writable cs) files -> NoDup (map (fun x => cstring x.1) files) -> need cs files < count ->
  zlen (save_all 1 files) < 2 ^ 31 ->
  exists f1 f2 f3 f4,
    evfs_create st (img blocks) (plenty fuel) true (fun _ => evfs_cluster0) cs count num
      (evfs0 (World entries0 views0 (evfs_cache0, (evfs_mgr0, s)))) = Some (NSP_STATUS_SUCCESSFUL, f1) /\
    run_ops (evfs_call st (plenty fuel) new_descriptor true) (save_all 1 files) f1 = Some (saved_all 1 files, f2) /\
    evfs_close st (img blocks) (plenty fuel) f2 = Some (tt, f3) /\
    evfs_open st (img blocks) (plenty fuel) true num' f3 = Some (NSP_STATUS_SUCCESSFUL, f4) /\
    forall x, x ∈ files ->
      readable st fuel new_descriptor f2 (zlen files + 1) x /\ readable st fuel new_descriptor f4 1 x.
Proof.
  intros Hfuel Hcs Hpow Hn Hmax Hnum Hnum' Hbl Hnew Hw Hnd Hroom Hops.
  destruct (create_serves sys_read sys_write sys_lseek sys_fsync sys_open sys_close sys_fstat alloc content pos que buffer
    fuel cs count num blocks s) as (w & a & E & Hg & Hb & Ee); [lia | done.. |].
  assert (StoreOk st cs count 0 (serves cs count)) as Hok by (apply (evfs_store_ok _ _ _ _ sys_open _ sys_fstat _ content pos); done || lia).
  assert (Reliable st cs count 0 (serves cs count)) as Hrel
    by (apply (evfs_store_reliable _ _ _ _ sys_open _ sys_fstat _ content pos); done || lia).
  pose proof (heads_from_disk cs count ltac:(lia)) as Hheads. pose proof (image_reopens cs count blocks Hcs Hbl) as Hre.
  assert (forall s n a, serves cs count s n a -> n <= 2 ^ 31) as Hbound.
  { intros s0 n0 a0 [_ (Hd & _) _ _ _]. pose proof (ok_bounds _ _ _ _ _ _ Hd) as (Hb0 & Hn0 & Hm0).
    change MINIMUM_CLUSTER_SIZE with 32 in Hb0. change MAXIMUM_FILE_SIZE with 1073741824 in Hm0. pow2. nia. }
  assert (spent count 0 count w + count * need cs files <= 0) as Hspent.
  { unfold spent, cost, capacity. rewrite Hb. change (zlen (@nil Z)) with 0. rewrite Z.max_l by lia. rewrite Z.div_0_l by lia. nia. }
  destruct (session_run st (img blocks) cs count 0 (serves cs count) cold fuel Hfuel ltac:(lia) Hbound new_descriptor Hnew
    (started w) ∅ count a w files num' (holds_start w)) as (f2 & f3 & fs & n & a' & w' & E2 & E3 & E4 & _ & _ & Hread);
    try done; [by apply volume_new |].
  exists (started w), f2, f3, (started w'). by do 4 (split; [done |]).
Qed.
End Reopen.

(** Two files in an image of eight clusters behind a cache of one block; without blocks
    the next session finds them. *)
Lemma files_outlive_session_witness : exists f1 f2 f3 f4 f5,
  let st := evfs_store demo_read demo_write demo_lseek demo_fsync demo_close demo_alloc (Env true true false 0) (replicate 12 0) in
  let img := evfs_image demo_read demo_write demo_lseek demo_fsync demo_open demo_close demo_fstat demo_alloc (Env true true false 0)
    [replicate 128 170] in
  evfs_create st img (plenty 1) true (fun _ => evfs_cluster0) 128 8 1
    (evfs0 (World entries0 views0 (evfs_cache0, (evfs_mgr0, Os (Disk [] 0) 0)))) = Some (NSP_STATUS_SUCCESSFUL, f1) /\
  run_ops (evfs_call st (plenty 1) next_block true)
    [OpCreate [97]; OpWrite 1 [5; 6]; OpClose 1; OpCreate [98; 99]; OpWrite 2 (replicate 20 1); OpWrite 2 (replicate 260 2); OpClose 2] f1 =
    Some ([(1, []); (2, []); (0, []); (2, []); (20, []); (260, []); (0, [])], f2) /\
  evfs_close st img (plenty 1) f2 = Some (tt, f3) /\ evfs_open st img (plenty 1) true 0 f3 = Some (NSP_STATUS_SUCCESSFUL, f4) /\
  run_ops (evfs_call st (plenty 1) next_block true) [OpOpenByKey [98; 99]; OpLength 1; OpSeek 1 18; OpRead 1 4; OpClose 1] f4 =
    Some ([(1, []); (280, []); (0, []); (4, [1; 1; 2; 2]); (0, [])], f5).
Proof.
  destruct (files_outlive_session demo_read demo_write demo_lseek demo_fsync demo_open demo_close demo_fstat demo_alloc Cluster.stored demo_pos
    (Env true true false 0) (replicate 12 0) ltac:(done) eq_refl 1 128 8 1 0 [replicate 128 170]
    [([97], [[5; 6]]); ([98; 99], [replicate 20 1; replicate 260 2])] next_block (Os (Disk [] 0) 0))
    as (f1 & f2 & f3 & f4 & E1 & E2 & E3 & E4 & H).
  - lia.
  - lia.
  - reflexivity.
  - lia.
  - reflexivity.
  - lia.
  - lia.
  - by apply Forall_singleton.
  - exact next_block_fresh.
  - repeat (apply Forall_cons; split); [| |by apply Forall_nil]; (split; [done |]; split; [done |]; split; [reflexivity | reflexivity]).
  - cbn. repeat constructor; set_solver.
  - vm_compute. reflexivity.
  - vm_compute. reflexivity.
  - destruct (H ([98; 99], [replicate 20 1; replicate 260 2])) as [_ H4]; [right; left |]. destruct (H4 18 4 ltac:(lia) ltac:(lia) ltac:(lia)) as (f5 & E5).
    exists f1, f2, f3, f4, f5. cbn zeta. do 4 (split; [assumption |]). exact E5.
Defined.
