(* ===== verification/Vfn.v ===== *)
(** FNV and CRC32: src/hash.c, lines 8 to 122.

    A key is the block its pointer leads to ([None]: NULL) with an int length;
    the result is [None] when the code reads outside of the block. *)
From S2P Require Import Prelude.
Local Open Scope c_scope.

(** ** VFN1 and VFN1a *)
Definition VFN_PRIME32 : Z := 16777619.
Definition VFN_PRIME64 : Z := 1099511628211.
Definition VFN_OFFSET_BASIS32 : Z := 2166136261.
Definition VFN_OFFSET_BASIS64 : Z := 14695981039346656037.

(** The guard all four share, then the bytes the loop reads in order. *)
Definition vfn_bytes (key : option (list Z)) (length : Z) : option (option (list Z)) :=
  match key with
  | None => Some None
  | Some k => if length <=? 0 then Some None else Some <$> memread k 0 length
  end.

Definition vfn1_step (w prime hash b : Z) : Z := Z.lxor (wrap w (hash * prime)) b.
Definition vfn1a_step (w prime hash b : Z) : Z := wrap w (Z.lxor hash b * prime).

Definition vfn1_h32 (key : option (list Z)) (length : Z) : option Z :=
  k ← vfn_bytes key length;
  Some (match k with
        | None => 0
        | Some k => foldl (vfn1_step 32 VFN_PRIME32) VFN_OFFSET_BASIS32 k
        end).

Definition vfn1_h64 (key : option (list Z)) (length : Z) : option Z :=
  k ← vfn_bytes key length;
  Some (match k with
        | None => 0
        | Some k => foldl (vfn1_step 64 VFN_PRIME64) VFN_OFFSET_BASIS64 k
        end).

Definition vfn1a_h32 (key : option (list Z)) (length : Z) : option Z :=
  k ← vfn_bytes key length;
  Some (match k with
        | None => 0
        | Some k => foldl (vfn1a_step 32 VFN_PRIME32) VFN_OFFSET_BASIS32 k
        end).

Definition vfn1a_h64 (key : option (list Z)) (length : Z) : option Z :=
  k ← vfn_bytes key length;
  Some (match k with
        | None => 0
        | Some k => foldl (vfn1a_step 64 VFN_PRIME64) VFN_OFFSET_BASIS64 k
        end).

(** ** CRC32 *)
Definition CRC32_POLY : Z := 0xEDB88320.

(** One turn of the inner loop of [_crc32_initial_table]. *)
Definition crc32_bit (c : Z) : Z :=
  if negb (Z.land c 1 =? 0) then Z.lxor (Z.shiftr c 1) CRC32_POLY else Z.shiftr c 1.

Definition _crc32_initial_table : list Z :=
  (fun i => Nat.iter 8 crc32_bit (Z.of_nat i)) <$> seq 0 256.

(** The table is built once before its first use. *)
Definition crc32_table : list Z := _crc32_initial_table.

Definition crc32_step (crc b : Z) : Z :=
  Z.lxor (Z.shiftr crc 8) (crc32_table !!! Z.to_nat (Z.lxor (Z.land crc 0xff) b)).

Definition crc32 (crc : Z) (string : option (list Z)) (size : Z) : option Z :=
  match string with
  | None => Some 0
  | Some s =>
      if size =? 0 then Some 0
      else
        k ← memread s 0 size;
        Some (Z.lxor (foldl crc32_step (Z.lxor crc 0xFFFFFFFF) k) 0xFFFFFFFF)
  end.

(** ** Byte-wise hashes whose steps lose nothing

    The interface the three families share: a step maps words to words and is
    injective in the word for a fixed byte and in the byte for a fixed word. *)
Class ByteHash (w : Z) (step : Z -> Z -> Z) : Prop := {
  bh_range h b : 0 <= h < 2 ^ w -> byte b -> 0 <= step h b < 2 ^ w;
  bh_word h1 h2 b : 0 <= h1 < 2 ^ w -> 0 <= h2 < 2 ^ w -> byte b ->
    step h1 b = step h2 b -> h1 = h2;
  bh_byte h b1 b2 : 0 <= h < 2 ^ w -> byte b1 -> byte b2 -> step h b1 = step h b2 -> b1 = b2;
}.

Section ByteHash.
Context (w : Z) (step : Z -> Z -> Z) `{!ByteHash w step}.

Lemma bh_fold_range bs : forall h, bytes bs -> 0 <= h < 2 ^ w -> 0 <= foldl step h bs < 2 ^ w.
Proof.
  induction bs as [|b bs IH]; intros h Hbs Hh; [done |]. apply Forall_cons in Hbs as [Hb Hbs].
  cbn [foldl]. apply IH; [done |]. by apply bh_range.
Qed.

Lemma bh_fold_inj bs : forall h1 h2,
  bytes bs -> 0 <= h1 < 2 ^ w -> 0 <= h2 < 2 ^ w -> foldl step h1 bs = foldl step h2 bs -> h1 = h2.
Proof.
  induction bs as [|b bs IH]; intros h1 h2 Hbs H1 H2; [done |]. apply Forall_cons in Hbs as [Hb Hbs].
  cbn [foldl]. intros E. apply IH in E; [|done | by apply bh_range ..]. by eapply bh_word.
Qed.

(** Keys that differ in one byte have different hashes. *)
Lemma bh_one_byte h pre x y post :
  0 <= h < 2 ^ w -> bytes pre -> byte x -> byte y -> bytes post -> x <> y ->
  foldl step h (pre ++ x :: post) <> foldl step h (pre ++ y :: post).
Proof.
  intros Hh Hpre Hx Hy Hpost Hne E. rewrite !foldl_app in E. cbn [foldl] in E.
  pose proof (bh_fold_range pre h Hpre Hh) as Hp.
  apply bh_fold_inj in E; [|done | by apply bh_range ..].
  by apply Hne, (bh_byte (foldl step h pre)).
Qed.
End ByteHash.

Lemma byte_range w b : 8 <= w -> byte b -> 0 <= b < 2 ^ w.
Proof. intros Hw Hb. unfold byte in Hb. pose proof (Z.pow_le_mono_r 2 8 w). lia. Qed.

(** Multiplication by an odd prime is invertible modulo 2^w. *)
Section Vfn.
Context (w prime inverse : Z) (Hw : 8 <= w) (Hinv : wrap w (prime * inverse) = 1).

Lemma mul_prime_inj h1 h2 :
  0 <= h1 < 2 ^ w -> 0 <= h2 < 2 ^ w -> wrap w (h1 * prime) = wrap w (h2 * prime) -> h1 = h2.
Proof.
  intros H1 H2 E.
  assert (forall h, 0 <= h < 2 ^ w -> wrap w (wrap w (h * prime) * inverse) = h) as Hback.
  { intros h Hh. unfold wrap in *. rewrite Zmult_mod_idemp_l, <- Z.mul_assoc, <- Zmult_mod_idemp_r, Hinv.
    rewrite Z.mul_1_r. by apply Z.mod_small. }
  by rewrite <- (Hback h1 H1), <- (Hback h2 H2), E.
Qed.

Lemma vfn1_byte_hash : ByteHash w (vfn1_step w prime).
Proof.
  pose proof (byte_range w) as Hbr. unfold vfn1_step. split.
  - intros h b Hh Hb. apply lxor_range; [lia | apply wrap_range; lia | auto].
  - intros h1 h2 b H1 H2 Hb E. by apply mul_prime_inj, (lxor_inj_l _ _ b).
  - intros h b1 b2 _ _ _ E. by apply (lxor_inj_r _ _ (wrap w (h * prime))).
Qed.

Lemma vfn1a_byte_hash : ByteHash w (vfn1a_step w prime).
Proof.
  pose proof (byte_range w) as Hbr. unfold vfn1a_step.
  assert (forall h b, 0 <= h < 2 ^ w -> byte b -> 0 <= Z.lxor h b < 2 ^ w) as Hr
    by (intros; apply lxor_range; auto; lia).
  split.
  - intros h b Hh Hb. apply wrap_range. lia.
  - intros h1 h2 b H1 H2 Hb E. apply mul_prime_inj in E; [|auto ..]. by apply (lxor_inj_l _ _ b).
  - intros h b1 b2 Hh Hb1 Hb2 E. apply mul_prime_inj in E; [|auto ..]. by apply (lxor_inj_r _ _ h).
Qed.
End Vfn.

(** The inverses of the two primes. *)
Definition inverse32 : Z := 899433627.
Definition inverse64 : Z := 14886173955864302971.

(** ** The table-driven CRC is the bit-serial one

    The reference feeds the message to the shift register bit by bit, the low
    bit of a byte first. *)
Definition serial_bit (reg : Z) (bit : bool) : Z :=
  Z.lxor (Z.shiftr reg 1) (if xorb (Z.odd reg) bit then CRC32_POLY else 0).
Definition message_bits (s : list Z) : list bool :=
  concat ((fun b => Z.testbit b <$> [0; 1; 2; 3; 4; 5; 6; 7]) <$> s).
Definition crc32_serial (crc : Z) (s : list Z) : Z :=
  Z.lxor (foldl serial_bit (Z.lxor crc 0xFFFFFFFF) (message_bits s)) 0xFFFFFFFF.

Lemma crc32_bit_serial c : crc32_bit c = serial_bit c false.
Proof.
  unfold crc32_bit, serial_bit. change 1 with (Z.ones 1) at 1.
  rewrite Z.land_ones by lia. change (2 ^ 1) with 2. rewrite Zmod_odd, xorb_false_r.
  destruct (Z.odd c); [done |]. by rewrite Z.lxor_0_r.
Qed.

Lemma crc32_bit_lxor c x : crc32_bit (Z.lxor c x) = Z.lxor (serial_bit c (Z.odd x)) (Z.shiftr x 1).
Proof.
  rewrite crc32_bit_serial. unfold serial_bit. rewrite Z.shiftr_lxor, xorb_false_r.
  rewrite <- !Z.bit0_odd, Z.lxor_spec.
  rewrite !Z.lxor_assoc. f_equal. apply Z.lxor_comm.
Qed.

Lemma crc32_byte_bits c b :
  byte b -> Nat.iter 8 crc32_bit (Z.lxor c b) = foldl serial_bit c (Z.testbit b <$> [0; 1; 2; 3; 4; 5; 6; 7]).
Proof.
  intros Hb. assert (Z.shiftr b 8 = 0) as Hs by (rewrite Z.shiftr_div_pow2 by done; apply Z.div_small; exact Hb).
  cbn [Nat.iter nat_rect fmap list_fmap foldl].
  rewrite !crc32_bit_lxor, !Z.shiftr_shiftr by lia. cbn [Z.add Pos.add].
  change (1 + 1 + 1 + 1 + 1 + 1 + 1 + 1) with 8. rewrite Hs, Z.lxor_0_r.
  rewrite <- !Z.bit0_odd, !Z.shiftr_spec by done. done.
Qed.

Lemma crc32_bit_double h : crc32_bit (2 * h) = h.
Proof.
  rewrite crc32_bit_serial. unfold serial_bit. rewrite Z.odd_even || rewrite Z.odd_mul. cbn [Z.odd andb xorb].
  rewrite Z.lxor_0_r, Z.shiftr_div_pow2 by done. change (2 ^ 1) with 2. rewrite Z.mul_comm. by apply Z.div_mul.
Qed.

Lemma crc32_bit_linear x y : crc32_bit (Z.lxor x y) = Z.lxor (crc32_bit x) (crc32_bit y).
Proof.
  rewrite crc32_bit_lxor, !crc32_bit_serial. unfold serial_bit. rewrite !xorb_false_r.
  rewrite (Z.lxor_comm (Z.shiftr y 1)), !Z.lxor_assoc. f_equal.
  rewrite <- Z.lxor_assoc. f_equal. by destruct (Z.odd x), (Z.odd y).
Qed.

Lemma crc32_iter_linear n x y :
  Nat.iter n crc32_bit (Z.lxor x y) = Z.lxor (Nat.iter n crc32_bit x) (Nat.iter n crc32_bit y).
Proof. induction n as [|n IH]; [done |]. by rewrite !Nat.iter_succ, IH, crc32_bit_linear. Qed.

(** The bits above the low byte are only shifted. *)
Lemma crc32_split c : Z.lxor (2 ^ 8 * Z.shiftr c 8) (Z.land c 0xff) = c.
Proof.
  change 0xff with (Z.ones 8). rewrite Z.land_ones, Z.shiftr_div_pow2, Z.mul_comm by done.
  rewrite lxor_fields by (done || by apply Z.mod_pos_bound). pose proof (Z.div_mod c (2 ^ 8)). lia.
Qed.

Lemma crc32_step_bits c b : byte b -> crc32_step c b = Nat.iter 8 crc32_bit (Z.lxor c b).
Proof.
  intros Hb. unfold crc32_step. set (x := Z.lxor (Z.land c 0xff) b).
  assert (0 <= x < 2 ^ 8) as Hx.
  { apply lxor_range; [done | | exact Hb]. change 0xff with (Z.ones 8).
    rewrite Z.land_ones by done. by apply Z.mod_pos_bound. }
  assert (crc32_table !!! Z.to_nat x = Nat.iter 8 crc32_bit x) as ->.
  { apply list_lookup_total_correct. unfold crc32_table, _crc32_initial_table.
    rewrite list_lookup_fmap, lookup_seq_lt by (pow2; lia). simpl. by rewrite Z2Nat.id by lia. }
  assert (Nat.iter 8 crc32_bit (2 ^ 8 * Z.shiftr c 8) = Z.shiftr c 8) as Hsh.
  { replace (2 ^ 8 * Z.shiftr c 8) with (2 * (2 * (2 * (2 * (2 * (2 * (2 * (2 * Z.shiftr c 8)))))))) by lia.
    cbn [Nat.iter nat_rect]. by rewrite !crc32_bit_double. }
  replace (Z.lxor c b) with (Z.lxor (2 ^ 8 * Z.shiftr c 8) x)
    by (subst x; by rewrite <- Z.lxor_assoc, crc32_split).
  by rewrite crc32_iter_linear, Hsh.
Qed.

Lemma crc32_fold_serial s : forall c, bytes s -> foldl crc32_step c s = foldl serial_bit c (message_bits s).
Proof.
  induction s as [|b s IH]; intros c Hs; [done |]. apply Forall_cons in Hs as [Hb Hs].
  unfold message_bits. cbn [fmap list_fmap concat foldl]. rewrite foldl_app, IH by done.
  by rewrite crc32_step_bits, crc32_byte_bits.
Qed.

#[export] Instance crc32_byte_hash : ByteHash 32 crc32_step.
Proof.
  assert (forall c, 0 <= c < 2 ^ 32 -> 0 <= crc32_bit c < 2 ^ 32) as Hr.
  { intros c Hc. rewrite crc32_bit_serial. apply lxor_range; [done | |by destruct (xorb _ _)].
    rewrite Z.shiftr_div_pow2 by done. split; [by apply Z.div_pos; lia |].
    apply Z.div_lt_upper_bound; lia. }
  assert (forall x y, 0 <= x < 2 ^ 32 -> 0 <= y < 2 ^ 32 -> crc32_bit x = crc32_bit y -> x = y) as Hinj.
  { intros x y Hx Hy E.
    assert (forall z, 0 <= z < 2 ^ 32 -> Z.testbit (crc32_bit z) 31 = Z.odd z) as Ht.
    { intros z Hz. rewrite crc32_bit_serial. unfold serial_bit. rewrite Z.lxor_spec, Z.shiftr_spec, xorb_false_r by done.
      rewrite <- (wrap_small 32 z Hz) at 1. rewrite wrap_testbit by done. by destruct (Z.odd z). }
    assert (Z.odd x = Z.odd y) as Eo by (rewrite <- (Ht x Hx), <- (Ht y Hy); congruence).
    rewrite !crc32_bit_serial in E. unfold serial_bit in E. rewrite Eo in E. apply lxor_inj_l in E.
    rewrite (Z.div2_odd x), (Z.div2_odd y), !Z.div2_spec, E, Eo. done. }
  assert (forall h b, 0 <= h < 2 ^ 32 -> byte b -> 0 <= Z.lxor h b < 2 ^ 32) as Hx
    by (intros; apply lxor_range; [done | done | by apply byte_range]).
  assert (forall n x y, 0 <= x < 2 ^ 32 -> 0 <= y < 2 ^ 32 ->
    Nat.iter n crc32_bit x = Nat.iter n crc32_bit y -> x = y) as Hit.
  { induction n as [|n IH]; intros x y Hx' Hy' E; [done |]. rewrite !Nat.iter_succ_r in E.
    apply Hinj; [done | done |]. apply IH; auto. }
  split.
  - intros h b Hh Hb. rewrite crc32_step_bits by done. cbn [Nat.iter nat_rect]. auto 15.
  - intros h1 h2 b H1 H2 Hb E. rewrite !crc32_step_bits in E by done.
    apply Hit in E; auto. by apply (lxor_inj_l _ _ b).
  - intros h b1 b2 Hh Hb1 Hb2 E. rewrite !crc32_step_bits in E by done.
    apply Hit in E; auto. by apply (lxor_inj_r _ _ h).
Qed.

(** Published values. *)
Example vfn1a_h32_a : vfn1a_h32 (Some [97]) 1 = Some 0xE40C292C.
Proof. reflexivity. Qed.
Example vfn1_h64_a : vfn1_h64 (Some [97]) 1 = Some 0xaf63bd4c8601b7be.
Proof. reflexivity. Qed.
Example crc32_123456789 :
  crc32 0 (Some [49; 50; 51; 52; 53; 54; 55; 56; 57]) 9 = Some 0xCBF43926.
Proof. vm_compute. reflexivity. Qed.

Lemma vfn_bytes_all k : k <> [] -> vfn_bytes (Some k) (zlen k) = Some (Some k).
Proof.
  intros Hk%zlen_pos. unfold vfn_bytes. rewrite (proj2 (Z.leb_gt _ _)), memread_all by done. done.
Qed.

(** None of the four FNV hashes maps two keys of the same length that differ
    in exactly one byte, at any position, to the same value. *)
Theorem vfn_tells_one_byte_apart pre x y post :
  bytes pre -> byte x -> byte y -> bytes post -> x <> y ->
  let k1 := pre ++ x :: post in let k2 := pre ++ y :: post in
  vfn1_h32 (Some k1) (zlen k1) <> vfn1_h32 (Some k2) (zlen k2) /\
  vfn1_h64 (Some k1) (zlen k1) <> vfn1_h64 (Some k2) (zlen k2) /\
  vfn1a_h32 (Some k1) (zlen k1) <> vfn1a_h32 (Some k2) (zlen k2) /\
  vfn1a_h64 (Some k1) (zlen k1) <> vfn1a_h64 (Some k2) (zlen k2).
Proof.
  intros Hpre Hx Hy Hpost Hne k1 k2.
  unfold vfn1_h32, vfn1_h64, vfn1a_h32, vfn1a_h64.
  rewrite !vfn_bytes_all by (by destruct pre). cbn [mbind option_bind].
  split_and!; intros [= E]; revert E.
  - refine (bh_one_byte 32 _ _ _ _ _ _ _ Hpre Hx Hy Hpost Hne); [|done].
    by apply (vfn1_byte_hash 32 VFN_PRIME32 inverse32).
  - refine (bh_one_byte 64 _ _ _ _ _ _ _ Hpre Hx Hy Hpost Hne); [|done].
    by apply (vfn1_byte_hash 64 VFN_PRIME64 inverse64).
  - refine (bh_one_byte 32 _ _ _ _ _ _ _ Hpre Hx Hy Hpost Hne); [|done].
    by apply (vfn1a_byte_hash 32 VFN_PRIME32 inverse32).
  - refine (bh_one_byte 64 _ _ _ _ _ _ _ Hpre Hx Hy Hpost Hne); [|done].
    by apply (vfn1a_byte_hash 64 VFN_PRIME64 inverse64).
Qed.

(** The table-driven [crc32] is the bit-serial shift register with the
    reflected polynomial 0xEDB88320, it can be continued over the pieces of a
    message, and it tells apart messages that differ in one byte. *)
Theorem crc32_correct crc s :
  0 <= crc < 2 ^ 32 -> bytes s -> s <> [] ->
  crc32 crc (Some s) (zlen s) = Some (crc32_serial crc s) /\
  (forall s', bytes s' -> s' <> [] ->
     (c ← crc32 crc (Some s) (zlen s); crc32 c (Some s') (zlen s'))
     = crc32 crc (Some (s ++ s')) (zlen (s ++ s'))) /\
  (forall pre x y post, s = pre ++ x :: post -> byte y -> x <> y ->
     crc32 crc (Some (pre ++ y :: post)) (zlen s) <> crc32 crc (Some s) (zlen s)).
Proof.
  intros Hcrc Hs Hne.
  assert (forall c t, t <> [] -> crc32 c (Some t) (zlen t)
    = Some (Z.lxor (foldl crc32_step (Z.lxor c 0xFFFFFFFF) t) 0xFFFFFFFF)) as Hcomp.
  { intros c t Ht%zlen_pos. unfold crc32. rewrite (proj2 (Z.eqb_neq _ _)), memread_all by lia. done. }
  split_and!.
  - rewrite Hcomp by done. unfold crc32_serial. by rewrite crc32_fold_serial.
  - intros s' Hs' Hne'. rewrite (Hcomp crc s) by done. cbn [mbind option_bind].
    rewrite (Hcomp _ s'), (Hcomp _ (s ++ s')) by (done || by destruct s).
    by rewrite lxor_cancel, foldl_app.
  - intros pre x y post -> Hy Hxy.
    apply Forall_app in Hs as [Hpre [Hx Hpost]%Forall_cons].
    replace (zlen (pre ++ x :: post)) with (zlen (pre ++ y :: post)) at 1 by (by rewrite !zlen_app, !zlen_cons).
    rewrite !Hcomp by (by destruct pre). intros [= E%lxor_inj_l]. revert E.
    apply (bh_one_byte 32); [apply _ | by apply lxor_range | done ..|congruence].
Qed.

Lemma vfn_tells_one_byte_apart_witness :
  let k1 := [1; 2] ++ 3 :: [255] in let k2 := [1; 2] ++ 4 :: [255] in
  vfn1_h32 (Some k1) (zlen k1) <> vfn1_h32 (Some k2) (zlen k2) /\
  vfn1_h64 (Some k1) (zlen k1) <> vfn1_h64 (Some k2) (zlen k2) /\
  vfn1a_h32 (Some k1) (zlen k1) <> vfn1a_h32 (Some k2) (zlen k2) /\
  vfn1a_h64 (Some k1) (zlen k1) <> vfn1a_h64 (Some k2) (zlen k2).
Proof.
  apply (vfn_tells_one_byte_apart [1; 2] 3 4 [255]); [decided ..].
Defined.

Lemma crc32_correct_witness :
  crc32 7 (Some [1; 2; 200]) 3 = Some (crc32_serial 7 [1; 2; 200]) /\
  (forall s', bytes s' -> s' <> [] ->
     (c ← crc32 7 (Some [1; 2; 200]) 3; crc32 c (Some s') (zlen s'))
     = crc32 7 (Some ([1; 2; 200] ++ s')) (zlen ([1; 2; 200] ++ s'))) /\
  (forall pre x y post, [1; 2; 200] = pre ++ x :: post -> byte y -> x <> y ->
     crc32 7 (Some (pre ++ y :: post)) 3 <> crc32 7 (Some [1; 2; 200]) 3).
Proof.
  apply (crc32_correct 7 [1; 2; 200]); decided.
Defined.
