(* ===== verification/Base64.v ===== *)
(** Base64: src/hash.c, lines 124 to 284.

    A buffer is the block its pointer leads to ([None]: NULL), a cell a byte
    0..255; a [char] read from a cell is signed ([s8]) and arithmetic on it is
    int arithmetic.  The result is [None] when the code accesses a cell outside
    of a block. *)
From Stdlib Require Import Strings.String Strings.Ascii.
From S2P Require Import Prelude.
Local Open Scope c_scope.

Definition base64char : list Z :=
  (fun c => Z.of_nat (nat_of_ascii c)) <$>
  list_ascii_of_string "ABCDEFGHIJKLMNOPQRSTUVWXYZabcdefghijklmnopqrstuvwxyz0123456789+/"%string.

Definition EQUALS : Z := 61.

(** Reading and writing a cell through a pointer to char. *)
Definition peek (buf : list Z) (i : Z) : option Z :=
  if 0 <=? i then s8 <$> (buf !! Z.to_nat i) else None.
Definition poke (buf : list Z) (i c : Z) : option (list Z) := memcpy_at buf i [u8 c].

Definition base64_encode_len (length : Z) : Z :=
  let cnt_symbol_add := if negb (Z.rem length 3 =? 0) then 3 - Z.rem length 3 else 0 in
  s32 (Z.quot (s32 (length + cnt_symbol_add)) 3 * 4).

(** The body of the loop of [base64_encode]: the output and whether it breaks. *)
Definition encode_quantum (input : list Z) (length i j : Z) (output : list Z)
  : option (list Z * bool) :=
  c0 ← peek input i;
  let current := Z.land (s8 (Z.shiftr c0 2)) 0x3F in
  k0 ← base64char !! Z.to_nat current;
  output ← poke output j k0;
  let current := Z.land (s8 (Z.shiftl c0 4)) 0x30 in
  if length <=? i + 1 then
    k1 ← base64char !! Z.to_nat current;
    output ← poke output (j + 1) k1;
    output ← poke output (j + 2) EQUALS;
    output ← poke output (j + 3) EQUALS;
    Some (output, true)
  else
    c1 ← peek input (i + 1);
    let current := Z.lor current (Z.land (s8 (Z.shiftr c1 4)) 0x0F) in
    k1 ← base64char !! Z.to_nat current;
    output ← poke output (j + 1) k1;
    let current := Z.land (s8 (Z.shiftl c1 2)) 0x3C in
    if length <=? i + 2 then
      k2 ← base64char !! Z.to_nat current;
      output ← poke output (j + 2) k2;
      output ← poke output (j + 3) EQUALS;
      Some (output, true)
    else
      c2 ← peek input (i + 2);
      let current := Z.lor current (Z.land (s8 (Z.shiftr c2 6)) 0x03) in
      k2 ← base64char !! Z.to_nat current;
      output ← poke output (j + 2) k2;
      let current := Z.land c2 0x3F in
      k3 ← base64char !! Z.to_nat current;
      output ← poke output (j + 3) k3;
      Some (output, false).

(** The loop: the output and the value of [j] when it ends.  A [break] leaves
    [j] where it is.  The fuel bounds the turns. *)
Fixpoint encode_loop (fuel : nat) (input : list Z) (length i j : Z) (output : list Z)
  : option (list Z * Z) :=
  if length <=? i then Some (output, j)
  else
    match fuel with
    | O => None
    | S fuel =>
        '(output, brk) ← encode_quantum input length i j output;
        if (brk : bool) then Some (output, j)
        else encode_loop fuel input length (i + 3) (j + 4) output
    end.

(** [Some None]: NULL. *)
Definition base64_encode (input : option (list Z)) (length : Z) (output : option (list Z))
  : option (option (list Z)) :=
  match input, output with
  | Some input, Some output =>
      if length <=? 0 then Some None
      else
        '(output, j) ← encode_loop (Z.to_nat length) input length 0 0 output;
        output ← poke output j 0;
        Some (Some output)
  | _, _ => Some None
  end.

Definition base64_decode_len (base64 : option (list Z)) (base64_len : Z) : option Z :=
  match base64 with
  | None => Some (-1)
  | Some b =>
      if base64_len <=? 0 then Some (-1)
      else
        let len := Z.quot base64_len 4 * 3 in
        c1 ← peek b (base64_len - 1);
        let len := if EQUALS =? c1 then len - 1 else len in
        c2 ← peek b (base64_len - 2);
        Some (if EQUALS =? c2 then len - 1 else len)
  end.

(** One of the four search loops: the last index that matches, 0xFF if none. *)
Definition decode_char (c : Z) : Z :=
  foldl (fun temp k => if s8 (base64char !!! k) =? c then Z.of_nat k else temp) (s8 0xFF) (seq 0 64).

(** The body of the loop of [base64_decode]. *)
Definition decode_quantum (base64 : list Z) (i j : Z) (bindata : list Z)
  : option (list Z * Z * bool) :=
  c0 ← peek base64 i; c1 ← peek base64 (i + 1); c2 ← peek base64 (i + 2); c3 ← peek base64 (i + 3);
  let temp0 := decode_char c0 in let temp1 := decode_char c1 in
  let temp2 := decode_char c2 in let temp3 := decode_char c3 in
  bindata ← poke bindata j
    (Z.lor (s8 (Z.land (s8 (Z.shiftl temp0 2)) 0xFC)) (s8 (Z.land (s8 (Z.shiftr temp1 4)) 0x03)));
  if c2 =? EQUALS then Some (bindata, j + 1, true)
  else
    bindata ← poke bindata (j + 1)
      (Z.lor (s8 (Z.land (s8 (Z.shiftl temp1 4)) 0xF0)) (s8 (Z.land (s8 (Z.shiftr temp2 2)) 0x0F)));
    if c3 =? EQUALS then Some (bindata, j + 2, true)
    else
      bindata ← poke bindata (j + 2)
        (Z.lor (s8 (Z.land (s8 (Z.shiftl temp2 6)) 0xF0)) (s8 (Z.land temp3 0x3F)));
      Some (bindata, j + 3, false).

Fixpoint decode_loop (fuel : nat) (base64 : list Z) (base64_len i j : Z) (bindata : list Z)
  : option (list Z * Z) :=
  if base64_len <=? i then Some (bindata, j)
  else
    match fuel with
    | O => None
    | S fuel =>
        '(bindata, j, brk) ← decode_quantum base64 i j bindata;
        if (brk : bool) then Some (bindata, j)
        else decode_loop fuel base64 base64_len (i + 4) j bindata
    end.

(** The count and the buffer. *)
Definition base64_decode (base64 : option (list Z)) (base64_len : Z) (bindata : option (list Z))
  : option (Z * option (list Z)) :=
  match base64, bindata with
  | Some b, Some d =>
      if base64_len <=? 0 then Some (-1, bindata)
      else '(d, j) ← decode_loop (Z.to_nat base64_len) b base64_len 0 0 d; Some (j, Some d)
  | _, _ => Some (-1, bindata)
  end.

(** The result, the output buffer and what [*outcb] holds ([None]: not written). *)
Definition base64_encode2 (input : option (list Z)) (incb : Z) (output : option (list Z)) (outcb : bool)
  : option (Z * option (list Z) * option Z) :=
  match input with
  | None => Some (-1, output, None)
  | Some _ =>
      if (incb <=? 0) || negb outcb then Some (-1, output, None)
      else
        let n := base64_encode_len incb in
        if n <=? 0 then Some (-1, output, Some n)
        else
          match output with
          | None => Some (n, None, Some n)
          | Some _ =>
              p ← base64_encode input incb output;
              Some (match p with None => (-1, output, Some n) | Some o => (n, Some o, Some n) end)
          end
  end.

Definition base64_decode2 (input : option (list Z)) (incb : Z) (output : option (list Z)) (outcb : bool)
  : option (Z * option (list Z) * option Z) :=
  match input with
  | None => Some (-1, output, None)
  | Some _ =>
      if (incb <=? 0) || negb outcb then Some (-1, output, None)
      else
        n ← base64_decode_len input incb;
        if n <=? 0 then Some (-1, output, Some n)
        else
          match output with
          | None => Some (n, None, Some n)
          | Some _ => '(r, o) ← base64_decode input incb output; Some (r, o, Some n)
          end
  end.

(** ** RFC 4648 *)
Definition sym (v : Z) : Z := base64char !!! Z.to_nat v.

Fixpoint rfc4648 (bs : list Z) : list Z :=
  match bs with
  | [] => []
  | [a] => [sym (a / 4); sym (a mod 4 * 16); EQUALS; EQUALS]
  | [a; b] => [sym (a / 4); sym (a mod 4 * 16 + b / 16); sym (b mod 16 * 4); EQUALS]
  | a :: b :: c :: bs =>
      [sym (a / 4); sym (a mod 4 * 16 + b / 16); sym (b mod 16 * 4 + c / 64); sym (c mod 64)]
      ++ rfc4648 bs
  end.

(** Induction over quanta. *)
Lemma quantum_ind (P : list Z -> Prop) :
  P [] -> (forall a, P [a]) -> (forall a b, P [a; b]) ->
  (forall a b c bs, P bs -> P (a :: b :: c :: bs)) -> forall bs, P bs.
Proof.
  intros H0 H1 H2 H3. fix IH 1. intros [|a [|b [|c bs]]]; [done | done | done |]. apply H3, IH.
Qed.

(** The longest input whose text has an int length. *)
Definition MAX_INPUT : Z := 3 * (2 ^ 29 - 1).

Lemma zlen_rfc4648 bs : zlen (rfc4648 bs) = (zlen bs + 2) / 3 * 4.
Proof.
  induction bs as [|a|a b|a b c bs IH] using quantum_ind; [done.. |].
  cbn [rfc4648]. rewrite zlen_app, IH, !zlen_cons. change (zlen []) with 0. zdiv.
Qed.

Lemma encode_len_spec bs : zlen bs <= MAX_INPUT -> base64_encode_len (zlen bs) = zlen (rfc4648 bs).
Proof.
  intros Hm. rewrite zlen_rfc4648. unfold base64_encode_len, MAX_INPUT in *.
  pose proof (zlen_nonneg bs). set (n := zlen bs) in *. clearbody n.
  rewrite Z.rem_mod_nonneg by lia. pose proof (Z.mod_pos_bound n 3).
  set (k := if negb (n mod 3 =? 0) then 3 - n mod 3 else 0).
  assert (n + k = (n + 2) / 3 * 3) as -> by (subst k; destruct (Z.eqb_spec (n mod 3) 0); simpl; zdiv).
  rewrite (swrap_small 32 ((n + 2) / 3 * 3)), Z.quot_div_nonneg by (pow2; zdiv).
  rewrite Z.div_mul by done. apply swrap_small; pow2; zdiv.
Qed.

(** ** Cells *)
Lemma peek_app pre l k : peek (pre ++ l) (zlen pre + Z.of_nat k) = s8 <$> l !! k.
Proof.
  unfold peek. pose proof (zlen_nonneg pre). rewrite (proj2 (Z.leb_le _ _)) by lia.
  rewrite lookup_app_r by (unfold zlen in *; lia). do 2 f_equal. unfold zlen. lia.
Qed.

Lemma poke_app pre l k v :
  (k < length l)%nat -> poke (pre ++ l) (zlen pre + Z.of_nat k) v = Some (pre ++ <[k := u8 v]> l).
Proof.
  intros Hk. destruct (split_at_len l k) as (l1 & l2 & -> & <-); [lia |].
  destruct l2 as [|y l2]; [rewrite length_app in Hk; simpl in Hk; lia |].
  unfold poke. change (y :: l2) with ([y] ++ l2). rewrite (app_assoc pre).
  replace (zlen pre + Z.of_nat (length l1)) with (zlen (pre ++ l1)) by (rewrite zlen_app; done).
  rewrite memcpy_at_app by done. rewrite <- app_assoc. do 2 f_equal.
  by rewrite insert_app_r_alt, Nat.sub_diag by lia.
Qed.

Lemma peek_0 pre a l : peek (pre ++ a :: l) (zlen pre) = Some (s8 a).
Proof. rewrite <- (Z.add_0_r (zlen pre)). exact (peek_app pre (a :: l) 0). Qed.
Lemma peek_1 pre a b l : peek (pre ++ a :: b :: l) (zlen pre + 1) = Some (s8 b).
Proof. exact (peek_app pre (a :: b :: l) 1). Qed.
Lemma peek_2 pre a b c l : peek (pre ++ a :: b :: c :: l) (zlen pre + 2) = Some (s8 c).
Proof. exact (peek_app pre (a :: b :: c :: l) 2). Qed.
Lemma peek_3 pre a b c d l : peek (pre ++ a :: b :: c :: d :: l) (zlen pre + 3) = Some (s8 d).
Proof. exact (peek_app pre (a :: b :: c :: d :: l) 3). Qed.

Lemma poke_0 pre a l v : poke (pre ++ a :: l) (zlen pre) v = Some (pre ++ u8 v :: l).
Proof. rewrite <- (Z.add_0_r (zlen pre)). apply (poke_app pre (a :: l) 0). simpl. lia. Qed.
Lemma poke_1 pre a b l v : poke (pre ++ a :: b :: l) (zlen pre + 1) v = Some (pre ++ a :: u8 v :: l).
Proof. apply (poke_app pre (a :: b :: l) 1). simpl. lia. Qed.
Lemma poke_2 pre a b c l v :
  poke (pre ++ a :: b :: c :: l) (zlen pre + 2) v = Some (pre ++ a :: b :: u8 v :: l).
Proof. apply (poke_app pre (a :: b :: c :: l) 2). simpl. lia. Qed.
Lemma poke_3 pre a b c d l v :
  poke (pre ++ a :: b :: c :: d :: l) (zlen pre + 3) v = Some (pre ++ a :: b :: c :: u8 v :: l).
Proof. apply (poke_app pre (a :: b :: c :: d :: l) 3). simpl. lia. Qed.

(** The code of a symbol, and its way back. *)
Lemma sym_lookup v : 0 <= v < 64 -> base64char !! Z.to_nat v = Some (sym v).
Proof. intros Hv. apply list_lookup_lookup_total_lt. change (length base64char) with 64%nat. lia. Qed.

Lemma sym_spec v :
  0 <= v < 64 -> u8 (sym v) = sym v /\ s8 (sym v) = sym v /\ decode_char (sym v) = v /\ sym v <> EQUALS.
Proof.
  intros Hv. pose proof (below_spec 64 (fun v => bool_decide (u8 (sym v) = sym v /\ s8 (sym v) = sym v /\
    decode_char (sym v) = v /\ sym v <> EQUALS))) as Hb.
  specialize (Hb ltac:(vm_compute; reflexivity) v ltac:(lia)). by apply bool_decide_eq_true in Hb.
Qed.

(** ** The bit fields of the encoder *)
Lemma enc_byte a :
  byte a ->
  Z.land (s8 (Z.shiftr (s8 a) 2)) 0x3F = a / 4 /\
  Z.land (s8 (Z.shiftl (s8 a) 4)) 0x30 = a mod 4 * 16 /\
  Z.land (s8 (Z.shiftr (s8 a) 4)) 0x0F = a / 16 /\
  Z.land (s8 (Z.shiftl (s8 a) 2)) 0x3C = a mod 16 * 4 /\
  Z.land (s8 (Z.shiftr (s8 a) 6)) 0x03 = a / 64 /\
  Z.land (s8 a) 0x3F = a mod 64.
Proof.
  intros Ha. pose proof (below_spec 256 (fun a => bool_decide (
    Z.land (s8 (Z.shiftr (s8 a) 2)) 0x3F = a / 4 /\
    Z.land (s8 (Z.shiftl (s8 a) 4)) 0x30 = a mod 4 * 16 /\
    Z.land (s8 (Z.shiftr (s8 a) 4)) 0x0F = a / 16 /\
    Z.land (s8 (Z.shiftl (s8 a) 2)) 0x3C = a mod 16 * 4 /\
    Z.land (s8 (Z.shiftr (s8 a) 6)) 0x03 = a / 64 /\
    Z.land (s8 a) 0x3F = a mod 64))) as Hc.
  specialize (Hc ltac:(vm_compute; reflexivity) a Ha). by apply bool_decide_eq_true in Hc.
Qed.

(** The indices the encoder computes from two and three bytes. *)
Lemma enc_fields a b :
  byte a -> byte b ->
  Z.lor (Z.land (s8 (Z.shiftl (s8 a) 4)) 0x30) (Z.land (s8 (Z.shiftr (s8 b) 4)) 0x0F) = a mod 4 * 16 + b / 16 /\
  Z.lor (Z.land (s8 (Z.shiftl (s8 a) 2)) 0x3C) (Z.land (s8 (Z.shiftr (s8 b) 6)) 0x03) = a mod 16 * 4 + b / 64.
Proof.
  intros Ha Hb. destruct (enc_byte a Ha) as (_ & -> & _ & -> & _), (enc_byte b Hb) as (_ & _ & -> & _ & -> & _).
  unfold byte in *. split; [apply (lor_fields 4) | apply (lor_fields 2)]; zdiv.
Qed.

(** One step of a chain of reads and writes in front of the cursors. *)
Ltac cells :=
  cbn [mbind option_bind];
  repeat (first [ rewrite peek_0 | rewrite peek_1 | rewrite peek_2 | rewrite peek_3
                | rewrite poke_0 | rewrite poke_1 | rewrite poke_2 | rewrite poke_3 ];
          cbn [mbind option_bind]).

Lemma sym_cell v : 0 <= v < 64 -> u8 (sym v) = sym v.
Proof. intros Hv. apply (sym_spec v Hv). Qed.

Section Encode.
Context (ipre opre : list Z) (x0 x1 x2 x3 : Z) (orest : list Z).

Lemma encode_full a b c irest len :
  byte a -> byte b -> byte c -> zlen ipre + 3 <= len ->
  encode_quantum (ipre ++ a :: b :: c :: irest) len (zlen ipre) (zlen opre)
    (opre ++ x0 :: x1 :: x2 :: x3 :: orest)
  = Some (opre ++ [sym (a / 4); sym (a mod 4 * 16 + b / 16); sym (b mod 16 * 4 + c / 64); sym (c mod 64)]
          ++ orest, false).
Proof.
  intros Ha Hb Hc Hlen. unfold encode_quantum.
  destruct (enc_byte a Ha) as (Ea & _), (enc_byte c Hc) as (_ & _ & _ & _ & _ & Ec).
  destruct (enc_fields a b Ha Hb) as [Eab _], (enc_fields b c Hb Hc) as [_ Ebc].
  unfold byte in *. rewrite !(proj2 (Z.leb_gt _ _)) by lia.
  cells. rewrite Ea, sym_lookup by zdiv. cells.
  rewrite Eab, sym_lookup by zdiv. cells.
  rewrite Ebc, sym_lookup by zdiv. cells.
  rewrite Ec, sym_lookup by zdiv. cells.
  rewrite !sym_cell by zdiv. done.
Qed.

Lemma encode_two a b len :
  byte a -> byte b -> len = zlen ipre + 2 ->
  encode_quantum (ipre ++ [a; b]) len (zlen ipre) (zlen opre) (opre ++ x0 :: x1 :: x2 :: x3 :: orest)
  = Some (opre ++ [sym (a / 4); sym (a mod 4 * 16 + b / 16); sym (b mod 16 * 4); EQUALS] ++ orest, true).
Proof.
  intros Ha Hb ->. unfold encode_quantum.
  destruct (enc_byte a Ha) as (Ea & _), (enc_byte b Hb) as (_ & _ & _ & Eb & _).
  destruct (enc_fields a b Ha Hb) as [Eab _].
  unfold byte in *. rewrite (proj2 (Z.leb_gt _ (zlen ipre + 1))), (proj2 (Z.leb_le _ (zlen ipre + 2))) by lia.
  cells. rewrite Ea, sym_lookup by zdiv. cells.
  rewrite Eab, sym_lookup by zdiv. cells.
  rewrite Eb, sym_lookup by zdiv. cells.
  rewrite !sym_cell by zdiv. done.
Qed.

Lemma encode_one a len :
  byte a -> len = zlen ipre + 1 ->
  encode_quantum (ipre ++ [a]) len (zlen ipre) (zlen opre) (opre ++ x0 :: x1 :: x2 :: x3 :: orest)
  = Some (opre ++ [sym (a / 4); sym (a mod 4 * 16); EQUALS; EQUALS] ++ orest, true).
Proof.
  intros Ha ->. unfold encode_quantum.
  destruct (enc_byte a Ha) as (Ea & Eb & _).
  unfold byte in *. rewrite (proj2 (Z.leb_le _ (zlen ipre + 1))) by lia.
  cells. rewrite Ea, sym_lookup by zdiv. cells.
  rewrite Eb, sym_lookup by zdiv. cells.
  rewrite !sym_cell by zdiv. done.
Qed.
End Encode.

(** At least four cells are there. *)
Lemma four_cells (l : list Z) : 4 <= zlen l -> exists x0 x1 x2 x3 r, l = x0 :: x1 :: x2 :: x3 :: r.
Proof.
  unfold zlen. intros Hl. destruct l as [|x0 [|x1 [|x2 [|x3 r]]]]; cbn [length] in Hl; try lia. eauto 6.
Qed.

Lemma encode_loop_spec rest : forall fuel ipre opre orest,
  bytes rest -> zlen (rfc4648 rest) <= zlen orest -> (length rest <= fuel)%nat ->
  encode_loop fuel (ipre ++ rest) (zlen (ipre ++ rest)) (zlen ipre) (zlen opre) (opre ++ orest)
  = Some (opre ++ rfc4648 rest ++ drop (length (rfc4648 rest)) orest, zlen opre + 4 * (zlen rest / 3)).
Proof.
  induction rest as [|a|a b|a b c rest IH] using quantum_ind; intros fuel ipre opre orest Hb Ho Hf.
  - rewrite app_nil_r, drop_0. destruct fuel; cbn [encode_loop]; rewrite Z.leb_refl;
      (change (zlen [] / 3) with 0; do 2 f_equal; lia).
  - destruct (four_cells orest Ho) as (x0 & x1 & x2 & x3 & r & ->).
    destruct fuel as [|fuel]; [simpl in Hf; lia |]. cbn [encode_loop].
    apply Forall_cons in Hb as [Ha _]. rewrite zlen_app. change (zlen [a]) with 1.
    rewrite (proj2 (Z.leb_gt _ _)), encode_one by (done || lia). cbn [mbind option_bind].
    change (1 / 3) with 0. by rewrite Z.mul_0_r, Z.add_0_r.
  - destruct (four_cells orest Ho) as (x0 & x1 & x2 & x3 & r & ->).
    destruct fuel as [|fuel]; [simpl in Hf; lia |]. cbn [encode_loop].
    apply Forall_cons in Hb as [Ha [Hb _]%Forall_cons]. rewrite zlen_app. change (zlen [a; b]) with 2.
    rewrite (proj2 (Z.leb_gt _ _)), encode_two by (done || lia). cbn [mbind option_bind].
    change (2 / 3) with 0. by rewrite Z.mul_0_r, Z.add_0_r.
  - cbn [rfc4648] in Ho. rewrite zlen_app in Ho. change (zlen [_; _; _; _]) with 4 in Ho.
    pose proof (zlen_nonneg (rfc4648 rest)).
    destruct (four_cells orest ltac:(lia)) as (x0 & x1 & x2 & x3 & r & ->).
    destruct fuel as [|fuel]; [simpl in Hf; lia |]. cbn [encode_loop].
    apply Forall_cons in Hb as [Ha [Hb [Hc Hrest]%Forall_cons]%Forall_cons].
    rewrite !zlen_app, !zlen_cons in *. pose proof (zlen_nonneg rest).
    rewrite (proj2 (Z.leb_gt _ _)), encode_full by (done || lia). cbn [mbind option_bind].
    set (q := [sym _; _; _; _]).
    specialize (IH fuel (ipre ++ [a; b; c]) (opre ++ q) r Hrest ltac:(lia) ltac:(simpl in Hf; lia)).
    rewrite <- !app_assoc in IH. cbn [app] in IH. rewrite !zlen_app in IH.
    change (zlen [a; b; c]) with 3 in IH. change (zlen q) with 4 in IH. rewrite !zlen_cons in IH.
    replace (1 + (1 + (1 + zlen rest))) with (3 + zlen rest) in * by lia.
    rewrite IH. cbn [rfc4648]. fold q. rewrite <- !app_assoc. do 2 f_equal. zdiv.
Qed.

(** ** Decoding *)
Lemma dec_fields t u :
  0 <= t < 64 -> 0 <= u < 64 ->
  u8 (Z.lor (s8 (Z.land (s8 (Z.shiftl t 2)) 0xFC)) (s8 (Z.land (s8 (Z.shiftr u 4)) 0x03))) = t * 4 + u / 16 /\
  u8 (Z.lor (s8 (Z.land (s8 (Z.shiftl t 4)) 0xF0)) (s8 (Z.land (s8 (Z.shiftr u 2)) 0x0F))) = t mod 16 * 16 + u / 4 /\
  u8 (Z.lor (s8 (Z.land (s8 (Z.shiftl t 6)) 0xF0)) (s8 (Z.land u 0x3F))) = t mod 4 * 64 + u.
Proof.
  intros Ht Hu. pose proof (below_spec2 64 64 (fun t u =>
    (u8 (Z.lor (s8 (Z.land (s8 (Z.shiftl t 2)) 0xFC)) (s8 (Z.land (s8 (Z.shiftr u 4)) 0x03))) =? t * 4 + u / 16) &&
    (u8 (Z.lor (s8 (Z.land (s8 (Z.shiftl t 4)) 0xF0)) (s8 (Z.land (s8 (Z.shiftr u 2)) 0x0F))) =? t mod 16 * 16 + u / 4) &&
    (u8 (Z.lor (s8 (Z.land (s8 (Z.shiftl t 6)) 0xF0)) (s8 (Z.land u 0x3F))) =? t mod 4 * 64 + u))) as Hc.
  specialize (Hc ltac:(vm_compute; reflexivity) t u Ht Hu).
  rewrite !andb_true_iff, !Z.eqb_eq in Hc. tauto.
Qed.

Lemma sym_char v : 0 <= v < 64 -> s8 (sym v) = sym v.
Proof. intros Hv. apply (sym_spec v Hv). Qed.
Lemma sym_decode v : 0 <= v < 64 -> decode_char (sym v) = v.
Proof. intros Hv. apply (sym_spec v Hv). Qed.
Lemma sym_not_pad v : 0 <= v < 64 -> (sym v =? EQUALS) = false.
Proof. intros Hv. apply Z.eqb_neq, (sym_spec v Hv). Qed.

Section Decode.
Context (ipre irest opre : list Z).

Lemma decode_full a b c y0 y1 y2 orest :
  byte a -> byte b -> byte c ->
  decode_quantum (ipre ++ [sym (a / 4); sym (a mod 4 * 16 + b / 16); sym (b mod 16 * 4 + c / 64); sym (c mod 64)]
      ++ irest) (zlen ipre) (zlen opre) (opre ++ y0 :: y1 :: y2 :: orest)
  = Some (opre ++ [a; b; c] ++ orest, zlen opre + 3, false).
Proof.
  intros Ha Hb Hc. unfold byte in *. unfold decode_quantum. cbn [app]. cells.
  rewrite !sym_char, !sym_decode by zdiv.
  destruct (dec_fields (a / 4) (a mod 4 * 16 + b / 16)) as (E1 & _ & _); [zdiv.. |].
  destruct (dec_fields (a mod 4 * 16 + b / 16) (b mod 16 * 4 + c / 64)) as (_ & E2 & _); [zdiv.. |].
  destruct (dec_fields (b mod 16 * 4 + c / 64) (c mod 64)) as (_ & _ & E3); [zdiv.. |].
  rewrite !sym_not_pad by zdiv. cells. rewrite E1, E2, E3. do 3 f_equal. cbn [app].
  repeat f_equal; zdiv.
Qed.

Lemma decode_two a b y0 y1 orest :
  byte a -> byte b ->
  decode_quantum (ipre ++ [sym (a / 4); sym (a mod 4 * 16 + b / 16); sym (b mod 16 * 4); EQUALS])
    (zlen ipre) (zlen opre) (opre ++ y0 :: y1 :: orest)
  = Some (opre ++ [a; b] ++ orest, zlen opre + 2, true).
Proof.
  intros Ha Hb. unfold byte in *. unfold decode_quantum. cells.
  rewrite !sym_char, !sym_decode by zdiv.
  destruct (dec_fields (a / 4) (a mod 4 * 16 + b / 16)) as (E1 & _ & _); [zdiv.. |].
  destruct (dec_fields (a mod 4 * 16 + b / 16) (b mod 16 * 4)) as (_ & E2 & _); [zdiv.. |].
  rewrite !sym_not_pad by zdiv. cells. change (s8 EQUALS =? EQUALS) with true. cbn match.
  rewrite E1, E2. do 3 f_equal. cbn [app]. repeat f_equal; zdiv.
Qed.

Lemma decode_one a y0 orest :
  byte a ->
  decode_quantum (ipre ++ [sym (a / 4); sym (a mod 4 * 16); EQUALS; EQUALS])
    (zlen ipre) (zlen opre) (opre ++ y0 :: orest)
  = Some (opre ++ [a] ++ orest, zlen opre + 1, true).
Proof.
  intros Ha. unfold byte in *. unfold decode_quantum. cells.
  rewrite !sym_char, !sym_decode by zdiv.
  destruct (dec_fields (a / 4) (a mod 4 * 16)) as (E1 & _ & _); [zdiv.. |].
  cells. change (s8 EQUALS =? EQUALS) with true. cbn match.
  rewrite E1. do 3 f_equal. cbn [app]. repeat f_equal; zdiv.
Qed.
End Decode.

Lemma decode_loop_spec bs : forall fuel ipre opre orest,
  bytes bs -> zlen bs <= zlen orest -> (length bs <= fuel)%nat ->
  decode_loop fuel (ipre ++ rfc4648 bs) (zlen (ipre ++ rfc4648 bs)) (zlen ipre) (zlen opre) (opre ++ orest)
  = Some (opre ++ bs ++ drop (length bs) orest, zlen opre + zlen bs).
Proof.
  induction bs as [|a|a b|a b c bs IH] using quantum_ind; intros fuel ipre opre orest Hb Ho Hf.
  - cbn [rfc4648]. rewrite app_nil_r, drop_0. destruct fuel; cbn [decode_loop]; rewrite Z.leb_refl;
      (change (zlen []) with 0; do 2 f_equal; lia).
  - destruct orest as [|y0 orest]; [by cbn in Ho |].
    destruct fuel as [|fuel]; [simpl in Hf; lia |]. cbn [decode_loop rfc4648].
    apply Forall_cons in Hb as [Ha _]. rewrite zlen_app. change (zlen [_; _; _; _]) with 4.
    rewrite (proj2 (Z.leb_gt _ _)), decode_one by (done || lia). done.
  - destruct orest as [|y0 [|y1 orest]]; [by cbn in Ho .. |].
    destruct fuel as [|fuel]; [simpl in Hf; lia |]. cbn [decode_loop rfc4648].
    apply Forall_cons in Hb as [Ha [Hb _]%Forall_cons]. rewrite zlen_app. change (zlen [_; _; _; _]) with 4.
    rewrite (proj2 (Z.leb_gt _ _)), decode_two by (done || lia). done.
  - rewrite !zlen_cons in Ho. pose proof (zlen_nonneg bs).
    destruct orest as [|y0 [|y1 [|y2 orest]]]; [rewrite ?zlen_cons in Ho; change (zlen []) with 0 in Ho; lia .. |].
    destruct fuel as [|fuel]; [simpl in Hf; lia |]. cbn [decode_loop rfc4648].
    apply Forall_cons in Hb as [Ha [Hb [Hc Hbs]%Forall_cons]%Forall_cons].
    set (q := [sym _; _; _; _]). pose proof (zlen_nonneg (rfc4648 bs)).
    rewrite !zlen_app. change (zlen q) with 4.
    rewrite (proj2 (Z.leb_gt _ _)) by lia.
    pose proof (decode_full ipre (rfc4648 bs) opre a b c y0 y1 y2 orest Ha Hb Hc) as E.
    fold q in E. rewrite E.
    cbn [mbind option_bind].
    specialize (IH fuel (ipre ++ q) (opre ++ [a; b; c]) orest Hbs).
    rewrite !zlen_cons in Ho. specialize (IH ltac:(lia) ltac:(simpl in Hf; lia)).
    rewrite <- !app_assoc in IH. rewrite !zlen_app in IH. change (zlen q) with 4 in IH.
    change (zlen [a; b; c]) with 3 in IH. rewrite IH. cbn [app length drop]. rewrite !zlen_cons.
    do 2 f_equal. lia.
Qed.

(** ** Correctness *)
Lemma sym_nonzero v : 0 <= v < 64 -> sym v <> 0.
Proof.
  intros Hv. pose proof (below_spec 64 (fun v => negb (sym v =? 0)) ltac:(vm_compute; reflexivity) v ltac:(lia)) as Hn.
  by apply negb_true_iff, Z.eqb_neq in Hn.
Qed.

Lemma rfc4648_nonzero bs : bytes bs -> Forall (fun c => c <> 0) (rfc4648 bs).
Proof.
  induction bs as [|a|a b|a b c bs IH] using quantum_ind; intros Hb; cbn [rfc4648 app]; unfold bytes in *;
    repeat match goal with H : Forall byte (_ :: _) |- _ => apply Forall_cons in H as [? H] end;
    unfold byte in *; repeat apply Forall_cons_2; try (apply sym_nonzero; zdiv);
    first [done | by apply Forall_nil_2 | by apply IH].
Qed.

(** The last two symbols tell how many bytes the last quantum holds. *)
Lemma rfc4648_last bs :
  bytes bs -> bs <> [] ->
  exists t c2 c3, rfc4648 bs = t ++ [c2; c3] /\ s8 c2 = c2 /\ s8 c3 = c3 /\
    (c3 =? EQUALS) = negb (zlen bs mod 3 =? 0) /\ (c2 =? EQUALS) = (zlen bs mod 3 =? 1).
Proof.
  induction bs as [|a|a b|a b c bs IH] using quantum_ind; intros Hb Hne; [done | | |].
  - exists [sym (a / 4); sym (a mod 4 * 16)], EQUALS, EQUALS. by split_and!.
  - apply Forall_cons in Hb as [Ha [Hb _]%Forall_cons]. unfold byte in *.
    exists [sym (a / 4); sym (a mod 4 * 16 + b / 16)], (sym (b mod 16 * 4)), EQUALS.
    split_and!; [done | apply sym_char; zdiv | done | done | by rewrite sym_not_pad by zdiv].
  - apply Forall_cons in Hb as [Ha [Hb [Hc Hbs]%Forall_cons]%Forall_cons]. unfold byte in *.
    rewrite !zlen_cons.
    destruct (decide (bs = [])) as [->|Hbs'].
    + exists [sym (a / 4); sym (a mod 4 * 16 + b / 16)], (sym (b mod 16 * 4 + c / 64)), (sym (c mod 64)).
      split_and!; [done | apply sym_char; zdiv | apply sym_char; zdiv | by rewrite sym_not_pad by zdiv ..].
    + destruct (IH Hbs Hbs') as (t & c2 & c3 & E & H2 & H3 & E3 & E2).
      eexists (_ :: _ :: _ :: _ :: t), c2, c3. cbn [rfc4648]. rewrite E.
      replace ((1 + (1 + (1 + zlen bs))) mod 3) with (zlen bs mod 3) by zdiv. by split_and!.
Qed.

(** [base64_encode] writes the RFC 4648 text of its input, as long as
    [base64_encode_len] announces, then stores the terminating NUL at index
    4 * (length / 3): behind the text when three divides the length, and over the
    first symbol of the last quantum otherwise, so the C string it returns lacks
    that quantum. *)
Theorem base64_encode_correct bs out :
  bytes bs -> bs <> [] -> zlen bs <= MAX_INPUT -> base64_encode_len (zlen bs) + 1 <= zlen out ->
  exists out',
    base64_encode (Some bs) (zlen bs) (Some out) = Some (Some out') /\
    out' = <[Z.to_nat (4 * (zlen bs / 3)) := 0]> (rfc4648 bs ++ drop (length (rfc4648 bs)) out) /\
    base64_encode_len (zlen bs) = zlen (rfc4648 bs) /\
    cstring out' = take (Z.to_nat (4 * (zlen bs / 3))) (rfc4648 bs) /\
    (zlen bs mod 3 = 0 -> cstring out' = rfc4648 bs) /\
    (zlen bs mod 3 <> 0 -> zlen (cstring out') = zlen (rfc4648 bs) - 4).
Proof.
  intros Hb Hne%zlen_pos Hmax Ho. rewrite (encode_len_spec bs Hmax) in *.
  unfold base64_encode. rewrite (proj2 (Z.leb_gt _ _)) by done.
  pose proof (encode_loop_spec bs (Z.to_nat (zlen bs)) [] [] out Hb ltac:(lia) ltac:(unfold zlen; lia)) as E.
  cbn [app] in E. change (zlen []) with 0 in E. rewrite E. cbn [mbind option_bind]. rewrite Z.add_0_l.
  set (text := rfc4648 bs) in *. set (n := Z.to_nat (4 * (zlen bs / 3))).
  assert (zlen text = (zlen bs + 2) / 3 * 4) as Hl by apply zlen_rfc4648.
  assert (Z.of_nat n = 4 * (zlen bs / 3)) as Hn by (subst n; zdiv).
  assert (4 * (zlen bs / 3) <= zlen text) as Hle by (rewrite Hl; zdiv).
  pose proof (poke_app [] (text ++ drop (length text) out) n 0) as Ep.
  cbn [app] in Ep. change (zlen []) with 0 in Ep. rewrite Z.add_0_l, Hn in Ep.
  rewrite Ep by (unfold zlen in *; rewrite length_app, length_drop; lia). cbn [mbind option_bind].
  change (u8 0) with 0. eexists. split; [reflexivity |]. split; [done |]. split; [done |].
  assert (cstring (<[n := 0]> (text ++ drop (length text) out)) = take n text) as Hc.
  { assert (n < length (text ++ drop (length text) out))%nat
      by (unfold zlen in *; rewrite length_app, length_drop; lia).
    rewrite insert_take_drop, take_app_le by (done || unfold zlen in *; lia).
    apply cstring_app, Forall_take, rfc4648_nonzero. done. }
  rewrite Hc. split; [done |]. split.
  - intros Hm. apply take_ge. unfold zlen in *. zdiv.
  - intros Hm. unfold zlen in *. rewrite length_take. zdiv.
Qed.

(** C24: decoding the RFC 4648 text of any bytes, of any length, gives back those
    bytes and their count, which is the one [base64_decode_len] announces. *)
Theorem base64_decode_rfc4648 bs out :
  bytes bs -> bs <> [] -> zlen bs <= zlen out ->
  base64_decode (Some (rfc4648 bs)) (zlen (rfc4648 bs)) (Some out)
  = Some (zlen bs, Some (bs ++ drop (length bs) out)) /\
  base64_decode_len (Some (rfc4648 bs)) (zlen (rfc4648 bs)) = Some (zlen bs).
Proof.
  intros Hb Hne Ho. pose proof (zlen_pos bs Hne) as Hp.
  assert (0 < zlen (rfc4648 bs)) as Ht by (rewrite zlen_rfc4648; zdiv). split.
  - unfold base64_decode. rewrite (proj2 (Z.leb_gt _ _)) by done.
    pose proof (decode_loop_spec bs (Z.to_nat (zlen (rfc4648 bs))) [] [] out Hb Ho) as E.
    cbn [app] in E. change (zlen []) with 0 in E. rewrite E; [done |].
    pose proof (zlen_rfc4648 bs). unfold zlen in *. zdiv.
  - destruct (rfc4648_last bs Hb Hne) as (t & c2 & c3 & E & H2 & H3 & E3 & E2).
    pose proof (zlen_rfc4648 bs) as Hl.
    unfold base64_decode_len. rewrite (proj2 (Z.leb_gt _ _)), E by done.
    rewrite E, zlen_app in Hl. change (zlen [c2; c3]) with 2 in Hl.
    rewrite zlen_app. change (zlen [c2; c3]) with 2.
    replace (zlen t + 2 - 1) with (zlen t + 1) by lia. replace (zlen t + 2 - 2) with (zlen t) by lia.
    cells. rewrite H2, H3, !(Z.eqb_sym EQUALS), E2, E3. f_equal.
    rewrite Hl, Z.quot_div_nonneg, Z.div_mul by zdiv.
    destruct (Z.eqb_spec (zlen bs mod 3) 0), (Z.eqb_spec (zlen bs mod 3) 1); cbn [negb]; zdiv.
Qed.

Lemma base64_encode_correct_witness :
  exists out',
    base64_encode (Some [77; 97; 110; 255]) 4 (Some (replicate 10 7)) = Some (Some out') /\
    out' = <[4%nat := 0]> (rfc4648 [77; 97; 110; 255]
                           ++ drop (length (rfc4648 [77; 97; 110; 255])) (replicate 10 7)) /\
    base64_encode_len 4 = zlen (rfc4648 [77; 97; 110; 255]) /\
    cstring out' = take 4 (rfc4648 [77; 97; 110; 255]) /\
    (4 mod 3 = 0 -> cstring out' = rfc4648 [77; 97; 110; 255]) /\
    (4 mod 3 <> 0 -> zlen (cstring out') = zlen (rfc4648 [77; 97; 110; 255]) - 4).
Proof.
  apply (base64_encode_correct [77; 97; 110; 255] (replicate 10 7)); [decided .. | |]; by vm_compute.
Defined.

Lemma base64_decode_rfc4648_witness :
  base64_decode (Some (rfc4648 [77; 97; 110; 255])) 8 (Some (replicate 6 0))
  = Some (4, Some ([77; 97; 110; 255] ++ [0; 0])) /\
  base64_decode_len (Some (rfc4648 [77; 97; 110; 255])) 8 = Some 4.
Proof. apply (base64_decode_rfc4648 [77; 97; 110; 255] (replicate 6 0)); [decided .. |]; by vm_compute. Defined.
