(* ===== verification/Md5.v ===== *)
(** MD5: src/hash.c, lines 286 to 545.

    Words are [Z] in [0, 2^32); a byte buffer is a list of bytes.  The result is
    [None] when the code accesses a cell outside of a block (or, in the loop of
    [md5_update], does not end within the fuel). *)
From S2P Require Import Prelude.
Local Open Scope c_scope.

Record words := Words { wA : Z; wB : Z; wC : Z; wD : Z }.

(** struct __md5ctx *)
Record md5ctx := Md5ctx {
  state : words; count0 : Z; count1 : Z; buffer : list Z; PADDING : list Z;
}.

Definition S11 := 7.
Definition S12 := 12.
Definition S13 := 17.
Definition S14 := 22.
Definition S21 := 5.
Definition S22 := 9.
Definition S23 := 14.
Definition S24 := 20.
Definition S31 := 4.
Definition S32 := 11.
Definition S33 := 16.
Definition S34 := 23.
Definition S41 := 6.
Definition S42 := 10.
Definition S43 := 15.
Definition S44 := 21.

(** [~x] on a uint32_t *)
Definition not32 (x : Z) : Z := u32 (Z.lnot x).

Definition F (x y z : Z) : Z := Z.lor (Z.land x y) (Z.land (not32 x) z).
Definition G (x y z : Z) : Z := Z.lor (Z.land x z) (Z.land y (not32 z)).
Definition H (x y z : Z) : Z := Z.lxor (Z.lxor x y) z.
Definition I (x y z : Z) : Z := Z.lxor y (Z.lor x (not32 z)).

Definition ROTATE_LEFT (x n : Z) : Z := Z.lor (u32 (Z.shiftl x n)) (Z.shiftr x (32 - n)).

(** The variables a, b, c, d that the macros read and assign. *)
Inductive reg := A | B | C | D.
Definition get (r : reg) (v : words) : Z :=
  match r with A => wA v | B => wB v | C => wC v | D => wD v end.
Definition set (r : reg) (x : Z) (v : words) : words :=
  match r with
  | A => Words x (wB v) (wC v) (wD v)
  | B => Words (wA v) x (wC v) (wD v)
  | C => Words (wA v) (wB v) x (wD v)
  | D => Words (wA v) (wB v) (wC v) x
  end.

(** The shape of the four macros. *)
Definition round_step (f : Z -> Z -> Z -> Z) (a b c d : reg) (x s ac : Z) (v : words) : words :=
  let v := set a (get a v +u32 (f (get b v) (get c v) (get d v) + x + ac)) v in
  let v := set a (ROTATE_LEFT (get a v) s) v in
  set a (get a v +u32 get b v) v.
Definition FF := round_step F.
Definition GG := round_step G.
Definition HH := round_step H.
Definition II := round_step I.

(** The first [len] bytes of [input], four to a word. *)
Fixpoint _md5_decode (input : list Z) : list Z :=
  match input with
  | b0 :: b1 :: b2 :: b3 :: input =>
      Z.lor (Z.lor (Z.lor b0 (Z.shiftl b1 8)) (Z.shiftl b2 16)) (Z.shiftl b3 24) :: _md5_decode input
  | _ => []
  end.

Definition _md5_encode (input : list Z) : list Z :=
  concat ((fun w => [Z.land w 0xff; Z.land (Z.shiftr w 8) 0xff;
                     Z.land (Z.shiftr w 16) 0xff; Z.land (Z.shiftr w 24) 0xff]) <$> input).

(** The 64 statements of the four rounds. *)
Definition md5_rounds (x : Z -> Z) : list (words -> words) :=
  [
    FF A B C D (x 0) S11 0xd76aa478;
    FF D A B C (x 1) S12 0xe8c7b756;
    FF C D A B (x 2) S13 0x242070db;
    FF B C D A (x 3) S14 0xc1bdceee;
    FF A B C D (x 4) S11 0xf57c0faf;
    FF D A B C (x 5) S12 0x4787c62a;
    FF C D A B (x 6) S13 0xa8304613;
    FF B C D A (x 7) S14 0xfd469501;
    FF A B C D (x 8) S11 0x698098d8;
    FF D A B C (x 9) S12 0x8b44f7af;
    FF C D A B (x 10) S13 0xffff5bb1;
    FF B C D A (x 11) S14 0x895cd7be;
    FF A B C D (x 12) S11 0x6b901122;
    FF D A B C (x 13) S12 0xfd987193;
    FF C D A B (x 14) S13 0xa679438e;
    FF B C D A (x 15) S14 0x49b40821;
    GG A B C D (x 1) S21 0xf61e2562;
    GG D A B C (x 6) S22 0xc040b340;
    GG C D A B (x 11) S23 0x265e5a51;
    GG B C D A (x 0) S24 0xe9b6c7aa;
    GG A B C D (x 5) S21 0xd62f105d;
    GG D A B C (x 10) S22 0x2441453;
    GG C D A B (x 15) S23 0xd8a1e681;
    GG B C D A (x 4) S24 0xe7d3fbc8;
    GG A B C D (x 9) S21 0x21e1cde6;
    GG D A B C (x 14) S22 0xc33707d6;
    GG C D A B (x 3) S23 0xf4d50d87;
    GG B C D A (x 8) S24 0x455a14ed;
    GG A B C D (x 13) S21 0xa9e3e905;
    GG D A B C (x 2) S22 0xfcefa3f8;
    GG C D A B (x 7) S23 0x676f02d9;
    GG B C D A (x 12) S24 0x8d2a4c8a;
    HH A B C D (x 5) S31 0xfffa3942;
    HH D A B C (x 8) S32 0x8771f681;
    HH C D A B (x 11) S33 0x6d9d6122;
    HH B C D A (x 14) S34 0xfde5380c;
    HH A B C D (x 1) S31 0xa4beea44;
    HH D A B C (x 4) S32 0x4bdecfa9;
    HH C D A B (x 7) S33 0xf6bb4b60;
    HH B C D A (x 10) S34 0xbebfbc70;
    HH A B C D (x 13) S31 0x289b7ec6;
    HH D A B C (x 0) S32 0xeaa127fa;
    HH C D A B (x 3) S33 0xd4ef3085;
    HH B C D A (x 6) S34 0x4881d05;
    HH A B C D (x 9) S31 0xd9d4d039;
    HH D A B C (x 12) S32 0xe6db99e5;
    HH C D A B (x 15) S33 0x1fa27cf8;
    HH B C D A (x 2) S34 0xc4ac5665;
    II A B C D (x 0) S41 0xf4292244;
    II D A B C (x 7) S42 0x432aff97;
    II C D A B (x 14) S43 0xab9423a7;
    II B C D A (x 5) S44 0xfc93a039;
    II A B C D (x 12) S41 0x655b59c3;
    II D A B C (x 3) S42 0x8f0ccc92;
    II C D A B (x 10) S43 0xffeff47d;
    II B C D A (x 1) S44 0x85845dd1;
    II A B C D (x 8) S41 0x6fa87e4f;
    II D A B C (x 15) S42 0xfe2ce6e0;
    II C D A B (x 6) S43 0xa3014314;
    II B C D A (x 13) S44 0x4e0811a1;
    II A B C D (x 4) S41 0xf7537e82;
    II D A B C (x 11) S42 0xbd3af235;
    II C D A B (x 2) S43 0x2ad7d2bb;
    II B C D A (x 9) S44 0xeb86d391
  ].

Definition _md5_ransform (st : words) (block : list Z) : words :=
  let x := _md5_decode block in
  let v := foldl (fun v step => step v) st (md5_rounds (fun k => x !!! Z.to_nat k)) in
  Words (wA st +u32 wA v) (wB st +u32 wB v) (wC st +u32 wC v) (wD st +u32 wD v).

(** _md5_memcpy (&output[off], &input[i], len) *)
Definition _md5_memcpy (output : list Z) (off : Z) (input : list Z) (i len : Z) : option (list Z) :=
  s ← memread input i len; memcpy_at output off s.

Definition md5_init (ctx : md5ctx) : md5ctx :=
  Md5ctx (Words 0x67452301 0xefcdab89 0x98badcfe 0x10325476) 0 0 (buffer ctx)
    (0x80 :: replicate 63 0).

(** The loop over whole blocks of [input] from [i] on: the state and the final [i]. *)
Fixpoint md5_blocks (fuel : nat) (st : words) (input : list Z) (i inputLen : Z) : option (words * Z) :=
  if i +u32 63 <? inputLen then
    match fuel with
    | O => None
    | S fuel =>
        block ← memread input i 64;
        md5_blocks fuel (_md5_ransform st block) input (i +u32 64) inputLen
    end
  else Some (st, i).

Definition md5_update (ctx : md5ctx) (input : list Z) (inputLen : Z) : option md5ctx :=
  let index := Z.land (Z.shiftr (count0 ctx) 3) 0x3F in
  let bits := u32 (Z.shiftl inputLen 3) in
  let c0 := count0 ctx +u32 bits in
  let c1 := if c0 <? bits then count1 ctx +u32 1 else count1 ctx in
  let c1 := c1 +u32 Z.shiftr inputLen 29 in
  let partLen := 64 -u32 index in
  '(st, buf, index, i) ←
    (if partLen <=? inputLen then
       buf ← _md5_memcpy (buffer ctx) index input 0 partLen;
       '(st, i) ← md5_blocks (Z.to_nat inputLen) (_md5_ransform (state ctx) buf) input partLen inputLen;
       Some (st, buf, 0, i)
     else Some (state ctx, buffer ctx, index, 0));
  buf ← _md5_memcpy buf index input i (inputLen -u32 i);
  Some (Md5ctx st c0 c1 buf (PADDING ctx)).

(** The digest ([None]: [digest] is NULL) and the context. *)
Definition md5_final (ctx : md5ctx) (digest : bool) : option (option (list Z) * md5ctx) :=
  if negb digest then Some (None, ctx)
  else
    let bits := _md5_encode [count0 ctx; count1 ctx] in
    let index := Z.land (Z.shiftr (count0 ctx) 3) 0x3f in
    let padLen := if index <? 56 then 56 -u32 index else 120 -u32 index in
    ctx ← md5_update ctx (PADDING ctx) padLen;
    ctx ← md5_update ctx bits 8;
    let st := state ctx in
    let digest := _md5_encode [wA st; wB st; wC st; wD st] in
    let zeroed := Md5ctx (Words 0 0 0 0) 0 0 (replicate 64 0) (replicate 64 0) in
    Some (Some digest, md5_init zeroed).

(** ** RFC 1321

    The digest as the standard states it: padding, little-endian words, and for
    each block a loop of 64 steps over a table. *)
Module Rfc1321.

Definition T : list Z :=
  [0xd76aa478; 0xe8c7b756; 0x242070db; 0xc1bdceee;
   0xf57c0faf; 0x4787c62a; 0xa8304613; 0xfd469501;
   0x698098d8; 0x8b44f7af; 0xffff5bb1; 0x895cd7be;
   0x6b901122; 0xfd987193; 0xa679438e; 0x49b40821;
   0xf61e2562; 0xc040b340; 0x265e5a51; 0xe9b6c7aa;
   0xd62f105d; 0x2441453; 0xd8a1e681; 0xe7d3fbc8;
   0x21e1cde6; 0xc33707d6; 0xf4d50d87; 0x455a14ed;
   0xa9e3e905; 0xfcefa3f8; 0x676f02d9; 0x8d2a4c8a;
   0xfffa3942; 0x8771f681; 0x6d9d6122; 0xfde5380c;
   0xa4beea44; 0x4bdecfa9; 0xf6bb4b60; 0xbebfbc70;
   0x289b7ec6; 0xeaa127fa; 0xd4ef3085; 0x4881d05;
   0xd9d4d039; 0xe6db99e5; 0x1fa27cf8; 0xc4ac5665;
   0xf4292244; 0x432aff97; 0xab9423a7; 0xfc93a039;
   0x655b59c3; 0x8f0ccc92; 0xffeff47d; 0x85845dd1;
   0x6fa87e4f; 0xfe2ce6e0; 0xa3014314; 0x4e0811a1;
   0xf7537e82; 0xbd3af235; 0x2ad7d2bb; 0xeb86d391].

Definition fn (i : nat) : Z -> Z -> Z -> Z :=
  match (i / 16)%nat with O => F | 1%nat => G | 2%nat => H | _ => I end.
Definition index (i : nat) : nat :=
  match (i / 16)%nat with
  | O => i
  | 1%nat => (5 * i + 1) mod 16
  | 2%nat => (3 * i + 5) mod 16
  | _ => (7 * i) mod 16
  end.
Definition shift (i : nat) : Z :=
  match (i / 16)%nat with
  | O => [7; 12; 17; 22] | 1%nat => [5; 9; 14; 20] | 2%nat => [4; 11; 16; 23] | _ => [6; 10; 15; 21]
  end !!! (i mod 4)%nat.

Definition rotate_left (x n : Z) : Z := x * 2 ^ n mod 2 ^ 32 + x / 2 ^ (32 - n).

Definition step (f : Z -> Z -> Z -> Z) (x s t : Z) (v : words) : words :=
  let 'Words a b c d := v in
  Words d ((b + rotate_left ((a + f b c d + x + t) mod 2 ^ 32) s) mod 2 ^ 32) b c.

(** Word [k] of a block. *)
Definition word (block : list Z) (k : nat) : Z :=
  let byte i := block !!! (4 * k + i)%nat in
  byte 0%nat + 2 ^ 8 * byte 1%nat + 2 ^ 16 * byte 2%nat + 2 ^ 24 * byte 3%nat.

Definition compress (st : words) (block : list Z) : words :=
  let v := foldl (fun v i => step (fn i) (word block (index i)) (shift i) (T !!! i) v) st (seq 0 64) in
  Words ((wA st + wA v) mod 2 ^ 32) ((wB st + wB v) mod 2 ^ 32)
    ((wC st + wC v) mod 2 ^ 32) ((wD st + wD v) mod 2 ^ 32).

Definition le_bytes (n : nat) (x : Z) : list Z := (fun k => x / 2 ^ (8 * Z.of_nat k) mod 2 ^ 8) <$> seq 0 n.

Definition pad (msg : list Z) : list Z :=
  msg ++ 0x80 :: replicate (Z.to_nat ((55 - zlen msg) mod 64)) 0
    ++ le_bytes 8 (8 * zlen msg mod 2 ^ 64).

Definition init : words := Words 0x67452301 0xefcdab89 0x98badcfe 0x10325476.
End Rfc1321.

(** A compression function over the first [n] blocks of a list. *)
Fixpoint run_blocks (f : words -> list Z -> words) (n : nat) (st : words) (l : list Z) : words :=
  match n with
  | O => st
  | S n => run_blocks f n (f st (take 64 l)) (drop 64 l)
  end.

Definition rfc_md5 (msg : list Z) : list Z :=
  let padded := Rfc1321.pad msg in
  let st := run_blocks Rfc1321.compress (length padded / 64) Rfc1321.init padded in
  concat (Rfc1321.le_bytes 4 <$> [wA st; wB st; wC st; wD st]).

(** ** One block *)
Lemma ROTATE_LEFT_spec x n :
  0 <= x < 2 ^ 32 -> 0 <= n <= 32 -> ROTATE_LEFT x n = Rfc1321.rotate_left x n.
Proof.
  intros Hx Hn. by apply (lor_rotate 32).
Qed.

(** A statement seen with the variables renamed after it. *)
Definition turned_step (f : Z -> Z -> Z -> Z) (x s t : Z) (v : words) : words :=
  let 'Words a b c d := v in
  Words d (ROTATE_LEFT (a +u32 (f b c d + x + t)) s +u32 b) b c.

Lemma turned_step_spec f x s t v : 0 <= s <= 32 -> turned_step f x s t v = Rfc1321.step f x s t v.
Proof.
  intros Hs. destruct v as [a b c d]. unfold turned_step, Rfc1321.step.
  rewrite ROTATE_LEFT_spec by (done || by apply wrap_range).
  f_equal. unfold wrap. rewrite (Z.add_comm b), !Z.add_assoc. done.
Qed.

(** Four statements of a round are four turns of the loop. *)
Lemma round_step4 f x0 x1 x2 x3 s0 s1 s2 s3 t0 t1 t2 t3 v :
  round_step f B C D A x3 s3 t3 (round_step f C D A B x2 s2 t2
    (round_step f D A B C x1 s1 t1 (round_step f A B C D x0 s0 t0 v)))
  = turned_step f x3 s3 t3 (turned_step f x2 s2 t2 (turned_step f x1 s1 t1 (turned_step f x0 s0 t0 v))).
Proof. by destruct v. Qed.

Lemma rounds_group f x0 x1 x2 x3 s0 s1 s2 s3 t0 t1 t2 t3 v steps rsteps :
  (forall v, foldl (fun v step => step v) v steps = foldl (fun v step => step v) v rsteps) ->
  foldl (fun v step => step v) v
    (round_step f A B C D x0 s0 t0 :: round_step f D A B C x1 s1 t1 ::
     round_step f C D A B x2 s2 t2 :: round_step f B C D A x3 s3 t3 :: steps)
  = foldl (fun v step => step v) v
    (turned_step f x0 s0 t0 :: turned_step f x1 s1 t1 ::
     turned_step f x2 s2 t2 :: turned_step f x3 s3 t3 :: rsteps).
Proof. intros Hs. cbn [foldl]. by rewrite round_step4, Hs. Qed.

(** The 64 statements are the 64 turns, with the tables of the standard. *)
Lemma md5_rounds_turns x v :
  foldl (fun v step => step v) v (md5_rounds x)
  = foldl (fun v step => step v) v
      ((fun i => turned_step (Rfc1321.fn i) (x (Z.of_nat (Rfc1321.index i))) (Rfc1321.shift i)
         (Rfc1321.T !!! i)) <$> seq 0 64).
Proof.
  unfold md5_rounds, FF, GG, HH, II. cbn [seq fmap list_fmap].
  do 16 (apply rounds_group; clear v; intros v). done.
Qed.

(** Little-endian words. *)
Lemma le_word b0 b1 b2 b3 :
  byte b0 -> byte b1 -> byte b2 -> byte b3 ->
  Z.lor (Z.lor (Z.lor b0 (Z.shiftl b1 8)) (Z.shiftl b2 16)) (Z.shiftl b3 24)
  = b0 + 2 ^ 8 * b1 + 2 ^ 16 * b2 + 2 ^ 24 * b3.
Proof.
  unfold byte. intros H0 H1 H2 H3. rewrite !Z.shiftl_mul_pow2 by done.
  rewrite (Z.lor_comm b0), lor_fields by (done || lia).
  rewrite (Z.lor_comm _ (b2 * _)), lor_fields by (done || lia).
  rewrite (Z.lor_comm _ (b3 * _)), lor_fields by (done || lia). lia.
Qed.

Lemma md5_decode_word bs : forall k,
  bytes bs -> (4 * k + 3 < length bs)%nat -> _md5_decode bs !!! k = Rfc1321.word bs k.
Proof.
  assert (forall n bs k, (length bs <= n)%nat -> bytes bs -> (4 * k + 3 < length bs)%nat ->
    _md5_decode bs !!! k = Rfc1321.word bs k) as Hn; [|by intros k; apply (Hn (length bs))].
  clear bs. induction n as [|n IH]; intros bs k Hle Hb Hk; [lia |].
  destruct bs as [|b0 [|b1 [|b2 [|b3 bs]]]]; cbn [length] in *; try lia.
  apply Forall_cons in Hb as [H0 [H1 [H2 [H3 Hb]%Forall_cons]%Forall_cons]%Forall_cons].
  cbn [_md5_decode]. destruct k as [|k].
  - by apply le_word.
  - cbn [lookup_total list_lookup_total]. rewrite IH by (done || lia).
    unfold Rfc1321.word. by replace (4 * S k)%nat with (S (S (S (S (4 * k))))) by lia.
Qed.

Lemma md5_encode_le ws : _md5_encode ws = concat (Rfc1321.le_bytes 4 <$> ws).
Proof.
  unfold _md5_encode. f_equal. apply list_fmap_ext. intros _ w _.
  unfold Rfc1321.le_bytes. cbn [seq fmap list_fmap].
  change 0xff with (Z.ones 8). rewrite !Z.land_ones, !Z.shiftr_div_pow2 by done.
  change (2 ^ (8 * Z.of_nat 0)) with 1. by rewrite Z.div_1_r.
Qed.

(** The tables stay within a block and a word. *)
Lemma table_ranges i : (i < 64)%nat -> (Rfc1321.index i < 16)%nat /\ 0 <= Rfc1321.shift i <= 32.
Proof.
  intros Hi. pose proof (below_spec 64 (fun k => let i := Z.to_nat k in
    (Rfc1321.index i <? 16)%nat && ((0 <=? Rfc1321.shift i) && (Rfc1321.shift i <=? 32)))
    ltac:(vm_compute; reflexivity) (Z.of_nat i) ltac:(lia)) as Hx.
  cbv beta zeta in Hx. rewrite Nat2Z.id, !andb_true_iff, Nat.ltb_lt, !Z.leb_le in Hx. done.
Qed.

Lemma md5_transform_compress st block :
  bytes block -> length block = 64%nat -> _md5_ransform st block = Rfc1321.compress st block.
Proof.
  intros Hb Hl. unfold _md5_ransform, Rfc1321.compress. rewrite md5_rounds_turns.
  assert (forall ks v, (forall i, i ∈ ks -> (i < 64)%nat) ->
    foldl (fun v step => step v) v ((fun i => turned_step (Rfc1321.fn i)
      (_md5_decode block !!! Z.to_nat (Z.of_nat (Rfc1321.index i))) (Rfc1321.shift i) (Rfc1321.T !!! i)) <$> ks)
    = foldl (fun v i => Rfc1321.step (Rfc1321.fn i) (Rfc1321.word block (Rfc1321.index i))
        (Rfc1321.shift i) (Rfc1321.T !!! i) v) v ks) as Hf.
  { induction ks as [|i ks IH]; intros v Hi; [done |]. cbn [fmap list_fmap foldl].
    assert (i < 64)%nat as Hi64 by (apply Hi; constructor).
    destruct (table_ranges i Hi64) as [Hx Hs].
    rewrite turned_step_spec, Nat2Z.id, md5_decode_word by (done || lia).
    apply IH. intros j Hj. apply Hi. by constructor. }
  rewrite Hf; [done |]. intros i Hi%elem_of_seq. lia.
Qed.

(** ** Streaming *)
Lemma run_blocks_plus f n : forall m st l,
  run_blocks f (n + m) st l = run_blocks f m (run_blocks f n st l) (drop (64 * n) l).
Proof.
  induction n as [|n IH]; intros m st l; [by rewrite drop_0 |].
  cbn [Nat.add run_blocks]. rewrite IH, drop_drop. do 2 f_equal. lia.
Qed.

Lemma run_blocks_prefix f n : forall st l1 l2,
  (64 * n <= length l1)%nat -> run_blocks f n st (l1 ++ l2) = run_blocks f n st l1.
Proof.
  induction n as [|n IH]; intros st l1 l2 Hl; [done |]. cbn [run_blocks].
  rewrite take_app_le, drop_app_le by lia. apply IH. rewrite length_drop. lia.
Qed.

Lemma run_blocks_app f n m st l1 l2 :
  length l1 = (64 * n)%nat ->
  run_blocks f (n + m) st (l1 ++ l2) = run_blocks f m (run_blocks f n st l1) l2.
Proof.
  intros Hl. rewrite run_blocks_plus, run_blocks_prefix by lia. by rewrite <- Hl, drop_app_length.
Qed.

(** A context that has taken the bytes [msg]: whole blocks are compressed, the
    rest waits at the start of the buffer. *)
Record ctx_ok (ctx : md5ctx) (msg : list Z) : Prop := {
  ctx_split : exists n p r junk, msg = p ++ r /\ length p = (64 * n)%nat /\ (length r < 64)%nat /\
    state ctx = run_blocks _md5_ransform n Rfc1321.init p /\
    buffer ctx = r ++ junk /\ length (buffer ctx) = 64%nat;
  ctx_count0 : count0 ctx = u32 (8 * zlen msg);
  ctx_count1 : count1 ctx = u32 (8 * zlen msg / 2 ^ 32);
  ctx_padding : PADDING ctx = 0x80 :: replicate 63 0;
}.

Lemma md5_init_ok ctx : length (buffer ctx) = 64%nat -> ctx_ok (md5_init ctx) [].
Proof.
  intros Hb. split; [|done ..]. exists 0%nat, [], [], (buffer ctx). cbn. split_and!; done || lia.
Qed.

Lemma ctx_index c (msg : list Z) : c = u32 (8 * zlen msg) -> Z.land (Z.shiftr c 3) 0x3F = zlen msg mod 64.
Proof.
  intros ->. change 0x3F with (2 ^ 6 - 1). rewrite land_mask, Z.shiftr_div_pow2 by done.
  unfold wrap. change (2 ^ 6) with 64. change (2 ^ 3) with 8. pow2. zdiv.
Qed.

(** The 64-bit count in its two halves. *)
Lemma count_add x n :
  0 <= x -> 0 <= n < 2 ^ 32 ->
  let c0 := u32 x +u32 u32 (Z.shiftl n 3) in
  c0 = u32 (x + 8 * n) /\
  (if c0 <? u32 (Z.shiftl n 3) then u32 (x / 2 ^ 32) +u32 1 else u32 (x / 2 ^ 32)) +u32 Z.shiftr n 29
  = u32 ((x + 8 * n) / 2 ^ 32).
Proof.
  intros Hx Hn. rewrite Z.shiftl_mul_pow2, Z.shiftr_div_pow2 by done. unfold wrap.
  change (2 ^ 3) with 8. pow2. split; [by rewrite (Z.mul_comm 8), <- Zplus_mod |].
  destruct (Z.ltb_spec ((x mod 4294967296 + n * 8 mod 4294967296) mod 4294967296)
              (n * 8 mod 4294967296)) as [Hc|Hc]; zdiv.
Qed.

(** The loop compresses the whole blocks of what is left. *)
Lemma md5_blocks_spec (extra rest : list Z) : forall fuel st pre,
  (length rest <= fuel)%nat -> zlen (pre ++ rest) <= 2 ^ 32 - 64 ->
  let n := (length rest / 64)%nat in
  md5_blocks fuel st ((pre ++ rest) ++ extra) (zlen pre) (zlen (pre ++ rest))
  = Some (run_blocks _md5_ransform n st rest, zlen pre + Z.of_nat (64 * n)).
Proof.
  remember (length rest) as len eqn:Hlen. revert rest Hlen.
  induction len as [len IH] using lt_wf_ind. intros rest Hlen fuel st pre Hf Hm n.
  assert (u32 (zlen pre + 63) = zlen pre + 63) as E1.
  { apply wrap_small. rewrite zlen_app in Hm. pose proof (zlen_nonneg pre). pose proof (zlen_nonneg rest). lia. }
  rewrite zlen_app in Hm |- *. destruct (decide (64 <= len)%nat) as [Hge|Hlt].
  - destruct (split_at_len rest 64) as (blk & rest' & -> & Hblk); [lia |].
    rewrite length_app in Hlen. pose proof (zlen_nonneg pre).
    assert (n = S (length rest' / 64)) as Hn.
    { subst n. rewrite Hlen, Hblk. replace (64 + length rest')%nat with (length rest' + 1 * 64)%nat by lia.
      rewrite Nat.div_add by done. lia. }
    destruct fuel as [|fuel]; [lia |]. cbn [md5_blocks].
    rewrite E1, (proj2 (Z.ltb_lt _ _)) by (unfold zlen; rewrite length_app; lia).
    assert (memread ((pre ++ blk ++ rest') ++ extra) (zlen pre) 64 = Some blk) as ->.
    { replace 64 with (zlen blk) by (unfold zlen; lia). rewrite <- !app_assoc. apply memread_app. }
    cbn [mbind option_bind].
    assert (u32 (zlen pre + 64) = zlen (pre ++ blk)) as ->.
    { rewrite wrap_small; [rewrite zlen_app; unfold zlen at 3; lia |]. rewrite zlen_app in Hm. unfold zlen in *. lia. }
    rewrite <- zlen_app. rewrite (app_assoc pre blk rest') in *.
    rewrite (IH (length rest') ltac:(lia) rest' eq_refl fuel (_md5_ransform st blk) (pre ++ blk) ltac:(lia))
      by (rewrite !zlen_app in *; lia).
    rewrite Hn. cbn [run_blocks]. rewrite take_app_length', drop_app_length' by done.
    do 2 f_equal. rewrite zlen_app. unfold zlen. lia.
  - assert (n = 0%nat) as -> by (subst n; by apply Nat.div_small; lia).
    destruct fuel; cbn [md5_blocks]; rewrite E1, (proj2 (Z.ltb_ge _ _)) by (unfold zlen; lia);
      cbn; by rewrite Z.add_0_r.
Qed.

Lemma md5_update_spec ctx msg inp extra :
  ctx_ok ctx msg -> zlen inp <= 2 ^ 32 - 64 ->
  exists ctx', md5_update ctx (inp ++ extra) (zlen inp) = Some ctx' /\ ctx_ok ctx' (msg ++ inp).
Proof.
  intros Hok Hlen. destruct (ctx_split _ _ Hok) as (n & p & r & junk & -> & Hp & Hr & Hst & Hbuf & Hbl).
  pose proof (zlen_nonneg inp) as Hi0. unfold md5_update.
  rewrite (ctx_index _ _ (ctx_count0 _ _ Hok)).
  destruct (count_add (8 * zlen (p ++ r)) (zlen inp)) as [E0 E1]; [pose proof (zlen_nonneg (p ++ r)); lia | lia |].
  rewrite <- (ctx_count0 _ _ Hok) in E0, E1. rewrite <- (ctx_count1 _ _ Hok) in E1. rewrite E1.
  rewrite E0. clear E0 E1.
  assert (zlen (p ++ r) mod 64 = zlen r) as ->.
  { rewrite zlen_app. unfold zlen. rewrite Hp. zdiv. }
  assert (64 -u32 zlen r = 64 - zlen r) as -> by (apply wrap_small; unfold zlen; lia).
  assert (8 * zlen (p ++ r) + 8 * zlen inp = 8 * zlen ((p ++ r) ++ inp)) as ->
    by (rewrite (zlen_app (p ++ r)); lia).
  rewrite Hbuf in Hbl. rewrite length_app in Hbl.
  destruct (Z.leb_spec (64 - zlen r) (zlen inp)) as [Hge|Hlt].
  - destruct (split_at_len inp (64 - length r)) as (i1 & i2 & -> & Hi1); [unfold zlen in *; lia |].
    unfold _md5_memcpy. rewrite Hbuf.
    assert (memread ((i1 ++ i2) ++ extra) 0 (64 - zlen r) = Some i1) as ->.
    { replace (64 - zlen r) with (zlen i1) by (unfold zlen; lia).
      apply memread_prefix. by rewrite <- app_assoc, take_app_length. }
    cbn [mbind option_bind].
    assert (memcpy_at (r ++ junk) (zlen r) i1 = Some (r ++ i1)) as ->.
    { pose proof (memcpy_at_app r junk [] i1) as E. rewrite !app_nil_r in E. apply E. lia. }
    cbn [mbind option_bind].
    assert (64 - zlen r = zlen i1) as -> by (unfold zlen; lia).
    rewrite (md5_blocks_spec extra i2 _ _ i1) by (unfold zlen; rewrite ?Nat2Z.id, ?length_app; unfold zlen in *; rewrite ?length_app in *; lia).
    cbn [mbind option_bind].
    pose proof (Nat.mod_upper_bound (length i2) 64 ltac:(done)) as Hmod.
    pose proof (Nat.div_mod (length i2) 64 ltac:(done)) as Hdm.
    set (m := (length i2 / 64)%nat) in *. clearbody m.
    destruct (split_at_len i2 (64 * m)) as (q & r' & -> & Hq); [lia |].
    assert (length r' < 64)%nat as Hr' by (rewrite length_app in *; lia).
    assert (zlen (i1 ++ q ++ r') -u32 (zlen i1 + Z.of_nat (64 * m)) = zlen r') as ->.
    { rewrite !zlen_app in *. rewrite wrap_small; unfold zlen in *; lia. }
    assert (memread ((i1 ++ q ++ r') ++ extra) (zlen i1 + Z.of_nat (64 * m)) (zlen r') = Some r') as ->.
    { replace (zlen i1 + Z.of_nat (64 * m)) with (zlen (i1 ++ q)) by (rewrite zlen_app; unfold zlen; lia).
      rewrite app_assoc, <- (app_assoc (i1 ++ q)). apply memread_app. }
    cbn [mbind option_bind].
    destruct (split_at_len (r ++ i1) (length r')) as (mid & post & E & Hmid); [rewrite length_app; lia |].
    assert (memcpy_at (r ++ i1) 0 r' = Some (r' ++ post)) as ->.
    { rewrite E. exact (memcpy_at_app [] mid post r' Hmid). }
    cbn [mbind option_bind]. eexists. split; [reflexivity |].
    split; [| done | done | apply Hok]. cbn [state buffer].
    exists (n + (1 + m))%nat, (p ++ (r ++ i1) ++ q), r', post.
    split_and!; [by rewrite <- !app_assoc | rewrite !length_app; lia | done | | done | ].
    + rewrite run_blocks_app by done. rewrite (run_blocks_app _ 1 m) by (rewrite length_app; lia).
      cbn [run_blocks]. rewrite <- Hst, (take_ge (r ++ i1)), (run_blocks_prefix _ m _ q r')
        by (rewrite ?length_app; lia). done.
    + apply (f_equal length) in E. rewrite !length_app in *. lia.
  - unfold _md5_memcpy. cbn [mbind option_bind]. rewrite Z.sub_0_r, (wrap_small 32 (zlen inp)) by lia.
    assert (memread (inp ++ extra) 0 (zlen inp) = Some inp) as ->
      by (apply memread_prefix; apply take_app_length).
    cbn [mbind option_bind]. rewrite Hbuf.
    destruct (split_at_len junk (length inp)) as (mid & post & -> & Hmid); [unfold zlen in *; lia |].
    rewrite memcpy_at_app by done. cbn [mbind option_bind]. eexists. split; [reflexivity |].
    split; [| done | done | apply Hok]. cbn [state buffer].
    exists n, p, (r ++ inp), post. rewrite !length_app in *. unfold zlen in *.
    split_and!; [by rewrite <- app_assoc | done | lia | done | by rewrite <- app_assoc | lia].
Qed.

Lemma run_blocks_compress n : forall st l,
  bytes l -> (64 * n <= length l)%nat ->
  run_blocks _md5_ransform n st l = run_blocks Rfc1321.compress n st l.
Proof.
  induction n as [|n IH]; intros st l Hb Hl; [done |]. cbn [run_blocks].
  rewrite md5_transform_compress by (try apply Forall_take; try (rewrite length_take; lia); done).
  apply IH; [by apply Forall_drop | rewrite length_drop; lia].
Qed.

Lemma le_bytes_split x :
  0 <= x -> Rfc1321.le_bytes 4 (u32 x) ++ Rfc1321.le_bytes 4 (u32 (x / 2 ^ 32))
  = Rfc1321.le_bytes 8 (x mod 2 ^ 64).
Proof.
  intros Hx. unfold Rfc1321.le_bytes, wrap. cbn [seq fmap list_fmap app].
  change (2 ^ (8 * Z.of_nat 0)) with 1. change (2 ^ (8 * Z.of_nat 1)) with 256.
  change (2 ^ (8 * Z.of_nat 2)) with 65536. change (2 ^ (8 * Z.of_nat 3)) with 16777216.
  change (2 ^ (8 * Z.of_nat 4)) with 4294967296. change (2 ^ (8 * Z.of_nat 5)) with 1099511627776.
  change (2 ^ (8 * Z.of_nat 6)) with 281474976710656. change (2 ^ (8 * Z.of_nat 7)) with 72057594037927936.
  pow2.
  repeat (f_equal; [zdiv |]). f_equal. zdiv.
Qed.

Lemma pad_length msg : (length (Rfc1321.pad msg) mod 64 = 0)%nat.
Proof.
  unfold Rfc1321.pad. rewrite length_app. cbn [length]. rewrite length_app, length_replicate.
  unfold Rfc1321.le_bytes. rewrite length_fmap, length_seq.
  apply Nat2Z.inj. rewrite Nat2Z.inj_mod. unfold zlen. zdiv.
Qed.

Lemma le_bytes_bytes n x : bytes (Rfc1321.le_bytes n x).
Proof. apply Forall_fmap, Forall_forall. intros k _. apply (Z.mod_pos_bound _ (2 ^ 8)). done. Qed.

Lemma pad_bytes msg : bytes msg -> bytes (Rfc1321.pad msg).
Proof.
  intros Hm. unfold Rfc1321.pad. apply Forall_app. split; [done |]. apply Forall_cons. split; [done |].
  apply Forall_app. split; [by apply Forall_replicate | apply le_bytes_bytes].
Qed.

Definition zeroed : md5ctx := Md5ctx (Words 0 0 0 0) 0 0 (replicate 64 0) (replicate 64 0).

Lemma md5_final_spec ctx msg :
  ctx_ok ctx msg -> bytes msg ->
  md5_final ctx true = Some (Some (rfc_md5 msg), md5_init zeroed).
Proof.
  intros Hok Hb. unfold md5_final. cbn [negb]. rewrite (ctx_index _ _ (ctx_count0 _ _ Hok)).
  set (k := (55 - zlen msg) mod 64).
  assert ((if zlen msg mod 64 <? 56 then 56 -u32 (zlen msg mod 64) else 120 -u32 (zlen msg mod 64)) = 1 + k) as ->.
  { subst k. pose proof (Z.mod_pos_bound (zlen msg) 64).
    destruct (Z.ltb_spec (zlen msg mod 64) 56); rewrite wrap_small by lia; zdiv. }
  assert (0 <= k < 64) as Hk by (by apply Z.mod_pos_bound).
  set (padding := 0x80 :: replicate (Z.to_nat k) 0).
  assert (PADDING ctx = padding ++ replicate (63 - Z.to_nat k) 0) as ->.
  { rewrite (ctx_padding _ _ Hok). subst padding. cbn [app]. rewrite <- replicate_add. do 2 f_equal. lia. }
  assert (1 + k = zlen padding) as -> by (subst padding; unfold zlen; cbn [length]; rewrite length_replicate; lia).
  destruct (md5_update_spec ctx msg padding (replicate (63 - Z.to_nat k) 0) Hok) as (ctx1 & -> & Hok1).
  { subst padding. unfold zlen. cbn [length]. rewrite length_replicate. lia. }
  cbn [mbind option_bind]. rewrite md5_encode_le. cbn [fmap list_fmap concat].
  rewrite app_nil_r, (ctx_count0 _ _ Hok), (ctx_count1 _ _ Hok), le_bytes_split by (pose proof (zlen_nonneg msg); lia).
  set (bits := Rfc1321.le_bytes 8 _).
  destruct (md5_update_spec ctx1 (msg ++ padding) bits [] Hok1) as (ctx2 & E & Hok2); [done |].
  rewrite app_nil_r in E. change (zlen bits) with 8 in E. rewrite E. cbn [mbind option_bind].
  assert ((msg ++ padding) ++ bits = Rfc1321.pad msg) as Ep.
  { unfold Rfc1321.pad, padding, bits, k. by rewrite <- app_assoc. }
  rewrite Ep in Hok2. destruct (ctx_split _ _ Hok2) as (n & p & r & junk & Es & Hp & Hr & Hst & _).
  assert (r = []) as ->.
  { apply nil_length_inv. pose proof (pad_length msg) as Hm. rewrite Es, length_app, Hp in Hm.
    rewrite (Nat.add_comm (64 * n)), Nat.mul_comm, Nat.Div0.mod_add, Nat.mod_small in Hm by done. done. }
  rewrite app_nil_r in Es. unfold rfc_md5. rewrite Es, Hp, (Nat.mul_comm 64), Nat.div_mul by done.
  rewrite <- run_blocks_compress, <- Hst, md5_encode_le by first [lia | rewrite <- Es; by apply pad_bytes].
  done.
Qed.

(** The updates of a message that comes in pieces. *)
Definition md5_updates (ctx : md5ctx) (pieces : list (list Z)) : option md5ctx :=
  foldl (fun c piece => c ← c; md5_update c piece (zlen piece)) (Some ctx) pieces.

Lemma md5_updates_spec pieces : forall ctx msg,
  ctx_ok ctx msg -> Forall (fun piece => zlen piece <= 2 ^ 32 - 64) pieces ->
  exists ctx', md5_updates ctx pieces = Some ctx' /\ ctx_ok ctx' (msg ++ concat pieces).
Proof.
  unfold md5_updates. induction pieces as [|piece pieces IH]; intros ctx msg Hok Hp.
  { exists ctx. by rewrite app_nil_r. }
  apply Forall_cons in Hp as [Hp Hps]. cbn [foldl concat mbind option_bind].
  destruct (md5_update_spec ctx msg piece [] Hok Hp) as (ctx1 & E & Hok1). rewrite app_nil_r in E.
  rewrite E, app_assoc. by apply IH.
Qed.

(** C21: MD5 over a message that arrives in any pieces (each below 2^32 - 63
    bytes) gives the digest RFC 1321 defines for their concatenation, no matter
    how the message is cut, never leaves its buffers, and leaves a context that
    is ready for the next message. *)
Theorem md5_streaming_correct ctx pieces :
  length (buffer ctx) = 64%nat -> Forall (fun piece => zlen piece <= 2 ^ 32 - 64) pieces ->
  bytes (concat pieces) ->
  exists ctx', md5_updates (md5_init ctx) pieces = Some ctx' /\
    md5_final ctx' true = Some (Some (rfc_md5 (concat pieces)), md5_init zeroed).
Proof.
  intros Hl Hp Hb.
  destruct (md5_updates_spec pieces (md5_init ctx) [] (md5_init_ok ctx Hl) Hp) as (ctx' & E & Hok).
  exists ctx'. split; [done |]. by apply md5_final_spec.
Qed.

(** The 64 unrolled statements of [_md5_ransform] are the loop of the
    standard over its tables, on the little-endian words of the block. *)
Theorem md5_transform_correct st block :
  bytes block -> length block = 64%nat -> _md5_ransform st block = Rfc1321.compress st block.
Proof. apply md5_transform_compress. Qed.

Example md5_abc :
  rfc_md5 [97; 98; 99]
  = [0x90; 0x01; 0x50; 0x98; 0x3c; 0xd2; 0x4f; 0xb0; 0xd6; 0x96; 0x3f; 0x7d; 0x28; 0xe1; 0x7f; 0x72].
Proof. vm_compute. reflexivity. Qed.

Lemma md5_streaming_correct_witness :
  exists ctx', md5_updates (md5_init zeroed) [replicate 60 97; []; replicate 80 98; [99]] = Some ctx' /\
    md5_final ctx' true
    = Some (Some (rfc_md5 (concat [replicate 60 97; []; replicate 80 98; [99]])), md5_init zeroed).
Proof. apply (md5_streaming_correct zeroed); [done | repeat constructor; by vm_compute | decided]. Defined.

Lemma md5_transform_correct_witness :
  _md5_ransform Rfc1321.init (replicate 64 200) = Rfc1321.compress Rfc1321.init (replicate 64 200).
Proof. apply (md5_transform_correct Rfc1321.init (replicate 64 200)); [decided | done]. Defined.
