(* ===== verification/Naos.v ===== *)
(** Addresses, byte order and dumps: src/naos.c and include/naos.h.

    A constant C string is the list of its characters, none of them NUL; a
    buffer the code writes is a list of cells.  The functions of the C library
    the code calls are modelled on the texts it passes to them. *)
From S2P Require Import Prelude.
Local Open Scope c_scope.

Definition DOT : Z := 46.
Definition MAX_UINT8 : Z := 255.
Definition INET_ADDRSTRLEN : Z := 16.
Definition BITS_P_BYTE : Z := 8.

(** ** Byte order *)
Definition naos_chord32 (value : Z) : Z :=
  foldl (fun dst i =>
    let dst := Z.lor dst (Z.land (Z.shiftr value (i * BITS_P_BYTE)) 0xFF) in
    u32 (Z.shiftl dst (if i <? 3 then BITS_P_BYTE else 0))) 0 [0; 1; 2; 3].

Definition naos_chord16 (value : Z) : Z :=
  foldl (fun dst i =>
    let dst := Z.lor dst (Z.land (Z.shiftr value (i * BITS_P_BYTE)) 0xFF) in
    u16 (Z.shiftl dst (if i <? 1 then BITS_P_BYTE else 0))) 0 [0; 1].

(** ** Texts *)
Definition is_digit (c : Z) : bool := (48 <=? c) && (c <=? 57).

(** atoi and strtoul (10) on a text that starts with a digit or is empty *)
Fixpoint digits_value (acc : Z) (l : list Z) : Z :=
  match l with
  | c :: l => if is_digit c then digits_value (acc * 10 + (c - 48)) l else acc
  | [] => acc
  end.
Definition atoi (l : list Z) : Z := digits_value 0 l.

(** %hhu *)
Definition print_byte (n : Z) : list Z :=
  if n <? 10 then [48 + n]
  else if n <? 100 then [48 + n / 10; 48 + n mod 10]
  else [48 + n / 100; 48 + n / 10 mod 10; 48 + n mod 10].

(** snprintf (buf, size, ...) of a text: at most [size - 1] of its characters
    and a NUL; the result is the length of the whole text. *)
Definition snprintf (buf : list Z) (off size : Z) (text : list Z) : option (list Z * Z) :=
  if size <=? 0 then Some (buf, zlen text)
  else buf ← memcpy_at buf off (take (Z.to_nat (size - 1)) text ++ [0]); Some (buf, zlen text).

(** strtok_r (".", ...) to the end: the tokens, which are never empty. *)
Fixpoint tokens (tok : list Z) (l : list Z) : list (list Z) :=
  match l with
  | [] => match tok with [] => [] | _ => [tok] end
  | c :: l =>
      if c =? DOT then match tok with [] => tokens [] l | _ => tok :: tokens [] l end
      else tokens (tok ++ [c]) l
  end.

(** ** Addresses *)
Definition naos_ipv4tos (inet : Z) (inetstr : option (list Z)) : option (Z * option (list Z)) :=
  match inetstr with
  | None => Some (posix__makeerror EINVAL, None)
  | Some st =>
      let inetby i := Z.land (Z.shiftr inet (8 * i)) 0xFF in
      let text := print_byte (inetby 3) ++ DOT :: print_byte (inetby 2) ++ DOT ::
                  print_byte (inetby 1) ++ DOT :: print_byte (inetby 0) in
      '(st, _) ← snprintf st 0 (16 - 1) text;
      Some (NSP_STATUS_SUCCESSFUL, Some st)
  end.

(** The loop of [naos_is_legal_ipv4] from the character under [cursor] on;
    [segm] are the four arrays of four chars. *)
Fixpoint legal_loop (cursor : list Z) (i : Z) (j k : nat) (segm : list (list Z)) : bool :=
  match cursor with
  | [] =>
      if negb (3 =? Z.of_nat k) || (0 =? Z.of_nat j) then false
      else negb (MAX_UINT8 <? atoi (cstring (segm !!! k)))
  | c :: cursor' =>
      if (INET_ADDRSTRLEN - 1 =? i) || (3 <? Z.of_nat k) then false
      else if c =? DOT then
        (* [0 == segm[k]] compares the address of the array *)
        if false || (MAX_UINT8 <? atoi (cstring (segm !!! k))) then false
        else legal_loop cursor' (i + 1) 0 (S k) segm
      else if (48 <=? c) && (c <=? 57) then
        if 3 <=? Z.of_nat j then false
        else legal_loop cursor' (i + 1) (S j) k (<[k := <[j := c]> (segm !!! k)]> segm)
      else false
  end.

Definition naos_is_legal_ipv4 (inetstr : option (list Z)) : bool :=
  match inetstr with
  | None => false
  | Some s => legal_loop s 0 0 0 (replicate 4 (replicate 4 0))
  end.

Inductive byte_order_t := kByteOrder_LittleEndian | kByteOrder_BigEndian | kByteOrder_Other.

(** The loop over the tokens, at most four of them. *)
Definition ipv4_digital (shifts : list Z) (s : list Z) : Z :=
  foldl (fun digital '(p, shift) => Z.lor digital (u64 (Z.shiftl (atoi p) shift))) 0
    (zip (take 4 (tokens [] s)) shifts).

(** [alloc]: whether ztrymalloc gives the copy. *)
Definition naos_ipv4tou (alloc : bool) (inetstr : option (list Z)) (method : byte_order_t) : Z :=
  match inetstr with
  | None => 0
  | Some s =>
      match method with
      | kByteOrder_Other => 0
      | _ =>
          if negb (naos_is_legal_ipv4 inetstr) then 0
          else if negb alloc then 0
          else u32 (ipv4_digital
                      (match method with kByteOrder_LittleEndian => [24; 16; 8; 0] | _ => [0; 8; 16; 24] end) s)
      end
  end.

(** ** Dumps *)
Definition hex_digit (n : Z) : Z := if n <? 10 then 48 + n else 55 + n.
Definition NEWLINE : Z := 10.

(** One turn of the loop: the display, the offset, the column and whether it
    breaks. *)
Definition dump_step (columns display_length b : Z) (display : list Z) (offset col : Z)
  : option (list Z * Z * Z * bool) :=
  '(display, offset, col, brk) ←
    (if col =? columns then
       '(display, written) ← snprintf display offset (display_length -u32 offset) [NEWLINE];
       if display_length -u32 offset <=? written then Some (display, offset, col, true)
       else Some (display, offset +u32 written, 0, false)
     else Some (display, offset, col, false));
  if (brk : bool) then Some (display, offset, col, true)
  else
    '(display, written) ← snprintf display offset (display_length -u32 offset)
                            [32; hex_digit (b / 16); hex_digit (b mod 16)];
    if display_length -u32 offset <=? written then Some (display, offset, col, true)
    else Some (display, offset +u32 written, col, false).

Fixpoint dump_loop (columns display_length : Z) (bs display : list Z) (offset col : Z)
  : option (list Z * Z) :=
  match bs with
  | [] => Some (display, offset)
  | b :: bs =>
      '(display, offset, col, brk) ← dump_step columns display_length b display offset col;
      if (brk : bool) then Some (display, offset)
      else dump_loop columns display_length bs display offset (u8 (col + 1))
  end.

(** What [on_dump] (or printf) is given: the text and its length; [Some None]
    is a return before.  [malloc n]: the block ztrymalloc gives, with its old
    content. *)
Definition naos_hexdump (malloc : Z -> option (list Z)) (buffer : option (list Z)) (length columns : Z)
  : option (option (list Z * Z)) :=
  match buffer with
  | None => Some None
  | Some bs =>
      if (length =? 0) || (8192 <=? length) then Some None
      else
        let columns := if (columns <? 2) || (32 <? columns) then 8 else columns in
        let display_length := length * 3 + length / columns + 8 in
        match malloc display_length with
        | None => Some None
        | Some display =>
            '(display, written) ← snprintf display 0 (display_length -u32 0) [NEWLINE];
            bs ← memread bs 0 length;
            Some <$> dump_loop columns display_length bs display (0 +u32 written) 0
        end
  end.

(** ** Command lines *)
Definition isspace (c : Z) : bool := (c =? 32) || ((9 <=? c) && (c <=? 13)).
Definition QUOTE : Z := 34.

(** The distance from a position to the first [c], if there is one before the
    NUL, and to the NUL; [None] when the block has no NUL. *)
Fixpoint strlen (l : list Z) : option Z :=
  match l with
  | [] => None
  | x :: l => if x =? 0 then Some 0 else option_map Z.succ (strlen l)
  end.
Fixpoint strchr (l : list Z) (c : Z) : option (option Z) :=
  match l with
  | [] => None
  | x :: l => if x =? c then Some (Some 0) else if x =? 0 then Some None
              else d ← strchr l c; Some (option_map Z.succ d)
  end.

(** The loop of [naos_cmdline_like_analyze]: positions are offsets from
    [cmdline]; [target = None] is NULL, and storing through it is undefined. *)
Fixpoint cmdline_loop (fuel : nat) (cmdline : list Z) (cursor count max : Z) (target : option (list Z))
  : option (Z * list Z * option (list Z)) :=
  if max <=? count then Some (count, cmdline, target)
  else
    match fuel with
    | O => None
    | S fuel =>
        c ← cmdline !! Z.to_nat cursor;
        if c =? 0 then Some (count, cmdline, target)
        else if isspace c then cmdline_loop fuel cmdline (cursor + 1) count max target
        else
          let start := if c =? QUOTE then cursor + 1 else cursor in
          e ← strchr (drop (Z.to_nat start) cmdline) (if c =? QUOTE then QUOTE else 32);
          match e with
          | None =>
              if c =? QUOTE then Some (-1, cmdline, target)
              else
                n ← strlen (drop (Z.to_nat start) cmdline);
                cmdline ← memcpy_at cmdline (start + n) [0];
                t ← target; t ← memcpy_at t count [start];
                cmdline_loop fuel cmdline (start + n + 1) (count + 1) max (Some t)
          | Some d =>
              cmdline ← memcpy_at cmdline (start + d) [0];
              t ← target; t ← memcpy_at t count [start];
              cmdline_loop fuel cmdline (start + d + 1) (count + 1) max (Some t)
          end
    end.

Definition naos_cmdline_like_analyze (cmdline : option (list Z)) (target : option (list Z)) (max : Z)
  : option (Z * option (list Z) * option (list Z)) :=
  match cmdline with
  | None => Some (-1, None, target)
  | Some line =>
      if bool_decide (is_Some target) || (max <=? 0) then Some (-1, cmdline, target)
      else '(n, line, target) ← cmdline_loop (length line + 1) line 0 0 max target;
           Some (n, Some line, target)
  end.

(** ** Byte order *)
(** The bytes of a word, the low one first, and back. *)
Definition le4 (x : Z) : list Z := [x mod 256; x / 256 mod 256; x / 65536 mod 256; x / 16777216 mod 256].
Definition word4 (l : list Z) : Z := foldr (fun b x => b + 256 * x) 0 l.

Lemma byte_field x i : 0 <= i -> Z.land (Z.shiftr x (i * BITS_P_BYTE)) 0xFF = x / 2 ^ (i * 8) mod 256.
Proof.
  intros Hi. unfold BITS_P_BYTE. change 0xFF with (2 ^ 8 - 1).
  by rewrite land_mask, Z.shiftr_div_pow2 by lia.
Qed.

Lemma chord32_bytes x : 0 <= x < 2 ^ 32 -> naos_chord32 x = word4 (rev (le4 x)).
Proof.
  intros Hx. unfold naos_chord32, le4. cbn [foldl rev app word4 foldr].
  rewrite !byte_field by done. cbn [Z.ltb Z.compare Pos.compare Pos.compare_cont].
  change (2 ^ (0 * 8)) with 1. change (2 ^ (1 * 8)) with 256.
  change (2 ^ (2 * 8)) with 65536. change (2 ^ (3 * 8)) with 16777216. rewrite Z.div_1_r.
  assert (forall a b, 0 <= b < 256 -> 0 <= a < 16777216 -> Z.lor (u32 (Z.shiftl a BITS_P_BYTE)) b = a * 256 + b) as Hs.
  { intros a b Hb Ha. unfold BITS_P_BYTE. rewrite Z.shiftl_mul_pow2, wrap_small by (pow2; lia).
    by apply (lor_fields 8). }
  rewrite Z.lor_0_l. pow2.
  rewrite (Hs (x mod 256)) by zdiv. rewrite (Hs (x mod 256 * 256 + _)) by zdiv.
  rewrite (Hs (_ * 256 + _)) by zdiv. rewrite Z.shiftl_0_r, wrap_small by (pow2; zdiv). lia.
Qed.

Lemma word4_le4 x : 0 <= x < 2 ^ 32 -> word4 (le4 x) = x.
Proof. intros Hx. unfold word4, le4. cbn [foldr]. pow2. zdiv. Qed.

Lemma le4_word4 b0 b1 b2 b3 :
  byte b0 -> byte b1 -> byte b2 -> byte b3 -> le4 (word4 [b0; b1; b2; b3]) = [b0; b1; b2; b3].
Proof.
  unfold byte, word4, le4. cbn [foldr]. intros.
  f_equal; [zdiv | f_equal; [zdiv | f_equal; [zdiv | f_equal; zdiv]]].
Qed.

Lemma chord32_le4 x : 0 <= x < 2 ^ 32 -> le4 (naos_chord32 x) = rev (le4 x).
Proof.
  intros Hx. rewrite chord32_bytes by done. unfold le4 at 2 3. cbn [rev app].
  apply le4_word4; unfold byte; zdiv.
Qed.

Lemma chord32_range x : 0 <= x < 2 ^ 32 -> 0 <= naos_chord32 x < 2 ^ 32.
Proof.
  intros Hx. rewrite chord32_bytes by done. unfold le4, word4. cbn [rev app foldr]. pow2. zdiv.
Qed.

Lemma chord16_value x : 0 <= x < 2 ^ 16 -> naos_chord16 x = x mod 256 * 256 + x / 256.
Proof.
  intros Hx. unfold naos_chord16. cbn [foldl]. rewrite !byte_field by done.
  cbn [Z.ltb Z.compare Pos.compare Pos.compare_cont].
  change (2 ^ (0 * 8)) with 1. change (2 ^ (1 * 8)) with 256.
  rewrite Z.div_1_r, Z.lor_0_l, Z.shiftl_0_r. unfold BITS_P_BYTE. pow2.
  rewrite Z.shiftl_mul_pow2, (wrap_small 16 (x mod 256 * _)) by (done || pow2; zdiv).
  rewrite (lor_fields 8) by (done || zdiv). change (2 ^ 8) with 256.
  rewrite wrap_small by (pow2; zdiv). zdiv.
Qed.

(** [naos_chord32] and [naos_chord16] reverse the bytes of their argument,
    as htonl and htons do on a little-endian machine, and undo themselves. *)
Theorem naos_chord_correct x y :
  0 <= x < 2 ^ 32 -> 0 <= y < 2 ^ 16 ->
  le4 (naos_chord32 x) = rev (le4 x) /\ naos_chord32 (naos_chord32 x) = x /\
  naos_chord16 y = y mod 256 * 256 + y / 256 /\ naos_chord16 (naos_chord16 y) = y.
Proof.
  intros Hx Hy. split; [by apply chord32_le4 |]. split; [|split; [by apply chord16_value |]].
  - rewrite chord32_bytes by (by apply chord32_range). rewrite chord32_le4 by done.
    rewrite rev_involutive. by apply word4_le4.
  - pow2. rewrite (chord16_value y), chord16_value by (pow2; zdiv). zdiv.
Qed.

(** ** Addresses *)
Lemma print_byte_value n : byte n ->
  atoi (print_byte n) = n /\ Forall (fun c => is_digit c = true) (print_byte n) /\
  (1 <= length (print_byte n) <= 3)%nat.
Proof.
  intros Hn. pose proof (below_spec 256 (fun n => (atoi (print_byte n) =? n) &&
    (forallb is_digit (print_byte n) && ((1 <=? length (print_byte n))%nat && (length (print_byte n) <=? 3)%nat)))
    ltac:(vm_compute; reflexivity) n Hn) as Hc.
  cbv beta in Hc. rewrite !andb_true_iff, Z.eqb_eq, forallb_forall, !Nat.leb_le in Hc.
  destruct Hc as (? & Hd & ?). split; [done |]. split; [|done].
  apply Forall_forall. intros c Hc. by apply Hd, list_elem_of_In.
Qed.

(** Dotted-decimal notation *)
Definition dotted (s0 s1 s2 s3 : list Z) : list Z := s0 ++ DOT :: s1 ++ DOT :: s2 ++ DOT :: s3.
Definition dotted_of (inet : Z) : list Z :=
  dotted (print_byte (inet / 16777216 mod 256)) (print_byte (inet / 65536 mod 256))
    (print_byte (inet / 256 mod 256)) (print_byte (inet mod 256)).

(** A segment as the check wants it: at most three digits, at most 255. *)
Definition segment (s : list Z) : Prop :=
  Forall (fun c => is_digit c = true) s /\ (length s <= 3)%nat /\ atoi s <= 255.

Lemma digit_not_dot c : is_digit c = true -> (c =? DOT) = false /\ (c =? 0) = false.
Proof. unfold is_digit, DOT. intros [? ?]%andb_true_iff. lia. Qed.

Lemma digits_cstring s n : Forall (fun c => is_digit c = true) s -> cstring (s ++ replicate (S n) 0) = s.
Proof.
  intros Hs. cbn [replicate]. apply cstring_app. eapply Forall_impl; [exact Hs |].
  intros c Hc%digit_not_dot. lia.
Qed.

(** The segments between the dots. *)
Fixpoint split_dots (l : list Z) : list (list Z) :=
  match l with
  | [] => [[]]
  | c :: l =>
      if c =? DOT then [] :: split_dots l
      else match split_dots l with [] => [[c]] | s :: ss => (c :: s) :: ss end
  end.

Lemma split_dots_cons l : exists s ss, split_dots l = s :: ss.
Proof. destruct l as [|c l]; cbn [split_dots]; repeat case_match; eauto. Qed.

(** [cur] has been read of the current segment. *)
Definition prepend (cur : list Z) (ss : list (list Z)) : list (list Z) :=
  match ss with [] => [cur] | s :: ss => (cur ++ s) :: ss end.

Definition legal_segments (n : nat) (ss : list (list Z)) : Prop :=
  length ss = n /\ Forall segment ss /\ last ss <> Some [].

Lemma digits_value_mono l : forall acc, 0 <= acc -> acc <= digits_value acc l.
Proof.
  induction l as [|c l IH]; intros acc Ha; cbn [digits_value]; [lia |].
  destruct (is_digit c) eqn:Hc; [|lia]. unfold is_digit in Hc.
  apply andb_true_iff in Hc as [? ?]. specialize (IH (acc * 10 + (c - 48))). lia.
Qed.

Lemma segment_prefix cur s : segment (cur ++ s) -> segment cur.
Proof.
  intros (Hd & Hl & Hv). apply Forall_app in Hd as [Hd Hs]. rewrite length_app in Hl.
  split; [done |]. split; [lia |].
  assert (forall acc, digits_value acc (cur ++ s) = digits_value (digits_value acc cur) s) as Happ.
  { clear - Hd. induction cur as [|c cur IH]; intros acc; [done |]. apply Forall_cons in Hd as [Hc Hd].
    cbn [app digits_value]. rewrite Hc. by apply IH. }
  unfold atoi in *. rewrite Happ in Hv. pose proof (digits_value_mono s (digits_value 0 cur)).
  pose proof (digits_value_mono cur 0). lia.
Qed.

(** What the loop holds on to: [cur] are the digits stored in [segm[k]]. *)
Record loop_ok (i : Z) (k : nat) (segm : list (list Z)) (cur : list Z) : Prop := {
  lo_k : (k <= 3)%nat;
  lo_segm : length segm = 4%nat;
  lo_len : (length cur <= 3)%nat;
  lo_digits : Forall (fun c => is_digit c = true) cur;
  lo_i : i <= Z.of_nat (4 * k + length cur);
  lo_cur : segm !!! k = cur ++ replicate (4 - length cur) 0;
  lo_free k' : (k < k' < 4)%nat -> segm !!! k' = replicate 4 0;
}.

Lemma loop_ok_init : loop_ok 0 0 (replicate 4 (replicate 4 0)) [].
Proof.
  split; cbn; try done || lia. intros [|[|[|[|k']]]] Hk; done || lia.
Qed.

Lemma loop_ok_text i k segm cur : loop_ok i k segm cur -> cstring (segm !!! k) = cur.
Proof.
  intros Hl. rewrite (lo_cur _ _ _ _ Hl). pose proof (lo_len _ _ _ _ Hl).
  replace (4 - length cur)%nat with (S (3 - length cur)) by lia. apply digits_cstring, Hl.
Qed.

Lemma loop_ok_dot i k segm cur : loop_ok i k segm cur -> (k < 3)%nat -> loop_ok (i + 1) (S k) segm [].
Proof.
  intros [Hk Hs Hl Hd Hi Hc Hf] Hlt. split; cbn [length app]; try done || lia.
  - apply Hf. lia.
  - intros k' Hk'. apply Hf. lia.
Qed.

Lemma loop_ok_digit i k segm cur c :
  loop_ok i k segm cur -> is_digit c = true -> (length cur < 3)%nat ->
  loop_ok (i + 1) k (<[k := <[length cur := c]> (segm !!! k)]> segm) (cur ++ [c]).
Proof.
  intros [Hk Hs Hl Hd Hi Hc Hf] Hdig Hlt. split; rewrite ?length_app, ?length_insert; cbn [length]; try done || lia.
  - apply Forall_app. by rewrite Forall_singleton.
  - rewrite list_lookup_total_insert_eq, Hc, insert_app_r_alt, Nat.sub_diag by lia.
    rewrite <- app_assoc. f_equal. replace (4 - length cur)%nat with (S (4 - (length cur + 1))) by lia. done.
  - intros k' Hk'. rewrite list_lookup_total_insert_ne by lia. by apply Hf.
Qed.

(** The segments still to come, case by case. *)
Lemma legal_segments_end n cur :
  Forall (fun c => is_digit c = true) cur -> (length cur <= 3)%nat ->
  legal_segments n [cur] <-> n = 1%nat /\ cur <> [] /\ atoi cur <= 255.
Proof.
  intros Hd Hl. unfold legal_segments, segment. rewrite Forall_singleton. cbn [length last].
  split; [intros (? & (_ & _ & ?) & Hn) | intros (? & ? & ?)]; split_and!; try done; congruence.
Qed.

Lemma legal_segments_dot n cur ss :
  Forall (fun c => is_digit c = true) cur -> (length cur <= 3)%nat -> ss <> [] ->
  legal_segments (S n) (cur :: ss) <-> atoi cur <= 255 /\ legal_segments n ss.
Proof.
  intros Hd Hl Hss. unfold legal_segments. rewrite Forall_cons. unfold segment at 1. cbn [length].
  assert (last (cur :: ss) = last ss) as -> by (by destruct ss). split; intros; destruct_and!; split_and!; done || lia.
Qed.

(** Too long a segment is not legal. *)
Lemma legal_segments_long n cur c l :
  legal_segments n (prepend cur (split_dots (c :: l))) -> (c =? DOT) = false ->
  is_digit c = true /\ (length cur < 3)%nat.
Proof.
  cbn [split_dots]. intros (_ & Hs & _) Hc. rewrite Hc in Hs.
  destruct (split_dots_cons l) as (s & ss & E). rewrite E in Hs. cbn [prepend] in Hs.
  apply Forall_cons in Hs as [(Hd & Hl & _) _]. apply Forall_app in Hd as [_ [Hd _]%Forall_cons].
  rewrite length_app in Hl. cbn in Hl. split; [done | lia].
Qed.

Lemma prepend_digit cur c l :
  (c =? DOT) = false -> prepend cur (split_dots (c :: l)) = prepend (cur ++ [c]) (split_dots l).
Proof.
  intros Hc. cbn [split_dots]. rewrite Hc. destruct (split_dots_cons l) as (s & ss & ->).
  cbn [prepend]. by rewrite <- app_assoc.
Qed.

Lemma legal_loop_spec cursor : forall i k segm cur,
  loop_ok i k segm cur ->
  legal_loop cursor i (length cur) k segm = true <->
  legal_segments (4 - k) (prepend cur (split_dots cursor)).
Proof.
  induction cursor as [|c cursor IH]; intros i k segm cur Hlo; pose proof Hlo as [Hk _ Hl Hd Hi _ _];
    cbn [legal_loop]; rewrite (loop_ok_text _ _ _ _ Hlo); unfold MAX_UINT8.
  - cbn [split_dots prepend]. rewrite app_nil_r, legal_segments_end by done.
    destruct cur; cbn [length]; [rewrite orb_true_r; split; [done | tauto] |].
    destruct (Z.eqb_spec 3 (Z.of_nat k)); cbn [negb orb]; [|split; [done | lia]].
    change (0 =? Z.of_nat (S (length cur))) with false. cbn match.
    rewrite negb_true_iff, Z.ltb_ge. split; [|tauto]. intros. split_and!; [lia | done | done].
  - destruct (split_dots_cons cursor) as (s & ss & E).
    assert (split_dots cursor <> []) as Hne by (by rewrite E).
    rewrite (proj2 (Z.ltb_ge 3 _)) by lia. rewrite orb_false_r.
    destruct (c =? DOT) eqn:Hc.
    + cbn [split_dots]. rewrite Hc. cbn [prepend]. rewrite app_nil_r.
      replace (4 - k)%nat with (S (3 - k)) by lia. rewrite legal_segments_dot by done.
      assert (legal_segments 0 (split_dots cursor) -> False) as H0 by (intros (H0 & _); by rewrite E in H0).
      destruct (Z.eqb_spec (INET_ADDRSTRLEN - 1) i) as [Hx|_].
      { unfold INET_ADDRSTRLEN in Hx. replace (3 - k)%nat with 0%nat by lia. split; [done | tauto]. }
      rewrite orb_false_l. destruct (Z.ltb_spec 255 (atoi cur)); [split; [done | lia] |].
      destruct (decide (k = 3%nat)) as [->|Hk3].
      * split; [|tauto]. destruct cursor; [done |]. cbn [legal_loop]. by rewrite orb_true_r.
      * rewrite (IH (i + 1) (S k) segm [] ltac:(apply (loop_ok_dot i k segm cur Hlo); lia)).
        rewrite E. cbn [prepend app]. tauto.
    + fold (is_digit c). destruct (is_digit c && (length cur <? 3)%nat) eqn:Hg.
      * apply andb_true_iff in Hg as [Hdig Hlt%Nat.ltb_lt]. rewrite Hdig.
        rewrite (proj2 (Z.eqb_neq _ i)), (proj2 (Z.leb_gt 3 _)) by (unfold INET_ADDRSTRLEN; lia).
        rewrite prepend_digit by done.
        replace (S (length cur)) with (length (cur ++ [c])) by (rewrite length_app; simpl; lia).
        by apply IH, loop_ok_digit.
      * split; [|intros Hls; destruct (legal_segments_long _ _ _ _ Hls Hc) as [Hdig Hlt%Nat.ltb_lt];
                 by rewrite Hdig, Hlt in Hg].
        destruct (_ =? i); [done |]. destruct (is_digit c); [|done].
        cbn [andb] in Hg. apply Nat.ltb_ge in Hg. by rewrite (proj2 (Z.leb_le 3 _)) by lia.
Qed.

(** [naos_is_legal_ipv4] accepts exactly the texts of four segments between
    dots, each of at most three digits and of a value up to 255, the last one
    not empty; the other three may be empty. *)
Theorem naos_is_legal_ipv4_spec s :
  naos_is_legal_ipv4 (Some s) = true <->
  length (split_dots s) = 4%nat /\ Forall segment (split_dots s) /\ last (split_dots s) <> Some [].
Proof.
  unfold naos_is_legal_ipv4. rewrite (legal_loop_spec s 0 0 _ [] loop_ok_init).
  destruct (split_dots_cons s) as (x & xs & ->). done.
Qed.

(** Tokens are the segments that are not empty. *)
Lemma tokens_split l : forall tok,
  tokens tok l = filter (fun t => t <> []) (prepend tok (split_dots l)).
Proof.
  induction l as [|c l IH]; intros tok; cbn [tokens split_dots prepend].
  - rewrite app_nil_r. rewrite filter_cons. by destruct tok.
  - destruct (c =? DOT).
    + cbn [prepend]. rewrite app_nil_r, filter_cons. destruct (split_dots_cons l) as (s & ss & E).
      destruct tok as [|t tok]; rewrite IH, E; done.
    + rewrite IH. destruct (split_dots_cons l) as (s & ss & ->). cbn [prepend]. by rewrite <- app_assoc.
Qed.

Lemma split_dots_app s l :
  Forall (fun c => is_digit c = true) s -> split_dots (s ++ DOT :: l) = s :: split_dots l.
Proof.
  induction s as [|c s IH]; intros Hs; [done |]. apply Forall_cons in Hs as [[Hc _]%digit_not_dot Hs].
  cbn [app split_dots]. rewrite Hc. by rewrite IH.
Qed.

Lemma split_dots_digits s : Forall (fun c => is_digit c = true) s -> split_dots s = [s].
Proof.
  induction s as [|c s IH]; intros Hs; [done |]. apply Forall_cons in Hs as [[Hc _]%digit_not_dot Hs].
  cbn [split_dots]. rewrite Hc. by rewrite IH.
Qed.

Lemma split_dotted s0 s1 s2 s3 :
  Forall (Forall (fun c => is_digit c = true)) [s0; s1; s2; s3] ->
  split_dots (dotted s0 s1 s2 s3) = [s0; s1; s2; s3].
Proof.
  intros [H0 [H1 [H2 [H3 _]%Forall_cons]%Forall_cons]%Forall_cons]%Forall_cons.
  unfold dotted. by rewrite !split_dots_app, split_dots_digits.
Qed.

(** Reading four segments that are not empty. *)
Lemma tou_dotted method s0 s1 s2 s3 :
  Forall segment [s0; s1; s2; s3] -> Forall (fun s => s <> []) [s0; s1; s2; s3] ->
  naos_ipv4tou true (Some (dotted s0 s1 s2 s3)) method
  = match method with
    | kByteOrder_LittleEndian => word4 [atoi s3; atoi s2; atoi s1; atoi s0]
    | kByteOrder_BigEndian => word4 [atoi s0; atoi s1; atoi s2; atoi s3]
    | kByteOrder_Other => 0
    end.
Proof.
  intros Hs Hn.
  assert (Forall (Forall (fun c => is_digit c = true)) [s0; s1; s2; s3]) as Hd
    by (eapply Forall_impl; [exact Hs | by intros s (? & _)]).
  pose proof (split_dotted _ _ _ _ Hd) as Esp.
  assert (naos_is_legal_ipv4 (Some (dotted s0 s1 s2 s3)) = true) as Hleg.
  { apply naos_is_legal_ipv4_spec. rewrite Esp. split_and!; [done | done |]. cbn [last].
    intros [= ->]. by apply Forall_cons in Hn as [_ [_ [_ [? _]%Forall_cons]%Forall_cons]%Forall_cons]. }
  assert (tokens [] (dotted s0 s1 s2 s3) = [s0; s1; s2; s3]) as Et.
  { rewrite tokens_split, Esp. cbn [prepend app]. apply filter_all. by apply Forall_forall. }
  assert (forall s, segment s -> 0 <= atoi s <= 255) as Hr.
  { intros s (_ & _ & ?). pose proof (digits_value_mono s 0). unfold atoi in *. lia. }
  unfold naos_ipv4tou. rewrite Hleg. unfold ipv4_digital. rewrite Et. cbn [negb].
  apply Forall_cons in Hs as [H0%Hr [H1%Hr [H2%Hr [H3%Hr _]%Forall_cons]%Forall_cons]%Forall_cons].
  assert (forall x k, 0 <= x <= 255 -> 0 <= k <= 24 -> u64 (Z.shiftl x k) = x * 2 ^ k) as Hsh.
  { intros x k Hx Hk. rewrite Z.shiftl_mul_pow2 by lia. apply wrap_small.
    assert (x * 2 ^ k <= 255 * 2 ^ 24) by (apply Z.mul_le_mono_nonneg; [lia | lia | apply Z.pow_nonneg; lia | apply Z.pow_le_mono_r; lia]).
    assert (0 <= x * 2 ^ k) by (apply Z.mul_nonneg_nonneg; [lia | apply Z.pow_nonneg; lia]). pow2. lia. }
  destruct method; [| |done]; cbn [take zip zip_with foldl word4 foldr];
    revert H0 H1 H2 H3; generalize (atoi s0) (atoi s1) (atoi s2) (atoi s3); intros a b c d H0 H1 H2 H3;
    rewrite !Hsh, Z.lor_0_l by lia.
  - rewrite (lor_fields 24 a (b * 2 ^ 16)) by lia.
    replace (a * 2 ^ 24 + b * 2 ^ 16) with ((a * 256 + b) * 2 ^ 16) by lia.
    rewrite (lor_fields 16 _ (c * 2 ^ 8)) by lia.
    replace ((a * 256 + b) * 2 ^ 16 + c * 2 ^ 8) with ((a * 65536 + b * 256 + c) * 2 ^ 8) by lia.
    rewrite (lor_fields 8 _ (d * 2 ^ 0)) by lia. rewrite wrap_small by lia. lia.
  - rewrite (Z.lor_comm _ (b * 2 ^ 8)), (lor_fields 8 b) by lia.
    rewrite (Z.lor_comm _ (c * 2 ^ 16)), (lor_fields 16 c) by lia.
    rewrite (Z.lor_comm _ (d * 2 ^ 24)), (lor_fields 24 d) by lia. rewrite wrap_small by lia. lia.
Qed.

(** What fits: [abuff_sprintf] gives the 16-byte buffer's size less one to
    snprintf, which keeps one more for the NUL. *)
Lemma ipv4tos_text inet st :
  0 <= inet < 2 ^ 32 -> length st = 16%nat ->
  exists st', naos_ipv4tos inet (Some st) = Some (NSP_STATUS_SUCCESSFUL, Some st') /\
    cstring st' = take 14 (dotted_of inet).
Proof.
  intros Hi Hl. unfold naos_ipv4tos.
  assert (forall i, 0 <= i -> Z.land (Z.shiftr inet (8 * i)) 0xFF = inet / 2 ^ (8 * i) mod 256) as Hf.
  { intros i Hi0. change 0xFF with (2 ^ 8 - 1). by rewrite land_mask, Z.shiftr_div_pow2 by lia. }
  rewrite !Hf by done. clear Hf.
  change (2 ^ (8 * 3)) with 16777216. change (2 ^ (8 * 2)) with 65536. change (2 ^ (8 * 1)) with 256.
  change (2 ^ (8 * 0)) with 1. rewrite Z.div_1_r.
  change (print_byte (inet / 16777216 mod 256) ++ _) with (dotted_of inet).
  unfold snprintf. change (16 - 1 <=? 0) with false. cbn match.
  change (Z.to_nat (16 - 1 - 1)) with 14%nat. set (t := take 14 (dotted_of inet)).
  assert (length t <= 14)%nat as Ht by (subst t; rewrite length_take; lia).
  unfold memcpy_at. rewrite (proj2 (Z.leb_le _ (zlen st)))
    by (unfold zlen; rewrite length_app; cbn [length]; lia).
  cbn [andb Z.leb Z.compare mbind option_bind]. eexists. split; [reflexivity |].
  cbn [Z.to_nat take]. rewrite take_0. cbn [app]. rewrite <- app_assoc. apply cstring_app.
  subst t. apply Forall_take. unfold dotted_of, dotted, DOT.
  assert (forall n, byte (n mod 256)) as Hb by (intros n; by apply Z.mod_pos_bound).
  assert (forall n, byte n -> Forall (fun c => c <> 0) (print_byte n)) as Hp.
  { intros n Hn. destruct (print_byte_value n Hn) as (_ & Hd & _). eapply Forall_impl; [exact Hd |].
    intros c [_ Hc]%digit_not_dot. by apply Z.eqb_neq. }
  repeat (apply Forall_app; split; [by apply Hp |]; apply Forall_cons; split; [done |]). by apply Hp.
Qed.

(** The printed bytes are segments. *)
Lemma print_byte_segment n : byte n -> segment (print_byte n) /\ print_byte n <> [].
Proof.
  intros Hn. destruct (print_byte_value n Hn) as (Hv & Hd & Hl). unfold byte in Hn. split.
  - split_and!; [done | lia | lia].
  - intros E. rewrite E in Hl. cbn in Hl. lia.
Qed.

Lemma dotted_bytes_read method a b c d :
  byte a -> byte b -> byte c -> byte d ->
  naos_ipv4tou true (Some (dotted (print_byte a) (print_byte b) (print_byte c) (print_byte d))) method
  = match method with
    | kByteOrder_LittleEndian => word4 [d; c; b; a]
    | kByteOrder_BigEndian => word4 [a; b; c; d]
    | kByteOrder_Other => 0
    end.
Proof.
  intros Ha Hb Hc Hd.
  rewrite tou_dotted by (repeat (apply Forall_cons; split; [by apply print_byte_segment |]); by constructor).
  by rewrite (proj1 (print_byte_value a Ha)), (proj1 (print_byte_value b Hb)),
    (proj1 (print_byte_value c Hc)), (proj1 (print_byte_value d Hd)).
Qed.

(** A three-digit byte without its last digit. *)
Lemma print_byte_cut n :
  byte n -> length (print_byte n) = 3%nat -> take 2 (print_byte n) = print_byte (n / 10) /\ byte (n / 10).
Proof.
  intros Hn Hl. split; [|unfold byte in *; zdiv]. revert Hl. unfold byte in Hn. unfold print_byte.
  destruct (Z.ltb_spec n 10); [done |]. destruct (Z.ltb_spec n 100); [done |]. intros _.
  rewrite (proj2 (Z.ltb_ge (n / 10) 10)), (proj2 (Z.ltb_lt (n / 10) 100)) by zdiv.
  cbn [take]. f_equal. zdiv.
Qed.

Lemma dotted_of_reads inet method :
  0 <= inet < 2 ^ 32 ->
  naos_ipv4tou true (Some (dotted_of inet)) method
  = match method with
    | kByteOrder_LittleEndian => inet
    | kByteOrder_BigEndian => naos_chord32 inet
    | kByteOrder_Other => 0
    end.
Proof.
  intros Hi. unfold dotted_of.
  rewrite dotted_bytes_read by (by apply Z.mod_pos_bound).
  destruct method; [| |done].
  - by apply word4_le4.
  - by rewrite chord32_bytes.
Qed.

(** An address whose text has at most 14 characters comes back from its text,
    in host order with [kByteOrder_LittleEndian] and with its bytes reversed with
    [kByteOrder_BigEndian]; the text of an address with four three-digit bytes
    is one longer and loses its last digit. *)
Theorem naos_ipv4_roundtrip inet st :
  0 <= inet < 2 ^ 32 -> length st = 16%nat ->
  exists st', naos_ipv4tos inet (Some st) = Some (NSP_STATUS_SUCCESSFUL, Some st') /\
    (zlen (dotted_of inet) <= 14 ->
       naos_ipv4tou true (Some (cstring st')) kByteOrder_LittleEndian = inet /\
       naos_ipv4tou true (Some (cstring st')) kByteOrder_BigEndian = naos_chord32 inet) /\
    (zlen (dotted_of inet) = 15 ->
       naos_ipv4tou true (Some (cstring st')) kByteOrder_LittleEndian
       = inet - inet mod 256 + inet mod 256 / 10).
Proof.
  intros Hi Hl. destruct (ipv4tos_text inet st Hi Hl) as (st' & E & Ht). exists st'. split; [done |].
  rewrite Ht. split.
  - intros Hle. rewrite take_ge by (unfold zlen in Hle; lia). by rewrite !dotted_of_reads.
  - intros E15. unfold dotted_of in *. set (a := inet / 16777216 mod 256) in *.
    set (b := inet / 65536 mod 256) in *. set (c := inet / 256 mod 256) in *. set (d := inet mod 256) in *.
    assert (byte a /\ byte b /\ byte c /\ byte d) as (Ha & Hb & Hc & Hd)
      by (split_and!; by apply Z.mod_pos_bound).
    assert (word4 [d; c; b; a] = inet) as Hw by (by apply (word4_le4 inet)).
    destruct (print_byte_value a Ha) as (_ & _ & La), (print_byte_value b Hb) as (_ & _ & Lb),
      (print_byte_value c Hc) as (_ & _ & Lc), (print_byte_value d Hd) as (_ & _ & Ld).
    assert (length (print_byte a) = 3%nat /\ length (print_byte b) = 3%nat /\
      length (print_byte c) = 3%nat /\ length (print_byte d) = 3%nat) as (Ea & Eb & Ec & Ed).
    { unfold dotted, zlen in E15. do 3 rewrite length_app, length_cons in E15. lia. }
    destruct (print_byte_cut d Hd Ed) as [Hcut Hd10].
    assert (take 14 (dotted (print_byte a) (print_byte b) (print_byte c) (print_byte d))
      = dotted (print_byte a) (print_byte b) (print_byte c) (print_byte (d / 10))) as ->.
    { unfold dotted. rewrite <- Hcut, !take_app, Ea. cbn [Nat.sub take]. rewrite !take_app, Eb.
      cbn [Nat.sub take]. rewrite !take_app, Ec. cbn [Nat.sub take].
      by rewrite (take_ge (print_byte a)), (take_ge (print_byte b)), (take_ge (print_byte c)) by lia. }
    rewrite dotted_bytes_read by done. rewrite <- Hw at 1. unfold word4. cbn [foldr]. lia.
Qed.

(** ** Dumps *)
Fixpoint hex_rows (columns col : Z) (bs : list Z) : list Z :=
  match bs with
  | [] => []
  | b :: bs =>
      if col =? columns
      then NEWLINE :: 32 :: hex_digit (b / 16) :: hex_digit (b mod 16) :: hex_rows columns 1 bs
      else 32 :: hex_digit (b / 16) :: hex_digit (b mod 16) :: hex_rows columns (col + 1) bs
  end.

(** Rows of [columns] bytes, each byte as a space and two hexadecimal digits. *)
Definition hexdump_text (columns : Z) (bs : list Z) : list Z := NEWLINE :: hex_rows columns 0 bs.

Lemma hex_rows_len columns bs : forall col,
  0 < columns -> 0 <= col <= columns ->
  zlen (hex_rows columns col bs)
  <= 3 * zlen bs + match bs with [] => 0 | _ => (col + zlen bs - 1) / columns end.
Proof.
  induction bs as [|b bs IH]; intros col Hc Hcol; [done |]. cbn [hex_rows].
  rewrite (zlen_cons b). pose proof (zlen_nonneg bs).
  assert (forall x, 1 <= x <= columns -> zlen (hex_rows columns x bs) <= 3 * zlen bs + (x + zlen bs - 1) / columns) as IH'.
  { intros x Hx. specialize (IH x Hc ltac:(lia)). destruct bs; [|done].
    assert (0 <= (x + zlen ([] : list Z) - 1) / columns) by (apply Z.div_pos; [change (zlen []) with 0|]; lia). lia. }
  destruct (Z.eqb_spec col columns) as [->|Hn]; rewrite !zlen_cons.
  - specialize (IH' 1 ltac:(lia)). replace (columns + (1 + zlen bs) - 1) with (1 + zlen bs - 1 + 1 * columns) by lia.
    rewrite Z.div_add by lia. lia.
  - specialize (IH' (col + 1) ltac:(lia)). replace (col + (1 + zlen bs) - 1) with (col + 1 + zlen bs - 1) by lia. lia.
Qed.

Lemma snprintf_fits pre post size text :
  0 < size -> zlen text < size -> zlen text < zlen post ->
  exists post', snprintf (pre ++ post) (zlen pre) size text = Some (pre ++ text ++ 0 :: post', zlen text) /\
    zlen post = zlen text + 1 + zlen post'.
Proof.
  intros Hs Ht Hp. unfold snprintf. rewrite (proj2 (Z.leb_gt _ _)) by done.
  rewrite take_ge by (unfold zlen in *; lia).
  destruct (split_at_len post (length (text ++ [0]))) as (mid & post' & -> & Hm).
  { rewrite length_app. unfold zlen in *. simpl. lia. }
  rewrite memcpy_at_app by done. exists post'. cbn [mbind option_bind]. rewrite <- app_assoc.
  split; [done |]. rewrite zlen_app. unfold zlen in *. rewrite Hm, length_app. simpl. lia.
Qed.

(** Appending a text that fits behind what is displayed. *)
Lemma append_fits dl pre post text :
  zlen (pre ++ 0 :: post) = dl -> dl < 2 ^ 31 -> zlen pre + zlen text < dl ->
  exists post',
    snprintf (pre ++ 0 :: post) (zlen pre) (dl -u32 zlen pre) text
      = Some ((pre ++ text) ++ 0 :: post', zlen text) /\
    (dl -u32 zlen pre <=? zlen text) = false /\ zlen pre +u32 zlen text = zlen (pre ++ text) /\
    zlen ((pre ++ text) ++ 0 :: post') = dl.
Proof.
  intros Hdl Hmax Hfit. pose proof (zlen_nonneg pre). pose proof (zlen_nonneg text). pow2.
  assert (dl -u32 zlen pre = dl - zlen pre) as -> by (apply wrap_small; pow2; lia).
  rewrite zlen_app in Hdl.
  destruct (snprintf_fits pre (0 :: post) (dl - zlen pre) text) as (post' & E & Hp); [lia .. |].
  exists post'. rewrite E, <- app_assoc. split; [done |]. split; [apply Z.leb_gt; lia |]. split.
  - rewrite zlen_app. apply wrap_small. pow2. lia.
  - rewrite !zlen_app, zlen_cons in *. lia.
Qed.

Definition row_text (columns col b : Z) : list Z :=
  (if col =? columns then [NEWLINE] else []) ++ [32; hex_digit (b / 16); hex_digit (b mod 16)].

Lemma dump_step_spec columns dl b pre post col :
  zlen (pre ++ 0 :: post) = dl -> dl < 2 ^ 31 -> zlen pre + zlen (row_text columns col b) < dl ->
  exists post',
    dump_step columns dl b (pre ++ 0 :: post) (zlen pre) col
      = Some ((pre ++ row_text columns col b) ++ 0 :: post', zlen (pre ++ row_text columns col b),
              if col =? columns then 0 else col, false) /\
    zlen ((pre ++ row_text columns col b) ++ 0 :: post') = dl.
Proof.
  intros Hdl Hmax Hfit. unfold dump_step, row_text in *. set (hex := [32; _; _]) in *.
  destruct (col =? columns); cbn [app] in *.
  - destruct (append_fits dl pre post [NEWLINE] Hdl Hmax) as (post1 & -> & E1 & E2 & Hdl1).
    { rewrite (zlen_cons NEWLINE) in Hfit. pose proof (zlen_nonneg hex). change (zlen [NEWLINE]) with 1. lia. }
    change (zlen [NEWLINE]) with 1 in *. cbn [mbind option_bind]. rewrite E1, E2. cbn [mbind option_bind].
    destruct (append_fits dl (pre ++ [NEWLINE]) post1 hex Hdl1 Hmax) as (post2 & -> & E3 & E4 & Hdl2).
    { rewrite zlen_app. rewrite (zlen_cons NEWLINE hex) in Hfit. change (zlen [NEWLINE]) with 1. lia. }
    cbn [mbind option_bind]. rewrite E3, E4. exists post2. rewrite <- (app_assoc pre) in *. by split.
  - cbn [mbind option_bind].
    destruct (append_fits dl pre post hex Hdl Hmax Hfit) as (post1 & -> & E1 & E2 & Hdl1).
    cbn [mbind option_bind]. rewrite E1, E2. by exists post1.
Qed.

Lemma hex_rows_cons columns col b bs :
  hex_rows columns col (b :: bs)
  = row_text columns col b ++ hex_rows columns ((if col =? columns then 0 else col) + 1) bs.
Proof. unfold row_text. cbn [hex_rows]. by destruct (col =? columns). Qed.

Lemma dump_loop_spec columns dl bs : forall pre post col,
  2 <= columns <= 32 -> 0 <= col <= columns -> zlen (pre ++ 0 :: post) = dl -> dl < 2 ^ 31 ->
  zlen pre + zlen (hex_rows columns col bs) < dl ->
  exists post', dump_loop columns dl bs (pre ++ 0 :: post) (zlen pre) col
    = Some ((pre ++ hex_rows columns col bs) ++ 0 :: post', zlen (pre ++ hex_rows columns col bs)).
Proof.
  induction bs as [|b bs IH]; intros pre post col Hc Hcol Hdl Hmax Hfit.
  { exists post. cbn [dump_loop hex_rows app]. by rewrite app_nil_r. }
  cbn [dump_loop]. rewrite hex_rows_cons, app_assoc in *. set (col' := if col =? columns then 0 else col) in *.
  assert (0 <= col' < columns) as Hcol' by (subst col'; destruct (Z.eqb_spec col columns); lia).
  rewrite zlen_app in Hfit. pose proof (zlen_nonneg (hex_rows columns (col' + 1) bs)).
  destruct (dump_step_spec columns dl b pre post col Hdl Hmax) as (post1 & -> & Hdl1); [lia |].
  cbn [mbind option_bind]. fold col'. rewrite (wrap_small 8 (col' + 1)) by (pow2; lia).
  apply IH; try done; [lia |]. rewrite zlen_app. lia.
Qed.

(** the dump of a buffer shows all of its bytes in rows, whatever the length
    below 8192 and the column count: the text always fits into the allocated
    display with its NUL, so neither loop exit on truncation is ever taken and
    the callback gets the whole text with its exact length. *)
Theorem naos_hexdump_correct malloc bs columns display :
  0 < zlen bs < 8192 -> 0 <= columns < 256 ->
  let cols := if (columns <? 2) || (32 <? columns) then 8 else columns in
  malloc (zlen bs * 3 + zlen bs / cols + 8) = Some display ->
  zlen display = zlen bs * 3 + zlen bs / cols + 8 ->
  exists rest,
    naos_hexdump malloc (Some bs) (zlen bs) columns
    = Some (Some (hexdump_text cols bs ++ 0 :: rest, zlen (hexdump_text cols bs))).
Proof.
  intros Hbs Hcols cols Hm Hd. unfold naos_hexdump. fold cols.
  rewrite (proj2 (Z.eqb_neq _ _)), (proj2 (Z.leb_gt 8192 _)) by lia. cbn [orb]. rewrite Hm.
  assert (2 <= cols <= 32) as Hc.
  { subst cols. destruct (Z.ltb_spec columns 2), (Z.ltb_spec 32 columns); cbn [orb]; lia. }
  set (dl := zlen bs * 3 + zlen bs / cols + 8) in *.
  assert (0 <= zlen bs / cols <= zlen bs) as Hq.
  { split; [apply Z.div_pos; lia | apply Z.div_le_upper_bound; nia]. }
  assert (zlen (hex_rows cols 0 bs) < dl - 1) as Hfit.
  { pose proof (hex_rows_len cols bs 0 ltac:(lia) ltac:(lia)) as Hl.
    pose proof (Z.div_le_mono (zlen bs - 1) (zlen bs) cols). destruct bs; subst dl; [lia |].
    rewrite Z.add_0_l in Hl. lia. }
  rewrite Z.sub_0_r, wrap_small by (pow2; lia).
  destruct (snprintf_fits [] display dl [NEWLINE]) as (post & E & Hp); [lia | change (zlen [NEWLINE]) with 1; lia .. |].
  cbn [app] in E. change (zlen []) with 0 in E. rewrite E. cbn [mbind option_bind].
  rewrite memread_all. cbn [mbind option_bind]. change (0 +u32 zlen [NEWLINE]) with (zlen [NEWLINE]).
  destruct (dump_loop_spec cols dl bs [NEWLINE] post 0) as (rest & Er); [done | lia | | pow2; lia | |].
  - cbn [app]. rewrite zlen_cons, zlen_cons. change (zlen [NEWLINE]) with 1 in Hp. lia.
  - change (zlen [NEWLINE]) with 1. lia.
  - cbn [app] in Er. rewrite Er. by exists rest.
Qed.

(** With a target array to fill, [naos_cmdline_like_analyze] always fails
    before it looks at the line: its guard lacks a negation. *)
Theorem naos_cmdline_rejects_target cmdline target max :
  naos_cmdline_like_analyze cmdline (Some target) max = Some (-1, cmdline, Some target).
Proof. by destruct cmdline. Qed.

Lemma naos_chord_correct_witness :
  le4 (naos_chord32 0x01020304) = rev (le4 0x01020304) /\ naos_chord32 (naos_chord32 0x01020304) = 0x01020304 /\
  naos_chord16 0x0102 = 0x0102 mod 256 * 256 + 0x0102 / 256 /\ naos_chord16 (naos_chord16 0x0102) = 0x0102.
Proof. apply (naos_chord_correct 0x01020304 0x0102); by vm_compute. Defined.

Lemma naos_ipv4_roundtrip_witness :
  exists st', naos_ipv4tos 0xFFFFFFFF (Some (replicate 16 0)) = Some (NSP_STATUS_SUCCESSFUL, Some st') /\
    (zlen (dotted_of 0xFFFFFFFF) <= 14 ->
       naos_ipv4tou true (Some (cstring st')) kByteOrder_LittleEndian = 0xFFFFFFFF /\
       naos_ipv4tou true (Some (cstring st')) kByteOrder_BigEndian = naos_chord32 0xFFFFFFFF) /\
    (zlen (dotted_of 0xFFFFFFFF) = 15 ->
       naos_ipv4tou true (Some (cstring st')) kByteOrder_LittleEndian
       = 0xFFFFFFFF - 0xFFFFFFFF mod 256 + 0xFFFFFFFF mod 256 / 10).
Proof. apply (naos_ipv4_roundtrip 0xFFFFFFFF (replicate 16 0)); by vm_compute. Defined.

Example truncated_address :
  (r ← naos_ipv4tos 0xFFFFFFFF (Some (replicate 16 0)); cstring <$> r.2)
  = Some [50; 53; 53; 46; 50; 53; 53; 46; 50; 53; 53; 46; 50; 53].
Proof. vm_compute. reflexivity. Qed.

(** "1..2.3" *)
Example empty_segment_accepted : naos_is_legal_ipv4 (Some [49; 46; 46; 50; 46; 51]) = true.
Proof. vm_compute. reflexivity. Qed.

Lemma naos_hexdump_correct_witness :
  exists rest,
    naos_hexdump (fun n => Some (replicate (Z.to_nat n) 0)) (Some [1; 171; 255]) 3 2
    = Some (Some (hexdump_text 2 [1; 171; 255] ++ 0 :: rest, zlen (hexdump_text 2 [1; 171; 255]))).
Proof.
  apply (naos_hexdump_correct (fun n => Some (replicate (Z.to_nat n) 0)) [1; 171; 255] 2 (replicate 18 0));
    by vm_compute.
Defined.
