(* ===== verification/Sha256.v ===== *)
(** SHA-256: src/hash.c, lines 956 to 1052.

    The code computes on int: a word is its signed value, [>>] is the arithmetic
    shift and sums wrap around, as gcc makes them on the target.  The padded copy
    of the message is a block of bytes that is filled at swapped positions, so
    that its int cells are the big-endian words of the message. *)
From S2P Require Import Prelude Naos.
Local Open Scope c_scope.

Definition SHA256_ROTL (a b : Z) : Z :=
  Z.lor (Z.land (Z.shiftr a (32 - b)) (Z.shiftr 0x7fffffff (31 - b))) (s32 (Z.shiftl a b)).
Definition SHA256_SR (a b : Z) : Z := Z.land (Z.shiftr a b) (Z.shiftr 0x7fffffff (b - 1)).
Definition SHA256_Ch (x y z : Z) : Z := Z.lxor (Z.land x y) (Z.land (Z.lnot x) z).
Definition SHA256_Maj (x y z : Z) : Z := Z.lxor (Z.lxor (Z.land x y) (Z.land x z)) (Z.land y z).
Definition SHA256_E0 (x : Z) : Z := Z.lxor (Z.lxor (SHA256_ROTL x 30) (SHA256_ROTL x 19)) (SHA256_ROTL x 10).
Definition SHA256_E1 (x : Z) : Z := Z.lxor (Z.lxor (SHA256_ROTL x 26) (SHA256_ROTL x 21)) (SHA256_ROTL x 7).
Definition SHA256_O0 (x : Z) : Z := Z.lxor (Z.lxor (SHA256_ROTL x 25) (SHA256_ROTL x 14)) (SHA256_SR x 3).
Definition SHA256_O1 (x : Z) : Z := Z.lxor (Z.lxor (SHA256_ROTL x 15) (SHA256_ROTL x 13)) (SHA256_SR x 10).

Definition SHA256_KEY : list Z := s32 <$> concat [
  [0x428a2f98; 0x71374491; 0xb5c0fbcf; 0xe9b5dba5; 0x3956c25b; 0x59f111f1; 0x923f82a4; 0xab1c5ed5];
  [0xd807aa98; 0x12835b01; 0x243185be; 0x550c7dc3; 0x72be5d74; 0x80deb1fe; 0x9bdc06a7; 0xc19bf174];
  [0xe49b69c1; 0xefbe4786; 0x0fc19dc6; 0x240ca1cc; 0x2de92c6f; 0x4a7484aa; 0x5cb0a9dc; 0x76f988da];
  [0x983e5152; 0xa831c66d; 0xb00327c8; 0xbf597fc7; 0xc6e00bf3; 0xd5a79147; 0x06ca6351; 0x14292967];
  [0x27b70a85; 0x2e1b2138; 0x4d2c6dfc; 0x53380d13; 0x650a7354; 0x766a0abb; 0x81c2c92e; 0x92722c85];
  [0xa2bfe8a1; 0xa81a664b; 0xc24b8b70; 0xc76c51a3; 0xd192e819; 0xd6990624; 0xf40e3585; 0x106aa070];
  [0x19a4c116; 0x1e376c08; 0x2748774c; 0x34b0bcb5; 0x391c0cb3; 0x4ed8aa4a; 0x5b9cca4f; 0x682e6ff3];
  [0x748f82ee; 0x78a5636f; 0x84c87814; 0x8cc70208; 0x90befffa; 0xa4506ceb; 0xbef9a3f7; 0xc67178f2]].

(** [hash] and [relay]: eight ints. *)
Record ints8 := Ints8 { r0 : Z; r1 : Z; r2 : Z; r3 : Z; r4 : Z; r5 : Z; r6 : Z; r7 : Z }.

Definition hash_init : ints8 :=
  Ints8 (s32 0x6a09e667) (s32 0xbb67ae85) (s32 0x3c6ef372) (s32 0xa54ff53a)
        (s32 0x510e527f) (s32 0x9b05688c) (s32 0x1f83d9ab) (s32 0x5be0cd19).

(** The store [cursor[i + 3 - 2 * (i % 4)] = v]. *)
Definition swapped (i : Z) : Z := i + 3 - 2 * Z.rem i 4.
Fixpoint fill (cursor : list Z) (i : Z) (vs : list Z) : option (list Z) :=
  match vs with
  | [] => Some cursor
  | v :: vs => cursor ← memcpy_at cursor (swapped i) [u8 v]; fill cursor (i + 1) vs
  end.

(** An int store and an int load (the target is little-endian). *)
Definition store_int (cursor : list Z) (off x : Z) : option (list Z) := memcpy_at cursor off (le4 (u32 x)).
Definition load_int (cursor : list Z) (off : Z) : option Z :=
  bs ← memread cursor off 4; Some (s32 (word4 bs)).

Definition actual_length (orilen : Z) : Z :=
  s32 (orilen + (if 56 <=? Z.rem orilen 64 then 128 - Z.rem orilen 64 else 64 - Z.rem orilen 64)).

(** The two fill loops and the two stores of the length. *)
Definition sha256_prepare (block str : list Z) (orilen : Z) : option (list Z) :=
  let actlen := actual_length orilen in
  msg ← memread str 0 orilen;
  cursor ← fill block 0 msg;
  cursor ← fill cursor orilen (128 :: replicate (Z.to_nat (actlen - orilen - 1)) 0);
  cursor ← store_int cursor (actlen - 4) (s32 (Z.shiftl orilen 3));
  store_int cursor (actlen - 8) (Z.shiftr orilen 29).

(** W[16..63] *)
Definition schedule (W : list Z) : list Z :=
  foldl (fun W i => W ++ [s32 (SHA256_O1 (W !!! (i - 2)%nat) + W !!! (i - 7)%nat
                               + SHA256_O0 (W !!! (i - 15)%nat) + W !!! (i - 16)%nat)])
    W (seq 16 48).

Definition round (W : list Z) (relay : ints8) (i : nat) : ints8 :=
  let T1 := s32 (r7 relay + SHA256_E1 (r4 relay) + SHA256_Ch (r4 relay) (r5 relay) (r6 relay)
                 + SHA256_KEY !!! i + W !!! i) in
  let T2 := s32 (SHA256_E0 (r0 relay) + SHA256_Maj (r0 relay) (r1 relay) (r2 relay)) in
  Ints8 (s32 (T1 + T2)) (r0 relay) (r1 relay) (r2 relay)
        (s32 (r3 relay + T1)) (r4 relay) (r5 relay) (r6 relay).

Definition add8 (hash relay : ints8) : ints8 :=
  Ints8 (s32 (r0 hash + r0 relay)) (s32 (r1 hash + r1 relay)) (s32 (r2 hash + r2 relay))
        (s32 (r3 hash + r3 relay)) (s32 (r4 hash + r4 relay)) (s32 (r5 hash + r5 relay))
        (s32 (r6 hash + r6 relay)) (s32 (r7 hash + r7 relay)).

Definition one_block (cursor : list Z) (off : Z) (hash : ints8) : option ints8 :=
  W ← mapM (fun i => load_int cursor (off + 4 * Z.of_nat i)) (seq 0 16);
  Some (add8 hash (foldl (round (schedule W)) hash (seq 0 64))).

(** The loop [for (end = cursor + actlen; cursor < end; cursor += 64)]. *)
Fixpoint blocks_loop (fuel : nat) (cursor : list Z) (off actlen : Z) (hash : ints8) : option ints8 :=
  if off <? actlen then
    match fuel with
    | O => None
    | S fuel => hash ← one_block cursor off hash; blocks_loop fuel cursor (off + 64) actlen hash
    end
  else Some hash.

(** [malloc n]: the block ztrymalloc gives, with its old content; [out]: whether
    the pointer is not NULL.  [Some None]: NULL is returned. *)
Definition sha256 (malloc : Z -> option (list Z)) (str : option (list Z)) (orilen : Z) (out : bool)
  : option (option (list Z)) :=
  match str with
  | None => Some None
  | Some str =>
      if (orilen <=? 0) || negb out then Some None
      else
        match malloc (actual_length orilen) with
        | None => Some None
        | Some block =>
            cursor ← sha256_prepare block str orilen;
            hash ← blocks_loop (Z.to_nat (actual_length orilen)) cursor 0 (actual_length orilen) hash_init;
            Some (Some (concat ((fun h => le4 (naos_chord32 (u32 h))) <$>
              [r0 hash; r1 hash; r2 hash; r3 hash; r4 hash; r5 hash; r6 hash; r7 hash])))
        end
  end.

(** ** FIPS 180-4

    The standard's definitions, on words in [0, 2^32). *)
Module Fips180.
Definition ROTR (n x : Z) : Z := x / 2 ^ n + x mod 2 ^ n * 2 ^ (32 - n).
Definition SHR (n x : Z) : Z := x / 2 ^ n.
Definition Ch (x y z : Z) : Z := Z.lxor (Z.land x y) (Z.land (2 ^ 32 - 1 - x) z).
Definition Maj (x y z : Z) : Z := Z.lxor (Z.lxor (Z.land x y) (Z.land x z)) (Z.land y z).
Definition Sigma0 (x : Z) : Z := Z.lxor (Z.lxor (ROTR 2 x) (ROTR 13 x)) (ROTR 22 x).
Definition Sigma1 (x : Z) : Z := Z.lxor (Z.lxor (ROTR 6 x) (ROTR 11 x)) (ROTR 25 x).
Definition sigma0 (x : Z) : Z := Z.lxor (Z.lxor (ROTR 7 x) (ROTR 18 x)) (SHR 3 x).
Definition sigma1 (x : Z) : Z := Z.lxor (Z.lxor (ROTR 17 x) (ROTR 19 x)) (SHR 10 x).

(** The constants: the first 32 bits of the fractional parts of the cube roots of
    the first 64 primes, and of the square roots of the first eight. *)
Definition is_prime (n : nat) : bool := forallb (fun d => negb (n mod d =? 0)%nat) (seq 2 (n - 2)).
Definition primes (n : nat) : list Z := Z.of_nat <$> take n (List.filter is_prime (seq 2 310)).

(** The largest [r] below [2 ^ bits + r0] with [r ^ 3 <= n], bit by bit. *)
Fixpoint cube_root (bits : nat) (n r : Z) : Z :=
  match bits with
  | O => r
  | S bits =>
      let r' := r + 2 ^ Z.of_nat bits in
      cube_root bits n (if r' ^ 3 <=? n then r' else r)
  end.

Definition K : list Z := (fun p => cube_root 36 (p * 2 ^ 96) 0 mod 2 ^ 32) <$> primes 64.

Definition H0 : ints8 :=
  match (fun p => Z.sqrt (p * 2 ^ 64) mod 2 ^ 32) <$> primes 8 with
  | [a; b; c; d; e; f; g; h] => Ints8 a b c d e f g h
  | _ => Ints8 0 0 0 0 0 0 0 0
  end.

Definition schedule (M : list Z) : list Z :=
  foldl (fun W t => W ++ [(sigma1 (W !!! (t - 2)%nat) + W !!! (t - 7)%nat
                           + sigma0 (W !!! (t - 15)%nat) + W !!! (t - 16)%nat) mod 2 ^ 32])
    M (seq 16 48).

Definition round (W : list Z) (v : ints8) (t : nat) : ints8 :=
  let 'Ints8 a b c d e f g h := v in
  let T1 := (h + Sigma1 e + Ch e f g + K !!! t + W !!! t) mod 2 ^ 32 in
  let T2 := (Sigma0 a + Maj a b c) mod 2 ^ 32 in
  Ints8 ((T1 + T2) mod 2 ^ 32) a b c ((d + T1) mod 2 ^ 32) e f g.

Definition compress (H : ints8) (M : list Z) : ints8 :=
  let 'Ints8 a b c d e f g h := foldl (round (schedule M)) H (seq 0 64) in
  Ints8 ((r0 H + a) mod 2 ^ 32) ((r1 H + b) mod 2 ^ 32) ((r2 H + c) mod 2 ^ 32) ((r3 H + d) mod 2 ^ 32)
        ((r4 H + e) mod 2 ^ 32) ((r5 H + f) mod 2 ^ 32) ((r6 H + g) mod 2 ^ 32) ((r7 H + h) mod 2 ^ 32).

(** Big-endian words. *)
Definition be4 (x : Z) : list Z := [x / 2 ^ 24 mod 256; x / 2 ^ 16 mod 256; x / 2 ^ 8 mod 256; x mod 256].
Definition word (P : list Z) (q : nat) : Z :=
  P !!! (4 * q)%nat * 2 ^ 24 + P !!! (4 * q + 1)%nat * 2 ^ 16
  + P !!! (4 * q + 2)%nat * 2 ^ 8 + P !!! (4 * q + 3)%nat.

Definition pad (msg : list Z) : list Z :=
  msg ++ 0x80 :: replicate (Z.to_nat ((55 - zlen msg) mod 64)) 0
    ++ be4 (8 * zlen msg / 2 ^ 32) ++ be4 (8 * zlen msg mod 2 ^ 32).

Definition block_words (P : list Z) (j : nat) : list Z := (fun i => word P (16 * j + i)) <$> seq 0 16.

Definition digest (msg : list Z) : list Z :=
  let P := pad msg in
  let H := foldl (fun H j => compress H (block_words P j)) H0 (seq 0 (length P / 64)) in
  concat (be4 <$> [r0 H; r1 H; r2 H; r3 H; r4 H; r5 H; r6 H; r7 H]).
End Fips180.

(** ** Words: the code's signed ones stand for the standard's *)
Lemma u32_s32 x : u32 (s32 x) = u32 x.
Proof.
  unfold wrap, swrap. change (2 ^ (32 - 1)) with (2 ^ 31). rewrite Zminus_mod_idemp_l.
  f_equal. lia.
Qed.

Lemma u32_add a b : u32 (a + b) = (u32 a + u32 b) mod 2 ^ 32.
Proof. unfold wrap. by rewrite <- Zplus_mod. Qed.

Lemma mask31 b : 0 <= b <= 31 -> Z.shiftr 0x7fffffff (31 - b) = Z.ones b.
Proof.
  intros Hb. change 0x7fffffff with (Z.ones 31). rewrite Z.shiftr_div_pow2, Z.ones_div_pow2 by lia.
  f_equal. lia.
Qed.

(** The bits an arithmetic shift leaves under the mask. *)
Lemma shiftr_mask a b : 0 <= b <= 31 -> Z.land (Z.shiftr a (32 - b)) (Z.ones b) = u32 a / 2 ^ (32 - b).
Proof.
  intros Hb. rewrite Z.land_ones, Z.shiftr_div_pow2 by lia. unfold wrap.
  assert (2 ^ 32 = 2 ^ (32 - b) * 2 ^ b) as -> by (rewrite <- Z.pow_add_r by lia; f_equal; lia).
  rewrite Z.rem_mul_r by (try apply Z.pow_nonzero; try apply Z.pow_pos_nonneg; lia).
  rewrite (Z.mul_comm (2 ^ (32 - b))), Z.div_add, (Z.div_small (a mod _));
    [lia | |apply Z.pow_nonzero; lia].
  apply Z.mod_pos_bound, Z.pow_pos_nonneg; lia.
Qed.

Lemma ROTL_spec a b : 0 <= b <= 31 -> u32 (SHA256_ROTL a b) = Fips180.ROTR (32 - b) (u32 a).
Proof.
  intros Hb. unfold SHA256_ROTL, Fips180.ROTR. rewrite mask31, shiftr_mask, wrap_lor, u32_s32 by lia.
  pose proof (wrap_range 32 a ltac:(lia)) as Hr.
  assert (0 < 2 ^ (32 - b) /\ 0 < 2 ^ b) as [Hp1 Hp2] by (split; apply Z.pow_pos_nonneg; lia).
  assert (2 ^ 32 = 2 ^ (32 - b) * 2 ^ b) as E32 by (rewrite <- Z.pow_add_r by lia; f_equal; lia).
  assert (0 <= u32 a / 2 ^ (32 - b) < 2 ^ b) as Hd
    by (split; [apply Z.div_pos; lia | apply Z.div_lt_upper_bound; lia]).
  assert (2 ^ b <= 2 ^ 32) by (apply Z.pow_le_mono_r; lia).
  rewrite (wrap_small 32 (u32 a / _)) by lia.
  assert (u32 (Z.shiftl a b) = u32 a mod 2 ^ (32 - b) * 2 ^ b) as ->.
  { rewrite Z.shiftl_mul_pow2, wrap_mod_pow2 by lia. unfold wrap. by rewrite E32, Z.mul_mod_distr_r by lia. }
  rewrite Z.lor_comm, lor_fields by (done || lia). replace (32 - (32 - b)) with b by lia. lia.
Qed.

Lemma SR_spec a b : 1 <= b <= 31 -> u32 (SHA256_SR a b) = Fips180.SHR b (u32 a).
Proof.
  intros Hb. unfold SHA256_SR, Fips180.SHR.
  replace (b - 1) with (31 - (32 - b)) by lia. rewrite mask31 by lia.
  replace b with (32 - (32 - b)) at 1 by lia. rewrite shiftr_mask by lia.
  replace (32 - (32 - b)) with b by lia. pose proof (wrap_range 32 a ltac:(lia)).
  assert (0 < 2 ^ b) by (apply Z.pow_pos_nonneg; lia).
  apply wrap_small. split; [apply Z.div_pos; lia |]. apply Z.div_lt_upper_bound; nia.
Qed.

Lemma Ch_spec x y z : u32 (SHA256_Ch x y z) = Fips180.Ch (u32 x) (u32 y) (u32 z).
Proof.
  unfold SHA256_Ch, Fips180.Ch. rewrite wrap_lxor, !wrap_land by lia. do 2 f_equal.
  unfold wrap, Z.lnot. rewrite <- Z.sub_1_r.
  pose proof (Z.div_mod x (2 ^ 32)). pose proof (Z.mod_pos_bound x (2 ^ 32)).
  symmetry. apply (Z.mod_unique_pos _ _ (- (x / 2 ^ 32) - 1)); lia.
Qed.

Lemma Maj_spec x y z : u32 (SHA256_Maj x y z) = Fips180.Maj (u32 x) (u32 y) (u32 z).
Proof. unfold SHA256_Maj, Fips180.Maj. by rewrite !wrap_lxor, !wrap_land by lia. Qed.

Lemma sigmas_spec x :
  u32 (SHA256_E0 x) = Fips180.Sigma0 (u32 x) /\ u32 (SHA256_E1 x) = Fips180.Sigma1 (u32 x) /\
  u32 (SHA256_O0 x) = Fips180.sigma0 (u32 x) /\ u32 (SHA256_O1 x) = Fips180.sigma1 (u32 x).
Proof.
  unfold SHA256_E0, SHA256_E1, SHA256_O0, SHA256_O1.
  rewrite !wrap_lxor, !ROTL_spec, !SR_spec by lia. done.
Qed.

Definition u32_8 (v : ints8) : ints8 :=
  Ints8 (u32 (r0 v)) (u32 (r1 v)) (u32 (r2 v)) (u32 (r3 v)) (u32 (r4 v)) (u32 (r5 v)) (u32 (r6 v)) (u32 (r7 v)).

Lemma lookup_u32 (W : list Z) (i : nat) : (u32 <$> W) !!! i = u32 (W !!! i).
Proof. rewrite !list_lookup_total_alt, list_lookup_fmap. by destruct (W !! i). Qed.

Lemma KEY_spec (i : nat) : u32 (SHA256_KEY !!! i) = Fips180.K !!! i.
Proof. rewrite <- lookup_u32. f_equal. Qed.

Lemma u32_add4 a b c d : u32 (a + b + c + d) = (u32 a + u32 b + u32 c + u32 d) mod 2 ^ 32.
Proof.
  rewrite (u32_add (a + b + c) d), (u32_add (a + b) c), (u32_add a b).
  rewrite Zplus_mod_idemp_l, <- Z.add_assoc, Zplus_mod_idemp_l. f_equal. lia.
Qed.

Lemma schedule_spec W : u32 <$> schedule W = Fips180.schedule (u32 <$> W).
Proof.
  unfold schedule, Fips180.schedule. generalize (seq 16 48). intros ts. revert W.
  induction ts as [|t ts IH]; intros W; [done |]. cbn [foldl]. rewrite IH. do 2 f_equal.
  rewrite fmap_app. cbn [fmap list_fmap]. rewrite u32_s32, u32_add4, !lookup_u32.
  destruct (sigmas_spec (W !!! (t - 2)%nat)) as (_ & _ & _ & ->).
  by destruct (sigmas_spec (W !!! (t - 15)%nat)) as (_ & _ & -> & _).
Qed.

Lemma round_spec W v i : u32_8 (round W v i) = Fips180.round (u32 <$> W) (u32_8 v) i.
Proof.
  unfold round, Fips180.round, u32_8. cbn [r0 r1 r2 r3 r4 r5 r6 r7].
  destruct (sigmas_spec (r0 v)) as (E0 & _), (sigmas_spec (r4 v)) as (_ & E1 & _).
  rewrite !u32_s32, lookup_u32, <- KEY_spec, <- E0, <- E1, <- Ch_spec, <- Maj_spec.
  set (T1 := r7 v + _ + _ + _ + _). set (T2 := SHA256_E0 _ + _).
  assert ((u32 (r7 v) + u32 (SHA256_E1 (r4 v)) + u32 (SHA256_Ch (r4 v) (r5 v) (r6 v)) + u32 (SHA256_KEY !!! i)
    + u32 (W !!! i)) mod 2 ^ 32 = u32 (s32 T1)) as ->.
  { rewrite u32_s32. subst T1. rewrite (u32_add (_ + _ + _ + _)), u32_add4. by rewrite Zplus_mod_idemp_l. }
  assert ((u32 (SHA256_E0 (r0 v)) + u32 (SHA256_Maj (r0 v) (r1 v) (r2 v))) mod 2 ^ 32 = u32 (s32 T2)) as ->.
  { by rewrite u32_s32, <- u32_add. }
  by rewrite <- !u32_add.
Qed.

Lemma compress_spec H W :
  u32_8 (add8 H (foldl (round (schedule W)) H (seq 0 64))) = Fips180.compress (u32_8 H) (u32 <$> W).
Proof.
  unfold Fips180.compress. rewrite <- schedule_spec.
  assert (forall ts v, u32_8 (foldl (round (schedule W)) v ts)
    = foldl (Fips180.round (u32 <$> schedule W)) (u32_8 v) ts) as Hf.
  { induction ts as [|t ts IH]; intros v; [done |]. cbn [foldl]. by rewrite IH, round_spec. }
  rewrite <- Hf. unfold u32_8, add8. cbn [r0 r1 r2 r3 r4 r5 r6 r7]. by rewrite !u32_s32, !u32_add.
Qed.

(** ** The padded copy *)
Lemma swapped_spec p : 0 <= p -> swapped p = 4 * (p / 4) + 3 - p mod 4.
Proof. intros Hp. unfold swapped. rewrite Z.rem_mod_nonneg by lia. zdiv. Qed.

(** Cell [swapped p] holds what position [p] should. *)
Lemma fill_spec vs : forall cursor i n,
  bytes vs -> 0 <= i -> zlen cursor = 4 * n -> i + zlen vs <= zlen cursor ->
  exists cursor', fill cursor i vs = Some cursor' /\ zlen cursor' = zlen cursor /\
    forall p, 0 <= p < zlen cursor ->
      cursor' !! Z.to_nat (swapped p)
      = if decide (i <= p < i + zlen vs) then vs !! Z.to_nat (p - i) else cursor !! Z.to_nat (swapped p).
Proof.
  induction vs as [|v vs IH]; intros cursor i n Hb Hi Hn Hfit.
  { exists cursor. split_and!; [done | done |]. intros p Hp. rewrite decide_False; [done |].
    change (zlen []) with 0. lia. }
  apply Forall_cons in Hb as [Hv Hb]. rewrite zlen_cons in Hfit. pose proof (zlen_nonneg vs).
  cbn [fill]. pose proof (swapped_spec i Hi) as Es.
  destruct (memcpy_at_some cursor [u8 v] (swapped i)) as [c1 E1]; [zdiv | change (zlen [u8 v]) with 1; zdiv |].
  pose proof (memcpy_at_len _ _ _ _ E1) as Hl1.
  destruct (IH c1 (i + 1) n Hb ltac:(lia) ltac:(lia) ltac:(lia)) as (c2 & E2 & Hl2 & Hc2).
  exists c2. rewrite E1. split; [done |]. split; [lia |]. intros p Hp. rewrite Hc2 by lia.
  pose proof (swapped_spec p ltac:(lia)) as Esp.
  rewrite zlen_cons. destruct (decide (i + 1 <= p < i + 1 + zlen vs)).
  - rewrite decide_True by lia. replace (Z.to_nat (p - i)) with (S (Z.to_nat (p - (i + 1)))) by lia. done.
  - rewrite (memcpy_at_lookup _ _ _ _ _ E1) by zdiv. change (zlen [u8 v]) with 1.
    destruct (decide (p = i)) as [->|Hne].
    + rewrite !decide_True by lia. rewrite !Z.sub_diag. cbn. by rewrite wrap_small.
    + rewrite !decide_False; [done | lia |]. rewrite Es, Esp. zdiv.
Qed.

(** An int stored at word [q]. *)
Lemma store_int_spec cursor q x :
  0 <= q -> 4 * q + 4 <= zlen cursor ->
  exists cursor', store_int cursor (4 * q) x = Some cursor' /\ zlen cursor' = zlen cursor /\
    forall p, 0 <= p ->
      cursor' !! Z.to_nat (swapped p)
      = if decide (4 * q <= p < 4 * q + 4) then Fips180.be4 (u32 x) !! Z.to_nat (p - 4 * q)
        else cursor !! Z.to_nat (swapped p).
Proof.
  intros Hq Hfit. unfold store_int.
  destruct (memcpy_at_some cursor (le4 (u32 x)) (4 * q)) as [c1 E1]; [lia | change (zlen (le4 (u32 x))) with 4; lia |].
  exists c1. split; [done |]. split; [by apply (memcpy_at_len _ _ _ _ E1) |]. intros p Hp.
  pose proof (swapped_spec p Hp) as Esp.
  rewrite (memcpy_at_lookup _ _ _ _ _ E1) by zdiv. change (zlen (le4 (u32 x))) with 4.
  destruct (decide (4 * q <= p < 4 * q + 4)) as [Hr|Hr].
  - rewrite decide_True by (rewrite Esp; zdiv). rewrite Esp. unfold le4, Fips180.be4.
    assert (p = 4 * q \/ p = 4 * q + 1 \/ p = 4 * q + 2 \/ p = 4 * q + 3) as [-> |[-> |[-> | -> ] ] ] by lia.
    + replace (4 * (4 * q / 4) + 3 - (4 * q) mod 4 - 4 * q) with 3 by zdiv. by rewrite Z.sub_diag.
    + replace (4 * ((4 * q + 1) / 4) + 3 - (4 * q + 1) mod 4 - 4 * q) with 2 by zdiv.
      by replace (4 * q + 1 - 4 * q) with 1 by lia.
    + replace (4 * ((4 * q + 2) / 4) + 3 - (4 * q + 2) mod 4 - 4 * q) with 1 by zdiv.
      by replace (4 * q + 2 - 4 * q) with 2 by lia.
    + replace (4 * ((4 * q + 3) / 4) + 3 - (4 * q + 3) mod 4 - 4 * q) with 0 by zdiv.
      by replace (4 * q + 3 - 4 * q) with 3 by lia.
  - rewrite decide_False; [done |]. rewrite Esp. zdiv.
Qed.

Definition holds (cursor P : list Z) : Prop :=
  zlen cursor = zlen P /\
  forall p, 0 <= p < zlen P -> cursor !! Z.to_nat (swapped p) = P !! Z.to_nat p.

Definition MAX_MESSAGE : Z := 2 ^ 31 - 129.

Lemma zlen_pad msg : zlen (Fips180.pad msg) = zlen msg + 9 + (55 - zlen msg) mod 64.
Proof.
  unfold Fips180.pad. rewrite zlen_app, zlen_cons, !zlen_app, zlen_replicate by (by apply Z.mod_pos_bound).
  change (zlen (Fips180.be4 _)) with 4. lia.
Qed.

Lemma actual_length_spec (msg : list Z) :
  zlen msg <= MAX_MESSAGE -> actual_length (zlen msg) = zlen (Fips180.pad msg).
Proof.
  intros Hm. rewrite zlen_pad. pose proof (zlen_nonneg msg). unfold actual_length, MAX_MESSAGE in *.
  set (n := zlen msg) in *. clearbody n. rewrite Z.rem_mod_nonneg by lia.
  destruct (Z.leb_spec 56 (n mod 64)); rewrite swrap_small; pow2; zdiv.
Qed.

Lemma pad_blocks msg : zlen (Fips180.pad msg) mod 64 = 0.
Proof. rewrite zlen_pad. zdiv. Qed.

(** The padded message before its length is stored. *)
Lemma pad_lookup msg p :
  let n := zlen msg in let N := zlen (Fips180.pad msg) in
  0 <= p < N ->
  Fips180.pad msg !! Z.to_nat p
  = if decide (N - 8 <= p < N - 4) then Fips180.be4 (8 * n / 2 ^ 32) !! Z.to_nat (p - (N - 8))
    else if decide (N - 4 <= p < N) then Fips180.be4 (8 * n mod 2 ^ 32) !! Z.to_nat (p - (N - 4))
    else if decide (p < n) then msg !! Z.to_nat p
    else (128 :: replicate (Z.to_nat (N - n - 1)) 0) !! Z.to_nat (p - n).
Proof.
  intros n N Hp. pose proof (zlen_pad msg) as HN. fold N n in HN.
  pose proof (Z.mod_pos_bound (55 - n) 64 ltac:(lia)) as Hk. pose proof (zlen_nonneg msg) as Hn. fold n in Hn.
  unfold Fips180.pad. fold n. set (k := (55 - n) mod 64) in *. clearbody k N.
  assert (n = Z.of_nat (length msg)) as En by done.
  destruct (decide (p < n)) as [Hlt|Hge].
  { rewrite !decide_False by lia. apply lookup_app_l. lia. }
  rewrite lookup_app_r by lia. replace (Z.to_nat p - length msg)%nat with (Z.to_nat (p - n)) by lia.
  change (128 :: replicate (Z.to_nat k) 0 ++ ?t) with ((128 :: replicate (Z.to_nat k) 0) ++ t).
  assert (length (128 :: replicate (Z.to_nat k) 0) = Z.to_nat (1 + k)) as Hlen
    by (cbn [length]; rewrite length_replicate; lia).
  destruct (decide (N - 8 <= p < N - 4)).
  { rewrite lookup_app_r by lia. rewrite lookup_app_l by (cbn [Fips180.be4 length] in *; lia). f_equal. lia. }
  destruct (decide (N - 4 <= p < N)).
  { rewrite !lookup_app_r by (cbn [Fips180.be4 length] in *; lia). f_equal. cbn [Fips180.be4 length] in *. lia. }
  rewrite lookup_app_l by lia. destruct (Z.to_nat (p - n)) as [|j] eqn:Ej; [done |].
  transitivity (Some 0); [|symmetry]; apply lookup_replicate_2; lia.
Qed.

Lemma prepare_spec block msg :
  bytes msg -> zlen msg <= MAX_MESSAGE -> zlen block = actual_length (zlen msg) ->
  exists cursor, sha256_prepare block msg (zlen msg) = Some cursor /\ holds cursor (Fips180.pad msg).
Proof.
  intros Hb Hm Hblk. rewrite actual_length_spec in Hblk by done.
  unfold sha256_prepare. rewrite actual_length_spec by done. rewrite memread_all. cbn [mbind option_bind].
  pose proof (zlen_pad msg) as HN. pose proof (pad_blocks msg) as H64. pose proof (zlen_nonneg msg).
  pose proof (Z.mod_pos_bound (55 - zlen msg) 64 ltac:(lia)) as Hk.
  pose proof (pad_lookup msg) as Hpl. cbv zeta in Hpl.
  set (N := zlen (Fips180.pad msg)) in *. set (n := zlen msg) in *.
  assert (N = 4 * (N / 4)) as HN4 by zdiv.
  destruct (fill_spec msg block 0 (N / 4) Hb) as (c1 & -> & Hl1 & Hc1); [lia | lia | fold n; lia |].
  cbn [mbind option_bind]. set (zs := 128 :: replicate (Z.to_nat (N - n - 1)) 0).
  assert (zlen zs = N - n) as Hzs by (subst zs; rewrite zlen_cons, zlen_replicate; lia).
  destruct (fill_spec zs c1 n (N / 4)) as (c2 & -> & Hl2 & Hc2); [| lia | lia | lia |].
  { apply Forall_cons. split; [done |]. by apply Forall_replicate. }
  cbn [mbind option_bind].
  replace (N - 4) with (4 * (N / 4 - 1)) by lia.
  destruct (store_int_spec c2 (N / 4 - 1) (s32 (Z.shiftl n 3))) as (c3 & -> & Hl3 & Hc3); [zdiv | lia |].
  cbn [mbind option_bind]. replace (N - 8) with (4 * (N / 4 - 2)) by lia.
  destruct (store_int_spec c3 (N / 4 - 2) (Z.shiftr n 29)) as (c4 & -> & Hl4 & Hc4); [zdiv | lia |].
  exists c4. split; [done |]. split; [lia |]. intros p Hp. fold N in Hp.
  rewrite Hc4, Hc3, Hpl by lia.
  replace (4 * (N / 4 - 2)) with (N - 8) by lia. replace (4 * (N / 4 - 1)) with (N - 4) by lia.
  replace (N - 8 + 4) with (N - 4) by lia. replace (N - 4 + 4) with N by lia.
  assert (u32 (Z.shiftr n 29) = 8 * n / 2 ^ 32) as ->.
  { rewrite Z.shiftr_div_pow2 by done. unfold MAX_MESSAGE in Hm. rewrite wrap_small; pow2; zdiv. }
  assert (u32 (s32 (Z.shiftl n 3)) = 8 * n mod 2 ^ 32) as ->.
  { rewrite u32_s32, Z.shiftl_mul_pow2 by done. unfold wrap. f_equal. lia. }
  destruct (decide (N - 8 <= p < N - 4)); [done |]. destruct (decide (N - 4 <= p < N)); [done |].
  rewrite Hc2 by lia. destruct (decide (p < n)).
  - rewrite decide_False, Hc1, decide_True by lia. by rewrite Z.sub_0_r.
  - by rewrite decide_True by lia.
Qed.

(** ** The blocks *)
Lemma load_int_spec cursor P q :
  holds cursor P -> 4 * Z.of_nat q + 4 <= zlen P ->
  load_int cursor (4 * Z.of_nat q) = Some (s32 (Fips180.word P q)).
Proof.
  intros [Hl Hc] Hq. unfold load_int.
  destruct (memread_some cursor (4 * Z.of_nat q) 4) as (s & -> & Hs & Hsl); [lia | lia | lia |].
  cbn [mbind option_bind]. do 2 f_equal.
  assert (forall j, (j < 4)%nat -> s !! j = Some (P !!! (4 * q + (3 - j))%nat)) as Hj.
  { intros j Hj. specialize (Hsl (Z.of_nat j) ltac:(lia)). rewrite Nat2Z.id in Hsl. rewrite Hsl.
    specialize (Hc (4 * Z.of_nat q + (3 - Z.of_nat j)) ltac:(lia)).
    rewrite swapped_spec in Hc by lia.
    replace (4 * ((4 * Z.of_nat q + (3 - Z.of_nat j)) / 4) + 3 - (4 * Z.of_nat q + (3 - Z.of_nat j)) mod 4)
      with (4 * Z.of_nat q + Z.of_nat j) in Hc by zdiv.
    rewrite Hc. replace (Z.to_nat (4 * Z.of_nat q + (3 - Z.of_nat j))) with (4 * q + (3 - j))%nat by lia.
    apply list_lookup_lookup_total_lt. unfold zlen in Hq. lia. }
  unfold zlen in Hs. destruct s as [|s0 [|s1 [|s2 [|s3 [|]]]]]; cbn [length] in Hs; try lia.
  pose proof (Hj 0%nat ltac:(lia)) as [= ->]. pose proof (Hj 1%nat ltac:(lia)) as [= ->].
  pose proof (Hj 2%nat ltac:(lia)) as [= ->]. pose proof (Hj 3%nat ltac:(lia)) as [= ->].
  unfold word4, Fips180.word. cbn [foldr].
  replace (q + (q + (q + (q + 0))))%nat with (4 * q)%nat by lia. rewrite Nat.add_0_r. lia.
Qed.

Lemma word_range P q : bytes P -> (4 * q + 3 < length P)%nat -> 0 <= Fips180.word P q < 2 ^ 32.
Proof.
  intros Hb Hq. assert (forall i, (i < length P)%nat -> 0 <= P !!! i < 256) as Hi.
  { intros i Hi. unfold bytes in Hb. rewrite Forall_lookup in Hb. apply (Hb i), list_lookup_lookup_total_lt, Hi. }
  unfold Fips180.word. pose proof (Hi (4 * q)%nat ltac:(lia)). pose proof (Hi (4 * q + 1)%nat ltac:(lia)).
  pose proof (Hi (4 * q + 2)%nat ltac:(lia)). pose proof (Hi (4 * q + 3)%nat ltac:(lia)). lia.
Qed.

Lemma one_block_spec cursor P j H :
  holds cursor P -> bytes P -> 64 * Z.of_nat j + 64 <= zlen P ->
  exists H', one_block cursor (64 * Z.of_nat j) H = Some H' /\
    u32_8 H' = Fips180.compress (u32_8 H) (Fips180.block_words P j).
Proof.
  intros Hh Hb Hj. unfold one_block.
  rewrite (mapM_fmap _ (fun i => s32 (Fips180.word P (16 * j + i)))).
  - cbn [mbind option_bind]. eexists. split; [reflexivity |]. rewrite compress_spec. f_equal.
    rewrite <- list_fmap_compose. unfold Fips180.block_words. apply list_fmap_ext.
    intros i x [-> Hi]%lookup_seq. cbn. rewrite u32_s32. apply wrap_small, word_range; [done |].
    unfold zlen in Hj. lia.
  - intros i Hi%elem_of_seq. replace (64 * Z.of_nat j + 4 * Z.of_nat i) with (4 * Z.of_nat (16 * j + i)) by lia.
    apply load_int_spec; [done | lia].
Qed.

Lemma blocks_loop_spec cursor P m : forall j fuel H,
  holds cursor P -> bytes P -> zlen P = 64 * Z.of_nat (j + m) -> (m <= fuel)%nat ->
  exists H', blocks_loop fuel cursor (64 * Z.of_nat j) (zlen P) H = Some H' /\
    u32_8 H' = foldl (fun H j => Fips180.compress H (Fips180.block_words P j)) (u32_8 H) (seq j m).
Proof.
  induction m as [|m IH]; intros j fuel H Hh Hb Hl Hf.
  - exists H. destruct fuel; cbn [blocks_loop]; rewrite (proj2 (Z.ltb_ge _ _)) by lia; done.
  - destruct fuel as [|fuel]; [lia |]. cbn [blocks_loop]. rewrite (proj2 (Z.ltb_lt _ _)) by lia.
    destruct (one_block_spec cursor P j H Hh Hb) as (H1 & -> & E1); [lia |]. cbn [mbind option_bind].
    replace (64 * Z.of_nat j + 64) with (64 * Z.of_nat (S j)) by lia.
    destruct (IH (S j) fuel H1 Hh Hb) as (H' & -> & E2); [lia | lia |].
    exists H'. split; [done |]. rewrite E2, E1. done.
Qed.

Lemma sha_pad_bytes msg : bytes msg -> bytes (Fips180.pad msg).
Proof.
  intros Hm. assert (forall x, byte (x mod 256)) as Hb by (intros x; by apply Z.mod_pos_bound).
  assert (forall x, bytes (Fips180.be4 x)) as Hbe by (intros x; repeat constructor; apply Hb).
  unfold Fips180.pad. apply Forall_app. split; [done |]. apply Forall_cons. split; [done |].
  apply Forall_app. split; [by apply Forall_replicate | apply Forall_app; split; apply Hbe].
Qed.

(** The byte-swapped store of the result. *)
Lemma chord_be x : 0 <= x < 2 ^ 32 -> le4 (naos_chord32 x) = Fips180.be4 x.
Proof. intros Hx. by rewrite chord32_le4. Qed.

(** C20: [sha256] computes the digest FIPS 180-4 defines, for every message of 1
    to 2^31 - 129 bytes whatever the allocated block held before; its signed
    shifts, wrapped sums and byte-swapped fill come to the standard's rotations,
    sums and big-endian words, and no access leaves the block. *)
Theorem sha256_correct malloc msg block :
  bytes msg -> 0 < zlen msg <= MAX_MESSAGE ->
  malloc (actual_length (zlen msg)) = Some block -> zlen block = actual_length (zlen msg) ->
  sha256 malloc (Some msg) (zlen msg) true = Some (Some (Fips180.digest msg)).
Proof.
  intros Hb Hm Hma Hbl. unfold sha256. rewrite (proj2 (Z.leb_gt _ _)), Hma by lia. cbn [orb negb].
  destruct (prepare_spec block msg Hb) as (cursor & -> & Hh); [lia | done |]. cbn [mbind option_bind].
  rewrite actual_length_spec by lia. pose proof (pad_blocks msg) as H64. pose proof (zlen_nonneg (Fips180.pad msg)).
  set (P := Fips180.pad msg) in *. set (m := (length P / 64)%nat).
  assert (zlen P = 64 * Z.of_nat (0 + m)) as Hl.
  { subst m. cbn [Nat.add]. rewrite Nat2Z.inj_div. unfold zlen in *. zdiv. }
  destruct (blocks_loop_spec cursor P m 0 (Z.to_nat (zlen P)) hash_init Hh (sha_pad_bytes msg Hb) Hl) as (H' & Eb & E);
    [lia |].
  change (64 * Z.of_nat 0) with 0 in Eb. rewrite Eb. cbn [mbind option_bind]. unfold Fips180.digest. fold P m.
  change (u32_8 hash_init) with Fips180.H0 in E. rewrite <- E. do 2 f_equal.
  unfold u32_8. cbn [r0 r1 r2 r3 r4 r5 r6 r7 fmap list_fmap].
  rewrite !chord_be by (apply wrap_range; lia). done.
Qed.

Example sha256_abc :
  Fips180.digest [97; 98; 99]
  = [0xba; 0x78; 0x16; 0xbf; 0x8f; 0x01; 0xcf; 0xea; 0x41; 0x41; 0x40; 0xde; 0x5d; 0xae; 0x22; 0x23;
     0xb0; 0x03; 0x61; 0xa3; 0x96; 0x17; 0x7a; 0x9c; 0xb4; 0x10; 0xff; 0x61; 0xf2; 0x00; 0x15; 0xad].
Proof. vm_compute. reflexivity. Qed.

Lemma sha256_correct_witness :
  sha256 (fun n => Some (replicate (Z.to_nat n) 7)) (Some (replicate 60 200)) 60 true
  = Some (Some (Fips180.digest (replicate 60 200))).
Proof.
  apply (sha256_correct (fun n => Some (replicate (Z.to_nat n) 7)) (replicate 60 200) (replicate 128 7));
    [decided | by vm_compute ..].
Defined.
