(* ===== verification/SipHash.v ===== *)
(** SipHash-1-2: src/siphash.c, lines 52 to 247 (the part outside SIPHASH_TEST).

    A pointer is an offset into a block of bytes; the 64-bit words are [Z] below
    2^64.  [siphash] and [siphash_nocase] are the same text but for [siptlw] around
    every byte of the input, the argument [low] here. *)
From S2P Require Import Prelude.

Definition siptlw (c : Z) : Z := if (65 <=? c) && (c <=? 90) then c + (97 - 65) else c.

Definition ROTL (x b : Z) : Z := Z.lor (u64 (Z.shiftl x b)) (Z.shiftr x (64 - b)).

(** [low] is the identity for U8TO64_LE and [siptlw] for U8TO64_LE_NOCASE. *)
Definition U8TO64_LE (low : Z -> Z) (p : list Z) (off : Z) : option Z :=
  b ← memread p off 8;
  let at_ (i : nat) := Z.shiftl (low (b !!! i)) (8 * Z.of_nat i) in
  Some (Z.lor (Z.lor (Z.lor (Z.lor (Z.lor (Z.lor (Z.lor (at_ 0%nat) (at_ 1%nat)) (at_ 2%nat))
         (at_ 3%nat)) (at_ 4%nat)) (at_ 5%nat)) (at_ 6%nat)) (at_ 7%nat)).

Record sip := Sip { v0 : Z; v1 : Z; v2 : Z; v3 : Z }.

Definition SIPROUND (s : sip) : sip :=
  let '(Sip v0 v1 v2 v3) := s in
  let v0 := u64 (v0 + v1) in
  let v1 := ROTL v1 13 in
  let v1 := Z.lxor v1 v0 in
  let v0 := ROTL v0 32 in
  let v2 := u64 (v2 + v3) in
  let v3 := ROTL v3 16 in
  let v3 := Z.lxor v3 v2 in
  let v0 := u64 (v0 + v3) in
  let v3 := ROTL v3 21 in
  let v3 := Z.lxor v3 v0 in
  let v2 := u64 (v2 + v1) in
  let v1 := ROTL v1 17 in
  let v1 := Z.lxor v1 v2 in
  let v2 := ROTL v2 32 in
  Sip v0 v1 v2 v3.

(** [v3 ^= m; SIPROUND; v0 ^= m] *)
Definition sip_absorb (s : sip) (m : Z) : sip :=
  let s := SIPROUND (Sip (v0 s) (v1 s) (v2 s) (Z.lxor (v3 s) m)) in
  Sip (Z.lxor (v0 s) m) (v1 s) (v2 s) (v3 s).

(** [for (; in != end; in += 8)] *)
Fixpoint sip_loop (fuel : nat) (low : Z -> Z) (inp : list Z) (i end_ : Z) (s : sip) : option (sip * Z) :=
  if i =? end_ then Some (s, i)
  else
    match fuel with
    | O => None
    | S fuel => m ← U8TO64_LE low inp i; sip_loop fuel low inp (i + 8) end_ (sip_absorb s m)
    end.

(** The switch over the bytes left: case [left] falls through to the lower ones. *)
Fixpoint sip_tail (low : Z -> Z) (inp : list Z) (i : Z) (left : nat) (b : Z) : option Z :=
  match left with
  | O => Some b
  | S j =>
      c ← inp !! Z.to_nat (i + Z.of_nat j);
      sip_tail low inp i j (Z.lor b (Z.shiftl (low c) (8 * Z.of_nat j)))
  end.

Definition sip_init (k0 k1 : Z) : sip :=
  Sip (Z.lxor 0x736f6d6570736575 k0) (Z.lxor 0x646f72616e646f6d k1)
      (Z.lxor 0x6c7967656e657261 k0) (Z.lxor 0x7465646279746573 k1).

Definition siphash_with (low : Z -> Z) (inp : list Z) (inlen : Z) (k : list Z) : option Z :=
  k0 ← U8TO64_LE (fun c => c) k 0;
  k1 ← U8TO64_LE (fun c => c) k 8;
  let end_ := inlen - inlen mod 8 in
  let left := Z.land inlen 7 in
  let b := u64 (Z.shiftl inlen 56) in
  '(s, i) ← sip_loop (Z.to_nat inlen) low inp 0 end_ (sip_init k0 k1);
  b ← sip_tail low inp i (Z.to_nat left) b;
  let s := sip_absorb s b in
  let s := Sip (v0 s) (v1 s) (Z.lxor (v2 s) 0xff) (v3 s) in
  let s := SIPROUND s in
  let s := SIPROUND s in
  Some (Z.lxor (Z.lxor (Z.lxor (v0 s) (v1 s)) (v2 s)) (v3 s)).

Definition siphash := siphash_with (fun c => c).
Definition siphash_nocase := siphash_with siptlw.

(** ** SipHash-c-d as its authors define it

    The message is padded with zeros and its length modulo 256 to whole 64-bit
    little-endian words; c rounds absorb each word, d rounds finish. *)
Module Spec.
Definition le_word (l : list Z) : Z := foldr (fun b x => b + 256 * x) 0 l.

Fixpoint words (l : list Z) : list Z :=
  match l with
  | b0 :: b1 :: b2 :: b3 :: b4 :: b5 :: b6 :: b7 :: l => le_word [b0; b1; b2; b3; b4; b5; b6; b7] :: words l
  | _ => []
  end.

Definition pad (msg : list Z) : list Z :=
  msg ++ replicate (7 - length msg mod 8) 0 ++ [zlen msg mod 256].

Definition rotl (x n : Z) : Z := x * 2 ^ n mod 2 ^ 64 + x / 2 ^ (64 - n).

(** The two halves of the add-rotate-xor network, both lanes at once. *)
Definition half1 (s : sip) : sip :=
  let a := (v0 s + v1 s) mod 2 ^ 64 in
  let c := (v2 s + v3 s) mod 2 ^ 64 in
  Sip (rotl a 32) (Z.lxor (rotl (v1 s) 13) a) c (Z.lxor (rotl (v3 s) 16) c).
Definition half2 (s : sip) : sip :=
  let a := (v0 s + v3 s) mod 2 ^ 64 in
  let c := (v2 s + v1 s) mod 2 ^ 64 in
  Sip a (Z.lxor (rotl (v1 s) 17) c) (rotl c 32) (Z.lxor (rotl (v3 s) 21) a).
Definition round (s : sip) : sip := half2 (half1 s).

Definition absorb (c : nat) (s : sip) (m : Z) : sip :=
  let s := Nat.iter c round (Sip (v0 s) (v1 s) (v2 s) (Z.lxor (v3 s) m)) in
  Sip (Z.lxor (v0 s) m) (v1 s) (v2 s) (v3 s).

Definition finish (d : nat) (s : sip) : Z :=
  let s := Nat.iter d round (Sip (v0 s) (v1 s) (Z.lxor (v2 s) 0xff) (v3 s)) in
  Z.lxor (Z.lxor (Z.lxor (v0 s) (v1 s)) (v2 s)) (v3 s).

Definition siphash (c d : nat) (key msg : list Z) : Z :=
  let k0 := le_word (take 8 key) in
  let k1 := le_word (drop 8 key) in
  finish d (foldl (absorb c) (sip_init k0 k1) (words (pad msg))).
End Spec.

(** The published vector of SipHash-2-4 for the message 00 01 .. 0e, and the
    definition above on it. *)
Example spec_vector :
  Spec.siphash 2 4 (Z.of_nat <$> seq 0 16) (Z.of_nat <$> seq 0 15) = 0xa129ca6149be45e5.
Proof. by vm_compute. Qed.

Definition sip_ok (s : sip) : Prop :=
  0 <= v0 s < 2 ^ 64 /\ 0 <= v1 s < 2 ^ 64 /\ 0 <= v2 s < 2 ^ 64 /\ 0 <= v3 s < 2 ^ 64.

Lemma sip_ROTL_spec x n : 0 <= x < 2 ^ 64 -> 0 <= n <= 64 -> ROTL x n = Spec.rotl x n.
Proof. intros Hx Hn. by apply (lor_rotate 64). Qed.

Lemma sip_ROTL_range x n : 0 <= x < 2 ^ 64 -> 0 <= n <= 64 -> 0 <= ROTL x n < 2 ^ 64.
Proof.
  intros Hx Hn. apply lor_range; [done | by apply wrap_range |].
  rewrite Z.shiftr_div_pow2 by lia. pose proof (Z.pow_pos_nonneg 2 (64 - n)).
  split; [apply Z.div_pos; lia |]. apply Z.div_lt_upper_bound; [lia | nia].
Qed.

Lemma rotl_range x n : 0 <= x < 2 ^ 64 -> 0 <= n <= 64 -> 0 <= Spec.rotl x n < 2 ^ 64.
Proof. intros Hx Hn. rewrite <- sip_ROTL_spec by done. by apply sip_ROTL_range. Qed.

Ltac word64 :=
  repeat first [assumption | apply rotl_range; [|lia] | apply lxor_range; [done | |] | apply sip_ROTL_range; [|lia]
               | apply (wrap_range 64); lia].

Ltac four_words := refine (conj _ (conj _ (conj _ _))); cbn [v0 v1 v2 v3]; word64.

Lemma SIPROUND_ok s : sip_ok s -> sip_ok (SIPROUND s).
Proof.
  destruct s as [a b c d]. intros (Ha & Hb & Hc & Hd). cbn [v0 v1 v2 v3] in *.
  unfold sip_ok, SIPROUND. cbv zeta. cbn [v0 v1 v2 v3]. four_words.
Qed.

Lemma SIPROUND_spec s : sip_ok s -> SIPROUND s = Spec.round s.
Proof.
  destruct s as [a b c d]. intros (Ha & Hb & Hc & Hd). cbn [v0 v1 v2 v3] in *.
  unfold SIPROUND, Spec.round, Spec.half1, Spec.half2. cbv zeta. cbn [v0 v1 v2 v3].
  rewrite !sip_ROTL_spec by first [lia | word64]. reflexivity.
Qed.

Lemma sip_absorb_ok s m : sip_ok s -> 0 <= m < 2 ^ 64 -> sip_ok (sip_absorb s m).
Proof.
  intros (Ha & Hb & Hc & Hd) Hm.
  destruct (SIPROUND_ok (Sip (v0 s) (v1 s) (v2 s) (Z.lxor (v3 s) m))) as (? & ? & ? & ?);
    [four_words |].
  unfold sip_absorb. four_words.
Qed.

Lemma sip_absorb_spec s m : sip_ok s -> 0 <= m < 2 ^ 64 -> sip_absorb s m = Spec.absorb 1 s m.
Proof.
  intros (Ha & Hb & Hc & Hd) Hm. unfold sip_absorb, Spec.absorb. cbn [Nat.iter].
  rewrite SIPROUND_spec; [done |]. four_words.
Qed.

(** ** Little-endian words *)
Lemma le_word_range l : bytes l -> 0 <= Spec.le_word l < 256 ^ zlen l.
Proof.
  induction l as [|b l IH]; intros Hl; [done |]. apply Forall_cons in Hl as [Hb Hl].
  rewrite zlen_cons, Z.pow_add_r by (try apply zlen_nonneg; lia). change (256 ^ 1) with 256.
  specialize (IH Hl). unfold byte in Hb. cbn [Spec.le_word foldr]. fold (Spec.le_word l). lia.
Qed.

Lemma le_word_snoc l b : Spec.le_word (l ++ [b]) = Spec.le_word l + 2 ^ (8 * zlen l) * b.
Proof.
  induction l as [|x l IH].
  { change (2 ^ (8 * zlen [])) with 1. cbn [app Spec.le_word foldr]. lia. }
  rewrite zlen_cons. cbn [app Spec.le_word foldr]. fold (Spec.le_word l). fold (Spec.le_word (l ++ [b])).
  rewrite IH. replace (8 * (1 + zlen l)) with (8 + 8 * zlen l) by lia.
  pose proof (zlen_nonneg l). rewrite Z.pow_add_r by lia. change (2 ^ 8) with 256. lia.
Qed.

Lemma pow256 n : 0 <= n -> 256 ^ n = 2 ^ (8 * n).
Proof. intros Hn. rewrite Z.pow_mul_r by lia. done. Qed.

(** Adding one byte above the ones read. *)
Lemma lor_byte l b : bytes l ->
  Z.lor (Spec.le_word l) (Z.shiftl b (8 * zlen l)) = Spec.le_word (l ++ [b]).
Proof.
  intros Hl. pose proof (zlen_nonneg l). pose proof (le_word_range l Hl) as Hr.
  rewrite pow256 in Hr by done.
  rewrite Z.lor_comm, Z.shiftl_mul_pow2, le_word_snoc by lia. rewrite lor_fields by lia. lia.
Qed.

Class ByteMap (low : Z -> Z) : Prop := byte_map b : byte b -> byte (low b).
#[export] Instance id_byte_map : ByteMap (fun c => c).
Proof. by intros b Hb. Qed.
#[export] Instance siptlw_byte_map : ByteMap siptlw.
Proof.
  intros b Hb. unfold siptlw, byte in *. destruct (Z.leb_spec 65 b), (Z.leb_spec b 90); cbn [andb]; lia.
Qed.

Section Low.
Context (low : Z -> Z) `{!ByteMap low}.

Lemma low_bytes l : bytes l -> bytes (low <$> l).
Proof. intros Hl. apply Forall_fmap. eapply Forall_impl; [exact Hl |]. apply byte_map. Qed.

Lemma U8TO64_LE_spec pre c post :
  bytes c -> length c = 8%nat ->
  U8TO64_LE low (pre ++ c ++ post) (zlen pre) = Some (Spec.le_word (low <$> c)).
Proof.
  intros Hc Hl. unfold U8TO64_LE. replace 8 with (zlen c) at 1 by (unfold zlen; lia).
  rewrite memread_app. cbn [mbind option_bind]. f_equal.
  apply low_bytes in Hc. do 8 (destruct c as [|? c]; [done |]). destruct c; [|done].
  rewrite !fmap_cons in Hc |- *. cbn [lookup_total list_lookup_total list_fmap fmap] in *.
  set (x := [low _; _; _; _; _; _; _; _]) in *.
  assert (forall n, bytes (take n x)) as Ht by (intros n; by apply Forall_take).
  change (Z.shiftl (low z) (8 * Z.of_nat 0)) with (Z.shiftl (low z) 0).
  rewrite Z.shiftl_0_r. replace (low z) with (Spec.le_word (take 1 x)) by (cbn; lia).
  rewrite (lor_byte (take 1 x)), (lor_byte (take 2 x)), (lor_byte (take 3 x)), (lor_byte (take 4 x)),
    (lor_byte (take 5 x)), (lor_byte (take 6 x)), (lor_byte (take 7 x)) by apply Ht.
  reflexivity.
Qed.

Lemma sip_tail_spec tail pre post : forall B,
  bytes tail -> 0 <= B ->
  sip_tail low (pre ++ tail ++ post) (zlen pre) (length tail) (B * 2 ^ (8 * zlen tail))
  = Some (B * 2 ^ (8 * zlen tail) + Spec.le_word (low <$> tail)).
Proof.
  revert post. induction tail as [|c tail IH] using rev_ind; intros post B Ht HB.
  { cbn [length sip_tail]. cbn. f_equal. lia. }
  apply Forall_app in Ht as [Ht Hc%Forall_cons_1]. destruct Hc as [Hc _]. apply byte_map in Hc.
  pose proof (zlen_nonneg tail) as Hz.
  rewrite length_app, Nat.add_comm. cbn [length Nat.add sip_tail].
  rewrite <- app_assoc. cbn [app].
  replace (Z.to_nat (zlen pre + Z.of_nat (length tail))) with (length (pre ++ tail))
    by (rewrite length_app; unfold zlen; lia).
  rewrite (app_assoc pre), list_lookup_middle by done. cbn [mbind option_bind]. rewrite <- app_assoc.
  change (Z.of_nat (length tail)) with (zlen tail).
  rewrite zlen_app. change (zlen [c]) with 1.
  replace (8 * (zlen tail + 1)) with (8 + 8 * zlen tail) by lia.
  rewrite Z.pow_add_r, Z.mul_assoc by lia. change (2 ^ 8) with 256.
  rewrite Z.shiftl_mul_pow2 by lia.
  assert (Z.lor (B * 256 * 2 ^ (8 * zlen tail)) (low c * 2 ^ (8 * zlen tail))
          = (B * 256 + low c) * 2 ^ (8 * zlen tail)) as ->.
  { rewrite <- !Z.shiftl_mul_pow2, <- Z.shiftl_lor by lia. rewrite !Z.shiftl_mul_pow2 by lia. f_equal.
    apply (lor_fields 8); unfold byte in Hc; lia. }
  rewrite IH by (unfold byte in Hc; first [done | lia]).
  rewrite fmap_app. cbn [fmap list_fmap]. rewrite le_word_snoc.
  assert (zlen (low <$> tail) = zlen tail) as -> by (unfold zlen; by rewrite length_fmap).
  f_equal. lia.
Qed.

Lemma words_cons c l : length c = 8%nat -> Spec.words (c ++ l) = Spec.le_word c :: Spec.words l.
Proof. intros Hc. do 8 (destruct c as [|? c]; [done |]). by destruct c. Qed.

Lemma sip_loop_spec n : forall fuel pre body post s,
  bytes body -> length body = (8 * n)%nat -> (n <= fuel)%nat -> sip_ok s ->
  let s' := foldl (Spec.absorb 1) s (Spec.words (low <$> body)) in
  sip_loop fuel low (pre ++ body ++ post) (zlen pre) (zlen pre + zlen body) s
    = Some (s', zlen pre + zlen body) /\ sip_ok s'.
Proof.
  induction n as [|n IH]; intros fuel pre body post s Hb Hl Hf Hs; cbv zeta.
  { destruct body; [|done]. cbn [fmap list_fmap Spec.words foldl]. change (zlen []) with 0.
    rewrite Z.add_0_r. split; [|done]. destruct fuel; cbn [sip_loop]; by rewrite Z.eqb_refl. }
  destruct fuel as [|fuel]; [lia |].
  destruct (split_at_len body 8) as (c & body' & -> & Hc); [lia |]. rewrite length_app in Hl.
  apply Forall_app in Hb as [Hbc Hb].
  cbn [sip_loop]. rewrite (proj2 (Z.eqb_neq _ _)) by (rewrite zlen_app; pose proof (zlen_nonneg body'); unfold zlen; lia).
  rewrite <- (app_assoc c), U8TO64_LE_spec by done. cbn [mbind option_bind].
  rewrite fmap_app, words_cons by (by rewrite length_fmap). cbn [foldl].
  assert (0 <= Spec.le_word (low <$> c) < 2 ^ 64) as Hm.
  { pose proof (le_word_range _ (low_bytes c Hbc)) as Hr. unfold zlen in Hr.
    rewrite length_fmap, Hc in Hr. exact Hr. }
  destruct (IH fuel (pre ++ c) body' post (sip_absorb s (Spec.le_word (low <$> c)))) as [E Hok];
    [done | lia | lia | by apply sip_absorb_ok |].
  rewrite <- (sip_absorb_spec s) by done. split; [|exact Hok].
  rewrite <- app_assoc, !zlen_app in E. replace (zlen c) with 8 in E by (unfold zlen; lia).
  rewrite zlen_app. replace (zlen c) with 8 by (unfold zlen; lia). rewrite Z.add_assoc. exact E.
Qed.
End Low.

Lemma land7 n : Z.land n 7 = n mod 8.
Proof. exact (land_mask n 3 ltac:(lia)). Qed.

Lemma le_word_zeros l k : Spec.le_word (l ++ replicate k 0) = Spec.le_word l.
Proof.
  induction l as [|b l IH]; [by induction k as [|k IHk]; [|cbn in *; rewrite IHk] |].
  cbn [app Spec.le_word foldr]. unfold Spec.le_word in IH. by rewrite IH.
Qed.

Lemma shiftl_56 n : u64 (Z.shiftl n 56) = n mod 256 * 2 ^ 56.
Proof.
  rewrite Z.shiftl_mul_pow2 by done. unfold wrap. change (2 ^ 64) with (256 * 2 ^ 56).
  by rewrite Z.mul_mod_distr_r.
Qed.

(** The last word: the length in the top byte, the bytes left below it. *)
Definition last_word (tail : list Z) (n : Z) : Z := u64 (Z.shiftl n 56) + Spec.le_word tail.

Lemma last_word_spec tail n : (length tail <= 7)%nat ->
  Spec.le_word (tail ++ replicate (7 - length tail) 0 ++ [n mod 256]) = last_word tail n.
Proof.
  intros Hl. rewrite app_assoc, le_word_snoc, le_word_zeros. unfold last_word. rewrite shiftl_56.
  replace (8 * zlen _) with 56 by (unfold zlen; rewrite length_app, length_replicate; lia). lia.
Qed.

Lemma le_word8_range l : bytes l -> length l = 8%nat -> 0 <= Spec.le_word l < 2 ^ 64.
Proof. intros Hb Hl. pose proof (le_word_range l Hb) as Hr. unfold zlen in Hr. by rewrite Hl in Hr. Qed.

Lemma last_word_range tail n : bytes tail -> (length tail <= 7)%nat -> 0 <= last_word tail n < 2 ^ 64.
Proof.
  intros Ht Hl. rewrite <- last_word_spec by done. apply le_word8_range.
  - repeat (apply Forall_app; split); [done | |].
    + apply Forall_replicate. unfold byte. lia.
    + constructor; [|constructor]. apply Z.mod_pos_bound. lia.
  - rewrite !length_app, length_replicate. cbn. lia.
Qed.

Lemma words_app q : forall body l, length body = (8 * q)%nat ->
  Spec.words (body ++ l) = Spec.words body ++ Spec.words l.
Proof.
  induction q as [|q IH]; intros body l Hl; [by destruct body |].
  destruct (split_at_len body 8) as (c & l' & -> & Hc); [lia |]. rewrite length_app in Hl.
  rewrite <- app_assoc, (words_cons c l'), words_cons by done. cbn [app]. f_equal. apply IH. lia.
Qed.

Lemma words_pad q body tail : length body = (8 * q)%nat -> (length tail <= 7)%nat ->
  Spec.words (Spec.pad (body ++ tail)) = Spec.words body ++ [last_word tail (zlen (body ++ tail))].
Proof.
  intros Hb Ht. unfold Spec.pad. rewrite <- app_assoc, (words_app q) by done. f_equal.
  assert (length (body ++ tail) mod 8 = length tail)%nat as ->.
  { rewrite length_app, Hb, Nat.add_comm, Nat.mul_comm, Nat.Div0.mod_add. apply Nat.mod_small. lia. }
  rewrite <- (last_word_spec tail) by done. set (t := tail ++ _).
  rewrite <- (app_nil_r t), words_cons, app_nil_r; [done |]. unfold t.
  rewrite !length_app, length_replicate. cbn. lia.
Qed.

(** The length word leaves room for the bytes left. *)
Lemma length_word (tail : list Z) n : (length tail <= 7)%nat ->
  exists B, 0 <= B /\ u64 (Z.shiftl n 56) = B * 2 ^ (8 * zlen tail).
Proof.
  intros Hl. exists (n mod 256 * 2 ^ (56 - 8 * zlen tail)). rewrite shiftl_56.
  assert (8 * zlen tail <= 56) by (unfold zlen; lia). pose proof (zlen_nonneg tail).
  split; [apply Z.mul_nonneg_nonneg; [apply Z.mod_pos_bound; lia | apply Z.pow_nonneg; lia] |].
  rewrite <- Z.mul_assoc, <- Z.pow_add_r by lia. do 2 f_equal. lia.
Qed.

Lemma sip_init_ok k0 k1 : 0 <= k0 < 2 ^ 64 -> 0 <= k1 < 2 ^ 64 -> sip_ok (sip_init k0 k1).
Proof. intros H0 H1. unfold sip_init. four_words; first [lia | done]. Qed.

Lemma finish_spec s : sip_ok s ->
  (let s := Sip (v0 s) (v1 s) (Z.lxor (v2 s) 0xff) (v3 s) in
   let s := SIPROUND s in let s := SIPROUND s in
   Z.lxor (Z.lxor (Z.lxor (v0 s) (v1 s)) (v2 s)) (v3 s)) = Spec.finish 2 s.
Proof.
  intros (Ha & Hb & Hc & Hd). cbv zeta. unfold Spec.finish. cbn [Nat.iter].
  assert (sip_ok (Sip (v0 s) (v1 s) (Z.lxor (v2 s) 255) (v3 s))) as Hs
    by (four_words; first [lia | done]).
  pose proof (SIPROUND_ok _ Hs) as Hs2. by rewrite (SIPROUND_spec _ Hs2), (SIPROUND_spec _ Hs).
Qed.

Section Correct.
Context (low : Z -> Z) `{!ByteMap low}.

Lemma siphash_with_spec body tail q rest ka kb rest' :
  length body = (8 * q)%nat -> (length tail <= 7)%nat -> length ka = 8%nat -> length kb = 8%nat ->
  bytes body -> bytes tail -> bytes ka -> bytes kb ->
  siphash_with low (body ++ tail ++ rest) (zlen (body ++ tail)) (ka ++ kb ++ rest')
  = Some (Spec.siphash 1 2 (ka ++ kb) (low <$> body ++ tail)).
Proof.
  intros Hlb Hlt Hka Hkb Hbb Hbt Hba Hbk. unfold siphash_with. cbv zeta.
  pose proof (U8TO64_LE_spec (fun c => c) [] ka (kb ++ rest') Hba Hka) as E0.
  pose proof (U8TO64_LE_spec (fun c => c) ka kb rest' Hbk Hkb) as E1.
  cbn [app] in E0. change (zlen []) with 0 in E0. replace (zlen ka) with 8 in E1 by (unfold zlen; lia).
  rewrite E0. cbn [mbind option_bind]. rewrite E1. cbn [mbind option_bind]. rewrite !list_fmap_id.
  set (s0 := sip_init _ _).
  assert (sip_ok s0) as Hs0 by (apply sip_init_ok; by apply le_word8_range).
  set (n := zlen (body ++ tail)).
  assert (n = zlen tail + zlen body) as En by (unfold n; rewrite zlen_app; lia).
  assert (n mod 8 = zlen tail) as Emod by (unfold zlen in *; zdiv).
  destruct (sip_loop_spec low q (Z.to_nat n) [] body (tail ++ rest) s0) as [El Hok];
    [done | done | unfold zlen in *; lia | done |].
  cbn [app] in El. change (zlen []) with 0 in El. rewrite Z.add_0_l in El.
  rewrite land7, Emod. replace (n - zlen tail) with (zlen body) by lia.
  rewrite El. cbn [mbind option_bind].
  replace (Z.to_nat (zlen tail)) with (length tail) by (unfold zlen; lia).
  destruct (length_word tail n Hlt) as (B & HB & EB).
  rewrite EB, (sip_tail_spec low tail body rest B) by done. cbn [mbind option_bind]. rewrite <- EB.
  fold (last_word (low <$> tail) n).
  unfold Spec.siphash. rewrite take_app_length', drop_app_length' by done. fold s0.
  rewrite fmap_app, (words_pad q) by (by rewrite length_fmap).
  assert (zlen ((low <$> body) ++ (low <$> tail)) = n) as -> by (unfold n, zlen; by rewrite !length_app, !length_fmap).
  rewrite foldl_app. cbn [foldl].
  assert (0 <= last_word (low <$> tail) n < 2 ^ 64) as Hlw
    by (apply last_word_range; [by apply low_bytes | by rewrite length_fmap]).
  rewrite <- sip_absorb_spec by done. f_equal. by apply finish_spec, sip_absorb_ok.
Qed.

Lemma siphash_with_correct msg rest key rest' :
  bytes msg -> bytes key -> length key = 16%nat ->
  siphash_with low (msg ++ rest) (zlen msg) (key ++ rest') = Some (Spec.siphash 1 2 key (low <$> msg)).
Proof.
  intros Hm Hk Hlk. pose proof (Nat.div_mod_eq (length msg) 8) as Ed.
  pose proof (Nat.mod_upper_bound (length msg) 8 ltac:(lia)) as Hup. set (q := (length msg / 8)%nat) in *.
  destruct (split_at_len key 8) as (ka & kb & -> & Hka); [lia |].
  destruct (split_at_len msg (8 * q)) as (body & tail & -> & Hbody); [lia |].
  rewrite !length_app in *. apply Forall_app in Hm as [? ?], Hk as [? ?].
  rewrite <- !app_assoc. apply (siphash_with_spec body tail q); first [done | lia].
Qed.
End Correct.

(** C23: [siphash] computes SipHash-1-2 as its authors define it (little-endian words
    of the padded message, one round per word, two to finish), for every message and
    key, and reads no byte behind the message or the sixteen of the key;
    [siphash_nocase] is the same hash of the message in lower case, so two messages
    that differ in the case of letters only have one hash. *)
Theorem siphash_correct msg msg' rest key rest' :
  bytes msg -> bytes msg' -> bytes key -> length key = 16%nat ->
  siphash (msg ++ rest) (zlen msg) (key ++ rest') = Some (Spec.siphash 1 2 key msg) /\
  siphash_nocase (msg ++ rest) (zlen msg) (key ++ rest') = siphash (siptlw <$> msg) (zlen msg) key /\
  (siptlw <$> msg = siptlw <$> msg' ->
   siphash_nocase msg (zlen msg) key = siphash_nocase msg' (zlen msg') key).
Proof.
  intros Hm Hm' Hk Hl. unfold siphash, siphash_nocase.
  pose proof (siphash_with_correct siptlw msg [] key []) as E1.
  pose proof (siphash_with_correct siptlw msg' [] key []) as E2.
  pose proof (siphash_with_correct (fun c => c) (siptlw <$> msg) [] key []) as E3.
  rewrite ?app_nil_r in *. unfold zlen in E3. rewrite length_fmap in E3. fold (zlen msg) in E3.
  rewrite !siphash_with_correct, E3, E1, E2, !list_fmap_id by (first [done | apply _ | by apply (low_bytes siptlw)]).
  split; [done |]. split; [done |]. by intros ->.
Qed.

(** "hello world" and "HELLO world" under the key "1234567812345678". *)
Lemma siphash_correct_witness :
  let key := [49; 50; 51; 52; 53; 54; 55; 56; 49; 50; 51; 52; 53; 54; 55; 56] in
  let msg := [104; 101; 108; 108; 111; 32; 119; 111; 114; 108; 100] in
  let msg' := [72; 69; 76; 76; 79; 32; 119; 111; 114; 108; 100] in
  siphash (msg ++ []) (zlen msg) (key ++ []) = Some (Spec.siphash 1 2 key msg) /\
  siphash_nocase msg (zlen msg) key = siphash_nocase msg' (zlen msg') key.
Proof.
  cbv zeta. match goal with |- siphash (?m ++ _) _ (?k ++ _) = _ /\ siphash_nocase _ _ _ = siphash_nocase ?m' _ _ =>
    destruct (siphash_correct m m' [] k []) as (H1 & _ & H2); [decided .. |] end.
  split; [exact H1 | apply H2; reflexivity].
Defined.
