(* ===== verification/RtlStr.v ===== *)
(** The C-string routines: src/rtlstr.c.

    A string argument is the block its pointer leads to, from that cell on; the
    cells are signed chars.  Reading or writing behind a block is the [None] of the
    result.  Source and destination are different blocks, as for the functions of
    <string.h>. *)
From S2P Require Import Prelude.

(** [dest[i] = c] *)
Definition store (dest : list Z) (i c : Z) : option (list Z) := memcpy_at dest i [c].

Fixpoint strlen_loop (s : list Z) (n : Z) : option Z :=
  match s with
  | [] => None
  | c :: s => if c =? 0 then Some n else strlen_loop s (u64 (n + 1))
  end.
Definition rtl_strlen (s : list Z) : option Z := strlen_loop s 0.

(** [for (i = 0; src[i] != 0; i++) dest[i] = src[i]] *)
Fixpoint strcpy_loop (src : list Z) (i : Z) (dest : list Z) : option (Z * list Z) :=
  match src with
  | [] => None
  | c :: src =>
      if c =? 0 then Some (i, dest)
      else dest ← store dest i c; strcpy_loop src (i + 1) dest
  end.
Definition rtl_strcpy (dest src : list Z) : option (list Z) :=
  '(i, dest) ← strcpy_loop src 0 dest;
  store dest i 0.

(** The first loop of [rtl_strncpy]: [src[i]] is read only when [i < n]. *)
Fixpoint strncpy_loop (src : list Z) (i n : Z) (dest : list Z) : option (Z * list Z) :=
  if i <? n then
    match src with
    | [] => None
    | c :: src =>
        if c =? 0 then Some (i, dest)
        else dest ← store dest i c; strncpy_loop src (i + 1) n dest
    end
  else Some (i, dest).
(** [for ( ; i < n; i++) dest[i] = 0], [turns] times *)
Fixpoint zero_fill (turns : nat) (i : Z) (dest : list Z) : option (list Z) :=
  match turns with
  | O => Some dest
  | S turns => dest ← store dest i 0; zero_fill turns (i + 1) dest
  end.
Definition rtl_strncpy (dest src : list Z) (n : Z) : option (list Z) :=
  '(i, dest) ← strncpy_loop src 0 n dest;
  zero_fill (Z.to_nat (n - i)) i dest.

(** The nested conditional the comparisons end with. *)
Definition char_cmp (c1 c2 : Z) : Z := if c1 <? c2 then -1 else if c2 <? c1 then 1 else 0.

Fixpoint rtl_strcmp (s1 s2 : list Z) : option Z :=
  match s1, s2 with
  | c1 :: s1, c2 :: s2 =>
      if negb (c1 =? 0) && negb (c2 =? 0) then
        if c1 <? c2 then Some (-1) else if c2 <? c1 then Some 1 else rtl_strcmp s1 s2
      else Some (char_cmp c1 c2)
  | _, _ => None
  end.

Fixpoint strncmp_loop (s1 s2 : list Z) (i n : Z) : option Z :=
  match s1, s2 with
  | c1 :: s1, c2 :: s2 =>
      if negb (c1 =? 0) && negb (c2 =? 0) && (i <? n) then
        if c1 <? c2 then Some (-1) else if c2 <? c1 then Some 1 else strncmp_loop s1 s2 (i + 1) n
      else Some (char_cmp c1 c2)
  | _, _ => None
  end.
Definition rtl_strncmp (s1 s2 : list Z) (n : Z) : option Z := strncmp_loop s1 s2 0 n.

(** [if (c >= 'A' && c <= 'Z') c += 0x20] *)
Definition lower (c : Z) : Z := if (65 <=? c) && (c <=? 90) then s8 (c + 0x20) else c.

Fixpoint rtl_strcasecmp (s1 s2 : list Z) : option Z :=
  match s1, s2 with
  | x1 :: s1, x2 :: s2 =>
      if negb (x1 =? 0) && negb (x2 =? 0) then
        let c1 := lower x1 in
        let c2 := lower x2 in
        if c1 <? c2 then Some (-1) else if c2 <? c1 then Some 1 else rtl_strcasecmp s1 s2
      else Some (char_cmp x1 x2)
  | _, _ => None
  end.

Fixpoint strncasecmp_loop (s1 s2 : list Z) (i n : Z) : option Z :=
  match s1, s2 with
  | x1 :: s1, x2 :: s2 =>
      if negb (x1 =? 0) && negb (x2 =? 0) && (i <? n) then
        let c1 := lower x1 in
        let c2 := lower x2 in
        if c1 <? c2 then Some (-1) else if c2 <? c1 then Some 1 else strncasecmp_loop s1 s2 (i + 1) n
      else Some 0
  | _, _ => None
  end.
Definition rtl_strncasecmp (s1 s2 : list Z) (n : Z) : option Z := strncasecmp_loop s1 s2 0 n.

(** [alloc n] is a block of [n] cells or NULL; the result is the copy, or NULL. *)
Definition rtl_strdup (alloc : Z -> option (list Z)) (s : list Z) : option (option (list Z)) :=
  n ← rtl_strlen s;
  match alloc (u64 (n + 1)) with
  | Some dup => dup ← rtl_strcpy dup s; Some (Some dup)
  | None => Some None
  end.

Definition rtl_strndup (alloc : Z -> option (list Z)) (s : list Z) (n : Z) : option (option (list Z)) :=
  l ← rtl_strlen s;
  let k := if n <? l then n else l in
  match alloc (u64 (k + 1)) with
  | Some dup => dup ← rtl_strcpy dup s; Some (Some dup)
  | None => Some None
  end.

(** [while (r > sizeof(long))], a long at a time *)
Fixpoint memcpy_longs (fuel : nat) (dest src : list Z) (p r : Z) : option (list Z * Z * Z) :=
  if 8 <? r then
    match fuel with
    | O => None
    | S fuel =>
        w ← memread src p 8;
        dest ← memcpy_at dest p w;
        memcpy_longs fuel dest src (p + 8) (r - 8)
    end
  else Some (dest, p, r).
(** [while (r > 0)], a byte at a time *)
Fixpoint memcpy_bytes (fuel : nat) (dest src : list Z) (p r : Z) : option (list Z) :=
  if 0 <? r then
    match fuel with
    | O => None
    | S fuel =>
        b ← memread src p 1;
        dest ← memcpy_at dest p b;
        memcpy_bytes fuel dest src (p + 1) (r - 1)
    end
  else Some dest.
Definition rtl_memcpy (dest src : list Z) (n : Z) : option (list Z) :=
  '(dest, p, r) ← memcpy_longs (Z.to_nat n) dest src 0 n;
  memcpy_bytes (Z.to_nat r) dest src p r.

(** ** Specifications *)
(** A string is a list without NUL; in memory the NUL and anything follow. *)
Definition chars (s : list Z) : Prop := Forall (fun c => c <> 0) s.
#[export] Instance chars_dec s : Decision (chars s).
Proof. unfold chars. apply _. Defined.

(** Lexicographic order of the characters. *)
Fixpoint lex (a b : list Z) : Z :=
  match a, b with
  | [], [] => 0
  | [], _ :: _ => -1
  | _ :: _, [] => 1
  | x :: a, y :: b => if x <? y then -1 else if y <? x then 1 else lex a b
  end.

Lemma lex_eq a : forall b, lex a b = 0 <-> a = b.
Proof.
  induction a as [|x a IH]; intros [|y b]; cbn [lex]; try (by split).
  destruct (Z.ltb_spec x y), (Z.ltb_spec y x); try (split; [done | intros [= -> _]; lia]).
  assert (x = y) as -> by lia. rewrite IH. split; [by intros -> | by intros [= ->]].
Qed.

Lemma lex_antisym a : forall b, lex a b = - lex b a.
Proof.
  induction a as [|x a IH]; intros [|y b]; cbn [lex]; try done.
  destruct (Z.ltb_spec x y), (Z.ltb_spec y x); first [lia | apply IH].
Qed.

Lemma lex_trans a : forall b c, lex a b < 0 -> lex b c < 0 -> lex a c < 0.
Proof.
  induction a as [|x a IH]; intros [|y b] [|z c]; cbn [lex]; try lia.
  destruct (Z.ltb_spec x y), (Z.ltb_spec y x), (Z.ltb_spec y z), (Z.ltb_spec z y),
    (Z.ltb_spec x z), (Z.ltb_spec z x); try lia. apply IH.
Qed.

(** What the mapped loops compare. *)
Lemma strcmp_lex a : forall b ra rb, chars a -> chars b ->
  rtl_strcmp (a ++ 0 :: ra) (b ++ 0 :: rb) = Some (lex (a ++ [0]) (b ++ [0])).
Proof.
  induction a as [|x a IH]; intros [|y b] ra rb Ha Hb;
    try (apply Forall_cons in Ha as [Hx Ha]); try (apply Forall_cons in Hb as [Hy Hb]);
    cbn [app rtl_strcmp lex]; unfold char_cmp;
    rewrite ?Z.eqb_refl, ?(proj2 (Z.eqb_neq x 0)), ?(proj2 (Z.eqb_neq y 0)) by done;
    cbn [negb andb]; try done.
  - destruct (Z.ltb_spec 0 y), (Z.ltb_spec y 0); (done || lia).
  - destruct (Z.ltb_spec x 0), (Z.ltb_spec 0 x); (done || lia).
  - destruct (x <? y), (y <? x); try done. by apply IH.
Qed.

Lemma strncmp_lex a : forall b ra rb i n, chars a -> chars b -> i <= n ->
  strncmp_loop (a ++ 0 :: ra) (b ++ 0 :: rb) i n
  = Some (lex (take (S (Z.to_nat (n - i))) (a ++ [0])) (take (S (Z.to_nat (n - i))) (b ++ [0]))).
Proof.
  induction a as [|x a IH]; intros [|y b] ra rb i n Ha Hb Hi;
    try (apply Forall_cons in Ha as [Hx Ha]); try (apply Forall_cons in Hb as [Hy Hb]);
    cbn [app strncmp_loop take lex]; unfold char_cmp;
    rewrite ?Z.eqb_refl, ?(proj2 (Z.eqb_neq x 0)), ?(proj2 (Z.eqb_neq y 0)) by done;
    cbn [negb andb]; try by rewrite take_nil.
  - destruct (Z.ltb_spec 0 y), (Z.ltb_spec y 0); (done || lia).
  - destruct (Z.ltb_spec x 0), (Z.ltb_spec 0 x); (done || lia).
  - destruct (Z.ltb_spec i n).
    + destruct (x <? y), (y <? x); try done. rewrite IH by (done || lia).
      by replace (Z.to_nat (n - i)) with (S (Z.to_nat (n - (i + 1)))) by lia.
    + replace (Z.to_nat (n - i)) with 0%nat by lia. rewrite !take_0. cbn [lex].
      by destruct (x <? y), (y <? x).
Qed.

Lemma lower_spec c : -128 <= c < 128 -> lower c = if decide (65 <= c <= 90) then c + 32 else c.
Proof.
  intros Hc. unfold lower. destruct (Z.leb_spec 65 c), (Z.leb_spec c 90); cbn [andb];
    first [rewrite decide_True by lia; apply swrap_small; pow2; lia | by rewrite decide_False by lia].
Qed.

Lemma lower_0 : lower 0 = 0.
Proof. done. Qed.

Lemma lower_sign c : -128 <= c < 128 -> (0 <? lower c) = (0 <? c) /\ (lower c <? 0) = (c <? 0).
Proof.
  intros Hc. rewrite lower_spec by done. case_decide; [|done].
  destruct (Z.ltb_spec 0 (c + 32)), (Z.ltb_spec 0 c), (Z.ltb_spec (c + 32) 0), (Z.ltb_spec c 0); (done || lia).
Qed.

Definition signed_chars (s : list Z) : Prop := Forall (fun c => -128 <= c < 128) s.
#[export] Instance signed_chars_dec s : Decision (signed_chars s).
Proof. unfold signed_chars. apply _. Defined.

Lemma lower_chars s : signed_chars s -> chars s -> chars (lower <$> s).
Proof.
  induction s as [|c s IH]; intros Hs Hc; [constructor |].
  apply Forall_cons in Hs as [Hs1 Hs], Hc as [Hc1 Hc]. rewrite fmap_cons. constructor; [|by apply IH].
  rewrite lower_spec by done. case_decide; lia.
Qed.

Lemma strcasecmp_lower a : forall b ra rb, chars a -> chars b -> signed_chars a -> signed_chars b ->
  rtl_strcasecmp (a ++ 0 :: ra) (b ++ 0 :: rb) = rtl_strcmp ((lower <$> a) ++ 0 :: ra) ((lower <$> b) ++ 0 :: rb).
Proof.
  induction a as [|x a IH]; intros [|y b] ra rb Ha Hb Sa Sb; [done |..];
    pose proof (lower_chars _ Sa Ha) as La; pose proof (lower_chars _ Sb Hb) as Lb;
    rewrite ?fmap_cons in *;
    try (apply Forall_cons in Ha as [Hx Ha], La as [Lx La], Sa as [Sx Sa]);
    try (apply Forall_cons in Hb as [Hy Hb], Lb as [Ly Lb], Sb as [Sy Sb]);
    cbn [fmap list_fmap app rtl_strcasecmp rtl_strcmp]; unfold char_cmp;
    rewrite ?Z.eqb_refl, ?(proj2 (Z.eqb_neq x 0)), ?(proj2 (Z.eqb_neq y 0)),
      ?(proj2 (Z.eqb_neq (lower x) 0)), ?(proj2 (Z.eqb_neq (lower y) 0)) by done; cbn [negb andb].
  - by destruct (lower_sign y Sy) as [-> ->].
  - by destruct (lower_sign x Sx) as [-> ->].
  - by rewrite IH.
Qed.

Lemma strncasecmp_lex a : forall b ra rb i n, chars a -> chars b -> i <= n ->
  let m := Nat.min (Z.to_nat (n - i)) (Nat.min (length a) (length b)) in
  strncasecmp_loop (a ++ 0 :: ra) (b ++ 0 :: rb) i n = Some (lex (lower <$> take m a) (lower <$> take m b)).
Proof.
  induction a as [|x a IH]; intros [|y b] ra rb i n Ha Hb Hi; cbv zeta;
    try (apply Forall_cons in Ha as [Hx Ha]); try (apply Forall_cons in Hb as [Hy Hb]);
    cbn [app strncasecmp_loop length];
    rewrite ?Nat.min_0_l, ?Nat.min_0_r, ?take_0, ?Z.eqb_refl, ?(proj2 (Z.eqb_neq x 0)), ?(proj2 (Z.eqb_neq y 0)) by done;
    cbn [negb andb]; try done.
  destruct (Z.ltb_spec i n).
  - replace (Z.to_nat (n - i)) with (S (Z.to_nat (n - (i + 1)))) by lia. cbn [Nat.min take].
    rewrite !fmap_cons. cbn [lex]. destruct (lower x <? lower y), (lower y <? lower x); try done.
    by apply IH; [| |lia].
  - replace (Z.to_nat (n - i)) with 0%nat by lia. done.
Qed.

(** the comparisons order the strings by their (signed) characters, the end of
    the string counting as the character 0: [rtl_strcmp] gives 0 exactly for equal
    strings, the opposite sign for swapped arguments, and a transitive "less";
    [rtl_strcasecmp] is [rtl_strcmp] of the two strings in lower case. *)
Theorem rtl_strcmp_order a b c ra rb rc :
  chars a -> chars b -> chars c -> signed_chars a -> signed_chars b ->
  exists r, rtl_strcmp (a ++ 0 :: ra) (b ++ 0 :: rb) = Some r /\ r ∈ [-1; 0; 1] /\
    (r = 0 <-> a = b) /\
    rtl_strcmp (b ++ 0 :: rb) (a ++ 0 :: ra) = Some (- r) /\
    (r < 0 -> rtl_strcmp (b ++ 0 :: rb) (c ++ 0 :: rc) = Some (-1) ->
       rtl_strcmp (a ++ 0 :: ra) (c ++ 0 :: rc) = Some (-1)) /\
    rtl_strcasecmp (a ++ 0 :: ra) (b ++ 0 :: rb)
      = rtl_strcmp ((lower <$> a) ++ 0 :: ra) ((lower <$> b) ++ 0 :: rb).
Proof.
  intros Ha Hb Hc Sa Sb. rewrite !strcmp_lex by done.
  assert (forall u v, lex u v ∈ [-1; 0; 1]) as Hval.
  { induction u as [|x u IH]; intros [|y v]; cbn [lex]; try (rewrite !elem_of_cons; tauto).
    destruct (x <? y), (y <? x); first [apply IH | rewrite !elem_of_cons; tauto]. }
  eexists. split; [reflexivity |]. split; [apply Hval |]. split; [|split; [|split]].
  - rewrite lex_eq. split; [by intros [? _]%app_inj_tail | by intros ->].
  - by rewrite <- lex_antisym.
  - intros H1 [= H2]. f_equal. pose proof (lex_trans _ _ (c ++ [0]) H1 ltac:(lia)) as Hlt.
    specialize (Hval (a ++ [0]) (c ++ [0])). rewrite !elem_of_cons, elem_of_nil in Hval. lia.
  - by apply strcasecmp_lower.
Qed.

(** "ab", "b" and "ba" *)
Lemma rtl_strcmp_order_witness :
  rtl_strcmp ([97; 98] ++ 0 :: []) ([98] ++ 0 :: [7]) = Some (-1) /\
  exists r, rtl_strcmp ([97; 98] ++ 0 :: []) ([98] ++ 0 :: [7]) = Some r /\ (r = 0 <-> [97; 98] = [98]) /\
    (r < 0 -> rtl_strcmp ([98] ++ 0 :: [7]) ([98; 97] ++ 0 :: []) = Some (-1) ->
       rtl_strcmp ([97; 98] ++ 0 :: []) ([98; 97] ++ 0 :: []) = Some (-1)).
Proof.
  split; [reflexivity |].
  destruct (rtl_strcmp_order [97; 98] [98] [98; 97] [] [7] []) as (r & H1 & _ & H2 & _ & H3 & _); [decided .. |].
  exists r. split; [exact H1 |]. split; [exact H2 | exact H3].
Defined.

(** the bounded comparisons: [rtl_strncmp] with [n] compares up to [n + 1]
    characters (terminator included), since the characters behind the loop are
    compared although the bound has ended it; [rtl_strncasecmp] compares at most
    [n], in lower case, and takes a string for equal to any string it is a prefix
    of.  <string.h> compares [n] characters and orders a proper prefix first. *)
Theorem rtl_strncmp_bounds a b ra rb n :
  chars a -> chars b -> 0 <= n ->
  rtl_strncmp (a ++ 0 :: ra) (b ++ 0 :: rb) n
    = Some (lex (take (S (Z.to_nat n)) (a ++ [0])) (take (S (Z.to_nat n)) (b ++ [0]))) /\
  (let m := Nat.min (Z.to_nat n) (Nat.min (length a) (length b)) in
   rtl_strncasecmp (a ++ 0 :: ra) (b ++ 0 :: rb) n
     = Some (lex (lower <$> take m a) (lower <$> take m b))).
Proof.
  intros Ha Hb Hn. unfold rtl_strncmp, rtl_strncasecmp. cbv zeta. split.
  - rewrite strncmp_lex by done. by rewrite Z.sub_0_r.
  - pose proof (strncasecmp_lex a b ra rb 0 n Ha Hb Hn) as E. cbv zeta in E. by rewrite Z.sub_0_r in E.
Qed.

(** "abc" and "abd" with two characters; "ab" and "ABC" with five. *)
Lemma rtl_strncmp_bounds_witness :
  rtl_strncmp ([97; 98; 99] ++ 0 :: []) ([97; 98; 100] ++ 0 :: []) 2 = Some (-1) /\
  rtl_strncasecmp ([97; 98] ++ 0 :: []) ([65; 66; 67] ++ 0 :: []) 5 = Some 0.
Proof.
  split.
  - exact (proj1 (rtl_strncmp_bounds [97; 98; 99] [97; 98; 100] [] [] 2 ltac:(decided) ltac:(decided) ltac:(lia))).
  - exact (proj2 (rtl_strncmp_bounds [97; 98] [65; 66; 67] [] [] 5 ltac:(decided) ltac:(decided) ltac:(lia))).
Defined.

(** ** Copies *)
Lemma store_middle pre d post c : store (pre ++ d :: post) (zlen pre) c = Some (pre ++ c :: post).
Proof. exact (memcpy_at_app pre [d] post [c] eq_refl). Qed.

Lemma store_end dest c : store dest (zlen dest) c = None.
Proof.
  unfold store, memcpy_at. rewrite (proj2 (Z.leb_gt (zlen dest + zlen [c]) (zlen dest))) by (rewrite zlen_cons, zlen_nil; lia).
  by rewrite andb_false_r.
Qed.

Lemma strlen_spec a ra : chars a -> zlen a < 2 ^ 64 -> rtl_strlen (a ++ 0 :: ra) = Some (zlen a).
Proof.
  intros Ha Hl. unfold rtl_strlen.
  assert (forall n, 0 <= n -> n + zlen a < 2 ^ 64 -> strlen_loop (a ++ 0 :: ra) n = Some (n + zlen a)) as Hloop.
  { clear Hl. induction a as [|c a IH]; intros n Hn Hl; cbn [app strlen_loop].
    - rewrite Z.eqb_refl. change (zlen []) with 0. f_equal. lia.
    - apply Forall_cons in Ha as [Hc Ha]. rewrite zlen_cons in *. pose proof (zlen_nonneg a).
      rewrite (proj2 (Z.eqb_neq c 0)), (wrap_small 64 (n + 1)), IH by (done || lia). f_equal. lia. }
  rewrite Hloop by lia. done.
Qed.

Lemma strcpy_loop_spec a : forall ra pre d, chars a ->
  strcpy_loop (a ++ 0 :: ra) (zlen pre) (pre ++ d)
  = if (length a <=? length d)%nat then Some (zlen pre + zlen a, pre ++ a ++ drop (length a) d) else None.
Proof.
  induction a as [|c a IH]; intros ra pre d Ha; cbn [app strcpy_loop].
  { rewrite Z.eqb_refl. cbn [length Nat.leb app drop]. change (zlen []) with 0. by rewrite Z.add_0_r. }
  apply Forall_cons in Ha as [Hc Ha]. rewrite (proj2 (Z.eqb_neq c 0)) by done. destruct d as [|x d].
  { rewrite app_nil_r, store_end. done. }
  rewrite store_middle. cbn [mbind option_bind length Nat.leb drop].
  pose proof (IH ra (pre ++ [c]) d Ha) as E. rewrite zlen_app in E. change (zlen [c]) with 1 in E.
  rewrite <- !app_assoc in E. cbn [app] in E. rewrite E. destruct (length a <=? length d)%nat; [|done].
  rewrite zlen_cons. do 2 f_equal. lia.
Qed.

Lemma strcpy_spec dest a ra : chars a ->
  rtl_strcpy dest (a ++ 0 :: ra)
  = if zlen a <? zlen dest then Some (a ++ 0 :: drop (S (length a)) dest) else None.
Proof.
  intros Ha. unfold rtl_strcpy. pose proof (strcpy_loop_spec a ra [] dest Ha) as E.
  cbn [app] in E. change (zlen []) with 0 in E. rewrite E. clear E. unfold zlen.
  destruct (Nat.leb_spec (length a) (length dest)); cbn [mbind option_bind].
  - destruct (split_at_len dest (length a)) as (d1 & d2 & -> & Hd1); [lia |].
    rewrite drop_app_length', length_app, Z.add_0_l by lia.
    change (Z.of_nat (length a)) with (zlen a).
    destruct d2 as [|x d2].
    + rewrite app_nil_r, store_end. cbn [length]. by rewrite (proj2 (Z.ltb_ge _ _)) by (unfold zlen; lia).
    + rewrite store_middle. cbn [length]. rewrite (proj2 (Z.ltb_lt _ _)) by (unfold zlen; lia).
      rewrite (cons_middle x d1 d2), app_assoc, drop_app_length'; [done |]. rewrite length_app. cbn. lia.
  - rewrite (proj2 (Z.ltb_ge _ _)) by lia. done.
Qed.

Lemma strncpy_loop_spec a n : forall ra pre d, chars a -> zlen pre <= n -> n - zlen pre <= zlen d ->
  let t := take (Z.to_nat (n - zlen pre)) a in
  strncpy_loop (a ++ 0 :: ra) (zlen pre) n (pre ++ d)
  = Some (zlen pre + zlen t, pre ++ t ++ drop (length t) d).
Proof.
  induction a as [|c a IH]; intros ra pre d Ha Hn Hd; cbv zeta.
  { rewrite take_nil. cbn [app strncpy_loop]. change (zlen []) with 0. rewrite Z.add_0_r, Z.eqb_refl.
    by destruct (zlen pre <? n). }
  apply Forall_cons in Ha as [Hc Ha]. cbn [app strncpy_loop]. destruct (Z.ltb_spec (zlen pre) n).
  - rewrite (proj2 (Z.eqb_neq c 0)) by done.
    destruct d as [|x d]; [rewrite zlen_nil in Hd; lia |]. rewrite zlen_cons in Hd.
    rewrite store_middle. cbn [mbind option_bind].
    pose proof (IH ra (pre ++ [c]) d Ha) as E. cbv zeta in E.
    rewrite zlen_app in E. change (zlen [c]) with 1 in E. rewrite <- !app_assoc in E. cbn [app] in E.
    rewrite E by lia. replace (Z.to_nat (n - zlen pre)) with (S (Z.to_nat (n - (zlen pre + 1)))) by lia.
    cbn [take]. rewrite zlen_cons. cbn [app length drop]. do 2 f_equal. lia.
  - replace (Z.to_nat (n - zlen pre)) with 0%nat by lia. rewrite take_0. change (zlen []) with 0.
    by rewrite Z.add_0_r.
Qed.

Lemma zero_fill_spec k : forall pre d, (k <= length d)%nat ->
  zero_fill k (zlen pre) (pre ++ d) = Some (pre ++ replicate k 0 ++ drop k d).
Proof.
  induction k as [|k IH]; intros pre d Hk; [done |]. destruct d as [|x d]; [cbn in Hk; lia |].
  cbn [zero_fill]. rewrite store_middle. cbn [mbind option_bind].
  pose proof (IH (pre ++ [0]) d ltac:(cbn in Hk; lia)) as E. rewrite zlen_app in E.
  change (zlen [0]) with 1 in E. rewrite <- !app_assoc in E. exact E.
Qed.

Lemma strncpy_spec dest a ra n : chars a -> 0 <= n <= zlen dest ->
  rtl_strncpy dest (a ++ 0 :: ra) n
  = Some (take (Z.to_nat n) a ++ replicate (Z.to_nat n - length a) 0 ++ drop (Z.to_nat n) dest).
Proof.
  intros Ha Hn. unfold rtl_strncpy.
  pose proof (strncpy_loop_spec a n ra [] dest Ha) as E. cbv zeta in E. cbn [app] in E.
  change (zlen []) with 0 in E. rewrite Z.sub_0_r, Z.add_0_l in E. rewrite E by lia.
  cbn [mbind option_bind]. set (t := take (Z.to_nat n) a).
  assert (length t = Nat.min (Z.to_nat n) (length a)) as Ht by apply length_take.
  assert (Z.to_nat (n - zlen t) = (Z.to_nat n - length a)%nat) as Ek by (unfold zlen; lia).
  rewrite Ek, zero_fill_spec, drop_drop; [do 4 f_equal; lia |]. rewrite length_drop. unfold zlen in *. lia.
Qed.

(** memcpy *)
Section Memcpy.
Context (src dest0 : list Z) (n : Z).

Definition copied (dest : list Z) (p r : Z) : Prop :=
  0 <= p /\ 0 <= r /\ p + r = n /\ dest = take (Z.to_nat p) src ++ drop (Z.to_nat p) dest0.

Lemma copy_step dest p r k :
  n <= zlen src -> n <= zlen dest0 -> copied dest p r -> 0 <= k <= r ->
  exists w dest', memread src p k = Some w /\ memcpy_at dest p w = Some dest' /\ copied dest' (p + k) (r - k).
Proof.
  intros Hs Hd (Hp & Hr & Hn & ->) Hk.
  destruct (split_at_len src (Z.to_nat p)) as (s1 & s' & Es & H1); [unfold zlen in *; lia |].
  assert (length src = length s1 + length s')%nat as Hl1 by (by rewrite Es, length_app).
  destruct (split_at_len s' (Z.to_nat k)) as (w & s2 & -> & H2); [unfold zlen in *; lia |].
  destruct (split_at_len dest0 (Z.to_nat p)) as (d1 & d' & Ed & H3); [unfold zlen in *; lia |].
  assert (length dest0 = length d1 + length d')%nat as Hl2 by (by rewrite Ed, length_app).
  destruct (split_at_len d' (Z.to_nat k)) as (x & d2 & -> & H4); [unfold zlen in *; lia |].
  assert (p = zlen s1) as Ep by (unfold zlen; lia). assert (k = zlen w) as Ek by (unfold zlen; lia).
  exists w, (s1 ++ w ++ d2). rewrite Es, Ed.
  rewrite (take_app_length' s1), (drop_app_length' d1) by lia. unfold copied. split_and!.
  - rewrite Ep, Ek. apply memread_app.
  - rewrite Ep. apply memcpy_at_app. lia.
  - lia.
  - lia.
  - lia.
  - rewrite Es, Ed, (app_assoc s1 w s2), (app_assoc d1 x d2), (app_assoc s1 w d2).
    by rewrite take_app_length', drop_app_length' by (rewrite length_app; lia).
Qed.

Lemma memcpy_longs_spec fuel : forall dest p r,
  n <= zlen src -> n <= zlen dest0 -> copied dest p r -> r <= Z.of_nat fuel ->
  exists dest' p' r', memcpy_longs fuel dest src p r = Some (dest', p', r') /\ copied dest' p' r'.
Proof.
  induction fuel as [|fuel IH]; intros dest p r Hs Hd Hc Hf; cbn [memcpy_longs].
  { rewrite (proj2 (Z.ltb_ge _ _)) by lia. eauto 6. }
  destruct (Z.ltb_spec 8 r); [|eauto 6].
  destruct (copy_step dest p r 8) as (w & dest' & Hw & Hm & Hc'); [done.. | lia |].
  rewrite Hw. cbn [mbind option_bind]. rewrite Hm. cbn [mbind option_bind].
  destruct (IH dest' (p + 8) (r - 8)) as (? & ? & ? & ? & ?); [done.. | lia |]. eauto 6.
Qed.

Lemma memcpy_bytes_spec fuel : forall dest p r,
  n <= zlen src -> n <= zlen dest0 -> copied dest p r -> r <= Z.of_nat fuel ->
  exists dest', memcpy_bytes fuel dest src p r = Some dest' /\ copied dest' n 0.
Proof.
  assert (forall dest p r, copied dest p r -> r <= 0 -> copied dest n 0) as Hdone.
  { intros dest p r (Hp & Hr & Hn & ->) H0. assert (p = n) as -> by lia. unfold copied. split_and!; lia || done. }
  induction fuel as [|fuel IH]; intros dest p r Hs Hd Hc Hf; cbn [memcpy_bytes].
  { rewrite (proj2 (Z.ltb_ge _ _)) by lia. eauto. }
  destruct (Z.ltb_spec 0 r); [|eauto].
  destruct (copy_step dest p r 1) as (w & dest' & Hw & Hm & Hc'); [done.. | lia |].
  rewrite Hw. cbn [mbind option_bind]. rewrite Hm. cbn [mbind option_bind].
  destruct (IH dest' (p + 1) (r - 1)) as (? & ? & ?); [done.. | lia |]. eauto.
Qed.

Lemma memcpy_spec : 0 <= n -> n <= zlen src -> n <= zlen dest0 ->
  rtl_memcpy dest0 src n = Some (take (Z.to_nat n) src ++ drop (Z.to_nat n) dest0).
Proof.
  intros Hn Hs Hd. unfold rtl_memcpy.
  assert (copied dest0 0 n) as Hc0 by (unfold copied; split_and!; (done || lia)).
  destruct (memcpy_longs_spec (Z.to_nat n) dest0 0 n) as (d1 & p1 & r1 & -> & Hc); [done.. | lia |].
  cbn [mbind option_bind]. pose proof Hc as (? & ? & ? & _).
  destruct (memcpy_bytes_spec (Z.to_nat r1) d1 p1 r1) as (d2 & -> & (_ & _ & _ & ->)); [done.. | lia | done].
Qed.
End Memcpy.

(** C32: the copying routines do what <string.h> promises, for every string [a],
    whatever follows it in memory: [rtl_strcpy] writes the string and its
    terminator and nothing else, and leaves the block exactly when there is no room
    for them; [rtl_strncpy] writes [n] cells, padded with NULs (and no terminator when
    the string has [n] characters or more); [rtl_memcpy], eight bytes at a time,
    copies [n] cells; [rtl_strdup] returns a fresh copy or NULL when there is no
    memory.  [rtl_strndup] does so only up to the length of the string: with a
    smaller [n] it copies the whole string into a block of [n + 1] cells and
    overruns it. *)
Theorem rtl_copies_correct a ra dest src n alloc :
  chars a -> zlen a + 1 < 2 ^ 64 -> 0 <= n < 2 ^ 64 - 1 -> n <= zlen dest -> n <= zlen src ->
  (forall k b, alloc k = Some b -> zlen b = k) ->
  rtl_strcpy dest (a ++ 0 :: ra)
    = (if zlen a <? zlen dest then Some (a ++ 0 :: drop (S (length a)) dest) else None) /\
  rtl_strncpy dest (a ++ 0 :: ra) n
    = Some (take (Z.to_nat n) a ++ replicate (Z.to_nat n - length a) 0 ++ drop (Z.to_nat n) dest) /\
  rtl_memcpy dest src n = Some (take (Z.to_nat n) src ++ drop (Z.to_nat n) dest) /\
  rtl_strdup alloc (a ++ 0 :: ra) = Some ((fun _ => a ++ [0]) <$> alloc (zlen a + 1)) /\
  rtl_strndup alloc (a ++ 0 :: ra) n
    = (if n <? zlen a then match alloc (n + 1) with Some _ => None | None => Some None end
       else Some ((fun _ => a ++ [0]) <$> alloc (zlen a + 1))).
Proof.
  intros Ha Hla Hn Hd Hs Halloc. pose proof (zlen_nonneg a) as H0.
  split; [by apply strcpy_spec |]. split; [apply strncpy_spec; [done | lia] |]. split; [by apply memcpy_spec; lia |].
  assert (forall b, zlen b = zlen a + 1 -> rtl_strcpy b (a ++ 0 :: ra) = Some (a ++ [0])) as Hcpy.
  { intros b Hb. rewrite strcpy_spec, (proj2 (Z.ltb_lt _ _)) by (done || lia).
    by rewrite drop_ge by (unfold zlen in Hb; lia). }
  unfold rtl_strdup, rtl_strndup. rewrite strlen_spec by (done || lia). cbn [mbind option_bind]. split.
  - rewrite (wrap_small 64 (zlen a + 1)) by lia. destruct (alloc (zlen a + 1)) as [b|] eqn:Eb; [|done].
    by rewrite Hcpy by (by apply Halloc).
  - destruct (Z.ltb_spec n (zlen a)).
    + rewrite (wrap_small 64 (n + 1)) by lia. destruct (alloc (n + 1)) as [b|] eqn:Eb; [|done].
      apply Halloc in Eb. by rewrite strcpy_spec, (proj2 (Z.ltb_ge _ _)) by (done || lia).
    + rewrite (wrap_small 64 (zlen a + 1)) by lia. destruct (alloc (zlen a + 1)) as [b|] eqn:Eb; [|done].
      by rewrite Hcpy by (by apply Halloc).
Qed.

Definition demo_alloc (k : Z) : option (list Z) := if k <=? 8 then Some (replicate (Z.to_nat k) 7) else None.

(** "abcde" into ten cells; duplicated with n = 2. *)
Lemma rtl_copies_correct_witness :
  rtl_strcpy (replicate 10 9) ([97; 98; 99; 100; 101] ++ 0 :: [5])
    = Some ([97; 98; 99; 100; 101] ++ 0 :: [9; 9; 9; 9]) /\
  rtl_strndup demo_alloc ([97; 98; 99; 100; 101] ++ 0 :: [5]) 2 = None.
Proof.
  assert (forall k b, demo_alloc k = Some b -> zlen b = if k <? 0 then 0 else k) as Hlen.
  { intros k b. unfold demo_alloc. destruct (k <=? 8); [|done]. intros [= <-]. unfold zlen.
    rewrite length_replicate. destruct (Z.ltb_spec k 0); lia. }
  destruct (rtl_copies_correct [97; 98; 99; 100; 101] [5] (replicate 10 9) (replicate 10 1) 2
    (fun k => if k <? 0 then None else demo_alloc k)) as (H1 & _ & _ & _ & H2);
    [decided | decided | lia | decided | decided | |].
  - intros k b. destruct (Z.ltb_spec k 0); [done |]. intros Hb%Hlen. by rewrite (proj2 (Z.ltb_ge k 0)) in Hb.
  - split; [exact H1 | exact H2].
Defined.
