(* ===== verification/EtcReader.v ===== *)
(** Reading configuration texts: addons/etc_reader/etc_reader.c.

    The text is one block, [data]; lines, keys and values are pointers into it, and the
    parser cuts it into strings by storing NULs.  A pointer is an offset; [None] is
    undefined behaviour, in particular a read or a write outside the block.  The objects
    behind handles are kept as in [Object] (whose table theorem says that it is such a
    map), one user at a time, as etc_reader.h asks for. *)
From Stdlib Require Import Ascii String.
From S2P Require Import Prelude AvlTree Ncb Ifos RtlStr.

(** ** Memory: the answers of the allocator, and how many blocks are in use *)
Record mem := Mem { answers : list bool; blocks : Z }.

Definition ztrymalloc (m : mem) : bool * mem :=
  match answers m with
  | [] => (true, Mem [] (blocks m + 1))
  | ok :: answers => (ok, Mem answers (if ok then blocks m + 1 else blocks m))
  end.
Definition zfree (m : mem) : mem := Mem (answers m) (blocks m - 1).

(** ** The data of a loaded text *)

(** A key lies in the text, or is the caller's. *)
Inductive key_ptr := InText (off : Z) | Given (s : list Z).
Record etcr_kv_pair := Pair { key : key_ptr; value : Z }.

Record etcr_file := File {
  data : option (list Z); size : Z; fd : Z;
  head_of_line : list Z; count_of_line : Z;
  head_of_kvpair : list etcr_kv_pair; root_of_kvpair : tree etcr_kv_pair; count_of_kvpair : Z
}.

Definition set_data (d : option (list Z)) (f : etcr_file) : etcr_file :=
  File d (size f) (fd f) (head_of_line f) (count_of_line f) (head_of_kvpair f) (root_of_kvpair f) (count_of_kvpair f).
Definition set_size (n : Z) (f : etcr_file) : etcr_file :=
  File (data f) n (fd f) (head_of_line f) (count_of_line f) (head_of_kvpair f) (root_of_kvpair f) (count_of_kvpair f).
Definition set_fd (n : Z) (f : etcr_file) : etcr_file :=
  File (data f) (size f) n (head_of_line f) (count_of_line f) (head_of_kvpair f) (root_of_kvpair f) (count_of_kvpair f).
Definition set_lines (l : list Z) (n : Z) (f : etcr_file) : etcr_file :=
  File (data f) (size f) (fd f) l n (head_of_kvpair f) (root_of_kvpair f) (count_of_kvpair f).
Definition set_pairs (l : list etcr_kv_pair) (t : tree etcr_kv_pair) (n : Z) (f : etcr_file) : etcr_file :=
  File (data f) (size f) (fd f) (head_of_line f) (count_of_line f) l t n.

(** ** Strings in the text *)
Definition text_at (d : list Z) (p : Z) : list Z := cstring (drop (Z.to_nat p) d).

Definition key_text (d : list Z) (k : key_ptr) : list Z := match k with InText p => text_at d p | Given s => s end.

(** strcmp, on keys that are terminated: a key is stored after [_etcr_trim] found its
    end, and from then on only NULs are stored. *)
Definition _etcr_key_compare (d : list Z) (left right : etcr_kv_pair) : Z := lex (key_text d (key left)) (key_text d (key right)).

(** How many cells before the first that is not a space. *)
Fixpoint skip_spaces (l : list Z) : option Z :=
  match l with
  | [] => None
  | c :: l => if c =? 0x20 then n ← skip_spaces l; Some (n + 1) else Some 0
  end.

Fixpoint strlen (l : list Z) : option Z :=
  match l with
  | [] => None
  | c :: l => if c =? 0 then Some 0 else n ← strlen l; Some (n + 1)
  end.

(** The first of the characters [c], if it comes before the NUL. *)
Fixpoint strchr (c : Z) (l : list Z) : option (option Z) :=
  match l with
  | [] => None
  | x :: l => if x =? c then Some (Some 0) else if x =? 0 then Some None else match strchr c l with Some (Some n) => Some (Some (n + 1)) | none => none end
  end.

(** The loop over the tail: [n] cells are before the block's cell after [tail]. *)
Fixpoint cut_spaces (n : nat) (d : list Z) : option (list Z) :=
  match n with
  | O => None
  | S tail => c ← d !! tail; if c =? 0x20 then cut_spaces tail (<[tail := 0]> d) else Some d
  end.

Definition _etcr_trim (d : list Z) (p : Z) : option (list Z * Z) :=
  n ← skip_spaces (drop (Z.to_nat p) d);
  let head := p + n in
  len ← strlen (drop (Z.to_nat head) d);
  d ← cut_spaces (Z.to_nat (head + len)) d;
  Some (d, head).

Definition _etcr_filter (d : list Z) (line : Z) : option (list Z * option Z) :=
  found ← strchr 35 (drop (Z.to_nat line) d);
  let d := match found with Some n => <[Z.to_nat (line + n) := 0]> d | None => d end in
  c ← d !! Z.to_nat line;
  if c =? 0 then Some (d, None)
  else '(d, head) ← _etcr_trim d line; Some (d, Some head).

(** ** Parsing *)

(** [turns] cells are left; [line] is the line that is being read. *)
Fixpoint parse_line_loop (turns : nat) (i : Z) (line : option Z) (f : etcr_file) (m : mem) : option (Z * etcr_file * mem) :=
  match turns with
  | O => Some (NSP_STATUS_SUCCESSFUL, f, m)
  | S turns =>
      match line with
      | None =>
          let '(ok, m) := ztrymalloc m in
          if ok then parse_line_loop turns (i + 1) (Some i) f m else Some (posix__makeerror ENOMEM, f, m)
      | Some start =>
          d ← data f;
          cursor ← d !! Z.to_nat i;
          if cursor =? 10 then
            '(d, kept) ← _etcr_filter (<[Z.to_nat i := 0]> d) start;
            match kept with
            | None => parse_line_loop turns (i + 1) None (set_data (Some d) f) (zfree m)
            | Some p => parse_line_loop turns (i + 1) None (set_lines (head_of_line f ++ [p]) (count_of_line f + 1) (set_data (Some d) f)) m
            end
          else if cursor =? 13 then parse_line_loop turns (i + 1) line (set_data (Some (<[Z.to_nat i := 0]> d)) f) m
          else parse_line_loop turns (i + 1) line f m
      end
  end.

Definition free_blocks (n : Z) (m : mem) : mem := Mem (answers m) (blocks m - n).

Definition _etcr_parse_line (f : etcr_file) (m : mem) : option (Z * etcr_file * mem) :=
  '(status, f, m) ← parse_line_loop (Z.to_nat (size f)) 0 None f m;
  if NSP_SUCCESS status then Some (status, f, m)
  else Some (status, set_lines [] (count_of_line f) f, free_blocks (zlen (head_of_line f)) m).

(** The lines of [pos] are left, those of [kept] stay in the list. *)
Fixpoint parse_kvpair_loop (pos kept : list Z) (f : etcr_file) (m : mem) : option (etcr_file * mem) :=
  match pos with
  | [] => Some (set_lines kept (count_of_line f) f, m)
  | line :: pos =>
      d ← data f;
      found ← strchr 61 (drop (Z.to_nat line) d);
      match found with
      | None => parse_kvpair_loop pos kept (set_lines (head_of_line f) (count_of_line f - 1) f) (zfree m)
      | Some n =>
          let '(ok, m) := ztrymalloc m in
          if ok then
            '(d, k) ← _etcr_trim (<[Z.to_nat (line + n) := 0]> d) line;
            '(d, v) ← _etcr_trim d (line + n + 1);
            let kvpair := Pair (InText k) v in
            root ← avlinsert (root_of_kvpair f) (Some kvpair) (Some (_etcr_key_compare d));
            parse_kvpair_loop pos (kept ++ [line])
              (set_pairs (head_of_kvpair f ++ [kvpair]) root (count_of_kvpair f + 1) (set_data (Some d) f)) m
          else parse_kvpair_loop pos (kept ++ [line]) f m
      end
  end.
Definition _etcr_parse_kvpair (f : etcr_file) (m : mem) : option (etcr_file * mem) := parse_kvpair_loop (head_of_line f) [] f m.

Definition _etcr_parse (f : etcr_file) (m : mem) : option (Z * etcr_file * mem) :=
  '(status, f, m) ← _etcr_parse_line f m;
  if NSP_SUCCESS status then '(f, m) ← _etcr_parse_kvpair f m; Some (status, f, m) else Some (status, f, m).

(** ** Objects *)
Definition _etcr_initializer : etcr_file := File None 0 INVALID_FILE_DESCRIPTOR [] 0 [] Null 0.

(** The pairs leave list and tree one by one. *)
Fixpoint unload_pairs (d : list Z) (pairs : list etcr_kv_pair) (root : tree etcr_kv_pair) (m : mem) : option (tree etcr_kv_pair * mem) :=
  match pairs with
  | [] => Some (root, m)
  | p :: pairs => '(root, _) ← avlremove root (Some p) None (Some (_etcr_key_compare d)); unload_pairs d pairs root (zfree m)
  end.

Section World.
Context {K : Type}.
Context (sys_read : Z -> Z -> K -> (list Z + Z) * K) (sys_open : Z -> Z -> K -> answer * K)
  (sys_close : Z -> K -> K) (sys_fstat : Z -> K -> answer * K).

Definition _etcr_unloader (f : etcr_file) (m : mem) (s : os K) : option (mem * os K) :=
  let s := if negb (fd f =? INVALID_FILE_DESCRIPTOR) then ifos_file_close sys_close (fd f) s else s in
  let m := free_blocks (zlen (head_of_line f)) m in
  '(_, m) ← unload_pairs (default [] (data f)) (head_of_kvpair f) (root_of_kvpair f) m;
  Some (match data f with Some _ => zfree m | None => m end, s).

(** The objects with their handles, the last handle given out, memory and kernel. *)
Record etcr_world := World { objects : gmap Z etcr_file; atoid : Z; memory : mem; system : os K }.
Implicit Types w : etcr_world.

Definition set_memory (m : mem) w : etcr_world := World (objects w) (atoid w) m (system w).
Definition set_system (s : os K) w : etcr_world := World (objects w) (atoid w) (memory w) s.
Definition set_object (h : Z) (f : etcr_file) w : etcr_world := World (<[h := f]> (objects w)) (atoid w) (memory w) (system w).

(** objallo4 with the creator of this module: an automatic handle. *)
Definition create w : Z * Z * etcr_world :=
  let '(ok, m) := ztrymalloc (memory w) in
  if ok then (NSP_STATUS_SUCCESSFUL, atoid w + 1, World (<[atoid w + 1 := _etcr_initializer]> (objects w)) (atoid w + 1) m (system w))
  else (posix__makeerror ENOMEM, 0, set_memory m w).

(** The last reference of a closed object goes: it is unloaded and its block freed. *)
Definition destroy (h : Z) w : option etcr_world :=
  match objects w !! h with
  | None => Some w
  | Some f => '(m, s) ← _etcr_unloader f (memory w) (system w); Some (World (delete h (objects w)) (atoid w) (zfree m) s)
  end.

(** The end of both loading routines: the object is closed, or handed out. *)
Definition finish (status h : Z) w : option (Z * option Z * etcr_world) :=
  if NSP_SUCCESS status then Some (status, Some h, w) else w ← destroy h w; Some (status, None, w).

(** The status, and what is stored through [out]. *)
Definition etcr_load_from_memory (buffer : option (list Z)) (n : Z) (out : bool) w : option (Z * option Z * etcr_world) :=
  match buffer with
  | Some buffer =>
      if negb out || (0 =? n) then Some (posix__makeerror EINVAL, None, w)
      else
        let '(status, h, w) := create w in
        if negb (NSP_SUCCESS status) then Some (status, None, w)
        else
          f ← objects w !! h;
          let f := set_size n f in
          let '(ok, m) := ztrymalloc (memory w) in
          if ok then
            text ← memread buffer 0 n;
            '(status, f, m) ← _etcr_parse (set_data (Some text) f) m;
            finish status h (set_object h f (set_memory m w))
          else finish (posix__makeerror ENOMEM) h (set_object h f (set_memory m w))
  | None => Some (posix__makeerror EINVAL, None, w)
  end.

Definition FF_RDACCESS : Z := 0.

(** The content of the file behind the path that [sys_open] opens; a new block is read
    as zeros where ifos_file_read leaves it. *)
Definition etcr_load_from_harddisk (file out : bool) w : option (Z * option Z * etcr_world) :=
  if negb out || negb file then Some (posix__makeerror EINVAL, None, w)
  else
    let '(status, h, w) := create w in
    if negb (NSP_SUCCESS status) then Some (status, None, w)
    else
      f ← objects w !! h;
      let '(status, fd, s) := ifos_file_open sys_open (Z.lor FF_RDACCESS FF_OPEN_EXISTING) 420 (system w) in
      let f := set_fd fd f in
      if negb (NSP_SUCCESS status) then finish status h (set_object h f (set_system s w))
      else
        let '(size, s) := ifos_file_fgetsize sys_fstat fd s in
        let f := set_size size f in
        if size <=? 0 then finish status h (set_object h f (set_system s w))
        else
          let '(ok, m) := ztrymalloc (memory w) in
          if negb ok then finish (posix__makeerror ENOMEM) h (set_object h f (set_memory m (set_system s w)))
          else
            '(cb, text, s) ← ifos_file_read sys_read fd (replicate (Z.to_nat size) 0) (s32 size) s;
            let f := set_data (Some text) f in
            let w := set_memory m (set_system s w) in
            if negb (cb =? s32 size) then finish status h (set_object h f w)
            else
              '(status, f, m) ← _etcr_parse f (memory w);
              finish status h (set_object h f (set_memory m w)).

(** The status and the string that *value points to. *)
Definition etcr_query_value_bykey (h : Z) (k : option (list Z)) w : Z * option (list Z) :=
  match k with
  | Some k =>
      if h <=? 0 then (posix__makeerror EINVAL, None)
      else
        match objects w !! h with
        | None => (posix__makeerror EINVAL, None)
        | Some f =>
            let d := default [] (data f) in
            match avlsearch (root_of_kvpair f) (Some (Pair (Given k) 0)) (Some (_etcr_key_compare d)) with
            | Node _ found _ _ => (NSP_STATUS_SUCCESSFUL, Some (text_at d (value found)))
            | Null => (posix__makeerror ENOENT, None)
            end
        end
  | None => (posix__makeerror EINVAL, None)
  end.

Definition etcr_unload (h : Z) w : option etcr_world := destroy h w.
End World.

(** ** What a text means

    A reference reader.  A line ends at the first line feed behind its first character,
    whatever that is; what follows the last line feed is no line. *)
Fixpoint split_lines (cur : option (list Z)) (text : list Z) : list (list Z) :=
  match text with
  | [] => []
  | c :: text =>
      match cur with
      | None => split_lines (Some [c]) text
      | Some l => if c =? 10 then l :: split_lines None text else split_lines (Some (l ++ [c])) text
      end
  end.

(** Whether there is something behind the last line feed. *)
Fixpoint unterminated (cur : bool) (text : list Z) : bool :=
  match text with
  | [] => cur
  | c :: text => if cur then unterminated (negb (c =? 10)) text else unterminated true text
  end.

Fixpoint before (c : Z) (l : list Z) : list Z :=
  match l with [] => [] | x :: l => if x =? c then [] else x :: before c l end.

(** A carriage return ends the text of a line, unless it is its first character. *)
Definition cr (x : Z) : Z := if x =? 13 then 0 else x.
Definition line_text (l : list Z) : list Z := match l with [] => [] | c :: l => cstring (c :: (cr <$> l)) end.

Fixpoint ltrim (l : list Z) : list Z := match l with [] => [] | x :: l' => if x =? 0x20 then ltrim l' else l end.
Definition trim (l : list Z) : list Z := reverse (ltrim (reverse (ltrim l))).

(** A line without its comment and the spaces around it; a line that is all comment is dropped. *)
Definition kept_text (l : list Z) : option (list Z) := match before 35 (line_text l) with [] => None | s => Some (trim s) end.

Definition split_pair (s : list Z) : option (list Z * list Z) :=
  if decide (61 ∈ s) then Some (trim (before 61 s), trim (drop (S (length (before 61 s))) s)) else None.

Definition config (text : list Z) : list (list Z * list Z) := omap split_pair (omap kept_text (split_lines None text)).

(** The first pair with the key. *)
Definition find_pair (k : list Z) (ps : list (list Z * list Z)) : option (list Z) := snd <$> head (filter (fun p => p.1 = k) ps).

(** The first line is neither blank nor without a key. *)
Definition starts_well (lines : list (list Z)) : Prop :=
  match lines with
  | l :: _ => match kept_text l with Some s => s <> [] /\ head s <> Some 61 | None => True end
  | [] => True
  end.

(** ** Strings *)
Abbreviation spaces n := (replicate n 0x20).
Abbreviation nuls n := (replicate n 0).

Definition trimmed (s : list Z) : Prop := head s <> Some 0x20 /\ last s <> Some 0x20.

Lemma ltrim_split l : exists p, l = spaces p ++ ltrim l /\ head (ltrim l) <> Some 0x20.
Proof.
  induction l as [|x l (p & E & H)]; [by exists 0%nat |]. cbn [ltrim]. destruct (Z.eqb_spec x 0x20) as [-> | Hx].
  - exists (S p). split; [by rewrite E at 1 | done].
  - exists 0%nat. split; [done |]. cbn. congruence.
Qed.

Lemma ltrim_id l : head l <> Some 0x20 -> ltrim l = l.
Proof. destruct l as [|x l]; [done |]. cbn. intros H. rewrite (proj2 (Z.eqb_neq x 32)); [done | congruence]. Qed.

Lemma trim_split l : exists p q, l = spaces p ++ trim l ++ spaces q /\ trimmed (trim l).
Proof.
  destruct (ltrim_split l) as (p & E & H). destruct (ltrim_split (reverse (ltrim l))) as (q & E' & H').
  exists p, q. unfold trim, trimmed. rewrite last_reverse. split.
  - rewrite E at 1. f_equal. apply (f_equal reverse) in E'. by rewrite reverse_involutive, reverse_app, reverse_replicate in E'.
  - split; [|done]. rewrite head_reverse. intros Hl. apply H.
    by rewrite <- (last_reverse (ltrim l)), E', last_app, Hl.
Qed.

Lemma trim_id s : trimmed s -> trim s = s.
Proof.
  intros [Hh Hl]. unfold trim. rewrite (ltrim_id s Hh), ltrim_id by (by rewrite head_reverse). apply reverse_involutive.
Qed.

Lemma chars_app a b : chars (a ++ b) <-> chars a /\ chars b.
Proof. apply Forall_app. Qed.

Lemma cstring_chars l : chars (cstring l).
Proof. induction l as [|x l IH]; [constructor |]. cbn. destruct (Z.eqb_spec x 0); [constructor | by constructor]. Qed.

(** The text with its NUL: the string, and what follows up to the NUL. *)
Lemma cstring_split l : exists g, l ++ [0] = cstring l ++ g /\ head g = Some 0 /\ last g = Some 0.
Proof.
  induction l as [|x l (g & E & Hh & Hl)]; [by exists [0] |]. cbn [cstring]. destruct (Z.eqb_spec x 0) as [-> | Hx].
  - exists (0 :: l ++ [0]). split; [done |]. split; [done |]. by rewrite app_comm_cons, last_snoc.
  - exists g. cbn [app]. by rewrite E.
Qed.

Lemma before_split c l : before c l = l /\ ~ c ∈ l \/ exists r, l = before c l ++ c :: r.
Proof.
  induction l as [|x l [[E Hn] | (r & E)]]; cbn [before].
  - left. split; [done | by apply not_elem_of_nil].
  - destruct (Z.eqb_spec x c) as [-> | Hx]; [right; by exists l |]. left. rewrite E. split; [done |]. rewrite elem_of_cons. intros [-> | ?]; done.
  - destruct (Z.eqb_spec x c) as [-> | Hx]; right; [by exists l |]. exists r. cbn [app]. by rewrite <- E.
Qed.

Lemma before_not_elem c l : ~ c ∈ before c l.
Proof.
  induction l as [|x l IH]; cbn [before]; [apply not_elem_of_nil |]. destruct (Z.eqb_spec x c) as [-> | Hx]; [apply not_elem_of_nil |].
  rewrite elem_of_cons. intros [-> | ?]; done.
Qed.

(** ** The primitives on a block that is cut at the pointer *)
Lemma strchr_none c s rest : chars s -> ~ c ∈ s -> c <> 0 -> strchr c (s ++ 0 :: rest) = Some None.
Proof.
  induction s as [|x s IH]; intros Hs Hc H0; cbn [app strchr].
  - by rewrite (proj2 (Z.eqb_neq 0 c)) by lia.
  - apply Forall_cons in Hs as [Hx Hs]. rewrite elem_of_cons in Hc.
    rewrite (proj2 (Z.eqb_neq x c)), (proj2 (Z.eqb_neq x 0)) by (intros ->; tauto || lia). by rewrite IH by tauto.
Qed.

Lemma strchr_some c s rest : chars s -> ~ c ∈ s -> strchr c (s ++ c :: rest) = Some (Some (zlen s)).
Proof.
  induction s as [|x s IH]; intros Hs Hc; cbn [app strchr].
  - by rewrite Z.eqb_refl.
  - apply Forall_cons in Hs as [Hx Hs]. rewrite elem_of_cons in Hc.
    rewrite (proj2 (Z.eqb_neq x c)), (proj2 (Z.eqb_neq x 0)) by (intros ->; tauto || lia). rewrite IH by tauto.
    rewrite zlen_cons. do 2 f_equal. lia.
Qed.

Lemma skip_spaces_run p l : l <> [] -> head l <> Some 0x20 -> skip_spaces (spaces p ++ l) = Some (Z.of_nat p).
Proof.
  intros Hl Hh. induction p as [|p IH]; cbn [replicate app skip_spaces].
  - destruct l as [|x l]; [done |]. cbn. rewrite (proj2 (Z.eqb_neq x 32)); [done | cbn in Hh; congruence].
  - rewrite IH. cbn. f_equal. lia.
Qed.

Lemma strlen_run s rest : chars s -> strlen (s ++ 0 :: rest) = Some (zlen s).
Proof.
  induction s as [|x s IH]; intros Hs; cbn [app strlen]; [done |]. apply Forall_cons in Hs as [Hx Hs].
  rewrite (proj2 (Z.eqb_neq x 0)) by done. rewrite IH by done. cbn [mbind option_bind]. rewrite zlen_cons. f_equal. lia.
Qed.

Lemma cut_spaces_run q : forall pre c post, c <> 0x20 ->
  cut_spaces (length (pre ++ c :: spaces q)) (pre ++ c :: spaces q ++ post) = Some (pre ++ c :: nuls q ++ post).
Proof.
  induction q as [|q IH]; intros pre c post Hc.
  - cbn [replicate app]. rewrite length_app. cbn [length]. rewrite Nat.add_1_r. cbn [cut_spaces]. rewrite list_lookup_middle by done.
    cbn [mbind option_bind]. by rewrite (proj2 (Z.eqb_neq c 32)).
  - rewrite replicate_S_end, app_comm_cons, app_assoc, length_app. cbn [length]. rewrite Nat.add_1_r. cbn [cut_spaces].
    rewrite <- (app_assoc (spaces q)), app_comm_cons, (app_assoc pre). cbn [app].
    rewrite list_lookup_middle by done. cbn [mbind option_bind]. change (32 =? 32) with true. cbv iota.
    rewrite insert_app_r_alt, Nat.sub_diag by done. cbn [list_insert insert]. rewrite <- (app_assoc pre). cbn [app].
    rewrite IH by done. rewrite replicate_S_end, <- (app_assoc (nuls q)). done.
Qed.

Lemma insert_at (pre : list Z) x y post : <[Z.to_nat (zlen pre) := y]> (pre ++ x :: post) = pre ++ y :: post.
Proof. unfold zlen. rewrite Nat2Z.id, insert_app_r_alt, Nat.sub_diag by done. done. Qed.

Lemma lookup_at (pre : list Z) x post : (pre ++ x :: post) !! Z.to_nat (zlen pre) = Some x.
Proof. unfold zlen. rewrite Nat2Z.id. by rewrite list_lookup_middle. Qed.

Lemma zlen_rep (n : nat) (x : Z) : zlen (replicate n x) = Z.of_nat n.
Proof. unfold zlen. by rewrite length_replicate. Qed.

Lemma spaces_not_nul n : chars (spaces n).
Proof. by apply Forall_replicate. Qed.

(** A string with spaces around it. *)
Lemma trim_run pre p s q post : chars s -> s <> [] -> trimmed s ->
  _etcr_trim (pre ++ spaces p ++ s ++ spaces q ++ 0 :: post) (zlen pre) =
    Some (pre ++ spaces p ++ s ++ nuls q ++ 0 :: post, zlen pre + Z.of_nat p).
Proof.
  intros Hs Hne [Hh Hl]. unfold _etcr_trim. rewrite drop_zlen, skip_spaces_run; [| by destruct s | by destruct s].
  cbn [mbind option_bind]. rewrite (app_assoc pre), <- (zlen_rep p 32), <- zlen_app, drop_zlen.
  rewrite (app_assoc s), strlen_run by (apply chars_app; split; [done | apply spaces_not_nul]). cbn [mbind option_bind].
  destruct (exists_last Hne) as (s' & c & ->). rewrite last_snoc in Hl.
  assert (forall x, (pre ++ spaces p) ++ ((s' ++ [c]) ++ spaces q) ++ x = ((pre ++ spaces p) ++ s') ++ c :: spaces q ++ x) as E
    by (intros; by rewrite <- !app_assoc).
  rewrite E, <- zlen_app. assert (Z.to_nat (zlen ((pre ++ spaces p) ++ (s' ++ [c]) ++ spaces q)) = length (((pre ++ spaces p) ++ s') ++ c :: spaces q)) as ->.
  { unfold zlen. rewrite Nat2Z.id, <- !app_assoc. done. }
  rewrite cut_spaces_run by congruence. cbn [mbind option_bind]. by rewrite <- !app_assoc.
Qed.

(** Nothing but spaces: the loop goes back over those before the pointer, too. *)
Lemma trim_blank pre r p post :
  _etcr_trim (pre ++ 0 :: spaces r ++ spaces p ++ 0 :: post) (zlen pre + 1 + Z.of_nat r) =
    Some (pre ++ 0 :: nuls r ++ nuls p ++ 0 :: post, zlen pre + 1 + Z.of_nat r + Z.of_nat p).
Proof.
  unfold _etcr_trim. replace (pre ++ 0 :: spaces r ++ spaces p ++ 0 :: post) with ((pre ++ 0 :: spaces r) ++ spaces p ++ 0 :: post)
    by by rewrite <- app_assoc.
  replace (zlen pre + 1 + Z.of_nat r) with (zlen (pre ++ 0 :: spaces r)) by (rewrite zlen_app, zlen_cons, zlen_rep; lia).
  rewrite drop_zlen, skip_spaces_run by done. cbn [mbind option_bind].
  rewrite (app_assoc _ (spaces p)), <- (zlen_rep p 32), <- zlen_app, drop_zlen. cbn [strlen mbind option_bind].
  change (0 =? 0) with true. cbn [mbind option_bind].
  rewrite <- (app_assoc pre). cbn [app]. rewrite <- replicate_add, Z.add_0_r.
  assert (forall X : list Z, Z.to_nat (zlen X) = length X) as -> by (intros; unfold zlen; apply Nat2Z.id).
  rewrite <- (app_assoc pre). cbn [app]. rewrite cut_spaces_run by done. cbn [mbind option_bind]. by rewrite replicate_add, <- app_assoc.
Qed.

(** ** Strings inside the block *)

(** The part of the block that is done ends with a NUL. *)
Definition closed (P : list Z) : Prop := P = [] \/ last P = Some 0.

Lemma closed_snoc P : closed (P ++ [0]).
Proof. right. apply last_snoc. Qed.

Lemma cstring_closed l X : last l = Some 0 -> cstring (l ++ X) = cstring l.
Proof.
  induction l as [|x l IH]; intros H; [done |]. cbn [app cstring]. destruct (Z.eqb_spec x 0) as [-> | Hx]; [done |].
  destruct l as [|y l]; [cbn in H; congruence |]. by rewrite IH.
Qed.

Lemma text_at_closed P X x : closed P -> 0 <= x < zlen P -> text_at (P ++ X) x = text_at P x.
Proof.
  intros [-> | Hl] Hx; [unfold zlen in Hx; cbn in Hx; lia |]. unfold text_at, zlen in *. rewrite drop_app_le by lia. apply cstring_closed.
  destruct (drop (Z.to_nat x) P) as [|y l] eqn:E.
  - apply (f_equal length) in E. rewrite length_drop in E. cbn in E. lia.
  - rewrite <- (take_drop (Z.to_nat x) P), last_app, E in Hl. destruct (last (y :: l)) eqn:El; [done | by apply last_None in El].
Qed.

Lemma text_at_string pre s post : chars s -> text_at (pre ++ s ++ 0 :: post) (zlen pre) = s.
Proof. intros Hs. unfold text_at. rewrite drop_zlen. by apply cstring_app. Qed.

(** [laid b Q os ss]: at offset [b] of the block lies [Q], the lines that are kept with
    the pointers [os] and the strings [ss], and lines that are dropped. *)
Inductive laid : Z -> list Z -> list Z -> list (list Z) -> Prop :=
  | laid_nil b : laid b [] [] []
  | laid_skip b g Q os ss : last g = Some 0 -> laid (b + zlen g) Q os ss -> laid b (g ++ Q) os ss
  | laid_line b pad s g Q os ss : (s <> [] -> pad = spaces (length pad)) -> chars s -> trimmed s ->
      (b = 0 -> s <> [] /\ head s <> Some 61) -> head g = Some 0 -> last g = Some 0 ->
      laid (b + zlen (pad ++ s ++ g)) Q os ss -> laid b ((pad ++ s ++ g) ++ Q) (b + zlen pad :: os) (s :: ss).

Lemma laid_app b P os ss Q os' ss' : laid b P os ss -> laid (b + zlen P) Q os' ss' -> laid b (P ++ Q) (os ++ os') (ss ++ ss').
Proof.
  induction 1 as [b | b g P os ss Hg H IH | b pad s g P os ss H1 H2 H3 H4 H5 H6 H IH]; intros HQ.
  - by rewrite zlen_nil, Z.add_0_r in HQ.
  - rewrite <- app_assoc. apply laid_skip; [done |]. apply IH. by rewrite zlen_app, Z.add_assoc in HQ.
  - rewrite <- app_assoc. cbn [app]. apply laid_line; try done. apply IH. by rewrite (zlen_app (pad ++ s ++ g)), Z.add_assoc in HQ.
Qed.

(** The comment of a line is cut off. *)
Lemma cut_comment x g pre todo : chars x -> head g = Some 0 -> last g = Some 0 ->
  exists junk found, head junk = Some 0 /\ last junk = Some 0 /\ zlen (before 35 x ++ junk) = zlen (x ++ g) /\
    strchr 35 (x ++ g ++ todo) = Some found /\
    match found with Some n => <[Z.to_nat (zlen pre + n) := 0]> (pre ++ x ++ g ++ todo) | None => pre ++ x ++ g ++ todo end =
      pre ++ before 35 x ++ junk ++ todo.
Proof.
  intros Hx Hg Hl. destruct g as [|g0 g]; [done |]. injection Hg as ->. pose proof (before_not_elem 35 x) as Hb.
  destruct (before_split 35 x) as [[E Hn] | (r & E)].
  - exists (0 :: g), None. rewrite E. split_and!; try done. by apply (strchr_none 35 x (g ++ todo)).
  - remember (before 35 x) as b eqn:Eb. subst x. apply chars_app in Hx as [Hb' _].
    exists (0 :: r ++ 0 :: g), (Some (zlen b)). split; [done |]. split; [by rewrite app_comm_cons, last_app, Hl |].
    split; [by rewrite !zlen_app, !zlen_cons, !zlen_app, !zlen_cons; lia |].
    rewrite <- !app_assoc. cbn [app]. split; [by apply strchr_some |].
    rewrite (app_assoc pre), <- zlen_app, insert_at. by rewrite <- !app_assoc.
Qed.

Lemma trim_line P y junk post : closed P -> chars y -> (P = [] -> trim y <> []) -> last (0 :: junk) = Some 0 ->
  exists pad g, _etcr_trim (P ++ y ++ 0 :: junk ++ post) (zlen P) = Some (P ++ (pad ++ trim y ++ g) ++ post, zlen P + zlen pad) /\
    zlen (pad ++ trim y ++ g) = zlen y + zlen (0 :: junk) /\ (trim y <> [] -> pad = spaces (length pad)) /\ chars (trim y) /\
    trimmed (trim y) /\ head g = Some 0 /\ last g = Some 0.
Proof.
  intros HP Hy Hfirst Hj. destruct (trim_split y) as (p & q & Es & Ht). set (s := trim y) in *. clearbody s. subst y.
  apply chars_app in Hy as [_ [Hs _]%chars_app]. destruct (decide (s = [])) as [-> | Hne].
  - destruct HP as [-> | HP]; [by destruct Hfirst |]. apply last_Some in HP as (P1 & ->).
    exists (nuls (p + q)), (0 :: junk). cbn [app]. rewrite <- (app_assoc P1). cbn [app]. rewrite <- replicate_add.
    pose proof (trim_blank P1 0 (p + q) (junk ++ post)) as E. cbn [replicate app] in E. rewrite Z.add_0_r in E.
    rewrite zlen_app. change (zlen [0]) with 1. rewrite E. rewrite <- !app_assoc. cbn [app]. rewrite !zlen_app, !zlen_rep.
    split_and!; done.
  - exists (spaces p), (nuls q ++ 0 :: junk). rewrite <- !(app_assoc (spaces p)), <- !(app_assoc s). cbn [app].
    rewrite trim_run by done. rewrite !zlen_app, !zlen_rep, <- !app_assoc. cbn [app]. split; [done |]. split; [lia |].
    split; [by rewrite length_replicate |]. split; [done |]. split; [done |]. split; [by destruct q |]. by rewrite last_app, Hj.
Qed.

(** A line with its NUL stored: what [_etcr_filter] makes of it. *)
Definition seg (l : list Z) : list Z := match l with [] => [] | c :: l => c :: (cr <$> l) end.

Lemma filter_run P l todo : closed P -> (P = [] -> forall s, kept_text l = Some s -> s <> []) ->
  match kept_text l with
  | None => exists g, _etcr_filter (P ++ seg l ++ 0 :: todo) (zlen P) = Some (P ++ g ++ todo, None) /\
      zlen g = zlen (seg l) + 1 /\ last g = Some 0
  | Some s => exists pad g, _etcr_filter (P ++ seg l ++ 0 :: todo) (zlen P) = Some (P ++ (pad ++ s ++ g) ++ todo, Some (zlen P + zlen pad)) /\
      zlen (pad ++ s ++ g) = zlen (seg l) + 1 /\ (s <> [] -> pad = spaces (length pad)) /\ chars s /\ trimmed s /\
      head g = Some 0 /\ last g = Some 0
  end.
Proof.
  intros HP Hfirst.
  assert (line_text l = cstring (seg l)) as Et by (destruct l; done).
  destruct (cstring_split (seg l)) as (g & Eg & Hg & Hg'). pose proof (cstring_chars (seg l)) as Hc.
  unfold kept_text in *. rewrite Et in *. set (x := cstring (seg l)) in *. clearbody x. clear Et.
  assert (P ++ seg l ++ 0 :: todo = P ++ x ++ g ++ todo) as -> by (by rewrite (app_assoc x), <- Eg, <- (app_assoc (seg l))).
  destruct (cut_comment x g P todo Hc Hg Hg') as (junk & found & Hj & Hj' & Hz & Ef & Ed).
  apply (f_equal zlen) in Eg. rewrite <- Eg, !zlen_app in Hz. change (zlen [0]) with 1 in Hz.
  unfold _etcr_filter. rewrite drop_zlen, Ef. cbn [mbind option_bind]. rewrite Ed. clear Ed Ef.
  assert (chars (before 35 x)) as Hy.
  { destruct (before_split 35 x) as [[-> _] | (r & E)]; [done |]. rewrite E in Hc. by apply chars_app in Hc as [? _]. }
  destruct junk as [|j0 junk]; [done |]. injection Hj as ->. remember (before 35 x) as y eqn:Ey. clear Ey. cbn [app].
  destruct y as [|c y].
  { cbn [app]. rewrite lookup_at. cbn [mbind option_bind]. change (0 =? 0) with true. by exists (0 :: junk). }
  destruct (trim_line P (c :: y) junk todo HP Hy) as (pad & g' & E & Hz' & Hrest); [intros HPn; by apply Hfirst | done |].
  exists pad, g'. split; [|split; [by rewrite Hz', Hz | done]]. rewrite E. cbn [app]. rewrite lookup_at. cbn [mbind option_bind].
  apply Forall_cons in Hy as [Hc0 _]. by rewrite (proj2 (Z.eqb_neq c 0)).
Qed.

(** ** Reading the lines *)
Definition plenty (m : mem) : Prop := Forall (fun ok => ok = true) (answers m).

Lemma malloc_ok m : plenty m -> exists m', ztrymalloc m = (true, m') /\ plenty m' /\ blocks m' = blocks m + 1.
Proof.
  unfold plenty, ztrymalloc. destruct (answers m) as [|a l]; intros H; [by eexists |].
  apply Forall_cons in H as [-> H]. by eexists.
Qed.

Lemma seg_snoc l c : l <> [] -> seg (l ++ [c]) = seg l ++ [cr c].
Proof. destruct l as [|x l]; [done |]. intros _. cbn. by rewrite fmap_app. Qed.

Lemma seg_zlen l : zlen (seg l) = zlen l.
Proof. destruct l as [|x l]; [done |]. cbn. unfold zlen. cbn. by rewrite length_fmap. Qed.

Definition seg_of (cur : option (list Z)) : list Z := default [] (seg <$> cur).
Definition open_line (cur : option (list Z)) : bool := match cur with Some _ => true | None => false end.

Lemma laid_more P os ss g : laid 0 P os ss -> last g = Some 0 -> laid 0 (P ++ g) os ss.
Proof.
  intros H Hg. rewrite <- (app_nil_r os), <- (app_nil_r ss), <- (app_nil_r g). apply (laid_app _ _ _ _ _ _ _ H). apply laid_skip; [done | constructor].
Qed.

Lemma laid_keep P os ss pad s g : laid 0 P os ss -> (s <> [] -> pad = spaces (length pad)) -> chars s -> trimmed s ->
  (P = [] -> s <> [] /\ head s <> Some 61) -> head g = Some 0 -> last g = Some 0 ->
  laid 0 (P ++ pad ++ s ++ g) (os ++ [zlen P + zlen pad]) (ss ++ [s]).
Proof.
  intros H H1 H2 H3 H4 H5 H6. rewrite <- (app_nil_r (pad ++ s ++ g)). apply (laid_app _ _ _ _ _ _ _ H).
  apply laid_line; try done; [|constructor]. intros E. apply H4, zlen_0. lia.
Qed.

Lemma closed_more P g : last g = Some 0 -> closed (P ++ g) /\ P ++ g <> [].
Proof.
  intros H. split; [right; by rewrite last_app, H |]. intros E%app_eq_nil. destruct E as [_ ->]. done.
Qed.

Lemma char_step P l c todo n f m : data f = Some (P ++ seg l ++ c :: todo) ->
  parse_line_loop (S n) (zlen P + zlen (seg l)) (Some (zlen P)) f m =
    (if c =? 10 then
       '(d, kept) ← _etcr_filter (P ++ seg l ++ 0 :: todo) (zlen P);
       match kept with
       | None => parse_line_loop n (zlen P + zlen (seg l) + 1) None (set_data (Some d) f) (zfree m)
       | Some p => parse_line_loop n (zlen P + zlen (seg l) + 1) None
           (set_lines (head_of_line f ++ [p]) (count_of_line f + 1) (set_data (Some d) f)) m
       end
     else parse_line_loop n (zlen P + zlen (seg l) + 1) (Some (zlen P)) (set_data (Some (P ++ seg l ++ cr c :: todo)) f) m).
Proof.
  intros Hd. cbn [parse_line_loop]. rewrite Hd. cbn [mbind option_bind].
  rewrite !(app_assoc P), <- zlen_app, lookup_at. cbn [mbind option_bind]. rewrite insert_at. unfold cr.
  destruct (c =? 10); [done |]. destruct (c =? 13); [done |]. f_equal. rewrite (app_assoc P) in Hd. rewrite <- Hd. by destruct f.
Qed.

Lemma scan_run todo : forall cur P os ss f m,
  closed P -> laid 0 P os ss -> cur <> Some [] -> data f = Some (P ++ seg_of cur ++ todo) -> head_of_line f = os -> plenty m ->
  (P = [] -> starts_well (split_lines cur todo)) ->
  exists P' rest os' m',
    parse_line_loop (length todo) (zlen P + zlen (seg_of cur)) ((fun _ => zlen P) <$> cur) f m =
      Some (NSP_STATUS_SUCCESSFUL, set_lines os' (count_of_line f + (zlen os' - zlen os)) (set_data (Some (P' ++ rest)) f), m') /\
    closed P' /\ laid 0 P' os' (ss ++ omap kept_text (split_lines cur todo)) /\ plenty m' /\
    blocks m' = blocks m + (zlen os' - zlen os) + Z.b2z (unterminated (open_line cur) todo) - Z.b2z (open_line cur).
Proof.
  induction todo as [|c todo IH]; intros cur P os ss f m HP Hlaid Hcur Hd Hos Hm Hfirst.
  { exists P, (seg_of cur), os, m. cbn [length parse_line_loop split_lines omap list_omap unterminated]. rewrite !app_nil_r in *.
    rewrite Z.sub_diag, Z.add_0_r, <- Hd. split; [subst os; by destruct f |]. split; [done |]. split; [done |]. split; [done | lia]. }
  cbn [length split_lines unterminated] in *. destruct cur as [l|]; cbn [fmap option_fmap option_map open_line] in *.
  2: { cbn [parse_line_loop]. destruct (malloc_ok m Hm) as (m' & -> & Hm' & Eb).
    destruct (IH (Some [c]) P os ss f m') as (P' & rest & os' & m2 & E & ? & ? & ? & Eb2); try done.
    exists P', rest, os', m2. split; [|split_and!; try done]; [|rewrite Eb2, Eb; cbn [open_line]; change (Z.b2z true) with 1; change (Z.b2z false) with 0; lia].
    rewrite <- E. cbn. by rewrite Z.add_0_r. }
  assert (l <> []) as Hl by congruence. change (seg_of (Some l)) with (seg l) in *. rewrite (char_step _ _ _ _ _ _ _ Hd).
  destruct (Z.eqb_spec c 10) as [-> | Hc].
  - pose proof (filter_run P l todo HP) as Hf. cbn [starts_well omap list_omap negb] in *.
    destruct (kept_text l) as [s|] eqn:Es.
    + destruct Hf as (pad & g & E & Hz & H1 & H2 & H3 & H4 & H5); [intros Hp s' [= <-]; by apply Hfirst |].
      rewrite E. cbn [mbind option_bind]. destruct (closed_more P (pad ++ s ++ g)) as [HP' Hne]; [by rewrite !last_app, H5 |].
      assert (zlen P + zlen (seg l) + 1 = zlen (P ++ pad ++ s ++ g) + zlen (seg_of None)) as -> by (rewrite zlen_app; change (zlen (seg_of None)) with 0; lia).
      destruct (IH None (P ++ pad ++ s ++ g) (os ++ [zlen P + zlen pad]) (ss ++ [s])
        (set_lines (head_of_line f ++ [zlen P + zlen pad]) (count_of_line f + 1) (set_data (Some (P ++ (pad ++ s ++ g) ++ todo)) f)) m)
        as (P' & rest & os' & m2 & E' & ? & ? & ? & Eb2); [done | apply laid_keep; auto | done | | by cbn; rewrite Hos | done | done |].
      { by rewrite <- !app_assoc. }
      assert (zlen (os ++ [zlen P + zlen pad]) = zlen os + 1) as Ez by (by rewrite zlen_app).
      rewrite Ez in *. exists P', rest, os', m2. split; [etransitivity; [exact E' |] | split_and!; try done].
      * cbn [count_of_line set_lines]. by replace (count_of_line f + 1 + (zlen os' - (zlen os + 1))) with (count_of_line f + (zlen os' - zlen os)) by lia.
      * by rewrite <- app_assoc in *.
      * rewrite Eb2. cbn [open_line]. change (Z.b2z true) with 1. change (Z.b2z false) with 0. lia.
    + destruct Hf as (g & E & Hz & Hg); [done |]. rewrite E. cbn [mbind option_bind]. destruct (closed_more P g Hg) as [HP' Hne].
      assert (zlen P + zlen (seg l) + 1 = zlen (P ++ g) + zlen (seg_of None)) as -> by (rewrite zlen_app; change (zlen (seg_of None)) with 0; lia).
      destruct (IH None (P ++ g) os ss (set_data (Some (P ++ g ++ todo)) f) (zfree m))
        as (P' & rest & os' & m2 & E' & ? & ? & ? & Eb2); [done | by apply laid_more | done | | done | done | done |].
      { by rewrite <- !app_assoc. }
      exists P', rest, os', m2. split; [exact E' | split_and!; try done].
      rewrite Eb2. cbn [open_line zfree blocks]. change (Z.b2z true) with 1. change (Z.b2z false) with 0. lia.
  - destruct (IH (Some (l ++ [c])) P os ss (set_data (Some (P ++ seg l ++ cr c :: todo)) f) m) as (P' & rest & os' & m2 & E' & ? & ? & ? & Eb2);
      try done. { by destruct l. } { cbn. by rewrite seg_snoc, <- app_assoc. }
    exists P', rest, os', m2. split; [|done]. etransitivity; [|exact E']. cbn [fmap option_fmap option_map].
    f_equal. change (seg_of (Some (l ++ [c]))) with (seg (l ++ [c])). rewrite seg_snoc, zlen_app, zlen_cons, zlen_nil by done. lia.
Qed.

(** ** Reading the pairs *)
Lemma trim_spaces n : trim (spaces n) = [].
Proof.
  unfold trim. assert (ltrim (spaces n) = []) as ->; [|done]. induction n as [|n IH]; [done |]. by cbn.
Qed.

Lemma trim_nonblank k : k <> [] -> head k <> Some 0x20 -> exists q, k = trim k ++ spaces q /\ trim k <> [] /\ trimmed (trim k).
Proof.
  intros Hk Hh. destruct (trim_split k) as (p & q & E & Ht). destruct p as [|p]; [|rewrite E in Hh; done].
  exists q. split; [done |]. split; [|done]. intros E'. rewrite E' in E. destruct q as [|q]; [done |]. rewrite E in Hh. done.
Qed.

(** The key: [=] is already a NUL. *)
Lemma key_step P pad k Y : closed P -> pad = spaces (length pad) -> chars k -> head k <> Some 0x20 -> (P = [] -> k <> []) ->
  exists seg2 kp, _etcr_trim (P ++ pad ++ k ++ 0 :: Y) (zlen P + zlen pad) = Some (P ++ seg2 ++ 0 :: Y, kp) /\
    zlen seg2 = zlen pad + zlen k /\ 0 <= kp < zlen (P ++ seg2 ++ [0]) /\ text_at (P ++ seg2 ++ [0]) kp = trim k.
Proof.
  intros HP Hpad Hk Hh Hfirst. destruct (decide (k = [])) as [-> | Hne].
  - destruct HP as [-> | HP]; [by destruct Hfirst |]. apply last_Some in HP as (P1 & ->).
    exists (nuls (length pad)), (zlen (P1 ++ [0]) + zlen pad).
    pose proof (trim_blank P1 (length pad) 0 Y) as E. cbn [replicate app] in E. rewrite Z.add_0_r in E.
    rewrite Hpad at 1. rewrite <- !app_assoc. cbn [app]. rewrite !zlen_app. change (zlen [0]) with 1. change (zlen pad) with (Z.of_nat (length pad)).
    rewrite E. split; [done |]. rewrite ?zlen_app, ?zlen_cons, ?zlen_app, ?zlen_cons, ?zlen_rep, ?zlen_nil. pose proof (zlen_nonneg P1). split_and!; [lia .. |].
    pose proof (text_at_string (P1 ++ 0 :: nuls (length pad)) [] [] ltac:(constructor)) as Et. rewrite zlen_app, zlen_cons, zlen_rep in Et.
    rewrite <- app_assoc in Et. cbn [app] in Et. replace (zlen P1 + 1 + Z.of_nat (length pad)) with (zlen P1 + (1 + Z.of_nat (length pad))) by lia. exact Et.
  - destruct (trim_nonblank k Hne Hh) as (q & E & Ht & Htr). pose proof Hk as Hk'. rewrite E in Hk'. apply chars_app in Hk' as [Hk' _].
    exists (pad ++ trim k ++ nuls q), (zlen P + zlen pad).
    pose proof (trim_run (P ++ pad) 0 (trim k) q Y Hk' Ht Htr) as Er. cbn [replicate app] in Er. rewrite zlen_app, Z.add_0_r in Er.
    rewrite E at 1. rewrite <- !app_assoc in *. split; [exact Er |]. pose proof (f_equal zlen E) as Ez. rewrite zlen_app, zlen_rep in Ez.
    rewrite !zlen_app, zlen_rep. change (zlen [0]) with 1. pose proof (zlen_nonneg P). pose proof (zlen_nonneg pad). pose proof (zlen_nonneg (trim k)).
    split_and!; [lia .. |]. rewrite (app_assoc P), <- zlen_app. change [0] with (nuls 1). rewrite <- replicate_add, Nat.add_1_r. by apply text_at_string.
Qed.

(** A line with [=]: the strings the two pointers lead to. *)
Lemma pair_step P pad k v g X : closed P -> pad = spaces (length pad) -> chars (k ++ 61 :: v) -> head k <> Some 0x20 -> (P = [] -> k <> []) ->
  last (0 :: g) = Some 0 ->
  exists D kp vp P2, _etcr_trim (P ++ pad ++ k ++ 0 :: v ++ 0 :: g ++ X) (zlen P + zlen pad) = Some (D, kp) /\
    _etcr_trim D (zlen P + zlen pad + zlen k + 1) = Some ((P ++ P2) ++ X, vp) /\ zlen P2 = zlen (pad ++ (k ++ 61 :: v) ++ 0 :: g) /\
    closed (P ++ P2) /\ 0 <= kp < zlen (P ++ P2) /\ text_at (P ++ P2) kp = trim k /\ 0 <= vp < zlen (P ++ P2) /\ text_at (P ++ P2) vp = trim v.
Proof.
  intros HP Hpad Hs Hh Hfirst Hg. apply chars_app in Hs as [Hk [_ Hv]%Forall_cons].
  destruct (key_step P pad k (v ++ 0 :: g ++ X) HP Hpad Hk Hh Hfirst) as (seg2 & kp & E & Hz & Hkp & Ht).
  assert (closed (P ++ seg2 ++ [0])) as HP1 by (rewrite app_assoc; apply closed_snoc).
  assert (forall X, P ++ seg2 ++ 0 :: X = (P ++ seg2 ++ [0]) ++ X) as Ea by (intros; by rewrite <- !app_assoc).
  assert (zlen (P ++ seg2 ++ [0]) = zlen P + zlen pad + zlen k + 1) as EQ by (rewrite !zlen_app, Hz; change (zlen [0]) with 1; lia).
  rewrite Ea in E. set (Q := P ++ seg2 ++ [0]) in *. pose proof (app_assoc P (seg2 ++ [0])) as EP. fold Q in EP.
  destruct (trim_line Q v g X HP1 Hv) as (pad' & g' & E' & Hz' & _ & Hcv & _ & Hg1 & Hg2);
    [unfold Q; by destruct P, seg2 | done |].
  exists (Q ++ v ++ 0 :: g ++ X), kp, (zlen Q + zlen pad'), ((seg2 ++ [0]) ++ pad' ++ trim v ++ g').
  split; [exact E |]. rewrite <- EQ, EP, <- (app_assoc Q). split; [exact E' |]. split.
  { rewrite zlen_app, Hz', !zlen_app, !zlen_cons, Hz, zlen_nil. lia. }
  destruct g' as [|g0 g']; [done |]. injection Hg1 as ->.
  split; [right; by rewrite !last_app, Hg2 |]. rewrite text_at_closed by done.
  rewrite !zlen_app, !zlen_cons. pose proof (zlen_nonneg Q). pose proof (zlen_nonneg pad'). pose proof (zlen_nonneg (trim v)). pose proof (zlen_nonneg g').
  split; [lia |]. split; [done |]. split; [lia |]. rewrite (app_assoc Q), <- zlen_app. by apply text_at_string.
Qed.

(** ** The index of the keys *)
#[export] Instance etcr_key_compare_ok d : AvlCompare (_etcr_key_compare d).
Proof.
  unfold _etcr_key_compare. split; intros *.
  - rewrite (lex_antisym (key_text d (key x))). lia.
  - apply lex_trans.
  - intros ->%lex_eq. done.
  - intros H <-%lex_eq. done.
Qed.

Lemma ordered_cong {A} (cmp cmp' : A -> A -> Z) xs : (forall x y, x ∈ xs -> y ∈ xs -> cmp x y = cmp' x y) ->
  ordered cmp xs -> ordered cmp' xs.
Proof.
  unfold ordered. induction xs as [|x xs IH]; intros Hc Ho; [constructor |]. apply StronglySorted_cons in Ho as [Hx Ho].
  constructor.
  - apply IH; [|done]. intros y z Hy Hz. apply Hc; by constructor.
  - rewrite Forall_forall in Hx |- *. intros y Hy. rewrite <- Hc; [by apply Hx | constructor | by constructor].
Qed.

Lemma list_search_cong {A} (cmp cmp' : A -> A -> Z) k xs : (forall x, x ∈ xs -> cmp k x = cmp' k x) ->
  list_search cmp k xs = list_search cmp' k xs.
Proof.
  intros Hc. unfold list_search. f_equal. induction xs as [|x xs IH]; [done |]. rewrite !filter_cons, Hc by constructor.
  rewrite IH by (intros; apply Hc; by constructor). done.
Qed.

Definition lookup_key d root (k : list Z) : option etcr_kv_pair := list_search (_etcr_key_compare d) (Pair (Given k) 0) (elems root).

(** The tree holds, of the pairs [kvs], the first of each key; [ps] are their strings. *)
Record tree_ok (d : list Z) (kvs : list etcr_kv_pair) (root : tree etcr_kv_pair) (ps : list (list Z * list Z)) : Prop := {
  tk_tree : search_tree (_etcr_key_compare d) root;
  tk_elems x : x ∈ elems root -> x ∈ kvs;
  tk_find k : (fun x => text_at d (value x)) <$> lookup_key d root k = find_pair k ps;
}.

Lemma tree_ok_cong d d' kvs root ps :
  (forall x, x ∈ kvs -> key_text d (key x) = key_text d' (key x) /\ text_at d (value x) = text_at d' (value x)) ->
  tree_ok d kvs root ps -> tree_ok d' kvs root ps.
Proof.
  intros Hx [[Ha Ho] He Hf]. unfold lookup_key in *. split; [split; [done |] | done |].
  - eapply ordered_cong; [|exact Ho]. intros x y Hx1 Hy1. unfold _etcr_key_compare.
    by rewrite (proj1 (Hx x (He x Hx1))), (proj1 (Hx y (He y Hy1))).
  - intros k. rewrite <- Hf. unfold lookup_key.
    rewrite (list_search_cong (_etcr_key_compare d) (_etcr_key_compare d')) by (intros x Hin; change (lex k (key_text d (key x)) = lex k (key_text d' (key x))); by rewrite (proj1 (Hx x (He x Hin)))).
    destruct (list_search (_etcr_key_compare d') _ _) as [x|] eqn:E; [|done]. cbn. f_equal. symmetry.
    apply elem_of_list_search in E as [E _]. apply (Hx x (He x E)).
Qed.

Lemma find_pair_snoc k ps p : find_pair k (ps ++ [p]) = match find_pair k ps with Some v => Some v | None => if decide (p.1 = k) then Some p.2 else None end.
Proof.
  unfold find_pair. rewrite head_filter_app. destruct (head (filter _ ps)) as [q|]; [done |]. rewrite filter_cons, filter_nil. by case_decide.
Qed.

Lemma tree_ok_insert d kvs root ps kv : tree_ok d kvs root ps ->
  exists root', avlinsert root (Some kv) (Some (_etcr_key_compare d)) = Some root' /\
    tree_ok d (kvs ++ [kv]) root' (ps ++ [(key_text d (key kv), text_at d (value kv))]).
Proof.
  intros [Ht He Hf]. destruct (avlinsert_search_tree _ root kv Ht) as (root' & E & Ht' & El). exists root'. split; [done |].
  split; [done | |].
  - intros x Hx. rewrite El in Hx. apply elem_of_insert_sorted in Hx as [-> | Hx]; rewrite elem_of_app; [right; by constructor | left; by apply He].
  - intros k. unfold lookup_key. rewrite El, (list_search_insert (_etcr_key_compare d)) by (apply _ || apply Ht). fold (lookup_key d root k). rewrite find_pair_snoc, <- Hf.
    destruct (lookup_key d root k); [done |]. cbn [fmap option_fmap option_map fst snd].
    change (_etcr_key_compare d (Pair (Given k) 0) kv) with (lex k (key_text d (key kv))). destruct (decide (lex k (key_text d (key kv)) = 0)) as [E0 | E0].
    + apply lex_eq in E0. by rewrite decide_True.
    + rewrite decide_False; [done |]. intros <-. apply E0. by apply lex_eq.
Qed.

(** Pairs whose strings lie in the part that is done. *)
Definition stored (P : list Z) (kv : etcr_kv_pair) (p : list Z * list Z) : Prop :=
  exists kp, key kv = InText kp /\ 0 <= kp < zlen P /\ text_at P kp = p.1 /\ 0 <= value kv < zlen P /\ text_at P (value kv) = p.2.

Definition pairs_ok (P : list Z) (kvs : list etcr_kv_pair) root ps : Prop := Forall2 (stored P) kvs ps /\ tree_ok P kvs root ps.

(** More text behind the part that is done does not show. *)
Lemma stored_more P X kv p : closed P -> stored P kv p ->
  stored (P ++ X) kv p /\ key_text (P ++ X) (key kv) = key_text P (key kv) /\ text_at (P ++ X) (value kv) = text_at P (value kv).
Proof.
  intros HP (kp & E & Hk & Ek & Hv & Ev). rewrite E. cbn [key_text]. rewrite !text_at_closed by done. split; [|done].
  exists kp. rewrite !text_at_closed, zlen_app by done. pose proof (zlen_nonneg X). split_and!; (done || lia).
Qed.

Lemma tree_ok_more P X kvs root ps qs : closed P -> Forall2 (stored P) kvs qs -> tree_ok P kvs root ps <-> tree_ok (P ++ X) kvs root ps.
Proof.
  intros HP Hs.
  assert (forall x, x ∈ kvs -> key_text (P ++ X) (key x) = key_text P (key x) /\ text_at (P ++ X) (value x) = text_at P (value x)) as Hx.
  { intros x Hx. apply list_elem_of_lookup in Hx as [i Hi]. destruct (Forall2_lookup_l _ _ _ _ _ Hs Hi) as (p & _ & Hst).
    by apply (stored_more P X x p HP). }
  split; apply tree_ok_cong; intros x Hin; destruct (Hx x Hin) as [-> ->]; done.
Qed.

Lemma pairs_ok_more P X kvs root ps : closed P -> pairs_ok P kvs root ps -> pairs_ok (P ++ X) kvs root ps.
Proof.
  intros HP [Hs Ht]. split; [|by apply (tree_ok_more P X kvs root ps ps)].
  eapply Forall2_impl; [exact Hs |]. intros kv p Hst. by apply stored_more.
Qed.

Lemma pairs_ok_insert P X kvs root ps kv p : closed P -> pairs_ok P kvs root ps -> stored P kv p ->
  exists root', avlinsert root (Some kv) (Some (_etcr_key_compare (P ++ X))) = Some root' /\ pairs_ok P (kvs ++ [kv]) root' (ps ++ [p]).
Proof.
  intros HP [Hs Ht] Hkv. apply (tree_ok_more P X _ _ _ _ HP Hs) in Ht.
  destruct (tree_ok_insert (P ++ X) kvs root ps kv Ht) as (root' & E & Ht'). exists root'. split; [done |].
  assert (Forall2 (stored P) (kvs ++ [kv]) (ps ++ [p])) as Hs' by (apply Forall2_app; [done | by repeat constructor]).
  split; [done |]. apply (tree_ok_more P X _ _ _ _ HP Hs'). destruct (stored_more P X kv p HP Hkv) as (_ & Ek & Ev).
  rewrite Ek, Ev in Ht'. destruct Hkv as (kp & Ekv & _ & Et & _ & Ev'). rewrite Ekv in Ht'. cbn [key_text] in Ht'.
  by rewrite Et, Ev', <- surjective_pairing in Ht'.
Qed.

Lemma pairs_zlen P kvs root ps : pairs_ok P kvs root ps -> zlen kvs = zlen ps.
Proof. intros [H _]. unfold zlen. by rewrite (Forall2_length _ _ _ H). Qed.

Definition pairs_read (ss : list (list Z)) : list (list Z * list Z) := omap split_pair ss.

Lemma pairs_run b Q os ss : laid b Q os ss -> forall P X f m kept ps,
  b = zlen P -> closed P -> data f = Some (P ++ Q ++ X) -> pairs_ok P (head_of_kvpair f) (root_of_kvpair f) ps -> plenty m ->
  exists D kept' kvs root m', parse_kvpair_loop os kept f m =
      Some (File (Some D) (size f) (fd f) (kept ++ kept') (count_of_line f + zlen kept' - zlen os) kvs root (count_of_kvpair f + zlen kept'), m') /\
    pairs_ok D kvs root (ps ++ pairs_read ss) /\ zlen kept' = zlen (pairs_read ss) /\ plenty m' /\
    blocks m' = blocks m + 2 * zlen kept' - zlen os.
Proof.
  unfold pairs_read. induction 1 as [b | b g Q os ss Hg H IH | b pad s g Q os ss H1 H2 H3 H4 H5 H6 H IH]; intros P X f m kept ps -> HP Hd Hps Hm.
  - exists (P ++ X), [], (head_of_kvpair f), (root_of_kvpair f), m. cbn [parse_kvpair_loop omap list_omap]. rewrite !app_nil_r, !zlen_nil, Z.add_0_r, Z.sub_0_r, Z.add_0_r.
    cbn [app] in Hd. rewrite <- Hd. split; [done |]. split; [by apply pairs_ok_more |]. split_and!; (done || lia).
  - destruct (closed_more P g Hg) as [HP' _]. apply (IH (P ++ g) X); [by rewrite zlen_app | done | by rewrite Hd, <- !app_assoc | by apply pairs_ok_more | done].
  - destruct (closed_more P (pad ++ s ++ g)) as [HP' _]; [by rewrite !last_app, H6 |].
    destruct g as [|g0 g]; [done |]. injection H5 as ->. cbn [parse_kvpair_loop omap list_omap]. rewrite Hd. cbn [mbind option_bind].
    assert (P ++ ((pad ++ s ++ 0 :: g) ++ Q) ++ X = (P ++ pad) ++ s ++ 0 :: (g ++ Q ++ X)) as Ea
      by (by rewrite <- !app_assoc).
    rewrite Ea in Hd |- *. rewrite <- zlen_app, drop_zlen.
    destruct (before_split 61 s) as [[_ Hn] | (v & Es)].
    + cbn [app]. rewrite strchr_none by done. cbn [mbind option_bind]. unfold split_pair. rewrite decide_False by done.
      destruct (IH (P ++ (pad ++ s ++ 0 :: g)) X (set_lines (head_of_line f) (count_of_line f - 1) f) (zfree m) kept ps)
        as (D & kept' & kvs & root & m' & E & Hok & Hz & Hm' & Hb); [by rewrite (zlen_app P) | done | cbn [data set_lines]; rewrite Hd; by rewrite <- !app_assoc | by apply pairs_ok_more | done |].
      exists D, kept', kvs, root, m'. cbn [set_lines size fd count_of_line count_of_kvpair zfree blocks] in *. rewrite zlen_cons.
      split; [|split_and!; (done || lia)]. rewrite E. do 3 f_equal. lia.
    + remember (before 61 s) as k eqn:Ek. assert (split_pair s = Some (trim k, trim v)) as Esp.
      { unfold split_pair. rewrite decide_True by (rewrite Es, elem_of_app; right; constructor). rewrite <- Ek. rewrite Es at 1.
        change (k ++ 61 :: v) with (k ++ [61] ++ v). rewrite app_assoc, <- (Nat.add_1_r (length k)). change 1%nat with (length [61]).
        by rewrite <- length_app, drop_app_length. }
      rewrite Esp. assert (s ++ 0 :: g ++ Q ++ X = k ++ 61 :: v ++ 0 :: g ++ Q ++ X) as Esx by (rewrite Es at 1; by rewrite <- app_assoc).
      rewrite Esx. assert (chars k) as Hk by (rewrite Es in H2; by apply chars_app in H2 as [? _]).
      rewrite strchr_some by (done || (rewrite Ek; apply before_not_elem)). cbn [mbind option_bind].
      destruct (malloc_ok m Hm) as (m1 & -> & Hm1 & Eb1).
      rewrite (app_assoc (P ++ pad)), <- zlen_app, insert_at, <- !app_assoc, !zlen_app. cbn [app].
      destruct (pair_step P pad k v g (Q ++ X) HP) as (D1 & kp & vp & P2 & E1 & E2 & Hz2 & HP2 & Hkp & Etk & Hvp & Etv);
        [apply H1; by destruct s, k | by rewrite <- Es | destruct H3 as [H3 _]; rewrite Es in H3; by destruct k | | done |].
      { intros ->. destruct H4 as [_ H4]; [done |]. rewrite Es in H4. by destruct k. }
      rewrite E1. cbn [mbind option_bind]. rewrite (Z.add_assoc (zlen P)), E2. cbn [mbind option_bind].
      assert (stored (P ++ P2) (Pair (InText kp) vp) (trim k, trim v)) as Hst by (by exists kp).
      destruct (pairs_ok_insert (P ++ P2) (Q ++ X) _ _ _ _ _ HP2 (pairs_ok_more P P2 _ _ _ HP Hps) Hst) as (root & Er & Hok1).
      rewrite Er. cbn [mbind option_bind].
      set (f1 := set_pairs _ _ _ _).
      destruct (IH (P ++ P2) X f1 m1 (kept ++ [zlen P + zlen pad]) (ps ++ [(trim k, trim v)]))
        as (D & kept' & kvs & root' & m' & E & Hok & Hz & Hm' & Hb); [|done ..|].
      { by rewrite (zlen_app P P2), Hz2, <- Es. }
      exists D, ((zlen P + zlen pad) :: kept'), kvs, root', m'. rewrite !zlen_cons. split; [|split; [|split; [lia | split; [done | lia]]]].
      * rewrite E. unfold f1. cbn [set_pairs set_data size fd count_of_line count_of_kvpair]. rewrite <- app_assoc. cbn [app].
        do 3 f_equal; lia.
      * by rewrite <- app_assoc in Hok.
Qed.

(** ** Loading, asking, unloading *)
Lemma parse_run f text m : data f = Some text -> size f = zlen text -> head_of_line f = [] -> count_of_line f = 0 ->
  head_of_kvpair f = [] -> root_of_kvpair f = Null -> count_of_kvpair f = 0 -> plenty m -> starts_well (split_lines None text) ->
  exists D lines kvs root m', _etcr_parse f m =
      Some (NSP_STATUS_SUCCESSFUL, File (Some D) (zlen text) (fd f) lines (zlen lines) kvs root (zlen kvs), m') /\
    pairs_ok D kvs root (config text) /\ zlen lines = zlen kvs /\
    blocks m' = blocks m + 2 * zlen kvs + Z.b2z (unterminated false text).
Proof.
  intros Hd Hs Hl Hc Hp Hr Hn Hm Hw. unfold _etcr_parse, _etcr_parse_line.
  destruct (scan_run text None [] [] [] f m) as (P & rest & os & m1 & E & HP & Hlaid & Hm1 & Eb1); try done; [by left | constructor |].
  rewrite Hs. assert (Z.to_nat (zlen text) = length text) as -> by (unfold zlen; apply Nat2Z.id). change (zlen [] + zlen (seg_of None)) with 0 in E. cbn [fmap option_fmap option_map] in E.
  rewrite E. cbn [mbind option_bind]. change (NSP_SUCCESS NSP_STATUS_SUCCESSFUL) with true. cbn [mbind option_bind]. cbv iota.
  unfold _etcr_parse_kvpair. cbn [head_of_line set_lines set_data app omap list_omap] in *.
  set (f1 := set_lines os _ _).
  destruct (pairs_run 0 P os _ Hlaid [] rest f1 m1 [] []) as (D & kept & kvs & root & m2 & E2 & Hok & Hz & Hm2 & Eb2); [done | by left | done | | done |].
  { unfold f1. cbn. rewrite Hp, Hr. split; [constructor |]. split; [apply search_tree_Null | intros x Hx; by apply elem_of_nil in Hx | done]. }
  rewrite E2. unfold f1. cbn [set_lines set_data size fd count_of_line count_of_kvpair app mbind option_bind] in *. rewrite zlen_nil in *.
  pose proof (pairs_zlen _ _ _ _ Hok) as Ek. unfold pairs_read in *. fold (config text) in *.
  exists D, kept, kvs, root, m2. rewrite Hs, Hc, Hn. split; [|split; [done | split; [lia |]]].
  - change (@zlen Z []) with 0. replace (0 + (zlen os - 0) + zlen kept - zlen os) with (zlen kept) by lia. by replace (0 + zlen kept) with (zlen kvs) by lia.
  - cbn [open_line] in Eb1. change (Z.b2z false) with 0 in Eb1. lia.
Qed.

Lemma unload_pairs_run d : forall kvs root m, search_tree (_etcr_key_compare d) root ->
  exists root' , unload_pairs d kvs root m = Some (root', free_blocks (zlen kvs) m).
Proof.
  induction kvs as [|p kvs IH]; intros root m Ht; cbn [unload_pairs].
  - exists root. do 2 f_equal. unfold free_blocks. rewrite zlen_nil, Z.sub_0_r. by destruct m.
  - destruct (avlremove_none _ root p Ht) as (root1 & rm & E & Ht1 & _). rewrite E. cbn [mbind option_bind].
    destruct (IH root1 (zfree m) Ht1) as (root' & ->). exists root'. do 2 f_equal. unfold free_blocks. cbn [zfree blocks answers]. rewrite zlen_cons. f_equal. lia.
Qed.

(** ** Writing a configuration: a line for each pair *)
Definition render (p : list Z * list Z) : list Z := p.1 ++ 61 :: p.2 ++ [10].

Definition plain (s : list Z) : Prop := trimmed s /\ Forall (fun c => ~ c ∈ [0; 10; 13; 35]) s.
Definition plain_pair (p : list Z * list Z) : Prop := p.1 <> [] /\ ~ 61 ∈ p.1 /\ plain p.1 /\ plain p.2.

#[export] Instance plain_pair_dec p : Decision (plain_pair p).
Proof. unfold plain_pair, plain, trimmed. apply _. Defined.

Lemma split_lines_line s rest : forall l, Forall (fun c => ~ c ∈ [0; 10; 13; 35]) s ->
  split_lines (Some l) (s ++ 10 :: rest) = (l ++ s) :: split_lines None rest.
Proof.
  induction s as [|c s IH]; intros l Hs; cbn [app split_lines].
  - by rewrite app_nil_r.
  - apply Forall_cons in Hs as [Hc Hs]. rewrite (proj2 (Z.eqb_neq c 10)) by (intros ->; apply Hc; set_solver).
    rewrite IH by done. by rewrite <- app_assoc.
Qed.

Lemma unterminated_line s rest : Forall (fun c => ~ c ∈ [0; 10; 13; 35]) s -> unterminated true (s ++ 10 :: rest) = unterminated false rest.
Proof.
  induction s as [|c s IH]; intros Hs; cbn [app unterminated]; [done |].
  apply Forall_cons in Hs as [Hc Hs]. rewrite (proj2 (Z.eqb_neq c 10)) by (intros ->; apply Hc; set_solver). by apply IH.
Qed.

Lemma cstring_id s : chars s -> cstring s = s.
Proof.
  induction s as [|c s IH]; intros Hs; [done |]. apply Forall_cons in Hs as [Hc Hs]. cbn. rewrite (proj2 (Z.eqb_neq c 0)) by done. by rewrite IH.
Qed.

Lemma before_id c s r : ~ c ∈ s -> before c s = s /\ before c (s ++ c :: r) = s.
Proof.
  induction s as [|x s IH]; intros Hc; cbn [app before]; [by rewrite Z.eqb_refl |]. rewrite elem_of_cons in Hc.
  rewrite (proj2 (Z.eqb_neq x c)) by (intros ->; tauto). destruct (IH ltac:(tauto)) as [-> ->]. done.
Qed.

Lemma plain_not_elem c s : c ∈ [0; 10; 13; 35] -> Forall (fun c => ~ c ∈ [0; 10; 13; 35]) s -> ~ c ∈ s.
Proof. intros Hc Hs Hin. rewrite Forall_forall in Hs. by apply (Hs c Hin). Qed.

Lemma kept_plain s : s <> [] -> plain s -> kept_text s = Some s.
Proof.
  intros Hne [Ht Hp]. assert (cr <$> s = s) as Ecr.
  { clear -Hp. induction s as [|x s IH]; [done |]. apply Forall_cons in Hp as [Hx Hp]. rewrite fmap_cons, IH by done.
    unfold cr. rewrite (proj2 (Z.eqb_neq x 13)); [done | intros ->; apply Hx; set_solver]. }
  assert (line_text s = s) as El.
  { destruct s as [|c s]; [done |]. injection Ecr as _ Ecr. unfold line_text. change (list_fmap _ _ cr s) with (cr <$> s) in Ecr. rewrite Ecr. apply cstring_id.
    unfold chars. rewrite Forall_forall. intros x Hx ->. revert Hx. apply plain_not_elem; [set_solver | done]. }
  unfold kept_text. rewrite El, (proj1 (before_id 35 s [] (plain_not_elem 35 s ltac:(set_solver) Hp))).
  destruct s as [|c s]; [done |]. by rewrite trim_id.
Qed.

Lemma plain_line p : plain_pair p -> plain (p.1 ++ 61 :: p.2) /\ split_pair (p.1 ++ 61 :: p.2) = Some p.
Proof.
  intros (Hne & Hk & [[Ht1 Ht2] Hp] & [[Hv1 Hv2] Hq]). split.
  - split; [|apply Forall_app; split; [done |]; constructor; [set_solver | done]]. split; [by destruct (p.1) |].
    rewrite last_app, last_cons. by destruct (last (p.2)).
  - unfold split_pair. rewrite decide_True by (rewrite elem_of_app; right; constructor). rewrite (proj2 (before_id 61 (p.1) (p.2) Hk)).
    change (p.1 ++ 61 :: p.2) with (p.1 ++ [61] ++ p.2). rewrite app_assoc, <- (Nat.add_1_r (length (p.1))). change 1%nat with (length [61]).
    rewrite <- length_app, drop_app_length, !trim_id by done. by destruct p.
Qed.

Lemma render_cons p rest : plain_pair p ->
  split_lines None (render p ++ rest) = (p.1 ++ 61 :: p.2) :: split_lines None rest /\ unterminated false (render p ++ rest) = unterminated false rest.
Proof.
  intros Hp. destruct (plain_line p Hp) as [[_ Hl] _]. destruct Hp as (Hne & _). unfold render. rewrite <- app_assoc. cbn [app]. rewrite <- app_assoc. cbn [app].
  destruct p as [[|c k] v]; [done |]. cbn [fst snd app split_lines unterminated] in *. apply Forall_cons in Hl as [_ Hl].
  replace (k ++ 61 :: v ++ 10 :: rest) with ((k ++ 61 :: v) ++ 10 :: rest) by by rewrite <- app_assoc.
  split; [by rewrite split_lines_line | by rewrite unterminated_line].
Qed.

(** What is written is read back. *)
Lemma config_render ps : Forall plain_pair ps ->
  config (concat (render <$> ps)) = ps /\ starts_well (split_lines None (concat (render <$> ps))) /\
  unterminated false (concat (render <$> ps)) = false.
Proof.
  unfold config. induction ps as [|p ps IH]; intros Hps; [done |]. apply Forall_cons in Hps as [Hp Hps]. rewrite fmap_cons. cbn [concat].
  destruct (render_cons p (concat (render <$> ps)) Hp) as [-> ->]. destruct (IH Hps) as (E1 & _ & E3). destruct (plain_line p Hp) as [Hpl Es].
  assert (kept_text (p.1 ++ 61 :: p.2) = Some (p.1 ++ 61 :: p.2)) as Ek by (apply kept_plain; [by destruct (p.1) | done]).
  split; [|split; [|done]].
  - cbn [omap list_omap]. rewrite Ek. cbn [omap list_omap]. rewrite Es. by f_equal.
  - cbn [starts_well]. rewrite Ek. destruct Hp as (Hne & Hk & _). split; [by destruct (p.1) |].
    destruct p as [[|c k] v]; [done |]. cbn in *. intros [= ->]. apply Hk. constructor.
Qed.

(** What a key is answered with. *)
Definition reading (ps : list (list Z * list Z)) (k : list Z) : Z * option (list Z) :=
  match find_pair k ps with
  | Some v => (NSP_STATUS_SUCCESSFUL, Some v)
  | None => (posix__makeerror ENOENT, None)
  end.

Lemma query_run {K} h (w : etcr_world (K := K)) f d kvs ps k : 0 < h -> objects w !! h = Some f -> data f = Some d ->
  tree_ok d kvs (root_of_kvpair f) ps -> etcr_query_value_bykey h (Some k) w = reading ps k.
Proof.
  intros Hh Ho Hd Ht. unfold etcr_query_value_bykey, reading. rewrite (proj2 (Z.leb_gt h 0)), Ho, Hd by done. change (default [] (Some d)) with d.
  rewrite <- (tk_find _ _ _ _ Ht k). unfold lookup_key.
  rewrite <- (avlsearch_search_tree (_etcr_key_compare d) _ (Pair (Given k) 0) (tk_tree _ _ _ _ Ht)).
  by destruct (avlsearch (root_of_kvpair f) _ _).
Qed.

Section Session.
Context {K : Type} (sys_close : Z -> K -> K).
Implicit Types w : etcr_world (K := K).

(** C18: a text whose first line is neither blank nor without a key is read as its reference
    reading says.  The handle that is given out answers each key with the value of the
    first line that has it, and -ENOENT for any other key; other objects stay.  Unloading
    gives all memory back, except for the line behind the last line feed, if there is one. *)
Theorem etcr_session text w : text <> [] -> starts_well (split_lines None text) -> plenty (memory w) -> 0 <= atoid w ->
  objects w !! (atoid w + 1) = None ->
  let h := atoid w + 1 in
  exists w' w'', etcr_load_from_memory sys_close (Some text) (zlen text) true w = Some (NSP_STATUS_SUCCESSFUL, Some h, w') /\
    (forall k, etcr_query_value_bykey h (Some k) w' = reading (config text) k) /\
    (forall h', h' <> h -> objects w' !! h' = objects w !! h') /\
    etcr_unload sys_close h w' = Some w'' /\ objects w'' = objects w /\
    blocks (memory w'') = blocks (memory w) + Z.b2z (unterminated false text).
Proof.
  intros Hne Hw Hm Hat Hno h. unfold etcr_load_from_memory. cbn [negb orb]. rewrite (proj2 (Z.eqb_neq 0 (zlen text))) by (pose proof (zlen_pos text Hne); lia).
  unfold create. destruct (malloc_ok _ Hm) as (m1 & -> & Hm1 & Eb1). change (negb (NSP_SUCCESS NSP_STATUS_SUCCESSFUL)) with false. cbv iota.
  cbn [objects memory]. fold h. rewrite lookup_insert_eq. cbn [mbind option_bind]. destruct (malloc_ok _ Hm1) as (m2 & -> & Hm2 & Eb2).
  rewrite memread_all. cbn [mbind option_bind].
  destruct (parse_run (set_data (Some text) (set_size (zlen text) _etcr_initializer)) text m2)
    as (D & lines & kvs & root & m3 & E & [Hst Htree] & Hz & Eb3); try done.
  rewrite E. cbn [mbind option_bind]. unfold finish. change (NSP_SUCCESS NSP_STATUS_SUCCESSFUL) with true. cbv iota.
  destruct (unload_pairs_run D kvs root (free_blocks (zlen lines) m3) (tk_tree _ _ _ _ Htree)) as (root' & Eu).
  eexists. eexists. split; [reflexivity |]. split; [|split; [|split]].
  - intros k. eapply query_run; [unfold h; lia | apply lookup_insert_eq | done | exact Htree].
  - intros h' Hh'. cbn. by rewrite !lookup_insert_ne by congruence.
  - unfold etcr_unload, destroy. cbn [set_object set_memory objects memory system]. rewrite lookup_insert_eq. unfold _etcr_unloader.
    cbn [data head_of_kvpair root_of_kvpair head_of_line]. change (default [] (Some D)) with D. rewrite Eu. cbn [mbind option_bind]. reflexivity.
  - cbn. rewrite !insert_insert_eq, delete_insert_eq, delete_id by done. split; [done |]. lia.
Qed.
End Session.

(** A file that cannot be read, or only in part, loads as a configuration without keys. *)
Section Disk.
Context {K : Type} (sys_read : Z -> Z -> K -> (list Z + Z) * K) (sys_open : Z -> Z -> K -> answer * K)
  (sys_close : Z -> K -> K) (sys_fstat : Z -> K -> answer * K).
Implicit Types w : etcr_world (K := K).

Lemma etcr_short_read w fd n s1 s2 s3 cb buf : plenty (memory w) -> 0 <= atoid w ->
  ifos_file_open sys_open 2 420 (system w) = (NSP_STATUS_SUCCESSFUL, fd, s1) ->
  ifos_file_fgetsize sys_fstat fd s1 = (n, s2) -> 0 < n ->
  ifos_file_read sys_read fd (replicate (Z.to_nat n) 0) (s32 n) s2 = Some (cb, buf, s3) -> cb <> s32 n ->
  exists w', etcr_load_from_harddisk sys_read sys_open sys_close sys_fstat true true w = Some (NSP_STATUS_SUCCESSFUL, Some (atoid w + 1), w') /\
    forall k, etcr_query_value_bykey (atoid w + 1) (Some k) w' = (posix__makeerror ENOENT, None).
Proof.
  intros Hm Hat Eo Es Hn Er Hcb. unfold etcr_load_from_harddisk. cbn [negb orb]. unfold create.
  destruct (malloc_ok _ Hm) as (m1 & -> & Hm1 & _). change (negb (NSP_SUCCESS NSP_STATUS_SUCCESSFUL)) with false. cbv iota.
  cbn [objects memory system]. rewrite lookup_insert_eq. cbn [mbind option_bind]. change (Z.lor FF_RDACCESS FF_OPEN_EXISTING) with 2.
  rewrite Eo. change (negb (NSP_SUCCESS NSP_STATUS_SUCCESSFUL)) with false. cbv iota. rewrite Es, (proj2 (Z.leb_gt n 0)) by done.
  destruct (malloc_ok _ Hm1) as (m2 & -> & _). cbn [negb]. rewrite Er. cbn [mbind option_bind]. rewrite (proj2 (Z.eqb_neq _ _)) by done.
  cbn [negb]. unfold finish. change (NSP_SUCCESS NSP_STATUS_SUCCESSFUL) with true. cbv iota. eexists. split; [reflexivity |].
  intros k. unfold etcr_query_value_bykey. rewrite (proj2 (Z.leb_gt (atoid w + 1) 0)) by lia. cbn. by rewrite lookup_insert_eq.
Qed.

(** A file that is read whole loads as its text from memory does. *)
Lemma etcr_load_whole_file w fd text s1 s2 s3 : plenty (memory w) -> 0 <= atoid w -> text <> [] -> zlen text < 2 ^ 31 ->
  starts_well (split_lines None text) ->
  ifos_file_open sys_open 2 420 (system w) = (NSP_STATUS_SUCCESSFUL, fd, s1) ->
  ifos_file_fgetsize sys_fstat fd s1 = (zlen text, s2) ->
  ifos_file_read sys_read fd (replicate (length text) 0) (zlen text) s2 = Some (zlen text, text, s3) ->
  exists w', etcr_load_from_harddisk sys_read sys_open sys_close sys_fstat true true w = Some (NSP_STATUS_SUCCESSFUL, Some (atoid w + 1), w') /\
    forall k, etcr_query_value_bykey (atoid w + 1) (Some k) w' = reading (config text) k.
Proof.
  intros Hm Hat Hne Hz Hw Eo Es Er. unfold etcr_load_from_harddisk. cbn [negb orb]. unfold create.
  destruct (malloc_ok _ Hm) as (m1 & -> & Hm1 & _). change (negb (NSP_SUCCESS NSP_STATUS_SUCCESSFUL)) with false. cbv iota.
  cbn [objects memory system]. rewrite lookup_insert_eq. cbn [mbind option_bind]. change (Z.lor FF_RDACCESS FF_OPEN_EXISTING) with 2.
  rewrite Eo. change (negb (NSP_SUCCESS NSP_STATUS_SUCCESSFUL)) with false. cbv iota. pose proof (zlen_pos text Hne).
  rewrite Es, (proj2 (Z.leb_gt (zlen text) 0)) by done. destruct (malloc_ok _ Hm1) as (m2 & -> & Hm2 & _). cbn [negb].
  assert (Z.to_nat (zlen text) = length text) as -> by (unfold zlen; apply Nat2Z.id). rewrite (swrap_small 32) by (pow2; lia).
  rewrite Er. cbn [mbind option_bind]. rewrite Z.eqb_refl. cbn [negb set_memory memory].
  destruct (parse_run (set_data (Some text) (set_size (zlen text) (set_fd fd _etcr_initializer))) text m2)
    as (D & lines & kvs & root & m3 & E & [_ Htree] & _ & _); try done.
  rewrite E. cbn [mbind option_bind]. unfold finish. change (NSP_SUCCESS NSP_STATUS_SUCCESSFUL) with true. cbv iota. eexists. split; [reflexivity |].
  intros k. eapply query_run; [lia | apply lookup_insert_eq | done | exact Htree].
Qed.
End Disk.

(** ** The text of the test in etc_reader.c, and the texts that are not read *)
Definition chars_of (s : String.string) : list Z := (fun c => Z.of_nat (Ascii.nat_of_ascii c)) <$> String.list_ascii_of_string s.
Definition no_objects : etcr_world := World ∅ 0 (Mem [] 0) (Os tt 0).
Definition test_buffer : list Z := chars_of "key1=value1
key2=value2
 key3= value3
 key4 =value4 
#key5 = value5
 # key6 = value6
key7 $= value5
key8 = value8  # these are some comment
"%string.

Lemma etcr_session_witness :
  config test_buffer = [(chars_of "key1", chars_of "value1"); (chars_of "key2", chars_of "value2"); (chars_of "key3", chars_of "value3");
    (chars_of "key4", chars_of "value4"); (chars_of "key7 $", chars_of "value5"); (chars_of "key8", chars_of "value8")]%string /\
  exists w', etcr_load_from_memory (fun _ k => k) (Some test_buffer) (zlen test_buffer) true no_objects = Some (0, Some 1, w') /\
    etcr_query_value_bykey 1 (Some (chars_of "key8")) w' = (0, Some (chars_of "value8")) /\
    etcr_query_value_bykey 1 (Some (chars_of "key6")) w' = (-2, None).
Proof.
  split; [reflexivity |].
  destruct (etcr_session (fun _ k => k) test_buffer no_objects) as (w' & w'' & E & Eq & _);
    [done | vm_compute; done | by constructor | done | done |].
  exists w'. split; [exact E |]. split; [exact (Eq (chars_of "key8")) | exact (Eq (chars_of "key6"))].
Defined.

Example blank_first_line : etcr_load_from_memory (fun _ k => k) (Some (chars_of " #
")) 3 true no_objects = None.
Proof. reflexivity. Qed.

Example first_line_without_key : etcr_load_from_memory (fun _ k => k) (Some (chars_of "=v
")) 3 true no_objects = None.
Proof. reflexivity. Qed.

(** A line feed is the first character of the line behind a blank one, and of its key. *)
Example key_behind_blank_line : config (chars_of "a=1

b=2
") = [(chars_of "a", [49]); (10 :: chars_of "b", [50])].
Proof. reflexivity. Qed.
