(* ===== verification/Des.v ===== *)
(** DES: src/hash.c, lines 547 to 954.

    A bit is a char 0 or 1, a bit array a list; the low bit of a byte comes
    first.  [copy] is memcpy between arrays of fixed size (all of its ranges here
    are constants within them). *)
From S2P Require Import Prelude.

Definition DES_IP_Table : list Z :=
  [ 58; 50; 42; 34; 26; 18; 10; 2; 60; 52; 44; 36; 28; 20; 12; 4;
    62; 54; 46; 38; 30; 22; 14; 6; 64; 56; 48; 40; 32; 24; 16; 8;
    57; 49; 41; 33; 25; 17; 9; 1; 59; 51; 43; 35; 27; 19; 11; 3;
    61; 53; 45; 37; 29; 21; 13; 5; 63; 55; 47; 39; 31; 23; 15; 7 ].
Definition DES_IP_1_Table : list Z :=
  [ 40; 8; 48; 16; 56; 24; 64; 32; 39; 7; 47; 15; 55; 23; 63; 31;
    38; 6; 46; 14; 54; 22; 62; 30; 37; 5; 45; 13; 53; 21; 61; 29;
    36; 4; 44; 12; 52; 20; 60; 28; 35; 3; 43; 11; 51; 19; 59; 27;
    34; 2; 42; 10; 50; 18; 58; 26; 33; 1; 41; 9; 49; 17; 57; 25 ].
Definition DES_E_Table : list Z :=
  [ 32; 1; 2; 3; 4; 5; 4; 5; 6; 7; 8; 9;
    8; 9; 10; 11; 12; 13; 12; 13; 14; 15; 16; 17;
    16; 17; 18; 19; 20; 21; 20; 21; 22; 23; 24; 25;
    24; 25; 26; 27; 28; 29; 28; 29; 30; 31; 32; 1 ].
Definition DES_P_Table : list Z :=
  [ 16; 7; 20; 21; 29; 12; 28; 17; 1; 15; 23; 26; 5; 18; 31; 10;
    2; 8; 24; 14; 32; 27; 3; 9; 19; 13; 30; 6; 22; 11; 4; 25 ].
Definition DES_S : list (list (list Z)) := [
  [ [14; 4; 13; 1; 2; 15; 11; 8; 3; 10; 6; 12; 5; 9; 0; 7];
    [0; 15; 7; 4; 14; 2; 13; 1; 10; 6; 12; 11; 9; 5; 3; 8];
    [4; 1; 14; 8; 13; 6; 2; 11; 15; 12; 9; 7; 3; 10; 5; 0];
    [15; 12; 8; 2; 4; 9; 1; 7; 5; 11; 3; 14; 10; 0; 6; 13] ];
  [ [15; 1; 8; 14; 6; 11; 3; 4; 9; 7; 2; 13; 12; 0; 5; 10];
    [3; 13; 4; 7; 15; 2; 8; 14; 12; 0; 1; 10; 6; 9; 11; 5];
    [0; 14; 7; 11; 10; 4; 13; 1; 5; 8; 12; 6; 9; 3; 2; 15];
    [13; 8; 10; 1; 3; 15; 4; 2; 11; 6; 7; 12; 0; 5; 14; 9] ];
  [ [10; 0; 9; 14; 6; 3; 15; 5; 1; 13; 12; 7; 11; 4; 2; 8];
    [13; 7; 0; 9; 3; 4; 6; 10; 2; 8; 5; 14; 12; 11; 15; 1];
    [13; 6; 4; 9; 8; 15; 3; 0; 11; 1; 2; 12; 5; 10; 14; 7];
    [1; 10; 13; 0; 6; 9; 8; 7; 4; 15; 14; 3; 11; 5; 2; 12] ];
  [ [7; 13; 14; 3; 0; 6; 9; 10; 1; 2; 8; 5; 11; 12; 4; 15];
    [13; 8; 11; 5; 6; 15; 0; 3; 4; 7; 2; 12; 1; 10; 14; 9];
    [10; 6; 9; 0; 12; 11; 7; 13; 15; 1; 3; 14; 5; 2; 8; 4];
    [3; 15; 0; 6; 10; 1; 13; 8; 9; 4; 5; 11; 12; 7; 2; 14] ];
  [ [2; 12; 4; 1; 7; 10; 11; 6; 8; 5; 3; 15; 13; 0; 14; 9];
    [14; 11; 2; 12; 4; 7; 13; 1; 5; 0; 15; 10; 3; 9; 8; 6];
    [4; 2; 1; 11; 10; 13; 7; 8; 15; 9; 12; 5; 6; 3; 0; 14];
    [11; 8; 12; 7; 1; 14; 2; 13; 6; 15; 0; 9; 10; 4; 5; 3] ];
  [ [12; 1; 10; 15; 9; 2; 6; 8; 0; 13; 3; 4; 14; 7; 5; 11];
    [10; 15; 4; 2; 7; 12; 9; 5; 6; 1; 13; 14; 0; 11; 3; 8];
    [9; 14; 15; 5; 2; 8; 12; 3; 7; 0; 4; 10; 1; 13; 11; 6];
    [4; 3; 2; 12; 9; 5; 15; 10; 11; 14; 1; 7; 6; 0; 8; 13] ];
  [ [4; 11; 2; 14; 15; 0; 8; 13; 3; 12; 9; 7; 5; 10; 6; 1];
    [13; 0; 11; 7; 4; 9; 1; 10; 14; 3; 5; 12; 2; 15; 8; 6];
    [1; 4; 11; 13; 12; 3; 7; 14; 10; 15; 6; 8; 0; 5; 9; 2];
    [6; 11; 13; 8; 1; 4; 10; 7; 9; 5; 0; 15; 14; 2; 3; 12] ];
  [ [13; 2; 8; 4; 6; 15; 11; 1; 10; 9; 3; 14; 5; 0; 12; 7];
    [1; 15; 13; 8; 10; 3; 7; 4; 12; 5; 6; 11; 0; 14; 9; 2];
    [7; 11; 4; 1; 9; 12; 14; 2; 0; 6; 10; 13; 15; 3; 5; 8];
    [2; 1; 14; 7; 4; 10; 8; 13; 15; 12; 9; 0; 3; 5; 6; 11] ] ].
Definition DES_PC_1 : list Z :=
  [ 57; 49; 41; 33; 25; 17; 9; 1; 58; 50; 42; 34; 26; 18;
    10; 2; 59; 51; 43; 35; 27; 19; 11; 3; 60; 52; 44; 36;
    63; 55; 47; 39; 31; 23; 15; 7; 62; 54; 46; 38; 30; 22;
    14; 6; 61; 53; 45; 37; 29; 21; 13; 5; 28; 20; 12; 4 ].
Definition DES_PC_2 : list Z :=
  [ 14; 17; 11; 24; 1; 5; 3; 28; 15; 6; 21; 10;
    23; 19; 12; 4; 26; 8; 16; 7; 27; 20; 13; 2;
    41; 52; 31; 37; 47; 55; 30; 40; 51; 45; 33; 48;
    44; 49; 39; 56; 34; 53; 46; 42; 50; 36; 29; 32 ].
Definition DES_MOVE_TIMES : list nat := [1; 1; 2; 2; 2; 2; 2; 2; 1; 2; 2; 2; 2; 2; 2; 1]%nat.

(** memcpy (dst + off, src + soff, n) *)
Definition copy (dst : list Z) (off : nat) (src : list Z) (soff n : nat) : list Z :=
  take off dst ++ take n (drop soff src) ++ drop (off + n) dst.

Definition ByteToBit (ch : Z) : list Z :=
  (fun cnt => Z.land (Z.shiftr ch cnt) 1) <$> [0; 1; 2; 3; 4; 5; 6; 7].

(** [*ch |= bit[cnt] << cnt], a char *)
Definition BitToByte (bit : list Z) (ch : Z) : Z :=
  foldl (fun ch cnt => s8 (Z.lor ch (Z.shiftl (bit !!! Z.to_nat cnt) cnt))) ch [0; 1; 2; 3; 4; 5; 6; 7].

(** From and to the eight cells of a block. *)
Definition Char8ToBit64 (ch : list Z) : list Z :=
  concat ((fun cnt => ByteToBit (s8 (ch !!! cnt))) <$> seq 0 8).
Definition Bit64ToChar8 (bit : list Z) : list Z :=
  (fun cnt => u8 (BitToByte (take 8 (drop (8 * cnt) bit)) 0)) <$> seq 0 8.

(** [temp[cnt] = data[table[cnt] - 1]] for the whole table. *)
Definition transform (table data : list Z) : list Z :=
  (fun i => data !!! Z.to_nat (i - 1)) <$> table.

Definition DES_PC1_Transform (key : list Z) : list Z := transform DES_PC_1 key.
Definition DES_PC2_Transform (key : list Z) : list Z := transform DES_PC_2 key.

(** The ranges of the third and the fifth memcpy overlap; they are copied
    upwards. *)
Definition DES_ROL (data : list Z) (time : nat) : list Z :=
  let temp := replicate 56 0 in
  let temp := copy temp 0 data 0 time in
  let temp := copy temp time data 28 time in
  let data := copy data 0 data time (28 - time) in
  let data := copy data (28 - time) temp 0 time in
  let data := copy data 28 data (28 + time) (28 - time) in
  copy data (56 - time) temp time time.

(** The subkeys of the remaining rounds. *)
Fixpoint make_subkeys (temp : list Z) (times : list nat) : list (list Z) :=
  match times with
  | [] => []
  | time :: times =>
      let temp := DES_ROL temp time in DES_PC2_Transform temp :: make_subkeys temp times
  end.
Definition DES_MakeSubKeys (key : list Z) : list (list Z) :=
  make_subkeys (DES_PC1_Transform key) DES_MOVE_TIMES.

Definition DES_IP_Transform (data : list Z) : list Z := transform DES_IP_Table data.
Definition DES_IP_1_Transform (data : list Z) : list Z := transform DES_IP_1_Table data.
(** 32 bits to 48 *)
Definition DES_E_Transform (data : list Z) : list Z := transform DES_E_Table data.
Definition DES_P_Transform (data : list Z) : list Z :=
  let temp := transform DES_P_Table data in copy data 0 temp 0 32.

Definition DES_XOR (R L : list Z) (count : nat) : list Z :=
  zip_with Z.lxor (take count R) (take count L) ++ drop count R.

(** The halves of [data] change places. *)
Definition DES_SWAP (data : list Z) : list Z :=
  let temp := take 32 data in
  let data := copy data 0 data 32 32 in
  copy data 32 temp 0 32.

(** One turn of the loop of [DES_SBOX], which works in place. *)
Definition sbox_step (data : list Z) (cnt : nat) : list Z :=
  let cur1 := (cnt * 6)%nat in
  let cur2 := (4 * cnt)%nat in
  let line := Z.shiftl (data !!! cur1) 1 + data !!! (cur1 + 5)%nat in
  let row := Z.shiftl (data !!! (cur1 + 1)%nat) 3 + Z.shiftl (data !!! (cur1 + 2)%nat) 2
             + Z.shiftl (data !!! (cur1 + 3)%nat) 1 + data !!! (cur1 + 4)%nat in
  let output := ((DES_S !!! cnt) !!! Z.to_nat line) !!! Z.to_nat row in
  let data := <[cur2 := Z.shiftr (Z.land output 0x08) 3]> data in
  let data := <[(cur2 + 1)%nat := Z.shiftr (Z.land output 0x04) 2]> data in
  let data := <[(cur2 + 2)%nat := Z.shiftr (Z.land output 0x02) 1]> data in
  <[(cur2 + 3)%nat := Z.land output 0x01]> data.
Definition DES_SBOX (data : list Z) : list Z := foldl sbox_step data (seq 0 8).

(** The part of a round both directions share: the right half through E, the
    subkey, the S boxes and P into the left half. *)
Definition des_round (bits subkey : list Z) : list Z :=
  let copyRight := take 32 (drop 32 bits) in
  let copyRight := DES_E_Transform copyRight in
  let copyRight := DES_XOR copyRight subkey 48 in
  let copyRight := DES_SBOX copyRight in
  let copyRight := DES_P_Transform copyRight in
  DES_XOR bits copyRight 32.

Definition __des_encryptBlock (plainBlock : list Z) (subKeys : list (list Z)) : list Z :=
  let plainBits := DES_IP_Transform (Char8ToBit64 plainBlock) in
  let plainBits :=
    foldl (fun bits cnt =>
      let bits := des_round bits (subKeys !!! cnt) in
      if (cnt =? 15)%nat then bits else DES_SWAP bits) plainBits (seq 0 16) in
  Bit64ToChar8 (DES_IP_1_Transform plainBits).

Definition __des_decryptBlock (cipherBlock : list Z) (subKeys : list (list Z)) : list Z :=
  let cipherBits := DES_IP_Transform (Char8ToBit64 cipherBlock) in
  let cipherBits :=
    foldl (fun bits cnt =>
      let bits := des_round bits (subKeys !!! cnt) in
      if (cnt =? 0)%nat then bits else DES_SWAP bits) cipherBits (rev (seq 0 16)) in
  Bit64ToChar8 (DES_IP_1_Transform cipherBits).

(** "3uB#*tTy" *)
Definition DEFAULT_DES_KEY : list Z := [51; 117; 66; 35; 42; 116; 84; 121].

(** The loop over the blocks of eight bytes. *)
Fixpoint des_blocks (fuel : nat) (block : list Z -> list Z) (input output : list Z) (offset length : Z)
  : option (list Z * Z) :=
  if 8 <=? length then
    match fuel with
    | O => None
    | S fuel =>
        b ← memread input offset 8;
        output ← memcpy_at output offset (block b);
        des_blocks fuel block input output (offset + 8) (length - 8)
    end
  else Some (output, length).

(** [input] and [output] are the blocks the pointers lead to ([None]: NULL); the
    result is the returned int and the output. *)
Definition des_crypt (block : list (list Z) -> list Z -> list Z)
    (input : option (list Z)) (cb : Z) (key : option (list Z)) (output : option (list Z))
  : option (Z * option (list Z)) :=
  match input, output with
  | Some inp, Some out =>
      if (cb =? 0) || negb (cb mod 8 =? 0) then Some (posix__makeerror EINVAL, output)
      else
        let keyBlock := default DEFAULT_DES_KEY key in
        let subKeys := DES_MakeSubKeys (Char8ToBit64 keyBlock) in
        '(out, length) ← des_blocks (Z.to_nat cb) (block subKeys) inp out 0 cb;
        Some (s32 (cb - length), Some out)
  | _, _ => Some (posix__makeerror EINVAL, output)
  end.

Definition des_encrypt := des_crypt (fun subKeys b => __des_encryptBlock b subKeys).
Definition des_decrypt := des_crypt (fun subKeys b => __des_decryptBlock b subKeys).

(** ** Bits *)
Definition bit (b : Z) : Prop := b = 0 \/ b = 1.
Definition bits (l : list Z) : Prop := Forall bit l.

#[export] Instance bit_dec b : Decision (bit b).
Proof. unfold bit. apply _. Defined.

Lemma bits_total l i : bits l -> bit (l !!! i).
Proof.
  intros Hl. rewrite list_lookup_total_alt. destruct (l !! i) as [b|] eqn:E; [|first [by left | by right]].
  unfold bits in Hl. rewrite Forall_lookup in Hl. by apply (Hl i).
Qed.

Lemma bit_lxor x y : bit x -> bit y -> bit (Z.lxor x y).
Proof. intros [-> | ->] [-> | ->]; unfold bit; cbn; auto. Qed.

Lemma land_bit o k : 0 <= k -> bit (Z.shiftr (Z.land o (2 ^ k)) k).
Proof.
  intros Hk. rewrite Z.shiftr_land. replace (Z.shiftr (2 ^ k) k) with (Z.ones 1).
  - rewrite Z.land_ones by done. pose proof (Z.mod_pos_bound (Z.shiftr o k) (2 ^ 1)). unfold bit. lia.
  - rewrite Z.shiftr_div_pow2, Z.div_same by (try apply Z.pow_nonzero; lia). done.
Qed.

(** ** Lengths *)
Lemma copy_length dst off src soff n :
  (off + n <= length dst)%nat -> (soff + n <= length src)%nat ->
  length (copy dst off src soff n) = length dst.
Proof.
  intros H1 H2. unfold copy. rewrite !length_app, !length_take, !length_drop. lia.
Qed.

Lemma transform_length table data : length (transform table data) = length table.
Proof. apply length_fmap. Qed.

Lemma DES_XOR_length R L n : (n <= length R)%nat -> (n <= length L)%nat -> length (DES_XOR R L n) = length R.
Proof.
  intros H1 H2. unfold DES_XOR. rewrite length_app, length_zip_with, !length_take, length_drop. lia.
Qed.

Lemma sbox_length data : length (DES_SBOX data) = length data.
Proof.
  unfold DES_SBOX. generalize (seq 0 8). intros cs. revert data.
  induction cs as [|c cs IH]; intros data; [done |]. cbn [foldl]. rewrite IH. unfold sbox_step.
  by rewrite !length_insert.
Qed.

Lemma DES_P_length data : length data = 48%nat -> length (DES_P_Transform data) = 48%nat.
Proof. intros Hl. unfold DES_P_Transform. rewrite copy_length; [done | lia |]. by rewrite transform_length. Qed.

(** ** Bits stay bits *)
Lemma transform_bits table data : bits data -> bits (transform table data).
Proof. intros Hd. apply Forall_fmap, Forall_forall. intros i _. by apply bits_total. Qed.

Lemma copy_bits dst off src soff n : bits dst -> bits src -> bits (copy dst off src soff n).
Proof.
  intros Hd Hs. unfold copy. repeat (apply Forall_app; split);
    [by apply Forall_take | by apply Forall_take, Forall_drop | by apply Forall_drop].
Qed.

Lemma zip_with_bits l1 : forall l2, bits l1 -> bits l2 -> bits (zip_with Z.lxor l1 l2).
Proof.
  induction l1 as [|x l1 IH]; intros [|y l2] H1 H2; cbn [zip_with]; [by constructor .. |].
  apply Forall_cons in H1 as [? ?], H2 as [? ?]. constructor; [by apply bit_lxor | by apply IH].
Qed.

Lemma DES_XOR_bits R L n : bits R -> bits L -> bits (DES_XOR R L n).
Proof.
  intros HR HL. apply Forall_app. split; [|by apply Forall_drop].
  apply zip_with_bits; by apply Forall_take.
Qed.

Lemma sbox_bits data : bits data -> bits (DES_SBOX data).
Proof.
  unfold DES_SBOX. generalize (seq 0 8). intros cs. revert data.
  induction cs as [|c cs IH]; intros data Hd; [done |]. cbn [foldl]. apply IH. unfold sbox_step.
  set (output := (_ !!! _) !!! _). apply Forall_insert; [|apply (land_bit output 0); lia].
  apply Forall_insert; [|apply (land_bit output 1); lia].
  apply Forall_insert; [|apply (land_bit output 2); lia].
  apply Forall_insert; [|apply (land_bit output 3); lia]. done.
Qed.

(** ** A round undoes itself, and so does the swap *)
Definition feistel (bs subkey : list Z) : list Z :=
  DES_P_Transform (DES_SBOX (DES_XOR (DES_E_Transform (take 32 (drop 32 bs))) subkey 48)).

Lemma feistel_length bs subkey : length subkey = 48%nat -> length (feistel bs subkey) = 48%nat.
Proof.
  intros Hk. apply DES_P_length. rewrite sbox_length, DES_XOR_length; rewrite ?transform_length, ?Hk; done.
Qed.

Lemma zip_lxor_cancel l1 : forall l2, (length l1 <= length l2)%nat ->
  zip_with Z.lxor (zip_with Z.lxor l1 l2) l2 = l1.
Proof.
  induction l1 as [|x l1 IH]; intros [|y l2] Hl; try done; [simpl in Hl; lia |].
  cbn [zip_with]. rewrite lxor_cancel, IH; [done |]. simpl in Hl. lia.
Qed.

Lemma DES_XOR_cancel R L n :
  (n <= length R)%nat -> (n <= length L)%nat -> DES_XOR (DES_XOR R L n) L n = R.
Proof.
  intros H1 H2. unfold DES_XOR at 1. unfold DES_XOR.
  assert (length (zip_with Z.lxor (take n R) (take n L)) = n) as Hz
    by (rewrite length_zip_with, !length_take; lia).
  rewrite take_app_length', drop_app_length' by done.
  rewrite zip_lxor_cancel by (rewrite !length_take; lia). apply take_drop.
Qed.

Section Rounds.
Context (k : list Z) (Hk : length k = 48%nat) (b : list Z) (Hb : length b = 64%nat).

Lemma des_round_length : length (des_round b k) = 64%nat.
Proof.
  change (des_round b k) with (DES_XOR b (feistel b k) 32).
  rewrite DES_XOR_length; rewrite ?feistel_length, ?Hb; done || lia.
Qed.

Lemma des_round_right : drop 32 (des_round b k) = drop 32 b.
Proof.
  change (des_round b k) with (DES_XOR b (feistel b k) 32). unfold DES_XOR.
  apply drop_app_length'. rewrite length_zip_with, !length_take, feistel_length by done. lia.
Qed.

Lemma des_round_round : des_round (des_round b k) k = b.
Proof.
  change (des_round (des_round b k) k) with (DES_XOR (des_round b k) (feistel (des_round b k) k) 32).
  assert (feistel (des_round b k) k = feistel b k) as -> by (unfold feistel; by rewrite des_round_right).
  change (des_round b k) with (DES_XOR b (feistel b k) 32).
  apply DES_XOR_cancel; rewrite ?feistel_length by done; lia.
Qed.

End Rounds.

Lemma DES_SWAP_eq b : length b = 64%nat -> DES_SWAP b = drop 32 b ++ take 32 b.
Proof.
  intros Hb. destruct (split_at_len b 32) as (l & r & E & Hl); [lia |].
  assert (length r = 32%nat) as Hr by (rewrite E, length_app in Hb; lia).
  unfold DES_SWAP, copy. rewrite E. change (0 + 32)%nat with 32%nat.
  rewrite take_0, drop_0, (take_app_length' l r 32), (drop_app_length' l r 32), app_nil_l by done.
  rewrite (take_ge r), (take_ge l), (take_app_length' r r), (drop_ge (r ++ r)) by (rewrite ?length_app; lia).
  by rewrite app_nil_r.
Qed.

Lemma DES_SWAP_length b : length b = 64%nat -> length (DES_SWAP b) = 64%nat.
Proof. intros Hb. rewrite DES_SWAP_eq, length_app, length_drop, length_take by done. lia. Qed.

Lemma DES_SWAP_SWAP b : length b = 64%nat -> DES_SWAP (DES_SWAP b) = b.
Proof.
  intros Hb. rewrite (DES_SWAP_eq (DES_SWAP b)) by (by apply DES_SWAP_length).
  rewrite DES_SWAP_eq by done.
  rewrite drop_app_length', take_app_length' by (rewrite length_drop; lia). apply take_drop.
Qed.

(** ** The 16 rounds undo themselves with the subkeys backwards *)
Definition enc_bits (subKeys : list (list Z)) (bs : list Z) : list Z :=
  foldl (fun bits cnt =>
    let bits := des_round bits (subKeys !!! cnt) in
    if (cnt =? 15)%nat then bits else DES_SWAP bits) bs (seq 0 16).
Definition dec_bits (subKeys : list (list Z)) (bs : list Z) : list Z :=
  foldl (fun bits cnt =>
    let bits := des_round bits (subKeys !!! cnt) in
    if (cnt =? 0)%nat then bits else DES_SWAP bits) bs (rev (seq 0 16)).

Section Feistel.
Context (subKeys : list (list Z)) (Hks : forall i, (i < 16)%nat -> length (subKeys !!! i) = 48%nat).

Lemma round_len i b : (i < 16)%nat -> length b = 64%nat -> length (des_round b (subKeys !!! i)) = 64%nat.
Proof. intros Hi Hb. apply des_round_length; auto. Qed.

Lemma round_twice i b :
  (i < 16)%nat -> length b = 64%nat -> des_round (des_round b (subKeys !!! i)) (subKeys !!! i) = b.
Proof. intros Hi Hb. apply des_round_round; auto. Qed.

(** The bits before the last round of a direction: every round swapped. *)
Fixpoint swapped_rounds (cs : list nat) (b : list Z) : list Z :=
  match cs with
  | [] => b
  | c :: cs => swapped_rounds cs (DES_SWAP (des_round b (subKeys !!! c)))
  end.

Lemma swapped_rounds_len cs : forall b, Forall (fun c => (c < 16)%nat) cs -> length b = 64%nat ->
  length (swapped_rounds cs b) = 64%nat.
Proof.
  induction cs as [|c cs IH]; intros b Hc Hb; [done |]. apply Forall_cons in Hc as [Hc Hcs].
  cbn [swapped_rounds]. apply IH; [done |]. apply DES_SWAP_length, round_len; done.
Qed.

(** Undoing them: the swap comes before the round. *)
Fixpoint unswapped_rounds (cs : list nat) (b : list Z) : list Z :=
  match cs with
  | [] => b
  | c :: cs => unswapped_rounds cs (des_round (DES_SWAP b) (subKeys !!! c))
  end.

Lemma unswapped_snoc cs c b :
  unswapped_rounds (cs ++ [c]) b = des_round (DES_SWAP (unswapped_rounds cs b)) (subKeys !!! c).
Proof. revert b. induction cs as [|c' cs IH]; intros b; [done |]. cbn [app unswapped_rounds]. apply IH. Qed.

Lemma unswap_swapped cs : forall b, Forall (fun c => (c < 16)%nat) cs -> length b = 64%nat ->
  unswapped_rounds (rev cs) (swapped_rounds cs b) = b.
Proof.
  induction cs as [|c cs IH]; intros b Hc Hb; [done |]. apply Forall_cons in Hc as [Hc Hcs].
  cbn [rev swapped_rounds]. rewrite unswapped_snoc, IH by (try apply DES_SWAP_length, round_len; done).
  rewrite DES_SWAP_SWAP by (by apply round_len). by apply round_twice.
Qed.

Lemma enc_bits_eq b : enc_bits subKeys b = des_round (swapped_rounds (seq 0 15) b) (subKeys !!! 15%nat).
Proof. unfold enc_bits. cbn [seq foldl Nat.eqb swapped_rounds]. reflexivity. Qed.

Lemma dec_bits_eq b :
  dec_bits subKeys b = unswapped_rounds (rev (seq 0 15)) (des_round b (subKeys !!! 15%nat)).
Proof. unfold dec_bits. cbn [seq rev app foldl Nat.eqb unswapped_rounds]. reflexivity. Qed.

Lemma seq_lt16 : Forall (fun c => (c < 16)%nat) (seq 0 15).
Proof. apply Forall_forall. intros c Hc%elem_of_seq. lia. Qed.

Lemma dec_enc_bits b : length b = 64%nat -> dec_bits subKeys (enc_bits subKeys b) = b.
Proof.
  intros Hb. rewrite enc_bits_eq, dec_bits_eq, round_twice; [|lia |].
  - apply unswap_swapped; [apply seq_lt16 | done].
  - apply swapped_rounds_len; [apply seq_lt16 | done].
Qed.

Lemma enc_bits_len b : length b = 64%nat -> length (enc_bits subKeys b) = 64%nat.
Proof.
  intros Hb. rewrite enc_bits_eq. apply round_len; [lia |].
  apply swapped_rounds_len; [apply seq_lt16 | done].
Qed.
End Feistel.

(** ** Blocks *)
Lemma fmap_seq_lookup {A} `{Inhabited A} (l : list A) : (fun n => l !!! n) <$> seq 0 (length l) = l.
Proof.
  induction l as [|x l IH] using rev_ind; [done |].
  rewrite length_app, Nat.add_comm, seq_S, fmap_app. cbn [fmap list_fmap Nat.add].
  f_equal.
  - rewrite <- IH at 2. apply list_fmap_ext. intros i n Hn%lookup_seq.
    apply lookup_total_app_l. lia.
  - by rewrite lookup_total_app_r, Nat.sub_diag by lia.
Qed.

Lemma lookup_total_fmap_lt {A B} `{Inhabited A, Inhabited B} (f : A -> B) l n :
  (n < length l)%nat -> (f <$> l) !!! n = f (l !!! n).
Proof.
  intros Hn. apply list_lookup_total_correct. rewrite list_lookup_fmap.
  by rewrite (list_lookup_lookup_total_lt l n Hn).
Qed.

(** Composing two table lookups. *)
Lemma transform_transform t1 t2 l :
  Forall (fun i => (Z.to_nat (i - 1) < length t1)%nat) t2 ->
  transform t2 (transform t1 l) = (fun n => l !!! n) <$> ((fun i => Z.to_nat (t1 !!! Z.to_nat (i - 1) - 1)) <$> t2).
Proof.
  intros Ht. unfold transform at 1. rewrite <- list_fmap_compose. apply list_fmap_ext.
  intros j i Hi. unfold transform, compose. rewrite Forall_lookup in Ht.
  by rewrite lookup_total_fmap_lt by (by apply (Ht j)).
Qed.

Lemma DES_IP_inverse l :
  length l = 64%nat ->
  DES_IP_1_Transform (DES_IP_Transform l) = l /\ DES_IP_Transform (DES_IP_1_Transform l) = l.
Proof.
  intros Hl. unfold DES_IP_Transform, DES_IP_1_Transform.
  rewrite !transform_transform by decided.
  split; (transitivity ((fun n => l !!! n) <$> seq 0 (length l)); [rewrite Hl; f_equal; by vm_compute |]);
    apply fmap_seq_lookup.
Qed.

(** Cutting into groups of eight. *)
Lemma concat_groups n : forall l : list Z, length l = (8 * n)%nat ->
  concat ((fun cnt => take 8 (drop (8 * cnt) l)) <$> seq 0 n) = l.
Proof.
  induction n as [|n IH]; intros l Hl; [by rewrite (nil_length_inv l) |].
  cbn [seq]. rewrite fmap_cons. cbn [concat]. rewrite Nat.mul_0_r, drop_0.
  transitivity (take 8 l ++ drop 8 l); [f_equal | apply take_drop].
  rewrite <- (IH (drop 8 l)) by (rewrite length_drop; lia).
  f_equal. rewrite <- fmap_S_seq, <- list_fmap_compose. apply list_fmap_ext.
  intros i c _. unfold compose. rewrite drop_drop. do 2 f_equal. lia.
Qed.

Lemma ByteToBit_bits ch : bits (ByteToBit ch).
Proof.
  apply Forall_fmap, Forall_forall. intros c _. unfold compose. change 1 with (Z.ones 1).
  rewrite Z.land_ones by done. pose proof (Z.mod_pos_bound (Z.shiftr ch c) (2 ^ 1)). unfold bit. lia.
Qed.

Lemma byte_bits b : byte b -> u8 (BitToByte (ByteToBit (s8 b)) 0) = b.
Proof.
  intros Hb. apply Z.eqb_eq.
  apply (below_spec 256 (fun b => u8 (BitToByte (ByteToBit (s8 b)) 0) =? b)); [by vm_compute | exact Hb].
Qed.

Lemma bits_byte l : bits l -> length l = 8%nat -> ByteToBit (s8 (u8 (BitToByte l 0))) = l.
Proof.
  intros Hb Hl. do 8 (destruct l as [|? l]; [done |]). destruct l; [|done]. unfold bits in Hb.
  repeat match goal with H : Forall bit (_ :: _) |- _ => apply Forall_cons in H as [[-> | ->] H] end;
    vm_compute; reflexivity.
Qed.

Lemma Char8ToBit64_length ch : length (Char8ToBit64 ch) = 64%nat.
Proof. done. Qed.

Lemma Char8ToBit64_bits ch : bits (Char8ToBit64 ch).
Proof.
  unfold Char8ToBit64. apply Forall_concat, Forall_fmap, Forall_forall. intros c _. apply ByteToBit_bits.
Qed.

Lemma Char8ToBit64_Bit64ToChar8 bs : bits bs -> length bs = 64%nat -> Char8ToBit64 (Bit64ToChar8 bs) = bs.
Proof.
  intros Hb Hl. transitivity (concat ((fun cnt => take 8 (drop (8 * cnt) bs)) <$> seq 0 8));
    [unfold Char8ToBit64, Bit64ToChar8; f_equal | by apply concat_groups].
  apply list_fmap_ext. intros i c [-> Hc]%lookup_seq. cbn [Nat.add].
  rewrite lookup_total_fmap_lt by (rewrite length_seq; lia).
  rewrite (list_lookup_total_correct (seq 0 8) i i) by (by rewrite lookup_seq_lt).
  apply bits_byte; [by apply Forall_take, Forall_drop |]. rewrite length_take, length_drop. lia.
Qed.

Lemma Bit64ToChar8_Char8ToBit64 ch : bytes ch -> length ch = 8%nat -> Bit64ToChar8 (Char8ToBit64 ch) = ch.
Proof.
  intros Hb Hl. transitivity ((fun n => ch !!! n) <$> seq 0 8);
    [unfold Bit64ToChar8 | rewrite <- Hl; apply fmap_seq_lookup].
  apply list_fmap_ext. intros i c [-> Hc]%lookup_seq. cbn [Nat.add].
  replace (take 8 (drop (8 * i) (Char8ToBit64 ch))) with (ByteToBit (s8 (ch !!! i))).
  - apply byte_bits. unfold bytes in Hb. rewrite Forall_lookup in Hb.
    apply (Hb i), list_lookup_lookup_total_lt. lia.
  - do 8 (destruct i as [|i]; [done |]). lia.
Qed.

(** ** The subkeys *)
Lemma DES_ROL_length data time :
  length data = 56%nat -> (time <= 28)%nat -> length (DES_ROL data time) = 56%nat.
Proof.
  intros Hd Ht. unfold DES_ROL. cbv zeta.
  set (t1 := copy (replicate 56 0) 0 data 0 time).
  assert (length t1 = 56%nat) as H1 by (unfold t1; rewrite copy_length; rewrite ?length_replicate; lia).
  set (t2 := copy t1 time data 28 time).
  assert (length t2 = 56%nat) as H2 by (unfold t2; rewrite copy_length; lia).
  set (d1 := copy data 0 data time (28 - time)).
  assert (length d1 = 56%nat) as H3 by (unfold d1; rewrite copy_length; lia).
  set (d2 := copy d1 (28 - time) t2 0 time).
  assert (length d2 = 56%nat) as H4 by (unfold d2; rewrite copy_length; lia).
  set (d3 := copy d2 28 d2 (28 + time) (28 - time)).
  assert (length d3 = 56%nat) as H5 by (unfold d3; rewrite copy_length; lia).
  rewrite copy_length; lia.
Qed.

Lemma DES_ROL_bits data time : bits data -> bits (DES_ROL data time).
Proof.
  intros Hd. unfold DES_ROL. cbv zeta. repeat apply copy_bits; try done; apply Forall_replicate; by left.
Qed.

Lemma make_subkeys_ok times : forall temp, length temp = 56%nat -> bits temp ->
  Forall (fun t => (t <= 28)%nat) times ->
  Forall (fun k => length k = 48%nat /\ bits k) (make_subkeys temp times).
Proof.
  induction times as [|t times IH]; intros temp Hl Hb Ht; [constructor |].
  apply Forall_cons in Ht as [Ht Hts]. cbn [make_subkeys]. constructor.
  - split; [done | by apply transform_bits, DES_ROL_bits].
  - apply IH; [by apply DES_ROL_length | by apply DES_ROL_bits | done].
Qed.

Lemma make_subkeys_length times : forall temp, length (make_subkeys temp times) = length times.
Proof. induction times as [|t times IH]; intros temp; [done |]. cbn [make_subkeys length]. by rewrite IH. Qed.

Lemma DES_MakeSubKeys_ok key i : bits key -> (i < 16)%nat ->
  length (DES_MakeSubKeys key !!! i) = 48%nat /\ bits (DES_MakeSubKeys key !!! i).
Proof.
  intros Hk Hi. unfold DES_MakeSubKeys.
  destruct (lookup_lt_is_Some_2 (make_subkeys (DES_PC1_Transform key) DES_MOVE_TIMES) i) as [k Ek];
    [by rewrite make_subkeys_length |].
  rewrite (list_lookup_total_correct _ _ _ Ek).
  assert (Forall (fun t => (t <= 28)%nat) DES_MOVE_TIMES) as Ht by decided.
  pose proof (make_subkeys_ok DES_MOVE_TIMES (DES_PC1_Transform key) eq_refl (transform_bits _ _ Hk) Ht) as Hall.
  rewrite Forall_lookup in Hall. by apply (Hall i).
Qed.

(** ** One block *)
Lemma des_round_bits b k : bits b -> bits k -> bits (des_round b k).
Proof.
  intros Hb Hk. change (des_round b k) with (DES_XOR b (feistel b k) 32).
  apply DES_XOR_bits; [done |]. unfold feistel, DES_P_Transform. cbv zeta.
  assert (bits (DES_SBOX (DES_XOR (DES_E_Transform (take 32 (drop 32 b))) k 48))) as Hs.
  { apply sbox_bits, DES_XOR_bits; [|done]. by apply transform_bits, Forall_take, Forall_drop. }
  apply copy_bits; [done | by apply transform_bits].
Qed.

Lemma DES_SWAP_bits b : bits b -> bits (DES_SWAP b).
Proof. intros Hb. unfold DES_SWAP. cbv zeta. repeat apply copy_bits; try done. by apply Forall_take. Qed.

Section Block.
Context (subKeys : list (list Z))
  (Hks : forall i, (i < 16)%nat -> length (subKeys !!! i) = 48%nat /\ bits (subKeys !!! i)).

Lemma swapped_rounds_bits cs : forall b, Forall (fun c => (c < 16)%nat) cs -> bits b ->
  bits (swapped_rounds subKeys cs b).
Proof.
  induction cs as [|c cs IH]; intros b Hc Hb; [done |]. apply Forall_cons in Hc as [Hc Hcs].
  cbn [swapped_rounds]. apply IH; [done |]. by apply DES_SWAP_bits, des_round_bits, Hks.
Qed.

Lemma enc_bits_bits b : bits b -> bits (enc_bits subKeys b).
Proof.
  intros Hb. rewrite enc_bits_eq. apply des_round_bits; [|apply Hks; lia].
  by apply swapped_rounds_bits; [apply seq_lt16 |].
Qed.

Lemma Bit64ToChar8_length bs : length (Bit64ToChar8 bs) = 8%nat.
Proof. done. Qed.

Lemma Bit64ToChar8_bytes bs : bytes (Bit64ToChar8 bs).
Proof. apply Forall_fmap, Forall_forall. intros c _. apply (wrap_range 8). lia. Qed.

Lemma encryptBlock_eq b :
  __des_encryptBlock b subKeys
  = Bit64ToChar8 (DES_IP_1_Transform (enc_bits subKeys (DES_IP_Transform (Char8ToBit64 b)))).
Proof. unfold __des_encryptBlock, enc_bits. reflexivity. Qed.

Lemma decryptBlock_eq b :
  __des_decryptBlock b subKeys
  = Bit64ToChar8 (DES_IP_1_Transform (dec_bits subKeys (DES_IP_Transform (Char8ToBit64 b)))).
Proof. unfold __des_decryptBlock, dec_bits. reflexivity. Qed.

Lemma decrypt_encrypt_block b :
  bytes b -> length b = 8%nat ->
  __des_decryptBlock (__des_encryptBlock b subKeys) subKeys = b.
Proof.
  intros Hb Hl. rewrite decryptBlock_eq, encryptBlock_eq.
  set (e := enc_bits _ _). assert (bits e /\ length e = 64%nat) as [Hbe Hle].
  { split; [by apply enc_bits_bits, transform_bits, Char8ToBit64_bits |].
    apply enc_bits_len; [|apply transform_length]. intros i Hi. by apply Hks. }
  rewrite Char8ToBit64_Bit64ToChar8 by (first [by apply transform_bits | apply transform_length]).
  rewrite (proj2 (DES_IP_inverse e Hle)).
  unfold e. rewrite dec_enc_bits by (first [by intros; apply Hks | apply transform_length]).
  rewrite (proj1 (DES_IP_inverse _ (Char8ToBit64_length b))). by apply Bit64ToChar8_Char8ToBit64.
Qed.
End Block.

(** ** All blocks *)
Definition octets (n : nat) (l : list Z) : list (list Z) := (fun i => take 8 (drop (8 * i) l)) <$> seq 0 n.

(** The message block by block (electronic code book). *)
Definition ecb (block : list Z -> list Z) (n : nat) (l : list Z) : list Z := concat (block <$> octets n l).

Lemma octets_length n l : length l = (8 * n)%nat -> Forall (fun b => length b = 8%nat) (octets n l).
Proof.
  intros Hl. apply Forall_fmap, Forall_forall. intros i Hi%elem_of_seq. unfold compose.
  rewrite length_take, length_drop. lia.
Qed.

Lemma octets_concat chunks : Forall (fun b : list Z => length b = 8%nat) chunks ->
  octets (length chunks) (concat chunks) = chunks.
Proof.
  induction chunks as [|c chunks IH]; intros Hc; [done |]. apply Forall_cons in Hc as [Hc Hcs].
  unfold octets. cbn [length seq concat]. rewrite fmap_cons. f_equal.
  - by rewrite drop_0, <- Hc, take_app_length.
  - rewrite <- IH at 2 by done. unfold octets. rewrite <- fmap_S_seq, <- list_fmap_compose.
    apply list_fmap_ext. intros i x _. unfold compose. f_equal.
    replace (8 * S x)%nat with (length c + 8 * x)%nat by lia.
    by rewrite <- drop_drop, drop_app_length.
Qed.

Lemma concat_length8 (chunks : list (list Z)) : Forall (fun b => length b = 8%nat) chunks ->
  length (concat chunks) = (8 * length chunks)%nat.
Proof.
  induction chunks as [|c chunks IH]; intros Hc; [done |]. apply Forall_cons in Hc as [Hc Hcs].
  cbn [concat length]. rewrite length_app, IH, Hc by done. lia.
Qed.

Section Blocks8.
Context (block : list Z -> list Z) (Hblock : forall b, length b = 8%nat -> length (block b) = 8%nat).

Lemma fmap_block_length chunks : Forall (fun b => length b = 8%nat) chunks ->
  Forall (fun b => length b = 8%nat) (block <$> chunks).
Proof. intros Hc. apply Forall_fmap. eapply Forall_impl; [exact Hc |]. apply Hblock. Qed.

Lemma ecb_length n l : length l = (8 * n)%nat -> length (ecb block n l) = (8 * n)%nat.
Proof.
  intros Hl. unfold ecb. rewrite concat_length8 by (by apply fmap_block_length, octets_length).
  unfold octets. rewrite !length_fmap, length_seq. lia.
Qed.

Lemma des_blocks_spec chunks : forall fuel ipre opre omid opost,
  Forall (fun b => length b = 8%nat) chunks -> zlen ipre = zlen opre ->
  length omid = (8 * length chunks)%nat -> (length chunks <= fuel)%nat ->
  des_blocks fuel block (ipre ++ concat chunks) (opre ++ omid ++ opost) (zlen ipre) (zlen (concat chunks))
  = Some (opre ++ concat (block <$> chunks) ++ opost, 0).
Proof.
  induction chunks as [|c chunks IH]; intros fuel ipre opre omid opost Hc Hpre Hmid Hf.
  { destruct omid; [|done]. by destruct fuel. }
  apply Forall_cons in Hc as [Hc Hcs]. destruct fuel as [|fuel]; [cbn in Hf; lia |].
  cbn [length] in Hmid, Hf.
  destruct (split_at_len omid 8) as (o8 & orest & -> & Ho8); [lia |]. rewrite length_app in Hmid.
  assert (zlen c = 8) as Hzc by (unfold zlen; lia).
  cbn [concat des_blocks]. rewrite (zlen_app c).
  rewrite (proj2 (Z.leb_le 8 _)) by (pose proof (zlen_nonneg (concat chunks)); lia).
  pose proof (memread_app ipre c (concat chunks)) as Hr. rewrite Hzc in Hr. rewrite Hr.
  cbn [mbind option_bind]. rewrite Hpre, <- (app_assoc o8).
  rewrite memcpy_at_app by (rewrite Ho8, Hblock; done). cbn [mbind option_bind].
  rewrite (app_assoc ipre c), (app_assoc opre (block c)).
  replace (zlen opre + 8) with (zlen (ipre ++ c)) by (rewrite zlen_app; lia).
  replace (zlen c + zlen (concat chunks) - 8) with (zlen (concat chunks)) by lia.
  assert (zlen (block c) = 8) as Hzb by (unfold zlen; rewrite Hblock; done).
  rewrite IH; [|done | rewrite !zlen_app; lia | lia | lia].
  rewrite fmap_cons. cbn [concat]. by rewrite <- !app_assoc.
Qed.
End Blocks8.

Section Crypt.
Context (block : list (list Z) -> list Z -> list Z)
  (Hblock : forall ks b, length b = 8%nat -> length (block ks b) = 8%nat).

Lemma des_crypt_ok input key out n :
  length input = (8 * n)%nat -> (0 < n)%nat -> zlen input < 2 ^ 31 -> zlen input <= zlen out ->
  des_crypt block (Some input) (zlen input) key (Some out)
  = Some (zlen input, Some (ecb (block (DES_MakeSubKeys (Char8ToBit64 (default DEFAULT_DES_KEY key)))) n input
                            ++ drop (length input) out)).
Proof.
  intros Hl Hn Hs Ho. unfold des_crypt. cbv zeta.
  assert (zlen input = 8 * Z.of_nat n) as Hz by (unfold zlen; lia).
  rewrite (proj2 (Z.eqb_neq (zlen input) 0)) by lia.
  rewrite (proj2 (Z.eqb_eq (zlen input mod 8) 0)) by zdiv. cbn [orb negb].
  set (b := block _). assert (forall c, length c = 8%nat -> length (b c) = 8%nat) as Hb by (intros; by apply Hblock).
  destruct (split_at_len out (length input)) as (omid & opost & -> & Hom); [unfold zlen in Ho; lia |].
  assert (concat (octets n input) = input) as Ei by (by apply concat_groups).
  pose proof (des_blocks_spec b Hb (octets n input) (Z.to_nat (zlen input)) [] [] omid opost) as Hs'.
  rewrite Ei in Hs'. cbn [app] in Hs'. change (zlen []) with 0 in Hs'.
  assert (length (octets n input) = n) as Eo by (unfold octets; by rewrite length_fmap, length_seq).
  rewrite Hs'; [|by apply octets_length | done | lia | unfold zlen; lia].
  cbn [mbind option_bind]. rewrite Z.sub_0_r, (swrap_small 32 (zlen input)) by (pow2; lia).
  do 3 f_equal. rewrite <- Hom, drop_app_length. done.
Qed.

Lemma des_crypt_EINVAL input cb key out :
  cb = 0 \/ cb mod 8 <> 0 \/ input = None \/ out = None ->
  des_crypt block input cb key out = Some (- EINVAL, out).
Proof.
  intros Hc. unfold des_crypt. destruct input as [inp|], out as [o|]; try done.
  destruct Hc as [-> | [Hc | [Hc | Hc]]]; try done.
  rewrite (proj2 (Z.eqb_neq (cb mod 8) 0)) by done. by rewrite orb_true_r.
Qed.
End Crypt.

Lemma encryptBlock_length ks b : length b = 8%nat -> length (__des_encryptBlock b ks) = 8%nat.
Proof. intros _. rewrite encryptBlock_eq. apply Bit64ToChar8_length. Qed.
Lemma decryptBlock_length ks b : length b = 8%nat -> length (__des_decryptBlock b ks) = 8%nat.
Proof. intros _. rewrite decryptBlock_eq. apply Bit64ToChar8_length. Qed.

Lemma bytes_concat (l : list (list Z)) : Forall bytes l <-> bytes (concat l).
Proof.
  unfold bytes. split; [apply Forall_concat |]. induction l as [|x l IH]; intros H; [constructor |].
  cbn [concat] in H. apply Forall_app in H as [? ?]. constructor; [done | by apply IH].
Qed.

Lemma ecb_inverse f g n l :
  length l = (8 * n)%nat -> bytes l -> (forall b, length b = 8%nat -> length (f b) = 8%nat) ->
  (forall b, bytes b -> length b = 8%nat -> g (f b) = b) -> ecb g n (ecb f n l) = l.
Proof.
  intros Hl Hb Hf Hgf. unfold ecb.
  pose proof (octets_length n l Hl) as Ho.
  assert (n = length (f <$> octets n l)) as En by (unfold octets; by rewrite !length_fmap, length_seq).
  rewrite En at 1. rewrite octets_concat by (by apply fmap_block_length).
  rewrite <- list_fmap_compose. rewrite <- (concat_groups n l Hl) at 2. f_equal. fold (octets n l).
  assert (Forall bytes (octets n l)) as Hob
    by (apply bytes_concat; unfold octets; by rewrite (concat_groups n l Hl)).
  rewrite <- (list_fmap_id (octets n l)) at 2. apply list_fmap_ext. intros i b Hi. unfold compose.
  rewrite Forall_lookup in Ho, Hob. apply Hgf; [by apply (Hob i) | by apply (Ho i)].
Qed.

(** C22: Decrypting what [des_encrypt] wrote gives the message back, for every key
    (the default one included) and every message of [n > 0] blocks of eight bytes
    below 2 GiB.  Both calls return the number of bytes, stay inside the given
    buffers, leave the cells behind the message alone, and encrypt each block of
    eight by itself; a length of zero, a length that is no multiple of eight and a
    NULL pointer give -EINVAL and touch nothing. *)
Theorem des_roundtrip input key n out1 out2 :
  bytes input -> length input = (8 * n)%nat -> (0 < n)%nat -> zlen input < 2 ^ 31 ->
  zlen input <= zlen out1 -> zlen input <= zlen out2 ->
  exists cipher,
    cipher = ecb (fun b => __des_encryptBlock b
                    (DES_MakeSubKeys (Char8ToBit64 (default DEFAULT_DES_KEY key)))) n input /\
    length cipher = length input /\
    des_encrypt (Some input) (zlen input) key (Some out1)
      = Some (zlen input, Some (cipher ++ drop (length input) out1)) /\
    des_decrypt (Some cipher) (zlen input) key (Some out2)
      = Some (zlen input, Some (input ++ drop (length input) out2)) /\
    (forall inp cb out, cb = 0 \/ cb mod 8 <> 0 \/ inp = None \/ out = None ->
       des_encrypt inp cb key out = Some (- EINVAL, out) /\
       des_decrypt inp cb key out = Some (- EINVAL, out)).
Proof.
  intros Hb Hl Hn Hs H1 H2. eexists. split; [reflexivity |]. set (ks := DES_MakeSubKeys _).
  set (cipher := ecb _ n input).
  assert (length cipher = (8 * n)%nat) as Hc by (apply ecb_length; [intros; by apply encryptBlock_length | done]).
  assert (zlen input = zlen cipher) as Ez by (unfold zlen; lia).
  split; [lia |]. split_and!.
  - by apply (des_crypt_ok (fun ks b => __des_encryptBlock b ks) (fun ks b => encryptBlock_length ks b)).
  - rewrite Ez. unfold des_decrypt.
    rewrite (des_crypt_ok _ (fun ks b => decryptBlock_length ks b) cipher key out2 n)
      by first [exact Hc | exact Hn | rewrite <- Ez; assumption].
    do 3 f_equal. fold ks. f_equal; [|by rewrite Hc, <- Hl].
    apply ecb_inverse; [done | done | intros; by apply encryptBlock_length |].
    intros b Hb8 Hl8. apply decrypt_encrypt_block; [|done | done].
    intros i Hi. apply DES_MakeSubKeys_ok; [apply Char8ToBit64_bits | done].
  - intros inp cb out Hbad. split; by apply des_crypt_EINVAL.
Qed.

(** "abcdefghABCDEFGH" under the default key, into a buffer of 20 bytes. *)
Lemma des_roundtrip_witness :
  exists cipher,
    des_encrypt (Some [97; 98; 99; 100; 101; 102; 103; 104; 65; 66; 67; 68; 69; 70; 71; 72]) 16 None
      (Some (replicate 20 7)) = Some (16, Some (cipher ++ [7; 7; 7; 7])) /\
    des_decrypt (Some cipher) 16 None (Some (replicate 16 0))
      = Some (16, Some ([97; 98; 99; 100; 101; 102; 103; 104; 65; 66; 67; 68; 69; 70; 71; 72] ++ [])).
Proof.
  destruct (des_roundtrip [97; 98; 99; 100; 101; 102; 103; 104; 65; 66; 67; 68; 69; 70; 71; 72] None 2
    (replicate 20 7) (replicate 16 0)) as (cipher & _ & _ & He & Hd & _);
    [decided | reflexivity | lia | decided | decided | decided |].
  exists cipher. split; [exact He | exact Hd].
Defined.

(** ** The key: which of its bits count *)
Lemma DES_PC1_agree key key' :
  (forall i, i < 64 -> i mod 8 <> 7 -> key !!! i = key' !!! i)%nat ->
  DES_PC1_Transform key = DES_PC1_Transform key'.
Proof.
  intros Hk. unfold DES_PC1_Transform, transform. apply list_fmap_ext. intros j i Hi.
  assert (Forall (fun i => Z.to_nat (i - 1) < 64 /\ (Z.to_nat (i - 1) mod 8)%nat <> 7%nat)%nat DES_PC_1) as Hall
    by decided.
  rewrite Forall_lookup in Hall. destruct (Hall j i Hi). by apply Hk.
Qed.

Lemma Char8ToBit64_lookup ch i j : (i < 8)%nat -> (j < 8)%nat ->
  Char8ToBit64 ch !!! (8 * i + j)%nat = Z.land (Z.shiftr (s8 (ch !!! i)) (Z.of_nat j)) 1.
Proof.
  intros Hi Hj. do 8 (destruct i as [|i]; [do 8 (destruct j as [|j]; [reflexivity |]); lia |]). lia.
Qed.

Lemma byte_low_bits b b' j : byte b -> byte b' -> b mod 128 = b' mod 128 -> 0 <= j < 7 ->
  Z.land (Z.shiftr (s8 b) j) 1 = Z.land (Z.shiftr (s8 b') j) 1.
Proof.
  intros Hb Hb' E Hj.
  assert (forall b, byte b -> Z.land (Z.shiftr (s8 b) j) 1 = Z.land (Z.shiftr (b mod 128) j) 1) as Hlow.
  { intros c Hc. apply Z.eqb_eq.
    apply (below_spec2 256 7 (fun c j => Z.eqb (Z.land (Z.shiftr (s8 c) j) 1) (Z.land (Z.shiftr (c mod 128) j) 1)));
      [by vm_compute | exact Hc | exact Hj]. }
  rewrite (Hlow b), (Hlow b') by done. by rewrite E.
Qed.

(** DES uses 56 of the 64 key bits.  The bit [des_encrypt] and [des_decrypt]
    ignore is the highest of each key byte: two keys that agree on the low seven bits
    of every byte behave the same on every call.  (The published standard, which
    numbers the bits from the highest, leaves the lowest bit of each byte for parity;
    [ByteToBit] starts at the other end.) *)
Theorem des_key_high_bits_ignored key key' :
  bytes key -> bytes key' -> length key = 8%nat -> length key' = 8%nat ->
  (forall i, (i < 8)%nat -> (key !!! i) mod 128 = (key' !!! i) mod 128) ->
  forall input cb output,
    des_encrypt input cb (Some key) output = des_encrypt input cb (Some key') output /\
    des_decrypt input cb (Some key) output = des_decrypt input cb (Some key') output.
Proof.
  intros Hb Hb' Hl Hl' Hk.
  assert (DES_MakeSubKeys (Char8ToBit64 key) = DES_MakeSubKeys (Char8ToBit64 key')) as E.
  { unfold DES_MakeSubKeys. f_equal. apply DES_PC1_agree. intros i Hi Hi7.
    pose proof (Nat.div_mod_eq i 8) as Ei. pose proof (Nat.mod_upper_bound i 8).
    rewrite Ei, !Char8ToBit64_lookup by lia.
    assert (forall k : list Z, bytes k -> length k = 8%nat -> byte (k !!! (i / 8)%nat)) as Hbyte.
    { intros k Hkb Hkl. unfold bytes in Hkb. rewrite Forall_lookup in Hkb.
      apply (Hkb (i / 8)%nat), list_lookup_lookup_total_lt. lia. }
    apply byte_low_bits; [by apply Hbyte | by apply Hbyte | apply Hk; lia | lia]. }
  intros input cb output. unfold des_encrypt, des_decrypt, des_crypt.
  change (default DEFAULT_DES_KEY (Some key)) with key.
  change (default DEFAULT_DES_KEY (Some key')) with key'. rewrite E. split; reflexivity.
Qed.

(** "3uB#*tTy" and the same with all high bits set. *)
Lemma des_key_high_bits_ignored_witness :
  des_encrypt (Some (replicate 8 65)) 8 (Some DEFAULT_DES_KEY) (Some (replicate 8 0))
  = des_encrypt (Some (replicate 8 65)) 8 (Some (Z.add 128 <$> DEFAULT_DES_KEY)) (Some (replicate 8 0)).
Proof.
  refine (proj1 (des_key_high_bits_ignored DEFAULT_DES_KEY (Z.add 128 <$> DEFAULT_DES_KEY) _ _ _ _ _
                   (Some (replicate 8 65)) 8 (Some (replicate 8 0)))); [decided .. |].
  intros i Hi. do 8 (destruct i as [|i]; [reflexivity |]). lia.
Defined.

(** A published test vector, with the bits of every byte reversed: this DES reads
    its bytes from the low bit. *)
Definition reversed (b : Z) : Z := foldl (fun r i => 2 * r + Z.land (Z.shiftr b i) 1) 0 [0; 1; 2; 3; 4; 5; 6; 7].

Example des_bit_order :
  des_encrypt (Some (reversed <$> [0x01; 0x23; 0x45; 0x67; 0x89; 0xAB; 0xCD; 0xEF])) 8
    (Some (reversed <$> [0x13; 0x34; 0x57; 0x79; 0x9B; 0xBC; 0xDF; 0xF1])) (Some (replicate 8 0))
  = Some (8, Some (reversed <$> [0x85; 0xE8; 0x13; 0x54; 0x0F; 0x0A; 0xB4; 0x05])).
Proof. by vm_compute. Qed.
